(* ===== verification/_CoqProject ===== *)
-Q . S2P
Prelude.v
StateErr.v
PyFloat.v
FloatFacts.v
PyVal.v
PyMath.v
PyRandom.v
Events.v
Config.v
Agents.v
Decision.v
Grading.v
Learning.v
Drift.v
Proposal.v
Governance.v
Gate.v
Challenger.v
Gitops.v
Observe.v
Registry.v
Loop.v
LoopFacts.v
LoopInv.v
Params.v
Policy.v
Filters.v
Positions.v
Broker.v
Store.v
StoreFacts.v
Execution.v
Engine.v
EngineFacts.v
EngineInv.v
EngineSafety.v
Lifecycle.v
Guardian.v
GuardianFacts.v
PyPow.v
Momentum.v
MomentumFacts.v
Scorer.v
ScorerFacts.v
Promotion.v
PromotionFacts.v
Shadow.v
ShadowFacts.v
Backtest.v
BacktestFacts.v
Contender.v
ContenderFacts.v
Tools.v
ToolsFacts.v
FixedFacts.v
Prompts.v
PromptsFacts.v
Applier.v
AdvisoryFacts.v
ApplierFacts.v
Delivery.v
DeliveryFacts.v
AgentGrade.v
AgentGradeFacts.v
GradeAgent.v
GradeAgentFacts.v
