(* ===== verification/Prelude.v ===== *)
(** * Verification of the trading service

    The program is an autonomous paper-trading service.  Four parts carry its logic, and
    all are modelled here.

    The _cognitive loop_ ([src/cognitive/]): agents read a market bar and put signals on
    an append-only event stream; a pure scoring rule turns the aggregated features into
    a decision; a hard risk gate and an order-sizing rule follow; closed trades are
    attributed, graded and learned from.  Learning only produces observations; a proposal
    agent turns them into typed candidate changes, which a paired backtest and a
    challenger judge, and which become a configuration only through a merge.

    The _trading desk_ ([src/api/]): decisions arrive on a stream and the execution
    engine validates, gates, sizes and clamps them, locks the symbol, sends the order to
    the paper broker, records the fill in the in-memory store and announces it.  The risk
    guardian scans the broker's positions, publishes protective closes to the same
    stream, and sets the kill switch the engine obeys.  A strategy registry keeps the
    life cycle of strategy versions and a circuit breaker rolls it back.

    The _learning controls_ ([src/api/services/]): the proposal applier turns proposals into
    changes of the control plane the desk reads, of the tools and the prompts the reasoning
    node sees, of the fleet of challengers and of the strategy registry.

    The _strategy laboratory_ ([src/backtest/], [src/api/services/]): the signal generator
    turns ticks into signals, the strategies decide on the same signal, a backtest replays
    and compares them, shadow challengers trade them on the live ticks without orders and
    propose their promotion, and a regression gate lets a version advance.

    ** Files: foundations

    - [Prelude]: the exception monad [res], list lemmas, tactics.  [StateErr]: the monad
      of code that mutates an object and may raise; the state before the raise is kept.
    - [PyFloat], [FloatFacts]: IEEE-754 doubles as integers counting units of 2^-1074,
      with Python's [+ - * /], comparisons, [min], [max], [round] and [sum], and their
      order and range lemmas.
    - [PyVal]: Python values, insertion-ordered dictionaries, [float()], [int()],
      [str()] and format specifications.
    - [PyPow]: [x ** 0.5] and the square as the interface [CPow].
    - [PyMath]: [math.tanh] as the interface [Libm], [math.fsum], [statistics.fmean] and
      [statistics.pstdev].  [PyRandom]: [random.Random] as an interface, and the Mersenne
      Twister as one instance.

    ** Files: the cognitive loop

    - [Events]: events.py.  [Config]: config.py.  [Agents]: agents.py, aggregation.py.
      [Decision]: decision.py, risk.py, execution.py.  [Grading]: grading.py.
      [Learning]: learning.py, counterfactual.py.  [Drift]: drift.py.  [Proposal]:
      proposal.py.  [Governance]: governance.py.  [Gate]: backtest_gate.py.
      [Challenger]: challenger.py.  [Gitops]: gitops.py.  [Observe]: trace.py,
      health.py.  [Registry]: registry.py.
    - [Loop]: loop.py, every method of the loop object.  [LoopFacts] and [LoopInv]: what
      each method may change and put on the stream, and the invariants of every state
      reached by any calls, the raising ones included.

    ** Files: the trading desk

    - [Params]: services/param_evolution.py, services/param_overrides.py and the tunable
      constants; the class [Constants] is what the rest of the desk reads of them.
    - [Policy]: services/regime_risk.py, services/decision_policy.py.  [Filters]:
      services/risk_filters.py.  [Positions]: services/execution/position_math.py.
    - [Broker]: services/execution/brokers/paper.py.  [Store], [StoreFacts]:
      in_memory_store.py.
    - [Execution]: services/execution/decision_utils.py and the gates and sizing of
      execution_engine.py.  [Engine]: [process] and [_process_in_memory], with
      fill_publisher.py.  [EngineFacts]: every run submits an order or is quiet.
      [EngineInv]: the reachable states, where between decisions operators switch, keys
      expire and other workers lock.  [EngineSafety]: gates, unique fills, the ledger.
    - [Lifecycle]: services/strategy_registry.py, services/circuit_breaker.py.
      [Writes] says which writes of a trip Redis takes.
    - [Guardian], [GuardianFacts]: services/agents/risk_guardian.py over the engine.  [Watch]
      is what one scan meets: prices, clocks, the commands Redis answers
      ([GuardianCommand]), the publications the bus takes, the peaks that expired.

    ** Files: the strategy laboratory

    - [Momentum]: services/signal_generator.py and backtest/strategies.py, which share the
      signal.  [Scorer]: services/agents/trade_scorer.py.  [Promotion]:
      services/replay_harness.py, regression_validator.py, promotion_gate.py over the
      registry of [Lifecycle].
    - [Shadow]: services/shadow_trader.py.  [Backtest]: backtest/engine.py, compare.py,
      challenger.py and the synthetic prices of data.py, over [Momentum] and [Scorer].
    - [Contender]: services/challenger_store.py, agents/challenger_agent.py and
      challenger_spawner.py over [Shadow]; a message is a function of the agent, a spawn
      is a step relation in which requests overlap at the await of the start.
    - [MomentumFacts], [ScorerFacts], [PromotionFacts], [ShadowFacts], [BacktestFacts] and
      [ContenderFacts] hold the theorems of each.

    ** Files: the learning controls

    - [Tools], [ToolsFacts]: services/tool_registry.py: selection, telemetry, persistence and
      the advice to drop a tool.
    - [Prompts], [PromptsFacts]: services/prompt_store.py, as a log of versions whose
      newest entry a refresh replaces; a [Link] says which commands Redis answers.
      [FixedFacts]: a number printed with a fixed number of decimals is read back.
    - [Applier]: services/agents/proposal_applier.py with the approval of
      dashboard/proposals.py, the requests of gitops_publisher.py, the evidence rules of
      proposal_brief.py and the reader of reasoning_agent.py.  [ApplierEnv] holds the
      settings, the clock, identifiers, Redis, the bus and GitHub of one message, and
      [elapse] lets time pass over the control plane, whose keys expire.
    - [AdvisoryFacts]: the advisory line of a promotion.  [ApplierFacts]: what any history of
      proposals can change, composed with [Params], [Lifecycle], [Contender] and [Engine].

    ** Files: the event bus

    - [Delivery], [DeliveryFacts]: the wire format of api/events/bus.py, the dead letters of
      api/events/dlq.py, the consumer of api/events/consumer.py and the memory of closes
      counted of services/agents/base.py.  The consumer is a step relation in which Redis
      answers or fails ([Reply]) at every command, and a crash keeps what Redis holds;
      [Json] is the text of a document.

    ** Files: the grades of the trading agents

    - [AgentGrade], [AgentGradeFacts]: services/agents/scoring.py and grade_analytics.py:
      ranks and their correlation, the weighted score, the letter, anomalies and trends.
    - [GradeAgent], [GradeAgentFacts]: services/agents/grade_agent.py without a database,
      with services/llm_metrics.py, agent_pnl_store.py, replay_harness.py and the memory
      branches of agents/db_helpers.py.  [GradeEnv] holds the settings, clocks, identifiers
      and Redis of one message; a step of the history is a message or what the rest of the
      system does to the objects the agent shares.  A retirement is followed over [Delivery]
      and [Applier] to [Engine].

    ** What the theorems show

    - The desk is bounded and honest: positions stay between zero and the exposure cap in
      every reachable state, an order passes every gate or is not sent, no order is
      filled twice, the store mirrors the broker.
    - Protection works: a breached position is closed once per scan, whatever else is on
      the book, while the bus takes what is published; the filters on entries (macro regime,
      no-trade window, cooling off) make no difference to any sell; a loss past the day's
      limit stops trading once Redis takes the switch; the profit ratchet keeps a peak for
      as long as Redis keeps its record.
    - Parameters and configurations are always inside their bounds, whatever files,
      markets or proposals come, and the evidence for a change has no look-ahead.
    - The stream, the governor's quota, the decision ledger and the trace are exact
      against their reference definitions; the loop's passes terminate and always leave
      their whole trail.
    - The laboratory is consistent and fair: a signal's side, tier and score agree and a
      deeper move scores no less; a symbol is never silent longer than the throttle allows;
      every bar of a backtest is accounted for and the comparison of the shipped strategies
      always ends; shadow round trips alternate and survive a restart; a challenger proposes
      its promotion once, on evidence, and a version that is live passed every gate.
    - Learning cannot overreach: proposals only lower the signal weight, until it expires,
      publish only parameter changes the loader accepts, and make a canary only of a promoted
      strategy; a proposal is applied once, a retirement stops the engine, the tools the
      grade agent proposes to drop are what is switched off; while Redis answers, directives
      are versioned without a gap and a strategy is advised in one line.
    - Delivery settles what it acknowledges: an event crosses the wire field by field,
      a message is acknowledged only when it was processed or is a dead letter, one that
      always fails is a dead letter at its third delivery, a close that arrives on two
      streams is counted once, and a replay clears its dead letter even when the event is
      not published.
    - Grades move capital on evidence only: a score lies between 0 and 1 whatever the
      confidences, a cut, a suspension or a retirement follows low grades on enough fills, a
      retirement halts the engine end to end, and a close credits each tool behind it once;
      an opening fill is counted as a trade that did not win.
    - Where the code misses its intent, a theorem shows the run: see the error group.

    ** Conventions

    A Python object is a record, its methods functions from the old to the new record.
    Code that can raise returns [res] or runs in the monad of [StateErr]; only the
    exception's class is kept.  A call whose arguments exclude an error (a division
    guarded by a test) uses the total operation, and the guard is in the definition.
    Doubles are exact: every operation rounds once to nearest, ties to even, and NaN,
    infinities and the signed zero are values of the type; [sum] adds from left to right,
    as Python 3.11 does.  Strings are ASCII, so case folding and stripping are ASCII's.
    A document written to Redis as JSON is read back as the dictionary written.  The
    handlers of the broker, the engine and the guardian are atomic; what happens between
    them (switches, expiry, locks of other workers) is an event of the reachable states.
    The engine's Redis answers its commands; what the guardian, the breaker, the applier,
    the prompt store, the consumer and the agents meet of Redis and of the bus is in their
    environments, and a failure is handled as the code handles it.  What the signal
    generator publishes is what it hands to the bus.
    Clocks, fresh identifiers, digests, exchange calendars and cached market data are
    arguments.  [tanh] is not defined by Python, so it is an interface with the
    documented range and sign; [libm_ref] shows that the interface can be met.  Likewise
    [x ** 0.5] and [x ** 2] ([CPow], met by [exact_pow]), [random.gauss] and the generator's
    seed ([PyRandom]); the environments [TickEnv] and [AgentEnv] carry the JSON parser, the
    bus, which may raise, the fetched closes, clocks and identifiers of one message.

    Fuel: the shortest decimal of a double is searched up to 18 digits (17 always
    suffice), a nested dictionary is compared to its own depth, and the pruning loop of
    the decision ledger runs at most once per entry; no theorem depends on a larger bound.
    Totality of the backtest is proved for prices between 0.1 and 10^8 and at most 2^30 bars.

    ** Not modelled

    SQL and the code that only runs it (the database paths of the engine and of the agents,
    the safe writer, the metrics aggregator), HTTP, websockets and the user interface,
    prompts and calls of language models and the agents built around them (reasoning,
    reflection), the REST service of GitHub, the groups and the trimming of Redis streams,
    price polling, the statistics of backtest/distribution.py over many comparisons, the
    text of JSON files, logging, telemetry and heartbeats, start and stop of background
    tasks. *)

From stdpp Require Export prelude strings.
From Stdlib Require Export ZArith Lia.

#[global] Open Scope Z_scope.

(** * Exceptions

    Python code that can raise is modelled in the [res] monad.  The exception
    carries its class only; messages of raised exceptions are not modelled. *)
Inductive exn :=
| ZeroDivisionError
| ValueError
| OverflowError
| TypeError
| AttributeError
| KeyError
| IndexError
| StatisticsError
| RuntimeError
| InvalidTransitionError.

#[global] Instance exn_eq_dec : EqDecision exn.
Proof. solve_decision. Defined.

Inductive res (A : Type) :=
| Ok (a : A)
| Raise (e : exn).
Arguments Ok {_} _.
Arguments Raise {_} _.

#[global] Instance res_eq_dec `{EqDecision A} : EqDecision (res A).
Proof. solve_decision. Defined.

Definition res_bind {A B} (m : res A) (f : A -> res B) : res B :=
  match m with
  | Ok a => f a
  | Raise e => Raise e
  end.

Definition res_map {A B} (f : A -> B) (m : res A) : res B :=
  res_bind m (fun a => Ok (f a)).

Declare Scope py_scope.
Delimit Scope py_scope with py.
#[global] Open Scope py_scope.

Notation "'let*' x ':=' m 'in' k" := (res_bind m (fun x => k))
  (at level 10, x pattern, m at level 200, k at level 200,
   format "'[v' 'let*'  x  ':='  m  'in' '/' k ']'") : py_scope.

Definition is_ok {A} (m : res A) : bool :=
  match m with Ok _ => true | Raise _ => false end.

(** [for x in l: acc = f(acc, x)] where the body may raise. *)
Fixpoint res_fold {A B} (f : B -> A -> res B) (l : list A) (acc : B) : res B :=
  match l with
  | [] => Ok acc
  | x :: l' => let* acc' := f acc x in res_fold f l' acc'
  end.

(** A list comprehension whose element expression may raise. *)
Fixpoint res_list {A B} (f : A -> res B) (l : list A) : res (list B) :=
  match l with
  | [] => Ok []
  | x :: l' => let* y := f x in let* ys := res_list f l' in Ok (y :: ys)
  end.

Lemma res_bind_Ok {A B} (m : res A) (f : A -> res B) b :
  res_bind m f = Ok b <-> exists a, m = Ok a /\ f a = Ok b.
Proof. destruct m; simpl; naive_solver. Qed.

Lemma Ok_inj {A} (a b : A) : Ok a = Ok b -> a = b.
Proof. congruence. Qed.

Lemma Ok_pair_inj {A B} (a c : A) (b d : B) : Ok (a, b) = Ok (c, d) -> a = c /\ b = d.
Proof. intros [= -> ->]. done. Qed.

Lemma res_bind_assoc {A B C} (m : res A) (f : A -> res B) (g : B -> res C) :
  res_bind (res_bind m f) g = res_bind m (fun a => res_bind (f a) g).
Proof. by destruct m. Qed.

Lemma res_list_length {A B} (f : A -> res B) l ys :
  res_list f l = Ok ys -> length ys = length l.
Proof.
  revert ys. induction l as [|x l IH]; intros ys; simpl; [naive_solver|].
  intros (y & _ & (ys' & H & [= <-])%res_bind_Ok)%res_bind_Ok.
  simpl. by rewrite (IH _ H).
Qed.

Lemma res_list_Forall {A B} (f : A -> res B) (P : B -> Prop) l ys :
  (forall x y, f x = Ok y -> P y) -> res_list f l = Ok ys -> Forall P ys.
Proof.
  intros HP. revert ys. induction l as [|x l IH]; intros ys; simpl; [naive_solver|].
  intros (y & Hy & (ys' & H & [= <-])%res_bind_Ok)%res_bind_Ok.
  constructor; eauto.
Qed.

(** An invariant of the accumulator is an invariant of the loop. *)
Lemma res_fold_inv {A B} (P : B -> Prop) (f : B -> A -> res B) l acc acc' :
  (forall b x b', P b -> f b x = Ok b' -> P b') ->
  P acc -> res_fold f l acc = Ok acc' -> P acc'.
Proof.
  intros Hf. revert acc. induction l as [|x l IH]; intros acc Hacc; simpl.
  - by intros [= <-].
  - intros (b & Hb & H)%res_bind_Ok. eauto.
Qed.

Lemma fold_left_inv {A B} (P : B -> Prop) (f : B -> A -> B) l acc :
  (forall b x, P b -> P (f b x)) -> P acc -> P (fold_left f l acc).
Proof. intros Hf. revert acc. induction l; simpl; eauto. Qed.

Lemma Forall_if {A} (P : A -> Prop) (b : bool) l : Forall P l -> Forall P (if b then l else []).
Proof. by destruct b. Qed.

(** A computation that succeeds with a value that passes a test. *)
Definition ok_with {A} (P : A -> bool) (m : res A) : bool :=
  match m with Ok a => P a | Raise _ => false end.

Lemma ok_with_inv {A} (P : A -> bool) (m : res A) :
  ok_with P m = true -> exists a, m = Ok a /\ P a = true.
Proof. destruct m as [a|]; [by exists a|done]. Qed.

(** * Tactics *)

(** Split a [let*] chain that is known to succeed. *)
Ltac inv_ok H :=
  repeat match type of H with
  | res_bind _ _ = Ok _ =>
      let a := fresh "v" in let Ha := fresh "Hv" in
      apply res_bind_Ok in H; destruct H as (a & Ha & H)
  end;
  try lazymatch type of H with
  | Ok (_, _) = Ok _ => idtac
  | Ok _ = Ok _ => apply Ok_inj in H
  end.

(** Case analysis on the scrutinee of the first [match]/[if] of the goal. *)
Ltac case_match_goal :=
  match goal with
  | |- context [ match ?x with _ => _ end ] => destruct x eqn:?
  end.

Ltac case_match_hyp H :=
  match type of H with
  | context [ match ?x with _ => _ end ] => destruct x eqn:?; try discriminate
  end.

(** Boolean hypotheses to propositions. *)
Ltac boolify :=
  repeat match goal with
  | H : _ && _ = true |- _ => apply andb_true_iff in H as [? ?]
  | H : _ || _ = false |- _ => apply orb_false_iff in H as [? ?]
  | H : negb _ = true |- _ => apply negb_true_iff in H
  | H : negb _ = false |- _ => apply negb_false_iff in H
  end.

(** Python slices with literal bounds: [l[-n:]], [l[:n]], [l[a:b]]. *)
Definition slice_last {A} (n : Z) (l : list A) : list A :=
  if n =? 0 then l
  else if 0 <? n then drop (length l - Z.to_nat n) l
  else drop (Z.to_nat (- n)) l.

Definition slice {A} (a b : Z) (l : list A) : list A :=
  take (Z.to_nat b - Z.to_nat a) (drop (Z.to_nat a) l).

Definition zlen {A} (l : list A) : Z := Z.of_nat (length l).

Lemma zlen_app {A} (l1 l2 : list A) : zlen (l1 ++ l2) = zlen l1 + zlen l2.
Proof. unfold zlen. rewrite length_app. lia. Qed.

Lemma zlen_tail {A} (l : list A) : l <> [] -> zlen (tail l) = zlen l - 1.
Proof. destruct l; [done|]. unfold zlen. simpl. lia. Qed.

Lemma slice_last_length {A} n (l : list A) :
  0 < n -> (length (slice_last n l) <= Z.to_nat n)%nat.
Proof.
  intros. unfold slice_last.
  destruct (n =? 0) eqn:E; [lia|]. destruct (0 <? n) eqn:E2; [|lia].
  rewrite length_drop. lia.
Qed.

Lemma Forall_slice_last {A} (P : A -> Prop) n l : Forall P l -> Forall P (slice_last n l).
Proof.
  intros. unfold slice_last. repeat case_match_goal; eauto using Forall_drop.
Qed.
