(* ===== verification/StateErr.v ===== *)
(** StateErr: code that mutates an object and may raise.

    A raise keeps the mutations made before it, so the state is returned beside the
    result, not inside it. *)
From S2P Require Import Prelude.

Definition M (S A : Type) : Type := S -> res A * S.

Definition ret {S A} (a : A) : M S A := fun s => (Ok a, s).
Definition raise {S A} (e : exn) : M S A := fun s => (Raise e, s).

Definition bind {S A B} (m : M S A) (f : A -> M S B) : M S B := fun s =>
  match m s with
  | (Ok a, s') => f a s'
  | (Raise e, s') => (Raise e, s')
  end.

(** A computation that reads and writes nothing. *)
Definition lift {S A} (m : res A) : M S A := fun s => (m, s).
Definition gets {S A} (f : S -> A) : M S A := fun s => (Ok (f s), s).
Definition modify {S} (f : S -> S) : M S unit := fun s => (Ok tt, f s).

Notation "'let!' x ':=' m 'in' k" := (bind m (fun x => k))
  (at level 10, x pattern, m at level 200, k at level 200,
   format "'[v' 'let!'  x  ':='  m  'in' '/' k ']'") : py_scope.
Notation "'do!' m 'in' k" := (bind m (fun _ => k))
  (at level 10, m at level 200, k at level 200,
   format "'[v' 'do!'  m  'in' '/' k ']'") : py_scope.

Lemma bind_gets {S A B} (g : S -> A) (f : A -> M S B) s : bind (gets g) f s = f (g s) s.
Proof. reflexivity. Qed.

(** [for x in l: f(x)] *)
Fixpoint for_each {S A} (f : A -> M S unit) (l : list A) : M S unit :=
  match l with
  | [] => ret tt
  | x :: l' => do! f x in for_each f l'
  end.

(** * Relations between the state before and after

    [tracks R m]: every run of [m], raising or not, relates its states by [R]. *)
Section Tracks.
Context {S : Type} (R : S -> S -> Prop) `{!PreOrder R}.

Definition tracks {A} (m : M S A) : Prop := forall s, R s (snd (m s)).

Lemma tracks_ret {A} (a : A) : tracks (ret a).
Proof. intros s. simpl. reflexivity. Qed.

Lemma tracks_raise {A} e : tracks (raise (A := A) e).
Proof. intros s. simpl. reflexivity. Qed.

Lemma tracks_lift {A} (m : res A) : tracks (lift m).
Proof. intros s. simpl. reflexivity. Qed.

Lemma tracks_gets {A} (f : S -> A) : tracks (gets f).
Proof. intros s. simpl. reflexivity. Qed.

Lemma tracks_modify f : (forall s, R s (f s)) -> tracks (modify f).
Proof. intros H s. apply H. Qed.

Lemma tracks_bind {A B} (m : M S A) (f : A -> M S B) :
  tracks m -> (forall a, tracks (f a)) -> tracks (bind m f).
Proof.
  intros Hm Hf s. unfold bind. specialize (Hm s). destruct (m s) as [[a|e] s'] eqn:E.
  - simpl in Hm. etrans; [exact Hm|apply Hf].
  - exact Hm.
Qed.

Lemma tracks_for_each {A} (f : A -> M S unit) l : (forall a, tracks (f a)) -> tracks (for_each f l).
Proof.
  intros Hf. induction l as [|x l IH]; simpl; [apply tracks_ret|].
  apply tracks_bind; auto.
Qed.
End Tracks.

Create HintDb tracks.
#[export] Hint Resolve tracks_ret tracks_raise tracks_lift tracks_gets tracks_bind
  tracks_for_each : tracks.

(** * Successful runs *)
Definition runs {S A} (m : M S A) (s : S) (a : A) (s' : S) : Prop := m s = (Ok a, s').

Lemma runs_bind {S A B} (m : M S A) (f : A -> M S B) s b s'' :
  runs (bind m f) s b s'' <-> exists a s', runs m s a s' /\ runs (f a) s' b s''.
Proof.
  unfold runs, bind. split.
  - destruct (m s) as [[a|e] s'] eqn:E; [|done]. intros H. by exists a, s'.
  - intros (a & s' & -> & H). exact H.
Qed.

Lemma runs_lift {S A} (m : res A) (s : S) a s' : runs (lift m) s a s' <-> m = Ok a /\ s' = s.
Proof. unfold runs, lift. split; [intros [= -> ->]; done|intros [-> ->]; done]. Qed.

Lemma runs_gets {S A} (f : S -> A) s a s' : runs (gets f) s a s' <-> a = f s /\ s' = s.
Proof. unfold runs, gets. split; [intros [= -> ->]; done|intros [-> ->]; done]. Qed.

Lemma runs_modify {S} (f : S -> S) s u s' : runs (modify f) s u s' <-> s' = f s.
Proof. unfold runs, modify. destruct u. split; [intros [= ->]; done|intros ->; done]. Qed.

Lemma runs_ret {S A} (a : A) (s : S) b s' : runs (ret a) s b s' <-> b = a /\ s' = s.
Proof. unfold runs, ret. split; [intros [= -> ->]; done|intros [-> ->]; done]. Qed.
