(* ===== verification/PyFloat.v ===== *)
(** PyFloat: IEEE-754 binary64, the type of Python's [float].

    A finite double is an integer multiple of [2^-1074] (the smallest subnormal),
    so it is represented by that integer: [Fin n] is the number [n * 2^-1074].
    Every operation is the exact rational operation followed by one rounding to
    the nearest representable value, ties to even ([round_q]), which is what
    IEEE-754 prescribes.  Order and equality of doubles become order and
    equality of integers, with the two infinities as the bounds [-+2^2098]. *)
From S2P Require Import Prelude.

(** * Rounding of rationals to integers, ties to even *)
Module Rnd.

(** [a / b] rounded to the nearest integer, ties to even ([b > 0]). *)
Definition rne (a b : Z) : Z :=
  let q := a / b in
  let r := a mod b in
  match 2 * r ?= b with
  | Lt => q
  | Gt => q + 1
  | Eq => if Z.even q then q else q + 1
  end.

Definition is_rne (a b q : Z) : Prop :=
  2 * Z.abs (a - q * b) <= b /\ (2 * Z.abs (a - q * b) = b -> Z.even q = true).

Lemma rne_spec a b : 0 < b -> is_rne a b (rne a b).
Proof.
  intros Hb. unfold is_rne, rne.
  pose proof (Z.mod_pos_bound a b Hb) as Hr.
  assert (a mod b = a - (a / b) * b) as Hm by (rewrite Z.mod_eq; lia).
  destruct (2 * (a mod b) ?= b) eqn:E.
  - apply Z.compare_eq in E.
    destruct (Z.even (a / b)) eqn:Ee; [split; [lia|done]|].
    split; [lia|]. intros _.
    rewrite Z.even_add, Ee. done.
  - change (2 * (a mod b) < b) in E. split; lia.
  - apply Z.compare_gt_iff in E. split; lia.
Qed.

(** The specification determines the result, and it is monotone. *)
Lemma is_rne_mono a b q a' b' q' :
  0 < b -> 0 < b' -> a * b' <= a' * b ->
  is_rne a b q -> is_rne a' b' q' -> q <= q'.
Proof.
  intros Hb Hb' Hle [H1 H2] [H1' H2'].
  destruct (Z_le_gt_dec q q') as [|Hgt]; [done|exfalso].
  assert (2 * a >= (2 * q - 1) * b) as Ha by lia.
  assert (2 * a' <= (2 * q' + 1) * b') as Ha' by lia.
  assert (q = q' + 1) as ->.
  { destruct (Z.eq_dec q (q' + 1)) as [|Hne]; [done|exfalso].
    assert (q >= q' + 2) by lia.
    assert (2 * a * b' >= (2 * q' + 3) * b * b') by nia.
    assert (2 * a' * b <= (2 * q' + 1) * b' * b) by nia. nia. }
  assert (2 * a * b' >= (2 * q' + 1) * b * b') by nia.
  assert (2 * a' * b <= (2 * q' + 1) * b' * b) by nia.
  assert (2 * a = (2 * q' + 1) * b) as E1 by nia.
  assert (2 * a' = (2 * q' + 1) * b') as E2 by nia.
  assert (Z.even (q' + 1) = true) as He by (apply H2; lia).
  assert (Z.even q' = true) as He' by (apply H2'; lia).
  rewrite Z.even_add, He' in He. done.
Qed.

Lemma rne_mono a b a' b' :
  0 < b -> 0 < b' -> a * b' <= a' * b -> rne a b <= rne a' b'.
Proof. intros. eapply (is_rne_mono a b _ a' b'); eauto using rne_spec. Qed.

Lemma rne_unique a b q : 0 < b -> is_rne a b q -> rne a b = q.
Proof.
  intros Hb H. pose proof (rne_spec a b Hb).
  apply Z.le_antisymm; eapply is_rne_mono; eauto; lia.
Qed.

Lemma rne_exact m b : 0 < b -> rne (m * b) b = m.
Proof. intros. apply rne_unique; [done|]. split; [lia|]. intros. lia. Qed.

Lemma rne_opp a b : 0 < b -> rne (- a) b = - rne a b.
Proof.
  intros Hb. destruct (rne_spec a b Hb) as [H1 H2].
  apply rne_unique; [done|].
  split; [lia|]. intros E. rewrite Z.even_opp. apply H2. lia.
Qed.

Lemma rne_scale a b c : 0 < b -> 0 < c -> rne (a * c) (b * c) = rne a b.
Proof.
  intros Hb Hc. apply rne_unique; [nia|].
  destruct (rne_spec a b Hb) as [H1 H2]. split.
  - rewrite (Z.mul_assoc _ b c), <- Z.mul_sub_distr_r, Z.abs_mul, (Z.abs_eq c) by lia. nia.
  - rewrite (Z.mul_assoc _ b c), <- Z.mul_sub_distr_r, Z.abs_mul, (Z.abs_eq c) by lia.
    intros. apply H2. nia.
Qed.

Lemma rne_nonneg a b : 0 < b -> 0 <= a -> 0 <= rne a b.
Proof. intros. rewrite <- (rne_exact 0 1) by lia. apply rne_mono; lia. Qed.

Lemma rne_le a b q : 0 < b -> a <= q * b -> rne a b <= q.
Proof. intros. rewrite <- (rne_exact q 1) by lia. apply rne_mono; lia. Qed.

Lemma rne_ge a b q : 0 < b -> q * b <= a -> q <= rne a b.
Proof. intros. rewrite <- (rne_exact q 1) by lia. apply rne_mono; lia. Qed.

(** * Rounding to 53 significant bits *)

(** The exponent of the last bit kept for a quantity whose integer part is [q]. *)
Definition kexp (q : Z) : Z := Z.max 0 (Z.log2 q - 52).

Definition rnd (a b : Z) : Z :=
  let k := kexp (Z.abs a / b) in rne a (b * 2 ^ k) * 2 ^ k.

(** An integer number of units that fits 53 significant bits. *)
Definition repr (n : Z) : Prop := Z.abs n mod 2 ^ kexp (Z.abs n) = 0.

#[global] Instance repr_dec n : Decision (repr n).
Proof. unfold repr. apply _. Defined.

Lemma kexp_nonneg q : 0 <= kexp q.
Proof. unfold kexp. lia. Qed.

Lemma pow2_pos k : 0 <= k -> 0 < 2 ^ k.
Proof. intros. by apply Z.pow_pos_nonneg. Qed.

Lemma kexp_pow_pos q : 0 < 2 ^ kexp q.
Proof. apply pow2_pos, kexp_nonneg. Qed.

Lemma kexp_mono q q' : q <= q' -> kexp q <= kexp q'.
Proof. intros H. unfold kexp. pose proof (Z.log2_le_mono q q' H). lia. Qed.

(** The quotient lies below [2^(53+k)], and above [2^(52+k)] when bits are dropped. *)
Lemma kexp_upper q : 0 <= q -> q < 2 ^ (53 + kexp q).
Proof.
  intros Hq. destruct (Z.eq_dec q 0) as [->|]; [by vm_compute|].
  destruct (Z.log2_spec q ltac:(lia)) as [_ H].
  eapply Z.lt_le_trans; [exact H|]. apply Z.pow_le_mono_r; unfold kexp; lia.
Qed.

Lemma kexp_lower q : 0 < kexp q -> 2 ^ (52 + kexp q) <= q.
Proof.
  intros Hk. assert (0 < q) as Hq.
  { destruct (Z_le_gt_dec q 0); [|lia]. unfold kexp in Hk.
    rewrite Z.log2_nonpos in Hk by lia. lia. }
  destruct (Z.log2_spec q Hq) as [H _].
  replace (52 + kexp q) with (Z.log2 q); [done|]. unfold kexp in *. lia.
Qed.

Lemma rnd_opp a b : 0 < b -> rnd (- a) b = - rnd a b.
Proof.
  intros Hb. unfold rnd. rewrite Z.abs_opp.
  pose proof (kexp_pow_pos (Z.abs a / b)).
  rewrite rne_opp by nia. lia.
Qed.

Lemma rnd_scale a b c : 0 < b -> 0 < c -> rnd (a * c) (b * c) = rnd a b.
Proof.
  intros Hb Hc. unfold rnd.
  rewrite Z.abs_mul, (Z.abs_eq c), Z.div_mul_cancel_r by lia.
  pose proof (kexp_pow_pos (Z.abs a / b)).
  rewrite <- Z.mul_assoc, (Z.mul_comm c), Z.mul_assoc, rne_scale by nia. done.
Qed.

Lemma rnd_nonneg a b : 0 < b -> 0 <= a -> 0 <= rnd a b.
Proof.
  intros. unfold rnd. pose proof (kexp_pow_pos (Z.abs a / b)).
  pose proof (rne_nonneg a (b * 2 ^ kexp (Z.abs a / b)) ltac:(nia) ltac:(lia)). nia.
Qed.

Lemma rnd_mono_nonneg a b a' b' :
  0 < b -> 0 < b' -> 0 <= a -> 0 <= a' -> a * b' <= a' * b -> rnd a b <= rnd a' b'.
Proof.
  intros Hb Hb' Ha Ha' Hle. unfold rnd. rewrite !Z.abs_eq by done.
  set (q := a / b). set (q' := a' / b').
  assert (q <= q') as Hq.
  { apply Z.div_le_lower_bound; [done|]. subst q.
    pose proof (Z.mul_div_le a b Hb).
    assert ((b' * (a / b)) * b <= a' * b) by nia. nia. }
  assert (0 <= q) by (subst q; by apply Z.div_pos).
  pose proof (kexp_mono _ _ Hq) as Hk.
  pose proof (kexp_pow_pos q) as Hp. pose proof (kexp_pow_pos q') as Hp'.
  destruct (Z.eq_dec (kexp q) (kexp q')) as [E|E].
  - rewrite E. apply Z.mul_le_mono_nonneg_r; [lia|].
    apply rne_mono; nia.
  - assert (kexp q < kexp q') as Hlt by lia.
    pose proof (kexp_nonneg q) as Hk0.
    transitivity (2 ^ 53 * 2 ^ kexp q); [|transitivity (2 ^ 52 * 2 ^ kexp q')].
    + apply Z.mul_le_mono_nonneg_r; [lia|]. apply rne_le; [nia|].
      pose proof (kexp_upper q ltac:(done)) as Hu. rewrite Z.pow_add_r in Hu by lia.
      pose proof (Z.mul_succ_div_gt a b Hb). fold q in H0. nia.
    + rewrite <- !Z.pow_add_r by lia. apply Z.pow_le_mono_r; lia.
    + apply Z.mul_le_mono_nonneg_r; [lia|]. apply rne_ge; [nia|].
      pose proof (kexp_lower q' ltac:(lia)) as Hl. rewrite Z.pow_add_r in Hl by lia.
      pose proof (Z.mul_div_le a' b' Hb'). fold q' in H0. nia.
Qed.

(** Rounding is monotone in the exact rational value. *)
Lemma rnd_mono a b a' b' :
  0 < b -> 0 < b' -> a * b' <= a' * b -> rnd a b <= rnd a' b'.
Proof.
  intros Hb Hb' Hle.
  destruct (Z_le_gt_dec 0 a) as [Ha|Ha].
  - apply rnd_mono_nonneg; try done. nia.
  - destruct (Z_le_gt_dec 0 a') as [Ha'|Ha'].
    + transitivity 0.
      * pose proof (rnd_nonneg (- a) b Hb ltac:(lia)) as H. rewrite rnd_opp in H by done. lia.
      * by apply rnd_nonneg.
    + pose proof (rnd_mono_nonneg (- a') b' (- a) b Hb' Hb ltac:(lia) ltac:(lia) ltac:(lia)) as H.
      rewrite !rnd_opp in H by done. lia.
Qed.

Lemma rnd_0 b : 0 < b -> rnd 0 b = 0.
Proof.
  intros. unfold rnd. pose proof (kexp_pow_pos (Z.abs 0 / b)).
  rewrite <- (Z.mul_0_l (b * 2 ^ kexp (Z.abs 0 / b))) at 1.
  rewrite rne_exact by nia. done.
Qed.

(** A representable value is not changed by rounding. *)
Lemma rnd_exact n b : 0 < b -> repr n -> rnd (n * b) b = n.
Proof.
  intros Hb Hr. unfold repr in Hr. unfold rnd.
  rewrite Z.abs_mul, (Z.abs_eq b), Z.div_mul by lia.
  set (k := kexp (Z.abs n)) in *.
  pose proof (kexp_pow_pos (Z.abs n)) as Hp. fold k in Hp.
  apply Z.mod_divide in Hr; [|lia]. apply (proj1 (Z.divide_abs_r _ _)) in Hr as [m Hm].
  clearbody k. subst n.
  rewrite <- Z.mul_assoc, (Z.mul_comm (2 ^ k)), rne_exact by nia. done.
Qed.

Lemma repr_opp n : repr (- n) <-> repr n.
Proof. unfold repr. by rewrite Z.abs_opp. Qed.

Lemma repr_shift m k : 0 <= k -> Z.abs m <= 2 ^ 53 -> repr (m * 2 ^ k).
Proof.
  intros Hk Hm. unfold repr.
  pose proof (pow2_pos k Hk) as Hp.
  rewrite Z.abs_mul, (Z.abs_eq (2 ^ k)) by lia.
  set (a := Z.abs m) in *.
  destruct (Z.eq_dec a 0) as [->|Hn0]; [done|].
  destruct (Z.eq_dec a (2 ^ 53)) as [->|Hne].
  - rewrite <- Z.pow_add_r by lia. unfold kexp. rewrite Z.log2_pow2 by lia.
    apply Z.mod_divide; [apply Z.pow_nonzero; lia|].
    exists (2 ^ (53 + k - Z.max 0 (53 + k - 52))). rewrite <- Z.pow_add_r by lia. f_equal. lia.
  - assert (Z.log2 a < 53) by (apply Z.log2_lt_pow2; lia).
    assert (kexp (a * 2 ^ k) <= k) as Hle.
    { unfold kexp. rewrite Z.log2_mul_pow2 by lia. lia. }
    pose proof (kexp_nonneg (a * 2 ^ k)).
    apply Z.mod_divide; [apply Z.pow_nonzero; lia|].
    apply Z.divide_mul_r. exists (2 ^ (k - kexp (a * 2 ^ k))).
    rewrite <- Z.pow_add_r by lia. f_equal. lia.
Qed.

(** The result of rounding is representable. *)
Lemma rnd_repr a b : 0 < b -> repr (rnd a b).
Proof.
  intros Hb. unfold rnd. set (q := Z.abs a / b). set (k := kexp q).
  assert (0 <= q) by (apply Z.div_pos; lia).
  pose proof (kexp_pow_pos q) as Hp. fold k in Hp.
  apply repr_shift; [apply kexp_nonneg|].
  pose proof (kexp_upper q ltac:(done)) as Hu. fold k in Hu.
  pose proof (kexp_nonneg q) as Hk. fold k in Hk. rewrite Z.pow_add_r in Hu by lia.
  pose proof (Z.mul_succ_div_gt (Z.abs a) b Hb) as Hd. fold q in Hd.
  assert (Z.abs a <= 2 ^ 53 * (b * 2 ^ k)) by nia.
  apply Z.abs_le. split.
  - apply rne_ge; [nia|]. lia.
  - apply rne_le; [nia|]. lia.
Qed.

(** Bounds by representable constants. *)
Lemma rnd_le a b c : 0 < b -> repr c -> a <= c * b -> rnd a b <= c.
Proof. intros. rewrite <- (rnd_exact c 1) by (done || lia). apply rnd_mono; lia. Qed.

Lemma rnd_ge a b c : 0 < b -> repr c -> c * b <= a -> c <= rnd a b.
Proof. intros. rewrite <- (rnd_exact c 1) by (done || lia). apply rnd_mono; lia. Qed.

End Rnd.

(** * An efficient rounding, equal to [Rnd.rnd] *)
Module Fast.
Import Rnd.

Fixpoint pos_ctz (p : positive) : Z :=
  match p with
  | (p'~0)%positive => Z.succ (pos_ctz p')
  | _ => 0
  end.

Definition ctz (z : Z) : Z :=
  match z with Z0 => 0 | Zpos p | Zneg p => pos_ctz p end.

(** One division, then shifts and a sticky test. *)
Definition core (a b : Z) : Z :=
  let n := Z.abs a in
  let q := n / b in
  let r := n - q * b in
  let k := kexp q in
  let m := Z.shiftr q k in
  let low := q - Z.shiftl m k in
  let c :=
    if k =? 0 then 2 * r ?= b
    else match low ?= Z.shiftl 1 (k - 1) with
         | Eq => if r =? 0 then Eq else Gt
         | c => c
         end in
  let m' := match c with
            | Lt => m
            | Gt => m + 1
            | Eq => if Z.even m then m else m + 1
            end in
  Z.sgn a * Z.shiftl m' k.

(** Common factors of two are removed first. *)
Definition rnd (a b : Z) : Z :=
  if a =? 0 then 0
  else
    let t := Z.min (ctz a) (ctz b) in
    core (Z.shiftr a t) (Z.shiftr b t).

Lemma pos_ctz_spec p : 0 <= pos_ctz p /\ (2 ^ pos_ctz p | Zpos p).
Proof.
  induction p as [p IH|p IH|]; cbn [pos_ctz]; split; try lia; try apply Z.divide_1_l.
  destruct IH as [H0 H]. rewrite Z.pow_succ_r by done.
  rewrite (Pos2Z.inj_xO p). by apply Z.mul_divide_mono_l.
Qed.

Lemma ctz_spec z : 0 <= ctz z /\ (2 ^ ctz z | z).
Proof.
  destruct z as [|p|p]; simpl; [split; [lia|apply Z.divide_0_r]| |].
  - apply pos_ctz_spec.
  - destruct (pos_ctz_spec p). split; [done|].
    change (Z.neg p) with (- Z.pos p). by apply Z.divide_opp_r.
Qed.

Lemma shiftr_factor z t :
  0 <= t <= ctz z -> z = Z.shiftr z t * 2 ^ t.
Proof.
  intros [H0 H]. rewrite Z.shiftr_div_pow2 by done.
  destruct (ctz_spec z) as [_ Hd].
  assert (2 ^ t | z) as [c ->].
  { etransitivity; [|exact Hd]. exists (2 ^ (ctz z - t)).
    rewrite <- Z.pow_add_r by lia. f_equal. lia. }
  rewrite Z.div_mul by (apply Z.pow_nonzero; lia). done.
Qed.

Lemma core_nonneg a b : 0 < b -> 0 <= a -> core a b = Rnd.rnd a b.
Proof.
  intros Hb Ha. unfold core, Rnd.rnd.
  rewrite (Z.abs_eq a) by done.
  set (q := a / b). set (k := kexp q).
  assert (0 <= k) as Hk by apply kexp_nonneg.
  rewrite Z.shiftr_div_pow2, !Z.shiftl_mul_pow2 by done.
  pose proof (pow2_pos k Hk) as Hp.
  set (m := q / 2 ^ k).
  assert (a - q * b = a mod b) as -> by (rewrite Z.mod_eq by lia; subst q; lia).
  pose proof (Z.mod_pos_bound a b Hb) as Hr.
  assert (a = q * b + a mod b) as Ea by (pose proof (Z.div_mod a b); subst q; lia).
  pose proof (Z.mod_pos_bound q (2 ^ k) Hp) as Hl.
  assert (q = m * 2 ^ k + q mod 2 ^ k) as Hq by (pose proof (Z.div_mod q (2 ^ k)); subst m; lia).
  assert (q - m * 2 ^ k = q mod 2 ^ k) as -> by lia.
  assert (a / (b * 2 ^ k) = m) as Em.
  { subst m q. rewrite <- Z.div_div by lia. done. }
  unfold rne. rewrite Em.
  assert (a mod (b * 2 ^ k) = (q mod 2 ^ k) * b + a mod b) as ->.
  { rewrite Z.mod_eq by nia. rewrite Em. nia. }
  assert ((2 * (q mod 2 ^ k * b + a mod b) ?= b * 2 ^ k)
    = (if k =? 0 then 2 * (a mod b) ?= b
       else match q mod 2 ^ k ?= Z.shiftl 1 (k - 1) with
            | Eq => if a mod b =? 0 then Eq else Gt
            | c => c
            end)) as ->.
  { destruct (Z.eqb_spec k 0) as [->|Hk0].
    - rewrite Z.pow_0_r, Z.mod_1_r. f_equal; lia.
    - rewrite Z.shiftl_mul_pow2 by lia.
      assert (2 ^ k = 2 * 2 ^ (k - 1)) as E2.
      { rewrite <- Z.pow_succ_r by lia. f_equal. lia. }
      rewrite E2 at 2. set (h := 2 ^ (k - 1)) in *. rewrite Z.mul_1_l.
      destruct (Z.compare_spec (q mod 2 ^ k) h) as [E|E|E].
      + rewrite E. destruct (Z.eqb_spec (a mod b) 0) as [E0|E0].
        * apply Z.compare_eq_iff. nia.
        * apply Z.compare_gt_iff. nia.
      + apply Z.compare_lt_iff. nia.
      + apply Z.compare_gt_iff. nia. }
  destruct (proj1 (Z.lt_eq_cases 0 a) Ha) as [Hpos| <-].
  - rewrite Z.sgn_pos by done. rewrite Z.mul_1_l. by case_match_goal.
  - subst q m k. rewrite Z.mod_0_l, Z.div_0_l by lia.
    change (kexp 0) with 0. change (0 =? 0) with true. cbv iota.
    rewrite Z.mul_0_r, (proj2 (Z.compare_lt_iff 0 b)) by lia. done.
Qed.

Lemma core_rnd a b : 0 < b -> core a b = Rnd.rnd a b.
Proof.
  intros Hb. destruct (Z_le_gt_dec 0 a) as [Ha|Ha].
  - apply core_nonneg; lia.
  - replace (core a b) with (- core (- a) b).
    + rewrite core_nonneg, rnd_opp by lia. lia.
    + unfold core. rewrite Z.abs_opp, Z.sgn_opp. lia.
Qed.

Lemma rnd_eq a b : 0 < b -> rnd a b = Rnd.rnd a b.
Proof.
  intros Hb. unfold rnd. destruct (Z.eqb_spec a 0) as [->|Hne]; [by rewrite rnd_0|].
  set (t := Z.min (ctz a) (ctz b)).
  destruct (ctz_spec a) as [Ha _]. destruct (ctz_spec b) as [Hb' _].
  assert (a = Z.shiftr a t * 2 ^ t) as Ea by (apply shiftr_factor; lia).
  assert (b = Z.shiftr b t * 2 ^ t) as Eb by (apply shiftr_factor; lia).
  assert (0 < 2 ^ t) by (apply pow2_pos; lia).
  rewrite core_rnd by nia.
  rewrite Ea at 2. rewrite Eb at 2. rewrite rnd_scale by nia. done.
Qed.

(** Rounding a number of [2^-k] fractions to an integer, by shifts. *)
Definition rne_pow2 (a k : Z) : Z :=
  let q := Z.shiftr a k in
  match 2 * (a - Z.shiftl q k) ?= Z.shiftl 1 k with
  | Lt => q
  | Gt => q + 1
  | Eq => if Z.even q then q else q + 1
  end.

Lemma rne_pow2_eq a k : 0 <= k -> rne_pow2 a k = rne a (2 ^ k).
Proof.
  intros Hk. unfold rne_pow2, rne.
  rewrite Z.shiftr_div_pow2, !Z.shiftl_mul_pow2, Z.mul_1_l, Z.mod_eq
    by (done || (pose proof (pow2_pos k Hk); lia)).
  by rewrite (Z.mul_comm (2 ^ k)).
Qed.

End Fast.

(** * Doubles *)
Inductive float :=
| NaN
| Inf (neg : bool)
| NegZero
| Fin (n : Z).

#[global] Instance float_eq_dec : EqDecision float.
Proof. solve_decision. Defined.

(** The number of units in [1.0]. *)
Definition scale : Z := Eval vm_compute in 2 ^ 1074.
(** The magnitude of infinity, in units: [2^1024]. *)
Definition bound : Z := Eval vm_compute in 2 ^ 2098.

Lemma scale_pos : 0 < scale.
Proof. by vm_compute. Qed.
Lemma bound_pos : 0 < bound.
Proof. by vm_compute. Qed.
Lemma scale_spec : scale = 2 ^ 1074.
Proof. by vm_compute. Qed.
Lemma bound_spec : bound = 2 ^ 2098.
Proof. by vm_compute. Qed.
#[global] Opaque scale bound.

(** The double with value [n] units, overflowing to infinity; [neg0] is the sign of a zero. *)
Definition mkfloat (neg0 : bool) (n : Z) : float :=
  if n =? 0 then (if neg0 then NegZero else Fin 0)
  else if bound <=? Z.abs n then Inf (n <? 0)
  else Fin n.

(** The double nearest to [a / b] units ([b > 0]). *)
Definition round_q (neg0 : bool) (a b : Z) : float := mkfloat neg0 (Fast.rnd a b).

Definition units (x : float) : Z := match x with Fin n => n | _ => 0 end.

Definition signbit (x : float) : bool :=
  match x with NaN => false | Inf s => s | NegZero => true | Fin n => n <? 0 end.

Definition is_finite (x : float) : bool :=
  match x with NegZero | Fin _ => true | _ => false end.

Definition is_nan (x : float) : bool := match x with NaN => true | _ => false end.

Definition is_zero (x : float) : bool :=
  match x with NegZero | Fin 0 => true | _ => false end.

(** [bool(x)] *)
Definition ftruthy (x : float) : bool := negb (is_zero x).

(** [float(z)] for an [int] whose magnitude is below [2^1024]. *)
Definition of_Z (z : Z) : float := round_q false (z * scale) 1.

(** The literal [m * 10^-k]. *)
Definition dec (m : Z) (k : Z) : float := round_q (m <? 0) (m * scale) (10 ^ k).

Definition fopp (x : float) : float :=
  match x with
  | NaN => NaN
  | Inf s => Inf (negb s)
  | NegZero => Fin 0
  | Fin n => if n =? 0 then NegZero else Fin (- n)
  end.

Definition fabs (x : float) : float :=
  match x with
  | NaN => NaN
  | Inf _ => Inf false
  | NegZero => Fin 0
  | Fin n => Fin (Z.abs n)
  end.

Definition fadd (x y : float) : float :=
  match x, y with
  | NaN, _ | _, NaN => NaN
  | Inf s, Inf s' => if Bool.eqb s s' then Inf s else NaN
  | Inf s, _ | _, Inf s => Inf s
  | NegZero, NegZero => NegZero
  | _, _ => round_q false (units x + units y) 1
  end.

Definition fsub (x y : float) : float := fadd x (fopp y).

Definition fmul (x y : float) : float :=
  let s := xorb (signbit x) (signbit y) in
  match x, y with
  | NaN, _ | _, NaN => NaN
  | Inf _, Inf _ => Inf s
  | Inf _, _ => if is_zero y then NaN else Inf s
  | _, Inf _ => if is_zero x then NaN else Inf s
  | _, _ => round_q s (units x * units y) scale
  end.

(** Division by a non-zero divisor. *)
Definition fdiv_nz (x y : float) : float :=
  let s := xorb (signbit x) (signbit y) in
  match x, y with
  | NaN, _ | _, NaN => NaN
  | Inf _, Inf _ => NaN
  | Inf _, _ => Inf s
  | _, Inf _ => if s then NegZero else Fin 0
  | _, _ => round_q s (Z.sgn (units y) * units x * scale) (Z.abs (units y))
  end.

(** Python's [x / y]: a zero divisor raises. *)
Definition fdiv (x y : float) : res float :=
  if is_zero y then Raise ZeroDivisionError else Ok (fdiv_nz x y).

(** Python's [a / b] on integers: the exact quotient, rounded once. *)
Definition int_div (a b : Z) : res float :=
  if b =? 0 then Raise ZeroDivisionError
  else match round_q (xorb (a <? 0) (b <? 0)) (Z.sgn b * a * scale) (Z.abs b) with
       | Inf _ => Raise OverflowError
       | x => Ok x
       end.

(** Position on the number line; [None] for NaN. *)
Definition key (x : float) : option Z :=
  match x with
  | NaN => None
  | Inf s => Some (if s then - bound else bound)
  | NegZero => Some 0
  | Fin n => Some n
  end.

Definition fcmp (p : Z -> Z -> bool) (x y : float) : bool :=
  match key x, key y with Some a, Some b => p a b | _, _ => false end.

Definition feqb := fcmp Z.eqb.
Definition fltb := fcmp Z.ltb.
Definition fleb := fcmp Z.leb.

(** [max(a, b)] and [min(a, b)]: the second argument replaces the first only when
    it compares strictly beyond it, which decides the NaN cases. *)
Definition fmax (a b : float) : float := if fltb a b then b else a.
Definition fmin (a b : float) : float := if fltb b a then b else a.

(** [int(x)] *)
Definition trunc (x : float) : res Z :=
  match x with
  | NaN => Raise ValueError
  | Inf _ => Raise OverflowError
  | NegZero => Ok 0
  | Fin n => Ok (Z.quot n scale)
  end.

(** [a] units rounded to an integer. *)
Definition rne_units (a : Z) : Z := Fast.rne_pow2 a 1074.

Lemma rne_units_eq a : rne_units a = Rnd.rne a scale.
Proof. unfold rne_units. by rewrite scale_spec, Fast.rne_pow2_eq. Qed.

(** [round(x, d)] for [d >= 0]: the nearest decimal with [d] digits of the exact
    binary value, ties to even, converted back to the nearest double. *)
Definition py_round (x : float) (d : Z) : float :=
  match x with
  | Fin n => if n =? 0 then x
             else round_q (n <? 0) (rne_units (n * 10 ^ d) * scale) (10 ^ d)
  | _ => x
  end.

(** [sum(l)] of Python 3.11: a left fold from the integer [0]. *)
Definition fsum_left (l : list float) : float := fold_left fadd l (Fin 0).

Declare Scope float_scope.
Delimit Scope float_scope with F.
Bind Scope float_scope with float.

Infix "+" := fadd : float_scope.
Infix "-" := fsub : float_scope.
Infix "*" := fmul : float_scope.
Notation "- x" := (fopp x) : float_scope.
Infix "<=?" := fleb : float_scope.
Infix "<?" := fltb : float_scope.
Infix "=?" := feqb : float_scope.
Notation "x >? y" := (fltb y x) (only parsing) : float_scope.
Notation "x >=? y" := (fleb y x) (only parsing) : float_scope.

(** Decimal literals: [0.34%F] is [dec 34 2]. *)
Variant literal := Lit (m : Z) (k : Z).

Definition literal_of_number (n : Number.number) : option literal :=
  match n with
  | Number.Decimal (Decimal.Decimal i f) =>
      Some (Lit (Z.of_int (Decimal.app_int i f)) (Z.of_nat (Decimal.nb_digits f)))
  | Number.Decimal (Decimal.DecimalExp i f e) =>
      let m := Z.of_int (Decimal.app_int i f) in
      let k := Z.of_nat (Decimal.nb_digits f) - Z.of_int e in
      Some (if k <? 0 then Lit (m * 10 ^ (- k)) 0 else Lit m k)
  | _ => None
  end.

Definition number_of_literal (l : literal) : option Number.number := None.

Number Notation float literal_of_number number_of_literal
  (via literal mapping [dec => Lit]) : float_scope.

Example literal_ex : 0.34%F = dec 34 2.
Proof. reflexivity. Qed.
Example literal_ex2 : (-0.15)%F = dec (-15) 2.
Proof. reflexivity. Qed.
Example literal_ex3 : 1e-9%F = dec 1 9.
Proof. reflexivity. Qed.
