(* ===== verification/FloatFacts.v ===== *)
(** FloatFacts: order, monotonicity and bounds of the operations on doubles. *)
From S2P Require Import Prelude PyFloat.

(** Closed facts about constants are decided by computation. *)
Ltac fconst := vm_compute; reflexivity.

(** Saturation at the infinities: the key of a rounded value. *)
Definition sat (n : Z) : Z := Z.max (- bound) (Z.min bound n).

Lemma sat_mono a b : a <= b -> sat a <= sat b.
Proof. unfold sat. lia. Qed.

Lemma key_mkfloat s n : key (mkfloat s n) = Some (sat n).
Proof.
  pose proof bound_pos. unfold mkfloat, sat.
  destruct (Z.eqb_spec n 0) as [->|].
  - destruct s; simpl; f_equal; lia.
  - destruct (Z.leb_spec bound (Z.abs n)); simpl; f_equal; [|lia].
    destruct (Z.ltb_spec n 0); lia.
Qed.

Lemma key_round_q s a b : 0 < b -> key (round_q s a b) = Some (sat (Rnd.rnd a b)).
Proof. intros. unfold round_q. by rewrite key_mkfloat, Fast.rnd_eq. Qed.

Lemma pow10_pos k : 0 <= k -> 0 < 10 ^ k.
Proof. intros. by apply Z.pow_pos_nonneg. Qed.

(** * Order *)

Lemma fcmp_true p x y :
  fcmp p x y = true <-> exists a b, key x = Some a /\ key y = Some b /\ p a b = true.
Proof.
  unfold fcmp. destruct (key x) as [a|], (key y) as [b|]; split; try done.
  1: by intros H; exists a, b.
  all: intros (a' & b' & Ha & Hb & H); try done.
  by injection Ha as <-; injection Hb as <-.
Qed.

Lemma fleb_key x y :
  fleb x y = true <-> exists a b, key x = Some a /\ key y = Some b /\ a <= b.
Proof. unfold fleb. rewrite fcmp_true. by setoid_rewrite Z.leb_le. Qed.

Lemma fltb_key x y :
  fltb x y = true <-> exists a b, key x = Some a /\ key y = Some b /\ a < b.
Proof. unfold fltb. rewrite fcmp_true. by setoid_rewrite Z.ltb_lt. Qed.

Lemma feqb_key x y :
  feqb x y = true <-> exists a, key x = Some a /\ key y = Some a.
Proof.
  unfold feqb. rewrite fcmp_true. setoid_rewrite Z.eqb_eq. split.
  - intros (a & b & ? & ? & ->). by exists b.
  - intros (a & ? & ?). by exists a, a.
Qed.

Lemma key_nan x : key x = None <-> x = NaN.
Proof. destruct x; simpl; naive_solver. Qed.

Lemma key_some x : x <> NaN -> exists a, key x = Some a.
Proof. destruct x; simpl; naive_solver. Qed.

Lemma is_nan_false x : is_nan x = false <-> x <> NaN.
Proof. destruct x; simpl; naive_solver. Qed.

Lemma fleb_refl x : x <> NaN -> fleb x x = true.
Proof. intros [a H]%key_some. apply fleb_key. by exists a, a. Qed.

#[global] Instance fle_trans : Transitive (fun x y => fleb x y = true).
Proof.
  intros x y z (a & b & ? & ? & ?)%fleb_key (b' & c & ? & ? & ?)%fleb_key.
  simplify_eq/=. apply fleb_key. exists a, c. split_and!; [done..|lia].
Qed.

Lemma fleb_trans x y z : fleb x y = true -> fleb y z = true -> fleb x z = true.
Proof. apply fle_trans. Qed.

Lemma fltb_fleb x y : fltb x y = true -> fleb x y = true.
Proof. intros (a & b & ? & ? & ?)%fltb_key. apply fleb_key. exists a, b. split_and!; [done..|lia]. Qed.

Lemma fltb_irrefl x : fltb x x = false.
Proof. unfold fltb, fcmp. destruct (key x); [apply Z.ltb_irrefl|done]. Qed.

Lemma fltb_fleb_trans x y z : fltb x y = true -> fleb y z = true -> fltb x z = true.
Proof.
  intros (a & b & ? & ? & ?)%fltb_key (b' & c & ? & ? & ?)%fleb_key.
  simplify_eq/=. apply fltb_key. exists a, c. split_and!; [done..|lia].
Qed.

Lemma fleb_fltb_trans x y z : fleb x y = true -> fltb y z = true -> fltb x z = true.
Proof.
  intros (a & b & ? & ? & ?)%fleb_key (b' & c & ? & ? & ?)%fltb_key.
  simplify_eq/=. apply fltb_key. exists a, c. split_and!; [done..|lia].
Qed.

(** On numbers the order is total; a comparison with NaN is always false. *)
Lemma fltb_negb x y : x <> NaN -> y <> NaN -> fltb x y = negb (fleb y x).
Proof.
  intros [a Ha]%key_some [b Hb]%key_some. unfold fltb, fleb, fcmp.
  rewrite Ha, Hb. by rewrite Z.ltb_antisym.
Qed.

Lemma fltb_false x y : x <> NaN -> y <> NaN -> fltb x y = false -> fleb y x = true.
Proof. intros Hx Hy H. rewrite fltb_negb in H by done. by boolify. Qed.

Lemma fleb_false x y : x <> NaN -> y <> NaN -> fleb x y = false -> fltb y x = true.
Proof. intros Hx Hy H. rewrite fltb_negb, H by done. done. Qed.

Lemma fleb_not_nan_l x y : fleb x y = true -> x <> NaN.
Proof. intros H ->. discriminate. Qed.
Lemma fleb_not_nan_r x y : fleb x y = true -> y <> NaN.
Proof. intros H ->. unfold fleb, fcmp in H. by destruct (key x). Qed.

Lemma fltb_not_nan_l x y : fltb x y = true -> x <> NaN.
Proof. intros H%fltb_fleb. by eapply fleb_not_nan_l. Qed.
Lemma fltb_not_nan_r x y : fltb x y = true -> y <> NaN.
Proof. intros H%fltb_fleb. by eapply fleb_not_nan_r. Qed.

Lemma fltb_asym x y : fltb x y = true -> fleb y x = false.
Proof.
  intros H. pose proof (fltb_not_nan_l _ _ H). pose proof (fltb_not_nan_r _ _ H).
  rewrite fltb_negb in H by done. by boolify.
Qed.

(** * Intervals *)

Definition within (lo hi x : float) : Prop := fleb lo x = true /\ fleb x hi = true.

(** A finite constant strictly inside the range. *)
Definition fin_ok (c : float) : bool := is_finite c && (Z.abs (units c) <? bound).

Lemma finite_key x : is_finite x = true -> key x = Some (units x).
Proof. by destruct x. Qed.

Lemma finite_not_nan x : is_finite x = true -> x <> NaN.
Proof. by destruct x. Qed.

Lemma fin_ok_finite c : fin_ok c = true -> is_finite c = true.
Proof. unfold fin_ok. intros. by boolify. Qed.

Lemma fin_ok_bound c : fin_ok c = true -> - bound < units c < bound.
Proof. unfold fin_ok. intros. boolify. apply Z.ltb_lt in H0. lia. Qed.

Lemma within_finite lo hi x :
  fin_ok lo = true -> fin_ok hi = true -> within lo hi x -> is_finite x = true.
Proof.
  intros Hlo Hhi [(a & b & Ha & Hb & ?)%fleb_key (c & d & Hc & Hd & ?)%fleb_key].
  pose proof (fin_ok_bound _ Hlo). pose proof (fin_ok_bound _ Hhi).
  rewrite finite_key in Ha, Hd by (by apply fin_ok_finite).
  destruct x as [|[]| |]; simpl in *; simplify_eq; try done; lia.
Qed.

Lemma within_weaken lo hi lo' hi' x :
  fleb lo' lo = true -> fleb hi hi' = true -> within lo hi x -> within lo' hi' x.
Proof. intros ? ? [? ?]. split; eapply fleb_trans; eauto. Qed.

Lemma within_not_nan lo hi x : within lo hi x -> x <> NaN.
Proof. intros [H _]. by eapply fleb_not_nan_r. Qed.

(** * [max] and [min] *)

Lemma fmax_l a b : a <> NaN -> fleb a (fmax a b) = true.
Proof.
  intros Ha. unfold fmax. destruct (fltb a b) eqn:E; [by apply fltb_fleb|by apply fleb_refl].
Qed.

Lemma fmin_l a b : a <> NaN -> fleb (fmin a b) a = true.
Proof.
  intros Ha. unfold fmin. destruct (fltb b a) eqn:E; [by apply fltb_fleb|by apply fleb_refl].
Qed.

Lemma fmax_r a b : a <> NaN -> b <> NaN -> fleb b (fmax a b) = true.
Proof.
  intros Ha Hb. unfold fmax. destruct (fltb a b) eqn:E; [by apply fleb_refl|].
  by apply fltb_false.
Qed.

Lemma fmin_r a b : a <> NaN -> b <> NaN -> fleb (fmin a b) b = true.
Proof.
  intros Ha Hb. unfold fmin. destruct (fltb b a) eqn:E; [by apply fleb_refl|].
  by apply fltb_false.
Qed.

Lemma fmax_not_nan a b : a <> NaN -> fmax a b <> NaN.
Proof. intros Ha. unfold fmax. destruct (fltb a b) eqn:E; [|done]. by eapply fltb_not_nan_r. Qed.

Lemma fmin_not_nan a b : a <> NaN -> fmin a b <> NaN.
Proof. intros Ha. unfold fmin. destruct (fltb b a) eqn:E; [|done]. by eapply fltb_not_nan_l. Qed.

Lemma fmin_ge c a b : fleb c a = true -> fleb c b = true -> fleb c (fmin a b) = true.
Proof. intros. unfold fmin. by destruct (fltb b a). Qed.

Lemma fmax_le c a b : fleb a c = true -> fleb b c = true -> fleb (fmax a b) c = true.
Proof. intros. unfold fmax. by destruct (fltb a b). Qed.

(** [max(lo, min(hi, x))] lands in the interval for every [x], NaN included. *)
Lemma clamp_within lo hi x : fleb lo hi = true -> within lo hi (fmax lo (fmin hi x)).
Proof.
  intros H. pose proof (fleb_not_nan_l _ _ H). pose proof (fleb_not_nan_r _ _ H).
  split; [by apply fmax_l|]. apply fmax_le; [done|]. by apply fmin_l.
Qed.

Lemma fmin_mono c x y : c <> NaN -> fleb x y = true -> fleb (fmin c x) (fmin c y) = true.
Proof.
  intros Hc H. unfold fmin. destruct (fltb y c) eqn:Ey.
  - by rewrite (fleb_fltb_trans _ _ _ H Ey).
  - destruct (fltb x c) eqn:Ex; [by apply fltb_fleb|by apply fleb_refl].
Qed.

Lemma fmax_mono c x y : c <> NaN -> fleb x y = true -> fleb (fmax c x) (fmax c y) = true.
Proof.
  intros Hc H. unfold fmax. destruct (fltb c x) eqn:Ex.
  - by rewrite (fltb_fleb_trans _ _ _ Ex H).
  - destruct (fltb c y) eqn:Ey; [by apply fltb_fleb|by apply fleb_refl].
Qed.

Lemma clamp_mono lo hi x y :
  fleb lo hi = true -> fleb x y = true ->
  fleb (fmax lo (fmin hi x)) (fmax lo (fmin hi y)) = true.
Proof.
  intros H Hxy. apply fmax_mono, fmin_mono; [by eapply fleb_not_nan_l| |done].
  by eapply fleb_not_nan_r.
Qed.

(** Clamping a value already in the interval compares equal to it. *)
Lemma clamp_id lo hi x : within lo hi x -> feqb (fmax lo (fmin hi x)) x = true.
Proof.
  intros [(a & b & Ha & Hb & ?)%fleb_key (b' & c & Hb' & Hc & ?)%fleb_key].
  simplify_eq. apply feqb_key. exists b. split; [|done].
  unfold fmin. destruct (fltb x hi) eqn:E.
  - unfold fmax. destruct (fltb lo x) eqn:E'; [done|].
    unfold fltb, fcmp in E'. rewrite Ha, Hb in E'. apply Z.ltb_ge in E'.
    rewrite Ha. f_equal. lia.
  - assert (b = c) as ->.
    { unfold fltb, fcmp in E. rewrite Hb, Hc in E. apply Z.ltb_ge in E. lia. }
    unfold fmax. destruct (fltb lo hi) eqn:E'; [done|].
    unfold fltb, fcmp in E'. rewrite Ha, Hc in E'. apply Z.ltb_ge in E'.
    rewrite Ha. f_equal. lia.
Qed.

(** * Arithmetic on finite values *)

Lemma round_q_not_nan s a b : round_q s a b <> NaN.
Proof. unfold round_q, mkfloat. repeat case_match_goal; done. Qed.

Lemma dec_not_nan m k : dec m k <> NaN.
Proof. apply round_q_not_nan. Qed.

Lemma of_Z_not_nan z : of_Z z <> NaN.
Proof. apply round_q_not_nan. Qed.

Lemma key_of_Z z : key (of_Z z) = Some (sat (Rnd.rnd (z * scale) 1)).
Proof. unfold of_Z. by rewrite key_round_q. Qed.

Lemma key_fopp x : key (fopp x) = Z.opp <$> key x.
Proof.
  destruct x as [|[]| |n]; simpl; try (f_equal; lia); try done.
  by destruct (Z.eqb_spec n 0) as [->|].
Qed.

Lemma key_fabs x : key (fabs x) = Z.abs <$> key x.
Proof. pose proof bound_pos. destruct x as [|[]| |n]; simpl; try done; f_equal; lia. Qed.

Lemma fabs_nonneg x : x <> NaN -> fleb (Fin 0) (fabs x) = true.
Proof.
  intros [a Ha]%key_some. apply fleb_key. exists 0, (Z.abs a).
  rewrite key_fabs, Ha. split; [done|]. split; [done|lia].
Qed.

Lemma fopp_finite x : is_finite x = true -> is_finite (fopp x) = true.
Proof. destruct x; simpl; try done. by destruct (n =? 0). Qed.

Lemma units_fopp x : is_finite x = true -> units (fopp x) = - units x.
Proof. destruct x as [| | |n]; simpl; try done. by destruct (Z.eqb_spec n 0) as [->|]. Qed.

Lemma fabs_finite x : is_finite x = true -> is_finite (fabs x) = true.
Proof. by destruct x. Qed.

Lemma fadd_key x y :
  is_finite x = true -> is_finite y = true ->
  key (fadd x y) = Some (sat (Rnd.rnd (units x + units y) 1)).
Proof.
  intros Hx Hy. destruct x, y; simpl in *; try done; try (by apply key_round_q).
Qed.

Lemma fmul_key x y :
  is_finite x = true -> is_finite y = true ->
  key (fmul x y) = Some (sat (Rnd.rnd (units x * units y) scale)).
Proof.
  intros Hx Hy. pose proof scale_pos.
  destruct x, y; simpl in *; try done; by apply key_round_q.
Qed.

Lemma fdiv_nz_key x y :
  is_finite x = true -> is_finite y = true -> units y <> 0 ->
  key (fdiv_nz x y) = Some (sat (Rnd.rnd (Z.sgn (units y) * units x * scale) (Z.abs (units y)))).
Proof.
  intros Hx Hy Hne. destruct x, y; simpl in *; try done; apply key_round_q; lia.
Qed.

Lemma py_round_key x d :
  is_finite x = true -> 0 <= d ->
  key (py_round x d)
  = Some (sat (Rnd.rnd (Rnd.rne (units x * 10 ^ d) scale * scale) (10 ^ d))).
Proof.
  intros Hx Hd. pose proof (pow10_pos d Hd). pose proof scale_pos. pose proof bound_pos.
  assert (0 = sat (Rnd.rnd (Rnd.rne (0 * 10 ^ d) scale * scale) (10 ^ d))) as Hz.
  { replace (0 * 10 ^ d) with (0 * scale) by lia.
    rewrite Rnd.rne_exact, Z.mul_0_l, Rnd.rnd_0 by lia. unfold sat. lia. }
  destruct x as [| | |n]; try done; cbn [py_round units key]; rewrite ?rne_units_eq.
  - by f_equal.
  - destruct (Z.eqb_spec n 0) as [->|]; [by cbn [key]; f_equal|].
    by rewrite key_round_q.
Qed.

Lemma fadd_not_nan x y : is_finite x = true -> is_finite y = true -> fadd x y <> NaN.
Proof. intros Hx Hy E. apply key_nan in E. by rewrite fadd_key in E. Qed.
Lemma fmul_not_nan x y : is_finite x = true -> is_finite y = true -> fmul x y <> NaN.
Proof. intros Hx Hy E. apply key_nan in E. by rewrite fmul_key in E. Qed.
Lemma fsub_not_nan x y : is_finite x = true -> is_finite y = true -> fsub x y <> NaN.
Proof. intros. apply fadd_not_nan; [done|]. by apply fopp_finite. Qed.

Lemma fmul_const_not_nan x c : x <> NaN -> is_finite c = true -> is_zero c = false -> fmul x c <> NaN.
Proof.
  intros Hx Hc Hz. destruct x, c; try done; try apply round_q_not_nan.
  unfold fmul. by rewrite Hz.
Qed.

Lemma py_round_not_nan x d : x <> NaN -> py_round x d <> NaN.
Proof.
  destruct x as [| | |n]; try done. intros _. cbn [py_round].
  destruct (n =? 0); [done|apply round_q_not_nan].
Qed.

(** ** Monotonicity *)

Lemma fleb_units x y :
  is_finite x = true -> is_finite y = true -> (fleb x y = true <-> units x <= units y).
Proof.
  intros Hx Hy. rewrite fleb_key, !finite_key by done. split.
  - by intros (a & b & [= <-] & [= <-] & ?).
  - by exists (units x), (units y).
Qed.

Lemma fltb_units x y :
  is_finite x = true -> is_finite y = true -> (fltb x y = true <-> units x < units y).
Proof.
  intros Hx Hy. rewrite fltb_key, !finite_key by done. split.
  - by intros (a & b & [= <-] & [= <-] & ?).
  - by exists (units x), (units y).
Qed.

Lemma fadd_mono x x' y y' :
  is_finite x = true -> is_finite x' = true -> is_finite y = true -> is_finite y' = true ->
  fleb x x' = true -> fleb y y' = true -> fleb (fadd x y) (fadd x' y') = true.
Proof.
  intros Hx Hx' Hy Hy' H1 H2. apply fleb_units in H1, H2; try done.
  apply fleb_key. do 2 eexists. rewrite !fadd_key by done. do 2 (split; [done|]).
  apply sat_mono, Rnd.rnd_mono; lia.
Qed.

Lemma fopp_mono x y : fleb x y = true -> fleb (fopp y) (fopp x) = true.
Proof.
  intros (a & b & Ha & Hb & ?)%fleb_key. apply fleb_key.
  exists (- b), (- a). rewrite !key_fopp, Ha, Hb. split_and!; try done. lia.
Qed.

Lemma fsub_mono x x' y y' :
  is_finite x = true -> is_finite x' = true -> is_finite y = true -> is_finite y' = true ->
  fleb x x' = true -> fleb y' y = true -> fleb (fsub x y) (fsub x' y') = true.
Proof. intros. apply fadd_mono; eauto using fopp_finite, fopp_mono. Qed.

Lemma units_nonneg x : is_finite x = true -> fleb (Fin 0) x = true -> 0 <= units x.
Proof. intros Hx H. by apply fleb_units in H. Qed.

Lemma fmul_mono_nonneg x x' y y' :
  is_finite x = true -> is_finite x' = true -> is_finite y = true -> is_finite y' = true ->
  fleb (Fin 0) x = true -> fleb (Fin 0) y = true ->
  fleb x x' = true -> fleb y y' = true -> fleb (fmul x y) (fmul x' y') = true.
Proof.
  intros Hx Hx' Hy Hy' H0x H0y H1 H2. apply units_nonneg in H0x, H0y; try done.
  apply fleb_units in H1, H2; try done. pose proof scale_pos.
  apply fleb_key. do 2 eexists. rewrite !fmul_key by done. do 2 (split; [done|]).
  apply sat_mono, Rnd.rnd_mono; [done..|].
  apply Z.mul_le_mono_nonneg_r; [lia|]. by apply Z.mul_le_mono_nonneg.
Qed.

Lemma sat_0 : sat 0 = 0.
Proof. unfold sat. pose proof bound_pos. lia. Qed.

Lemma fmul_nonneg x y :
  is_finite x = true -> is_finite y = true ->
  fleb (Fin 0) x = true -> fleb (Fin 0) y = true -> fleb (Fin 0) (fmul x y) = true.
Proof.
  intros Hx Hy H0x H0y. apply units_nonneg in H0x, H0y; try done. pose proof scale_pos.
  apply fleb_key. do 2 eexists. rewrite fmul_key by done. do 2 (split; [done|]).
  rewrite <- sat_0. apply sat_mono, Rnd.rnd_nonneg; nia.
Qed.

Lemma fdiv_mono_nonneg x x' y y' :
  is_finite x = true -> is_finite x' = true -> is_finite y = true -> is_finite y' = true ->
  fleb (Fin 0) x = true -> fltb (Fin 0) y' = true ->
  fleb x x' = true -> fleb y' y = true -> fleb (fdiv_nz x y) (fdiv_nz x' y') = true.
Proof.
  intros Hx Hx' Hy Hy' H0x H0y H1 H2. apply units_nonneg in H0x; try done.
  apply fltb_units in H0y; try done. cbn [units] in H0y.
  apply fleb_units in H1, H2; try done. pose proof scale_pos.
  apply fleb_key. do 2 eexists. rewrite !fdiv_nz_key by (done || lia). do 2 (split; [done|]).
  apply sat_mono. rewrite !Z.sgn_pos, !Z.abs_eq, !Z.mul_1_l by lia.
  apply Rnd.rnd_mono; try lia.
  assert (units x * units y' <= units x' * units y) by (apply Z.mul_le_mono_nonneg; lia).
  rewrite (Z.mul_shuffle0 _ scale), (Z.mul_shuffle0 _ scale).
  apply Z.mul_le_mono_nonneg_r; lia.
Qed.

Lemma fdiv_nonneg x y :
  is_finite x = true -> is_finite y = true ->
  fleb (Fin 0) x = true -> fltb (Fin 0) y = true -> fleb (Fin 0) (fdiv_nz x y) = true.
Proof.
  intros Hx Hy H0x H0y. apply units_nonneg in H0x; try done.
  apply fltb_units in H0y; try done. cbn [units] in H0y. pose proof scale_pos.
  apply fleb_key. do 2 eexists. rewrite fdiv_nz_key by (done || lia). do 2 (split; [done|]).
  rewrite <- sat_0. apply sat_mono. rewrite Z.sgn_pos, Z.abs_eq by lia.
  apply Rnd.rnd_nonneg; nia.
Qed.

Lemma py_round_mono x y d :
  0 <= d -> is_finite x = true -> is_finite y = true ->
  fleb x y = true -> fleb (py_round x d) (py_round y d) = true.
Proof.
  intros Hd Hx Hy H. apply fleb_units in H; try done.
  pose proof (pow10_pos d Hd). pose proof scale_pos.
  apply fleb_key. do 2 eexists. rewrite !py_round_key by done. do 2 (split; [done|]).
  apply sat_mono, Rnd.rnd_mono; [done..|].
  assert (Rnd.rne (units x * 10 ^ d) scale <= Rnd.rne (units y * 10 ^ d) scale).
  { apply Rnd.rne_mono; [done..|]. do 2 (apply Z.mul_le_mono_nonneg_r; [lia|]). done. }
  do 2 (apply Z.mul_le_mono_nonneg_r; [lia|]). done.
Qed.

(** Rounding stays inside any interval whose ends it fixes. *)
Lemma py_round_within lo hi lo' hi' x d :
  0 <= d -> fin_ok lo = true -> fin_ok hi = true ->
  fleb lo' (py_round lo d) = true -> fleb (py_round hi d) hi' = true ->
  within lo hi x -> within lo' hi' (py_round x d).
Proof.
  intros Hd Hlo Hhi H1 H2 H. pose proof (within_finite _ _ _ Hlo Hhi H) as Hx.
  destruct H as [Ha Hb]. apply fin_ok_finite in Hlo, Hhi.
  split; [eapply fleb_trans; [exact H1|] | eapply fleb_trans; [|exact H2]];
    by apply py_round_mono.
Qed.

Lemma fadd_within a b c d lo hi x y :
  fin_ok a = true -> fin_ok b = true -> fin_ok c = true -> fin_ok d = true ->
  fleb lo (fadd a c) = true -> fleb (fadd b d) hi = true ->
  within a b x -> within c d y -> within lo hi (fadd x y).
Proof.
  intros Ha Hb Hc Hd Hlo Hhi Hx Hy.
  pose proof (within_finite _ _ _ Ha Hb Hx). pose proof (within_finite _ _ _ Hc Hd Hy).
  destruct Hx, Hy. apply fin_ok_finite in Ha, Hb, Hc, Hd.
  split; [eapply fleb_trans; [exact Hlo|] | eapply fleb_trans; [|exact Hhi]];
    by apply fadd_mono.
Qed.

Lemma fsub_within a b c d lo hi x y :
  fin_ok a = true -> fin_ok b = true -> fin_ok c = true -> fin_ok d = true ->
  fleb lo (fsub a d) = true -> fleb (fsub b c) hi = true ->
  within a b x -> within c d y -> within lo hi (fsub x y).
Proof.
  intros Ha Hb Hc Hd Hlo Hhi Hx Hy.
  pose proof (within_finite _ _ _ Ha Hb Hx). pose proof (within_finite _ _ _ Hc Hd Hy).
  destruct Hx, Hy. apply fin_ok_finite in Ha, Hb, Hc, Hd.
  split; [eapply fleb_trans; [exact Hlo|] | eapply fleb_trans; [|exact Hhi]];
    by apply fsub_mono.
Qed.

(** Products of non-negative values. *)
Lemma fmul_within b d hi x y :
  fin_ok b = true -> fin_ok d = true -> fleb (fmul b d) hi = true ->
  within (Fin 0) b x -> within (Fin 0) d y -> within (Fin 0) hi (fmul x y).
Proof.
  intros Hb Hd Hhi Hx Hy.
  pose proof (within_finite (Fin 0) _ _ eq_refl Hb Hx).
  pose proof (within_finite (Fin 0) _ _ eq_refl Hd Hy).
  destruct Hx, Hy. apply fin_ok_finite in Hb, Hd. split; [by apply fmul_nonneg|].
  eapply fleb_trans; [|done]. by apply fmul_mono_nonneg.
Qed.

Lemma fdiv_nz_nan y : fdiv_nz NaN y = NaN.
Proof. by destruct y. Qed.

Lemma fdiv_nz_inf neg y :
  is_finite y = true -> fltb (Fin 0) y = true -> fdiv_nz (Inf neg) y = Inf neg.
Proof.
  intros Hy H0. apply fltb_units in H0; [|done..]. simpl in H0.
  destruct y as [| | |n]; simpl in *; try done.
  assert ((n <? 0) = false) as E by lia.
  unfold fdiv_nz, signbit. rewrite ?E. by destruct neg.
Qed.

Lemma repr_int z : Z.abs z <= 2 ^ 53 -> Rnd.repr (z * scale).
Proof. intros. rewrite scale_spec. by apply Rnd.repr_shift. Qed.

Lemma sat_int z : Z.abs z <= 2 ^ 53 -> sat (z * scale) = z * scale.
Proof.
  intros H. unfold sat. pose proof scale_pos.
  assert (2 ^ 53 * scale <= bound) by (by vm_compute). nia.
Qed.

(** Integers up to [2^53] convert exactly. *)
Lemma of_Z_exact z : Z.abs z <= 2 ^ 53 -> key (of_Z z) = Some (z * scale).
Proof.
  intros. rewrite key_of_Z, <- (Z.mul_1_r (z * scale)), Rnd.rnd_exact, Z.mul_1_r
    by (lia || by apply repr_int).
  by rewrite sat_int.
Qed.

Lemma key_one : key 1.0%F = Some scale.
Proof. fconst. Qed.

(** [a / b] on integers with [0 <= a <= b] and [b > 0] is a number in [0, 1]. *)
Lemma int_div_unit a b :
  0 <= a <= b -> 0 < b -> exists r, int_div a b = Ok r /\ within (Fin 0) 1.0%F r.
Proof.
  intros Ha Hb. unfold int_div. destruct (Z.eqb_spec b 0); [lia|].
  rewrite Z.sgn_pos, Z.abs_eq, Z.mul_1_l by lia. pose proof scale_pos.
  set (r := round_q _ _ _).
  assert (within (Fin 0) 1.0%F r) as Hw.
  { pose proof (key_round_q (xorb (a <? 0) (b <? 0)) (a * scale) b Hb) as Hk. fold r in Hk.
    split; apply fleb_key; do 2 eexists; (split; [done|]).
    - split; [exact Hk|]. rewrite <- sat_0. apply sat_mono, Rnd.rnd_nonneg; nia.
    - split; [exact key_one|]. rewrite <- (Z.mul_1_l scale), <- (sat_int 1) by lia.
      apply sat_mono, Rnd.rnd_le; [done|apply repr_int; lia|].
      rewrite Z.mul_1_l, Z.mul_comm. apply Z.mul_le_mono_nonneg_l; lia. }
  pose proof (within_finite (Fin 0) 1.0%F r eq_refl eq_refl Hw) as Hf.
  exists r. split; [|done]. clearbody r. by destruct r.
Qed.

Lemma fsub_nonneg x y :
  is_finite x = true -> is_finite y = true -> fleb y x = true ->
  fleb (Fin 0) (fsub x y) = true.
Proof.
  intros Hx Hy H. apply fleb_units in H; [|done..]. apply fleb_key.
  unfold fsub. rewrite fadd_key by (done || by apply fopp_finite).
  do 2 eexists. do 2 (split; [done|]). rewrite units_fopp by done.
  rewrite <- sat_0 at 1. apply sat_mono, Rnd.rnd_ge; [done|by apply (repr_int 0)|lia].
Qed.

Lemma py_round_nonneg x d : 0 <= d -> fleb (Fin 0) x = true -> fleb (Fin 0) (py_round x d) = true.
Proof.
  intros Hd H. destruct x as [|neg| |n]; try done.
  apply (py_round_mono (Fin 0) (Fin n) d); done.
Qed.

(** A ratio of non-negative numbers, the smaller over the larger. *)
Lemma fdiv_unit x y :
  is_finite x = true -> is_finite y = true ->
  fleb (Fin 0) x = true -> fleb x y = true -> fltb (Fin 0) y = true ->
  within (Fin 0) 1.0%F (fdiv_nz x y).
Proof.
  intros Hx Hy H0 Hxy Hpos. split; [by apply fdiv_nonneg|].
  apply fleb_units in H0; [|done..]. apply fleb_units in Hxy; [|done..].
  apply fltb_units in Hpos; [|done..]. simpl in H0, Hpos. pose proof scale_pos.
  apply fleb_key. rewrite key_one, fdiv_nz_key by (done || lia).
  do 2 eexists. do 2 (split; [done|]).
  rewrite Z.sgn_pos, Z.abs_eq by lia. rewrite <- (Z.mul_1_l scale) at 2.
  rewrite <- (sat_int 1) by lia. apply sat_mono, Rnd.rnd_le; [lia|by apply repr_int|nia].
Qed.

(** The value is representable: true of every result of an operation. *)
Definition double (x : float) : Prop := Rnd.repr (units x).

Lemma double_round_q s a b : 0 < b -> double (round_q s a b).
Proof.
  intros Hb. unfold double, round_q. rewrite Fast.rnd_eq by done.
  pose proof (Rnd.rnd_repr a b Hb). unfold mkfloat.
  repeat case_match_goal; simpl; try done; by apply (repr_int 0).
Qed.

Lemma double_py_round x d : 0 <= d -> double (py_round x d).
Proof.
  intros Hd. destruct x as [| | |n]; try (by apply (repr_int 0)). unfold py_round.
  destruct (n =? 0) eqn:E; [apply Z.eqb_eq in E as ->; by apply (repr_int 0)|].
  apply double_round_q. by apply pow10_pos.
Qed.

Lemma double_fabs x : double x -> double (fabs x).
Proof.
  unfold double. destruct x; simpl; try done. unfold Rnd.repr. by rewrite Z.abs_idemp.
Qed.

Lemma double_fadd x y : is_finite x = true -> is_finite y = true -> double (fadd x y).
Proof. intros Hx Hy. destruct x, y; try done; by apply double_round_q || by apply (repr_int 0). Qed.

Lemma double_bounded x : double x -> is_finite x = true -> - bound < units x < bound ->
  sat (Rnd.rnd (units x) 1) = units x.
Proof.
  intros Hd Hx Hb. rewrite <- (Z.mul_1_r (units x)) at 1. rewrite Rnd.rnd_exact by done.
  unfold sat. lia.
Qed.

Lemma fadd_ge_l a b :
  double a -> fin_ok a = true -> is_finite b = true -> fleb (Fin 0) b = true ->
  fleb a (fadd a b) = true.
Proof.
  intros Hd Ha Hb H0. pose proof (fin_ok_finite _ Ha) as Fa. pose proof (fin_ok_bound _ Ha).
  apply units_nonneg in H0; [|done]. apply fleb_key. exists (units a).
  eexists. rewrite finite_key, fadd_key by done. do 2 (split; [done|]).
  rewrite <- (double_bounded a) at 1 by done. apply sat_mono, Rnd.rnd_mono; lia.
Qed.

Lemma fadd_ge_r a b :
  double b -> fin_ok b = true -> is_finite a = true -> fleb (Fin 0) a = true ->
  fleb b (fadd a b) = true.
Proof.
  intros Hd Hb Ha H0. pose proof (fin_ok_finite _ Hb) as Fb. pose proof (fin_ok_bound _ Hb).
  apply units_nonneg in H0; [|done]. apply fleb_key. exists (units b).
  eexists. rewrite finite_key, fadd_key by done. do 2 (split; [done|]).
  rewrite <- (double_bounded b) at 1 by done. apply sat_mono, Rnd.rnd_mono; lia.
Qed.

(** A value between two finite constants is finite and below the bound. *)
Lemma within_fin_ok lo hi x :
  fin_ok lo = true -> fin_ok hi = true -> within lo hi x -> fin_ok x = true.
Proof.
  intros Hlo Hhi Hx. pose proof (within_finite _ _ _ Hlo Hhi Hx) as F. destruct Hx as [H1 H2].
  pose proof (fin_ok_bound _ Hlo). pose proof (fin_ok_bound _ Hhi).
  apply fin_ok_finite in Hlo, Hhi. apply fleb_units in H1, H2; try done.
  unfold fin_ok. rewrite F. apply Z.ltb_lt. lia.
Qed.

Lemma is_zero_le x : is_zero x = true -> fleb x (Fin 0) = true.
Proof. destruct x as [| | |n]; try done. by destruct n. Qed.

(** Integer division does not overflow unless the quotient is astronomic. *)
Lemma int_div_small a b :
  0 <= a <= 2 ^ 1000 * b -> 0 < b -> exists r, int_div a b = Ok r /\ fleb (Fin 0) r = true.
Proof.
  intros Ha Hb. unfold int_div. destruct (Z.eqb_spec b 0); [lia|].
  rewrite Z.sgn_pos, Z.abs_eq, Z.mul_1_l by lia. pose proof scale_pos.
  assert (0 <= Rnd.rnd (a * scale) b <= 2 ^ 1000 * scale) as Hr.
  { split; [apply Rnd.rnd_ge; [done|by apply (repr_int 0)|nia]|].
    apply Rnd.rnd_le; [done| |nia].
    replace (2 ^ 1000 * scale) with (1 * 2 ^ 2074) by (rewrite scale_spec; by vm_compute).
    by apply Rnd.repr_shift. }
  assert (2 ^ 1000 * scale < bound) as Hlt by (by vm_compute).
  unfold round_q. rewrite Fast.rnd_eq by done. unfold mkfloat.
  destruct (Z.eqb_spec (Rnd.rnd (a * scale) b) 0); [destruct (xorb _ _); eexists; done|].
  destruct (Z.leb_spec bound (Z.abs (Rnd.rnd (a * scale) b))); [lia|].
  eexists. split; [done|]. apply fleb_key. exists 0. eexists. split; [done|]. split; [done|]. lia.
Qed.

Lemma int_div_ok a b :
  0 <= a < 2 ^ 1000 -> 0 < b -> exists r, int_div a b = Ok r /\ fleb (Fin 0) r = true.
Proof. intros Ha Hb. apply int_div_small; [|done]. nia. Qed.

Lemma fmul_nonneg_const x c :
  fleb (Fin 0) x = true -> is_finite c = true -> fltb (Fin 0) c = true ->
  fleb (Fin 0) (fmul x c) = true.
Proof.
  intros Hx Hc H0. destruct (is_finite x) eqn:Fx.
  - apply fmul_nonneg; [done..|by apply fltb_fleb].
  - destruct x as [|neg| |]; try done. destruct neg; [done|].
    apply fltb_units in H0; [|done..]. destruct c as [| | |n]; try done. simpl in H0.
    assert ((n <? 0) = false) as En by lia. assert (is_zero (Fin n) = false) as Ez by (by destruct n).
    unfold fmul. rewrite Ez. unfold signbit. by rewrite En.
Qed.

Lemma fsub_self_zero x y :
  is_finite x = true -> is_finite y = true -> units x = units y ->
  fsub x y = Fin 0 \/ fsub x y = NegZero.
Proof.
  intros Hx Hy E. unfold fsub. destruct x as [| | |n], y as [| | |m]; try done; simpl in E; subst.
  - by left.
  - by right.
  - by left.
  - left. unfold fopp. destruct (Z.eqb_spec m 0) as [->|]; [done|].
    unfold fadd. simpl units. by rewrite Z.add_opp_diag_r.
Qed.

Lemma fltb_nan_r x : fltb x NaN = false.
Proof. unfold fltb, fcmp. by destruct (key x). Qed.
Lemma fleb_nan_l x : fleb NaN x = false.
Proof. done. Qed.

Lemma fsub_self x : fsub x x = NaN \/ fsub x x = Fin 0 \/ fsub x x = NegZero.
Proof.
  destruct (is_finite x) eqn:Fx; [right; by apply fsub_self_zero|].
  left. destruct x as [|[]| |]; done.
Qed.

(** A quotient bounded on both sides: [|x| <= b], [lo <= y] and [b / lo <= hi]. *)
Lemma fdiv_within_sym nb b lo nhi hi x y :
  fin_ok nb = true -> fin_ok b = true -> fin_ok lo = true -> fin_ok nhi = true -> fin_ok hi = true ->
  bool_decide (units nb = - units b /\ units nhi = - units hi /\ Rnd.repr (units hi) /\
               0 < units lo /\ units b * scale <= units hi * units lo) = true ->
  within nb b x -> fleb lo y = true -> is_finite y = true -> within nhi hi (fdiv_nz x y).
Proof.
  intros Hnb Hb Hlo Hnhi Hhi (En & Eh & Hr & Hpos & Hq)%bool_decide_eq_true Hx Hy Fy.
  pose proof (within_finite _ _ _ Hnb Hb Hx) as Fx. pose proof (fin_ok_bound _ Hhi).
  apply fin_ok_finite in Hnb, Hb, Hlo. pose proof (fin_ok_finite _ Hnhi). pose proof (fin_ok_finite _ Hhi).
  destruct Hx as [X1 X2]. apply fleb_units in X1, X2, Hy; try done. pose proof scale_pos.
  assert (units x * scale <= units hi * units y /\ - (units hi * units y) <= units x * scale) as [U L].
  { assert (units hi * units lo <= units hi * units y) by (apply Z.mul_le_mono_nonneg_l; nia).
    split; nia. }
  assert (sat (units hi) = units hi /\ sat (- units hi) = - units hi) as [S1 S2]
    by (unfold sat; lia).
  split; apply fleb_key; do 2 eexists.
  - rewrite finite_key, fdiv_nz_key by (done || lia). do 2 (split; [done|]).
    rewrite Z.sgn_pos, Z.abs_eq, Z.mul_1_l, Eh, <- S2 by lia.
    apply sat_mono, Rnd.rnd_ge; [lia|by apply Rnd.repr_opp|lia].
  - rewrite (finite_key hi), fdiv_nz_key by (done || lia). do 2 (split; [done|]).
    rewrite Z.sgn_pos, Z.abs_eq, Z.mul_1_l, <- S1 by lia.
    apply sat_mono, Rnd.rnd_le; [lia|done|lia].
Qed.


(** Multiplying by minus one. *)
Lemma fmul_neg_within hi x :
  fin_ok hi = true -> bool_decide (fleb (-0.1)%F (fopp hi) = true /\ Rnd.repr (units hi)) = true ->
  within (Fin 0) hi x -> within (-0.1)%F (Fin 0) (of_Z (-1) * x)%F.
Proof.
  intros Hhi [Hle Hr]%bool_decide_eq_true Hx.
  pose proof (within_finite (Fin 0) hi x eq_refl Hhi Hx) as Fx.
  pose proof (fin_ok_finite _ Hhi) as Fh. pose proof (fin_ok_bound _ Hhi).
  destruct Hx as [H1 H2]. apply (fleb_units (Fin 0) x eq_refl Fx) in H1. apply (fleb_units x hi Fx Fh) in H2.
  pose proof scale_pos.
  assert (is_finite (of_Z (-1)) = true) as Fm by (by vm_compute).
  assert (units (of_Z (-1)) = - scale) as Um by (by vm_compute).
  split.
  - refine (fleb_trans _ _ _ Hle _). clear Hle. apply fleb_key. do 2 eexists.
    rewrite (finite_key (fopp hi)), (fmul_key _ x Fm Fx) by by apply fopp_finite.
    split; [reflexivity|]. split; [reflexivity|].
    rewrite units_fopp, Um by done. replace (- units hi) with (sat (- units hi)) by (unfold sat; lia).
    apply sat_mono, Rnd.rnd_ge; [done|by apply Rnd.repr_opp|]. simpl in H1. nia.
  - clear Hle. apply fleb_key. do 2 eexists. rewrite (fmul_key _ x Fm Fx).
    split; [reflexivity|]. split; [reflexivity|].
    simpl. rewrite <- sat_0, Um. apply sat_mono, Rnd.rnd_le; [done|by apply (repr_int 0)|].
    simpl in H1. nia.
Qed.

Lemma of_Z_mono a b : a <= b -> fleb (of_Z a) (of_Z b) = true.
Proof.
  intros H. apply fleb_key. do 2 eexists. rewrite !key_of_Z. do 2 (split; [done|]).
  pose proof scale_pos. apply sat_mono, Rnd.rnd_mono; nia.
Qed.

Create HintDb float.
#[export] Hint Resolve fin_ok_finite finite_not_nan fleb_refl fltb_fleb fopp_finite fabs_finite
  dec_not_nan of_Z_not_nan : float.

(** From here on the operations are used through their lemmas. *)
#[global] Arguments mkfloat : simpl never.
#[global] Arguments round_q : simpl never.
#[global] Arguments of_Z : simpl never.
#[global] Arguments dec : simpl never.
#[global] Arguments fopp : simpl never.
#[global] Arguments fabs : simpl never.
#[global] Arguments fadd : simpl never.
#[global] Arguments fsub : simpl never.
#[global] Arguments fmul : simpl never.
#[global] Arguments fdiv_nz : simpl never.
#[global] Arguments fdiv : simpl never.
#[global] Arguments int_div : simpl never.
#[global] Arguments feqb : simpl never.
#[global] Arguments fltb : simpl never.
#[global] Arguments fleb : simpl never.
#[global] Arguments fmax : simpl never.
#[global] Arguments fmin : simpl never.
#[global] Arguments py_round : simpl never.

(** * Truncation *)

Lemma trunc_units x : is_finite x = true -> trunc x = Ok (Z.quot (units x) scale).
Proof. by destruct x. Qed.

Lemma trunc_mono x y a b :
  is_finite x = true -> is_finite y = true -> fleb x y = true ->
  trunc x = Ok a -> trunc y = Ok b -> a <= b.
Proof.
  intros Fx Fy H. rewrite !trunc_units by done. intros [= <-] [= <-].
  apply (fleb_units x y Fx Fy) in H. by apply Z.quot_le_mono; [apply scale_pos|].
Qed.

Lemma trunc_of_Z z : Z.abs z <= 2 ^ 53 -> is_finite (of_Z z) = true /\ trunc (of_Z z) = Ok z.
Proof.
  intros Hz. pose proof (of_Z_exact z Hz) as Hk. pose proof scale_pos as Hs.
  assert (is_finite (of_Z z) = true) as Hf.
  { destruct (of_Z z) as [|s| |n] eqn:E; try done. simpl in Hk. injection Hk as Hk.
    assert (Z.abs (z * scale) < bound) by (rewrite Z.abs_mul, (Z.abs_eq scale) by lia;
      assert (2 ^ 53 * scale < bound) by fconst; nia).
    destruct s; pose proof bound_pos; lia. }
  split; [done|]. rewrite trunc_units by done. rewrite finite_key in Hk by done.
  injection Hk as ->. by rewrite Z.quot_mul by lia.
Qed.

(** The rounding error of an integer number of units is at most one part in [2^53]. *)
Lemma rnd_error a : 0 <= a -> 2 ^ 53 * Z.abs (Rnd.rnd a 1 - a) <= a.
Proof.
  intros Ha. unfold Rnd.rnd. rewrite Z.div_1_r, Z.mul_1_l, (Z.abs_eq a) by lia.
  pose proof (Rnd.kexp_pow_pos a) as Hk.
  destruct (Rnd.rne_spec a (2 ^ Rnd.kexp a) Hk) as [He _].
  destruct (Z.eq_dec (Rnd.kexp a) 0) as [E|E].
  - rewrite E in *. rewrite Z.pow_0_r in *.
    assert (Rnd.rne a 1 = a) as Er by (rewrite <-(Z.mul_1_r a) at 1; apply Rnd.rne_exact; lia).
    rewrite Er. lia.
  - pose proof (Rnd.kexp_nonneg a).
    pose proof (Rnd.kexp_lower a ltac:(lia)) as Hl.
    rewrite Z.pow_add_r in Hl by lia. set (p := 2 ^ Rnd.kexp a) in *.
    set (q := Rnd.rne a p) in *. lia.
Qed.
