(* ===== verification/PyVal.v ===== *)
(** PyVal: Python's dynamic values, dictionaries, and text formatting.

    Strings are sequences of ASCII characters.  A [dict] keeps insertion order,
    as Python's does. *)
From S2P Require Import Prelude PyFloat.
From stdpp Require Export pretty.
From Stdlib Require Import Ascii.
#[global] Open Scope Z_scope.

(** * Ordered dictionaries with string keys *)
Definition dict (A : Type) : Type := list (string * A).

Section Dict.
Context {A : Type}.
Implicit Types (d : dict A) (k : string) (v : A).

Fixpoint dget k d : option A :=
  match d with
  | [] => None
  | (k', v) :: d' => if String.eqb k k' then Some v else dget k d'
  end.

(** [d[k] = v]: in place when the key is present, at the end otherwise. *)
Fixpoint dset k v d : dict A :=
  match d with
  | [] => [(k, v)]
  | (k', v') :: d' => if String.eqb k k' then (k', v) :: d' else (k', v') :: dset k v d'
  end.

(** [d.get(k, default)] *)
Definition dget_or k (default : A) d : A :=
  match dget k d with Some v => v | None => default end.

(** [d[k]] *)
Definition dindex k d : res A :=
  match dget k d with Some v => Ok v | None => Raise KeyError end.

Definition dkeys d : list string := map fst d.
Definition dvalues d : list A := map snd d.
Definition dmem k d : bool := match dget k d with Some _ => true | None => false end.

(** [{**d1, **d2}] *)
Definition dmerge (d1 d2 : dict A) : dict A :=
  fold_left (fun d kv => dset (fst kv) (snd kv) d) d2 d1.

Lemma dget_dset_eq k v d : dget k (dset k v d) = Some v.
Proof.
  induction d as [|[k' v'] d IH]; simpl; [by rewrite String.eqb_refl|].
  destruct (String.eqb k k') eqn:E; simpl; by rewrite E.
Qed.

Lemma dget_dset_ne k k' v d : k <> k' -> dget k' (dset k v d) = dget k' d.
Proof.
  intros Hne. induction d as [|[k1 v1] d IH]; simpl.
  - by rewrite (proj2 (String.eqb_neq _ _)) by done.
  - destruct (String.eqb_spec k k1) as [->|]; simpl.
    + by rewrite (proj2 (String.eqb_neq _ _)) by done.
    + by rewrite IH.
Qed.

Lemma dget_or_Some k v0 v d : dget k d = Some v -> dget_or k v0 d = v.
Proof. unfold dget_or. by intros ->. Qed.

Lemma dget_None k d : dget k d = None <-> k ∉ dkeys d.
Proof.
  unfold dkeys. induction d as [|[k' v] d IH]; simpl; [set_solver|].
  destruct (String.eqb_spec k k') as [->|]; [set_solver|].
  rewrite IH. set_solver.
Qed.

Lemma dget_Some_In k v d : dget k d = Some v -> (k, v) ∈ d.
Proof.
  induction d as [|[k' v'] d IH]; simpl; [done|].
  destruct (String.eqb_spec k k') as [->|]; [intros [= ->]; constructor|].
  intros. constructor. auto.
Qed.

Lemma dset_keys k v d :
  dkeys (dset k v d) = if dmem k d then dkeys d else dkeys d ++ [k].
Proof.
  unfold dkeys, dmem. induction d as [|[k' v'] d IH]; simpl; [done|].
  destruct (String.eqb k k'); simpl; [done|].
  rewrite IH. by destruct (dget k d).
Qed.

(** Assignment keeps keys unique. *)
Lemma dset_NoDup k v d : NoDup (dkeys d) -> NoDup (dkeys (dset k v d)).
Proof.
  intros Hnd. rewrite dset_keys. unfold dmem.
  destruct (dget k d) eqn:E; [done|]. apply dget_None in E.
  apply NoDup_app. split_and!; [done| |apply NoDup_singleton].
  intros x Hx ->%list_elem_of_singleton. done.
Qed.
End Dict.

(** * Values *)
Inductive val :=
| VNone
| VBool (b : bool)
| VInt (z : Z)
| VFloat (x : float)
| VStr (s : string)
| VList (l : list val)
| VDict (d : list (string * val)).

(** [bool(v)] *)
Definition truthy (v : val) : bool :=
  match v with
  | VNone => false
  | VBool b => b
  | VInt z => negb (z =? 0)
  | VFloat x => ftruthy x
  | VStr s => negb (String.eqb s "")
  | VList l => match l with [] => false | _ => true end
  | VDict d => match d with [] => false | _ => true end
  end.

Definition is_dict (v : val) : bool := match v with VDict _ => true | _ => false end.

(** * Parsing numbers: [float(s)] and [int(s)] on text *)
Module Parse.

Definition is_space (c : ascii) : bool :=
  let n := nat_of_ascii c in
  ((9 <=? n) && (n <=? 13) || (28 <=? n) && (n <=? 32))%nat.

Fixpoint lstrip (l : list ascii) : list ascii :=
  match l with c :: l' => if is_space c then lstrip l' else l | [] => [] end.

Definition strip (l : list ascii) : list ascii := rev (lstrip (rev (lstrip l))).

Definition digit (c : ascii) : option Z :=
  let n := Z.of_nat (nat_of_ascii c) in
  if (48 <=? n) && (n <=? 57) then Some (n - 48) else None.

(** A run of digits with single underscores between digits: value, count, rest. *)
Fixpoint digits (l : list ascii) (acc cnt : Z) : Z * Z * list ascii :=
  match l with
  | c :: l' =>
      match digit c with
      | Some x => digits l' (acc * 10 + x) (cnt + 1)
      | None =>
          match l' with
          | c' :: l'' =>
              match (if (0 <? cnt) && Ascii.eqb c "_" then digit c' else None) with
              | Some x => digits l'' (acc * 10 + x) (cnt + 1)
              | None => (acc, cnt, l)
              end
          | [] => (acc, cnt, l)
          end
      end
  | [] => (acc, cnt, l)
  end.

Definition lower (c : ascii) : ascii :=
  let n := nat_of_ascii c in
  if ((65 <=? n) && (n <=? 90))%nat then ascii_of_nat (n + 32) else c.

Definition sign (l : list ascii) : bool * list ascii :=
  match l with
  | c :: l' => if Ascii.eqb c "-" then (true, l')
               else if Ascii.eqb c "+" then (false, l') else (false, l)
  | [] => (false, l)
  end.

(** The exponent part: [None] when malformed. *)
Definition exponent (l : list ascii) : option Z :=
  match l with
  | [] => Some 0
  | c :: l' =>
      if Ascii.eqb (lower c) "e" then
        let '(neg, l1) := sign l' in
        let '(e, cnt, rest) := digits l1 0 0 in
        match rest with
        | [] => if 0 <? cnt then Some (if neg then - e else e) else None
        | _ => None
        end
      else None
  end.

(** [(-1)^neg * m * 10^e]; exponents beyond the double range decide the result. *)
Definition scaled (neg : bool) (m e : Z) : float :=
  let m' := if neg then - m else m in
  if m =? 0 then (if neg then NegZero else Fin 0)
  else if 400 <? e then Inf neg
  else if 0 <=? e then round_q neg (m' * 10 ^ e * scale) 1
  else round_q neg (m' * scale) (10 ^ (- e)).

Definition float_body (neg : bool) (l : list ascii) : option float :=
  let word := String.string_of_list_ascii (map lower l) in
  if String.eqb word "nan" then Some NaN
  else if String.eqb word "inf" || String.eqb word "infinity" then Some (Inf neg)
  else
    let '(ip, icnt, rest) := digits l 0 0 in
    match rest with
    | c :: l1 =>
        if Ascii.eqb c "." then
          let '(m, fcnt, rest2) := digits l1 ip 0 in
          if 0 <? icnt + fcnt then (fun e => scaled neg m (e - fcnt)) <$> exponent rest2 else None
        else if 0 <? icnt then (fun e => scaled neg ip e) <$> exponent rest else None
    | [] => if 0 <? icnt then Some (scaled neg ip 0) else None
    end.

Definition float_of_text (s : string) : res float :=
  let '(neg, l) := sign (strip (String.list_ascii_of_string s)) in
  match float_body neg l with Some x => Ok x | None => Raise ValueError end.

Definition int_of_text (s : string) : res Z :=
  let '(neg, l) := sign (strip (String.list_ascii_of_string s)) in
  let '(z, cnt, rest) := digits l 0 0 in
  match rest with
  | [] => if 0 <? cnt then Ok (if neg then - z else z) else Raise ValueError
  | _ => Raise ValueError
  end.

End Parse.

(** [float(v)] *)
Definition py_float (v : val) : res float :=
  match v with
  | VFloat x => Ok x
  | VInt z => match of_Z z with Inf _ => Raise OverflowError | x => Ok x end
  | VBool b => Ok (of_Z (Z.b2z b))
  | VStr s => Parse.float_of_text s
  | _ => Raise TypeError
  end.

(** [int(v)] *)
Definition py_int (v : val) : res Z :=
  match v with
  | VInt z => Ok z
  | VBool b => Ok (Z.b2z b)
  | VFloat x => trunc x
  | VStr s => Parse.int_of_text s
  | _ => Raise TypeError
  end.

(** * Text formatting *)
Module Fmt.

(** [s * n] *)
Fixpoint repeat_str (s : string) (n : nat) : string :=
  match n with O => "" | S n' => s +:+ repeat_str s n' end.

Definition zeros (n : Z) : string := repeat_str "0" (Z.to_nat n).

(** Decimal digits of a natural number, left-padded with zeros to [w]. *)
Definition padded (w : Z) (z : Z) : string :=
  let s := pretty z in zeros (w - Z.of_nat (String.length s)) +:+ s.

Fixpoint join (sep : string) (l : list string) : string :=
  match l with
  | [] => ""
  | [s] => s
  | s :: l' => s +:+ sep +:+ join sep l'
  end.

(** Is [a] units at least [10^k]? *)
Definition ge_pow10 (a k : Z) : bool :=
  if 0 <=? k then scale * 10 ^ k <=? a else scale <=? a * 10 ^ (- k).

(** The decimal point position: the [e] with [10^(e-1) <= a < 10^e]. *)
Definition decpt (a : Z) : Z :=
  let est := (Z.log2 a - 1074) * 30103 / 100000 in
  if ge_pow10 a (est + 1) then est + 2
  else if ge_pow10 a est then est + 1
  else if ge_pow10 a (est - 1) then est else est - 1.

(** [d * 10^k] as a double, in units. *)
Definition from_decimal (d k : Z) : Z :=
  if 0 <=? k then Fast.rnd (d * 10 ^ k * scale) 1 else Fast.rnd (d * scale) (10 ^ (- k)).

(** The [p]-digit decimal closest to [a] among those that read back as [a]. *)
Definition try_digits (a e p : Z) : option Z :=
  let k := e - p in
  let num := if 0 <=? k then a else a * 10 ^ (- k) in
  let den := if 0 <=? k then scale * 10 ^ k else scale in
  let d := num / den in
  let r := num mod den in
  let lo := from_decimal d k =? a in
  let hi := from_decimal (d + 1) k =? a in
  if lo && hi then
    Some (match 2 * r ?= den with
          | Lt => d | Gt => d + 1 | Eq => if Z.even d then d else d + 1 end)
  else if lo then Some d else if hi then Some (d + 1) else None.

Fixpoint shortest (a e p : Z) (fuel : nat) : Z * Z :=
  match fuel with
  | O => (0, 0)
  | S fuel' =>
      match try_digits a e p with
      | Some d => (d, e - p)
      | None => shortest a e (p + 1) fuel'
      end
  end.

Fixpoint strip_zeros (fuel : nat) (d k : Z) : Z * Z :=
  match fuel with
  | O => (d, k)
  | S fuel' => if d mod 10 =? 0 then strip_zeros fuel' (d / 10) (k + 1) else (d, k)
  end.

(** [repr] of a positive finite double of [a] units: the shortest decimal that
    reads back (17 digits always do). *)
Definition repr_pos (a : Z) : string :=
  let e := decpt a in
  let '(d0, k0) := shortest a e 1 18 in
  let '(d, k) := strip_zeros 20 d0 k0 in
  let ds := pretty d in
  let len := Z.of_nat (String.length ds) in
  let dp := len + k in
  if (-4 <? dp) && (dp <=? 16) then
    if dp <=? 0 then "0." +:+ zeros (- dp) +:+ ds
    else if len <=? dp then ds +:+ zeros (dp - len) +:+ ".0"
    else String.substring 0 (Z.to_nat dp) ds +:+ "."
         +:+ String.substring (Z.to_nat dp) (Z.to_nat (len - dp)) ds
  else
    let x := dp - 1 in
    String.substring 0 1 ds
    +:+ (if len =? 1 then "" else "." +:+ String.substring 1 (Z.to_nat (len - 1)) ds)
    +:+ "e" +:+ (if x <? 0 then "-" else "+") +:+ padded 2 (Z.abs x).

Definition repr_abs (x : float) : string :=
  match x with
  | NaN => "nan"
  | Inf _ => "inf"
  | NegZero => "0.0"
  | Fin n => if n =? 0 then "0.0" else repr_pos (Z.abs n)
  end.

(** [repr(x)] of a float. *)
Definition repr_float (x : float) : string :=
  (if signbit x then "-" else "") +:+ repr_abs x.

(** [f"{x:+}"] *)
Definition fmt_plus (x : float) : string :=
  (if signbit x then "-" else "+") +:+ repr_abs x.

Definition fixed_abs (d : Z) (x : float) : string :=
  match x with
  | NaN => "nan"
  | Inf _ => "inf"
  | _ =>
      let m := rne_units (Z.abs (units x) * 10 ^ d) in
      pretty (m / 10 ^ d) +:+ (if d =? 0 then "" else "." +:+ padded d (m mod 10 ^ d))
  end.

(** [f"{x:.df}"] and [f"{x:+.df}"] *)
Definition fixed (d : Z) (x : float) : string :=
  (if signbit x then "-" else "") +:+ fixed_abs d x.
Definition fixed_plus (d : Z) (x : float) : string :=
  (if signbit x then "-" else "+") +:+ fixed_abs d x.

Definition hex_digit (n : nat) : string :=
  String.substring n 1 "0123456789abcdef".

Definition escape (quote c : ascii) : string :=
  let n := nat_of_ascii c in
  if Ascii.eqb c "\" then "\\"
  else if Ascii.eqb c quote then String "\" (String c "")
  else if (n =? 9)%nat then "\t"
  else if (n =? 10)%nat then "\n"
  else if (n =? 13)%nat then "\r"
  else if ((n <? 32) || (126 <? n))%nat then
    "\x" +:+ hex_digit (n / 16) +:+ hex_digit (n mod 16)
  else String c "".

Definition single_quote : ascii := ascii_of_nat 39.
Definition double_quote : ascii := ascii_of_nat 34.

(** [repr] of text: single quotes unless the text has one and no double quote. *)
Definition repr_str (s : string) : string :=
  let l := String.list_ascii_of_string s in
  let q := if existsb (Ascii.eqb single_quote) l && negb (existsb (Ascii.eqb double_quote) l)
           then double_quote else single_quote in
  String q (fold_right (fun c acc => escape q c +:+ acc) (String q "") l).

Fixpoint repr (v : val) : string :=
  match v with
  | VNone => "None"
  | VBool b => if b then "True" else "False"
  | VInt z => pretty z
  | VFloat x => repr_float x
  | VStr s => repr_str s
  | VList l => "[" +:+ join ", " (map repr l) +:+ "]"
  | VDict d =>
      "{" +:+ join ", " (map (fun kv => repr_str (fst kv) +:+ ": " +:+ repr (snd kv)) d) +:+ "}"
  end.

(** [str(v)] *)
Definition str (v : val) : string := match v with VStr s => s | _ => repr v end.

End Fmt.

(** * Equality [==] of values

    Booleans, integers and floats compare by numeric value; dictionaries ignore
    order. *)
Definition num_units (v : val) : option (option Z) :=
  match v with
  | VBool b => Some (Some (Z.b2z b * scale))
  | VInt z => Some (Some (z * scale))
  | VFloat NaN => Some None
  | VFloat x => Some (match x with Inf _ => None | _ => Some (units x) end)
  | _ => None
  end.

Fixpoint val_eqb (v w : val) {struct v} : bool :=
  match v, w with
  | VNone, VNone => true
  | VStr a, VStr b => String.eqb a b
  | VList l, VList m =>
      (fix go (l m : list val) : bool :=
         match l, m with
         | [], [] => true
         | x :: l', y :: m' => val_eqb x y && go l' m'
         | _, _ => false
         end) l m
  | VDict d, VDict e =>
      (length d =? length e)%nat &&
      (fix go (d : list (string * val)) : bool :=
         match d with
         | [] => true
         | (k, x) :: d' =>
             match dget k e with Some y => val_eqb x y && go d' | None => false end
         end) d
  | VFloat (Inf s), VFloat (Inf s') => Bool.eqb s s'
  | _, _ =>
      match num_units v, num_units w with
      | Some (Some a), Some (Some b) => a =? b
      | _, _ => false
      end
  end.

(** A payload: the [dict[str, Any]] carried by events. *)
Abbreviation payload := (dict val).

Definition vopt {A} (f : A -> val) (o : option A) : val :=
  match o with Some a => f a | None => VNone end.
