(* ===== verification/PyMath.v ===== *)
(** PyMath: the parts of [math] and [statistics] the program calls.

    [fsum], [fmean] and [pstdev] follow CPython 3.11: exact sums, one rounding.
    [tanh] is the platform's C function: the class [Libm] states the documented
    range and sign of it, and [libm_ref] is one implementation that has them. *)
From S2P Require Import Prelude PyFloat FloatFacts.

(** * The C mathematical library *)
Class Libm := {
  tanh : float -> float;
  tanh_nan : tanh NaN = NaN;
  tanh_within x : x <> NaN -> within (-1.0)%F 1.0%F (tanh x);
  tanh_nonneg x : fleb (Fin 0) x = true -> fleb (Fin 0) (tanh x) = true;
  tanh_nonpos x : fleb x (Fin 0) = true -> fleb (tanh x) (Fin 0) = true;
}.

(** [math.copysign(x, y)] for finite [x]. *)
Definition copysign (x y : float) : float :=
  if signbit y then fopp (fabs x) else fabs x.

(** * [math.fsum] *)

(** The running exact sum rounds to a finite double at every step. *)
Fixpoint sums_finite (acc : Z) (l : list Z) : bool :=
  match l with
  | [] => true
  | n :: l' => (Z.abs (Fast.rnd (acc + n) 1) <? bound) && sums_finite (acc + n) l'
  end.

Definition sum_units (l : list float) : Z := fold_left (fun acc x => acc + units x) l 0.

Definition is_inf (s : bool) (x : float) : bool :=
  match x with Inf s' => Bool.eqb s s' | _ => false end.

Definition fsum (l : list float) : res float :=
  if negb (sums_finite 0 (map units l)) then Raise OverflowError
  else if existsb (is_inf false) l && existsb (is_inf true) l then Raise ValueError
  else if existsb is_nan l then Ok NaN
  else if existsb (is_inf false) l then Ok (Inf false)
  else if existsb (is_inf true) l then Ok (Inf true)
  else Ok (round_q false (sum_units l) 1).

(** * [statistics] *)

(** [statistics.fmean] *)
Definition fmean (l : list float) : res float :=
  let* total := fsum l in
  match l with
  | [] => Raise StatisticsError
  | _ => fdiv total (of_Z (zlen l))
  end.

Definition bit_length (n : Z) : Z := if n =? 0 then 0 else Z.log2 n + 1.

(** [statistics._integer_sqrt_of_frac_rto] *)
Definition integer_sqrt_of_frac_rto (n m : Z) : Z :=
  let a := Z.sqrt (n / m) in
  Z.lor a (if a * a * m =? n then 0 else 1).

(** [statistics._float_sqrt_of_frac] *)
Definition float_sqrt_of_frac (n m : Z) : res float :=
  let q := (bit_length n - bit_length m - 109) / 2 in
  if 0 <=? q then
    int_div (Z.shiftl (integer_sqrt_of_frac_rto n (Z.shiftl m (2 * q))) q) 1
  else
    int_div (integer_sqrt_of_frac_rto (Z.shiftl n (- 2 * q)) m) (Z.shiftl 1 (- q)).

(** [statistics.pstdev]: the exact variance, then one square root. *)
Definition pstdev (l : list float) : res float :=
  match l with
  | [] => Raise StatisticsError
  | _ =>
      if forallb is_finite l then
        let n := zlen l in
        let sx := sum_units l in
        let sxx := fold_left (fun acc x => acc + units x * units x) l 0 in
        let num := n * sxx - sx * sx in
        let den := n * n * (scale * scale) in
        let t := Z.min (Fast.ctz num) (Fast.ctz den) in
        float_sqrt_of_frac (Z.shiftr num t) (Z.shiftr den t)
      else Raise AttributeError
  end.

(** * Facts *)

Lemma int_div_nonneg a b r :
  0 <= a -> 0 < b -> int_div a b = Ok r -> fleb (Fin 0) r = true /\ is_finite r = true.
Proof.
  intros Ha Hb. unfold int_div. destruct (Z.eqb_spec b 0); [lia|].
  rewrite Z.sgn_pos, Z.abs_eq, Z.mul_1_l by lia. pose proof scale_pos.
  set (r0 := round_q _ _ _).
  assert (fleb (Fin 0) r0 = true) as Hr0.
  { apply fleb_key. do 2 eexists. split; [done|]. split; [by apply key_round_q|].
    rewrite <- sat_0. apply sat_mono, Rnd.rnd_nonneg; nia. }
  destruct r0; try done; by intros [= <-].
Qed.

Lemma int_div_nonneg_l a b r :
  0 <= a -> 0 < b -> int_div a b = Ok r -> fleb (Fin 0) r = true.
Proof. intros. by eapply int_div_nonneg. Qed.

Lemma lor_nonneg_1 a b : 0 <= a -> 0 <= b -> 0 <= Z.lor a b.
Proof. intros. by apply Z.lor_nonneg. Qed.

Lemma isqrt_rto_nonneg n m : 0 <= integer_sqrt_of_frac_rto n m.
Proof.
  unfold integer_sqrt_of_frac_rto. apply lor_nonneg_1; [apply Z.sqrt_nonneg|].
  by case_match_goal.
Qed.

Lemma float_sqrt_nonneg n m r :
  float_sqrt_of_frac n m = Ok r -> fleb (Fin 0) r = true /\ is_finite r = true.
Proof.
  unfold float_sqrt_of_frac. set (q := _ / 2).
  destruct (Z.leb_spec 0 q); apply int_div_nonneg; try lia.
  - rewrite Z.shiftl_mul_pow2 by done.
    apply Z.mul_nonneg_nonneg; [apply isqrt_rto_nonneg|]. by apply Z.pow_nonneg.
  - apply isqrt_rto_nonneg.
  - rewrite Z.shiftl_mul_pow2, Z.mul_1_l by lia. apply Z.pow_pos_nonneg; lia.
Qed.

(** A standard deviation is a finite non-negative number. *)
Lemma pstdev_nonneg l r : pstdev l = Ok r -> fleb (Fin 0) r = true /\ is_finite r = true.
Proof.
  destruct l; [done|]. unfold pstdev. case_match_goal; [|done]. apply float_sqrt_nonneg.
Qed.

Lemma sums_finite_last acc l :
  Z.abs (Rnd.rnd acc 1) < bound -> sums_finite acc (map units l) = true ->
  Z.abs (Rnd.rnd (fold_left (fun a x => a + units x) l acc) 1) < bound.
Proof.
  revert acc. induction l as [|x l IH]; intros acc Ha; simpl; [done|].
  intros [H1 H2]%andb_true_iff. apply IH; [|done].
  rewrite <- Fast.rnd_eq by lia. by apply Z.ltb_lt.
Qed.

Lemma mkfloat_finite s n : Z.abs n < bound -> is_finite (mkfloat s n) = true.
Proof.
  intros H. unfold mkfloat. destruct (n =? 0); [by destruct s|].
  by rewrite (proj2 (Z.leb_gt _ _)).
Qed.

Lemma existsb_finite (P : float -> bool) l :
  (forall x, is_finite x = true -> P x = false) -> forallb is_finite l = true ->
  existsb P l = false.
Proof.
  intros HP. induction l as [|x l IH]; [done|]. simpl. intros [Hx Hl]%andb_true_iff.
  by rewrite HP, IH.
Qed.

(** A sum of finite values is finite, or raises. *)
Lemma fsum_finite l r : forallb is_finite l = true -> fsum l = Ok r -> is_finite r = true.
Proof.
  intros Hl. unfold fsum. rewrite !existsb_finite by (done || by intros []).
  simpl. destruct (sums_finite 0 (map units l)) eqn:Es; simpl; intros [= <-].
  unfold round_q. apply mkfloat_finite. rewrite Fast.rnd_eq by lia.
  apply sums_finite_last; [|done]. by vm_compute.
Qed.

Lemma fdiv_nz_not_nan x y : is_finite x = true \/ is_finite y = true ->
  x <> NaN -> y <> NaN -> fdiv_nz x y <> NaN.
Proof.
  intros H Hx Hy. destruct x, y; try done; try (by destruct H); unfold fdiv_nz;
    try apply round_q_not_nan; by case_match_goal.
Qed.

Lemma fmean_not_nan l r : forallb is_finite l = true -> fmean l = Ok r -> r <> NaN.
Proof.
  intros Hl H. unfold fmean in H. inv_ok H.
  pose proof (fsum_finite _ _ Hl Hv) as Ht. destruct l as [|x l]; [done|].
  unfold fdiv in H. case_match_hyp H. injection H as <-.
  apply fdiv_nz_not_nan; [by left|by apply finite_not_nan|apply of_Z_not_nan].
Qed.

Lemma pstdev_finite l r : pstdev l = Ok r -> forallb is_finite l = true.
Proof. destruct l; [done|]. unfold pstdev. by case_match_goal. Qed.

Lemma copysign_not_nan x y : is_finite x = true -> copysign x y <> NaN.
Proof. intros. unfold copysign. case_match_goal; eauto with float. Qed.

(** The means of moderate samples exist. *)
Definition sample_ok (x : float) : Prop := within (-1e12)%F 1e12%F x.

Lemma sample_units x : sample_ok x -> is_finite x = true /\ Z.abs (units x) <= 10 ^ 12 * scale.
Proof.
  intros Hx. assert (is_finite x = true) as Fx by (revert Hx; apply within_finite; fconst).
  split; [done|]. destruct Hx as [H1 H2].
  assert (is_finite (-1e12)%F = true) as Fl by fconst.
  assert (is_finite 1e12%F = true) as Fh by fconst.
  assert (units (-1e12)%F = - (10 ^ 12 * scale)) as El by fconst.
  assert (units 1e12%F = 10 ^ 12 * scale) as Eh by fconst.
  apply (fleb_units _ _ Fl Fx) in H1. apply (fleb_units _ _ Fx Fh) in H2.
  rewrite El in H1. rewrite Eh in H2. lia.
Qed.

Lemma rnd_small z : Z.abs z <= 2 ^ 200 * scale -> Z.abs (Rnd.rnd z 1) < bound.
Proof.
  intros Hz. assert (2 ^ 200 * scale < bound) as Hb by (by vm_compute).
  assert (Rnd.repr (2 ^ 200 * scale)) as Hr.
  { replace (2 ^ 200 * scale) with (1 * 2 ^ 1274) by (rewrite scale_spec; by vm_compute).
    by apply Rnd.repr_shift. }
  pose proof (Rnd.rnd_le z 1 (2 ^ 200 * scale) ltac:(lia) Hr ltac:(lia)).
  pose proof (Rnd.rnd_ge z 1 (- (2 ^ 200 * scale)) ltac:(lia)
                (proj2 (Rnd.repr_opp _) Hr) ltac:(lia)). lia.
Qed.

Lemma sums_finite_small l : forall acc,
  Forall sample_ok l -> Z.abs acc + 10 ^ 12 * scale * zlen l <= 2 ^ 200 * scale ->
  sums_finite acc (map units l) = true.
Proof.
  induction l as [|x l IH]; intros acc Hl Ha; [done|].
  apply Forall_cons in Hl as [Hx Hl]. apply sample_units in Hx as [_ Hx].
  assert (zlen (x :: l) = zlen l + 1) as E by (unfold zlen; simpl; lia). rewrite E in Ha.
  pose proof scale_pos. assert (0 <= zlen l) by (unfold zlen; lia).
  assert (0 <= 10 ^ 12 * scale * zlen l) by (apply Z.mul_nonneg_nonneg; lia).
  simpl. apply andb_true_iff. split.
  - apply Z.ltb_lt. rewrite Fast.rnd_eq by lia. apply rnd_small. lia.
  - apply IH; [done|]. lia.
Qed.

Lemma of_Z_nonzero n : 0 < n -> is_zero (of_Z n) = false.
Proof.
  intros Hn. destruct (is_zero (of_Z n)) eqn:E; [|done]. exfalso.
  apply is_zero_le in E.
  assert (fleb 1.0%F (of_Z n) = true) as H1
    by (refine (fleb_trans _ (of_Z 1) _ _ (of_Z_mono 1 n ltac:(lia))); fconst).
  pose proof (fleb_trans _ _ _ H1 E) as H3.
  assert (fleb 1.0%F (Fin 0) = false) as H0 by fconst. rewrite H0 in H3. discriminate H3.
Qed.

Lemma fmean_total l :
  l <> [] -> zlen l <= 2 ^ 30 -> Forall sample_ok l -> exists r, fmean l = Ok r.
Proof.
  intros Hne Hlen Hl. unfold fmean, fsum. pose proof scale_pos.
  rewrite sums_finite_small by (done || (unfold zlen in *; nia)). simpl.
  assert (forall P, (forall x, is_finite x = true -> P x = false) -> existsb P l = false) as HP.
  { intros P HP. apply existsb_finite; [done|]. apply forallb_forall. intros x Hx.
    apply list_elem_of_In in Hx.
    exact (proj1 (sample_units _ (proj1 (Forall_forall _ _) Hl _ Hx))). }
  rewrite !HP by (intros [| | |]; try done; by destruct neg). simpl.
  destruct l as [|x l]; [done|]. unfold fdiv.
  rewrite of_Z_nonzero by (unfold zlen; simpl; lia). by eexists.
Qed.

Lemma sum_units_bound l : forall acc,
  Forall sample_ok l ->
  Z.abs (fold_left (fun a x => a + units x * units x) l acc)
  <= Z.abs acc + zlen l * (10 ^ 12 * scale) ^ 2.
Proof.
  induction l as [|x l IH]; intros acc Hl; simpl; [unfold zlen; simpl; lia|].
  apply Forall_cons in Hl as [Hx Hl]. apply sample_units in Hx as [_ Hx].
  specialize (IH (acc + units x * units x) Hl).
  assert (Z.abs (units x * units x) <= (10 ^ 12 * scale) ^ 2).
  { rewrite Z.abs_mul, Z.pow_2_r. apply Z.mul_le_mono_nonneg; lia. }
  assert (zlen (x :: l) = zlen l + 1) as -> by (unfold zlen; simpl; lia). lia.
Qed.

Lemma isqrt_rto_upper n m k :
  0 < m -> 0 <= k -> n <= 10 ^ 24 * m ->
  integer_sqrt_of_frac_rto (Z.shiftl n (2 * k)) m <= 10 ^ 12 * 2 ^ k + 1.
Proof.
  intros Hm Hk Hn. unfold integer_sqrt_of_frac_rto. rewrite Z.shiftl_mul_pow2 by lia.
  set (a := Z.sqrt (n * 2 ^ (2 * k) / m)).
  assert (0 < 2 ^ k) by (by apply Z.pow_pos_nonneg).
  assert (a <= 10 ^ 12 * 2 ^ k) as Ha.
  { subst a. rewrite <- (Z.sqrt_square (10 ^ 12 * 2 ^ k)) by lia. apply Z.sqrt_le_mono.
    replace (10 ^ 12 * 2 ^ k * (10 ^ 12 * 2 ^ k)) with (10 ^ 24 * 2 ^ (2 * k))
      by (replace (2 * k) with (k + k) by lia; rewrite Z.pow_add_r by lia; lia).
    assert (0 <= 2 ^ (2 * k)) by (apply Z.pow_nonneg; lia).
    apply Z.div_le_upper_bound; [done|]. nia. }
  assert (0 <= a) by apply Z.sqrt_nonneg. clearbody a.
  destruct (a * a * m =? _); [rewrite Z.lor_0_r; lia|].
  enough (Z.lor a 1 <= a + 1) by lia.
  pose proof (Z.add_lor_land a 1).
  assert (0 <= Z.land a 1) by (apply Z.land_nonneg; by left). lia.
Qed.

(** The deviation of a moderate sample exists. *)
Lemma float_sqrt_total n m :
  0 < m -> n <= 10 ^ 24 * m -> exists r, float_sqrt_of_frac n m = Ok r.
Proof.
  intros Hm Hn. unfold float_sqrt_of_frac.
  assert (bit_length n - bit_length m - 109 < 0) as Hb.
  { unfold bit_length. destruct (Z.eqb_spec m 0); [lia|].
    pose proof (Z.log2_nonneg m). destruct (Z.eqb_spec n 0); [lia|].
    destruct (Z.le_gt_cases n 0); [rewrite (Z.log2_nonpos n) by lia; lia|].
    assert (Z.log2 n <= Z.log2 m + 80); [|lia].
    rewrite Z.add_comm, <- Z.log2_mul_pow2 by lia. apply Z.log2_le_mono.
    assert (10 ^ 24 <= 2 ^ 80) by (by vm_compute). nia. }
  assert ((bit_length n - bit_length m - 109) / 2 < 0) as Hq by (apply Z.div_lt_upper_bound; lia).
  revert Hq. generalize ((bit_length n - bit_length m - 109) / 2). intros q Hq.
  destruct (Z.leb_spec 0 q); [lia|].
  replace (- 2 * q) with (2 * - q) by lia. rewrite (Z.shiftl_mul_pow2 1), Z.mul_1_l by lia.
  assert (0 < 2 ^ (- q)) by (apply Z.pow_pos_nonneg; lia).
  pose proof (isqrt_rto_upper n m (- q) Hm ltac:(lia) Hn).
  pose proof (isqrt_rto_nonneg (Z.shiftl n (2 * - q)) m).
  assert (10 ^ 12 + 1 <= 2 ^ 1000) as Hc by (by vm_compute).
  destruct (int_div_small (integer_sqrt_of_frac_rto (Z.shiftl n (2 * - q)) m) (2 ^ (- q)))
    as (r & E & _); [|done|by exists r].
  split; [done|]. transitivity ((10 ^ 12 + 1) * 2 ^ (- q)); [lia|].
  by apply Z.mul_le_mono_nonneg_r; [lia|].
Qed.

Lemma pstdev_total l : l <> [] -> Forall sample_ok l -> exists r, pstdev l = Ok r.
Proof.
  intros Hne Hl. unfold pstdev. destruct l as [|x l']; [done|]. set (l := x :: l') in *.
  assert (forallb is_finite l = true) as ->.
  { apply forallb_forall. intros y Hy. apply list_elem_of_In in Hy.
    exact (proj1 (sample_units _ (proj1 (Forall_forall _ _) Hl _ Hy))). }
  set (num := zlen l * _ - _). set (den := zlen l * zlen l * (scale * scale)).
  pose proof scale_pos. assert (0 < zlen l) as Hlen by (unfold l, zlen; simpl; lia).
  assert (0 < den) as Hden by (unfold den; nia).
  assert (num <= 10 ^ 24 * den) as Hnum.
  { pose proof (sum_units_bound l 0 Hl) as Hs. rewrite Z.abs_0, Z.add_0_l in Hs.
    unfold num, den. set (sxx := fold_left _ _ _) in *. clearbody sxx.
    transitivity (zlen l * sxx); [pose proof (Z.square_nonneg (sum_units l)); lia|].
    replace (10 ^ 24 * (zlen l * zlen l * (scale * scale)))
      with (zlen l * (zlen l * (10 ^ 12 * scale) ^ 2)) by lia.
    apply Z.mul_le_mono_nonneg_l; lia. }
  clearbody num den. set (t := Z.min _ _).
  destruct (Fast.ctz_spec num) as [H1 _]. destruct (Fast.ctz_spec den) as [H2 D2].
  assert (0 <= t) as Ht by lia. assert (0 < 2 ^ t) by (by apply Z.pow_pos_nonneg).
  assert (2 ^ t | den) as [m Em].
  { transitivity (2 ^ Fast.ctz den); [|done]. exists (2 ^ (Fast.ctz den - t)).
    rewrite <- Z.pow_add_r by lia. f_equal. lia. }
  rewrite !Z.shiftr_div_pow2 by done. rewrite Em, Z.div_mul by lia.
  apply float_sqrt_total; [nia|].
  apply Z.div_le_upper_bound; [done|]. rewrite Em in Hnum. lia.
Qed.

(** * One implementation of [Libm] *)
Module LibmRef.

(** [exp(y)] for [0 <= y] given in units of [2^-200]: a Taylor sum of the argument
    divided by [64], squared six times. *)
Definition one200 : Z := Z.shiftl 1 200.

Fixpoint taylor (y : Z) (k : Z) (term acc : Z) (fuel : nat) : Z :=
  match fuel with
  | O => acc
  | S f =>
      let term' := Z.shiftr (term * y) 200 / k in
      taylor y (k + 1) term' (acc + term') f
  end.

Definition square200 (e : Z) : Z := Z.shiftr (e * e) 200.

Definition exp200 (y : Z) : Z :=
  Nat.iter 6 square200 (taylor (y / 64) 1 one200 one200 60).

Definition tanh_abs (x : float) : float :=
  let n := units x in
  if n <? Z.shiftl 1 1000 then x
  else
    let y := Z.shiftr n 873 in
    if Z.shiftl 60 200 <? y then 1.0%F
    else let e := exp200 y in round_q false ((e - one200) * scale) (e + one200).

Definition clamp01 (x : float) : float := fmax (Fin 0) (fmin 1.0%F x).

Definition tanh (x : float) : float :=
  match x with
  | NaN => NaN
  | _ =>
      let t := match x with Inf _ => 1.0%F | _ => clamp01 (tanh_abs (fabs x)) end in
      if signbit x then fopp t else if is_zero x then x else t
  end.

Lemma unit_clamp01 x : within (Fin 0) 1.0%F (clamp01 x).
Proof. apply clamp_within. fconst. Qed.

Lemma opp_unit x : within (Fin 0) 1.0%F x -> within (-1.0)%F (Fin 0) (fopp x).
Proof.
  intros [H1%fopp_mono H2%fopp_mono]. split.
  - eapply fleb_trans; [|exact H2]. fconst.
  - eapply fleb_trans; [exact H1|]. fconst.
Qed.

Lemma tanh_cases x :
  x <> NaN ->
  (signbit x = false /\ within (Fin 0) 1.0%F (tanh x)) \/
  (signbit x = true /\ within (-1.0)%F (Fin 0) (tanh x)).
Proof.
  intros Hx. destruct x as [|[]| |n]; try done.
  - right. split; [done|split; fconst].
  - left. split; [done|split; fconst].
  - right. split; [done|]. apply opp_unit, unit_clamp01.
  - unfold tanh. destruct (signbit (Fin n)) eqn:E.
    + right. split; [done|]. apply opp_unit, unit_clamp01.
    + left. split; [done|]. destruct (is_zero (Fin n)) eqn:E0; [|apply unit_clamp01].
      destruct n; [split; fconst|done..].
Qed.

Lemma signbit_sign x : x <> NaN ->
  (signbit x = true -> fleb x (Fin 0) = true) /\ (signbit x = false -> fleb (Fin 0) x = true).
Proof.
  intros Hx. destruct x as [|[]| |n]; try done; split; simpl; try done; intros H.
  - apply Z.ltb_lt in H. apply fleb_units; simpl; try done. lia.
  - apply Z.ltb_ge in H. by apply fleb_units.
Qed.

Lemma zero_tanh x : is_zero x = true -> is_zero (tanh x) = true.
Proof. destruct x as [| | |[]]; try done; intros _; fconst. Qed.

Lemma is_zero_key x : fleb x (Fin 0) = true -> fleb (Fin 0) x = true -> is_zero x = true.
Proof.
  intros (a & b & Ha & [= <-] & H1)%fleb_key (c & d & [= <-] & Hd & H2)%fleb_key.
  assert (d = 0) as -> by naive_solver lia.
  destruct x as [|[]| |n]; simpl in *; simplify_eq; try done.
Qed.

Lemma zero_is x : is_zero x = true -> fleb x (Fin 0) = true /\ fleb (Fin 0) x = true.
Proof. destruct x as [| | |[]]; done. Qed.

End LibmRef.

#[refine] Definition libm_ref : Libm := {| tanh := LibmRef.tanh |}.
Proof.
  - done.
  - intros x Hx. destruct (LibmRef.tanh_cases x Hx) as [[_ H]|[_ H]];
      (eapply within_weaken; [| |exact H]); fconst.
  - intros x H. pose proof (fleb_not_nan_r _ _ H) as Hx.
    destruct (LibmRef.tanh_cases x Hx) as [[_ [H' _]]|[Hs _]]; [done|].
    apply (LibmRef.signbit_sign x Hx) in Hs.
    by apply LibmRef.zero_is, LibmRef.zero_tanh, LibmRef.is_zero_key.
  - intros x H. pose proof (fleb_not_nan_l _ _ H) as Hx.
    destruct (LibmRef.tanh_cases x Hx) as [[Hs _]|[_ [_ H']]]; [|done].
    apply (LibmRef.signbit_sign x Hx) in Hs.
    by apply LibmRef.zero_is, LibmRef.zero_tanh, LibmRef.is_zero_key.
Defined.

(** A piecewise linear stand-in, cheap to evaluate: the identity cut off at one. *)
Definition clamp1 (x : float) : float :=
  match x with NaN => NaN | _ => fmax (-1.0)%F (fmin 1.0%F x) end.

Lemma clamp1_eq x : x <> NaN -> clamp1 x = fmax (-1.0)%F (fmin 1.0%F x).
Proof. by destruct x. Qed.

#[refine] Definition libm_clamp : Libm := {| tanh := clamp1 |}.
Proof.
  - done.
  - intros x Hx. rewrite clamp1_eq by done. apply clamp_within. fconst.
  - intros x H. rewrite clamp1_eq by by eapply fleb_not_nan_r.
    assert (fleb (Fin 0) (fmin 1.0%F x) = true) as H1 by (apply fmin_ge; [fconst|exact H]).
    eapply fleb_trans; [exact H1|]. apply fmax_r; [apply dec_not_nan|by eapply fleb_not_nan_r].
  - intros x H. rewrite clamp1_eq by by eapply fleb_not_nan_l.
    apply fmax_le; [fconst|]. eapply fleb_trans; [|exact H].
    apply fmin_r; [apply dec_not_nan|by eapply fleb_not_nan_l].
Defined.

#[global] Opaque mkfloat round_q of_Z dec fadd fsub fmul fdiv_nz int_div py_round.
