(* ===== verification/PyRandom.v ===== *)
(** PyRandom: [random.Random].

    The class [PyRandom] is what the program uses: seeding and draws in [0, 1).
    [mt19937] is CPython's generator, the Mersenne Twister. *)
From S2P Require Import Prelude PyFloat FloatFacts.

Class PyRandom := {
  rng : Type;
  rng_seed : Z -> rng;
  rng_random : rng -> float * rng;
  rng_random_unit r : within (Fin 0) 1.0%F (fst (rng_random r));
}.

(** [rng.uniform(a, b)] *)
Definition uniform `{PyRandom} (a b : float) (r : rng) : float * rng :=
  let '(u, r') := rng_random r in (a + (b - a) * u, r')%F.

Module MT.

Definition w32 (z : Z) : Z := Z.land z 4294967295.

(** [x'_i = (x_i ^ ((x'_{i-1} ^ (x'_{i-1} >> 30)) * m)) + add i] along a list. *)
Fixpoint mix (m : Z) (add : Z -> Z) (i prev : Z) (l : list Z) : list Z :=
  match l with
  | [] => []
  | x :: l' =>
      let p := w32 (Z.lxor prev (Z.shiftr prev 30) * m) in
      let x' := w32 (Z.lxor x p + add i) in
      x' :: mix m add (i + 1) x' l'
  end.

Fixpoint init_genrand (n : nat) (i prev : Z) : list Z :=
  match n with
  | O => []
  | S n' =>
      let x := w32 (1812433253 * Z.lxor prev (Z.shiftr prev 30) + i) in
      x :: init_genrand n' (i + 1) x
  end.

Definition last0 (l : list Z) : Z := List.last l 0.

(** [init_by_array] for a key of one to 624 words. *)
Definition init_by_array (key : list Z) : list Z :=
  let len := Z.of_nat (length key) in
  let word t := let j := t mod len in nth (Z.to_nat j) key 0 + j in
  let base := init_genrand 623 1 19650218 in
  let pass1 := mix 1664525 (fun i => word (i - 1)) 1 19650218 base in
  let mt0 := last0 pass1 in
  let first := mix 1664525 (fun _ => word 623) 1 mt0 (firstn 1 pass1) in
  let s1 := nth 0 first 0 in
  let pass2 := mix 1566083941 (fun i => - i) 2 s1 (skipn 1 pass1) in
  let mt0' := last0 pass2 in
  let first' := mix 1566083941 (fun _ => - 1) 1 mt0' first in
  2147483648 :: first' ++ pass2.

(** The absolute seed in 32-bit words, least significant first. *)
Fixpoint words (fuel : nat) (z : Z) : list Z :=
  match fuel with
  | O => []
  | S f => w32 z :: (if Z.shiftr z 32 =? 0 then [] else words f (Z.shiftr z 32))
  end.

Record state := { pending : list Z; mt : list Z }.

Definition seed (s : Z) : state :=
  {| pending := []; mt := init_by_array (words 624 (Z.abs s)) |}.

Definition twist1 (hi lo m : Z) : Z :=
  let y := Z.lor (Z.land hi 2147483648) (Z.land lo 2147483647) in
  Z.lxor (Z.lxor m (Z.shiftr y 1)) (if Z.odd y then 2567483615 else 0).

Fixpoint zip3 (a b c : list Z) : list Z :=
  match a, b, c with
  | x :: a', y :: b', z :: c' => twist1 x y z :: zip3 a' b' c'
  | _, _, _ => []
  end.

(** One regeneration of the 624 words. *)
Definition twist (old : list Z) : list Z :=
  let p1 := zip3 (firstn 227 old) (skipn 1 old) (skipn 397 old) in
  let p2 := zip3 (skipn 227 old) (skipn 228 old) p1 in
  let p3 := zip3 (skipn 454 old) (skipn 455 old) p2 in
  let final := twist1 (last0 old) (nth 0 p1 0) (nth 169 p2 0) in
  p1 ++ p2 ++ p3 ++ [final].

Definition temper (y : Z) : Z :=
  let y := Z.lxor y (Z.shiftr y 11) in
  let y := Z.lxor y (Z.land (Z.shiftl y 7) 2636928640) in
  let y := Z.lxor y (Z.land (Z.shiftl y 15) 4022730752) in
  w32 (Z.lxor y (Z.shiftr y 18)).

Definition genrand (s : state) : Z * state :=
  match pending s with
  | y :: rest => (temper y, {| pending := rest; mt := mt s |})
  | [] =>
      let l := twist (mt s) in
      (temper (nth 0 l 0), {| pending := skipn 1 l; mt := l |})
  end.

(** [(a * 2^26 + b) / 2^53] with 27 and 26 random bits. *)
Definition random (s : state) : float * state :=
  let '(x, s1) := genrand s in
  let '(y, s2) := genrand s1 in
  let a := Z.shiftr x 5 in
  let b := Z.shiftr y 6 in
  (Fin (Z.shiftl (a * 67108864 + b) 1021), s2).

Lemma w32_range z : 0 <= w32 z < 2 ^ 32.
Proof.
  unfold w32. change 4294967295 with (Z.ones 32). rewrite Z.land_ones by lia.
  by apply Z.mod_pos_bound.
Qed.

Lemma genrand_range s : 0 <= fst (genrand s) < 2 ^ 32.
Proof. unfold genrand. destruct (pending s); apply w32_range. Qed.

Lemma shiftr_range z k n : 0 <= k <= n -> 0 <= z < 2 ^ n -> 0 <= Z.shiftr z k < 2 ^ (n - k).
Proof.
  intros Hk Hz. rewrite Z.shiftr_div_pow2 by lia.
  assert (0 < 2 ^ k) by (apply Z.pow_pos_nonneg; lia).
  split; [apply Z.div_pos; lia|]. apply Z.div_lt_upper_bound; [done|].
  rewrite <- Z.pow_add_r by lia. replace (k + (n - k)) with n by lia. lia.
Qed.

Lemma random_unit s : within (Fin 0) 1.0%F (fst (random s)).
Proof.
  unfold random. pose proof (genrand_range s) as Hx.
  destruct (genrand s) as [x s1]. pose proof (genrand_range s1) as Hy.
  destruct (genrand s1) as [y s2]. cbn [fst] in *.
  pose proof (shiftr_range x 5 32 ltac:(lia) Hx). pose proof (shiftr_range y 6 32 ltac:(lia) Hy).
  set (v := Z.shiftr x 5 * 67108864 + Z.shiftr y 6).
  assert (0 <= v < 2 ^ 53) as Hv by (subst v; lia).
  clearbody v. rewrite Z.shiftl_mul_pow2 by lia.
  assert (0 < 2 ^ 1021) by (by apply Z.pow_pos_nonneg).
  split; apply fleb_key; do 2 eexists; (split; [done|]).
  - split; [done|]. nia.
  - split; [exact key_one|]. rewrite scale_spec.
    replace (2 ^ 1074) with (2 ^ 53 * 2 ^ 1021) by (by rewrite <- Z.pow_add_r by lia).
    apply Z.mul_le_mono_nonneg_r; lia.
Qed.

End MT.

Definition mt19937 : PyRandom :=
  {| rng := MT.state; rng_seed := MT.seed; rng_random := MT.random;
     rng_random_unit := MT.random_unit |}.

(** A degenerate generator, cheap to evaluate: every draw is one half. *)
#[refine] Definition constant_half : PyRandom :=
  {| rng := unit; rng_seed := fun _ => tt; rng_random := fun r => (0.5%F, r) |}.
Proof. intros r. split; fconst. Defined.
