(* ===== verification/Events.v ===== *)
(** Events: the append-only event stream (cognitive/events.py). *)
From S2P Require Import Prelude PyFloat PyVal.

(** * Event kinds *)
Inductive EventType :=
| MARKET_TICK
| NEWS_SIGNAL | TECH_SIGNAL | MACRO_SIGNAL | RISK_SIGNAL | REASONING
| FEATURES | DECISION
| RISK_GATE | EXECUTION
| TRADE_OUTCOME | ATTRIBUTION | GRADE | OBSERVATION | COUNTERFACTUAL | DRIFT
| PROPOSAL | CHALLENGER_VERDICT | BACKTEST_RESULT | PR_REQUEST | CONFIG_VERSION.

#[global] Instance EventType_eq_dec : EqDecision EventType.
Proof. solve_decision. Defined.

(** The member's string, also the ["type"] field of payloads. *)
Definition value (k : EventType) : string :=
  match k with
  | MARKET_TICK => "market_tick"
  | NEWS_SIGNAL => "news_signal"
  | TECH_SIGNAL => "tech_signal"
  | MACRO_SIGNAL => "macro_signal"
  | RISK_SIGNAL => "risk_signal"
  | REASONING => "reasoning"
  | FEATURES => "features"
  | DECISION => "decision"
  | RISK_GATE => "risk_gate"
  | EXECUTION => "execution"
  | TRADE_OUTCOME => "trade_outcome"
  | ATTRIBUTION => "attribution"
  | GRADE => "grade"
  | OBSERVATION => "observation"
  | COUNTERFACTUAL => "counterfactual"
  | DRIFT => "drift"
  | PROPOSAL => "proposal"
  | CHALLENGER_VERDICT => "challenger_verdict"
  | BACKTEST_RESULT => "backtest_result"
  | PR_REQUEST => "pr_request"
  | CONFIG_VERSION => "config_version"
  end.

(** * Events *)
Record Event := {
  seq : Z;
  kind : EventType;
  ev_payload : payload;
  trace_id : string;
  source : string;
  ts : string;
}.

Definition event_as_dict (e : Event) : payload :=
  [ ("seq", VInt (seq e));
    ("type", VStr (value (kind e)));
    ("payload", VDict (ev_payload e));
    ("trace_id", VStr (trace_id e));
    ("source", VStr (source e));
    ("ts", VStr (ts e)) ].

(** * The stream

    A subscriber is an arbitrary callback; it is represented by a name, and
    [es_notified] records the calls made, in order. *)
Record EventStream := {
  es_events : list Event;
  es_subscribers : list string;
  es_max_events : option Z;
  es_emitted : Z;
  es_dropped : Z;
  es_notified : list (string * Event);
}.

Module Stream.

Definition init (max_events : option Z) : EventStream :=
  {| es_events := []; es_subscribers := []; es_max_events := max_events;
     es_emitted := 0; es_dropped := 0; es_notified := [] |}.

Definition len (st : EventStream) : Z := zlen (es_events st).

Definition subscribe (s : string) (st : EventStream) : EventStream :=
  {| es_events := es_events st; es_subscribers := es_subscribers st ++ [s];
     es_max_events := es_max_events st; es_emitted := es_emitted st;
     es_dropped := es_dropped st; es_notified := es_notified st |}.

(** The retention cap is exceeded. *)
Definition over_cap (max_events : option Z) (l : list Event) : bool :=
  match max_events with Some m => m <? zlen l | None => false end.

Definition emit (k : EventType) (p : payload) (tid src t : string) (st : EventStream)
  : Event * EventStream :=
  let event := {| seq := es_emitted st; kind := k; ev_payload := p;
                  trace_id := tid; source := src; ts := t |} in
  let appended := es_events st ++ [event] in
  let evict := over_cap (es_max_events st) appended in
  (event,
   {| es_events := if evict then tail appended else appended;
      es_subscribers := es_subscribers st;
      es_max_events := es_max_events st;
      es_emitted := es_emitted st + 1;
      es_dropped := if evict then es_dropped st + 1 else es_dropped st;
      es_notified := es_notified st ++ map (fun s => (s, event)) (es_subscribers st) |}).

(** The stream after an [emit] whose returned event is not used. *)
Definition emit_ (k : EventType) (p : payload) (tid src t : string) (st : EventStream)
  : EventStream := snd (emit k p tid src t st).

Definition has_kind (k : EventType) (e : Event) : bool := bool_decide (kind e = k).

Definition events (k : option EventType) (limit : option Z) (st : EventStream) : list Event :=
  let items := match k with
               | None => es_events st
               | Some k => List.filter (has_kind k) (es_events st)
               end in
  match limit with
  | Some n => if 0 <=? n then slice_last n items else items
  | None => items
  end.

Definition latest (k : EventType) (st : EventStream) : option Event :=
  List.find (has_kind k) (rev (es_events st)).

Definition snapshot (st : EventStream) : list payload := map event_as_dict (es_events st).

(** * The retention invariant *)

(** Sequence numbers are consecutive from the number of evicted events, and the
    length respects the cap. *)
Record ok (st : EventStream) : Prop := {
  ok_count : es_emitted st = es_dropped st + zlen (es_events st);
  ok_dropped : 0 <= es_dropped st;
  ok_seq : forall i e, es_events st !! i = Some e -> seq e = es_dropped st + Z.of_nat i;
  ok_cap : forall m, es_max_events st = Some m -> zlen (es_events st) <= Z.max 0 m;
}.

Lemma init_ok m : ok (init m).
Proof.
  split; try done. intros n _. change (zlen (es_events (init m))) with 0. lia.
Qed.

Lemma snoc_not_nil {A} (l : list A) x : l ++ [x] <> [].
Proof. by destruct l. Qed.

Lemma tail_lookup {A} (l : list A) i : tail l !! i = l !! S i.
Proof. by destruct l. Qed.

Lemma appended_seq st e i x :
  ok st -> seq e = es_emitted st -> (es_events st ++ [e]) !! i = Some x ->
  seq x = es_dropped st + Z.of_nat i.
Proof.
  intros Hok He [H|[H1 H2]]%lookup_app_Some; [by apply (ok_seq _ Hok)|].
  apply list_lookup_singleton_Some in H2 as [Hi <-].
  rewrite He, (ok_count _ Hok). unfold zlen. lia.
Qed.

Lemma emit_ok k p tid src t st : ok st -> ok (snd (emit k p tid src t st)).
Proof.
  intros Hok. unfold emit. simpl.
  set (e := {| seq := _ |}). set (ap := es_events st ++ [e]).
  assert (zlen ap = zlen (es_events st) + 1) as Hlen by (subst ap; by rewrite zlen_app).
  pose proof (ok_count _ Hok). pose proof (ok_dropped _ Hok).
  destruct (over_cap (es_max_events st) ap) eqn:Ecap; split; cbn [es_events es_emitted es_dropped es_max_events].
  - rewrite zlen_tail by apply snoc_not_nil. lia.
  - lia.
  - intros i x. rewrite tail_lookup. intros Hx%(appended_seq st); [lia|done..].
  - intros m Hm. rewrite zlen_tail by apply snoc_not_nil.
    pose proof (ok_cap _ Hok m Hm). unfold over_cap in Ecap. rewrite Hm in Ecap. lia.
  - lia.
  - done.
  - intros i x Hx. by apply (appended_seq st) in Hx.
  - intros m Hm. unfold over_cap in Ecap. rewrite Hm in Ecap. lia.
Qed.

Lemma emit__ok k p tid src t st : ok st -> ok (emit_ k p tid src t st).
Proof. apply emit_ok. Qed.

Lemma subscribe_ok s st : ok st -> ok (subscribe s st).
Proof. intros []. by split. Qed.

(** Reachable streams: any sequence of emits and subscriptions from a fresh one. *)
Inductive step : EventStream -> EventStream -> Prop :=
| step_emit k p tid src t st : step st (snd (emit k p tid src t st))
| step_subscribe s st : step st (subscribe s st).

Definition reachable (m : option Z) : EventStream -> Prop := rtc step (init m).

Lemma reachable_ok m st : reachable m st -> ok st.
Proof.
  apply (rtc_ind_r ok); [apply init_ok|].
  intros st1 st2 _ [] ?; auto using emit_ok, subscribe_ok.
Qed.

(** * The log a stream refines

    The specification of a stream is the unbounded list of what was emitted; the stream
    keeps its newest entries, numbered by their position in the log. *)
Record Msg := {
  m_kind : EventType;
  m_payload : payload;
  m_trace : string;
  m_source : string;
  m_ts : string;
}.

Definition post (m : Msg) (st : EventStream) : EventStream :=
  emit_ (m_kind m) (m_payload m) (m_trace m) (m_source m) (m_ts m) st.

Definition posts (ms : list Msg) (st : EventStream) : EventStream :=
  fold_left (fun st m => post m st) ms st.

Definition stamp (i : Z) (m : Msg) : Event :=
  {| seq := i; kind := m_kind m; ev_payload := m_payload m; trace_id := m_trace m;
     source := m_source m; ts := m_ts m |}.

Fixpoint stamps (i : Z) (ms : list Msg) : list Event :=
  match ms with [] => [] | m :: ms' => stamp i m :: stamps (i + 1) ms' end.

(** The newest entries a cap leaves. *)
Definition keep {A} (cap : option Z) (l : list A) : list A :=
  match cap with Some m => drop (length l - Z.to_nat m) l | None => l end.

Lemma posts_app ms ms' st : posts (ms ++ ms') st = posts ms' (posts ms st).
Proof. apply fold_left_app. Qed.

Lemma post_max m st : es_max_events (post m st) = es_max_events st.
Proof. done. Qed.

Lemma posts_max ms : forall st, es_max_events (posts ms st) = es_max_events st.
Proof. induction ms as [|m ms IH]; intros st; [done|]. apply (IH (post m st)). Qed.

Lemma posts_emitted ms : forall st, es_emitted (posts ms st) = es_emitted st + zlen ms.
Proof.
  induction ms as [|m ms IH]; intros st; [unfold zlen; simpl; lia|].
  change (posts (m :: ms) st) with (posts ms (post m st)). rewrite IH.
  change (es_emitted (post m st)) with (es_emitted st + 1). unfold zlen. simpl. lia.
Qed.

Lemma posts_ok ms : forall st, ok st -> ok (posts ms st).
Proof. induction ms as [|m ms IH]; intros st; [done|]. intros H. apply IH. by apply emit__ok. Qed.

Lemma stamps_length ms : forall i, length (stamps i ms) = length ms.
Proof. induction ms as [|m ms IH]; intros i; simpl; [done|by rewrite IH]. Qed.

Lemma stamps_app ms ms' : forall i, stamps i (ms ++ ms') = stamps i ms ++ stamps (i + zlen ms) ms'.
Proof.
  induction ms as [|m ms IH]; intros i; simpl; [unfold zlen; simpl; by rewrite Z.add_0_r|].
  rewrite IH. do 3 f_equal. unfold zlen. simpl. lia.
Qed.

(** Keeping in two rounds is keeping once. *)
Lemma keep_app {A} cap (l l' : list A) : keep cap (keep cap l ++ l') = keep cap (l ++ l').
Proof.
  destruct cap as [m|]; [|done]. simpl. set (n := Z.to_nat m).
  destruct (decide (length l <= n)%nat) as [H|H].
  - by replace (length l - n)%nat with 0%nat by lia.
  - rewrite !length_app, length_drop, !drop_app, drop_drop, length_drop.
    f_equal; f_equal; lia.
Qed.

Lemma keep_id st : ok st -> keep (es_max_events st) (es_events st) = es_events st.
Proof.
  intros H. unfold keep. destruct (es_max_events st) as [m|] eqn:E; [|done].
  pose proof (ok_cap _ H m E). unfold zlen in *.
  by replace (length (es_events st) - Z.to_nat m)%nat with 0%nat by lia.
Qed.

(** One emission keeps the newest entries. *)
Lemma post_events m st :
  ok st ->
  es_events (post m st) = keep (es_max_events st) (es_events st ++ [stamp (es_emitted st) m]).
Proof.
  intros H. unfold post, emit_, emit, keep, over_cap. simpl.
  fold (stamp (es_emitted st) m).
  destruct (es_max_events st) as [c|] eqn:E; [|done].
  pose proof (ok_cap _ H c E) as Hc. rewrite zlen_app. unfold zlen in *. rewrite length_app. cbn [length].
  change (Z.of_nat 1) with 1.
  destruct (Z.ltb_spec c (Z.of_nat (length (es_events st)) + 1)) as [Hlt|Hge].
  - replace (length (es_events st) + 1 - Z.to_nat c)%nat with 1%nat by lia.
    by destruct (es_events st ++ _).
  - by replace (length (es_events st) + 1 - Z.to_nat c)%nat with 0%nat by lia.
Qed.

Lemma posts_events ms : forall st,
  ok st ->
  es_events (posts ms st) = keep (es_max_events st) (es_events st ++ stamps (es_emitted st) ms).
Proof.
  induction ms as [|m ms IH]; intros st H.
  - change (posts [] st) with st. simpl stamps. rewrite app_nil_r. by rewrite keep_id.
  - change (posts (m :: ms) st) with (posts ms (post m st)).
    rewrite IH by (by apply emit__ok). rewrite post_max, post_events by done.
    rewrite keep_app, <- app_assoc. done.
Qed.

(** A batch that fits under the cap evicts nothing. *)
Lemma posts_fit ms m st :
  ok st -> es_max_events st = Some m -> zlen (es_events st) + zlen ms <= m ->
  es_dropped (posts ms st) = es_dropped st.
Proof.
  intros H Hm Hle. pose proof (ok_count _ (posts_ok ms st H)) as Hc.
  rewrite posts_emitted, posts_events, Hm in Hc by done. pose proof (ok_count _ H) as Hc0.
  unfold keep, zlen in *. rewrite length_drop, length_app, stamps_length in Hc. lia.
Qed.

(** Below the cap nothing is evicted. *)
Lemma emit_append k p tid src t st :
  (forall m, es_max_events st = Some m -> zlen (es_events st) < m) ->
  es_events (emit_ k p tid src t st) = es_events st ++ [fst (emit k p tid src t st)].
Proof.
  intros H. unfold emit_, emit. simpl. unfold over_cap.
  destruct (es_max_events st) as [m|]; [|done].
  rewrite zlen_app. unfold zlen at 2. simpl. specialize (H m eq_refl).
  by rewrite (proj2 (Z.ltb_ge _ _)) by lia.
Qed.

(** [latest] finds the last event of the kind. *)
Lemma latest_Some k st e :
  latest k st = Some e ->
  kind e = k /\ exists l1 l2, es_events st = l1 ++ e :: l2 /\ Forall (fun x => kind x <> k) l2.
Proof.
  unfold latest. generalize (es_events st). intros l.
  induction l as [|x l IH] using rev_ind; [done|].
  rewrite rev_app_distr. simpl. unfold has_kind at 1. case_bool_decide as Hx.
  - intros [= <-]. split; [done|]. by exists l, [].
  - intros H. destruct (IH H) as (Hk & l1 & l2 & -> & Hl2).
    split; [done|]. exists l1, (l2 ++ [x]).
    rewrite <- app_assoc. split; [done|]. by apply Forall_app_2; [|constructor].
Qed.

Lemma latest_snoc k st e :
  List.find (has_kind k) (rev (es_events st ++ [e]))
  = if has_kind k e then Some e else latest k st.
Proof. rewrite rev_app_distr. done. Qed.

End Stream.

Import Stream.

(** C39: The stream refines the unbounded log: after any sequence of emissions it retains
    exactly the newest [max_events] entries of the log, each with its position in the log
    as sequence number, [emitted] is the length of the log and [dropped] counts what was
    forgotten. *)
Theorem stream_refines_log cap ms :
  let st := posts ms (init cap) in
  es_events st = keep cap (stamps 0 ms) /\
  es_emitted st = zlen ms /\
  es_dropped st = zlen ms - Stream.len st.
Proof.
  intros st. assert (ok st) as H by apply posts_ok, init_ok. subst st.
  rewrite (posts_events ms (init cap)) by apply init_ok. split; [done|].
  pose proof (ok_count _ H) as Hc. rewrite posts_emitted in *. simpl in *.
  unfold Stream.len. split; lia.
Qed.

(** In every stream reachable from a fresh one by emits and subscriptions the
    counters balance ([emitted = dropped + len]), the retained events carry the
    consecutive sequence numbers [dropped, dropped + 1, ...], and the retention cap
    is respected. *)
Theorem stream_seq_invariant m st :
  reachable m st ->
  es_emitted st = es_dropped st + Stream.len st /\
  (forall i e, es_events st !! i = Some e -> seq e = es_dropped st + Z.of_nat i) /\
  (forall c, es_max_events st = Some c -> Stream.len st <= Z.max 0 c).
Proof.
  intros H%reachable_ok. split_and!; [apply (ok_count _ H)|apply (ok_seq _ H)|apply (ok_cap _ H)].
Qed.

Definition two_emits : EventStream :=
  emit_ DECISION [] "b" "" "" (emit_ FEATURES [] "a" "" "" (init (Some 1))).

Lemma stream_seq_invariant_witness :
  reachable (Some 1) two_emits /\ es_dropped two_emits = 1 /\
  es_emitted two_emits = es_dropped two_emits + Stream.len two_emits.
Proof.
  assert (reachable (Some 1) two_emits) as H.
  { eapply rtc_l; [apply step_emit|]. eapply rtc_l; [apply step_emit|]. apply rtc_refl. }
  split; [exact H|]. split; [reflexivity|].
  exact (proj1 (stream_seq_invariant (Some 1) two_emits H)).
Defined.

(** [events(limit=n)] returns the newest [n] events of the kind for a positive
    [n], but [limit=0] and a negative limit return the whole list: the slice
    [items[-0:]] is the full list. *)
Theorem events_limit k n st :
  (0 < n -> exists older, Stream.events k None st = older ++ Stream.events k (Some n) st /\
            zlen (Stream.events k (Some n) st) = Z.min n (zlen (Stream.events k None st))) /\
  (n <= 0 -> Stream.events k (Some n) st = Stream.events k None st).
Proof.
  unfold Stream.events.
  set (items := match k with None => es_events st | Some _ => _ end). clearbody items.
  split; intros Hn.
  - rewrite (proj2 (Z.leb_le 0 n)) by lia. unfold slice_last.
    rewrite (proj2 (Z.eqb_neq n 0)), (proj2 (Z.ltb_lt 0 n)) by lia.
    exists (take (length items - Z.to_nat n) items). split; [by rewrite take_drop|].
    unfold zlen. rewrite length_drop. lia.
  - destruct (Z.leb_spec 0 n); [|done]. by replace n with 0 by lia.
Qed.

Lemma events_limit_witness :
  Stream.events None (Some 0) two_emits = Stream.events None None two_emits /\
  zlen (Stream.events None (Some 0) two_emits) = 1.
Proof.
  split; [|reflexivity]. apply (proj2 (events_limit None 0 two_emits)). lia.
Defined.
