(* ===== verification/Config.v ===== *)
(** Config: the behaviour configuration and its guardrails (cognitive/config.py). *)
From S2P Require Import Prelude PyFloat FloatFacts PyVal PyMath.

Definition WEIGHT_KEYS : list string := ["news"; "tech"; "macro"].

Definition bounds : Type := float * float.
Definition WEIGHT_BOUNDS : bounds := (0.0, 1.0)%F.
Definition BUY_THRESHOLD_BOUNDS : bounds := (0.0, 0.95)%F.
Definition SELL_THRESHOLD_BOUNDS : bounds := (-0.95, 0.0)%F.
Definition MAX_POSITION_SIZE_BOUNDS : bounds := (0.001, 0.5)%F.
Definition MAX_DAILY_LOSS_BOUNDS : bounds := (0.001, 0.25)%F.
Definition MAX_EXPOSURE_BOUNDS : bounds := (0.01, 1.0)%F.

Definition DEFAULT_OVERRIDES_PATH : string := "config/cognitive_config.json".

Definition DEFAULT_WEIGHTS : payload :=
  [("news", VFloat 0.34%F); ("tech", VFloat 0.33%F); ("macro", VFloat 0.33%F)].
Definition DEFAULT_RISK : payload :=
  [("max_position_size_pct", VFloat 0.05%F); ("max_daily_loss_pct", VFloat 0.02%F);
   ("max_exposure_pct", VFloat 0.30%F)].
Definition DEFAULTS : payload :=
  [("version", VInt 1);
   ("weights", VDict DEFAULT_WEIGHTS);
   ("buy_threshold", VFloat 0.15%F);
   ("sell_threshold", VFloat (-0.15)%F);
   ("risk", VDict DEFAULT_RISK)].

Record CognitiveConfig := {
  version : Z;
  weights : dict float;
  buy_threshold : float;
  sell_threshold : float;
  max_position_size_pct : float;
  max_daily_loss_pct : float;
  max_exposure_pct : float;
}.

(** [v.get(k, default)] on a value that must be a dictionary. *)
Definition vget (v : val) (k : string) (default : val) : res val :=
  match v with VDict d => Ok (dget_or k default d) | _ => Raise AttributeError end.

(** [v or {}] *)
Definition or_empty (v : val) : val := if truthy v then v else VDict [].

(** [float(d.get(k, defaults[k]))] *)
Definition float_field (v : val) (k : string) (defaults : payload) : res float :=
  let* x := vget v k (dget_or k VNone defaults) in py_float x.

Definition from_dict (data : payload) : res CognitiveConfig :=
  let weights_in := or_empty (dget_or "weights" VNone data) in
  let* ws := res_list (fun k => let* x := float_field weights_in k DEFAULT_WEIGHTS in Ok (k, x))
               WEIGHT_KEYS in
  let risk := or_empty (dget_or "risk" VNone data) in
  let* v := py_int (dget_or "version" (dget_or "version" VNone DEFAULTS) data) in
  let* buy := float_field (VDict data) "buy_threshold" DEFAULTS in
  let* sell := float_field (VDict data) "sell_threshold" DEFAULTS in
  let* size := float_field risk "max_position_size_pct" DEFAULT_RISK in
  let* loss := float_field risk "max_daily_loss_pct" DEFAULT_RISK in
  let* expo := float_field risk "max_exposure_pct" DEFAULT_RISK in
  Ok {| version := v; weights := ws; buy_threshold := buy; sell_threshold := sell;
        max_position_size_pct := size; max_daily_loss_pct := loss; max_exposure_pct := expo |}.

Definition vfloats (d : dict float) : payload := map (fun kv => (fst kv, VFloat (snd kv))) d.

Definition to_dict (c : CognitiveConfig) : payload :=
  [("version", VInt (version c));
   ("weights", VDict (vfloats (weights c)));
   ("buy_threshold", VFloat (buy_threshold c));
   ("sell_threshold", VFloat (sell_threshold c));
   ("risk", VDict [("max_position_size_pct", VFloat (max_position_size_pct c));
                   ("max_daily_loss_pct", VFloat (max_daily_loss_pct c));
                   ("max_exposure_pct", VFloat (max_exposure_pct c))])].

Definition DEFAULT_CONFIG : CognitiveConfig :=
  {| version := 1;
     weights := [("news", 0.34%F); ("tech", 0.33%F); ("macro", 0.33%F)];
     buy_threshold := 0.15%F; sell_threshold := (-0.15)%F;
     max_position_size_pct := 0.05%F; max_daily_loss_pct := 0.02%F;
     max_exposure_pct := 0.30%F |}.

(** [lo <= numeric <= hi] for a real number; booleans are rejected, text that reads
    as a number is accepted.  An integer beyond the double range raises. *)
Definition _in_bounds (v : val) (b : bounds) : res bool :=
  match v with
  | VNone | VBool _ => Ok false
  | _ => match py_float v with
         | Ok x => Ok (fleb (fst b) x && fleb x (snd b))
         | Raise TypeError | Raise ValueError => Ok false
         | Raise e => Raise e
         end
  end.

Definition repr_bounds (b : bounds) : string :=
  "(" +:+ Fmt.repr_float (fst b) +:+ ", " +:+ Fmt.repr_float (snd b) +:+ ")".

(** One error line when the check fails. *)
Definition check (m : res bool) (err : string) : res (list string) :=
  let* b := m in Ok (if b then [] else [err]).

Definition weight_errors (ws : payload) (key : string) : res (list string) :=
  match dget key ws with
  | None => Ok ["weights." +:+ key +:+ " is missing"]
  | Some v => check (_in_bounds v WEIGHT_BOUNDS)
                ("weights." +:+ key +:+ "=" +:+ Fmt.repr v +:+ " outside " +:+ repr_bounds WEIGHT_BOUNDS)
  end.

Definition RISK_BOUNDS : list (string * bounds) :=
  [("max_position_size_pct", MAX_POSITION_SIZE_BOUNDS);
   ("max_daily_loss_pct", MAX_DAILY_LOSS_BOUNDS);
   ("max_exposure_pct", MAX_EXPOSURE_BOUNDS)].

Definition risk_errors (risk : payload) (kb : string * bounds) : res (list string) :=
  let v := dget_or (fst kb) VNone risk in
  check (_in_bounds v (snd kb))
    ("risk." +:+ fst kb +:+ "=" +:+ Fmt.repr v +:+ " outside " +:+ repr_bounds (snd kb)).

(** Both thresholds in range, but the band is empty. *)
Definition band_errors (buy sell : val) : res (list string) :=
  let* b := _in_bounds buy BUY_THRESHOLD_BOUNDS in
  let* s := if b then _in_bounds sell SELL_THRESHOLD_BOUNDS else Ok false in
  if b && s then
    let* xs := py_float sell in
    let* xb := py_float buy in
    Ok (if fleb xb xs then ["sell_threshold must be strictly below buy_threshold"] else [])
  else Ok [].

Definition validate_config_dict (data : val) : res (list string) :=
  match data with
  | VDict d =>
      let* e1 := match dget_or "weights" VNone d with
                 | VDict ws => let* es := res_list (weight_errors ws) WEIGHT_KEYS in Ok (concat es)
                 | _ => Ok ["weights must be an object with news/tech/macro"]
                 end in
      let buy := dget_or "buy_threshold" VNone d in
      let sell := dget_or "sell_threshold" VNone d in
      let* e2 := check (_in_bounds buy BUY_THRESHOLD_BOUNDS)
                   ("buy_threshold outside " +:+ repr_bounds BUY_THRESHOLD_BOUNDS) in
      let* e3 := check (_in_bounds sell SELL_THRESHOLD_BOUNDS)
                   ("sell_threshold outside " +:+ repr_bounds SELL_THRESHOLD_BOUNDS) in
      let* e4 := band_errors buy sell in
      let* e5 := match dget_or "risk" VNone d with
                 | VDict r => let* es := res_list (risk_errors r) RISK_BOUNDS in Ok (concat es)
                 | _ => Ok ["risk must be an object"]
                 end in
      Ok (e1 ++ e2 ++ e3 ++ e4 ++ e5)
  | _ => Ok ["config is not a JSON object"]
  end.

(** [path], else the environment override, else the default. *)
Definition overrides_path (path env : option string) : string :=
  match path with
  | Some p => p
  | None => match env with
            | Some e => if String.eqb e "" then DEFAULT_OVERRIDES_PATH else e
            | None => DEFAULT_OVERRIDES_PATH
            end
  end.

(** What reading the file gave: no regular file, an [OSError] or
    [json.JSONDecodeError], or the parsed document. *)
Inductive file_read :=
| NoFile
| ReadError
| Parsed (raw : val).

Definition load_config (f : file_read) : res CognitiveConfig :=
  match f with
  | NoFile | ReadError => Ok DEFAULT_CONFIG
  | Parsed raw =>
      let* errors := validate_config_dict raw in
      match errors, raw with
      | [], VDict d => from_dict d
      | _, _ => Ok DEFAULT_CONFIG
      end
  end.

Definition clamp_weight (x : float) : float :=
  fmax (fst WEIGHT_BOUNDS) (fmin (snd WEIGHT_BOUNDS) x).

(** [config.weights.get(k, 0.0)] *)
Definition weight_of (c : CognitiveConfig) (k : string) : float :=
  dget_or k 0.0%F (weights c).

(** * Safety of a configuration *)

Record safe (c : CognitiveConfig) : Prop := {
  safe_keys : dkeys (weights c) = WEIGHT_KEYS;
  safe_weights : forall k x, dget k (weights c) = Some x ->
    within (fst WEIGHT_BOUNDS) (snd WEIGHT_BOUNDS) x;
  safe_buy : within (fst BUY_THRESHOLD_BOUNDS) (snd BUY_THRESHOLD_BOUNDS) (buy_threshold c);
  safe_sell : within (fst SELL_THRESHOLD_BOUNDS) (snd SELL_THRESHOLD_BOUNDS) (sell_threshold c);
  safe_band : fltb (sell_threshold c) (buy_threshold c) = true;
  safe_size : within (fst MAX_POSITION_SIZE_BOUNDS) (snd MAX_POSITION_SIZE_BOUNDS)
                (max_position_size_pct c);
  safe_loss : within (fst MAX_DAILY_LOSS_BOUNDS) (snd MAX_DAILY_LOSS_BOUNDS)
                (max_daily_loss_pct c);
  safe_exposure : within (fst MAX_EXPOSURE_BOUNDS) (snd MAX_EXPOSURE_BOUNDS)
                    (max_exposure_pct c);
}.

Lemma in_bounds_true v b x :
  _in_bounds v b = Ok true -> py_float v = Ok x -> within (fst b) (snd b) x.
Proof.
  intros H Hx. unfold _in_bounds in H. rewrite Hx in H.
  destruct v; try done; injection H as H; by apply andb_true_iff in H.
Qed.

Lemma check_nil m err : check m err = Ok [] -> m = Ok true.
Proof. unfold check. destruct m as [[]|]; simpl; congruence. Qed.

(** The float a field holds once it passed its bound check. *)
Lemma in_bounds_field d k b defaults x :
  _in_bounds (dget_or k VNone d) b = Ok true ->
  float_field (VDict d) k defaults = Ok x -> within (fst b) (snd b) x.
Proof.
  intros Hb Hx. unfold float_field in Hx. simpl in Hx.
  unfold dget_or in *. destruct (dget k d); [by eapply in_bounds_true|done].
Qed.

Lemma res_list_concat_nil {A B} (f : A -> res (list B)) l es :
  res_list f l = Ok es -> concat es = [] -> Forall (fun x => f x = Ok []) l.
Proof.
  revert es. induction l as [|x l IH]; intros es H Hc; [constructor|].
  simpl in H. inv_ok H. subst es. simpl in Hc. apply app_eq_nil in Hc as [-> Hc].
  constructor; [done|by eapply IH].
Qed.

(** What an empty error list says about the document. *)
Lemma validate_nil v :
  validate_config_dict v = Ok [] ->
  exists d ws r, v = VDict d /\ dget "weights" d = Some (VDict ws) /\ dget "risk" d = Some (VDict r)
  /\ Forall (fun k => weight_errors ws k = Ok []) WEIGHT_KEYS
  /\ _in_bounds (dget_or "buy_threshold" VNone d) BUY_THRESHOLD_BOUNDS = Ok true
  /\ _in_bounds (dget_or "sell_threshold" VNone d) SELL_THRESHOLD_BOUNDS = Ok true
  /\ band_errors (dget_or "buy_threshold" VNone d) (dget_or "sell_threshold" VNone d) = Ok []
  /\ Forall (fun kb => risk_errors r kb = Ok []) RISK_BOUNDS.
Proof.
  destruct v as [| | | | | |d]; try done. unfold validate_config_dict. intros H. inv_ok H.
  apply app_eq_nil in H as [-> H]. apply app_eq_nil in H as [-> H].
  apply app_eq_nil in H as [-> H]. apply app_eq_nil in H as [-> ->].
  unfold dget_or in Hv, Hv3 |- *.
  destruct (dget "weights" d) as [[| | | | | |ws]|] eqn:Ew; try done. inv_ok Hv.
  destruct (dget "risk" d) as [[| | | | | |r]|] eqn:Er; try done. inv_ok Hv3.
  exists d, ws, r. split_and!; try done.
  - by eapply res_list_concat_nil.
  - by eapply check_nil.
  - by eapply check_nil.
  - by eapply res_list_concat_nil.
Qed.

Lemma weight_errors_nil ws k x :
  weight_errors ws k = Ok [] -> float_field (VDict ws) k DEFAULT_WEIGHTS = Ok x ->
  within (fst WEIGHT_BOUNDS) (snd WEIGHT_BOUNDS) x.
Proof.
  unfold weight_errors, float_field. simpl. unfold dget_or.
  destruct (dget k ws) as [v|]; [|done]. intros H%check_nil Hx. by apply (in_bounds_true v WEIGHT_BOUNDS).
Qed.

Lemma or_empty_dict d : or_empty (VDict d) = VDict d.
Proof. by destruct d. Qed.

Lemma band_nil buy sell xb xs :
  band_errors buy sell = Ok [] ->
  _in_bounds buy BUY_THRESHOLD_BOUNDS = Ok true -> _in_bounds sell SELL_THRESHOLD_BOUNDS = Ok true ->
  py_float buy = Ok xb -> py_float sell = Ok xs -> fltb xs xb = true.
Proof.
  intros H Hb Hs Exb Exs. unfold band_errors in H. rewrite Hb, Hs in H. simpl in H.
  rewrite Exb, Exs in H. simpl in H.
  pose proof (within_not_nan _ _ _ (in_bounds_true _ _ _ Hb Exb)).
  pose proof (within_not_nan _ _ _ (in_bounds_true _ _ _ Hs Exs)).
  destruct (fleb xb xs) eqn:E; [done|]. by apply fleb_false.
Qed.

Lemma field_float d k defaults x v :
  dget k d = Some v -> float_field (VDict d) k defaults = Ok x -> py_float v = Ok x.
Proof. intros E H. unfold float_field in H. simpl in H. unfold dget_or in H. by rewrite E in H. Qed.

Lemma in_bounds_present k d b :
  _in_bounds (dget_or k VNone d) b = Ok true -> exists v, dget k d = Some v.
Proof. unfold dget_or. destruct (dget k d) as [v|]; [by exists v|done]. Qed.

(** A document without errors builds a safe configuration. *)
Lemma validated_safe v d c :
  validate_config_dict v = Ok [] -> v = VDict d -> from_dict d = Ok c -> safe c.
Proof.
  intros (d' & ws & r & -> & Hw & Hr & Hws & Hbuy & Hsell & Hband & Hrs)%validate_nil [= ->] Hc.
  unfold from_dict in Hc. rewrite (dget_or_Some _ _ _ _ Hw), (dget_or_Some _ _ _ _ Hr) in Hc.
  rewrite !or_empty_dict in Hc.
  inv_ok Hc. subst c.
  apply Forall_cons in Hws as [Hn Hws]. apply Forall_cons in Hws as [Ht Hws].
  apply Forall_cons in Hws as [Hm _].
  apply Forall_cons in Hrs as [R1 Hrs]. apply Forall_cons in Hrs as [R2 Hrs].
  apply Forall_cons in Hrs as [R3 _].
  simpl in Hv. inv_ok Hv. inv_ok Hv6. subst.
  repeat match goal with H : res_bind _ _ = Ok _ |- _ => inv_ok H end. simplify_eq.
  apply check_nil in R1, R2, R3. simpl in R1, R2, R3.
  destruct (in_bounds_present _ _ _ Hbuy) as [vb Eb].
  destruct (in_bounds_present _ _ _ Hsell) as [vs Es].
  split; cbn [weights buy_threshold sell_threshold max_position_size_pct max_daily_loss_pct
              max_exposure_pct].
  - done.
  - intros k x Hk. cbn [dget] in Hk. repeat case_match_hyp Hk; injection Hk as <-;
      eauto using weight_errors_nil.
  - by eapply (in_bounds_field d "buy_threshold").
  - by eapply (in_bounds_field d "sell_threshold").
  - eapply band_nil; [exact Hband|exact Hbuy|exact Hsell|..].
    + rewrite (dget_or_Some _ _ _ _ Eb). by eapply field_float.
    + rewrite (dget_or_Some _ _ _ _ Es). by eapply field_float.
  - by eapply (in_bounds_field r "max_position_size_pct").
  - by eapply (in_bounds_field r "max_daily_loss_pct").
  - by eapply (in_bounds_field r "max_exposure_pct").
Qed.

Definition sample_config : CognitiveConfig :=
  {| version := 7; weights := [("news", 0.25%F); ("tech", 0.5%F); ("macro", 0.125%F)];
     buy_threshold := 0.2%F; sell_threshold := (-0.1)%F; max_position_size_pct := 0.1%F;
     max_daily_loss_pct := 0.03%F; max_exposure_pct := 0.4%F |}.

Lemma from_dict_to_dict c : dkeys (weights c) = WEIGHT_KEYS -> from_dict (to_dict c) = Ok c.
Proof.
  intros H. destruct c as [v ws b s p l e]. cbn [weights] in H.
  destruct ws as [|[k1 w1] [|[k2 w2] [|[k3 w3] [|]]]]; try discriminate H.
  unfold dkeys, WEIGHT_KEYS in H. cbn [map fst] in H.
  injection H as -> -> ->. reflexivity.
Qed.

(** [from_dict] inverts [to_dict] on every configuration that has exactly the
    three weights. *)
Theorem config_roundtrip c :
  dkeys (weights c) = WEIGHT_KEYS -> from_dict (to_dict c) = Ok c.
Proof. apply from_dict_to_dict. Qed.

Lemma config_roundtrip_witness : from_dict (to_dict sample_config) = Ok sample_config.
Proof. apply (config_roundtrip sample_config). reflexivity. Defined.

Lemma default_config_safe : safe DEFAULT_CONFIG.
Proof.
  split.
  - reflexivity.
  - intros k x Hk. cbn [dget weights DEFAULT_CONFIG] in Hk.
    do 3 (destruct (String.eqb _ _) in Hk; [apply Some_inj in Hk as <-; split; fconst|]).
    done.
  - split; fconst.
  - split; fconst.
  - fconst.
  - split; fconst.
  - split; fconst.
  - split; fconst.
Qed.

Lemma load_safe f c : load_config f = Ok c -> safe c.
Proof.
  destruct f as [| |raw]; [intros <-%Ok_inj; apply default_config_safe..|].
  simpl. intros H. apply res_bind_Ok in H as (errors & He & H).
  destruct errors; [|apply Ok_inj in H as <-; apply default_config_safe].
  destruct raw as [| | | | | |d]; try (apply Ok_inj in H as <-; apply default_config_safe).
  by eapply validated_safe.
Qed.

(** Whatever the file holds, a configuration that [load_config] returns is
    safe: exactly the three weights, each in [0, 1], the thresholds in their ranges
    with [sell < buy], and the three risk limits in their ranges. *)
Theorem load_config_safe f c : load_config f = Ok c -> safe c.
Proof. apply load_safe. Qed.

Lemma load_config_safe_witness : safe sample_config.
Proof.
  apply (load_config_safe (Parsed (VDict (to_dict sample_config)))). vm_compute. reflexivity.
Defined.

Definition with_version (v : val) : file_read :=
  Parsed (VDict (dset "version" v (to_dict DEFAULT_CONFIG))).

(** [load_config] can raise although it is documented never to: the validator
    does not look at [version], and an integer beyond the double range escapes the
    handler of [_in_bounds]. *)
Theorem load_config_raises :
  load_config (with_version (VStr "latest")) = Raise ValueError /\
  load_config (with_version VNone) = Raise TypeError /\
  load_config (Parsed (VDict (dset "buy_threshold" (VInt (10 ^ 400)) (to_dict DEFAULT_CONFIG))))
    = Raise OverflowError.
Proof. split_and!; vm_compute; reflexivity. Qed.
