(* ===== verification/Agents.v ===== *)
(** Agents: the cognitive specialists (cognitive/agents.py) and the feature
    aggregation layer (cognitive/aggregation.py). *)
From S2P Require Import Prelude PyFloat FloatFacts PyVal PyMath Events.

Definition NEWS_AGENT : string := "news_agent".
Definition TECH_AGENT : string := "technical_agent".
Definition MACRO_AGENT : string := "macro_agent".
Definition RISK_AGENT : string := "risk_agent".
Definition REASONING_AGENT : string := "reasoning_agent".

Definition TECH_WINDOW : Z := 10.
Definition MACRO_WINDOW : Z := 60.
Definition RISK_WINDOW : Z := 30.
Definition MACRO_DRIFT_SCALE : float := 10.0%F.
Definition RISK_VOL_SCALE : float := 25.0%F.
Definition HIGH_VOL_THRESHOLD : float := 0.02%F.
Definition DRAWDOWN_FLAG_THRESHOLD : float := 0.10%F.

Definition FLAG_HIGH_VOLATILITY : string := "high_volatility".
Definition FLAG_DRAWDOWN : string := "drawdown".

Definition clamp_in (lo hi x : float) : float := fmax lo (fmin hi x).
Definition clamp (x : float) : float := clamp_in (-1.0)%F 1.0%F x.
Definition clamp01 (x : float) : float := fmax 0.0%F (fmin 1.0%F x).

Record MarketView := {
  symbol : string;
  price : float;
  history : list float;
  mv_news_sentiment : option float;
  mv_news_confidence : float;
  mv_ts : string;
}.

(** Bar-to-bar returns; a zero previous price is skipped, so the division is safe. *)
Fixpoint _returns (h : list float) : list float :=
  match h with
  | prev :: ((cur :: _) as h') =>
      if ftruthy prev then fdiv_nz (cur - prev)%F prev :: _returns h' else _returns h'
  | _ => []
  end.

(** One price of the peak-to-trough scan: (peak, worst drop). *)
Definition drawdown_step (acc : float * float) (p : float) : float * float :=
  let peak := fmax (fst acc) p in
  (peak,
   if ftruthy peak then fmax (snd acc) (fdiv_nz (peak - p)%F peak) else snd acc).

Definition drawdown (prices : list float) : float :=
  snd (fold_left drawdown_step prices (match prices with p :: _ => p | [] => 0.0%F end, 0.0%F)).

Section Scorers.
Context `{Libm}.

(** The momentum z-score of a window with mean [mean] and deviation [sd]. *)
Definition z_score (mean sd : float) : float :=
  if fltb 1e-9%F sd then fdiv_nz mean sd
  else if ftruthy mean then copysign 3.0%F mean
  else 0.0%F.

Definition technical_trend (h : list float) (window : Z) : res (float * float) :=
  let rets := slice_last window (_returns h) in
  match rets with
  | [] => Ok (0.0%F, 0.0%F)
  | _ =>
      let* mean := fmean rets in
      let* sd := if 1 <? zlen rets then pstdev rets else Ok 0.0%F in
      let trend := tanh (z_score mean sd) in
      let same r := Bool.eqb (fltb 0.0%F r) (fltb 0.0%F mean) in
      let* same_dir := if ftruthy mean
                       then int_div (zlen (List.filter same rets)) (zlen rets)
                       else Ok 0.0%F in
      Ok (py_round trend 4, py_round (clamp01 (fabs trend * same_dir)%F) 4)
  end.

Definition macro_regime (h : list float) (window : Z) : float :=
  let w := slice_last window h in
  match w with
  | first :: _ =>
      if (zlen w <? 2) || negb (ftruthy first) then 0.0%F
      else
        let drift := fdiv_nz (List.last w 0.0%F - first)%F first in
        py_round (tanh (drift * MACRO_DRIFT_SCALE)%F) 4
  | [] => 0.0%F
  end.

Definition risk_assessment (h : list float) (window : Z) : res (float * list string) :=
  let rets := slice_last window (_returns h) in
  let prices := slice_last window h in
  let* vol := if 1 <? zlen rets then pstdev rets else Ok 0.0%F in
  let max_drawdown := drawdown prices in
  let risk_score := clamp01 (vol * RISK_VOL_SCALE + max_drawdown)%F in
  let flags :=
    (if fltb HIGH_VOL_THRESHOLD vol then [FLAG_HIGH_VOLATILITY] else [])
    ++ (if fltb DRAWDOWN_FLAG_THRESHOLD max_drawdown then [FLAG_DRAWDOWN] else []) in
  Ok (py_round risk_score 4, flags).

Definition news_sentiment (m : MarketView) : float * float :=
  match mv_news_sentiment m with
  | None => (0.0%F, 0.0%F)
  | Some s => (py_round (clamp s) 4, py_round (clamp01 (mv_news_confidence m)) 4)
  end.

(** * The scorer of each specialist *)

Definition NewsScorer := MarketView -> res (float * float).
Definition TechScorer := MarketView -> res (float * float).
Definition MacroScorer := MarketView -> res float.
Definition RiskScorer := MarketView -> res (float * list string).

Definition default_news : NewsScorer := fun m => Ok (news_sentiment m).
Definition default_tech : TechScorer := fun m => technical_trend (history m) TECH_WINDOW.
Definition default_macro : MacroScorer := fun m => Ok (macro_regime (history m) MACRO_WINDOW).
Definition default_risk : RiskScorer := fun m => risk_assessment (history m) RISK_WINDOW.

End Scorers.

(** * Payloads *)

Definition analyze_news (scorer : NewsScorer) (m : MarketView) : res payload :=
  let* (sentiment, confidence) := scorer m in
  Ok [("type", VStr (value NEWS_SIGNAL)); ("sentiment", VFloat sentiment);
      ("confidence", VFloat confidence)].

Definition analyze_tech (scorer : TechScorer) (m : MarketView) : res payload :=
  let* (trend, confidence) := scorer m in
  Ok [("type", VStr (value TECH_SIGNAL)); ("trend", VFloat trend);
      ("confidence", VFloat confidence)].

Definition analyze_macro (scorer : MacroScorer) (m : MarketView) : res payload :=
  let* regime := scorer m in
  Ok [("type", VStr (value MACRO_SIGNAL)); ("regime", VFloat regime)].

Definition analyze_risk (scorer : RiskScorer) (m : MarketView) : res payload :=
  let* (risk_score, flags) := scorer m in
  Ok [("type", VStr (value RISK_SIGNAL)); ("risk_flags", VList (map VStr flags));
      ("risk_score", VFloat risk_score)].

(** Score, then put the payload on the stream. *)
Definition emit_signal (k : EventType) (name : string) (analyze : MarketView -> res payload)
    (m : MarketView) (tid : string) (st : EventStream) : res (payload * EventStream) :=
  let* p := analyze m in
  Ok (p, Stream.emit_ k p tid name (mv_ts m) st).

Definition emit_news (s : NewsScorer) := emit_signal NEWS_SIGNAL NEWS_AGENT (analyze_news s).
Definition emit_tech (s : TechScorer) := emit_signal TECH_SIGNAL TECH_AGENT (analyze_tech s).
Definition emit_macro (s : MacroScorer) := emit_signal MACRO_SIGNAL MACRO_AGENT (analyze_macro s).
Definition emit_risk (s : RiskScorer) := emit_signal RISK_SIGNAL RISK_AGENT (analyze_risk s).

Definition vfloat_dict (d : dict float) : payload := map (fun kv => (fst kv, VFloat (snd kv))) d.

Definition analyze_reasoning (signals : dict float) : payload :=
  let g k := dget_or k 0.0%F signals in
  let summary :=
    "news " +:+ Fmt.fixed_plus 2 (g "news") +:+ ", tech " +:+ Fmt.fixed_plus 2 (g "tech")
    +:+ ", macro " +:+ Fmt.fixed_plus 2 (g "macro") +:+ "; risk " +:+ Fmt.fixed 2 (g "risk") in
  [("type", VStr (value REASONING)); ("summary", VStr summary);
   ("signals_summary", VDict (vfloat_dict signals))].

Definition emit_reasoning (signals : dict float) (tid ts : string) (st : EventStream)
  : payload * EventStream :=
  let p := analyze_reasoning signals in
  (p, Stream.emit_ REASONING p tid REASONING_AGENT ts st).

(** * Feature aggregation *)

Definition FEATURE_KEYS : list string := ["news"; "tech"; "macro"; "risk"].

Definition pfloat (p : payload) (k : string) (default : float) : res float :=
  py_float (dget_or k (VFloat default) p).

Definition aggregate (news tech macro risk : payload) : res (dict float) :=
  let* s := pfloat news "sentiment" 0.0%F in
  let* sc := pfloat news "confidence" 1.0%F in
  let* t := pfloat tech "trend" 0.0%F in
  let* tc := pfloat tech "confidence" 1.0%F in
  let* r := pfloat macro "regime" 0.0%F in
  let* x := pfloat risk "risk_score" 0.0%F in
  Ok [("news", py_round (clamp (s * sc)%F) 6);
      ("tech", py_round (clamp (t * tc)%F) 6);
      ("macro", py_round (clamp r) 6);
      ("risk", py_round (clamp01 x) 6)].

(** * Ranges *)

Definition unit_signed (x : float) : Prop := within (-1.0)%F 1.0%F x.
Definition unit_pos (x : float) : Prop := within 0.0%F 1.0%F x.

Lemma clamp_in_within lo hi x : fleb lo hi = true -> within lo hi (clamp_in lo hi x).
Proof. apply clamp_within. Qed.

Lemma clamp_unit x : unit_signed (clamp x).
Proof. apply clamp_in_within. fconst. Qed.

Lemma clamp01_unit x : unit_pos (clamp01 x).
Proof. apply clamp_within. fconst. Qed.

Lemma round_unit_signed d x : d = 4 \/ d = 6 -> unit_signed x -> unit_signed (py_round x d).
Proof. intros [-> | ->]; apply py_round_within; (lia || fconst). Qed.

Lemma round_unit_pos d x : d = 4 \/ d = 6 -> unit_pos x -> unit_pos (py_round x d).
Proof. intros [-> | ->]; apply py_round_within; (lia || fconst). Qed.

Lemma unit_signed_finite x : unit_signed x -> is_finite x = true.
Proof. apply within_finite; fconst. Qed.

Lemma unit_pos_finite x : unit_pos x -> is_finite x = true.
Proof. apply within_finite; fconst. Qed.

#[export] Hint Resolve clamp_unit clamp01_unit round_unit_signed round_unit_pos
  unit_signed_finite unit_pos_finite : float.


Section Facts.
Context `{Libm}.

Lemma z_score_not_nan mean sd :
  (fltb 1e-9%F sd = true -> mean <> NaN /\ is_finite sd = true) -> z_score mean sd <> NaN.
Proof.
  intros H0. unfold z_score. destruct (fltb 1e-9%F sd) eqn:E.
  - destruct (H0 eq_refl) as [Hm Hs]. apply fdiv_nz_not_nan; eauto with float.
  - case_match_goal; [|apply dec_not_nan]. apply copysign_not_nan. fconst.
Qed.

(** The deviation used when the window has at least two returns. *)
Lemma window_sd rets sd :
  (if 1 <? zlen rets then pstdev rets else Ok 0.0%F) = Ok sd ->
  fltb 1e-9%F sd = true -> forallb is_finite rets = true /\ is_finite sd = true.
Proof.
  destruct (1 <? zlen rets).
  - intros Hp _. split; [by eapply pstdev_finite|]. by eapply pstdev_nonneg.
  - intros [= <-]. intros Hlt. exfalso. revert Hlt. by vm_compute.
Qed.

Lemma technical_trend_range h w t c :
  technical_trend h w = Ok (t, c) -> unit_signed t /\ unit_pos c.
Proof.
  unfold technical_trend. destruct (slice_last w (_returns h)) as [|r rs].
  { intros [<- <-]%Ok_pair_inj. split; split; fconst. }
  generalize (r :: rs). intros rets H0. inv_ok H0. apply Ok_pair_inj in H0 as [<- <-].
  split; [|by auto with float].
  apply round_unit_signed; [by left|]. apply tanh_within, z_score_not_nan.
  intros Hlt. destruct (window_sd _ _ Hv0 Hlt). split; [|done]. by eapply fmean_not_nan.
Qed.

Lemma risk_assessment_range h w score flags :
  risk_assessment h w = Ok (score, flags) ->
  unit_pos score /\ Forall (fun f => f = FLAG_HIGH_VOLATILITY \/ f = FLAG_DRAWDOWN) flags.
Proof.
  unfold risk_assessment. intros H0. inv_ok H0. apply Ok_pair_inj in H0 as [<- <-].
  split; [by auto with float|]. apply Forall_app.
  split; apply Forall_if; (constructor; [|constructor]); [by left|by right].
Qed.

Lemma Forall_last {A} (P : A -> Prop) l d : Forall P l -> P d -> P (List.last l d).
Proof.
  intros Hl Hd. induction l as [|x l IH]; [done|]. apply Forall_cons in Hl as [Hx Hl].
  destruct l; [done|]. by apply IH.
Qed.

Lemma macro_regime_range h w :
  Forall (fun x => is_finite x = true) h -> unit_signed (macro_regime h w).
Proof.
  intros Hh. unfold macro_regime. apply (Forall_slice_last _ w) in Hh.
  destruct (slice_last w h) as [|first rest]; [split; fconst|].
  case_match_goal; [split; fconst|].
  apply round_unit_signed; [by left|]. apply tanh_within, fmul_const_not_nan; [|fconst..].
  pose proof (Forall_inv Hh) as Hf.
  assert (is_finite (List.last (first :: rest) 0.0%F) = true) as Hl
    by (apply (Forall_last (fun x => is_finite x = true)); [done|fconst]).
  apply fdiv_nz_not_nan; [by right| |by apply finite_not_nan].
  apply fsub_not_nan; auto with float.
Qed.

Lemma news_sentiment_range m s c :
  news_sentiment m = (s, c) -> unit_signed s /\ unit_pos c.
Proof.
  unfold news_sentiment. case_match_goal; intros [<- <-]%pair_equal_spec; [by auto with float|].
  split; split; fconst.
Qed.

(** The feature vector is in range whatever the payloads hold. *)
Lemma aggregate_range n t m r fs :
  aggregate n t m r = Ok fs ->
  exists fn ft fm fr,
    fs = [("news", fn); ("tech", ft); ("macro", fm); ("risk", fr)] /\
    unit_signed fn /\ unit_signed ft /\ unit_signed fm /\ unit_pos fr.
Proof.
  unfold aggregate. intros H0. inv_ok H0. subst fs.
  do 4 eexists. split; [done|]. auto 10 with float.
Qed.

(** NaN is not neutral: clamping maps it to the upper end. *)
Lemma clamp_nan : feqb (clamp NaN) 1.0%F = true /\ feqb (clamp01 NaN) 1.0%F = true.
Proof. split; fconst. Qed.

End Facts.

(** * Totality on moderate prices *)

Definition price_ok (p : float) : Prop := within 0.01%F 1e9%F p.

Lemma price_finite p : price_ok p -> is_finite p = true.
Proof. apply within_finite; fconst. Qed.

Lemma price_pos p : price_ok p -> fltb (Fin 0) p = true.
Proof. intros [H _]. refine (fltb_fleb_trans _ _ _ _ H). fconst. Qed.

Lemma price_change_ok p q :
  price_ok p -> price_ok q -> sample_ok (fdiv_nz (q - p)%F p).
Proof.
  intros Hp Hq. pose proof (price_finite p Hp) as Fp. pose proof (price_finite q Hq) as Fq.
  assert (within (-1e9)%F 1e9%F (q - p)%F) as Hd
    by (apply (fsub_within 0.01%F 1e9%F 0.01%F 1e9%F); [fconst..|exact Hq|exact Hp]).
  apply (fdiv_within_sym (-1e9)%F 1e9%F 0.01%F (-1e12)%F 1e12%F);
    [fconst..|exact Hd|exact (proj1 Hp)|exact Fp].
Qed.

Lemma returns_ok h : Forall price_ok h -> Forall sample_ok (_returns h).
Proof.
  induction h as [|p [|q h] IH]; intros Hh; [by apply Forall_nil..|].
  apply Forall_cons in Hh as [Hp Hh]. pose proof Hh as Hh'. apply Forall_cons in Hh' as [Hq _].
  specialize (IH Hh).
  change (_returns (p :: q :: h)) with
    (if ftruthy p then fdiv_nz (q - p)%F p :: _returns (q :: h) else _returns (q :: h)).
  destruct (ftruthy p); [|exact IH].
  apply Forall_cons. split; [by apply price_change_ok|exact IH].
Qed.

Lemma window_len {A} n (l : list A) : 0 < n -> zlen (slice_last n l) <= n.
Proof. intros Hn. pose proof (slice_last_length n l Hn). unfold zlen. lia. Qed.

Lemma vol_total rets :
  Forall sample_ok rets -> exists sd, (if 1 <? zlen rets then pstdev rets else Ok 0.0%F) = Ok sd.
Proof.
  intros Hr. destruct (Z.ltb_spec 1 (zlen rets)) as [Hlen|]; [|by eexists].
  apply pstdev_total; [|done]. intros ->. unfold zlen in Hlen. simpl in Hlen. lia.
Qed.

Section Totality.
Context `{Libm}.

Lemma technical_trend_total h w :
  0 < w <= 2 ^ 30 -> Forall price_ok h -> exists t c, technical_trend h w = Ok (t, c).
Proof.
  intros Hw Hh. unfold technical_trend.
  pose proof (Forall_slice_last _ w _ (returns_ok h Hh)) as Hr.
  pose proof (window_len w (_returns h) ltac:(lia)) as Hlen.
  destruct (slice_last w (_returns h)) as [|r rs]; [by do 2 eexists|].
  destruct (fmean_total (r :: rs)) as [m ->]; [done|lia|exact Hr|]. cbn [res_bind].
  destruct (vol_total _ Hr) as [sd ->]. cbn [res_bind].
  destruct (ftruthy m); [|by do 2 eexists].
  assert (0 < zlen (r :: rs)) by (unfold zlen; simpl; lia).
  match goal with |- context [int_div ?a ?b] =>
    destruct (int_div_ok a b) as (q & -> & _); [|done|by do 2 eexists] end.
  match goal with |- context [List.filter ?f ?l] =>
    pose proof (List.filter_length_le f l) end.
  assert (2 ^ 30 < 2 ^ 1000) by (by vm_compute). unfold zlen in *. lia.
Qed.

Lemma risk_assessment_total h w :
  0 < w -> Forall price_ok h -> exists x fl, risk_assessment h w = Ok (x, fl).
Proof.
  intros Hw Hh. unfold risk_assessment.
  destruct (vol_total _ (Forall_slice_last _ w _ (returns_ok h Hh))) as [sd ->].
  by do 2 eexists.
Qed.

End Totality.

(** Whatever the four signal payloads hold, strings and NaN included, an aggregated
    feature vector has exactly the four keys, with news, tech and macro in [-1, 1] and
    risk in [0, 1]. *)
Theorem feature_vector_range n t m r fs :
  aggregate n t m r = Ok fs ->
  dkeys fs = FEATURE_KEYS /\
  Forall (fun k => unit_signed (dget_or k 0.0%F fs)) ["news"; "tech"; "macro"] /\
  unit_pos (dget_or "risk" 0.0%F fs).
Proof.
  intros (fn & ft & fm & fr & -> & Hn & Ht & Hm & Hr)%aggregate_range.
  split; [reflexivity|]. split; [|exact Hr].
  repeat (apply Forall_cons; split; [assumption|]). by apply Forall_nil.
Qed.

Lemma feature_vector_range_witness :
  exists fs, aggregate [("sentiment", VStr "0.5")] [("trend", VFloat NaN)] [] [] = Ok fs /\
    dkeys fs = FEATURE_KEYS /\ feqb (dget_or "tech" 0.0%F fs) 1.0%F = true.
Proof.
  destruct (aggregate [("sentiment", VStr "0.5")] [("trend", VFloat NaN)] [] []) as [fs|] eqn:E;
    [|exfalso; vm_compute in E; congruence].
  exists fs. split; [reflexivity|].
  split; [exact (proj1 (feature_vector_range _ _ _ _ _ E))|].
  vm_compute in E. apply Ok_inj in E. rewrite <- E. vm_compute. reflexivity.
Defined.

(** The default scorers keep their ranges on any history of finite prices: trend and
    regime in [-1, 1], confidences and the risk score in [0, 1], and only the two known
    risk flags. *)
Theorem default_signals_range `{Libm} m :
  Forall (fun x => is_finite x = true) (history m) ->
  (forall s c, default_news m = Ok (s, c) -> unit_signed s /\ unit_pos c) /\
  (forall t c, default_tech m = Ok (t, c) -> unit_signed t /\ unit_pos c) /\
  (forall r, default_macro m = Ok r -> unit_signed r) /\
  (forall x fl, default_risk m = Ok (x, fl) -> unit_pos x /\
     Forall (fun f => f = FLAG_HIGH_VOLATILITY \/ f = FLAG_DRAWDOWN) fl).
Proof.
  intros Hh. split; [|split; [|split]].
  - intros s c E%Ok_inj. by apply (news_sentiment_range m).
  - intros t c. apply technical_trend_range.
  - intros r E%Ok_inj. subst r. by apply macro_regime_range.
  - intros x fl. apply risk_assessment_range.
Qed.

Definition sample_market : MarketView :=
  {| symbol := "BTC"; price := 101.0%F; history := [100.0%F; 102.0%F; 101.0%F];
     mv_news_sentiment := Some 0.4%F; mv_news_confidence := 0.5%F; mv_ts := "t" |}.

Section RangeWitness.
#[local] Existing Instance libm_ref.

Lemma default_signals_range_witness :
  exists x fl, default_risk sample_market = Ok (x, fl) /\ unit_pos x.
Proof.
  assert (Forall (fun x => is_finite x = true) (history sample_market)) as Hf
    by (repeat (apply Forall_cons; split; [fconst|]); by apply Forall_nil).
  destruct (default_risk sample_market) as [[x fl]|] eqn:E; [|exfalso; vm_compute in E; congruence].
  exists x, fl. split; [reflexivity|].
  exact (proj1 (proj2 (proj2 (proj2 (default_signals_range sample_market Hf))) x fl E)).
Defined.

End RangeWitness.

(** A sentiment that is not a number is read as full conviction, not as no signal:
    clamping maps NaN to the upper bound. *)
Theorem nan_sentiment_is_bullish m :
  mv_news_sentiment m = Some NaN -> feqb (fst (news_sentiment m)) 1.0%F = true.
Proof. intros E. unfold news_sentiment. rewrite E. cbn [fst]. fconst. Qed.

Lemma nan_sentiment_is_bullish_witness :
  feqb (fst (news_sentiment {| symbol := "X"; price := 1.0%F; history := [];
    mv_news_sentiment := Some NaN; mv_news_confidence := 1.0%F; mv_ts := "" |})) 1.0%F = true.
Proof. apply nan_sentiment_is_bullish. reflexivity. Defined.
