(* ===== verification/Decision.v ===== *)
(** Decision: the scoring engine (cognitive/decision.py), the hard risk gate
    (cognitive/risk.py) and order sizing (cognitive/execution.py). *)
From S2P Require Import Prelude PyFloat FloatFacts PyVal PyMath Events Config Agents.

Definition BUY : string := "buy".
Definition SELL : string := "sell".
Definition HOLD : string := "hold".

(** * Decision engine *)

Record Decision := {
  action : string;
  score : float;
  breakdown : dict float;
  d_buy_threshold : float;
  d_sell_threshold : float;
}.

Definition decision_as_dict (d : Decision) : payload :=
  [("type", VStr (value DECISION)); ("action", VStr (action d)); ("score", VFloat (score d));
   ("breakdown", VDict (vfloat_dict (breakdown d)));
   ("buy_threshold", VFloat (d_buy_threshold d));
   ("sell_threshold", VFloat (d_sell_threshold d))].

(** [round(feature * weight, 6)] of one signal. *)
Definition contribution (features : dict float) (c : CognitiveConfig) (k : string) : float :=
  py_round (dget_or k 0.0%F features * weight_of c k)%F 6.

Definition pick (score buy sell : float) : string :=
  if fltb buy score then BUY else if fltb score sell then SELL else HOLD.

Definition decide (features : dict float) (c : CognitiveConfig) : Decision :=
  let bd := map (fun k => (k, contribution features c k)) WEIGHT_KEYS in
  let s := py_round (fsum_left (dvalues bd)) 6 in
  {| action := pick s (buy_threshold c) (sell_threshold c);
     score := s;
     breakdown := bd;
     d_buy_threshold := buy_threshold c;
     d_sell_threshold := sell_threshold c |}.

(** * Risk gate *)

Definition BLOCK_POSITION_SIZE : string := "max_position_size".
Definition BLOCK_EXPOSURE : string := "max_exposure".
Definition BLOCK_DAILY_LOSS : string := "max_daily_loss".

Record RiskGate := {
  allowed : bool;
  blocks : list string;
  requested_position_pct : float;
}.

Definition gate_as_dict (g : RiskGate) : payload :=
  [("type", VStr (value RISK_GATE)); ("allowed", VBool (allowed g));
   ("blocks", VList (map VStr (blocks g)));
   ("requested_position_pct", VFloat (requested_position_pct g))].

Definition is_trade (d : Decision) : bool :=
  String.eqb (action d) BUY || String.eqb (action d) SELL.

Definition evaluate_risk (d : Decision) (c : CognitiveConfig) (requested exposure day_pnl : float)
  : RiskGate :=
  let bs :=
    if is_trade d then
      (if fltb (max_position_size_pct c) requested then [BLOCK_POSITION_SIZE] else [])
      ++ (if fltb (max_exposure_pct c) (exposure + requested)%F then [BLOCK_EXPOSURE] else [])
      ++ (if fleb day_pnl (- max_daily_loss_pct c)%F then [BLOCK_DAILY_LOSS] else [])
    else [] in
  {| allowed := is_trade d && match bs with [] => true | _ => false end;
     blocks := bs;
     requested_position_pct := requested |}.

(** * Execution *)

Definition FILLED : string := "filled".
Definition SKIPPED : string := "skipped".

Record Execution := {
  ex_symbol : string;
  side : string;
  qty : float;
  ex_price : float;
  notional : float;
  status : string;
}.

Definition execution_as_dict (e : Execution) : payload :=
  [("type", VStr (value EXECUTION)); ("symbol", VStr (ex_symbol e)); ("side", VStr (side e));
   ("qty", VFloat (qty e)); ("price", VFloat (ex_price e)); ("notional", VFloat (notional e));
   ("status", VStr (status e))].

(** The division runs only when [price <= 0] is false, so the price is not zero. *)
Definition execute (d : Decision) (g : RiskGate) (symbol : string) (price equity : float)
  : Execution :=
  if negb (allowed g) || fleb price 0.0%F then
    {| ex_symbol := symbol; side := action d; qty := 0.0%F; ex_price := price;
       notional := 0.0%F; status := SKIPPED |}
  else
    let n := (equity * requested_position_pct g)%F in
    {| ex_symbol := symbol; side := action d; qty := py_round (fdiv_nz n price) 8;
       ex_price := price; notional := py_round n 2; status := FILLED |}.

(** * Facts *)

Lemma pick_buy s b l : pick s b l = BUY <-> fltb b s = true.
Proof. unfold pick. destruct (fltb b s); [done|]. by destruct (fltb s l). Qed.

Lemma pick_sell s b l : pick s b l = SELL <-> fltb b s = false /\ fltb s l = true.
Proof. unfold pick. destruct (fltb b s); [naive_solver|]. by destruct (fltb s l); naive_solver. Qed.

Lemma pick_hold s b l : pick s b l = HOLD <-> fltb b s = false /\ fltb s l = false.
Proof. unfold pick. destruct (fltb b s); [naive_solver|]. by destruct (fltb s l); naive_solver. Qed.

Lemma fmul_signed_unit x y : unit_signed x -> unit_pos y -> unit_signed (fmul x y).
Proof.
  intros Hx Hy. pose proof (unit_signed_finite x Hx) as Fx. pose proof (unit_pos_finite y Hy) as Fy.
  destruct Hx as [H1 H2], Hy as [H3 H4]. pose proof scale_pos.
  assert (key (-1.0)%F = Some (- scale)) as Km by fconst.
  assert (units (-1.0)%F = - scale) as Um by fconst.
  assert (units 1.0%F = scale) as Uo by fconst.
  assert (units 0.0%F = 0) as Uz by fconst.
  assert (is_finite (-1.0)%F = true) as Fm by fconst.
  assert (is_finite 1.0%F = true) as Fo by fconst.
  assert (is_finite 0.0%F = true) as Fz by fconst.
  apply (fleb_units _ _ Fm Fx) in H1. apply (fleb_units _ _ Fx Fo) in H2.
  apply (fleb_units _ _ Fz Fy) in H3. apply (fleb_units _ _ Fy Fo) in H4.
  rewrite Um in H1. rewrite Uo in H2, H4. rewrite Uz in H3.
  assert (- (1 * scale) * scale <= units x * units y <= (1 * scale) * scale) as [L U] by nia.
  split; apply fleb_key; do 2 eexists.
  - rewrite Km, fmul_key by done. do 2 (split; [done|]).
    replace (- scale) with (sat (-1 * scale)) by (rewrite sat_int by lia; lia).
    apply sat_mono, Rnd.rnd_ge; [done|apply repr_int; lia|lia].
  - rewrite key_one, fmul_key by done. do 2 (split; [done|]).
    rewrite <- (Z.mul_1_l scale) at 2. rewrite <- (sat_int 1) by lia.
    apply sat_mono, Rnd.rnd_le; [done| |lia]. apply repr_int. lia.
Qed.

Lemma contribution_unit fs c k :
  safe c -> unit_signed (dget_or k 0.0%F fs) -> unit_signed (contribution fs c k).
Proof.
  intros Hc Hf. apply round_unit_signed; [by right|]. apply fmul_signed_unit; [done|].
  unfold weight_of, dget_or. destruct (dget k (weights c)) as [w|] eqn:E.
  - by eapply (safe_weights c).
  - split; fconst.
Qed.

(** The score of in-range features under a safe configuration stays in [-3, 3]. *)
Lemma score_range fs c :
  safe c -> (forall k, unit_signed (dget_or k 0.0%F fs)) ->
  within (-3.0)%F 3.0%F (score (decide fs c)).
Proof.
  intros Hc Hf. unfold decide, score, fsum_left. cbn [map WEIGHT_KEYS dvalues snd fold_left].
  pose proof (contribution_unit fs c "news" Hc (Hf _)) as H1.
  pose proof (contribution_unit fs c "tech" Hc (Hf _)) as H2.
  pose proof (contribution_unit fs c "macro" Hc (Hf _)) as H3.
  apply (py_round_within (-3.0)%F 3.0%F); [lia|fconst..|].
  apply (fadd_within (-2.0)%F 2.0%F (-1.0)%F 1.0%F); [fconst..| |done].
  apply (fadd_within (-1.0)%F 1.0%F (-1.0)%F 1.0%F); [fconst..| |done].
  apply (fadd_within (Fin 0) (Fin 0) (-1.0)%F 1.0%F); [fconst..| |done]. split; fconst.
Qed.

(** Only the scored keys matter. *)
Lemma decide_ext fs fs' c :
  Forall (fun k => dget_or k 0.0%F fs = dget_or k 0.0%F fs') WEIGHT_KEYS ->
  decide fs c = decide fs' c.
Proof.
  intros H. unfold decide.
  assert (map (fun k => (k, contribution fs c k)) WEIGHT_KEYS
        = map (fun k => (k, contribution fs' c k)) WEIGHT_KEYS) as ->; [|done].
  apply map_ext_Forall. eapply Forall_impl; [exact H|].
  intros k Hk. unfold contribution. by rewrite Hk.
Qed.

Lemma app_nil_iff {A} (l1 l2 : list A) : l1 ++ l2 = [] <-> l1 = [] /\ l2 = [].
Proof. destruct l1; naive_solver. Qed.

Lemma if_nil_iff {A} (b : bool) (x : A) : (if b then [x] else []) = [] <-> b = false.
Proof. destruct b; naive_solver. Qed.

Lemma allowed_nil d c r e p :
  allowed (evaluate_risk d c r e p) = true <->
  is_trade d = true /\ blocks (evaluate_risk d c r e p) = [].
Proof.
  unfold evaluate_risk. simpl. rewrite andb_true_iff.
  by destruct (if is_trade d then _ else _); intuition congruence.
Qed.

(** The gate passes exactly when no limit comparison fires. *)
Lemma allowed_iff d c r e p :
  allowed (evaluate_risk d c r e p) = true <->
  is_trade d = true /\ fltb (max_position_size_pct c) r = false /\
  fltb (max_exposure_pct c) (e + r)%F = false /\ fleb p (- max_daily_loss_pct c)%F = false.
Proof.
  rewrite allowed_nil. unfold evaluate_risk, blocks.
  destruct (is_trade d); [|naive_solver].
  rewrite !app_nil_iff, !if_nil_iff. naive_solver.
Qed.

(** The decision is the threshold rule on the score: buy strictly above the buy
    threshold, otherwise sell strictly below the sell threshold, otherwise hold. *)
Theorem decision_rule fs c :
  let d := decide fs c in
  (action d = BUY <-> fltb (buy_threshold c) (score d) = true) /\
  (action d = SELL <->
     fltb (buy_threshold c) (score d) = false /\ fltb (score d) (sell_threshold c) = true) /\
  (action d = HOLD <->
     fltb (buy_threshold c) (score d) = false /\ fltb (score d) (sell_threshold c) = false) /\
  dkeys (breakdown d) = WEIGHT_KEYS.
Proof.
  split; [apply pick_buy|]. split; [apply pick_sell|]. split; [apply pick_hold|reflexivity].
Qed.

(** The risk annotation is advisory: overwriting the risk feature, or any feature
    that is not one of the three weighted ones, leaves the whole decision unchanged. *)
Theorem unweighted_features_ignored fs c k x :
  existsb (String.eqb k) WEIGHT_KEYS = false -> decide (dset k x fs) c = decide fs c.
Proof.
  intros Hk. apply decide_ext.
  assert (forall k', existsb (String.eqb k) WEIGHT_KEYS = false -> k' ∈ WEIGHT_KEYS -> k <> k') as Hne.
  { intros k' H1 H2 ->. apply list_elem_of_In in H2.
    assert (existsb (String.eqb k') WEIGHT_KEYS = true) as H3; [|congruence].
    apply existsb_exists. exists k'. split; [done|apply String.eqb_refl]. }
  apply Forall_forall. intros k' Hk'. unfold dget_or. by rewrite dget_dset_ne by by apply Hne.
Qed.

Lemma unweighted_features_ignored_witness :
  decide (dset "risk" 1.0%F [("news", 0.5%F); ("risk", 0.0%F)]) DEFAULT_CONFIG
  = decide [("news", 0.5%F); ("risk", 0.0%F)] DEFAULT_CONFIG.
Proof. apply (unweighted_features_ignored _ DEFAULT_CONFIG "risk" 1.0%F). reflexivity. Defined.

(** Under a safe configuration in-range features give a finite score in [-3, 3], so
    neither threshold comparison can meet a NaN or an infinity. *)
Theorem score_bounded fs c :
  safe c -> (forall k, unit_signed (dget_or k 0.0%F fs)) ->
  within (-3.0)%F 3.0%F (score (decide fs c)) /\ is_finite (score (decide fs c)) = true.
Proof.
  intros Hc Hf. pose proof (score_range fs c Hc Hf) as H. split; [exact H|].
  exact (within_finite (-3.0)%F 3.0%F _ ltac:(fconst) ltac:(fconst) H).
Qed.

Lemma score_bounded_witness :
  within (-3.0)%F 3.0%F (score (decide [("news", 1.0%F); ("tech", (-0.5)%F)] DEFAULT_CONFIG)).
Proof.
  apply score_bounded; [apply default_config_safe|].
  intros k. unfold dget_or. cbn [dget].
  do 2 (destruct (String.eqb k _); [split; fconst|]). split; fconst.
Defined.

(** The gate passes exactly the orders that break no limit: an order that is not a
    trade never passes, and a trade passes iff the size, exposure and daily-loss
    comparisons all fail to fire. *)
Theorem gate_allows_iff d c r e p :
  allowed (evaluate_risk d c r e p) = true <->
  is_trade d = true /\ fltb (max_position_size_pct c) r = false /\
  fltb (max_exposure_pct c) (e + r)%F = false /\ fleb p (- max_daily_loss_pct c)%F = false.
Proof. apply allowed_iff. Qed.

(** A NaN request passes the gate: every limit comparison with NaN is false, so a
    buy of NaN size with NaN exposure and NaN daily PnL is allowed. *)
Theorem gate_passes_nan d c :
  action d = BUY -> allowed (evaluate_risk d c NaN NaN NaN) = true.
Proof.
  intros Ha. apply allowed_iff. unfold is_trade. rewrite Ha.
  split; [reflexivity|]. rewrite fltb_nan_r. split; [done|].
  change (fadd NaN NaN) with NaN. rewrite fltb_nan_r. split; [done|]. apply fleb_nan_l.
Qed.

Lemma gate_passes_nan_witness :
  allowed (evaluate_risk (decide [("news", 1.0%F)] DEFAULT_CONFIG) DEFAULT_CONFIG NaN NaN NaN) = true.
Proof. apply gate_passes_nan. vm_compute. reflexivity. Defined.

(** Money amounts and requested fractions of moderate size. *)
Definition equity_ok (x : float) : Prop := within 0.0%F 1e15%F x.

Lemma request_within c r :
  safe c -> unit_pos r -> fltb (max_position_size_pct c) r = false ->
  fleb r (max_position_size_pct c) = true.
Proof.
  intros Hc Hr H. apply fltb_false; [| |exact H].
  - by eapply within_not_nan, safe_size.
  - by apply finite_not_nan, unit_pos_finite.
Qed.

Lemma size_unit c : safe c -> unit_pos (max_position_size_pct c).
Proof. intros Hc%safe_size. eapply within_weaken; [| |exact Hc]; fconst. Qed.

Lemma notional_finite e r : equity_ok e -> unit_pos r -> is_finite (fmul e r) = true.
Proof.
  intros [E1 E2] [R1 R2].
  refine (within_finite (Fin 0) 1e15%F _ ltac:(fconst) ltac:(fconst) _).
  apply (fmul_within 1e15%F 1.0%F); [fconst..| |].
  - split; [|exact E2]. refine (fleb_trans _ _ _ _ E1). fconst.
  - split; [|exact R2]. refine (fleb_trans _ _ _ _ R1). fconst.
Qed.

Lemma nonneg_of lo x : fleb (Fin 0) lo = true -> fleb lo x = true -> fleb (Fin 0) x = true.
Proof. apply fleb_trans. Qed.

(** An order is filled exactly when the gate allowed it and the price is positive (or
    not comparable); a filled order committed no more than the position limit: its
    request is at most [max_position_size_pct] and its notional at most that share of
    the equity. *)
Theorem filled_order_bounded d c r e p sym price equity :
  safe c -> unit_pos r -> equity_ok equity ->
  let g := evaluate_risk d c r e p in
  let x := execute d g sym price equity in
  (status x = FILLED <-> allowed g = true /\ fleb price 0.0%F = false) /\
  (status x = FILLED ->
     fleb r (max_position_size_pct c) = true /\
     fleb (notional x) (py_round (equity * max_position_size_pct c)%F 2) = true /\
     fleb (Fin 0) (notional x) = true).
Proof.
  intros Hc Hr He g x.
  assert (status x = FILLED <-> allowed g = true /\ fleb price 0.0%F = false) as Hiff.
  { unfold x, execute. destruct (allowed g), (fleb price 0.0%F); simpl; naive_solver. }
  split; [exact Hiff|]. intros [Ha Hp]%Hiff.
  pose proof Ha as (_ & Hs & _ & _)%allowed_iff.
  pose proof (request_within c r Hc Hr Hs) as Hle. split; [exact Hle|].
  assert (notional x = py_round (equity * r)%F 2) as ->
    by (unfold x, execute; by rewrite Ha, Hp).
  pose proof (notional_finite _ _ He Hr) as F1.
  pose proof (notional_finite _ _ He (size_unit c Hc)) as F2.
  assert (is_finite equity = true) as Fe
    by exact (within_finite 0.0%F 1e15%F _ ltac:(fconst) ltac:(fconst) He).
  pose proof (unit_pos_finite _ Hr) as Fr. pose proof (unit_pos_finite _ (size_unit c Hc)) as Fs.
  assert (fleb (Fin 0) equity = true) as He0
    by (refine (nonneg_of 0.0%F _ _ (proj1 He)); fconst).
  assert (fleb (Fin 0) r = true) as Hr0 by (refine (nonneg_of 0.0%F _ _ (proj1 Hr)); fconst).
  split.
  - apply py_round_mono; [lia|exact F1|exact F2|].
    apply fmul_mono_nonneg; try assumption. by apply fleb_refl, finite_not_nan.
  - apply py_round_nonneg; [lia|]. by apply fmul_nonneg.
Qed.

Lemma filled_order_bounded_witness :
  let d := decide [("news", 1.0%F)] DEFAULT_CONFIG in
  let g := evaluate_risk d DEFAULT_CONFIG 0.04%F 0.1%F 0.0%F in
  status (execute d g "BTC" 50.0%F 100000.0%F) = FILLED /\
  fleb (notional (execute d g "BTC" 50.0%F 100000.0%F)) (py_round (100000.0 * 0.05)%F 2) = true.
Proof.
  assert (unit_pos 0.04%F) as Hr by (split; fconst).
  assert (equity_ok 100000.0%F) as He by (split; fconst).
  pose proof (filled_order_bounded (decide [("news", 1.0%F)] DEFAULT_CONFIG) DEFAULT_CONFIG
    0.04%F 0.1%F 0.0%F "BTC" 50.0%F 100000.0%F default_config_safe Hr He) as [H1 H2].
  assert (status (execute (decide [("news", 1.0%F)] DEFAULT_CONFIG)
    (evaluate_risk (decide [("news", 1.0%F)] DEFAULT_CONFIG) DEFAULT_CONFIG 0.04%F 0.1%F 0.0%F)
    "BTC" 50.0%F 100000.0%F) = FILLED) as Hf by (vm_compute; reflexivity).
  split; [exact Hf|]. exact (proj1 (proj2 (H2 Hf))).
Defined.
