(* ===== verification/Grading.v ===== *)
(** Grading: report cards for trades, agents, proposals and configurations
    (cognitive/grading.py). *)
From S2P Require Import Prelude PyFloat FloatFacts PyVal PyMath Events.

Definition SUBJECT_TRADE : string := "trade".
Definition SUBJECT_AGENT : string := "agent".
Definition SUBJECT_PROPOSAL : string := "proposal".
Definition SUBJECT_CONFIG : string := "config_version".

Definition TRADE_GRADE_WEIGHTS : dict float :=
  [("direction", 0.40%F); ("risk", 0.25%F); ("execution", 0.15%F); ("timing", 0.20%F)].

(** [max(0.0, min(100.0, x))] *)
Definition clamp100 (x : float) : float := fmax 0.0%F (fmin 100.0%F x).

Definition LETTERS : list (string * float) :=
  [("A", 90.0%F); ("B", 80.0%F); ("C", 70.0%F); ("D", 60.0%F)].

(** The loop over the bands, first match wins. *)
Fixpoint letter_loop (bands : list (string * float)) (score : float) : string :=
  match bands with
  | [] => "F"
  | (letter, low) :: rest =>
      if fleb low score then
        let offset := (score - low)%F in
        if fleb 6.667%F offset then letter +:+ "+"
        else if fltb offset 3.333%F then letter +:+ "-"
        else letter
      else letter_loop rest score
  end.

Definition letter_grade (score : float) : string :=
  let s := clamp100 score in
  if fltb s 60.0%F then "F" else letter_loop LETTERS s.

Section Components.
Context `{Libm}.

(** [50 +- 50 * strength]; the divisors are the constants 3.0 and 0.5. *)
Definition direction_component (decision_score realized_pnl_pct : float) : float :=
  if is_zero realized_pnl_pct then 50.0%F
  else
    let correct := fltb 0.0%F realized_pnl_pct in
    let move := fmin 1.0%F (fdiv_nz (fabs realized_pnl_pct) 3.0%F) in
    let conviction := fmin 1.0%F (fdiv_nz (fabs decision_score) 0.5%F) in
    let strength := (0.5 * move + 0.5 * conviction)%F in
    if correct then (50.0 + 50.0 * strength)%F else (50.0 - 50.0 * strength)%F.

(** The divisor is at least 0.5. *)
Definition risk_component (realized_pnl_pct max_adverse_pct : float) : float :=
  let ratio := fdiv_nz realized_pnl_pct (fabs max_adverse_pct + 0.5)%F in
  clamp100 (50.0 + 50.0 * tanh ratio)%F.

Definition execution_component (slippage_bps : float) : float :=
  clamp100 (100.0 - fabs slippage_bps * 8.0)%F.

(** The division runs only when [span <= 0] is false. *)
Definition timing_component (side : string) (entry_price window_low window_high : float) : float :=
  let span := (window_high - window_low)%F in
  if fleb span 0.0%F then 50.0%F
  else
    let position := fdiv_nz (entry_price - window_low)%F span in
    let quality := if String.eqb side "buy" then (1.0 - position)%F else position in
    clamp100 (100.0 * quality)%F.

Record TradeGradeCard := {
  trade_id : string;
  overall_grade : string;
  overall_score : float;
  direction_grade : string;
  risk_grade : string;
  execution_grade : string;
  timing_grade : string;
  components : dict float;
}.

Definition vfl (d : dict float) : payload := map (fun kv => (fst kv, VFloat (snd kv))) d.

Definition trade_card_as_dict (c : TradeGradeCard) : payload :=
  [("type", VStr (value GRADE)); ("subject", VStr SUBJECT_TRADE);
   ("subject_id", VStr (trade_id c)); ("grade", VStr (overall_grade c));
   ("score", VFloat (overall_score c)); ("direction_grade", VStr (direction_grade c));
   ("risk_grade", VStr (risk_grade c)); ("execution_grade", VStr (execution_grade c));
   ("timing_grade", VStr (timing_grade c)); ("components", VDict (vfl (components c)))].

(** [sum(components[k] * TRADE_GRADE_WEIGHTS[k] for k in components)] *)
Definition weighted_sum (cs : dict float) : float :=
  fsum_left (map (fun kv => snd kv * dget_or (fst kv) 0.0 TRADE_GRADE_WEIGHTS)%F cs).

Definition grade_trade (tid : string)
    (decision_score realized_pnl_pct max_adverse_pct slippage_bps : float)
    (side : string) (entry_price window_low window_high : float) : TradeGradeCard :=
  let direction := py_round (direction_component decision_score realized_pnl_pct) 2 in
  let risk := py_round (risk_component realized_pnl_pct max_adverse_pct) 2 in
  let execution := py_round (execution_component slippage_bps) 2 in
  let timing := py_round (timing_component side entry_price window_low window_high) 2 in
  let cs := [("direction", direction); ("risk", risk); ("execution", execution);
             ("timing", timing)] in
  let overall := py_round (weighted_sum cs) 2 in
  {| trade_id := tid;
     overall_grade := letter_grade overall;
     overall_score := overall;
     direction_grade := letter_grade direction;
     risk_grade := letter_grade risk;
     execution_grade := letter_grade execution;
     timing_grade := letter_grade timing;
     components := cs |}.

Record AgentGradeCard := {
  ag_signal : string;
  ag_grade : string;
  ag_score : float;
  ag_samples : Z;
  ag_correct_rate : float;
  ag_contribution : float;
}.

Definition agent_card_as_dict (c : AgentGradeCard) : payload :=
  [("type", VStr (value GRADE)); ("subject", VStr SUBJECT_AGENT);
   ("subject_id", VStr (ag_signal c)); ("grade", VStr (ag_grade c));
   ("score", VFloat (ag_score c)); ("samples", VInt (ag_samples c));
   ("correct_rate", VFloat (ag_correct_rate c)); ("contribution", VFloat (ag_contribution c))].

Definition NOT_RATED : string := "NR".

Definition agent_score (correct_rate contribution : float) : float :=
  let pnl_sign := (0.5 + 0.5 * tanh (fdiv_nz contribution (fabs contribution + 1.0)))%F in
  py_round (100.0 * (0.7 * correct_rate + 0.3 * pnl_sign))%F 2.

Definition grade_agent (signal : string) (stats : payload) (min_samples : Z)
  : res AgentGradeCard :=
  let* samples := py_int (dget_or "samples" (VInt 0) stats) in
  let* correct_rate := py_float (dget_or "correct_rate" (VFloat 0.0%F) stats) in
  let* contribution := py_float (dget_or "total_pnl_attribution" (VFloat 0.0%F) stats) in
  let card grade score :=
    {| ag_signal := signal; ag_grade := grade; ag_score := score; ag_samples := samples;
       ag_correct_rate := correct_rate; ag_contribution := contribution |} in
  if samples <? min_samples then Ok (card NOT_RATED 0.0%F)
  else
    let score := agent_score correct_rate contribution in
    Ok (card (letter_grade score) score).

Record ProposalGradeCard := {
  pg_proposal_id : string;
  pg_proposal_type : string;
  pg_grade : string;
  pg_score : float;
  pg_pnl_delta : float;
  pg_sharpe_delta : float;
}.

Definition proposal_card_as_dict (c : ProposalGradeCard) : payload :=
  [("type", VStr (value GRADE)); ("subject", VStr SUBJECT_PROPOSAL);
   ("subject_id", VStr (pg_proposal_id c)); ("proposal_type", VStr (pg_proposal_type c));
   ("grade", VStr (pg_grade c)); ("score", VFloat (pg_score c));
   ("pnl_delta", VFloat (pg_pnl_delta c)); ("sharpe_delta", VFloat (pg_sharpe_delta c))].

Definition grade_proposal (pid ptype : string) (pnl_delta sharpe_delta : float)
  : ProposalGradeCard :=
  let score := py_round (clamp100 (50.0 + 30.0 * tanh sharpe_delta + 20.0 * tanh pnl_delta)%F) 2 in
  {| pg_proposal_id := pid; pg_proposal_type := ptype; pg_grade := letter_grade score;
     pg_score := score; pg_pnl_delta := pnl_delta; pg_sharpe_delta := sharpe_delta |}.

Record ConfigGradeCard := {
  cg_version : Z;
  cg_grade : string;
  cg_score : float;
  cg_sharpe : float;
  cg_max_drawdown_pct : float;
}.

Definition config_card_as_dict (c : ConfigGradeCard) : payload :=
  [("type", VStr (value GRADE)); ("subject", VStr SUBJECT_CONFIG);
   ("subject_id", VStr (pretty (cg_version c))); ("grade", VStr (cg_grade c));
   ("score", VFloat (cg_score c)); ("sharpe", VFloat (cg_sharpe c));
   ("max_drawdown_pct", VFloat (cg_max_drawdown_pct c))].

Definition grade_config_version (v : Z) (sharpe max_drawdown_pct : float) : ConfigGradeCard :=
  let score :=
    py_round (clamp100 (60.0 + 28.0 * tanh sharpe - 1.2 * max_drawdown_pct)%F) 2 in
  {| cg_version := v; cg_grade := letter_grade score; cg_score := score;
     cg_sharpe := sharpe; cg_max_drawdown_pct := max_drawdown_pct |}.

End Components.

(** * Ranges *)

Definition pct_score (x : float) : Prop := within 0.0%F 100.0%F x.

Lemma clamp100_pct x : pct_score (clamp100 x).
Proof. apply clamp_within. fconst. Qed.

Lemma round2_pct x : pct_score x -> pct_score (py_round x 2).
Proof. apply py_round_within; (lia || fconst). Qed.

(** [min(1.0, abs(x) / d)] is in [0, 1] for every [x], NaN included. *)
Lemma capped_ratio x d :
  is_finite d = true -> fltb (Fin 0) d = true ->
  within (Fin 0) 1.0%F (fmin 1.0%F (fdiv_nz (fabs x) d)).
Proof.
  intros Hd Hpos. split; [|apply fmin_l; apply dec_not_nan].
  assert (forall y, fleb (Fin 0) y = true -> fleb (Fin 0) (fmin 1.0%F y) = true) as Hmin
    by (intros y; apply fmin_ge; fconst).
  destruct x as [|neg| |n].
  - change (fabs NaN) with NaN. rewrite fdiv_nz_nan. fconst.
  - change (fabs (Inf neg)) with (Inf false). rewrite fdiv_nz_inf by assumption.
    apply Hmin. reflexivity.
  - apply Hmin, fdiv_nonneg; [reflexivity|assumption|reflexivity|assumption].
  - apply Hmin, fdiv_nonneg; [reflexivity|assumption|by apply fabs_nonneg|assumption].
Qed.

Lemma half_unit x : within (Fin 0) 1.0%F x -> within (Fin 0) 0.5%F (0.5 * x)%F.
Proof. intros. apply (fmul_within 0.5%F 1.0%F); [fconst..| |done]. split; fconst. Qed.

(** The direction strength is in [0, 1], so the two branches stay on their sides of 50. *)
Lemma strength_sides a b :
  within (Fin 0) 1.0%F a -> within (Fin 0) 1.0%F b ->
  let s := (0.5 * a + 0.5 * b)%F in
  within 50.0%F 100.0%F (50.0 + 50.0 * s)%F /\ within 0.0%F 50.0%F (50.0 - 50.0 * s)%F.
Proof.
  intros Ha%half_unit Hb%half_unit s.
  assert (within (Fin 0) 1.0%F s) as Hs
    by (apply (fadd_within (Fin 0) 0.5%F (Fin 0) 0.5%F); [fconst..|exact Ha|exact Hb]).
  assert (within (Fin 0) 50.0%F (50.0 * s)%F) as Hm
    by (apply (fmul_within 50.0%F 1.0%F); [fconst..|split; fconst|exact Hs]).
  split.
  - apply (fadd_within 50.0%F 50.0%F (Fin 0) 50.0%F); [fconst..|split; fconst|exact Hm].
  - apply (fsub_within 50.0%F 50.0%F (Fin 0) 50.0%F); [fconst..|split; fconst|exact Hm].
Qed.

Section Facts.
Context `{Libm}.

Lemma direction_sides d p :
  within 0.0%F 100.0%F (direction_component d p) /\
  (fltb 0.0%F p = true -> fleb 50.0%F (direction_component d p) = true) /\
  (fltb 0.0%F p = false -> fleb (direction_component d p) 50.0%F = true).
Proof.
  unfold direction_component. destruct (is_zero p) eqn:Ez.
  { split; [split; fconst|]. split; intros; fconst. }
  destruct (strength_sides _ _
    (capped_ratio p 3.0%F ltac:(fconst) ltac:(fconst))
    (capped_ratio d 0.5%F ltac:(fconst) ltac:(fconst))) as [Hc Hw].
  destruct (fltb 0.0%F p).
  - split; [|by split; [intros; apply Hc|]].
    eapply within_weaken; [| |exact Hc]; fconst.
  - split; [|by split; [|intros; apply Hw]].
    eapply within_weaken; [| |exact Hw]; fconst.
Qed.

Lemma timing_pct side e l h : pct_score (timing_component side e l h).
Proof. unfold timing_component. case_match_goal; [split; fconst|apply clamp100_pct]. Qed.

Lemma weight_share x w hi :
  pct_score x -> fin_ok w = true -> fleb (Fin 0) w = true -> fleb (100.0 * w)%F hi = true ->
  within (Fin 0) hi (x * w)%F.
Proof.
  intros [H1 H2] Hw H0w Hhi. apply (fmul_within 100.0%F w); [fconst|done|done| |].
  - split; [|done]. eapply fleb_trans; [|exact H1]. fconst.
  - split; [done|]. apply fleb_refl, finite_not_nan. by apply fin_ok_finite.
Qed.

Lemma weighted_sum_pct d r e t :
  pct_score d -> pct_score r -> pct_score e -> pct_score t ->
  pct_score (weighted_sum [("direction", d); ("risk", r); ("execution", e); ("timing", t)]).
Proof.
  intros Hd Hr He Ht. unfold weighted_sum, fsum_left.
  cbn [map fst snd dget_or dget TRADE_GRADE_WEIGHTS String.eqb Ascii.eqb Bool.eqb fold_left].
  apply (fadd_within (Fin 0) 80.0%F (Fin 0) 20.0%F);
    [fconst..| |apply weight_share; [done|fconst..]].
  apply (fadd_within (Fin 0) 65.0%F (Fin 0) 15.0%F);
    [fconst..| |apply weight_share; [done|fconst..]].
  apply (fadd_within (Fin 0) 40.0%F (Fin 0) 25.0%F);
    [fconst..| |apply weight_share; [done|fconst..]].
  apply (fadd_within (Fin 0) (Fin 0) (Fin 0) 40.0%F);
    [fconst..|split; fconst|apply weight_share; [done|fconst..]].
Qed.

End Facts.

(** * Letters *)

(** The place of a letter on the scale. *)
Definition GRADES : list string :=
  ["F"; "D-"; "D"; "D+"; "C-"; "C"; "C+"; "B-"; "B"; "B+"; "A-"; "A"; "A+"].

Fixpoint index_of (x : string) (l : list string) : Z :=
  match l with
  | [] => 0
  | y :: l' => if String.eqb x y then 0 else 1 + index_of x l'
  end.

Definition grade_rank (g : string) : Z := index_of g GRADES.

(** The modifier's place inside a band. *)
Definition modifier (o : float) : Z :=
  if fleb 6.667%F o then 2 else if fltb o 3.333%F then 0 else 1.

Definition score_rank (s : float) : Z :=
  if fltb s 60.0%F then 0
  else if fleb 90.0%F s then 10 + modifier (s - 90.0)%F
  else if fleb 80.0%F s then 7 + modifier (s - 80.0)%F
  else if fleb 70.0%F s then 4 + modifier (s - 70.0)%F
  else if fleb 60.0%F s then 1 + modifier (s - 60.0)%F
  else 0.

Lemma letter_rank score : grade_rank (letter_grade score) = score_rank (clamp100 score).
Proof.
  unfold letter_grade, score_rank, modifier. generalize (clamp100 score). intros s.
  destruct (fltb s 60.0%F); [reflexivity|]. unfold LETTERS, letter_loop.
  destruct (fleb 90.0%F s); [destruct (fleb 6.667%F (s - 90.0)%F), (fltb (s - 90.0)%F 3.333%F); reflexivity|].
  destruct (fleb 80.0%F s); [destruct (fleb 6.667%F (s - 80.0)%F), (fltb (s - 80.0)%F 3.333%F); reflexivity|].
  destruct (fleb 70.0%F s); [destruct (fleb 6.667%F (s - 70.0)%F), (fltb (s - 70.0)%F 3.333%F); reflexivity|].
  destruct (fleb 60.0%F s); [destruct (fleb 6.667%F (s - 60.0)%F), (fltb (s - 60.0)%F 3.333%F); reflexivity|reflexivity].
Qed.

Lemma modifier_range o : 0 <= modifier o <= 2.
Proof. unfold modifier. by destruct (fleb 6.667%F o), (fltb o 3.333%F). Qed.

Lemma modifier_mono o o' : fleb o o' = true -> modifier o <= modifier o'.
Proof.
  intros H. unfold modifier.
  destruct (fleb 6.667%F o) eqn:E1.
  { by rewrite (fleb_trans _ _ _ E1 H). }
  destruct (fltb o' 3.333%F) eqn:E3.
  - rewrite (fleb_fltb_trans _ _ _ H E3). by destruct (fleb 6.667%F o').
  - clear. by destruct (fleb 6.667%F o), (fltb o 3.333%F), (fleb 6.667%F o').
Qed.

Lemma offset_mono c s s' :
  is_finite s = true -> is_finite s' = true -> is_finite c = true ->
  fleb s s' = true -> modifier (s - c)%F <= modifier (s' - c)%F.
Proof.
  intros Hs Hs' Hc H. apply modifier_mono, fsub_mono; try assumption.
  by apply fleb_refl, finite_not_nan.
Qed.

Lemma score_rank_mono s s' :
  is_finite s = true -> is_finite s' = true -> fleb s s' = true ->
  score_rank s <= score_rank s'.
Proof.
  intros Hs Hs' H. unfold score_rank.
  pose proof (offset_mono 90.0%F s s' Hs Hs' ltac:(fconst) H) as M9.
  pose proof (offset_mono 80.0%F s s' Hs Hs' ltac:(fconst) H) as M8.
  pose proof (offset_mono 70.0%F s s' Hs Hs' ltac:(fconst) H) as M7.
  pose proof (offset_mono 60.0%F s s' Hs Hs' ltac:(fconst) H) as M6.
  pose proof (modifier_range (s - 90.0)%F). pose proof (modifier_range (s' - 90.0)%F).
  pose proof (modifier_range (s - 80.0)%F). pose proof (modifier_range (s' - 80.0)%F).
  pose proof (modifier_range (s - 70.0)%F). pose proof (modifier_range (s' - 70.0)%F).
  pose proof (modifier_range (s - 60.0)%F). pose proof (modifier_range (s' - 60.0)%F).
  assert (forall c : float, fltb s' c = true -> fltb s c = true) as Lt
    by (intros c Hc; exact (fleb_fltb_trans _ _ _ H Hc)).
  assert (forall c : float, fleb c s = true -> fleb c s' = true) as Ge
    by (intros c Hc; exact (fleb_trans _ _ _ Hc H)).
  pose proof (Lt 60.0%F) as L6. pose proof (Ge 60.0%F) as G6. pose proof (Ge 70.0%F) as G7.
  pose proof (Ge 80.0%F) as G8. pose proof (Ge 90.0%F) as G9. clear Lt Ge H Hs Hs'.
  repeat match goal with H : _ <= _ |- _ => revert H | H : _ <= _ <= _ |- _ => revert H end.
  generalize (modifier (s - 90.0)%F) (modifier (s' - 90.0)%F) (modifier (s - 80.0)%F)
    (modifier (s' - 80.0)%F) (modifier (s - 70.0)%F) (modifier (s' - 70.0)%F)
    (modifier (s - 60.0)%F) (modifier (s' - 60.0)%F).
  revert L6 G6 G7 G8 G9.
  generalize (fltb s 60.0%F) (fltb s' 60.0%F) (fleb 60.0%F s) (fleb 60.0%F s')
    (fleb 70.0%F s) (fleb 70.0%F s') (fleb 80.0%F s) (fleb 80.0%F s')
    (fleb 90.0%F s) (fleb 90.0%F s').
  intros. repeat case_match_goal; naive_solver lia.
Qed.

Lemma clamp100_mono s s' : fleb s s' = true -> fleb (clamp100 s) (clamp100 s') = true.
Proof.
  intros H. apply clamp_mono; [fconst|exact H].
Qed.

Lemma pct_finite x : pct_score x -> is_finite x = true.
Proof. apply within_finite; fconst. Qed.

(** A better score never gets a worse letter. *)
Theorem letter_grade_monotone s s' :
  fleb s s' = true -> grade_rank (letter_grade s) <= grade_rank (letter_grade s').
Proof.
  intros H. rewrite !letter_rank.
  apply score_rank_mono.
  - exact (pct_finite _ (clamp100_pct _)).
  - exact (pct_finite _ (clamp100_pct _)).
  - exact (clamp100_mono _ _ H).
Qed.

Lemma letter_grade_monotone_witness :
  letter_grade 86.5%F = "B" /\ letter_grade 97.0%F = "A+" /\
  grade_rank (letter_grade 86.5%F) <= grade_rank (letter_grade 97.0%F).
Proof.
  split; [fconst|]. split; [fconst|]. apply (letter_grade_monotone 86.5%F 97.0%F). fconst.
Defined.

(** For every input, infinities and NaN included, the four dimensions and the
    overall score of a trade's report card lie in [0, 100], and each letter is the
    letter of its score. *)
Theorem grade_trade_range `{Libm} tid ds pnl mae slip side entry lo hi :
  let c := grade_trade tid ds pnl mae slip side entry lo hi in
  dkeys (components c) = dkeys TRADE_GRADE_WEIGHTS /\
  Forall (fun kv => pct_score (snd kv)) (components c) /\
  pct_score (overall_score c) /\
  overall_grade c = letter_grade (overall_score c) /\
  map (fun kv => letter_grade (snd kv)) (components c)
    = [direction_grade c; risk_grade c; execution_grade c; timing_grade c].
Proof.
  intros c.
  assert (pct_score (py_round (direction_component ds pnl) 2)) as Hd
    by apply round2_pct, direction_sides.
  assert (pct_score (py_round (risk_component pnl mae) 2)) as Hr
    by apply round2_pct, clamp100_pct.
  assert (pct_score (py_round (execution_component slip) 2)) as He
    by apply round2_pct, clamp100_pct.
  assert (pct_score (py_round (timing_component side entry lo hi) 2)) as Ht
    by apply round2_pct, timing_pct.
  split; [reflexivity|]. split; [repeat (apply Forall_cons; split; [assumption|]); apply Forall_nil; exact I|].
  split; [by apply round2_pct, weighted_sum_pct|]. split; reflexivity.
Qed.

(** The direction grade never contradicts the outcome: a winning trade scores at
    least 50 and any other trade at most 50, whatever the conviction. *)
Theorem direction_never_contradicts `{Libm} ds pnl :
  (fltb 0.0%F pnl = true -> fleb 50.0%F (direction_component ds pnl) = true) /\
  (fltb 0.0%F pnl = false -> fleb (direction_component ds pnl) 50.0%F = true).
Proof. apply direction_sides. Qed.

(** A score that is not a number is graded "A+": clamping maps NaN to 100. *)
Theorem letter_grade_nan : letter_grade NaN = "A+"%string.
Proof. fconst. Qed.
