(* ===== verification/Learning.v ===== *)
(** Learning: attribution, importance metadata and observations
    (cognitive/learning.py), and decision counterfactuals
    (cognitive/counterfactual.py). *)
From S2P Require Import Prelude PyFloat FloatFacts PyVal PyMath Events Config Agents Decision Grading.

(** * Attribution *)

Record Attribution := {
  contributions : dict float;
  shares : dict float;
  pnl_attribution : dict float;
  realized_pnl : float;
}.

Definition attribution_as_dict (a : Attribution) : payload :=
  [("type", VStr (value ATTRIBUTION));
   ("contributions", VDict (vfloat_dict (contributions a)));
   ("shares", VDict (vfloat_dict (shares a)));
   ("pnl_attribution", VDict (vfloat_dict (pnl_attribution a)));
   ("realized_pnl", VFloat (realized_pnl a))].

(** [{k: f(v) for k, v in d.items()}] *)
Definition dmap {A B} (f : A -> B) (d : dict A) : dict B := map (fun kv => (fst kv, f (snd kv))) d.

(** The division runs only when [total > 0]. *)
Definition shares_of (cs : dict float) : dict float :=
  let total := fsum_left (map fabs (dvalues cs)) in
  if fltb 0.0%F total then dmap (fun v => py_round (fdiv_nz (fabs v) total) 6) cs
  else map (fun k => (k, 0.0%F)) WEIGHT_KEYS.

Definition attribute (breakdown : payload) (pnl : float) : res Attribution :=
  let* cs := res_list (fun k => let* x := pfloat breakdown k 0.0%F in Ok (k, x)) WEIGHT_KEYS in
  let sh := shares_of cs in
  let* pa := res_list (fun k => let* s := dindex k sh in Ok (k, py_round (s * pnl)%F 6))
               WEIGHT_KEYS in
  Ok {| contributions := cs; shares := sh; pnl_attribution := pa;
        realized_pnl := py_round pnl 6 |}.

(** * Importance metadata *)

Record SignalAcc := {
  samples : Z;
  abs_contribution : float;
  pnl : float;
  correct : Z;
}.

Definition empty_acc : SignalAcc :=
  {| samples := 0; abs_contribution := 0.0%F; pnl := 0.0%F; correct := 0 |}.

Definition ImportanceTracker := dict SignalAcc.

Definition tracker_init : ImportanceTracker := map (fun k => (k, empty_acc)) WEIGHT_KEYS.

(** [(x > 0) - (x < 0)] *)
Definition _sign (x : float) : Z :=
  (if fltb 0.0%F x then 1 else 0) - (if fltb x 0.0%F then 1 else 0).

Definition acc_update (acc : SignalAcc) (contribution pnl_share : float) (outcome_sign : Z)
  : SignalAcc :=
  let s := _sign contribution in
  {| samples := samples acc + 1;
     abs_contribution := (abs_contribution acc + fabs contribution)%F;
     pnl := (pnl acc + pnl_share)%F;
     correct := correct acc + (if negb (s =? 0) && (s =? outcome_sign) then 1 else 0) |}.

Definition tracker_update (t : ImportanceTracker) (a : Attribution) (outcome_sign : Z)
  : res ImportanceTracker :=
  res_fold (fun t key =>
    let* acc := dindex key t in
    let* c := dindex key (contributions a) in
    let* p := dindex key (pnl_attribution a) in
    Ok (dset key (acc_update acc c p outcome_sign) t)) WEIGHT_KEYS t.

Definition acc_metadata (acc : SignalAcc) : res payload :=
  let* avg := if samples acc =? 0 then Ok 0.0%F
              else let* q := fdiv (abs_contribution acc) (of_Z (samples acc)) in
                   Ok (py_round q 6) in
  let* rate := if samples acc =? 0 then Ok 0.0%F
               else let* q := int_div (correct acc) (samples acc) in Ok (py_round q 6) in
  Ok [("samples", VInt (samples acc));
      ("avg_abs_contribution", VFloat avg);
      ("total_pnl_attribution", VFloat (py_round (pnl acc) 6));
      ("correct_rate", VFloat rate)].

Definition metadata (t : ImportanceTracker) : res (dict payload) :=
  res_list (fun kv => let* m := acc_metadata (snd kv) in Ok (fst kv, m)) t.

(** * Observations *)

Record Observation := {
  observation : string;
  confidence : float;
  signal : string;
  direction : string;
  evidence : payload;
}.

Definition observation_as_dict (o : Observation) : payload :=
  [("type", VStr (value OBSERVATION)); ("observation", VStr (observation o));
   ("confidence", VFloat (confidence o)); ("signal", VStr (signal o));
   ("direction", VStr (direction o)); ("evidence", VDict (evidence o))].

Definition OUTPERFORMING : string := "outperforming".
Definition UNDERPERFORMING : string := "underperforming".

Record LearningEngine := {
  min_samples : Z;
  outperform_rate : float;
  underperform_rate : float;
}.

Definition default_engine : LearningEngine :=
  {| min_samples := 30; outperform_rate := 0.60%F; underperform_rate := 0.40%F |}.

(** [round(max(0.0, min(1.0, 0.6 * effect + 0.4 * coverage)), 2)] *)
Definition confidence_of (correct_rate coverage : float) : float :=
  let effect := (fabs (correct_rate - 0.5) * 2.0)%F in
  py_round (clamp01 (0.6 * effect + 0.4 * coverage)%F) 2.

Section Observe.
Context `{Libm}.

(** One signal of the metadata: at most one observation. *)
Definition observe_one (e : LearningEngine) (sig : string) (stats : payload)
  : res (list Observation) :=
  let* n := py_int (dget_or "samples" (VInt 0) stats) in
  if n <? min_samples e then Ok []
  else
    let* correct_rate := pfloat stats "correct_rate" 0.0%F in
    let* contribution := pfloat stats "total_pnl_attribution" 0.0%F in
    let* card := grade_agent sig stats (min_samples e) in
    let* ratio := int_div n (min_samples e * 3) in
    let conf := confidence_of correct_rate (fmin 1.0%F ratio) in
    let ev := [("agent_grade", VStr (ag_grade card)); ("correct_rate", VFloat correct_rate);
               ("contribution", VFloat contribution); ("sample_size", VInt n)] in
    let obs dir := {| observation := sig +:+ "_agent_" +:+ dir; confidence := conf;
                      signal := sig; direction := dir; evidence := ev |} in
    Ok (if fleb (outperform_rate e) correct_rate && fleb 0.0%F contribution
        then [obs OUTPERFORMING]
        else if fleb correct_rate (underperform_rate e) || fltb contribution 0.0%F
        then [obs UNDERPERFORMING]
        else []).

Definition observe (e : LearningEngine) (m : dict payload) : res (list Observation) :=
  let* os := res_list (fun kv => observe_one e (fst kv) (snd kv)) m in
  Ok (concat os).

End Observe.

(** * Counterfactuals *)

Record CounterfactualResult := {
  chosen_action : string;
  chosen_pnl_pct : float;
  alternatives : dict float;
  best_action : string;
  best_pnl_pct : float;
  regret_pct : float;
  was_best : bool;
}.

Definition counterfactual_as_dict (c : CounterfactualResult) : payload :=
  [("type", VStr (value COUNTERFACTUAL)); ("chosen_action", VStr (chosen_action c));
   ("chosen_pnl_pct", VFloat (chosen_pnl_pct c));
   ("alternatives", VDict (vfloat_dict (alternatives c)));
   ("best_action", VStr (best_action c)); ("best_pnl_pct", VFloat (best_pnl_pct c));
   ("regret_pct", VFloat (regret_pct c)); ("was_best", VBool (was_best c))].

(** [max(d, key=d.get)]: the first key with the largest value. *)
Fixpoint argmax (best : string * float) (d : dict float) : string * float :=
  match d with
  | [] => best
  | kv :: d' => argmax (if fltb (snd best) (snd kv) then kv else best) d'
  end.

Definition counterfactual (action : string) (realized_pnl_pct : float) (side : string)
  : CounterfactualResult :=
  let move := if String.eqb side BUY then realized_pnl_pct else fopp realized_pnl_pct in
  let buy := py_round move 6 in
  let sell := py_round (fopp move) 6 in
  let alts := [(BUY, buy); (SELL, sell); (HOLD, 0.0%F)] in
  let chosen := dget_or action 0.0%F alts in
  let best := argmax (BUY, buy) [(SELL, sell); (HOLD, 0.0%F)] in
  let regret := py_round (snd best - chosen)%F 6 in
  {| chosen_action := action; chosen_pnl_pct := chosen; alternatives := alts;
     best_action := fst best; best_pnl_pct := snd best; regret_pct := regret;
     was_best := fleb regret 1e-9%F |}.

(** * Facts: attribution *)

Definition three (x1 x2 x3 : float) : dict float := [("news", x1); ("tech", x2); ("macro", x3)].

Lemma attribute_three x1 x2 x3 p :
  attribute (vfloat_dict (three x1 x2 x3)) p =
  let* pa := res_list (fun k => let* s := dindex k (shares_of (three x1 x2 x3)) in
                                Ok (k, py_round (s * p)%F 6)) WEIGHT_KEYS in
  Ok {| contributions := three x1 x2 x3; shares := shares_of (three x1 x2 x3);
        pnl_attribution := pa; realized_pnl := py_round p 6 |}.
Proof. reflexivity. Qed.

Lemma shares_keys cs : dkeys cs = WEIGHT_KEYS -> dkeys (shares_of cs) = WEIGHT_KEYS.
Proof.
  intros H. unfold shares_of. destruct (fltb _ _); [|reflexivity].
  rewrite <- H. unfold dkeys, dmap. rewrite map_map. by apply map_ext.
Qed.

Lemma three_of_keys {A} (d : dict A) :
  dkeys d = WEIGHT_KEYS -> exists x1 x2 x3, d = [("news", x1); ("tech", x2); ("macro", x3)].
Proof.
  intros H. destruct d as [|[k1 x1] [|[k2 x2] [|[k3 x3] [|]]]]; try discriminate H.
  unfold dkeys, WEIGHT_KEYS in H. cbn [map fst] in H. injection H as -> -> ->. by exists x1, x2, x3.
Qed.

Lemma abs_unit x : unit_signed x -> unit_pos (fabs x).
Proof.
  intros H. pose proof (unit_signed_finite x H) as F. destruct H as [H1 H2]. split.
  - eapply fleb_trans; [|apply fabs_nonneg, finite_not_nan, F]. fconst.
  - apply fleb_key in H1 as (a & b & Ha & Hb & ?). apply fleb_key in H2 as (b' & c & Hb' & Hc & ?).
    assert (key (-1.0)%F = Some (- scale)) as Km by fconst.
    rewrite Km in Ha. rewrite key_one in Hc. apply Some_inj in Ha, Hc.
    rewrite Hb in Hb'. apply Some_inj in Hb'. subst b' a c.
    apply fleb_key. exists (Z.abs b), scale. rewrite key_fabs, Hb, key_one. split_and!; [done..|lia].
Qed.

(** Every summand of three non-negative doubles in [0, 1] is at most their sum. *)
Lemma sum3_upper a b c :
  unit_pos a -> unit_pos b -> unit_pos c -> double a -> double b -> double c ->
  let t := fsum_left [a; b; c] in
  is_finite t = true /\ fleb a t = true /\ fleb b t = true /\ fleb c t = true.
Proof.
  intros Ha Hb Hc Da Db Dc t.
  assert (forall x, unit_pos x -> fin_ok x = true) as U
    by (intros x; exact (within_fin_ok 0.0%F 1.0%F x ltac:(fconst) ltac:(fconst))).
  assert (forall x, unit_pos x -> fleb (Fin 0) x = true) as P
    by (intros x [Hx _]; eapply fleb_trans; [|exact Hx]; fconst).
  set (t1 := fadd (Fin 0) a). set (t2 := fadd t1 b).
  assert (within (Fin 0) 1.0%F t1) as W1
    by (apply (fadd_within (Fin 0) (Fin 0) 0.0%F 1.0%F); [fconst..|split; fconst|exact Ha]).
  assert (within (Fin 0) 2.0%F t2) as W2
    by (apply (fadd_within (Fin 0) 1.0%F 0.0%F 1.0%F); [fconst..|exact W1|exact Hb]).
  assert (within (Fin 0) 3.0%F t) as W3
    by (apply (fadd_within (Fin 0) 2.0%F 0.0%F 1.0%F); [fconst..|exact W2|exact Hc]).
  assert (fin_ok t1 = true) as F1 by exact (within_fin_ok (Fin 0) 1.0%F t1 ltac:(fconst) ltac:(fconst) W1).
  assert (fin_ok t2 = true) as F2 by exact (within_fin_ok (Fin 0) 2.0%F t2 ltac:(fconst) ltac:(fconst) W2).
  assert (is_finite t = true) as F3 by exact (within_finite (Fin 0) 3.0%F t ltac:(fconst) ltac:(fconst) W3).
  pose proof (fin_ok_finite _ F1). pose proof (fin_ok_finite _ F2).
  pose proof (unit_pos_finite _ Ha). pose proof (unit_pos_finite _ Hb).
  pose proof (unit_pos_finite _ Hc).
  assert (double t1) by (apply double_fadd; [reflexivity|assumption]).
  assert (double t2) by (apply double_fadd; assumption).
  assert (fleb a t1 = true) by (apply fadd_ge_r; auto).
  assert (fleb b t2 = true) by (apply fadd_ge_r; auto; exact (proj1 W1)).
  assert (fleb t1 t2 = true) by (apply fadd_ge_l; auto).
  assert (fleb t2 t = true) by (apply fadd_ge_l; auto).
  split; [exact F3|]. split; [eauto using fleb_trans|]. split; [eauto using fleb_trans|].
  apply fadd_ge_r; auto. exact (proj1 W2).
Qed.

Lemma share_unit v total :
  unit_pos v -> is_finite total = true -> fleb v total = true -> fltb 0.0%F total = true ->
  unit_pos (py_round (fdiv_nz v total) 6).
Proof.
  intros Hv Ft Hle Hpos. apply round_unit_pos; [by right|].
  assert (within (Fin 0) 1.0%F (fdiv_nz v total)) as [H1 H2].
  { apply fdiv_unit; [by apply unit_pos_finite|done| |done|].
    - refine (fleb_trans _ _ _ _ (proj1 Hv)). fconst.
    - refine (fleb_fltb_trans _ _ _ _ Hpos). fconst. }
  split; [|exact H2]. refine (fleb_trans _ _ _ _ H1). fconst.
Qed.

Lemma shares_unit x1 x2 x3 :
  Forall (fun x => unit_signed x /\ double x) [x1; x2; x3] ->
  exists s1 s2 s3, shares_of (three x1 x2 x3) = three s1 s2 s3 /\ Forall unit_pos [s1; s2; s3].
Proof.
  intros Hx. apply Forall_cons in Hx as [[U1 D1] Hx]. apply Forall_cons in Hx as [[U2 D2] Hx].
  apply Forall_cons in Hx as [[U3 D3] _].
  unfold shares_of, three. cbn [dvalues map snd dmap fst].
  destruct (sum3_upper (fabs x1) (fabs x2) (fabs x3)) as (F & L1 & L2 & L3);
    try (by apply abs_unit); try (by apply double_fabs).
  destruct (fltb 0.0%F _) eqn:E; do 3 eexists; (split; [reflexivity|]).
  - repeat (apply Forall_cons; split; [apply share_unit; try assumption; by apply abs_unit|]).
    by apply Forall_nil.
  - repeat (apply Forall_cons; split; [split; fconst|]). by apply Forall_nil.
Qed.

Lemma contribution_double fs c k : double (contribution fs c k).
Proof. by apply double_py_round. Qed.

(** Splitting a trade's PnL over the breakdown of any decision taken under a safe
    configuration on in-range features never raises; the contributions are the
    decision's own, and every share lies in [0, 1]. *)
Theorem attribute_decision fs c p :
  safe c -> (forall k, unit_signed (dget_or k 0.0%F fs)) ->
  exists a, attribute (vfloat_dict (breakdown (decide fs c))) p = Ok a /\
    contributions a = breakdown (decide fs c) /\
    dkeys (shares a) = WEIGHT_KEYS /\ Forall unit_pos (dvalues (shares a)) /\
    dkeys (pnl_attribution a) = WEIGHT_KEYS.
Proof.
  intros Hc Hf.
  destruct (shares_unit (contribution fs c "news") (contribution fs c "tech")
              (contribution fs c "macro")) as (s1 & s2 & s3 & E & HU).
  { repeat (apply Forall_cons; split;
      [split; [by apply contribution_unit|apply contribution_double]|]). by apply Forall_nil. }
  change (breakdown (decide fs c)) with (three (contribution fs c "news")
    (contribution fs c "tech") (contribution fs c "macro")).
  rewrite attribute_three, E. eexists. split; [reflexivity|]. by repeat split.
Qed.

Definition sample_features : dict float :=
  [("news", 0.5%F); ("tech", (-0.25)%F); ("macro", 0.0%F); ("risk", 0.1%F)].

Lemma attribute_decision_witness :
  exists a, attribute (vfloat_dict (breakdown (decide sample_features DEFAULT_CONFIG))) 12.5%F = Ok a
    /\ Forall unit_pos (dvalues (shares a)).
Proof.
  destruct (attribute_decision sample_features DEFAULT_CONFIG 12.5%F default_config_safe)
    as (a & E & _ & _ & U & _).
  - intros k. unfold sample_features, dget_or. cbn [dget].
    do 4 (destruct (String.eqb k _); [split; fconst|]). split; fconst.
  - exists a. split; [exact E|exact U].
Defined.

(** * Facts: importance metadata *)

Definition acc_ok (n : Z) (acc : SignalAcc) : Prop :=
  samples acc = n /\ 0 <= correct acc <= n.

Definition tracker_ok (n : Z) (t : ImportanceTracker) : Prop :=
  dkeys t = WEIGHT_KEYS /\ Forall (acc_ok n) (dvalues t).

Lemma tracker_init_ok : tracker_ok 0 tracker_init.
Proof. split; [reflexivity|]. repeat (apply Forall_cons; split; [split; simpl; lia|]). by apply Forall_nil. Qed.

Lemma acc_update_ok n acc c p o : acc_ok n acc -> acc_ok (n + 1) (acc_update acc c p o).
Proof.
  intros [H1 H2]. unfold acc_ok, acc_update. cbn [samples correct]. rewrite H1.
  split; [done|]. destruct (_ && _); lia.
Qed.

(** An attribution as [attribute] builds it. *)
Definition full (a : Attribution) : Prop :=
  dkeys (contributions a) = WEIGHT_KEYS /\ dkeys (pnl_attribution a) = WEIGHT_KEYS.

Lemma tracker_update_ok n t a o :
  tracker_ok n t -> full a -> exists t', tracker_update t a o = Ok t' /\ tracker_ok (n + 1) t'.
Proof.
  intros [Hk Hv] [Hc Hp].
  destruct (three_of_keys t Hk) as (a1 & a2 & a3 & ->).
  destruct (three_of_keys _ Hc) as (c1 & c2 & c3 & Ec).
  destruct (three_of_keys _ Hp) as (p1 & p2 & p3 & Ep).
  unfold tracker_update, WEIGHT_KEYS. rewrite Ec, Ep. cbn [res_fold]. unfold dindex.
  simpl. eexists. split; [reflexivity|]. split; [reflexivity|].
  unfold dvalues in *. simpl in *.
  apply Forall_cons in Hv as [H1 Hv]. apply Forall_cons in Hv as [H2 Hv].
  apply Forall_cons in Hv as [H3 _].
  repeat (apply Forall_cons; split; [by apply acc_update_ok|]). by apply Forall_nil.
Qed.

(** The fold over the closed trades of a session. *)
Definition tracker_run (l : list (Attribution * Z)) (t : ImportanceTracker) : res ImportanceTracker :=
  res_fold (fun t x => tracker_update t (fst x) (snd x)) l t.

Lemma tracker_run_ok l : forall n t,
  tracker_ok n t -> Forall (fun x => full (fst x)) l ->
  exists t', tracker_run l t = Ok t' /\ tracker_ok (n + zlen l) t'.
Proof.
  induction l as [|x l IH]; intros n t Ht Hl.
  - exists t. split; [done|]. unfold zlen. simpl. by rewrite Z.add_0_r.
  - apply Forall_cons in Hl as [Hx Hl].
    destruct (tracker_update_ok n t (fst x) (snd x) Ht Hx) as (t1 & E1 & Ht1).
    destruct (IH (n + 1) t1 Ht1 Hl) as (t' & E' & Ht').
    exists t'. split; [unfold tracker_run in *; simpl; by rewrite E1|].
    replace (n + zlen (x :: l)) with (n + 1 + zlen l) by (unfold zlen; simpl; lia). done.
Qed.

Definition stats_ok (n : Z) (stats : payload) : Prop :=
  exists avg pnl rate,
    stats = [("samples", VInt n); ("avg_abs_contribution", VFloat avg);
             ("total_pnl_attribution", VFloat pnl); ("correct_rate", VFloat rate)] /\
    unit_pos rate.

Lemma acc_metadata_ok n acc :
  0 <= n -> acc_ok n acc -> exists m, acc_metadata acc = Ok m /\ stats_ok n m.
Proof.
  intros Hn [Hs Hc]. unfold acc_metadata. rewrite Hs. destruct (Z.eqb_spec n 0).
  - eexists. split; [reflexivity|]. do 3 eexists. split; [reflexivity|]. split; fconst.
  - unfold fdiv. rewrite of_Z_nonzero by lia.
    destruct (int_div_unit (correct acc) n) as (r & -> & Hr); [lia..|].
    eexists. split; [reflexivity|]. do 3 eexists. split; [reflexivity|].
    apply round_unit_pos; [by right|]. destruct Hr as [H1 H2]. split; [|exact H2].
    refine (fleb_trans _ _ _ _ H1). fconst.
Qed.

Lemma metadata_ok n t :
  0 <= n -> tracker_ok n t ->
  exists m, metadata t = Ok m /\ dkeys m = WEIGHT_KEYS /\ Forall (stats_ok n) (dvalues m).
Proof.
  intros Hn [Hk Hv]. destruct (three_of_keys t Hk) as (a1 & a2 & a3 & ->).
  unfold dvalues in Hv. cbn [map snd] in Hv.
  apply Forall_cons in Hv as [H1 Hv]. apply Forall_cons in Hv as [H2 Hv].
  apply Forall_cons in Hv as [H3 _].
  destruct (acc_metadata_ok n a1 Hn H1) as (m1 & E1 & S1).
  destruct (acc_metadata_ok n a2 Hn H2) as (m2 & E2 & S2).
  destruct (acc_metadata_ok n a3 Hn H3) as (m3 & E3 & S3).
  unfold metadata. cbn [res_list fst snd]. rewrite E1, E2, E3.
  eexists. split; [reflexivity|]. split; [reflexivity|].
  unfold dvalues. cbn [map snd]. by repeat (apply Forall_cons; split; [assumption|]).
Qed.

(** Folding any sequence of closed trades into a fresh tracker never raises; every
    signal then counts exactly the trades folded, and its hit rate is in [0, 1]. *)
Theorem tracker_counts_trades l :
  Forall (fun x => full (fst x)) l ->
  exists t m, tracker_run l tracker_init = Ok t /\ metadata t = Ok m /\
    dkeys m = WEIGHT_KEYS /\ Forall (stats_ok (zlen l)) (dvalues m).
Proof.
  intros Hl. destruct (tracker_run_ok l 0 tracker_init tracker_init_ok Hl) as (t & E & Ht).
  destruct (metadata_ok (zlen l) t) as (m & Em & Hm); [unfold zlen; lia|done|].
  by exists t, m.
Qed.

Definition sample_attribution : Attribution :=
  {| contributions := three 0.2%F (-0.1)%F 0.0%F; shares := three 0.67%F 0.33%F 0.0%F;
     pnl_attribution := three 6.7%F 3.3%F 0.0%F; realized_pnl := 10.0%F |}.

Lemma tracker_counts_trades_witness :
  exists t m, tracker_run [(sample_attribution, 1); (sample_attribution, -1)] tracker_init = Ok t /\
    metadata t = Ok m /\ dkeys m = WEIGHT_KEYS /\ Forall (stats_ok 2) (dvalues m).
Proof.
  apply (tracker_counts_trades [(sample_attribution, 1); (sample_attribution, -1)]).
  repeat (apply Forall_cons; split; [split; reflexivity|]). apply Forall_nil. exact I.
Defined.

(** * Facts: observations *)

(** What an observation asserts of the statistics it was drawn from. *)
Definition supported (e : LearningEngine) (m : dict payload) (o : Observation) : Prop :=
  exists stats n rate pnl,
    (signal o, stats) ∈ m /\
    py_int (dget_or "samples" (VInt 0) stats) = Ok n /\ min_samples e <= n /\
    pfloat stats "correct_rate" 0.0%F = Ok rate /\
    pfloat stats "total_pnl_attribution" 0.0%F = Ok pnl /\
    unit_pos (confidence o) /\
    ((direction o = OUTPERFORMING /\ fleb (outperform_rate e) rate = true /\ fleb 0.0%F pnl = true) \/
     (direction o = UNDERPERFORMING /\
      (fleb rate (underperform_rate e) = true \/ fltb pnl 0.0%F = true))).

Lemma confidence_unit r c : unit_pos (confidence_of r c).
Proof. apply (py_round_within 0.0%F 1.0%F); [lia|fconst..|apply clamp01_unit]. Qed.

Section ObserveFacts.
Context `{Libm}.

Lemma observe_one_supported e m sig stats os :
  (sig, stats) ∈ m -> observe_one e sig stats = Ok os -> Forall (supported e m) os.
Proof.
  intros Hin Ho. unfold observe_one in Ho. apply res_bind_Ok in Ho as (n & En & Ho).
  destruct (Z.ltb_spec n (min_samples e)); [apply Ok_inj in Ho as <-; by apply Forall_nil|].
  apply res_bind_Ok in Ho as (rate & Er & Ho). apply res_bind_Ok in Ho as (p & Ep & Ho).
  apply res_bind_Ok in Ho as (card & _ & Ho). apply res_bind_Ok in Ho as (q & _ & Ho).
  apply Ok_inj in Ho as <-.
  destruct (_ && _) eqn:E1; [|destruct (_ || _) eqn:E2; [|by apply Forall_nil]].
  - apply andb_true_iff in E1 as [E1 E3]. apply Forall_singleton.
    exists stats, n, rate, p. do 5 (split; [done|]). split; [apply confidence_unit|]. by left.
  - apply orb_true_iff in E2. apply Forall_singleton.
    exists stats, n, rate, p. do 5 (split; [done|]). split; [apply confidence_unit|]. by right.
Qed.

Lemma observe_supported e m m' os :
  (forall kv, kv ∈ m' -> kv ∈ m) ->
  res_list (fun kv => observe_one e (fst kv) (snd kv)) m' = Ok os ->
  Forall (supported e m) (concat os).
Proof.
  revert os. induction m' as [|[k st] m' IH]; intros os Hsub Ho; simpl in Ho.
  - apply Ok_inj in Ho as <-. by apply Forall_nil.
  - apply res_bind_Ok in Ho as (o1 & E1 & Ho). apply res_bind_Ok in Ho as (os' & E2 & Ho).
    apply Ok_inj in Ho as <-. simpl. apply Forall_app. split.
    + eapply observe_one_supported; [|exact E1]. apply Hsub, list_elem_of_here.
    + apply IH; [|exact E2]. intros kv Hkv. by apply Hsub, list_elem_of_further.
Qed.

(** On the metadata of a tracker the observations are always produced. *)
Lemma observe_one_total e sig n stats :
  0 < min_samples e -> 0 <= n < 2 ^ 1000 -> stats_ok n stats ->
  exists os, observe_one e sig stats = Ok os.
Proof.
  intros Hm Hn (avg & p & rate & -> & _). unfold observe_one, pfloat, grade_agent.
  cbn [dget_or dget String.eqb Ascii.eqb Bool.eqb py_int py_float res_bind].
  destruct (n <? min_samples e); [by eexists|]. cbn [res_bind].
  destruct (int_div_ok n (min_samples e * 3)) as (r & -> & _); [lia..|]. by eexists.
Qed.

Lemma observe_total e n m :
  0 < min_samples e -> 0 <= n < 2 ^ 1000 -> Forall (stats_ok n) (dvalues m) ->
  exists os, observe e m = Ok os.
Proof.
  intros Hm Hn. unfold observe, dvalues. induction m as [|[k st] m IH]; intros Hs; [by exists []|].
  cbn [map snd] in Hs. apply Forall_cons in Hs as [H1 Hs].
  destruct (observe_one_total e k n st Hm Hn H1) as [os E].
  destruct (IH Hs) as [os' E']. cbn [res_list fst snd]. rewrite E. cbn [res_bind].
  destruct (res_list _ m); [|done]. by eexists.
Qed.

(** Every observation is backed by its signal's statistics: at least
    [min_samples] trades, a confidence in [0, 1], and a direction that the hit rate and
    the attributed PnL justify. *)
Theorem observe_sound e m os : observe e m = Ok os -> Forall (supported e m) os.
Proof.
  unfold observe. intros (l & El & Eo)%res_bind_Ok. apply Ok_inj in Eo as <-.
  by apply observe_supported with (m' := m).
Qed.

End ObserveFacts.

Definition sample_stats : payload :=
  [("samples", VInt 30); ("avg_abs_contribution", VFloat 0.1%F);
   ("total_pnl_attribution", VFloat 41.0%F); ("correct_rate", VFloat 0.7%F)].

Section ObserveWitness.
#[local] Existing Instance libm_ref.

Lemma observe_sound_witness :
  exists o, observe default_engine [("tech", sample_stats)] = Ok [o] /\
    direction o = OUTPERFORMING /\ supported default_engine [("tech", sample_stats)] o.
Proof.
  destruct (observe default_engine [("tech", sample_stats)]) as [[|o [|]]|] eqn:E;
    try (exfalso; vm_compute in E; congruence).
  exists o. split; [reflexivity|]. split.
  - vm_compute in E. apply Ok_inj in E. injection E as <-. reflexivity.
  - exact (proj1 (proj1 (Forall_cons _ _ _) (observe_sound _ _ _ E))).
Defined.

End ObserveWitness.

(** * Facts: counterfactuals *)

Lemma argmax_upper d : forall b,
  snd b <> NaN -> Forall (fun kv => snd kv <> NaN) d ->
  snd (argmax b d) <> NaN /\ fleb (snd b) (snd (argmax b d)) = true /\
  Forall (fun kv => fleb (snd kv) (snd (argmax b d)) = true) d.
Proof.
  induction d as [|kv d IH]; intros b Hb Hd; simpl.
  - split; [done|]. split; [by apply fleb_refl|by apply Forall_nil].
  - apply Forall_cons in Hd as [Hkv Hd].
    destruct (fltb (snd b) (snd kv)) eqn:E.
    + destruct (IH kv Hkv Hd) as (N & U & A). split; [done|].
      split; [|by apply Forall_cons]. eapply fleb_trans; [by apply fltb_fleb|done].
    + destruct (IH b Hb Hd) as (N & U & A). split; [done|]. split; [done|].
      apply Forall_cons. split; [|done]. eapply fleb_trans; [|exact U]. by apply fltb_false.
Qed.

Lemma argmax_in d : forall b, argmax b d ∈ b :: d.
Proof.
  induction d as [|kv d IH]; intros b; simpl; [by apply list_elem_of_singleton|].
  destruct (fltb (snd b) (snd kv)).
  - apply list_elem_of_further, IH.
  - pose proof (IH b) as [E|E]%elem_of_cons.
    + rewrite E. apply list_elem_of_here.
    + by do 2 apply list_elem_of_further.
Qed.

(** A realized move of at most [10^12] percent. *)
Definition move_ok (x : float) : Prop := within (-1e12)%F 1e12%F x.

Lemma move_fopp x : move_ok x -> move_ok (fopp x).
Proof.
  intros [H1%fopp_mono H2%fopp_mono]. split.
  - refine (fleb_trans _ _ _ _ H2). fconst.
  - refine (fleb_trans _ _ _ H1 _). fconst.
Qed.

Lemma move_round x : move_ok x -> move_ok (py_round x 6).
Proof. apply py_round_within; (lia || fconst). Qed.

Lemma move_finite x : move_ok x -> is_finite x = true.
Proof. apply within_finite; fconst. Qed.

Lemma dget_or_in {A} (P : A -> Prop) k x d :
  P x -> Forall (fun kv => P (snd kv)) d -> P (dget_or k x d).
Proof.
  intros Hx. unfold dget_or. induction d as [|[k' v] d IH]; intros Hd; [done|].
  apply Forall_cons in Hd as [Hv Hd]. simpl. destruct (String.eqb k k'); [done|by apply IH].
Qed.

(** Regret is never negative: whatever action was taken on whatever side, the best
    action is one of the three, no alternative beats it, and a trade flagged as not the
    best had a strictly better alternative. *)
Theorem regret_nonneg action p side :
  move_ok p ->
  let c := counterfactual action p side in
  fleb (Fin 0) (regret_pct c) = true /\
  (best_action c, best_pnl_pct c) ∈ alternatives c /\
  Forall (fun kv => fleb (snd kv) (best_pnl_pct c) = true) (alternatives c) /\
  (was_best c = false -> fltb (chosen_pnl_pct c) (best_pnl_pct c) = true).
Proof.
  intros Hp. unfold counterfactual. cbv zeta.
  cbn [regret_pct best_action best_pnl_pct alternatives was_best chosen_pnl_pct].
  set (move := if String.eqb side BUY then p else fopp p).
  assert (move_ok move) as Hm by (subst move; destruct (String.eqb side BUY); [done|by apply move_fopp]).
  set (buy := py_round move 6). set (sell := py_round (fopp move) 6).
  assert (move_ok buy) as Hb by by apply move_round.
  assert (move_ok sell) as Hs by by apply move_round, move_fopp.
  assert (move_ok 0.0%F) as Hz by (split; fconst).
  clearbody buy sell. clear Hm move Hp.
  set (d := [(SELL, sell); (HOLD, 0.0%F)]). set (best := argmax (BUY, buy) d).
  assert (Forall (fun kv => move_ok (snd kv)) ((BUY, buy) :: d)) as Hall
    by (repeat (apply Forall_cons; split; [assumption|]); by apply Forall_nil).
  assert (Forall (fun kv : string * float => snd kv <> NaN) d) as Hn.
  { apply Forall_cons in Hall as [_ Hall]. eapply Forall_impl; [exact Hall|].
    intros kv Hkv. by apply finite_not_nan, move_finite. }
  destruct (argmax_upper d (BUY, buy)) as (N & U & A);
    [by apply finite_not_nan, move_finite|exact Hn|]. fold best in N, U, A.
  pose proof (argmax_in d (BUY, buy)) as Hin. fold best in Hin.
  assert (move_ok (snd best)) as Hbest by exact (proj1 (Forall_forall _ _) Hall _ Hin).
  assert (Forall (fun kv => fleb (snd kv) (snd best) = true) ((BUY, buy) :: d)) as Up
    by (apply Forall_cons; by split).
  set (chosen := dget_or action 0.0%F ((BUY, buy) :: d)).
  assert (move_ok chosen) as Hc by by apply dget_or_in.
  assert (fleb chosen (snd best) = true) as Hle.
  { apply (dget_or_in (fun x => fleb x (snd best) = true)); [|exact Up].
    apply Forall_cons in A as [_ A]. by apply Forall_cons in A as [A _]. }
  clearbody best chosen. clear U A Hall Hn.
  split; [|split; [by destruct best|split; [exact Up|]]].
  - apply py_round_nonneg; [lia|]. by apply fsub_nonneg; [apply move_finite..|].
  - intros Hw. destruct (fltb chosen (snd best)) eqn:E; [done|]. exfalso.
    apply fltb_false in E; [|by apply finite_not_nan, move_finite..].
    assert (units (snd best) = units chosen) as Eu.
    { apply move_finite in Hbest, Hc. apply fleb_units in E, Hle; [|done..]. lia. }
    apply move_finite in Hbest, Hc.
    destruct (fsub_self_zero _ _ Hbest Hc Eu) as [Ez|Ez]; rewrite Ez in Hw;
      vm_compute in Hw; discriminate Hw.
Qed.

Lemma regret_nonneg_witness :
  regret_pct (counterfactual SELL (-2.5)%F BUY) = 0.0%F /\
  fleb (Fin 0) (regret_pct (counterfactual BUY (-2.5)%F BUY)) = true.
Proof.
  split; [vm_compute; reflexivity|].
  assert (move_ok (-2.5)%F) as H by (split; fconst).
  exact (proj1 (regret_nonneg BUY (-2.5)%F BUY H)).
Defined.
