(* ===== verification/Drift.v ===== *)
(** Drift: rolling recent-versus-prior comparison per metric (cognitive/drift.py). *)
From S2P Require Import Prelude PyFloat FloatFacts PyVal PyMath Events.

Record DriftAlert := {
  metric : string;
  al_direction : string;
  recent : float;
  baseline : float;
  delta : float;
}.

Definition alert_as_dict (a : DriftAlert) : payload :=
  [("type", VStr (value DRIFT)); ("metric", VStr (metric a)); ("direction", VStr (al_direction a));
   ("recent", VFloat (recent a)); ("baseline", VFloat (baseline a)); ("delta", VFloat (delta a))].

Record Spec := {
  higher_is_better : bool;
  threshold : float;
}.

Record DriftMonitor := {
  window : Z;
  min_samples : Z;
  series : dict (list float);
  specs : dict Spec;
}.

Module Monitor.

Definition init (w m : Z) : DriftMonitor :=
  {| window := w; min_samples := m; series := []; specs := [] |}.

(** [deque(maxlen=...)] refuses a negative length, after the spec is stored. *)
Definition register (name : string) (higher : bool) (thr : float) (d : DriftMonitor)
  : res DriftMonitor :=
  if window d * 2 <? 0 then Raise ValueError
  else Ok {| window := window d; min_samples := min_samples d;
             series := dset name [] (series d);
             specs := dset name {| higher_is_better := higher; threshold := thr |} (specs d) |}.

(** [deque.append] on a bounded deque drops from the left. *)
Definition append (maxlen : Z) (v : float) (l : list float) : list float :=
  let l' := l ++ [v] in if maxlen <? zlen l' then tail l' else l'.

(** An unknown metric is ignored. *)
Definition observe (name : string) (v : float) (d : DriftMonitor) : DriftMonitor :=
  match dget name (series d) with
  | Some l => {| window := window d; min_samples := min_samples d;
                 series := dset name (append (window d * 2) v l) (series d); specs := specs d |}
  | None => d
  end.

Definition DOWN : string := "down".
Definition UP : string := "up".

(** The alert of one metric, if its recent half degraded past the threshold. *)
Definition assess_one (d : DriftMonitor) (name : string) (l : list float) : res (list DriftAlert) :=
  if zlen l <? 2 * min_samples d then Ok []
  else
    let half := Nat.div2 (length l) in
    let* b := fmean (take half l) in
    let* r := fmean (drop half l) in
    let* spec := dindex name (specs d) in
    let degradation := if higher_is_better spec then (b - r)%F else (r - b)%F in
    Ok (if fltb (threshold spec) degradation then
          [{| metric := name;
              al_direction := if higher_is_better spec then DOWN else UP;
              recent := py_round r 4; baseline := py_round b 4;
              delta := py_round degradation 4 |}]
        else []).

Definition assess (d : DriftMonitor) : res (list DriftAlert) :=
  let* os := res_list (fun kv => assess_one d (fst kv) (snd kv)) (series d) in Ok (concat os).

Definition snapshot (d : DriftMonitor) : payload :=
  [("window", VInt (window d)); ("min_samples", VInt (min_samples d));
   ("metrics", VDict (map (fun kv =>
      (fst kv, VDict [("samples", VInt (zlen (snd kv)));
                      ("latest", vopt VFloat (last (snd kv)))])) (series d)))].

(** * Bounded memory *)

(** Every series is short enough, and every series has a spec. *)
Record ok (d : DriftMonitor) : Prop := {
  ok_window : 0 <= window d;
  ok_len : Forall (fun kv => zlen (snd kv) <= window d * 2) (series d);
  ok_samples : Forall (fun kv => Forall sample_ok (snd kv)) (series d);
  ok_specs : forall k, k ∈ dkeys (series d) -> exists s, dget k (specs d) = Some s;
}.

Lemma monitor_init_ok w m : 0 <= w -> ok (init w m).
Proof. intros. split; [done|by apply Forall_nil..|]. intros k Hk. by apply elem_of_nil in Hk. Qed.

Lemma Forall_dset {A} (P : string * A -> Prop) k v d :
  Forall P d -> (forall k', P (k', v)) -> Forall P (dset k v d).
Proof.
  intros Hd Hv. induction d as [|[k' v'] d IH]; simpl; [by apply Forall_singleton|].
  apply Forall_cons in Hd as [H1 Hd]. destruct (String.eqb k k').
  - apply Forall_cons. by split.
  - apply Forall_cons. split; [done|by apply IH].
Qed.

Lemma append_len m v l : 0 <= m -> zlen l <= m -> zlen (append m v l) <= m.
Proof.
  intros Hm Hl. unfold append. unfold zlen in *. rewrite length_app. simpl.
  destruct (Z.ltb_spec m (Z.of_nat (length l + 1))); [|rewrite length_app; simpl; lia].
  destruct l; simpl; [lia|]. rewrite length_app. simpl in *. lia.
Qed.

Lemma append_samples m v l :
  sample_ok v -> Forall sample_ok l -> Forall sample_ok (append m v l).
Proof.
  intros Hv Hl. assert (Forall sample_ok (l ++ [v])) as H
    by (apply Forall_app; split; [done|by apply Forall_singleton]).
  unfold append. destruct (_ <? _); [|done]. destruct (l ++ [v]); [done|].
  by apply Forall_cons in H as [_ H].
Qed.

Lemma dget_specs k k' (v : Spec) d :
  (exists s, dget k' d = Some s) -> exists s, dget k' (dset k v d) = Some s.
Proof.
  intros [s Hs]. destruct (decide (k = k')) as [->|Hne]; [rewrite dget_dset_eq; by eexists|].
  rewrite dget_dset_ne by done. by exists s.
Qed.

Lemma dset_key_in {A} k (v : A) d k' : k' ∈ dkeys (dset k v d) -> k' = k \/ k' ∈ dkeys d.
Proof.
  induction d as [|[k0 v0] d IH]; simpl.
  - intros E%list_elem_of_singleton. by left.
  - destruct (String.eqb_spec k k0) as [->|]; simpl.
    + intros [E|E]%elem_of_cons; [by left|]. right. by apply list_elem_of_further.
    + intros [E|E]%elem_of_cons; [right; subst; apply list_elem_of_here|].
      destruct (IH E) as [E'|E']; [by left|]. right. by apply list_elem_of_further.
Qed.

Lemma register_ok n h t d d' : ok d -> register n h t d = Ok d' -> ok d'.
Proof.
  intros Hd. unfold register. destruct (Z.ltb_spec (window d * 2) 0); [done|].
  intros E%Ok_inj. subst d'. destruct Hd as [Hw Hl Hv Hs]. split; cbn [window series specs].
  - done.
  - apply Forall_dset; [done|]. intros k'. unfold zlen. simpl. lia.
  - apply Forall_dset; [done|]. intros k'. by apply Forall_nil.
  - intros k [->|Hk]%dset_key_in; [rewrite dget_dset_eq; by eexists|].
    by apply dget_specs, Hs.
Qed.

Lemma dget_Forall {A} (P : string * A -> Prop) k v d :
  Forall P d -> dget k d = Some v -> exists k', P (k', v).
Proof. intros Hd H%dget_Some_In. exists k. by eapply Forall_forall in Hd. Qed.

Lemma observe_ok n v d : sample_ok v -> ok d -> ok (observe n v d).
Proof.
  intros Hx Hd. unfold observe. destruct (dget n (series d)) as [l|] eqn:E; [|done].
  destruct Hd as [Hw Hl Hv Hs]. split; cbn [window series specs]; [done| | |].
  - apply Forall_dset; [done|]. intros k'. simpl.
    apply (dget_Forall _ _ _ _ Hl) in E as [k E]. apply append_len; [lia|exact E].
  - apply Forall_dset; [done|]. intros k'. simpl.
    apply (dget_Forall _ _ _ _ Hv) in E as [k E]. by apply append_samples.
  - intros k [->|Hk]%dset_key_in; apply Hs; [|done].
    destruct (decide (n ∈ dkeys (series d))) as [|Hn]; [done|].
    apply dget_None in Hn. by rewrite Hn in E.
Qed.

(** One call on the monitor, the sample being of moderate size; a [register] that
    raises leaves no reachable successor. *)
Inductive step : DriftMonitor -> DriftMonitor -> Prop :=
| step_register n h t d d' : register n h t d = Ok d' -> step d d'
| step_observe n v d : sample_ok v -> step d (observe n v d).

Definition reachable (w m : Z) : DriftMonitor -> Prop := rtc step (init w m).

Lemma monitor_reachable_ok w m d : 0 <= w -> reachable w m d -> ok d.
Proof.
  intros Hw. apply (rtc_ind_r ok); [by apply monitor_init_ok|].
  intros d1 d2 _ [] ?; eauto using register_ok, observe_ok.
Qed.

Lemma reachable_params w m d : reachable w m d -> window d = w /\ min_samples d = m.
Proof.
  apply (rtc_ind_r (fun d => window d = w /\ min_samples d = m)); [done|].
  intros d1 d2 _ [n h t x x' E|n v x _] [Ew Em].
  - unfold register in E. destruct (_ <? _); [done|]. by apply Ok_inj in E as <-.
  - unfold observe. by destruct (dget n (series x)).
Qed.

(** What an alert says of the two halves of its series. *)
Definition justified (d : DriftMonitor) (a : DriftAlert) : Prop :=
  exists l s b r,
    (metric a, l) ∈ series d /\ dget (metric a) (specs d) = Some s /\
    2 * min_samples d <= zlen l /\
    fmean (take (Nat.div2 (length l)) l) = Ok b /\ fmean (drop (Nat.div2 (length l)) l) = Ok r /\
    (if higher_is_better s
     then al_direction a = DOWN /\ fltb (threshold s) (b - r)%F = true
     else al_direction a = UP /\ fltb (threshold s) (r - b)%F = true).

Lemma assess_one_justified d n l o :
  (n, l) ∈ series d -> assess_one d n l = Ok o -> Forall (justified d) o.
Proof.
  intros Hin. unfold assess_one. destruct (Z.ltb_spec (zlen l) (2 * min_samples d)) as [|Hlen].
  { intros <-%Ok_inj. by apply Forall_nil. }
  intros (b & Eb & (r & Er & (s & Es & E)%res_bind_Ok)%res_bind_Ok)%res_bind_Ok.
  apply Ok_inj in E as <-. destruct (fltb _ _) eqn:Ed; [|by apply Forall_nil].
  apply Forall_singleton. exists l, s, b, r.
  unfold dindex in Es. destruct (dget n (specs d)) as [s'|] eqn:Eg; [|done].
  apply Ok_inj in Es as ->.
  cbn [metric al_direction]. do 5 (split; [done|]). by destruct (higher_is_better s).
Qed.

Lemma half_parts {A} (P : A -> Prop) (l : list A) :
  Forall P l -> 2 <= zlen l ->
  let h := Nat.div2 (length l) in
  Forall P (take h l) /\ Forall P (drop h l) /\ take h l <> [] /\ drop h l <> [] /\
  zlen (take h l) <= zlen l /\ zlen (drop h l) <= zlen l.
Proof.
  intros Hl Hlen h. unfold zlen in *. rewrite length_take, length_drop.
  assert (1 <= h /\ h < length l)%nat as [H1 H2].
  { subst h. rewrite Nat.div2_div. split; [apply Nat.div_le_lower_bound; lia|].
    apply Nat.div_lt; lia. }
  split; [by apply Forall_take|]. split; [by apply Forall_drop|].
  split; [intros E%(f_equal length); rewrite length_take in E; simpl in E; lia|].
  split; [intros E%(f_equal length); rewrite length_drop in E; simpl in E; lia|]. lia.
Qed.

Lemma assess_one_total d n l :
  ok d -> 0 < min_samples d -> window d <= 2 ^ 20 -> (n, l) ∈ series d ->
  exists o, assess_one d n l = Ok o.
Proof.
  intros [Hw Hl Hv Hs] Hm Hwin Hin. unfold assess_one.
  destruct (Z.ltb_spec (zlen l) (2 * min_samples d)) as [|Hlen]; [by eexists|].
  apply (proj1 (Forall_forall _ _) Hl) in Hin as Hll. simpl in Hll.
  apply (proj1 (Forall_forall _ _) Hv) in Hin as Hvl. simpl in Hvl.
  destruct (half_parts sample_ok l Hvl ltac:(lia)) as (P1 & P2 & N1 & N2 & L1 & L2).
  destruct (fmean_total _ N1 ltac:(lia) P1) as [b ->].
  destruct (fmean_total _ N2 ltac:(lia) P2) as [r ->].
  destruct (Hs n) as [s Es].
  { apply list_elem_of_In. apply list_elem_of_In in Hin. unfold dkeys.
    apply (in_map fst) in Hin. exact Hin. }
  unfold dindex. rewrite Es. by eexists.
Qed.

Lemma assess_total d :
  ok d -> 0 < min_samples d -> window d <= 2 ^ 20 ->
  exists os, assess d = Ok os /\ Forall (justified d) os.
Proof.
  intros Hd Hm Hwin. unfold assess.
  assert (forall l, (forall kv, kv ∈ l -> kv ∈ series d) ->
    exists os, res_list (fun kv => assess_one d (fst kv) (snd kv)) l = Ok os /\
    Forall (justified d) (concat os)) as Hall.
  { induction l as [|[n s] l IH]; intros Hsub; [exists []; split; [done|by apply Forall_nil]|].
    destruct (assess_one_total d n s) as [o Eo]; [done..|apply Hsub, list_elem_of_here|].
    destruct IH as (os & Eos & Hos); [intros kv Hkv; by apply Hsub, list_elem_of_further|].
    exists (o :: os). simpl. rewrite Eo. simpl. rewrite Eos. split; [done|].
    apply Forall_app. split; [|done]. eapply assess_one_justified; [|exact Eo].
    apply Hsub, list_elem_of_here. }
  destruct (Hall (series d)) as (os & Eos & Hos); [done|].
  exists (concat os). by rewrite Eos.
Qed.

End Monitor.

Import Monitor.

(** A reachable monitor never holds more than [2 * window] samples of a metric, its
    assessment never raises, and every alert it returns is justified: enough samples,
    and the recent half worse than the prior half by more than the threshold, in the
    direction the metric's polarity calls worse. *)
Theorem drift_sound w m d :
  0 <= w <= 2 ^ 20 -> 0 < m -> reachable w m d ->
  Forall (fun kv => zlen (snd kv) <= w * 2) (series d) /\
  exists alerts, assess d = Ok alerts /\ Forall (justified d) alerts.
Proof.
  intros Hw Hm Hr. pose proof (monitor_reachable_ok w m d (proj1 Hw) Hr) as Hok.
  destruct (reachable_params w m d Hr) as [Ew Em].
  split; [rewrite <- Ew; apply Hok|].
  apply assess_total; [done|lia|lia].
Qed.

Definition two_samples : DriftMonitor :=
  Monitor.observe "regret" 2.0%F (Monitor.observe "regret" 0.5%F
    {| window := 1; min_samples := 1; series := [("regret", [])];
       specs := [("regret", {| higher_is_better := false; threshold := 0.5%F |})] |}).

Lemma drift_sound_witness :
  exists a, assess two_samples = Ok [a] /\ al_direction a = UP /\ justified two_samples a.
Proof.
  assert (reachable 1 1 two_samples) as Hr.
  { eapply rtc_l; [apply (step_register "regret" false 0.5%F); reflexivity|].
    eapply rtc_l; [apply (step_observe "regret" 0.5%F); split; fconst|].
    eapply rtc_l; [apply (step_observe "regret" 2.0%F); split; fconst|]. apply rtc_refl. }
  destruct (drift_sound 1 1 two_samples) as (_ & alerts & E & J); [lia..|exact Hr|].
  assert (exists a, alerts = [a] /\ al_direction a = UP) as (a & -> & Ha).
  { destruct alerts as [|a [|]]; try (exfalso; vm_compute in E; congruence).
    exists a. split; [reflexivity|]. vm_compute in E. apply Ok_inj in E. injection E as <-. reflexivity. }
  exists a. split; [exact E|]. split; [exact Ha|]. by apply Forall_cons in J as [J _].
Defined.
