(* ===== verification/Proposal.v ===== *)
(** Proposal: typed candidate changes, the success scorecard, the proposal agent and
    the lifecycle queue (cognitive/proposal.py). *)
From S2P Require Import Prelude PyFloat FloatFacts PyVal PyMath Events Config Agents Learning.

Definition PROPOSAL_AGENT : string := "proposal_agent".
Definition WEIGHT_STEP : float := 0.05%F.
Definition MIN_OBSERVATION_CONFIDENCE : float := 0.50%F.
Definition SCORECARD_PRIOR : float := 0.50%F.

Inductive ProposalType :=
| WEIGHT_CHANGE
| PROMPT_CHANGE
| TOOL_CHANGE
| BACKTEST_CHANGE
| RISK_CHANGE
| FEATURE_CHANGE.

Definition ptype_value (t : ProposalType) : string :=
  match t with
  | WEIGHT_CHANGE => "weight_change"
  | PROMPT_CHANGE => "prompt_change"
  | TOOL_CHANGE => "tool_change"
  | BACKTEST_CHANGE => "backtest_change"
  | RISK_CHANGE => "risk_change"
  | FEATURE_CHANGE => "feature_change"
  end.

Inductive ProposalStatus :=
| GENERATED
| BACKTESTING
| AWAITING_REVIEW
| APPROVED
| REJECTED
| MERGED
| BLOCKED.

Definition status_value (s : ProposalStatus) : string :=
  match s with
  | GENERATED => "generated"
  | BACKTESTING => "backtesting"
  | AWAITING_REVIEW => "awaiting_review"
  | APPROVED => "approved"
  | REJECTED => "rejected"
  | MERGED => "merged"
  | BLOCKED => "blocked"
  end.

Record Proposal := {
  proposal_id : string;
  proposal_type : string;
  target : string;
  old_value : val;
  new_value : val;
  change : val;
  reason : string;
  expected_impact : string;
}.

Definition diff (p : Proposal) : payload :=
  [(target p, VDict [("old", old_value p); ("new", new_value p)])].

Definition proposal_as_dict (p : Proposal) : payload :=
  [("type", VStr (value PROPOSAL)); ("proposal_id", VStr (proposal_id p));
   ("proposal_type", VStr (proposal_type p)); ("target", VStr (target p));
   ("old_value", old_value p); ("new_value", new_value p); ("change", change p);
   ("reason", VStr (reason p)); ("expected_impact", VStr (expected_impact p));
   ("diff", VDict (diff p))].

(** [proposal_id or default] *)
Definition or_default (pid : option string) (default : string) : string :=
  match pid with
  | Some s => if String.eqb s "" then default else s
  | None => default
  end.

(** The body shared by [weight_change] and [risk_change]. *)
Definition numeric_change (t : ProposalType) (tgt : string) (old new : float)
    (why impact : string) (pid : option string) : Proposal :=
  {| proposal_id := or_default pid ("P-" +:+ tgt +:+ "-" +:+ Fmt.repr_float new);
     proposal_type := ptype_value t; target := tgt;
     old_value := VFloat old; new_value := VFloat new;
     change := VFloat (py_round (new - old)%F 6);
     reason := why; expected_impact := impact |}.

Definition weight_change (sig : string) (old new : float) (why impact : string)
    (pid : option string) : Proposal :=
  numeric_change WEIGHT_CHANGE ("weights." +:+ sig) old new why impact pid.

Definition risk_change (tgt : string) (old new : float) (why : string) (pid : option string)
  : Proposal := numeric_change RISK_CHANGE tgt old new why "" pid.

Definition prompt_change (tgt new why : string) (pid : option string) : Proposal :=
  {| proposal_id := or_default pid ("P-" +:+ tgt);
     proposal_type := ptype_value PROMPT_CHANGE; target := tgt;
     old_value := VNone; new_value := VStr new; change := VStr new;
     reason := why; expected_impact := "" |}.

Definition tool_change (tgt action why : string) (pid : option string) : Proposal :=
  {| proposal_id := or_default pid ("P-" +:+ tgt +:+ "-" +:+ action);
     proposal_type := ptype_value TOOL_CHANGE; target := tgt;
     old_value := VNone; new_value := VStr action; change := VStr action;
     reason := why; expected_impact := "" |}.

(** * Scorecard *)

Record TypeStat := {
  attempts : Z;
  successes : Z;
}.

Definition ProposalScorecard := dict TypeStat.

Definition no_attempts : TypeStat := {| attempts := 0; successes := 0 |}.

Definition record (t : string) (success : bool) (c : ProposalScorecard) : ProposalScorecard :=
  let stat := dget_or t no_attempts c in
  dset t {| attempts := attempts stat + 1;
            successes := successes stat + (if success then 1 else 0) |} c.

Definition success_rate (t : string) (c : ProposalScorecard) : res float :=
  match dget t c with
  | None => Ok SCORECARD_PRIOR
  | Some stat =>
      if attempts stat =? 0 then Ok SCORECARD_PRIOR
      else let* q := int_div (successes stat) (attempts stat) in Ok (py_round q 4)
  end.

Definition scorecard_snapshot (c : ProposalScorecard) : res payload :=
  res_list (fun kv =>
    let* r := success_rate (fst kv) c in
    Ok (fst kv, VDict [("attempts", VInt (attempts (snd kv)));
                       ("successes", VInt (successes (snd kv)));
                       ("success_rate", VFloat r)])) c.

(** * Proposal agent *)

Record ProposalAgent := {
  pa_step : float;
  min_confidence : float;
}.

Definition default_proposal_agent : ProposalAgent :=
  {| pa_step := WEIGHT_STEP; min_confidence := MIN_OBSERVATION_CONFIDENCE |}.

Definition is_weight_key (k : string) : bool := existsb (String.eqb k) WEIGHT_KEYS.

(** [max(candidates, key=confidence)]: the first of the strongest. *)
Definition stronger (best o : Observation) : Observation :=
  if fltb (confidence best) (confidence o) then o else best.

Definition strongest (l : list Observation) : option Observation :=
  match List.filter (fun o => is_weight_key (signal o)) l with
  | [] => None
  | o :: rest => Some (fold_left stronger rest o)
  end.

Definition required_confidence (a : ProposalAgent) (rate : float) : float :=
  fmin 0.95%F (min_confidence a + (1.0 - rate) * 0.3)%F.

Definition show (p : payload) (k : string) : string := Fmt.str (dget_or k VNone p).

Definition reason_of (o : Observation) : string :=
  signal o +:+ " agent " +:+ direction o +:+ " (grade " +:+ show (evidence o) "agent_grade"
  +:+ ", correct_rate " +:+ show (evidence o) "correct_rate"
  +:+ ", n=" +:+ show (evidence o) "sample_size" +:+ ")".

Definition expected_of (o : Observation) (dir : Z) (old new : float) : string :=
  "shift weights." +:+ signal o +:+ " " +:+ (if 0 <? dir then "up" else "down")
  +:+ " by " +:+ Fmt.repr_float (fabs (py_round (new - old)%F 4))
  +:+ " toward better-attributed signal".

(** [direction * step] *)
Definition signed_step (dir : Z) (step : float) : float := (of_Z dir * step)%F.

Definition new_weight (old : float) (dir : Z) (step : float) : float :=
  py_round (clamp_weight (old + signed_step dir step)%F) 4.

Definition propose (a : ProposalAgent) (obs : list Observation) (c : CognitiveConfig)
    (card : option ProposalScorecard) : res (option Proposal) :=
  match strongest obs with
  | None => Ok None
  | Some best =>
      let* rate := match card with
                   | Some sc => success_rate (ptype_value WEIGHT_CHANGE) sc
                   | None => Ok SCORECARD_PRIOR
                   end in
      if fltb (confidence best) (required_confidence a rate) then Ok None
      else
        let dir := if String.eqb (direction best) OUTPERFORMING then 1 else -1 in
        let step := (pa_step a * (0.5 + 0.5 * rate))%F in
        let* w := dindex (signal best) (weights c) in
        let old := py_round w 6 in
        let new := new_weight old dir step in
        if feqb new old then Ok None
        else Ok (Some (weight_change (signal best) old new (reason_of best)
                         (expected_of best dir old new) None))
  end.

Definition emit_proposal (p : Proposal) (tid : string) (st : EventStream) : EventStream :=
  Stream.emit_ PROPOSAL (proposal_as_dict p) tid PROPOSAL_AGENT "" st.

(** * Queue *)

Record QueueEntry := {
  q_proposal : Proposal;
  q_status : string;
  q_verdict : option payload;
  q_delta : option payload;
  q_pull_request : option payload;
  q_proposal_grade : option payload;
}.

Definition entry_as_dict (e : QueueEntry) : payload :=
  [("proposal", VDict (proposal_as_dict (q_proposal e))); ("status", VStr (q_status e));
   ("verdict", vopt VDict (q_verdict e)); ("delta", vopt VDict (q_delta e));
   ("pull_request", vopt VDict (q_pull_request e));
   ("proposal_grade", vopt VDict (q_proposal_grade e))].

Definition ProposalQueue := list QueueEntry.

Definition q_add (p : Proposal) (s : ProposalStatus) (q : ProposalQueue) : ProposalQueue :=
  q ++ [{| q_proposal := p; q_status := status_value s; q_verdict := None; q_delta := None;
           q_pull_request := None; q_proposal_grade := None |}].

(** One keyword argument of [update]. *)
Inductive QChange :=
| SetStatus (s : ProposalStatus)
| SetVerdict (v : payload)
| SetDelta (v : payload)
| SetPullRequest (v : payload)
| SetGrade (v : payload).

Definition apply_change (e : QueueEntry) (c : QChange) : QueueEntry :=
  {| q_proposal := q_proposal e;
     q_status := match c with SetStatus s => status_value s | _ => q_status e end;
     q_verdict := match c with SetVerdict v => Some v | _ => q_verdict e end;
     q_delta := match c with SetDelta v => Some v | _ => q_delta e end;
     q_pull_request := match c with SetPullRequest v => Some v | _ => q_pull_request e end;
     q_proposal_grade := match c with SetGrade v => Some v | _ => q_proposal_grade e end |}.

(** The first entry with the id changes. *)
Fixpoint q_update (pid : string) (cs : list QChange) (q : ProposalQueue) : ProposalQueue :=
  match q with
  | [] => []
  | e :: q' => if String.eqb (proposal_id (q_proposal e)) pid then fold_left apply_change cs e :: q'
               else e :: q_update pid cs q'
  end.

Definition q_snapshot (q : ProposalQueue) : list payload := map entry_as_dict q.

(** * Facts: scorecard *)

Definition stat_ok (s : TypeStat) : Prop := 0 <= successes s <= attempts s.

Definition scorecard_run (l : list (string * bool)) : ProposalScorecard :=
  fold_left (fun c x => record (fst x) (snd x) c) l [].

Definition count (t : string) (l : list (string * bool)) : Z :=
  zlen (List.filter (fun x => String.eqb (fst x) t) l).

Lemma record_stat t t' b c :
  dget_or t' no_attempts (record t b c) =
  if String.eqb t t' then
    {| attempts := attempts (dget_or t no_attempts c) + 1;
       successes := successes (dget_or t no_attempts c) + (if b then 1 else 0) |}
  else dget_or t' no_attempts c.
Proof.
  unfold record. unfold dget_or at 1. destruct (String.eqb_spec t t') as [->|Hne].
  - by rewrite dget_dset_eq.
  - by rewrite dget_dset_ne by done.
Qed.

Lemma scorecard_stat l t :
  let s := dget_or t no_attempts (scorecard_run l) in stat_ok s /\ attempts s = count t l.
Proof.
  unfold scorecard_run. induction l as [|[t' b] l IH] using rev_ind; [by unfold stat_ok|].
  rewrite fold_left_app. simpl. rewrite record_stat. unfold count in *.
  rewrite List.filter_app. simpl. destruct IH as [Hs Ha]. unfold stat_ok in *.
  destruct (String.eqb_spec t' t) as [->|Hne]; rewrite zlen_app; unfold zlen at 2; simpl.
  - destruct b; lia.
  - lia.
Qed.

Lemma success_rate_ok t c :
  stat_ok (dget_or t no_attempts c) -> exists r, success_rate t c = Ok r /\ unit_pos r.
Proof.
  intros Hs. unfold success_rate. unfold dget_or in Hs.
  destruct (dget t c) as [s|]; [|by exists SCORECARD_PRIOR; split; [|split; fconst]].
  destruct (Z.eqb_spec (attempts s) 0);
    [by exists SCORECARD_PRIOR; split; [|split; fconst]|].
  unfold stat_ok in Hs. destruct (int_div_unit (successes s) (attempts s)) as (r & -> & Hr); [lia..|].
  eexists. split; [reflexivity|]. apply round_unit_pos; [by left|].
  destruct Hr as [H1 H2]. split; [|exact H2]. refine (fleb_trans _ _ _ _ H1). fconst.
Qed.

(** Whatever outcomes were recorded, the success rate of every type is defined and in
    [0, 1], the attempts of a type are the number of its records, and a type without
    records has the prior. *)
Theorem scorecard_rates l t :
  (exists r, success_rate t (scorecard_run l) = Ok r /\ unit_pos r) /\
  attempts (dget_or t no_attempts (scorecard_run l)) = count t l /\
  (count t l = 0 -> success_rate t (scorecard_run l) = Ok SCORECARD_PRIOR).
Proof.
  destruct (scorecard_stat l t) as [Hs Ha].
  split; [by apply success_rate_ok|]. split; [exact Ha|]. intros H0. rewrite H0 in Ha.
  unfold success_rate. unfold dget_or in Ha.
  destruct (dget t (scorecard_run l)) as [s|]; [by rewrite Ha|done].
Qed.

(** * Facts: proposal agent *)

Lemma stronger_fold l : forall o,
  let b := fold_left stronger l o in b ∈ o :: l /\
  (confidence o <> NaN -> Forall (fun x => confidence x <> NaN) l ->
   confidence b <> NaN /\ fleb (confidence o) (confidence b) = true /\
   Forall (fun x => fleb (confidence x) (confidence b) = true) l).
Proof.
  induction l as [|x l IH]; intros o; simpl.
  - split; [by apply list_elem_of_singleton|]. intros Ho _.
    split; [done|]. split; [by apply fleb_refl|by apply Forall_nil].
  - destruct (IH (stronger o x)) as [Hin Hmax]. split.
    + apply elem_of_cons in Hin as [->|Hin]; [|by do 2 apply list_elem_of_further].
      unfold stronger. destruct (fltb _ _);
        [apply list_elem_of_further|]; apply list_elem_of_here.
    + intros Ho Hl. apply Forall_cons in Hl as [Hx Hl].
      assert (confidence (stronger o x) <> NaN) as Hs by (unfold stronger; by destruct (fltb _ _)).
      destruct (Hmax Hs Hl) as (N & U & A).
      assert (fleb (confidence o) (confidence (stronger o x)) = true /\
              fleb (confidence x) (confidence (stronger o x)) = true) as [L1 L2].
      { unfold stronger. destruct (fltb (confidence o) (confidence x)) eqn:E.
        - split; [by apply fltb_fleb|by apply fleb_refl].
        - split; [by apply fleb_refl|by apply fltb_false]. }
      split; [done|]. split; [by eapply fleb_trans|].
      apply Forall_cons. split; [by eapply fleb_trans|done].
Qed.

(** The chosen observation is a strongest one among those about a weight. *)
Lemma strongest_spec l o :
  strongest l = Some o ->
  o ∈ l /\ is_weight_key (signal o) = true /\
  (Forall (fun x => confidence x <> NaN) l ->
   Forall (fun x => is_weight_key (signal x) = true ->
                    fleb (confidence x) (confidence o) = true) l).
Proof.
  unfold strongest. destruct (List.filter _ l) as [|x xs] eqn:E; [done|]. intros [= <-].
  destruct (stronger_fold xs x) as [Hin Hmax]. rewrite <- E in Hin.
  apply list_elem_of_In, filter_In in Hin as [Hin Hk].
  split; [by apply list_elem_of_In|]. split; [done|]. intros Hn.
  assert (Forall (fun y => confidence y <> NaN) (x :: xs)) as Hn'.
  { rewrite <- E. rewrite Forall_forall in Hn |- *. intros y Hy. apply Hn.
    apply list_elem_of_In, filter_In in Hy as [Hy _]. by apply list_elem_of_In. }
  apply Forall_cons in Hn' as [Hx Hxs]. destruct (Hmax Hx Hxs) as (_ & U & A).
  apply Forall_forall. intros y Hy Hky.
  assert (y ∈ x :: xs) as Hyx
    by (rewrite <- E; apply list_elem_of_In, filter_In; split; [by apply list_elem_of_In|done]).
  apply elem_of_cons in Hyx as [->|Hyx]; [done|].
  rewrite Forall_forall in A. by apply A.
Qed.

Lemma new_weight_unit old dir step : unit_pos (new_weight old dir step).
Proof. apply round_unit_pos; [by left|]. apply clamp_within. fconst. Qed.

(** What a proposal of the agent is. *)
Definition well_formed (a : ProposalAgent) (obs : list Observation) (c : CognitiveConfig)
    (p : Proposal) : Prop :=
  exists o old new,
    o ∈ obs /\ signal o ∈ WEIGHT_KEYS /\
    Forall (fun x => is_weight_key (signal x) = true ->
                     fleb (confidence x) (confidence o) = true) obs /\
    proposal_type p = ptype_value WEIGHT_CHANGE /\ target p = "weights." +:+ signal o /\
    old_value p = VFloat old /\ new_value p = VFloat new /\
    old = py_round (weight_of c (signal o)) 6 /\ unit_pos new /\ feqb new old = false.

Lemma propose_inv a obs c card p :
  Forall (fun o => confidence o <> NaN) obs ->
  propose a obs c card = Ok (Some p) -> well_formed a obs c p.
Proof.
  intros Hn. unfold propose. destruct (strongest obs) as [o|] eqn:Es; [|done].
  destruct (strongest_spec obs o Es) as (Hin & Hk & Hmax).
  intros (rate & Er & H)%res_bind_Ok. destruct (fltb _ _); [done|].
  apply res_bind_Ok in H as (w & Ew & H). destruct (feqb _ _) eqn:En; [done|].
  apply Ok_inj in H. apply Some_inj in H. subst p.
  exists o. do 2 eexists. split; [done|]. split.
  { unfold is_weight_key in Hk. apply existsb_exists in Hk as (k & Hk & ->%String.eqb_eq).
    by apply list_elem_of_In. }
  split; [by apply Hmax|]. do 4 (split; [reflexivity|]). split.
  - unfold weight_of, dindex, dget_or in *. destruct (dget _ _); [|done]. by apply Ok_inj in Ew as ->.
  - split; [apply new_weight_unit|exact En].
Qed.

(** A proposal of the agent changes one of the three weights named by a strongest
    weight observation, from its current value (to six places) to a different value in
    [0, 1]. *)
Theorem proposal_in_bounds a obs c card p :
  Forall (fun o => confidence o <> NaN) obs ->
  propose a obs c card = Ok (Some p) -> well_formed a obs c p.
Proof. apply propose_inv. Qed.

Definition sample_observation : Observation :=
  {| observation := "tech_agent_outperforming"; confidence := 0.8%F; signal := "tech";
     direction := OUTPERFORMING;
     evidence := [("agent_grade", VStr "B"); ("correct_rate", VFloat 0.7%F); ("sample_size", VInt 90)] |}.

Lemma proposal_in_bounds_witness :
  exists p, propose default_proposal_agent [sample_observation] DEFAULT_CONFIG None = Ok (Some p) /\
    target p = "weights.tech" /\
    well_formed default_proposal_agent [sample_observation] DEFAULT_CONFIG p.
Proof.
  destruct (propose default_proposal_agent [sample_observation] DEFAULT_CONFIG None)
    as [[p|]|] eqn:E; try (exfalso; vm_compute in E; congruence).
  exists p. split; [reflexivity|]. split.
  - vm_compute in E. apply Ok_inj, Some_inj in E. rewrite <- E. reflexivity.
  - refine (proposal_in_bounds _ _ _ _ _ _ E). apply Forall_cons. split; [|by apply Forall_nil].
    apply finite_not_nan. fconst.
Defined.

(** * Facts: queue *)

Lemma apply_changes_proposal cs e : q_proposal (fold_left apply_change cs e) = q_proposal e.
Proof. revert e. induction cs as [|c cs IH]; intros e; simpl; [done|]. by rewrite IH. Qed.

Definition has_id (pid : string) (e : QueueEntry) : bool :=
  String.eqb (proposal_id (q_proposal e)) pid.

(** [update] keeps the order and the proposals of the queue and touches only the first
    entry with the id; without such an entry it does nothing. *)
Theorem queue_update_first pid cs q :
  map q_proposal (q_update pid cs q) = map q_proposal q /\
  (existsb (has_id pid) q = false -> q_update pid cs q = q) /\
  (forall q1 e q2, q = q1 ++ e :: q2 -> existsb (has_id pid) q1 = false -> has_id pid e = true ->
     q_update pid cs q = q1 ++ fold_left apply_change cs e :: q2).
Proof.
  split; [|split].
  - induction q as [|e q IH]; simpl; [done|]. destruct (String.eqb _ _); simpl.
    + by rewrite apply_changes_proposal.
    + by rewrite IH.
  - induction q as [|e q IH]; simpl; [done|]. unfold has_id at 1.
    destruct (String.eqb _ _); [done|]. intros H. by rewrite IH.
  - intros q1 e q2 ->. induction q1 as [|x q1 IH]; simpl.
    + unfold has_id. by intros _ ->.
    + unfold has_id at 1. destruct (String.eqb _ _); [done|]. simpl. intros H1 H2. by rewrite IH.
Qed.

Lemma q_update_app pid cs q q' :
  existsb (has_id pid) q = true -> q_update pid cs (q ++ q') = q_update pid cs q ++ q'.
Proof.
  induction q as [|e q IH]; simpl; [done|]. unfold has_id at 1.
  destruct (String.eqb _ _); [done|]. simpl. intros H. by rewrite IH.
Qed.

(** Recording a verdict for a proposal that is queued again overwrites the earlier
    entry: when the queue already holds the id, [add] followed by [update] leaves the new
    entry untouched and changes the old one. *)
Theorem requeue_updates_earlier_entry p s cs q :
  existsb (has_id (proposal_id p)) q = true ->
  q_update (proposal_id p) cs (q_add p s q) = q_add p s (q_update (proposal_id p) cs q).
Proof. intros H. unfold q_add. by apply q_update_app. Qed.

Definition requeued : Proposal := weight_change "tech" 0.33%F 0.3675%F "r" "" None.

Lemma requeue_updates_earlier_entry_witness :
  map q_verdict (q_update (proposal_id requeued) [SetVerdict [("blocked", VStr "duplicate")]]
    (q_add requeued BLOCKED (q_add requeued APPROVED [])))
  = [Some [("blocked", VStr "duplicate")]; None].
Proof.
  rewrite (requeue_updates_earlier_entry requeued BLOCKED); vm_compute; reflexivity.
Defined.
