(* ===== verification/Governance.v ===== *)
(** Governance: quota, dedup and cooldown of proposals (cognitive/governance.py). *)
From Stdlib Require Import Sorting.Sorted.
From S2P Require Import Prelude PyFloat PyVal Proposal.

Definition ADMITTED : string := "admitted".
Definition BLOCKED_QUOTA : string := "quota_exceeded".
Definition BLOCKED_DUPLICATE : string := "duplicate".
Definition BLOCKED_COOLDOWN : string := "cooldown".

Record Admit := {
  ad_cycle : Z;
  ad_key : string;
}.

Record ProposalGovernor := {
  quota : Z;
  window : Z;
  cooldown : Z;
  cycle : Z;
  admitted : list Admit;
  cooldowns : dict Z;
  blocked : dict Z;
}.

Module Governor.

Definition init (q w c : Z) : ProposalGovernor :=
  {| quota := q; window := w; cooldown := c; cycle := 0; admitted := []; cooldowns := [];
     blocked := [] |}.

Definition default : ProposalGovernor := init 3 10 5.

(** A number is rounded to four places before it is printed into the key. *)
Definition _key (p : Proposal) : res string :=
  let* v := match new_value p with
            | VInt _ | VFloat _ => let* x := py_float (new_value p) in Ok (VFloat (py_round x 4))
            | v => Ok v
            end in
  Ok (target p +:+ "=" +:+ Fmt.str v).

(** The deque loses its entries that left the window. *)
Fixpoint expire (limit : Z) (l : list Admit) : list Admit :=
  match l with
  | e :: l' => if ad_cycle e <=? limit then expire limit l' else l
  | [] => []
  end.

Definition with_state (g : ProposalGovernor) (l : list Admit) (b : dict Z) : ProposalGovernor :=
  {| quota := quota g; window := window g; cooldown := cooldown g; cycle := cycle g + 1;
     admitted := l; cooldowns := cooldowns g; blocked := b |}.

Definition _block (reason : string) (l : list Admit) (g : ProposalGovernor)
  : bool * string * ProposalGovernor :=
  (false, reason, with_state g l (dset reason (dget_or reason 0 (blocked g) + 1) (blocked g))).

(** The target is on the bench at cycle [c]. *)
Definition benched (p : Proposal) (c : Z) (g : ProposalGovernor) : bool :=
  match dget (target p) (cooldowns g) with Some ends => c <? ends | None => false end.

Definition has_key (k : string) (e : Admit) : bool := String.eqb (ad_key e) k.

Definition admit_proposal (p : Proposal) (g : ProposalGovernor) : res (bool * string * ProposalGovernor) :=
  let c := cycle g + 1 in
  let l := expire (c - window g) (admitted g) in
  if benched p c g then Ok (_block BLOCKED_COOLDOWN l g)
  else
    let* key := _key p in
    if existsb (has_key key) l then Ok (_block BLOCKED_DUPLICATE l g)
    else if quota g <=? zlen l then Ok (_block BLOCKED_QUOTA l g)
    else Ok (true, ADMITTED, with_state g (l ++ [{| ad_cycle := c; ad_key := key |}]) (blocked g)).

Definition record_outcome (p : Proposal) (approved : bool) (g : ProposalGovernor)
  : ProposalGovernor :=
  if approved then g
  else {| quota := quota g; window := window g; cooldown := cooldown g; cycle := cycle g;
          admitted := admitted g;
          cooldowns := dset (target p) (cycle g + cooldown g) (cooldowns g);
          blocked := blocked g |}.

Definition snapshot (g : ProposalGovernor) : payload :=
  [("cycle", VInt (cycle g)); ("admitted_in_window", VInt (zlen (admitted g)));
   ("quota", VInt (quota g)); ("window", VInt (window g)); ("cooldown", VInt (cooldown g));
   ("active_cooldowns", VDict (map (fun kv => (fst kv, VInt (snd kv)))
      (List.filter (fun kv => cycle g <? snd kv) (cooldowns g))));
   ("blocked", VDict (map (fun kv => (fst kv, VInt (snd kv))) (blocked g)))].

(** * The admission history

    [h] is the list of every admission ever made, oldest first; the governor keeps only
    those of the current window. *)

Inductive step : ProposalGovernor * list Admit -> ProposalGovernor * list Admit -> Prop :=
| step_admitted p g g' h k :
    admit_proposal p g = Ok (true, ADMITTED, g') -> _key p = Ok k ->
    step (g, h) (g', h ++ [{| ad_cycle := cycle g'; ad_key := k |}])
| step_blocked p g g' h r : admit_proposal p g = Ok (false, r, g') -> step (g, h) (g', h)
| step_outcome p b g h : step (g, h) (record_outcome p b g, h).

Definition reachable (q w c : Z) (s : ProposalGovernor * list Admit) : Prop :=
  rtc step (init q w c, []) s.

(** The admissions of the window that ends at cycle [c]. *)
Definition in_window (w c : Z) (e : Admit) : bool := (c - w <? ad_cycle e) && (ad_cycle e <=? c).
Definition window_of (w c : Z) (h : list Admit) : list Admit := List.filter (in_window w c) h.

Definition fresh_after (limit : Z) (e : Admit) : bool := limit <? ad_cycle e.
Definition older (a b : Admit) : Prop := ad_cycle a < ad_cycle b.

Record ok (g : ProposalGovernor) (h : list Admit) : Prop := {
  ok_admitted : admitted g = List.filter (fresh_after (cycle g - window g)) h;
  ok_past : Forall (fun e => ad_cycle e <= cycle g) h;
  ok_sorted : StronglySorted older h;
  ok_quota : forall c, zlen (window_of (window g) c h) <= Z.max 0 (quota g);
  ok_keys : forall c, NoDup (map ad_key (window_of (window g) c h));
  ok_window : 0 < window g;
}.

Lemma filter_all {A} (f : A -> bool) l : Forall (fun x => f x = true) l -> List.filter f l = l.
Proof. induction 1 as [|x l Hx _ IH]; simpl; [done|]. by rewrite Hx, IH. Qed.

Lemma expire_filter limit l :
  StronglySorted older l -> expire limit l = List.filter (fresh_after limit) l.
Proof.
  induction 1 as [|e l Hl IH He]; simpl; [done|]. unfold fresh_after at 1.
  destruct (Z.leb_spec (ad_cycle e) limit), (Z.ltb_spec limit (ad_cycle e)); try lia; [done|].
  rewrite filter_all; [done|]. eapply Forall_impl; [exact He|].
  unfold older. intros x Hx. unfold fresh_after. lia.
Qed.

Lemma filter_filter {A} (f g : A -> bool) l :
  List.filter f (List.filter g l) = List.filter (fun x => g x && f x) l.
Proof.
  induction l as [|x l IH]; simpl; [done|].
  destruct (g x) eqn:E; simpl; rewrite IH; [|done]. by destruct (f x).
Qed.

Lemma filter_ext_Forall {A} (f g : A -> bool) l :
  Forall (fun x => f x = g x) l -> List.filter f l = List.filter g l.
Proof. induction 1 as [|x l Hx _ IH]; simpl; [done|]. by rewrite Hx, IH. Qed.

Lemma filter_length_le {A} (f g : A -> bool) l :
  (forall x, f x = true -> g x = true) -> zlen (List.filter f l) <= zlen (List.filter g l).
Proof.
  intros H. unfold zlen. induction l as [|x l IH]; simpl; [done|].
  destruct (f x) eqn:E; [rewrite (H _ E); simpl; lia|]. destruct (g x); simpl; lia.
Qed.

Lemma sorted_filter f h : StronglySorted older h -> StronglySorted older (List.filter f h).
Proof.
  induction 1 as [|e l Hl IH He]; simpl; [constructor|].
  destruct (f e); [|done]. constructor; [done|].
  rewrite Forall_forall in He |- *. intros x Hx. apply He.
  apply list_elem_of_In in Hx. apply filter_In in Hx as [Hx _]. by apply list_elem_of_In.
Qed.

Lemma sorted_snoc h e :
  StronglySorted older h -> Forall (fun x => older x e) h -> StronglySorted older (h ++ [e]).
Proof.
  induction 1 as [|x l Hl IH Hx]; intros Hf; simpl; [repeat constructor|].
  apply Forall_cons in Hf as [Hxe Hf]. constructor; [by apply IH|].
  apply Forall_app. split; [done|by apply Forall_singleton].
Qed.

(** What [admit_proposal] keeps is the part of the history inside the new window. *)
Lemma kept g h :
  ok g h ->
  expire (cycle g + 1 - window g) (admitted g)
  = List.filter (fresh_after (cycle g + 1 - window g)) h.
Proof.
  intros Hok. rewrite expire_filter by (rewrite (ok_admitted g h Hok); apply sorted_filter, Hok).
  rewrite (ok_admitted g h Hok), filter_filter. apply filter_ext_Forall.
  apply Forall_forall. intros x _. unfold fresh_after. lia.
Qed.

Lemma window_snoc w c h e :
  window_of w c (h ++ [e]) = window_of w c h ++ (if in_window w c e then [e] else []).
Proof. unfold window_of. rewrite List.filter_app. simpl. by destruct (in_window w c e). Qed.

(** A later window sees no more of the past than the current one. *)
Lemma window_sub g c x :
  cycle g < c -> in_window (window g) c x = true ->
  fresh_after (cycle g + 1 - window g) x = true.
Proof. unfold in_window, fresh_after. intros Hc H. lia. Qed.

Lemma blocked_ok g h b :
  ok g h -> ok (with_state g (expire (cycle g + 1 - window g) (admitted g)) b) h.
Proof.
  intros Hok. split; cbn [with_state admitted cycle window quota];
    [by apply kept| |apply Hok..].
  eapply Forall_impl; [apply Hok|]. simpl. intros. lia.
Qed.

Lemma no_key k l : existsb (has_key k) l = false -> k ∉ map ad_key l.
Proof.
  intros H Hin. apply list_elem_of_In, in_map_iff in Hin as (e & <- & He).
  assert (existsb (has_key (ad_key e)) l = true); [|congruence].
  apply existsb_exists. exists e. split; [done|apply String.eqb_refl].
Qed.

Lemma map_filter_sub {A B} (k : A -> B) (f g : A -> bool) l x :
  (forall y, f y = true -> g y = true) ->
  x ∈ map k (List.filter f l) -> x ∈ map k (List.filter g l).
Proof.
  intros H Hx. apply list_elem_of_In, in_map_iff in Hx as (y & <- & Hy).
  apply list_elem_of_In, in_map_iff. exists y. split; [done|].
  apply filter_In in Hy as [? ?]. apply filter_In. auto.
Qed.

Lemma admitted_ok g h k :
  ok g h ->
  let l := expire (cycle g + 1 - window g) (admitted g) in
  let e := {| ad_cycle := cycle g + 1; ad_key := k |} in
  existsb (has_key k) l = false -> zlen l < quota g ->
  ok (with_state g (l ++ [e]) (blocked g)) (h ++ [e]).
Proof.
  intros Hok l e Hk Hq. pose proof (ok_window g h Hok) as Hw.
  assert (Hl : l = List.filter (fresh_after (cycle g + 1 - window g)) h) by by apply kept.
  split; cbn [with_state admitted cycle window quota]; [..|exact Hw].
  - rewrite List.filter_app, <- Hl. simpl.
    assert (fresh_after (cycle g + 1 - window g) e = true) as -> by (unfold fresh_after; simpl; lia).
    done.
  - apply Forall_app. split; [|apply Forall_singleton; simpl; lia].
    eapply Forall_impl; [apply Hok|]. simpl. intros. lia.
  - apply sorted_snoc; [apply Hok|]. eapply Forall_impl; [apply Hok|].
    unfold older. simpl. intros. lia.
  - intros c. rewrite window_snoc. destruct (in_window (window g) c e) eqn:Ec.
    + rewrite zlen_app. assert (cycle g < c) as Hc by (unfold in_window in Ec; simpl in Ec; lia).
      pose proof (filter_length_le _ _ h (fun x Hx => window_sub g c x Hc Hx)). rewrite <- Hl in *.
      unfold window_of. unfold zlen at 2. simpl. lia.
    + rewrite app_nil_r. apply Hok.
  - intros c. rewrite window_snoc. destruct (in_window (window g) c e) eqn:Ec.
    + assert (cycle g < c) as Hc by (unfold in_window in Ec; simpl in Ec; lia).
      rewrite map_app. apply NoDup_app. split; [apply Hok|]. split; [|apply NoDup_singleton].
      intros x Hx Hx'%list_elem_of_singleton. simpl in Hx'. subst x.
      apply (no_key k l Hk). rewrite Hl. revert Hx. apply map_filter_sub.
      intros y. by apply window_sub.
    + rewrite app_nil_r. apply Hok.
Qed.

(** What a successful [admit_proposal] did. *)
Lemma admit_inv p g b r g' :
  admit_proposal p g = Ok (b, r, g') ->
  let l := expire (cycle g + 1 - window g) (admitted g) in
  (b = false /\ exists bl, g' = with_state g l bl) \/
  (b = true /\ r = ADMITTED /\ exists k, _key p = Ok k /\ existsb (has_key k) l = false /\
    zlen l < quota g /\
    g' = with_state g (l ++ [{| ad_cycle := cycle g + 1; ad_key := k |}]) (blocked g)).
Proof.
  intros H l. unfold admit_proposal in H.
  destruct (benched p (cycle g + 1) g); [apply Ok_inj in H; injection H as <- _ <-; left; eauto|].
  apply res_bind_Ok in H as (k & Ek & H).
  fold l in H. destruct (existsb (has_key k) l) eqn:E1;
    [apply Ok_inj in H; injection H as <- _ <-; left; eauto|].
  destruct (Z.leb_spec (quota g) (zlen l));
    apply Ok_inj in H; injection H as <- <- <-; [left; eauto|right; eauto 10].
Qed.

Lemma governor_init_ok q w c : 0 < w -> ok (init q w c) [].
Proof.
  intros Hw. split; simpl; [done|by apply Forall_nil|constructor| |intros _; constructor|done].
  intros _. unfold zlen. simpl. lia.
Qed.

Lemma step_ok s s' : step s s' -> ok (fst s) (snd s) -> ok (fst s') (snd s').
Proof.
  destruct 1 as [p g g' h k E Ek|p g g' h r E|p b g h]; simpl; intros Hok.
  - apply admit_inv in E as [[? _]|(_ & _ & k' & Ek' & Hk & Hq & ->)]; [done|].
    rewrite Ek in Ek'. apply Ok_inj in Ek'. subst k'. by apply admitted_ok.
  - apply admit_inv in E as [(_ & bl & ->)|[? _]]; [|done]. by apply blocked_ok.
  - unfold record_outcome. destruct b; [done|]. destruct Hok. by split.
Qed.

Lemma governor_reachable_ok q w c s : 0 < w -> reachable q w c s -> ok (fst s) (snd s).
Proof.
  intros Hw. apply (rtc_ind_r (fun s => ok (fst s) (snd s))); [by apply governor_init_ok|].
  intros s1 s2 _ Hs Hok. by eapply step_ok.
Qed.

Lemma reachable_limits q w c s : reachable q w c s -> quota (fst s) = q /\ window (fst s) = w.
Proof.
  apply (rtc_ind_r (fun s => quota (fst s) = q /\ window (fst s) = w)); [done|].
  intros s1 s2 _ [p g g' h k E Ek|p g g' h r E|p b g h] Hq; simpl in *; [..|by destruct b];
    apply admit_inv in E as [(_ & bl & ->)|(_ & _ & k' & _ & _ & _ & ->)]; done.
Qed.

End Governor.

Import Governor.

(** Over the whole life of a governor, in every window of [window] consecutive cycles
    at most [quota] proposals are admitted and no two admitted proposals share a target
    and rounded value: the bounds hold for the full admission history, not only for the
    part the governor keeps. *)
Theorem governor_quota_dedup q w c g h :
  0 < w -> reachable q w c (g, h) ->
  forall at_cycle,
    zlen (window_of w at_cycle h) <= Z.max 0 q /\ NoDup (map ad_key (window_of w at_cycle h)).
Proof.
  intros Hw Hr a. pose proof (governor_reachable_ok q w c _ Hw Hr) as Hok.
  destruct (reachable_limits q w c _ Hr) as [Eq Ew]. simpl in *.
  rewrite <- Eq, <- Ew. split; [apply Hok|apply Hok].
Qed.

Definition tweak (v : float) : Proposal := weight_change "tech" 0.33%F v "r" "" None.

Definition try_admit (p : Proposal) (g : ProposalGovernor) : ProposalGovernor :=
  match admit_proposal p g with Ok (_, _, g') => g' | Raise _ => g end.

Lemma governor_quota_dedup_witness :
  zlen (window_of 10 2 [{| ad_cycle := 1; ad_key := "weights.tech=0.35" |}]) <= 3.
Proof.
  apply (governor_quota_dedup 3 10 5 (try_admit (tweak 0.35%F) (try_admit (tweak 0.35%F) default)));
    [lia|].
  eapply rtc_l; [apply (step_admitted (tweak 0.35%F) default (try_admit (tweak 0.35%F) default) []
    "weights.tech=0.35"); vm_compute; reflexivity|].
  eapply rtc_l; [|apply rtc_refl]. eapply (step_blocked (tweak 0.35%F)). vm_compute. reflexivity.
Defined.

(** A rejected target is blocked for the next [cooldown - 1] admission cycles, one
    fewer than the [cooldown] cycles the description promises, and is no longer blocked by
    the bench at the [cooldown]-th. *)
Theorem cooldown_is_one_short p g :
  let g0 := record_outcome p false g in
  forall n, benched p (cycle g0 + n) g0 = (n <? cooldown g).
Proof.
  intros g0 n. subst g0. unfold benched, record_outcome. simpl. rewrite dget_dset_eq.
  destruct (Z.ltb_spec (cycle g + n) (cycle g + cooldown g)), (Z.ltb_spec n (cooldown g)); lia.
Qed.
