(* ===== verification/Gate.v ===== *)
(** Gate: the config-parameterized paired backtest that judges every proposal
    (cognitive/backtest_gate.py). *)
From S2P Require Import Prelude PyFloat FloatFacts PyVal PyMath PyRandom Events Config Agents Decision.

(** From backtest/engine.py and api/constants.py. *)
Definition SLIPPAGE_MIN_PCT : float := 0.0001%F.
Definition SLIPPAGE_MAX_PCT : float := 0.0005%F.
Definition DEFAULT_PAPER_CASH : float := 100000.0%F.

Definition DEFAULT_POSITION_FRACTION : float := 0.95%F.
Definition HISTORY_WINDOW : Z := 64.

Record ConfigBacktestMetrics := {
  total_return_pct : float;
  sharpe : float;
  max_drawdown_pct : float;
  trades : Z;
  signals : Z;
  win_rate : float;
  false_positive_rate : float;
}.

Definition metrics_as_dict (m : ConfigBacktestMetrics) : payload :=
  [("total_return_pct", VFloat (total_return_pct m)); ("sharpe", VFloat (sharpe m));
   ("max_drawdown_pct", VFloat (max_drawdown_pct m)); ("trades", VInt (trades m));
   ("signals", VInt (signals m)); ("win_rate", VFloat (win_rate m));
   ("false_positive_rate", VFloat (false_positive_rate m))].

Record BacktestDelta := {
  d_baseline : ConfigBacktestMetrics;
  d_candidate : ConfigBacktestMetrics;
  pnl_delta : float;
  sharpe_delta : float;
  drawdown_delta : float;
  false_positive_rate_delta : float;
}.

Definition improves (d : BacktestDelta) : bool :=
  fltb 0.0%F (pnl_delta d) && fleb (drawdown_delta d) 0.0%F.

Definition delta_as_dict (d : BacktestDelta) : payload :=
  [("baseline", VDict (metrics_as_dict (d_baseline d)));
   ("candidate", VDict (metrics_as_dict (d_candidate d)));
   ("pnl_delta", VFloat (pnl_delta d)); ("sharpe_delta", VFloat (sharpe_delta d));
   ("drawdown_delta", VFloat (drawdown_delta d));
   ("false_positive_rate_delta", VFloat (false_positive_rate_delta d));
   ("improves", VBool (improves d))].

(** The division runs only when [sd <= 1e-12] is false. *)
Definition _sharpe (pnls : list float) : res float :=
  if zlen pnls <? 2 then Ok 0.0%F
  else
    let* sd := pstdev pnls in
    if fleb sd 1e-12%F then Ok 0.0%F
    else let* m := fmean pnls in Ok (py_round (fdiv_nz m sd) 4).

Definition _max_drawdown_pct (equity_curve : list float) : float :=
  let start := match equity_curve with e :: _ => e | [] => 0.0%F end in
  let worst := snd (fold_left drawdown_step equity_curve (start, 0.0%F)) in
  py_round (worst * 100.0)%F 4.

Section Backtest.
Context `{Libm} `{PyRandom}.

(** What the replay loop keeps. *)
Record BtState := {
  bt_rng : rng;
  cash : float;
  open_dir : Z;
  open_price : float;
  open_qty : float;
  trade_pnls : list float;
  equity_curve : list float;
  n_signals : Z;
  losing : Z;
}.

Definition bt_init (starting_equity : float) (seed : Z) : BtState :=
  {| bt_rng := rng_seed seed; cash := starting_equity; open_dir := 0; open_price := 0.0%F;
     open_qty := 0.0%F; trade_pnls := []; equity_curve := []; n_signals := 0; losing := 0 |}.

Definition fill (price : float) (direction : Z) (r : rng) : float * rng :=
  let '(slip, r') := uniform SLIPPAGE_MIN_PCT SLIPPAGE_MAX_PCT r in
  (price * (1.0 + of_Z (if (0 <? direction)%Z then 1 else -1) * slip), r')%F.

(** [open_dir * open_qty * (p - open_price)] *)
Definition open_pnl (s : BtState) (p : float) : float :=
  (of_Z (open_dir s) * open_qty s * (p - open_price s))%F.

(** Close the open position at a slipped [price]. *)
Definition close_position (price : float) (s : BtState) : BtState :=
  let '(exit_fill, r) := fill price (- open_dir s) (bt_rng s) in
  let pnl := open_pnl s exit_fill in
  {| bt_rng := r; cash := (cash s + pnl)%F; open_dir := open_dir s; open_price := open_price s;
     open_qty := open_qty s; trade_pnls := trade_pnls s ++ [pnl];
     equity_curve := equity_curve s; n_signals := n_signals s;
     losing := if fltb pnl 0.0%F then losing s + 1 else losing s |}.

(** Open a position in direction [dir]; a zero fill price raises. *)
Definition open_position (position_fraction price : float) (dir : Z) (s : BtState) : res BtState :=
  if dir =? 0 then
    Ok {| bt_rng := bt_rng s; cash := cash s; open_dir := 0; open_price := 0.0%F; open_qty := 0.0%F;
          trade_pnls := trade_pnls s; equity_curve := equity_curve s; n_signals := n_signals s;
          losing := losing s |}
  else
    let '(entry, r) := fill price dir (bt_rng s) in
    let* qty := fdiv (cash s * position_fraction)%F entry in
    Ok {| bt_rng := r; cash := cash s; open_dir := dir; open_price := entry; open_qty := qty;
          trade_pnls := trade_pnls s; equity_curve := equity_curve s; n_signals := n_signals s;
          losing := losing s |}.

Definition target_dir (action : string) (s : BtState) : Z :=
  if String.eqb action BUY then 1 else if String.eqb action SELL then -1 else open_dir s.

Definition mark (price : float) (s : BtState) : BtState :=
  let marked := (cash s + (if (open_dir s =? 0)%Z then 0.0 else open_pnl s price))%F in
  {| bt_rng := bt_rng s; cash := cash s; open_dir := open_dir s; open_price := open_price s;
     open_qty := open_qty s; trade_pnls := trade_pnls s;
     equity_curve := equity_curve s ++ [marked]; n_signals := n_signals s; losing := losing s |}.

Definition count_signal (d : Decision) (s : BtState) : BtState :=
  {| bt_rng := bt_rng s; cash := cash s; open_dir := open_dir s; open_price := open_price s;
     open_qty := open_qty s; trade_pnls := trade_pnls s; equity_curve := equity_curve s;
     n_signals := if is_trade d then n_signals s + 1 else n_signals s; losing := losing s |}.

(** The market view of bar [index]: only closes up to the bar itself. *)
Definition bar_view (prices : list float) (news : option (list float)) (symbol : string)
    (index : nat) (price : float) : MarketView :=
  let sentiment := match news with Some l => l !! index | None => None end in
  {| symbol := symbol; price := price;
     history := slice (Z.max 0 (Z.of_nat index - HISTORY_WINDOW + 1)) (Z.of_nat index + 1) prices;
     mv_news_sentiment := sentiment;
     mv_news_confidence := match sentiment with Some _ => 1.0%F | None => 0.0%F end;
     mv_ts := "" |}.

(** The four specialists, aggregated and scored under [c]. *)
Definition bar_decision (c : CognitiveConfig) (m : MarketView) : res Decision :=
  let* news := analyze_news default_news m in
  let* tech := analyze_tech default_tech m in
  let* macro := analyze_macro default_macro m in
  let* risk := analyze_risk default_risk m in
  let* features := aggregate news tech macro risk in
  Ok (decide features c).

(** Flip to the target direction: close what is open, then open. *)
Definition flip (position_fraction price : float) (dir : Z) (s : BtState) : res BtState :=
  if dir =? open_dir s then Ok s
  else open_position position_fraction price dir
         (if open_dir s =? 0 then s else close_position price s).

Definition bt_bar (c : CognitiveConfig) (prices : list float) (news : option (list float))
    (symbol : string) (position_fraction : float) (s : BtState) (ip : nat * float) : res BtState :=
  let '(index, price) := ip in
  let* d := bar_decision c (bar_view prices news symbol index price) in
  let* s' := flip position_fraction price (target_dir (action d) s) (count_signal d s) in
  Ok (mark price s').

(** [enumerate] *)
Definition enumerate (prices : list float) : list (nat * float) :=
  combine (List.seq 0 (length prices)) prices.

Definition run_bars (c : CognitiveConfig) (prices : list float) (news : option (list float))
    (symbol : string) (position_fraction : float) (bars : list (nat * float)) (s : BtState)
  : res BtState :=
  res_fold (bt_bar c prices news symbol position_fraction) bars s.

(** The residual position is closed at the last price. *)
Definition close_residual (prices : list float) (s : BtState) : BtState :=
  match last prices with
  | Some p => if open_dir s =? 0 then s else close_position p s
  | None => s
  end.

Definition rate (num den : Z) : res float :=
  if den =? 0 then Ok 0.0%F else let* q := int_div num den in Ok (py_round q 4).

Definition finish (starting_equity : float) (s : BtState) : res ConfigBacktestMetrics :=
  let n := zlen (trade_pnls s) in
  let wins := zlen (List.filter (fltb 0.0%F) (trade_pnls s)) in
  let* growth := fdiv (cash s) starting_equity in
  let* sh := _sharpe (trade_pnls s) in
  let* wr := rate wins n in
  let* fpr := rate (losing s) n in
  Ok {| total_return_pct := py_round ((growth - 1.0) * 100.0)%F 4; sharpe := sh;
        max_drawdown_pct := _max_drawdown_pct (equity_curve s);
        trades := n; signals := n_signals s; win_rate := wr; false_positive_rate := fpr |}.

Definition run_config_backtest (prices : list float) (c : CognitiveConfig)
    (news : option (list float)) (symbol : string) (starting_equity position_fraction : float)
    (slippage_seed : Z) : res ConfigBacktestMetrics :=
  let* s := run_bars c prices news symbol position_fraction (enumerate prices)
              (bt_init starting_equity slippage_seed) in
  finish starting_equity (close_residual prices s).

(** The call with the default symbol, equity and fraction. *)
Definition run_default (prices : list float) (c : CognitiveConfig) (news : option (list float))
    (slippage_seed : Z) : res ConfigBacktestMetrics :=
  run_config_backtest prices c news "SYNTHETIC" DEFAULT_PAPER_CASH DEFAULT_POSITION_FRACTION
    slippage_seed.

Definition evaluate_proposal (prices : list float) (baseline candidate : CognitiveConfig)
    (news : option (list float)) (slippage_seed : Z) : res BacktestDelta :=
  let* b := run_default prices baseline news slippage_seed in
  let* k := run_default prices candidate news slippage_seed in
  Ok {| d_baseline := b; d_candidate := k;
        pnl_delta := py_round (total_return_pct k - total_return_pct b)%F 4;
        sharpe_delta := py_round (sharpe k - sharpe b)%F 4;
        drawdown_delta := py_round (max_drawdown_pct k - max_drawdown_pct b)%F 4;
        false_positive_rate_delta :=
          py_round (false_positive_rate k - false_positive_rate b)%F 4 |}.

Record WalkForwardResult := {
  wf_folds : list BacktestDelta;
  consistency : float;
  mean_pnl_delta : float;
  mean_sharpe_delta : float;
}.

Definition wf_as_dict (w : WalkForwardResult) : payload :=
  [("consistency", VFloat (consistency w)); ("mean_pnl_delta", VFloat (mean_pnl_delta w));
   ("mean_sharpe_delta", VFloat (mean_sharpe_delta w));
   ("folds", VList (map (fun d => VDict (delta_as_dict d)) (wf_folds w)))].

(** The bounds of fold [i] of [folds] over [n] bars. *)
Definition fold_bounds (n folds i : Z) : Z * Z :=
  let seg := n / folds in
  (i * seg, if i =? folds - 1 then n else (i + 1) * seg).

Definition fold_ids (folds : Z) : list Z := map Z.of_nat (List.seq 0 (Z.to_nat folds)).

Definition fold_delta (prices : list float) (baseline candidate : CognitiveConfig)
    (news : option (list float)) (slippage_seed folds i : Z) : res BacktestDelta :=
  let '(a, b) := fold_bounds (zlen prices) folds i in
  evaluate_proposal (slice a b prices) baseline candidate (slice a b <$> news) (slippage_seed + i).

Definition walk_forward (prices : list float) (baseline candidate : CognitiveConfig) (folds : Z)
    (news : option (list float)) (slippage_seed : Z) : res WalkForwardResult :=
  if (folds <? 2) || (zlen prices <? folds * 2) then
    let* single := evaluate_proposal prices baseline candidate news slippage_seed in
    Ok {| wf_folds := [single];
          consistency := if fltb 0.0%F (pnl_delta single) then 1.0%F else 0.0%F;
          mean_pnl_delta := pnl_delta single; mean_sharpe_delta := sharpe_delta single |}
  else
    let* deltas := res_list (fold_delta prices baseline candidate news slippage_seed folds)
                     (fold_ids folds) in
    let positive := zlen (List.filter (fun d => fltb 0.0%F (pnl_delta d)) deltas) in
    let* q := int_div positive (zlen deltas) in
    let* mp := fmean (map pnl_delta deltas) in
    let* ms := fmean (map sharpe_delta deltas) in
    Ok {| wf_folds := deltas; consistency := py_round q 4;
          mean_pnl_delta := py_round mp 4; mean_sharpe_delta := py_round ms 4 |}.

End Backtest.

(** * Facts *)

Section Facts.
Context `{Libm} `{PyRandom}.

(** The bookkeeping of the replay: every closed or open position was opened by its own
    trading signal, at most one signal per bar. *)
Record bt_ok (bars : Z) (s : BtState) : Prop := {
  ok_opened : zlen (trade_pnls s) + (if open_dir s =? 0 then 0 else 1) <= n_signals s;
  ok_signals : n_signals s <= bars;
  ok_losing : losing s = zlen (List.filter (fun p => fltb p 0.0%F) (trade_pnls s));
}.

Lemma bt_init_ok e seed : bt_ok 0 (bt_init e seed).
Proof. split; done. Qed.

(** [close_position] records one trade and keeps the position fields. *)
Lemma close_spec p s :
  exists r c pnl, close_position p s =
  {| bt_rng := r; cash := c; open_dir := open_dir s; open_price := open_price s;
     open_qty := open_qty s; trade_pnls := trade_pnls s ++ [pnl]; equity_curve := equity_curve s;
     n_signals := n_signals s; losing := if fltb pnl 0.0%F then losing s + 1 else losing s |}.
Proof. unfold close_position. destruct (fill _ _ _). by do 3 eexists. Qed.

Lemma open_spec f p d s s' :
  open_position f p d s = Ok s' ->
  open_dir s' = d /\ trade_pnls s' = trade_pnls s /\ equity_curve s' = equity_curve s /\
  n_signals s' = n_signals s /\ losing s' = losing s.
Proof.
  unfold open_position. destruct (Z.eqb_spec d 0) as [->|]; [by intros <-%Ok_inj|].
  destruct (fill _ _ _). intros (q & _ & <-%Ok_inj)%res_bind_Ok. done.
Qed.

Lemma losing_snoc l pnl :
  zlen (List.filter (fun p => fltb p 0.0%F) (l ++ [pnl]))
  = if fltb pnl 0.0%F then zlen (List.filter (fun p => fltb p 0.0%F) l) + 1
    else zlen (List.filter (fun p => fltb p 0.0%F) l).
Proof.
  rewrite List.filter_app, zlen_app. simpl. destruct (fltb pnl 0.0%F); unfold zlen; simpl; lia.
Qed.

Lemma zlen_snoc {A} (l : list A) x : zlen (l ++ [x]) = zlen l + 1.
Proof. rewrite zlen_app. done. Qed.

(** Closing trades one open position for one recorded trade. *)
Lemma close_ok p s :
  open_dir s <> 0 ->
  zlen (trade_pnls (close_position p s)) = zlen (trade_pnls s) + 1 /\
  (losing s = zlen (List.filter (fun p => fltb p 0.0%F) (trade_pnls s)) ->
   losing (close_position p s)
   = zlen (List.filter (fun p => fltb p 0.0%F) (trade_pnls (close_position p s)))) /\
  n_signals (close_position p s) = n_signals s.
Proof.
  intros Ho. destruct (close_spec p s) as (r & c & pnl & ->). cbn [trade_pnls losing n_signals].
  rewrite zlen_snoc, losing_snoc. split; [done|]. split; [|done]. intros ->. done.
Qed.

Lemma target_idle d s : is_trade d = false -> target_dir (action d) s = open_dir s.
Proof.
  unfold is_trade, target_dir. intros [E1 E2]%orb_false_iff. by rewrite E1, E2.
Qed.

Lemma flip_ok bars f p d s s' :
  bt_ok bars s -> flip f p (target_dir (action d) s) (count_signal d s) = Ok s' -> bt_ok (bars + 1) s'.
Proof.
  intros [Ho Hs Hl]. unfold flip. cbn [count_signal open_dir].
  destruct (Z.eqb_spec (target_dir (action d) s) (open_dir s)) as [E|Hne].
  { intros <-%Ok_inj. split; cbn [count_signal trade_pnls open_dir n_signals losing];
      [destruct (is_trade d); lia..|done]. }
  assert (is_trade d = true) as Ht
    by (destruct (is_trade d) eqn:Et; [done|by rewrite target_idle in Hne]).
  set (t := target_dir (action d) s) in *. set (s0 := count_signal d s).
  assert (n_signals s0 = n_signals s + 1) as Es0 by (unfold s0, count_signal; cbn; by rewrite Ht).
  destruct (Z.eqb_spec (open_dir s) 0) as [Ez|Ez]; intros Hop;
    apply open_spec in Hop as (Hd & Hp & _ & Hn & Hlo).
  - split; rewrite ?Hp, ?Hn, ?Hlo, ?Hd, ?Es0; [|lia|exact Hl].
    change (trade_pnls s0) with (trade_pnls s). destruct (t =? 0); lia.
  - destruct (close_ok p s0 Ez) as (L1 & L2 & L3).
    split; rewrite ?Hp, ?Hn, ?Hlo, ?Hd, ?L1, ?L3, ?Es0; [|lia|].
    + change (trade_pnls s0) with (trade_pnls s). destruct (t =? 0); lia.
    + apply L2. exact Hl.
Qed.

Lemma bar_ok bars c prices news sym f s ip s' :
  bt_ok bars s -> bt_bar c prices news sym f s ip = Ok s' -> bt_ok (bars + 1) s'.
Proof.
  intros Hok. destruct ip as [i p]. unfold bt_bar.
  intros (d & _ & (s1 & Hf & <-%Ok_inj)%res_bind_Ok)%res_bind_Ok.
  destruct (flip_ok bars f p d s s1 Hok Hf). by split.
Qed.

Lemma run_ok c prices news sym f bs : forall bars s s',
  bt_ok bars s -> run_bars c prices news sym f bs s = Ok s' -> bt_ok (bars + zlen bs) s'.
Proof.
  induction bs as [|b bs IH]; intros bars s s' Hok; unfold run_bars; simpl.
  - intros <-%Ok_inj. unfold zlen. simpl. by rewrite Z.add_0_r.
  - intros (s1 & Hb & Hr)%res_bind_Ok. eapply bar_ok in Hb; [|exact Hok].
    apply (IH _ _ _ Hb) in Hr. unfold zlen in *. simpl. by replace (bars + Z.of_nat (S (length bs)))
      with (bars + 1 + Z.of_nat (length bs)) by lia.
Qed.

Lemma residual_ok prices bars s :
  bt_ok bars s ->
  let s' := close_residual prices s in
  zlen (trade_pnls s') <= n_signals s' <= bars /\
  losing s' = zlen (List.filter (fun p => fltb p 0.0%F) (trade_pnls s')).
Proof.
  intros [Ho Hs Hl]. unfold close_residual.
  assert (zlen (trade_pnls s) <= n_signals s <= bars) as Hle by (destruct (open_dir s =? 0); lia).
  destruct (last prices) as [p|]; [|done].
  destruct (Z.eqb_spec (open_dir s) 0); [done|].
  destruct (close_ok p s) as (L1 & L2 & L3); [done|]. cbv zeta. rewrite L1, L3. split; [lia|by apply L2].
Qed.

Lemma rate_unit num den r : 0 <= num <= den -> rate num den = Ok r -> unit_pos r.
Proof.
  intros Hn. unfold rate. destruct (Z.eqb_spec den 0); [intros <-%Ok_inj; split; fconst|].
  destruct (int_div_unit num den) as (q & -> & Hq); [lia..|]. intros <-%Ok_inj.
  apply round_unit_pos; [by left|]. destruct Hq as [H1' H2']. split; [|exact H2'].
  refine (fleb_trans _ _ _ _ H1'). fconst.
Qed.

Lemma filter_zlen {A} (f : A -> bool) l : 0 <= zlen (List.filter f l) <= zlen l.
Proof. pose proof (List.filter_length_le f l). unfold zlen. lia. Qed.

(** The drawdown scan only grows from zero. *)
Lemma drawdown_nonneg l : forall acc,
  fleb (Fin 0) (snd acc) = true -> fleb (Fin 0) (snd (fold_left drawdown_step l acc)) = true.
Proof.
  induction l as [|p l IH]; intros acc Ha; simpl; [done|]. apply IH.
  unfold drawdown_step. cbn [snd]. destruct (ftruthy _); [|done].
  eapply fleb_trans; [exact Ha|]. apply fmax_l. by eapply fleb_not_nan_r.
Qed.

Lemma max_drawdown_nonneg l : fleb (Fin 0) (_max_drawdown_pct l) = true.
Proof.
  unfold _max_drawdown_pct. apply py_round_nonneg; [lia|].
  apply fmul_nonneg_const; [|fconst..]. apply drawdown_nonneg. fconst.
Qed.

Lemma enumerate_len (prices : list float) : zlen (enumerate prices) = zlen prices.
Proof. unfold enumerate, zlen. rewrite length_combine, length_seq. lia. Qed.

(** The metrics of a replay are consistent: trades never outnumber the trading signals
    nor signals the bars, the win rate and the false-positive rate are in [0, 1], and the
    drawdown is not negative. *)
Theorem backtest_metrics_bounds prices c news sym equity f seed m :
  run_config_backtest prices c news sym equity f seed = Ok m ->
  0 <= trades m <= signals m /\ signals m <= zlen prices /\
  unit_pos (win_rate m) /\ unit_pos (false_positive_rate m) /\
  fleb (Fin 0) (max_drawdown_pct m) = true.
Proof.
  unfold run_config_backtest. intros (s & Hr & Hf)%res_bind_Ok.
  apply (run_ok _ _ _ _ _ _ _ _ _ (bt_init_ok equity seed)) in Hr.
  rewrite enumerate_len, Z.add_0_l in Hr.
  destruct (residual_ok prices _ s Hr) as [[Ht Hs] Hl]. revert Hf Ht Hs Hl.
  generalize (close_residual prices s). clear. intros s Hf Ht Hs Hl.
  unfold finish in Hf. apply res_bind_Ok in Hf as (g & _ & Hf).
  apply res_bind_Ok in Hf as (sh & _ & Hf). apply res_bind_Ok in Hf as (wr & Hw & Hf).
  apply res_bind_Ok in Hf as (fpr & Hp & Hf). apply Ok_inj in Hf as <-.
  cbn [trades signals win_rate false_positive_rate max_drawdown_pct].
  split; [unfold zlen in *; lia|]. split; [done|].
  split; [by eapply rate_unit, Hw; apply filter_zlen|]. split; [|apply max_drawdown_nonneg].
  rewrite Hl in Hp. eapply rate_unit, Hp. apply filter_zlen.
Qed.

(** A proposal that changes nothing is never an improvement: comparing a
    configuration with itself gives equal metrics and a PnL delta that is not positive,
    so neither [improves] nor the challenger's out-of-sample test can hold. *)
Theorem self_comparison_neutral prices c news seed d :
  evaluate_proposal prices c c news seed = Ok d ->
  d_baseline d = d_candidate d /\ fltb 0.0%F (pnl_delta d) = false /\ improves d = false.
Proof.
  unfold evaluate_proposal. intros (b & Hb & (k & Hk & <-%Ok_inj)%res_bind_Ok)%res_bind_Ok.
  rewrite Hb in Hk. apply Ok_inj in Hk. subst k. split; [done|].
  assert (fltb 0.0%F (py_round (total_return_pct b - total_return_pct b)%F 4) = false) as E.
  { destruct (fsub_self (total_return_pct b)) as [->|[->| ->]]; fconst. }
  split; [exact E|]. unfold improves. cbn [pnl_delta]. by rewrite E.
Qed.

(** ** Causality *)

Lemma slice_prefix {A} a b (l ext : list A) :
  0 <= a -> b <= zlen l -> slice a b (l ++ ext) = slice a b l.
Proof.
  intros Ha Hb. unfold slice, zlen in *.
  destruct (Nat.le_gt_cases (Z.to_nat b) (Z.to_nat a)).
  - by replace (Z.to_nat b - Z.to_nat a)%nat with 0%nat by lia.
  - rewrite drop_app_le by lia. rewrite take_app_le; [done|]. rewrite length_drop. lia.
Qed.

Lemma bar_view_prefix prices ext news sym i p :
  (i < length prices)%nat -> bar_view (prices ++ ext) news sym i p = bar_view prices news sym i p.
Proof.
  intros Hi. unfold bar_view. rewrite slice_prefix; [done|lia|]. unfold zlen. lia.
Qed.

Lemma res_fold_ext {A B} (f g : B -> A -> res B) l : forall acc,
  Forall (fun x => forall b, f b x = g b x) l -> res_fold f l acc = res_fold g l acc.
Proof.
  induction l as [|x l IH]; intros acc Hl; simpl; [done|].
  apply Forall_cons in Hl as [Hx Hl]. rewrite Hx. destruct (g acc x); simpl; [by apply IH|done].
Qed.

Lemma res_fold_app {A B} (f : B -> A -> res B) l1 l2 acc :
  res_fold f (l1 ++ l2) acc = let* b := res_fold f l1 acc in res_fold f l2 b.
Proof.
  revert acc. induction l1 as [|x l1 IH]; intros acc; simpl; [done|].
  destruct (f acc x); simpl; [by apply IH|done].
Qed.

Lemma combine_app_len {A B} (l1 l2 : list A) (k1 k2 : list B) :
  length l1 = length k1 -> combine (l1 ++ l2) (k1 ++ k2) = combine l1 k1 ++ combine l2 k2.
Proof.
  revert k1. induction l1 as [|x l1 IH]; intros [|y k1] E; try done. simpl in *. rewrite IH; lia || done.
Qed.

Lemma enumerate_app prices ext :
  exists rest, enumerate (prices ++ ext) = enumerate prices ++ rest.
Proof.
  unfold enumerate. rewrite length_app, seq_app, combine_app_len by by rewrite length_seq.
  by eexists.
Qed.

Lemma enumerate_index prices : Forall (fun ip => (fst ip < length prices)%nat) (enumerate prices).
Proof.
  apply Forall_forall. intros [i p] Hin. apply list_elem_of_In, in_combine_l, in_seq in Hin.
  simpl. lia.
Qed.

(** A bar only appends to the equity curve and to the recorded trades. *)
Definition extends (s s' : BtState) : Prop :=
  equity_curve s `prefix_of` equity_curve s' /\ trade_pnls s `prefix_of` trade_pnls s'.

#[export] Instance extends_preorder : PreOrder extends.
Proof.
  split; [by split|]. intros s1 s2 s3 [E1 T1] [E2 T2]. split; by etransitivity.
Qed.

Lemma bar_extends c prices news sym f s ip s' :
  bt_bar c prices news sym f s ip = Ok s' -> extends s s'.
Proof.
  destruct ip as [i p]. unfold bt_bar. intros (d & _ & (s1 & Hf & <-%Ok_inj)%res_bind_Ok)%res_bind_Ok.
  unfold flip in Hf. destruct (_ =? _).
  { apply Ok_inj in Hf as <-. split; cbn; [by apply prefix_app_r|done]. }
  apply open_spec in Hf as (_ & Ht & He & _). unfold extends. cbn [mark equity_curve trade_pnls].
  rewrite Ht, He. destruct (_ =? 0); cbn; [split; [by apply prefix_app_r|done]|].
  destruct (close_spec p (count_signal d s)) as (r & k & pnl & ->). cbn.
  split; by apply prefix_app_r.
Qed.

Lemma run_extends c prices news sym f bs s s' :
  run_bars c prices news sym f bs s = Ok s' -> extends s s'.
Proof.
  unfold run_bars. apply (res_fold_inv (extends s)); [|done].
  intros b x b' Hb Hx. etransitivity; [exact Hb|by eapply bar_extends].
Qed.

(** C40: The replay has no look-ahead: whatever bars follow, a run over the longer series
    first does exactly what the run over the shorter one does, so its equity curve and
    its trades start with those of the shorter run. *)
Theorem backtest_causal prices ext news c sym f s0 s' :
  run_bars c (prices ++ ext) news sym f (enumerate (prices ++ ext)) s0 = Ok s' ->
  exists s, run_bars c prices news sym f (enumerate prices) s0 = Ok s /\
    equity_curve s `prefix_of` equity_curve s' /\ trade_pnls s `prefix_of` trade_pnls s'.
Proof.
  destruct (enumerate_app prices ext) as [rest ->]. unfold run_bars. rewrite res_fold_app.
  rewrite (res_fold_ext _ (bt_bar c prices news sym f) (enumerate prices)).
  - intros (s & Hs & Hr)%res_bind_Ok. exists s. split; [exact Hs|]. by eapply run_extends.
  - eapply Forall_impl; [apply enumerate_index|]. intros [i p] Hi b. simpl in Hi.
    unfold bt_bar. by rewrite bar_view_prefix.
Qed.

(** ** Totality *)

Lemma news_total m : exists p, analyze_news default_news m = Ok p.
Proof. unfold analyze_news, default_news. simpl. destruct (news_sentiment m). by eexists. Qed.

Lemma bar_decision_total c m :
  Forall price_ok (history m) -> exists d, bar_decision c m = Ok d.
Proof.
  intros Hh. unfold bar_decision, analyze_news, analyze_tech, analyze_macro, analyze_risk.
  unfold default_news, default_tech, default_macro, default_risk.
  destruct (news_sentiment m) as [sn cn]. cbn [res_bind].
  destruct (technical_trend_total (history m) TECH_WINDOW) as (t & ct & ->);
    [unfold TECH_WINDOW; lia|exact Hh|]. cbn [res_bind].
  destruct (risk_assessment_total (history m) RISK_WINDOW) as (x & fl & ->);
    [unfold RISK_WINDOW; lia|exact Hh|]. cbn [res_bind].
  unfold aggregate, pfloat. cbn [dget_or dget String.eqb Ascii.eqb Bool.eqb py_float res_bind].
  by eexists.
Qed.

Lemma slip_range r :
  within 0.0001%F 0.0007%F (fst (uniform SLIPPAGE_MIN_PCT SLIPPAGE_MAX_PCT r)).
Proof.
  unfold uniform. pose proof (rng_random_unit r) as Hu. destruct (rng_random r) as [u r']. cbn [fst].
  assert (is_finite u = true) as Fu by exact (within_finite (Fin 0) 1.0%F u ltac:(fconst) ltac:(fconst) Hu).
  apply (fadd_within 0.0001%F 0.0001%F (Fin 0) 0.0005%F); [fconst..|split; fconst|].
  apply (fmul_within 0.0005%F 1.0%F); [fconst..|split; fconst|exact Hu].
Qed.

(** A slipped fill of a valid price is a positive finite number. *)
Lemma fill_positive p d r :
  price_ok p -> is_zero (fst (fill p d r)) = false.
Proof.
  intros Hp. unfold fill. pose proof (slip_range r) as Hs.
  destruct (uniform _ _ r) as [slip r']. cbn [fst] in *.
  set (k := (1.0 + of_Z (if (0 <? d)%Z then 1 else -1) * slip)%F).
  assert (within 0.5%F 1.5%F k) as Hk.
  { unfold k. destruct (0 <? d).
    - apply (fadd_within 1.0%F 1.0%F (Fin 0) 0.1%F); [fconst..|split; fconst|].
      apply (fmul_within 1.0%F 0.0007%F); [fconst..|split; fconst|].
      eapply within_weaken; [| |exact Hs]; fconst.
    - apply (fadd_within 1.0%F 1.0%F (-0.1)%F (Fin 0)); [fconst..|split; fconst|].
      apply (fmul_neg_within 0.0007%F); [fconst..|].
      eapply within_weaken; [| |exact Hs]; fconst. }
  pose proof (price_finite p Hp) as Fp.
  assert (is_finite k = true) as Fk by exact (within_finite 0.5%F 1.5%F k ltac:(fconst) ltac:(fconst) Hk).
  assert (fleb (0.01 * 0.5)%F (p * k)%F = true) as Hle.
  { apply fmul_mono_nonneg; [fconst|exact Fp|fconst|exact Fk|fconst|fconst|exact (proj1 Hp)|exact (proj1 Hk)]. }
  destruct (is_zero (p * k)%F) eqn:Ez; [|done]. exfalso.
  apply is_zero_le in Ez. pose proof (fleb_trans _ _ _ Hle Ez) as H3.
  assert (fleb (0.01 * 0.5)%F (Fin 0) = false) as H4 by fconst. rewrite H4 in H3. discriminate H3.
Qed.

Lemma open_total f p d s : price_ok p -> exists s', open_position f p d s = Ok s'.
Proof.
  intros Hp. unfold open_position. destruct (d =? 0); [by eexists|].
  pose proof (fill_positive p d (bt_rng s) Hp) as Hz. destruct (fill p d (bt_rng s)) as [e r].
  cbn [fst] in Hz. unfold fdiv. rewrite Hz. by eexists.
Qed.

Lemma bar_total c prices news sym f s i p :
  Forall price_ok prices -> price_ok p ->
  exists s', bt_bar c prices news sym f s (i, p) = Ok s'.
Proof.
  intros Hps Hp. unfold bt_bar.
  destruct (bar_decision_total c (bar_view prices news sym i p)) as [d ->].
  { unfold bar_view, slice. simpl. by apply Forall_take, Forall_drop. }
  cbn [res_bind]. unfold flip. destruct (_ =? _); [by eexists|].
  destruct (open_total f p (target_dir (action d) s)
    (if open_dir (count_signal d s) =? 0 then count_signal d s
     else close_position p (count_signal d s)) Hp) as [s' ->]. by eexists.
Qed.

(** Replaying any series of prices between 0.01 and 10^9 runs to the end without
    raising, whatever the configuration, the news and the equity. *)
Theorem replay_total c prices news sym f s0 :
  Forall price_ok prices -> exists s, run_bars c prices news sym f (enumerate prices) s0 = Ok s.
Proof.
  intros Hps. unfold run_bars.
  assert (Forall (fun ip => price_ok (snd ip)) (enumerate prices)) as Hb.
  { apply Forall_forall. intros [i p] Hin. apply list_elem_of_In, in_combine_r in Hin.
    apply list_elem_of_In in Hin. by apply (proj1 (Forall_forall _ _) Hps). }
  revert s0. induction Hb as [|[i p] bs Hp _ IH]; intros s0; [by eexists|]. cbn [res_fold].
  destruct (bar_total c prices news sym f s0 i p Hps Hp) as [s1 ->]. cbn [res_bind]. apply IH.
Qed.

(** ** Walk-forward *)

Lemma slice_adjacent {A} a b c (l : list A) :
  0 <= a <= b -> b <= c -> slice a b l ++ slice b c l = slice a c l.
Proof.
  intros Ha Hb. unfold slice.
  replace (Z.to_nat c - Z.to_nat a)%nat
    with ((Z.to_nat b - Z.to_nat a) + (Z.to_nat c - Z.to_nat b))%nat by lia.
  rewrite <- take_take_drop, drop_drop. do 3 f_equal. lia.
Qed.

Definition fold_slice {A} (folds : Z) (l : list A) (i : Z) : list A :=
  slice (fst (fold_bounds (zlen l) folds i)) (snd (fold_bounds (zlen l) folds i)) l.

Lemma first_folds {A} (l : list A) folds k :
  1 <= folds -> (Z.of_nat k < folds) ->
  concat (map (fun i => fold_slice folds l (Z.of_nat i)) (List.seq 0 k))
  = slice 0 (Z.of_nat k * (zlen l / folds)) l.
Proof.
  intros Hf. assert (0 <= zlen l / folds) by (apply Z.div_pos; unfold zlen; lia).
  induction k as [|k IH]; intros Hk; [done|].
  rewrite seq_S, map_app, concat_app, IH by lia. simpl. rewrite app_nil_r.
  unfold fold_slice, fold_bounds. cbn [fst snd].
  destruct (Z.eqb_spec (Z.of_nat k) (folds - 1)); [lia|].
  rewrite slice_adjacent by nia. f_equal. lia.
Qed.

Lemma folds_partition {A} (l : list A) folds :
  1 <= folds -> concat (map (fold_slice folds l) (fold_ids folds)) = l.
Proof.
  intros Hf. unfold fold_ids. rewrite map_map.
  assert (0 <= zlen l / folds) by (apply Z.div_pos; unfold zlen; lia).
  assert (folds * (zlen l / folds) <= zlen l) by (apply Z.mul_div_le; lia).
  replace (Z.to_nat folds) with (S (Z.to_nat (folds - 1))) by lia.
  rewrite seq_S, map_app, concat_app, first_folds by lia. simpl. rewrite app_nil_r.
  rewrite !Z2Nat.id by lia. unfold fold_slice, fold_bounds. cbn [fst snd].
  rewrite Z.eqb_refl, slice_adjacent by nia.
  unfold slice, zlen. rewrite drop_0, Nat.sub_0_r. apply take_ge. lia.
Qed.

(** Walk-forward splits the series without gap or overlap: the fold windows
    concatenate to the whole series, there is one delta per fold, and the consistency is
    in [0, 1]. *)
Theorem walk_forward_partitions prices b k folds news seed w :
  walk_forward prices b k folds news seed = Ok w -> 2 <= folds -> folds * 2 <= zlen prices ->
  concat (map (fold_slice folds prices) (fold_ids folds)) = prices /\
  zlen (wf_folds w) = folds /\ unit_pos (consistency w).
Proof.
  intros Hw Hf Hn. split; [apply folds_partition; lia|]. revert Hw. unfold walk_forward.
  destruct (Z.ltb_spec folds 2); [lia|]. destruct (Z.ltb_spec (zlen prices) (folds * 2)); [lia|].
  cbn [orb]. intros (ds & Hd & Hw)%res_bind_Ok. apply res_list_length in Hd.
  unfold fold_ids in Hd. rewrite length_map, length_seq in Hd.
  apply res_bind_Ok in Hw as (q & Hq & Hw). apply res_bind_Ok in Hw as (mp & _ & Hw).
  apply res_bind_Ok in Hw as (ms & _ & Hw). apply Ok_inj in Hw as <-. cbn [wf_folds consistency].
  assert (zlen ds = folds) as El by (unfold zlen; lia). split; [exact El|].
  apply round_unit_pos; [by left|].
  destruct (int_div_unit (zlen (List.filter (fun d => fltb 0.0%F (pnl_delta d)) ds)) (zlen ds))
    as (q' & Eq & [Q1 Q2]); [apply filter_zlen|lia|].
  rewrite Hq in Eq. apply Ok_inj in Eq as ->. split; [|exact Q2].
  refine (fleb_trans _ _ _ _ Q1). fconst.
Qed.

End Facts.

Section GateWitness.
#[local] Existing Instance libm_clamp.
#[local] Existing Instance constant_half.

Definition sample_prices : list float := [100.0; 101.5; 104.0; 98.0; 97.0]%F.

Lemma sample_prices_ok : Forall price_ok sample_prices.
Proof. repeat (apply Forall_cons; split; [split; fconst|]). by apply Forall_nil. Qed.

Definition sample_metrics : res ConfigBacktestMetrics :=
  run_config_backtest sample_prices DEFAULT_CONFIG None "SYNTHETIC" 1000.0%F 0.5%F 7.

Lemma backtest_metrics_bounds_witness :
  exists m, sample_metrics = Ok m /\ 0 < trades m <= signals m.
Proof.
  destruct (ok_with_inv (fun m => 0 <? trades m) sample_metrics
    ltac:(vm_compute; reflexivity)) as (m & E & Hp).
  exists m. split; [exact E|]. split; [by apply Z.ltb_lt|].
  unfold sample_metrics in E. exact (proj2 (proj1 (backtest_metrics_bounds _ _ _ _ _ _ _ m E))).
Defined.

Definition sample_self : res BacktestDelta :=
  evaluate_proposal sample_prices DEFAULT_CONFIG DEFAULT_CONFIG None 7.

Lemma self_comparison_neutral_witness : exists d, sample_self = Ok d /\ improves d = false.
Proof.
  destruct (ok_with_inv (fun _ => true) sample_self ltac:(vm_compute; reflexivity)) as (d & E & _).
  exists d. split; [exact E|]. unfold sample_self in E.
  exact (proj2 (proj2 (self_comparison_neutral _ _ _ _ d E))).
Defined.

Definition longer_prices : list float := sample_prices ++ [10.0%F].

Definition sample_run (ps : list float) : res BtState :=
  run_bars DEFAULT_CONFIG ps None "S" DEFAULT_POSITION_FRACTION (enumerate ps)
    (bt_init DEFAULT_PAPER_CASH 0).

Lemma backtest_causal_witness :
  exists s s', sample_run longer_prices = Ok s' /\ sample_run sample_prices = Ok s /\
    equity_curve s `prefix_of` equity_curve s'.
Proof.
  destruct (ok_with_inv (fun _ => true) (sample_run longer_prices)
    ltac:(vm_compute; reflexivity)) as (s' & E & _).
  pose proof E as E'. unfold sample_run, longer_prices in E'.
  destruct (backtest_causal _ _ _ _ _ _ _ _ E') as (s & Hs & Hp & _).
  exists s, s'. split; [exact E|]. split; [exact Hs|exact Hp].
Defined.

Lemma replay_total_witness :
  exists s, run_bars DEFAULT_CONFIG sample_prices (Some [0.5%F]) "S" DEFAULT_POSITION_FRACTION
    (enumerate sample_prices) (bt_init DEFAULT_PAPER_CASH 3) = Ok s.
Proof. apply replay_total. apply sample_prices_ok. Defined.

Definition sample_walk : res WalkForwardResult :=
  walk_forward sample_prices DEFAULT_CONFIG sample_config 2 None 0.

Lemma walk_forward_partitions_witness :
  exists w, sample_walk = Ok w /\ zlen (wf_folds w) = 2 /\
    concat (map (fold_slice 2 sample_prices) (fold_ids 2)) = sample_prices.
Proof.
  destruct (ok_with_inv (fun _ => true) sample_walk ltac:(vm_compute; reflexivity)) as (w & E & _).
  exists w. split; [exact E|]. unfold sample_walk in E.
  destruct (walk_forward_partitions _ _ _ _ _ _ w E ltac:(lia) ltac:(unfold zlen; simpl; lia))
    as (Hp & Hl & _).
  split; [exact Hl|exact Hp].
Defined.

End GateWitness.
