(* ===== verification/Challenger.v ===== *)
(** Challenger: the safety validator of a proposal's evidence (cognitive/challenger.py). *)
From S2P Require Import Prelude PyFloat FloatFacts PyVal PyMath Events Agents Gate.

Definition MIN_LEARNING_SAMPLES : Z := 30.
Definition MIN_TRADES : Z := 30.
Definition DRAWDOWN_TOLERANCE_PCT : float := 1.0%F.
Definition MIN_WALK_FORWARD_CONSISTENCY : float := 0.6%F.

Record ChallengerVerdict := {
  v_approved : bool;
  risk_score : float;
  reasons : list string;
  checks : dict bool;
}.

Definition verdict_as_dict (v : ChallengerVerdict) : payload :=
  [("type", VStr (value CHALLENGER_VERDICT)); ("approved", VBool (v_approved v));
   ("risk_score", VFloat (risk_score v)); ("reasons", VList (map VStr (reasons v)));
   ("checks", VDict (map (fun kv => (fst kv, VBool (snd kv))) (checks v)))].

(** The evidence and the limits of one review. *)
Record Evidence := {
  in_sample : BacktestDelta;
  out_sample : BacktestDelta;
  learning_samples : Z;
  candidate_config_valid : bool;
  attribution_supports : bool;
  walk_forward_consistency : float;
}.

Record Limits := {
  min_learning_samples : Z;
  min_trades : Z;
  drawdown_tolerance : float;
  min_consistency : float;
}.

Definition default_limits : Limits :=
  {| min_learning_samples := MIN_LEARNING_SAMPLES; min_trades := MIN_TRADES;
     drawdown_tolerance := DRAWDOWN_TOLERANCE_PCT;
     min_consistency := MIN_WALK_FORWARD_CONSISTENCY |}.

Definition statistical_sanity (e : Evidence) (l : Limits) : bool :=
  (min_learning_samples l <=? learning_samples e)
  && (min_trades l <=? trades (d_candidate (out_sample e)))
  && (min_trades l <=? trades (d_baseline (out_sample e))).

Definition overfit (e : Evidence) : bool :=
  fltb 0.0%F (pnl_delta (in_sample e)) && fleb (pnl_delta (out_sample e)) 0.0%F.

Definition risk_impact_ok (e : Evidence) (l : Limits) : bool :=
  candidate_config_valid e && fleb (drawdown_delta (out_sample e)) (drawdown_tolerance l).

Definition improves_oos (e : Evidence) : bool := fltb 0.0%F (pnl_delta (out_sample e)).

Definition walk_forward_ok (e : Evidence) (l : Limits) : bool :=
  fleb (min_consistency l) (walk_forward_consistency e).

Definition review_checks (e : Evidence) (l : Limits) : dict bool :=
  [("statistical_sanity", statistical_sanity e l); ("no_overfit", negb (overfit e));
   ("risk_impact_ok", risk_impact_ok e l); ("historically_consistent", attribution_supports e);
   ("improves_out_of_sample", improves_oos e); ("walk_forward_consistent", walk_forward_ok e l)].

(** [if c: reasons.append(s)] *)
Definition because (c : bool) (s : string) : list string := if c then [s] else [].

Definition review_reasons (e : Evidence) (l : Limits) : list string :=
  let r := Fmt.repr_float in
  let o := out_sample e in
  because (negb (statistical_sanity e l))
    ("insufficient sample: learning_samples=" +:+ pretty (learning_samples e)
     +:+ " (need " +:+ pretty (min_learning_samples l) +:+ "), OOS trades baseline="
     +:+ pretty (trades (d_baseline o)) +:+ "/candidate=" +:+ pretty (trades (d_candidate o))
     +:+ " (need " +:+ pretty (min_trades l) +:+ " each)")
  ++ because (overfit e)
    ("overfit: improves in-sample (+" +:+ r (pnl_delta (in_sample e)) +:+ "%) but not out-of-sample ("
     +:+ r (pnl_delta o) +:+ "%)")
  ++ (if negb (candidate_config_valid e) then ["candidate config is out of safe bounds"]
      else because (fltb (drawdown_tolerance l) (drawdown_delta o))
        ("drawdown worsens by " +:+ r (drawdown_delta o) +:+ "% out-of-sample (tolerance "
         +:+ r (drawdown_tolerance l) +:+ "%)"))
  ++ because (negb (attribution_supports e))
    "proposed direction is not supported by PnL attribution"
  ++ because (negb (improves_oos e))
    ("no out-of-sample improvement (" +:+ r (pnl_delta o) +:+ "%)")
  ++ because (negb (walk_forward_ok e l))
    ("walk-forward consistency " +:+ r (walk_forward_consistency e) +:+ " below "
     +:+ r (min_consistency l)
     +:+ " — improvement does not hold across market periods (overfit risk)").

(** [if c: risk_score += x] *)
Definition add_risk (acc : float) (cx : bool * float) : float :=
  if fst cx then (acc + snd cx)%F else acc.

Definition risk_terms (e : Evidence) (l : Limits) : list (bool * float) :=
  [(negb (statistical_sanity e l), 0.20%F); (overfit e, 0.35%F);
   (negb (risk_impact_ok e l), 0.20%F); (negb (attribution_supports e), 0.10%F);
   (negb (walk_forward_ok e l), 0.15%F)].

Definition review_risk (e : Evidence) (l : Limits) : float :=
  py_round (fmin 1.0%F (fold_left add_risk (risk_terms e l) 0.0%F)) 4.

Definition review (e : Evidence) (l : Limits) : ChallengerVerdict :=
  let cs := review_checks e l in
  let ok := forallb snd cs in
  let o := out_sample e in
  {| v_approved := ok;
     risk_score := review_risk e l;
     reasons := review_reasons e l ++ because ok
       ("approved: +" +:+ Fmt.repr_float (pnl_delta o) +:+ "% PnL and "
        +:+ Fmt.fmt_plus (sharpe_delta o) +:+ " Sharpe out-of-sample, drawdown delta "
        +:+ Fmt.fmt_plus (drawdown_delta o) +:+ "%");
     checks := cs |}.

(** * Facts *)

(** The risk score depends on the five flags only, so all 32 cases can be evaluated. *)
Definition risk_of (b1 b2 b3 b4 b5 : bool) : float :=
  py_round (fmin 1.0%F (fold_left add_risk
    [(b1, 0.20%F); (b2, 0.35%F); (b3, 0.20%F); (b4, 0.10%F); (b5, 0.15%F)] 0.0%F)) 4.

Definition in_unit (x : float) : bool := fleb 0.0%F x && fleb x 1.0%F.

Definition risk_cases : bool :=
  forallb (fun b1 => forallb (fun b2 => forallb (fun b3 => forallb (fun b4 => forallb (fun b5 =>
    in_unit (risk_of b1 b2 b3 b4 b5)
    && Bool.eqb (is_zero (risk_of b1 b2 b3 b4 b5)) (negb (b1 || b2 || b3 || b4 || b5)))
  [true; false]) [true; false]) [true; false]) [true; false]) [true; false].

Lemma risk_cases_ok : risk_cases = true.
Proof. fconst. Qed.

Lemma forallb_bool (f : bool -> bool) b : forallb f [true; false] = true -> f b = true.
Proof. simpl. intros [H1 [H2 _]%andb_true_iff]%andb_true_iff. by destruct b. Qed.

Lemma risk_of_spec b1 b2 b3 b4 b5 :
  unit_pos (risk_of b1 b2 b3 b4 b5) /\
  is_zero (risk_of b1 b2 b3 b4 b5) = negb (b1 || b2 || b3 || b4 || b5).
Proof.
  pose proof risk_cases_ok as H. unfold risk_cases in H.
  apply forallb_bool with (b := b1) in H. apply forallb_bool with (b := b2) in H.
  apply forallb_bool with (b := b3) in H. apply forallb_bool with (b := b4) in H.
  apply forallb_bool with (b := b5) in H. apply andb_true_iff in H as [H1 H2].
  apply andb_true_iff in H1. split; [exact H1|]. by apply Bool.eqb_prop in H2.
Qed.

Lemma review_risk_of e l :
  review_risk e l = risk_of (negb (statistical_sanity e l)) (overfit e) (negb (risk_impact_ok e l))
    (negb (attribution_supports e)) (negb (walk_forward_ok e l)).
Proof. reflexivity. Qed.

Lemma approved_all e l :
  v_approved (review e l) = true <->
  min_learning_samples l <= learning_samples e /\
  min_trades l <= trades (d_candidate (out_sample e)) /\
  min_trades l <= trades (d_baseline (out_sample e)) /\
  candidate_config_valid e = true /\
  fleb (drawdown_delta (out_sample e)) (drawdown_tolerance l) = true /\
  attribution_supports e = true /\
  fltb 0.0%F (pnl_delta (out_sample e)) = true /\
  fleb (min_consistency l) (walk_forward_consistency e) = true.
Proof.
  unfold review. cbn [v_approved review_checks forallb snd].
  unfold statistical_sanity, risk_impact_ok, improves_oos, walk_forward_ok.
  rewrite !andb_true_iff, !Z.leb_le, negb_true_iff. split; [tauto|].
  intros (H1 & H2 & H3 & H4 & H5 & H6 & H7 & H8). split_and!; try assumption; [|reflexivity].
  unfold overfit. rewrite (fltb_asym _ _ H7). apply andb_false_r.
Qed.

(** A proposal is approved exactly when all six checks hold: enough learning samples
    and trades on both sides, no overfit, a valid candidate with bounded extra drawdown,
    attribution support, a positive out-of-sample PnL delta, and enough walk-forward
    consistency. *)
Theorem approved_iff e l :
  v_approved (review e l) = true <->
  min_learning_samples l <= learning_samples e /\
  min_trades l <= trades (d_candidate (out_sample e)) /\
  min_trades l <= trades (d_baseline (out_sample e)) /\
  candidate_config_valid e = true /\
  fleb (drawdown_delta (out_sample e)) (drawdown_tolerance l) = true /\
  attribution_supports e = true /\
  fltb 0.0%F (pnl_delta (out_sample e)) = true /\
  fleb (min_consistency l) (walk_forward_consistency e) = true.
Proof. apply approved_all. Qed.

(** The risk score is in [0, 1] for all evidence, NaN included; an approved proposal
    has risk score zero and its only reason is the approval itself. *)
Theorem verdict_consistent e l :
  unit_pos (risk_score (review e l)) /\
  (v_approved (review e l) = true ->
     is_zero (risk_score (review e l)) = true /\ length (reasons (review e l)) = 1%nat).
Proof.
  unfold review. cbn [risk_score v_approved reasons]. rewrite review_risk_of.
  split; [apply risk_of_spec|]. cbn [review_checks forallb snd].
  intros Ha. rewrite (proj2 (risk_of_spec _ _ _ _ _)). unfold review_reasons.
  pose proof Ha as Ha'. rewrite !andb_true_iff in Ha'. destruct Ha' as (H1 & H2 & H3 & H4 & H5 & H6 & _).
  apply negb_true_iff in H2. rewrite Ha, H1, H2, H3, H4, H5, H6. split; [reflexivity|].
  unfold risk_impact_ok in H3. apply andb_true_iff in H3 as [H3 H7]. rewrite H3.
  assert (fltb (drawdown_tolerance l) (drawdown_delta (out_sample e)) = false) as ->; [|reflexivity].
  destruct (fltb _ _) eqn:E; [|done]. apply fltb_asym in E. congruence.
Qed.
