(* ===== verification/Gitops.v ===== *)
(** Gitops: applying a proposal to the configuration and the pull-request plan
    (cognitive/gitops.py). *)
From Stdlib Require Import Ascii.
From S2P Require Import Prelude PyFloat FloatFacts PyVal PyMath Events Config Agents Learning.
From S2P Require Import Proposal Gate Challenger.

Definition BRANCH_PREFIX : string := "cognitive-evolution".

(** * Branch names *)

Definition slug_char (c : ascii) : bool :=
  let n := Z.of_nat (nat_of_ascii c) in
  ((97 <=? n) && (n <=? 122)) || ((48 <=? n) && (n <=? 57)).

Definition dash : ascii := "-".

(** [re.sub("[^a-z0-9]+", "-", s)]; [gap] tells whether the previous character was
    already replaced. *)
Fixpoint dashes (gap : bool) (l : list ascii) : list ascii :=
  match l with
  | [] => []
  | c :: l' => if slug_char c then c :: dashes false l'
               else if gap then dashes true l' else dash :: dashes true l'
  end.

(** [s.strip("-")] *)
Fixpoint strip_left (l : list ascii) : list ascii :=
  match l with
  | c :: l' => if Ascii.eqb c dash then strip_left l' else l
  | [] => []
  end.

Definition strip_dashes (l : list ascii) : list ascii := rev (strip_left (rev (strip_left l))).

Definition slugify (text : string) : string :=
  String.string_of_list_ascii (strip_dashes (dashes false (map Parse.lower (String.list_ascii_of_string text)))).

Definition branch_name (p : Proposal) : string :=
  BRANCH_PREFIX +:+ "/" +:+ slugify (target p) +:+ "-" +:+ slugify (Fmt.str (new_value p)).

(** * Applying a proposal *)

(** [s.split(".")[-1]] *)
Fixpoint after_dots (acc : list ascii) (l : list ascii) : list ascii :=
  match l with
  | [] => rev acc
  | c :: l' => if Ascii.eqb c "." then after_dots [] l' else after_dots (c :: acc) l'
  end.

Definition last_part (s : string) : string :=
  String.string_of_list_ascii (after_dots [] (String.list_ascii_of_string s)).

(** [data[outer][inner] = v] on a nested dictionary. *)
Definition set_nested (outer inner : string) (v : val) (data : payload) : payload :=
  match dget outer data with
  | Some (VDict d) => dset outer (VDict (dset inner v d)) data
  | _ => data
  end.

Definition has_nested (outer inner : string) (data : payload) : bool :=
  match dget outer data with Some (VDict d) => dmem inner d | _ => false end.

(** The edited dictionary, before the version bump; [None] when nothing maps. *)
Definition edit_config (p : Proposal) (data : payload) : res (option payload) :=
  let key := last_part (target p) in
  if String.eqb (proposal_type p) (ptype_value WEIGHT_CHANGE) then
    if is_weight_key key then
      let* x := py_float (new_value p) in
      Ok (Some (set_nested "weights" key (VFloat (clamp_weight x)) data))
    else Ok None
  else if String.eqb (proposal_type p) (ptype_value RISK_CHANGE) then
    if has_nested "risk" key data then
      let* x := py_float (new_value p) in
      Ok (Some (set_nested "risk" key (VFloat x) data))
    else Ok None
  else Ok None.

Definition apply_proposal_to_config (c : CognitiveConfig) (p : Proposal)
  : res (option CognitiveConfig) :=
  let* edited := edit_config p (to_dict c) in
  match edited with
  | None => Ok None
  | Some data =>
      let data := dset "version" (VInt (version c + 1)) data in
      let* errors := validate_config_dict (VDict data) in
      match errors with
      | [] => let* c' := from_dict data in Ok (Some c')
      | _ => Ok None
      end
  end.

(** * Config diff *)

(** [sorted(set(old) | set(new))] *)
Fixpoint insert_key (k : string) (l : list string) : list string :=
  match l with
  | [] => [k]
  | x :: l' => match String.compare k x with
               | Lt => k :: l
               | Eq => l
               | Gt => x :: insert_key k l'
               end
  end.

Definition sorted_keys (ks : list string) : list string := fold_right insert_key [] ks.

Record Change := {
  path : string;
  ch_old : val;
  ch_new : val;
}.

Definition change_as_dict (c : Change) : payload :=
  [("path", VStr (path c)); ("old", ch_old c); ("new", ch_new c)].

(** The recursion of [config_diff]; [fuel] bounds the nesting depth. *)
Fixpoint diff_dicts (fuel : nat) (prefix : string) (old new : payload) : list Change :=
  match fuel with
  | O => []
  | S fuel' =>
      concat (map (fun key =>
        let p := prefix +:+ key in
        match dget_or key VNone old, dget_or key VNone new with
        | VDict o, VDict n => diff_dicts fuel' (p +:+ ".") o n
        | o, n => if val_eqb o n then [] else [{| path := p; ch_old := o; ch_new := n |}]
        end) (sorted_keys (dkeys old ++ dkeys new)))
  end.

Fixpoint depth (v : val) : nat :=
  match v with
  | VDict d => S (fold_right (fun kv n => Nat.max (depth (snd kv)) n) O d)
  | _ => O
  end.

Definition config_diff (old new : payload) : list Change :=
  diff_dicts (depth (VDict old)) "" old new.

(** * Pull-request plan *)

Record PullRequestPlan := {
  branch : string;
  base_ref : string;
  title : string;
  body : string;
  pr_diff : list Change;
  config_before : payload;
  config_after : payload;
}.

Definition plan_as_dict (p : PullRequestPlan) : payload :=
  [("type", VStr "pr_request"); ("branch", VStr (branch p)); ("base_ref", VStr (base_ref p));
   ("title", VStr (title p)); ("body", VStr (body p));
   ("diff", VList (map (fun c => VDict (change_as_dict c)) (pr_diff p)));
   ("config_before", VDict (config_before p)); ("config_after", VDict (config_after p));
   ("auto_merge", VBool false)].

Definition nl : string := String (ascii_of_nat 10) "".

Definition _metrics_block (label : string) (d : BacktestDelta) : string :=
  let r := Fmt.repr_float in
  let b := d_baseline d in
  let k := d_candidate d in
  let row name x y z := "| " +:+ name +:+ " | " +:+ r x +:+ " | " +:+ r y +:+ " | "
                        +:+ Fmt.fmt_plus z +:+ " |" in
  Fmt.join nl
    ["**" +:+ label +:+ "**"; "";
     "| metric | baseline | candidate | delta |"; "| --- | --- | --- | --- |";
     row "return %" (total_return_pct b) (total_return_pct k) (pnl_delta d);
     row "sharpe" (sharpe b) (sharpe k) (sharpe_delta d);
     row "max drawdown %" (max_drawdown_pct b) (max_drawdown_pct k) (drawdown_delta d);
     row "false-positive rate" (false_positive_rate b) (false_positive_rate k)
       (false_positive_rate_delta d);
     ""].

Definition diff_line (c : Change) : string :=
  "- `" +:+ path c +:+ "`: " +:+ Fmt.str (ch_old c) +:+ " -> " +:+ Fmt.str (ch_new c).

Definition pr_body (p : Proposal) (v : ChallengerVerdict) (ins outs : BacktestDelta)
    (diff : list Change) : string :=
  let diff_lines := Fmt.join nl (map diff_line diff) in
  Fmt.join nl
    (["## Proposal";
      "- **Type:** " +:+ proposal_type p;
      "- **Target:** `" +:+ target p +:+ "`";
      "- **Reason:** " +:+ reason p;
      "- **Expected impact:** " +:+ expected_impact p;
      "";
      "## Config diff";
      (if String.eqb diff_lines "" then "_(no leaf changes)_" else diff_lines);
      "";
      "## Challenger verdict";
      "- **Decision:** " +:+ (if v_approved v then "APPROVE" else "REJECT");
      "- **Risk score:** " +:+ Fmt.repr_float (risk_score v)]
     ++ map (fun r => "- " +:+ r) (reasons v)
     ++ ["";
      "## Backtest evidence";
      _metrics_block "In-sample" ins;
      _metrics_block "Out-of-sample" outs;
      "> NO auto-merge. Behaviour changes only after this PR is reviewed and merged."]).

Definition build_pull_request (p : Proposal) (v : ChallengerVerdict) (ins outs : BacktestDelta)
    (before after : CognitiveConfig) (base : string) : PullRequestPlan :=
  let diff := config_diff (to_dict before) (to_dict after) in
  {| branch := branch_name p;
     base_ref := base;
     title := "cognitive: " +:+ proposal_type p +:+ " " +:+ target p +:+ " ("
              +:+ Fmt.str (old_value p) +:+ " -> " +:+ Fmt.str (new_value p) +:+ ")";
     body := pr_body p v ins outs diff;
     pr_diff := diff;
     config_before := to_dict before;
     config_after := to_dict after |}.

(** * Facts: slugs *)

Definition slug_ok (c : ascii) : bool := slug_char c || Ascii.eqb c dash.

(** A slug: allowed characters, no dash at either end, no two dashes in a row. *)
Fixpoint no_double (gap : bool) (l : list ascii) : bool :=
  match l with
  | [] => true
  | c :: l' => if Ascii.eqb c dash then negb gap && no_double true l' else no_double false l'
  end.

Definition starts_dash (l : list ascii) : bool :=
  match l with c :: _ => Ascii.eqb c dash | [] => false end.

Definition clean (l : list ascii) : bool :=
  forallb slug_ok l && no_double false l && negb (starts_dash l) && negb (starts_dash (rev l)).

Lemma dash_not_slug : slug_char dash = false.
Proof. reflexivity. Qed.

Lemma slug_not_dash c : slug_char c = true -> Ascii.eqb c dash = false.
Proof. intros H. destruct (Ascii.eqb_spec c dash) as [->|]; [by rewrite dash_not_slug in H|done]. Qed.

Lemma dashes_ok l : forall gap,
  forallb slug_ok (dashes gap l) = true /\ no_double gap (dashes gap l) = true.
Proof.
  induction l as [|c l IH]; intros gap; [done|]. simpl.
  destruct (slug_char c) eqn:Ec.
  - simpl. unfold slug_ok at 1. rewrite Ec, (slug_not_dash c Ec). apply IH.
  - destruct gap; [apply IH|]. simpl. apply (IH true).
Qed.

Lemma no_double_weaken l : no_double true l = true -> no_double false l = true.
Proof. destruct l as [|c l]; [done|]. simpl. by destruct (Ascii.eqb c dash). Qed.

Lemma no_double_start gap l :
  no_double gap l = true -> starts_dash l = false -> no_double true l = true.
Proof. destruct l as [|c l]; [done|]. simpl. by destruct (Ascii.eqb c dash). Qed.

Lemma strip_left_suffix l : exists pre, l = pre ++ strip_left l.
Proof.
  induction l as [|c l [pre IH]]; [by exists []|]. simpl.
  destruct (Ascii.eqb c dash); [|by exists []]. exists (c :: pre). simpl. by rewrite <- IH.
Qed.

Lemma strip_left_start l : starts_dash (strip_left l) = false.
Proof.
  induction l as [|c l IH]; [done|]. simpl. destruct (Ascii.eqb c dash) eqn:E; [done|]. simpl. exact E.
Qed.

Lemma strip_left_id l : starts_dash l = false -> strip_left l = l.
Proof. destruct l as [|c l]; [done|]. simpl. by intros ->. Qed.

Lemma no_double_suffix pre l gap : no_double gap (pre ++ l) = true -> no_double false l = true.
Proof.
  revert gap. induction pre as [|c pre IH]; intros gap; simpl.
  - intros H. destruct gap; [by apply no_double_weaken|done].
  - destruct (Ascii.eqb c dash); [intros [_ H]%andb_true_iff|intros H]; by eapply IH.
Qed.

Lemma no_double_prefix pre l gap : no_double gap (pre ++ l) = true -> no_double gap pre = true.
Proof.
  revert gap. induction pre as [|c pre IH]; intros gap; simpl; [done|].
  destruct (Ascii.eqb c dash).
  - intros [Hg H]%andb_true_iff. apply andb_true_iff. split; [done|by apply IH].
  - by apply IH.
Qed.

Lemma starts_app l l' : starts_dash (l ++ l') = false -> starts_dash l = false.
Proof. by destruct l. Qed.

(** The right strip keeps a prefix. *)
Lemma strip_right_prefix l : exists suf, l = rev (strip_left (rev l)) ++ suf.
Proof.
  destruct (strip_left_suffix (rev l)) as [pre E]. exists (rev pre).
  rewrite <- rev_app_distr, <- E. by rewrite rev_involutive.
Qed.

Lemma strip_clean l : forallb slug_ok l = true -> no_double false l = true -> clean (strip_dashes l) = true.
Proof.
  intros Hc Hd. unfold strip_dashes. destruct (strip_left_suffix l) as [pre El].
  assert (forallb slug_ok (strip_left l) = true) as Hc1
    by (rewrite El, forallb_app in Hc; apply andb_true_iff in Hc; tauto).
  assert (no_double false (strip_left l) = true) as Hd1
    by (rewrite El in Hd; by eapply no_double_suffix).
  pose proof (strip_left_start l) as Hs. set (m := strip_left l) in *. clearbody m.
  destruct (strip_right_prefix m) as [suf Em]. set (n := rev (strip_left (rev m))) in *.
  unfold clean. repeat (apply andb_true_iff; split).
  - rewrite Em, forallb_app in Hc1. apply andb_true_iff in Hc1. tauto.
  - rewrite Em in Hd1. by eapply no_double_prefix.
  - rewrite Em in Hs. apply negb_true_iff. by eapply starts_app.
  - apply negb_true_iff. unfold n. rewrite rev_involutive. apply strip_left_start.
Qed.

Lemma slugify_clean s : clean (String.list_ascii_of_string (slugify s)) = true.
Proof.
  unfold slugify. rewrite String.list_ascii_of_string_of_list_ascii.
  destruct (dashes_ok (map Parse.lower (String.list_ascii_of_string s)) false).
  by apply strip_clean.
Qed.

Lemma lower_slug c : slug_ok c = true -> Parse.lower c = c.
Proof. destruct c as [[] [] [] [] [] [] [] []]; vm_compute; congruence. Qed.

Lemma clean_fixed l : forallb slug_ok l = true -> forall gap, no_double gap l = true -> dashes gap l = l.
Proof.
  induction l as [|c l IH]; intros Hc gap Hd; [done|]. simpl in *.
  apply andb_true_iff in Hc as [H1 Hc].
  destruct (slug_char c) eqn:Ec.
  - rewrite (slug_not_dash c Ec) in Hd. by rewrite IH.
  - unfold slug_ok in H1. rewrite Ec in H1. simpl in H1. rewrite H1 in Hd.
    apply andb_true_iff in Hd as [Hg Hd]. destruct gap; [done|].
    apply Ascii.eqb_eq in H1 as ->. by rewrite IH.
Qed.

(** A slug is safe in a branch name: only [a-z], [0-9] and dashes, no dash at either
    end, no two dashes in a row; and slugifying a slug changes nothing. *)
Theorem slugify_normal s :
  clean (String.list_ascii_of_string (slugify s)) = true /\ slugify (slugify s) = slugify s.
Proof.
  pose proof (slugify_clean s) as Hc. split; [exact Hc|].
  unfold slugify at 1. set (t := slugify s) in *. clearbody t.
  unfold clean in Hc. boolify.
  assert (map Parse.lower (String.list_ascii_of_string t) = String.list_ascii_of_string t) as ->.
  { rewrite <- (map_id (String.list_ascii_of_string t)) at 2. apply map_ext_in. intros c Hin.
    apply lower_slug. by eapply (proj1 (forallb_forall _ _)). }
  rewrite clean_fixed by done. unfold strip_dashes.
  rewrite (strip_left_id (String.list_ascii_of_string t)) by done.
  rewrite strip_left_id by done. rewrite rev_involutive.
  apply String.string_of_list_ascii_of_string.
Qed.

(** * Facts: applying a proposal *)

(** What an accepted proposal does to the configuration: one weight is replaced by the
    clamped value, or one risk limit by the value; the version is bumped. *)
Definition with_weight (c : CognitiveConfig) (k : string) (w : float) : CognitiveConfig :=
  {| version := version c + 1; weights := dset k w (weights c);
     buy_threshold := buy_threshold c; sell_threshold := sell_threshold c;
     max_position_size_pct := max_position_size_pct c;
     max_daily_loss_pct := max_daily_loss_pct c; max_exposure_pct := max_exposure_pct c |}.

Definition with_limit (c : CognitiveConfig) (k : string) (x : float) : CognitiveConfig :=
  let pick name old := if String.eqb k name then x else old in
  {| version := version c + 1; weights := weights c;
     buy_threshold := buy_threshold c; sell_threshold := sell_threshold c;
     max_position_size_pct := pick "max_position_size_pct"%string (max_position_size_pct c);
     max_daily_loss_pct := pick "max_daily_loss_pct"%string (max_daily_loss_pct c);
     max_exposure_pct := pick "max_exposure_pct"%string (max_exposure_pct c) |}.

Definition RISK_KEYS : list string :=
  ["max_position_size_pct"; "max_daily_loss_pct"; "max_exposure_pct"].

(** The configuration that an applicable proposal asks for. *)
Inductive asks_for (c : CognitiveConfig) (p : Proposal) : CognitiveConfig -> Prop :=
| asks_weight x :
    proposal_type p = ptype_value WEIGHT_CHANGE -> last_part (target p) ∈ WEIGHT_KEYS ->
    py_float (new_value p) = Ok x ->
    asks_for c p (with_weight c (last_part (target p)) (clamp_weight x))
| asks_limit x :
    proposal_type p = ptype_value RISK_CHANGE -> last_part (target p) ∈ RISK_KEYS ->
    py_float (new_value p) = Ok x ->
    asks_for c p (with_limit c (last_part (target p)) x).

Lemma vfloats_dset k w d : vfloats (dset k w d) = dset k (VFloat w) (vfloats d).
Proof.
  induction d as [|[k' v] d IH]; simpl; [done|]. unfold vfloats in *.
  destruct (String.eqb k k'); simpl; [done|]. by rewrite IH.
Qed.

Lemma weight_data c k w :
  dset "version" (VInt (version c + 1)) (set_nested "weights" k (VFloat w) (to_dict c))
  = to_dict (with_weight c k w).
Proof.
  unfold to_dict at 2, with_weight. cbn [weights version buy_threshold sell_threshold
    max_position_size_pct max_daily_loss_pct max_exposure_pct]. rewrite vfloats_dset. reflexivity.
Qed.

Lemma limit_data c k x :
  k ∈ RISK_KEYS ->
  dset "version" (VInt (version c + 1)) (set_nested "risk" k (VFloat x) (to_dict c))
  = to_dict (with_limit c k x).
Proof.
  intros Hk. repeat (apply elem_of_cons in Hk as [->|Hk]; [reflexivity|]).
  by apply elem_of_nil in Hk.
Qed.

Lemma has_risk_key c k : has_nested "risk" k (to_dict c) = true -> k ∈ RISK_KEYS.
Proof.
  unfold has_nested, to_dict. cbn [dget String.eqb Ascii.eqb Bool.eqb]. unfold dmem. cbn [dget].
  repeat match goal with |- context [String.eqb k ?s] => destruct (String.eqb_spec k s) as [->|] end;
    intros H; try discriminate H; by repeat (apply list_elem_of_here || apply list_elem_of_further).
Qed.

Lemma edit_config_inv c p data :
  edit_config p (to_dict c) = Ok (Some data) ->
  exists c', asks_for c p c' /\ dset "version" (VInt (version c + 1)) data = to_dict c'.
Proof.
  unfold edit_config. destruct (String.eqb_spec (proposal_type p) (ptype_value WEIGHT_CHANGE)) as [Et|_].
  - destruct (is_weight_key _) eqn:Ek; [|done]. intros (x & Ex & E)%res_bind_Ok.
    apply Ok_inj, Some_inj in E as <-. eexists. split; [|apply weight_data].
    constructor; [done| |done]. unfold is_weight_key in Ek.
    apply existsb_exists in Ek as (k & Hk & ->%String.eqb_eq). by apply list_elem_of_In.
  - destruct (String.eqb_spec (proposal_type p) (ptype_value RISK_CHANGE)) as [Et|_]; [|done].
    destruct (has_nested _ _ _) eqn:Ek; [|done]. apply has_risk_key in Ek.
    intros (x & Ex & E)%res_bind_Ok. apply Ok_inj, Some_inj in E as <-.
    eexists. split; [|by apply limit_data]. by constructor.
Qed.

Lemma asks_keys c p c' : dkeys (weights c) = WEIGHT_KEYS -> asks_for c p c' -> dkeys (weights c') = WEIGHT_KEYS.
Proof.
  intros Hk [x _ Hin _|x _ _ _]; [|done]. unfold with_weight. cbn [weights].
  rewrite dset_keys, Hk.
  assert (dmem (last_part (target p)) (weights c) = true) as ->; [|done].
  unfold dmem. destruct (dget _ _) eqn:E; [done|]. apply dget_None in E. by rewrite Hk in E.
Qed.

Lemma apply_inv c p c' :
  dkeys (weights c) = WEIGHT_KEYS -> apply_proposal_to_config c p = Ok (Some c') ->
  asks_for c p c' /\ safe c'.
Proof.
  intros Hk. unfold apply_proposal_to_config. intros (ed & Ee & H)%res_bind_Ok.
  destruct ed as [data|]; [|done]. apply edit_config_inv in Ee as (c1 & Ha & Ed). rewrite Ed in H.
  apply res_bind_Ok in H as (errs & Ev & H). destruct errs; [|done].
  apply res_bind_Ok in H as (c2 & Ec & H). apply Ok_inj, Some_inj in H as <-.
  pose proof (validated_safe _ _ _ Ev eq_refl Ec) as Hs.
  rewrite from_dict_to_dict in Ec by by eapply asks_keys. apply Ok_inj in Ec as <-. done.
Qed.

(** A proposal that applies to a safe configuration yields a safe configuration that
    differs from it in the version, which grows by one, and in exactly the weight or the
    risk limit that the proposal targets. *)
Theorem apply_proposal_safe c p c' :
  safe c -> apply_proposal_to_config c p = Ok (Some c') ->
  safe c' /\ version c' = version c + 1 /\ asks_for c p c'.
Proof.
  intros Hc H. apply apply_inv in H as [Ha Hs]; [|by apply safe_keys].
  split; [done|]. split; [|done]. by destruct Ha.
Qed.

Definition raise_tech : Proposal := weight_change "tech" 0.33%F 1.5%F "r" "" None.

Lemma apply_proposal_safe_witness :
  exists c', apply_proposal_to_config DEFAULT_CONFIG raise_tech = Ok (Some c') /\
    version c' = 2 /\ safe c'.
Proof.
  destruct (ok_with_inv (fun o => match o with Some _ => true | None => false end)
    (apply_proposal_to_config DEFAULT_CONFIG raise_tech) ltac:(vm_compute; reflexivity))
    as ([c'|] & E & H); [|discriminate H].
  exists c'. split; [exact E|].
  destruct (apply_proposal_safe _ _ _ default_config_safe E) as (Hs & Hv & _).
  split; [exact Hv|exact Hs].
Defined.

(** * Facts: config diff *)

(** The leaves of a configuration in the order of the diff. *)
Definition leaves (c : CognitiveConfig) : list (string * val) :=
  [("buy_threshold", VFloat (buy_threshold c));
   ("risk.max_daily_loss_pct", VFloat (max_daily_loss_pct c));
   ("risk.max_exposure_pct", VFloat (max_exposure_pct c));
   ("risk.max_position_size_pct", VFloat (max_position_size_pct c));
   ("sell_threshold", VFloat (sell_threshold c));
   ("version", VInt (version c));
   ("weights.macro", VFloat (weight_of c "macro"));
   ("weights.news", VFloat (weight_of c "news"));
   ("weights.tech", VFloat (weight_of c "tech"))].

Definition leaf_change (po pn : string * val) : list Change :=
  if val_eqb (snd po) (snd pn) then []
  else [{| path := fst po; ch_old := snd po; ch_new := snd pn |}].

(** One level of the recursion, with the sorted key list already evaluated. *)
Lemma diff_dicts_keys fuel prefix old new ks :
  sorted_keys (dkeys old ++ dkeys new) = ks ->
  diff_dicts (S fuel) prefix old new =
  concat (map (fun key =>
    let p := prefix +:+ key in
    match dget_or key VNone old, dget_or key VNone new with
    | VDict o, VDict n => diff_dicts fuel (p +:+ ".") o n
    | o, n => if val_eqb o n then [] else [{| path := p; ch_old := o; ch_new := n |}]
    end) ks).
Proof. by intros <-. Qed.

(** The diff in a pull request is exact: it lists, in path order, precisely the leaves
    of the configuration whose values differ, with their old and new values. *)
Theorem config_diff_exact c c' :
  dkeys (weights c) = WEIGHT_KEYS -> dkeys (weights c') = WEIGHT_KEYS ->
  config_diff (to_dict c) (to_dict c') = concat (zip_with leaf_change (leaves c) (leaves c')).
Proof.
  intros H H'. destruct c as [v ws b s p l e], c' as [v' ws' b' s' p' l' e'].
  cbn [weights] in H, H'. destruct (three_of_keys ws H) as (x1 & x2 & x3 & ->).
  destruct (three_of_keys ws' H') as (y1 & y2 & y3 & ->).
  unfold config_diff, to_dict, leaves, leaf_change, weight_of.
  cbn [version weights buy_threshold sell_threshold max_position_size_pct max_daily_loss_pct
       max_exposure_pct].
  change (depth _) with 2%nat.
  rewrite (diff_dicts_keys _ _ _ _ ["buy_threshold"; "risk"; "sell_threshold"; "version"; "weights"])
    by (vm_compute; reflexivity).
  cbn -[val_eqb diff_dicts].
  rewrite (diff_dicts_keys _ _ _ _ ["max_daily_loss_pct"; "max_exposure_pct"; "max_position_size_pct"])
    by (vm_compute; reflexivity).
  rewrite (diff_dicts_keys _ _ _ _ ["macro"; "news"; "tech"]) by (vm_compute; reflexivity).
  cbn -[val_eqb]. rewrite ?app_nil_r, <- ?app_assoc. reflexivity.
Qed.

Lemma config_diff_exact_witness :
  map path (config_diff (to_dict DEFAULT_CONFIG) (to_dict (with_weight DEFAULT_CONFIG "tech" 0.4%F)))
  = ["version"; "weights.tech"].
Proof.
  rewrite (config_diff_exact DEFAULT_CONFIG (with_weight DEFAULT_CONFIG "tech" 0.4%F));
    vm_compute; reflexivity.
Defined.
