(* ===== verification/Observe.v ===== *)
(** Observe: the trace view and the health view, pure reads of the event stream
    (cognitive/trace.py, cognitive/health.py). *)
From S2P Require Import Prelude PyFloat PyVal Events.

Definition vopt_dict (o : option payload) : val :=
  match o with Some d => VDict d | None => VNone end.

(** * One trade's chain *)

Definition _latest_payload (l : list Event) (k : EventType) : option payload :=
  ev_payload <$> List.find (Stream.has_kind k) (rev l).

Definition in_trace (tid : string) (e : Event) : bool := String.eqb (trace_id e) tid.

Definition trace_events (st : EventStream) (tid : string) : list Event :=
  List.filter (in_trace tid) (es_events st).

Definition build_trace (st : EventStream) (tid : string) : payload :=
  let l := trace_events st tid in
  let latest k := vopt_dict (_latest_payload l k) in
  let decision := _latest_payload l DECISION in
  let lineage := match decision with Some d => d | None => [] end in
  [("trace_id", VStr tid);
   ("config_version", dget_or "config_version" VNone lineage);
   ("config_proposal_id", dget_or "config_proposal_id" VNone lineage);
   ("signals", VDict [("news", latest NEWS_SIGNAL); ("tech", latest TECH_SIGNAL);
                      ("macro", latest MACRO_SIGNAL); ("risk", latest RISK_SIGNAL)]);
   ("features", latest FEATURES);
   ("reasoning", latest REASONING);
   ("decision", vopt_dict decision);
   ("risk_gate", latest RISK_GATE);
   ("execution", latest EXECUTION);
   ("outcome", latest TRADE_OUTCOME);
   ("attribution", latest ATTRIBUTION);
   ("counterfactual", latest COUNTERFACTUAL);
   ("grade", latest GRADE);
   ("event_count", VInt (zlen l))].

(** * Health *)

Definition _SIGNAL_SOURCES : list string :=
  ["news_agent"; "technical_agent"; "macro_agent"; "risk_agent"].

(** [counter[k] += 1] *)
Definition tally (d : dict Z) (k : string) : dict Z := dset k (dget_or k 0 d + 1) d.

(** [Counter(l)] *)
Definition Counter (l : list string) : dict Z := fold_left tally l [].

Definition by_type (l : list Event) : dict Z := Counter (map (fun e => value (kind e)) l).

(** The loop over the events that carry a source. *)
Definition source_step (acc : dict Z * dict Z) (e : Event) : dict Z * dict Z :=
  let '(latest, counts) := acc in
  if String.eqb (source e) "" then acc
  else (dset (source e) (seq e) latest, tally counts (source e)).

Definition by_source (l : list Event) : dict Z * dict Z := fold_left source_step l ([], []).

Definition agent_health (l : list Event) (src : string) : payload :=
  let '(latest, counts) := by_source l in
  let n := dget_or src 0 counts in
  [("status", VStr (if n =? 0 then "idle" else "healthy"));
   ("events", VInt n);
   ("last_seq", VInt (dget_or src (-1) latest))].

(** Challenger verdicts whose ["approved"] entry is exactly [b]. *)
Definition verdict_is (b : bool) (e : Event) : bool :=
  Stream.has_kind CHALLENGER_VERDICT e
  && match dget "approved" (ev_payload e) with
     | Some (VBool b') => Bool.eqb b b'
     | _ => false
     end.

Definition is_trade_grade (e : Event) : bool :=
  Stream.has_kind GRADE e
  && match dget "subject" (ev_payload e) with
     | Some (VStr s) => String.eqb s "trade"
     | _ => false
     end.

Definition last_decision (l : list Event) : val :=
  match _latest_payload l DECISION with
  | Some p => dget_or "action" VNone p
  | None => VNone
  end.

(** [sum(1 for e in l if f(e))] *)
Definition count_if (f : Event -> bool) (l : list Event) : Z := zlen (List.filter f l).

Definition vints (d : dict Z) : payload := map (fun kv => (fst kv, VInt (snd kv))) d.

Definition ungraded (l : list Event) : Z :=
  Z.max 0 (dget_or (value TRADE_OUTCOME) 0 (by_type l) - count_if is_trade_grade l).

Definition assess_health (st : EventStream) : payload :=
  let l := es_events st in
  let types := by_type l in
  let n k := VInt (dget_or (value k) 0 types) in
  let last_seq := match last l with Some e => seq e | None => -1 end in
  [("event_stream", VDict
     [("total_events", VInt (zlen l)); ("emitted", VInt (es_emitted st));
      ("dropped", VInt (es_dropped st)); ("last_seq", VInt last_seq);
      ("by_type", VDict (vints types))]);
   ("agents", VDict (map (fun src => (src, VDict (agent_health l src)))
     (_SIGNAL_SOURCES ++ ["reasoning_agent"; "proposal_agent"])));
   ("decision", VDict
     [("signals_received", VDict
        [("news", n NEWS_SIGNAL); ("tech", n TECH_SIGNAL); ("macro", n MACRO_SIGNAL);
         ("risk", n RISK_SIGNAL)]);
      ("decisions_made", n DECISION); ("executions", n EXECUTION);
      ("last_decision", last_decision l)]);
   ("proposal_pipeline", VDict
     [("generated", n PROPOSAL); ("backtested", n BACKTEST_RESULT);
      ("approved", VInt (count_if (verdict_is true) l));
      ("rejected", VInt (count_if (verdict_is false) l));
      ("pr_requests", n PR_REQUEST); ("merged", n CONFIG_VERSION)]);
   ("backtest", VDict [("runs", n BACKTEST_RESULT)]);
   ("learning", VDict
     [("trades_closed", n TRADE_OUTCOME);
      ("trades_graded", VInt (count_if is_trade_grade l));
      ("ungraded", VInt (ungraded l));
      ("observations", n OBSERVATION)])].

(** * Facts *)

Lemma value_inj k k' : value k = value k' -> k = k'.
Proof. by destruct k, k'. Qed.

Definition occurrences (k : string) (l : list string) : Z := zlen (List.filter (String.eqb k) l).

Lemma tally_get k k' d : dget_or k 0 (tally d k') = dget_or k 0 d + (if String.eqb k k' then 1 else 0).
Proof.
  unfold tally. destruct (String.eqb_spec k k') as [->|Hne].
  - unfold dget_or at 1. by rewrite dget_dset_eq.
  - unfold dget_or at 1. rewrite dget_dset_ne by done. fold (dget_or k 0 d). lia.
Qed.

Lemma Counter_get k l : dget_or k 0 (Counter l) = occurrences k l.
Proof.
  unfold Counter, occurrences.
  assert (forall d, dget_or k 0 (fold_left tally l d)
    = dget_or k 0 d + zlen (List.filter (String.eqb k) l)) as H.
  { induction l as [|x l IH]; intros d; simpl; [unfold zlen; simpl; lia|].
    rewrite IH, tally_get. destruct (String.eqb k x); unfold zlen; simpl; lia. }
  rewrite H. unfold dget_or. simpl. lia.
Qed.

(** The counter of a kind is the number of retained events of the kind. *)
Lemma by_type_count k l : dget_or (value k) 0 (by_type l) = count_if (Stream.has_kind k) l.
Proof.
  unfold by_type. rewrite Counter_get. unfold occurrences, count_if.
  induction l as [|e l IH]; simpl; [done|].
  unfold Stream.has_kind at 1. case_bool_decide as Hk; rewrite ?Hk, ?String.eqb_refl.
  - unfold zlen in *. simpl. lia.
  - destruct (String.eqb_spec (value k) (value (kind e))) as [He|]; [|done].
    by apply value_inj in He.
Qed.

Lemma count_if_app f l l' : count_if f (l ++ l') = count_if f l + count_if f l'.
Proof. unfold count_if. by rewrite List.filter_app, zlen_app. Qed.

(** The latest payload of a kind is that of its last occurrence. *)
Lemma latest_app l1 l2 k :
  _latest_payload (l1 ++ l2) k
  = match _latest_payload l2 k with Some p => Some p | None => _latest_payload l1 k end.
Proof.
  unfold _latest_payload. rewrite rev_app_distr. generalize (rev l1), (rev l2). clear l1 l2.
  intros l1 l2. induction l2 as [|e l2 IH]; simpl; [done|].
  by destruct (Stream.has_kind k e).
Qed.

Lemma latest_cons e l k :
  _latest_payload (e :: l) k
  = match _latest_payload l k with
    | Some p => Some p
    | None => if Stream.has_kind k e then Some (ev_payload e) else None
    end.
Proof.
  change (e :: l) with ([e] ++ l). rewrite latest_app. unfold _latest_payload at 2. simpl.
  by destruct (Stream.has_kind k e).
Qed.
