(* ===== verification/Registry.v ===== *)
(** Registry: the catalogue of agents (cognitive/registry.py). *)
From S2P Require Import Prelude PyFloat PyVal PyMath Events Agents Proposal.

Definition ROLE_SIGNAL : string := "signal".
Definition ROLE_REASONING : string := "reasoning".
Definition ROLE_PROPOSAL : string := "proposal".

(** The classes whose instances are registered. *)
Inductive Agent :=
| ANews (scorer : NewsScorer)
| ATech (scorer : TechScorer)
| AMacro (scorer : MacroScorer)
| ARisk (scorer : RiskScorer)
| AReasoning
| AProposal (a : ProposalAgent).

(** [instance.name] *)
Definition agent_name (a : Agent) : string :=
  match a with
  | ANews _ => NEWS_AGENT
  | ATech _ => TECH_AGENT
  | AMacro _ => MACRO_AGENT
  | ARisk _ => RISK_AGENT
  | AReasoning => REASONING_AGENT
  | AProposal _ => PROPOSAL_AGENT
  end.

Record AgentSpec := {
  sp_name : string;
  role : string;
  emits : string;
  description : string;
  instance : Agent;
}.

Definition spec_describe (s : AgentSpec) : payload :=
  [("name", VStr (sp_name s)); ("role", VStr (role s)); ("emits", VStr (emits s));
   ("description", VStr (description s))].

Definition AgentRegistry := dict AgentSpec.

Module Registry.

Definition init : AgentRegistry := [].

Definition register (a : Agent) (r e d : string) (g : AgentRegistry) : AgentRegistry :=
  dset (agent_name a)
    {| sp_name := agent_name a; role := r; emits := e; description := d; instance := a |} g.

Definition get (name : string) (g : AgentRegistry) : option AgentSpec := dget name g.
Definition all (g : AgentRegistry) : list AgentSpec := dvalues g.
Definition has_role (r : string) (s : AgentSpec) : bool := String.eqb (role s) r.
Definition by_role (r : string) (g : AgentRegistry) : list AgentSpec :=
  List.filter (has_role r) (dvalues g).
Definition names (g : AgentRegistry) : list string := dkeys g.
Definition describe (g : AgentRegistry) : list payload := map spec_describe (dvalues g).

(** The catalogue is keyed by the agents' names, each once. *)
Record ok (g : AgentRegistry) : Prop := {
  ok_nodup : NoDup (names g);
  ok_names : Forall (fun kv => sp_name (snd kv) = fst kv /\ agent_name (instance (snd kv)) = fst kv) g;
}.

Lemma registry_init_ok : ok init.
Proof. split; constructor. Qed.

Lemma Forall_dset_val {A} (P : string * A -> Prop) k v d :
  P (k, v) -> Forall P d -> Forall P (dset k v d).
Proof.
  intros Hv. induction d as [|[k' v'] d IH]; intros H; [by repeat constructor|].
  apply Forall_cons in H as [H0 H]. simpl.
  destruct (String.eqb_spec k k') as [->|]; constructor; auto.
Qed.

Lemma register_ok' a r e d g : ok g -> ok (register a r e d g).
Proof.
  intros [H1 H2]. split; [by apply dset_NoDup|]. by apply Forall_dset_val.
Qed.

End Registry.

Section Default.
Context `{Libm}.

Definition build_default_registry : AgentRegistry :=
  let g := Registry.init in
  let g := Registry.register (ANews default_news) ROLE_SIGNAL (value NEWS_SIGNAL)
    "Sentiment extraction from news -> sentiment in [-1, 1]." g in
  let g := Registry.register (ATech default_tech) ROLE_SIGNAL (value TECH_SIGNAL)
    "Trend / indicator interpretation -> trend in [-1, 1]." g in
  let g := Registry.register (AMacro default_macro) ROLE_SIGNAL (value MACRO_SIGNAL)
    "Regime detection -> regime in [-1, 1]." g in
  let g := Registry.register (ARisk default_risk) ROLE_SIGNAL (value RISK_SIGNAL)
    "Risk annotation only -> risk_flags + risk_score in [0, 1]." g in
  let g := Registry.register AReasoning ROLE_REASONING (value REASONING)
    "Human-readable explanation layer; makes no decision." g in
  Registry.register (AProposal default_proposal_agent) ROLE_PROPOSAL (value PROPOSAL)
    "System architect: turns observations into typed candidate changes." g.

End Default.

(** * Calls on an agent

    Python resolves the method on whatever instance the registry holds; an instance of
    the wrong class raises. *)

(** [agent.emit(stream, market, trace_id=...)] *)
Definition signal_emit (a : Agent) (m : MarketView) (tid : string) (st : EventStream)
  : res (payload * EventStream) :=
  match a with
  | ANews s => emit_news s m tid st
  | ATech s => emit_tech s m tid st
  | AMacro s => emit_macro s m tid st
  | ARisk s => emit_risk s m tid st
  | AReasoning | AProposal _ => Raise AttributeError
  end.

(** [agent.emit(stream, features, trace_id=..., ts=...)] *)
Definition reasoning_emit (a : Agent) (features : dict float) (tid ts : string) (st : EventStream)
  : res (payload * EventStream) :=
  match a with
  | AReasoning => Ok (emit_reasoning features tid ts st)
  | _ => Raise TypeError
  end.

(** The instance as a proposal agent: other classes have no [propose]. *)
Definition as_proposal_agent (a : Agent) : res ProposalAgent :=
  match a with AProposal p => Ok p | _ => Raise AttributeError end.
