(* ===== verification/Loop.v ===== *)
(** Loop: the closed cognitive loop on one event stream (cognitive/loop.py).

    Methods run in the monad of StateErr over the loop object: an exception leaves the
    events emitted before it on the stream. *)
From S2P Require Import Prelude StateErr PyFloat FloatFacts PyVal PyMath PyRandom Events.
From S2P Require Import Config Agents Decision Grading Learning Drift Proposal Governance.
From S2P Require Import Gate Challenger Gitops Observe Registry.

Definition SOURCE_AGGREGATOR : string := "aggregator".
Definition SOURCE_DECISION : string := "decision_engine".
Definition SOURCE_RISK : string := "risk_engine".
Definition SOURCE_EXECUTION : string := "execution_engine".
Definition SOURCE_LEARNING : string := "learning_engine".
Definition SOURCE_GITOPS : string := "gitops".
Definition SOURCE_MERGE : string := "config_merge".

Record CognitiveLoop := {
  lp_stream : EventStream;
  lp_config : CognitiveConfig;
  lp_registry : AgentRegistry;
  lp_learning : LearningEngine;
  lp_importance : ImportanceTracker;
  lp_scorecard : ProposalScorecard;
  lp_governor : ProposalGovernor;
  lp_queue : ProposalQueue;
  lp_config_proposal_id : option string;
  lp_drift : DriftMonitor;
  lp_news : Agent;
  lp_tech : Agent;
  lp_macro : Agent;
  lp_risk : Agent;
  lp_reasoning : Agent;
  lp_proposal_agent : Agent;
}.

(** * Attribute assignment *)

Definition set_stream (st : EventStream) (l : CognitiveLoop) : CognitiveLoop :=
  let '(Build_CognitiveLoop _ c r le im sc go qu pid dr a1 a2 a3 a4 a5 a6) := l in
  Build_CognitiveLoop st c r le im sc go qu pid dr a1 a2 a3 a4 a5 a6.
Definition set_config (c : CognitiveConfig) (pid : option string) (l : CognitiveLoop) : CognitiveLoop :=
  let '(Build_CognitiveLoop st _ r le im sc go qu _ dr a1 a2 a3 a4 a5 a6) := l in
  Build_CognitiveLoop st c r le im sc go qu pid dr a1 a2 a3 a4 a5 a6.
Definition set_importance (im : ImportanceTracker) (l : CognitiveLoop) : CognitiveLoop :=
  let '(Build_CognitiveLoop st c r le _ sc go qu pid dr a1 a2 a3 a4 a5 a6) := l in
  Build_CognitiveLoop st c r le im sc go qu pid dr a1 a2 a3 a4 a5 a6.
Definition set_scorecard (sc : ProposalScorecard) (l : CognitiveLoop) : CognitiveLoop :=
  let '(Build_CognitiveLoop st c r le im _ go qu pid dr a1 a2 a3 a4 a5 a6) := l in
  Build_CognitiveLoop st c r le im sc go qu pid dr a1 a2 a3 a4 a5 a6.
Definition set_governor (go : ProposalGovernor) (l : CognitiveLoop) : CognitiveLoop :=
  let '(Build_CognitiveLoop st c r le im sc _ qu pid dr a1 a2 a3 a4 a5 a6) := l in
  Build_CognitiveLoop st c r le im sc go qu pid dr a1 a2 a3 a4 a5 a6.
Definition set_queue (qu : ProposalQueue) (l : CognitiveLoop) : CognitiveLoop :=
  let '(Build_CognitiveLoop st c r le im sc go _ pid dr a1 a2 a3 a4 a5 a6) := l in
  Build_CognitiveLoop st c r le im sc go qu pid dr a1 a2 a3 a4 a5 a6.
Definition set_drift (dr : DriftMonitor) (l : CognitiveLoop) : CognitiveLoop :=
  let '(Build_CognitiveLoop st c r le im sc go qu pid _ a1 a2 a3 a4 a5 a6) := l in
  Build_CognitiveLoop st c r le im sc go qu pid dr a1 a2 a3 a4 a5 a6.

Definition L (A : Type) : Type := M CognitiveLoop A.

(** [self.stream.emit(kind, payload, trace_id=..., source=..., ts=...)] *)
Definition emitL (k : EventType) (p : payload) (tid src t : string) : L unit :=
  modify (fun l => set_stream (Stream.emit_ k p tid src t (lp_stream l)) l).

(** A method of an agent that emits on [self.stream]. *)
Definition on_stream {A} (f : EventStream -> res (A * EventStream)) : L A := fun l =>
  match f (lp_stream l) with
  | Ok (a, st) => (Ok a, set_stream st l)
  | Raise e => (Raise e, l)
  end.

Definition queue_add (p : Proposal) (s : ProposalStatus) : L unit :=
  modify (fun l => set_queue (q_add p s (lp_queue l)) l).
Definition queue_update (pid : string) (cs : list QChange) : L unit :=
  modify (fun l => set_queue (q_update pid cs (lp_queue l)) l).
Definition record_outcomeL (p : Proposal) (approved : bool) : L unit :=
  modify (fun l => set_governor (Governor.record_outcome p approved (lp_governor l)) l).
Definition record_score (ptype : string) (success : bool) : L unit :=
  modify (fun l => set_scorecard (record ptype success (lp_scorecard l)) l).

Definition vid (pid : option string) : val := match pid with Some s => VStr s | None => VNone end.

(** * Construction *)

Definition config_version_payload (c : CognitiveConfig) (grade : option ConfigGradeCard) : payload :=
  [("type", VStr (value CONFIG_VERSION)); ("version", VInt (version c));
   ("config", VDict (to_dict c)); ("grade", vopt_dict (config_card_as_dict <$> grade))].

Definition _emit_config_version (grade : option ConfigGradeCard) : L unit :=
  let! c := gets lp_config in
  emitL CONFIG_VERSION (config_version_payload c grade) "" SOURCE_MERGE "".

(** [{spec.emits: spec.instance for spec in ...}] *)
Definition signal_agents (g : AgentRegistry) : dict Agent :=
  fold_left (fun d s => dset (emits s) (instance s) d) (Registry.by_role ROLE_SIGNAL g) [].

(** [registry.by_role(role)[0].instance] *)
Definition first_with (r : string) (g : AgentRegistry) : res Agent :=
  match Registry.by_role r g with
  | s :: _ => Ok (instance s)
  | [] => Raise IndexError
  end.

Definition drift_metrics : list (string * bool * float) :=
  [("trade_grade_score", true, 8.0%F); ("decision_regret_pct", false, 0.5%F);
   ("direction_correct", true, 0.15%F)].

Definition init_drift : res DriftMonitor :=
  res_fold (fun d m => Monitor.register (fst (fst m)) (snd (fst m)) (snd m) d) drift_metrics
    (Monitor.init 20 10).

(** [stream or EventStream(max_events=...)]: a stream's truth value is its length. *)
Definition stream_or (st : option EventStream) (max_events : Z) : EventStream :=
  match st with
  | Some s => if Stream.len s =? 0 then Stream.init (Some max_events) else s
  | None => Stream.init (Some max_events)
  end.

Section Loop.
Context `{Libm} `{PyRandom}.

Definition init (config : option CognitiveConfig) (file : file_read) (stream : option EventStream)
    (registry : option AgentRegistry) (max_events : Z) : res CognitiveLoop :=
  let st := stream_or stream max_events in
  let* c := match config with Some c => Ok c | None => load_config file end in
  let g := match registry with Some g => g | None => build_default_registry end in
  let* drift := init_drift in
  let agents := signal_agents g in
  let* n := dindex (value NEWS_SIGNAL) agents in
  let* t := dindex (value TECH_SIGNAL) agents in
  let* m := dindex (value MACRO_SIGNAL) agents in
  let* r := dindex (value RISK_SIGNAL) agents in
  let* ra := first_with ROLE_REASONING g in
  let* pa := first_with ROLE_PROPOSAL g in
  Ok (snd (_emit_config_version None
    {| lp_stream := st; lp_config := c; lp_registry := g; lp_learning := default_engine;
       lp_importance := tracker_init; lp_scorecard := []; lp_governor := Governor.default;
       lp_queue := []; lp_config_proposal_id := None; lp_drift := drift;
       lp_news := n; lp_tech := t; lp_macro := m; lp_risk := r; lp_reasoning := ra;
       lp_proposal_agent := pa |})).

(** * Forward pass *)

Record StepResult := {
  sr_trace_id : string;
  sr_features : dict float;
  sr_decision : Decision;
  sr_gate : RiskGate;
  sr_execution : Execution;
}.

(** [trace_id or f"trace-{len(self.stream)}"] *)
Definition trace_or (tid : option string) (st : EventStream) : string :=
  or_default tid ("trace-" +:+ pretty (Stream.len st)).

(** [payload["config_version"] = ...; payload["config_proposal_id"] = ...] *)
Definition with_lineage (l : CognitiveLoop) (p : payload) : payload :=
  dset "config_proposal_id" (vid (lp_config_proposal_id l))
    (dset "config_version" (VInt (version (lp_config l))) p).

Definition step (m : MarketView) (equity position_pct exposure day_pnl : float)
    (trace_id : option string) : L StepResult :=
  let! tid := gets (fun l => trace_or trace_id (lp_stream l)) in
  let! l := gets id in
  let! news := on_stream (signal_emit (lp_news l) m tid) in
  let! tech := on_stream (signal_emit (lp_tech l) m tid) in
  let! macro := on_stream (signal_emit (lp_macro l) m tid) in
  let! risk := on_stream (signal_emit (lp_risk l) m tid) in
  let! features := lift (aggregate news tech macro risk) in
  do! emitL FEATURES (dmerge [("type", VStr (value FEATURES))] (vfloat_dict features))
        tid SOURCE_AGGREGATOR (mv_ts m) in
  let! _ := on_stream (reasoning_emit (lp_reasoning l) features tid (mv_ts m)) in
  let decision := decide features (lp_config l) in
  do! emitL DECISION (with_lineage l (decision_as_dict decision)) tid SOURCE_DECISION (mv_ts m) in
  let gate := evaluate_risk decision (lp_config l) position_pct exposure day_pnl in
  do! emitL RISK_GATE (gate_as_dict gate) tid SOURCE_RISK (mv_ts m) in
  let execution := execute decision gate (symbol m) (price m) equity in
  do! emitL EXECUTION (with_lineage l (execution_as_dict execution)) tid SOURCE_EXECUTION (mv_ts m) in
  ret {| sr_trace_id := tid; sr_features := features; sr_decision := decision;
         sr_gate := gate; sr_execution := execution |}.

(** * Closing a trade *)

Definition is_decision_of (tid : string) (e : Event) : bool :=
  Stream.has_kind DECISION e && String.eqb (trace_id e) tid.

Definition _decision_for (tid : string) (st : EventStream) : option payload :=
  ev_payload <$> List.find (is_decision_of tid) (rev (es_events st)).

(** [dict(v)]: the breakdown of a decision is a dict. *)
Definition py_dict (v : val) : res payload :=
  match v with VDict d => Ok d | _ => Raise TypeError end.

(** The keyword arguments of [close_trade]. *)
Record TradeClose := {
  tc_pnl : float;
  tc_pnl_pct : float;
  tc_max_adverse_pct : float;
  tc_slippage_bps : float;
  tc_side : string;
  tc_entry_price : float;
  tc_window_low : float;
  tc_window_high : float;
}.

Record CloseResult := {
  cr_attribution : Attribution;
  cr_grade : TradeGradeCard;
  cr_counterfactual : CounterfactualResult;
}.

(** [decision_payload.get("action") or side] *)
Definition action_or (p : payload) (side : string) : string :=
  match dget_or "action" VNone p with
  | VStr a => or_default (Some a) side
  | v => if truthy v then Fmt.str v else side
  end.

Definition outcome_payload (t : TradeClose) (v : Z) (pid : val) : payload :=
  [("type", VStr (value TRADE_OUTCOME)); ("realized_pnl", VFloat (py_round (tc_pnl t) 6));
   ("realized_pnl_pct", VFloat (py_round (tc_pnl_pct t) 6)); ("side", VStr (tc_side t));
   ("config_version", VInt v); ("config_proposal_id", pid)].

Definition observe_all (ms : list (string * float)) : L unit :=
  modify (fun l => set_drift (fold_left (fun d m => Monitor.observe (fst m) (snd m) d) ms (lp_drift l)) l).

Definition close_trade (tid : string) (t : TradeClose) : L CloseResult :=
  let! l := gets id in
  let dp := match _decision_for tid (lp_stream l) with Some d => d | None => [] end in
  let! bd := lift (py_dict (dget_or "breakdown" (VDict []) dp)) in
  let! dscore := lift (pfloat dp "score" 0.0%F) in
  let! v := lift (py_int (dget_or "config_version" (VInt (version (lp_config l))) dp)) in
  do! emitL TRADE_OUTCOME (outcome_payload t v (dget_or "config_proposal_id" VNone dp))
        tid SOURCE_EXECUTION "" in
  let! a := lift (attribute bd (tc_pnl t)) in
  do! emitL ATTRIBUTION (attribution_as_dict a) tid SOURCE_LEARNING "" in
  let! im := lift (tracker_update (lp_importance l) a (_sign (tc_pnl t))) in
  do! modify (set_importance im) in
  let card := grade_trade tid dscore (tc_pnl_pct t) (tc_max_adverse_pct t) (tc_slippage_bps t)
                (tc_side t) (tc_entry_price t) (tc_window_low t) (tc_window_high t) in
  do! emitL GRADE (trade_card_as_dict card) tid SOURCE_LEARNING "" in
  let cf := counterfactual (action_or dp (tc_side t)) (tc_pnl_pct t) (tc_side t) in
  do! emitL COUNTERFACTUAL (counterfactual_as_dict cf) tid SOURCE_LEARNING "" in
  do! observe_all [("trade_grade_score", overall_score card);
                   ("decision_regret_pct", regret_pct cf);
                   ("direction_correct", if fltb 0.0%F (tc_pnl_pct t) then 1.0%F else 0.0%F)] in
  ret {| cr_attribution := a; cr_grade := card; cr_counterfactual := cf |}.

Definition detect_drift : L (list DriftAlert) :=
  let! d := gets lp_drift in
  let! alerts := lift (Monitor.assess d) in
  do! for_each (fun a => emitL DRIFT (alert_as_dict a) "" SOURCE_LEARNING "") alerts in
  ret alerts.

(** * Learning *)

(** The default [min_samples] of [grade_agent]. *)
Definition AGENT_MIN_SAMPLES : Z := 30.

Definition learn : L (list Observation) :=
  let! l := gets id in
  let! md := lift (metadata (lp_importance l)) in
  let! obs := lift (Learning.observe (lp_learning l) md) in
  do! for_each (fun o => emitL OBSERVATION (observation_as_dict o) "" SOURCE_LEARNING "") obs in
  do! for_each (fun kv =>
        let! card := lift (grade_agent (fst kv) (snd kv) AGENT_MIN_SAMPLES) in
        emitL GRADE (agent_card_as_dict card) "" SOURCE_LEARNING "") md in
  ret obs.

Definition _attribution_supports (im : ImportanceTracker) (sig : string) (dir : Z) : res bool :=
  let* md := metadata im in
  let stats := dget_or sig [] md in
  let* total := pfloat stats "total_pnl_attribution" 0.0%F in
  let* rate := pfloat stats "correct_rate" 0.0%F in
  let good := fleb 0.0%F total && fleb 0.5%F rate in
  Ok (if 0 <? dir then good else negb good).

(** * Evolution *)

(** The arguments of [evolve]. *)
Record EvolveArgs := {
  ev_prices : list float;
  ev_split : float;
  ev_seed : Z;
  ev_base_ref : string;
  ev_news : option (list float);
  ev_folds : Z;
}.

(** The evidence of a backtested proposal. *)
Record Bundle := {
  bu_proposal : Proposal;
  bu_in_sample : BacktestDelta;
  bu_out_sample : BacktestDelta;
  bu_walk_forward : WalkForwardResult;
  bu_verdict : ChallengerVerdict;
  bu_grade : ProposalGradeCard;
  bu_candidate : CognitiveConfig;
  bu_pull_request : option PullRequestPlan;
}.

Inductive EvolveResult :=
| Blocked (p : Proposal) (why : string)
| Rejected (p : Proposal)
| Judged (b : Bundle).

(** [max(1, int(len(prices) * split))] *)
Definition cut_of (a : EvolveArgs) : res Z :=
  let* k := trunc (of_Z (zlen (ev_prices a)) * ev_split a)%F in Ok (Z.max 1 k).

(** The three paired backtests of a candidate. *)
Definition judge (a : EvolveArgs) (baseline candidate : CognitiveConfig)
  : res (BacktestDelta * BacktestDelta * WalkForwardResult) :=
  let* cut := cut_of a in
  let n := Z.to_nat cut in
  let ps := ev_prices a in
  let* ins := evaluate_proposal (take n ps) baseline candidate (take n <$> ev_news a) (ev_seed a) in
  let* outs := evaluate_proposal (drop n ps) baseline candidate (drop n <$> ev_news a) (ev_seed a) in
  let* wf := walk_forward ps baseline candidate (ev_folds a) (ev_news a) (ev_seed a) in
  Ok (ins, outs, wf).

Definition result_payload (p : Proposal) (ins outs : BacktestDelta) (wf : WalkForwardResult) : payload :=
  [("type", VStr (value BACKTEST_RESULT)); ("proposal_id", VStr (proposal_id p));
   ("in_sample", VDict (delta_as_dict ins)); ("out_sample", VDict (delta_as_dict outs));
   ("walk_forward", VDict (wf_as_dict wf))].

(** [_sign(float(new_value) - float(old_value))] *)
Definition proposal_direction (p : Proposal) : res Z :=
  let* new := py_float (new_value p) in
  let* old := py_float (old_value p) in
  Ok (_sign (new - old)%F).

Definition learning_samples_of (im : ImportanceTracker) (sig : string) : res Z :=
  let* md := metadata im in py_int (dget_or "samples" (VInt 0) (dget_or sig [] md)).

(** The challenger's evidence for a candidate that passed validation. *)
Definition evidence_of (p : Proposal) (im : ImportanceTracker) (ins outs : BacktestDelta)
    (wf : WalkForwardResult) : res Evidence :=
  let sig := last_part (target p) in
  let* dir := proposal_direction p in
  let* n := learning_samples_of im sig in
  let* sup := _attribution_supports im sig dir in
  Ok {| in_sample := ins; out_sample := outs; learning_samples := n;
        candidate_config_valid := true; attribution_supports := sup;
        walk_forward_consistency := consistency wf |}.

Definition block_proposal (p : Proposal) (why : string) : L EvolveResult :=
  do! queue_add p BLOCKED in
  do! queue_update (proposal_id p) [SetVerdict [("blocked", VStr why)]] in
  ret (Blocked p why).

Definition reject_proposal (p : Proposal) : L EvolveResult :=
  do! record_outcomeL p false in
  do! queue_update (proposal_id p) [SetStatus REJECTED] in
  ret (Rejected p).

(** An approved proposal becomes a pull request, a refused one is only recorded. *)
Definition conclude (a : EvolveArgs) (p : Proposal) (v : ChallengerVerdict) (ins outs : BacktestDelta)
    (card : ProposalGradeCard) (candidate : CognitiveConfig) : L (option PullRequestPlan) :=
  let! c := gets lp_config in
  let evidence := [SetVerdict (verdict_as_dict v); SetDelta (delta_as_dict outs)] in
  let grade := [SetGrade (proposal_card_as_dict card)] in
  if v_approved v then
    let pr := build_pull_request p v ins outs c candidate (ev_base_ref a) in
    do! emitL PR_REQUEST (plan_as_dict pr) "" SOURCE_GITOPS "" in
    do! queue_update (proposal_id p)
          (SetStatus APPROVED :: evidence ++ SetPullRequest (plan_as_dict pr) :: grade) in
    ret (Some pr)
  else
    do! queue_update (proposal_id p) (SetStatus REJECTED :: evidence ++ grade) in
    ret None.

(** The evidence trail of a candidate: backtests, verdict, grade, conclusion. *)
Definition judge_candidate (a : EvolveArgs) (p : Proposal) (candidate : CognitiveConfig)
  : L EvolveResult :=
  let! l := gets id in
  let! (ins, outs, wf) := lift (judge a (lp_config l) candidate) in
  do! emitL BACKTEST_RESULT (result_payload p ins outs wf) "" SOURCE_GITOPS "" in
  let! ev := lift (evidence_of p (lp_importance l) ins outs wf) in
  let v := review ev default_limits in
  do! emitL CHALLENGER_VERDICT
        (dset "proposal_id" (VStr (proposal_id p)) (verdict_as_dict v)) "" SOURCE_GITOPS "" in
  let card := grade_proposal (proposal_id p) (proposal_type p) (pnl_delta outs) (sharpe_delta outs) in
  do! emitL GRADE (proposal_card_as_dict card) "" SOURCE_GITOPS "" in
  do! record_score (proposal_type p) (v_approved v) in
  do! record_outcomeL p (v_approved v) in
  let! pr := conclude a p v ins outs card candidate in
  ret (Judged {| bu_proposal := p; bu_in_sample := ins; bu_out_sample := outs;
                 bu_walk_forward := wf; bu_verdict := v; bu_grade := card;
                 bu_candidate := candidate; bu_pull_request := pr |}).

(** Governance, then the candidate. *)
Definition consider (a : EvolveArgs) (p : Proposal) : L EvolveResult :=
  let! l := gets id in
  let! (ok, why, g) := lift (Governor.admit_proposal p (lp_governor l)) in
  do! modify (set_governor g) in
  if negb ok then block_proposal p why
  else
    do! queue_add p BACKTESTING in
    let! candidate := lift (apply_proposal_to_config (lp_config l) p) in
    match candidate with
    | None => reject_proposal p
    | Some c => judge_candidate a p c
    end.

Definition evolve (a : EvolveArgs) : L (option EvolveResult) :=
  let! observations := learn in
  let! l := gets id in
  let! agent := lift (as_proposal_agent (lp_proposal_agent l)) in
  let! proposal := lift (propose agent observations (lp_config l) (Some (lp_scorecard l))) in
  match proposal with
  | None => ret None
  | Some p =>
      do! modify (fun l => set_stream (emit_proposal p "" (lp_stream l)) l) in
      let! r := consider a p in
      ret (Some r)
  end.

Definition merge (candidate : CognitiveConfig) (sharpe max_drawdown_pct : float)
    (pid : option string) : L (Z * ConfigGradeCard) :=
  do! modify (set_config candidate pid) in
  do! match pid with Some s => queue_update s [SetStatus MERGED] | None => ret tt end in
  let grade := grade_config_version (version candidate) sharpe max_drawdown_pct in
  do! _emit_config_version (Some grade) in
  ret (version candidate, grade).

End Loop.

(** * The snapshot *)

(** Events of a kind as dictionaries with their envelope. *)
Definition with_envelope (e : Event) : payload :=
  dmerge (ev_payload e)
    [("seq", VInt (seq e)); ("trace_id", VStr (trace_id e)); ("source", VStr (source e))].

Definition _payloads (k : EventType) (limit : option Z) (st : EventStream) : list payload :=
  let out := map with_envelope (Stream.events (Some k) None st) in
  match limit with Some n => slice_last n out | None => out end.

(** Distinct trace ids of the decisions, in order. *)
Definition note_trace (seen : list string) (e : Event) : list string :=
  if Stream.has_kind DECISION e && negb (String.eqb (trace_id e) "")
     && negb (existsb (String.eqb (trace_id e)) seen)
  then seen ++ [trace_id e] else seen.

Definition _trace_ids (limit : Z) (st : EventStream) : list string :=
  slice_last limit (fold_left note_trace (es_events st) []).

(** The last payload of a kind, or [None]. *)
Definition live (k : EventType) (st : EventStream) : val :=
  vopt_dict (last (_payloads k (Some 1) st)).

Definition vdicts (l : list payload) : val := VList (map VDict l).

(** [round(sum(c.get("regret_pct", 0.0) for c in l) / len(l), 4) if l else 0.0] *)
Definition mean_regret (l : list payload) : res float :=
  if zlen l =? 0 then Ok 0.0%F
  else
    let* xs := res_list (fun c => pfloat c "regret_pct" 0.0%F) l in
    let* q := fdiv (fsum_left xs) (of_Z (zlen l)) in Ok (py_round q 4).

Definition was_best_in (c : payload) : bool := truthy (dget_or "was_best" VNone c).

Definition best_rate (l : list payload) : res float :=
  if zlen l =? 0 then Ok 0.0%F
  else
    let* q := int_div (zlen (List.filter was_best_in l)) (zlen l) in Ok (py_round q 4).

Definition trade_payload (p : payload) : bool :=
  match dget "subject" p with Some (VStr s) => String.eqb s SUBJECT_TRADE | _ => false end.

Section Snapshot.
Context `{Libm}.

Definition agent_grades (md : dict payload) : res (list payload) :=
  res_list (fun kv => let* card := grade_agent (fst kv) (snd kv) AGENT_MIN_SAMPLES in
                      Ok (agent_card_as_dict card)) md.

Definition snapshot (l : CognitiveLoop) (trace_limit : Z) : res payload :=
  let st := lp_stream l in
  let c := lp_config l in
  let recent k := vdicts (_payloads k (Some trace_limit) st) in
  let counterfactuals := _payloads COUNTERFACTUAL None st in
  let* md := metadata (lp_importance l) in
  let* grades := agent_grades md in
  let* regret := mean_regret counterfactuals in
  let* best := best_rate counterfactuals in
  let* rates := scorecard_snapshot (lp_scorecard l) in
  Ok [("config", VDict (to_dict c));
      ("agents_roster", vdicts (Registry.describe (lp_registry l)));
      ("live_agents", VDict
        [("news", live NEWS_SIGNAL st); ("tech", live TECH_SIGNAL st);
         ("macro", live MACRO_SIGNAL st); ("risk", live RISK_SIGNAL st)]);
      ("reasoning", recent REASONING);
      ("decision", VDict
        [("latest", live DECISION st); ("recent", recent DECISION);
         ("weights", VDict (vfloats (weights c)));
         ("buy_threshold", VFloat (buy_threshold c));
         ("sell_threshold", VFloat (sell_threshold c))]);
      ("proposals", vdicts (q_snapshot (lp_queue l)));
      ("challenger", recent CHALLENGER_VERDICT);
      ("learning", VDict
        [("importance", VDict (map (fun kv => (fst kv, VDict (snd kv))) md));
         ("agent_grades", vdicts grades);
         ("observations", recent OBSERVATION);
         ("trade_grades",
          vdicts (slice_last trace_limit (List.filter trade_payload (_payloads GRADE None st))));
         ("mean_regret_pct", VFloat regret);
         ("best_action_rate", VFloat best)]);
      ("evolution", VDict
        [("config_versions", vdicts (_payloads CONFIG_VERSION None st));
         ("proposal_success_rates", VDict rates);
         ("agent_grades", vdicts grades);
         ("governor", VDict (Governor.snapshot (lp_governor l)))]);
      ("counterfactuals", vdicts (slice_last trace_limit counterfactuals));
      ("drift", VDict
        [("alerts", recent DRIFT); ("monitor", VDict (Monitor.snapshot (lp_drift l)))]);
      ("health", VDict (assess_health st));
      ("traces", vdicts (map (build_trace st) (_trace_ids trace_limit st)));
      ("event_count", VInt (Stream.len st))].

End Snapshot.
