(* ===== verification/LoopFacts.v ===== *)
(** LoopFacts: the theorems about the cognitive loop: what each operation may change,
    what it puts on the stream, and the invariants of every reachable loop. *)
From S2P Require Import Prelude StateErr PyFloat FloatFacts PyVal PyMath PyRandom Events.
From S2P Require Import Config Agents Decision Grading Learning Drift Proposal Governance.
From S2P Require Import Gate Challenger Gitops Observe Registry Loop.
Import Stream (Msg, Build_Msg, m_kind, m_payload, m_trace, m_source, m_ts, post, posts, stamp,
  stamps, keep, posts_app, posts_max, posts_ok, posts_events, stamps_length).

(** * What no operation but [merge] changes *)

(** The configuration, its provenance, the roster and the retention cap. *)
Definition fixed_part (l : CognitiveLoop) :=
  (lp_config l, lp_config_proposal_id l, lp_registry l, lp_learning l,
   (lp_news l, lp_tech l, lp_macro l, lp_risk l, lp_reasoning l, lp_proposal_agent l),
   es_max_events (lp_stream l)).

Definition frame (l l' : CognitiveLoop) : Prop := fixed_part l' = fixed_part l.

#[global] Instance frame_preorder : PreOrder frame.
Proof. split; [done|]. intros l1 l2 l3 H1 H2. unfold frame in *. by rewrite H2. Qed.

Lemma frame_set_stream st l :
  es_max_events st = es_max_events (lp_stream l) -> frame l (set_stream st l).
Proof. intros E. destruct l. unfold frame, fixed_part. simpl in *. by rewrite E. Qed.

Lemma frame_emitL k p tid src t : tracks frame (emitL k p tid src t).
Proof. apply tracks_modify. intros l. by apply frame_set_stream. Qed.

Lemma frame_modify (f : CognitiveLoop -> CognitiveLoop) :
  (forall l, frame l (f l)) -> tracks frame (modify f).
Proof. apply tracks_modify. Qed.

(** A stream function keeps the cap. *)
Definition keeps_cap {A} (f : EventStream -> res (A * EventStream)) : Prop :=
  forall st a st', f st = Ok (a, st') -> es_max_events st' = es_max_events st.

Lemma frame_on_stream {A} (f : EventStream -> res (A * EventStream)) :
  keeps_cap f -> tracks frame (on_stream f).
Proof.
  intros Hf l. unfold on_stream. destruct (f (lp_stream l)) as [[a st]|e] eqn:E; [|done].
  apply frame_set_stream. by apply Hf in E.
Qed.

Lemma emit_signal_cap k n f m tid : keeps_cap (emit_signal k n f m tid).
Proof. intros st a st' H. unfold emit_signal in H. inv_ok H. by simplify_eq. Qed.

Lemma signal_emit_cap a m tid : keeps_cap (signal_emit a m tid).
Proof. destruct a; try apply emit_signal_cap; done. Qed.

Lemma reasoning_emit_cap a fs tid t : keeps_cap (reasoning_emit a fs tid t).
Proof. intros st p st' H. destruct a; try done. simpl in H. by simplify_eq. Qed.

Ltac frame_modify := apply frame_modify; by intros [].

Lemma frame_queue_add p s : tracks frame (queue_add p s).
Proof. frame_modify. Qed.

Lemma frame_queue_update pid cs : tracks frame (queue_update pid cs).
Proof. frame_modify. Qed.

Lemma frame_record_outcome p b : tracks frame (record_outcomeL p b).
Proof. frame_modify. Qed.

Lemma frame_record_score t b : tracks frame (record_score t b).
Proof. frame_modify. Qed.

Lemma frame_observe_all ms : tracks frame (observe_all ms).
Proof. frame_modify. Qed.

Lemma frame_set_importance im : tracks frame (modify (set_importance im)).
Proof. frame_modify. Qed.

Lemma frame_set_governor g : tracks frame (modify (set_governor g)).
Proof. frame_modify. Qed.

Lemma frame_proposal p tid :
  tracks frame (modify (fun l => set_stream (emit_proposal p tid (lp_stream l)) l)).
Proof. apply frame_modify. intros l. by apply frame_set_stream. Qed.

#[export] Hint Resolve frame_emitL frame_on_stream signal_emit_cap reasoning_emit_cap
  frame_queue_add frame_queue_update frame_record_outcome frame_record_score frame_observe_all
  frame_set_importance frame_set_governor frame_proposal : tracks.

(** Walk a computation with the hints, one case per branch. *)
Ltac tracks :=
  repeat first
    [ progress (intros; cbv beta zeta)
    | solve [auto 2 with tracks]
    | match goal with |- tracks _ (if ?b then _ else _) => destruct b end
    | match goal with |- tracks _ (match ?x with _ => _ end) => destruct x end
    | apply tracks_bind; [typeclasses eauto| |]
    | apply tracks_for_each; [typeclasses eauto|]
    | apply tracks_ret; typeclasses eauto
    | apply tracks_lift; typeclasses eauto
    | apply tracks_gets; typeclasses eauto ].

Section Frames.
Context `{Libm} `{PyRandom}.

Lemma frame_step m eq pos ex pnl tid : tracks frame (step m eq pos ex pnl tid).
Proof. unfold step. tracks. Qed.

Lemma frame_close_trade tid t : tracks frame (close_trade tid t).
Proof. unfold close_trade. tracks. Qed.

Lemma frame_detect_drift : tracks frame detect_drift.
Proof. unfold detect_drift. tracks. Qed.

Lemma frame_learn : tracks frame learn.
Proof. unfold learn. tracks. Qed.

Lemma frame_consider a p : tracks frame (consider a p).
Proof. unfold consider, block_proposal, reject_proposal, judge_candidate, conclude. tracks. Qed.

#[local] Hint Resolve frame_learn frame_consider : tracks.

Lemma frame_evolve a : tracks frame (evolve a).
Proof. unfold evolve. tracks. Qed.

End Frames.

(** * What the operations put on the stream *)

Definition msg (k : EventType) (p : payload) (tid src t : string) : Msg :=
  {| m_kind := k; m_payload := p; m_trace := tid; m_source := src; m_ts := t |}.

(** The loop after emitting [ms] and nothing else. *)
Definition said (ms : list Msg) (l : CognitiveLoop) : CognitiveLoop :=
  set_stream (posts ms (lp_stream l)) l.

Lemma set_stream_stream st l : lp_stream (set_stream st l) = st.
Proof. by destruct l. Qed.

Lemma set_drift_stream d l : lp_stream (set_drift d l) = lp_stream l.
Proof. by destruct l. Qed.

Lemma set_importance_stream im l : lp_stream (set_importance im l) = lp_stream l.
Proof. by destruct l. Qed.

Lemma set_drift_importance d l : lp_importance (set_drift d l) = lp_importance l.
Proof. by destruct l. Qed.

Lemma set_stream_importance st l : lp_importance (set_stream st l) = lp_importance l.
Proof. by destruct l. Qed.

Lemma set_importance_importance im l : lp_importance (set_importance im l) = im.
Proof. by destruct l. Qed.

Lemma set_stream_twice st st' l : set_stream st (set_stream st' l) = set_stream st l.
Proof. by destruct l. Qed.

Lemma said_stream ms l : lp_stream (said ms l) = posts ms (lp_stream l).
Proof. apply set_stream_stream. Qed.

Lemma said_nil l : said [] l = l.
Proof. by destruct l. Qed.

Lemma said_app ms ms' l : said (ms ++ ms') l = said ms' (said ms l).
Proof. unfold said. by rewrite set_stream_stream, set_stream_twice, posts_app. Qed.

Lemma frame_said ms l : frame l (said ms l).
Proof. apply frame_set_stream. apply posts_max. Qed.

Lemma runs_emitL k p tid src t l u l' :
  runs (emitL k p tid src t) l u l' <-> l' = said [msg k p tid src t] l.
Proof. apply runs_modify. Qed.

(** An agent of the right class scores the market and emits its payload. *)
Definition speaks (k : EventType) (name : string) (analyze : MarketView -> res payload) (a : Agent)
  : Prop := forall m tid st, signal_emit a m tid st = emit_signal k name analyze m tid st.

Lemma runs_signal k name f a m tid l p l' :
  speaks k name f a ->
  runs (on_stream (signal_emit a m tid)) l p l' <->
  f m = Ok p /\ l' = said [msg k p tid name (mv_ts m)] l.
Proof.
  intros Ha. unfold runs, on_stream. rewrite Ha. unfold emit_signal.
  destruct (f m) as [q|e]; simpl; [|naive_solver]. split.
  - intros [= -> <-]. done.
  - intros [[= ->] ->]. done.
Qed.

Lemma runs_reasoning fs tid t l p l' :
  runs (on_stream (reasoning_emit AReasoning fs tid t)) l p l' <->
  p = analyze_reasoning fs /\
  l' = said [msg REASONING (analyze_reasoning fs) tid REASONING_AGENT t] l.
Proof. unfold runs, on_stream. simpl. split; [intros [= <- <-]; done|intros [-> ->]; done]. Qed.

(** The five agents of the forward pass are of the expected classes; the scorers are
    arbitrary. *)
Record wired (l : CognitiveLoop) (n : NewsScorer) (t : TechScorer) (m : MacroScorer)
    (r : RiskScorer) : Prop := {
  w_news : lp_news l = ANews n;
  w_tech : lp_tech l = ATech t;
  w_macro : lp_macro l = AMacro m;
  w_risk : lp_risk l = ARisk r;
  w_reasoning : lp_reasoning l = AReasoning;
}.

Lemma frame_wired l l' n t m r : frame l l' -> wired l n t m r -> wired l' n t m r.
Proof.
  unfold frame, fixed_part. intros E []. simplify_eq. split; congruence.
Qed.

(** The nine events of one forward pass, in order, under one trace id. *)
Definition step_log (m : MarketView) (l : CognitiveLoop) (pn pt pm pr : payload) (s : StepResult)
  : list Msg :=
  let say k p src := msg k p (sr_trace_id s) src (mv_ts m) in
  [say NEWS_SIGNAL pn NEWS_AGENT; say TECH_SIGNAL pt TECH_AGENT; say MACRO_SIGNAL pm MACRO_AGENT;
   say RISK_SIGNAL pr RISK_AGENT;
   say FEATURES (dmerge [("type", VStr (value FEATURES))] (vfloat_dict (sr_features s)))
     SOURCE_AGGREGATOR;
   say REASONING (analyze_reasoning (sr_features s)) REASONING_AGENT;
   say DECISION (with_lineage l (decision_as_dict (sr_decision s))) SOURCE_DECISION;
   say RISK_GATE (gate_as_dict (sr_gate s)) SOURCE_RISK;
   say EXECUTION (with_lineage l (execution_as_dict (sr_execution s))) SOURCE_EXECUTION].

(** Decompose a run into its parts. *)
Ltac inv_runs H :=
  repeat first
    [ let a := fresh "x" in let s := fresh "s" in let Ha := fresh "Hx" in
      apply runs_bind in H; destruct H as (a & s & Ha & H)
    | progress cbv beta in H ].

Ltac inv_simple H :=
  first [ apply runs_lift in H as [H ->]
        | apply runs_gets in H as [-> ->]
        | apply runs_emitL in H as ->
        | apply runs_modify in H as ->
        | apply runs_ret in H as [-> ->] ].

Lemma step_runs m eq pos ex pnl tid l sn stt sm sr s l' :
  wired l sn stt sm sr ->
  runs (step m eq pos ex pnl tid) l s l' ->
  exists pn pt pm pr,
    analyze_news sn m = Ok pn /\ analyze_tech stt m = Ok pt /\ analyze_macro sm m = Ok pm /\
    analyze_risk sr m = Ok pr /\ aggregate pn pt pm pr = Ok (sr_features s) /\
    sr_trace_id s = trace_or tid (lp_stream l) /\
    sr_decision s = decide (sr_features s) (lp_config l) /\
    sr_gate s = evaluate_risk (sr_decision s) (lp_config l) pos ex pnl /\
    sr_execution s = execute (sr_decision s) (sr_gate s) (symbol m) (price m) eq /\
    l' = said (step_log m l pn pt pm pr s) l.
Proof.
  intros [Wn Wt Wm Wr Wa] Hs. unfold step in Hs.
  apply runs_bind in Hs as (? & ? & [-> ->]%runs_gets & Hs). cbv beta in Hs.
  apply runs_bind in Hs as (? & ? & [-> ->]%runs_gets & Hs). cbv beta in Hs.
  unfold id in Hs. rewrite Wn, Wt, Wm, Wr, Wa in Hs.
  apply runs_bind in Hs as (pn & ? & Hn & Hs).
  apply (runs_signal NEWS_SIGNAL NEWS_AGENT (analyze_news sn)) in Hn as [Hn ->]; [|done].
  apply runs_bind in Hs as (pt & ? & Ht & Hs).
  apply (runs_signal TECH_SIGNAL TECH_AGENT (analyze_tech stt)) in Ht as [Ht ->]; [|done].
  apply runs_bind in Hs as (pm & ? & Hm & Hs).
  apply (runs_signal MACRO_SIGNAL MACRO_AGENT (analyze_macro sm)) in Hm as [Hm ->]; [|done].
  apply runs_bind in Hs as (pr & ? & Hr & Hs).
  apply (runs_signal RISK_SIGNAL RISK_AGENT (analyze_risk sr)) in Hr as [Hr ->]; [|done].
  apply runs_bind in Hs as (fs & ? & [Hf ->]%runs_lift & Hs).
  apply runs_bind in Hs as (? & ? & ->%runs_emitL & Hs).
  apply runs_bind in Hs as (? & ? & [_ ->]%runs_reasoning & Hs).
  apply runs_bind in Hs as (? & ? & ->%runs_emitL & Hs).
  apply runs_bind in Hs as (? & ? & ->%runs_emitL & Hs).
  apply runs_bind in Hs as (? & ? & ->%runs_emitL & Hs).
  apply runs_ret in Hs as [-> ->]. exists pn, pt, pm, pr. cbn [sr_features sr_trace_id sr_decision sr_gate sr_execution].
  split_and!; try done. rewrite <- !said_app. done.
Qed.

Lemma step_goes m eq pos ex pnl tid l sn stt sm sr pn pt pm pr fs :
  wired l sn stt sm sr ->
  analyze_news sn m = Ok pn -> analyze_tech stt m = Ok pt -> analyze_macro sm m = Ok pm ->
  analyze_risk sr m = Ok pr -> aggregate pn pt pm pr = Ok fs ->
  exists s l', step m eq pos ex pnl tid l = (Ok s, l').
Proof.
  intros [Wn Wt Wm Wr Wa] Hn Ht Hm Hr Hf. unfold step, bind, gets, id.
  rewrite Wn, Wt, Wm, Wr, Wa. unfold on_stream at 1. cbn [signal_emit].
  unfold emit_news, emit_signal. rewrite Hn. cbn [res_bind].
  unfold on_stream at 1. cbn [signal_emit]. unfold emit_tech, emit_signal. rewrite Ht. cbn [res_bind].
  unfold on_stream at 1. cbn [signal_emit]. unfold emit_macro, emit_signal. rewrite Hm. cbn [res_bind].
  unfold on_stream at 1. cbn [signal_emit]. unfold emit_risk, emit_signal. rewrite Hr. cbn [res_bind].
  unfold lift. rewrite Hf. by eexists _, _.
Qed.

(** The default scorers always produce a signal on moderate prices. *)
Lemma default_signals_total `{Libm} m :
  Forall price_ok (history m) ->
  exists pn pt pm pr fs,
    analyze_news default_news m = Ok pn /\ analyze_tech default_tech m = Ok pt /\
    analyze_macro default_macro m = Ok pm /\ analyze_risk default_risk m = Ok pr /\
    aggregate pn pt pm pr = Ok fs.
Proof.
  intros Hh.
  destruct (technical_trend_total (history m) TECH_WINDOW) as (t & c & Et); [done|exact Hh|].
  destruct (risk_assessment_total (history m) RISK_WINDOW) as (x & fl & Er); [done|exact Hh|].
  destruct (news_sentiment m) as [s sc] eqn:En.
  eexists _, _, _, _, _.
  unfold analyze_news, analyze_tech, analyze_macro, analyze_risk,
    default_news, default_tech, default_macro, default_risk.
  rewrite En, Et, Er. cbn [res_bind]. split_and!; reflexivity.
Qed.

(** One forward pass puts exactly nine events on the stream, in pipeline order under
    one trace id: the four signals, the features, the reasoning, the decision, the risk
    gate and only then the execution; the decision is the one the configuration gives on
    the aggregated features, the execution is the one the gate lets through, and no other
    part of the loop changes. *)
Theorem step_protocol m eq pos ex pnl tid l sn stt sm sr s l' :
  wired l sn stt sm sr ->
  step m eq pos ex pnl tid l = (Ok s, l') ->
  exists log, l' = said log l /\
    map m_kind log = [NEWS_SIGNAL; TECH_SIGNAL; MACRO_SIGNAL; RISK_SIGNAL; FEATURES; REASONING;
                      DECISION; RISK_GATE; EXECUTION] /\
    Forall (fun x => m_trace x = sr_trace_id s) log /\
    sr_decision s = decide (sr_features s) (lp_config l) /\
    sr_gate s = evaluate_risk (sr_decision s) (lp_config l) pos ex pnl /\
    sr_execution s = execute (sr_decision s) (sr_gate s) (symbol m) (price m) eq.
Proof.
  intros W (pn & pt & pm & pr & _ & _ & _ & _ & _ & _ & Hd & Hg & He & Hl)%(step_runs _ _ _ _ _ _ _ _ _ _ _ _ _ W).
  exists (step_log m l pn pt pm pr s). split_and!; try done.
  repeat (apply Forall_cons; split; [reflexivity|]). by apply Forall_nil.
Qed.

(** The forward pass always completes on a history of moderate prices, whatever the
    sentiment, the account figures and the retention cap are. *)
Theorem step_total `{Libm} m eq pos ex pnl tid l :
  wired l default_news default_tech default_macro default_risk ->
  Forall price_ok (history m) ->
  exists s l', step m eq pos ex pnl tid l = (Ok s, l').
Proof.
  intros W Hh. destruct (default_signals_total m Hh) as (pn & pt & pm & pr & fs & H1 & H2 & H3 & H4 & H5).
  by apply (step_goes m eq pos ex pnl tid l _ _ _ _ pn pt pm pr fs W).
Qed.

(** * Evolution *)

Definition learning_kind (k : EventType) : Prop := k = OBSERVATION \/ k = GRADE.

(** Emitting one message per element and reading nothing. *)
Lemma runs_for_each {A} (f : A -> L unit) (P : Msg -> Prop) l : forall s u s',
  (forall x s u s', runs (f x) s u s' -> exists ms, s' = said ms s /\ Forall P ms) ->
  runs (for_each f l) s u s' -> exists ms, s' = said ms s /\ Forall P ms.
Proof.
  induction l as [|x l IH]; intros s u s' Hf; simpl.
  - intros [_ ->]%runs_ret. exists []. by rewrite said_nil.
  - intros (v & s1 & H1 & H2)%runs_bind.
    destruct (Hf _ _ _ _ H1) as (ms & -> & Hms).
    destruct (IH _ _ _ Hf H2) as (ms' & -> & Hms').
    exists (ms ++ ms'). rewrite said_app. split; [done|by apply Forall_app_2].
Qed.

Section Evolution.
Context `{Libm} `{PyRandom}.

Lemma learn_runs l obs l' :
  runs learn l obs l' ->
  exists md log, metadata (lp_importance l) = Ok md /\
    Learning.observe (lp_learning l) md = Ok obs /\
    l' = said log l /\ Forall (fun x => learning_kind (m_kind x)) log.
Proof.
  unfold learn. intros (? & ? & [-> ->]%runs_gets & Hs)%runs_bind. unfold id in Hs.
  apply runs_bind in Hs as (md & ? & [Em ->]%runs_lift & Hs).
  apply runs_bind in Hs as (os & ? & [Eo ->]%runs_lift & Hs).
  apply runs_bind in Hs as (? & s1 & H1 & Hs). apply runs_bind in Hs as (? & s2 & H2 & Hs).
  apply runs_ret in Hs as [-> ->].
  apply (runs_for_each _ (fun x => learning_kind (m_kind x))) in H1 as (ms & -> & Hms).
  2:{ intros y s u s' ->%runs_emitL. eexists. split; [reflexivity|]. by repeat constructor. }
  apply (runs_for_each _ (fun x => learning_kind (m_kind x))) in H2 as (ms' & -> & Hms').
  2:{ intros y s u s' (card & ? & [_ ->]%runs_lift & ->%runs_emitL)%runs_bind.
      eexists. split; [reflexivity|]. constructor; [by right|constructor]. }
  exists md, (ms ++ ms'). rewrite said_app. split_and!; [done..|]. by apply Forall_app_2.
Qed.

(** The evidence trail of a judged proposal. *)
Definition judged_log (a : EvolveArgs) (b : Bundle) : list Msg :=
  let p := bu_proposal b in
  let v := bu_verdict b in
  let say k d := msg k d "" SOURCE_GITOPS "" in
  [say BACKTEST_RESULT (result_payload p (bu_in_sample b) (bu_out_sample b) (bu_walk_forward b));
   say CHALLENGER_VERDICT (dset "proposal_id" (VStr (proposal_id p)) (verdict_as_dict v));
   say GRADE (proposal_card_as_dict (bu_grade b))]
  ++ match bu_pull_request b with
     | Some pr => [say PR_REQUEST (plan_as_dict pr)]
     | None => []
     end.

(** How a bundle follows from the configuration and the statistics it was judged with. *)
Record justified (a : EvolveArgs) (l : CognitiveLoop) (b : Bundle) : Prop := {
  j_backtests : judge a (lp_config l) (bu_candidate b)
                = Ok (bu_in_sample b, bu_out_sample b, bu_walk_forward b);
  j_verdict : exists e,
    evidence_of (bu_proposal b) (lp_importance l) (bu_in_sample b) (bu_out_sample b)
      (bu_walk_forward b) = Ok e /\ bu_verdict b = review e default_limits;
  j_pull_request : bu_pull_request b =
    if v_approved (bu_verdict b)
    then Some (build_pull_request (bu_proposal b) (bu_verdict b) (bu_in_sample b)
                 (bu_out_sample b) (lp_config l) (bu_candidate b) (ev_base_ref a))
    else None;
}.

Definition same_stream (l l' : CognitiveLoop) : Prop := lp_stream l' = lp_stream l.

Lemma runs_quiet {A} (m : L A) l x l' : tracks same_stream m -> runs m l x l' -> lp_stream l' = lp_stream l.
Proof. intros Hm E. specialize (Hm l). unfold runs in E. by rewrite E in Hm. Qed.

Lemma quiet_modify (f : CognitiveLoop -> CognitiveLoop) :
  (forall l, lp_stream (f l) = lp_stream l) -> tracks same_stream (modify f).
Proof. intros Hf l. apply Hf. Qed.

Lemma runs_frame {A} (m : L A) l x l' : tracks frame m -> runs m l x l' -> frame l l'.
Proof. intros Hm E. specialize (Hm l). unfold runs in E. by rewrite E in Hm. Qed.

Lemma frame_config l l' : frame l l' -> lp_config l' = lp_config l.
Proof. unfold frame, fixed_part. intros E. by simplify_eq. Qed.

Lemma queue_update_stream pid cs l : lp_stream (set_queue (q_update pid cs (lp_queue l)) l) = lp_stream l.
Proof. by destruct l. Qed.

Lemma conclude_runs a p v ins outs card c l pr l' :
  runs (conclude a p v ins outs card c) l pr l' ->
  pr = (if v_approved v
        then Some (build_pull_request p v ins outs (lp_config l) c (ev_base_ref a)) else None) /\
  lp_stream l' = posts match pr with
                       | Some q => [msg PR_REQUEST (plan_as_dict q) "" SOURCE_GITOPS ""]
                       | None => []
                       end (lp_stream l).
Proof.
  unfold conclude. intros (? & ? & [-> ->]%runs_gets & Hs)%runs_bind.
  destruct (v_approved v).
  - apply runs_bind in Hs as (? & ? & ->%runs_emitL & Hs).
    apply runs_bind in Hs as (? & ? & Hq & Hs). apply runs_ret in Hs as [-> ->].
    unfold queue_update in Hq. apply runs_modify in Hq as ->.
    split; [done|]. by rewrite queue_update_stream, said_stream.
  - apply runs_bind in Hs as (? & ? & Hq & Hs). apply runs_ret in Hs as [-> ->].
    unfold queue_update in Hq. apply runs_modify in Hq as ->.
    split; [done|]. by rewrite queue_update_stream.
Qed.

Lemma judge_runs a p c l r l' :
  runs (judge_candidate a p c) l r l' ->
  exists b, r = Judged b /\ bu_proposal b = p /\ bu_candidate b = c /\ justified a l b /\
    lp_stream l' = posts (judged_log a b) (lp_stream l).
Proof.
  unfold judge_candidate. intros (? & ? & [-> ->]%runs_gets & Hs)%runs_bind. unfold id in Hs.
  apply runs_bind in Hs as ([[ins outs] wf] & ? & [Ej ->]%runs_lift & Hs). cbv beta iota in Hs.
  apply runs_bind in Hs as (? & ? & ->%runs_emitL & Hs).
  apply runs_bind in Hs as (e & ? & [Ee ->]%runs_lift & Hs).
  apply runs_bind in Hs as (? & ? & ->%runs_emitL & Hs).
  apply runs_bind in Hs as (? & ? & ->%runs_emitL & Hs).
  rewrite <- !said_app in Hs.
  apply runs_bind in Hs as (? & s1 & Hq1 & Hs). apply runs_bind in Hs as (? & s2 & Hq2 & Hs).
  pose proof (runs_frame _ _ _ _ (frame_record_score _ _) Hq1) as F1%frame_config.
  pose proof (runs_frame _ _ _ _ (frame_record_outcome _ _) Hq2) as F2%frame_config.
  apply runs_quiet in Hq1; [|apply quiet_modify; by intros []].
  apply runs_quiet in Hq2; [|apply quiet_modify; by intros []].
  apply runs_bind in Hs as (pr & s3 & (Epr & Es)%conclude_runs & Hs).
  apply runs_ret in Hs as [-> ->]. eexists. split; [reflexivity|].
  split; [reflexivity|]. split; [reflexivity|]. split.
  - split; cbn [bu_candidate bu_in_sample bu_out_sample bu_walk_forward bu_proposal bu_verdict
      bu_pull_request]; [exact Ej|by exists e|].
    rewrite Epr, F2, F1. by rewrite (frame_config _ _ (frame_said _ l)).
  - rewrite Es, Hq2, Hq1, said_stream, <- posts_app. reflexivity.
Qed.

(** What each outcome puts on the stream after the learning events. *)
Definition outcome_log (a : EvolveArgs) (r : EvolveResult) : list Msg :=
  match r with
  | Blocked p _ | Rejected p => [msg PROPOSAL (proposal_as_dict p) "" PROPOSAL_AGENT ""]
  | Judged b => msg PROPOSAL (proposal_as_dict (bu_proposal b)) "" PROPOSAL_AGENT "" :: judged_log a b
  end.

(** What a judged outcome rests on. *)
Definition outcome_ok (a : EvolveArgs) (l : CognitiveLoop) (r : EvolveResult) : Prop :=
  match r with
  | Judged b =>
      apply_proposal_to_config (lp_config l) (bu_proposal b) = Ok (Some (bu_candidate b)) /\
      justified a l b
  | _ => True
  end.

Lemma set_governor_stream g l : lp_stream (set_governor g l) = lp_stream l.
Proof. by destruct l. Qed.

Lemma set_governor_importance g l : lp_importance (set_governor g l) = lp_importance l.
Proof. by destruct l. Qed.

Lemma queue_add_same p s l x l' :
  runs (queue_add p s) l x l' ->
  lp_stream l' = lp_stream l /\ lp_importance l' = lp_importance l /\ lp_config l' = lp_config l.
Proof. unfold queue_add. intros ->%runs_modify. by destruct l. Qed.

Lemma queue_update_same pid cs l x l' : runs (queue_update pid cs) l x l' -> lp_stream l' = lp_stream l.
Proof. unfold queue_update. intros ->%runs_modify. by destruct l. Qed.

Lemma justified_same a l l' b :
  lp_config l' = lp_config l -> lp_importance l' = lp_importance l -> justified a l' b -> justified a l b.
Proof. intros E1 E2 [H1 H2 H3]. rewrite E1 in H1, H3. rewrite E2 in H2. by split. Qed.

(** The proposal an outcome is about. *)
Definition proposal_of (r : EvolveResult) : Proposal :=
  match r with Blocked p _ | Rejected p => p | Judged b => bu_proposal b end.

Lemma consider_runs a p l r l' :
  runs (consider a p) l r l' ->
  outcome_ok a l r /\ proposal_of r = p /\
  lp_stream l' = posts (tail (outcome_log a r)) (lp_stream l).
Proof.
  unfold consider. intros (? & ? & [-> ->]%runs_gets & Hs)%runs_bind. unfold id in Hs.
  apply runs_bind in Hs as ([[ok why] g] & ? & [Ea ->]%runs_lift & Hs). cbv beta iota in Hs.
  apply runs_bind in Hs as (? & ? & ->%runs_modify & Hs). destruct ok; cbn [negb] in Hs.
  - apply runs_bind in Hs as (? & s1 & (E1 & E2 & E3)%queue_add_same & Hs).
    apply runs_bind in Hs as (c & ? & [Ec ->]%runs_lift & Hs).
    rewrite set_governor_stream in E1. rewrite set_governor_importance in E2.
    assert (lp_config s1 = lp_config l) as E3' by (rewrite E3; by destruct l). clear E3.
    destruct c as [c|].
    + apply judge_runs in Hs as (b & -> & <- & <- & Hj & Es). split; [split; [done|]|].
      * by apply (justified_same a l s1).
      * split; [done|]. by rewrite Es, E1.
    + unfold reject_proposal in Hs. apply runs_bind in Hs as (? & s2 & ->%runs_modify & Hs).
      apply runs_bind in Hs as (? & s3 & Eq%queue_update_same & Hs). apply runs_ret in Hs as [-> ->].
      split; [done|]. split; [done|]. by rewrite Eq, set_governor_stream.
  - unfold block_proposal in Hs. apply runs_bind in Hs as (? & s1 & (E1 & _)%queue_add_same & Hs).
    apply runs_bind in Hs as (? & s2 & Eq%queue_update_same & Hs). apply runs_ret in Hs as [-> ->].
    split; [done|]. split; [done|]. by rewrite Eq, E1, set_governor_stream.
Qed.

Lemma said_config ms l : lp_config (said ms l) = lp_config l.
Proof. by destruct l. Qed.

Lemma said_importance ms l : lp_importance (said ms l) = lp_importance l.
Proof. by destruct l. Qed.

Lemma evolve_runs a l o l' :
  runs (evolve a) l o l' ->
  exists learned, Forall (fun x => learning_kind (m_kind x)) learned /\
  match o with
  | None => l' = said learned l
  | Some r => outcome_ok a l r /\ lp_stream l' = posts (learned ++ outcome_log a r) (lp_stream l)
  end.
Proof.
  unfold evolve. intros (obs & ? & (md & log & _ & _ & -> & Hlog)%learn_runs & Hs)%runs_bind.
  apply runs_bind in Hs as (? & ? & [-> ->]%runs_gets & Hs). unfold id in Hs.
  apply runs_bind in Hs as (ag & ? & [_ ->]%runs_lift & Hs).
  apply runs_bind in Hs as (op & ? & [_ ->]%runs_lift & Hs).
  exists log. split; [done|]. destruct op as [p|].
  - apply runs_bind in Hs as (? & ? & ->%runs_modify & Hs).
    apply runs_bind in Hs as (r & s1 & Hc & Hs). apply runs_ret in Hs as [-> ->].
    change (set_stream (emit_proposal p "" (lp_stream (said log l))) (said log l))
      with (said [msg PROPOSAL (proposal_as_dict p) "" PROPOSAL_AGENT ""] (said log l)) in Hc.
    apply consider_runs in Hc as (Ho & Ep & Es). rewrite <- said_app in Ho, Es. split.
    + destruct r as [| |b]; try done. destruct Ho as [Ha Hj]. rewrite said_config in Ha.
      split; [done|]. eapply justified_same; [..|exact Hj]; [apply said_config|apply said_importance].
    + rewrite Es, said_stream, <- posts_app, <- app_assoc. do 2 f_equal.
      destruct r; simpl in Ep; by subst p.
  - by apply runs_ret in Hs as [-> ->].
Qed.

End Evolution.

Definition kinds_of (o : option EvolveResult) : list EventType :=
  match o with
  | None => []
  | Some (Blocked _ _) | Some (Rejected _) => [PROPOSAL]
  | Some (Judged b) =>
      [PROPOSAL; BACKTEST_RESULT; CHALLENGER_VERDICT; GRADE]
      ++ (if v_approved (bu_verdict b) then [PR_REQUEST] else [])
  end.

(** C37: One evolution cycle puts the learning events on the stream, then nothing, a bare
    proposal (blocked or inapplicable) or the full evidence trail of a judged one: the
    backtest result, the verdict, the grade, and a pull request exactly when the verdict
    approves. It never changes the configuration. *)
Theorem evolve_protocol `{Libm} `{PyRandom} a l o l' :
  evolve a l = (Ok o, l') ->
  lp_config l' = lp_config l /\
  exists learned log,
    lp_stream l' = posts (learned ++ log) (lp_stream l) /\
    Forall (fun x => learning_kind (m_kind x)) learned /\
    map m_kind log = kinds_of o.
Proof.
  intros E. split; [by apply frame_config, (runs_frame _ _ _ _ (frame_evolve a) E)|].
  apply evolve_runs in E as (learned & Hl & Ho). exists learned. destruct o as [r|].
  - destruct Ho as [Ho Es]. exists (outcome_log a r). split; [done|]. split; [done|].
    destruct r as [| |b]; try done. destruct Ho as [_ [_ _ Epr]].
    unfold outcome_log, judged_log, kinds_of. rewrite Epr. by destruct (v_approved _).
  - subst l'. exists []. rewrite said_stream, app_nil_r. done.
Qed.

(** C36: A judged candidate is a safe next version of the running configuration, judged on
    the three paired backtests; it gets a pull request exactly when the verdict approves,
    and then it out-performs the running configuration on the held-out prices without
    adding more than the tolerated drawdown, holds up in the required share of the
    walk-forward folds, and has enough learning samples and trades behind it. *)
Theorem judged_evidence `{Libm} `{PyRandom} a l b l' :
  safe (lp_config l) ->
  evolve a l = (Ok (Some (Judged b)), l') ->
  safe (bu_candidate b) /\ version (bu_candidate b) = version (lp_config l) + 1 /\
  judge a (lp_config l) (bu_candidate b)
    = Ok (bu_in_sample b, bu_out_sample b, bu_walk_forward b) /\
  match bu_pull_request b with
  | None => v_approved (bu_verdict b) = false
  | Some pr =>
      v_approved (bu_verdict b) = true /\
      config_before pr = to_dict (lp_config l) /\ config_after pr = to_dict (bu_candidate b) /\
      fltb 0.0%F (pnl_delta (bu_out_sample b)) = true /\
      fleb (drawdown_delta (bu_out_sample b)) DRAWDOWN_TOLERANCE_PCT = true /\
      fleb MIN_WALK_FORWARD_CONSISTENCY (consistency (bu_walk_forward b)) = true /\
      MIN_TRADES <= trades (d_candidate (bu_out_sample b)) /\
      exists n, learning_samples_of (lp_importance l) (last_part (target (bu_proposal b))) = Ok n /\
        MIN_LEARNING_SAMPLES <= n
  end.
Proof.
  intros Hc (learned & _ & [Ha [Hj (e & Ee & Ev) Epr]] & _)%evolve_runs.
  apply apply_inv in Ha as [Ha Hs]; [|by apply safe_keys].
  split; [exact Hs|]. split; [by destruct Ha|]. split; [exact Hj|].
  rewrite Epr. destruct (v_approved (bu_verdict b)) eqn:Eap; [|done].
  do 3 (split; [reflexivity|]). rewrite Ev in Eap.
  apply approved_all in Eap as (H1 & H2 & H3 & _ & H5 & _ & H7 & H8).
  unfold evidence_of in Ee. inv_ok Ee. subst e.
  cbn [learning_samples out_sample walk_forward_consistency] in H1, H2, H3, H5, H7, H8.
  do 3 (split; [assumption|]). split; [exact H2|]. eexists. by split.
Qed.

(** * A fresh loop, and the witnesses *)

Lemma init_default `{Libm} c file st cap :
  exists l, init (Some c) file st None cap = Ok l /\
    wired l default_news default_tech default_macro default_risk /\
    lp_config l = c /\ lp_importance l = tracker_init /\
    lp_stream l = posts [msg CONFIG_VERSION (config_version_payload c None) "" SOURCE_MERGE ""]
                    (stream_or st cap).
Proof. eexists. split; [reflexivity|]. by repeat split. Qed.

Section EvolveWitness.
#[local] Existing Instance libm_clamp.
#[local] Existing Instance constant_half.

Lemma step_protocol_witness :
  exists l s l', init (Some DEFAULT_CONFIG) NoFile None None 100 = Ok l /\
    step sample_market 1000.0%F 0.1%F 0.0%F 0.0%F None l = (Ok s, l') /\
    sr_decision s = decide (sr_features s) (lp_config l).
Proof.
  destruct (init_default DEFAULT_CONFIG NoFile None 100) as (l & E & W & _).
  assert (Forall price_ok (history sample_market)) as Hp
    by (repeat (apply Forall_cons; split; [split; fconst|]); by apply Forall_nil).
  destruct (default_signals_total _ Hp) as (pn & pt & pm & pr & fs & H1 & H2 & H3 & H4 & H5).
  destruct (step_goes sample_market 1000.0%F 0.1%F 0.0%F 0.0%F None l _ _ _ _ pn pt pm pr fs W H1 H2 H3 H4 H5)
    as (s & l' & Hs).
  exists l, s, l'. split; [exact E|]. split; [exact Hs|].
  destruct (step_protocol _ _ _ _ _ _ _ _ _ _ _ _ _ W Hs) as (_ & _ & _ & _ & Hd & _). exact Hd.
Defined.

Lemma step_total_witness :
  exists l s l', init (Some DEFAULT_CONFIG) NoFile None None 100 = Ok l /\
    step sample_market 1000.0%F 0.1%F 0.0%F 0.0%F (Some "t1"%string) l = (Ok s, l').
Proof.
  destruct (init_default DEFAULT_CONFIG NoFile None 100) as (l & E & W & _).
  destruct (step_total sample_market 1000.0%F 0.1%F 0.0%F 0.0%F (Some "t1"%string) l W)
    as (s & l' & Hs).
  { repeat (apply Forall_cons; split; [split; fconst|]). by apply Forall_nil. }
  exists l, s, l'. by split.
Defined.

(** A session in which news was right in thirty trades. *)
Definition seasoned : ImportanceTracker :=
  [("news", {| samples := 30; abs_contribution := 9.0%F; pnl := 60.0%F; correct := 30 |});
   ("tech", empty_acc); ("macro", empty_acc)].

Definition seasoned_loop : res CognitiveLoop :=
  let* l := init (Some DEFAULT_CONFIG) NoFile None None 100 in Ok (set_importance seasoned l).

Definition no_prices : EvolveArgs :=
  {| ev_prices := []; ev_split := 0.5%F; ev_seed := 0; ev_base_ref := "main"; ev_news := None;
     ev_folds := 4 |}.

Definition seasoned_run : res (CognitiveLoop * Bundle * CognitiveLoop) :=
  let* l := seasoned_loop in
  match evolve no_prices l with
  | (Ok (Some (Judged b)), l') => Ok (l, b, l')
  | _ => Raise ValueError
  end.

Lemma seasoned_run_ok : exists l b l',
  seasoned_loop = Ok l /\ lp_config l = DEFAULT_CONFIG /\
  evolve no_prices l = (Ok (Some (Judged b)), l') /\ v_approved (bu_verdict b) = false.
Proof.
  destruct (ok_with_inv (fun x => negb (v_approved (bu_verdict (snd (fst x))))) seasoned_run
    ltac:(vm_compute; reflexivity)) as ([[l b] l'] & E & Hv).
  unfold seasoned_run in E. apply res_bind_Ok in E as (l0 & El & E).
  destruct (evolve no_prices l0) as [[[[| |b0]|]|] l1] eqn:Ee; try discriminate E.
  apply Ok_inj in E. injection E as -> -> ->. exists l, b, l'.
  split; [exact El|]. split; [|split; [exact Ee|by apply negb_true_iff in Hv]].
  unfold seasoned_loop in El. apply res_bind_Ok in El as (l2 & E2 & E3).
  apply Ok_inj in E3 as <-. destruct (init_default DEFAULT_CONFIG NoFile None 100) as (l3 & E3 & _ & Hc & _).
  rewrite E3 in E2. apply Ok_inj in E2 as <-. rewrite <- Hc. by destruct l3.
Qed.

Lemma evolve_protocol_witness :
  exists l b l' learned log, seasoned_loop = Ok l /\ evolve no_prices l = (Ok (Some (Judged b)), l') /\
    lp_stream l' = posts (learned ++ log) (lp_stream l) /\
    map m_kind log = [PROPOSAL; BACKTEST_RESULT; CHALLENGER_VERDICT; GRADE].
Proof.
  destruct seasoned_run_ok as (l & b & l' & E1 & _ & E2 & Hv).
  destruct (evolve_protocol no_prices l _ l' E2) as (_ & learned & log & Es & _ & Hk).
  exists l, b, l', learned, log. split; [exact E1|]. split; [exact E2|]. split; [exact Es|].
  rewrite Hk. unfold kinds_of. by rewrite Hv.
Defined.

Lemma judged_evidence_witness :
  exists l b l', evolve no_prices l = (Ok (Some (Judged b)), l') /\
    safe (bu_candidate b) /\ version (bu_candidate b) = 2.
Proof.
  destruct seasoned_run_ok as (l & b & l' & E1 & Hc & E2 & Hv).
  assert (safe (lp_config l)) as Hs by (rewrite Hc; exact default_config_safe).
  destruct (judged_evidence no_prices l b l' Hs E2) as (H1 & H2 & _).
  exists l, b, l'. split; [exact E2|]. split; [exact H1|]. rewrite H2, Hc. reflexivity.
Defined.

End EvolveWitness.
