(* ===== verification/LoopInv.v ===== *)
(** LoopInv: invariants of every loop reached from a fresh one by any sequence of calls,
    the raising ones included. *)
From S2P Require Import Prelude StateErr PyFloat FloatFacts PyVal PyMath PyRandom Events.
From S2P Require Import Config Agents Decision Grading Learning Drift Proposal Governance.
From S2P Require Import Gate Challenger Gitops Observe Registry Loop LoopFacts.
Import Stream (Msg, Build_Msg, m_kind, m_payload, m_trace, m_source, m_ts, post, posts, stamp,
  stamps, keep, posts_app, posts_max, posts_ok, posts_events, stamps_length).

(** * Well-formed messages *)

(** What [close_trade] reads back from a decision event. *)
Definition decision_ok (p : payload) : Prop :=
  exists bd x v, dget "breakdown" p = Some (VDict (vfloat_dict bd)) /\
    dget "score" p = Some (VFloat x) /\ dget "config_version" p = Some (VInt v).

Definition fine_msg (m : Msg) : Prop :=
  m_kind m <> TRADE_OUTCOME /\ (m_kind m = DECISION -> decision_ok (m_payload m)).

Lemma lineage_ok l d : decision_ok (with_lineage l (decision_as_dict d)).
Proof. eexists (breakdown d), (score d), _. split_and!; reflexivity. Qed.

Lemma fine_decision l d tid src t : fine_msg (msg DECISION (with_lineage l (decision_as_dict d)) tid src t).
Proof. split; [done|]. intros _. apply lineage_ok. Qed.

(** Only well-formed messages are emitted and the statistics are untouched. *)
Definition talks (l l' : CognitiveLoop) : Prop :=
  (exists ms, lp_stream l' = posts ms (lp_stream l) /\ Forall fine_msg ms) /\
  lp_importance l' = lp_importance l.

#[global] Instance talks_preorder : PreOrder talks.
Proof.
  split.
  - intros l. split; [|done]. by exists [].
  - intros l1 l2 l3 [(ms & E & H) Ei] [(ms' & E' & H') Ei']. split; [|congruence].
    exists (ms ++ ms'). rewrite posts_app, <- E. split; [done|]. by apply Forall_app_2.
Qed.

Lemma talks_set_stream ms l : Forall fine_msg ms -> talks l (set_stream (posts ms (lp_stream l)) l).
Proof. intros Hm. split; [|by destruct l]. exists ms. by rewrite set_stream_stream. Qed.

Lemma talks_emitL k p tid src t :
  fine_msg (msg k p tid src t) -> tracks talks (emitL k p tid src t).
Proof. intros Hm. apply tracks_modify. intros l. by apply (talks_set_stream [msg k p tid src t]); constructor. Qed.

Lemma talks_proposal p tid :
  tracks talks (modify (fun l => set_stream (emit_proposal p tid (lp_stream l)) l)).
Proof.
  apply tracks_modify. intros l.
  apply (talks_set_stream [msg PROPOSAL (proposal_as_dict p) tid PROPOSAL_AGENT ""]).
  by repeat constructor.
Qed.

Lemma talks_on_stream {A} (f : EventStream -> res (A * EventStream)) :
  (forall st a st', f st = Ok (a, st') -> exists m, st' = post m st /\ fine_msg m) ->
  tracks talks (on_stream f).
Proof.
  intros Hf l. unfold on_stream. destruct (f (lp_stream l)) as [[a st]|e] eqn:E; [|done].
  destruct (Hf _ _ _ E) as (m & -> & Hm). apply (talks_set_stream [m]). by constructor.
Qed.

Lemma talks_signal a m tid : tracks talks (on_stream (signal_emit a m tid)).
Proof.
  apply talks_on_stream. intros st p st' Hs.
  assert (exists k name, k <> TRADE_OUTCOME /\ k <> DECISION /\
    st' = post (msg k p tid name (mv_ts m)) st) as (k & name & H1 & H2 & ->).
  { destruct a; try done; simpl in Hs; unfold emit_news, emit_tech, emit_macro, emit_risk, emit_signal in Hs;
      apply res_bind_Ok in Hs as (q & _ & [= -> <-]);
      (eexists _, _; split_and!; [| |reflexivity]; done). }
  eexists. split; [reflexivity|]. by split.
Qed.

Lemma talks_reasoning a fs tid t : tracks talks (on_stream (reasoning_emit a fs tid t)).
Proof.
  apply talks_on_stream. intros st p st' Hs. destruct a; try done. simpl in Hs.
  apply Ok_pair_inj in Hs as [_ <-].
  exists (msg REASONING (analyze_reasoning fs) tid REASONING_AGENT t). done.
Qed.

Lemma talks_modify (f : CognitiveLoop -> CognitiveLoop) :
  (forall l, lp_stream (f l) = lp_stream l /\ lp_importance (f l) = lp_importance l) ->
  tracks talks (modify f).
Proof. intros Hf. apply tracks_modify. intros l. destruct (Hf l). split; [|done]. by exists []. Qed.

Lemma talks_queue_add p s : tracks talks (queue_add p s).
Proof. apply talks_modify. by intros []. Qed.
Lemma talks_queue_update pid cs : tracks talks (queue_update pid cs).
Proof. apply talks_modify. by intros []. Qed.
Lemma talks_record_outcome p b : tracks talks (record_outcomeL p b).
Proof. apply talks_modify. by intros []. Qed.
Lemma talks_record_score t b : tracks talks (record_score t b).
Proof. apply talks_modify. by intros []. Qed.
Lemma talks_set_governor g : tracks talks (modify (set_governor g)).
Proof. apply talks_modify. by intros []. Qed.
Lemma talks_set_config c pid : tracks talks (modify (set_config c pid)).
Proof. apply talks_modify. by intros []. Qed.

#[export] Hint Extern 1 (fine_msg _) => first [apply fine_decision | done] : tracks.
#[export] Hint Resolve talks_emitL talks_proposal talks_signal talks_reasoning talks_queue_add
  talks_queue_update talks_record_outcome talks_record_score talks_set_governor talks_set_config
  : tracks.

Section Talks.
Context `{Libm} `{PyRandom}.

Lemma talks_step m eq pos ex pnl tid : tracks talks (step m eq pos ex pnl tid).
Proof. unfold step. tracks. Qed.

Lemma talks_detect_drift : tracks talks detect_drift.
Proof. unfold detect_drift. tracks. Qed.

Lemma talks_learn : tracks talks learn.
Proof. unfold learn. tracks. Qed.

Lemma talks_consider a p : tracks talks (consider a p).
Proof. unfold consider, block_proposal, reject_proposal, judge_candidate, conclude. tracks. Qed.
#[local] Hint Resolve talks_learn talks_consider : tracks.

Lemma talks_evolve a : tracks talks (evolve a).
Proof. unfold evolve. tracks. Qed.

Lemma talks_merge c sh dd pid : tracks talks (merge c sh dd pid).
Proof. unfold merge, _emit_config_version. tracks. Qed.

End Talks.

(** * The invariant *)

Definition event_ok (e : Event) : Prop := kind e = DECISION -> decision_ok (ev_payload e).

Definition is_outcome (e : Event) : bool := Stream.has_kind TRADE_OUTCOME e.

(** From any point on, every closed trade has its grade. *)
Definition graded (l : list Event) : Prop :=
  forall n, count_if is_outcome (drop n l) <= count_if is_trade_grade (drop n l).

Record good (l : CognitiveLoop) : Prop := {
  g_stream : Stream.ok (lp_stream l);
  g_decisions : Forall event_ok (es_events (lp_stream l));
  g_graded : graded (es_events (lp_stream l));
  g_tracker : exists n, 0 <= n /\ tracker_ok n (lp_importance l);
}.

Lemma keep_drop {A} cap (l : list A) : exists n, keep cap l = drop n l.
Proof. destruct cap as [m|]; [by eexists|by exists 0%nat]. Qed.

Lemma Forall_keep {A} (P : A -> Prop) cap l : Forall P l -> Forall P (keep cap l).
Proof. intros Hl. destruct (keep_drop cap l) as [n ->]. by apply Forall_drop. Qed.

Lemma graded_keep cap l : graded l -> graded (keep cap l).
Proof. intros Hl n. destruct (keep_drop cap l) as [m ->]. rewrite drop_drop. apply Hl. Qed.

Lemma graded_app l1 l2 : graded l1 -> graded l2 -> graded (l1 ++ l2).
Proof.
  intros H1 H2 n. rewrite drop_app, !count_if_app. specialize (H1 n).
  specialize (H2 (n - length l1)%nat). lia.
Qed.

Lemma count_if_nonneg f l : 0 <= count_if f l.
Proof. unfold count_if, zlen. lia. Qed.

Lemma count_if_none f l : Forall (fun e => f e = false) l -> count_if f l = 0.
Proof.
  unfold count_if. induction 1 as [|e l He _ IH]; [done|]. simpl. by rewrite He.
Qed.

Lemma graded_quiet l : Forall (fun e => is_outcome e = false) l -> graded l.
Proof.
  intros Hl n. rewrite (count_if_none is_outcome) by by apply Forall_drop. apply count_if_nonneg.
Qed.

Lemma stamps_Forall (P : Event -> Prop) ms : forall i,
  Forall (fun m => forall i, P (stamp i m)) ms -> Forall P (stamps i ms).
Proof.
  induction ms as [|m ms IH]; intros i Hms; simpl; constructor; apply Forall_cons in Hms as [Hm Hms]; auto.
Qed.

(** Emitting a graded batch of events preserves the invariant. *)
Lemma good_posts ms l l' :
  good l -> lp_stream l' = posts ms (lp_stream l) ->
  Forall (fun m => m_kind m = DECISION -> decision_ok (m_payload m)) ms ->
  (forall i, graded (stamps i ms)) ->
  (exists n, 0 <= n /\ tracker_ok n (lp_importance l')) -> good l'.
Proof.
  intros [Hs Hd Hg _] E Hms Hgr Ht. split; [..|exact Ht]; rewrite E.
  - by apply posts_ok.
  - rewrite posts_events by done. apply Forall_keep, Forall_app_2; [done|].
    apply stamps_Forall. eapply Forall_impl; [exact Hms|]. intros m Hm i. exact Hm.
  - rewrite posts_events by done. apply graded_keep, graded_app; [done|apply Hgr].
Qed.

Lemma good_talks l l' : good l -> talks l l' -> good l'.
Proof.
  intros Hl [(ms & E & Hms) Ei]. apply (good_posts ms l); [done|done|..].
  - eapply Forall_impl; [exact Hms|]. by intros m [].
  - intros i. apply graded_quiet, stamps_Forall. eapply Forall_impl; [exact Hms|].
    intros m [Hm _] j. unfold is_outcome, Stream.has_kind. by rewrite bool_decide_eq_false.
  - rewrite Ei. by destruct Hl.
Qed.

(** * Closing a trade never raises *)

Lemma decision_for_ok tid st p :
  Forall event_ok (es_events st) -> _decision_for tid st = Some p -> decision_ok p.
Proof.
  unfold _decision_for. intros Hst (e & He & ->)%fmap_Some_1.
  apply List.find_some in He as [Hin Hk]. unfold is_decision_of, Stream.has_kind in Hk.
  apply andb_true_iff in Hk as [Hk%bool_decide_eq_true_1 _].
  rewrite Forall_forall in Hst. apply Hst; [|done].
  apply list_elem_of_In. by apply in_rev.
Qed.

Lemma dget_vfloats k bd : dget k (vfloat_dict bd) = VFloat <$> dget k bd.
Proof. induction bd as [|[k' x] bd IH]; simpl; [done|]. by destruct (String.eqb k k'). Qed.

Lemma pfloat_vfloats k bd : pfloat (vfloat_dict bd) k 0.0%F = Ok (dget_or k 0.0%F bd).
Proof. unfold pfloat, dget_or. rewrite dget_vfloats. by destruct (dget k bd). Qed.

Lemma attribute_vfloats bd x : exists a, attribute (vfloat_dict bd) x = Ok a /\ full a.
Proof.
  unfold attribute, WEIGHT_KEYS. cbn [res_list]. rewrite !pfloat_vfloats. cbn [res_bind].
  set (cs := [("news", _); ("tech", _); ("macro", _)]).
  assert (dkeys (shares_of cs) = WEIGHT_KEYS) as Hk by by apply shares_keys.
  destruct (three_of_keys _ Hk) as (s1 & s2 & s3 & ->).
  eexists. split; [reflexivity|]. split; reflexivity.
Qed.

(** The four events of a closed trade. *)
Definition close_log (tid : string) (t : TradeClose) (v : Z) (pid : val) (r : CloseResult)
  : list Msg :=
  [msg TRADE_OUTCOME (outcome_payload t v pid) tid SOURCE_EXECUTION "";
   msg ATTRIBUTION (attribution_as_dict (cr_attribution r)) tid SOURCE_LEARNING "";
   msg GRADE (trade_card_as_dict (cr_grade r)) tid SOURCE_LEARNING "";
   msg COUNTERFACTUAL (counterfactual_as_dict (cr_counterfactual r)) tid SOURCE_LEARNING ""].

Lemma close_log_graded tid t v pid r i : graded (stamps i (close_log tid t v pid r)).
Proof.
  intros n. destruct r. do 4 (destruct n as [|n]; [vm_compute; discriminate|]).
  rewrite drop_ge by (rewrite stamps_length; simpl; lia). done.
Qed.

(** What [close_trade] finds for a trace, in a loop whose decisions are well formed. *)
Lemma decision_entry tid l :
  Forall event_ok (es_events (lp_stream l)) ->
  let dp := match _decision_for tid (lp_stream l) with Some d => d | None => [] end in
  exists bd x v, py_dict (dget_or "breakdown" (VDict []) dp) = Ok (vfloat_dict bd) /\
    pfloat dp "score" 0.0%F = Ok x /\
    py_int (dget_or "config_version" (VInt (version (lp_config l))) dp) = Ok v.
Proof.
  intros He dp. destruct (_decision_for tid (lp_stream l)) as [p|] eqn:E; subst dp.
  - apply decision_for_ok in E as (bd & x & v & E1 & E2 & E3); [|done]. exists bd, x, v.
    unfold pfloat, dget_or. rewrite E1, E2, E3. done.
  - eexists [], _, _. split_and!; reflexivity.
Qed.

Section Close.
Context `{Libm}.

Lemma close_trade_goes tid t l :
  good l ->
  exists r v pid l', close_trade tid t l = (Ok r, l') /\
    lp_stream l' = posts (close_log tid t v pid r) (lp_stream l) /\
    realized_pnl (cr_attribution r) = py_round (tc_pnl t) 6 /\
    exists n, 0 <= n /\ tracker_ok n (lp_importance l').
Proof.
  intros [_ Hd _ (n & Hn & Ht)].
  destruct (decision_entry tid l Hd) as (bd & x & v & E1 & E2 & E3).
  unfold close_trade, bind, gets, id, lift. rewrite E1, E2, E3.
  destruct (attribute_vfloats bd (tc_pnl t)) as (a & Ea & Ha). rewrite Ea.
  assert (realized_pnl a = py_round (tc_pnl t) 6) as Hr.
  { unfold attribute in Ea. inv_ok Ea. by subst a. }
  destruct (tracker_update_ok n (lp_importance l) a (_sign (tc_pnl t)) Ht Ha) as (im & Ei & Hi).
  unfold emitL, modify. rewrite Ei. unfold ret.
  eexists _, v, _, _. split; [reflexivity|]. split.
  - rewrite !set_drift_stream, !set_stream_stream, !set_importance_stream, !set_stream_stream.
    unfold close_log, posts, post, msg.
    cbn [fold_left m_kind m_payload m_trace m_source m_ts cr_attribution cr_grade cr_counterfactual].
    reflexivity.
  - split; [exact Hr|]. exists (n + 1). split; [lia|].
    rewrite set_drift_importance, !set_stream_importance, set_importance_importance. exact Hi.
Qed.

Lemma good_close tid t l : good l -> good (snd (close_trade tid t l)).
Proof.
  intros Hl. destruct (close_trade_goes tid t l Hl) as (r & v & pid & l' & E & Es & _ & Ht).
  rewrite E. apply (good_posts _ _ _ Hl Es); [|intros; apply close_log_graded|done].
  by repeat constructor.
Qed.

End Close.

(** * Reachable loops *)

Section Reachable.
Context `{Libm} `{PyRandom}.

(** One call of a method other than [merge], raising or not. *)
Inductive work : CognitiveLoop -> CognitiveLoop -> Prop :=
| work_step m eq pos ex pnl tid l : work l (snd (step m eq pos ex pnl tid l))
| work_close tid t l : work l (snd (close_trade tid t l))
| work_drift l : work l (snd (detect_drift l))
| work_learn l : work l (snd (learn l))
| work_evolve a l : work l (snd (evolve a l)).

Inductive call : CognitiveLoop -> CognitiveLoop -> Prop :=
| call_work l l' : work l l' -> call l l'
| call_merge c sh dd pid l : call l (snd (merge c sh dd pid l)).

(** A loop built without a stream of its own, after any calls. *)
Definition reachable (l : CognitiveLoop) : Prop :=
  exists c f r cap l0, init c f None r cap = Ok l0 /\ rtc call l0 l.

Lemma init_good c f r cap l : init c f None r cap = Ok l -> good l.
Proof.
  unfold init. intros Hi. inv_ok Hi. subst l.
  match goal with |- good (snd (_ ?l0)) => set (l1 := l0) end.
  apply (good_talks l1).
  - split; [apply Stream.init_ok|constructor|intros n; destruct n; done|].
    exists 0. split; [done|apply tracker_init_ok].
  - change (talks l1 (snd (_emit_config_version None l1))).
    assert (tracks talks (_emit_config_version None)) as Ht by (unfold _emit_config_version; tracks).
    apply Ht.
Qed.

Lemma call_good l l' : call l l' -> good l -> good l'.
Proof.
  intros Hc Hl. destruct Hc as [l l' Hw|]; [|apply (good_talks l _ Hl), talks_merge].
  destruct Hw; [|by apply good_close|..]; apply (good_talks l _ Hl).
  - apply talks_step.
  - apply talks_detect_drift.
  - apply talks_learn.
  - apply talks_evolve.
Qed.

Lemma reachable_good l : reachable l -> good l.
Proof.
  intros (c & f & r & cap & l0 & Hi & Hr). apply init_good in Hi.
  induction Hr as [|l1 l2 l3 Hc _ IH]; [done|]. by apply IH, (call_good l1).
Qed.

End Reachable.

(** The ["ungraded"] entry of the health view. *)
Definition health_ungraded (st : EventStream) : option val :=
  match dget "learning" (assess_health st) with
  | Some (VDict d) => dget "ungraded" d
  | _ => None
  end.

(** In every loop reached by any calls, exceptions included, closing a trade never
    raises, whatever the trace id and the reported numbers are, and puts the outcome, its
    attribution, its grade and its counterfactual on the stream, in this order, under the
    trade's trace id. *)
Theorem close_trade_total `{Libm} `{PyRandom} l tid t :
  reachable l ->
  exists r l' log, close_trade tid t l = (Ok r, l') /\
    lp_stream l' = posts log (lp_stream l) /\
    map m_kind log = [TRADE_OUTCOME; ATTRIBUTION; GRADE; COUNTERFACTUAL] /\
    Forall (fun m => m_trace m = tid) log /\
    realized_pnl (cr_attribution r) = py_round (tc_pnl t) 6.
Proof.
  intros Hl%reachable_good.
  destruct (close_trade_goes tid t l Hl) as (r & v & pid & l' & E & Es & Er & _).
  exists r, l', (close_log tid t v pid r). split_and!; try done. by repeat constructor.
Qed.

(** The health view of a reachable loop never shows an ungraded trade: however many
    events the retention cap has dropped, every retained outcome still has its grade. *)
Theorem no_ungraded_trades `{Libm} `{PyRandom} l :
  reachable l -> health_ungraded (lp_stream l) = Some (VInt 0).
Proof.
  intros Hl%reachable_good. change (health_ungraded (lp_stream l))
    with (Some (VInt (ungraded (es_events (lp_stream l))))).
  unfold ungraded. rewrite by_type_count.
  pose proof (g_graded _ Hl 0%nat) as Hg. rewrite drop_0 in Hg.
  change is_outcome with (Stream.has_kind TRADE_OUTCOME) in Hg.
  do 2 f_equal. lia.
Qed.

(** * Complete traces *)

(** The payloads of a trace that a finished trade must show. *)
Definition trace_complete (tid : string) (st : EventStream) : Prop :=
  Forall (fun k => is_Some (_latest_payload (trace_events st tid) k))
    [NEWS_SIGNAL; TECH_SIGNAL; MACRO_SIGNAL; RISK_SIGNAL; FEATURES; REASONING; DECISION; RISK_GATE;
     EXECUTION; TRADE_OUTCOME; ATTRIBUTION; GRADE; COUNTERFACTUAL].

(** A batch that fits under the cap is retained whole. *)
Lemma keep_suffix {A} cap (l l' : list A) :
  (forall m, cap = Some m -> zlen l' <= m) -> exists pre, keep cap (l ++ l') = pre ++ l'.
Proof.
  intros Hc. destruct cap as [m|]; [|by exists l]. specialize (Hc m eq_refl). unfold zlen in Hc.
  simpl. rewrite drop_app, length_app.
  replace (length l + length l' - Z.to_nat m - length l)%nat with 0%nat by lia.
  rewrite drop_0. by eexists.
Qed.

(** A kind that occurs has a latest payload. *)
Lemma latest_is_Some l k e : e ∈ l -> kind e = k -> is_Some (_latest_payload l k).
Proof.
  intros He Hk. induction l as [|x l IH]; [by apply elem_of_nil in He|]. rewrite latest_cons.
  apply elem_of_cons in He as [<-|He].
  - unfold Stream.has_kind. rewrite bool_decide_eq_true_2 by done.
    destruct (_latest_payload l k); by eexists.
  - destruct (IH He) as [p ->]. by eexists.
Qed.

(** Nothing was dropped, so everything emitted is still there. *)
Lemma nothing_dropped ms st :
  Stream.ok st -> es_dropped (posts ms st) = 0 ->
  es_events (posts ms st) = es_events st ++ stamps (es_emitted st) ms.
Proof.
  intros Hst Hd. pose proof (posts_ok ms st Hst) as Hp.
  pose proof (Stream.ok_count _ Hp) as Hc. rewrite Hd, Stream.posts_emitted in Hc.
  pose proof (Stream.ok_count _ Hst) as Hc0. pose proof (Stream.ok_dropped _ Hst) as Hd0.
  rewrite posts_events in * by done.
  destruct (keep_drop (es_max_events st) (es_events st ++ stamps (es_emitted st) ms)) as [n E].
  rewrite E in *. unfold zlen in *. rewrite length_drop, length_app, stamps_length in Hc.
  destruct (Nat.eq_dec n 0%nat) as [->|]; [done|].
  rewrite (nil_length_inv (es_events st ++ stamps (es_emitted st) ms)); [by rewrite drop_nil|].
  rewrite length_app, stamps_length. lia.
Qed.

Lemma stamps_elem ms k tid : forall i,
  k ∈ map m_kind ms -> Forall (fun m => m_trace m = tid) ms ->
  exists e, e ∈ stamps i ms /\ kind e = k /\ in_trace tid e = true.
Proof.
  induction ms as [|m ms IH]; intros i Hk Hms; [by apply elem_of_nil in Hk|].
  apply Forall_cons in Hms as [Hm Hms]. simpl in Hk. apply elem_of_cons in Hk as [->|Hk].
  - exists (stamp i m). split; [apply list_elem_of_here|]. split; [done|].
    unfold in_trace. simpl. by rewrite Hm, String.eqb_refl.
  - destruct (IH (i + 1) Hk Hms) as (e & He & Hr). exists e. split; [by apply list_elem_of_further|done].
Qed.

(** A kind posted under a trace in any part of an undropped history shows in the trace. *)
Lemma posted_in_trace ms1 ms ms2 st k tid :
  Stream.ok st -> es_dropped (posts (ms1 ++ ms ++ ms2) st) = 0 ->
  k ∈ map m_kind ms -> Forall (fun m => m_trace m = tid) ms ->
  is_Some (_latest_payload (trace_events (posts (ms1 ++ ms ++ ms2) st) tid) k).
Proof.
  intros Hst Hd Hk Hms. unfold trace_events. rewrite nothing_dropped by done.
  rewrite !Stream.stamps_app.
  destruct (stamps_elem ms k tid (es_emitted st + zlen ms1) Hk Hms) as (e & He & Hek & Het).
  apply (latest_is_Some _ k e); [|done]. apply list_elem_of_In, List.filter_In.
  split; [|done]. apply list_elem_of_In. rewrite !elem_of_app. by right; right; left.
Qed.

Section Traces.
Context `{Libm} `{PyRandom}.

(** Every call only appends to the log. *)
Definition appends (l l' : CognitiveLoop) : Prop := exists ms, lp_stream l' = posts ms (lp_stream l).

Lemma talks_appends l l' : talks l l' -> appends l l'.
Proof. intros [(ms & E & _) _]. by exists ms. Qed.

Lemma call_appends l l' : good l -> call l l' -> appends l l'.
Proof.
  intros Hl Hc. destruct Hc as [l l' Hw|]; [|apply talks_appends, talks_merge].
  destruct Hw; [| |apply talks_appends..].
  - apply talks_appends, talks_step.
  - destruct (close_trade_goes tid t l Hl) as (r & v & pid & l' & E & Es & _). rewrite E. by eexists.
  - apply talks_detect_drift.
  - apply talks_learn.
  - apply talks_evolve.
Qed.

Lemma calls_append l l' : good l -> rtc call l l' -> appends l l' /\ good l'.
Proof.
  intros Hl Hr. induction Hr as [l|l1 l2 l3 Hc _ IH]; [split; [by exists []|done]|].
  destruct (call_appends _ _ Hl Hc) as [ms E]. destruct (IH (call_good _ _ Hc Hl)) as [[ms' E'] Hg].
  split; [|done]. exists (ms ++ ms'). by rewrite posts_app, <- E.
Qed.

End Traces.

(** C38: A trade that is opened by a forward pass and closed after any other calls has its
    whole chain in the trace view, from the four signals to the grade and the
    counterfactual, as long as the retention cap has not dropped events. *)
Theorem trace_chain_complete `{Libm} `{PyRandom} l m eq pos ex pnl tid sn stt sm sr s l1 l2 t :
  reachable l -> wired l sn stt sm sr ->
  step m eq pos ex pnl tid l = (Ok s, l1) -> rtc call l1 l2 ->
  let st := lp_stream (snd (close_trade (sr_trace_id s) t l2)) in
  es_dropped st = 0 -> trace_complete (sr_trace_id s) st.
Proof.
  intros Hl%reachable_good W Es Hc st Hd. subst st.
  assert (good l1) as G1.
  { pose proof (call_good l _ (call_work _ _ (work_step m eq pos ex pnl tid l)) Hl) as G. by rewrite Es in G. }
  apply (step_runs _ _ _ _ _ _ _ _ _ _ _ _ _ W) in Es as (pn & pt & pm & pr & _ & _ & _ & _ & _ & _ & _ & _ & _ & E1).
  destruct (calls_append l1 l2 G1 Hc) as [[ms E2] G2].
  destruct (close_trade_goes (sr_trace_id s) t l2 G2) as (r & v & pid & l3 & Ec & E3 & _).
  rewrite Ec in *. cbn [snd] in *. rewrite E3, E2, E1, said_stream, <- !posts_app in *.
  assert (forall k, k ∈ map m_kind (step_log m l pn pt pm pr s) ->
    is_Some (_latest_payload (trace_events (posts ((step_log m l pn pt pm pr s ++ ms) ++
      close_log (sr_trace_id s) t v pid r) (lp_stream l)) (sr_trace_id s)) k)) as Hopen.
  { intros k Hk. rewrite <- app_assoc in *.
    apply (posted_in_trace [] (step_log m l pn pt pm pr s) _ (lp_stream l)); [apply Hl|done|done|].
    by repeat constructor. }
  assert (forall k, k ∈ map m_kind (close_log (sr_trace_id s) t v pid r) ->
    is_Some (_latest_payload (trace_events (posts ((step_log m l pn pt pm pr s ++ ms) ++
      close_log (sr_trace_id s) t v pid r) (lp_stream l)) (sr_trace_id s)) k)) as Hclose.
  { intros k Hk. pose proof (posted_in_trace (step_log m l pn pt pm pr s ++ ms)
      (close_log (sr_trace_id s) t v pid r) [] (lp_stream l) k (sr_trace_id s)) as Hp.
    rewrite app_nil_r in Hp. apply Hp; [apply Hl|done|done|]. by repeat constructor. }
  repeat (apply Forall_cons; split; [first [apply Hopen; by vm_compute; repeat constructor | apply Hclose; repeat constructor]|]).
  by apply Forall_nil.
Qed.

(** * Behaviour changes only through a review *)

Section Review.
Context `{Libm} `{PyRandom}.

Lemma work_config l l' : work l l' -> lp_config l' = lp_config l.
Proof.
  intros []; apply frame_config; [apply frame_step|apply frame_close_trade|apply frame_detect_drift|
    apply frame_learn|apply frame_evolve].
Qed.

(** The loop and the candidates whose pull requests are open: [evolve] opens them, and a
    merge lands one of them, now or after any other work. *)
Inductive reviewed : CognitiveLoop * list CognitiveConfig -> CognitiveLoop * list CognitiveConfig -> Prop :=
| rv_work l l' cs : work l l' -> reviewed (l, cs) (l', cs)
| rv_approve a l b l' cs :
    evolve a l = (Ok (Some (Judged b)), l') -> v_approved (bu_verdict b) = true ->
    reviewed (l, cs) (l', bu_candidate b :: cs)
| rv_merge c sh dd pid l cs : c ∈ cs -> reviewed (l, cs) (snd (merge c sh dd pid l), cs).

Definition config_safe (s : CognitiveLoop * list CognitiveConfig) : Prop :=
  safe (lp_config (fst s)) /\ Forall safe (snd s).

Lemma judged_safe a l b l' :
  safe (lp_config l) -> evolve a l = (Ok (Some (Judged b)), l') -> safe (bu_candidate b).
Proof.
  intros Hc (learned & _ & [Ha _] & _)%evolve_runs.
  by apply apply_inv in Ha as [_ Hs]; [|apply safe_keys].
Qed.

Lemma merge_config c sh dd pid l : lp_config (snd (merge c sh dd pid l)) = c.
Proof. unfold merge. destruct l, pid; reflexivity. Qed.

Lemma reviewed_safe s s' : reviewed s s' -> config_safe s -> config_safe s'.
Proof.
  intros [l l' cs Hw|a l b l' cs E _|c sh dd pid l cs Hin] [Hc Hf]; cbn [fst snd] in *.
  - split; [|done]. cbn [fst]. by rewrite (work_config _ _ Hw).
  - split; cbn [fst snd].
    + pose proof (work_config _ _ (work_evolve a l)) as Hw. rewrite E in Hw. cbn [snd] in Hw.
      by rewrite Hw.
    + apply Forall_cons. split; [by apply (judged_safe a l b l')|done].
  - split; [|done]. cbn [fst]. rewrite merge_config.
    rewrite Forall_forall in Hf. by apply Hf.
Qed.

Lemma init_config c f st r cap l :
  init c f st r cap = Ok l -> match c with Some c => Ok c | None => load_config f end = Ok (lp_config l).
Proof.
  unfold init. intros Hi. inv_ok Hi. subst l. rewrite Hv. reflexivity.
Qed.

End Review.

(** C35: Whatever the markets, the trades and the proposals, and however many candidates
    are merged in whatever order, the running configuration and every open candidate stay
    inside the safe bounds: starting from a safe configuration, or from any file content
    at all, and landing only candidates that [evolve] approved. *)
Theorem reviewed_config_safe `{Libm} `{PyRandom} c f st r cap l0 l cs :
  match c with Some c => safe c | None => True end ->
  init c f st r cap = Ok l0 -> rtc reviewed (l0, []) (l, cs) ->
  safe (lp_config l) /\ Forall safe cs.
Proof.
  intros Hc Hi%init_config Hr.
  assert (config_safe (l0, [])) as Hsafe.
  { split; [|constructor]. cbn [fst]. destruct c as [c|]; [by apply Ok_inj in Hi as <-|by apply (load_safe f)]. }
  change (config_safe (l, cs)). revert Hsafe.
  induction Hr as [|s1 s2 s3 Hs _ IH]; [done|]. intros H1. by apply IH, (reviewed_safe s1).
Qed.

(** * Defects *)

Section Defects.
Context `{Libm} `{PyRandom}.

Lemma posts_len ms st c :
  Stream.ok st -> es_max_events st = Some c -> zlen (es_events st) = c ->
  Stream.len (posts ms st) = c.
Proof.
  intros Hst Hc Hl. unfold Stream.len. rewrite posts_events, Hc by done. unfold keep, zlen in *.
  rewrite length_drop, length_app, stamps_length. lia.
Qed.

Lemma decision_for_posted m l pn pt pm pr s st :
  Stream.ok st -> (forall c, es_max_events st = Some c -> 9 <= c) ->
  _decision_for (sr_trace_id s) (posts (step_log m l pn pt pm pr s) st)
  = Some (with_lineage l (decision_as_dict (sr_decision s))).
Proof.
  intros Hst Hc. unfold _decision_for. rewrite posts_events by done.
  destruct (keep_suffix (es_max_events st) (es_events st)
    (stamps (es_emitted st) (step_log m l pn pt pm pr s))) as [pre ->].
  { intros c Ec. unfold zlen. rewrite stamps_length. by apply Hc. }
  rewrite rev_app_distr. generalize (es_emitted st). intros i. unfold step_log.
  cbn [stamps rev app List.find]. unfold is_decision_of at 1.
  cbn [stamp msg kind trace_id m_kind m_trace]. unfold Stream.has_kind at 1. cbn [stamp msg kind m_kind].
  rewrite bool_decide_eq_false_2 by done. cbn [andb].
  unfold is_decision_of at 1. unfold Stream.has_kind at 1. cbn [stamp msg kind m_kind].
  rewrite bool_decide_eq_false_2 by done. cbn [andb].
  unfold is_decision_of at 1. unfold Stream.has_kind at 1. cbn [stamp msg kind m_kind trace_id m_trace].
  rewrite bool_decide_eq_true_2, String.eqb_refl by done. reflexivity.
Qed.

End Defects.

(** Once the stream is at its retention cap, two forward passes without an explicit
    trace id share one: the id is derived from the stream's length, which no longer grows.
    Looking up the first trade's decision then returns the second trade's. *)
Theorem default_trace_reused `{Libm} `{PyRandom} l c sn stt sm sr m1 e1 q1 x1 d1 s1 l1 m2 e2 q2 x2 d2 s2 l2 :
  reachable l -> wired l sn stt sm sr ->
  es_max_events (lp_stream l) = Some c -> Stream.len (lp_stream l) = c -> 9 <= c ->
  step m1 e1 q1 x1 d1 None l = (Ok s1, l1) -> step m2 e2 q2 x2 d2 None l1 = (Ok s2, l2) ->
  sr_trace_id s2 = sr_trace_id s1 /\
  _decision_for (sr_trace_id s1) (lp_stream l2)
  = Some (with_lineage l1 (decision_as_dict (sr_decision s2))).
Proof.
  intros Hl%reachable_good W Hc Hlen H9 E1 E2.
  assert (frame l l1) as F1 by by apply (runs_frame _ _ _ _ (frame_step m1 e1 q1 x1 d1 None) E1).
  apply (step_runs _ _ _ _ _ _ _ _ _ _ _ _ _ W) in E1
    as (n1 & t1 & k1 & r1 & _ & _ & _ & _ & _ & I1 & _ & _ & _ & L1).
  apply (step_runs _ _ _ _ _ _ _ _ _ _ _ _ _ (frame_wired _ _ _ _ _ _ F1 W)) in E2
    as (n2 & t2 & k2 & r2 & _ & _ & _ & _ & _ & I2 & _ & _ & _ & L2).
  pose proof (g_stream _ Hl) as Hs.
  assert (lp_stream l1 = posts (step_log m1 l n1 t1 k1 r1 s1) (lp_stream l)) as S1
    by (rewrite L1; apply said_stream).
  assert (sr_trace_id s2 = sr_trace_id s1) as Eid.
  { rewrite I1, I2. unfold trace_or, or_default. f_equal. f_equal. rewrite S1.
    by rewrite (posts_len _ _ c). }
  split; [exact Eid|]. rewrite <- Eid, L2, said_stream. apply decision_for_posted.
  - rewrite S1. by apply posts_ok.
  - intros c' Ec. rewrite S1, posts_max, Hc in Ec. by simplify_eq.
Qed.

(** Merging does not check what a candidate was built from: when two candidates of the
    same base configuration land one after the other, both carry the same version number,
    and the second silently undoes the weight change of the first. *)
Theorem stale_merge_reverts `{Libm} l p1 p2 c1 c2 k sh1 dd1 id1 sh2 dd2 id2 :
  safe (lp_config l) ->
  apply_proposal_to_config (lp_config l) p1 = Ok (Some c1) ->
  apply_proposal_to_config (lp_config l) p2 = Ok (Some c2) ->
  last_part (target p2) <> k ->
  let l' := snd (merge c2 sh2 dd2 id2 (snd (merge c1 sh1 dd1 id1 l))) in
  version (lp_config l') = version c1 /\
  weight_of (lp_config l') k = weight_of (lp_config l) k.
Proof.
  intros Hs H1 H2 Hk l'. subst l'. rewrite merge_config.
  apply apply_inv in H1 as [H1 _]; [|by apply safe_keys].
  apply apply_inv in H2 as [H2 _]; [|by apply safe_keys].
  split; [by destruct H1, H2|]. destruct H2 as [x|x]; [|reflexivity].
  unfold weight_of, with_weight, dget_or. cbn [weights]. by rewrite dget_dset_ne.
Qed.

(** * Witnesses *)

Section InvWitness.
#[local] Existing Instance libm_clamp.
#[local] Existing Instance constant_half.

Definition sample_close : TradeClose :=
  {| tc_pnl := 12.5%F; tc_pnl_pct := 1.5%F; tc_max_adverse_pct := NaN; tc_slippage_bps := 3.0%F;
     tc_side := BUY; tc_entry_price := 100.0%F; tc_window_low := 99.0%F; tc_window_high := 105.0%F |}.

(** A fresh loop is reachable, and its first pass completes. *)
Lemma fresh_step cap tid : exists l s l1,
  init (Some DEFAULT_CONFIG) NoFile None None cap = Ok l /\
  reachable l /\ wired l default_news default_tech default_macro default_risk /\
  lp_stream l = posts [msg CONFIG_VERSION (config_version_payload DEFAULT_CONFIG None) "" SOURCE_MERGE ""]
                  (Stream.init (Some cap)) /\
  step sample_market 1000.0%F 0.1%F 0.0%F 0.0%F tid l = (Ok s, l1).
Proof.
  destruct (init_default DEFAULT_CONFIG NoFile None cap) as (l & E & W & _ & _ & Es).
  assert (Forall price_ok (history sample_market)) as Hp
    by (repeat (apply Forall_cons; split; [split; fconst|]); by apply Forall_nil).
  destruct (default_signals_total _ Hp) as (pn & pt & pm & pr & fs & H1 & H2 & H3 & H4 & H5).
  destruct (step_goes sample_market 1000.0%F 0.1%F 0.0%F 0.0%F tid l _ _ _ _ pn pt pm pr fs W H1 H2 H3 H4 H5)
    as (s & l1 & Hs).
  exists l, s, l1. split_and!; [done| |done|done|done].
  exists (Some DEFAULT_CONFIG), NoFile, None, cap, l. split; [done|apply rtc_refl].
Qed.

Lemma close_trade_total_witness :
  exists l r l', reachable l /\ close_trade "unknown" sample_close l = (Ok r, l').
Proof.
  destruct (fresh_step 100 None) as (l & _ & _ & _ & Hr & _).
  destruct (close_trade_total l "unknown" sample_close Hr) as (r & l' & _ & E & _).
  exists l, r, l'. split; [exact Hr|exact E].
Defined.

Lemma no_ungraded_trades_witness :
  exists l, reachable l /\
    health_ungraded (lp_stream (snd (close_trade "t" sample_close l))) = Some (VInt 0).
Proof.
  destruct (fresh_step 1 None) as (l & _ & _ & _ & Hr & _).
  exists l. split; [exact Hr|]. apply no_ungraded_trades.
  destruct Hr as (c & f & r & cap & l0 & Hi & Hc). exists c, f, r, cap, l0. split; [exact Hi|].
  eapply rtc_r; [exact Hc|]. apply call_work, work_close.
Defined.

Lemma trace_chain_complete_witness :
  exists l s l1, step sample_market 1000.0%F 0.1%F 0.0%F 0.0%F (Some "t1"%string) l = (Ok s, l1) /\
    trace_complete (sr_trace_id s) (lp_stream (snd (close_trade (sr_trace_id s) sample_close l1))).
Proof.
  destruct (fresh_step 100 (Some "t1"%string)) as (l & s & l1 & _ & Hr & W & El & Es).
  exists l, s, l1. split; [exact Es|].
  apply (trace_chain_complete l _ _ _ _ _ _ _ _ _ _ s l1 l1 sample_close Hr W Es (rtc_refl _ l1)).
  pose proof (reachable_good l Hr) as Hg.
  destruct (step_runs _ _ _ _ _ _ _ _ _ _ _ _ _ W Es)
    as (pn & pt & pm & pr & _ & _ & _ & _ & _ & _ & _ & _ & _ & E1).
  assert (good l1) as G1
    by (rewrite E1; apply (good_talks l _ Hg); pose proof (talks_step sample_market 1000.0%F 0.1%F
          0.0%F 0.0%F (Some "t1"%string) l) as Ht; rewrite Es, E1 in Ht; exact Ht).
  destruct (close_trade_goes (sr_trace_id s) sample_close l1 G1) as (r & v & pid & l3 & Ec & E3 & _).
  rewrite Ec. cbn [snd]. rewrite E3, E1, said_stream, El, <- !posts_app.
  rewrite (Stream.posts_fit _ 100); [reflexivity|apply Stream.init_ok|reflexivity|].
  unfold zlen. simpl. lia.
Defined.

Lemma reviewed_config_safe_witness :
  exists l s l1, step sample_market 1000.0%F 0.1%F 0.0%F 0.0%F None l = (Ok s, l1) /\
    safe (lp_config (snd (learn l1))).
Proof.
  destruct (fresh_step 100 None) as (l & s & l1 & Ei & _ & _ & _ & Es).
  exists l, s, l1. split; [exact Es|].
  apply (reviewed_config_safe (Some DEFAULT_CONFIG) NoFile None None 100 l (snd (learn l1)) []
    default_config_safe Ei).
  eapply rtc_l; [apply rv_work, (work_step sample_market 1000.0%F 0.1%F 0.0%F 0.0%F None)|].
  rewrite Es. eapply rtc_l; [apply rv_work, work_learn|]. apply rtc_refl.
Defined.

Lemma step_again m eq pos ex pnl tid l :
  wired l default_news default_tech default_macro default_risk -> Forall price_ok (history m) ->
  exists s l', step m eq pos ex pnl tid l = (Ok s, l').
Proof.
  intros W Hp. destruct (default_signals_total _ Hp) as (pn & pt & pm & pr & fs & H1 & H2 & H3 & H4 & H5).
  by apply (step_goes m eq pos ex pnl tid l _ _ _ _ pn pt pm pr fs W).
Qed.

(** A cap of nine holds exactly one forward pass. *)
Lemma default_trace_reused_witness :
  exists l s1 l1 s2 l2,
    step sample_market 1000.0%F 0.1%F 0.0%F 0.0%F None l = (Ok s1, l1) /\
    step sample_market 2000.0%F 0.2%F 0.0%F 0.0%F None l1 = (Ok s2, l2) /\
    sr_trace_id s2 = sr_trace_id s1.
Proof.
  destruct (fresh_step 9 None) as (l0 & s & l & _ & Hr & W & El & Es).
  assert (Forall price_ok (history sample_market)) as Hp
    by (repeat (apply Forall_cons; split; [split; fconst|]); by apply Forall_nil).
  assert (reachable l) as Hr1.
  { destruct Hr as (c & f & r & cap & l' & Hi & Hc). exists c, f, r, cap, l'. split; [exact Hi|].
    eapply rtc_r; [exact Hc|]. pose proof (work_step sample_market 1000.0%F 0.1%F 0.0%F 0.0%F None l0) as Hw.
    rewrite Es in Hw. by apply call_work. }
  pose proof (runs_frame _ _ _ _ (frame_step _ _ _ _ _ _) Es) as F0.
  pose proof (frame_wired _ _ _ _ _ _ F0 W) as W0.
  destruct (step_again sample_market 1000.0%F 0.1%F 0.0%F 0.0%F None l W0 Hp) as (s1 & l1 & E1).
  pose proof (frame_wired _ _ _ _ _ _ (runs_frame _ _ _ _ (frame_step _ _ _ _ _ _) E1) W0) as W1.
  destruct (step_again sample_market 2000.0%F 0.2%F 0.0%F 0.0%F None l1 W1 Hp) as (s2 & l2 & E2).
  exists l, s1, l1, s2, l2. split; [exact E1|]. split; [exact E2|].
  destruct (step_runs _ _ _ _ _ _ _ _ _ _ _ _ _ W Es)
    as (pn & pt & pm & pr & _ & _ & _ & _ & _ & _ & _ & _ & _ & Es').
  assert (lp_stream l = posts ([msg CONFIG_VERSION (config_version_payload DEFAULT_CONFIG None) ""
    SOURCE_MERGE ""] ++ step_log sample_market l0 pn pt pm pr s) (Stream.init (Some 9))) as Sl.
  { rewrite Es', said_stream, El, <- posts_app. reflexivity. }
  refine (proj1 (default_trace_reused l 9 default_news default_tech default_macro default_risk
    sample_market 1000.0%F 0.1%F 0.0%F 0.0%F s1 l1 sample_market 2000.0%F 0.2%F 0.0%F 0.0%F s2 l2
    Hr1 W0 _ _ ltac:(lia) E1 E2)); [rewrite Sl; apply posts_max|].
  rewrite Sl. unfold Stream.len. rewrite posts_events by apply Stream.init_ok.
  change (es_max_events (Stream.init (Some 9))) with (Some 9). unfold keep, zlen.
  rewrite length_drop, length_app, stamps_length. reflexivity.
Defined.

Definition raise_news : Proposal := weight_change "news" 0.33%F 0.5%F "r" "" None.

Lemma stale_merge_reverts_witness :
  exists l c1 c2, lp_config l = DEFAULT_CONFIG /\
    apply_proposal_to_config DEFAULT_CONFIG raise_tech = Ok (Some c1) /\
    apply_proposal_to_config DEFAULT_CONFIG raise_news = Ok (Some c2) /\
    weight_of (lp_config (snd (merge c2 0.0%F 0.0%F None (snd (merge c1 0.0%F 0.0%F None l))))) "tech"
    = weight_of DEFAULT_CONFIG "tech".
Proof.
  destruct (ok_with_inv (fun o => match o with Some _ => true | None => false end)
    (apply_proposal_to_config DEFAULT_CONFIG raise_tech) ltac:(vm_compute; reflexivity))
    as ([c1|] & E1 & H1); [|discriminate H1].
  destruct (ok_with_inv (fun o => match o with Some _ => true | None => false end)
    (apply_proposal_to_config DEFAULT_CONFIG raise_news) ltac:(vm_compute; reflexivity))
    as ([c2|] & E2 & H2); [|discriminate H2].
  destruct (init_default DEFAULT_CONFIG NoFile None 100) as (l & _ & _ & Hc & _).
  exists l, c1, c2. split; [exact Hc|]. split; [exact E1|]. split; [exact E2|].
  rewrite <- Hc in E1, E2. assert (safe (lp_config l)) as Hs by (rewrite Hc; exact default_config_safe).
  rewrite (proj2 (stale_merge_reverts l _ _ c1 c2 "tech" 0.0%F 0.0%F None 0.0%F 0.0%F None Hs E1 E2
    ltac:(vm_compute; discriminate))). by rewrite Hc.
Defined.

End InvWitness.
