(* ===== verification/Params.v ===== *)
(** Params: the parameters the learning loop may tune, their safe bounds, and the override
    file layered over the constants (api/services/param_evolution.py,
    api/services/param_overrides.py, api/constants.py). *)
From Stdlib Require Import Ascii.
From S2P Require Import Prelude PyFloat FloatFacts PyVal Config.

(** * Bounds

    A bound is written as an integer or a float; its kind decides how an override is
    stored. *)
Definition PARAM_BOUNDS : dict (val * val) :=
  [("SIGNAL_CONFIDENCE_MIN_GATE", (VFloat 0.30, VFloat 0.80));
   ("EXECUTION_DECISION_THRESHOLD", (VFloat 0.40, VFloat 0.80));
   ("EXECUTION_DECISION_THRESHOLD_MEMORY", (VFloat 0.30, VFloat 0.80));
   ("STOP_LOSS_PCT", (VFloat 0.01, VFloat 0.15));
   ("TAKE_PROFIT_PCT", (VFloat 0.02, VFloat 0.40));
   ("MAX_RISK_PER_TRADE_PCT", (VFloat 0.005, VFloat 0.05));
   ("KELLY_FRACTION_SCALE", (VFloat 0.05, VFloat 0.50));
   ("TRAILING_STOP_ARM_PCT", (VFloat 0.005, VFloat 0.08));
   ("TRAILING_STOP_GIVEBACK_FRAC", (VFloat 0.10, VFloat 0.80));
   ("STALE_POSITION_MAX_AGE_SECONDS", (VInt 1800, VInt 259200));
   ("STALE_POSITION_PNL_BAND_PCT", (VFloat 0.0, VFloat 0.05));
   ("LLM_CALL_DELAY_MS", (VInt 0, VInt 2000))]%F.

(** A bound as a number to compare with. *)
Definition bound_float (v : val) : float :=
  match v with VInt z => of_Z z | VFloat x => x | _ => NaN end.

(** [float(v).is_integer()] *)
Definition is_integer (x : float) : bool :=
  match x with Fin n => n mod scale =? 0 | NegZero => true | _ => false end.

Definition is_upper (c : ascii) : bool :=
  let n := Z.of_nat (nat_of_ascii c) in (65 <=? n) && (n <=? 90).

Definition is_digit (c : ascii) : bool :=
  let n := Z.of_nat (nat_of_ascii c) in (48 <=? n) && (n <=? 57).

Definition name_char (c : ascii) : bool := is_upper c || is_digit c || Ascii.eqb c "_".

Definition newline : ascii := ascii_of_nat 10.

(** [[A-Z0-9_]*$]: the dollar also matches before a final newline. *)
Fixpoint name_rest (l : list ascii) : bool :=
  match l with
  | [] => true
  | [c] => name_char c || Ascii.eqb c newline
  | c :: l' => name_char c && name_rest l'
  end.

Definition _NAME_RE (s : string) : bool :=
  match String.list_ascii_of_string s with
  | c :: l => is_upper c && name_rest l
  | [] => false
  end.

Definition HYPOTHESIS_PARAM_MAP : dict string :=
  [("signal_confidence", "SIGNAL_CONFIDENCE_MIN_GATE"); ("confidence", "SIGNAL_CONFIDENCE_MIN_GATE");
   ("confidence_gate", "SIGNAL_CONFIDENCE_MIN_GATE"); ("low_confidence", "SIGNAL_CONFIDENCE_MIN_GATE");
   ("signal_confidence_too_low", "SIGNAL_CONFIDENCE_MIN_GATE");
   ("execution_threshold", "EXECUTION_DECISION_THRESHOLD");
   ("execution_decision_threshold", "EXECUTION_DECISION_THRESHOLD");
   ("decision_threshold", "EXECUTION_DECISION_THRESHOLD");
   ("execution_threshold_too_low", "EXECUTION_DECISION_THRESHOLD");
   ("decision_threshold_too_low", "EXECUTION_DECISION_THRESHOLD");
   ("stop_loss", "STOP_LOSS_PCT"); ("take_profit", "TAKE_PROFIT_PCT");
   ("risk_per_trade", "MAX_RISK_PER_TRADE_PCT"); ("position_size", "MAX_RISK_PER_TRADE_PCT");
   ("position_sizing", "MAX_RISK_PER_TRADE_PCT"); ("kelly", "KELLY_FRACTION_SCALE");
   ("trailing_stop", "TRAILING_STOP_ARM_PCT")].

(** [s.strip().lower()] *)
Definition strip_lower (s : string) : string :=
  String.string_of_list_ascii (map Parse.lower (Parse.strip (String.list_ascii_of_string s))).

Definition parameter_for_hypothesis (t : option string) : option string :=
  match t with
  | Some s => if String.eqb s "" then None else dget (strip_lower s) HYPOTHESIS_PARAM_MAP
  | None => None
  end.

(** The check of the value against the parameter's bounds; an integer beyond the double
    range raises. *)
Definition check_value (name : string) (v : val) (lo hi : val) : res (option string) :=
  match v with
  | VNone | VBool _ => Ok (Some ("proposed value must be numeric, got " +:+ Fmt.repr v))
  | _ =>
      match py_float v with
      | Ok x =>
          Ok (if fleb (bound_float lo) x && fleb x (bound_float hi) then None
              else Some ("proposed value " +:+ Fmt.repr_float x +:+ " outside safe bounds ["
                         +:+ Fmt.repr lo +:+ ", " +:+ Fmt.repr hi +:+ "] for " +:+ name))
      | Raise TypeError | Raise ValueError =>
          Ok (Some ("proposed value is not numeric: " +:+ Fmt.repr v))
      | Raise e => Raise e
      end
  end.

Definition validate_param_change (name : string) (v : val) : res (option string) :=
  if negb (_NAME_RE name) then Ok (Some ("invalid parameter name: " +:+ Fmt.repr_str name))
  else
    match dget name PARAM_BOUNDS with
    | None => Ok (Some ("parameter not in the auto-editable allowlist: " +:+ name))
    | Some (lo, hi) => check_value name v lo hi
    end.

(** * Overrides *)

Definition _coerce_like_bounds (name : string) (x : float) : res val :=
  let* b := dindex name PARAM_BOUNDS in
  if is_integer (bound_float (fst b)) && is_integer (bound_float (snd b))
  then let* z := trunc x in Ok (VInt z)
  else Ok (VFloat x).

(** One entry of the override file: kept when it is valid. *)
Definition sanitize_entry (clean : payload) (kv : string * val) : res payload :=
  let* err := validate_param_change (fst kv) (snd kv) in
  match err with
  | Some _ => Ok clean
  | None =>
      let* x := py_float (snd kv) in
      let* v := _coerce_like_bounds (fst kv) x in
      Ok (dset (fst kv) v clean)
  end.

Definition sanitize_overrides (raw : val) : res payload :=
  match raw with
  | VDict d => res_fold sanitize_entry d []
  | _ => Ok []
  end.

Definition load_overrides (f : file_read) : res payload :=
  match f with
  | NoFile | ReadError => Ok []
  | Parsed raw => sanitize_overrides raw
  end.

(** The part of [apply_param_override] between parsing and printing the document: the
    error, or the document with the override in place. *)
Definition override_document (current : val) (name : string) (v : val) : res (payload + string) :=
  let* err := validate_param_change name v in
  match err with
  | Some e => Ok (inr e)
  | None =>
      match current with
      | VDict d =>
          let* x := py_float v in
          let* new := _coerce_like_bounds name x in
          if match dget name d with Some old => val_eqb old new | None => false end
          then Ok (inr "override already equals proposed value; no change needed")
          else Ok (inl (dset name new d))
      | _ => Ok (inr "overrides file is not a JSON object")
      end
  end.

(** * The constants they layer over *)

(** The tunable constants of api/constants.py, as written there. *)
Definition pacing_constants : payload := [("LLM_CALL_DELAY_MS", VInt 200)].

Definition threshold_constants : payload :=
  [("EXECUTION_DECISION_THRESHOLD", VFloat 0.55);
   ("EXECUTION_DECISION_THRESHOLD_MEMORY", VFloat 0.55)]%F.

Definition exit_constants : payload :=
  [("STOP_LOSS_PCT", VFloat 0.05); ("TAKE_PROFIT_PCT", VFloat 0.10)]%F.

Definition guardian_constants : payload :=
  [("TRAILING_STOP_ARM_PCT", VFloat 0.03); ("TRAILING_STOP_GIVEBACK_FRAC", VFloat 0.40);
   ("STALE_POSITION_MAX_AGE_SECONDS", VInt 14400); ("STALE_POSITION_PNL_BAND_PCT", VFloat 0.01)]%F.

Definition sizing_constants : payload :=
  [("SIGNAL_CONFIDENCE_MIN_GATE", VFloat 0.50); ("KELLY_FRACTION_SCALE", VFloat 0.25);
   ("MAX_RISK_PER_TRADE_PCT", VFloat 0.015)]%F.

Definition DEFAULT_CONSTANTS : payload :=
  pacing_constants ++ threshold_constants ++ exit_constants ++ guardian_constants ++ sizing_constants.

(** [if name in globals(): globals()[name] = value] *)
Definition override_global (g : payload) (kv : string * val) : payload :=
  if dmem (fst kv) g then dset (fst kv) (snd kv) g else g.

(** The constants of a process whose override file reads as [f]. *)
Definition apply_param_overrides (f : file_read) (g : payload) : res payload :=
  let* overrides := load_overrides f in Ok (fold_left override_global overrides g).

(** One row of the table fed to the reflection prompt. *)
Definition tunable_row (g : payload) (kb : string * (val * val)) : res payload :=
  let row x := [(fst kb, VDict [("current", VFloat x); ("min", VFloat (bound_float (fst (snd kb))));
                                ("max", VFloat (bound_float (snd (snd kb))))])] in
  match dget (fst kb) g with
  | Some (VInt z) => let* x := py_float (VInt z) in Ok (row x)
  | Some (VFloat x) => Ok (row x)
  | _ => Ok []
  end.

Definition tunable_parameters (g : payload) : res payload :=
  let* rows := res_list (tunable_row g) PARAM_BOUNDS in Ok (concat rows).

(** The constants that other components read by name, as the numbers they are compared as. *)
Class Constants := {
  STOP_LOSS_PCT : float;
  TAKE_PROFIT_PCT : float;
  EXECUTION_DECISION_THRESHOLD : float;
  EXECUTION_DECISION_THRESHOLD_MEMORY : float;
  SIGNAL_CONFIDENCE_MIN_GATE : float;
  TRAILING_STOP_ARM_PCT : float;
  TRAILING_STOP_GIVEBACK_FRAC : float;
  STALE_POSITION_MAX_AGE_SECONDS : float;
  STALE_POSITION_PNL_BAND_PCT : float;
}.

Definition constant (g : payload) (name : string) : res float :=
  let* v := dindex name g in py_float v.

Definition constants_of (g : payload) : res Constants :=
  let* sl := constant g "STOP_LOSS_PCT" in
  let* tp := constant g "TAKE_PROFIT_PCT" in
  let* ed := constant g "EXECUTION_DECISION_THRESHOLD" in
  let* em := constant g "EXECUTION_DECISION_THRESHOLD_MEMORY" in
  let* sc := constant g "SIGNAL_CONFIDENCE_MIN_GATE" in
  let* ta := constant g "TRAILING_STOP_ARM_PCT" in
  let* tg := constant g "TRAILING_STOP_GIVEBACK_FRAC" in
  let* sa := constant g "STALE_POSITION_MAX_AGE_SECONDS" in
  let* sb := constant g "STALE_POSITION_PNL_BAND_PCT" in
  Ok {| STOP_LOSS_PCT := sl; TAKE_PROFIT_PCT := tp; EXECUTION_DECISION_THRESHOLD := ed;
        EXECUTION_DECISION_THRESHOLD_MEMORY := em; SIGNAL_CONFIDENCE_MIN_GATE := sc;
        TRAILING_STOP_ARM_PCT := ta; TRAILING_STOP_GIVEBACK_FRAC := tg;
        STALE_POSITION_MAX_AGE_SECONDS := sa; STALE_POSITION_PNL_BAND_PCT := sb |}.

(** The constants as the source writes them, without an override file. *)
Definition default_constants : Constants :=
  {| STOP_LOSS_PCT := 0.05%F; TAKE_PROFIT_PCT := 0.10%F;
     EXECUTION_DECISION_THRESHOLD := 0.55%F; EXECUTION_DECISION_THRESHOLD_MEMORY := 0.55%F;
     SIGNAL_CONFIDENCE_MIN_GATE := 0.50%F; TRAILING_STOP_ARM_PCT := 0.03%F;
     TRAILING_STOP_GIVEBACK_FRAC := 0.40%F; STALE_POSITION_MAX_AGE_SECONDS := 14400.0%F;
     STALE_POSITION_PNL_BAND_PCT := 0.01%F |}.

(** * Facts *)

(** A value the loop may hold for a parameter: a number inside its bounds, an integer
    exactly for the whole-number parameters. *)
Definition within_bounds (name : string) (v : val) : Prop :=
  exists lo hi, dget name PARAM_BOUNDS = Some (lo, hi) /\
    match v with
    | VFloat x => exists f g, lo = VFloat f /\ hi = VFloat g /\ within f g x
    | VInt z => exists a b, lo = VInt a /\ hi = VInt b /\ a <= z <= b
    | _ => False
    end.

Definition all_within (d : payload) : Prop := forall k v, dget k d = Some v -> within_bounds k v.

Lemma validate_inv name v :
  validate_param_change name v = Ok None ->
  exists lo hi x, dget name PARAM_BOUNDS = Some (lo, hi) /\ py_float v = Ok x /\
    within (bound_float lo) (bound_float hi) x.
Proof.
  unfold validate_param_change. destruct (negb (_NAME_RE name)); [discriminate|].
  destruct (dget name PARAM_BOUNDS) as [[lo hi]|]; [|discriminate].
  unfold check_value. intros H. exists lo, hi.
  assert (exists y, py_float v = Ok y /\
    (if fleb (bound_float lo) y && fleb y (bound_float hi) then None
     else Some ("proposed value " +:+ Fmt.repr_float y +:+ " outside safe bounds ["
                +:+ Fmt.repr lo +:+ ", " +:+ Fmt.repr hi +:+ "] for " +:+ name)) = None)
    as (y & Ey & Eb).
  { destruct v; try discriminate H; destruct (py_float _) as [y|[]]; try discriminate H;
      exists y; (split; [reflexivity|]); by apply Ok_inj in H. }
  exists y. split; [done|]. split; [done|].
  destruct (fleb (bound_float lo) y && fleb y (bound_float hi)) eqn:E; [|discriminate Eb].
  by apply andb_true_iff in E.
Qed.

(** The bounds of a parameter are both integers or not both whole numbers. *)
Definition kinds_ok (b : val * val) : bool :=
  match fst b, snd b with
  | VInt a, VInt c =>
      is_integer (bound_float (fst b)) && is_integer (bound_float (snd b))
      && fin_ok (bound_float (fst b)) && fin_ok (bound_float (snd b))
      && ((Z.abs a <=? 2 ^ 53) && (Z.abs c <=? 2 ^ 53))
      && (match trunc (bound_float (fst b)) with Ok z => z =? a | _ => false end)
      && (match trunc (bound_float (snd b)) with Ok z => z =? c | _ => false end)
  | VFloat x, VFloat y => negb (is_integer x && is_integer y)
  | _, _ => false
  end.

Lemma bounds_kinds : forallb (fun kb => kinds_ok (snd kb)) PARAM_BOUNDS = true.
Proof. vm_compute. reflexivity. Qed.

Lemma bound_kinds name lo hi : dget name PARAM_BOUNDS = Some (lo, hi) -> kinds_ok (lo, hi) = true.
Proof.
  intros H%dget_Some_In. pose proof bounds_kinds as Hk. rewrite forallb_forall in Hk.
  apply list_elem_of_In in H. exact (Hk _ H).
Qed.

(** Storing a valid value keeps it inside the bounds. *)
Lemma coerce_within name lo hi x :
  dget name PARAM_BOUNDS = Some (lo, hi) -> within (bound_float lo) (bound_float hi) x ->
  exists v, _coerce_like_bounds name x = Ok v /\ within_bounds name v.
Proof.
  intros Hn Hx. unfold _coerce_like_bounds, dindex. rewrite Hn. cbn [res_bind fst snd].
  pose proof (bound_kinds name lo hi Hn) as Hk. unfold kinds_ok in Hk. cbn [fst snd] in Hk.
  destruct lo as [| |a|f| | |], hi as [| |c|g| | |]; try discriminate Hk.
  - apply andb_true_iff in Hk as [Hk Hc]. apply andb_true_iff in Hk as [Hk Ha].
    destruct (trunc (bound_float (VInt a))) as [a'|] eqn:Ea; [|discriminate Ha].
    destruct (trunc (bound_float (VInt c))) as [c'|] eqn:Ec; [|discriminate Hc].
    apply Z.eqb_eq in Ha as ->, Hc as ->. apply andb_true_iff in Hk as [Hk Hsmall].
    apply andb_true_iff in Hk as [Hk Fc]. apply andb_true_iff in Hk as [Hk Fa].
    pose proof (within_finite _ _ x Fa Fc Hx) as Fx. rewrite Hk.
    pose proof (fin_ok_finite _ Fa). pose proof (fin_ok_finite _ Fc).
    rewrite trunc_units by done. cbn [res_bind]. eexists. split; [reflexivity|].
    exists (VInt a), (VInt c). split; [done|]. exists a, c. split; [done|]. split; [done|].
    destruct Hx as [H1 H2]. split.
    + apply (trunc_mono (bound_float (VInt a)) x); auto. by rewrite trunc_units.
    + apply (trunc_mono x (bound_float (VInt c))); auto. by rewrite trunc_units.
  - cbn [bound_float]. destruct (is_integer f && is_integer g); [discriminate Hk|].
    exists (VFloat x). split; [done|]. exists (VFloat f), (VFloat g). split; [done|]. by exists f, g.
Qed.

Lemma sanitize_entry_within clean kv clean' :
  all_within clean -> sanitize_entry clean kv = Ok clean' -> all_within clean'.
Proof.
  intros Hc H. unfold sanitize_entry in H. apply res_bind_Ok in H as (err & Ev & H).
  destruct err; [by apply Ok_inj in H as <-|].
  apply res_bind_Ok in H as (x & Ex & H). apply res_bind_Ok in H as (v & Ec & H). apply Ok_inj in H as <-.
  apply validate_inv in Ev as (lo & hi & y & Hn & Ey & Hy).
  assert (y = x) as -> by congruence.
  destruct (coerce_within _ lo hi x Hn Hy) as (v' & Ev' & Hv').
  assert (v' = v) as -> by congruence.
  intros k w. destruct (String.eqb_spec (fst kv) k) as [<-|Hne].
  - rewrite dget_dset_eq. by intros [= <-].
  - rewrite dget_dset_ne by done. apply Hc.
Qed.

Lemma sanitize_within raw d : sanitize_overrides raw = Ok d -> all_within d.
Proof.
  assert (all_within []) as Hnil by done.
  destruct raw; simpl; try (by intros [= <-]).
  apply (res_fold_inv all_within); [|done]. intros b kv b'. apply sanitize_entry_within.
Qed.

Lemma load_within f d : load_overrides f = Ok d -> all_within d.
Proof. destruct f; simpl; [by intros [= <-]..|apply sanitize_within]. Qed.

(** Every tunable constant holds a value inside its bounds. *)
Definition constants_ok (g : payload) : Prop :=
  forall name b, dget name PARAM_BOUNDS = Some b -> exists v, dget name g = Some v /\ within_bounds name v.

(** The same, decidable: evaluated on the defaults. *)
Definition value_ok (v : val) (b : val * val) : bool :=
  match v, b with
  | VFloat x, (VFloat f, VFloat g) => fleb f x && fleb x g
  | VInt z, (VInt a, VInt c) => (a <=? z) && (z <=? c)
  | _, _ => false
  end.

Lemma defaults_in_bounds :
  forallb (fun kb => match dget (fst kb) DEFAULT_CONSTANTS with
                     | Some v => value_ok v (snd kb) | None => false end) PARAM_BOUNDS = true.
Proof. vm_compute. reflexivity. Qed.

Lemma defaults_ok : constants_ok DEFAULT_CONSTANTS.
Proof.
  intros name [lo hi] Hn. pose proof Hn as Hin%dget_Some_In. pose proof defaults_in_bounds as Hd.
  rewrite forallb_forall in Hd. apply list_elem_of_In in Hin. specialize (Hd _ Hin). cbn [fst snd] in Hd.
  destruct (dget name DEFAULT_CONSTANTS) as [v|]; [|discriminate Hd]. exists v. split; [done|].
  exists lo, hi. split; [done|]. destruct v; try discriminate Hd.
  - destruct lo, hi; try discriminate Hd. apply andb_true_iff in Hd as [H1 H2].
    eexists _, _. split; [reflexivity|]. split; [reflexivity|]. lia.
  - destruct lo, hi; try discriminate Hd. apply andb_true_iff in Hd.
    eexists _, _. split; [reflexivity|]. split; [reflexivity|]. exact Hd.
Qed.

Lemma override_ok overrides : forall g,
  all_within overrides -> NoDup (dkeys overrides) -> constants_ok g ->
  constants_ok (fold_left override_global overrides g).
Proof.
  induction overrides as [|[k v] l IH]; intros g Ho Hd Hg; [done|]. simpl.
  unfold dkeys in Hd. simpl in Hd. apply NoDup_cons in Hd as [Hk Hd]. apply IH; [|done|].
  - intros k' v' H'. apply Ho. simpl. destruct (String.eqb_spec k' k) as [->|]; [|done].
    exfalso. apply Hk. apply dget_Some_In in H'. apply list_elem_of_fmap. by exists (k, v').
  - intros name b Hb. unfold override_global. cbn [fst snd]. destruct (dmem k g); [|by apply (Hg name b)].
    destruct (String.eqb_spec k name) as [->|Hne].
    + rewrite dget_dset_eq. exists v. split; [done|]. apply Ho. simpl. by rewrite String.eqb_refl.
    + rewrite dget_dset_ne by done. by apply (Hg name b).
Qed.

Lemma sanitize_entry_nodup clean kv clean' :
  NoDup (dkeys clean) -> sanitize_entry clean kv = Ok clean' -> NoDup (dkeys clean').
Proof.
  intros Hc H. unfold sanitize_entry in H. apply res_bind_Ok in H as (err & _ & H).
  destruct err; [by apply Ok_inj in H as <-|].
  apply res_bind_Ok in H as (x & _ & H). apply res_bind_Ok in H as (v & _ & H). apply Ok_inj in H as <-.
  by apply dset_NoDup.
Qed.

Lemma load_nodup f d : load_overrides f = Ok d -> NoDup (dkeys d).
Proof.
  assert (NoDup (dkeys (@nil (string * val)))) as Hnil by constructor.
  destruct f as [| |raw]; simpl; try (by intros [= <-]). destruct raw; simpl; try (by intros [= <-]).
  apply (res_fold_inv (fun c => NoDup (dkeys c))); [|done]. intros b kv b'. apply sanitize_entry_nodup.
Qed.

(** C34: Whatever the override file holds, strings, NaN, unknown names and wild values
    included, every tunable constant of a process that starts with it is inside its safe
    bounds, and the whole-number parameters are whole numbers. *)
Theorem overrides_stay_in_bounds f g :
  apply_param_overrides f DEFAULT_CONSTANTS = Ok g -> constants_ok g.
Proof.
  unfold apply_param_overrides. intros (d & Hd & H)%res_bind_Ok. apply Ok_inj in H as <-.
  apply override_ok; [by apply (load_within f)|by apply (load_nodup f)|apply defaults_ok].
Qed.

Definition sample_overrides : file_read :=
  Parsed (VDict [("STOP_LOSS_PCT", VStr "0.02"); ("KELLY_FRACTION_SCALE", VFloat NaN);
                 ("LLM_CALL_DELAY_MS", VFloat 750.9); ("rm -rf", VInt 1)])%F.

Lemma overrides_stay_in_bounds_witness :
  exists g, apply_param_overrides sample_overrides DEFAULT_CONSTANTS = Ok g /\
    within_bounds "LLM_CALL_DELAY_MS" (VInt 750).
Proof.
  destruct (ok_with_inv (fun g => match dget "LLM_CALL_DELAY_MS" g with
                                  | Some (VInt z) => z =? 750 | _ => false end)
    (apply_param_overrides sample_overrides DEFAULT_CONSTANTS) ltac:(vm_compute; reflexivity))
    as (g & E & Hz).
  exists g. split; [exact E|].
  destruct (overrides_stay_in_bounds _ g E "LLM_CALL_DELAY_MS" (VInt 0, VInt 2000) eq_refl)
    as (v & Ev & Hv).
  rewrite Ev in Hz. destruct v as [| |z| | | |]; try discriminate Hz. apply Z.eqb_eq in Hz as ->. exact Hv.
Defined.

(** * The two checks agree *)

(** A stored value reads back as itself. *)
Lemma within_stable name v :
  within_bounds name v ->
  exists lo hi x, dget name PARAM_BOUNDS = Some (lo, hi) /\ py_float v = Ok x /\
    within (bound_float lo) (bound_float hi) x /\ _coerce_like_bounds name x = Ok v.
Proof.
  intros (lo & hi & Hn & Hv). pose proof (bound_kinds name lo hi Hn) as Hk.
  unfold kinds_ok in Hk. cbn [fst snd] in Hk. destruct v as [| |z|x| | |]; try done.
  - destruct Hv as (a & c & -> & -> & Hz). rewrite !andb_true_iff, !Z.leb_le in Hk.
    destruct Hk as [[[[[[Ia Ic] Fa] Fc] [Sa Sc]] _] _].
    assert (Z.abs z <= 2 ^ 53) as Hs by lia. destruct (trunc_of_Z z Hs) as [Fz Tz].
    exists (VInt a), (VInt c), (of_Z z). split; [done|]. split; [|split].
    + simpl. by destruct (of_Z z).
    + split; apply of_Z_mono; lia.
    + unfold _coerce_like_bounds, dindex. rewrite Hn. cbn [res_bind fst snd].
      rewrite Ia, Ic. cbn [andb]. by rewrite Tz.
  - destruct Hv as (f & g & -> & -> & Hx). exists (VFloat f), (VFloat g), x.
    split; [done|]. split; [done|]. split; [done|].
    unfold _coerce_like_bounds, dindex. rewrite Hn. cbn [res_bind fst snd bound_float].
    by apply negb_true_iff in Hk as ->.
Qed.

Lemma stable_valid name v :
  _NAME_RE name = true -> within_bounds name v -> validate_param_change name v = Ok None.
Proof.
  intros Hr Hv. pose proof (within_stable name v Hv) as (lo & hi & x & Hn & Ex & [H1 H2] & _).
  unfold validate_param_change. rewrite Hr, Hn. cbn [negb]. unfold check_value.
  destruct Hv as (lo' & hi' & _ & Hv). destruct v; try done; rewrite Ex, H1, H2; reflexivity.
Qed.

(** What the learning loop writes is what the next process reads: an accepted change
    puts into the document a value that the load-time check accepts, inside the bounds,
    and that loading stores unchanged. *)
Theorem override_read_back current name v doc clean :
  override_document current name v = Ok (inl doc) ->
  exists new, dget name doc = Some new /\ within_bounds name new /\
    sanitize_entry clean (name, new) = Ok (dset name new clean).
Proof.
  unfold override_document. intros (err & Ev & H)%res_bind_Ok. destruct err; [discriminate|].
  destruct current as [| | | | | |d]; try discriminate H.
  apply res_bind_Ok in H as (x & Ex & H). apply res_bind_Ok in H as (new & Ec & H).
  pose proof Ev as (lo & hi & y & Hn & Ey & Hy)%validate_inv. assert (y = x) as -> by congruence.
  destruct (coerce_within name lo hi x Hn Hy) as (v' & Ev' & Hv'). assert (v' = new) as -> by congruence.
  assert (_NAME_RE name = true) as Hr.
  { unfold validate_param_change in Ev. by destruct (_NAME_RE name). }
  destruct (match dget name d with Some old => _ | None => _ end); [discriminate H|].
  apply Ok_inj in H. injection H as <-. exists new. split; [apply dget_dset_eq|]. split; [done|].
  unfold sanitize_entry. cbn [fst snd]. rewrite stable_valid by done. cbn [res_bind].
  destruct (within_stable name new Hv') as (_ & _ & z & _ & -> & _ & Ez). cbn [res_bind].
  by rewrite Ez.
Qed.

Lemma override_read_back_witness :
  exists doc new, override_document (VDict [("STOP_LOSS_PCT", VFloat 0.05%F)]) "LLM_CALL_DELAY_MS" (VStr "750")
      = Ok (inl doc) /\ dget "LLM_CALL_DELAY_MS" doc = Some new /\ within_bounds "LLM_CALL_DELAY_MS" new.
Proof.
  destruct (ok_with_inv (fun r => match r with inl _ => true | inr _ => false end)
    (override_document (VDict [("STOP_LOSS_PCT", VFloat 0.05%F)]) "LLM_CALL_DELAY_MS" (VStr "750"))
    ltac:(vm_compute; reflexivity)) as ([doc|] & E & H); [|discriminate H].
  destruct (override_read_back _ _ _ doc [] E) as (new & H1 & H2 & _). exists doc, new.
  split; [exact E|]. split; [exact H1|exact H2].
Defined.


(** An override file with an integer beyond the double range stops the process at
    import: the number is read with [float], whose overflow error no handler catches. *)
Theorem huge_override_raises :
  load_overrides (Parsed (VDict [("STOP_LOSS_PCT", VInt (10 ^ 400))])) = Raise OverflowError /\
  apply_param_overrides (Parsed (VDict [("STOP_LOSS_PCT", VInt (10 ^ 400))])) DEFAULT_CONSTANTS
    = Raise OverflowError.
Proof. split; vm_compute; reflexivity. Qed.
