(* ===== verification/Policy.v ===== *)
(** Policy: the regime-aware risk posture and the deterministic decision policy
    (api/services/regime_risk.py, api/services/decision_policy.py). *)
From S2P Require Import Prelude PyFloat FloatFacts PyVal PyMath Config Agents Params.

Definition RISK_ON : string := "risk_on".
Definition RISK_OFF : string := "risk_off".

Definition RISK_OFF_EXECUTION_DECISION_THRESHOLD : float := 0.65%F.
Definition RISK_OFF_STOP_LOSS_PCT : float := 0.03%F.
Definition RISK_OFF_TAKE_PROFIT_PCT : float := 0.06%F.
Definition DAILY_LOSS_LIMIT_PCT : float := 0.02%F.
Definition RISK_OFF_DAILY_LOSS_LIMIT_PCT : float := 0.015%F.
Definition RISK_OFF_SIZE_MULTIPLIER : float := 0.5%F.
Definition RISK_OFF_MIN_CONFIDENCE : float := 0.35%F.
Definition RISK_ON_BUY_THRESHOLD_DELTA : float := 0.05%F.

(** * Regime posture *)
Module Regime.

Definition regime_of (macro : val) : val :=
  match macro with VDict d => dget_or "regime" VNone d | _ => VNone end.

Definition is_risk_off (regime : val) : bool := val_eqb regime (VStr RISK_OFF).
Definition is_risk_on (regime : val) : bool := val_eqb regime (VStr RISK_ON).

Definition buy_threshold (regime : val) (default momentum : float) : float :=
  if is_risk_on regime && fleb 0.0%F momentum
  then fmax 0.0%F (default - RISK_ON_BUY_THRESHOLD_DELTA)%F
  else default.

Section Posture.
Context `{Constants}.

Definition stop_loss_pct (regime : val) (is_long : bool) : float :=
  if is_long && is_risk_off regime then RISK_OFF_STOP_LOSS_PCT else STOP_LOSS_PCT.

Definition take_profit_pct (regime : val) (is_long : bool) : float :=
  if is_long && is_risk_off regime then RISK_OFF_TAKE_PROFIT_PCT else TAKE_PROFIT_PCT.

End Posture.

Definition daily_loss_limit_pct (regime : val) : float :=
  if is_risk_off regime then RISK_OFF_DAILY_LOSS_LIMIT_PCT else DAILY_LOSS_LIMIT_PCT.

Definition size_multiplier (regime : val) (is_long : bool) : float :=
  if is_long && is_risk_off regime then RISK_OFF_SIZE_MULTIPLIER else 1.0%F.

Definition min_confidence (regime : val) (default : float) (is_long : bool) : float :=
  if is_long && is_risk_off regime then fmax default RISK_OFF_MIN_CONFIDENCE else default.

Definition execution_threshold (regime : val) (default : float) (is_long : bool) : float :=
  if is_long && is_risk_off regime then fmax default RISK_OFF_EXECUTION_DECISION_THRESHOLD
  else default.

End Regime.

(** * Decision policy *)

Record PolicyParams := {
  p_buy_threshold : float;
  p_sell_threshold : float;
  p_min_confidence : float;
  w_momentum : float;
  w_sentiment : float;
  w_macro : float;
  w_imbalance : float;
  base_size_pct : float;
  stop_atr_x : float;
  rr_ratio : float;
  directional_bias : float;
}.

Definition DEFAULT_POLICY_PARAMS : PolicyParams :=
  {| p_buy_threshold := 0.15; p_sell_threshold := 0.15; p_min_confidence := 0.20;
     w_momentum := 0.50; w_sentiment := 0.20; w_macro := 0.20; w_imbalance := 0.10;
     base_size_pct := 0.02; stop_atr_x := 1.5; rr_ratio := 2.0; directional_bias := 0.0 |}%F.

(** The module's active parameters: installing [None] resets them to the seed. *)
Definition set_policy_params (params : option PolicyParams) : PolicyParams :=
  match params with Some p => p | None => DEFAULT_POLICY_PARAMS end.

(** [d.get(k1) or d.get(k2) or ... or default] *)
Fixpoint first_truthy (ks : list string) (d : payload) (default : val) : val :=
  match ks with
  | [] => default
  | k :: ks' => let v := dget_or k VNone d in if truthy v then v else first_truthy ks' d default
  end.

(** [str(v).lower()] *)
Definition lower_str (v : val) : string :=
  String.string_of_list_ascii (map Parse.lower (String.list_ascii_of_string (Fmt.str v))).

(** [float(v or 0.0)] *)
Definition float_or_zero (v : val) : res float := if truthy v then py_float v else Ok 0.0%F.

Definition one_of (s : string) (l : list string) : bool := existsb (String.eqb s) l.

Definition _direction_sign (data : payload) : res (float * string) :=
  let raw := lower_str (first_truthy ["direction"; "signal"; "action"] data (VStr "")) in
  if one_of raw ["bullish"; "buy"; "long"] then Ok (1.0%F, raw)
  else if one_of raw ["bearish"; "sell"; "short"] then Ok ((-1.0)%F, raw)
  else
    let* pct := float_or_zero (dget_or "pct" VNone data) in
    let label := "pct " +:+ Fmt.fixed_plus 2 pct +:+ "%" in
    Ok (if fltb 0.0%F pct then (1.0%F, label)
        else if fltb pct 0.0%F then ((-1.0)%F, label)
        else (0.0%F, "flat")).

Definition _macro_sign (context : payload) : res float :=
  let* r := vget (or_empty (dget_or "macro_regime" VNone context)) "regime" VNone in
  let regime := if truthy r then lower_str r else "" in
  Ok (if String.eqb regime RISK_ON then 1.0%F
      else if String.eqb regime RISK_OFF then (-1.0)%F else 0.0%F).

Definition _clamp (value lo hi : float) : float := fmax lo (fmin hi value).

(** One clamped feature of the perception context. *)
Definition feature (context : payload) (source key : string) : res float :=
  let* v := vget (or_empty (dget_or source VNone context)) key VNone in
  let* x := float_or_zero v in Ok (_clamp x (-1.0)%F 1.0%F).

Definition blend (p : PolicyParams) (momentum sentiment macro imbalance : float) : float :=
  (w_momentum p * momentum + w_sentiment p * sentiment + w_macro p * macro
   + w_imbalance p * imbalance)%F.

(** The reported score: the blend with the control plane's lean, clamped and rounded. *)
Definition policy_score (p : PolicyParams) (momentum sentiment macro imbalance : float) : float :=
  py_round (_clamp (blend p momentum sentiment macro imbalance + directional_bias p)%F
              (-1.0)%F 1.0%F) 4.

Definition BUY : string := "buy".
Definition SELL : string := "sell".
Definition HOLD : string := "hold".

(** The cut: the action and its rationale. *)
Definition cut (p : PolicyParams) (score confidence buy_cut long_floor : float) : string * string :=
  let f2 := Fmt.fixed 2 in
  if fltb confidence (p_min_confidence p) then
    (HOLD, "confidence " +:+ f2 confidence +:+ " < " +:+ f2 (p_min_confidence p)
           +:+ " — insufficient conviction")
  else if fleb buy_cut score && fltb confidence long_floor then
    (HOLD, "risk-off regime: long confidence " +:+ f2 confidence +:+ " < " +:+ f2 long_floor
           +:+ " — marginal long rejected in a bearish market")
  else if fleb buy_cut score then
    (BUY, "score " +:+ Fmt.fixed_plus 3 score +:+ " ≥ buy_threshold " +:+ Fmt.fixed_plus 2 buy_cut)
  else if fleb score (- p_sell_threshold p)%F then
    (SELL, "score " +:+ Fmt.fixed_plus 3 score +:+ " ≤ -sell_threshold "
           +:+ Fmt.fixed_plus 2 (- p_sell_threshold p)%F)
  else
    (HOLD, "score " +:+ Fmt.fixed_plus 3 score +:+ " inside [-" +:+ f2 (p_sell_threshold p)
           +:+ ", " +:+ f2 buy_cut +:+ "]").

Definition size_of (p : PolicyParams) (confidence : float) : float :=
  py_round (_clamp (base_size_pct p * confidence)%F 0.005%F (base_size_pct p)) 4.

Definition risk_factors (p : PolicyParams) (momentum : float) (label : string)
    (sentiment macro imbalance score confidence buy_cut : float) : list string :=
  ["momentum " +:+ Fmt.fixed_plus 0 momentum +:+ " (" +:+ label +:+ ")";
   "sentiment " +:+ Fmt.fixed_plus 2 sentiment;
   "macro " +:+ Fmt.fixed_plus 0 macro;
   "imbalance " +:+ Fmt.fixed_plus 2 imbalance;
   "score " +:+ Fmt.fixed_plus 3 score;
   "confidence " +:+ Fmt.fixed 2 confidence]
  ++ (if ftruthy (directional_bias p)
      then ["directional_bias " +:+ Fmt.fixed_plus 2 (directional_bias p)] else [])
  ++ (if negb (feqb buy_cut (p_buy_threshold p))
      then ["risk_on_buy_cut " +:+ Fmt.fixed_plus 2 buy_cut] else []).

Definition decide_policy (data : payload) (context : option payload) (p : PolicyParams) : res payload :=
  let context := match context with Some c => c | None => [] end in
  let* (momentum, label) := _direction_sign data in
  let* sentiment := feature context "news_sentiment" "sentiment" in
  let* macro := _macro_sign context in
  let* imbalance := feature context "order_book" "imbalance" in
  let* c := float_or_zero (dget_or "composite_score" VNone data) in
  let confidence := _clamp c 0.0%F 1.0%F in
  let score := policy_score p momentum sentiment macro imbalance in
  let regime := Regime.regime_of (dget_or "macro_regime" VNone context) in
  let buy_cut := Regime.buy_threshold regime (p_buy_threshold p) momentum in
  let long_floor := Regime.min_confidence regime (p_min_confidence p) true in
  let '(action, why) := cut p score confidence buy_cut long_floor in
  Ok [("action", VStr action); ("confidence", VFloat (py_round confidence 4));
      ("primary_edge", VStr "policy:deterministic");
      ("reasoning", VStr ("Deterministic policy: " +:+ why +:+ "."));
      ("risk_factors", VList (map VStr
         (risk_factors p momentum label sentiment macro imbalance score confidence buy_cut)));
      ("size_pct", VFloat (size_of p confidence)); ("stop_atr_x", VFloat (stop_atr_x p));
      ("rr_ratio", VFloat (rr_ratio p))].

(** * Facts *)

Lemma fmax_below a b x : fltb x a = true -> fltb x (fmax a b) = true.
Proof.
  intros H. unfold fmax. destruct (fltb a b) eqn:E; [|done].
  exact (fltb_fleb_trans _ _ _ H (fltb_fleb _ _ E)).
Qed.

(** A lost or unknown regime never changes a risk parameter, and neither does any
    regime for a short; the risk-off posture keeps every entry bar at least as strict as
    its default, never scales a position up and trips the daily-loss switch sooner. The
    buy cut is eased only in an explicit risk-on regime on non-bearish momentum. *)
Theorem regime_entry_posture (r : val) (long : bool) (bar score : float) :
  (Regime.is_risk_off r && long = false ->
     Regime.size_multiplier r long = 1.0%F /\ Regime.min_confidence r bar long = bar /\
     Regime.execution_threshold r bar long = bar) /\
  (fltb score bar = true ->
     fltb score (Regime.min_confidence r bar long) = true /\
     fltb score (Regime.execution_threshold r bar long) = true) /\
  fleb (Regime.size_multiplier r long) 1.0%F = true /\
  fleb (Regime.daily_loss_limit_pct r) DAILY_LOSS_LIMIT_PCT = true /\
  (forall default m, Regime.is_risk_on r && fleb 0.0%F m = false -> Regime.buy_threshold r default m = default).
Proof.
  unfold Regime.size_multiplier, Regime.min_confidence, Regime.execution_threshold,
    Regime.daily_loss_limit_pct, Regime.buy_threshold.
  rewrite (andb_comm (Regime.is_risk_off r) long).
  split; [by intros ->|]. split; [|split; [|split]].
  - intros Hs. destruct (long && Regime.is_risk_off r); [|done]. split; by apply fmax_below.
  - destruct (long && Regime.is_risk_off r); fconst.
  - destruct (Regime.is_risk_off r); fconst.
  - by intros default m ->.
Qed.

Lemma regime_entry_posture_witness :
  fltb 0.3%F (Regime.min_confidence (VStr RISK_OFF) 0.31%F true) = true /\
  Regime.min_confidence VNone 0.31%F true = 0.31%F.
Proof.
  split.
  - apply (proj1 (proj2 (regime_entry_posture (VStr RISK_OFF) true 0.31%F 0.3%F))). fconst.
  - apply (proj1 (regime_entry_posture VNone true 0.31%F 0.3%F)). reflexivity.
Defined.

(** An override file that only tightens the stop. *)
Definition tight_stop : file_read := Parsed (VDict [("STOP_LOSS_PCT", VFloat 0.02%F)]).

(** The risk-off stop is a fixed number, not a minimum: after a valid override that
    tightens the default stop below it, a risk-off regime loosens the stop of a long. *)
Theorem risk_off_can_loosen :
  exists g c, apply_param_overrides tight_stop DEFAULT_CONSTANTS = Ok g /\ constants_of g = Ok c /\
    fltb (@Regime.stop_loss_pct c VNone true) (@Regime.stop_loss_pct c (VStr RISK_OFF) true) = true.
Proof.
  destruct (ok_with_inv (fun g => match constants_of g with
      | Ok c => fltb (@Regime.stop_loss_pct c VNone true) (@Regime.stop_loss_pct c (VStr RISK_OFF) true)
      | Raise _ => false end) (apply_param_overrides tight_stop DEFAULT_CONSTANTS)
    ltac:(vm_compute; reflexivity)) as (g & E & H).
  destruct (constants_of g) as [c|] eqn:Ec; [|discriminate H]. exists g, c.
  split; [exact E|]. split; [exact Ec|exact H].
Qed.

Lemma clamp_range x lo hi : fleb lo hi = true -> within lo hi (_clamp x lo hi).
Proof. apply clamp_in_within. Qed.

Lemma score_clamped x : unit_signed (py_round (_clamp x (-1.0)%F 1.0%F) 4).
Proof. apply round_unit_signed; [by left|]. apply clamp_range. fconst. Qed.

Lemma confidence_clamped x : unit_pos (_clamp x 0.0%F 1.0%F).
Proof. apply clamp_range. fconst. Qed.

Lemma cut_action p s c b f :
  (fst (cut p s c b f) = BUY ->
     fltb c (p_min_confidence p) = false /\ fltb c f = false /\ fleb b s = true) /\
  (fst (cut p s c b f) = SELL ->
     fltb c (p_min_confidence p) = false /\ fleb s (- p_sell_threshold p)%F = true /\ fleb b s = false) /\
  fst (cut p s c b f) ∈ [BUY; SELL; HOLD].
Proof.
  unfold cut. destruct (fltb c (p_min_confidence p)).
  { split; [discriminate|]. split; [discriminate|]. set_solver. }
  destruct (fleb b s) eqn:Eb; cbn [andb].
  - destruct (fltb c f) eqn:Ef.
    + split; [discriminate|]. split; [discriminate|]. set_solver.
    + split; [done|]. split; [discriminate|]. set_solver.
  - destruct (fleb s (- p_sell_threshold p)%F) eqn:Es.
    + split; [discriminate|]. split; [done|]. set_solver.
    + split; [discriminate|]. split; [discriminate|]. set_solver.
Qed.

(** Every decision of the fast path is a buy, a sell or a hold, decided by the score of
    the perceived features, always in [-1, 1], and by a confidence in [0, 1], the one it
    reports. It trades only at or above the minimum confidence, buys only when the score
    reaches the regime's cut, in a risk-off regime only with the raised conviction, and
    sells only at or below the sell cut. *)
Theorem policy_trades_justified data context p out :
  decide_policy data (Some context) p = Ok out ->
  exists act momentum label sentiment macro imbalance c,
    _direction_sign data = Ok (momentum, label) /\
    feature context "news_sentiment" "sentiment" = Ok sentiment /\
    _macro_sign context = Ok macro /\
    feature context "order_book" "imbalance" = Ok imbalance /\
    float_or_zero (dget_or "composite_score" VNone data) = Ok c /\
    dget "action" out = Some (VStr act) /\ act ∈ [BUY; SELL; HOLD] /\
    let conf := _clamp c 0.0%F 1.0%F in
    let score := policy_score p momentum sentiment macro imbalance in
    let regime := Regime.regime_of (dget_or "macro_regime" VNone context) in
    let buy_cut := Regime.buy_threshold regime (p_buy_threshold p) momentum in
    dget "confidence" out = Some (VFloat (py_round conf 4)) /\ unit_pos conf /\ unit_signed score /\
    (act = BUY -> fltb conf (p_min_confidence p) = false /\ fleb buy_cut score = true /\
       fltb conf (Regime.min_confidence regime (p_min_confidence p) true) = false) /\
    (act = SELL -> fltb conf (p_min_confidence p) = false /\
       fleb score (- p_sell_threshold p)%F = true /\ fleb buy_cut score = false).
Proof.
  intros H. unfold decide_policy in H.
  apply res_bind_Ok in H as ([momentum label] & E1 & H). apply res_bind_Ok in H as (sentiment & E2 & H).
  apply res_bind_Ok in H as (macro & E3 & H). apply res_bind_Ok in H as (imbalance & E4 & H).
  apply res_bind_Ok in H as (c & E5 & H).
  match type of H with (let '(_, _) := cut _ ?s ?k ?b ?f in _) = _ =>
    pose proof (cut_action p s k b f) as Hcut; destruct (cut p s k b f) as [act why] end.
  apply Ok_inj in H as <-. cbn [fst] in Hcut. destruct Hcut as (Hb & Hs & Hin).
  exists act, momentum, label, sentiment, macro, imbalance, c.
  do 5 (split; [assumption|]). split; [reflexivity|]. split; [exact Hin|]. cbv zeta.
  split; [reflexivity|]. split; [apply confidence_clamped|]. split; [apply score_clamped|].
  split; [|exact Hs].
  intros Ha. destruct (Hb Ha) as (H1 & H2 & H3). split; [exact H1|]. split; [exact H3|exact H2].
Qed.

Definition bullish_signal : payload := [("direction", VStr "Bullish"); ("composite_score", VFloat 0.34%F)].
Definition bear_market : payload := [("macro_regime", VDict [("regime", VStr "risk_off")])].

(** The same bullish signal is bought in a calm market and held in a risk-off one. *)
Lemma policy_trades_justified_witness :
  exists out, decide_policy bullish_signal (Some []) DEFAULT_POLICY_PARAMS = Ok out /\
    dget "action" out = Some (VStr BUY) /\
    (exists c, fltb (_clamp c 0.0%F 1.0%F) (p_min_confidence DEFAULT_POLICY_PARAMS) = false) /\
    ok_with (fun o => match dget "action" o with Some (VStr a) => String.eqb a HOLD | _ => false end)
      (decide_policy bullish_signal (Some bear_market) DEFAULT_POLICY_PARAMS) = true.
Proof.
  destruct (ok_with_inv (fun o => match dget "action" o with Some (VStr a) => String.eqb a BUY | _ => false end)
    (decide_policy bullish_signal (Some []) DEFAULT_POLICY_PARAMS) ltac:(vm_compute; reflexivity)) as (out & E & H).
  exists out. split; [exact E|].
  destruct (policy_trades_justified _ _ _ out E)
    as (a & m & l & s & ma & i & c & _ & _ & _ & _ & _ & Ha & _ & _ & _ & _ & Hb & _).
  rewrite Ha in H. apply String.eqb_eq in H as ->. split; [exact Ha|].
  split; [exists c; exact (proj1 (Hb eq_refl))|]. vm_compute. reflexivity.
Defined.

(** The fast path raises on malformed inputs, which it is documented never to do: text
    that is no number as a score, and a perception that is no object. *)
Theorem policy_raises p :
  decide_policy [("direction", VStr "buy"); ("composite_score", VStr "n/a")] None p = Raise ValueError /\
  decide_policy [("direction", VStr "buy")] (Some [("news_sentiment", VStr "bullish")]) p
    = Raise AttributeError.
Proof. split; vm_compute; reflexivity. Qed.
