(* ===== verification/Filters.v ===== *)
(** Filters: risk filters and position sizing (api/services/risk_filters.py). *)
From S2P Require Import Prelude PyFloat FloatFacts PyVal PyMath Agents.

(** * Indicators *)

(** The differences of consecutive prices, oldest first. *)
Fixpoint deltas (prices : list float) : list float :=
  match prices with
  | p :: (q :: _) as rest => (q - p)%F :: deltas rest
  | _ => []
  end.

Definition gain (delta : float) : float := if fleb 0.0%F delta then delta else 0.0%F.
Definition loss (delta : float) : float := if fleb 0.0%F delta then 0.0%F else fabs delta.

(** [sum(l[-period:]) / period] *)
Definition recent_mean (period : Z) (l : list float) : res float :=
  fdiv (fsum_left (slice_last period l)) (of_Z period).

Definition compute_rsi (prices : list float) (period : Z) : res (option float) :=
  if zlen prices <? period + 1 then Ok None
  else
    let* avg_gain := recent_mean period (map gain (deltas prices)) in
    let* avg_loss := recent_mean period (map loss (deltas prices)) in
    if feqb avg_gain 0.0%F && feqb avg_loss 0.0%F then Ok (Some 50.0%F)
    else if feqb avg_loss 0.0%F then Ok (Some 100.0%F)
    else
      let* rs := fdiv avg_gain avg_loss in
      let* q := fdiv 100.0%F (1.0 + rs)%F in
      Ok (Some (py_round (100.0 - q)%F 4)).

Definition compute_atr_from_prices (prices : list float) (period : Z) : res (option float) :=
  if zlen prices <? period + 1 then Ok None
  else
    let* m := recent_mean period (map fabs (deltas prices)) in
    Ok (Some (py_round m 8)).

Definition is_regime_tradeable (atr_history : list float) (avg_period : Z) : res bool :=
  if zlen atr_history <? avg_period then Ok true
  else
    match last atr_history with
    | None => Raise IndexError
    | Some current_atr =>
        let* avg_atr := recent_mean avg_period atr_history in
        Ok (fleb avg_atr current_atr)
    end.

(** * Cooling off *)

(** One outcome, newest first: the total weight, the weight of the losses, the next weight. *)
Definition cool_step (decay : float) (acc : float * float * float) (outcome : float)
  : float * float * float :=
  let '(total_weight, loss_weight, weight) := acc in
  ((total_weight + weight)%F,
   (if fltb outcome 0.0%F then loss_weight + weight else loss_weight)%F,
   (weight * decay)%F).

Definition cooling_off_score (recent_outcomes : list float) (decay : float) : res float :=
  match recent_outcomes with
  | [] => Ok 0.0%F
  | _ =>
      let '(total_weight, loss_weight, _) :=
        fold_left (cool_step decay) (rev recent_outcomes) (0.0%F, 0.0%F, 1.0%F) in
      if feqb total_weight 0.0%F then Ok 0.0%F
      else let* r := fdiv loss_weight total_weight in Ok (py_round r 4)
  end.

Definition is_cooling_off (recent_outcomes : list float) (decay threshold : float) : res bool :=
  let* s := cooling_off_score recent_outcomes decay in Ok (fleb threshold s).

(** * Expected value and sizing *)

Definition compute_net_ev (expected_return_pct confidence slippage_pct commission_per_side : float)
  : float :=
  let total_cost := ((slippage_pct + commission_per_side) * 2.0)%F in
  let raw_ev := (expected_return_pct * confidence)%F in
  py_round (raw_ev - total_cost)%F 6.

Definition compute_kelly_size (win_prob win_fraction loss_fraction kelly_scale max_risk_pct : float)
  : res float :=
  if fleb win_fraction 0.0%F || fleb loss_fraction 0.0%F || fleb win_prob 0.0%F then Ok 0.0%F
  else
    let* b := fdiv win_fraction loss_fraction in
    let* full_kelly := fdiv (win_prob * b - (1.0 - win_prob))%F b in
    if fleb full_kelly 0.0%F then Ok 0.0%F
    else
      let scaled := (full_kelly * kelly_scale)%F in
      Ok (py_round (fmin scaled max_risk_pct) 6).

Definition compute_dynamic_position_size
    (confidence stop_loss_pct take_profit_pct kelly_scale max_risk_pct : float) : res float :=
  if fleb confidence 0.0%F || fleb stop_loss_pct 0.0%F then Ok 0.0%F
  else
    let effective_tp := fmax take_profit_pct (stop_loss_pct * 2.0)%F in
    compute_kelly_size confidence effective_tp stop_loss_pct kelly_scale max_risk_pct.

(** * Facts *)

Lemma zero_lit : 0.0%F = Fin 0.
Proof. fconst. Qed.

(** [2^k] as a double. *)
Definition pow2f (k : Z) : float := Fin (2 ^ k * scale).

Lemma pow2f_repr k : 0 <= k -> Rnd.repr (2 ^ k * scale).
Proof.
  intros Hk. rewrite scale_spec, <-Z.pow_add_r by lia.
  replace (2 ^ (k + 1074)) with (1 * 2 ^ (k + 1074)) by lia. apply Rnd.repr_shift; lia.
Qed.

Lemma pow2f_bound k : 0 <= k <= 1000 -> 0 < 2 ^ k * scale < bound.
Proof.
  intros Hk. pose proof scale_pos. pose proof (Z.pow_pos_nonneg 2 k ltac:(lia) ltac:(lia)).
  split; [nia|]. rewrite scale_spec, bound_spec, <-Z.pow_add_r by lia.
  apply Z.pow_lt_mono_r; lia.
Qed.

Lemma pow2f_ok k : 0 <= k <= 1000 -> fin_ok (pow2f k) = true.
Proof.
  intros Hk. pose proof (pow2f_bound k Hk). unfold fin_ok, pow2f. simpl. apply Z.ltb_lt. lia.
Qed.

Lemma pow2f_mono j k : 0 <= j <= k -> k <= 1000 -> fleb (pow2f j) (pow2f k) = true.
Proof.
  intros Hj Hk. apply fleb_key. exists (2 ^ j * scale), (2 ^ k * scale).
  split; [reflexivity|]. split; [reflexivity|]. pose proof scale_pos.
  pose proof (Z.pow_le_mono_r 2 j k ltac:(lia) ltac:(lia)). nia.
Qed.

(** A non-negative double up to [2^k]. *)
Definition upto (k : Z) (x : float) : Prop := within (Fin 0) (pow2f k) x.

Lemma upto_finite k x : 0 <= k <= 1000 -> upto k x -> is_finite x = true.
Proof. intros Hk. apply within_finite; [reflexivity|by apply pow2f_ok]. Qed.

Lemma upto_weaken j k x : 0 <= j <= k -> k <= 1000 -> upto j x -> upto k x.
Proof. intros Hj Hk. apply within_weaken; [reflexivity|by apply pow2f_mono]. Qed.

Lemma upto_units k x : 0 <= k <= 1000 -> upto k x -> 0 <= units x <= 2 ^ k * scale.
Proof.
  intros Hk Hx. pose proof (upto_finite _ _ Hk Hx) as Fx. destruct Hx as [H1 H2].
  apply (fleb_units (Fin 0) x eq_refl Fx) in H1. apply (fleb_units x (pow2f k) Fx eq_refl) in H2.
  exact (conj H1 H2).
Qed.

Lemma fadd_upto k x y : 0 <= k < 1000 -> upto k x -> upto k y -> upto (k + 1) (fadd x y).
Proof.
  intros Hk Hx Hy.
  pose proof (upto_finite k x ltac:(lia) Hx) as Fx. pose proof (upto_finite k y ltac:(lia) Hy) as Fy.
  pose proof (upto_units k x ltac:(lia) Hx). pose proof (upto_units k y ltac:(lia) Hy).
  pose proof (pow2f_bound (k + 1) ltac:(lia)) as Hb. pose proof (fadd_key x y Fx Fy) as K.
  set (s := Rnd.rnd (units x + units y) 1) in *.
  assert (0 <= s) by (apply Rnd.rnd_nonneg; lia).
  assert (s <= 2 ^ (k + 1) * scale).
  { apply Rnd.rnd_le; [lia|apply pow2f_repr; lia|]. rewrite Z.pow_add_r by lia. lia. }
  assert (sat s = s) as Es by (unfold sat; lia). rewrite Es in K.
  split; apply fleb_key.
  - exists 0, s. split; [reflexivity|]. split; [exact K|lia].
  - exists s, (2 ^ (k + 1) * scale). split; [exact K|]. split; [reflexivity|lia].
Qed.

Lemma fold_upto l : forall k acc, 0 <= k -> k + zlen l <= 1000 -> upto k acc ->
  Forall (upto k) l -> upto (k + zlen l) (fold_left fadd l acc).
Proof.
  induction l as [|x l IH]; intros k acc Hk Hl Ha Hx.
  { simpl. unfold zlen in *. simpl in *. by rewrite Z.add_0_r. }
  apply Forall_cons in Hx as [Hx Hr].
  assert (zlen (x :: l) = zlen l + 1) as E by (unfold zlen; simpl; lia). rewrite E in *.
  assert (0 <= zlen l) by (unfold zlen; lia).
  replace (k + (zlen l + 1)) with (k + 1 + zlen l) by lia. simpl.
  apply IH; [lia|lia|apply fadd_upto; [lia|exact Ha|exact Hx]|].
  eapply Forall_impl; [exact Hr|]. intros y. apply upto_weaken; lia.
Qed.

Lemma recent_mean_upto period l :
  1 <= period <= 900 -> Forall (upto 42) l ->
  exists m, recent_mean period l = Ok m /\ upto 942 m.
Proof.
  intros Hp Hl. unfold recent_mean, fsum_left. set (r := slice_last period l).
  assert (zlen r <= 900) as Hr.
  { unfold zlen, r. pose proof (slice_last_length period l ltac:(lia)). lia. }
  assert (upto 942 (fold_left fadd r (Fin 0))) as Hs.
  { apply (upto_weaken (42 + zlen r)); [unfold zlen in *; lia|lia|].
    apply fold_upto; [lia|lia|split; [reflexivity|fconst]|by apply Forall_slice_last]. }
  set (s := fold_left fadd r (Fin 0)) in *.
  pose proof (upto_finite 942 s ltac:(lia) Hs) as Fs.
  destruct (trunc_of_Z period ltac:(lia)) as [Fp _].
  assert (fleb 1.0%F (of_Z period) = true) as H1
    by (refine (fleb_trans _ (of_Z 1) _ _ (of_Z_mono 1 period ltac:(lia))); fconst).
  assert (fltb (Fin 0) (of_Z period) = true) as H0
    by (refine (fltb_fleb_trans _ _ _ _ H1); fconst).
  unfold fdiv. rewrite of_Z_nonzero by lia. exists (fdiv_nz s (of_Z period)). split; [reflexivity|].
  destruct Hs as [Hs0 Hs1]. split; [by apply fdiv_nonneg|].
  refine (fleb_trans _ (fdiv_nz (pow2f 942) 1.0%F) _ _ _); [|fconst].
  apply fdiv_mono_nonneg; [exact Fs|fconst|exact Fp|fconst|exact Hs0|fconst|exact Hs1|exact H1].
Qed.

Lemma deltas_ok prices : Forall sample_ok prices -> Forall (within (-2e12)%F 2e12%F) (deltas prices).
Proof.
  induction prices as [|p [|q rest] IH]; intros H; [constructor|constructor|].
  apply Forall_cons in H as [Hp Hr]. change (deltas (p :: q :: rest)) with ((q - p)%F :: deltas (q :: rest)).
  constructor; [|by apply IH]. apply Forall_cons in Hr as [Hq _].
  refine (fsub_within (-1e12)%F 1e12%F (-1e12)%F 1e12%F _ _ q p _ _ _ _ _ _ Hq Hp); fconst.
Qed.

Lemma gain_upto d : within (-2e12)%F 2e12%F d -> upto 42 (gain d).
Proof.
  intros [_ H]. unfold gain. destruct (fleb 0.0%F d) eqn:E; rewrite zero_lit in *.
  - split; [exact E|]. refine (fleb_trans _ _ _ H _). fconst.
  - split; fconst.
Qed.

Lemma fabs_upto d : within (-2e12)%F 2e12%F d -> upto 42 (fabs d).
Proof.
  intros H. assert (is_finite d = true) as Fd by (revert H; apply within_finite; fconst).
  destruct H as [H1 H2]. pose proof (finite_key _ Fd) as K.
  assert (key (fabs d) = Some (Z.abs (units d))) as Ka by (rewrite key_fabs, K; reflexivity).
  assert (units (-2e12)%F = - (2 * 10 ^ 12 * scale)) as El by fconst.
  assert (units 2e12%F = 2 * 10 ^ 12 * scale) as Eh by fconst.
  assert (is_finite (-2e12)%F = true) as Fl by fconst. assert (is_finite 2e12%F = true) as Fh by fconst.
  apply (fleb_units _ _ Fl Fd) in H1. apply (fleb_units _ _ Fd Fh) in H2. rewrite El in H1. rewrite Eh in H2.
  split; apply fleb_key.
  - exists 0, (Z.abs (units d)). split; [reflexivity|]. split; [exact Ka|lia].
  - exists (Z.abs (units d)), (2 ^ 42 * scale). split; [exact Ka|]. split; [reflexivity|].
    pose proof scale_pos. lia.
Qed.

Lemma loss_upto d : within (-2e12)%F 2e12%F d -> upto 42 (loss d).
Proof.
  intros H. unfold loss. destruct (fleb 0.0%F d); [split; fconst|by apply fabs_upto].
Qed.

Lemma recent_mean_deltas (f : float -> float) period prices :
  (forall d, within (-2e12)%F 2e12%F d -> upto 42 (f d)) ->
  1 <= period <= 900 -> Forall sample_ok prices ->
  exists m, recent_mean period (map f (deltas prices)) = Ok m /\ upto 942 m.
Proof.
  intros Hf Hp Hl. apply recent_mean_upto; [exact Hp|]. apply Forall_map.
  eapply Forall_impl; [by apply deltas_ok|exact Hf].
Qed.

(** [100 - 100 / (1 + rs)] for a non-negative quotient, infinite included. *)
Lemma rsi_formula rs : fleb (Fin 0) rs = true ->
  exists q, fdiv 100.0%F (1.0 + rs)%F = Ok q /\ within (Fin 0) 100.0%F (py_round (100.0 - q)%F 4).
Proof.
  intros H. assert (fleb 1.0%F (1.0 + rs)%F = true) as H1.
  { destruct (is_finite rs) eqn:Fr.
    - apply fadd_ge_l; [|fconst|exact Fr|exact H]. unfold double.
      assert (units 1.0%F = 2 ^ 0 * scale) as -> by fconst. apply pow2f_repr. lia.
    - destruct rs as [|[]| |]; try discriminate Fr; [discriminate H|discriminate H|].
      fconst. }
  assert (fltb (Fin 0) (1.0 + rs)%F = true) as H0 by (refine (fltb_fleb_trans _ _ _ _ H1); fconst).
  set (d := (1.0 + rs)%F) in *. unfold fdiv. destruct (is_zero d) eqn:Ez.
  { exfalso. apply is_zero_le in Ez. pose proof (fltb_fleb_trans _ _ _ H0 Ez) as Hc.
    rewrite fltb_irrefl in Hc. discriminate Hc. }
  eexists. split; [reflexivity|].
  assert (within (Fin 0) 100.0%F (fdiv_nz 100.0%F d)) as Hq.
  { destruct (is_finite d) eqn:Fd.
    - split; [apply fdiv_nonneg; [fconst|exact Fd|fconst|exact H0]|].
      refine (fleb_trans _ (fdiv_nz 100.0%F 1.0%F) _ _ _); [|fconst].
      apply fdiv_mono_nonneg; [fconst|fconst|exact Fd|fconst|fconst|fconst|fconst|exact H1].
    - destruct d as [|[]| |]; try discriminate Fd; [discriminate H0|discriminate H0|].
      split; fconst. }
  refine (py_round_within (Fin 0) 100.0%F _ _ _ 4 ltac:(lia) _ _ _ _ _); [reflexivity|fconst|fconst|fconst|].
  apply (fsub_within 100.0%F 100.0%F (Fin 0) 100.0%F); [fconst|fconst|fconst|fconst|fconst|fconst| |exact Hq].
  split; fconst.
Qed.

Lemma feqb_zero_false x : fleb (Fin 0) x = true -> feqb x 0.0%F = false ->
  is_zero x = false.
Proof.
  intros _ E. destruct x as [|[]| |n]; try reflexivity; rewrite zero_lit in E.
  - discriminate E.
  - destruct n; [discriminate E|reflexivity|reflexivity].
Qed.

Lemma pos_of_nonzero x : fleb (Fin 0) x = true -> is_zero x = false -> fltb (Fin 0) x = true.
Proof.
  intros H Hz. pose proof (fleb_not_nan_r _ _ H) as Hn.
  destruct (fltb (Fin 0) x) eqn:E; [reflexivity|]. exfalso.
  apply fltb_false in E; [|discriminate|exact Hn].
  pose proof (LibmRef.is_zero_key x E H) as Hc. rewrite Hc in Hz. discriminate Hz.
Qed.

(** With enough history the RSI exists and is a number in [0, 100], however violent
    the moves (the quotient of the averages may overflow to infinity), and with too
    little history it is absent. *)
Theorem rsi_range prices period :
  1 <= period <= 900 -> Forall sample_ok prices ->
  (zlen prices <= period -> compute_rsi prices period = Ok None) /\
  (period < zlen prices ->
   exists r, compute_rsi prices period = Ok (Some r) /\ within (Fin 0) 100.0%F r).
Proof.
  intros Hp Hl. unfold compute_rsi. split; intros Hlen.
  { by replace (zlen prices <? period + 1) with true by (symmetry; apply Z.ltb_lt; lia). }
  replace (zlen prices <? period + 1) with false by (symmetry; apply Z.ltb_ge; lia).
  destruct (recent_mean_deltas gain period prices gain_upto Hp Hl) as (g & -> & Hg).
  destruct (recent_mean_deltas loss period prices loss_upto Hp Hl) as (l & -> & Hls).
  cbn [res_bind]. destruct (feqb g 0.0%F && feqb l 0.0%F).
  { eexists. split; [reflexivity|]. split; fconst. }
  destruct (feqb l 0.0%F) eqn:El; [eexists; split; [reflexivity|]; split; fconst|].
  pose proof (feqb_zero_false l (proj1 Hls) El) as Hz. unfold fdiv at 1. rewrite Hz. cbn [res_bind].
  pose proof (upto_finite 942 g ltac:(lia) Hg) as Fg. pose proof (upto_finite 942 l ltac:(lia) Hls) as Fl.
  destruct (rsi_formula (fdiv_nz g l)) as (q & -> & Hq).
  { apply fdiv_nonneg; [exact Fg|exact Fl|exact (proj1 Hg)|]. by apply pos_of_nonzero; [apply Hls|]. }
  cbn [res_bind]. eexists. split; [reflexivity|exact Hq].
Qed.

Lemma rsi_range_witness :
  exists r, compute_rsi [100.0; 101.5; 99.0; 103.0]%F 3 = Ok (Some r) /\ within (Fin 0) 100.0%F r.
Proof.
  apply (proj2 (rsi_range [100.0; 101.5; 99.0; 103.0]%F 3 ltac:(lia)
    ltac:(repeat constructor; vm_compute; reflexivity))).
  vm_compute; reflexivity.
Defined.

(** ** Cooling off *)

Lemma fadd_nonneg x y :
  is_finite x = true -> is_finite y = true ->
  fleb (Fin 0) x = true -> fleb (Fin 0) y = true -> fleb (Fin 0) (x + y)%F = true.
Proof.
  intros Fx Fy Hx Hy. refine (fleb_trans _ (Fin 0 + Fin 0)%F _ _ _); [fconst|].
  exact (fadd_mono (Fin 0) x (Fin 0) y eq_refl Fx eq_refl Fy Hx Hy).
Qed.

(** The totals after [k] outcomes: [0 <= loss <= total <= k], the next weight in [0, 1]. *)
Definition cool_ok (k : Z) (acc : float * float * float) : Prop :=
  let '(total, lossw, weight) := acc in
  double total /\ double lossw /\ within (Fin 0) total lossw /\ fleb total (of_Z k) = true /\ unit_pos weight.

Lemma of_Z_ok k : 0 <= k <= 2 ^ 53 -> fin_ok (of_Z k) = true.
Proof.
  intros Hk. destruct (trunc_of_Z k ltac:(lia)) as [F _]. unfold fin_ok. rewrite F.
  pose proof (of_Z_exact k ltac:(lia)) as K. rewrite (finite_key _ F) in K. apply Some_inj in K.
  rewrite K. cbn [andb]. apply Z.ltb_lt. pose proof scale_pos.
  assert (2 ^ 53 * scale < bound) by (by vm_compute). nia.
Qed.

Lemma of_Z_succ k : 0 <= k < 2 ^ 53 -> fleb (of_Z k + 1.0)%F (of_Z (k + 1)) = true.
Proof.
  intros Hk. pose proof (fin_ok_finite _ (of_Z_ok k ltac:(lia))) as F.
  assert (is_finite 1.0%F = true) as F1 by fconst.
  pose proof (fadd_key (of_Z k) 1.0%F F F1) as K.
  pose proof (of_Z_exact k ltac:(lia)) as Ek. rewrite (finite_key _ F) in Ek. apply Some_inj in Ek.
  assert (units 1.0%F = scale) as E1 by fconst. rewrite Ek, E1 in K.
  replace (k * scale + scale) with ((k + 1) * scale) in K by lia.
  apply fleb_key. exists ((k + 1) * scale), ((k + 1) * scale).
  split; [|split; [apply of_Z_exact; lia|lia]]. rewrite K.
  rewrite <-(Z.mul_1_r ((k + 1) * scale)), Rnd.rnd_exact by (lia || apply repr_int; lia).
  by rewrite Z.mul_1_r, sat_int by lia.
Qed.

Lemma unit_pos_fin_ok x : unit_pos x -> fin_ok x = true.
Proof. apply within_fin_ok; fconst. Qed.

Lemma unit_pos_nonneg x : unit_pos x -> fleb (Fin 0) x = true.
Proof. intros [H _]. by rewrite zero_lit in H. Qed.

Lemma double_zero : double (Fin 0).
Proof. unfold double. simpl. by apply (repr_int 0). Qed.

Lemma cool_step_ok decay k acc x :
  0 <= k < 2 ^ 53 -> unit_pos decay -> cool_ok k acc -> cool_ok (k + 1) (cool_step decay acc x).
Proof.
  destruct acc as [[total lossw] weight]. intros Hk Hd (Hdb & Hdl & Hl & Ht & Hw). unfold cool_step, cool_ok.
  assert (within (Fin 0) (of_Z k) total) as Hwt.
  { split; [exact (fleb_trans _ _ _ (proj1 Hl) (proj2 Hl))|exact Ht]. }
  pose proof (of_Z_ok k ltac:(lia)) as Ok_k. pose proof (fin_ok_finite _ Ok_k) as Fk.
  pose proof (within_finite (Fin 0) _ _ eq_refl Ok_k Hwt) as Ft.
  pose proof (within_fin_ok (Fin 0) _ _ eq_refl Ok_k Hwt) as Ot.
  pose proof (within_finite (Fin 0) _ _ eq_refl Ot Hl) as Fl.
  pose proof (fin_ok_finite _ (unit_pos_fin_ok _ Hw)) as Fw.
  pose proof (unit_pos_nonneg _ Hw) as Hw0.
  assert (is_finite 1.0%F = true) as F1 by fconst.
  assert (fleb (total + weight)%F (of_Z (k + 1)) = true) as Hk1.
  { refine (fleb_trans _ (of_Z k + 1.0)%F _ _ (of_Z_succ k Hk)).
    exact (fadd_mono _ _ _ _ Ft Fk Fw F1 Ht (proj2 Hw)). }
  split; [exact (double_fadd _ _ Ft Fw)|].
  split; [destruct (fltb x 0.0%F); [exact (double_fadd _ _ Fl Fw)|exact Hdl]|].
  split; [|split; [exact Hk1|]].
  - destruct (fltb x 0.0%F).
    + split; [exact (fadd_nonneg _ _ Fl Fw (proj1 Hl) Hw0)|].
      exact (fadd_mono _ _ _ _ Fl Ft Fw Fw (proj2 Hl) (fleb_refl _ (finite_not_nan _ Fw))).
    + split; [exact (proj1 Hl)|].
      exact (fleb_trans _ _ _ (proj2 Hl) (fadd_ge_l _ _ Hdb Ot Fw Hw0)).
  - unfold unit_pos in *. rewrite zero_lit in *.
    apply (fmul_within 1.0%F 1.0%F); [fconst|fconst|fconst|exact Hw|exact Hd].
Qed.

Lemma cool_fold_ok decay l : forall k acc, unit_pos decay -> 0 <= k -> k + zlen l <= 2 ^ 53 ->
  cool_ok k acc -> cool_ok (k + zlen l) (fold_left (cool_step decay) l acc).
Proof.
  induction l as [|x l IH]; intros k acc Hd Hk Hl H.
  { unfold zlen in *. cbn [length Z.of_nat fold_left] in *. by rewrite Z.add_0_r. }
  assert (zlen (x :: l) = zlen l + 1) as E by (unfold zlen; simpl; lia). rewrite E in *.
  assert (0 <= zlen l) by (unfold zlen; lia).
  replace (k + (zlen l + 1)) with (k + 1 + zlen l) by lia. cbn [fold_left].
  apply IH; [exact Hd|lia|lia|]. apply cool_step_ok; [lia|exact Hd|exact H].
Qed.

Lemma cool_init : cool_ok 0 (0.0%F, 0.0%F, 1.0%F).
Proof.
  unfold cool_ok. rewrite zero_lit. split; [exact double_zero|].
  split; [exact double_zero|]. split; [split; reflexivity|]. split; [fconst|split; fconst].
Qed.

(** The newest outcome weighs 1, so the total is positive. *)
Lemma cool_total_mono decay l : forall k acc, unit_pos decay -> 0 <= k -> k + zlen l <= 2 ^ 53 ->
  cool_ok k acc -> fleb (fst (fst acc)) (fst (fst (fold_left (cool_step decay) l acc))) = true.
Proof.
  induction l as [|x l IH]; intros k acc Hd Hk Hl H; cbn [fold_left].
  { apply fleb_refl. destruct acc as [[t lw] w]. destruct H as (_ & _ & _ & Ht & _).
    by apply fleb_not_nan_l in Ht. }
  assert (zlen (x :: l) = zlen l + 1) as E by (unfold zlen; simpl; lia). rewrite E in *.
  assert (0 <= zlen l) by (unfold zlen; lia).
  pose proof (cool_step_ok decay k acc x ltac:(lia) Hd H) as H'.
  refine (fleb_trans _ _ _ _ (IH (k + 1) _ Hd ltac:(lia) ltac:(lia) H')).
  destruct acc as [[t lw] w]. destruct H as (Hdb & _ & Hlw & Ht & Hw).
  assert (within (Fin 0) (of_Z k) t) as Hwt.
  { split; [exact (fleb_trans _ _ _ (proj1 Hlw) (proj2 Hlw))|exact Ht]. }
  cbn [cool_step fst]. apply fadd_ge_l; [exact Hdb| | |by apply unit_pos_nonneg].
  - exact (within_fin_ok (Fin 0) _ _ eq_refl (of_Z_ok k ltac:(lia)) Hwt).
  - exact (fin_ok_finite _ (unit_pos_fin_ok _ Hw)).
Qed.

Lemma cooling_off_value l decay :
  l <> [] -> zlen l <= 2 ^ 53 -> unit_pos decay ->
  exists t lw w, fold_left (cool_step decay) (rev l) (0.0%F, 0.0%F, 1.0%F) = (t, lw, w) /\
    cool_ok (zlen l) (t, lw, w) /\ fleb 1.0%F t = true /\
    cooling_off_score l decay = Ok (py_round (fdiv_nz lw t) 4).
Proof.
  intros Hne Hl Hd. unfold cooling_off_score.
  assert (zlen (rev l) = zlen l) as El by (unfold zlen; by rewrite length_rev).
  pose proof (cool_fold_ok decay (rev l) 0 _ Hd ltac:(lia) ltac:(lia) cool_init) as Hok.
  assert (fleb 1.0%F (fst (fst (fold_left (cool_step decay) (rev l) (0.0%F, 0.0%F, 1.0%F)))) = true) as H1.
  { destruct (rev l) as [|x r] eqn:Er.
    { apply (f_equal (@rev float)) in Er. rewrite rev_involutive in Er. contradiction. }
    assert (zlen (x :: r) = zlen r + 1) as E by (unfold zlen; simpl; lia).
    pose proof (cool_step_ok decay 0 _ x ltac:(lia) Hd cool_init) as H0.
    cbn [fold_left]. refine (fleb_trans _ _ _ _ (cool_total_mono decay r 1 _ Hd ltac:(lia) ltac:(lia) H0)).
    cbn [cool_step fst]. fconst. }
  destruct (fold_left (cool_step decay) (rev l) (0.0%F, 0.0%F, 1.0%F)) as [[t lw] w].
  cbn [fst] in H1. exists t, lw, w. split; [reflexivity|]. rewrite El in Hok.
  split; [exact Hok|]. split; [exact H1|].
  assert (fltb (Fin 0) t = true) as H0 by (refine (fltb_fleb_trans _ _ _ _ H1); fconst).
  destruct l as [|y l']; [contradiction|].
  assert (feqb t 0.0%F = false /\ is_zero t = false) as [-> Hz].
  { apply fltb_key in H0 as (a & b & Ka & Kb & Hab). apply Some_inj in Ka. subst a.
    rewrite zero_lit. split.
    - unfold feqb, fcmp. rewrite Kb. apply Z.eqb_neq. simpl. lia.
    - destruct t as [|s| |n]; [reflexivity|reflexivity|apply Some_inj in Kb; lia|].
      apply Some_inj in Kb. subst n. destruct b; [lia|reflexivity|reflexivity]. }
  unfold fdiv. rewrite Hz. reflexivity.
Qed.

Lemma cool_step_mono decay k t w l l' x y :
  0 <= k < 2 ^ 53 -> cool_ok k (t, l, w) -> cool_ok k (t, l', w) ->
  fleb l l' = true -> (fltb x 0.0%F = true -> fltb y 0.0%F = true) ->
  exists m m', cool_step decay (t, l, w) x = ((t + w)%F, m, (w * decay)%F) /\
    cool_step decay (t, l', w) y = ((t + w)%F, m', (w * decay)%F) /\ fleb m m' = true.
Proof.
  intros Hk (_ & Hdl & Hl & Ht & Hw) (_ & Hdl' & Hl' & _ & _) Hle Himp.
  do 2 eexists. split; [reflexivity|]. split; [reflexivity|].
  assert (within (Fin 0) (of_Z k) t) as Hwt.
  { split; [exact (fleb_trans _ _ _ (proj1 Hl) (proj2 Hl))|exact Ht]. }
  pose proof (within_fin_ok (Fin 0) _ _ eq_refl (of_Z_ok k ltac:(lia)) Hwt) as Ot.
  pose proof (within_finite (Fin 0) _ _ eq_refl Ot Hl) as Fl.
  pose proof (within_finite (Fin 0) _ _ eq_refl Ot Hl') as Fl'.
  pose proof (within_fin_ok (Fin 0) _ _ eq_refl Ot Hl') as Ol'.
  pose proof (fin_ok_finite _ (unit_pos_fin_ok _ Hw)) as Fw.
  destruct (fltb x 0.0%F) eqn:Ex.
  - rewrite Himp by reflexivity.
    exact (fadd_mono _ _ _ _ Fl Fl' Fw Fw Hle (fleb_refl _ (finite_not_nan _ Fw))).
  - destruct (fltb y 0.0%F); [|exact Hle].
    exact (fleb_trans _ _ _ Hle (fadd_ge_l _ _ Hdl' Ol' Fw (unit_pos_nonneg _ Hw))).
Qed.

Lemma cool_fold_mono decay r r' : Forall2 (fun x y => fltb x 0.0%F = true -> fltb y 0.0%F = true) r r' ->
  forall k t w l l', unit_pos decay -> 0 <= k -> k + zlen r <= 2 ^ 53 ->
  cool_ok k (t, l, w) -> cool_ok k (t, l', w) -> fleb l l' = true ->
  exists t2 w2 m m', fold_left (cool_step decay) r (t, l, w) = (t2, m, w2) /\
    fold_left (cool_step decay) r' (t, l', w) = (t2, m', w2) /\ fleb m m' = true.
Proof.
  induction 1 as [|x y r r' Hxy _ IH]; intros k t w l l' Hd Hk Hl H H' Hle.
  { exists t, w, l, l'. split; [reflexivity|]. split; [reflexivity|exact Hle]. }
  assert (zlen (x :: r) = zlen r + 1) as E by (unfold zlen; simpl; lia). rewrite E in *.
  assert (0 <= zlen r) by (unfold zlen; lia).
  destruct (cool_step_mono decay k t w l l' x y ltac:(lia) H H' Hle Hxy) as (m & m' & E1 & E2 & Hm).
  pose proof (cool_step_ok decay k _ x ltac:(lia) Hd H) as G.
  pose proof (cool_step_ok decay k _ y ltac:(lia) Hd H') as G'.
  rewrite E1 in G. rewrite E2 in G'. cbn [fold_left]. rewrite E1, E2.
  exact (IH (k + 1) _ _ _ _ Hd ltac:(lia) ltac:(lia) G G' Hm).
Qed.

(** The score of a state: the rounded ratio. *)
Definition ratio (t lw : float) : float := py_round (fdiv_nz lw t) 4.

Lemma ratio_facts n t l w l' :
  0 <= n <= 2 ^ 53 -> cool_ok n (t, l, w) -> cool_ok n (t, l', w) -> fleb 1.0%F t = true ->
  fleb l l' = true -> unit_pos (ratio t l) /\ fleb (ratio t l) (ratio t l') = true.
Proof.
  intros Hn (_ & _ & Hl & Ht & _) (_ & _ & Hl' & _ & _) H1 Hle.
  assert (fltb (Fin 0) t = true) as H0 by (refine (fltb_fleb_trans _ _ _ _ H1); fconst).
  pose proof (fin_ok_finite _ (of_Z_ok n Hn)) as Fn.
  assert (within (Fin 0) (of_Z n) t) as Hwt by (split; [by apply fltb_fleb|exact Ht]).
  pose proof (within_fin_ok (Fin 0) _ _ eq_refl (of_Z_ok n Hn) Hwt) as Ot.
  pose proof (fin_ok_finite _ Ot) as Ft.
  pose proof (within_finite (Fin 0) _ _ eq_refl Ot Hl) as Fl.
  pose proof (within_finite (Fin 0) _ _ eq_refl Ot Hl') as Fl'.
  pose proof (fdiv_unit _ _ Fl Ft (proj1 Hl) (proj2 Hl) H0) as U.
  pose proof (fdiv_unit _ _ Fl' Ft (proj1 Hl') (proj2 Hl') H0) as U'.
  rewrite <-zero_lit in U, U'. unfold ratio. split.
  - apply round_unit_pos; [by left|exact U].
  - apply py_round_mono; [lia|exact (unit_pos_finite _ U)|exact (unit_pos_finite _ U')|].
    apply fdiv_mono_nonneg; [exact Fl|exact Fl'|exact Ft|exact Ft|exact (proj1 Hl)|exact H0|exact Hle|].
    exact (fleb_refl _ (finite_not_nan _ Ft)).
Qed.

(** A list of outcomes at least as bad, trade by trade. *)
Definition worse (l l' : list float) : Prop :=
  Forall2 (fun x y => fltb x 0.0%F = true -> fltb y 0.0%F = true) l l'.

Lemma cooling_off_pair l l' decay :
  zlen l <= 2 ^ 53 -> unit_pos decay -> worse l l' ->
  exists s s', cooling_off_score l decay = Ok s /\ cooling_off_score l' decay = Ok s' /\
    unit_pos s /\ fleb s s' = true.
Proof.
  intros Hl Hd H2. destruct l as [|x l].
  { apply Forall2_nil_inv_l in H2. subst l'. exists 0.0%F, 0.0%F.
    do 2 (split; [reflexivity|]). split; [split; fconst|fconst]. }
  assert (zlen l' = zlen (x :: l)) as Elen by (unfold zlen; by rewrite (Forall2_length _ _ _ H2)).
  assert (l' <> []) as Hne by (intros ->; inversion H2).
  destruct (cooling_off_value (x :: l) decay ltac:(discriminate) Hl Hd) as (t & lw & w & Ef & Hok & H1 & Hs).
  destruct (cooling_off_value l' decay Hne ltac:(lia) Hd) as (t' & lw' & w' & Ef' & Hok' & _ & Hs').
  assert (worse (rev (x :: l)) (rev l')) as H2r.
  { rewrite !rev_alt. exact (Forall2_reverse _ _ _ H2). }
  assert (zlen (rev (x :: l)) = zlen (x :: l)) as Er by (unfold zlen; by rewrite length_rev).
  destruct (cool_fold_mono decay _ _ H2r 0 _ _ _ _ Hd ltac:(lia) ltac:(lia) cool_init cool_init)
    as (t2 & w2 & m & m' & E1 & E2 & Hm); [fconst|].
  rewrite E1 in Ef. rewrite E2 in Ef'. injection Ef as <- <- <-. injection Ef' as <- <- <-.
  rewrite Elen in Hok'. exists (ratio t2 m), (ratio t2 m'). split; [exact Hs|]. split; [exact Hs'|].
  apply (ratio_facts (zlen (x :: l)) t2 m w2 m'); [unfold zlen in *; lia|assumption..].
Qed.

(** For any decay in [0, 1] the cooling-off score exists, lies in [0, 1], and can only
    rise when outcomes turn into losses: worse results never talk the desk back into
    trading. *)
Theorem cooling_off_sound l l' decay threshold :
  zlen l <= 2 ^ 53 -> unit_pos decay -> worse l l' ->
  exists s s', cooling_off_score l decay = Ok s /\ cooling_off_score l' decay = Ok s' /\
    unit_pos s /\ fleb s s' = true /\
    (is_cooling_off l decay threshold = Ok true -> is_cooling_off l' decay threshold = Ok true).
Proof.
  intros Hl Hd H2. destruct (cooling_off_pair l l' decay Hl Hd H2) as (s & s' & E & E' & Hs & Hle).
  exists s, s'. split; [exact E|]. split; [exact E'|]. split; [exact Hs|]. split; [exact Hle|].
  unfold is_cooling_off. rewrite E, E'. cbn [res_bind]. intros H%Ok_inj. f_equal.
  exact (fleb_trans _ _ _ H Hle).
Qed.

Lemma cooling_off_sound_witness :
  is_cooling_off [1.0; -2.0; -1.0]%F 0.7%F 0.6%F = Ok true /\
  is_cooling_off [(-3.0)%F; -2.0; -1.0]%F 0.7%F 0.6%F = Ok true.
Proof.
  assert (is_cooling_off [1.0; -2.0; -1.0]%F 0.7%F 0.6%F = Ok true) as H by fconst.
  split; [exact H|].
  destruct (cooling_off_sound [1.0; -2.0; -1.0]%F [(-3.0)%F; -2.0; -1.0]%F 0.7%F 0.6%F)
    as (_ & _ & _ & _ & _ & _ & Hc).
  - by vm_compute.
  - split; fconst.
  - repeat constructor; vm_compute; reflexivity.
  - exact (Hc H).
Defined.

(** ** Position size *)

Lemma fdiv_mono_num x x' y :
  is_finite x = true -> is_finite x' = true -> is_finite y = true -> fltb (Fin 0) y = true ->
  fleb x x' = true -> fleb (fdiv_nz x y) (fdiv_nz x' y) = true.
Proof.
  intros Fx Fx' Fy H0 Hle. apply (fltb_units (Fin 0) y eq_refl Fy) in H0. cbn [units] in H0.
  apply (fleb_units x x' Fx Fx') in Hle. pose proof scale_pos.
  apply fleb_key. do 2 eexists. split; [apply fdiv_nz_key; [exact Fx|exact Fy|lia]|].
  split; [apply fdiv_nz_key; [exact Fx'|exact Fy|lia]|].
  apply sat_mono. apply Rnd.rnd_mono; [lia|lia|]. rewrite Z.sgn_pos by lia.
  apply Z.mul_le_mono_nonneg_r; [lia|]. nia.
Qed.

Lemma fmin_mono_l x y c : c <> NaN -> fleb x y = true -> fleb (fmin x c) (fmin y c) = true.
Proof.
  intros Hc H. pose proof (fleb_not_nan_l _ _ H) as Hx. apply fmin_ge.
  - exact (fleb_trans _ _ _ (fmin_l x c Hx) H).
  - exact (fmin_r x c Hx Hc).
Qed.

Section Sizing.
Variables sl tp ks cap : float.
Hypothesis Hsl : within 1e-6%F 1e6%F sl.
Hypothesis Htp : within (-1e6)%F 1e6%F tp.
Hypothesis Hks : unit_pos ks.
Hypothesis Hcap : unit_pos cap.

(** The pay-off ratio with the enforced reward, and the full Kelly fraction. *)
Definition payoff : float := fdiv_nz (fmax tp (sl * 2.0)%F) sl.
Definition full_kelly_at (p : float) : float := fdiv_nz (p * payoff - (1.0 - p))%F payoff.

Lemma sl_facts : is_finite sl = true /\ fltb (Fin 0) sl = true /\
  within 1e-6%F 2e6%F (sl * 2.0)%F.
Proof.
  assert (is_finite sl = true) as F by (revert Hsl; apply within_finite; fconst).
  assert (fltb (Fin 0) sl = true) as H0 by (refine (fltb_fleb_trans _ _ _ _ (proj1 Hsl)); fconst).
  split; [exact F|]. split; [exact H0|]. destruct Hsl as [H1 H2]. split.
  - refine (fleb_trans _ (1e-6 * 2.0)%F _ _ _); [fconst|].
    apply fmul_mono_nonneg; [fconst|exact F|fconst|fconst|fconst|fconst|exact H1|fconst].
  - refine (fleb_trans _ (1e6 * 2.0)%F _ _ _); [|fconst].
    apply fmul_mono_nonneg; [exact F|fconst|fconst|fconst|by apply fltb_fleb|fconst|exact H2|fconst].
Qed.

Lemma reward_within : within 1e-6%F 2e6%F (fmax tp (sl * 2.0)%F).
Proof.
  destruct sl_facts as (_ & _ & Hw). pose proof (within_not_nan _ _ _ Htp) as Hn. split.
  - exact (fleb_trans _ _ _ (proj1 Hw) (fmax_r tp _ Hn (within_not_nan _ _ _ Hw))).
  - apply fmax_le; [|exact (proj2 Hw)]. refine (fleb_trans _ _ _ (proj2 Htp) _). fconst.
Qed.

Lemma payoff_within : within 1e-13%F 1e13%F payoff.
Proof.
  destruct sl_facts as (F & H0 & _). pose proof reward_within as Hw.
  assert (is_finite (fmax tp (sl * 2.0)%F) = true) as Fr by (revert Hw; apply within_finite; fconst).
  assert (fleb (Fin 0) (fmax tp (sl * 2.0)%F) = true) as Hr
    by (refine (fleb_trans _ _ _ _ (proj1 Hw)); fconst).
  unfold payoff. split.
  - refine (fleb_trans _ (fdiv_nz 1e-6%F 1e6%F) _ _ _); [fconst|].
    apply fdiv_mono_nonneg; [fconst|exact Fr|fconst|exact F|fconst|exact H0|exact (proj1 Hw)|exact (proj2 Hsl)].
  - refine (fleb_trans _ (fdiv_nz 2e6%F 1e-6%F) _ _ _); [|fconst].
    apply fdiv_mono_nonneg; [exact Fr|fconst|exact F|fconst|exact Hr|fconst|exact (proj2 Hw)|exact (proj1 Hsl)].
Qed.

Lemma payoff_pos : is_finite payoff = true /\ fltb (Fin 0) payoff = true /\ is_zero payoff = false.
Proof.
  pose proof payoff_within as Hw.
  assert (is_finite payoff = true) as F by (revert Hw; apply within_finite; fconst).
  assert (fltb (Fin 0) payoff = true) as H0 by (refine (fltb_fleb_trans _ _ _ _ (proj1 Hw)); fconst).
  split; [exact F|]. split; [exact H0|]. destruct (is_zero payoff) eqn:E; [|reflexivity].
  exfalso. apply is_zero_le in E. pose proof (fltb_fleb_trans _ _ _ H0 E) as Hc.
  rewrite fltb_irrefl in Hc. discriminate Hc.
Qed.

Lemma edge_within p : unit_pos p -> within (-1e13)%F 1e13%F (p * payoff - (1.0 - p))%F.
Proof.
  intros Hp. unfold unit_pos in Hp. pose proof payoff_within as Hb.
  assert (within (Fin 0) 1e13%F payoff) as Hb0
    by (revert Hb; apply within_weaken; fconst).
  assert (within (Fin 0) 1.0%F p) as Hp0 by (by rewrite <-zero_lit).
  assert (within (Fin 0) 1e13%F (p * payoff)%F) as H1
    by (apply (fmul_within 1.0%F 1e13%F); [fconst|fconst|fconst|exact Hp0|exact Hb0]).
  assert (within (Fin 0) 1.0%F (1.0 - p)%F) as H2.
  { apply (fsub_within 1.0%F 1.0%F (Fin 0) 1.0%F); [fconst|fconst|fconst|fconst|fconst|fconst| |exact Hp0].
    split; fconst. }
  apply (fsub_within (Fin 0) 1e13%F (Fin 0) 1.0%F); [fconst|fconst|fconst|fconst|fconst|fconst|exact H1|exact H2].
Qed.

Lemma full_within p : unit_pos p -> within (-1e27)%F 1e27%F (full_kelly_at p).
Proof.
  intros Hp. destruct payoff_pos as (F & _ & _).
  apply (fdiv_within_sym (-1e13)%F 1e13%F 1e-13%F);
    [fconst|fconst|fconst|fconst|fconst|fconst|by apply edge_within|exact (proj1 payoff_within)|exact F].
Qed.

Lemma full_finite p : unit_pos p -> is_finite (full_kelly_at p) = true.
Proof. intros Hp. generalize (full_within p Hp). apply within_finite; fconst. Qed.

Lemma full_mono p q : unit_pos p -> unit_pos q -> fleb p q = true ->
  fleb (full_kelly_at p) (full_kelly_at q) = true.
Proof.
  intros Hp Hq Hle. destruct payoff_pos as (Fb & Hb & _).
  pose proof (unit_pos_finite _ Hp) as Fp. pose proof (unit_pos_finite _ Hq) as Fq.
  assert (forall r, unit_pos r -> is_finite (r * payoff - (1.0 - r))%F = true) as Fe
    by (intros r Hr; generalize (edge_within r Hr); apply within_finite; fconst).
  assert (forall r, unit_pos r -> is_finite (r * payoff)%F = true) as Fm.
  { intros r Hr. pose proof (unit_pos_finite _ Hr). assert (within (Fin 0) 1e13%F (r * payoff)%F) as Hw.
    { apply (fmul_within 1.0%F 1e13%F); [fconst|fconst|fconst| |].
      - unfold unit_pos in Hr. by rewrite <-zero_lit.
      - generalize payoff_within. apply within_weaken; fconst. }
    revert Hw. apply within_finite; fconst. }
  assert (forall r, unit_pos r -> is_finite (1.0 - r)%F = true) as Fs.
  { intros r Hr. unfold unit_pos in Hr. rewrite zero_lit in Hr.
    assert (within (Fin 0) 1.0%F (1.0 - r)%F) as H2.
    { apply (fsub_within 1.0%F 1.0%F (Fin 0) 1.0%F); [fconst|fconst|fconst|fconst|fconst|fconst| |exact Hr].
      split; fconst. }
    revert H2. apply within_finite; fconst. }
  assert (is_finite 1.0%F = true) as F1 by fconst. assert (fleb 1.0%F 1.0%F = true) as L1 by fconst.
  apply fdiv_mono_num; [by apply Fe|by apply Fe|exact Fb|exact Hb|].
  apply fsub_mono; [by apply Fm|by apply Fm|by apply Fs|by apply Fs| |].
  - apply fmul_mono_nonneg; [exact Fp|exact Fq|exact Fb|exact Fb|exact (unit_pos_nonneg _ Hp)|
      by apply fltb_fleb|exact Hle|exact (fleb_refl _ (finite_not_nan _ Fb))].
  - exact (fsub_mono _ _ _ _ F1 F1 Fq Fp L1 Hle).
Qed.

(** The size of a positive fraction. *)
Definition sized (f : float) : float := py_round (fmin (f * ks)%F cap) 6.

Lemma sized_facts f g : within (-1e27)%F 1e27%F f -> within (-1e27)%F 1e27%F g ->
  fleb f 0.0%F = false -> fleb f g = true ->
  within (Fin 0) (py_round cap 6) (sized f) /\ fleb (sized f) (sized g) = true.
Proof.
  intros Hf Hg Hpos Hle.
  assert (is_finite f = true) as Ff by (revert Hf; apply within_finite; fconst).
  assert (is_finite g = true) as Fg by (revert Hg; apply within_finite; fconst).
  assert (fltb (Fin 0) f = true) as Hf0.
  { rewrite zero_lit in Hpos. apply fleb_false; [exact (finite_not_nan _ Ff)|discriminate|exact Hpos]. }
  pose proof (unit_pos_finite _ Hks) as Fk. pose proof (unit_pos_finite _ Hcap) as Fc.
  assert (forall h, within (-1e27)%F 1e27%F h -> fleb (Fin 0) h = true ->
    within (Fin 0) 1e27%F (h * ks)%F) as Hm.
  { intros h Hh H0. unfold unit_pos in Hks. rewrite zero_lit in Hks.
    apply (fmul_within 1e27%F 1.0%F); [fconst|fconst|fconst|split; [exact H0|exact (proj2 Hh)]|exact Hks]. }
  pose proof (Hm f Hf (fltb_fleb _ _ Hf0)) as Mf.
  pose proof (Hm g Hg (fleb_trans _ _ _ (fltb_fleb _ _ Hf0) Hle)) as Mg.
  assert (forall h, within (Fin 0) 1e27%F h -> within (Fin 0) cap (fmin h cap)) as Hc.
  { intros h Hh. split.
    - apply fmin_ge; [exact (proj1 Hh)|exact (unit_pos_nonneg _ Hcap)].
    - apply fmin_r; [exact (within_not_nan _ _ _ Hh)|exact (finite_not_nan _ Fc)]. }
  pose proof (unit_pos_fin_ok _ Hcap) as Oc.
  assert (forall h, within (Fin 0) 1e27%F h -> is_finite (fmin h cap) = true) as Fm
    by (intros h Hh; exact (within_finite (Fin 0) _ _ eq_refl Oc (Hc h Hh))).
  unfold sized. split; [split|].
  - apply py_round_nonneg; [lia|exact (proj1 (Hc _ Mf))].
  - apply py_round_mono; [lia|by apply Fm|exact Fc|exact (proj2 (Hc _ Mf))].
  - apply py_round_mono; [lia|by apply Fm|by apply Fm|].
    apply fmin_mono_l; [exact (finite_not_nan _ Fc)|].
    apply fmul_mono_nonneg; [exact Ff|exact Fg|exact Fk|exact Fk|by apply fltb_fleb|
      exact (unit_pos_nonneg _ Hks)|exact Hle|exact (fleb_refl _ (finite_not_nan _ Fk))].
Qed.

Lemma size_value p : unit_pos p ->
  compute_dynamic_position_size p sl tp ks cap
  = Ok (if fleb p 0.0%F || fleb (full_kelly_at p) 0.0%F then 0.0%F else sized (full_kelly_at p)).
Proof.
  intros Hp. unfold compute_dynamic_position_size, compute_kelly_size.
  destruct sl_facts as (F & H0 & _). destruct payoff_pos as (_ & _ & Hz).
  assert (fleb sl 0.0%F = false) as E1 by (rewrite zero_lit; by apply fltb_asym).
  assert (fleb (fmax tp (sl * 2.0)%F) 0.0%F = false) as E2.
  { rewrite zero_lit. apply fltb_asym. refine (fltb_fleb_trans _ _ _ _ (proj1 reward_within)). fconst. }
  rewrite E1, E2. destruct (fleb p 0.0%F); [reflexivity|]. cbn [orb].
  unfold fdiv at 1. destruct (is_zero sl) eqn:Ez.
  { exfalso. apply is_zero_le in Ez. rewrite zero_lit, Ez in E1. discriminate E1. }
  cbn [res_bind]. fold payoff. unfold fdiv. rewrite Hz. cbn [res_bind].
  fold (full_kelly_at p). destruct (fleb (full_kelly_at p) 0.0%F); reflexivity.
Qed.

End Sizing.

(** For a confidence in [0, 1] and moderate stops the position size exists, is
    between zero and the (rounded) risk cap, and never shrinks when the confidence
    grows. *)
Theorem position_size_capped p q sl tp ks cap :
  unit_pos p -> unit_pos q -> fleb p q = true ->
  within 1e-6%F 1e6%F sl -> within (-1e6)%F 1e6%F tp -> unit_pos ks -> unit_pos cap ->
  exists s s', compute_dynamic_position_size p sl tp ks cap = Ok s /\
    compute_dynamic_position_size q sl tp ks cap = Ok s' /\
    within (Fin 0) (py_round cap 6) s /\ fleb s s' = true.
Proof.
  intros Hp Hq Hle Hsl Htp Hks Hcap.
  rewrite (size_value sl tp ks cap Hsl Htp p Hp), (size_value sl tp ks cap Hsl Htp q Hq).
  pose proof (full_within sl tp Hsl Htp p Hp) as Wp. pose proof (full_within sl tp Hsl Htp q Hq) as Wq.
  pose proof (full_mono sl tp Hsl Htp p q Hp Hq Hle) as Hm.
  set (f := full_kelly_at sl tp p) in *. set (g := full_kelly_at sl tp q) in *.
  do 2 eexists. split; [reflexivity|]. split; [reflexivity|].
  assert (fleb (Fin 0) (py_round cap 6) = true) as Hc0
    by (apply py_round_nonneg; [lia|exact (unit_pos_nonneg _ Hcap)]).
  assert (forall h, within (-1e27)%F 1e27%F h -> fleb h 0.0%F = false -> fleb (Fin 0) (sized ks cap h) = true) as Hs0.
  { intros h Hh Hp0. apply (sized_facts ks cap Hks Hcap h h Hh Hh Hp0).
    exact (fleb_refl _ (within_not_nan _ _ _ Hh)). }
  rewrite zero_lit in *.
  destruct (fleb p (Fin 0)) eqn:Ep; cbn [orb].
  { split; [split; [reflexivity|exact Hc0]|].
    destruct (fleb q (Fin 0)) eqn:Eq; cbn [orb]; [reflexivity|].
    destruct (fleb g (Fin 0)) eqn:Eg; [reflexivity|]. exact (Hs0 g Wq Eg). }
  destruct (fleb q (Fin 0)) eqn:Eq.
  { pose proof (fleb_trans _ _ _ Hle Eq) as Hc. rewrite Hc in Ep. discriminate Ep. }
  cbn [orb]. destruct (fleb f (Fin 0)) eqn:Ef.
  { split; [split; [reflexivity|exact Hc0]|]. destruct (fleb g (Fin 0)) eqn:Eg; [reflexivity|].
    exact (Hs0 g Wq Eg). }
  destruct (fleb g (Fin 0)) eqn:Eg.
  { pose proof (fleb_trans _ _ _ Hm Eg) as Hc. rewrite Hc in Ef. discriminate Ef. }
  rewrite <-zero_lit in Ef. exact (sized_facts ks cap Hks Hcap f g Wp Wq Ef Hm).
Qed.

Lemma position_size_capped_witness :
  exists s s', compute_dynamic_position_size 0.55%F 0.05%F 0.10%F 0.25%F 0.015%F = Ok s /\
    compute_dynamic_position_size 0.8%F 0.05%F 0.10%F 0.25%F 0.015%F = Ok s' /\
    within (Fin 0) (py_round 0.015%F 6) s /\ fleb s s' = true.
Proof.
  apply (position_size_capped 0.55%F 0.8%F 0.05%F 0.10%F 0.25%F 0.015%F);
    [split; fconst|split; fconst|fconst|split; fconst|split; fconst|split; fconst|split; fconst].
Defined.

(** The documented range of the size does not hold for every input: a stop far below
    any real one overflows the pay-off ratio and the size is NaN. *)
Theorem tiny_stop_size_is_nan :
  compute_dynamic_position_size 0.6%F 1e-310%F 0.04%F 0.25%F 0.015%F = Ok NaN.
Proof. vm_compute. reflexivity. Qed.
