(* ===== verification/Positions.v ===== *)
(** Positions: position arithmetic of the execution engine
    (api/services/execution/position_math.py). *)
From S2P Require Import Prelude PyFloat FloatFacts PyVal PyMath Config Agents Params Policy Filters.

Definition LONG : string := "long".
Definition SHORT : string := "short".
Definition FLAT : string := "flat".

Definition _side_str (raw : val) : string :=
  strip_lower (if truthy raw then Fmt.str raw else "").

(** [side in (OrderSide.SELL, PositionSide.SHORT)] and its mirror image. *)
Definition sell_side (side : string) : bool := one_of side [SELL; SHORT].
Definition buy_side (side : string) : bool := one_of side [BUY; LONG].

(** [_side_str(position.get(SIDE) or FLAT)] *)
Definition side_of (position : payload) : string :=
  _side_str (first_truthy ["side"] position (VStr FLAT)).

(** [float(position.get(QTY) or 0)] *)
Definition qty_of (position : payload) : res float :=
  float_or_zero (dget_or "qty" VNone position).

(** [float(position.get(ENTRY_PRICE) or fill_price)] *)
Definition entry_or (position : payload) (fill_price : float) : res float :=
  py_float (first_truthy ["entry_price"] position (VFloat fill_price)).

Definition compute_realized_pnl (prior_position : payload) (side : string) (qty fill_price : float)
  : res float :=
  let prior_side := side_of prior_position in
  let* prior_entry := entry_or prior_position fill_price in
  let* prior_qty := qty_of prior_position in
  if String.eqb prior_side LONG && sell_side side && fltb 0.0%F prior_qty then
    Ok (py_round ((fill_price - prior_entry) * fmin qty prior_qty)%F 8)
  else if String.eqb prior_side SHORT && buy_side side && fltb 0.0%F prior_qty then
    Ok (py_round ((prior_entry - fill_price) * fmin qty prior_qty)%F 8)
  else Ok 0.0%F.

Definition compute_pnl_percent (prior_position : payload) (qty entry_price realized_pnl : float)
  : res float :=
  if fleb entry_price 0.0%F || feqb realized_pnl 0.0%F then Ok 0.0%F
  else
    let* prior_qty := qty_of prior_position in
    let closed_qty := if fltb 0.0%F prior_qty then fmin qty prior_qty else qty in
    let cost_basis := (entry_price * (if fltb 0.0%F closed_qty then closed_qty else qty))%F in
    if fltb 0.0%F cost_basis
    then let* r := fdiv realized_pnl cost_basis in Ok (r * 100.0)%F
    else Ok 0.0%F.

Definition is_round_trip_close (prior_position : payload) (side : string) : res bool :=
  let prior_side := side_of prior_position in
  let* prior_qty := qty_of prior_position in
  Ok (if fleb prior_qty 0.0%F then false
      else (sell_side side && String.eqb prior_side LONG)
           || (buy_side side && String.eqb prior_side SHORT)).

Definition reject_unmatched_sell (side : string) (prior_position : payload) : res bool :=
  if negb (sell_side side) then Ok false
  else
    let* prior_qty := qty_of prior_position in
    Ok (negb (String.eqb (side_of prior_position) LONG && fltb 0.0%F prior_qty)).

Definition signed_position_qty (position : option payload) : res float :=
  match position with
  | None => Ok 0.0%F
  | Some p =>
      let* qty_value :=
        match float_or_zero (dget_or "qty" (dget_or "quantity" VNone p) p) with
        | Raise TypeError | Raise ValueError => Ok 0.0%F
        | r => r
        end in
      let side := _side_str (dget_or "side" VNone p) in
      Ok (if one_of side ["short"; "sell"; "sold"] then (- fabs qty_value)%F
          else if one_of side ["long"; "buy"; "bought"] then fabs qty_value
          else qty_value)
  end.

Definition clamp_buy_to_position_limit (prior_position : option payload) (qty max_position_qty : float)
  : res float :=
  let* held := signed_position_qty prior_position in
  let room := (max_position_qty - held)%F in
  Ok (if fleb room 0.0%F then 0.0%F else fmin qty room).

Definition apply_signed_delta (existing_pos : payload) (side : string) (qty fill_price : float)
    (strategy_id symbol : string) : res (option payload) :=
  let signed_qty := if buy_side side then qty else (-1.0 * qty)%F in
  let existing_side := _side_str (dget_or "side" (VStr LONG) existing_pos) in
  let* q := py_float (dget_or "qty" (VInt 0) existing_pos) in
  let existing_signed := (q * (if buy_side existing_side then 1.0 else -1.0))%F in
  let new_signed := (existing_signed + signed_qty)%F in
  let new_abs_qty := fabs new_signed in
  if fltb new_abs_qty 1e-9%F then Ok None
  else
    let new_side := if fltb 0.0%F new_signed then LONG else SHORT in
    let* entry_price := entry_or existing_pos fill_price in
    Ok (Some [("symbol", VStr symbol); ("side", VStr new_side); ("qty", VFloat new_abs_qty);
              ("quantity", VFloat new_abs_qty); ("entry_price", VFloat entry_price);
              ("avg_cost", VFloat entry_price); ("last_price", VFloat fill_price);
              ("current_price", VFloat fill_price);
              ("market_value", VFloat (py_round (new_abs_qty * fill_price)%F 8));
              ("unrealized_pnl", VFloat 0.0%F); ("pnl", VFloat 0.0%F);
              ("strategy_id", VStr strategy_id)]).

(** * Facts *)

Lemma side_str_id s : In s [LONG; SHORT; FLAT] -> _side_str (VStr s) = s.
Proof. intros [<-|[<-|[<-|[]]]]; reflexivity. Qed.

Lemma buy_not_sell side : buy_side side = true -> sell_side side = false.
Proof.
  unfold buy_side, sell_side, one_of. cbn [existsb]. intros H.
  apply orb_true_iff in H as [H|H]; [|rewrite orb_false_r in H];
    apply String.eqb_eq in H; subst side; reflexivity.
Qed.

(** An accepted sell is exactly a round-trip close: the pre-trade check lets a sell
    through just when the bookkeeping counts it as closing a long. *)
Theorem accepted_sell_closes side position q :
  sell_side side = true -> qty_of position = Ok q -> q <> NaN ->
  exists r c, reject_unmatched_sell side position = Ok r /\ is_round_trip_close position side = Ok c /\
    c = negb r.
Proof.
  intros Hs Hq Hn. unfold reject_unmatched_sell, is_round_trip_close. rewrite Hs, Hq. cbn [negb res_bind].
  do 2 eexists. split; [reflexivity|]. split; [reflexivity|].
  assert (buy_side side = false) as Hb.
  { destruct (buy_side side) eqn:E; [|reflexivity]. apply buy_not_sell in E. congruence. }
  rewrite Hb, negb_involutive. cbn [andb]. rewrite orb_false_r, zero_lit.
  assert (fltb (Fin 0) q = negb (fleb q (Fin 0))) as -> by (apply fltb_negb; [discriminate|exact Hn]).
  destruct (fleb q (Fin 0)); cbn [negb]; [by rewrite andb_false_r|by rewrite andb_true_r].
Qed.

Lemma accepted_sell_closes_witness :
  exists r c, reject_unmatched_sell SELL [("side", VStr LONG); ("qty", VFloat 2.0%F)] = Ok r /\
    is_round_trip_close [("side", VStr LONG); ("qty", VFloat 2.0%F)] SELL = Ok c /\ c = negb r.
Proof.
  assert (qty_of [("side", VStr LONG); ("qty", VFloat 2.0%F)] = Ok 2.0%F) as E by fconst.
  assert (2.0%F <> NaN) as Hn by (apply dec_not_nan).
  exact (accepted_sell_closes SELL _ 2.0%F eq_refl E Hn).
Defined.

Lemma key_fabs_pos x : fltb (Fin 0) x = true -> key (fabs x) = key x.
Proof.
  intros H0. apply fltb_key in H0 as (a & b & Ha & Hb & Hl). cbn [key] in Ha. apply Some_inj in Ha.
  rewrite key_fabs, Hb. cbn. f_equal. lia.
Qed.

Lemma key_fabs_neg x : fltb (Fin 0) x = false -> key (fopp (fabs x)) = key x.
Proof.
  intros H0. rewrite key_fopp, key_fabs. destruct (key x) as [b|] eqn:Hb; [|reflexivity].
  cbn. f_equal. unfold fltb, fcmp in H0. rewrite Hb in H0. cbn [key] in H0. apply Z.ltb_ge in H0. lia.
Qed.

Lemma fabs_fabs x : fabs (fabs x) = fabs x.
Proof. destruct x as [|[]| |n]; try reflexivity. unfold fabs. f_equal. apply Z.abs_eq, Z.abs_nonneg. Qed.

(** Applying a fill to a stored position is addition on the signed quantities: the row
    that comes back decodes to the held quantity plus the signed fill, and there is no row
    just when that sum is dust. *)
Theorem signed_delta_adds existing side qty fill_price strategy_id symbol q0 e :
  py_float (dget_or "qty" (VInt 0) existing) = Ok q0 -> entry_or existing fill_price = Ok e ->
  let held := (q0 * (if buy_side (_side_str (dget_or "side" (VStr LONG) existing)) then 1.0 else -1.0))%F in
  let new := (held + (if buy_side side then qty else -1.0 * qty))%F in
  exists o r, apply_signed_delta existing side qty fill_price strategy_id symbol = Ok o /\
    signed_position_qty o = Ok r /\
    (if fltb (fabs new) 1e-9%F then o = None /\ r = 0.0%F else key r = key new).
Proof.
  intros Hq He. cbv zeta. unfold apply_signed_delta. rewrite Hq, He. cbn [res_bind].
  set (new := (_ + _)%F). destruct (fltb (fabs new) 1e-9%F) eqn:Ed.
  { exists None, 0.0%F. split_and!; reflexivity. }
  set (row := [("symbol", VStr symbol); _; _; _; _; _; _; _; _; _; _; _]).
  assert (ftruthy (fabs new) = true) as Ht.
  { unfold ftruthy. destruct (is_zero (fabs new)) eqn:Ez; [|reflexivity]. apply is_zero_le in Ez.
    assert (fltb (Fin 0) 1e-9%F = true) as H0 by fconst.
    pose proof (fleb_fltb_trans _ _ _ Ez H0) as Hc. rewrite Hc in Ed. discriminate Ed. }
  assert (signed_position_qty (Some row) =
    Ok (if fltb 0.0%F new then fabs (fabs new) else (- fabs (fabs new))%F)) as Er.
  { unfold signed_position_qty.
    assert (float_or_zero (dget_or "qty" (dget_or "quantity" VNone row) row) = Ok (fabs new)) as ->.
    { change (dget_or "qty" (dget_or "quantity" VNone row) row) with (VFloat (fabs new)).
      unfold float_or_zero. cbn [truthy]. rewrite Ht. reflexivity. }
    cbn [res_bind]. change (dget_or "side" VNone row) with (VStr (if fltb 0.0%F new then LONG else SHORT)).
    destruct (fltb 0.0%F new); reflexivity. }
  do 2 eexists. split_and!; [reflexivity|exact Er|]. rewrite fabs_fabs, zero_lit.
  destruct (fltb (Fin 0) new) eqn:E; [by apply key_fabs_pos|by apply key_fabs_neg].
Qed.

Lemma signed_delta_adds_witness :
  exists o r, apply_signed_delta [("side", VStr LONG); ("qty", VFloat 2.0%F); ("entry_price", VFloat 10.0%F)]
                SELL 3.0%F 11.0%F "s" "AAPL" = Ok o /\ signed_position_qty o = Ok r /\
    key r = key (2.0 * 1.0 + -1.0 * 3.0)%F.
Proof.
  pose proof (signed_delta_adds [("side", VStr LONG); ("qty", VFloat 2.0%F); ("entry_price", VFloat 10.0%F)]
    SELL 3.0%F 11.0%F "s" "AAPL" 2.0%F 10.0%F ltac:(vm_compute; reflexivity) ltac:(vm_compute; reflexivity)) as Hx.
  cbv zeta in Hx.
  assert (fltb (fabs (2.0 * 1.0 + -1.0 * 3.0)%F) 1e-9%F = false) as E by fconst.
  change (buy_side SELL) with false in Hx.
  change (buy_side (_side_str (dget_or "side" (VStr LONG) [("side", VStr LONG); ("qty", VFloat 2.0%F);
    ("entry_price", VFloat 10.0%F)]))) with true in Hx. cbv iota in Hx. rewrite E in Hx. exact Hx.
Defined.
