(* ===== verification/Broker.v ===== *)
(** Broker: the paper broker (api/services/execution/brokers/paper.py).

    Its Redis keys are the fields of a record: the cash, one position document per symbol
    and one order document per broker order id.  Documents are written as JSON and read
    back as written, so a stored document is its dictionary; the process-wide generator of
    [random.uniform] is part of the state, and the clock and the identifiers are
    arguments. *)
From S2P Require Import Prelude StateErr PyFloat FloatFacts PyVal PyMath PyRandom Config Agents.
From S2P Require Import Gate Params Policy Filters Positions.

Record PaperBroker `{PyRandom} := {
  pb_rng : rng;
  pb_cash : option float;
  pb_positions : dict payload;
  pb_orders : dict payload;
}.

Module Paper.

Section Ops.
Context `{PyRandom}.

Definition init (seed : Z) : PaperBroker :=
  {| pb_rng := rng_seed seed; pb_cash := None; pb_positions := []; pb_orders := [] |}.

Definition set_cash (x : float) (b : PaperBroker) : PaperBroker :=
  {| pb_rng := pb_rng b; pb_cash := Some x; pb_positions := pb_positions b; pb_orders := pb_orders b |}.

Definition set_position (symbol : string) (p : payload) (b : PaperBroker) : PaperBroker :=
  {| pb_rng := pb_rng b; pb_cash := pb_cash b; pb_positions := dset symbol p (pb_positions b);
     pb_orders := pb_orders b |}.

Definition set_order (oid : string) (p : payload) (b : PaperBroker) : PaperBroker :=
  {| pb_rng := pb_rng b; pb_cash := pb_cash b; pb_positions := pb_positions b;
     pb_orders := dset oid p (pb_orders b) |}.

Definition _flat_position (symbol : string) : payload :=
  [("symbol", VStr symbol); ("side", VStr FLAT); ("qty", VFloat 0.0%F); ("entry_price", VFloat 0.0%F);
   ("current_price", VFloat 0.0%F); ("opened_at", VNone)].

Definition get_position (symbol : string) (b : PaperBroker) : payload :=
  match dget symbol (pb_positions b) with Some p => p | None => _flat_position symbol end.

Definition get_positions (symbols : list string) (b : PaperBroker) : dict payload :=
  fold_left (fun out s => dset s (get_position s b) out) symbols [].

(** [setnx] of the default, then the read. *)
Definition cash_of (b : PaperBroker) : float :=
  match pb_cash b with Some c => c | None => DEFAULT_PAPER_CASH end.

Definition get_cash : M PaperBroker float := fun b => (Ok (cash_of b), set_cash (cash_of b) b).

(** The slipped price of an order, rounded to eight digits. *)
Definition fill_at (price : float) (up : bool) : M PaperBroker float := fun b =>
  let '(x, r) := fill price (if up then 1 else -1) (pb_rng b) in
  (Ok (py_round x 8), {| pb_rng := r; pb_cash := pb_cash b; pb_positions := pb_positions b;
                         pb_orders := pb_orders b |}).

(** Entry price, side and opening time of the position after a fill. *)
Definition next_lot (current_qty prior_entry qty fill_price new_qty : float) (up : bool)
    (opened_at : val) (now : string) : res (float * string * val) :=
  let side := if fltb 0.0%F new_qty then LONG else SHORT in
  let keep := if truthy opened_at then opened_at else VStr now in
  if fltb (fabs new_qty) 1e-9%F then Ok (0.0%F, FLAT, VNone)
  else if fltb (fabs current_qty) 1e-9%F || fleb prior_entry 0.0%F then Ok (fill_price, side, VStr now)
  else if Bool.eqb (fltb 0.0%F current_qty) up then
    let* entry := fdiv (prior_entry * fabs current_qty + fill_price * qty)%F (fabs new_qty) in
    Ok (entry, side, keep)
  else if negb (Bool.eqb (fltb 0.0%F current_qty) (fltb 0.0%F new_qty)) then
    Ok (fill_price, side, VStr now)
  else Ok (prior_entry, side, keep).

Definition position_payload (symbol side : string) (qty entry fill_price : float) (opened_at : val)
  : payload :=
  [("symbol", VStr symbol); ("side", VStr side); ("qty", VFloat qty); ("entry_price", VFloat entry);
   ("current_price", VFloat fill_price); ("opened_at", opened_at)].

Definition order_payload (uid symbol side : string) (qty fill_price : float) : payload :=
  [("broker_order_id", VStr uid); ("symbol", VStr symbol); ("side", VStr side);
   ("filled_qty", VFloat qty); ("fill_price", VFloat fill_price); ("status", VStr "filled")].

Definition place_order (symbol side : string) (qty price : float) (now uid : string)
  : M PaperBroker payload :=
  let normalized_side := lower_str (VStr side) in
  let up := buy_side normalized_side in
  let! fill_price := fill_at price up in
  let notional := (qty * fill_price)%F in
  let! cash := get_cash in
  do! modify (set_cash (if up then cash - notional else cash + notional)%F) in
  let! current := gets (get_position symbol) in
  let! current_qty := lift (py_float (dget_or "qty" (VFloat 0.0%F) current)) in
  let! prior_entry := lift (float_or_zero (dget_or "entry_price" (VFloat 0.0%F) current)) in
  let new_qty := (current_qty + qty * of_Z (if up then 1 else -1))%F in
  let! (entry, new_side, opened) :=
    lift (next_lot current_qty prior_entry qty fill_price new_qty up
            (dget_or "opened_at" VNone current) now) in
  do! modify (set_position symbol (position_payload symbol new_side new_qty entry fill_price opened)) in
  let order := order_payload uid symbol normalized_side qty fill_price in
  do! modify (set_order uid order) in
  ret order.

Definition get_order_status (oid : string) (b : PaperBroker) : option payload := dget oid (pb_orders b).

(** * The book *)

(** What the broker holds of a symbol. *)
Definition held (symbol : string) (b : PaperBroker) : float :=
  match dget "qty" (get_position symbol b) with Some (VFloat q) => q | _ => NaN end.

(** The documented shape of a position: its side is the sign of its quantity, and dust
    below 1e-9 is flat. *)
Definition side_for (q : float) : string :=
  if fltb (fabs q) 1e-9%F then FLAT else if fltb 0.0%F q then LONG else SHORT.

Definition document_ok (symbol : string) (p : payload) : Prop :=
  exists q e x o, p = position_payload symbol (side_for q) q e x o.

Definition book_ok (b : PaperBroker) : Prop :=
  forall s p, dget s (pb_positions b) = Some p -> document_ok s p.

Lemma init_book seed : book_ok (init seed).
Proof. intros s p H1. discriminate H1. Qed.

Lemma position_ok b s : book_ok b -> document_ok s (get_position s b).
Proof.
  intros Hb. unfold get_position. destruct (dget s (pb_positions b)) as [p|] eqn:E; [by apply Hb|].
  exists 0.0%F, 0.0%F, 0.0%F, VNone. unfold position_payload.
  assert (side_for 0.0%F = FLAT) as -> by fconst. reflexivity.
Qed.

Lemma next_lot_ok c e q x n up o now :
  exists entry opened, next_lot c e q x n up o now = Ok (entry, side_for n, opened).
Proof.
  unfold next_lot, side_for. destruct (fltb (fabs n) 1e-9%F) eqn:E; [by do 2 eexists|].
  destruct (_ || _); [by do 2 eexists|]. destruct (Bool.eqb _ up).
  - unfold fdiv. destruct (is_zero (fabs n)) eqn:Ez; [|by do 2 eexists].
    exfalso. apply is_zero_le in Ez. assert (fltb (Fin 0) 1e-9%F = true) as H0 by fconst.
    rewrite (fleb_fltb_trans _ _ _ Ez H0) in E. discriminate E.
  - destruct (negb _); by do 2 eexists.
Qed.

(** The effect of an order. *)
Lemma place_order_runs symbol side qty price now uid b :
  book_ok b ->
  exists order b',
    place_order symbol side qty price now uid b = (Ok order, b') /\
    let up := buy_side (lower_str (VStr side)) in
    let x := py_round (fst (fill price (if up then 1 else -1) (pb_rng b))) 8 in
    order = order_payload uid symbol (lower_str (VStr side)) qty x /\
    book_ok b' /\
    held symbol b' = (held symbol b + qty * of_Z (if up then 1 else -1))%F /\
    (forall s, s <> symbol -> get_position s b' = get_position s b) /\
    cash_of b' = (if up then cash_of b - qty * x else cash_of b + qty * x)%F.
Proof.
  intros Hb. unfold place_order, bind, fill_at. cbv zeta.
  set (up := buy_side (lower_str (VStr side))).
  destruct (fill price (if up then 1 else -1) (pb_rng b)) as [x r] eqn:Ef. cbn [fst].
  unfold get_cash, modify, gets, lift, ret.
  set (b1 := set_cash _ _).
  destruct (position_ok b symbol Hb) as (q & e & y & o & Ep).
  assert (get_position symbol b1 = position_payload symbol (side_for q) q e y o) as Eg by exact Ep.
  assert (held symbol b = q) as Eh by (unfold held; rewrite Ep; reflexivity).
  rewrite !Eg.
  assert (py_float (dget_or "qty" (VFloat 0.0%F) (position_payload symbol (side_for q) q e y o)) = Ok q) as ->
    by reflexivity.
  destruct (float_or_zero (dget_or "entry_price" (VFloat 0.0%F)
              (position_payload symbol (side_for q) q e y o))) as [e'|ex] eqn:Ee.
  2:{ exfalso. revert Ee. unfold float_or_zero.
    match goal with |- context [truthy ?v] => destruct (truthy v) end; discriminate. }
  set (n := (q + qty * of_Z (if up then 1 else -1))%F).
  destruct (next_lot_ok q e' qty (py_round x 8) n up
    (dget_or "opened_at" VNone (position_payload symbol (side_for q) q e y o)) now) as (en & op & En).
  rewrite En. do 2 eexists. split; [reflexivity|]. split; [reflexivity|].
  split; [|split; [|split]].
  - intros s p Hs. cbn [pb_positions set_order set_position] in Hs.
    destruct (String.eqb_spec s symbol) as [->|Hne].
    + rewrite dget_dset_eq in Hs. apply Some_inj in Hs as <-. by do 4 eexists.
    + rewrite dget_dset_ne in Hs by congruence. by apply Hb.
  - rewrite Eh. unfold held, get_position. cbn [pb_positions set_order set_position].
    rewrite dget_dset_eq. reflexivity.
  - intros s Hs. unfold get_position. cbn [pb_positions set_order set_position b1 set_cash].
    by rewrite dget_dset_ne by congruence.
  - reflexivity.
Qed.

End Ops.

End Paper.
