(* ===== verification/Store.v ===== *)
(** Store: the in-memory store that stands in for the database (api/in_memory_store.py).

    The wall clock ([time.time()]) and fresh identifiers are arguments. The set of applied
    decision keys is a list without order significance. *)
From S2P Require Import Prelude PyFloat FloatFacts PyVal PyMath Config Agents Gate Params Policy.
From S2P Require Import Filters Positions.

Definition POSITION_EPSILON : float := 1e-9%F.
Definition DECISION_KEY_CAP : Z := 2000.
Definition DEFAULT_TRADE_NOTIONAL : float := 1000.0%F.

Definition DEFAULT_AGENTS : dict payload :=
  map (fun a => (a, [("status", VStr "idle")]))
    ["SIGNAL_AGENT"; "REASONING_AGENT"; "EXECUTION_ENGINE"; "GRADE_AGENT"; "IC_UPDATER";
     "REFLECTION_AGENT"; "STRATEGY_PROPOSER"; "NOTIFICATION_AGENT"; "CHALLENGER_AGENT";
     "PROPOSAL_APPLIER"].

Record InMemoryStore := {
  st_agents : dict payload;
  st_notifications : list payload;
  st_grade_history : list payload;
  st_event_history : list payload;
  st_vector_memory : list payload;
  st_agent_runs : list payload;
  st_agent_logs : list payload;
  st_orders : list payload;
  st_positions : dict payload;
  st_trade_feed : list payload;
  st_trade_evaluations : list payload;
  st_reflections : list payload;
  st_strategies : list payload;
  st_decisions : list payload;
  st_closed_trades : list payload;
  st_equity_curve : list payload;
  st_applied_keys : list string;
  st_key_order : list string;
  st_rejected_sells : list payload;
}.

Definition set_agents (x : dict payload) (s : InMemoryStore) : InMemoryStore :=
  {| st_agents := x; st_notifications := st_notifications s;
     st_grade_history := st_grade_history s; st_event_history := st_event_history s;
     st_vector_memory := st_vector_memory s; st_agent_runs := st_agent_runs s;
     st_agent_logs := st_agent_logs s; st_orders := st_orders s; st_positions := st_positions s;
     st_trade_feed := st_trade_feed s; st_trade_evaluations := st_trade_evaluations s;
     st_reflections := st_reflections s; st_strategies := st_strategies s;
     st_decisions := st_decisions s; st_closed_trades := st_closed_trades s;
     st_equity_curve := st_equity_curve s; st_applied_keys := st_applied_keys s;
     st_key_order := st_key_order s; st_rejected_sells := st_rejected_sells s |}.

Definition set_notifications (x : list payload) (s : InMemoryStore) : InMemoryStore :=
  {| st_agents := st_agents s; st_notifications := x; st_grade_history := st_grade_history s;
     st_event_history := st_event_history s; st_vector_memory := st_vector_memory s;
     st_agent_runs := st_agent_runs s; st_agent_logs := st_agent_logs s; st_orders := st_orders s;
     st_positions := st_positions s; st_trade_feed := st_trade_feed s;
     st_trade_evaluations := st_trade_evaluations s; st_reflections := st_reflections s;
     st_strategies := st_strategies s; st_decisions := st_decisions s;
     st_closed_trades := st_closed_trades s; st_equity_curve := st_equity_curve s;
     st_applied_keys := st_applied_keys s; st_key_order := st_key_order s;
     st_rejected_sells := st_rejected_sells s |}.

Definition set_grade_history (x : list payload) (s : InMemoryStore) : InMemoryStore :=
  {| st_agents := st_agents s; st_notifications := st_notifications s; st_grade_history := x;
     st_event_history := st_event_history s; st_vector_memory := st_vector_memory s;
     st_agent_runs := st_agent_runs s; st_agent_logs := st_agent_logs s; st_orders := st_orders s;
     st_positions := st_positions s; st_trade_feed := st_trade_feed s;
     st_trade_evaluations := st_trade_evaluations s; st_reflections := st_reflections s;
     st_strategies := st_strategies s; st_decisions := st_decisions s;
     st_closed_trades := st_closed_trades s; st_equity_curve := st_equity_curve s;
     st_applied_keys := st_applied_keys s; st_key_order := st_key_order s;
     st_rejected_sells := st_rejected_sells s |}.

Definition set_event_history (x : list payload) (s : InMemoryStore) : InMemoryStore :=
  {| st_agents := st_agents s; st_notifications := st_notifications s;
     st_grade_history := st_grade_history s; st_event_history := x;
     st_vector_memory := st_vector_memory s; st_agent_runs := st_agent_runs s;
     st_agent_logs := st_agent_logs s; st_orders := st_orders s; st_positions := st_positions s;
     st_trade_feed := st_trade_feed s; st_trade_evaluations := st_trade_evaluations s;
     st_reflections := st_reflections s; st_strategies := st_strategies s;
     st_decisions := st_decisions s; st_closed_trades := st_closed_trades s;
     st_equity_curve := st_equity_curve s; st_applied_keys := st_applied_keys s;
     st_key_order := st_key_order s; st_rejected_sells := st_rejected_sells s |}.

Definition set_vector_memory (x : list payload) (s : InMemoryStore) : InMemoryStore :=
  {| st_agents := st_agents s; st_notifications := st_notifications s;
     st_grade_history := st_grade_history s; st_event_history := st_event_history s;
     st_vector_memory := x; st_agent_runs := st_agent_runs s; st_agent_logs := st_agent_logs s;
     st_orders := st_orders s; st_positions := st_positions s; st_trade_feed := st_trade_feed s;
     st_trade_evaluations := st_trade_evaluations s; st_reflections := st_reflections s;
     st_strategies := st_strategies s; st_decisions := st_decisions s;
     st_closed_trades := st_closed_trades s; st_equity_curve := st_equity_curve s;
     st_applied_keys := st_applied_keys s; st_key_order := st_key_order s;
     st_rejected_sells := st_rejected_sells s |}.

Definition set_agent_runs (x : list payload) (s : InMemoryStore) : InMemoryStore :=
  {| st_agents := st_agents s; st_notifications := st_notifications s;
     st_grade_history := st_grade_history s; st_event_history := st_event_history s;
     st_vector_memory := st_vector_memory s; st_agent_runs := x; st_agent_logs := st_agent_logs s;
     st_orders := st_orders s; st_positions := st_positions s; st_trade_feed := st_trade_feed s;
     st_trade_evaluations := st_trade_evaluations s; st_reflections := st_reflections s;
     st_strategies := st_strategies s; st_decisions := st_decisions s;
     st_closed_trades := st_closed_trades s; st_equity_curve := st_equity_curve s;
     st_applied_keys := st_applied_keys s; st_key_order := st_key_order s;
     st_rejected_sells := st_rejected_sells s |}.

Definition set_agent_logs (x : list payload) (s : InMemoryStore) : InMemoryStore :=
  {| st_agents := st_agents s; st_notifications := st_notifications s;
     st_grade_history := st_grade_history s; st_event_history := st_event_history s;
     st_vector_memory := st_vector_memory s; st_agent_runs := st_agent_runs s; st_agent_logs := x;
     st_orders := st_orders s; st_positions := st_positions s; st_trade_feed := st_trade_feed s;
     st_trade_evaluations := st_trade_evaluations s; st_reflections := st_reflections s;
     st_strategies := st_strategies s; st_decisions := st_decisions s;
     st_closed_trades := st_closed_trades s; st_equity_curve := st_equity_curve s;
     st_applied_keys := st_applied_keys s; st_key_order := st_key_order s;
     st_rejected_sells := st_rejected_sells s |}.

Definition set_orders (x : list payload) (s : InMemoryStore) : InMemoryStore :=
  {| st_agents := st_agents s; st_notifications := st_notifications s;
     st_grade_history := st_grade_history s; st_event_history := st_event_history s;
     st_vector_memory := st_vector_memory s; st_agent_runs := st_agent_runs s;
     st_agent_logs := st_agent_logs s; st_orders := x; st_positions := st_positions s;
     st_trade_feed := st_trade_feed s; st_trade_evaluations := st_trade_evaluations s;
     st_reflections := st_reflections s; st_strategies := st_strategies s;
     st_decisions := st_decisions s; st_closed_trades := st_closed_trades s;
     st_equity_curve := st_equity_curve s; st_applied_keys := st_applied_keys s;
     st_key_order := st_key_order s; st_rejected_sells := st_rejected_sells s |}.

Definition set_positions (x : dict payload) (s : InMemoryStore) : InMemoryStore :=
  {| st_agents := st_agents s; st_notifications := st_notifications s;
     st_grade_history := st_grade_history s; st_event_history := st_event_history s;
     st_vector_memory := st_vector_memory s; st_agent_runs := st_agent_runs s;
     st_agent_logs := st_agent_logs s; st_orders := st_orders s; st_positions := x;
     st_trade_feed := st_trade_feed s; st_trade_evaluations := st_trade_evaluations s;
     st_reflections := st_reflections s; st_strategies := st_strategies s;
     st_decisions := st_decisions s; st_closed_trades := st_closed_trades s;
     st_equity_curve := st_equity_curve s; st_applied_keys := st_applied_keys s;
     st_key_order := st_key_order s; st_rejected_sells := st_rejected_sells s |}.

Definition set_trade_feed (x : list payload) (s : InMemoryStore) : InMemoryStore :=
  {| st_agents := st_agents s; st_notifications := st_notifications s;
     st_grade_history := st_grade_history s; st_event_history := st_event_history s;
     st_vector_memory := st_vector_memory s; st_agent_runs := st_agent_runs s;
     st_agent_logs := st_agent_logs s; st_orders := st_orders s; st_positions := st_positions s;
     st_trade_feed := x; st_trade_evaluations := st_trade_evaluations s;
     st_reflections := st_reflections s; st_strategies := st_strategies s;
     st_decisions := st_decisions s; st_closed_trades := st_closed_trades s;
     st_equity_curve := st_equity_curve s; st_applied_keys := st_applied_keys s;
     st_key_order := st_key_order s; st_rejected_sells := st_rejected_sells s |}.

Definition set_trade_evaluations (x : list payload) (s : InMemoryStore) : InMemoryStore :=
  {| st_agents := st_agents s; st_notifications := st_notifications s;
     st_grade_history := st_grade_history s; st_event_history := st_event_history s;
     st_vector_memory := st_vector_memory s; st_agent_runs := st_agent_runs s;
     st_agent_logs := st_agent_logs s; st_orders := st_orders s; st_positions := st_positions s;
     st_trade_feed := st_trade_feed s; st_trade_evaluations := x;
     st_reflections := st_reflections s; st_strategies := st_strategies s;
     st_decisions := st_decisions s; st_closed_trades := st_closed_trades s;
     st_equity_curve := st_equity_curve s; st_applied_keys := st_applied_keys s;
     st_key_order := st_key_order s; st_rejected_sells := st_rejected_sells s |}.

Definition set_reflections (x : list payload) (s : InMemoryStore) : InMemoryStore :=
  {| st_agents := st_agents s; st_notifications := st_notifications s;
     st_grade_history := st_grade_history s; st_event_history := st_event_history s;
     st_vector_memory := st_vector_memory s; st_agent_runs := st_agent_runs s;
     st_agent_logs := st_agent_logs s; st_orders := st_orders s; st_positions := st_positions s;
     st_trade_feed := st_trade_feed s; st_trade_evaluations := st_trade_evaluations s;
     st_reflections := x; st_strategies := st_strategies s; st_decisions := st_decisions s;
     st_closed_trades := st_closed_trades s; st_equity_curve := st_equity_curve s;
     st_applied_keys := st_applied_keys s; st_key_order := st_key_order s;
     st_rejected_sells := st_rejected_sells s |}.

Definition set_strategies (x : list payload) (s : InMemoryStore) : InMemoryStore :=
  {| st_agents := st_agents s; st_notifications := st_notifications s;
     st_grade_history := st_grade_history s; st_event_history := st_event_history s;
     st_vector_memory := st_vector_memory s; st_agent_runs := st_agent_runs s;
     st_agent_logs := st_agent_logs s; st_orders := st_orders s; st_positions := st_positions s;
     st_trade_feed := st_trade_feed s; st_trade_evaluations := st_trade_evaluations s;
     st_reflections := st_reflections s; st_strategies := x; st_decisions := st_decisions s;
     st_closed_trades := st_closed_trades s; st_equity_curve := st_equity_curve s;
     st_applied_keys := st_applied_keys s; st_key_order := st_key_order s;
     st_rejected_sells := st_rejected_sells s |}.

Definition set_decisions (x : list payload) (s : InMemoryStore) : InMemoryStore :=
  {| st_agents := st_agents s; st_notifications := st_notifications s;
     st_grade_history := st_grade_history s; st_event_history := st_event_history s;
     st_vector_memory := st_vector_memory s; st_agent_runs := st_agent_runs s;
     st_agent_logs := st_agent_logs s; st_orders := st_orders s; st_positions := st_positions s;
     st_trade_feed := st_trade_feed s; st_trade_evaluations := st_trade_evaluations s;
     st_reflections := st_reflections s; st_strategies := st_strategies s; st_decisions := x;
     st_closed_trades := st_closed_trades s; st_equity_curve := st_equity_curve s;
     st_applied_keys := st_applied_keys s; st_key_order := st_key_order s;
     st_rejected_sells := st_rejected_sells s |}.

Definition set_closed_trades (x : list payload) (s : InMemoryStore) : InMemoryStore :=
  {| st_agents := st_agents s; st_notifications := st_notifications s;
     st_grade_history := st_grade_history s; st_event_history := st_event_history s;
     st_vector_memory := st_vector_memory s; st_agent_runs := st_agent_runs s;
     st_agent_logs := st_agent_logs s; st_orders := st_orders s; st_positions := st_positions s;
     st_trade_feed := st_trade_feed s; st_trade_evaluations := st_trade_evaluations s;
     st_reflections := st_reflections s; st_strategies := st_strategies s;
     st_decisions := st_decisions s; st_closed_trades := x; st_equity_curve := st_equity_curve s;
     st_applied_keys := st_applied_keys s; st_key_order := st_key_order s;
     st_rejected_sells := st_rejected_sells s |}.

Definition set_equity_curve (x : list payload) (s : InMemoryStore) : InMemoryStore :=
  {| st_agents := st_agents s; st_notifications := st_notifications s;
     st_grade_history := st_grade_history s; st_event_history := st_event_history s;
     st_vector_memory := st_vector_memory s; st_agent_runs := st_agent_runs s;
     st_agent_logs := st_agent_logs s; st_orders := st_orders s; st_positions := st_positions s;
     st_trade_feed := st_trade_feed s; st_trade_evaluations := st_trade_evaluations s;
     st_reflections := st_reflections s; st_strategies := st_strategies s;
     st_decisions := st_decisions s; st_closed_trades := st_closed_trades s; st_equity_curve := x;
     st_applied_keys := st_applied_keys s; st_key_order := st_key_order s;
     st_rejected_sells := st_rejected_sells s |}.

Definition set_applied_keys (x : list string) (s : InMemoryStore) : InMemoryStore :=
  {| st_agents := st_agents s; st_notifications := st_notifications s;
     st_grade_history := st_grade_history s; st_event_history := st_event_history s;
     st_vector_memory := st_vector_memory s; st_agent_runs := st_agent_runs s;
     st_agent_logs := st_agent_logs s; st_orders := st_orders s; st_positions := st_positions s;
     st_trade_feed := st_trade_feed s; st_trade_evaluations := st_trade_evaluations s;
     st_reflections := st_reflections s; st_strategies := st_strategies s;
     st_decisions := st_decisions s; st_closed_trades := st_closed_trades s;
     st_equity_curve := st_equity_curve s; st_applied_keys := x; st_key_order := st_key_order s;
     st_rejected_sells := st_rejected_sells s |}.

Definition set_key_order (x : list string) (s : InMemoryStore) : InMemoryStore :=
  {| st_agents := st_agents s; st_notifications := st_notifications s;
     st_grade_history := st_grade_history s; st_event_history := st_event_history s;
     st_vector_memory := st_vector_memory s; st_agent_runs := st_agent_runs s;
     st_agent_logs := st_agent_logs s; st_orders := st_orders s; st_positions := st_positions s;
     st_trade_feed := st_trade_feed s; st_trade_evaluations := st_trade_evaluations s;
     st_reflections := st_reflections s; st_strategies := st_strategies s;
     st_decisions := st_decisions s; st_closed_trades := st_closed_trades s;
     st_equity_curve := st_equity_curve s; st_applied_keys := st_applied_keys s;
     st_key_order := x; st_rejected_sells := st_rejected_sells s |}.

Definition set_rejected_sells (x : list payload) (s : InMemoryStore) : InMemoryStore :=
  {| st_agents := st_agents s; st_notifications := st_notifications s;
     st_grade_history := st_grade_history s; st_event_history := st_event_history s;
     st_vector_memory := st_vector_memory s; st_agent_runs := st_agent_runs s;
     st_agent_logs := st_agent_logs s; st_orders := st_orders s; st_positions := st_positions s;
     st_trade_feed := st_trade_feed s; st_trade_evaluations := st_trade_evaluations s;
     st_reflections := st_reflections s; st_strategies := st_strategies s;
     st_decisions := st_decisions s; st_closed_trades := st_closed_trades s;
     st_equity_curve := st_equity_curve s; st_applied_keys := st_applied_keys s;
     st_key_order := st_key_order s; st_rejected_sells := x |}.

Module Store.

Definition init : InMemoryStore :=
  {| st_agents := DEFAULT_AGENTS; st_notifications := []; st_grade_history := [];
     st_event_history := []; st_vector_memory := []; st_agent_runs := []; st_agent_logs := [];
     st_orders := []; st_positions := []; st_trade_feed := []; st_trade_evaluations := [];
     st_reflections := []; st_strategies := []; st_decisions := []; st_closed_trades := [];
     st_equity_curve := []; st_applied_keys := []; st_key_order := []; st_rejected_sells := [] |}.

(** ** Rows *)

(** [payload.setdefault(k, v)] *)
Definition setdefault (k : string) (v : val) (d : payload) : payload :=
  if dmem k d then d else dset k v d.

(** [l.append(x); if len(l) > n: l = l[-n:]] *)
Definition push_capped (n : Z) (x : payload) (l : list payload) : list payload :=
  let l := l ++ [x] in if n <? zlen l then slice_last n l else l.

(** [max(1, min(limit, n))] and [list(reversed(l[-limit:]))] *)
Definition safe_limit (limit n : Z) : Z := Z.max 1 (Z.min limit n).
Definition newest (n : Z) (l : list payload) : list payload := rev (slice_last n l).

Definition _safe_float (v : val) : res (option float) :=
  match py_float v with
  | Ok x => Ok (Some x)
  | Raise TypeError | Raise ValueError => Ok None
  | Raise e => Raise e
  end.

(** [o or 0.0], and [a or b] on two optional numbers. *)
Definition or_zero (o : option float) : float :=
  match o with Some x => if ftruthy x then x else 0.0%F | None => 0.0%F end.

Definition or_else (a : option float) (b : res (option float)) : res (option float) :=
  match a with Some x => if ftruthy x then Ok a else b | None => b end.

Definition field (k : string) (p : payload) : val := dget_or k VNone p.

(** ** Generic collections *)

Definition add_notification (message level notification_type : string) (now : float)
    (s : InMemoryStore) : payload * InMemoryStore :=
  let p := [("id", VInt (zlen (st_notifications s) + 1)); ("message", VStr message);
            ("type", VStr level); ("notification_type", VStr notification_type);
            ("timestamp", VFloat now)] in
  (p, set_notifications (st_notifications s ++ [p]) s).

(** [entry[ID] = entry.get(NOTIFICATION_ID) or f"mem-{len + 1}"] for a falsy id. *)
Definition notification_id (p : payload) (s : InMemoryStore) : val :=
  first_truthy ["notification_id"] p (VStr ("mem-" +:+ pretty (zlen (st_notifications s) + 1))).

Definition record_notification (p : payload) (now : float) (s : InMemoryStore) : payload * InMemoryStore :=
  let entry := if truthy (field "id" p) then p else dset "id" (notification_id p s) p in
  let entry := setdefault "timestamp" (VFloat now) entry in
  (entry, set_notifications (push_capped 100 entry (st_notifications s)) s).

(** [{**existing, **{k: v for k, v in payload.items() if v is not None}}] *)
Definition not_none (kv : string * val) : bool := match snd kv with VNone => false | _ => true end.
Definition merge_row (existing p : payload) : payload := dmerge existing (List.filter not_none p).

(** Merge into the first row that matches, or [None]. *)
Fixpoint merge_first (same : payload -> bool) (p : payload) (l : list payload)
  : option (payload * list payload) :=
  match l with
  | [] => None
  | r :: l' =>
      if same r then let m := merge_row r p in Some (m, m :: l')
      else match merge_first same p l' with
           | Some (m, l'') => Some (m, r :: l'')
           | None => None
           end
  end.

Definition add_grade (g : payload) (now : float) (s : InMemoryStore) : payload * InMemoryStore :=
  let p := setdefault "timestamp" (VFloat now) g in
  let tid := field "trace_id" p in
  match (if truthy tid
         then merge_first (fun r => val_eqb (field "trace_id" r) tid) p (st_grade_history s)
         else None) with
  | Some (m, l) => (m, set_grade_history l s)
  | None => (p, set_grade_history (push_capped 500 p (st_grade_history s)) s)
  end.

Definition get_grades (limit : Z) (s : InMemoryStore) : list payload :=
  newest (safe_limit limit 200) (st_grade_history s).

Definition is_overall (g : payload) : bool :=
  match field "grade_type" g with VNone => true | v => val_eqb v (VStr "overall") end.

Definition get_overall_grades (limit : Z) (s : InMemoryStore) : list payload :=
  newest (safe_limit limit 200) (List.filter is_overall (st_grade_history s)).

Definition add_event (e : payload) (now : float) (s : InMemoryStore) : payload * InMemoryStore :=
  let p := setdefault "timestamp" (VFloat now) e in
  (p, set_event_history (push_capped 1000 p (st_event_history s)) s).

Definition get_events (limit : Z) (s : InMemoryStore) : list payload :=
  newest (safe_limit limit 200) (st_event_history s).

Definition add_vector_memory (m : payload) (now : float) (s : InMemoryStore) : payload * InMemoryStore :=
  let p := setdefault "created_at" (VFloat now) m in
  (p, set_vector_memory (push_capped 1000 p (st_vector_memory s)) s).

Definition add_agent_run (r : payload) (now : float) (s : InMemoryStore) : payload * InMemoryStore :=
  let p := setdefault "created_at" (VFloat now) r in
  (p, set_agent_runs (push_capped 500 p (st_agent_runs s)) s).

Definition add_agent_log (l : payload) (now : float) (s : InMemoryStore) : payload * InMemoryStore :=
  let p := setdefault "timestamp" (VFloat now) l in
  (p, set_agent_logs (push_capped 500 p (st_agent_logs s)) s).

Definition add_trade_evaluation (e : payload) (now : float) (s : InMemoryStore)
  : payload * InMemoryStore :=
  let p := setdefault "created_at" (VFloat now) e in
  (p, set_trade_evaluations (push_capped 500 p (st_trade_evaluations s)) s).

Definition get_trade_evaluations (limit : Z) (s : InMemoryStore) : list payload :=
  newest (safe_limit limit 200) (st_trade_evaluations s).

(** A row whose falsy id is replaced by a fresh one. *)
Definition with_id (uid : string) (p : payload) : payload :=
  if truthy (field "id" p) then p else dset "id" (VStr uid) p.

Definition add_reflection (e : payload) (uid : string) (now : float) (s : InMemoryStore)
  : payload * InMemoryStore :=
  let p := setdefault "created_at" (VFloat now) (with_id uid e) in
  (p, set_reflections (push_capped 100 p (st_reflections s)) s).

Definition get_reflections (limit : Z) (s : InMemoryStore) : list payload :=
  newest (safe_limit limit 50) (st_reflections s).

Definition add_strategy (e : payload) (uid : string) (now : float) (s : InMemoryStore)
  : payload * InMemoryStore :=
  let p := setdefault "created_at" (VFloat now) (with_id uid e) in
  (p, set_strategies (push_capped 100 p (st_strategies s)) s).

Definition get_strategies (limit : Z) (s : InMemoryStore) : list payload :=
  newest (safe_limit limit 50) (st_strategies s).

Definition upsert_agent (agent_id : string) (data : payload) (s : InMemoryStore) : InMemoryStore :=
  set_agents (dset agent_id (dmerge (dget_or agent_id [] (st_agents s)) data) (st_agents s)) s.

Definition get_agent (agent_id : string) (s : InMemoryStore) : option payload :=
  dget agent_id (st_agents s).

(** ** Orders and trades *)

Definition add_order (o : payload) (now : float) (s : InMemoryStore) : payload * InMemoryStore :=
  let p := setdefault "created_at" (VFloat now) o in
  (p, set_orders (push_capped 500 p (st_orders s)) s).

Definition add_closed_trade (t : payload) (now : float) (s : InMemoryStore) : payload * InMemoryStore :=
  let p := setdefault "timestamp" (VFloat now) t in
  (p, set_closed_trades (push_capped 500 p (st_closed_trades s)) s).

Definition upsert_position (symbol : string) (p : payload) (s : InMemoryStore) : InMemoryStore :=
  set_positions (dset symbol (dmerge (dget_or symbol [] (st_positions s)) p) (st_positions s)) s.

Definition upsert_trade_fill (t : payload) (now : float) (s : InMemoryStore) : payload * InMemoryStore :=
  let p := setdefault "created_at" (VFloat now) t in
  let key := first_truthy ["execution_trace_id"; "order_id"] p VNone in
  let same r := val_eqb (field "execution_trace_id" r) key || val_eqb (field "order_id" r) key in
  match (if truthy key then merge_first same p (st_trade_feed s) else None) with
  | Some (m, l) => (m, set_trade_feed l s)
  | None => (p, set_trade_feed (push_capped 500 p (st_trade_feed s)) s)
  end.

Definition reject_sell_no_position (symbol trace_id event_id reason : string) (now : float)
    (s : InMemoryStore) : payload * InMemoryStore :=
  let e := [("symbol", VStr symbol); ("side", VStr "sell"); ("rejection_reason", VStr reason);
            ("trace_id", VStr trace_id); ("id", VStr event_id); ("timestamp", VFloat now)] in
  (e, set_rejected_sells (push_capped 500 e (st_rejected_sells s)) s).

(** ** Positions *)

Definition _has_open_quantity (p : payload) : res bool :=
  let v := dget_or "qty" (VInt 0) p in
  match float_or_zero v with
  | Ok q => Ok (fltb 0.0%F (fabs q))
  | Raise TypeError | Raise ValueError => Ok false
  | Raise e => Raise e
  end.

(** [abs(_safe_float(QTY) or _safe_float(QUANTITY) or 0.0)] *)
Definition abs_qty (p : payload) : res float :=
  let* a := _safe_float (field "qty" p) in
  let* q := or_else a (_safe_float (field "quantity" p)) in
  Ok (fabs (or_zero q)).

Definition _position_unrealized_pnl (p : payload) : res (option float) :=
  let* qty := abs_qty p in
  let* avg_cost := _safe_float (dget_or "avg_cost" (field "avg_entry_price" p) p) in
  let* last_price := _safe_float (dget_or "last_price" (field "price" p) p) in
  match avg_cost, last_price with
  | Some c, Some x =>
      if fleb qty 0.0%F then Ok None
      else
        let side := lower_str (first_truthy ["side"] p (VStr "")) in
        Ok (Some (if String.eqb side SHORT then py_round ((c - x) * qty)%F 8
                  else py_round ((x - c) * qty)%F 8))
  | _, _ => Ok None
  end.

Definition _position_pnl_percent (p : payload) (unrealized : option float) : res (option float) :=
  match unrealized with
  | None => Ok None
  | Some u =>
      let* qty := abs_qty p in
      let* avg_cost := _safe_float (dget_or "avg_cost" (field "avg_entry_price" p) p) in
      match avg_cost with
      | Some c =>
          if fleb qty 0.0%F then Ok None
          else
            let cost_basis := (c * qty)%F in
            if feqb cost_basis 0.0%F then Ok None
            else let* r := fdiv u cost_basis in Ok (Some (py_round (r * 100.0)%F 4))
      | None => Ok None
      end
  end.

Definition _normalize_position (p : payload) : res payload :=
  let* q := _safe_float (first_truthy ["qty"] p (field "quantity" p)) in
  let* c1 := _safe_float (field "current_price" p) in
  let* c2 := or_else c1 (_safe_float (field "last_price" p)) in
  let* c3 := or_else c2 (_safe_float (field "price" p)) in
  let* computed := _position_unrealized_pnl p in
  let* unrealized :=
    match computed with
    | Some u => Ok u
    | None =>
        let* stored := _safe_float (field "unrealized_pnl" p) in
        match stored with
        | Some u => Ok u
        | None => let* pnl := _safe_float (field "pnl" p) in Ok (or_zero pnl)
        end
    end in
  let* pct := _position_pnl_percent p (Some unrealized) in
  Ok (dset "pnl_percent" (vopt VFloat pct)
       (dset "pnl" (VFloat unrealized)
         (dset "unrealized_pnl" (VFloat unrealized)
           (dset "current_price" (VFloat (or_zero c3)) (dset "quantity" (VFloat (or_zero q)) p))))).

Definition mark_price (l : dict payload) (sp : string * val) : res (dict payload) :=
  let* v := _safe_float (snd sp) in
  match v, dget (fst sp) l with
  | Some x, Some p => Ok (dset (fst sp) (dset "current_price" (VFloat x) (dset "last_price" (VFloat x) p)) l)
  | _, _ => Ok l
  end.

Definition apply_current_prices (prices : payload) (s : InMemoryStore) : res InMemoryStore :=
  let* l := res_fold mark_price prices (st_positions s) in Ok (set_positions l s).

(** The rows of open positions, in order. *)
Definition open_rows (s : InMemoryStore) : res (list payload) :=
  let* rows := res_list (fun p => let* b := _has_open_quantity p in Ok (if b then [p] else []))
                 (dvalues (st_positions s)) in
  Ok (concat rows).

Definition normalized_open_positions (s : InMemoryStore) : res (list payload) :=
  let* rows := open_rows s in res_list _normalize_position rows.

Definition has_active_position (symbol : string) (s : InMemoryStore) : res bool :=
  match dget symbol (st_positions s) with Some p => _has_open_quantity p | None => Ok false end.

Definition get_active_position_count (s : InMemoryStore) : res Z :=
  let* rows := open_rows s in Ok (zlen rows).

Definition open_row (p : payload) : res payload :=
  let* computed := _position_unrealized_pnl p in
  match computed with
  | Some u =>
      let p := dset "pnl" (VFloat u) (dset "unrealized_pnl" (VFloat u) p) in
      let* pct := _position_pnl_percent p computed in
      Ok (dset "pnl_percent" (vopt VFloat pct) p)
  | None => Ok p
  end.

Definition open_positions (s : InMemoryStore) : res (list payload) :=
  let* rows := open_rows s in res_list open_row rows.

Definition mirrored (symbol side : string) (qty entry last_price : float) : payload :=
  [("symbol", VStr symbol); ("side", VStr side); ("qty", VFloat (fabs qty));
   ("quantity", VFloat (fabs qty)); ("entry_price", VFloat entry); ("avg_cost", VFloat entry);
   ("avg_entry_price", VFloat entry); ("last_price", VFloat last_price);
   ("current_price", VFloat last_price); ("unrealized_pnl", VFloat 0.0%F); ("pnl", VFloat 0.0%F)].

(** [d.pop(k, None)] *)
Definition dpop {A} (k : string) (d : dict A) : dict A :=
  List.filter (fun kv => negb (String.eqb (fst kv) k)) d.

Definition mirror_broker_position (symbol : string) (broker_position : payload)
    (strategy_id : option string) (s : InMemoryStore) : res InMemoryStore :=
  let* q := _safe_float (field "qty" broker_position) in
  let qty := or_zero q in
  if fleb (fabs qty) POSITION_EPSILON then Ok (set_positions (dpop symbol (st_positions s)) s)
  else
    let* e := _safe_float (field "entry_price" broker_position) in
    let entry := or_zero e in
    let* c := _safe_float (field "current_price" broker_position) in
    let last_price := match c with Some x => if ftruthy x then x else entry | None => entry end in
    let side := lower_str (first_truthy ["side"] broker_position (VStr "")) in
    let row := mirrored symbol side qty entry last_price in
    let row := match strategy_id with Some i => dset "strategy_id" (VStr i) row | None => row end in
    Ok (set_positions (dset symbol row (st_positions s)) s).

Definition has_open_position (symbol : string) (s : InMemoryStore) : res bool :=
  match dget symbol (st_positions s) with
  | None => Ok false
  | Some p =>
      let side := lower_str (dget_or "side" (VStr "") p) in
      let* q := _safe_float (field "qty" p) in
      Ok (String.eqb side LONG && fltb 0.0%F (or_zero q))
  end.

Definition get_open_position (symbol : string) (s : InMemoryStore) : res (option payload) :=
  let* b := has_open_position symbol s in
  Ok (if b then dget symbol (st_positions s) else None).

(** ** Profit and loss *)

Definition win_rate_from_counts (winning losing : Z) : res float :=
  if winning + losing =? 0 then Ok 0.0%F else int_div winning (winning + losing).

(** A row of the paired view and what it adds to the unrealized total. *)
Definition paired_row (p : payload) : res (payload * option float) :=
  let* existing := _safe_float (field "unrealized_pnl" p) in
  let* u := _position_unrealized_pnl p in
  Ok (match u, existing with
      | Some x, _ => (dset "unrealized_pnl" (VFloat x) p, Some x)
      | None, Some x => (dset "unrealized_pnl" (VFloat (py_round x 8)) p, Some x)
      | None, None => (dset "pnl_stale" (VBool true) (dset "unrealized_pnl" VNone p), None)
      end).

Record PairedPnl := {
  pp_closed_trades : list payload;
  pp_open_positions : list payload;
  pp_realized : float;
  pp_unrealized : float;
  pp_total : float;
  pp_trades : Z;
  pp_winning : Z;
  pp_win_rate_percent : float;
}.

Definition order_pnls (orders : list payload) : res (list float) :=
  res_list (fun o => let* p := _safe_float (field "pnl" o) in Ok (or_zero p)) orders.

Definition paired_pnl_payload (s : InMemoryStore) : res PairedPnl :=
  let closed_trades := slice_last 100 (st_orders s) in
  let* pnls := order_pnls closed_trades in
  let winning := zlen (List.filter (fltb 0.0%F) pnls) in
  let losing := zlen (List.filter (fun x => fltb x 0.0%F) pnls) in
  let realized := fsum_left pnls in
  let* opens := open_positions s in
  let* rows := res_list paired_row opens in
  let unrealized := fold_left (fun a r => match snd r with Some x => (a + x)%F | None => a end)
                      rows 0.0%F in
  let* rate := win_rate_from_counts winning losing in
  Ok {| pp_closed_trades := closed_trades; pp_open_positions := map fst rows;
        pp_realized := py_round realized 8; pp_unrealized := py_round unrealized 8;
        pp_total := py_round (realized + unrealized)%F 8; pp_trades := winning + losing;
        pp_winning := winning; pp_win_rate_percent := py_round (rate * 100.0)%F 2 |}.

(** ** Decisions *)

Definition keyed (k : string) (v : val) : string := k +:+ ":" +:+ Fmt.str v.

Definition _decision_key (p : payload) : string :=
  match List.find (fun k => truthy (field k p)) ["redis_stream_id"; "stream_id"; "id"; "trace_id"] with
  | Some k => keyed k (field k p)
  | None =>
      let part k := Fmt.str (first_truthy [k] p (VStr "")) in
      "derived:" +:+ part "timestamp" +:+ ":" +:+ part "symbol" +:+ ":" +:+ part "action"
      +:+ ":" +:+ part "price"
  end.

Definition discard (k : string) (l : list string) : list string :=
  List.filter (fun x => negb (String.eqb x k)) l.

(** [while len(order) > CAP: keys.discard(order.popleft())] *)
Fixpoint prune (fuel : nat) (keys order : list string) : list string * list string :=
  match fuel, order with
  | S f, k :: rest =>
      if DECISION_KEY_CAP <? zlen order then prune f (discard k keys) rest else (keys, order)
  | _, _ => (keys, order)
  end.

(** Add a key to the set. *)
Definition set_add (k : string) (l : list string) : list string :=
  if one_of k l then l else l ++ [k].

Definition upper_str (v : val) : string :=
  String.string_of_list_ascii (map (fun c => let n := Z.of_nat (Ascii.nat_of_ascii c) in
    if (97 <=? n) && (n <=? 122) then Ascii.ascii_of_nat (Z.to_nat (n - 32)) else c)
    (String.list_ascii_of_string (Fmt.str v))).

Definition decision_row (p : payload) (now_iso : string) (s : InMemoryStore) : res payload :=
  let* pr := _safe_float (field "price" p) in
  let price := or_zero pr in
  let* qn := _safe_float (field "qty" p) in
  let* quantity :=
    if match qn with None => true | Some q => fleb q 0.0%F end && fltb 0.0%F price
    then let* q := fdiv DEFAULT_TRADE_NOTIONAL price in Ok (Some q) else Ok qn in
  let* conf := _safe_float (field "confidence" p) in
  Ok [("id", first_truthy ["id"; "trace_id"] p
               (VStr ("mem-dec-" +:+ pretty (zlen (st_decisions s) + 1))));
      ("trace_id", field "trace_id" p);
      ("timestamp", first_truthy ["timestamp"] p (VStr now_iso));
      ("symbol", VStr (String.string_of_list_ascii (Parse.strip (String.list_ascii_of_string
                         (Fmt.str (first_truthy ["symbol"] p (VStr "")))))));
      ("action", VStr (upper_str (dget_or "action" (VStr "hold") p)));
      ("price", VFloat price); ("qty", VFloat (or_zero quantity));
      ("confidence", vopt VFloat conf);
      ("agent", first_truthy ["agent"] p (VStr "reasoning_agent"));
      ("reason", first_truthy ["reasoning_summary"] p (field "reason" p))].

Definition record_decision (p : payload) (now_iso : string) (s : InMemoryStore)
  : res payload * InMemoryStore :=
  let k := _decision_key p in
  if one_of k (st_applied_keys s) then
    (Ok [("id", first_truthy ["id"; "trace_id"] p (VStr k)); ("deduplicated", VBool true)], s)
  else
    let order := st_key_order s ++ [k] in
    let '(keys, order) := prune (length order) (set_add k (st_applied_keys s)) order in
    let s := set_key_order order (set_applied_keys keys s) in
    match decision_row p now_iso s with
    | Ok row => (Ok row, set_decisions (push_capped 500 row (st_decisions s)) s)
    | Raise e => (Raise e, s)
    end.

End Store.
