(* ===== verification/StoreFacts.v ===== *)
(** StoreFacts: what the in-memory store promises: the deduplication window of decisions,
    capped collections, and the reach of the profit-and-loss summary. *)
From S2P Require Import Prelude StateErr PyFloat FloatFacts PyVal PyMath PyRandom Config Agents.
From S2P Require Import Gate Params Policy Filters Positions Broker Store.

Import Store.

(** * Capped collections *)

Lemma drop_capped {A} n (l : list A) : (length (drop (length l - n) l) <= n)%nat.
Proof. rewrite length_drop. lia. Qed.

Lemma push_capped_spec n x l :
  0 < n -> push_capped n x l = drop (length l + 1 - Z.to_nat n) (l ++ [x]).
Proof.
  intros Hn. unfold push_capped, slice_last, zlen. rewrite length_app. cbn [length].
  destruct (Z.ltb_spec n (Z.of_nat (length l + 1))).
  - destruct (Z.eqb_spec n 0); [lia|]. destruct (Z.ltb_spec 0 n); [reflexivity|lia].
  - replace (length l + 1 - Z.to_nat n)%nat with 0%nat by lia. reflexivity.
Qed.

Lemma push_capped_length n x l :
  0 < n -> zlen l <= n -> zlen (push_capped n x l) <= n.
Proof.
  intros Hn Hl. rewrite push_capped_spec by exact Hn. unfold zlen in *.
  rewrite length_drop, length_app. cbn [length]. lia.
Qed.

(** * The deduplication window *)

(** The reference: a queue of distinct keys that keeps the newest 2000. *)
Definition window_push (k : string) (q : list string) : list string :=
  if one_of k q then q else drop (length q + 1 - Z.to_nat DECISION_KEY_CAP) (q ++ [k]).

Lemma one_of_spec k l : one_of k l = true <-> In k l.
Proof.
  unfold one_of. rewrite existsb_exists. split.
  - intros (x & Hin & E). apply String.eqb_eq in E. by subst.
  - intros Hin. exists k. split; [exact Hin|apply String.eqb_refl].
Qed.

Lemma discard_fresh k l : ~ In k l -> discard k l = l.
Proof.
  induction l as [|x l IH]; intros Hk; [reflexivity|]. unfold discard in *. cbn [List.filter].
  destruct (String.eqb_spec x k) as [->|Hne]; [by destruct Hk; left|]. cbn [negb].
  rewrite IH; [reflexivity|]. intros Hin. apply Hk. by right.
Qed.

Lemma discard_head k l : ~ In k l -> discard k (k :: l) = l.
Proof.
  intros Hk. unfold discard. cbn [List.filter]. rewrite String.eqb_refl. cbn [negb].
  exact (discard_fresh k l Hk).
Qed.

Lemma prune_spec fuel q : (length q <= fuel)%nat -> NoDup q ->
  prune fuel q q = (drop (length q - Z.to_nat DECISION_KEY_CAP) q,
                    drop (length q - Z.to_nat DECISION_KEY_CAP) q).
Proof.
  revert q. induction fuel as [|fuel IH]; intros q Hf Hq.
  { destruct q; [reflexivity|cbn in Hf; lia]. }
  destruct q as [|k q]; [reflexivity|]. cbn [prune length] in *.
  apply NoDup_cons in Hq as [Hk Hq]. unfold zlen. cbn [length].
  destruct (Z.ltb_spec DECISION_KEY_CAP (Z.of_nat (S (length q)))).
  - rewrite discard_head by (intros Hin; apply Hk; by apply list_elem_of_In).
    rewrite IH by (lia || exact Hq).
    replace (S (length q) - Z.to_nat DECISION_KEY_CAP)%nat
      with (S (length q - Z.to_nat DECISION_KEY_CAP)) by (unfold DECISION_KEY_CAP in *; lia).
    reflexivity.
  - replace (S (length q) - Z.to_nat DECISION_KEY_CAP)%nat with 0%nat
      by (unfold DECISION_KEY_CAP in *; lia). reflexivity.
Qed.

(** The keys of the store are one window, seen as a set and as a queue. *)
Definition window_ok (s : InMemoryStore) : Prop :=
  st_applied_keys s = st_key_order s /\ NoDup (st_key_order s) /\
  zlen (st_key_order s) <= DECISION_KEY_CAP /\ zlen (st_decisions s) <= 500.

Lemma window_push_ok k q : NoDup q -> zlen q <= DECISION_KEY_CAP ->
  NoDup (window_push k q) /\ zlen (window_push k q) <= DECISION_KEY_CAP.
Proof.
  intros Hq Hl. unfold window_push. destruct (one_of k q) eqn:E; [done|]. split.
  - assert (NoDup (q ++ [k])) as Hn.
    { apply NoDup_app. split; [exact Hq|]. split; [|apply NoDup_singleton].
      intros x Hx Hk. apply list_elem_of_singleton in Hk. subst x. apply list_elem_of_In in Hx.
      apply one_of_spec in Hx. congruence. }
    rewrite <- (take_drop (length q + 1 - Z.to_nat DECISION_KEY_CAP) (q ++ [k])) in Hn.
    by apply NoDup_app in Hn as (_ & _ & Hn).
  - unfold zlen in *. rewrite length_drop, length_app. cbn [length]. unfold DECISION_KEY_CAP in *. lia.
Qed.

Lemma record_window p now s :
  window_ok s ->
  let s' := snd (record_decision p now s) in
  window_ok s' /\ st_key_order s' = window_push (_decision_key p) (st_key_order s).
Proof.
  intros (Ea & Hn & Hl & Hd). cbv zeta. unfold record_decision. set (k := _decision_key p).
  rewrite Ea. unfold window_push. destruct (one_of k (st_key_order s)) eqn:E; [by split_and!|].
  destruct (window_push_ok k _ Hn Hl) as [Hn' Hl']. unfold window_push in Hn', Hl'. rewrite E in Hn', Hl'.
  set (q := st_key_order s) in *.
  unfold set_add. rewrite E.
  assert (NoDup (q ++ [k])) as Hq.
  { apply NoDup_app. split; [exact Hn|]. split; [|apply NoDup_singleton].
    intros x Hx Hk. apply list_elem_of_singleton in Hk. subst x. apply list_elem_of_In in Hx.
    apply one_of_spec in Hx. congruence. }
  rewrite prune_spec by (lia || exact Hq). rewrite length_app. cbn [length].
  set (w := drop _ (q ++ [k])) in *.
  destruct (decision_row p now _) as [row|e]; cbn [snd]; (split; [|reflexivity]); split_and!;
    try reflexivity; try exact Hn'; try exact Hl'; [|exact Hd].
  cbn [st_decisions set_decisions set_key_order set_applied_keys]. by apply push_capped_length.
Qed.

Definition record_all (l : list (payload * string)) (s : InMemoryStore) : InMemoryStore :=
  fold_left (fun s x => snd (record_decision (fst x) (snd x) s)) l s.

Lemma record_all_window l : forall s, window_ok s ->
  window_ok (record_all l s) /\
  st_key_order (record_all l s)
  = fold_left (fun q x => window_push (_decision_key (fst x)) q) l (st_key_order s).
Proof.
  induction l as [|[p now] l IH]; intros s Hs; [by split|].
  destruct (record_window p now s Hs) as [Hs' E]. destruct (IH _ Hs') as [H1 H2].
  split; [exact H1|]. cbn [record_all fold_left fst snd] in *. rewrite <- E. exact H2.
Qed.

(** Decisions are deduplicated over a window of the 2000 newest distinct keys, exactly:
    after any decisions the key set and the key queue are the reference queue, and the next
    decision is answered as a duplicate, leaving the store as it was, just when its key is
    in that queue. *)
Theorem decisions_deduplicated l p now :
  let s := record_all l init in
  let q := fold_left (fun q x => window_push (_decision_key (fst x)) q) l [] in
  st_applied_keys s = q /\ st_key_order s = q /\ NoDup q /\ zlen q <= 2000 /\
  zlen (st_decisions s) <= 500 /\
  (In (_decision_key p) q ->
   snd (record_decision p now s) = s /\
   exists row, fst (record_decision p now s) = Ok row /\ dget "deduplicated" row = Some (VBool true)) /\
  (~ In (_decision_key p) q -> In (_decision_key p) (st_applied_keys (snd (record_decision p now s)))).
Proof.
  cbv zeta. destruct (record_all_window l init) as [Hw E].
  { split_and!; try reflexivity; [constructor|vm_compute; discriminate|vm_compute; discriminate]. }
  cbn [st_key_order init] in E. set (s := record_all l init) in *. set (q := fold_left _ l []) in *.
  destruct Hw as (Ea & Hn & Hl & Hd). rewrite E in *.
  split_and!; try assumption; try reflexivity.
  - intros Hin. unfold record_decision. rewrite Ea, (proj2 (one_of_spec _ _) Hin).
    split; [reflexivity|]. eexists. split; reflexivity.
  - intros Hin. assert (one_of (_decision_key p) q = false) as Ef.
    { destruct (one_of _ q) eqn:Eq; [|reflexivity]. by apply one_of_spec in Eq. }
    destruct (record_window p now s) as [(Ea' & _) Ek].
    { split_and!; rewrite ?E; assumption. }
    rewrite Ea', Ek, E. unfold window_push. rewrite Ef.
    assert (length q + 1 - Z.to_nat DECISION_KEY_CAP <= length q)%nat as Hle
      by (unfold DECISION_KEY_CAP; lia).
    rewrite drop_app_le by exact Hle. apply in_or_app. right. by left.
Qed.

(** * Profit and loss *)

Definition order_pnl (x : float) : payload := [("status", VStr "filled"); ("pnl", VFloat x)].

Definition realized_after (l : list float) : res float :=
  let* p := paired_pnl_payload (fold_left (fun s x => snd (add_order (order_pnl x) 0.0%F s)) l init) in
  Ok (pp_realized p).

(** The realized profit forgets: the summary, from which every equity point is taken,
    adds the last hundred orders only, so a realized profit of 50 is gone after a hundred
    orders without profit. *)
Theorem realized_pnl_forgets :
  realized_after (50.0%F :: repeat 0.0%F 99) = Ok 50.0%F /\
  realized_after (50.0%F :: repeat 0.0%F 100) = Ok 0.0%F.
Proof. split; vm_compute; reflexivity. Qed.

(** * Notifications *)

Definition notified (n : nat) : InMemoryStore :=
  Nat.iter n (fun s => snd (record_notification [("message", VStr "m")] 0.0%F s)) init.

(** Identifiers of notifications repeat: once the list is full, every notification
    recorded without an id gets the same one, so the identifiers by which the dashboard
    removes duplicates no longer distinguish them. *)
Theorem notification_ids_repeat :
  map (field "id") (drop 98 (st_notifications (notified 102)))
  = [VStr "mem-101"; VStr "mem-101"].
Proof. vm_compute. reflexivity. Qed.

