(* ===== verification/Execution.v ===== *)
(** Execution: validation, gates and sizing of execution decisions
    (api/services/execution/decision_utils.py and the pure parts of execution_engine.py). *)
From S2P Require Import Prelude PyFloat FloatFacts PyVal PyMath Config Agents Gate Params Policy.
From S2P Require Import Filters Positions.

Definition REJECT : string := "reject".
Definition NO_ORDER_ACTIONS : list string := [REJECT; HOLD; FLAT].
Definition SLIPPAGE_PCT_PER_SIDE : float := 0.0005%F.
Definition COOLING_OFF_WINDOW : Z := 5.
Definition COOLING_OFF_DECAY : float := 0.7%F.
Definition LARGE_ORDER_THRESHOLD : float := 10.0%F.
Definition REDIS_RECENT_OUTCOMES_MAXLEN : Z := 10.

(** * Validation *)

Record ParsedDecision := {
  pd_side : string;
  pd_symbol : string;
  pd_qty : float;
  pd_price : float;
  pd_strategy_id : string;
  pd_trace_id : string;
}.

(** [d[k]] of a present key, as a string, or a fresh identifier. *)
Definition str_or (k : string) (data : payload) (fresh : string) : string :=
  Fmt.str (first_truthy [k] data (VStr fresh)).

(** [float(data[k])] with its [TypeError] and [ValueError] caught. *)
Definition float_caught (v : val) : res (option float) :=
  match py_float v with
  | Ok x => Ok (Some x)
  | Raise TypeError | Raise ValueError => Ok None
  | Raise e => Raise e
  end.

Definition missing_fields (data : payload) : list string :=
  List.filter (fun f => negb (truthy (dget_or f VNone data))) ["symbol"; "qty"; "price"]
  ++ (if String.eqb (lower_str (first_truthy ["action"; "side"] data (VStr ""))) ""
      then ["action/side"] else []).

Definition parse_decision_fields (data : payload) (fresh_strategy fresh_trace : string)
  : res (ParsedDecision + string) :=
  let side := lower_str (first_truthy ["action"; "side"] data (VStr "")) in
  let missing := missing_fields data in
  match missing with
  | _ :: _ => Ok (inr ("error:missing_fields:" +:+ Fmt.join "," missing))
  | [] =>
      let* q := float_caught (dget_or "qty" VNone data) in
      match q with
      | None => Ok (inr "error:invalid_fields")
      | Some qty =>
          let* p := float_caught (dget_or "price" VNone data) in
          match p with
          | None => Ok (inr "error:invalid_fields")
          | Some price =>
              if fleb qty 0.0%F || fleb price 0.0%F then Ok (inr "error:non_positive_fields")
              else Ok (inl {| pd_side := side; pd_symbol := Fmt.str (dget_or "symbol" VNone data);
                              pd_qty := qty; pd_price := price;
                              pd_strategy_id := str_or "strategy_id" data fresh_strategy;
                              pd_trace_id := str_or "trace_id" data fresh_trace |})
          end
      end
  end.

(** * Scores *)

Definition _as_score (v : val) : res (option float) :=
  match v with
  | VNone => Ok None
  | _ => if val_eqb v (VStr "") then Ok None else float_caught v
  end.

(** The first score present among the keys. *)
Fixpoint first_score (ks : list string) (data : payload) (default : float) : res float :=
  match ks with
  | [] => Ok default
  | k :: ks' =>
      let* s := _as_score (dget_or k VNone data) in
      match s with Some x => Ok x | None => first_score ks' data default end
  end.

Definition extract_decision_scores (data : payload) : res (float * float) :=
  let* signal_confidence :=
    first_score ["signal_confidence"; "composite_score"; "confidence"] data 0.5%F in
  let* reasoning_score := first_score ["reasoning_score"] data signal_confidence in
  Ok (signal_confidence, reasoning_score).

Definition compute_execution_score (signal_confidence reasoning_score historical_perf : float) : float :=
  (signal_confidence * 0.50 + reasoning_score * 0.30 + historical_perf * 0.20)%F.

(** * Pure gates *)

Definition check_execution_gate (side : string) (final_score threshold : float) (market_open : bool)
  : option string :=
  if one_of side NO_ORDER_ACTIONS then Some ("hold:" +:+ side)
  else if fltb final_score threshold then Some ("gated:score:" +:+ Fmt.fixed 3 final_score)
  else if negb market_open then Some "blocked:market_closed"
  else None.

Definition check_confidence_gate (signal_confidence : float) (side : string) (threshold : float)
  : option string :=
  if one_of side NO_ORDER_ACTIONS then None
  else if fltb signal_confidence threshold
  then Some ("gated:low_confidence:" +:+ Fmt.fixed 3 signal_confidence)
  else None.

Definition net_ev (signal_confidence abs_pct_move slippage_pct : float) : float :=
  (signal_confidence * fdiv_nz abs_pct_move 100.0 - slippage_pct * 2.0)%F.

Definition check_net_ev_gate (signal_confidence abs_pct_move slippage_pct : float) : option string :=
  if fleb abs_pct_move 0.0%F then None
  else
    let ev := net_ev signal_confidence abs_pct_move slippage_pct in
    if fltb ev 0.0%F then Some ("gated:negative_net_ev:" +:+ Fmt.fixed 5 ev) else None.

(** * The engine's gates *)

(** What the engine reads from its environment for one decision. *)
Record GateEnv := {
  ge_db_available : bool;
  ge_paper_mode : bool;
  ge_symbol_open : bool;
  ge_macro : val;
  ge_no_trade_window : bool;
  ge_in_flight : bool;
  ge_outcomes : list float;
}.

Definition _is_market_open (e : GateEnv) : bool := ge_paper_mode e || ge_symbol_open e.

(** The newest outcomes first, as stored; the filter wants the oldest first. *)
Definition recent_outcomes (e : GateEnv) : list float :=
  rev (take (Z.to_nat COOLING_OFF_WINDOW) (ge_outcomes e)).

(** An exception while reading the outcomes does not block the trade. *)
Definition _check_cooling_off_gate (side : string) (e : GateEnv) : option string :=
  if one_of side NO_ORDER_ACTIONS then None
  else if sell_side side then None
  else match is_cooling_off (recent_outcomes e) COOLING_OFF_DECAY 0.6%F with
       | Ok true => Some "gated:cooling_off"
       | _ => None
       end.

Section Gates.
Context `{Constants}.

Definition score_threshold (side : string) (e : GateEnv) : float :=
  let threshold :=
    if ge_db_available e then EXECUTION_DECISION_THRESHOLD else EXECUTION_DECISION_THRESHOLD_MEMORY in
  if String.eqb side BUY
  then Regime.execution_threshold (Regime.regime_of (ge_macro e)) threshold true
  else threshold.

Definition regime_gate (atr_regime_ratio : option float) : option string :=
  match atr_regime_ratio with
  | Some r => if fltb r 1.0%F then Some ("gated:choppy_regime:" +:+ Fmt.fixed 3 r) else None
  | None => None
  end.

(** The first gate that holds. *)
Fixpoint first_gate (gates : list (option string)) : option string :=
  match gates with
  | [] => None
  | Some g :: _ => Some g
  | None :: rest => first_gate rest
  end.

Definition _evaluate_pre_execution_gates (side : string) (signal_confidence reasoning_score : float)
    (atr_regime_ratio : option float) (abs_pct_move : float) (e : GateEnv) : option string :=
  let final_score := compute_execution_score signal_confidence reasoning_score 0.6%F in
  let active := negb (one_of side NO_ORDER_ACTIONS) in
  first_gate
    [check_execution_gate side final_score (score_threshold side e) (_is_market_open e);
     (if ge_no_trade_window e && String.eqb side BUY then Some "blocked:no_trade_window" else None);
     (if active && ge_in_flight e then Some "gated:in_flight" else None);
     (if active then check_confidence_gate signal_confidence side SIGNAL_CONFIDENCE_MIN_GATE else None);
     (if active then regime_gate atr_regime_ratio else None);
     (if fltb 0.0%F abs_pct_move && active
      then check_net_ev_gate signal_confidence abs_pct_move SLIPPAGE_PCT_PER_SIDE else None);
     _check_cooling_off_gate side e].

(** [float(raw) if raw not in (None, "") else None] *)
Definition atr_ratio (data : payload) : res (option float) :=
  match dget_or "atr_regime_ratio" VNone data with
  | VNone => Ok None
  | v => if val_eqb v (VStr "") then Ok None else let* x := py_float v in Ok (Some x)
  end.

Definition pct_move (data : payload) : res float :=
  let* x := float_or_zero (dget_or "pct" VNone data) in Ok (fabs x).

End Gates.

(** * Sizing *)

Definition kelly_qty (data : payload) (nominal_qty price portfolio_value : float) : res float :=
  let* size_pct := float_or_zero (dget_or "size_pct" VNone data) in
  Ok (if fleb size_pct 0.0%F || fleb price 0.0%F then nominal_qty
      else match fdiv (size_pct * portfolio_value)%F price with
           | Ok q => if fltb 0.0%F q then q else nominal_qty
           | Raise _ => nominal_qty
           end).

Definition _build_vwap_plan (qty : float) : option (list float) :=
  if fleb qty LARGE_ORDER_THRESHOLD then None
  else
    let slice_qty := py_round (fdiv_nz qty 3.0%F) 8 in
    Some [slice_qty; slice_qty; py_round (qty - slice_qty * 2.0)%F 8].

(** * The fallback guard *)

Record Settings := {
  ALLOW_FALLBACK_TRADES : bool;
  MAX_FALLBACK_ORDER_QTY : float;
  MAX_SYMBOL_EXPOSURE : float;
  MAX_OPEN_POSITION_QTY : float;
}.

Definition DEFAULT_SETTINGS : Settings :=
  {| ALLOW_FALLBACK_TRADES := false; MAX_FALLBACK_ORDER_QTY := 0.01%F;
     MAX_SYMBOL_EXPOSURE := 1.0%F; MAX_OPEN_POSITION_QTY := 1.0%F |}.

Definition max_position (c : Settings) : float := fmin (MAX_SYMBOL_EXPOSURE c) (MAX_OPEN_POSITION_QTY c).

(** [sub in s] *)
Definition contains (sub s : string) : bool :=
  match String.index 0 sub s with Some _ => true | None => false end.

Definition is_fallback (p : payload) : bool :=
  let text k := lower_str (first_truthy [k] p (VStr "")) in
  (match dget_or "llm_succeeded" VNone p with VBool false => true | _ => false end)
  || contains "fallback" (text "reason")
  || String.eqb (text "source") "fallback"
  || String.prefix "fallback:" (text "primary_edge")
  || String.eqb (text "primary_edge") "fallback"
  || truthy (dget_or "fallback_reason" VNone p).

(** The exposure rule for a fallback order: flips are blocked, reductions allowed, other
    orders capped. *)
Definition exposure_blocked (current signed_after max_allowed : float) : bool :=
  if (fltb current 0.0%F && fltb 0.0%F signed_after) || (fltb 0.0%F current && fltb signed_after 0.0%F)
  then true
  else if fleb (fabs signed_after) (fabs current) then false
  else fltb max_allowed (fabs signed_after).

Definition _is_fallback_blocked (c : Settings) (paper_mode : bool) (d : ParsedDecision) (p : payload)
    (position : payload) : res bool :=
  let side := lower_str (VStr (pd_side d)) in
  if negb (one_of side [BUY; SELL]) then Ok false
  else if negb (is_fallback p) then Ok false
  else if paper_mode then Ok false
  else if negb (ALLOW_FALLBACK_TRADES c) then Ok true
  else if fltb (MAX_FALLBACK_ORDER_QTY c) (pd_qty d) then Ok true
  else
    let* current := signed_position_qty (Some position) in
    let signed_after :=
      (if String.eqb side BUY then current + pd_qty d else current - pd_qty d)%F in
    Ok (exposure_blocked current signed_after (max_position c)).
