(* ===== verification/Engine.v ===== *)
(** Engine: the execution engine on its in-memory path
    (api/services/execution/execution_engine.py, fill_publisher.py).

    The keys the engine keeps in Redis (kill switch, pause flag, in-flight flag, order
    deduplication, order locks, recent outcomes), the paper broker, the in-memory store
    and the messages it published are one state.  The clock, fresh identifiers, the
    exchange calendar, the cached macro regime and the idempotency key (an md5 of the
    decision and the minute) are read from an environment, one per decision. *)
From S2P Require Import Prelude StateErr PyFloat FloatFacts PyVal PyMath PyRandom Config Agents.
From S2P Require Import Gate Params Policy Filters Positions Broker Store Execution.

Definition STREAM_EXECUTIONS : string := "executions".
Definition STREAM_TRADE_PERFORMANCE : string := "trade_performance".
Definition STREAM_TRADE_COMPLETED : string := "trade_completed".
Definition STREAM_TRADE_LIFECYCLE : string := "trade_lifecycle".
Definition STREAM_SELL_REJECTED : string := "sell_rejected".
Definition SOURCE_EXECUTION_ENGINE : string := "execution_engine".
Definition DB_SCHEMA_VERSION : string := "v3".

(** * Fill events *)

Record FillContext := {
  fc_order_id : string;
  fc_strategy_id : string;
  fc_symbol : string;
  fc_side : string;
  fc_qty : float;
  fc_price : float;
  fc_fill_price : float;
  fc_entry_price : float;
  fc_signal_confidence : float;
  fc_pnl_value : option float;
  fc_pnl_percent : float;
  fc_realized_pnl : float;
  fc_is_close : bool;
  fc_idempotency_key : string;
  fc_trace_id : string;
  fc_vwap_plan : option (list float);
  fc_filled_at : string;
  fc_model_used : string;
  fc_primary_edge : string;
  fc_decision_cost_usd : float;
}.

Definition exit_price (c : FillContext) : val :=
  if fc_is_close c then VFloat (fc_fill_price c) else VNone.

Definition pnl_val (c : FillContext) : val := vopt VFloat (fc_pnl_value c).

Definition execution_event (c : FillContext) (msg_id : string) : payload :=
  [("type", VStr "order_filled"); ("msg_id", VStr msg_id); ("order_id", VStr (fc_order_id c));
   ("strategy_id", VStr (fc_strategy_id c)); ("symbol", VStr (fc_symbol c)); ("side", VStr (fc_side c));
   ("qty", VFloat (fc_qty c)); ("price", VFloat (fc_price c)); ("fill_price", VFloat (fc_fill_price c));
   ("pnl", pnl_val c); ("confidence", VFloat (fc_signal_confidence c));
   ("filled_at", VStr (fc_filled_at c)); ("executed_at", VStr (fc_filled_at c));
   ("session_id", VStr (fc_strategy_id c)); ("idempotency_key", VStr (fc_idempotency_key c));
   ("trace_id", VStr (fc_trace_id c));
   ("vwap_plan", vopt (fun l => VList (map VFloat l)) (fc_vwap_plan c));
   ("source", VStr SOURCE_EXECUTION_ENGINE)].

Definition performance_event (c : FillContext) (msg_id now : string) : payload :=
  [("msg_id", VStr msg_id); ("type", VStr "trade_performance"); ("schema_version", VStr DB_SCHEMA_VERSION);
   ("order_id", VStr (fc_order_id c)); ("trade_id", VStr (fc_order_id c));
   ("strategy_id", VStr (fc_strategy_id c)); ("symbol", VStr (fc_symbol c)); ("side", VStr (fc_side c));
   ("qty", VFloat (fc_qty c)); ("quantity", VFloat (fc_qty c)); ("fill_price", VFloat (fc_fill_price c));
   ("entry_price", VFloat (fc_entry_price c)); ("exit_price", exit_price c); ("pnl", pnl_val c);
   ("pnl_percent", VFloat (fc_pnl_percent c)); ("trace_id", VStr (fc_trace_id c));
   ("filled_at", VStr (fc_filled_at c)); ("entry_time", VStr (fc_filled_at c));
   ("exit_time", if fc_is_close c then VStr (fc_filled_at c) else VNone); ("timestamp", VStr now);
   ("source", VStr SOURCE_EXECUTION_ENGINE); ("session_id", VStr (fc_strategy_id c));
   ("model_used", VStr (fc_model_used c)); ("primary_edge", VStr (fc_primary_edge c));
   ("decision_cost_usd", VFloat (fc_decision_cost_usd c))].

Definition completed_event (c : FillContext) (msg_id now : string) : payload :=
  [("msg_id", VStr msg_id); ("type", VStr "trade_completed"); ("source", VStr SOURCE_EXECUTION_ENGINE);
   ("trace_id", VStr (fc_trace_id c)); ("session_id", VStr (fc_strategy_id c));
   ("order_id", VStr (fc_order_id c)); ("symbol", VStr (fc_symbol c)); ("side", VStr (fc_side c));
   ("qty", VFloat (fc_qty c)); ("entry_price", VFloat (fc_entry_price c));
   ("exit_price", VFloat (fc_fill_price c)); ("pnl", VFloat (fc_realized_pnl c));
   ("pnl_percent", VFloat (fc_pnl_percent c)); ("timestamp", VStr now);
   ("executed_at", VStr (fc_filled_at c)); ("model_used", VStr (fc_model_used c));
   ("primary_edge", VStr (fc_primary_edge c)); ("decision_cost_usd", VFloat (fc_decision_cost_usd c))].

Definition lifecycle_event (c : FillContext) : payload :=
  [("type", VStr "trade_filled"); ("symbol", VStr (fc_symbol c)); ("side", VStr (fc_side c));
   ("qty", VFloat (fc_qty c)); ("entry_price", VFloat (fc_entry_price c)); ("exit_price", exit_price c);
   ("pnl", pnl_val c); ("pnl_percent", VFloat (fc_pnl_percent c)); ("order_id", VStr (fc_order_id c));
   ("execution_trace_id", VStr (fc_trace_id c)); ("status", VStr "filled");
   ("filled_at", VStr (fc_filled_at c)); ("timestamp", VStr (fc_filled_at c));
   ("session_id", VStr (fc_strategy_id c)); ("source", VStr SOURCE_EXECUTION_ENGINE)].

(** The messages of a fill, in order, with the fresh message ids [m1], [m2] and [m3]. *)
Definition fill_events (c : FillContext) (m1 m2 m3 now : string) : list (string * payload) :=
  [(STREAM_EXECUTIONS, execution_event c m1); (STREAM_TRADE_PERFORMANCE, performance_event c m2 now)]
  ++ (if fc_is_close c then [(STREAM_TRADE_COMPLETED, completed_event c m3 now)] else [])
  ++ [(STREAM_TRADE_LIFECYCLE, lifecycle_event c)].

(** * State *)

Record Engine `{PyRandom} := {
  en_broker : PaperBroker;
  en_store : InMemoryStore;
  en_kill : bool;
  en_paused : bool;
  en_evaluated : Z;
  en_in_flight : bool;
  en_dedup : list string;
  en_locks : list string;
  en_outcomes : list float;
  en_published : list (string * payload);
}.

Record Env := {
  env_settings : Settings;
  env_paper_mode : bool;
  env_symbol_open : string -> bool;
  env_macro : string -> val;
  env_no_trade_window : bool;
  env_strategy : string;
  env_trace : string;
  env_order : string;
  env_broker_order : string;
  env_msgs : string * string * string;
  env_now : string;
  env_time : float;
  env_key : ParsedDecision -> payload -> res string;
}.

Inductive Outcome :=
| Ignored (why : string)
| Duplicate
| SellRejected
| BuyRejected
| Filled (c : FillContext).

Module Engine.

Section Handlers.
Context `{PyRandom} `{Constants}.

Definition E (A : Type) : Type := M Engine A.

Definition init (seed : Z) : Engine :=
  {| en_broker := Paper.init seed; en_store := Store.init; en_kill := false; en_paused := false;
     en_evaluated := 0; en_in_flight := false; en_dedup := []; en_locks := []; en_outcomes := [];
     en_published := [] |}.

Definition with_broker (b : PaperBroker) (s : Engine) : Engine :=
  {| en_broker := b; en_store := en_store s; en_kill := en_kill s; en_paused := en_paused s;
     en_evaluated := en_evaluated s; en_in_flight := en_in_flight s; en_dedup := en_dedup s;
     en_locks := en_locks s; en_outcomes := en_outcomes s; en_published := en_published s |}.

Definition with_store (t : InMemoryStore) (s : Engine) : Engine :=
  {| en_broker := en_broker s; en_store := t; en_kill := en_kill s; en_paused := en_paused s;
     en_evaluated := en_evaluated s; en_in_flight := en_in_flight s; en_dedup := en_dedup s;
     en_locks := en_locks s; en_outcomes := en_outcomes s; en_published := en_published s |}.

(** The switches and counters, rewritten together. *)
Definition with_flags (kill paused : bool) (n : Z) (in_flight : bool) (s : Engine) : Engine :=
  {| en_broker := en_broker s; en_store := en_store s; en_kill := kill; en_paused := paused;
     en_evaluated := n; en_in_flight := in_flight; en_dedup := en_dedup s;
     en_locks := en_locks s; en_outcomes := en_outcomes s; en_published := en_published s |}.

(** The keys of orders and locks. *)
Definition with_keys (dedup locks : list string) (s : Engine) : Engine :=
  {| en_broker := en_broker s; en_store := en_store s; en_kill := en_kill s; en_paused := en_paused s;
     en_evaluated := en_evaluated s; en_in_flight := en_in_flight s; en_dedup := dedup;
     en_locks := locks; en_outcomes := en_outcomes s; en_published := en_published s |}.

Definition with_outcomes (l : list float) (s : Engine) : Engine :=
  {| en_broker := en_broker s; en_store := en_store s; en_kill := en_kill s; en_paused := en_paused s;
     en_evaluated := en_evaluated s; en_in_flight := en_in_flight s; en_dedup := en_dedup s;
     en_locks := en_locks s; en_outcomes := l; en_published := en_published s |}.

Definition publish (l : list (string * payload)) (s : Engine) : Engine :=
  {| en_broker := en_broker s; en_store := en_store s; en_kill := en_kill s; en_paused := en_paused s;
     en_evaluated := en_evaluated s; en_in_flight := en_in_flight s; en_dedup := en_dedup s;
     en_locks := en_locks s; en_outcomes := en_outcomes s; en_published := en_published s ++ l |}.

Definition count_decision (s : Engine) : Engine :=
  with_flags (en_kill s) (en_paused s) (en_evaluated s + 1) (en_in_flight s) s.

Definition set_in_flight (f : bool) (s : Engine) : Engine :=
  with_flags (en_kill s) (en_paused s) (en_evaluated s) f s.

Definition remember (key : string) (s : Engine) : Engine :=
  with_keys (key :: en_dedup s) (en_locks s) s.

Definition lock (symbol : string) (s : Engine) : Engine :=
  with_keys (en_dedup s) (symbol :: en_locks s) s.

Definition unlock (symbol : string) (s : Engine) : Engine :=
  with_keys (en_dedup s) (Store.discard symbol (en_locks s)) s.

(** LPUSH, then LTRIM to the newest ten. *)
Definition push_outcome (x : float) (s : Engine) : Engine :=
  with_outcomes (take (Z.to_nat REDIS_RECENT_OUTCOMES_MAXLEN) (x :: en_outcomes s)) s.

Definition on_broker {A} (m : M PaperBroker A) : E A := fun s =>
  let '(r, b) := m (en_broker s) in (r, with_broker b s).

Definition on_store (f : InMemoryStore -> res InMemoryStore) : E unit := fun s =>
  match f (en_store s) with
  | Ok t => (Ok tt, with_store t s)
  | Raise e => (Raise e, s)
  end.

(** [try: m finally: f] *)
Definition finally {A} (m : E A) (f : Engine -> Engine) : E A := fun s =>
  let '(r, s') := m s in (r, f s').

Definition gate_env (v : Env) (symbol : string) (s : Engine) : GateEnv :=
  {| ge_db_available := false; ge_paper_mode := env_paper_mode v;
     ge_symbol_open := env_symbol_open v symbol; ge_macro := env_macro v symbol;
     ge_no_trade_window := env_no_trade_window v; ge_in_flight := en_in_flight s;
     ge_outcomes := en_outcomes s |}.

(** * Recording a fill *)

Definition order_row (c : FillContext) (broker_order_id : string) : payload :=
  [("order_id", VStr (fc_order_id c)); ("strategy_id", VStr (fc_strategy_id c));
   ("symbol", VStr (fc_symbol c)); ("side", VStr (fc_side c)); ("qty", VFloat (fc_qty c));
   ("quantity", VFloat (fc_qty c)); ("price", VFloat (fc_fill_price c));
   ("filled_price", VFloat (fc_fill_price c)); ("status", VStr "filled");
   ("broker_order_id", VStr broker_order_id); ("pnl", pnl_val c);
   ("session_id", VStr (fc_strategy_id c)); ("pnl_percent", VFloat (fc_pnl_percent c));
   ("filled_at", VStr (fc_filled_at c)); ("trace_id", VStr (fc_trace_id c))].

Definition trade_row (c : FillContext) : payload :=
  [("id", VStr (fc_trace_id c)); ("symbol", VStr (fc_symbol c)); ("side", VStr (fc_side c));
   ("qty", VFloat (fc_qty c)); ("entry_price", VFloat (fc_entry_price c)); ("exit_price", exit_price c);
   ("pnl", pnl_val c); ("pnl_percent", VFloat (fc_pnl_percent c));
   ("session_id", VStr (fc_strategy_id c)); ("order_id", VStr (fc_order_id c));
   ("execution_trace_id", VStr (fc_trace_id c)); ("status", VStr "filled");
   ("filled_at", VStr (fc_filled_at c))].

Definition closed_row (c : FillContext) : payload :=
  [("symbol", VStr (fc_symbol c)); ("side", VStr (fc_side c)); ("qty", VFloat (fc_qty c));
   ("entry_price", VFloat (fc_entry_price c)); ("exit_price", VFloat (fc_fill_price c));
   ("pnl", VFloat (fc_realized_pnl c)); ("pnl_percent", VFloat (fc_pnl_percent c));
   ("filled_at", VStr (fc_filled_at c))].

Definition _append_equity_snapshot (filled_at : string) (t : InMemoryStore) : res InMemoryStore :=
  let* p := Store.paired_pnl_payload t in
  let row := [("timestamp", VStr filled_at); ("value", VFloat (Store.pp_total p));
              ("realized_pnl", VFloat (Store.pp_realized p)); ("unrealized_pnl", VFloat (Store.pp_unrealized p));
              ("total_pnl", VFloat (Store.pp_total p))] in
  Ok (set_equity_curve (Store.push_capped 1000 row (st_equity_curve t)) t).

(** The rows of a fill, written before the position is mirrored. *)
Definition record_rows (c : FillContext) (broker_order_id : string) (now : float) (t : InMemoryStore)
  : InMemoryStore :=
  let t := snd (Store.add_order (order_row c broker_order_id) now t) in
  let t := snd (Store.upsert_trade_fill (trade_row c) now t) in
  if fc_is_close c then snd (Store.add_closed_trade (closed_row c) now t) else t.

Definition _record_fill_to_store (v : Env) (c : FillContext) (broker_order_id : string) : E unit :=
  do! on_store (fun t => Ok (record_rows c broker_order_id (env_time v) t)) in
  let! p := gets (fun s => Paper.get_position (fc_symbol c) (en_broker s)) in
  do! on_store (Store.mirror_broker_position (fc_symbol c) p (Some (fc_strategy_id c))) in
  on_store (_append_equity_snapshot (fc_filled_at c)).

(** * Orders *)

(** Kelly sizing; the broker's cash is read only when a fraction is given. *)
Definition _apply_kelly_sizing (data : payload) (d : ParsedDecision) : E float :=
  let! size_pct := lift (float_or_zero (dget_or "size_pct" VNone data)) in
  if fleb size_pct 0.0%F || fleb (pd_price d) 0.0%F then ret (pd_qty d)
  else
    let! cash := on_broker Paper.get_cash in
    lift (kelly_qty data (pd_qty d) (pd_price d) cash).

(** Never sell more than the open position holds. *)
Definition clamp_sell (side : string) (prior : payload) (qty : float) : res float :=
  if sell_side side then
    let* prior_qty := qty_of prior in
    Ok (if fltb 0.0%F prior_qty && fltb prior_qty qty then prior_qty else qty)
  else Ok qty.

(** Never buy past the exposure cap; [None] when there is no room. *)
Definition clamp_buy (c : Settings) (side : string) (prior : payload) (qty : float)
  : res (option float) :=
  if buy_side side then
    let* capped := clamp_buy_to_position_limit (Some prior) qty (max_position c) in
    Ok (if fleb capped 0.0%F then None else Some (if fltb capped qty then capped else qty))
  else Ok (Some qty).

Definition sell_rejected_event (v : Env) (d : ParsedDecision) (qty : float) (key : string) : payload :=
  [("type", VStr "sell_rejected"); ("rejection_reason", VStr "NO_OPEN_POSITION");
   ("symbol", VStr (pd_symbol d)); ("side", VStr (pd_side d)); ("qty", VFloat qty);
   ("order_id", VStr (env_order v)); ("idempotency_key", VStr key); ("trace_id", VStr (pd_trace_id d));
   ("timestamp", VStr (env_now v)); ("source", VStr SOURCE_EXECUTION_ENGINE)].

(** The bookkeeping of a fill. *)
Definition fill_context (v : Env) (data : payload) (d : ParsedDecision) (sc qty fill_price : float)
    (key : string) (prior : payload) : res FillContext :=
  let side := pd_side d in
  let* realized := compute_realized_pnl prior side qty fill_price in
  let* entry := entry_or prior fill_price in
  let* is_close := is_round_trip_close prior side in
  let* pct := compute_pnl_percent prior qty entry realized in
  let* cost := float_or_zero (dget_or "decision_cost_usd" VNone data) in
  Ok {| fc_order_id := env_order v; fc_strategy_id := pd_strategy_id d; fc_symbol := pd_symbol d;
        fc_side := side; fc_qty := qty; fc_price := pd_price d; fc_fill_price := fill_price;
        fc_entry_price := entry; fc_signal_confidence := sc;
        fc_pnl_value := if is_close then Some realized else None; fc_pnl_percent := pct;
        fc_realized_pnl := realized; fc_is_close := is_close; fc_idempotency_key := key;
        fc_trace_id := pd_trace_id d; fc_vwap_plan := _build_vwap_plan qty;
        fc_filled_at := env_now v;
        fc_model_used := Fmt.str (first_truthy ["model_used"] data (VStr ""));
        fc_primary_edge := Fmt.str (first_truthy ["primary_edge"] data (VStr ""));
        fc_decision_cost_usd := cost |}.

(** The order at the broker and its records. *)
Definition fill_order (v : Env) (data : payload) (d : ParsedDecision) (sc qty : float) (key : string)
    (prior : payload) : E Outcome :=
  do! modify (set_in_flight true) in
  let! order := on_broker (Paper.place_order (pd_symbol d) (pd_side d) qty (pd_price d)
                             (env_now v) (env_broker_order v)) in
  let! fill_price := lift (let* x := dindex "fill_price" order in py_float x) in
  let! c := lift (fill_context v data d sc qty fill_price key prior) in
  let! oid := lift (dindex "broker_order_id" order) in
  do! _record_fill_to_store v c (Fmt.str oid) in
  let '(m1, m2, m3) := env_msgs v in
  do! modify (publish (fill_events c m1 m2 m3 (env_now v))) in
  do! modify (fun s => if feqb (fc_realized_pnl c) 0.0%F then s else push_outcome (fc_realized_pnl c) s) in
  do! modify (set_in_flight false) in
  ret (Filled c).

(** What happens under the symbol's lock. *)
Definition execute_locked (v : Env) (data : payload) (d : ParsedDecision) (sc qty : float) (key : string)
  : E Outcome :=
  let! prior := gets (fun s => Paper.get_position (pd_symbol d) (en_broker s)) in
  let! rejected := lift (reject_unmatched_sell (pd_side d) prior) in
  if rejected then
    do! on_store (fun t => Ok (snd (Store.reject_sell_no_position (pd_symbol d) (pd_trace_id d)
                                      (env_order v) "NO_OPEN_POSITION" (env_time v) t))) in
    do! modify (publish [(STREAM_SELL_REJECTED, sell_rejected_event v d qty key)]) in
    ret SellRejected
  else
    let! qty := lift (clamp_sell (pd_side d) prior qty) in
    let! capped := lift (clamp_buy (env_settings v) (pd_side d) prior qty) in
    match capped with
    | None => ret BuyRejected
    | Some qty => fill_order v data d sc qty key prior
    end.

(** Deduplication and locking of an accepted decision. *)
Definition submit (v : Env) (data : payload) (d : ParsedDecision) (sc qty : float) : E Outcome :=
  let! key := lift (env_key v d data) in
  let! seen := gets (fun s => one_of key (en_dedup s)) in
  if seen then ret Duplicate
  else
    do! modify (remember key) in
    let! busy := gets (fun s => one_of (pd_symbol d) (en_locks s)) in
    if busy then raise RuntimeError
    else
      do! modify (lock (pd_symbol d)) in
      finally (execute_locked v data d sc qty key) (unlock (pd_symbol d)).

(** Scores and gates of a valid decision, then its size. *)
Definition gate_decision (v : Env) (data : payload) (d : ParsedDecision) : E Outcome :=
  let! (sc, rs) := lift (extract_decision_scores data) in
  let! atr := lift (atr_ratio data) in
  let! pct := lift (pct_move data) in
  let! e := gets (gate_env v (pd_symbol d)) in
  match _evaluate_pre_execution_gates (pd_side d) sc rs atr pct e with
  | Some why => ret (Ignored why)
  | None =>
      let! qty := _apply_kelly_sizing data d in
      submit v data d sc qty
  end.

Definition _process_in_memory (v : Env) (data : payload) : E Outcome :=
  let! parsed := lift (parse_decision_fields data (env_strategy v) (env_trace v)) in
  match parsed with
  | inr error => ret (Ignored error)
  | inl d =>
      let! position := gets (fun s => Paper.get_position (pd_symbol d) (en_broker s)) in
      let! blocked := lift (_is_fallback_blocked (env_settings v) (env_paper_mode v) d data position) in
      if blocked then ret (Ignored "blocked:fallback_trade")
      else gate_decision v data d
  end.

(** One decision, the database being unavailable. *)
Definition process (v : Env) (data : payload) : E Outcome :=
  let! kill := gets en_kill in
  if kill then raise RuntimeError
  else
    do! modify count_decision in
    let! paused := gets en_paused in
    if paused then ret (Ignored "blocked:trading_paused")
    else _process_in_memory v data.

End Handlers.

End Engine.
