(* ===== verification/EngineFacts.v ===== *)
(** EngineFacts: every run of the execution engine either submits an order or is quiet. *)
From S2P Require Import Prelude StateErr PyFloat FloatFacts PyVal PyMath PyRandom Config Agents.
From S2P Require Import Gate Params Policy Filters Positions Broker Store Execution Engine.

Import Engine.

Section Runs.
Context `{PyRandom} `{Constants}.

(** Nothing is traded: the broker keeps its positions, money and orders, only rejected
    sells are published, and no remembered order is forgotten. *)
Record quiet (s s' : Engine) : Prop := {
  q_positions : pb_positions (en_broker s') = pb_positions (en_broker s);
  q_cash : Paper.cash_of (en_broker s') = Paper.cash_of (en_broker s);
  q_rng : pb_rng (en_broker s') = pb_rng (en_broker s);
  q_published : exists l, en_published s' = en_published s ++ l /\
    Forall (fun m => fst m = STREAM_SELL_REJECTED) l;
  q_dedup : incl (en_dedup s) (en_dedup s');
  q_store : st_positions (en_store s') = st_positions (en_store s);
}.

#[export] Instance quiet_pre : PreOrder quiet.
Proof.
  split.
  - intros s. split; try reflexivity; [exists []; by rewrite app_nil_r|apply incl_refl].
  - intros a b c [P1 C1 R1 (l1 & E1 & F1) D1 S1] [P2 C2 R2 (l2 & E2 & F2) D2 S2].
    split; try congruence; [|by eapply incl_tran].
    exists (l1 ++ l2). rewrite E2, E1, app_assoc. split; [reflexivity|by apply Forall_app].
Qed.

(** A change of the switches, counters and keys only. *)
Lemma quiet_same s s' :
  en_broker s' = en_broker s -> en_store s' = en_store s -> en_published s' = en_published s ->
  incl (en_dedup s) (en_dedup s') -> quiet s s'.
Proof.
  intros Eb Es Ep Hd. split; try congruence; [|exact Hd].
  exists []. rewrite app_nil_r. split; [exact Ep|constructor].
Qed.

(** A run that trades nothing and does not answer [Filled]. *)
Definition no_trade (s : Engine) (p : res Outcome * Engine) : Prop :=
  quiet s (snd p) /\ forall c, fst p <> Ok (Filled c).

Lemma no_trade_raise s s' e : quiet s s' -> no_trade s (Raise e, s').
Proof. intros Hq. split; [exact Hq|]. intros c. discriminate. Qed.

Lemma no_trade_ignored s s' why : quiet s s' -> no_trade s (Ok (Ignored why), s').
Proof. intros Hq. split; [exact Hq|]. intros c. discriminate. Qed.

(** The state in which an accepted decision reaches the symbol's lock. *)
Definition locked_state (data : payload) (d : ParsedDecision) (key : string) (s : Engine) : Engine :=
  lock (pd_symbol d) (remember key (snd (_apply_kelly_sizing data d (count_decision s)))).

Definition prior_of (d : ParsedDecision) (s : Engine) : payload :=
  Paper.get_position (pd_symbol d) (en_broker s).

(** What holds when a decision [d] is sent to the broker for [qty] units. *)
Record accepted (v : Env) (data : payload) (s : Engine) (d : ParsedDecision) (sc rs : float)
    (atr : option float) (pct nominal q1 qty : float) (key : string) : Prop := {
  ac_kill : en_kill s = false;
  ac_paused : en_paused s = false;
  ac_parsed : parse_decision_fields data (env_strategy v) (env_trace v) = Ok (inl d);
  ac_fallback : _is_fallback_blocked (env_settings v) (env_paper_mode v) d data (prior_of d s) = Ok false;
  ac_scores : extract_decision_scores data = Ok (sc, rs);
  ac_atr : atr_ratio data = Ok atr;
  ac_pct : pct_move data = Ok pct;
  ac_gates : _evaluate_pre_execution_gates (pd_side d) sc rs atr pct (gate_env v (pd_symbol d) s) = None;
  ac_kelly : fst (_apply_kelly_sizing data d (count_decision s)) = Ok nominal;
  ac_key : env_key v d data = Ok key;
  ac_fresh : one_of key (en_dedup s) = false;
  ac_unlocked : one_of (pd_symbol d) (en_locks s) = false;
  ac_sell : reject_unmatched_sell (pd_side d) (prior_of d s) = Ok false;
  ac_clamp_sell : clamp_sell (pd_side d) (prior_of d s) nominal = Ok q1;
  ac_clamp_buy : clamp_buy (env_settings v) (pd_side d) (prior_of d s) q1 = Ok (Some qty);
}.

(** The run of an accepted decision. *)
Definition submission (v : Env) (data : payload) (s : Engine) (d : ParsedDecision) (sc qty : float)
    (key : string) : res Outcome * Engine :=
  let '(r, s') := fill_order v data d sc qty key (prior_of d s) (locked_state data d key s) in
  (r, unlock (pd_symbol d) s').

(** Kelly sizing reads the cash, so it changes the broker only by writing its default. *)
Lemma kelly_state data d s :
  let s' := snd (_apply_kelly_sizing data d s) in
  pb_positions (en_broker s') = pb_positions (en_broker s) /\
  Paper.cash_of (en_broker s') = Paper.cash_of (en_broker s) /\
  pb_rng (en_broker s') = pb_rng (en_broker s) /\ en_store s' = en_store s /\
  en_published s' = en_published s /\ en_dedup s' = en_dedup s /\ en_locks s' = en_locks s.
Proof.
  unfold _apply_kelly_sizing, bind, lift. destruct (float_or_zero _) as [p|e]; [|by repeat split].
  destruct (_ || _); by repeat split.
Qed.

Lemma kelly_quiet data d s : quiet s (snd (_apply_kelly_sizing data d s)).
Proof.
  pose proof (kelly_state data d s) as (P & C & R & S & E & D & _).
  split; [exact P|exact C|exact R| | |congruence].
  - exists []. rewrite app_nil_r. split; [exact E|constructor].
  - rewrite D. apply incl_refl.
Qed.

Lemma locked_quiet data d key s : quiet s (locked_state data d key s).
Proof.
  transitivity (snd (_apply_kelly_sizing data d (count_decision s))).
  - etrans; [|apply kelly_quiet]. apply quiet_same; try reflexivity. apply incl_refl.
  - apply quiet_same; try reflexivity. apply incl_tl, incl_refl.
Qed.

(** Under the lock: a rejection, or one order. *)
Lemma execute_locked_split v data d sc q key s :
  (exists q1 qty,
     reject_unmatched_sell (pd_side d) (prior_of d s) = Ok false /\
     clamp_sell (pd_side d) (prior_of d s) q = Ok q1 /\
     clamp_buy (env_settings v) (pd_side d) (prior_of d s) q1 = Ok (Some qty) /\
     execute_locked v data d sc q key s = fill_order v data d sc qty key (prior_of d s) s)
  \/ no_trade s (execute_locked v data d sc q key s).
Proof.
  unfold execute_locked, bind, gets, lift. fold (prior_of d s).
  destruct (reject_unmatched_sell (pd_side d) (prior_of d s)) as [[]|e]; [right|..|right].
  - split; [|intros c; discriminate]. split; try reflexivity; [|apply incl_refl].
    by eexists [_]; split; [reflexivity|repeat constructor].
  - destruct (clamp_sell (pd_side d) (prior_of d s) q) as [q1|e];
      [|right; apply no_trade_raise; reflexivity].
    destruct (clamp_buy (env_settings v) (pd_side d) (prior_of d s) q1) as [[qty|]|e] eqn:E.
    + left. by exists q1, qty.
    + right. split; [reflexivity|intros c; discriminate].
    + right. apply no_trade_raise. reflexivity.
  - apply no_trade_raise. reflexivity.
Qed.

Lemma no_trade_after s s1 p : quiet s s1 -> no_trade s1 p -> no_trade s p.
Proof. intros Hq [H1 H2]. split; [by etrans|exact H2]. Qed.

(** Every run either sends one order to the broker or trades nothing. *)
Lemma process_split v data s :
  (exists d sc rs atr pct nominal q1 qty key,
     accepted v data s d sc rs atr pct nominal q1 qty key /\
     process v data s = submission v data s d sc qty key)
  \/ no_trade s (process v data s).
Proof.
  unfold process, bind, gets, modify. cbv beta.
  destruct (en_kill s) eqn:Ek; [right; apply no_trade_raise; reflexivity|].
  assert (quiet s (count_decision s)) as Hc by (apply quiet_same; try reflexivity; apply incl_refl).
  change (en_paused (count_decision s)) with (en_paused s).
  destruct (en_paused s) eqn:Ep; [right; by apply no_trade_ignored|].
  unfold _process_in_memory, bind, gets, lift.
  destruct (parse_decision_fields data _ _) as [[d|err]|e] eqn:Ed;
    [|right; by apply no_trade_ignored|right; by apply no_trade_raise].
  change (Paper.get_position (pd_symbol d) (en_broker (count_decision s))) with (prior_of d s).
  destruct (_is_fallback_blocked _ _ _ _ _) as [[]|e] eqn:Ef;
    [right; by apply no_trade_ignored| |right; by apply no_trade_raise].
  unfold gate_decision, bind, gets, lift.
  destruct (extract_decision_scores data) as [[sc rs]|e] eqn:Es; [|right; by apply no_trade_raise].
  destruct (atr_ratio data) as [atr|e] eqn:Ea; [|right; by apply no_trade_raise].
  destruct (pct_move data) as [pct|e] eqn:Epc; [|right; by apply no_trade_raise].
  change (gate_env v (pd_symbol d) (count_decision s)) with (gate_env v (pd_symbol d) s).
  destruct (_evaluate_pre_execution_gates _ _ _ _ _ _) as [why|] eqn:Eg; [right; by apply no_trade_ignored|].
  destruct (kelly_state data d (count_decision s)) as (Kp & _ & _ & _ & _ & Kd & Kl).
  pose proof (kelly_quiet data d (count_decision s)) as Kq.
  destruct (_apply_kelly_sizing data d (count_decision s)) as [[nominal|e] s1] eqn:Eq; cbn [snd] in *;
    [|right; apply no_trade_raise; by etrans].
  unfold submit, bind, gets, lift, modify, finally.
  destruct (env_key v d data) as [key|e] eqn:Eke; [|right; apply no_trade_raise; by etrans].
  rewrite Kd. change (en_dedup (count_decision s)) with (en_dedup s).
  destruct (one_of key (en_dedup s)) eqn:Efr.
  { right. split; [by etrans|intros c; discriminate]. }
  change (en_locks (remember key s1)) with (en_locks s1). rewrite Kl.
  change (en_locks (count_decision s)) with (en_locks s).
  destruct (one_of (pd_symbol d) (en_locks s)) eqn:El.
  { right. apply no_trade_raise. etrans; [by etrans|].
    apply quiet_same; try reflexivity. apply incl_tl, incl_refl. }
  pose proof (locked_quiet data d key s) as Hl.
  assert (lock (pd_symbol d) (remember key s1) = locked_state data d key s) as ->
    by (unfold locked_state; by rewrite Eq).
  assert (prior_of d (locked_state data d key s) = prior_of d s) as Epr
    by (unfold prior_of, Paper.get_position; by rewrite (q_positions _ _ Hl)).
  pose proof (execute_locked_split v data d sc nominal key (locked_state data d key s)) as Hx.
  rewrite Epr in Hx. destruct Hx as [(q1 & qty & Hr & H1 & H2 & Hx)|Hx].
  - left. exists d, sc, rs, atr, pct, nominal, q1, qty, key. split.
    + by constructor; try rewrite Eq.
    + rewrite Hx. unfold submission. reflexivity.
  - right. destruct (execute_locked _ _ _ _ _ _ _) as [r s2]. destruct Hx as [Hx1 Hx2].
    split; [|exact Hx2]. etrans; [exact Hl|]. etrans; [exact Hx1|].
    apply quiet_same; try reflexivity. apply incl_refl.
Qed.

(** Conversely, a decision that passes every test is sent. *)
Lemma accepted_run v data s d sc rs atr pct nominal q1 qty key :
  accepted v data s d sc rs atr pct nominal q1 qty key ->
  process v data s = submission v data s d sc qty key.
Proof.
  intros [Ek Ep Ed Ef Es Ea Epc Eg Ekl Eke Efr El Er E1 E2].
  unfold process, bind, gets, modify. cbv beta. rewrite Ek.
  change (en_paused (count_decision s)) with (en_paused s). rewrite Ep.
  unfold _process_in_memory, bind, gets, lift. rewrite Ed.
  change (Paper.get_position (pd_symbol d) (en_broker (count_decision s))) with (prior_of d s). rewrite Ef.
  unfold gate_decision, bind, gets, lift. rewrite Es, Ea, Epc.
  change (gate_env v (pd_symbol d) (count_decision s)) with (gate_env v (pd_symbol d) s). rewrite Eg.
  destruct (kelly_state data d (count_decision s)) as (_ & _ & _ & _ & _ & Kd & Kl).
  pose proof (locked_quiet data d key s) as Hl. unfold submission, locked_state in *.
  destruct (_apply_kelly_sizing data d (count_decision s)) as [r s1]. cbn [fst snd] in *. subst r.
  unfold submit, bind, gets, lift, modify, finally. rewrite Eke, Kd.
  change (en_dedup (count_decision s)) with (en_dedup s). rewrite Efr.
  change (en_locks (remember key s1)) with (en_locks s1). rewrite Kl.
  change (en_locks (count_decision s)) with (en_locks s). rewrite El.
  set (s0 := lock (pd_symbol d) (remember key s1)) in *.
  assert (prior_of d s0 = prior_of d s) as Epr
    by (unfold prior_of, Paper.get_position; by rewrite (q_positions _ _ Hl)).
  unfold execute_locked, bind, gets, lift. fold (prior_of d s0). rewrite Epr, Er, E1, E2. reflexivity.
Qed.

(** * One order *)

(** The bookkeeping after the order reached the broker. *)
Definition recorded (s s' : Engine) : Prop :=
  en_broker s' = en_broker s /\ en_dedup s' = en_dedup s /\ en_locks s' = en_locks s /\
  en_published s' = en_published s.

#[local] Instance recorded_pre : PreOrder recorded.
Proof.
  split; [by repeat split|].
  intros a b c (B1 & D1 & L1 & P1) (B2 & D2 & L2 & P2). unfold recorded. by rewrite B2, D2, L2, P2.
Qed.

Lemma on_store_recorded f : tracks recorded (on_store f).
Proof. intros s. unfold on_store. by destruct (f (en_store s)). Qed.

Lemma record_fill_recorded v c oid : tracks recorded (_record_fill_to_store v c oid).
Proof. unfold _record_fill_to_store. eauto using on_store_recorded with tracks typeclass_instances. Qed.

(** The rows, the mirrored position and the equity point of a fill. *)
Definition fill_recorded (v : Env) (c : FillContext) (oid : string) (p : payload) (t : InMemoryStore)
  : res InMemoryStore :=
  let* t1 := Store.mirror_broker_position (fc_symbol c) p (Some (fc_strategy_id c))
               (record_rows c oid (env_time v) t) in
  _append_equity_snapshot (fc_filled_at c) t1.

Lemma record_fill_runs v c oid s :
  (exists t, fill_recorded v c oid (Paper.get_position (fc_symbol c) (en_broker s)) (en_store s) = Ok t /\
     _record_fill_to_store v c oid s = (Ok tt, with_store t s))
  \/ (exists e s', _record_fill_to_store v c oid s = (Raise e, s') /\ en_in_flight s' = en_in_flight s).
Proof.
  unfold _record_fill_to_store, bind, on_store, gets, fill_recorded.
  cbn [en_store en_broker with_store res_bind].
  destruct (Store.mirror_broker_position _ _ _ _) as [t1|e]; [|right; by do 2 eexists].
  cbn [res_bind en_store with_store]. destruct (_append_equity_snapshot _ t1) as [t|e];
    [left; by exists t|right; by do 2 eexists].
Qed.

(** The run of one order: the broker always takes it; then it is recorded and announced,
    or recording raises and nothing is announced. *)
Lemma fill_order_runs v data d sc qty key prior s :
  Paper.book_ok (en_broker s) ->
  let p := fill_order v data d sc qty key prior s in
  let b := snd (Paper.place_order (pd_symbol d) (pd_side d) qty (pd_price d) (env_now v)
                  (env_broker_order v) (en_broker s)) in
  let price := py_round (fst (fill (pd_price d)
                 (if buy_side (lower_str (VStr (pd_side d))) then 1 else -1) (pb_rng (en_broker s)))) 8 in
  en_broker (snd p) = b /\ en_dedup (snd p) = en_dedup s /\ en_locks (snd p) = en_locks s /\
  ((exists c m1 m2 m3, fst p = Ok (Filled c) /\
      fill_context v data d sc qty price key prior = Ok c /\
      en_published (snd p) = en_published s ++ fill_events c m1 m2 m3 (env_now v) /\
      fill_recorded v c (env_broker_order v) (Paper.get_position (fc_symbol c) b) (en_store s)
      = Ok (en_store (snd p)) /\
      en_in_flight (snd p) = false)
   \/ (exists e, fst p = Raise e /\ en_published (snd p) = en_published s /\
        en_in_flight (snd p) = true)).
Proof.
  intros Hb. cbv zeta.
  destruct (Paper.place_order_runs (pd_symbol d) (pd_side d) qty (pd_price d) (env_now v)
    (env_broker_order v) (en_broker s) Hb) as (order & b & E & Eo & _).
  unfold fill_order, bind, modify, on_broker. cbn [en_broker set_in_flight with_flags].
  rewrite E. cbn [snd]. unfold lift. rewrite Eo.
  set (price := py_round _ 8).
  assert ((let* x := dindex "fill_price" (Paper.order_payload (env_broker_order v) (pd_symbol d)
     (lower_str (VStr (pd_side d))) qty price) in py_float x) = Ok price) as -> by reflexivity.
  set (s1 := with_broker b _). cbv beta iota.
  destruct (fill_context v data d sc qty price key prior) as [c|e] eqn:Ec.
  2:{ cbn [fst snd]. split_and!; [reflexivity|reflexivity|reflexivity|]. right. exists e. by repeat split. }
  assert (dindex "broker_order_id" (Paper.order_payload (env_broker_order v) (pd_symbol d)
     (lower_str (VStr (pd_side d))) qty price) = Ok (VStr (env_broker_order v))) as -> by reflexivity.
  cbv beta iota. change (Fmt.str (VStr (env_broker_order v))) with (env_broker_order v).
  pose proof (record_fill_recorded v c (env_broker_order v) s1) as (Rb & Rd & Rl & Rp).
  destruct (record_fill_runs v c (env_broker_order v) s1) as [(t & Et & Er)|(e & s2 & Er & Hi)].
  - rewrite Er in *. cbn [snd] in *. destruct (env_msgs v) as [[m1 m2] m3].
    set (s3 := set_in_flight false _). unfold ret. cbn [fst snd].
    assert (en_broker s3 = b /\ en_dedup s3 = en_dedup s /\ en_locks s3 = en_locks s /\
            en_store s3 = t /\
            en_published s3 = en_published s ++ fill_events c m1 m2 m3 (env_now v))
      as (F1 & F2 & F3 & F4 & F5) by (subst s3; destruct (feqb _ _); by repeat split).
    rewrite F1, F2, F3, F4, F5. repeat split. left. by exists c, m1, m2, m3.
  - rewrite Er in *. cbn [snd fst] in *. repeat split; try assumption.
    right. exists e. repeat split; [exact Rp|rewrite Hi; reflexivity].
Qed.

End Runs.
