(* ===== verification/EngineInv.v ===== *)
(** EngineInv: what holds of the execution engine in every reachable state. *)
From S2P Require Import Prelude StateErr PyFloat FloatFacts PyVal PyMath PyRandom Config Agents.
From S2P Require Import Gate Params Policy Filters Positions Broker Store Execution Engine EngineFacts.

(** * Quantities *)

Lemma key_small x n : key x = Some n -> - bound < n < bound -> is_finite x = true /\ units x = n.
Proof.
  pose proof bound_pos. destruct x as [|[]| |m]; cbn [key]; intros E Hb;
    try discriminate E; apply Some_inj in E; subst n; try lia; split; reflexivity.
Qed.

Lemma sat_small n : - bound < n < bound -> sat n = n.
Proof. unfold sat. lia. Qed.

(** Magnitudes below [2^60], far from overflow. *)
Definition small (n : Z) : Prop := 0 <= n <= 2 ^ 60 * scale.

Lemma small_bound n : small n -> - bound < n < bound /\ - bound < - n < bound.
Proof. intros Hn. pose proof (pow2f_bound 60 ltac:(lia)). unfold small in Hn. lia. Qed.

Lemma small_rnd n : small n -> small (Rnd.rnd n 1).
Proof.
  intros [H1 H2]. split; [apply Rnd.rnd_nonneg; lia|].
  apply Rnd.rnd_le; [lia|apply pow2f_repr; lia|lia].
Qed.

(** Multiplying by the sign of an order. *)
Lemma signed_units q (up : bool) :
  is_finite q = true -> small (units q) ->
  let y := (q * of_Z (if up then 1 else -1))%F in
  is_finite y = true /\ units y = (if up then 1 else -1) * Rnd.rnd (units q) 1.
Proof.
  intros F Hq. cbv zeta.
  assert (is_finite (of_Z (if up then 1 else -1)) = true) as Fs by (by destruct up).
  assert (units (of_Z (if up then 1 else -1)) = (if up then 1 else -1) * scale) as Us
    by (destruct up; by vm_compute).
  pose proof (fmul_key q _ F Fs) as K. rewrite Us in K.
  pose proof scale_pos.
  replace (units q * ((if up then 1 else -1) * scale)) with (((if up then 1 else -1) * units q) * scale) in K by lia.
  rewrite <- (Z.mul_1_l scale) in K at 2. rewrite Rnd.rnd_scale in K by lia.
  assert (Rnd.rnd ((if up then 1 else -1) * units q) 1 = (if up then 1 else -1) * Rnd.rnd (units q) 1) as E.
  { destruct up; [by rewrite !Z.mul_1_l|].
    replace (-1 * units q) with (- units q) by lia. rewrite Rnd.rnd_opp by lia. lia. }
  rewrite E in K. pose proof (small_bound _ (small_rnd _ Hq)).
  rewrite sat_small in K by (destruct up; lia).
  apply key_small in K; [exact K|destruct up; lia].
Qed.

(** * The exposure cap *)

(** A cap: a nonnegative double far from overflow. *)
Definition cap_ok (M : float) : Prop := double M /\ within (Fin 0) 1e15%F M.

(** The cap and half a unit in its last place, rounded to a double. *)
Definition limit (M : float) : float := round_q false (units M * (2 ^ 53 + 1)) (2 ^ 53).

Definition capped (M q : float) : Prop := double q /\ within (Fin 0) (limit M) q.

Lemma cap_units M : cap_ok M ->
  is_finite M = true /\ 0 <= units M <= 2 ^ 50 * scale /\ Rnd.rnd (units M) 1 = units M.
Proof.
  intros [D W]. assert (within (Fin 0) (pow2f 50) M) as W' by (revert W; apply within_weaken; fconst).
  pose proof (upto_finite 50 M ltac:(lia) W') as F. pose proof (upto_units 50 M ltac:(lia) W').
  split_and!; [exact F|lia|lia|]. rewrite <- (Z.mul_1_r (units M)) at 1. by apply Rnd.rnd_exact.
Qed.

Lemma limit_units M : cap_ok M ->
  is_finite (limit M) = true /\ small (units (limit M)) /\
  units (limit M) = Rnd.rnd (units M * (2 ^ 53 + 1)) (2 ^ 53).
Proof.
  intros HM. destruct (cap_units M HM) as (_ & Hu & _). pose proof scale_pos.
  pose proof (key_round_q false (units M * (2 ^ 53 + 1)) (2 ^ 53) ltac:(lia)) as K.
  set (r := Rnd.rnd _ _) in *. assert (small r) as Hr.
  { split; [apply Rnd.rnd_nonneg; nia|]. apply Rnd.rnd_le; [lia|apply pow2f_repr; lia|nia]. }
  pose proof (small_bound r Hr). rewrite sat_small in K by lia.
  apply key_small in K as [F U]; [|lia]. unfold limit. rewrite U. by split_and!.
Qed.

Lemma capped_units M q : cap_ok M -> capped M q ->
  is_finite q = true /\ 0 <= units q <= units (limit M) /\ Rnd.rnd (units q) 1 = units q.
Proof.
  intros HM [D W]. destruct (limit_units M HM) as (F & S & _). destruct W as [W1 W2].
  assert (is_finite q = true) as Fq.
  { pose proof (small_bound _ S). apply fleb_key in W1 as (a & b & Ha & Hb & ?).
    apply fleb_key in W2 as (c & e & Hc & He & ?). rewrite (finite_key _ F) in He.
    apply Some_inj in Ha, He. rewrite Hb in Hc. apply Some_inj in Hc. subst.
    apply (key_small q c Hb). lia. }
  apply (fleb_units (Fin 0) q eq_refl Fq) in W1. apply (fleb_units q _ Fq F) in W2. cbn [units] in W1.
  split_and!; [exact Fq|exact W1|exact W2|]. rewrite <- (Z.mul_1_r (units q)) at 1. by apply Rnd.rnd_exact.
Qed.

Lemma capped_intro M q :
  cap_ok M -> is_finite q = true -> double q -> 0 <= units q <= units (limit M) -> capped M q.
Proof.
  intros HM F D Hu. destruct (limit_units M HM) as (Fl & _ & _). split; [exact D|].
  split; [apply (fleb_units (Fin 0) q eq_refl F); cbn [units]; lia|apply (fleb_units q _ F Fl); lia].
Qed.

Lemma between_finite x y : fltb (Fin 0) x = true -> fleb x y = true -> fin_ok y = true ->
  is_finite x = true /\ 0 < units x <= units y.
Proof.
  intros H0 H1 Oy. pose proof (fin_ok_finite _ Oy) as Fy.
  assert (is_finite x = true) as Fx
    by (apply (within_finite (Fin 0) y); [reflexivity|exact Oy|exact (conj (fltb_fleb _ _ H0) H1)]).
  split; [exact Fx|]. apply (fltb_units (Fin 0) x eq_refl Fx) in H0.
  apply (fleb_units x y Fx Fy) in H1. cbn [units] in H0. lia.
Qed.

Lemma small_fin_ok x : is_finite x = true -> small (units x) -> fin_ok x = true.
Proof.
  intros F S. unfold fin_ok. rewrite F. cbn [andb]. pose proof (small_bound _ S). apply Z.ltb_lt. lia.
Qed.

(** A sum of a capped quantity and a signed order, in units. *)
Lemma trade_units h q (up : bool) n :
  is_finite h = true -> is_finite q = true -> small (units q) ->
  n = Rnd.rnd (units h + (if up then 1 else -1) * Rnd.rnd (units q) 1) 1 -> small n ->
  let r := (h + q * of_Z (if up then 1 else -1))%F in
  is_finite r = true /\ units r = n /\ double r.
Proof.
  intros Fh Fq Sq En Sn. cbv zeta. destruct (signed_units q up Fq Sq) as [Fy Uy].
  pose proof (fadd_key h _ Fh Fy) as K. rewrite Uy, <- En in K.
  pose proof (small_bound n Sn). rewrite sat_small in K by lia.
  apply key_small in K as [F U]; [|lia]. split_and!; [exact F|exact U|by apply double_fadd].
Qed.

(** Selling no more than is held leaves a capped quantity. *)
Lemma sell_step M h q :
  cap_ok M -> capped M h -> fltb (Fin 0) q = true -> fleb q h = true ->
  capped M (h + q * of_Z (-1))%F.
Proof.
  intros HM Hh H0 H1. destruct (capped_units M h HM Hh) as (Fh & Uh & Eh).
  destruct (limit_units M HM) as (_ & Sl & _).
  assert (small (units h)) as Sh by (unfold small in *; lia).
  destruct (between_finite q h H0 H1 (small_fin_ok h Fh Sh)) as [Fq Uq].
  assert (small (units q)) as Sq by (unfold small in *; lia).
  pose proof (small_rnd _ Sq) as [Hr0 _].
  assert (Rnd.rnd (units q) 1 <= units h) as Hr by (rewrite <- Eh; apply Rnd.rnd_mono; lia).
  set (n := Rnd.rnd (units h + -1 * Rnd.rnd (units q) 1) 1).
  assert (0 <= n) by (apply Rnd.rnd_nonneg; lia).
  assert (n <= units h) by (rewrite <- Eh; apply Rnd.rnd_mono; lia).
  assert (small n) as Sn by (unfold small in *; lia).
  destruct (trade_units h q false n Fh Fq Sq eq_refl Sn) as (F & U & D).
  apply capped_intro; [exact HM|exact F|exact D|]. rewrite U. lia.
Qed.

(** Buying no more than the room left under the cap leaves a capped quantity. *)
Lemma buy_step M h q :
  cap_ok M -> capped M h -> fltb (Fin 0) q = true -> fleb q (M - h)%F = true ->
  capped M (h + q * of_Z 1)%F.
Proof.
  intros HM Hh H0 H1. destruct (capped_units M h HM Hh) as (Fh & Uh & Eh).
  destruct (limit_units M HM) as (Fl & Sl & Ul). destruct (cap_units M HM) as (FM & UM & EM).
  pose proof scale_pos.
  assert (key (M - h)%F = Some (sat (Rnd.rnd (units M - units h) 1))) as K
    by (change (M - h)%F with (fadd M (fopp h)); rewrite fadd_key, units_fopp
          by (assumption || by apply fopp_finite); reflexivity).
  assert (0 < units M - units h) as Hpos.
  { pose proof (fltb_fleb_trans _ _ _ H0 H1) as Hp. apply fltb_key in Hp as (a & b & Ha & Hb & Hp).
    cbn [key] in Ha. apply Some_inj in Ha. rewrite K in Hb. apply Some_inj in Hb. subst a b.
    destruct (Z_le_gt_dec (units M - units h) 0) as [Hle|]; [|lia]. exfalso.
    pose proof (Rnd.rnd_mono (units M - units h) 1 0 1 ltac:(lia) ltac:(lia) ltac:(lia)) as Hm.
    rewrite Rnd.rnd_0 in Hm by lia. unfold sat in Hp. pose proof bound_pos. lia. }
  assert (small (units M - units h)) as Sr by (unfold small; lia).
  pose proof (small_rnd _ Sr) as Srm. pose proof (rnd_error (units M - units h) ltac:(lia)) as He.
  pose proof (small_bound _ Srm).
  rewrite sat_small in K by lia. apply key_small in K as [FR UR]; [|lia].
  set (room := Rnd.rnd (units M - units h) 1) in *.
  destruct (between_finite q _ H0 H1 (small_fin_ok _ FR ltac:(rewrite UR; exact Srm))) as [Fq Uq].
  rewrite UR in Uq. assert (small (units q)) as Sq by (unfold small in *; lia).
  assert (Rnd.rnd (units q) 1 <= room) as Hr.
  { apply Rnd.rnd_le; [lia|apply Rnd.rnd_repr; lia|lia]. }
  pose proof (small_rnd _ Sq) as [Hr0 _].
  set (n := Rnd.rnd (units h + 1 * Rnd.rnd (units q) 1) 1).
  assert (0 <= n) by (apply Rnd.rnd_nonneg; lia).
  assert (n <= units (limit M)) as Hn by (rewrite Ul; apply Rnd.rnd_mono; lia).
  assert (small n) as Sn by (unfold small in *; lia).
  destruct (trade_units h q true n Fh Fq Sq eq_refl Sn) as (F & U & D).
  apply capped_intro; [exact HM|exact F|exact D|]. rewrite U. lia.
Qed.

(** * The position documents of the broker *)

Lemma side_for_str q : _side_str (VStr (Paper.side_for q)) = Paper.side_for q.
Proof. apply side_str_id. unfold Paper.side_for. destruct (fltb _ _); [|destruct (fltb _ _)]; cbn; tauto. Qed.

Lemma float_or_zero_float y : float_or_zero (VFloat y) = Ok (if ftruthy y then y else 0.0%F).
Proof. unfold float_or_zero. cbn [truthy py_float]. by destruct (ftruthy y). Qed.

Lemma truthy_key q : q <> NaN -> key (if ftruthy q then q else 0.0%F) = key q.
Proof.
  intros Hn. rewrite zero_lit. unfold ftruthy, is_zero.
  destruct q as [|[]| |[|n|n]]; try reflexivity; exact (False_ind _ (Hn eq_refl)).
Qed.

Section Documents.
Variables (sym : string) (q e x : float) (o : val).
Let doc := Paper.position_payload sym (Paper.side_for q) q e x o.

Lemma doc_side : side_of doc = Paper.side_for q.
Proof.
  unfold side_of. assert (first_truthy ["side"] doc (VStr FLAT) = VStr (Paper.side_for q)) as ->.
  { unfold doc, Paper.position_payload, Paper.side_for.
    destruct (fltb (fabs q) _); [reflexivity|]. destruct (fltb _ q); reflexivity. }
  apply side_for_str.
Qed.

Lemma doc_qty : qty_of doc = Ok (if ftruthy q then q else 0.0%F).
Proof. exact (float_or_zero_float q). Qed.

Lemma doc_signed : fleb (Fin 0) q = true ->
  exists r, signed_position_qty (Some doc) = Ok r /\ key r = key q.
Proof.
  intros H0. pose proof (fleb_not_nan_r _ _ H0) as Hn. unfold signed_position_qty.
  assert (float_or_zero (dget_or "qty" (dget_or "quantity" VNone doc) doc)
          = Ok (if ftruthy q then q else 0.0%F)) as -> by exact (float_or_zero_float q).
  cbn [res_bind]. assert (dget_or "side" VNone doc = VStr (Paper.side_for q)) as -> by reflexivity.
  rewrite side_for_str. pose proof (truthy_key q Hn) as Hk. set (q' := if ftruthy q then q else 0.0%F) in *.
  eexists. split; [reflexivity|].
  assert (key (fabs q') = key q) as Ha.
  { rewrite key_fabs, Hk. apply fleb_key in H0 as (a & b & Ha & Hb & Hle).
    cbn [key] in Ha. apply Some_inj in Ha. rewrite Hb. subst a. cbn. f_equal. lia. }
  unfold Paper.side_for. destruct (fltb (fabs q) 1e-9%F); [exact Hk|].
  rewrite zero_lit. destruct (fltb (Fin 0) q) eqn:E; [exact Ha|].
  apply fltb_false in E; [|discriminate|exact Hn].
  cbn [one_of existsb String.eqb Ascii.eqb Bool.eqb orb SHORT].
  assert (key q = Some 0) as Hz.
  { apply fleb_key in H0 as (a & b & A1 & B1 & L1). apply fleb_key in E as (b' & a' & B2 & A2 & L2).
    cbn [key] in A1, A2. apply Some_inj in A1, A2. rewrite B1 in B2. apply Some_inj in B2.
    rewrite B1. f_equal. lia. }
  change (key (fopp (fabs q')) = key q). rewrite key_fopp, Ha, Hz. reflexivity.
Qed.

End Documents.

(** * Traces *)

(** What can happen to an engine: a decision, an operator's switch, the expiry of a key,
    or another worker's lock. *)
Inductive event :=
| Decide (v : Env) (data : payload)
| Switch (kill paused : bool)
| InFlightExpires
| LockTaken (symbol : string)
| LockExpires (symbol : string)
| DedupExpires (key : string).

Section Traces.
Context `{PyRandom} `{Constants}.
Import Engine.

Definition react (s : Engine) (e : event) : Engine :=
  match e with
  | Decide v data => snd (process v data s)
  | Switch kill paused => with_flags kill paused (en_evaluated s) (en_in_flight s) s
  | InFlightExpires => set_in_flight false s
  | LockTaken symbol => lock symbol s
  | LockExpires symbol => unlock symbol s
  | DedupExpires key => with_keys (Store.discard key (en_dedup s)) (en_locks s) s
  end.

Definition run (s : Engine) (l : list event) : Engine := fold_left react l s.

Lemma run_inv (P : Engine -> Prop) (ok : event -> Prop) l s :
  (forall s e, P s -> ok e -> P (react s e)) -> P s -> Forall ok l -> P (run s l).
Proof.
  intros Hstep. revert s. induction l as [|e l IH]; intros s Hs Hl; [exact Hs|].
  apply Forall_cons in Hl as [He Hl]. apply IH; [by apply Hstep|exact Hl].
Qed.

(** ** The exposure invariant *)

Definition KNOWN_ACTIONS : list string := [BUY; LONG; SELL; SHORT] ++ NO_ORDER_ACTIONS.

(** The decision names one of the documented actions, and its quantity is a number. *)
Definition plain (v : Env) (data : payload) : bool :=
  match parse_decision_fields data (env_strategy v) (env_trace v) with
  | Ok (inl d) => one_of (pd_side d) KNOWN_ACTIONS && negb (is_nan (pd_qty d))
  | _ => true
  end.

Definition event_ok (M : float) (e : event) : Prop :=
  match e with
  | Decide v data => plain v data = true /\ max_position (env_settings v) = M
  | _ => True
  end.

Definition book_capped (M : float) (s : Engine) : Prop :=
  Paper.book_ok (en_broker s) /\ forall sym, capped M (Paper.held sym (en_broker s)).

Lemma held_same b b' sym : pb_positions b' = pb_positions b -> Paper.held sym b' = Paper.held sym b.
Proof. intros E. unfold Paper.held, Paper.get_position. by rewrite E. Qed.

Lemma book_capped_same M s s' :
  pb_positions (en_broker s') = pb_positions (en_broker s) -> book_capped M s -> book_capped M s'.
Proof.
  intros E [Hb Hc]. split.
  - intros sym p Hp. apply Hb. by rewrite <- E.
  - intros sym. by rewrite (held_same _ _ sym E).
Qed.

(** A parsed quantity is positive, and Kelly sizing keeps it so. *)
Lemma parsed_pos data a b d :
  parse_decision_fields data a b = Ok (inl d) -> fleb (pd_qty d) (Fin 0) = false.
Proof.
  unfold parse_decision_fields. destruct (missing_fields data); [|discriminate].
  destruct (float_caught _) as [[q|]|]; cbn [res_bind]; [|discriminate|discriminate].
  destruct (float_caught _) as [[p|]|]; cbn [res_bind]; [|discriminate|discriminate].
  rewrite zero_lit. destruct (_ || _) eqn:E; [discriminate|].
  apply orb_false_elim in E as [E _]. intros Hd. apply Ok_inj in Hd. injection Hd as <-. exact E.
Qed.

Lemma kelly_pos data d s q :
  pd_qty d <> NaN -> fleb (pd_qty d) (Fin 0) = false ->
  fst (_apply_kelly_sizing data d s) = Ok q -> fltb (Fin 0) q = true.
Proof.
  intros Hn Hp. assert (fltb (Fin 0) (pd_qty d) = true) as Hd by (by apply fleb_false).
  unfold _apply_kelly_sizing, bind, lift. destruct (float_or_zero _) as [p|e] eqn:E; [|discriminate].
  destruct (_ || _) eqn:Eb; cbn [fst]; [intros Hq; apply Ok_inj in Hq as <-; exact Hd|].
  unfold on_broker, Paper.get_cash. cbn [fst snd]. unfold kelly_qty. rewrite E. cbn [res_bind]. rewrite Eb.
  intros Hq. apply Ok_inj in Hq. subst q. destruct (fdiv _ _) as [k|]; [|exact Hd].
  rewrite zero_lit. destruct (fltb (Fin 0) k) eqn:Ek; [exact Ek|exact Hd].
Qed.

Lemma gates_action side sc rs atr pct e :
  _evaluate_pre_execution_gates side sc rs atr pct e = None -> one_of side NO_ORDER_ACTIONS = false.
Proof.
  unfold _evaluate_pre_execution_gates, check_execution_gate.
  destruct (one_of side NO_ORDER_ACTIONS); [discriminate|reflexivity].
Qed.

Lemma known_side side :
  one_of side KNOWN_ACTIONS = true -> one_of side NO_ORDER_ACTIONS = false ->
  (buy_side side = true \/ sell_side side = true) /\ lower_str (VStr side) = side.
Proof.
  unfold KNOWN_ACTIONS, one_of. rewrite existsb_app. intros Hk Hn. rewrite Hn, orb_false_r in Hk.
  cbn [existsb] in Hk.
  repeat (apply orb_true_iff in Hk as [Hk|Hk]; [apply String.eqb_eq in Hk; subst side; split; cbn; tauto|]).
  discriminate Hk.
Qed.

Lemma room_same M h r q :
  is_finite M = true -> is_finite h = true -> is_finite r = true -> units r = units h ->
  fleb q (M - r)%F = true -> fleb q (M - h)%F = true.
Proof.
  intros FM Fh Fr E. assert (key (M - r)%F = key (M - h)%F) as K.
  { change (key (fadd M (fopp r)) = key (fadd M (fopp h))).
    rewrite !fadd_key, !units_fopp, E by (assumption || by apply fopp_finite). reflexivity. }
  rewrite !fleb_key, K. exact (fun x => x).
Qed.

(** The size sent to the broker: positive, within the holding for a sell, within the
    room for a buy. *)
Lemma accepted_qty M v data s d sc rs atr pct nominal q1 qty key :
  cap_ok M -> plain v data = true -> max_position (env_settings v) = M -> book_capped M s ->
  accepted v data s d sc rs atr pct nominal q1 qty key ->
  let h := Paper.held (pd_symbol d) (en_broker s) in
  lower_str (VStr (pd_side d)) = pd_side d /\ fltb (Fin 0) qty = true /\
  ((buy_side (pd_side d) = true /\ fleb qty (M - h)%F = true) \/
   (buy_side (pd_side d) = false /\ fleb qty h = true)).
Proof.
  intros HM Hpl Hmax [Hb Hc] A. cbv zeta.
  destruct A as [_ _ ac_parsed0 _ _ _ _ ac_gates0 ac_kelly0 _ _ _ ac_sell0 ac_clamp_sell0 ac_clamp_buy0].
  destruct (Paper.position_ok _ (pd_symbol d) Hb) as (h & e & x & o & Eh).
  assert (Paper.held (pd_symbol d) (en_broker s) = h) as Ehd by (unfold Paper.held; rewrite Eh; reflexivity).
  specialize (Hc (pd_symbol d)). rewrite Ehd in *. unfold prior_of in *. rewrite Eh in *.
  unfold plain in Hpl. rewrite ac_parsed0 in Hpl. apply andb_true_iff in Hpl as [Hk Hnn].
  apply negb_true_iff, is_nan_false in Hnn.
  destruct (known_side _ Hk (gates_action _ _ _ _ _ _ ac_gates0)) as [Hside Hlow].
  pose proof (kelly_pos _ _ _ _ Hnn (parsed_pos _ _ _ _ ac_parsed0) ac_kelly0) as Hn.
  split; [exact Hlow|]. destruct (capped_units M h HM Hc) as (Fh & Uh & _).
  pose proof (finite_not_nan h Fh) as Hhn. pose proof (truthy_key h Hhn) as Hkey.
  unfold clamp_sell in ac_clamp_sell0. unfold clamp_buy in ac_clamp_buy0.
  destruct (buy_side (pd_side d)) eqn:Ebuy.
  - rewrite (buy_not_sell _ Ebuy) in ac_clamp_sell0. apply Ok_inj in ac_clamp_sell0. subst q1.
    destruct (doc_signed (pd_symbol d) h e x o (proj1 (proj2 Hc))) as (r & Er & Kr).
    unfold clamp_buy_to_position_limit in ac_clamp_buy0. rewrite Er in ac_clamp_buy0.
    cbn [res_bind] in ac_clamp_buy0. rewrite Hmax in ac_clamp_buy0.
    rewrite (finite_key h Fh) in Kr. destruct (limit_units M HM) as (_ & Sl & _).
    assert (small (units h)) as Sh by (unfold small in *; lia).
    destruct (key_small r _ Kr (proj1 (small_bound _ Sh))) as [Fr Ur].
    destruct (cap_units M HM) as (FM & UM & _).
    rewrite zero_lit in ac_clamp_buy0. set (room := (M - r)%F) in *.
    assert (room <> NaN) as Hrn by (by apply fsub_not_nan).
    destruct (fleb room (Fin 0)) eqn:Eroom; [discriminate ac_clamp_buy0|].
    assert (fltb (Fin 0) room = true) as Hr0 by (apply fleb_false; [exact Hrn|discriminate|exact Eroom]).
    destruct (fleb (fmin nominal room) (Fin 0)); [discriminate ac_clamp_buy0|].
    apply Ok_inj, Some_inj in ac_clamp_buy0. subst qty.
    assert (nominal <> NaN) as Hnomn by exact (fltb_not_nan_r _ _ Hn).
    assert (fltb (Fin 0) (if fltb (fmin nominal room) nominal then fmin nominal room else nominal) = true
            /\ fleb (if fltb (fmin nominal room) nominal then fmin nominal room else nominal) room = true)
      as [G1 G2].
    { unfold fmin. destruct (fltb room nominal) eqn:E1.
      - rewrite E1. split; [exact Hr0|by apply fleb_refl].
      - rewrite fltb_irrefl. split; [exact Hn|by apply fltb_false]. }
    split; [exact G1|]. left. split; [reflexivity|]. by apply (room_same M h r).
  - destruct Hside as [Hs|Hs]; [discriminate Hs|]. rewrite Hs in *.
    apply Ok_inj, Some_inj in ac_clamp_buy0. subst qty.
    unfold reject_unmatched_sell in ac_sell0. rewrite Hs in ac_sell0. cbn [negb] in ac_sell0.
    rewrite doc_qty in ac_sell0, ac_clamp_sell0. cbn [res_bind] in *.
    apply Ok_inj, negb_false_iff, andb_true_iff in ac_sell0 as [_ Hpos].
    rewrite zero_lit in *. set (h' := if ftruthy h then h else Fin 0) in *. rewrite Hpos in ac_clamp_sell0.
    cbn [andb] in ac_clamp_sell0. apply Ok_inj in ac_clamp_sell0. subst q1.
    assert (fleb h' h = true) as Hle
      by (apply fleb_key; exists (units h), (units h); rewrite Hkey, (finite_key h Fh); by split_and!).
    destruct (fltb h' nominal) eqn:E.
    + split; [exact Hpos|]. by right.
    + split; [exact Hn|]. right. split; [reflexivity|]. refine (fleb_trans _ _ _ _ Hle).
      apply fltb_false; [exact (fltb_not_nan_r _ _ Hpos)|exact (fltb_not_nan_r _ _ Hn)|exact E].
Qed.

(** The broker after a submission: one order on the position, money and documents. *)
Lemma submission_broker v data s d sc qty key :
  Paper.book_ok (en_broker s) ->
  let up := buy_side (lower_str (VStr (pd_side d))) in
  let b' := en_broker (snd (submission v data s d sc qty key)) in
  Paper.book_ok b' /\
  Paper.held (pd_symbol d) b'
  = (Paper.held (pd_symbol d) (en_broker s) + qty * of_Z (if up then 1 else -1))%F /\
  (forall sym, sym <> pd_symbol d -> Paper.get_position sym b' = Paper.get_position sym (en_broker s)).
Proof.
  intros Hb. cbv zeta. pose proof (locked_quiet data d key s) as Q. unfold submission.
  set (s0 := locked_state data d key s) in *.
  assert (Paper.book_ok (en_broker s0)) as Hb0.
  { intros sym p Hp. apply Hb. by rewrite <- (q_positions _ _ Q). }
  destruct (fill_order_runs v data d sc qty key (prior_of d s) s0 Hb0) as (Eb & _).
  destruct (fill_order v data d sc qty key (prior_of d s) s0) as [r s1]. cbn [snd] in *.
  change (en_broker (unlock (pd_symbol d) s1)) with (en_broker s1). rewrite Eb.
  destruct (Paper.place_order_runs (pd_symbol d) (pd_side d) qty (pd_price d) (env_now v)
    (env_broker_order v) (en_broker s0) Hb0) as (o & b' & E & _ & Hb' & Hh & Ho & _).
  rewrite E. cbn [snd]. rewrite Hh, (held_same _ _ _ (q_positions _ _ Q)).
  split_and!; [exact Hb'|reflexivity|]. intros sym Hs. rewrite Ho by exact Hs.
  unfold Paper.get_position. by rewrite (q_positions _ _ Q).
Qed.

Lemma react_capped M s e :
  cap_ok M -> event_ok M e -> book_capped M s -> book_capped M (react s e).
Proof.
  intros HM He Hs. destruct e as [v data| | | | |]; try exact Hs. destruct He as [Hpl Hmax].
  unfold react. destruct (process_split v data s) as [(d & sc & rs & atr & pct & nominal & q1 & qty & key & A & ->)|[Q _]];
    [|exact (book_capped_same M s _ (q_positions _ _ Q) Hs)].
  destruct (accepted_qty M v data s d sc rs atr pct nominal q1 qty key HM Hpl Hmax Hs A) as (Hl & Hq & Hside).
  destruct Hs as [Hb Hc]. destruct (submission_broker v data s d sc qty key Hb) as (Hb' & Hh & Ho).
  rewrite Hl in Hh. split; [exact Hb'|]. intros sym. destruct (String.eqb_spec sym (pd_symbol d)) as [->|Hne].
  - rewrite Hh. destruct Hside as [[-> Hr]|[-> Hr]].
    + apply buy_step; [exact HM|apply Hc|exact Hq|exact Hr].
    + apply sell_step; [exact HM|apply Hc|exact Hq|exact Hr].
  - unfold Paper.held. rewrite (Ho sym Hne). apply Hc.
Qed.

Lemma init_capped M seed : cap_ok M -> book_capped M (init seed).
Proof.
  intros HM. split; [apply Paper.init_book|]. intros sym. destruct (limit_units M HM) as (F & S & _).
  assert (Paper.held sym (en_broker (init seed)) = Fin 0) as -> by (rewrite <- zero_lit; reflexivity).
  apply capped_intro; [exact HM|reflexivity|exact double_zero|]. unfold small in S. cbn [units]. lia.
Qed.

(** C1: In every state the engine can reach, whatever the decisions, the operator's
    switches, the expiry of its keys and the locks of other workers, the position of every
    symbol is a nonnegative double of at most the exposure cap (rounded up by at most half
    a unit in the last place), and its document carries the side of its quantity: the book
    is long-only and bounded.  Decisions must name a documented action and a quantity that
    is a number. *)
Theorem book_bounded M seed l sym :
  cap_ok M -> Forall (event_ok M) l ->
  let b := en_broker (run (init seed) l) in
  capped M (Paper.held sym b) /\ Paper.document_ok sym (Paper.get_position sym b).
Proof.
  intros HM Hl. cbv zeta.
  destruct (run_inv (book_capped M) (event_ok M) l (init seed)) as [Hb Hc].
  - intros s e Hs He. by apply react_capped.
  - by apply init_capped.
  - exact Hl.
  - split; [apply Hc|by apply Paper.position_ok].
Qed.

End Traces.

(** * A paper desk *)

(** The default settings in paper mode; the idempotency key of a decision is its trace. *)
Definition desk : Env :=
  {| env_settings := DEFAULT_SETTINGS; env_paper_mode := true; env_symbol_open := fun _ => true;
     env_macro := fun _ => VNone; env_no_trade_window := false; env_strategy := "s1"; env_trace := "t0";
     env_order := "o1"; env_broker_order := "b1"; env_msgs := ("m1", "m2", "m3");
     env_now := "2026-01-05T15:00:00+00:00"; env_time := 0.0%F;
     env_key := fun d _ => Ok (pd_trace_id d) |}.

Definition ticket (action trace : string) (qty : val) : payload :=
  [("action", VStr action); ("symbol", VStr "BTC/USD"); ("qty", qty); ("price", VFloat 100.0%F);
   ("trace_id", VStr trace); ("confidence", VFloat 0.9%F)].

Definition filled (r : res Outcome) : bool := match r with Ok (Filled _) => true | _ => false end.

#[local] Existing Instance constant_half.
#[local] Existing Instance default_constants.

Lemma book_bounded_witness :
  let b := en_broker (run (Engine.init 7)
             [Decide desk (ticket "buy" "t1" (VFloat 0.7%F)); Switch false false;
              Decide desk (ticket "buy" "t2" (VFloat 0.7%F)); LockTaken "ETH/USD";
              Decide desk (ticket "sell" "t3" (VFloat 0.2%F))]) in
  capped 1.0%F (Paper.held "BTC/USD" b) /\
  Paper.document_ok "BTC/USD" (Paper.get_position "BTC/USD" b).
Proof.
  apply (book_bounded 1.0%F 7).
  - split; [|split; fconst].
    assert (units 1.0%F = 2 ^ 0 * scale) as E by fconst. unfold double. rewrite E. apply pow2f_repr. lia.
  - repeat (apply Forall_cons; split; [first [exact I|split; vm_compute; reflexivity]|]). constructor.
Defined.
