(* ===== verification/EngineSafety.v ===== *)
(** EngineSafety: gates, exits, unique fills and the mirrored ledger of the execution engine. *)
From S2P Require Import Prelude StateErr PyFloat FloatFacts PyVal PyMath PyRandom Config Agents.
From S2P Require Import Gate Params Policy Filters Positions Broker Store Execution Engine EngineFacts.
From S2P Require Import EngineInv.

Section Safety.
Context `{PyRandom} `{Constants}.
Import Engine.

Lemma one_of_in k l : In k l -> one_of k l = true.
Proof. intros Hin. unfold one_of. apply existsb_exists. exists k. split; [exact Hin|apply String.eqb_refl]. Qed.

Lemma one_of_not_in k l : one_of k l = false -> ~ In k l.
Proof. intros E Hin. rewrite (one_of_in k l Hin) in E. discriminate E. Qed.

(** * Gates *)

Lemma first_gate_none l : first_gate l = None -> Forall (fun g => g = None) l.
Proof.
  induction l as [|[g|] l IH]; intros Hl; [constructor|discriminate Hl|].
  constructor; [reflexivity|by apply IH].
Qed.

(** What the absence of a gate says. *)
Lemma gates_open side sc rs atr pct e :
  _evaluate_pre_execution_gates side sc rs atr pct e = None ->
  one_of side NO_ORDER_ACTIONS = false /\
  fltb (compute_execution_score sc rs 0.6%F) (score_threshold side e) = false /\
  _is_market_open e = true /\ (ge_no_trade_window e && String.eqb side BUY) = false /\
  ge_in_flight e = false /\ fltb sc SIGNAL_CONFIDENCE_MIN_GATE = false /\
  (forall r, atr = Some r -> fltb r 1.0%F = false) /\ _check_cooling_off_gate side e = None.
Proof.
  intros Hg. pose proof (gates_action _ _ _ _ _ _ Hg) as Ha.
  unfold _evaluate_pre_execution_gates in Hg. apply first_gate_none in Hg.
  rewrite Ha in Hg. cbn [negb andb] in Hg.
  repeat (apply Forall_cons in Hg as [?Hg Hg]).
  unfold check_execution_gate in Hg0. rewrite Ha in Hg0.
  destruct (fltb (compute_execution_score _ _ _) _) eqn:Es; [discriminate Hg0|].
  destruct (_is_market_open e) eqn:Em; [|discriminate Hg0].
  unfold check_confidence_gate in Hg3. rewrite Ha in Hg3.
  destruct (fltb sc _) eqn:Ec; [discriminate Hg3|].
  split_and!; try assumption; try reflexivity.
  - by destruct (ge_no_trade_window e && _).
  - by destruct (ge_in_flight e).
  - intros r ->. unfold regime_gate in Hg4. by destruct (fltb r _).
Qed.

(** C2: A decision is filled only when the kill switch and the pause flag are off, it
    parses, its score and its confidence are not below their thresholds, the market is
    open, no order is in flight, the volatility ratio is not below one, its order was not
    seen before and its symbol is not locked; a buy is not filled inside the no-trade
    window, and only an exit is filled while cooling off. *)
Theorem filled_only_through_gates v data s c s' :
  process v data s = (Ok (Filled c), s') ->
  exists d sc rs key,
    en_kill s = false /\ en_paused s = false /\ en_in_flight s = false /\
    parse_decision_fields data (env_strategy v) (env_trace v) = Ok (inl d) /\
    one_of (pd_side d) NO_ORDER_ACTIONS = false /\
    extract_decision_scores data = Ok (sc, rs) /\
    fltb (compute_execution_score sc rs 0.6%F)
         (score_threshold (pd_side d) (gate_env v (pd_symbol d) s)) = false /\
    fltb sc SIGNAL_CONFIDENCE_MIN_GATE = false /\
    (env_paper_mode v || env_symbol_open v (pd_symbol d)) = true /\
    (env_no_trade_window v = true -> pd_side d <> BUY) /\
    (forall r, atr_ratio data = Ok (Some r) -> fltb r 1.0%F = false) /\
    (is_cooling_off (recent_outcomes (gate_env v (pd_symbol d) s)) COOLING_OFF_DECAY 0.6%F = Ok true ->
     sell_side (pd_side d) = true) /\
    env_key v d data = Ok key /\ ~ In key (en_dedup s) /\ ~ In (pd_symbol d) (en_locks s).
Proof.
  intros Hp. destruct (process_split v data s)
    as [(d & sc & rs & atr & pct & nominal & q1 & qty & key & A & _)|[_ Hn]].
  2:{ rewrite Hp in Hn. exfalso. by apply (Hn c). }
  destruct A as [Ek Ep Ed Ef Es Ea Epc Eg Ekl Eke Efr El Er E1 E2].
  destruct (gates_open _ _ _ _ _ _ Eg) as (G1 & G2 & G3 & G4 & G5 & G6 & G7 & G8).
  exists d, sc, rs, key. split_and!; try assumption.
  - intros Hw Hb. cbn [ge_no_trade_window gate_env] in G4. rewrite Hw, Hb in G4. discriminate G4.
  - intros r Hr. apply G7. rewrite Ea in Hr. by apply Ok_inj in Hr.
  - intros Hc. unfold _check_cooling_off_gate in G8. rewrite G1, Hc in G8.
    by destruct (sell_side (pd_side d)).
  - intros Hin. rewrite (one_of_in _ _ Hin) in Efr. discriminate Efr.
  - intros Hin. rewrite (one_of_in _ _ Hin) in El. discriminate El.
Qed.

(** ** Exits *)

Lemma sell_no_order side : sell_side side = true ->
  one_of side NO_ORDER_ACTIONS = false /\ String.eqb side BUY = false /\ buy_side side = false /\
  lower_str (VStr side) = side.
Proof.
  unfold sell_side, one_of. cbn [existsb]. intros Hs.
  repeat (apply orb_true_iff in Hs as [Hs|Hs]; [apply String.eqb_eq in Hs; subst side; by split_and!|]).
  discriminate Hs.
Qed.

(** The gates of an exit look at its scores, the market and the volatility only. *)
Lemma exit_gates side sc rs pct e :
  sell_side side = true -> ge_db_available e = false -> ge_in_flight e = false ->
  _is_market_open e = true -> fltb (Fin 0) pct = false ->
  fltb (compute_execution_score sc rs 0.6%F) EXECUTION_DECISION_THRESHOLD_MEMORY = false ->
  fltb sc SIGNAL_CONFIDENCE_MIN_GATE = false ->
  _evaluate_pre_execution_gates side sc rs None pct e = None.
Proof.
  intros Hs Hd Hf Hm Hp H1 H2. destruct (sell_no_order side Hs) as (Ha & Hb & _ & _).
  unfold _evaluate_pre_execution_gates, score_threshold, check_execution_gate, check_confidence_gate,
    _check_cooling_off_gate, regime_gate.
  rewrite Ha, Hb, Hs, Hd, Hf, Hm, H1, H2, zero_lit, Hp. rewrite andb_false_r. reflexivity.
Qed.

Lemma long_doc h : fleb 1e-9%F h = true ->
  Paper.side_for h = LONG /\ fltb (Fin 0) h = true /\ (if ftruthy h then h else 0.0%F) = h.
Proof.
  intros Hh. assert (fltb (Fin 0) 1e-9%F = true) as He by fconst.
  pose proof (fltb_fleb_trans _ _ _ He Hh) as H0h. split_and!; [|exact H0h|].
  - unfold Paper.side_for. rewrite zero_lit, H0h.
    assert (fltb (fabs h) 1e-9%F = false) as ->; [|reflexivity].
    destruct (fltb (fabs h) 1e-9%F) eqn:E; [|reflexivity]. exfalso.
    assert (key (fabs h) = key h) as Ka.
    { rewrite key_fabs. apply fltb_key in H0h as (a & b & Ea & Eb & Hl).
      cbn [key] in Ea. apply Some_inj in Ea. rewrite Eb. cbn. f_equal. lia. }
    apply fltb_key in E as (a & b & Ea & Eb & Hl). apply fleb_key in Hh as (b' & a' & Eb' & Ea' & Hl').
    rewrite Ka, Ea' in Ea. rewrite Eb' in Eb. apply Some_inj in Ea, Eb. lia.
  - unfold ftruthy. destruct (is_zero h) eqn:E; [|reflexivity]. apply is_zero_le in E.
    pose proof (fltb_fleb_trans _ _ _ H0h E) as F. by rewrite fltb_irrefl in F.
Qed.

(** Nothing but the decision itself keeps an order for the symbol from the broker: trading
    is neither killed nor paused, no order is in flight, the market is open, and neither the
    order's key nor the symbol's lock is taken. *)
Record clear_way (v : Env) (symbol key : string) (s : Engine) : Prop := {
  cw_kill : en_kill s = false;
  cw_paused : en_paused s = false;
  cw_in_flight : en_in_flight s = false;
  cw_book : Paper.book_ok (en_broker s);
  cw_market : (env_paper_mode v || env_symbol_open v symbol) = true;
  cw_fresh : ~ In key (en_dedup s);
  cw_unlocked : ~ In symbol (en_locks s);
}.

(** A decision to sell [nominal] units that is good on its own: not a blocked fallback, with
    scores at the base thresholds, no volatility ratio and no net-value condition. *)
Record sound_exit (v : Env) (data : payload) (s : Engine) (d : ParsedDecision) (nominal : float) (key : string) : Prop := {
  se_parsed : parse_decision_fields data (env_strategy v) (env_trace v) = Ok (inl d);
  se_sell : sell_side (pd_side d) = true;
  se_fallback : _is_fallback_blocked (env_settings v) (env_paper_mode v) d data (prior_of d s) = Ok false;
  se_scores : exists sc rs, extract_decision_scores data = Ok (sc, rs) /\
    fltb (compute_execution_score sc rs 0.6%F) EXECUTION_DECISION_THRESHOLD_MEMORY = false /\
    fltb sc SIGNAL_CONFIDENCE_MIN_GATE = false;
  se_atr : atr_ratio data = Ok None;
  se_pct : exists pct, pct_move data = Ok pct /\ fltb (Fin 0) pct = false;
  se_size : fst (_apply_kelly_sizing data d (count_decision s)) = Ok nominal;
  se_key : env_key v d data = Ok key;
}.

(** The run of an exit. *)
Lemma exit_run v data s d nominal key :
  sound_exit v data s d nominal key -> clear_way v (pd_symbol d) key s ->
  fleb 1e-9%F (Paper.held (pd_symbol d) (en_broker s)) = true ->
  let h := Paper.held (pd_symbol d) (en_broker s) in
  Paper.held (pd_symbol d) (en_broker (snd (process v data s)))
  = (h + (if fltb h nominal then h else nominal) * of_Z (-1))%F.
Proof.
  intros [Ed Hs Ef (sc & rs & Esc & H1 & H2) Ea (pct & Ec & Hp) Ekl Eke] [Ek Ep Ei Hb Hm Hfr Hlk] Hh. cbv zeta.
  destruct (sell_no_order _ Hs) as (_ & _ & Hnb & Hlow).
  assert (exists q1 qty, accepted v data s d sc rs None pct nominal q1 qty key /\
     qty = (if fltb (Paper.held (pd_symbol d) (en_broker s)) nominal
            then Paper.held (pd_symbol d) (en_broker s) else nominal)) as (q1 & qty & A & Eq).
  { destruct (Paper.position_ok _ (pd_symbol d) Hb) as (h & e & x & o & Eh).
    assert (Paper.held (pd_symbol d) (en_broker s) = h) as Ehd by (unfold Paper.held; rewrite Eh; reflexivity).
    rewrite Ehd in *. destruct (long_doc h Hh) as (Hl & H0h & Ht).
    do 2 eexists. split; [|reflexivity].
    assert (reject_unmatched_sell (pd_side d) (prior_of d s) = Ok false) as Er.
    { unfold reject_unmatched_sell, prior_of. rewrite Hs, Eh, doc_qty, doc_side, Ht, Hl, zero_lit.
      cbn [negb res_bind]. rewrite H0h.
      reflexivity. }
    assert (clamp_sell (pd_side d) (prior_of d s) nominal = Ok (if fltb h nominal then h else nominal)) as E1.
    { unfold clamp_sell, prior_of. rewrite Hs, Eh, doc_qty, Ht, zero_lit. cbn [res_bind].
      rewrite H0h. reflexivity. }
    constructor; try eassumption.
    - by apply exit_gates.
    - destruct (one_of key (en_dedup s)) eqn:E; [|reflexivity]. exfalso. apply Hfr.
      unfold one_of in E. apply existsb_exists in E as (k & Hin & E). apply String.eqb_eq in E. by subst.
    - destruct (one_of (pd_symbol d) (en_locks s)) eqn:E; [|reflexivity]. exfalso. apply Hlk.
      unfold one_of in E. apply existsb_exists in E as (k & Hin & E). apply String.eqb_eq in E. congruence.
    - unfold clamp_buy. rewrite Hnb. reflexivity. }
  rewrite (accepted_run _ _ _ _ _ _ _ _ _ _ _ _ A).
  destruct (submission_broker v data s d sc qty key Hb) as (_ & Hd & _).
  rewrite Hd, Hlow, Hnb, Eq. reflexivity.
Qed.

(** *** What an exit does not depend on *)

(** The same surroundings in another macro regime and no-trade window. *)
Definition in_climate (macro : string -> val) (window : bool) (v : Env) : Env :=
  {| env_settings := env_settings v; env_paper_mode := env_paper_mode v; env_symbol_open := env_symbol_open v;
     env_macro := macro; env_no_trade_window := window; env_strategy := env_strategy v; env_trace := env_trace v;
     env_order := env_order v; env_broker_order := env_broker_order v; env_msgs := env_msgs v; env_now := env_now v;
     env_time := env_time v; env_key := env_key v |}.

(** Two computations that agree but for the recorded outcomes. *)
Definition alike {A} (m m' : E A) : Prop := forall s l,
  fst (m' (with_outcomes l s)) = fst (m s) /\ exists l', snd (m' (with_outcomes l s)) = with_outcomes l' (snd (m s)).

Lemma alike_ret {A} (r : res A) : alike (lift r) (lift r).
Proof. intros s l. split; [reflexivity|by exists l]. Qed.

Lemma alike_gets {A} (f : Engine -> A) : (forall s l, f (with_outcomes l s) = f s) -> alike (gets f) (gets f).
Proof. intros Hf s l. unfold gets. cbn [fst snd]. split; [by rewrite Hf|by exists l]. Qed.

Lemma alike_modify f : (forall s l, exists l', f (with_outcomes l s) = with_outcomes l' (f s)) -> alike (modify f) (modify f).
Proof. intros Hf s l. split; [reflexivity|apply Hf]. Qed.

Lemma alike_bind {A B} (m m' : E A) (f f' : A -> E B) :
  alike m m' -> (forall a, alike (f a) (f' a)) -> alike (bind m f) (bind m' f').
Proof.
  intros Hm Hf s l. destruct (Hm s l) as (E1 & l1 & E2). unfold bind.
  destruct (m s) as [r s1], (m' (with_outcomes l s)) as [r' s1']. cbn [fst snd] in *. subst r' s1'.
  destruct r as [a|e]; [apply Hf|]. split; [reflexivity|by exists l1].
Qed.

Lemma alike_pure {A B} (a : A) (f f' : A -> E B) : alike (f a) (f' a) -> alike (bind (lift (Ok a)) f) (bind (lift (Ok a)) f').
Proof. exact (fun Hf => Hf). Qed.

Lemma alike_broker {A} (m : M PaperBroker A) : alike (on_broker m) (on_broker m).
Proof.
  intros s l. unfold on_broker. cbn [en_broker with_outcomes]. destruct (m (en_broker s)) as [r b].
  split; [reflexivity|by exists l].
Qed.

Lemma alike_store f : alike (on_store f) (on_store f).
Proof.
  intros s l. unfold on_store. cbn [en_store with_outcomes]. destruct (f (en_store s)); (split; [reflexivity|by exists l]).
Qed.

Lemma alike_finally {A} (m m' : E A) f : alike m m' -> (forall s l, exists l', f (with_outcomes l s) = with_outcomes l' (f s)) ->
  alike (finally m f) (finally m' f).
Proof.
  intros Hm Hf s l. destruct (Hm s l) as (E1 & l1 & E2). unfold finally.
  destruct (m s) as [r s1], (m' (with_outcomes l s)) as [r' s1']. cbn [fst snd] in *. subst r' s1'.
  split; [reflexivity|apply Hf].
Qed.

Lemma alike_kelly data d : alike (_apply_kelly_sizing data d) (_apply_kelly_sizing data d).
Proof.
  unfold _apply_kelly_sizing. apply alike_bind; [apply alike_ret|intros x]. destruct (_ || _); [apply alike_ret|].
  apply alike_bind; [apply alike_broker|intros c; apply alike_ret].
Qed.

Lemma alike_record v v' c oid : env_time v' = env_time v -> alike (_record_fill_to_store v c oid) (_record_fill_to_store v' c oid).
Proof.
  intros Et. unfold _record_fill_to_store. rewrite Et. apply alike_bind; [apply alike_store|intros _].
  apply alike_bind; [by apply alike_gets|intros p]. apply alike_bind; [apply alike_store|intros _]. apply alike_store.
Qed.

Lemma alike_outcome x : alike (modify (fun s => if feqb x 0.0%F then s else push_outcome x s))
                              (modify (fun s => if feqb x 0.0%F then s else push_outcome x s)).
Proof.
  apply alike_modify. intros s l. destruct (feqb x 0.0%F); [by exists l|]. by eexists.
Qed.

Section Climate.
Variables (v : Env) (macro : string -> val) (window : bool).
Let v' := in_climate macro window v.

Lemma alike_fill data d sc qty key prior : alike (fill_order v data d sc qty key prior) (fill_order v' data d sc qty key prior).
Proof.
  unfold fill_order. apply alike_bind; [apply alike_modify; intros s l; by exists l|intros _].
  apply alike_bind; [apply alike_broker|intros order]. apply alike_bind; [apply alike_ret|intros x].
  apply alike_bind; [apply alike_ret|intros c]. apply alike_bind; [apply alike_ret|intros oid].
  apply alike_bind; [by apply alike_record|intros _]. change (env_msgs v') with (env_msgs v). destruct (env_msgs v) as [[m1 m2] m3].
  apply alike_bind; [apply alike_modify; intros s l; by exists l|intros _]. apply alike_bind; [apply alike_outcome|intros _].
  apply alike_bind; [apply alike_modify; intros s l; by exists l|intros _]. apply alike_ret.
Qed.

Lemma alike_locked data d sc qty key : alike (execute_locked v data d sc qty key) (execute_locked v' data d sc qty key).
Proof.
  unfold execute_locked. apply alike_bind; [by apply alike_gets|intros prior]. apply alike_bind; [apply alike_ret|intros [|]].
  - apply alike_bind; [apply alike_store|intros _]. apply alike_bind; [|intros _; apply alike_ret].
    apply alike_modify. intros s l. by exists l.
  - apply alike_bind; [apply alike_ret|intros q]. apply alike_bind; [apply alike_ret|intros [q'|]]; [apply alike_fill|apply alike_ret].
Qed.

Lemma alike_submit data d sc qty : alike (submit v data d sc qty) (submit v' data d sc qty).
Proof.
  unfold submit. apply alike_bind; [apply alike_ret|intros key]. apply alike_bind; [by apply alike_gets|intros [|]]; [apply alike_ret|].
  apply alike_bind; [apply alike_modify; intros s l; by exists l|intros _].
  apply alike_bind; [by apply alike_gets|intros [|]]; [apply alike_ret|].
  apply alike_bind; [apply alike_modify; intros s l; by exists l|intros _].
  apply alike_finally; [apply alike_locked|]. intros s l. by exists l.
Qed.

(** The gates of a decision to sell read neither the climate nor the outcomes. *)
Lemma exit_gate_same side sc rs atr pct symbol s l : sell_side side = true ->
  _evaluate_pre_execution_gates side sc rs atr pct (gate_env v' symbol (with_outcomes l s))
  = _evaluate_pre_execution_gates side sc rs atr pct (gate_env v symbol s).
Proof.
  intros Hs. destruct (sell_no_order side Hs) as (Ha & Hb & _ & _).
  unfold _evaluate_pre_execution_gates, score_threshold, _check_cooling_off_gate. rewrite Ha, Hb, Hs, !andb_false_r. reflexivity.
Qed.

Lemma alike_gate data d : sell_side (pd_side d) = true -> alike (gate_decision v data d) (gate_decision v' data d).
Proof.
  intros Hs. unfold gate_decision. apply alike_bind; [apply alike_ret|intros [sc rs]]. apply alike_bind; [apply alike_ret|intros atr].
  apply alike_bind; [apply alike_ret|intros pct]. intros s l. rewrite !bind_gets, (exit_gate_same _ _ _ _ _ _ _ _ Hs).
  destruct (_evaluate_pre_execution_gates _ _ _ _ _ _) as [why|]; [apply (alike_ret (Ok (Ignored why)))|].
  revert s l. apply alike_bind; [apply alike_kelly|intros q; apply alike_submit].
Qed.

Lemma alike_process data d : parse_decision_fields data (env_strategy v) (env_trace v) = Ok (inl d) ->
  sell_side (pd_side d) = true -> alike (process v data) (process v' data).
Proof.
  intros Ed Hs. unfold process. apply alike_bind; [by apply alike_gets|intros [|]]; [apply alike_ret|].
  apply alike_bind; [apply alike_modify; intros s l; by exists l|intros _].
  apply alike_bind; [by apply alike_gets|intros [|]]; [apply alike_ret|].
  unfold _process_in_memory. change (env_strategy v') with (env_strategy v). change (env_trace v') with (env_trace v). rewrite Ed.
  apply alike_pure. cbv beta iota. apply alike_bind; [by apply alike_gets|intros p].
  apply alike_bind; [apply alike_ret|intros [|]]; [apply alike_ret|by apply alike_gate].
Qed.

End Climate.

(** C5: Exits stay open to the entry filters. Whatever a decision to sell leads to, an
    order, a rejection or an exception, it leads to the same, with the same broker,
    store, messages and keys, in any other macro regime, inside or outside the no-trade
    window and after any other recent outcomes. And it leads to an order when nothing
    else is in its way, which is: the book is one the broker keeps and holds at least
    1e-9 of the symbol, the kill switch, the pause flag and the in-flight flag are off,
    the market is open, its key is new and its symbol is not locked, it is not a blocked
    fallback, its scores reach the base thresholds, it carries neither a volatility
    ratio nor a net-value condition, and its size is computed. The order then takes that
    size, clamped to what is held, off the position. *)
Theorem exits_stay_open v data s d :
  parse_decision_fields data (env_strategy v) (env_trace v) = Ok (inl d) -> sell_side (pd_side d) = true ->
  (forall macro window outcomes,
     let '(r, s1) := process v data s in
     let '(r', s1') := process (in_climate macro window v) data (with_outcomes outcomes s) in
     r' = r /\ exists outcomes', s1' = with_outcomes outcomes' s1) /\
  forall nominal key, sound_exit v data s d nominal key -> clear_way v (pd_symbol d) key s ->
    fleb 1e-9%F (Paper.held (pd_symbol d) (en_broker s)) = true ->
    let h := Paper.held (pd_symbol d) (en_broker s) in
    Paper.held (pd_symbol d) (en_broker (snd (process v data s)))
    = (h + (if fltb h nominal then h else nominal) * of_Z (-1))%F.
Proof.
  intros Ed Hs. split; [|apply exit_run]. intros macro window outcomes.
  pose proof (alike_process v macro window data d Ed Hs s outcomes) as Ha.
  destruct (process v data s), (process (in_climate macro window v) data _). exact Ha.
Qed.


(** * Unique fills *)

Definition execution_key (m : string * payload) : option string :=
  if String.eqb (fst m) STREAM_EXECUTIONS
  then match dget "idempotency_key" (snd m) with Some (VStr k) => Some k | _ => None end
  else None.

Definition execution_keys (s : Engine) : list string := omap execution_key (en_published s).

Lemma fill_event_keys c m1 m2 m3 now :
  omap execution_key (fill_events c m1 m2 m3 now) = [fc_idempotency_key c].
Proof. unfold fill_events. destruct (fc_is_close c); reflexivity. Qed.

Lemma rejected_no_keys l :
  Forall (fun m => fst m = STREAM_SELL_REJECTED) l -> omap execution_key l = [].
Proof.
  induction l as [|[st p] l IH]; intros Hl; [reflexivity|]. apply Forall_cons in Hl as [E Hl].
  cbn [fst] in E. subst st. change (omap execution_key l = []). by apply IH.
Qed.

Definition fills_known (s : Engine) : Prop :=
  Paper.book_ok (en_broker s) /\ NoDup (execution_keys s) /\ incl (execution_keys s) (en_dedup s).

Lemma quiet_fills s s' : quiet s s' -> fills_known s -> fills_known s'.
Proof.
  intros [Hp _ _ (l & El & Fl) Hd _] (Hb & Hn & Hi).
  assert (execution_keys s' = execution_keys s) as E.
  { unfold execution_keys. rewrite El, omap_app, (rejected_no_keys l Fl). apply app_nil_r. }
  unfold fills_known. rewrite E. split_and!; [|exact Hn|by eapply incl_tran].
  intros sym p Hs. apply Hb. by rewrite <- Hp.
Qed.

Lemma fill_context_key v data d sc qty x key prior c :
  fill_context v data d sc qty x key prior = Ok c -> fc_idempotency_key c = key.
Proof.
  unfold fill_context. intros E. inv_ok E. subst c. reflexivity.
Qed.

Lemma submission_fills v data s d sc rs atr pct nominal q1 qty key :
  accepted v data s d sc rs atr pct nominal q1 qty key -> fills_known s ->
  fills_known (snd (submission v data s d sc qty key)).
Proof.
  intros A (Hb & Hn & Hi). pose proof (locked_quiet data d key s) as Q.
  destruct (quiet_fills _ _ Q (conj Hb (conj Hn Hi))) as (Hb0 & _ & _).
  pose proof (submission_broker v data s d sc qty key Hb) as (Hb' & _). revert Hb'.
  unfold submission. set (s0 := locked_state data d key s) in *.
  assert (en_published s0 = en_published s) as Ep0.
  { destruct (kelly_state data d (count_decision s)) as (_ & _ & _ & _ & E & _). exact E. }
  assert (en_dedup s0 = key :: en_dedup s) as Ed0.
  { destruct (kelly_state data d (count_decision s)) as (_ & _ & _ & _ & _ & E & _).
    unfold s0, locked_state, lock, remember. cbn [en_dedup with_keys]. by rewrite E. }
  destruct (fill_order_runs v data d sc qty key (prior_of d s) s0 Hb0) as (_ & Ed & _ & Hr).
  destruct (fill_order v data d sc qty key (prior_of d s) s0) as [r s1]. cbn [fst snd] in *. intros Hb'.
  split; [exact Hb'|].
  change (execution_keys (unlock (pd_symbol d) s1)) with (execution_keys s1).
  change (en_dedup (unlock (pd_symbol d) s1)) with (en_dedup s1). rewrite Ed, Ed0.
  destruct Hr as [(c & m1 & m2 & m3 & _ & Hc & Hp & _)|(e & _ & Hp & _)]; unfold execution_keys; rewrite Hp, Ep0.
  - rewrite omap_app, fill_event_keys, (fill_context_key _ _ _ _ _ _ _ _ _ Hc). fold (execution_keys s).
    pose proof (one_of_not_in _ _ (ac_fresh _ _ _ _ _ _ _ _ _ _ _ _ A)) as Hfr.
    split.
    + apply NoDup_app. split; [exact Hn|]. split; [|apply NoDup_singleton].
      intros k Hk Hk'. apply list_elem_of_singleton in Hk'. subst k.
      apply Hfr, Hi. by apply list_elem_of_In.
    + apply incl_app; [by apply incl_tl|]. intros k [<-|[]]. by left.
  - fold (execution_keys s). split; [exact Hn|by apply incl_tl].
Qed.

(** No remembered order expires. *)
Definition remembers (e : event) : Prop := match e with DedupExpires _ => False | _ => True end.

Lemma react_fills s e : fills_known s -> remembers e -> fills_known (react s e).
Proof.
  intros Hs He. destruct e as [v data| | | | |]; try exact Hs; [|destruct He]. unfold react.
  destruct (process_split v data s) as [(d & sc & rs & atr & pct & nominal & q1 & qty & key & A & ->)|[Q _]].
  - by eapply submission_fills.
  - by eapply quiet_fills.
Qed.

(** C3: No order is filled twice: along every trace in which no deduplication key expires,
    the executions published carry pairwise distinct idempotency keys, all of them
    remembered, whatever is redelivered and whichever handler raises. *)
Theorem fills_unique seed l :
  Forall remembers l ->
  NoDup (execution_keys (run (init seed) l)) /\
  incl (execution_keys (run (init seed) l)) (en_dedup (run (init seed) l)).
Proof.
  intros Hl. apply (run_inv fills_known remembers l (init seed)).
  - intros s e. apply react_fills.
  - split; [apply Paper.init_book|]. split; [constructor|intros k []].
  - exact Hl.
Qed.

(** * The mirrored ledger *)

(** The store's row of a symbol says what the broker holds; dust has no row. *)
Definition row_for (sym : string) (h : float) (row : option payload) : Prop :=
  if fleb (fabs h) POSITION_EPSILON then row = None
  else exists p, row = Some p /\ Store.field "symbol" p = VStr sym /\
    Store.field "side" p = VStr (Paper.side_for h) /\ Store.field "qty" p = VFloat (fabs h).

Definition mirrors (s : Engine) (sym : string) : Prop :=
  row_for sym (Paper.held sym (en_broker s)) (dget sym (st_positions (en_store s))).

Lemma dget_dpop_eq {A} k (l : dict A) : dget k (Store.dpop k l) = None.
Proof.
  induction l as [|[k' x] l IH]; [reflexivity|]. unfold Store.dpop in *. cbn [List.filter fst].
  destruct (String.eqb_spec k' k) as [->|Hne]; cbn [negb]; [exact IH|].
  cbn [dget]. destruct (String.eqb_spec k k'); [congruence|exact IH].
Qed.

Lemma dget_dpop_ne {A} k j (l : dict A) : j <> k -> dget j (Store.dpop k l) = dget j l.
Proof.
  intros Hj. induction l as [|[k' x] l IH]; [reflexivity|]. unfold Store.dpop in *. cbn [List.filter fst].
  destruct (String.eqb_spec k' k) as [->|Hne]; cbn [negb dget].
  - destruct (String.eqb_spec j k); [congruence|exact IH].
  - destruct (String.eqb_spec j k'); [reflexivity|exact IH].
Qed.

Lemma side_for_lower q : lower_str (VStr (Paper.side_for q)) = Paper.side_for q.
Proof. unfold Paper.side_for. destruct (fltb _ _); [reflexivity|]. by destruct (fltb _ _). Qed.

(** Mirroring a broker document. *)
Lemma mirror_spec sym q e x o sid t :
  exists t', Store.mirror_broker_position sym (Paper.position_payload sym (Paper.side_for q) q e x o)
               (Some sid) t = Ok t' /\
    row_for sym q (dget sym (st_positions t')) /\
    (forall k, k <> sym -> dget k (st_positions t') = dget k (st_positions t)).
Proof.
  unfold Store.mirror_broker_position. set (doc := Paper.position_payload _ _ _ _ _ _).
  assert (Store._safe_float (Store.field "qty" doc) = Ok (Some q)) as -> by reflexivity.
  assert (Store._safe_float (Store.field "entry_price" doc) = Ok (Some e)) as -> by reflexivity.
  assert (Store._safe_float (Store.field "current_price" doc) = Ok (Some x)) as -> by reflexivity.
  assert (first_truthy ["side"] doc (VStr "") = VStr (Paper.side_for q)) as ->.
  { unfold doc, Paper.position_payload, Paper.side_for. destruct (fltb (fabs q) _); [reflexivity|].
    by destruct (fltb _ q). }
  cbn [res_bind]. rewrite side_for_lower. unfold row_for, Store.or_zero.
  assert (fabs (if ftruthy q then q else 0.0%F) = fabs q) as Ea.
  { unfold ftruthy. rewrite zero_lit. destruct q as [|[]| |[|n|n]]; reflexivity. }
  rewrite Ea. destruct (fleb (fabs q) POSITION_EPSILON).
  - eexists. split; [reflexivity|]. cbn [st_positions set_positions]. split; [apply dget_dpop_eq|].
    intros k Hk. by apply dget_dpop_ne.
  - eexists. split; [reflexivity|]. cbn [st_positions set_positions]. split.
    + eexists. split; [apply dget_dset_eq|]. unfold Store.mirrored. rewrite Ea. by split_and!.
    + intros k Hk. by apply dget_dset_ne.
Qed.

Lemma record_rows_positions c oid now t : st_positions (record_rows c oid now t) = st_positions t.
Proof.
  unfold record_rows, Store.upsert_trade_fill.
  assert (forall b (u u' : InMemoryStore), st_positions u = st_positions t -> st_positions u' = st_positions u ->
    st_positions (if b : bool then u' else u) = st_positions t) as Hb by (intros [] u u' E1 E2; congruence).
  apply Hb; [|reflexivity]. destruct (if truthy _ then _ else _) as [[m l]|]; reflexivity.
Qed.

Lemma equity_positions at_ t t' : _append_equity_snapshot at_ t = Ok t' -> st_positions t' = st_positions t.
Proof. unfold _append_equity_snapshot. intros E. inv_ok E. subst t'. reflexivity. Qed.

(** A recorded fill leaves the row of its symbol in step, and the other rows alone. *)
Lemma fill_recorded_rows v c oid q e x o t t' :
  fill_recorded v c oid (Paper.position_payload (fc_symbol c) (Paper.side_for q) q e x o) t = Ok t' ->
  row_for (fc_symbol c) q (dget (fc_symbol c) (st_positions t')) /\
  (forall k, k <> fc_symbol c -> dget k (st_positions t') = dget k (st_positions t)).
Proof.
  unfold fill_recorded. destruct (mirror_spec (fc_symbol c) q e x o (fc_strategy_id c)
    (record_rows c oid (env_time v) t)) as (t1 & -> & Hr & Ho). cbn [res_bind].
  intros E. rewrite (equity_positions _ _ _ E). split; [exact Hr|].
  intros k Hk. by rewrite (Ho k Hk), record_rows_positions.
Qed.

Definition in_step (s : Engine) : Prop :=
  Paper.book_ok (en_broker s) /\ forall sym, mirrors s sym.

Lemma quiet_in_step s s' : quiet s s' -> in_step s -> in_step s'.
Proof.
  intros [Hp _ _ _ _ Hs] [Hb Hm]. split.
  - intros sym p Hd. apply Hb. by rewrite <- Hp.
  - intros sym. unfold mirrors. rewrite (held_same _ _ sym Hp), Hs. apply Hm.
Qed.

Lemma fill_context_symbol v data d sc qty x key prior c :
  fill_context v data d sc qty x key prior = Ok c -> fc_symbol c = pd_symbol d.
Proof. unfold fill_context. intros E. inv_ok E. subst c. reflexivity. Qed.

Lemma fill_order_answer v data s d sc qty key o :
  Paper.book_ok (en_broker s) -> fst (submission v data s d sc qty key) = Ok o -> exists c, o = Filled c.
Proof.
  intros Hb. pose proof (locked_quiet data d key s) as Q. unfold submission.
  set (s0 := locked_state data d key s) in *.
  assert (Paper.book_ok (en_broker s0)) as Hb0 by (intros k p Hp; apply Hb; by rewrite <- (q_positions _ _ Q)).
  destruct (fill_order_runs v data d sc qty key (prior_of d s) s0 Hb0) as (_ & _ & _ & Hr).
  destruct (fill_order v data d sc qty key (prior_of d s) s0) as [r s1]. cbn [fst snd] in *. intros ->.
  destruct Hr as [(c & m1 & m2 & m3 & Ec & _)|(e & Ee & _)]; [|discriminate Ee].
  exists c. by apply Ok_inj in Ec.
Qed.

Lemma submission_in_step v data s d sc qty key c :
  in_step s -> fst (submission v data s d sc qty key) = Ok (Filled c) ->
  in_step (snd (submission v data s d sc qty key)).
Proof.
  intros [Hb Hm]. pose proof (locked_quiet data d key s) as Q.
  destruct (quiet_in_step _ _ Q (conj Hb Hm)) as [Hb0 Hm0].
  pose proof (submission_broker v data s d sc qty key Hb) as (Hb' & _ & Ho). revert Hb' Ho.
  unfold submission. set (s0 := locked_state data d key s) in *.
  destruct (fill_order_runs v data d sc qty key (prior_of d s) s0 Hb0) as (Eb & _ & _ & Hr).
  destruct (fill_order v data d sc qty key (prior_of d s) s0) as [r s1]. cbn [fst snd] in *.
  change (en_broker (unlock (pd_symbol d) s1)) with (en_broker s1).
  intros Hb' Ho Er. subst r. destruct Hr as [(c' & m1 & m2 & m3 & Ec & Hc & _ & Hst & _)|(e & Ee & _)];
    [|discriminate Ee].
  split; [exact Hb'|]. intros sym. unfold mirrors.
  change (en_broker (unlock (pd_symbol d) s1)) with (en_broker s1).
  change (en_store (unlock (pd_symbol d) s1)) with (en_store s1).
  rewrite <- Eb in Hst. rewrite (fill_context_symbol _ _ _ _ _ _ _ _ _ Hc) in Hst.
  destruct (Paper.position_ok _ (pd_symbol d) Hb') as (q & e & x & o & Eq).
  assert (Paper.held (pd_symbol d) (en_broker s1) = q) as Eh by (unfold Paper.held; rewrite Eq; reflexivity).
  rewrite Eq, <- (fill_context_symbol _ _ _ _ _ _ _ _ _ Hc) in Hst.
  apply fill_recorded_rows in Hst as [Hrow Hrest].
  rewrite (fill_context_symbol _ _ _ _ _ _ _ _ _ Hc) in *.
  destruct (String.eqb_spec sym (pd_symbol d)) as [->|Hne]; [by rewrite Eh|].
  rewrite (Hrest sym Hne). specialize (Hm0 sym). unfold mirrors in Hm0.
  assert (Paper.held sym (en_broker s1) = Paper.held sym (en_broker s0)) as ->; [|exact Hm0].
  unfold Paper.held. rewrite (Ho sym Hne). unfold Paper.get_position.
  by rewrite (q_positions _ _ Q).
Qed.

(** Every decision along the trace is answered, none raises. *)
Fixpoint answered (s : Engine) (l : list event) : bool :=
  match l with
  | [] => true
  | e :: l' =>
      match e with Decide v data => is_ok (fst (process v data s)) | _ => true end
      && answered (react s e) l'
  end.

Lemma run_in_step l : forall s, in_step s -> answered s l = true -> in_step (run s l).
Proof.
  induction l as [|e l IH]; intros s Hs Ha; [exact Hs|]. cbn [answered] in Ha.
  apply andb_true_iff in Ha as [Ha Hl]. apply (IH (react s e)); [|exact Hl].
  destruct e as [v data| | | | |]; try exact Hs. unfold react.
  destruct (process_split v data s) as [(d & sc & rs & atr & pct & nominal & q1 & qty & key & A & E)|[Q _]];
    [|by eapply quiet_in_step].
  rewrite E in *. destruct (fst (submission v data s d sc qty key)) as [o|ex] eqn:Ef; [|discriminate Ha].
  destruct (fill_order_answer v data s d sc qty key o (proj1 Hs) Ef) as [c Ec].
  apply (submission_in_step _ _ _ _ _ _ _ c); [exact Hs|]. by rewrite Ef, Ec.
Qed.

(** C4: Refinement: along every trace in which no decision raises, the positions of the
    in-memory store are the positions of the broker, symbol by symbol: the same size and
    side, and no row for a flat symbol. *)
Theorem ledger_refines_broker seed l sym :
  answered (init seed) l = true -> mirrors (run (init seed) l) sym.
Proof.
  intros Ha. apply run_in_step; [|exact Ha]. split; [apply Paper.init_book|].
  intros k. unfold mirrors, row_for.
  assert (Paper.held k (en_broker (init seed)) = 0.0%F) as -> by reflexivity.
  assert (fleb (fabs 0.0%F) POSITION_EPSILON = true) as -> by fconst. reflexivity.
Qed.

End Safety.

(** * On a paper desk *)

#[local] Existing Instance constant_half.
#[local] Existing Instance default_constants.
Import Engine.

Lemma filled_inv (p : res Outcome * Engine) :
  filled (fst p) = true -> exists c s', p = (Ok (Filled c), s').
Proof. destruct p as [[[| | | |c]|] s']; try discriminate. intros _. by exists c, s'. Qed.

Lemma filled_only_through_gates_witness :
  exists c s' d sc rs key,
    process desk (ticket "buy" "t1" (VFloat 0.5%F)) (init 7) = (Ok (Filled c), s') /\
    parse_decision_fields (ticket "buy" "t1" (VFloat 0.5%F)) "s1" "t0" = Ok (inl d) /\
    extract_decision_scores (ticket "buy" "t1" (VFloat 0.5%F)) = Ok (sc, rs) /\
    fltb sc SIGNAL_CONFIDENCE_MIN_GATE = false /\ env_key desk d (ticket "buy" "t1" (VFloat 0.5%F)) = Ok key.
Proof.
  assert (filled (fst (process desk (ticket "buy" "t1" (VFloat 0.5%F)) (init 7))) = true) as F
    by (vm_compute; reflexivity).
  apply filled_inv in F as (c & s' & E).
  destruct (filled_only_through_gates _ _ _ _ _ E)
    as (d & sc & rs & key & _ & _ & _ & Hd & _ & Hs & _ & Hc & _ & _ & _ & _ & Hk & _).
  exists c, s', d, sc, rs, key. exact (conj E (conj Hd (conj Hs (conj Hc Hk)))).
Defined.

(** A state with an open long. *)
Definition long_desk : Engine := run (init 7) [Decide desk (ticket "buy" "t1" (VFloat 0.5%F))].

Definition sell_parsed : ParsedDecision :=
  {| pd_side := SELL; pd_symbol := "BTC/USD"; pd_qty := 0.8%F; pd_price := 100.0%F;
     pd_strategy_id := "s1"; pd_trace_id := "t2" |}.

Definition sell_ticket : payload := ticket "sell" "t2" (VFloat 0.8%F).

Lemma sell_sound : sound_exit desk sell_ticket long_desk sell_parsed 0.8%F "t2".
Proof.
  split.
  1-3: vm_compute; reflexivity.
  - exists 0.9%F, 0.9%F. split_and!; vm_compute; reflexivity.
  - vm_compute; reflexivity.
  - exists (Fin 0). split; vm_compute; reflexivity.
  - vm_compute; reflexivity.
  - vm_compute; reflexivity.
Qed.

Lemma long_desk_clear : clear_way desk "BTC/USD" "t2" long_desk.
Proof.
  split.
  1-3: vm_compute; reflexivity.
  - refine (proj1 (run_inv fills_known remembers _ (init 7) (fun s e => react_fills s e) _ _)).
    + split; [apply Paper.init_book|]. split; [constructor|intros k []].
    + repeat constructor.
  - reflexivity.
  - apply one_of_not_in. vm_compute; reflexivity.
  - apply one_of_not_in. vm_compute; reflexivity.
Qed.

(** Sold in a bearish regime, inside the no-trade window and after two losses. *)
Lemma exits_stay_open_witness :
  let bearish := in_climate (fun _ => VDict [("regime", VStr RISK_OFF)]) true desk in
  en_broker (snd (process bearish sell_ticket (with_outcomes [-5.0; -5.0]%F long_desk)))
  = en_broker (snd (process desk sell_ticket long_desk)) /\
  Paper.held "BTC/USD" (en_broker (snd (process desk sell_ticket long_desk))) = (0.5 + 0.5 * of_Z (-1))%F.
Proof.
  assert (Paper.held "BTC/USD" (en_broker long_desk) = 0.5%F) as Eh by (vm_compute; reflexivity).
  destruct (exits_stay_open desk sell_ticket long_desk sell_parsed (se_parsed _ _ _ _ _ _ sell_sound) (se_sell _ _ _ _ _ _ sell_sound))
    as [Hn Hx]. cbv zeta. split.
  - specialize (Hn (fun _ => VDict [("regime", VStr RISK_OFF)]) true [-5.0; -5.0]%F).
    destruct (process desk sell_ticket long_desk) as [r s1], (process _ sell_ticket (with_outcomes _ long_desk)) as [r' s1'].
    destruct Hn as (_ & l & ->). reflexivity.
  - specialize (Hx 0.8%F "t2" sell_sound). cbn [sell_parsed pd_symbol] in Hx. rewrite Eh in Hx.
    assert (fltb 0.5%F 0.8%F = true) as El by fconst. rewrite El in Hx. apply Hx; [exact long_desk_clear|fconst].
Defined.

Lemma fills_unique_witness :
  let s := run (init 7) [Decide desk (ticket "buy" "t1" (VFloat 0.4%F)); LockTaken "BTC/USD";
             Decide desk (ticket "buy" "t2" (VFloat 0.4%F)); LockExpires "BTC/USD";
             Decide desk (ticket "buy" "t1" (VFloat 0.4%F))] in
  NoDup (execution_keys s) /\ incl (execution_keys s) (en_dedup s).
Proof. apply (fills_unique 7). repeat constructor. Defined.

Lemma ledger_refines_broker_witness :
  mirrors (run (init 7) [Decide desk (ticket "buy" "t1" (VFloat 0.4%F));
                         Decide desk (ticket "sell" "t2" (VFloat 0.1%F))]) "BTC/USD".
Proof. apply (ledger_refines_broker 7). vm_compute. reflexivity. Defined.

(** An action the engine does not know is executed as an unclamped sell: an [exit]
    decision on an empty book passes every gate, is filled, and leaves a short position in a
    book meant to be long-only. *)
Theorem unknown_action_shorts :
  let p := process desk (ticket "exit" "t1" (VFloat 0.6%F)) (init 7) in
  filled (fst p) = true /\ fltb (Paper.held "BTC/USD" (en_broker (snd p))) (Fin 0) = true.
Proof. split; vm_compute; reflexivity. Qed.

(** A quantity that is not a number is not rejected: the decision is filled, and the
    position and the cash of the broker are NaN from then on. *)
Theorem nan_quantity_poisons :
  let p := process desk (ticket "buy" "t1" (VStr "nan")) (init 7) in
  filled (fst p) = true /\ Paper.held "BTC/USD" (en_broker (snd p)) = NaN /\
  Paper.cash_of (en_broker (snd p)) = NaN.
Proof. split_and!; vm_compute; reflexivity. Qed.

(** A malformed decision cost raises after the broker has filled the order: nothing is
    recorded or announced, the in-flight flag stays set, and once the flag expires the
    redelivered decision is dropped as a duplicate, so the fill is never recorded. *)
Theorem bad_cost_loses_fill :
  let data := dset "decision_cost_usd" (VStr "n/a") (ticket "buy" "t1" (VFloat 0.6%F)) in
  let p := process desk data (init 7) in
  let p' := process desk data (react (snd p) InFlightExpires) in
  fst p = Raise ValueError /\ Paper.held "BTC/USD" (en_broker (snd p)) = 0.6%F /\
  st_orders (en_store (snd p)) = [] /\ en_published (snd p) = [] /\ en_in_flight (snd p) = true /\
  fst p' = Ok Duplicate.
Proof. split_and!; vm_compute; reflexivity. Qed.

(** A decision that finds its symbol locked is lost: its order is remembered before the
    lock is tried, so the redelivery, with the lock free, is dropped as a duplicate though
    nothing was ever sent to the broker. *)
Theorem lock_contention_loses_order :
  let data := ticket "buy" "t1" (VFloat 0.6%F) in
  let p := process desk data (react (init 7) (LockTaken "BTC/USD")) in
  let p' := process desk data (react (snd p) (LockExpires "BTC/USD")) in
  fst p = Raise RuntimeError /\ fst p' = Ok Duplicate /\ pb_orders (en_broker (snd p')) = [] /\
  filled (fst (process desk data (init 7))) = true.
Proof. split_and!; vm_compute; reflexivity. Qed.
