(* ===== verification/Lifecycle.v ===== *)
(** Lifecycle: the strategy registry and its circuit breaker
    (api/services/strategy_registry.py, circuit_breaker.py).

    The clock is an argument; the digest of a configuration (sha256 of its JSON text) is
    the parameter [_hash_config]. *)
From S2P Require Import Prelude StateErr PyFloat FloatFacts PyVal PyMath Config Agents.

Inductive StrategyStatus := PROPOSED | BACKTESTED | SHADOW | CANARY | LIVE | RETIRED.

#[global] Instance status_eq_dec : EqDecision StrategyStatus.
Proof. solve_decision. Defined.

Definition status_eqb (a b : StrategyStatus) : bool := bool_decide (a = b).

Definition status_value (s : StrategyStatus) : string :=
  match s with
  | PROPOSED => "proposed" | BACKTESTED => "backtested" | SHADOW => "shadow"
  | CANARY => "canary" | LIVE => "live" | RETIRED => "retired"
  end.

Definition _VALID_TRANSITIONS (s : StrategyStatus) : list StrategyStatus :=
  match s with
  | PROPOSED => [BACKTESTED; RETIRED]
  | BACKTESTED => [SHADOW; RETIRED]
  | SHADOW => [CANARY; RETIRED]
  | CANARY => [LIVE; RETIRED]
  | LIVE => [RETIRED]
  | RETIRED => []
  end.

Record StrategyVersion := {
  version_id : string;
  sv_version : Z;
  parent_version : option Z;
  config_hash : string;
  sv_config : payload;
  lineage : list Z;
  created_at : float;
}.

Record StrategyRecord := {
  strategy : StrategyVersion;
  status : StrategyStatus;
  history : list (StrategyStatus * float);
}.

Record StrategyRegistry := {
  _records : dict StrategyRecord;
  _next_version : Z;
  _live_stack : list string;
}.

Module Versions.

Definition init : StrategyRegistry := {| _records := []; _next_version := 1; _live_stack := [] |}.

Definition with_records (d : dict StrategyRecord) (r : StrategyRegistry) : StrategyRegistry :=
  {| _records := d; _next_version := _next_version r; _live_stack := _live_stack r |}.

Definition with_stack (l : list string) (r : StrategyRegistry) : StrategyRegistry :=
  {| _records := _records r; _next_version := _next_version r; _live_stack := l |}.

Definition get (vid : string) (r : StrategyRegistry) : option StrategyRecord := dget vid (_records r).

Definition status_of (vid : string) (r : StrategyRegistry) : option StrategyStatus :=
  match get vid r with Some rec => Some (status rec) | None => None end.

Definition versions (r : StrategyRegistry) : list StrategyVersion := map strategy (dvalues (_records r)).

Definition _by_version (version : option Z) (r : StrategyRegistry) : option StrategyRecord :=
  match version with
  | None => None
  | Some v => List.find (fun rec => sv_version (strategy rec) =? v) (dvalues (_records r))
  end.

(** [max(l, key)]: the first of the records with the largest version. *)
Definition newer (a b : StrategyRecord) : StrategyRecord :=
  if sv_version (strategy a) <? sv_version (strategy b) then b else a.

Definition find_by_strategy (name : string) (r : StrategyRegistry) : option StrategyRecord :=
  match List.filter (fun rec => val_eqb (dget_or "strategy" VNone (sv_config (strategy rec))) (VStr name))
          (dvalues (_records r)) with
  | [] => None
  | x :: rest => Some (fold_left newer rest x)
  end.

Definition current_live (r : StrategyRegistry) : option StrategyVersion :=
  match List.find (fun rec => status_eqb (status rec) LIVE) (dvalues (_records r)) with
  | Some rec => Some (strategy rec)
  | None => None
  end.

(** [rec.status = status; rec.history.append(...)] on the record stored under [vid]. *)
Definition _set_status (vid : string) (st : StrategyStatus) (now : float) (r : StrategyRegistry)
  : StrategyRegistry :=
  match dget vid (_records r) with
  | Some rec =>
      with_records (dset vid {| strategy := strategy rec; status := st;
                                history := history rec ++ [(st, now)] |} (_records r)) r
  | None => r
  end.

(** [self._records[vid]] *)
Definition record_at (vid : string) : M StrategyRegistry StrategyRecord := fun r =>
  match dget vid (_records r) with Some rec => (Ok rec, r) | None => (Raise KeyError, r) end.

Definition top (r : StrategyRegistry) : option string := last (_live_stack r).
Definition pop (r : StrategyRegistry) : StrategyRegistry := with_stack (removelast (_live_stack r)) r.

Definition _supersede_current_live (now : float) : M StrategyRegistry unit :=
  let! t := gets top in
  match t with
  | None => ret tt
  | Some vid =>
      let! _ := record_at vid in
      modify (_set_status vid RETIRED now)
  end.

Definition transition (vid : string) (to_status : StrategyStatus) (now : float)
  : M StrategyRegistry StrategyVersion :=
  let! rec := gets (get vid) in
  match rec with
  | None => raise InvalidTransitionError
  | Some rec =>
      if negb (existsb (status_eqb to_status) (_VALID_TRANSITIONS (status rec)))
      then raise InvalidTransitionError
      else
        do! (if status_eqb to_status LIVE then
               do! _supersede_current_live now in
               modify (fun r => with_stack (_live_stack r ++ [vid]) r)
             else ret tt) in
        do! modify (_set_status vid to_status now) in
        ret (strategy rec)
  end.

Definition rollback (now : float) : M StrategyRegistry (option StrategyVersion) :=
  let! t := gets top in
  match t with
  | None => ret None
  | Some current_id =>
      do! modify pop in
      let! _ := record_at current_id in
      do! modify (_set_status current_id RETIRED now) in
      let! p := gets top in
      match p with
      | None => ret None
      | Some prev_id =>
          let! prev := record_at prev_id in
          do! modify (_set_status prev_id LIVE now) in
          ret (Some (strategy prev))
      end
  end.

Section Register.
Variable _hash_config : payload -> string.

Definition id_of (version : Z) (config : payload) : string :=
  "v" +:+ pretty version +:+ "-" +:+ _hash_config config.

Definition register (config : payload) (parent_version : option Z) (now : float) (r : StrategyRegistry)
  : StrategyVersion * StrategyRegistry :=
  let version := _next_version r in
  let parent := _by_version parent_version r in
  let sv := {| version_id := id_of version config; sv_version := version; parent_version := parent_version;
               config_hash := _hash_config config; sv_config := config;
               lineage := match parent with Some p => lineage (strategy p) | None => [] end ++ [version];
               created_at := now |} in
  (sv, {| _records := dset (version_id sv) {| strategy := sv; status := PROPOSED; history := [] |} (_records r);
          _next_version := version + 1; _live_stack := _live_stack r |}).

End Register.

End Versions.

(** * The circuit breaker *)

Definition CIRCUIT_BREAKER_MAX_DRAWDOWN_PCT : float := 0.15%F.
Definition CIRCUIT_BREAKER_MAX_CONSECUTIVE_FAILURES : Z := 5.
Definition CIRCUIT_BREAKER_MAX_DIVERGENCE : float := 0.5%F.
Definition CIRCUIT_BREAKER_MAX_LATENCY_MS : float := 5000.0%F.

Record BreakerInputs := {
  drawdown_pct : float;
  consecutive_failures : Z;
  divergence_score : float;
  latency_ms : float;
}.

(** The defaults of the dataclass, with a drawdown. *)
Definition drawdown_only (x : float) : BreakerInputs :=
  {| drawdown_pct := x; consecutive_failures := 0; divergence_score := 0.0%F; latency_ms := 0.0%F |}.

Record TripDecision := { tripped : bool; reasons : list string }.

Definition percent (d : Z) (x : float) : string := Fmt.fixed d (x * 100.0)%F +:+ "%".

Definition evaluate (i : BreakerInputs) : TripDecision :=
  let reasons :=
    (if fleb CIRCUIT_BREAKER_MAX_DRAWDOWN_PCT (drawdown_pct i)
     then ["drawdown " +:+ percent 0 (drawdown_pct i) +:+ " >= " +:+ percent 0 CIRCUIT_BREAKER_MAX_DRAWDOWN_PCT]
     else [])
    ++ (if CIRCUIT_BREAKER_MAX_CONSECUTIVE_FAILURES <=? consecutive_failures i
        then [pretty (consecutive_failures i) +:+ " consecutive failures >= "
              +:+ pretty CIRCUIT_BREAKER_MAX_CONSECUTIVE_FAILURES]
        else [])
    ++ (if fleb CIRCUIT_BREAKER_MAX_DIVERGENCE (divergence_score i)
        then ["divergence " +:+ Fmt.fixed 2 (divergence_score i) +:+ " >= "
              +:+ Fmt.repr_float CIRCUIT_BREAKER_MAX_DIVERGENCE]
        else [])
    ++ (if fleb CIRCUIT_BREAKER_MAX_LATENCY_MS (latency_ms i)
        then ["latency " +:+ Fmt.fixed 0 (latency_ms i) +:+ "ms >= "
              +:+ Fmt.fixed 0 CIRCUIT_BREAKER_MAX_LATENCY_MS +:+ "ms"]
        else []) in
  {| tripped := match reasons with [] => false | _ => true end; reasons := reasons |}.

(** The breaker's keys in Redis and its registry. *)
Record Breaker := {
  br_kill : bool;
  br_kill_updated : option string;
  br_registry : StrategyRegistry;
}.

Definition on_registry {A} (m : M StrategyRegistry A) : M Breaker A := fun b =>
  let '(r, g) := m (br_registry b) in
  (r, {| br_kill := br_kill b; br_kill_updated := br_kill_updated b; br_registry := g |}).

(** Which writes of the kill switch and of its time Redis takes; the other ones raise. *)
Record Writes := { wr_kill : bool; wr_stamp : bool }.

Definition all_taken (u : Writes) : bool := wr_kill u && wr_stamp u.

Definition set_kill (b : Breaker) : Breaker :=
  {| br_kill := true; br_kill_updated := br_kill_updated b; br_registry := br_registry b |}.

Definition stamp_kill (now : string) (b : Breaker) : Breaker :=
  {| br_kill := br_kill b; br_kill_updated := Some now; br_registry := br_registry b |}.

Definition trip (u : Writes) (now : float) : M Breaker unit :=
  do! (if wr_kill u then modify set_kill else raise RuntimeError) in
  do! (if wr_stamp u then modify (stamp_kill (Fmt.repr_float now)) else raise RuntimeError) in
  do! on_registry (Versions.rollback now) in
  ret tt.

Definition check (u : Writes) (i : BreakerInputs) (now : float) : M Breaker TripDecision :=
  let decision := evaluate i in
  do! (if tripped decision then trip u now else ret tt) in
  ret decision.

(** * Facts *)

Module VersionFacts.
Import Versions.

(** ** Identifiers *)

Definition no_dash (s : string) : Prop := forall a b, s <> a +:+ "-" +:+ b.

Lemma no_dash_cons c s : c <> Ascii.Ascii true false true true false true false false -> no_dash s -> no_dash (String c s).
Proof.
  intros Hc Hs [|x a] b E; cbn in E.
  - injection E as E1 E2. congruence.
  - injection E as E1 E2. exact (Hs a b E2).
Qed.

Lemma pretty_N_go_no_dash x s : no_dash s -> no_dash (pretty_N_go x s).
Proof.
  revert s. induction (N.lt_wf_0 x) as [x _ IH]; intros s Hs.
  destruct (decide (x = 0%N)) as [->|Hx]; [by rewrite pretty_N_go_0|].
  rewrite pretty_N_go_step by lia. apply IH; [by apply N.div_lt; lia|].
  apply no_dash_cons; [|exact Hs]. unfold pretty_N_char. by repeat case_match.
Qed.

Lemma pretty_no_dash n : 0 < n -> no_dash (pretty n).
Proof.
  intros Hn. destruct n as [|p|p]; [lia| |lia]. unfold pretty, pretty_Z, pretty, pretty_positive, pretty, pretty_N.
  destruct (decide _); [intros [|? [|]] ? E; discriminate E|]. apply pretty_N_go_no_dash.
  intros [|] ? E; discriminate E.
Qed.

Lemma no_dash_split a b s t : no_dash a -> no_dash b -> a +:+ "-" +:+ s = b +:+ "-" +:+ t -> a = b /\ s = t.
Proof.
  revert b. induction a as [|x a IH]; intros b Ha Hb E.
  - destruct b as [|y b]; cbn in E; [by injection E|]. exfalso. injection E as <- E.
    exact (Hb "" b eq_refl).
  - destruct b as [|y b]; cbn in E.
    + exfalso. injection E as -> E. exact (Ha "" a eq_refl).
    + injection E as -> E. destruct (IH b) as [-> ->].
      * intros u v Eu. apply (Ha (String y u) v). cbn. by rewrite Eu.
      * intros u v Eu. apply (Hb (String y u) v). cbn. by rewrite Eu.
      * exact E.
      * done.
Qed.

Lemma id_of_inj h m n c d : 0 < m -> 0 < n -> id_of h m c = id_of h n d -> m = n.
Proof.
  intros Hm Hn E. unfold id_of in E. cbn in E. injection E as E.
  destruct (no_dash_split _ _ _ _ (pretty_no_dash m Hm) (pretty_no_dash n Hn) E) as [Ep _].
  by apply (inj pretty) in Ep.
Qed.

(** ** The registry's invariant *)

Section Invariant.
Variable h : payload -> string.

(** A path that passed every stage. *)
Definition staged (p : list StrategyStatus) : Prop :=
  exists q, p = [BACKTESTED; SHADOW; CANARY; LIVE] ++ q.

(** What the status of a record says of its history. *)
Definition path_ok (rec : StrategyRecord) : Prop :=
  let p := map fst (history rec) in
  match status rec with
  | PROPOSED => p = []
  | BACKTESTED => p = [BACKTESTED]
  | SHADOW => p = [BACKTESTED; SHADOW]
  | CANARY => p = [BACKTESTED; SHADOW; CANARY]
  | LIVE => staged p
  | RETIRED => True
  end.

Record registry_ok (r : StrategyRegistry) : Prop := {
  ok_next : 0 < _next_version r;
  ok_ids : forall vid rec, dget vid (_records r) = Some rec ->
    vid = version_id (strategy rec) /\ vid = id_of h (sv_version (strategy rec)) (sv_config (strategy rec)) /\
    0 < sv_version (strategy rec) < _next_version r;
  ok_path : forall vid rec, dget vid (_records r) = Some rec -> path_ok rec;
  ok_stack : forall vid, In vid (_live_stack r) -> exists rec, dget vid (_records r) = Some rec /\
    staged (map fst (history rec)) /\ (status rec = LIVE \/ status rec = RETIRED);
  ok_nodup : NoDup (_live_stack r);
  ok_live : forall vid rec, dget vid (_records r) = Some rec -> status rec = LIVE -> top r = Some vid;
  ok_keys : NoDup (dkeys (_records r));
}.

Lemma no_versions_ok : registry_ok init.
Proof. split; try (intros vid; discriminate); [reflexivity|intros vid []|constructor|constructor]. Qed.

(** A record with a new status. *)
Definition moved (st : StrategyStatus) (now : float) (rec : StrategyRecord) : StrategyRecord :=
  {| strategy := strategy rec; status := st; history := history rec ++ [(st, now)] |}.

Lemma set_status_get vid st now r rec k :
  dget vid (_records r) = Some rec ->
  dget k (_records (_set_status vid st now r))
  = if String.eqb k vid then Some (moved st now rec) else dget k (_records r).
Proof.
  intros E. unfold _set_status. rewrite E. cbn [_records with_records].
  destruct (String.eqb_spec k vid) as [->|Hne]; [apply dget_dset_eq|]. by apply dget_dset_ne.
Qed.

Lemma set_status_rest vid st now r :
  _next_version (_set_status vid st now r) = _next_version r /\
  _live_stack (_set_status vid st now r) = _live_stack r.
Proof. unfold _set_status. by destruct (dget vid (_records r)). Qed.

Lemma set_status_keys vid st now r :
  NoDup (dkeys (_records r)) -> NoDup (dkeys (_records (_set_status vid st now r))).
Proof. unfold _set_status. destruct (dget vid (_records r)); [apply dset_NoDup|exact id]. Qed.

Lemma moved_path st now rec : map fst (history (moved st now rec)) = map fst (history rec) ++ [st].
Proof. cbn. by rewrite map_app. Qed.

Lemma staged_app p q : staged p -> staged (p ++ q).
Proof. intros [x ->]. exists (x ++ q). by rewrite <- app_assoc. Qed.

(** Moving a record, the rest of the registry unchanged. *)
Lemma move_ok vid st now r rec :
  registry_ok r -> dget vid (_records r) = Some rec -> path_ok (moved st now rec) ->
  (In vid (_live_stack r) -> st = LIVE \/ st = RETIRED) ->
  (st = LIVE -> top r = Some vid) ->
  registry_ok (_set_status vid st now r).
Proof.
  intros [On Oi Op Os Od Ol Okey] E Hp Hs Hl. destruct (set_status_rest vid st now r) as [En Est].
  split; rewrite ?En, ?Est; try assumption.
  - intros k rk. rewrite (set_status_get vid st now r rec k E).
    destruct (String.eqb_spec k vid) as [->|]; [|apply Oi].
    intros Hk. apply Some_inj in Hk. subst rk. exact (Oi vid rec E).
  - intros k rk. rewrite (set_status_get vid st now r rec k E).
    destruct (String.eqb_spec k vid) as [->|]; [|apply Op].
    intros Hk. apply Some_inj in Hk. by subst rk.
  - intros k Hk. destruct (Os k Hk) as (rk & Ek & Sk & Tk).
    rewrite (set_status_get vid st now r rec k E). destruct (String.eqb_spec k vid) as [->|]; [|by exists rk].
    rewrite E in Ek. apply Some_inj in Ek. subst rk. eexists. split; [reflexivity|].
    rewrite moved_path. split; [by apply staged_app|exact (Hs Hk)].
  - intros k rk. unfold top. rewrite Est, (set_status_get vid st now r rec k E).
    destruct (String.eqb_spec k vid) as [->|]; [|apply Ol].
    intros Hk. apply Some_inj in Hk. subst rk. exact Hl.
  - by apply set_status_keys.
Qed.

Lemma top_in r vid : top r = Some vid -> In vid (_live_stack r).
Proof. unfold top. intros E. apply list_elem_of_In. apply last_Some in E as [l ->]. set_solver. Qed.

Lemma supersede_ok now r : registry_ok r ->
  exists r1, _supersede_current_live now r = (Ok tt, r1) /\ registry_ok r1 /\
    _live_stack r1 = _live_stack r /\
    (forall k rec, dget k (_records r1) = Some rec -> status rec <> LIVE) /\
    (forall k rec, dget k (_records r) = Some rec -> status rec = CANARY -> dget k (_records r1) = Some rec).
Proof.
  intros Hr. unfold _supersede_current_live, bind, gets, ret, modify, record_at.
  destruct (top r) as [t|] eqn:Et.
  - destruct (ok_stack r Hr t (top_in r t Et)) as (rec & E & Sg & St). rewrite E.
    eexists. split; [reflexivity|]. split; [|split; [|split]].
    + apply (move_ok t RETIRED now r rec Hr E); [exact I|by right|discriminate].
    + apply set_status_rest.
    + intros k rk. rewrite (set_status_get t RETIRED now r rec k E).
      destruct (String.eqb_spec k t) as [->|Hne]; intros Hk.
      * apply Some_inj in Hk. subst rk. discriminate.
      * intros Hlive. pose proof (ok_live r Hr k rk Hk Hlive) as Ht. rewrite Et in Ht. congruence.
    + intros k rk Hk Hc. rewrite (set_status_get t RETIRED now r rec k E).
      destruct (String.eqb_spec k t) as [->|Hne]; [|exact Hk]. rewrite E in Hk. apply Some_inj in Hk. subst rk.
      destruct St; congruence.
  - eexists. split; [reflexivity|]. split; [exact Hr|]. split; [reflexivity|]. split; [|done].
    intros k rk Hk Hlive. pose proof (ok_live r Hr k rk Hk Hlive). congruence.
Qed.

Lemma promote_ok vid now r rec :
  registry_ok r -> (forall k rk, dget k (_records r) = Some rk -> status rk <> LIVE) ->
  dget vid (_records r) = Some rec -> status rec = CANARY ->
  registry_ok (_set_status vid LIVE now (with_stack (_live_stack r ++ [vid]) r)).
Proof.
  intros Hr Hno E Hc. set (r2 := with_stack (_live_stack r ++ [vid]) r).
  assert (dget vid (_records r2) = Some rec) as E2 by exact E.
  destruct (set_status_rest vid LIVE now r2) as [En Est]. destruct Hr as [On Oi Op Os Od Ol Okey].
  pose proof (Op vid rec E) as Hp. unfold path_ok in Hp. rewrite Hc in Hp.
  split; rewrite ?En, ?Est; try exact On.
  - intros k rk. rewrite (set_status_get vid LIVE now r2 rec k E2).
    destruct (String.eqb_spec k vid) as [->|]; [|apply Oi].
    intros Hk. apply Some_inj in Hk. subst rk. exact (Oi vid rec E).
  - intros k rk. rewrite (set_status_get vid LIVE now r2 rec k E2).
    destruct (String.eqb_spec k vid) as [->|]; [|apply Op].
    intros Hk. apply Some_inj in Hk. subst rk. unfold path_ok. rewrite moved_path, Hp. cbn [status moved].
    by exists [].
  - intros k Hk. rewrite (set_status_get vid LIVE now r2 rec k E2).
    destruct (String.eqb_spec k vid) as [->|Hne].
    + eexists. split; [reflexivity|]. rewrite moved_path, Hp. split; [by exists []|by left].
    + apply Os. cbn [_live_stack with_stack r2] in Hk. apply in_app_or in Hk as [Hk|[Hk|[]]]; [exact Hk|congruence].
  - cbn [_live_stack with_stack r2]. apply NoDup_app. split; [exact Od|]. split; [|apply NoDup_singleton].
    intros k Hk Hin. apply list_elem_of_singleton in Hin. subst k. apply list_elem_of_In in Hk.
    destruct (Os vid Hk) as (rk & Ek & _ & St). rewrite E in Ek. apply Some_inj in Ek. subst rk.
    destruct St; congruence.
  - intros k rk. unfold top. rewrite Est, (set_status_get vid LIVE now r2 rec k E2).
    cbn [_live_stack with_stack r2]. rewrite last_snoc.
    destruct (String.eqb_spec k vid) as [->|Hne]; [reflexivity|].
    intros Hk Hlive. exfalso. exact (Hno k rk Hk Hlive).
  - by apply (set_status_keys vid LIVE now r2).
Qed.

Lemma existsb_status st l : existsb (status_eqb st) l = true <-> In st l.
Proof.
  rewrite existsb_exists. split.
  - intros (x & Hin & E). unfold status_eqb in E. apply bool_decide_eq_true in E. by subst.
  - intros Hin. exists st. split; [exact Hin|]. unfold status_eqb. by apply bool_decide_eq_true.
Qed.

(** A legal transition keeps the invariant; an illegal one changes nothing. *)
Lemma transition_run vid st now r :
  registry_ok r ->
  match get vid r with
  | Some rec =>
      if existsb (status_eqb st) (_VALID_TRANSITIONS (status rec))
      then exists r', transition vid st now r = (Ok (strategy rec), r') /\ registry_ok r'
      else transition vid st now r = (Raise InvalidTransitionError, r)
  | None => transition vid st now r = (Raise InvalidTransitionError, r)
  end.
Proof.
  intros Hr. unfold transition, bind, gets. unfold get. destruct (dget vid (_records r)) as [rec|] eqn:E; [|reflexivity].
  destruct (existsb (status_eqb st) (_VALID_TRANSITIONS (status rec))) eqn:Ev; [|reflexivity].
  cbn [negb]. apply existsb_status in Ev. pose proof (ok_path r Hr vid rec E) as Hp. unfold path_ok in Hp.
  destruct (status_eqb st LIVE) eqn:El.
  - unfold status_eqb in El. apply bool_decide_eq_true in El. subst st.
    assert (status rec = CANARY) as Hc
      by (destruct (status rec); cbn in Ev; intuition congruence).
    destruct (supersede_ok now r Hr) as (r1 & -> & H1 & Est & Hno & Hkeep).
    unfold modify, ret. eexists. split; [reflexivity|].
    apply (promote_ok vid now r1 rec H1 Hno); [by apply Hkeep|exact Hc].
  - unfold ret, modify. eexists. split; [reflexivity|].
    assert (st <> LIVE) as Hnl by (intros ->; discriminate El).
    apply (move_ok vid st now r rec Hr E); [| |by intros ->].
    + unfold path_ok. rewrite moved_path. cbn [status moved].
      destruct (status rec); cbn in Ev; destruct st; try exact I; try congruence;
        try (rewrite Hp; reflexivity); exfalso; intuition congruence.
    + intros Hin. destruct (ok_stack r Hr vid Hin) as (rk & Ek & _ & St). rewrite E in Ek.
      apply Some_inj in Ek. subst rk. right.
      destruct St as [St|St]; rewrite St in Ev; cbn in Ev; intuition congruence.
Qed.

Lemma pop_ok r x l : registry_ok r -> _live_stack r = l ++ [x] ->
  (forall k rec, dget k (_records r) = Some rec -> status rec <> LIVE) -> registry_ok (pop r).
Proof.
  intros [On Oi Op Os Od Ol Okey] Es Hno. unfold pop. rewrite Es, removelast_last.
  split; cbn [_next_version _records _live_stack with_stack]; try assumption.
  - intros k Hk. apply Os. rewrite Es. apply in_or_app. by left.
  - rewrite Es in Od. by apply NoDup_app in Od as (Od & _).
  - intros k rec Hk Hlive. exfalso. exact (Hno k rec Hk Hlive).
Qed.

(** A rollback always returns: the current live version is retired, the one below it on
    the stack is live again. *)
Lemma rollback_run now r : registry_ok r ->
  exists o r', rollback now r = (Ok o, r') /\ registry_ok r' /\
    _live_stack r' = removelast (_live_stack r) /\
    match last (removelast (_live_stack r)) with
    | None => o = None /\ (forall k rec, dget k (_records r') = Some rec -> status rec <> LIVE)
    | Some prev => exists rec, dget prev (_records r') = Some rec /\ status rec = LIVE /\ o = Some (strategy rec)
    end.
Proof.
  intros Hr. unfold rollback, bind, gets, modify, record_at, ret. unfold top.
  destruct (last (_live_stack r)) as [cur|] eqn:Et.
  2:{ apply last_None in Et. rewrite Et. do 2 eexists. split; [reflexivity|].
      split; [exact Hr|]. rewrite Et. split; [reflexivity|]. split; [reflexivity|].
      intros k rec Hk Hlive. pose proof (ok_live r Hr k rec Hk Hlive) as Ht. unfold top in Ht.
      rewrite Et in Ht. discriminate Ht. }
  apply last_Some in Et as [l Es].
  assert (top r = Some cur) as Et by (unfold top; by rewrite Es, last_snoc).
  destruct (ok_stack r Hr cur (top_in r cur Et)) as (rec & E & Sg & St).
  cbn [_records pop with_stack]. rewrite E.
  assert (registry_ok (_set_status cur RETIRED now r)) as H1
    by (apply (move_ok cur RETIRED now r rec Hr E); [exact I|by right|discriminate]).
  assert (forall k rk, dget k (_records (_set_status cur RETIRED now r)) = Some rk -> status rk <> LIVE) as Hno.
  { intros k rk. rewrite (set_status_get cur RETIRED now r rec k E).
    destruct (String.eqb_spec k cur) as [->|Hne]; intros Hk.
    - apply Some_inj in Hk. subst rk. discriminate.
    - intros Hlive. pose proof (ok_live r Hr k rk Hk Hlive). congruence. }
  assert (_set_status cur RETIRED now (pop r) = pop (_set_status cur RETIRED now r)) as Ec
    by (unfold _set_status, pop, with_stack, with_records; cbn; by rewrite E).
  assert (_live_stack (_set_status cur RETIRED now r) = l ++ [cur]) as Es1
    by (rewrite <- Es; apply set_status_rest).
  rewrite Ec. pose proof (pop_ok _ cur l H1 Es1 Hno) as H2. set (r2 := pop (_set_status cur RETIRED now r)) in *.
  assert (_live_stack r2 = l) as Es2 by (unfold r2, pop; rewrite Es1; apply removelast_last).
  rewrite Es2, Es, removelast_last. destruct (last l) as [prev|] eqn:El.
  - assert (top r2 = Some prev) as Et2 by (unfold top; by rewrite Es2).
    destruct (ok_stack r2 H2 prev (top_in r2 prev Et2)) as (pr & Ep & Sp & _). rewrite Ep.
    do 2 eexists. split; [reflexivity|]. split; [|split].
    + apply (move_ok prev LIVE now r2 pr H2 Ep); [|by left|by intros _].
      unfold path_ok. rewrite moved_path. cbn [status moved]. by apply staged_app.
    + rewrite <- Es2. apply set_status_rest.
    + exists (moved LIVE now pr). split; [|by split].
      rewrite (set_status_get prev LIVE now r2 pr prev Ep), String.eqb_refl. reflexivity.
  - do 2 eexists. split; [reflexivity|]. split; [exact H2|]. split; [exact Es2|]. split; [reflexivity|].
    exact Hno.
Qed.

Lemma new_version_ok config parent now r :
  registry_ok r -> registry_ok (snd (register h config parent now r)).
Proof.
  intros [On Oi Op Os Od Ol Okey]. unfold register. cbn [snd version_id]. set (vid := id_of h _ config).
  set (rec := {| strategy := _; status := PROPOSED; history := [] |}).
  assert (dget vid (_records r) = None) as Hf.
  { destruct (dget vid (_records r)) as [rk|] eqn:E; [|reflexivity]. exfalso.
    destruct (Oi vid rk E) as (_ & Ei & Hv). unfold vid in Ei. apply id_of_inj in Ei; lia. }
  assert (forall k, dget k (dset vid rec (_records r)) = if String.eqb k vid then Some rec else dget k (_records r)) as Hg.
  { intros k. destruct (String.eqb_spec k vid) as [->|]; [apply dget_dset_eq|by apply dget_dset_ne]. }
  split; cbn [_next_version _records _live_stack]; try assumption; [lia|..].
  - intros k rk. rewrite Hg. destruct (String.eqb_spec k vid) as [->|]; intros Hk.
    + apply Some_inj in Hk. subst rk. split_and!; [reflexivity|reflexivity|cbn; lia|cbn; lia].
    + destruct (Oi k rk Hk) as (? & ? & ?). split_and!; [assumption|assumption|lia|lia].
  - intros k rk. rewrite Hg. destruct (String.eqb_spec k vid) as [->|]; [|apply Op].
    intros Hk. apply Some_inj in Hk. subst rk. reflexivity.
  - intros k Hk. destruct (Os k Hk) as (rk & Ek & Sk). rewrite Hg.
    destruct (String.eqb_spec k vid) as [->|]; [congruence|by exists rk].
  - intros k rk. rewrite Hg. destruct (String.eqb_spec k vid) as [->|]; [|apply Ol].
    intros Hk Hlive. apply Some_inj in Hk. subst rk. discriminate Hlive.
  - by apply dset_NoDup.
Qed.

(** ** Traces *)

Inductive registry_op :=
| Register (config : payload) (parent : option Z) (now : float)
| Transition (vid : string) (to_status : StrategyStatus) (now : float)
| Rollback (now : float).

Definition apply_op (r : StrategyRegistry) (o : registry_op) : StrategyRegistry :=
  match o with
  | Register config parent now => snd (register h config parent now r)
  | Transition vid st now => snd (transition vid st now r)
  | Rollback now => snd (rollback now r)
  end.

Definition reached (l : list registry_op) : StrategyRegistry := fold_left apply_op l init.

Lemma apply_op_ok r o : registry_ok r -> registry_ok (apply_op r o).
Proof.
  intros Hr. destruct o as [config parent now|vid st now|now]; cbn [apply_op].
  - by apply new_version_ok.
  - pose proof (transition_run vid st now r Hr) as Ht. destruct (get vid r) as [rec|].
    + destruct (existsb _ _); [destruct Ht as (r' & -> & H')|rewrite Ht]; assumption.
    + by rewrite Ht.
  - destruct (rollback_run now r Hr) as (o & r' & -> & H' & _). exact H'.
Qed.

Lemma reached_ok l : registry_ok (reached l).
Proof. unfold reached. apply fold_left_inv; [intros; by apply apply_op_ok|apply no_versions_ok]. Qed.

End Invariant.

(** A record of the registry is found under its key. *)
Lemma In_dget {A} k (x : A) d : NoDup (dkeys d) -> In (k, x) d -> dget k d = Some x.
Proof.
  induction d as [|[k' x'] d IH]; intros Hn Hin; [destruct Hin|].
  apply NoDup_cons in Hn as [Hk Hn]. cbn [dget]. destruct Hin as [E|Hin].
  - injection E as -> ->. by rewrite String.eqb_refl.
  - destruct (String.eqb_spec k k') as [->|]; [|by apply IH].
    exfalso. apply Hk. apply list_elem_of_In. exact (in_map fst _ _ Hin).
Qed.

Lemma In_dvalues {A} (x : A) d : In x (dvalues d) -> exists k, In (k, x) d.
Proof. unfold dvalues. intros Hin. apply in_map_iff in Hin as ([k y] & <- & Hin). by exists k. Qed.

(** C32: In every registry that registrations, transitions and rollbacks can reach, whatever
    their order, at most one version is live: it is the one [current_live] returns, it is
    the newest promotion not rolled back, and its history starts with backtested, shadow,
    canary and live: nothing skips a stage. *)
Theorem one_live_version h l vid rec :
  get vid (reached h l) = Some rec -> status rec = LIVE ->
  (forall vid' rec', get vid' (reached h l) = Some rec' -> status rec' = LIVE -> vid' = vid) /\
  current_live (reached h l) = Some (strategy rec) /\ last (_live_stack (reached h l)) = Some vid /\
  exists q, map fst (history rec) = [BACKTESTED; SHADOW; CANARY; LIVE] ++ q.
Proof.
  intros E Hlive. pose proof (reached_ok h l) as Hr. set (r := reached h l) in *.
  pose proof (ok_live h r Hr vid rec E Hlive) as Ht.
  split; [|split; [|split]].
  - intros vid' rec' E' H'. pose proof (ok_live h r Hr vid' rec' E' H') as Ht'. congruence.
  - unfold current_live. destruct (List.find _ _) as [rk|] eqn:Ef.
    + apply List.find_some in Ef as [Hin Hs]. unfold status_eqb in Hs. apply bool_decide_eq_true in Hs.
      apply In_dvalues in Hin as [k Hin]. apply In_dget in Hin; [|exact (ok_keys h r Hr)].
      pose proof (ok_live h r Hr k rk Hin Hs) as Ht'. assert (k = vid) as -> by congruence.
      unfold get in E. rewrite E in Hin. apply Some_inj in Hin. by subst rk.
    + exfalso. apply dget_Some_In, list_elem_of_In in E. apply (in_map snd) in E.
      pose proof (List.find_none _ _ Ef _ E) as Hn. cbn [snd] in Hn. rewrite Hlive in Hn. discriminate Hn.
  - exact Ht.
  - pose proof (ok_path h r Hr vid rec E) as Hp. unfold path_ok in Hp. rewrite Hlive in Hp. exact Hp.
Qed.

(** The breaker after a check for each of [us]. *)
Definition checks (us : list Writes) (i : BreakerInputs) (now : float) (b : Breaker) : Breaker :=
  fold_left (fun b u => snd (check u i now b)) us b.

(** A check that trips: it rolls back once when Redis takes both writes, and otherwise
    leaves the registry as it is. *)
Lemma check_tripped h u i now b :
  registry_ok h (br_registry b) -> tripped (evaluate i) = true ->
  let b' := snd (check u i now b) in
  br_kill b' = wr_kill u || br_kill b /\ registry_ok h (br_registry b') /\
  _live_stack (br_registry b') =
    if all_taken u then removelast (_live_stack (br_registry b)) else _live_stack (br_registry b).
Proof.
  intros Hr Ht. cbv zeta. unfold check, bind. rewrite Ht. unfold trip, bind, modify, on_registry, all_taken.
  destruct (wr_kill u); cbn [raise andb orb]; [|exact (conj eq_refl (conj Hr eq_refl))].
  destruct (wr_stamp u); cbn [raise]; [|exact (conj eq_refl (conj Hr eq_refl))]. cbn [br_registry set_kill stamp_kill].
  destruct (rollback_run h now (br_registry b) Hr) as (o & r' & -> & H' & Es & _). by split_and!.
Qed.

Lemma iter_removelast {A} n (l : list A) : (length l <= n)%nat -> Nat.iter n (@removelast A) l = [].
Proof.
  revert l. induction n as [|n IH]; intros l Hl; [destruct l; [reflexivity|cbn in Hl; lia]|].
  rewrite Nat.iter_succ_r. apply IH. destruct (rev l) as [|x k] eqn:E.
  - apply (f_equal (@rev A)) in E. rewrite rev_involutive in E. subst l. cbn. lia.
  - apply (f_equal (@rev A)) in E. rewrite rev_involutive in E. cbn in E. subst l.
    rewrite removelast_last. rewrite length_app in Hl. cbn in Hl. lia.
Qed.

Lemma checks_unwind h us i now : tripped (evaluate i) = true -> forall b, registry_ok h (br_registry b) ->
  let b' := checks us i now b in
  br_kill b' = existsb wr_kill us || br_kill b /\ registry_ok h (br_registry b') /\
  _live_stack (br_registry b') = Nat.iter (length (List.filter all_taken us)) (@removelast _) (_live_stack (br_registry b)).
Proof.
  intros Ht. induction us as [|u us IH]; intros b Hr; cbv zeta; [by split_and!|]. cbn [checks fold_left existsb List.filter].
  destruct (check_tripped h u i now b Hr Ht) as (Hk & Hr' & Es). destruct (IH _ Hr') as (Hk2 & Hr2 & Es2). unfold checks in *.
  split_and!; [rewrite Hk2, Hk; by destruct (wr_kill u), (existsb wr_kill us)|exact Hr2|]. rewrite Es2, Es.
  destruct (all_taken u); [|reflexivity]. cbn [length]. by rewrite Nat.iter_succ_r.
Qed.


(** ** Two releases *)

Definition digest (p : payload) : string := "0".

(** Register version [n] and promote it through every stage. *)
Definition release (n : Z) : list registry_op :=
  let vid := id_of digest n [] in
  [Register [] None 0.0%F; Transition vid BACKTESTED 1.0%F; Transition vid SHADOW 2.0%F;
   Transition vid CANARY 3.0%F; Transition vid LIVE 4.0%F].

Lemma one_live_version_witness :
  exists rec, get "v2-0" (reached digest (release 1 ++ release 2)) = Some rec /\
    current_live (reached digest (release 1 ++ release 2)) = Some (strategy rec).
Proof.
  assert (ok_with (fun rec => status_eqb (status rec) LIVE)
    (match get "v2-0" (reached digest (release 1 ++ release 2)) with Some r => Ok r | None => Raise KeyError end)
    = true) as F by (vm_compute; reflexivity).
  destruct (get "v2-0" (reached digest (release 1 ++ release 2))) as [rec|] eqn:E; [|discriminate F].
  exists rec. split; [reflexivity|]. unfold ok_with, status_eqb in F. apply bool_decide_eq_true in F.
  exact (proj1 (proj2 (one_live_version digest (release 1 ++ release 2) "v2-0" rec E F))).
Defined.

(** The second of three checks finds Redis down. *)
Definition outage_between : list Writes :=
  [{| wr_kill := true; wr_stamp := true |}; {| wr_kill := false; wr_stamp := true |}; {| wr_kill := true; wr_stamp := true |}].


(** Retirement is not terminal: a version pulled from production by a transition to
    retired is put back live by a later rollback, because promotions leave it on the
    stack. *)
Theorem rollback_revives_pulled_version :
  let r := reached digest (release 1 ++ [Transition "v1-0" RETIRED 5.0%F] ++ release 2) in
  status_of "v1-0" r = Some RETIRED /\ status_of "v2-0" r = Some LIVE /\
  status_of "v1-0" (snd (rollback 6.0%F r)) = Some LIVE.
Proof. split_and!; vm_compute; reflexivity. Qed.

End VersionFacts.
