(* ===== verification/Guardian.v ===== *)
(** Guardian: the risk guardian on the paper broker's positions
    (api/services/agents/risk_guardian.py, memory mode).

    One scan reads every position document, the cached prices and macro regime, and the
    mirror of closed trades; it publishes close decisions and alerts, keeps the peak of
    every position's profit and may set the kill switch and roll the strategy registry
    back.  The clock is the environment: [wt_age] is the age in seconds of an ISO
    timestamp and [wt_today] whether it falls on the current UTC day; both may raise, as
    the conversion of a date at the end of the calendar does.  So are the answers of Redis
    and of the bus: a command may fail, a publication may be swallowed or raise, and the
    record of a peak may have outlived its time to live. *)
From S2P Require Import Prelude StateErr PyFloat FloatFacts PyVal PyMath PyRandom Config Agents.
From S2P Require Import Gate Params Policy Filters Positions Broker Store Execution Engine.
From S2P Require Import Lifecycle.

Definition SOURCE_RISK_GUARDIAN : string := "risk_guardian".
Definition STREAM_DECISIONS : string := "decisions".
Definition STREAM_RISK_ALERTS : string := "risk_alerts".
Definition SYMBOL_BTC_USD : string := "BTC/USD".

(** The commands of the guardian to Redis that are guarded by a [try]. *)
Inductive GuardianCommand :=
| GetPeak (symbol : string)
| SetPeak (symbol : string)
| DeletePeak (symbol : string)
| SetKillSwitch
| SetKillSwitchUpdatedAt.

(** What a scan reads from outside the desk; [wt_redis] is whether a command is answered,
    and [wt_bus] whether a publication is taken. *)
Record Watch := {
  wt_age : val -> res (option float);
  wt_today : val -> res bool;
  wt_price : string -> option payload;
  wt_macro : string -> val;
  wt_trades : option (list payload);
  wt_expired : string -> bool;
  wt_redis : GuardianCommand -> bool;
  wt_breaker : Writes;
  wt_bus : string -> payload -> res bool;
  wt_msg_id : string -> string;
  wt_trace_id : string -> string;
  wt_now : string;
  wt_time : float;
}.

(** An open position, normalised. *)
Record Row := {
  rw_symbol : string;
  rw_side : string;
  rw_qty : float;
  rw_avg_cost : float;
  rw_opened_at : val;
}.

(** The desk: the engine, the peaks and the registry, with the messages sent. *)
Record Desk `{PyRandom} := {
  dk_engine : Engine;
  dk_peaks : dict (float * float);
  dk_registry : StrategyRegistry;
  dk_kill_updated : option string;
  dk_decisions : list payload;
  dk_alerts : list payload;
}.

(** What a scan of the positions leaves: the decisions it sent and the peaks. *)
Record Sweep := { sw_sent : list payload; sw_peaks : dict (float * float) }.

Definition with_peaks (peaks : dict (float * float)) (k : Sweep) : Sweep :=
  {| sw_sent := sw_sent k; sw_peaks := peaks |}.

Module Guardian.

(** * Reading *)

Definition row_of (p : payload) : res (option Row) :=
  let* qty := float_or_zero (dget_or "qty" VNone p) in
  let side := lower_str (first_truthy ["side"] p (VStr "")) in
  if fltb (fabs qty) 1e-9%F || String.eqb side FLAT then Ok None
  else
    let* avg := float_or_zero (dget_or "entry_price" VNone p) in
    Ok (Some {| rw_symbol := Fmt.str (first_truthy ["symbol"] p (VStr "")); rw_side := side;
                rw_qty := fabs qty; rw_avg_cost := avg; rw_opened_at := dget_or "opened_at" VNone p |}).

(** A raise ends the scan with the rows read so far. *)
Fixpoint _load_paper_positions (docs : list payload) : list Row :=
  match docs with
  | [] => []
  | p :: rest =>
      match row_of p with
      | Ok (Some r) => r :: _load_paper_positions rest
      | Ok None => _load_paper_positions rest
      | Raise _ => []
      end
  end.

(** Any failure reads as no price. *)
Definition _get_price (w : Watch) (symbol : string) : option float :=
  match wt_price w symbol with
  | None => None
  | Some d =>
      let price := first_truthy ["price"; "last_price"] d VNone in
      if truthy price then match py_float price with Ok x => Some x | Raise _ => None end else None
  end.

(** Prices are fetched for the symbols of rows with a positive basis. *)
Definition price_map (w : Watch) (rows : list Row) (symbol : string) : option float :=
  if existsb (fun r => String.eqb (rw_symbol r) symbol && fltb 0.0%F (rw_avg_cost r)) rows
  then _get_price w symbol else None.

(** * Exit rules *)

Section Rules.
Context `{Constants}.

Definition regime_at (w : Watch) (symbol : string) : val := Regime.regime_of (wt_macro w symbol).

Definition _effective_exit_bounds (w : Watch) (symbol : string) (is_long : bool) : float * float :=
  (Regime.stop_loss_pct (regime_at w symbol) is_long, Regime.take_profit_pct (regime_at w symbol) is_long).

(** [math.isclose(a, b, rel_tol=1e-9)] *)
Definition isclose (a b : float) : bool :=
  match a, b with
  | Inf s, Inf s' => Bool.eqb s s'
  | Inf _, _ | _, Inf _ => false
  | _, _ =>
      feqb a b ||
      let diff := fabs (b - a)%F in
      fleb diff (fabs (1e-9 * b)%F) || fleb diff (fabs (1e-9 * a)%F) || fleb diff 0.0%F
  end.

(** The peak profit after a scan: a changed basis restarts it. *)
Definition next_peak (stored : option (float * float)) (avg_cost pnl_pct : float) : float :=
  match stored with
  | Some (peak, cost) =>
      if isclose (if ftruthy cost then cost else 0.0%F) avg_cost
      then fmax pnl_pct (if ftruthy peak then peak else pnl_pct)
      else pnl_pct
  | None => pnl_pct
  end.

Definition trailing_reason (peak pnl_pct : float) : option string :=
  if fltb peak TRAILING_STOP_ARM_PCT then None
  else
    let floor := (peak * (1.0 - TRAILING_STOP_GIVEBACK_FRAC))%F in
    if fleb pnl_pct floor
    then Some ("trailing_stop(peak=" +:+ percent 2 peak +:+ ",now=" +:+ percent 2 pnl_pct +:+ ")")
    else None.

(** A failure of Redis on the way is no reason to close. *)
Definition _check_trailing_stop (w : Watch) (symbol : string) (avg_cost pnl_pct : float) : M Sweep (option string) :=
  let! peaks := gets sw_peaks in
  let peak := next_peak (dget symbol peaks) avg_cost pnl_pct in
  if wt_redis w (GetPeak symbol) && wt_redis w (SetPeak symbol) then
    do! modify (with_peaks (dset symbol (peak, avg_cost) peaks)) in
    ret (trailing_reason peak pnl_pct)
  else ret None.

Definition _clear_trailing_state (w : Watch) (symbol : string) : M Sweep unit :=
  if wt_redis w (DeletePeak symbol) then modify (fun k => with_peaks (Store.dpop symbol (sw_peaks k)) k) else ret tt.

Definition _check_stale_position (w : Watch) (opened_at : val) (pnl_pct : float) : res (option string) :=
  if fleb STALE_POSITION_PNL_BAND_PCT (fabs pnl_pct) then Ok None
  else
    let* age := (if truthy opened_at then wt_age w opened_at else Ok None) in
    Ok (match age with
        | None => None
        | Some age_seconds =>
            if fltb age_seconds STALE_POSITION_MAX_AGE_SECONDS then None
            else Some ("stale_position(age=" +:+ Fmt.fixed 1 (fdiv_nz age_seconds 3600.0%F) +:+ "h,pnl="
                       +:+ percent 2 pnl_pct +:+ ")")
        end).

(** The profit of a position at a price, in proportion to its basis. *)
Definition pnl_pct (is_long : bool) (avg_cost price : float) : float :=
  if is_long then fdiv_nz (price - avg_cost)%F avg_cost else fdiv_nz (avg_cost - price)%F avg_cost.

(** The reason to close. *)
Definition exit_reason (w : Watch) (r : Row) (is_long : bool) (pnl : float) : M Sweep (option string) :=
  let '(stop_pct, tp_pct) := _effective_exit_bounds w (rw_symbol r) is_long in
  if fleb pnl (- stop_pct)%F then
    ret (Some (if fltb stop_pct STOP_LOSS_PCT
               then "stop_loss_risk_off(" +:+ percent 2 pnl +:+ "<=-" +:+ percent 0 stop_pct +:+ ")"
               else "stop_loss(" +:+ percent 2 pnl +:+ ")"))
  else if fleb tp_pct pnl then
    ret (Some (if fltb tp_pct TAKE_PROFIT_PCT
               then "take_profit_risk_off(" +:+ percent 2 pnl +:+ ">=" +:+ percent 0 tp_pct +:+ ")"
               else "take_profit(" +:+ percent 2 pnl +:+ ")"))
  else
    let! reason := _check_trailing_stop w (rw_symbol r) (rw_avg_cost r) pnl in
    match reason with
    | Some _ => ret reason
    | None => lift (_check_stale_position w (rw_opened_at r) pnl)
    end.

Definition close_decision (w : Watch) (symbol action : string) (qty price : float) (reason : string)
  : payload :=
  [("msg_id", VStr (wt_msg_id w symbol)); ("source", VStr SOURCE_RISK_GUARDIAN); ("strategy_id", VStr "");
   ("symbol", VStr symbol); ("action", VStr action); ("signal_confidence", VFloat 1.0%F);
   ("reasoning_score", VFloat 1.0%F); ("qty", VFloat qty); ("price", VFloat price);
   ("timestamp", VStr (wt_now w)); ("trace_id", VStr (wt_trace_id w symbol));
   ("primary_edge", VStr ("risk_guardian:" +:+ reason)); ("risk_factors", VList [VStr reason]);
   ("size_pct", VFloat 1.0%F); ("stop_atr_x", VFloat 0.0%F); ("rr_ratio", VFloat 0.0%F)].

(** A publication the bus swallows sends nothing, and the guardian does not look. *)
Definition _publish_close (w : Watch) (d : payload) : M Sweep unit :=
  let! taken := lift (wt_bus w STREAM_DECISIONS d) in
  if taken : bool then modify (fun k => {| sw_sent := sw_sent k ++ [d]; sw_peaks := sw_peaks k |}) else ret tt.

(** The checks of one position: whether it was told to close. *)
Definition check_row (w : Watch) (prices : string -> option float) (r : Row) : M Sweep bool :=
  let symbol := rw_symbol r in
  if negb (one_of (rw_side r) [LONG; SHORT]) then ret false
  else if fleb (rw_avg_cost r) 0.0%F || fleb (rw_qty r) 0.0%F then ret false
  else
    match prices symbol with
    | None => ret false
    | Some price =>
        if fleb price 0.0%F then ret false
        else
          let is_long := String.eqb (rw_side r) LONG in
          let pnl := pnl_pct is_long (rw_avg_cost r) price in
          let! reason := exit_reason w r is_long pnl in
          match reason with
          | None => ret false
          | Some reason =>
              do! _publish_close w (close_decision w symbol (if is_long then SELL else BUY) (rw_qty r) price reason) in
              do! _clear_trailing_state w symbol in
              ret true
          end
    end.

(** The scan: the symbols already closed are skipped. *)
Fixpoint check_rows (w : Watch) (prices : string -> option float) (closed : list string) (rows : list Row)
  : M Sweep unit :=
  match rows with
  | [] => ret tt
  | r :: rest =>
      if one_of (rw_symbol r) closed then check_rows w prices closed rest
      else
        let! told := check_row w prices r in
        check_rows w prices (if told : bool then rw_symbol r :: closed else closed) rest
  end.

End Rules.

(** * The day's loss *)

Definition today_pnl (w : Watch) (total : float) (trade : payload) : res float :=
  let* today := wt_today w (first_truthy ["filled_at"; "timestamp"] trade VNone) in
  if today : bool then
    match float_or_zero (dget_or "pnl" VNone trade) with
    | Ok x => Ok (total + x)%F
    | Raise TypeError | Raise ValueError => Ok total
    | Raise e => Raise e
    end
  else Ok total.

Definition _today_realized_pnl (w : Watch) : res (option float) :=
  match wt_trades w with
  | None => Ok None
  | Some trades => let* total := res_fold (today_pnl w) trades 0.0%F in Ok (Some total)
  end.

Definition loss_threshold (w : Watch) : float :=
  (- (DEFAULT_PAPER_CASH * Regime.daily_loss_limit_pct (Regime.regime_of (wt_macro w SYMBOL_BTC_USD))))%F.

Definition loss_alert (w : Watch) (daily_pnl : float) : payload :=
  [("type", VStr "daily_loss_limit_breached"); ("daily_pnl", VFloat daily_pnl);
   ("threshold", VFloat (loss_threshold w)); ("kill_switch_activated", VBool true);
   ("source", VStr SOURCE_RISK_GUARDIAN); ("timestamp", VStr (wt_now w))].

Definition _portfolio_drawdown_pct (w : Watch) : res float :=
  let* daily := _today_realized_pnl w in
  Ok (match daily with
      | None => 0.0%F
      | Some x =>
          if fleb 0.0%F x || fleb DEFAULT_PAPER_CASH 0.0%F then 0.0%F
          else fdiv_nz (- x)%F DEFAULT_PAPER_CASH
      end).

(** * The loop *)

Section Desks.
Context `{PyRandom} `{Constants}.

Definition with_kill (s : Engine) : Engine :=
  Engine.with_flags true (en_paused s) (en_evaluated s) (en_in_flight s) s.

Definition with_engine (s : Engine) (k : Desk) : Desk :=
  {| dk_engine := s; dk_peaks := dk_peaks k; dk_registry := dk_registry k; dk_kill_updated := dk_kill_updated k;
     dk_decisions := dk_decisions k; dk_alerts := dk_alerts k |}.

Definition with_updated (now : string) (k : Desk) : Desk :=
  {| dk_engine := dk_engine k; dk_peaks := dk_peaks k; dk_registry := dk_registry k; dk_kill_updated := Some now;
     dk_decisions := dk_decisions k; dk_alerts := dk_alerts k |}.

Definition with_alert (d : payload) (k : Desk) : Desk :=
  {| dk_engine := dk_engine k; dk_peaks := dk_peaks k; dk_registry := dk_registry k;
     dk_kill_updated := dk_kill_updated k; dk_decisions := dk_decisions k; dk_alerts := dk_alerts k ++ [d] |}.

(** The peaks Redis still has. *)
Definition kept_peaks (w : Watch) (peaks : dict (float * float)) : dict (float * float) :=
  List.filter (fun e => negb (wt_expired w (fst e))) peaks.

(** What was sent before a raise is sent. *)
Definition _check_positions (w : Watch) : M Desk unit := fun k =>
  let rows := _load_paper_positions (dvalues (pb_positions (en_broker (dk_engine k)))) in
  let '(r, sw) := check_rows w (price_map w rows) [] rows {| sw_sent := []; sw_peaks := kept_peaks w (dk_peaks k) |} in
  (r, {| dk_engine := dk_engine k; dk_peaks := sw_peaks sw; dk_registry := dk_registry k;
         dk_kill_updated := dk_kill_updated k; dk_decisions := dk_decisions k ++ sw_sent sw; dk_alerts := dk_alerts k |}).

(** The [try] of the breach. *)
Definition halt (w : Watch) (daily_pnl : float) : M Desk unit :=
  do! (if wt_redis w SetKillSwitch then modify (fun k => with_engine (with_kill (dk_engine k)) k) else raise RuntimeError) in
  do! (if wt_redis w SetKillSwitchUpdatedAt then modify (with_updated (wt_now w)) else raise RuntimeError) in
  let! taken := lift (wt_bus w STREAM_RISK_ALERTS (loss_alert w daily_pnl)) in
  if taken : bool then modify (with_alert (loss_alert w daily_pnl)) else ret tt.

(** A failure of [halt] is logged; what it did stays. *)
Definition _check_daily_loss (w : Watch) : M Desk unit :=
  let! daily := lift (_today_realized_pnl w) in
  match daily with
  | None => ret tt
  | Some x => if fltb x (loss_threshold w) then fun k => (Ok tt, snd (halt w x k)) else ret tt
  end.

(** The breaker of the desk: its kill switch is the engine's. *)
Definition _check_circuit_breaker (w : Watch) : M Desk unit :=
  let! drawdown := lift (_portfolio_drawdown_pct w) in
  fun k =>
    let '(r, b) := check (wt_breaker w) (drawdown_only drawdown) (wt_time w)
                     {| br_kill := en_kill (dk_engine k); br_kill_updated := dk_kill_updated k;
                        br_registry := dk_registry k |} in
    (res_map (fun _ => tt) r,
     {| dk_engine := if br_kill b then with_kill (dk_engine k) else dk_engine k;
        dk_peaks := dk_peaks k; dk_registry := br_registry b; dk_kill_updated := br_kill_updated b;
        dk_decisions := dk_decisions k; dk_alerts := dk_alerts k |}).

(** One cycle of the loop; an exception ends the cycle, not the loop. *)
Definition cycle (w : Watch) (k : Desk) : Desk :=
  snd ((do! _check_positions w in do! _check_daily_loss w in _check_circuit_breaker w) k).

End Desks.

End Guardian.
