(* ===== verification/GuardianFacts.v ===== *)
(** GuardianFacts: breaches always produce closes, closes reach the broker, and the
    profit ratchet. *)
From S2P Require Import Prelude StateErr PyFloat FloatFacts PyVal PyMath PyRandom Config Agents.
From S2P Require Import Gate Params Policy Filters Positions Broker Store Execution Engine EngineFacts.
From S2P Require Import EngineInv EngineSafety Lifecycle Guardian.

Section Scans.
Context `{Constants}.
Import Guardian.

Definition decision_symbol (d : payload) : val := dget_or "symbol" VNone d.

(** A position the guardian looks at. *)
Definition priced (prices : string -> option float) (r : Row) (p : float) : Prop :=
  one_of (rw_side r) [LONG; SHORT] = true /\ fltb (Fin 0) (rw_avg_cost r) = true /\
  fltb (Fin 0) (rw_qty r) = true /\ prices (rw_symbol r) = Some p /\ fltb (Fin 0) p = true.

Definition row_pnl (r : Row) (p : float) : float :=
  pnl_pct (String.eqb (rw_side r) LONG) (rw_avg_cost r) p.

(** Beyond the stop or the target of its regime. *)
Definition breached (w : Watch) (r : Row) (p : float) : Prop :=
  let '(stop, target) := _effective_exit_bounds w (rw_symbol r) (String.eqb (rw_side r) LONG) in
  fleb (row_pnl r p) (- stop)%F = true \/ fleb target (row_pnl r p) = true.

Lemma pos_not_le x : fltb (Fin 0) x = true -> fleb x 0.0%F = false.
Proof. intros Hx. rewrite zero_lit. by apply fltb_asym. Qed.

(** The bus takes what the scan sends, and no timestamp is out of the calendar. *)
Definition calm (w : Watch) : Prop :=
  (forall stream d, wt_bus w stream d = Ok true) /\ forall v, exists o, wt_age w v = Ok o.

Definition close_action (r : Row) : string := if String.eqb (rw_side r) LONG then SELL else BUY.

(** A decision that closes the position of a row. *)
Definition closes (w : Watch) (prices : string -> option float) (r : Row) (d : payload) : Prop :=
  exists p reason, prices (rw_symbol r) = Some p /\
    d = close_decision w (rw_symbol r) (close_action r) (rw_qty r) p reason.

Lemma reason_runs w r is_long pnl k : calm w ->
  exists reason peaks, exit_reason w r is_long pnl k = (Ok reason, with_peaks peaks k).
Proof.
  intros [_ Ha]. destruct k as [sent peaks]. unfold exit_reason. destruct (_effective_exit_bounds w _ _) as [stop target].
  destruct (fleb _ _); [by eexists _, peaks|]. destruct (fleb _ _); [by eexists _, peaks|].
  assert (forall pk, exists reason peaks', lift (_check_stale_position w (rw_opened_at r) pnl) {| sw_sent := sent; sw_peaks := pk |}
    = (Ok reason, with_peaks peaks' {| sw_sent := sent; sw_peaks := peaks |})) as Hs.
  { intros pk. unfold lift, _check_stale_position. destruct (fleb _ _); [by eexists _, pk|].
    destruct (Ha (rw_opened_at r)) as [o Eo]. destruct (truthy (rw_opened_at r)); rewrite ?Eo; by eexists _, pk. }
  unfold bind at 1, _check_trailing_stop. rewrite bind_gets. cbn [sw_peaks].
  destruct (_ && _); [|apply Hs]. unfold bind, modify, ret. destruct (trailing_reason _ _); [by eexists _, _|]. apply Hs.
Qed.

Lemma breach_reason w r p k : breached w r p ->
  exists reason, exit_reason w r (String.eqb (rw_side r) LONG) (row_pnl r p) k = (Ok (Some reason), k).
Proof.
  unfold breached, exit_reason. destruct (_effective_exit_bounds w _ _) as [stop target].
  destruct (fleb _ (- stop)%F); [by eexists|]. intros [Hb|Hb]; [discriminate Hb|]. rewrite Hb. by eexists.
Qed.

(** The end of a check: the decision is sent, and the peak forgotten if Redis answers. *)
Definition told (w : Watch) (r : Row) (p : float) (reason : string) (k : Sweep) : Sweep :=
  snd (_clear_trailing_state w (rw_symbol r)
    {| sw_sent := sw_sent k ++ [close_decision w (rw_symbol r) (close_action r) (rw_qty r) p reason]; sw_peaks := sw_peaks k |}).

Lemma told_sent w r p reason k :
  sw_sent (told w r p reason k) = sw_sent k ++ [close_decision w (rw_symbol r) (close_action r) (rw_qty r) p reason].
Proof. unfold told, _clear_trailing_state. by destruct (wt_redis w _). Qed.

Lemma publish_told w r p reason k : calm w ->
  (do! _publish_close w (close_decision w (rw_symbol r) (close_action r) (rw_qty r) p reason) in
   do! _clear_trailing_state w (rw_symbol r) in ret true) k = (Ok true, told w r p reason k).
Proof.
  intros [Hb _]. unfold _publish_close, told, _clear_trailing_state, bind, lift, modify, ret. rewrite Hb.
  by destruct (wt_redis w _).
Qed.

(** A check runs to its end: it sends one decision that closes the position, or none. *)
Lemma check_row_runs w prices r k : calm w -> exists b k',
  check_row w prices r k = (Ok b, k') /\
  (if b : bool then exists d, closes w prices r d /\ sw_sent k' = sw_sent k ++ [d] else sw_sent k' = sw_sent k).
Proof.
  intros Hw. unfold check_row. destruct (negb _); [by eexists false, k|]. destruct (_ || _); [by eexists false, k|].
  destruct (prices (rw_symbol r)) as [p|] eqn:Ep; [|by eexists false, k]. destruct (fleb p 0.0%F); [by eexists false, k|].
  unfold bind at 1. destruct (reason_runs w r (String.eqb (rw_side r) LONG) (pnl_pct (String.eqb (rw_side r) LONG) (rw_avg_cost r) p) k Hw)
    as ([reason|] & pk & ->); [|by eexists false, _]. fold (close_action r). rewrite (publish_told w r p reason _ Hw).
  eexists true, _. split; [reflexivity|]. eexists. split; [by exists p, reason|]. by rewrite told_sent.
Qed.

Lemma check_row_breached w prices r p k : calm w -> priced prices r p -> breached w r p ->
  exists reason, check_row w prices r k = (Ok true, told w r p reason k).
Proof.
  intros Hw (Hs & Ha & Hq & Hp & H0p) Hb. unfold check_row. rewrite Hs, Hp, (pos_not_le _ Ha), (pos_not_le _ Hq), (pos_not_le _ H0p).
  cbn [negb orb]. destruct (breach_reason w r p k Hb) as [reason Er]. fold (row_pnl r p). unfold bind at 1. rewrite Er.
  fold (close_action r). rewrite (publish_told w r p reason k Hw). by exists reason.
Qed.

Lemma closes_symbol w prices r d : closes w prices r d -> decision_symbol d = VStr (rw_symbol r).
Proof. by intros (p & reason & _ & ->). Qed.

(** What a scan sends: at most one decision per symbol, none for the closed ones, each the
    close of a row, and one for every breached row. *)
Record swept (w : Watch) (prices : string -> option float) (closed : list string) (rows : list Row) (ds : list payload) : Prop := {
  sp_once : NoDup (map decision_symbol ds);
  sp_rows : Forall (fun d => exists r, In r rows /\ closes w prices r d /\ one_of (rw_symbol r) closed = false) ds;
  sp_breached : forall r p, In r rows -> one_of (rw_symbol r) closed = false -> priced prices r p -> breached w r p ->
    exists d, In d ds /\ decision_symbol d = VStr (rw_symbol r);
}.

Lemma one_of_cons_false s x l : one_of s (x :: l) = false <-> s <> x /\ one_of s l = false.
Proof. unfold one_of. cbn [existsb]. rewrite orb_false_iff. by rewrite String.eqb_neq. Qed.

Lemma swept_skip w prices closed r rows ds : one_of (rw_symbol r) closed = true ->
  swept w prices closed rows ds -> swept w prices closed (r :: rows) ds.
Proof.
  intros Hr [H1 H2 H3]. split; [done| |].
  - refine (Forall_impl _ _ _ H2 _). intros d (r0 & Hin & H0). exists r0. split; [by right|done].
  - intros r0 p [<-|Hin] Hc; [congruence|by apply H3].
Qed.

Lemma swept_quiet w prices closed r rows ds : (forall p, priced prices r p -> ~ breached w r p) ->
  swept w prices closed rows ds -> swept w prices closed (r :: rows) ds.
Proof.
  intros Hr [H1 H2 H3]. split; [done| |].
  - refine (Forall_impl _ _ _ H2 _). intros d (r0 & Hin & H0). exists r0. split; [by right|done].
  - intros r0 p [<-|Hin] Hc Hp Hb; [by destruct (Hr p Hp)|by apply (H3 r0 p)].
Qed.

Lemma swept_cons w prices closed r rows d ds : one_of (rw_symbol r) closed = false -> closes w prices r d ->
  swept w prices (rw_symbol r :: closed) rows ds -> swept w prices closed (r :: rows) (d :: ds).
Proof.
  intros Hc Hd [H1 H2 H3]. pose proof (closes_symbol _ _ _ _ Hd) as Es. split.
  - cbn [map]. constructor; [|exact H1]. intros Hin. apply list_elem_of_In, in_map_iff in Hin as (d' & E & Hin).
    pose proof (proj1 (List.Forall_forall _ _) H2 d' Hin) as (r' & _ & Hd' & Hr'). apply one_of_cons_false in Hr' as [Hne _].
    apply Hne. rewrite Es, (closes_symbol _ _ _ _ Hd') in E. congruence.
  - constructor; [exists r; split_and!; [by left|done|done]|]. refine (Forall_impl _ _ _ H2 _).
    intros d' (r' & Hin & Hd' & Hr'). apply one_of_cons_false in Hr' as [_ Hr']. exists r'. split_and!; [by right|done|done].
  - intros r0 p Hin Hc0 Hp Hb. destruct (String.eqb_spec (rw_symbol r0) (rw_symbol r)) as [E|Hne].
    + exists d. split; [by left|by rewrite E].
    + destruct Hin as [->|Hin]; [congruence|]. destruct (H3 r0 p Hin) as (d' & Hd' & Ed'); [by apply one_of_cons_false|done|done|].
      exists d'. split; [by right|exact Ed'].
Qed.

Lemma check_rows_sweep w prices rows : calm w -> forall closed k, exists ds k',
  check_rows w prices closed rows k = (Ok tt, k') /\ sw_sent k' = sw_sent k ++ ds /\ swept w prices closed rows ds.
Proof.
  intros Hw. induction rows as [|r rows IH]; intros closed k; cbn [check_rows].
  { exists [], k. split_and!; [reflexivity|by rewrite app_nil_r|]. split; [constructor|constructor|intros ? ? []]. }
  destruct (one_of (rw_symbol r) closed) eqn:Ec.
  { destruct (IH closed k) as (ds & k' & E & Es & Hs). exists ds, k'. split_and!; [done|done|by apply swept_skip]. }
  destruct (check_row_runs w prices r k Hw) as ([|] & k1 & Er & H1).
  - destruct H1 as (d & Hd & E1). unfold bind at 1. rewrite Er. destruct (IH (rw_symbol r :: closed) k1) as (ds & k' & E & Es & Hs).
    exists (d :: ds), k'. split; [exact E|]. split; [rewrite Es, E1, <- app_assoc; reflexivity|by apply swept_cons].
  - unfold bind at 1. rewrite Er. destruct (IH closed k1) as (ds & k' & E & Es & Hs).
    exists ds, k'. split; [exact E|]. split; [by rewrite Es, H1|]. apply swept_quiet; [|exact Hs].
    intros p Hp Hb. destruct (check_row_breached w prices r p k Hw Hp Hb) as [reason E']. rewrite E' in Er. discriminate Er.
Qed.

(** Every scan closes what is breached, once: when the bus takes what is sent, a position
    beyond the stop or the target of its regime gets a close decision, whatever the other
    positions, the peaks and the order of the symbols, and no symbol gets two. *)
Theorem breach_always_closes w prices rows peaks : calm w ->
  let ds := sw_sent (snd (check_rows w prices [] rows {| sw_sent := []; sw_peaks := peaks |})) in
  NoDup (map decision_symbol ds) /\
  forall r p, In r rows -> priced prices r p -> breached w r p ->
    exists d, In d ds /\ decision_symbol d = VStr (rw_symbol r).
Proof.
  intros Hw. cbv zeta. destruct (check_rows_sweep w prices rows Hw [] {| sw_sent := []; sw_peaks := peaks |})
    as (ds & k' & -> & Es & [H1 _ H3]). cbn [snd sw_sent app] in *. rewrite Es. split; [exact H1|]. intros r p Hin. by apply H3.
Qed.

End Scans.

(** * A close at the engine *)

Section Closing.
Context `{PyRandom} `{Constants}.
Import Engine Guardian.

Lemma pos_truthy x : fltb (Fin 0) x = true -> ftruthy x = true.
Proof.
  intros Hx. unfold ftruthy. destruct (is_zero x) eqn:E; [|reflexivity].
  apply is_zero_le in E. pose proof (fltb_fleb_trans _ _ _ Hx E) as F. by rewrite fltb_irrefl in F.
Qed.

Lemma str_truthy s : s <> "" -> truthy (VStr s) = true.
Proof. intros Hs. by destruct s. Qed.

(** What the engine makes of a close decision. *)
Lemma close_parsed w sym q p reason fs ft :
  sym <> "" -> fltb (Fin 0) q = true -> fltb (Fin 0) p = true ->
  let data := close_decision w sym SELL q p reason in
  exists d, parse_decision_fields data fs ft = Ok (inl d) /\ pd_side d = SELL /\ pd_symbol d = sym /\
    pd_qty d = q /\ pd_price d = p /\
    is_fallback data = false /\ extract_decision_scores data = Ok (1.0%F, 1.0%F) /\
    atr_ratio data = Ok None /\ pct_move data = Ok (fabs 0.0%F).
Proof.
  intros Hs Hq Hp. cbv zeta. set (data := close_decision w sym SELL q p reason).
  assert (missing_fields data = []) as Hm.
  { unfold missing_fields. cbn [List.filter].
    change (dget_or "symbol" VNone data) with (VStr sym). change (dget_or "qty" VNone data) with (VFloat q).
    change (dget_or "price" VNone data) with (VFloat p).
    rewrite (str_truthy sym Hs). cbn [truthy]. rewrite (pos_truthy q Hq), (pos_truthy p Hp). reflexivity. }
  unfold parse_decision_fields. rewrite Hm. cbn [res_bind].
  change (float_caught (dget_or "qty" VNone data)) with (@Ok (option float) (Some q)).
  change (float_caught (dget_or "price" VNone data)) with (@Ok (option float) (Some p)). cbn [res_bind].
  rewrite (pos_not_le q Hq), (pos_not_le p Hp). cbn [orb].
  eexists. split; [reflexivity|]. split_and!; reflexivity.
Qed.

(** The units a full close asks for: the cash in shares, or the quantity. *)
Definition shares (cash price nominal : float) : float :=
  match fdiv (1.0 * cash)%F price with
  | Ok q => if fltb 0.0%F q then q else nominal
  | Raise _ => nominal
  end.

Lemma close_kelly w sym q p reason d s :
  pd_qty d = q -> pd_price d = p -> fltb (Fin 0) p = true ->
  fst (_apply_kelly_sizing (close_decision w sym SELL q p reason) d s)
  = Ok (shares (Paper.cash_of (en_broker s)) p q).
Proof.
  intros Hq Hp Hpos. unfold _apply_kelly_sizing, bind, lift.
  assert (float_or_zero (dget_or "size_pct" VNone (close_decision w sym SELL q p reason)) = Ok 1.0%F) as E.
  { change (float_or_zero (VFloat 1.0%F) = Ok 1.0%F). fconst. }
  rewrite E, Hp, (pos_not_le p Hpos).
  assert (fleb 1.0%F 0.0%F = false) as E1 by fconst. rewrite E1. cbn [orb].
  unfold on_broker, Paper.get_cash. cbn [fst snd]. unfold kelly_qty. rewrite E. cbn [res_bind].
  rewrite E1, (pos_not_le p Hpos). cbn [orb]. rewrite Hq. reflexivity.
Qed.

(** The units of a holding sold whole. *)
Lemma sold_whole h : is_finite h = true -> double h -> small (units h) ->
  key (h + h * of_Z (-1))%F = Some 0.
Proof.
  intros F D S. destruct (signed_units h false F S) as [Fy Uy].
  assert (Rnd.rnd (units h) 1 = units h) as E
    by (rewrite <- (Z.mul_1_r (units h)) at 1; by apply Rnd.rnd_exact).
  change (key (fadd h (h * of_Z (-1))%F) = Some 0). rewrite (fadd_key h _ F Fy), Uy, E.
  replace (units h + -1 * units h) with 0 by lia. rewrite Rnd.rnd_0 by lia. by rewrite sat_0.
Qed.

Lemma at_least x y : fleb x y = true -> fltb y x = false.
Proof. intros Hx. destruct (fltb y x) eqn:E; [|done]. apply fltb_asym in E. congruence. Qed.

(** A close decision is a sound exit while the thresholds are within their bounds. *)
Lemma close_sound w v s sym q p reason d key0 :
  fleb EXECUTION_DECISION_THRESHOLD_MEMORY 0.80%F = true -> fleb SIGNAL_CONFIDENCE_MIN_GATE 0.80%F = true ->
  sym <> "" -> fltb (Fin 0) q = true -> fltb (Fin 0) p = true ->
  let data := close_decision w sym SELL q p reason in
  parse_decision_fields data (env_strategy v) (env_trace v) = Ok (inl d) -> env_key v d data = Ok key0 ->
  pd_symbol d = sym /\ sound_exit v data s d (shares (Paper.cash_of (en_broker s)) p q) key0.
Proof.
  intros Ht Hg Hs Hq Hp. cbv zeta. intros Ed Hk.
  destruct (close_parsed w sym q p reason (env_strategy v) (env_trace v) Hs Hq Hp) as (d' & Ed' & Hsd & Hy & Hqd & Hpp & Hf & Hsc & Hat & Hpc).
  rewrite Ed in Ed'. injection Ed' as <-. split; [exact Hy|]. split; try assumption.
  - by rewrite Hsd.
  - unfold _is_fallback_blocked. by rewrite Hsd, Hf.
  - exists 1.0%F, 1.0%F. split; [exact Hsc|]. split.
    + apply at_least, (fleb_trans _ _ _ Ht). fconst.
    + apply at_least, (fleb_trans _ _ _ Hg). fconst.
  - exists (fabs 0.0%F). split; [exact Hpc|fconst].
  - by rewrite (close_kelly w sym q p reason d _ Hqd Hpp Hp).
Qed.

(** ** The rows of a book *)

Lemma row_of_document sym p : Paper.document_ok sym p ->
  exists o, row_of p = Ok o /\ forall r, o = Some r -> rw_symbol r = sym.
Proof.
  intros (h & e & x & o & ->). unfold row_of. change (dget_or "qty" VNone _) with (VFloat h). rewrite float_or_zero_float.
  cbn [res_bind]. destruct (_ || _); [by eexists|]. change (dget_or "entry_price" VNone _) with (VFloat e).
  rewrite float_or_zero_float. eexists. split; [reflexivity|]. intros r [= <-]. cbn [rw_symbol]. by destruct sym.
Qed.

Lemma row_of_long sym h e x o : fleb 1e-9%F h = true -> fltb (Fin 0) e = true ->
  row_of (Paper.position_payload sym (Paper.side_for h) h e x o)
  = Ok (Some {| rw_symbol := sym; rw_side := LONG; rw_qty := fabs h; rw_avg_cost := e; rw_opened_at := o |}).
Proof.
  intros Hh He. destruct (long_doc h Hh) as (Hl & H0h & Ht). unfold row_of. rewrite Hl.
  change (dget_or "qty" VNone _) with (VFloat h). rewrite float_or_zero_float, Ht. cbn [res_bind].
  assert (fltb (fabs h) 1e-9%F = false) as ->.
  { unfold Paper.side_for in Hl. destruct (fltb (fabs h) 1e-9%F); [discriminate Hl|done]. }
  change (dget_or "entry_price" VNone _) with (VFloat e). rewrite float_or_zero_float, (pos_truthy e He). cbn. by destruct sym.
Qed.

Lemma load_rows (d : dict payload) : Forall (fun e => Paper.document_ok (fst e) (snd e)) d ->
  let rows := _load_paper_positions (dvalues d) in
  (forall r, In r rows -> exists p, In (rw_symbol r, p) d /\ row_of p = Ok (Some r)) /\
  (forall sym p r, In (sym, p) d -> row_of p = Ok (Some r) -> In r rows).
Proof.
  induction 1 as [|[sym p] d Hp _ [IH1 IH2]]; cbv zeta; [split; [intros ? []|intros ? ? ? []]|].
  cbn [dvalues map snd _load_paper_positions]. destruct (row_of_document sym p Hp) as (o & Eo & Hs). rewrite Eo. split.
  - intros r Hr. assert (In r (_load_paper_positions (map snd d)) -> exists p0, In (rw_symbol r, p0) ((sym, p) :: d) /\ row_of p0 = Ok (Some r)) as Hold.
    { intros Hin. destruct (IH1 r Hin) as (p0 & H1 & H2). exists p0. split; [by right|done]. }
    destruct o as [r0|]; [|by apply Hold]. destruct Hr as [<-|Hin]; [|by apply Hold]. exists p. rewrite (Hs r0 eq_refl). split; [by left|done].
  - intros sym0 p0 r [[= <- <-]|Hin] Er.
    + rewrite Eo in Er. injection Er as ->. by left.
    + destruct o; [right|]; by apply (IH2 sym0 p0).
Qed.

(** The scan of a book in which a long position is through its stop. *)
Lemma scan_closes w k sym h e x o p : calm w ->
  let b := en_broker (dk_engine k) in
  Paper.book_ok b -> NoDup (dkeys (pb_positions b)) ->
  dget sym (pb_positions b) = Some (Paper.position_payload sym (Paper.side_for h) h e x o) ->
  fleb 1e-9%F h = true -> fltb (Fin 0) (fabs h) = true -> fltb (Fin 0) e = true -> _get_price w sym = Some p -> fltb (Fin 0) p = true ->
  fleb (pnl_pct true e p) (- fst (_effective_exit_bounds w sym true))%F = true ->
  exists ds reason, fst (_check_positions w k) = Ok tt /\ dk_engine (snd (_check_positions w k)) = dk_engine k /\
    dk_decisions (snd (_check_positions w k)) = dk_decisions k ++ ds /\
    In (close_decision w sym SELL (fabs h) p reason) ds.
Proof.
  intros Hw. cbv zeta. intros Hb Hn Hd Hh Ha He Hpr Hp Hstop. unfold _check_positions. set (d := pb_positions _) in *.
  assert (Forall (fun e => Paper.document_ok (fst e) (snd e)) d) as Hok.
  { apply List.Forall_forall. intros [s0 p0] Hin. apply Hb. by apply VersionFacts.In_dget. }
  destruct (load_rows d Hok) as [L1 L2]. set (rows := _load_paper_positions (dvalues d)) in *.
  set (r := {| rw_symbol := sym; rw_side := LONG; rw_qty := fabs h; rw_avg_cost := e; rw_opened_at := o |}).
  pose proof (row_of_long sym h e x o Hh He) as Er. fold r in Er.
  assert (In r rows) as Hr by (refine (L2 sym _ r _ Er); apply list_elem_of_In; by apply dget_Some_In).
  assert (price_map w rows sym = Some p) as Hpm.
  { unfold price_map. assert (existsb (fun r => String.eqb (rw_symbol r) sym && fltb 0.0%F (rw_avg_cost r)) rows = true) as ->; [|done].
    apply existsb_exists. exists r. split; [done|]. cbn [r rw_symbol rw_avg_cost]. by rewrite String.eqb_refl, zero_lit, He. }
  destruct (check_rows_sweep w (price_map w rows) rows Hw [] {| sw_sent := []; sw_peaks := kept_peaks w (dk_peaks k) |})
    as (ds & k' & E & Es & [_ H2 H3]). rewrite E. cbn [fst snd dk_engine dk_decisions sw_sent app] in *.
  destruct (H3 r p Hr eq_refl) as (c & Hc & Ec); [by split_and!| |].
  { unfold breached, row_pnl. change (rw_symbol r) with sym. change (String.eqb (rw_side r) LONG) with true. cbn [rw_avg_cost r].
    destruct (_effective_exit_bounds w sym true) as [stop target]. by left. }
  pose proof (proj1 (List.Forall_forall _ _) H2 c Hc) as (r' & Hr' & Hcl & _).
  assert (rw_symbol r' = sym) as Es' by (rewrite (closes_symbol _ _ _ _ Hcl) in Ec; by injection Ec).
  assert (r' = r) as ->.
  { destruct (L1 r' Hr') as (p' & Hin & E'). rewrite Es' in Hin. apply VersionFacts.In_dget in Hin; [|done]. congruence. }
  destruct Hcl as (p0 & reason & Hp0 & ->). cbn [r rw_symbol] in Hp0. rewrite Hpm in Hp0. injection Hp0 as <-.
  exists ds, reason. rewrite Es. by split_and!.
Qed.


End Closing.

(** * The ratchet and the loss limit *)

Section Limits.
Context `{PyRandom} `{Constants}.
Import Engine Guardian.

Lemma fmax_ge_l a b : a <> NaN -> fleb a (fmax a b) = true.
Proof. exact (fmax_l a b). Qed.

(** The profit ratchet: when Redis answers, a check records the position's peak, which is
    never below the current profit and, while the basis is unchanged, never below a positive
    peak recorded before; it closes exactly when the ratchet is armed and the profit is at or
    below the floor, and it leaves the other symbols' peaks alone. *)
Theorem trailing_ratchet w symbol avg pnl k :
  pnl <> NaN -> wt_redis w (GetPeak symbol) = true -> wt_redis w (SetPeak symbol) = true ->
  let peaks := sw_peaks k in
  exists reason peak peaks', _check_trailing_stop w symbol avg pnl k = (Ok reason, with_peaks peaks' k) /\
    dget symbol peaks' = Some (peak, avg) /\ fleb pnl peak = true /\
    (forall old cost, dget symbol peaks = Some (old, cost) -> isclose (if ftruthy cost then cost else 0.0%F) avg = true ->
       fltb (Fin 0) old = true -> fleb old peak = true) /\
    ((exists text, reason = Some text) <->
     fltb peak TRAILING_STOP_ARM_PCT = false /\
     fleb pnl (peak * (1.0 - TRAILING_STOP_GIVEBACK_FRAC))%F = true) /\
    (forall k, k <> symbol -> dget k peaks' = dget k peaks).
Proof.
  intros Hn Hg Hs. cbv zeta. unfold _check_trailing_stop. rewrite bind_gets, Hg, Hs. cbn [andb]. set (peaks := sw_peaks k).
  set (peak := next_peak (dget symbol peaks) avg pnl). exists (trailing_reason peak pnl), peak, (dset symbol (peak, avg) peaks).
  split; [reflexivity|]. split; [apply dget_dset_eq|]. split; [|split; [|split]].
  - unfold peak, next_peak. destruct (dget symbol peaks) as [[old cost]|]; [|by apply fleb_refl].
    destruct (isclose _ avg); [by apply fmax_l|by apply fleb_refl].
  - intros old cost E Hc Hp. unfold peak, next_peak. rewrite E, Hc, (pos_truthy old Hp).
    apply fmax_r; [exact Hn|exact (fltb_not_nan_r _ _ Hp)].
  - unfold trailing_reason. destruct (fltb peak TRAILING_STOP_ARM_PCT) eqn:Ea.
    + split; [intros [text E]; discriminate E|intros [E _]; discriminate E].
    + destruct (fleb pnl _) eqn:Ef; (split; [intros [text E]|intros [_ E]]).
      * exact (conj eq_refl eq_refl).
      * by eexists.
      * discriminate E.
      * discriminate E.
  - intros k0 Hk. apply dget_dset_ne. congruence.
Qed.

(** ** The kill switch *)

(** Nothing the guardian does switches the kill switch off. *)
Definition stays_on (k k' : Desk) : Prop := en_kill (dk_engine k) = true -> en_kill (dk_engine k') = true.

#[local] Instance stays_on_pre : PreOrder stays_on.
Proof. split; [intros k Hk; exact Hk|]. intros a b c Ha Hb Hk. apply Hb, Ha, Hk. Qed.

Lemma positions_same w k : dk_engine (snd (_check_positions w k)) = dk_engine k.
Proof. unfold _check_positions. by destruct (check_rows _ _ _ _ _). Qed.

Lemma write_stays (b : bool) f : (forall k, stays_on k (f k)) ->
  tracks stays_on (if b then modify f else raise RuntimeError).
Proof. intros Hf. destruct b; [by apply (tracks_modify stays_on)|apply (tracks_raise stays_on)]. Qed.

Lemma halt_stays w x : tracks stays_on (halt w x).
Proof.
  unfold halt. apply (tracks_bind stays_on); [apply write_stays; intros k Hk; first [reflexivity|exact Hk]|intros _].
  apply (tracks_bind stays_on); [apply write_stays; intros k Hk; first [reflexivity|exact Hk]|intros _].
  apply (tracks_bind stays_on); [apply (tracks_lift stays_on)|intros [|]]; [|apply (tracks_ret stays_on)].
  apply (tracks_modify stays_on). intros k Hk. exact Hk.
Qed.

Lemma loss_stays w : tracks stays_on (_check_daily_loss w).
Proof.
  unfold _check_daily_loss. apply (tracks_bind stays_on); [apply (tracks_lift stays_on)|intros [x|]]; [|apply (tracks_ret stays_on)].
  destruct (fltb _ _); [|apply (tracks_ret stays_on)]. intros k. exact (halt_stays w x k).
Qed.

Lemma check_keeps_kill u i now b : br_kill b = true -> br_kill (snd (check u i now b)) = true.
Proof.
  intros Hb. unfold check, bind. destruct (tripped (evaluate i)); [|exact Hb]. unfold trip, bind, modify, on_registry, raise.
  destruct (wr_kill u); [|exact Hb]. destruct (wr_stamp u); [|reflexivity]. by destruct (Versions.rollback _ _) as [[o|e] g].
Qed.

Lemma breaker_stays w : tracks stays_on (_check_circuit_breaker w).
Proof.
  unfold _check_circuit_breaker. apply (tracks_bind stays_on); [apply (tracks_lift stays_on)|intros dd k Hk].
  set (b0 := {| br_kill := _; br_kill_updated := _; br_registry := _ |}).
  pose proof (check_keeps_kill (wt_breaker w) (drawdown_only dd) (wt_time w) b0 Hk) as Hb.
  destruct (check _ _ _ b0) as [r b]. cbn [snd dk_engine] in *. by rewrite Hb.
Qed.

Lemma cycle_stays w k : stays_on k (cycle w k).
Proof.
  unfold cycle. refine (tracks_bind stays_on _ _ _ _ k).
  - intros k0 Hk. by rewrite positions_same.
  - intros _. apply (tracks_bind stays_on); [apply loss_stays|intros _; apply breaker_stays].
Qed.

(** A breach whose write of the switch is taken. *)
Lemma loss_halts w k x : _today_realized_pnl w = Ok (Some x) -> fltb x (loss_threshold w) = true ->
  wt_redis w SetKillSwitch = true ->
  fst (_check_daily_loss w k) = Ok tt /\ en_kill (dk_engine (snd (_check_daily_loss w k))) = true.
Proof.
  intros Ht Hx Hr. unfold _check_daily_loss, bind, lift. rewrite Ht, Hx. cbn [fst snd]. split; [reflexivity|].
  unfold halt, bind at 1. rewrite Hr. unfold modify at 1.
  destruct (wt_redis w SetKillSwitchUpdatedAt); [|reflexivity]. unfold bind, modify, lift. by destruct (wt_bus w _ _) as [[|]|e].
Qed.

(** C31: The loss limit stops trading. A cycle whose scan of the positions does not raise, which
    reads a loss beyond the day's limit and whose write of the kill switch Redis takes, leaves
    it on, whatever fails after that write. No later cycle switches it off, and while it is on
    every decision raises and changes nothing. When Redis does not take the write, the failure
    is logged and the check goes on with the engine as it is. *)
Theorem loss_limit_stops_trading w k x :
  _today_realized_pnl w = Ok (Some x) -> fltb x (loss_threshold w) = true ->
  (wt_redis w SetKillSwitch = true -> fst (_check_positions w k) = Ok tt -> forall later,
     let s := dk_engine (fold_left (fun k w => cycle w k) later (cycle w k)) in
     en_kill s = true /\ forall v data, process v data s = (Raise RuntimeError, s)) /\
  (wt_redis w SetKillSwitch = false -> _check_daily_loss w k = (Ok tt, k)).
Proof.
  intros Ht Hx. split.
  - intros Hr Hp later. cbv zeta.
    assert (en_kill (dk_engine (fold_left (fun k w => cycle w k) later (cycle w k))) = true) as Hk.
    { assert (en_kill (dk_engine (cycle w k)) = true) as H1.
      { unfold cycle, bind. destruct (_check_positions w k) as [r k1]. cbn [fst] in Hp. subst r.
        destruct (loss_halts w k1 x Ht Hx Hr) as [E Hon]. destruct (_check_daily_loss w k1) as [r k2]. cbn [fst snd] in *. subst r.
        exact (breaker_stays w k2 Hon). }
      revert H1. generalize (cycle w k). induction later as [|w' later IH]; intros k0 H1; [exact H1|].
      cbn [fold_left]. apply IH, cycle_stays, H1. }
    split; [exact Hk|]. intros v data. unfold process. rewrite bind_gets, Hk. reflexivity.
  - intros Hr. unfold _check_daily_loss, bind, lift. rewrite Ht, Hx. unfold halt, bind, raise. by rewrite Hr.
Qed.

End Limits.

(** * On a paper desk *)

#[local] Existing Instance constant_half.
#[local] Existing Instance default_constants.
Import Engine Guardian.

(** One key for every decision, one price for every symbol. *)
Definition keyed_desk : Env :=
  {| env_settings := DEFAULT_SETTINGS; env_paper_mode := true; env_symbol_open := fun _ => true;
     env_macro := fun _ => VNone; env_no_trade_window := true; env_strategy := "s1"; env_trace := "t0";
     env_order := "o2"; env_broker_order := "b2"; env_msgs := ("m4", "m5", "m6");
     env_now := "2026-01-05T15:01:00+00:00"; env_time := 60.0%F; env_key := fun _ _ => Ok "k9" |}.

Definition watch (price : float) : Watch :=
  {| wt_age := fun _ => Ok None; wt_today := fun _ => Ok true; wt_price := fun _ => Some [("price", VFloat price)];
     wt_macro := fun _ => VNone; wt_trades := Some [[("pnl", VFloat (-2500.0)%F)]]; wt_expired := fun _ => false;
     wt_redis := fun _ => true; wt_breaker := {| wr_kill := true; wr_stamp := true |}; wt_bus := fun _ _ => Ok true;
     wt_msg_id := fun _ => "m7"; wt_trace_id := fun _ => "t7";
     wt_now := "2026-01-05T15:01:00+00:00"; wt_time := 60.0%F |}.

Lemma watch_calm price : calm (watch price).
Proof. split; [done|]. intros v. by exists None. Qed.

Definition desk_of (s : Engine) : Desk :=
  {| dk_engine := s; dk_peaks := []; dk_registry := Versions.init; dk_kill_updated := None;
     dk_decisions := []; dk_alerts := [] |}.

Definition held_row (qty : float) : Row :=
  {| rw_symbol := "BTC/USD"; rw_side := LONG; rw_qty := qty; rw_avg_cost := 100.0%F; rw_opened_at := VNone |}.

Lemma breach_always_closes_witness :
  exists d, In d (sw_sent (snd (check_rows (watch 90.0%F) (fun _ => Some 90.0%F) [] [held_row 0.5%F] {| sw_sent := []; sw_peaks := [] |}))) /\
    decision_symbol d = VStr "BTC/USD".
Proof.
  apply (proj2 (breach_always_closes (watch 90.0%F) (fun _ => Some 90.0%F) [held_row 0.5%F] [] (watch_calm _))
           (held_row 0.5%F) 90.0%F).
  - by left.
  - unfold priced. split_and!; vm_compute; reflexivity.
  - left. vm_compute. reflexivity.
Defined.

Definition entry_of (s : Engine) : float :=
  match dget "entry_price" (Paper.get_position "BTC/USD" (en_broker s)) with Some (VFloat x) => x | _ => NaN end.

Definition last_of (s : Engine) : float :=
  match dget "current_price" (Paper.get_position "BTC/USD" (en_broker s)) with Some (VFloat x) => x | _ => NaN end.

(** What the guardian sends for the open long at 90. *)
Definition long_sell : payload := hd [] (dk_decisions (snd (_check_positions (watch 90.0%F) (desk_of long_desk)))).

Definition long_sell_parsed : ParsedDecision :=
  {| pd_side := SELL; pd_symbol := "BTC/USD"; pd_qty := 0.5%F; pd_price := 90.0%F; pd_strategy_id := "s1"; pd_trace_id := "t7" |}.

Lemma keyed_desk_clear : clear_way keyed_desk "BTC/USD" "k9" long_desk.
Proof.
  split.
  1-3: vm_compute; reflexivity.
  - exact (cw_book _ _ _ _ long_desk_clear).
  - reflexivity.
  - apply one_of_not_in. vm_compute; reflexivity.
  - apply one_of_not_in. vm_compute; reflexivity.
Qed.

Lemma half_double : double 0.5%F.
Proof.
  assert (units 0.5%F * 2 = 2 ^ 0 * scale) as E by fconst.
  unfold double. replace (units 0.5%F) with (1 * 2 ^ 1073); [apply Rnd.repr_shift; lia|]. rewrite scale_spec in E. lia.
Qed.


Lemma trailing_ratchet_witness :
  exists peak peaks, snd (_check_trailing_stop (watch 90.0%F) "BTC/USD" 100.0%F 0.01%F
      {| sw_sent := []; sw_peaks := [("BTC/USD", (0.05%F, 100.0%F))] |}) = {| sw_sent := []; sw_peaks := peaks |} /\
    dget "BTC/USD" peaks = Some (peak, 100.0%F) /\ fleb 0.01%F peak = true.
Proof.
  assert (0.01%F <> NaN) as Hn by (apply dec_not_nan).
  destruct (trailing_ratchet (watch 90.0%F) "BTC/USD" 100.0%F 0.01%F {| sw_sent := []; sw_peaks := [("BTC/USD", (0.05%F, 100.0%F))] |}
    Hn eq_refl eq_refl) as (reason & peak & peaks & -> & E & Hp & _).
  exists peak, peaks. exact (conj eq_refl (conj E Hp)).
Defined.

(** The same scan while Redis takes the switch and nothing after it. *)
Definition half_down : Watch :=
  let w := watch 90.0%F in
  {| wt_age := wt_age w; wt_today := wt_today w; wt_price := wt_price w; wt_macro := wt_macro w; wt_trades := wt_trades w;
     wt_expired := wt_expired w; wt_redis := fun c => match c with SetKillSwitch => true | _ => false end;
     wt_breaker := {| wr_kill := false; wr_stamp := false |}; wt_bus := fun _ _ => Ok false; wt_msg_id := wt_msg_id w;
     wt_trace_id := wt_trace_id w; wt_now := wt_now w; wt_time := wt_time w |}.

Lemma loss_limit_stops_trading_witness :
  en_kill (dk_engine (fold_left (fun k w => cycle w k) [watch 90.0%F] (cycle half_down (desk_of long_desk)))) = true.
Proof.
  assert (_today_realized_pnl half_down = Ok (Some (0.0 + -2500.0)%F)) as Ht by (vm_compute; reflexivity).
  assert (fltb (0.0 + -2500.0)%F (loss_threshold half_down) = true) as Hx by (vm_compute; reflexivity).
  assert (fst (_check_positions half_down (desk_of long_desk)) = Ok tt) as Hp by (vm_compute; reflexivity).
  exact (proj1 (proj1 (loss_limit_stops_trading half_down (desk_of long_desk) (0.0 + -2500.0)%F Ht Hx) eq_refl Hp [watch 90.0%F])).
Defined.

(** A cycle that cannot write the switch leaves trading on, whatever the loss. *)
Lemma outage_leaves_trading_on : let w := watch 90.0%F in
  let down := {| wt_age := wt_age w; wt_today := wt_today w; wt_price := wt_price w; wt_macro := wt_macro w; wt_trades := wt_trades w;
     wt_expired := wt_expired w; wt_redis := fun _ => false; wt_breaker := {| wr_kill := false; wr_stamp := false |};
     wt_bus := wt_bus w; wt_msg_id := wt_msg_id w; wt_trace_id := wt_trace_id w; wt_now := wt_now w; wt_time := wt_time w |} in
  fltb (-2500.0)%F (loss_threshold down) = true /\ en_kill (dk_engine (cycle down (desk_of long_desk))) = false.
Proof. split; vm_compute; reflexivity. Qed.

(** One bitcoin bought at 60000, and the scan after the price fell to 56000. *)
Definition btc_ticket : payload := dset "price" (VFloat 60000.0%F) (ticket "buy" "t1" (VFloat 1.0%F)).
Definition btc_desk : Engine := run (init 7) [Decide desk btc_ticket].
Definition btc_scan : Desk := snd (_check_positions (watch 56000.0%F) (desk_of btc_desk)).

(** A stop-loss does not close the position: the close asks for the size fraction 1.0,
    meant as the entire position, and the engine reads it as a fraction of the cash, so with
    40000 left after buying one bitcoin at 60000 it sells 0.71 of it at 56000 and the rest
    of the losing position stays open. *)
Theorem stop_loss_closes_part :
  map (dget_or "size_pct" VNone) (dk_decisions btc_scan) = [VFloat 1.0%F] /\
  map (dget_or "qty" VNone) (dk_decisions btc_scan) = [VFloat 1.0%F] /\
  let p := process keyed_desk (hd [] (dk_decisions btc_scan)) btc_desk in
  filled (fst p) = true /\ fltb 0.28%F (Paper.held "BTC/USD" (en_broker (snd p))) = true.
Proof. cbv zeta. split_and!; vm_compute; reflexivity. Qed.

(** An armed ratchet does not bank its floor: a gap between two scans closes the
    position at whatever the profit then is, here a loss of four per cent after a peak of
    six. *)
Theorem ratchet_gaps_through :
  fst (_check_trailing_stop (watch 96.0%F) "BTC/USD" 100.0%F (-0.04)%F
         {| sw_sent := []; sw_peaks := [("BTC/USD", (0.06%F, 100.0%F))] |})
  = Ok (Some "trailing_stop(peak=6.00%,now=-4.00%)").
Proof. vm_compute. reflexivity. Qed.
