(* ===== verification/PyPow.v ===== *)
(** PyPow: [math.sqrt], and [**] at the exponents 2 and 0.5.

    Python's [**] on floats calls C's [pow], whose last bit is the platform's: the class
    [CPow] states the documented facts of it, and [pow_exact], which rounds the exact
    square and the exact root, is one implementation.  [math.sqrt] is IEEE-754's square
    root, correctly rounded. *)
From S2P Require Import Prelude PyFloat FloatFacts PyVal PyMath.

Class CPow := {
  pow2 : float -> float;
  pow_half : float -> float;
  pow2_nan : pow2 NaN = NaN;
  pow2_nonneg x : x <> NaN -> fleb (Fin 0) (pow2 x) = true;
  pow2_zero x : is_zero x = true -> pow2 x = Fin 0;
  pow2_finite x : within (-1e150)%F 1e150%F x -> is_finite (pow2 x) = true;
  pow_half_nan : pow_half NaN = NaN;
  pow_half_nonneg x : fleb (Fin 0) x = true -> fleb (Fin 0) (pow_half x) = true;
  pow_half_finite x : fin_ok x = true -> fleb (Fin 0) x = true -> is_finite (pow_half x) = true;
}.

(** [x ** 2]: a finite base whose square is out of range raises. *)
Definition square `{CPow} (x : float) : res float :=
  let y := pow2 x in
  if is_finite x && negb (is_finite y) then Raise OverflowError else Ok y.

(** The root of [n] units in units, doubled, with a sticky last bit: it has more than 500
    bits, so rounding it rounds the root. *)
Definition sqrt_sticky (n : Z) : Z :=
  let a := Z.sqrt (n * scale) in 2 * a + (if a * a =? n * scale then 0 else 1).

Definition math_sqrt (x : float) : res float :=
  match x with
  | Fin n => if n <? 0 then Raise ValueError else Ok (round_q false (sqrt_sticky n) 2)
  | Inf true => Raise ValueError
  | _ => Ok x
  end.

(** * Facts *)

Lemma sqrt_sticky_nonneg n : 0 <= sqrt_sticky n.
Proof. unfold sqrt_sticky. pose proof (Z.sqrt_nonneg (n * scale)). case_match; lia. Qed.

Lemma sqrt_sticky_upper n : 0 <= n < bound -> sqrt_sticky n < bound.
Proof.
  intros Hn. unfold sqrt_sticky. pose proof scale_pos.
  assert (Z.sqrt (n * scale) <= 2 ^ 1587) as Hs.
  { rewrite <- (Z.sqrt_square (2 ^ 1587)) by (by apply Z.pow_nonneg). apply Z.sqrt_le_mono.
    assert (bound * scale <= 2 ^ 1587 * 2 ^ 1587) by (by vm_compute). nia. }
  assert (2 * 2 ^ 1587 + 1 < bound) by (by vm_compute). case_match; lia.
Qed.

Lemma math_sqrt_ok x : fleb (Fin 0) x = true -> exists r, math_sqrt x = Ok r /\ fleb (Fin 0) r = true.
Proof.
  intros Hx. destruct x as [|[]| |n]; try (exfalso; exact (Bool.diff_false_true Hx));
    try (eexists; split; [reflexivity|exact Hx]).
  apply (fleb_units (Fin 0) (Fin n) eq_refl eq_refl) in Hx. simpl in Hx. cbn [math_sqrt].
  destruct (Z.ltb_spec n 0); [lia|]. eexists. split; [reflexivity|].
  apply fleb_key. do 2 eexists. split; [done|]. split; [by apply key_round_q|].
  rewrite <- sat_0. apply sat_mono, Rnd.rnd_nonneg; [lia|apply sqrt_sticky_nonneg].
Qed.

Lemma math_sqrt_nan : math_sqrt NaN = Ok NaN.
Proof. reflexivity. Qed.

(** A number that is not negative, or NaN: what a sum of squares is. *)
Definition nonneg (x : float) : Prop := x = NaN \/ fleb (Fin 0) x = true.

Lemma math_sqrt_total x : nonneg x -> exists r, math_sqrt x = Ok r /\ nonneg r.
Proof.
  intros [->|Hx]; [exists NaN; split; [done|by left]|].
  destruct (math_sqrt_ok x Hx) as (r & E & Hr). exists r. split; [done|by right].
Qed.

Lemma square_nonneg `{CPow} x y : square x = Ok y -> nonneg y.
Proof.
  unfold square. case_match; [done|]. intros <-%Ok_inj.
  destruct (decide (x = NaN)) as [->|Hx]; [left; apply pow2_nan|right; by apply pow2_nonneg].
Qed.

Lemma square_total `{CPow} x : within (-1e150)%F 1e150%F x -> exists y, square x = Ok y /\ is_finite y = true.
Proof.
  intros Hx. unfold square. rewrite (pow2_finite x Hx), andb_false_r. eexists. split; [done|].
  by apply pow2_finite.
Qed.

(** * The correctly rounded instance *)

Definition pow_half_exact (x : float) : float :=
  match x with
  | Fin n => if n <? 0 then NaN else round_q false (sqrt_sticky n) 2
  | NegZero => Fin 0
  | Inf true => Inf false
  | _ => x
  end.

Lemma fmul_self_key x : is_finite x = true ->
  key (fmul x x) = Some (sat (Rnd.rnd (units x * units x) scale)).
Proof. intros Hx. by apply fmul_key. Qed.

Lemma fmul_self_nonneg x : x <> NaN -> fleb (Fin 0) (fmul x x) = true.
Proof.
  intros Hx. destruct (is_finite x) eqn:Fx; [|destruct x as [|[]| |]; done].
  apply fleb_key. do 2 eexists. split; [reflexivity|]. split; [by apply fmul_self_key|].
  rewrite <- sat_0. apply sat_mono, Rnd.rnd_nonneg; [apply scale_pos|nia].
Qed.

Lemma fmul_zero x : is_zero x = true -> fmul x x = Fin 0.
Proof.
  destruct x as [| | |n]; try discriminate; [by vm_compute|].
  intros Hn. change ((n =? 0) = true) in Hn. apply Z.eqb_eq in Hn as ->. by vm_compute.
Qed.

Lemma key_finite x a : key x = Some a -> Z.abs a < bound -> is_finite x = true.
Proof. pose proof bound_pos. destruct x as [|[]| |n]; intros [= <-]; try done; lia. Qed.

Lemma square_small u : Z.abs u <= 2 ^ 500 * scale -> 0 <= sat (Rnd.rnd (u * u) scale) < bound.
Proof.
  intros Hu. pose proof scale_pos as Hs. pose proof bound_pos.
  assert (u * u <= 2 ^ 1000 * scale * scale) as Hq.
  { replace (2 ^ 1000 * scale * scale) with ((2 ^ 500 * scale) * (2 ^ 500 * scale))
      by (replace (2 ^ 1000) with (2 ^ 500 * 2 ^ 500) by (by vm_compute); ring).
    revert Hu. generalize (2 ^ 500 * scale). intros. nia. }
  assert (Rnd.repr (2 ^ 1000 * scale)) as Hp.
  { replace (2 ^ 1000 * scale) with (1 * 2 ^ 2074) by (rewrite scale_spec; by vm_compute).
    by apply Rnd.repr_shift. }
  pose proof (Rnd.rnd_le (u * u) scale (2 ^ 1000 * scale) Hs Hp ltac:(lia)).
  pose proof (Rnd.rnd_nonneg (u * u) scale Hs ltac:(nia)).
  assert (2 ^ 1000 * scale < bound) by (by vm_compute). unfold sat. lia.
Qed.

Lemma fmul_self_finite x : within (-1e150)%F 1e150%F x -> is_finite (fmul x x) = true.
Proof.
  intros Hx. assert (is_finite x = true) as Fx by (revert Hx; apply within_finite; fconst).
  destruct Hx as [H1 H2]. assert (is_finite (-1e150)%F = true) as Fl by fconst.
  assert (is_finite 1e150%F = true) as Fh by fconst.
  apply (fleb_units _ _ Fl Fx) in H1. apply (fleb_units _ _ Fx Fh) in H2.
  set (c := units 1e150%F) in *.
  assert (units (-1e150)%F = - c) as Ec by fconst. rewrite Ec in H1.
  assert (c <= 2 ^ 500 * scale) as Hc by (by vm_compute). clearbody c.
  eapply key_finite; [by apply fmul_self_key|].
  pose proof (square_small (units x) ltac:(lia)). lia.
Qed.

Lemma pow_half_exact_nonneg x : fleb (Fin 0) x = true -> fleb (Fin 0) (pow_half_exact x) = true.
Proof.
  intros Hx. destruct (math_sqrt_ok x Hx) as (r & E & Hr).
  destruct x as [|[]| |n]; try exact Hx; try (exfalso; exact (Bool.diff_false_true Hx)).
  cbn [math_sqrt pow_half_exact] in *. destruct (n <? 0); [discriminate E|].
  apply Ok_inj in E as ->. exact Hr.
Qed.

Lemma pow_half_exact_finite x :
  fin_ok x = true -> fleb (Fin 0) x = true -> is_finite (pow_half_exact x) = true.
Proof.
  intros Fx Hx. pose proof (fin_ok_bound _ Fx) as Hb. apply fin_ok_finite in Fx.
  destruct x as [|[]| |n]; try done.
  apply (fleb_units (Fin 0) (Fin n) eq_refl eq_refl) in Hx. simpl in Hx, Hb. cbn [pow_half_exact].
  destruct (Z.ltb_spec n 0); [lia|]. eapply key_finite; [by apply key_round_q|].
  pose proof (sqrt_sticky_upper n ltac:(lia)) as Hu. pose proof (sqrt_sticky_nonneg n) as Hn.
  assert (Rnd.repr (2 ^ 2097)) as Hp by (replace (2 ^ 2097) with (1 * 2 ^ 2097) by lia; by apply Rnd.repr_shift).
  assert (bound = 2 * 2 ^ 2097) as Eb by (rewrite bound_spec; by vm_compute).
  pose proof (Rnd.rnd_le (sqrt_sticky n) 2 (2 ^ 2097) ltac:(lia) Hp ltac:(lia)).
  pose proof (Rnd.rnd_nonneg (sqrt_sticky n) 2 ltac:(lia) Hn). pose proof bound_pos. unfold sat. lia.
Qed.

Definition pow_exact : CPow := {|
  pow2 := fun x => fmul x x;
  pow_half := pow_half_exact;
  pow2_nan := eq_refl;
  pow2_nonneg := fmul_self_nonneg;
  pow2_zero := fmul_zero;
  pow2_finite := fmul_self_finite;
  pow_half_nan := eq_refl;
  pow_half_nonneg := pow_half_exact_nonneg;
  pow_half_finite := pow_half_exact_finite;
|}.
