(* ===== verification/Momentum.v ===== *)
(** Momentum: the signal decision, the signal generator's stream handler in memory mode
    (api/services/signal_generator.py) and the backtest's strategies
    (backtest/strategies.py).

    The hour of the day, fresh identifiers, the elapsed time, the historical closes
    fetched once per symbol and the parser of JSON texts are an environment. Symbols are
    strings: another truthy symbol raises, and what the generator keeps under it first is
    left out. [sgn_published] records what the generator hands to the bus: the bus drops a
    publication that fails and the generator does not look at its answer. *)
From S2P Require Import Prelude StateErr PyFloat FloatFacts PyVal PyMath PyPow Config Params Policy Filters Store Execution Engine.

Inductive SignalType := STRONG_MOMENTUM | MOMENTUM | PRICE_UPDATE.
Inductive SignalStrength := HIGH | NORMAL | LOW.
Inductive MarketDirection := BULLISH | BEARISH | NEUTRAL.

#[global] Instance signal_type_eq_dec : EqDecision SignalType.
Proof. solve_decision. Defined.
#[global] Instance signal_strength_eq_dec : EqDecision SignalStrength.
Proof. solve_decision. Defined.
#[global] Instance market_direction_eq_dec : EqDecision MarketDirection.
Proof. solve_decision. Defined.

Definition signal_type_value (t : SignalType) : string :=
  match t with STRONG_MOMENTUM => "STRONG_MOMENTUM" | MOMENTUM => "MOMENTUM" | PRICE_UPDATE => "PRICE_UPDATE" end.
Definition strength_value (s : SignalStrength) : string :=
  match s with HIGH => "HIGH" | NORMAL => "NORMAL" | LOW => "LOW" end.
Definition direction_value (d : MarketDirection) : string :=
  match d with BULLISH => "bullish" | BEARISH => "bearish" | NEUTRAL => "neutral" end.

Definition STRONG_MOMENTUM_PCT : float := 3.0%F.
Definition MOMENTUM_PCT : float := 1.5%F.
Definition STRONG_MOMENTUM_SIGMA : float := 2.5%F.
Definition MOMENTUM_SIGMA : float := 1.5%F.
Definition SIGMA_MIN_SAMPLES : Z := 20.
Definition SIGMA_FLOOR_PCT : float := 0.02%F.
Definition MOMENTUM_SCORE_FLOOR : float := 55.0%F.
Definition STRONG_MOMENTUM_SCORE_FLOOR : float := 80.0%F.
Definition STRONG_MOMENTUM_SCORE_CEIL : float := 95.0%F.
Definition STRONG_MOMENTUM_SIGMA_CEIL : float := 4.0%F.
Definition STRONG_MOMENTUM_PCT_CEIL : float := 6.0%F.
Definition REGIME_ATR_PERIOD : Z := 14.
Definition REGIME_ATR_AVG_PERIOD : Z := 20.

(** * The decision *)

Record Signal := {
  sg_type : SignalType;
  sg_strength : SignalStrength;
  sg_score : float;
  sg_direction : MarketDirection;
  sg_action : string;
}.

Definition _graduate_score (value lo hi score_lo score_hi : float) : float :=
  if fleb hi lo then score_lo
  else
    let frac := fdiv_nz (value - lo)%F (hi - lo)%F in
    let frac := if fltb frac 0.0%F then 0.0%F else if fltb 1.0%F frac then 1.0%F else frac in
    (score_lo + frac * (score_hi - score_lo))%F.

(** The percent returns over nonzero prices. *)
Fixpoint pct_returns (prices : list float) : list float :=
  match prices with
  | prev :: ((cur :: _) as rest) =>
      if ftruthy prev then (fdiv_nz (cur - prev) prev * 100.0)%F :: pct_returns rest
      else pct_returns rest
  | _ => []
  end.

Section Volatility.
Context `{CPow}.

Definition compute_return_sigma (prices : list float) : res (option float) :=
  if zlen prices <? SIGMA_MIN_SAMPLES + 1 then Ok None
  else
    let returns := pct_returns prices in
    if zlen returns <? SIGMA_MIN_SAMPLES then Ok None
    else
      let n := of_Z (zlen returns) in
      let mean := fdiv_nz (fsum_left returns) n in
      let* squares := res_list (fun r => square (r - mean)%F) returns in
      let variance := fdiv_nz (fsum_left squares) n in
      Ok (Some (pow_half variance)).

End Volatility.

(** The type, the strength and the score of a move [x] against the band limits. *)
Definition tier (x lo hi ceil : float) : SignalType * SignalStrength * float :=
  if fleb hi x then
    (STRONG_MOMENTUM, HIGH, _graduate_score x hi ceil STRONG_MOMENTUM_SCORE_FLOOR STRONG_MOMENTUM_SCORE_CEIL)
  else if fleb lo x then
    (MOMENTUM, NORMAL, _graduate_score x lo hi MOMENTUM_SCORE_FLOOR STRONG_MOMENTUM_SCORE_FLOOR)
  else (PRICE_UPDATE, LOW, 30.0%F).

Definition usable_sigma (sigma : option float) : option float :=
  match sigma with
  | Some s => if fleb SIGMA_FLOOR_PCT s then Some s else None
  | None => None
  end.

Definition direction_of (pct : float) : MarketDirection :=
  if fltb 0.0%F pct then BULLISH else if fltb pct 0.0%F then BEARISH else NEUTRAL.

Definition classify_signal (pct : float) (sigma : option float) : Signal :=
  let abs_pct := fabs pct in
  let direction := direction_of pct in
  let '(signal_type, strength, score) :=
    match usable_sigma sigma with
    | Some s => tier (fdiv_nz abs_pct s) MOMENTUM_SIGMA STRONG_MOMENTUM_SIGMA STRONG_MOMENTUM_SIGMA_CEIL
    | None => tier abs_pct MOMENTUM_PCT STRONG_MOMENTUM_PCT STRONG_MOMENTUM_PCT_CEIL
    end in
  let action :=
    match strength, direction with
    | LOW, _ | _, NEUTRAL => HOLD
    | _, BULLISH => BUY
    | _, BEARISH => SELL
    end in
  {| sg_type := signal_type; sg_strength := strength; sg_score := score; sg_direction := direction;
     sg_action := action |}.

(** * Strategies *)

Record Bar := {
  bar_index : Z;
  bar_price : float;
  bar_prev_price : float;
  bar_pct : float;
  bar_history : list float;
}.

Module Strategies.
Section Strategies.
Context `{CPow}.

Definition Strategy : Type := Bar -> res string.

Definition baseline_momentum : Strategy := fun bar =>
  let* sigma := compute_return_sigma (bar_history bar) in
  Ok (sg_action (classify_signal (bar_pct bar) sigma)).

Definition strong_only : Strategy := fun bar =>
  let* sigma := compute_return_sigma (bar_history bar) in
  Ok (match sigma with
      | None => HOLD
      | Some s =>
          if fltb s SIGMA_FLOOR_PCT then HOLD
          else if fltb (fdiv_nz (fabs (bar_pct bar)) s) STRONG_MOMENTUM_SIGMA then HOLD
          else if fltb 0.0%F (bar_pct bar) then BUY else SELL
      end).

(** The differences of consecutive closes. *)
Definition diffs (lookback : Z) (hist : list float) : list float :=
  let h := slice_last (lookback + 1) hist in
  zip_with fsub (tail h) h.

Definition confirmed_trend_over (lookback : Z) : Strategy := fun bar =>
  let hist := bar_history bar in
  if zlen hist <? lookback + 1 then Ok HOLD
  else
    let ds := diffs lookback hist in
    if forallb (fltb 0.0%F) ds then Ok BUY
    else if forallb (fun d => fltb d 0.0%F) ds then Ok SELL
    else Ok HOLD.

Definition confirmed_trend : Strategy := confirmed_trend_over 5.

Definition mean_reversion : Strategy := fun bar =>
  let* sigma := compute_return_sigma (bar_history bar) in
  Ok (match sigma with
      | None => HOLD
      | Some s =>
          if fltb s SIGMA_FLOOR_PCT then HOLD
          else if fltb (fdiv_nz (fabs (bar_pct bar)) s) MOMENTUM_SIGMA then HOLD
          else if fltb 0.0%F (bar_pct bar) then SELL else BUY
      end).

Definition STRATEGIES : dict Strategy :=
  [("baseline_momentum", baseline_momentum); ("strong_only", strong_only);
   ("confirmed_trend", confirmed_trend); ("mean_reversion", mean_reversion)].

End Strategies.
End Strategies.

(** * The generator *)

Definition AGENT_SIGNAL : string := "SIGNAL_AGENT".
Definition SOURCE_SIGNAL : string := "signal_generator".
Definition SIGNAL_EVERY_N_TICKS : Z := 10.

(** What one tick reads from outside. *)
Record TickEnv := {
  te_json : string -> res val;
  te_closes : string -> list float;
  te_hour : Z;
  te_now : float;
  te_trace_id : string;
  te_msg_id : string;
  te_run_id : string;
  te_elapsed_ms : Z;
}.

Record SignalGenerator := {
  _price_history : dict (list float);
  _atr_history : dict (list float);
  _ticks_since_signal : dict Z;
  total_events : Z;
  sgn_store : InMemoryStore;
  sgn_published : list payload;
}.

Module Generator.

Definition init (store : InMemoryStore) : SignalGenerator :=
  {| _price_history := []; _atr_history := []; _ticks_since_signal := []; total_events := 0;
     sgn_store := store; sgn_published := [] |}.

Definition with_histories (ps as_ : dict (list float)) (g : SignalGenerator) : SignalGenerator :=
  {| _price_history := ps; _atr_history := as_; _ticks_since_signal := _ticks_since_signal g;
     total_events := total_events g; sgn_store := sgn_store g; sgn_published := sgn_published g |}.

Definition with_ticks (t : dict Z) (g : SignalGenerator) : SignalGenerator :=
  {| _price_history := _price_history g; _atr_history := _atr_history g; _ticks_since_signal := t;
     total_events := total_events g; sgn_store := sgn_store g; sgn_published := sgn_published g |}.

Definition with_store (n : Z) (s : InMemoryStore) (out : list payload) (g : SignalGenerator) : SignalGenerator :=
  {| _price_history := _price_history g; _atr_history := _atr_history g;
     _ticks_since_signal := _ticks_since_signal g; total_events := n; sgn_store := s; sgn_published := out |}.

(** [deque(maxlen=n).append(x)] *)
Definition push (n : nat) (x : float) (l : list float) : list float :=
  drop (length (l ++ [x]) - n) (l ++ [x]).

Definition history_of (symbol : string) (d : dict (list float)) : list float :=
  match dget symbol d with Some l => l | None => [] end.

(** The first tick of a symbol creates its histories, warmed with the positive closes. *)
Definition bootstrap (ev : TickEnv) (symbol : string) (g : SignalGenerator) : SignalGenerator :=
  if dmem symbol (_price_history g) then g
  else
    let warm := fold_left (fun l p => if fltb 0.0%F p then push 50 p l else l) (te_closes ev symbol) [] in
    with_histories (dset symbol warm (_price_history g)) (dset symbol [] (_atr_history g)) g.

Definition push_price (symbol : string) (price : float) (g : SignalGenerator) : SignalGenerator :=
  with_histories (dset symbol (push 50 price (history_of symbol (_price_history g))) (_price_history g))
    (_atr_history g) g.

Definition push_atr (symbol : string) (atr : option float) (g : SignalGenerator) : SignalGenerator :=
  match atr with
  | None => g
  | Some x =>
      with_histories (_price_history g)
        (dset symbol (push 25 x (history_of symbol (_atr_history g))) (_atr_history g)) g
  end.

Definition atr_regime_ratio (atr : option float) (atr_hist : list float) : option float :=
  match atr with
  | None => None
  | Some x =>
      if zlen atr_hist <? REGIME_ATR_AVG_PERIOD then None
      else
        let avg_atr := fdiv_nz (fsum_left (slice_last REGIME_ATR_AVG_PERIOD atr_hist)) (of_Z REGIME_ATR_AVG_PERIOD) in
        if fltb 0.0%F avg_atr then Some (py_round (fdiv_nz x avg_atr) 4) else None
  end.

Definition time_of_day (is_crypto : bool) (h : Z) : string :=
  if is_crypto then
    if (14 <=? h) && (h <? 17) then "us_open"
    else if (17 <=? h) && (h <? 21) then "us_afternoon"
    else if (0 <=? h) && (h <? 8) then "asia_session"
    else if (8 <=? h) && (h <? 14) then "europe_session"
    else "overnight"
  else
    if (14 <=? h) && (h <? 16) then "market_open"
    else if (16 <=? h) && (h <? 19) then "midday"
    else if (19 <=? h) && (h <? 21) then "market_close"
    else "after_hours".

(** Whether the tick emits a signal, and the counters after it. *)
Definition _should_publish (every : Z) (symbol : string) (strength : SignalStrength) (ticks : dict Z)
  : bool * dict Z :=
  let every_n := Z.max 1 every in
  if negb (bool_decide (strength = LOW)) then (true, dset symbol 0 ticks)
  else
    let count := match dget symbol ticks with Some c => c | None => every_n end + 1 in
    if every_n <=? count then (true, dset symbol 0 ticks) else (false, dset symbol count ticks).

Definition signal_payload (ev : TickEnv) (symbol : string) (price pct : float) (trace : val) (s : Signal)
    (rsi atr ratio : option float) : payload :=
  let confidence := py_round (fdiv_nz (sg_score s) 100.0%F) 4 in
  [("type", VStr (signal_type_value (sg_type s))); ("symbol", VStr symbol); ("price", VFloat price);
   ("pct", VFloat pct); ("direction", VStr (direction_value (sg_direction s)));
   ("strength", VStr (strength_value (sg_strength s))); ("composite_score", VFloat confidence);
   ("confidence", VFloat confidence); ("action", VStr (sg_action s)); ("trace_id", trace);
   ("ts", match trunc (te_now ev) with Ok z => VInt z | Raise _ => VNone end);
   ("source", VStr AGENT_SIGNAL); ("msg_id", VStr (te_msg_id ev)); ("rsi", vopt VFloat rsi);
   ("atr", vopt VFloat atr); ("atr_regime_ratio", vopt VFloat ratio);
   ("time_of_day", VStr (time_of_day (contains "/" symbol) (te_hour ev)))].

(** [_begin_run]: the run is recorded as running. *)
Definition _begin_run (ev : TickEnv) (trace : val) (p : payload) (s : InMemoryStore) : InMemoryStore :=
  snd (Store.add_agent_run
         [("run_id", VStr (te_run_id ev)); ("trace_id", trace); ("input_data", VDict p);
          ("schema_version", VStr DB_SCHEMA_VERSION); ("source", VStr SOURCE_SIGNAL);
          ("status", VStr "running"); ("created_at", VFloat (te_now ev))] (te_now ev) s).

(** The first run with the identifier is completed in place. *)
Fixpoint complete_run (ev : TickEnv) (out : payload) (runs : list payload) : list payload :=
  match runs with
  | [] => []
  | r :: rest =>
      if val_eqb (Store.field "run_id" r) (VStr (te_run_id ev)) then
        dmerge r [("status", VStr "completed"); ("output_data", VDict out);
                  ("execution_time_ms", VInt (te_elapsed_ms ev))] :: rest
      else r :: complete_run ev out rest
  end.

Definition _persist_signal_complete (ev : TickEnv) (symbol : string) (trace : val) (out : payload)
    (score : float) (s : InMemoryStore) : InMemoryStore :=
  let s := snd (Store.add_event
    [("event_type", VStr "signal.generated"); ("entity_type", VStr "signal"); ("entity_id", trace);
     ("data", VDict out); ("idempotency_key", VStr ("signal-" +:+ symbol +:+ "-" +:+ Fmt.str trace));
     ("schema_version", VStr DB_SCHEMA_VERSION); ("source", VStr SOURCE_SIGNAL)] (te_now ev) s) in
  let s := snd (Store.add_grade
    [("trace_id", trace); ("grade_type", VStr "accuracy"); ("score", VFloat score);
     ("metrics", VDict [("signal_type", Store.field "type" out); ("symbol", VStr symbol)]);
     ("source", VStr SOURCE_SIGNAL); ("schema_version", VStr DB_SCHEMA_VERSION)] (te_now ev) s) in
  let s := set_agent_runs (complete_run ev out (st_agent_runs s)) s in
  snd (Store.add_event
    [("agent_run_id", VStr (te_run_id ev)); ("trace_id", trace); ("log_type", VStr "SIGNAL_GENERATED");
     ("payload", VDict out); ("schema_version", VStr DB_SCHEMA_VERSION); ("source", VStr AGENT_SIGNAL);
     ("timestamp", VFloat (te_now ev))] (te_now ev) s).

(** The tick's dictionary: the payload, parsed when it is a text, or the message itself. *)
Definition tick_payload (ev : TickEnv) (data : payload) : res payload :=
  match dget_or "payload" VNone data with
  | VStr s =>
      let* v := te_json ev s in
      match v with VDict d => Ok d | _ => Raise AttributeError end
  | VDict d => Ok d
  | _ => Ok data
  end.

Definition publish (ev : TickEnv) (symbol : string) (trace : val) (p out : payload) (score : float)
    (g : SignalGenerator) : SignalGenerator :=
  let s := _persist_signal_complete ev symbol trace out score (_begin_run ev trace p (sgn_store g)) in
  with_store (total_events g + 1) s (sgn_published g ++ [out]) g.

Section Process.
Context `{CPow}.

(** A tick of a symbol with a positive (or NaN) price. *)
Definition tick (ev : TickEnv) (symbol : string) (price pct : float) (trace : val) (p : payload)
  : M SignalGenerator unit :=
  do! modify (fun g => push_price symbol price (bootstrap ev symbol g)) in
  let! prices_list := gets (fun g => history_of symbol (_price_history g)) in
  let! rsi := lift (compute_rsi prices_list REGIME_ATR_PERIOD) in
  let! atr := lift (compute_atr_from_prices prices_list REGIME_ATR_PERIOD) in
  do! modify (push_atr symbol atr) in
  let! ratio := gets (fun g => atr_regime_ratio atr (history_of symbol (_atr_history g))) in
  let! sigma := lift (compute_return_sigma prices_list) in
  let s := classify_signal pct sigma in
  let! decision := gets (fun g => _should_publish SIGNAL_EVERY_N_TICKS symbol (sg_strength s) (_ticks_since_signal g)) in
  do! modify (with_ticks (snd decision)) in
  if fst decision
  then modify (publish ev symbol trace p (signal_payload ev symbol price pct trace s rsi atr ratio) (sg_score s))
  else ret tt.

Definition process (ev : TickEnv) (data : payload) : M SignalGenerator unit :=
  let! p := lift (tick_payload ev data) in
  let symbol := dget_or "symbol" VNone p in
  let! price := lift (py_float (dget_or "price" (VInt 0) p)) in
  let! pct := lift (py_float (dget_or "pct" (VInt 0) p)) in
  let trace := first_truthy ["trace_id"] p (VStr (te_trace_id ev)) in
  if negb (truthy symbol) || fleb price 0.0%F then ret tt
  else match symbol with
       | VStr s => tick ev s price pct trace p
       | _ => raise TypeError
       end.

End Process.
End Generator.
