(* ===== verification/MomentumFacts.v ===== *)
(** MomentumFacts: the range and the order of signal scores, how the strategies relate,
    and the cadence of the signal throttle. *)
From S2P Require Import Prelude StateErr PyFloat FloatFacts PyVal PyMath PyPow Config Params Policy Filters Store Execution Engine Momentum.

(** * Scores *)

Lemma fsub_inf x : is_finite x = true -> fsub (Inf false) x = Inf false.
Proof.
  intros Hx%fopp_finite. change (fadd (Inf false) (fopp x) = Inf false).
  destruct (fopp x); try discriminate Hx; by vm_compute.
Qed.

Lemma unit_frac (f : float) : f <> NaN ->
  within (Fin 0) 1.0%F (if fltb f 0.0%F then 0.0%F else if fltb 1.0%F f then 1.0%F else f).
Proof.
  intros Hf. assert (within (Fin 0) 1.0%F 0.0%F) as W0 by (split; fconst).
  assert (within (Fin 0) 1.0%F 1.0%F) as W1 by (split; fconst).
  destruct (fltb f 0.0%F) eqn:E0; [exact W0|]. destruct (fltb 1.0%F f) eqn:E1; [exact W1|].
  assert (0.0%F <> NaN) as N0 by (apply dec_not_nan). assert (1.0%F <> NaN) as N1 by (apply dec_not_nan).
  split; [|by apply fltb_false].
  refine (fleb_trans _ 0.0%F _ _ (fltb_false _ _ Hf N0 E0)). fconst.
Qed.

(** The fraction of a band at a value. *)
Definition band_frac (v lo hi : float) : float :=
  let frac := fdiv_nz (v - lo)%F (hi - lo)%F in
  if fltb frac 0.0%F then 0.0%F else if fltb 1.0%F frac then 1.0%F else frac.

(** The constants of a band are in order, and its width and its scores are finite. *)
Record band_ok (lo hi slo shi : float) : Prop := {
  bo_lo : fin_ok lo = true;
  bo_width : is_finite (hi - lo)%F = true;
  bo_pos : fltb (Fin 0) (hi - lo)%F = true;
  bo_order : fleb hi lo = false;
  bo_slo : fin_ok slo = true;
  bo_rise : fin_ok (shi - slo)%F = true;
  bo_rise_pos : fleb (Fin 0) (shi - slo)%F = true;
  bo_full : fleb (1.0 * (shi - slo))%F (shi - slo)%F = true;
  bo_top : fleb (slo + (shi - slo))%F shi = true;
  bo_bottom : fleb slo (slo + Fin 0)%F = true;
  bo_big : is_finite (Fin 0 - lo)%F = true /\ is_finite (1e12 - lo)%F = true /\
           fin_ok (Fin 0 - lo)%F = true /\ fin_ok (1e12 - lo)%F = true;
}.

Lemma band_frac_unit v lo hi :
  fin_ok lo = true -> is_finite (hi - lo)%F = true -> fltb (Fin 0) (hi - lo)%F = true ->
  v <> NaN -> v <> Inf true -> within (Fin 0) 1.0%F (band_frac v lo hi).
Proof.
  intros Fl Fw Hw Hv Hi. unfold band_frac. apply unit_frac.
  assert (hi - lo <> NaN)%F as Nw by (by apply finite_not_nan). pose proof (fin_ok_finite _ Fl) as Fl'.
  destruct (is_finite v) eqn:Fv.
  - apply fdiv_nz_not_nan; [by right|by apply fsub_not_nan|done].
  - destruct v as [|[]| |]; try done. rewrite fsub_inf by done. by rewrite fdiv_nz_inf.
Qed.

Lemma graduate_frac v lo hi slo shi :
  fleb hi lo = false -> _graduate_score v lo hi slo shi = (slo + band_frac v lo hi * (shi - slo))%F.
Proof. intros E. unfold _graduate_score. by rewrite E. Qed.

Lemma graduate_within v lo hi slo shi :
  band_ok lo hi slo shi -> v <> NaN -> v <> Inf true -> within slo shi (_graduate_score v lo hi slo shi).
Proof.
  intros B Hv Hi. rewrite graduate_frac by apply B.
  pose proof (band_frac_unit v lo hi (bo_lo _ _ _ _ B) (bo_width _ _ _ _ B) (bo_pos _ _ _ _ B) Hv Hi) as Hf.
  assert (within (Fin 0) (shi - slo)%F (shi - slo)%F) as Hr
    by (split; [apply B|apply fleb_refl, finite_not_nan, fin_ok_finite, B]).
  assert (fin_ok 1.0%F = true) as F1 by fconst. assert (fin_ok (Fin 0) = true) as F0 by fconst.
  pose proof (fmul_within _ _ _ _ _ F1 (bo_rise _ _ _ _ B) (bo_full _ _ _ _ B) Hf Hr) as Hm.
  assert (within slo slo slo) as Hs by (split; apply fleb_refl, finite_not_nan, fin_ok_finite, B).
  exact (fadd_within _ _ _ _ _ _ _ _ (bo_slo _ _ _ _ B) (bo_slo _ _ _ _ B) F0 (bo_rise _ _ _ _ B)
           (bo_bottom _ _ _ _ B) (bo_top _ _ _ _ B) Hs Hm).
Qed.

Definition moderate (x : float) : Prop := within (Fin 0) 1e12%F x.

Lemma moderate_finite x : moderate x -> is_finite x = true.
Proof. apply within_finite; fconst. Qed.

Lemma moderate_sub lo x : fin_ok lo = true -> fin_ok (Fin 0 - lo)%F = true -> fin_ok (1e12 - lo)%F = true ->
  moderate x -> is_finite (x - lo)%F = true.
Proof.
  intros Fl F1 F2 Hx. apply (within_finite (Fin 0 - lo)%F (1e12 - lo)%F); [done|done|].
  assert (within lo lo lo) as Hl by (split; apply fleb_refl, finite_not_nan, fin_ok_finite, Fl).
  assert (fin_ok (Fin 0) = true) as F0 by fconst. assert (fin_ok 1e12%F = true) as F12 by fconst.
  refine (fsub_within _ _ _ _ _ _ _ _ F0 F12 Fl Fl _ _ Hx Hl);
    apply fleb_refl, finite_not_nan, fin_ok_finite; done.
Qed.

Lemma unit_step_mono (f g : float) : fleb f g = true ->
  fleb (if fltb f 0.0%F then 0.0%F else if fltb 1.0%F f then 1.0%F else f)
       (if fltb g 0.0%F then 0.0%F else if fltb 1.0%F g then 1.0%F else g) = true.
Proof.
  intros Hfg. pose proof (fleb_not_nan_l _ _ Hfg) as Nf. pose proof (fleb_not_nan_r _ _ Hfg) as Ng.
  assert (0.0%F <> NaN) as N0 by (apply dec_not_nan). assert (1.0%F <> NaN) as N1 by (apply dec_not_nan).
  destruct (unit_frac g Ng) as [G0 G1].
  destruct (fltb f 0.0%F) eqn:E0.
  { refine (fleb_trans _ (Fin 0) _ _ G0). fconst. }
  pose proof (fltb_false _ _ Nf N0 E0) as Ef.
  assert (fltb g 0.0%F = false) as ->.
  { rewrite fltb_negb by done. by rewrite (fleb_trans _ _ _ Ef Hfg). }
  destruct (fltb 1.0%F f) eqn:E1.
  { by rewrite (fltb_fleb_trans _ _ _ E1 Hfg). }
  destruct (fltb 1.0%F g) eqn:E2; [by apply fltb_false|exact Hfg].
Qed.

Lemma frac_finite x lo hi slo shi : band_ok lo hi slo shi -> moderate x ->
  within (Fin 0) 1.0%F (band_frac x lo hi) /\ is_finite (band_frac x lo hi) = true /\
  is_finite (band_frac x lo hi * (shi - slo))%F = true.
Proof.
  intros B Mx. pose proof (moderate_finite _ Mx) as Fx.
  assert (x <> Inf true) as Nx by (intros ->; discriminate Fx).
  pose proof (band_frac_unit x lo hi (bo_lo _ _ _ _ B) (bo_width _ _ _ _ B) (bo_pos _ _ _ _ B)
                (finite_not_nan _ Fx) Nx) as Hu.
  assert (fin_ok 1.0%F = true) as F1 by fconst. assert (fin_ok (Fin 0) = true) as F0 by fconst.
  pose proof (fin_ok_finite _ (bo_rise _ _ _ _ B)) as Fr.
  assert (within (Fin 0) (shi - slo)%F (shi - slo)%F) as Hr
    by exact (conj (bo_rise_pos _ _ _ _ B) (fleb_refl _ (finite_not_nan _ Fr))).
  pose proof (fmul_within _ _ _ _ _ F1 (bo_rise _ _ _ _ B) (bo_full _ _ _ _ B) Hu Hr) as Hm.
  split; [exact Hu|]. split; [exact (within_finite _ _ _ F0 F1 Hu)|].
  exact (within_finite _ _ _ F0 (bo_rise _ _ _ _ B) Hm).
Qed.

Lemma graduate_mono v w lo hi slo shi :
  band_ok lo hi slo shi -> moderate v -> moderate w -> fleb lo v = true -> fleb v w = true ->
  fleb (_graduate_score v lo hi slo shi) (_graduate_score w lo hi slo shi) = true.
Proof.
  intros B Mv Mw Hv Hvw. destruct (bo_big _ _ _ _ B) as (_ & _ & G1 & G2).
  pose proof (bo_lo _ _ _ _ B) as Fl. pose proof (fin_ok_finite _ Fl) as Fl'.
  pose proof (moderate_finite _ Mv) as Fv. pose proof (moderate_finite _ Mw) as Fw.
  pose proof (moderate_sub _ _ Fl G1 G2 Mv) as Fvl. pose proof (moderate_sub _ _ Fl G1 G2 Mw) as Fwl.
  rewrite !graduate_frac by apply B.
  pose proof (fleb_refl _ (finite_not_nan _ Fl')) as Rl.
  pose proof (fleb_refl _ (finite_not_nan _ (bo_width _ _ _ _ B))) as Rw.
  assert (fleb (band_frac v lo hi) (band_frac w lo hi) = true) as Hfr
    by exact (unit_step_mono _ _ (fdiv_mono_nonneg _ _ _ _ Fvl Fwl (bo_width _ _ _ _ B) (bo_width _ _ _ _ B)
                (fsub_nonneg _ _ Fv Fl' Hv) (bo_pos _ _ _ _ B) (fsub_mono _ _ _ _ Fv Fw Fl' Fl' Hvw Rl) Rw)).
  destruct (frac_finite v _ _ _ _ B Mv) as (Uv & Ffv & Fmv).
  destruct (frac_finite w _ _ _ _ B Mw) as (Uw & Ffw & Fmw).
  pose proof (fin_ok_finite _ (bo_rise _ _ _ _ B)) as Fr.
  pose proof (fin_ok_finite _ (bo_slo _ _ _ _ B)) as Fs.
  exact (fadd_mono _ _ _ _ Fs Fs Fmv Fmw (fleb_refl _ (finite_not_nan _ Fs))
           (fmul_mono_nonneg _ _ _ _ Ffv Ffw Fr Fr (proj1 Uv) (bo_rise_pos _ _ _ _ B) Hfr
              (fleb_refl _ (finite_not_nan _ Fr)))).
Qed.

(** The limits of the two threshold regimes. *)
Record limits_ok (lo hi ceil : float) : Prop := {
  lo_band : band_ok lo hi MOMENTUM_SCORE_FLOOR STRONG_MOMENTUM_SCORE_FLOOR;
  hi_band : band_ok hi ceil STRONG_MOMENTUM_SCORE_FLOOR STRONG_MOMENTUM_SCORE_CEIL;
  lo_pos : fltb 1.0%F lo = true;
  lo_hi : fleb lo hi = true;
}.

Lemma sigma_limits : limits_ok MOMENTUM_SIGMA STRONG_MOMENTUM_SIGMA STRONG_MOMENTUM_SIGMA_CEIL.
Proof. split; [split; try fconst; split_and!; fconst..|fconst|fconst]. Qed.

Lemma pct_limits : limits_ok MOMENTUM_PCT STRONG_MOMENTUM_PCT STRONG_MOMENTUM_PCT_CEIL.
Proof. split; [split; try fconst; split_and!; fconst..|fconst|fconst]. Qed.

(** What a tier says of its score. *)
Definition tier_score (t : SignalType * SignalStrength * float) : Prop :=
  match t with
  | (STRONG_MOMENTUM, HIGH, x) => within 80.0%F 95.0%F x
  | (MOMENTUM, NORMAL, x) => within 55.0%F 80.0%F x
  | (PRICE_UPDATE, LOW, x) => x = 30.0%F
  | _ => False
  end.

Lemma ge_limit lo x : fltb 1.0%F lo = true -> fleb lo x = true -> x <> NaN /\ x <> Inf true.
Proof.
  intros Hl Hx. split; [by apply fleb_not_nan_r in Hx|]. intros ->.
  pose proof (fltb_fleb_trans _ _ _ Hl Hx) as E. vm_compute in E. discriminate E.
Qed.

Lemma tier_ok x lo hi ceil : limits_ok lo hi ceil -> tier_score (tier x lo hi ceil).
Proof.
  intros L. unfold tier. destruct (fleb hi x) eqn:Eh.
  - destruct (ge_limit lo x (lo_pos _ _ _ L) (fleb_trans _ _ _ (lo_hi _ _ _ L) Eh)).
    by apply (graduate_within x hi ceil _ _ (hi_band _ _ _ L)).
  - destruct (fleb lo x) eqn:El; [|reflexivity].
    destruct (ge_limit lo x (lo_pos _ _ _ L) El). by apply (graduate_within x lo hi _ _ (lo_band _ _ _ L)).
Qed.

Lemma tier_mono x y lo hi ceil :
  limits_ok lo hi ceil -> moderate x -> moderate y -> fleb x y = true ->
  fleb (snd (tier x lo hi ceil)) (snd (tier y lo hi ceil)) = true.
Proof.
  intros L Mx My Hxy. pose proof (tier_ok x lo hi ceil L) as Tx. pose proof (tier_ok y lo hi ceil L) as Ty.
  unfold tier in *. destruct (fleb hi x) eqn:Ehx.
  - rewrite (fleb_trans _ _ _ Ehx Hxy). cbn [snd]. exact (graduate_mono _ _ _ _ _ _ (hi_band _ _ _ L) Mx My Ehx Hxy).
  - destruct (fleb hi y) eqn:Ehy; cbn [snd tier_score] in *.
    + destruct (fleb lo x); cbn [snd tier_score] in *.
      * exact (fleb_trans _ _ _ (proj2 Tx) (proj1 Ty)).
      * refine (fleb_trans _ 80.0%F _ _ (proj1 Ty)). fconst.
    + destruct (fleb lo x) eqn:Elx.
      * rewrite (fleb_trans _ _ _ Elx Hxy). cbn [snd]. exact (graduate_mono _ _ _ _ _ _ (lo_band _ _ _ L) Mx My Elx Hxy).
      * destruct (fleb lo y); cbn [snd tier_score] in *; [|fconst].
        refine (fleb_trans _ 55.0%F _ _ (proj1 Ty)). fconst.
Qed.

(** * The decision *)

Lemma tier_strength x lo hi ceil : fleb lo hi = true ->
  snd (fst (tier x lo hi ceil)) <> LOW -> fleb lo x = true.
Proof.
  intros Hlh. unfold tier. destruct (fleb hi x) eqn:Eh; [intros _; exact (fleb_trans _ _ _ Hlh Eh)|].
  destruct (fleb lo x); [done|]. intros Hn. by destruct Hn.
Qed.

Lemma tier_trades x lo hi ceil : fleb lo x = true -> snd (fst (tier x lo hi ceil)) <> LOW.
Proof. intros Hx. unfold tier. rewrite Hx. by destruct (fleb hi x). Qed.

Lemma zero_ratio_small p s : is_zero p = true -> fleb SIGMA_FLOOR_PCT s = true ->
  fleb MOMENTUM_SIGMA (fdiv_nz (fabs p) s) = false.
Proof.
  intros Hp Hs.
  assert (fabs p = Fin 0) as ->.
  { destruct p as [| | |n]; try discriminate Hp; [reflexivity|].
    change ((n =? 0) = true) in Hp. by apply Z.eqb_eq in Hp as ->. }
  destruct (is_finite s) eqn:Fs.
  - assert (fltb (Fin 0) SIGMA_FLOOR_PCT = true) as Hf by fconst.
    pose proof (fltb_fleb_trans _ _ _ Hf Hs) as Hp0.
    pose proof (fdiv_unit (Fin 0) s eq_refl Fs eq_refl (fltb_fleb _ _ Hp0) Hp0) as [_ Hu].
    assert (fltb 1.0%F MOMENTUM_SIGMA = true) as H1 by fconst.
    exact (fltb_asym _ _ (fleb_fltb_trans _ _ _ Hu H1)).
  - destruct s as [|[]| |]; try discriminate Fs; vm_compute in Hs |- *; try discriminate Hs; reflexivity.
Qed.

Lemma zero_move_small p : is_zero p = true -> fleb MOMENTUM_PCT (fabs p) = false.
Proof.
  destruct p as [| | |n]; intros Hp; try discriminate Hp; [fconst|].
  change ((n =? 0) = true) in Hp. apply Z.eqb_eq in Hp as ->. fconst.
Qed.

Lemma nonzero_signed x : x <> NaN -> is_zero x = false -> fltb (Fin 0) x = true \/ fltb x (Fin 0) = true.
Proof.
  intros Hx Hz. destruct (key_some x Hx) as [a Ha].
  assert (a <> 0).
  { intros ->. destruct x as [|[]| |n]; try discriminate Hz; cbn [key] in Ha.
    - by destruct Hx.
    - pose proof bound_pos. apply (f_equal (default 1)) in Ha. cbn in Ha. lia.
    - pose proof bound_pos. apply (f_equal (default 1)) in Ha. cbn in Ha. lia.
    - apply (f_equal (default 1)) in Ha. cbn in Ha. subst n. change ((0 =? 0) = false) in Hz. discriminate Hz. }
  destruct (Z.lt_ge_cases 0 a); [left|right]; apply fltb_key.
  - by exists 0, a.
  - exists a, 0. split_and!; [done|done|lia].
Qed.

Lemma fabs_nan : fabs NaN = NaN.
Proof. reflexivity. Qed.

(** The tier of a move under a volatility estimate. *)
Definition move_tier (pct : float) (sigma : option float) : SignalType * SignalStrength * float :=
  match usable_sigma sigma with
  | Some s => tier (fdiv_nz (fabs pct) s) MOMENTUM_SIGMA STRONG_MOMENTUM_SIGMA STRONG_MOMENTUM_SIGMA_CEIL
  | None => tier (fabs pct) MOMENTUM_PCT STRONG_MOMENTUM_PCT STRONG_MOMENTUM_PCT_CEIL
  end.

Lemma usable_floor sigma s : usable_sigma sigma = Some s -> fleb SIGMA_FLOOR_PCT s = true /\ sigma = Some s.
Proof.
  destruct sigma as [x|]; [|discriminate]. unfold usable_sigma.
  destruct (fleb SIGMA_FLOOR_PCT x) eqn:E; [|discriminate]. intros <-%Some_inj. exact (conj E eq_refl).
Qed.

Lemma move_tier_ok pct sigma : tier_score (move_tier pct sigma).
Proof. unfold move_tier. destruct (usable_sigma sigma); [exact (tier_ok _ _ _ _ sigma_limits)|exact (tier_ok _ _ _ _ pct_limits)]. Qed.

Lemma trading_move_signed pct sigma : snd (fst (move_tier pct sigma)) <> LOW ->
  fltb (Fin 0) pct = true \/ fltb pct (Fin 0) = true.
Proof.
  intros Ht. apply nonzero_signed.
  - intros ->. unfold move_tier in Ht. rewrite fabs_nan in Ht. destruct (usable_sigma sigma) as [s|] eqn:Es.
    + rewrite fdiv_nz_nan in Ht.
      exact (fleb_not_nan_r _ _ (tier_strength _ _ _ _ (lo_hi _ _ _ sigma_limits) Ht) eq_refl).
    + exact (fleb_not_nan_r _ _ (tier_strength _ _ _ _ (lo_hi _ _ _ pct_limits) Ht) eq_refl).
  - destruct (is_zero pct) eqn:Ez; [|reflexivity]. exfalso. unfold move_tier in Ht.
    destruct (usable_sigma sigma) as [s|] eqn:Es.
    + apply (tier_strength _ _ _ _ (lo_hi _ _ _ sigma_limits)) in Ht. apply usable_floor in Es as [Es _].
      rewrite (zero_ratio_small pct s Ez Es) in Ht. discriminate Ht.
    + apply (tier_strength _ _ _ _ (lo_hi _ _ _ pct_limits)) in Ht. rewrite (zero_move_small pct Ez) in Ht. discriminate Ht.
Qed.

Lemma zero_literal : 0.0%F = Fin 0.
Proof. fconst. Qed.

Lemma classify_fields pct sigma : let s := classify_signal pct sigma in
  move_tier pct sigma = (sg_type s, sg_strength s, sg_score s) /\ sg_direction s = direction_of pct.
Proof.
  cbv zeta. unfold classify_signal, move_tier.
  by destruct (usable_sigma sigma) as [x|]; destruct (tier _ _ _ _) as [[t h] c].
Qed.

(** Every signal is consistent, for every move and every volatility, NaN and infinities
    included: its score is 30 for noise, in [55, 80] for a momentum move and in [80, 95] for
    a strong one; it trades exactly when it is not noise, and then it buys a rise and sells
    a fall. *)
Theorem signal_sound pct sigma : let s := classify_signal pct sigma in
  tier_score (sg_type s, sg_strength s, sg_score s) /\
  (sg_action s = HOLD <-> sg_strength s = LOW) /\
  (sg_action s = BUY <-> sg_strength s <> LOW /\ fltb 0.0%F pct = true) /\
  (sg_action s = SELL <-> sg_strength s <> LOW /\ fltb pct 0.0%F = true).
Proof.
  cbv zeta. pose proof (classify_fields pct sigma) as [E _]. cbv zeta in E. rewrite <- E.
  split; [apply move_tier_ok|].
  pose proof (trading_move_signed pct sigma) as Hs. rewrite E in Hs. cbn [fst snd] in Hs.
  assert (sg_action (classify_signal pct sigma) =
          match sg_strength (classify_signal pct sigma), direction_of pct with
          | LOW, _ | _, NEUTRAL => HOLD | _, BULLISH => BUY | _, BEARISH => SELL end) as ->.
  { unfold classify_signal. by destruct (usable_sigma sigma); destruct (tier _ _ _ _) as [[t h] c]. }
  unfold direction_of. rewrite zero_literal in *.
  pose proof (fltb_asym (Fin 0) pct) as Ha.
  destruct (sg_strength (classify_signal pct sigma));
    [destruct (fltb (Fin 0) pct) eqn:Ep; destruct (fltb pct (Fin 0)) eqn:En..|];
    try (pose proof (fltb_fleb _ _ En) as En'; rewrite (Ha eq_refl) in En'; discriminate En');
    try (destruct (Hs ltac:(discriminate)) as [X|X]; discriminate X);
    split_and!; split; try intros [X1 X2]; try discriminate; try (intros X; discriminate X); try done.
Qed.

Definition small_move (p : float) : Prop := within (-1e6)%F 1e6%F p.

Lemma small_move_abs p : small_move p -> within (Fin 0) 1e6%F (fabs p).
Proof.
  intros Hp. assert (is_finite p = true) as Fp by (revert Hp; apply within_finite; fconst).
  destruct Hp as [H1 H2]. pose proof (fabs_finite _ Fp) as Fa.
  split; [by apply fabs_nonneg, finite_not_nan|].
  assert (is_finite (-1e6)%F = true) as Fl by fconst. assert (is_finite 1e6%F = true) as Fh by fconst.
  apply (fleb_units _ _ Fl Fp) in H1. apply (fleb_units _ _ Fp Fh) in H2.
  apply (fleb_units _ _ Fa Fh). assert (units (-1e6)%F = - units 1e6%F) as E by fconst. rewrite E in H1.
  assert (units (fabs p) = Z.abs (units p)) as ->; [|lia].
  pose proof (key_fabs p) as K. rewrite !finite_key in K by done. by injection K.
Qed.

Lemma abs_moderate x : within (Fin 0) 1e6%F x -> moderate x.
Proof. apply within_weaken; fconst. Qed.

Lemma ratio_moderate x s : within (Fin 0) 1e6%F x -> fleb SIGMA_FLOOR_PCT s = true -> is_finite s = true ->
  moderate (fdiv_nz x s).
Proof.
  intros Hx Hs Fs. assert (is_finite x = true) as Fx by (revert Hx; apply within_finite; fconst).
  assert (fltb (Fin 0) SIGMA_FLOOR_PCT = true) as Hf by fconst.
  assert (is_finite SIGMA_FLOOR_PCT = true) as Ff by fconst. assert (is_finite 1e6%F = true) as Fh by fconst.
  split; [exact (fdiv_nonneg _ _ Fx Fs (proj1 Hx) (fltb_fleb_trans _ _ _ Hf Hs))|].
  refine (fleb_trans _ _ _ (fdiv_mono_nonneg _ _ _ _ Fx Fh Fs Ff (proj1 Hx) Hf (proj2 Hx) Hs) _). fconst.
Qed.

Lemma move_tier_mono p q sigma :
  (forall s, sigma = Some s -> is_finite s = true) -> small_move p -> small_move q ->
  fleb (fabs p) (fabs q) = true ->
  fleb (snd (move_tier p sigma)) (snd (move_tier q sigma)) = true /\
  (snd (fst (move_tier p sigma)) <> LOW -> snd (fst (move_tier q sigma)) <> LOW).
Proof.
  intros Hs Hp%small_move_abs Hq%small_move_abs Hpq. unfold move_tier.
  destruct (usable_sigma sigma) as [s|] eqn:Es.
  - apply usable_floor in Es as [Ef Es]. pose proof (Hs s Es) as Fs.
    pose proof (ratio_moderate _ s Hp Ef Fs) as Mp. pose proof (ratio_moderate _ s Hq Ef Fs) as Mq.
    assert (fleb (fdiv_nz (fabs p) s) (fdiv_nz (fabs q) s) = true) as Hr.
    { assert (fltb (Fin 0) SIGMA_FLOOR_PCT = true) as Hf by fconst.
      exact (fdiv_mono_nonneg _ _ _ _ (moderate_finite _ (abs_moderate _ Hp)) (moderate_finite _ (abs_moderate _ Hq))
               Fs Fs (proj1 Hp) (fltb_fleb_trans _ _ _ Hf Ef) Hpq (fleb_refl _ (finite_not_nan _ Fs))). }
    split; [exact (tier_mono _ _ _ _ _ sigma_limits Mp Mq Hr)|].
    intros Ht%(tier_strength _ _ _ _ (lo_hi _ _ _ sigma_limits)). exact (tier_trades _ _ _ _ (fleb_trans _ _ _ Ht Hr)).
  - split; [exact (tier_mono _ _ _ _ _ pct_limits (abs_moderate _ Hp) (abs_moderate _ Hq) Hpq)|].
    intros Ht%(tier_strength _ _ _ _ (lo_hi _ _ _ pct_limits)). exact (tier_trades _ _ _ _ (fleb_trans _ _ _ Ht Hpq)).
Qed.

(** A deeper move never earns less confidence: at the same volatility estimate the score
    grows with the size of the move, across the borders of the tiers, and a move deeper
    than one that trades also trades. *)
Theorem deeper_moves_score_higher p q sigma :
  (forall s, sigma = Some s -> is_finite s = true) -> small_move p -> small_move q ->
  fleb (fabs p) (fabs q) = true ->
  fleb (sg_score (classify_signal p sigma)) (sg_score (classify_signal q sigma)) = true /\
  (sg_strength (classify_signal p sigma) <> LOW -> sg_strength (classify_signal q sigma) <> LOW).
Proof.
  intros Hs Hp Hq Hpq. pose proof (move_tier_mono p q sigma Hs Hp Hq Hpq) as [H1 H2].
  destruct (classify_fields p sigma) as [Ep _]. destruct (classify_fields q sigma) as [Eq _].
  cbv zeta in Ep, Eq. rewrite Ep, Eq in H1, H2. exact (conj H1 H2).
Qed.

Lemma deeper_moves_score_higher_witness :
  fleb (sg_score (classify_signal 0.5%F (Some 0.25%F))) (sg_score (classify_signal (-0.75)%F (Some 0.25%F))) = true /\
  (sg_strength (classify_signal 0.5%F (Some 0.25%F)) <> LOW ->
   sg_strength (classify_signal (-0.75)%F (Some 0.25%F)) <> LOW).
Proof.
  apply (deeper_moves_score_higher 0.5%F (-0.75)%F (Some 0.25%F)).
  - intros s Es. apply Some_inj in Es as <-. fconst.
  - split; fconst.
  - split; fconst.
  - fconst.
Defined.

(** * Strategies *)

Section StrategyFacts.
Context `{CPow}.
Import Strategies.

Lemma usable_not_nan s : s <> NaN -> usable_sigma (Some s) = if fltb s SIGMA_FLOOR_PCT then None else Some s.
Proof.
  intros Hs. unfold usable_sigma. assert (SIGMA_FLOOR_PCT <> NaN) as Hf by (apply dec_not_nan).
  rewrite (fltb_negb s SIGMA_FLOOR_PCT Hs Hf). by destruct (fleb SIGMA_FLOOR_PCT s).
Qed.

Lemma not_rise_falls pct sigma : snd (fst (move_tier pct sigma)) <> LOW ->
  direction_of pct = if fltb 0.0%F pct then BULLISH else BEARISH.
Proof.
  intros Ht%trading_move_signed. unfold direction_of. rewrite zero_literal.
  destruct (fltb (Fin 0) pct); [reflexivity|]. destruct Ht as [X|X]; [discriminate X|by rewrite X].
Qed.

(** The action of a signal from its tier. *)
Lemma classify_action pct sigma :
  sg_action (classify_signal pct sigma) =
  match snd (fst (move_tier pct sigma)) with
  | LOW => HOLD
  | _ => if fltb 0.0%F pct then BUY else SELL
  end.
Proof.
  pose proof (not_rise_falls pct sigma) as Hd. revert Hd. unfold classify_signal, move_tier.
  destruct (usable_sigma sigma); destruct (tier _ _ _ _) as [[t h] c]; cbn [fst snd sg_action];
    intros Hd; destruct h; try reflexivity; rewrite Hd by discriminate; by destruct (fltb 0.0%F pct).
Qed.

Definition opposite (a : string) : string :=
  if String.eqb a BUY then SELL else if String.eqb a SELL then BUY else a.

(** The ratio of a bar's move to its volatility. *)
Definition bar_ratio (bar : Bar) (s : float) : float := fdiv_nz (fabs (bar_pct bar)) s.

Lemma tier_low x lo hi ceil : fleb lo x = false -> fleb lo hi = true ->
  snd (fst (tier x lo hi ceil)) = LOW.
Proof.
  intros Hx Hlh. unfold tier. rewrite Hx. destruct (fleb hi x) eqn:Eh; [|reflexivity].
  by rewrite (fleb_trans _ _ _ Hlh Eh) in Hx.
Qed.

Lemma ratio_not_nan bar s : bar_pct bar <> NaN -> is_finite s = true -> is_zero s = false ->
  bar_ratio bar s <> NaN.
Proof.
  intros Hp Fs Zs. unfold bar_ratio. apply fdiv_nz_not_nan; [by right| |by apply finite_not_nan].
  destruct (key_some _ Hp) as [a Ha]. apply is_nan_false.
  pose proof (key_fabs (bar_pct bar)) as K. rewrite Ha in K. by destruct (fabs (bar_pct bar)).
Qed.

(** The strategies are what they are meant to be against the live signal, on every bar
    whose volatility estimate is a number at or above the floor: the strong-moves strategy
    takes a subset of the signal's trades with the same side, and mean reversion trades on
    exactly the signal's bars, on the opposite side. *)
Theorem strategies_follow_baseline bar s :
  compute_return_sigma (bar_history bar) = Ok (Some s) -> is_finite s = true ->
  fleb SIGMA_FLOOR_PCT s = true -> bar_pct bar <> NaN ->
  exists a, baseline_momentum bar = Ok a /\ mean_reversion bar = Ok (opposite a) /\
    (strong_only bar = Ok HOLD \/ strong_only bar = Ok a).
Proof.
  intros E Fs Hfl Hp. unfold baseline_momentum, mean_reversion, strong_only. rewrite E. cbn [res_bind].
  eexists. split; [reflexivity|].
  assert (fltb (Fin 0) SIGMA_FLOOR_PCT = true) as Hf by fconst.
  assert (fltb s SIGMA_FLOOR_PCT = false) as Efl.
  { by rewrite (fltb_negb s SIGMA_FLOOR_PCT (finite_not_nan _ Fs) (dec_not_nan _ _)), Hfl. }
  assert (is_zero s = false) as Zs.
  { destruct (is_zero s) eqn:Z; [|reflexivity]. pose proof (fltb_fleb_trans _ _ _ Hf Hfl) as X.
    rewrite (fltb_negb (Fin 0) s (finite_not_nan (Fin 0) eq_refl) (finite_not_nan _ Fs)), (is_zero_le _ Z) in X.
    discriminate X. }
  pose proof (ratio_not_nan bar s Hp Fs Zs) as Hr. fold (bar_ratio bar s) in *.
  assert (usable_sigma (Some s) = Some s) as Eu by (rewrite (usable_not_nan s (finite_not_nan _ Fs)), Efl; reflexivity).
  rewrite classify_action. unfold move_tier. rewrite Eu, Efl. fold (bar_ratio bar s).
  assert (MOMENTUM_SIGMA <> NaN) as N1 by (apply dec_not_nan).
  assert (STRONG_MOMENTUM_SIGMA <> NaN) as N2 by (apply dec_not_nan).
  rewrite (fltb_negb _ _ Hr N1), (fltb_negb _ _ Hr N2).
  destruct (fleb MOMENTUM_SIGMA (bar_ratio bar s)) eqn:E1; cbn [negb].
  - pose proof (tier_trades _ _ STRONG_MOMENTUM_SIGMA STRONG_MOMENTUM_SIGMA_CEIL E1) as Ht.
    destruct (snd (fst (tier _ _ _ _))); [| |destruct (Ht eq_refl)];
      (split; [destruct (fltb 0.0%F (bar_pct bar)); reflexivity|]);
      (destruct (fleb STRONG_MOMENTUM_SIGMA (bar_ratio bar s)); [right; reflexivity|left; reflexivity]).
  - rewrite (tier_low _ _ _ _ E1 (lo_hi _ _ _ sigma_limits)). split; [reflexivity|].
    destruct (fleb STRONG_MOMENTUM_SIGMA (bar_ratio bar s)) eqn:E2; [|left; reflexivity].
    rewrite (fleb_trans _ _ _ (lo_hi _ _ _ sigma_limits) E2) in E1. discriminate E1.
Qed.

End StrategyFacts.

(** Twenty-two closes and a strong rise. *)
Definition choppy : list float :=
  [100.0; 100.1; 100.0; 100.1; 100.0; 100.1; 100.0; 100.1; 100.0; 100.1; 100.0; 100.1; 100.0; 100.1;
   100.0; 100.1; 100.0; 100.1; 100.0; 100.1; 100.0; 101.0]%F.
Definition rising_bar : Bar :=
  {| bar_index := 22; bar_price := 101.0%F; bar_prev_price := 100.0%F; bar_pct := 1.0%F; bar_history := choppy |}.

Lemma strategies_follow_baseline_witness : exists a,
  Strategies.baseline_momentum (H := pow_exact) rising_bar = Ok a /\
  Strategies.mean_reversion (H := pow_exact) rising_bar = Ok (opposite a) /\
  (Strategies.strong_only (H := pow_exact) rising_bar = Ok HOLD \/
   Strategies.strong_only (H := pow_exact) rising_bar = Ok a).
Proof.
  assert (match compute_return_sigma (H := pow_exact) choppy with
          | Ok (Some s) => is_finite s && fleb SIGMA_FLOOR_PCT s | _ => false end = true) as T by fconst.
  change choppy with (bar_history rising_bar) in T.
  destruct (compute_return_sigma (H := pow_exact) (bar_history rising_bar)) as [[s|]|e] eqn:E;
    [|discriminate T..].
  apply andb_true_iff in T as [Fs Hs].
  apply (strategies_follow_baseline (H := pow_exact) rising_bar s E Fs Hs). apply dec_not_nan.
Defined.

(** * The throttle *)

Section Throttle.
Variable every : Z.
Let n : Z := Z.max 1 every.

(** The decisions along consecutive ticks of one symbol. *)
Fixpoint publications (symbol : string) (ls : list SignalStrength) (ticks : dict Z) : list bool :=
  match ls with
  | [] => []
  | s :: rest =>
      let '(b, ticks') := Generator._should_publish every symbol s ticks in b :: publications symbol rest ticks'
  end.

(** The same with the counter alone. *)
Fixpoint cadence (ls : list SignalStrength) (c : Z) : list bool :=
  match ls with
  | [] => []
  | s :: rest =>
      if negb (bool_decide (s = LOW)) || (n <=? c + 1) then true :: cadence rest 0
      else false :: cadence rest (c + 1)
  end.

Definition counter (symbol : string) (ticks : dict Z) : Z :=
  match dget symbol ticks with Some c => c | None => n end.

Lemma publications_cadence symbol ls ticks :
  publications symbol ls ticks = cadence ls (counter symbol ticks).
Proof.
  revert ticks. induction ls as [|s rest IH]; intros ticks; [done|]. cbn [publications cadence].
  unfold Generator._should_publish. fold n. fold (counter symbol ticks).
  destruct (negb (bool_decide (s = LOW))); cbn [orb];
    [|destruct (n <=? counter symbol ticks + 1)]; by rewrite IH; unfold counter at 1; rewrite dget_dset_eq.
Qed.

Lemma cadence_length ls c : length (cadence ls c) = length ls.
Proof. revert c. induction ls as [|s rest IH]; intros c; [done|]. cbn. case_match; cbn; by rewrite IH. Qed.

Lemma cadence_trades ls : forall c i s, ls !! i = Some s -> s <> LOW -> cadence ls c !! i = Some true.
Proof.
  induction ls as [|x rest IH]; intros c i s Hi Hs; [done|]. cbn [cadence].
  destruct i as [|i]; cbn in Hi.
  - injection Hi as ->. by rewrite bool_decide_eq_false_2.
  - case_match; cbn; eauto.
Qed.

Lemma cadence_window ls : forall c, 0 <= c -> n - c <= zlen ls -> ls <> [] ->
  exists j : nat, (j = 0%nat \/ Z.of_nat j < n - c) /\ cadence ls c !! j = Some true.
Proof.
  induction ls as [|x rest IH]; intros c Hc Hl Hne; [done|]. cbn [cadence].
  destruct (negb (bool_decide (x = LOW)) || (n <=? c + 1)) eqn:E; [exists 0%nat; split; [by left|done]|].
  boolify. apply Z.leb_gt in H0. unfold zlen in Hl. cbn [length] in Hl.
  destruct (IH (c + 1)) as (j & Hj & Ej); [lia|unfold zlen; lia| |exists (S j); split; [right; lia|done]].
  intros ->. cbn in Hl. lia.
Qed.

(** A noise tick that publishes ends a silence of [n - 1] ticks. *)
Lemma cadence_silence ls : forall c i, cadence ls c !! i = Some true -> ls !! i = Some LOW ->
  ((forall j, (j < i)%nat -> cadence ls c !! j = Some false) /\ n <= c + Z.of_nat i + 1) \/
  (exists k, (k < i)%nat /\ n <= Z.of_nat i - Z.of_nat k /\
     forall j, (k < j < i)%nat -> cadence ls c !! j = Some false).
Proof.
  induction ls as [|x rest IH]; intros c i Hi Hl; [done|]. cbn [cadence] in *.
  destruct (negb (bool_decide (x = LOW)) || (n <=? c + 1)) eqn:E; destruct i as [|i]; cbn in Hi, Hl.
  - injection Hl as ->. cbn in E. apply Z.leb_le in E. left. split; [lia|lia].
  - right. destruct (IH 0 i Hi Hl) as [[Hs Hn]|(k & Hk & Hn & Hs)].
    + exists 0%nat. split; [lia|]. split; [lia|]. intros [|j] Hj; [lia|]. apply Hs. lia.
    + exists (S k). split; [lia|]. split; [lia|]. intros [|j] Hj; [lia|]. apply Hs. lia.
  - done.
  - destruct (IH (c + 1) i Hi Hl) as [[Hs Hn]|(k & Hk & Hn & Hs)].
    + left. split; [|lia]. intros [|j] Hj; [done|]. apply Hs. lia.
    + right. exists (S k). split; [lia|]. split; [lia|]. intros [|j] Hj; [lia|]. apply Hs. lia.
Qed.

Lemma cadence_window_at ls : forall c i, 0 <= c -> (i + Z.to_nat n <= length ls)%nat ->
  exists j, (i <= j < i + Z.to_nat n)%nat /\ cadence ls c !! j = Some true.
Proof.
  induction ls as [|x rest IH]; intros c i Hc Hl; [cbn in Hl; lia|].
  destruct i as [|i].
  - destruct (cadence_window (x :: rest) c Hc) as (j & Hj & Ej); [unfold zlen; lia|done|].
    exists j. split; [lia|done].
  - cbn [length] in Hl. cbn [cadence].
    assert (exists c', 0 <= c' /\ exists b, (if negb (bool_decide (x = LOW)) || (n <=? c + 1)
              then true :: cadence rest 0 else false :: cadence rest (c + 1)) = b :: cadence rest c') as (c' & Hc' & b & ->)
      by (case_match; [exists 0|exists (c + 1)]; (split; [lia|by eexists])).
    destruct (IH c' i Hc') as (j & Hj & Ej); [lia|]. exists (S j). split; [lia|done].
Qed.

(** The throttle keeps its cadence: along any ticks of a new symbol the first is
    published, a tradeable move is never suppressed, every [every] consecutive ticks hold a
    publication, and a noise tick is published only after [every - 1] silent ones. *)
Theorem throttle_cadence symbol ls i :
  let flags := publications symbol ls [] in
  (forall s, ls !! i = Some s -> s <> LOW -> flags !! i = Some true) /\
  ((i + Z.to_nat n <= length ls)%nat ->
   exists j, (i <= j < i + Z.to_nat n)%nat /\ flags !! j = Some true) /\
  (flags !! i = Some true -> ls !! i = Some LOW ->
   i = 0%nat \/ forall j, (j < i)%nat -> Z.of_nat i - Z.of_nat j < n -> flags !! j = Some false).
Proof.
  cbv zeta. rewrite publications_cadence. change (counter symbol []) with n.
  split_and!; [intros s; apply cadence_trades|apply cadence_window_at; lia|].
  intros Hi Hl. destruct (cadence_silence _ _ _ Hi Hl) as [[Hs Hn]|(k & Hk & Hn & Hs)].
  - left. destruct i as [|i]; [done|]. specialize (Hs 0%nat ltac:(lia)).
    destruct ls as [|x rest]; [done|]. cbn [cadence] in Hs.
    by rewrite (proj2 (Z.leb_le _ _) (Z.le_succ_diag_r n : n <= n + 1)), orb_true_r in Hs.
  - right. intros j Hj Hjn. apply Hs. lia.
Qed.

End Throttle.

(** * The generator *)

Section GeneratorFacts.
Context `{CPow}.
Import Generator.

Lemma push_length k x l : (length (push k x l) <= k)%nat.
Proof. unfold push. rewrite length_drop. lia. Qed.

Definition capped (k : nat) (d : dict (list float)) : Prop :=
  forall s l, dget s d = Some l -> (length l <= k)%nat.

Lemma capped_dset k s l d : (length l <= k)%nat -> capped k d -> capped k (dset s l d).
Proof.
  intros Hl Hd t l'. destruct (String.string_dec s t) as [->|Hne].
  - rewrite dget_dset_eq. intros E. apply Some_inj in E as <-. exact Hl.
  - rewrite dget_dset_ne by done. apply Hd.
Qed.

(** What downstream agents rely on in a published signal. *)
Definition sound_payload (p : payload) : Prop := exists c a,
  dget "confidence" p = Some (VFloat c) /\ dget "composite_score" p = Some (VFloat c) /\
  dget "action" p = Some (VStr a) /\ within 0.3%F 0.95%F c /\
  In a [BUY; SELL; HOLD] /\ (a = HOLD \/ fleb 0.55%F c = true).

Record generator_ok (g : SignalGenerator) : Prop := {
  go_prices : capped 50 (_price_history g);
  go_atrs : capped 25 (_atr_history g);
  go_total : total_events g = zlen (sgn_published g);
  go_sound : Forall sound_payload (sgn_published g);
}.

Lemma confidence_within lo hi lo' hi' x :
  fin_ok lo = true -> fin_ok hi = true -> fleb (Fin 0) lo = true ->
  fin_ok (fdiv_nz lo 100.0%F) = true -> fin_ok (fdiv_nz hi 100.0%F) = true ->
  fleb lo' (py_round (fdiv_nz lo 100.0%F) 4) = true -> fleb (py_round (fdiv_nz hi 100.0%F) 4) hi' = true ->
  within lo hi x -> within lo' hi' (py_round (fdiv_nz x 100.0%F) 4).
Proof.
  intros Fl Fh Hl Gl Gh H1 H2 Hx.
  pose proof (within_finite _ _ _ Fl Fh Hx) as Fx.
  assert (is_finite 100.0%F = true) as Fc by fconst. assert (fltb (Fin 0) 100.0%F = true) as Pc by fconst.
  pose proof (fleb_refl _ (finite_not_nan _ Fc)) as Rc.
  apply (py_round_within _ _ _ _ _ 4 ltac:(lia) Gl Gh H1 H2). split.
  - exact (fdiv_mono_nonneg _ _ _ _ (fin_ok_finite _ Fl) Fx Fc Fc Hl Pc (proj1 Hx) Rc).
  - exact (fdiv_mono_nonneg _ _ _ _ Fx (fin_ok_finite _ Fh) Fc Fc (fleb_trans _ _ _ Hl (proj1 Hx)) Pc (proj2 Hx) Rc).
Qed.

Lemma score_confidence t s x : tier_score (t, s, x) ->
  within 0.3%F 0.95%F (py_round (fdiv_nz x 100.0%F) 4) /\
  (s = LOW \/ fleb 0.55%F (py_round (fdiv_nz x 100.0%F) 4) = true).
Proof.
  intros Ht. assert (s = LOW /\ x = 30.0%F \/ within 55.0%F 95.0%F x) as [[-> ->]|Hx].
  { destruct t, s; cbn in Ht; try contradiction.
    - right. split; [|exact (proj2 Ht)]. refine (fleb_trans _ _ _ _ (proj1 Ht)). fconst.
    - right. split; [exact (proj1 Ht)|]. refine (fleb_trans _ _ _ (proj2 Ht) _). fconst.
    - left. exact (conj eq_refl Ht). }
  - split; [split; fconst|left; reflexivity].
  - assert (within 0.55%F 0.95%F (py_round (fdiv_nz x 100.0%F) 4)) as [W1 W2]
      by (revert Hx; apply confidence_within; fconst).
    split; [|right; exact W1]. split; [|exact W2]. refine (fleb_trans _ _ _ _ W1). fconst.
Qed.

Lemma signal_payload_sound ev symbol price pct trace sigma rsi atr ratio :
  sound_payload (signal_payload ev symbol price pct trace (classify_signal pct sigma) rsi atr ratio).
Proof.
  pose proof (move_tier_ok pct sigma) as Ht. destruct (classify_fields pct sigma) as [E _]. cbv zeta in E.
  rewrite E in Ht. destruct (score_confidence _ _ _ Ht) as [Hw Hl].
  pose proof (classify_action pct sigma) as Ha. rewrite E in Ha. cbn [fst snd] in Ha.
  eexists _, _. do 3 (split; [reflexivity|]). split; [exact Hw|]. rewrite Ha. split.
  - destruct (sg_strength (classify_signal pct sigma)); try (right; right; left; reflexivity);
      (destruct (fltb 0.0%F pct); [left; reflexivity|right; left; reflexivity]).
  - destruct Hl as [->|Hl]; [left; reflexivity|right; exact Hl].
Qed.

Definition keeps (g g' : SignalGenerator) : Prop := generator_ok g -> generator_ok g'.

#[local] Instance keeps_preorder : PreOrder keeps.
Proof. split; [intros g Hg; exact Hg|intros a b c H1 H2 Ha; exact (H2 (H1 Ha))]. Qed.

Lemma history_capped k symbol d : capped k d -> (length (history_of symbol d) <= k)%nat.
Proof. intros Hd. unfold history_of. destruct (dget symbol d) eqn:E; [by apply (Hd symbol)|cbn; lia]. Qed.

Lemma warm_length closes : forall l, (length l <= 50)%nat ->
  (length (fold_left (fun l p => if fltb 0.0%F p then push 50 p l else l) closes l) <= 50)%nat.
Proof.
  induction closes as [|p rest IH]; intros l Hl; [exact Hl|]. cbn [fold_left]. apply IH.
  destruct (fltb 0.0%F p); [apply push_length|exact Hl].
Qed.

Lemma bootstrap_keeps ev symbol g : keeps g (bootstrap ev symbol g).
Proof.
  intros [Hp Ha Ht Hs]. unfold bootstrap. destruct (dmem symbol (_price_history g)); [by split|].
  split; cbn; [|by apply capped_dset; [cbn; lia|]|done..]. apply capped_dset; [|done]. apply warm_length. cbn. lia.
Qed.

Lemma push_price_keeps symbol price g : keeps g (push_price symbol price g).
Proof.
  intros [Hp Ha Ht Hs]. split; cbn [push_price with_histories _price_history _atr_history total_events sgn_published];
    [|exact Ha|exact Ht|exact Hs]. apply capped_dset; [apply push_length|exact Hp].
Qed.

Lemma push_atr_keeps symbol atr g : keeps g (push_atr symbol atr g).
Proof.
  intros [Hp Ha Ht Hs]. destruct atr as [x|]; [|by split].
  split; cbn [push_atr with_histories _price_history _atr_history total_events sgn_published];
    [exact Hp| |exact Ht|exact Hs]. apply capped_dset; [apply push_length|exact Ha].
Qed.

Lemma publish_keeps ev symbol trace p out score g :
  sound_payload out -> keeps g (publish ev symbol trace p out score g).
Proof.
  intros Ho [Hp Ha Ht Hs].
  split; cbn [publish with_store _price_history _atr_history total_events sgn_published];
    [exact Hp|exact Ha| |].
  - rewrite zlen_app, Ht. reflexivity.
  - apply Forall_app. split; [exact Hs|]. by constructor.
Qed.

Lemma tick_keeps ev symbol price pct trace p : tracks keeps (tick ev symbol price pct trace p).
Proof.
  unfold tick. apply (tracks_bind keeps); [|intros ?].
  { apply tracks_modify. intros g Hg. by apply push_price_keeps, bootstrap_keeps. }
  do 3 (apply (tracks_bind keeps); [eauto with tracks typeclass_instances|intros ?]).
  apply (tracks_bind keeps); [apply tracks_modify; intros g; apply push_atr_keeps|intros ?].
  do 3 (apply (tracks_bind keeps); [eauto with tracks typeclass_instances|intros ?]).
  apply (tracks_bind keeps); [apply tracks_modify; intros g [Hp Ha Ht Hs]; by split|intros ?].
  destruct (fst _); [|eauto with tracks typeclass_instances].
  apply tracks_modify. intros g. apply publish_keeps, signal_payload_sound.
Qed.

Lemma process_keeps ev data : tracks keeps (process ev data).
Proof.
  unfold process. do 3 (apply (tracks_bind keeps); [eauto with tracks typeclass_instances|intros ?]).
  destruct (_ || _); [eauto with tracks typeclass_instances|].
  destruct (dget_or _ _ _); try (eauto with tracks typeclass_instances). apply tick_keeps.
Qed.

(** The generator after a sequence of messages, the raising ones included. *)
Definition feed (store : InMemoryStore) (l : list (TickEnv * payload)) : SignalGenerator :=
  fold_left (fun g t => snd (process (fst t) (snd t) g)) l (init store).

(** C25: Whatever messages arrive, malformed ones included, the generator keeps at most 50
    prices and 25 ranges per symbol, counts exactly the signals it hands to the bus, and
    every one of them carries a confidence between 0.3 and 0.95 and a known action, a trade only
    with a confidence of at least 0.55. *)
Theorem signals_published_sound store l : generator_ok (feed store l).
Proof.
  unfold feed. apply fold_left_inv.
  - intros g t Hg. exact (process_keeps (fst t) (snd t) g Hg).
  - split; [intros s x E; discriminate E|intros s x E; discriminate E|reflexivity|constructor].
Qed.

End GeneratorFacts.
