(* ===== verification/Scorer.v ===== *)
(** Scorer: the deterministic per-trade scoring engine
    (api/services/agents/trade_scorer.py).

    Lists are sorted by a stable insertion sort; on keys that are numbers every stable sort
    gives its result. *)
From S2P Require Import Prelude PyFloat FloatFacts PyVal PyMath PyPow Config Params Policy Gitops Store Execution Lifecycle.

Definition _EARLY_EXIT_MAX_MINUTES : float := 2.0%F.
Definition _PATIENCE_MIN_MINUTES : float := 10.0%F.
Definition _ADVERSE_MOVE_PCT : float := (-0.25)%F.
Definition _CAPTURED_MOVE_PCT : float := 0.4%F.
Definition _EXECUTION_DRAG_PCT : float := 0.5%F.
Definition _CLEAN_EXECUTION_DRAG_PCT : float := 0.2%F.
Definition _RECOMMENDATION_MIN_FREQUENCY : float := 0.15%F.
Definition _HIGH_LATENCY_MS : float := 1200.0%F.
Definition _HIGH_SLIPPAGE_VARIANCE : float := 0.005%F.
Definition _HIGH_SPREAD_PCT : float := 0.25%F.
Definition _MAX_TAGS_PER_BUCKET : nat := 6.

(** [TradeTag] *)
Definition LATE_ENTRY : string := "late_entry".
Definition POOR_EXIT : string := "poor_exit".
Definition BAD_RISK_REWARD : string := "bad_risk_reward".
Definition MISALIGNED_SIGNAL : string := "misaligned_signal".
Definition PREMATURE_ENTRY : string := "premature_entry".
Definition EARLY_EXIT : string := "early_exit".
Definition ADVERSE_PRICE_MOVE : string := "adverse_price_move".
Definition EXECUTION_DRAG : string := "execution_drag".
Definition GOOD_ENTRY_TIMING : string := "good_entry_timing".
Definition CLEAN_EXIT : string := "clean_exit".
Definition GOOD_RISK_REWARD : string := "good_risk_reward".
Definition TREND_ALIGNMENT : string := "trend_alignment".
Definition PROFITABLE : string := "profitable".
Definition PATIENCE_PAID : string := "patience_paid".
Definition CAPTURED_DIRECTIONAL_MOVE : string := "captured_directional_move".
Definition CLEAN_EXECUTION : string := "clean_execution".
Definition LOW_LIQUIDITY_SKEW : string := "low_liquidity_skew".
Definition REGIME_SHIFT : string := "regime_shift".
Definition SIGNAL_LATENCY : string := "signal_latency".
Definition FILL_QUALITY_POOR : string := "fill_quality_poor".
Definition API_THROTTLE_PENALTY : string := "api_throttle_penalty".
Definition DATA_INTEGRITY_ISSUE : string := "data_integrity_issue".
Definition REVERSION_LUCK : string := "reversion_luck".

(** * Dimensions *)

Definition _clamp (value lo hi : float) : float := fmax lo (fmin hi value).
Definition clamp_unit (value : float) : float := _clamp value 0.0%F 1.0%F.

Definition normalize (x min_val max_val : float) : float :=
  if fleb max_val min_val then 0.5%F else clamp_unit (fdiv_nz (x - min_val) (max_val - min_val))%F.

Definition score_normalized_return (pnl_percent : float) : float := normalize pnl_percent (-10.0)%F 10.0%F.

Definition score_risk_reward (pnl pnl_percent : float) : float :=
  if fltb 0.0%F pnl then clamp_unit (0.5 + fdiv_nz pnl_percent 20.0)%F
  else if fltb pnl 0.0%F then clamp_unit (0.5 + fdiv_nz pnl_percent 20.0)%F
  else 0.5%F.

Definition score_entry_quality (confidence : float) : float := normalize confidence 0.3%F 0.95%F.

Definition score_exit_quality (pnl_percent : float) : float := clamp_unit (0.5 + fdiv_nz pnl_percent 10.0)%F.

(** [str(v or "").lower().strip()] *)
Definition word (v : val) : string := strip_lower (Fmt.str (if truthy v then v else VStr "")).

Definition score_signal_alignment (side action : val) : float :=
  let s := word side in
  let a := word action in
  if String.eqb s "" || String.eqb a "" then 1.0%F
  else if String.eqb s a then 1.0%F
  else if (one_of s ["buy"; "long"] && one_of a ["buy"; "long"]) ||
          (one_of s ["sell"; "short"] && one_of a ["sell"; "short"]) then 1.0%F
  else 0.5%F.

(** * Context *)

Record TradeContext := {
  tc_side : string;
  tc_pnl : float;
  tc_pnl_pct : float;
  tc_holding_minutes : option float;
  tc_move_pct : option float;
  tc_adverse_excursion_pct : option float;
}.

Definition _direction_sign_from_side_event (side : string) (has_exit_price : bool) : float :=
  if String.eqb side "long" then 1.0%F
  else if String.eqb side "short" then (-1.0)%F
  else if has_exit_price && String.eqb side "sell" then 1.0%F
  else if has_exit_price && String.eqb side "buy" then (-1.0)%F
  else if String.eqb side "sell" then (-1.0)%F else 1.0%F.

Definition _price_move_percent (side : string) (entry_price exit_price : val) : res (option float) :=
  let* entry := Store._safe_float entry_price in
  let* exit_ := Store._safe_float exit_price in
  Ok (match entry, exit_ with
      | Some e, Some x =>
          if fleb e 0.0%F then None
          else Some (fdiv_nz (x - e) e * 100.0 * _direction_sign_from_side_event side true)%F
      | _, _ => None
      end).

Definition _build_trade_context (side position_side pnl pnl_pct entry_price exit_price holding_minutes : val)
  : res TradeContext :=
  let side_norm := word side in
  let direction_key := let d := word position_side in if String.eqb d "" then side_norm else d in
  let* move := _price_move_percent direction_key entry_price exit_price in
  let* p := float_or_zero pnl in
  let* pct := float_or_zero pnl_pct in
  let* hold := Store._safe_float holding_minutes in
  Ok {| tc_side := side_norm; tc_pnl := p; tc_pnl_pct := pct; tc_holding_minutes := hold; tc_move_pct := move;
        tc_adverse_excursion_pct := match move with Some m => Some (fabs (pct - m)%F) | None => None end |}.

(** * Tags *)

Definition when (b : bool) (tag : string) : list string := if b then [tag] else [].
Definition is_some_and (o : option float) (p : float -> bool) : bool :=
  match o with Some x => p x | None => false end.

(** [float(pnl) if pnl is not None else 0.0] *)
Definition float_if_set (v : val) : res float := match v with VNone => Ok 0.0%F | _ => py_float v end.

Definition _classify_mistakes (entry_q exit_q rr_score sig_align : float) (pnl : val) (c : TradeContext)
  : res (list string) :=
  let* p := float_if_set pnl in
  Ok (sorted_keys (
    when (fltb entry_q 0.4%F) LATE_ENTRY ++ when (fltb exit_q 0.4%F) POOR_EXIT ++
    when (fltb rr_score 0.35%F) BAD_RISK_REWARD ++ when (fltb sig_align 0.8%F) MISALIGNED_SIGNAL ++
    when (fltb p 0.0%F && fltb entry_q 0.5%F) PREMATURE_ENTRY ++
    when (is_some_and (tc_holding_minutes c) (fun h => fltb h _EARLY_EXIT_MAX_MINUTES) && fltb p 0.0%F) EARLY_EXIT ++
    when (is_some_and (tc_move_pct c) (fun m => fltb m _ADVERSE_MOVE_PCT)) ADVERSE_PRICE_MOVE ++
    when (is_some_and (tc_adverse_excursion_pct c) (fun x => fltb _EXECUTION_DRAG_PCT x) && fltb p 0.0%F) EXECUTION_DRAG)).

Definition _classify_strengths (entry_q exit_q rr_score sig_align : float) (pnl : val) (c : TradeContext)
  : res (list string) :=
  let* p := float_if_set pnl in
  Ok (sorted_keys (
    when (fleb 0.7%F entry_q) GOOD_ENTRY_TIMING ++ when (fleb 0.7%F exit_q) CLEAN_EXIT ++
    when (fleb 0.65%F rr_score) GOOD_RISK_REWARD ++ when (fleb 0.9%F sig_align) TREND_ALIGNMENT ++
    when (fltb 0.0%F p) PROFITABLE ++
    when (is_some_and (tc_holding_minutes c) (fun h => fleb _PATIENCE_MIN_MINUTES h) && fltb 0.0%F p) PATIENCE_PAID ++
    when (is_some_and (tc_move_pct c) (fun m => fltb _CAPTURED_MOVE_PCT m)) CAPTURED_DIRECTIONAL_MOVE ++
    when (is_some_and (tc_adverse_excursion_pct c) (fun x => fltb x _CLEAN_EXECUTION_DRAG_PCT) && fltb 0.0%F p)
      CLEAN_EXECUTION)).

(** The tags of the trading system's own condition: mistakes and strengths. *)
Definition _derive_contextual_system_tags (d : payload) (c : TradeContext) : res (list string * list string) :=
  let* latency_ms := Store._safe_float (dget_or "latency_ms" VNone d) in
  let* slip_var := Store._safe_float (dget_or "slippage_variance" VNone d) in
  let* spread_pct := Store._safe_float (dget_or "spread_pct" VNone d) in
  let current_regime := word (dget_or "current_regime" VNone d) in
  let signal_regime := word (dget_or "regime" VNone d) in
  let mistakes :=
    when (is_some_and latency_ms (fleb _HIGH_LATENCY_MS)) SIGNAL_LATENCY ++
    when (is_some_and slip_var (fleb _HIGH_SLIPPAGE_VARIANCE)) FILL_QUALITY_POOR ++
    when (is_some_and spread_pct (fleb _HIGH_SPREAD_PCT)) LOW_LIQUIDITY_SKEW ++
    when (negb (String.eqb current_regime "") && negb (String.eqb signal_regime "") &&
          negb (String.eqb current_regime signal_regime)) REGIME_SHIFT ++
    when (truthy (dget_or "rate_limit" VNone d)) API_THROTTLE_PENALTY ++
    when (truthy (dget_or "data_integrity_issue" VNone d)) DATA_INTEGRITY_ISSUE in
  let strengths :=
    when (fltb 0.0%F (tc_pnl c) && is_some_and (tc_adverse_excursion_pct c) (fltb 1.0%F)) REVERSION_LUCK in
  Ok (sorted_keys mistakes, sorted_keys strengths).

Definition MISTAKE_ORDER : list string :=
  [DATA_INTEGRITY_ISSUE; API_THROTTLE_PENALTY; SIGNAL_LATENCY; FILL_QUALITY_POOR; LOW_LIQUIDITY_SKEW;
   REGIME_SHIFT; EXECUTION_DRAG; ADVERSE_PRICE_MOVE; EARLY_EXIT; PREMATURE_ENTRY; MISALIGNED_SIGNAL;
   BAD_RISK_REWARD; POOR_EXIT; LATE_ENTRY].

Definition STRENGTH_ORDER : list string :=
  [TREND_ALIGNMENT; CLEAN_EXECUTION; CAPTURED_DIRECTIONAL_MOVE; PATIENCE_PAID; GOOD_RISK_REWARD; CLEAN_EXIT;
   GOOD_ENTRY_TIMING; PROFITABLE; REVERSION_LUCK].

(** The known tags in their order, then the others sorted, cut to the bucket's size. *)
Definition ordered_tags (ordered tags : list string) : list string :=
  let out := List.filter (fun t => one_of t tags) ordered in
  take _MAX_TAGS_PER_BUCKET (out ++ sorted_keys (List.filter (fun t => negb (one_of t out)) tags)).

Definition _normalize_tags (is_mistakes : bool) (tags : list string) : list string :=
  let unique := List.filter (fun t => negb (String.eqb t "")) tags in
  if is_mistakes then ordered_tags MISTAKE_ORDER unique
  else
    ordered_tags STRENGTH_ORDER
      (if one_of REVERSION_LUCK unique
       then List.filter (fun t => negb (String.eqb t CLEAN_EXECUTION)) unique else unique).

(** * The composite score *)

Definition _score_to_grade (score : float) : string :=
  if fleb 0.90%F score then "A"
  else if fleb 0.75%F score then "B"
  else if fleb 0.60%F score then "C"
  else if fleb 0.40%F score then "D"
  else "F".

(** The five dimension scores of a trade. *)
Record Scores := {
  sc_norm_return : float;
  sc_rr : float;
  sc_entry : float;
  sc_exit : float;
  sc_align : float;
}.

Definition overall_score (s : Scores) : float :=
  clamp_unit (0.30 * sc_norm_return s + 0.25 * sc_rr s + 0.20 * sc_entry s + 0.15 * sc_exit s
              + 0.10 * sc_align s)%F.

Definition timing_score (s : Scores) : float := clamp_unit (0.5 * sc_norm_return s + 0.5 * sc_entry s)%F.

Definition confidence_out (overall : float) : float := clamp_unit (1.0 - fabs (overall - 0.5) * 0.5)%F.

Definition trade_scores (pnl pnl_percent confidence : float) (side action : val) : Scores :=
  {| sc_norm_return := score_normalized_return pnl_percent; sc_rr := score_risk_reward pnl pnl_percent;
     sc_entry := score_entry_quality confidence; sc_exit := score_exit_quality pnl_percent;
     sc_align := score_signal_alignment side action |}.

Definition scores_of (d : payload) : res Scores :=
  let pnl_pct := dget_or "pnl_percent" VNone d in
  let confidence := first_truthy ["confidence"; "signal_confidence"] d (VFloat 0.5%F) in
  let* pct := float_or_zero pnl_pct in
  let* p := float_or_zero (dget_or "pnl" VNone d) in
  let* conf := py_float confidence in
  Ok (trade_scores p pct conf (dget_or "side" VNone d) (dget_or "action" VNone d)).

(** [float(v) if v is not None else None] *)
Definition float_or_none (v : val) : res val :=
  match v with VNone => Ok VNone | _ => let* x := py_float v in Ok (VFloat x) end.

Definition strings (l : list string) : val := VList (map VStr l).

Definition score_trade (d : payload) : res payload :=
  let pnl := dget_or "pnl" VNone d in
  let pnl_pct := dget_or "pnl_percent" VNone d in
  let side := dget_or "side" VNone d in
  let trade_id := first_truthy ["trade_id"; "execution_trace_id"; "order_id"; "trace_id"] d (VStr "") in
  let* s := scores_of d in
  let overall := overall_score s in
  let* context := _build_trade_context side (dget_or "position_side" VNone d) pnl pnl_pct
                    (dget_or "entry_price" VNone d) (dget_or "exit_price" VNone d)
                    (dget_or "holding_period_minutes" VNone d) in
  let* mistakes := _classify_mistakes (sc_entry s) (sc_exit s) (sc_rr s) (sc_align s) pnl context in
  let* strengths := _classify_strengths (sc_entry s) (sc_exit s) (sc_rr s) (sc_align s) pnl context in
  let* system := _derive_contextual_system_tags d context in
  let* pnl_out := float_or_none pnl in
  let* pct_out := float_or_none pnl_pct in
  let* cost := float_or_zero (dget_or "decision_cost_usd" VNone d) in
  Ok [("trade_eval_id", VStr (Fmt.str trade_id)); ("symbol", dget_or "symbol" VNone d); ("side", side);
      ("pnl", pnl_out); ("pnl_percent", pct_out);
      ("entry_quality", VFloat (py_round (sc_entry s) 4)); ("exit_quality", VFloat (py_round (sc_exit s) 4));
      ("timing_score", VFloat (py_round (timing_score s) 4));
      ("signal_alignment", VFloat (py_round (sc_align s) 4)); ("risk_reward", VFloat (py_round (sc_rr s) 4));
      ("overall_score", VFloat (py_round overall 4)); ("grade", VStr (_score_to_grade overall));
      ("confidence", VFloat (py_round (confidence_out overall) 4));
      ("mistakes", strings (_normalize_tags true (mistakes ++ fst system)));
      ("strengths", strings (_normalize_tags false (strengths ++ snd system)));
      ("norm_return", VFloat (py_round (sc_norm_return s) 4));
      ("model_used", VStr (Fmt.str (first_truthy ["model_used"] d (VStr ""))));
      ("primary_edge", VStr (Fmt.str (first_truthy ["primary_edge"] d (VStr ""))));
      ("decision_cost_usd", VFloat cost)].

(** * Reflection helpers *)

(** Stable descending sort: [lt a b] puts [b] before [a]. *)
Fixpoint insert_desc {A} (lt : A -> A -> bool) (x : A) (l : list A) : list A :=
  match l with
  | [] => [x]
  | y :: rest => if lt x y then y :: insert_desc lt x rest else x :: l
  end.

Definition sort_desc {A} (lt : A -> A -> bool) (l : list A) : list A := fold_right (insert_desc lt) [] l.

(** [for x in v] *)
Definition iterate (v : val) : res (list val) :=
  match v with
  | VList l => Ok l
  | VDict d => Ok (map VStr (dkeys d))
  | VStr s => Ok (map (fun c => VStr (String c EmptyString)) (String.list_ascii_of_string s))
  | _ => Raise TypeError
  end.

(** [s in v] *)
Definition member (s : string) (v : val) : res bool :=
  match v with
  | VList l => Ok (existsb (val_eqb (VStr s)) l)
  | VDict d => Ok (dmem s d)
  | VStr t => Ok (contains s t)
  | _ => Raise TypeError
  end.

Definition mistakes_of (e : payload) : val := dget_or "mistakes" (VList []) e.

(** [float(e.get(k) or 0.0)] *)
Definition num (k : string) (e : payload) : res float := float_or_zero (dget_or k VNone e).

(** [sum(l) / len(l)] of a list that is not empty. *)
Definition mean_of (l : list float) : float := fdiv_nz (fsum_left l) (of_Z (zlen l)).

Definition add_pnl (x : float) (d : dict (list float)) (m : val) : dict (list float) :=
  let k := Fmt.str m in
  dset k (match dget k d with Some l => l | None => [] end ++ [x]) d.

Definition cluster_step (d : dict (list float)) (e : payload) : res (dict (list float)) :=
  let* x := num "pnl" e in
  let* ms := iterate (mistakes_of e) in
  Ok (fold_left (add_pnl x) ms d).

Record Cluster := { cl_type : string; cl_frequency : float; cl_impact : float; cl_count : Z }.

Definition cluster_of (total : Z) (d : dict (list float)) (k : string) : res Cluster :=
  let pnls := match dget k d with Some l => l | None => [] end in
  let* f := int_div (zlen pnls) total in
  Ok {| cl_type := k; cl_frequency := py_round f 4; cl_impact := py_round (mean_of pnls) 4;
        cl_count := zlen pnls |}.

Definition compute_mistake_clusters (evaluations : list payload) : res (list Cluster) :=
  match evaluations with
  | [] => Ok []
  | _ =>
      let* d := res_fold cluster_step evaluations [] in
      let* cs := res_list (cluster_of (zlen evaluations) d) (sorted_keys (dkeys d)) in
      Ok (sort_desc (fun a b => fltb (fabs (cl_impact a)) (fabs (cl_impact b))) cs)
  end.

(** The share of evaluations with the mistake. *)
Definition mistake_rate (tag : string) (evaluations : list payload) : res float :=
  let* hits := res_list (fun e => member tag (mistakes_of e)) evaluations in
  int_div (zlen (List.filter (fun b => b) hits)) (zlen evaluations).

Definition compute_patterns (evaluations : list payload) : res (list string) :=
  match evaluations with
  | [] => Ok []
  | _ =>
      let* pnls := res_list (num "pnl") evaluations in
      let rows := combine pnls evaluations in
      let losses := map snd (List.filter (fun r => fltb (fst r) 0.0%F) rows) in
      let* win_rate := int_div (zlen (List.filter (fltb 0.0%F) pnls)) (zlen evaluations) in
      let* late_entry_rate := mistake_rate LATE_ENTRY evaluations in
      let* poor_exit_rate := mistake_rate POOR_EXIT evaluations in
      let* loss_pcts := res_list (num "pnl_percent") losses in
      let* scores := res_list (num "overall_score") evaluations in
      let avg_loss_pct := mean_of loss_pcts in
      let avg_score := mean_of scores in
      Ok ((if fltb win_rate 0.4%F
           then ["low win rate (" +:+ percent 0 win_rate +:+ ") — majority of trades are losing"]
           else when (fltb 0.65%F win_rate)
                  ("strong win rate (" +:+ percent 0 win_rate +:+ ") — signal quality is high"))
          ++ when (fltb 0.35%F late_entry_rate)
               ("late entries in " +:+ percent 0 late_entry_rate +:+ " of trades — entry timing needs improvement")
          ++ when (fltb 0.35%F poor_exit_rate)
               ("poor exits in " +:+ percent 0 poor_exit_rate +:+ " of trades — exits are cutting profits short")
          ++ when (negb (zlen losses =? 0) && fltb avg_loss_pct (-3.0)%F)
               ("average loss of " +:+ Fmt.fixed 1 avg_loss_pct +:+ "% — consider tighter stop-loss thresholds")
          ++ (if fltb avg_score 0.5%F
              then ["average trade score below 0.5 — overall decision quality is below par"]
              else when (fltb 0.7%F avg_score) "average trade score above 0.7 — decision quality is strong"))
  end.

Definition RECOMMENDATIONS : dict string :=
  [(LATE_ENTRY, "wait for signal confirmation before entering — reduce entry delay");
   (POOR_EXIT, "use trailing stops or take-profit targets to improve exit quality");
   (BAD_RISK_REWARD, "filter out trades with R/R below 1.5:1");
   (MISALIGNED_SIGNAL, "reject trades where execution direction contradicts signal direction");
   (PREMATURE_ENTRY, "require at least 2 confirming indicators before entry");
   (EARLY_EXIT, "enforce minimum hold time unless stop-loss is hit to avoid noise exits");
   (ADVERSE_PRICE_MOVE, "tighten regime filter when directional move turns against position quickly");
   (EXECUTION_DRAG, "audit slippage/fees and route sizing to reduce execution drag");
   (SIGNAL_LATENCY, "reduce decision-to-execution latency; enforce max stale-signal window");
   (FILL_QUALITY_POOR, "route to higher-liquidity venues or use adaptive limit offsets");
   (LOW_LIQUIDITY_SKEW, "avoid thin-liquidity windows and widen spread guards");
   (REGIME_SHIFT, "gate entries on regime confirmation to avoid stale strategy assumptions");
   (API_THROTTLE_PENALTY, "add pre-emptive request budgeting and throttle-aware exit logic");
   (DATA_INTEGRITY_ISSUE, "quarantine delayed/corrupt market data before signal generation")].

Definition recommend (recs : list string) (c : Cluster) : list string :=
  if fltb (cl_frequency c) _RECOMMENDATION_MIN_FREQUENCY then recs
  else
    match dget (cl_type c) RECOMMENDATIONS with
    | Some r => if one_of r recs then recs else recs ++ [r]
    | None => recs
    end.

Definition compute_recommendations (mistake_clusters : list Cluster) : list string :=
  fold_left recommend mistake_clusters [].

(** * Learning metrics *)

Definition _MIN_RELIABLE_TRADES : Z := 10.
Definition _MIN_STABLE_TRADES : Z := 30.

Record LearningMetrics := {
  lm_total_trades : Z;
  lm_win_rate : float;
  lm_avg_return : float;
  lm_sharpe_ratio : float;
  lm_max_drawdown : float;
  lm_avg_score : float;
  lm_score_trend : string;
  lm_consistency : float;
  lm_metric_status : string;
}.

(** Peak-to-trough loss of the running sum: the sum, its peak and the worst loss. *)
Definition drawdown_step (s : float * float * float) (pct : float) : float * float * float :=
  let '(cumulative, peak, max_dd) := s in
  let cumulative := (cumulative + pct)%F in
  let peak := if fltb peak cumulative then cumulative else peak in
  let dd := (peak - cumulative)%F in
  (cumulative, peak, if fltb max_dd dd then dd else max_dd).

Definition running_drawdown (pcts : list float) : float :=
  snd (fold_left drawdown_step pcts (0.0%F, 0.0%F, 0.0%F)).

Definition metric_status (total : Z) : string :=
  if total <? _MIN_RELIABLE_TRADES then "insufficient_data"
  else if total <? _MIN_STABLE_TRADES then "unstable" else "reliable".

Section Metrics.
Context `{CPow}.

(** [sqrt(sum((x - mean) ** 2) / (n - 1))], or 0 when the variance is not positive. *)
Definition sample_deviation (mean : float) (l : list float) : res float :=
  let* squares := res_list (fun x => square (x - mean)%F) l in
  let variance := fdiv_nz (fsum_left squares) (of_Z (zlen l - 1)) in
  if fltb 0.0%F variance then math_sqrt variance else Ok 0.0%F.

Definition varied (pcts : list float) : bool :=
  match pcts with [] => false | x :: _ => existsb (fun p => negb (feqb p x)) pcts end.

Definition sharpe_of (pcts : list float) : res float :=
  if (1 <? zlen pcts) && varied pcts then
    let mean_r := mean_of pcts in
    let* std_r := sample_deviation mean_r pcts in
    let* year := math_sqrt 252.0%F in
    Ok (if fltb 0.001%F std_r then (fdiv_nz mean_r std_r * year)%F else 0.0%F)
  else Ok 0.0%F.

(** The offsets of the positions from their mean. *)
Definition offsets (n : Z) : list float :=
  map (fun i => (of_Z (Z.of_nat i) - fdiv_nz (of_Z (n - 1)) 2.0)%F) (List.seq 0 (Z.to_nat n)).

Definition score_slope (avg_score : float) (scores : list float) : res float :=
  let xs := offsets (zlen scores) in
  let numerator := fsum_left (zip_with (fun x s => x * (s - avg_score))%F xs scores) in
  let* squares := res_list square xs in
  let denominator := fsum_left squares in
  Ok (if fltb 0.0%F denominator then fdiv_nz numerator denominator else 0.0%F).

Definition score_trend_of (avg_score : float) (scores : list float) : res string :=
  if zlen scores <? 5 then Ok "stable"
  else
    let* slope := score_slope avg_score scores in
    Ok (if fltb 0.005%F slope then "improving" else if fltb slope (-0.005)%F then "declining" else "stable").

Definition consistency_of (avg_score : float) (scores : list float) : res float :=
  if fltb 0.01%F avg_score && (1 <? zlen scores) then
    let* std_s := sample_deviation avg_score scores in
    Ok (clamp_unit (1.0 - fdiv_nz std_s avg_score)%F)
  else Ok 0.0%F.

Definition compute_learning_metrics (evaluations : list payload) : res LearningMetrics :=
  match evaluations with
  | [] => Ok {| lm_total_trades := 0; lm_win_rate := 0.0%F; lm_avg_return := 0.0%F; lm_sharpe_ratio := 0.0%F;
                lm_max_drawdown := 0.0%F; lm_avg_score := 0.0%F; lm_score_trend := "insufficient_data";
                lm_consistency := 0.0%F; lm_metric_status := "insufficient_data" |}
  | _ =>
      let* pnl_pcts := res_list (num "pnl_percent") evaluations in
      let* pnls := res_list (num "pnl") evaluations in
      let* scores := res_list (num "overall_score") evaluations in
      let total := zlen evaluations in
      let* win_rate := int_div (zlen (List.filter (fltb 0.0%F) pnls)) total in
      let* sharpe := sharpe_of pnl_pcts in
      let avg_score := mean_of scores in
      let* trend := score_trend_of avg_score scores in
      let* consistency := consistency_of avg_score scores in
      Ok {| lm_total_trades := total; lm_win_rate := py_round win_rate 4;
            lm_avg_return := py_round (mean_of pnl_pcts) 4; lm_sharpe_ratio := py_round sharpe 4;
            lm_max_drawdown := py_round (- running_drawdown pnl_pcts)%F 4; lm_avg_score := py_round avg_score 4;
            lm_score_trend := trend; lm_consistency := py_round consistency 4;
            lm_metric_status := metric_status total |}
  end.

End Metrics.

(** * Performance per model *)

Record ModelAcc := { ma_trades : Z; ma_wins : Z; ma_score_sum : float; ma_pnl_sum : float; ma_cost_sum : float }.

Definition empty_model_acc : ModelAcc :=
  {| ma_trades := 0; ma_wins := 0; ma_score_sum := 0.0%F; ma_pnl_sum := 0.0%F; ma_cost_sum := 0.0%F |}.

(** [acc += float(v)] unless [v is None]. *)
Definition add_if_set (acc : float) (v : val) : res float :=
  match v with VNone => Ok acc | _ => let* x := py_float v in Ok (acc + x)%F end.

Definition strip (s : string) : string :=
  String.string_of_list_ascii (Parse.strip (String.list_ascii_of_string s)).

Definition model_name (e : payload) : string := strip (Fmt.str (first_truthy ["model_used"] e (VStr ""))).

Definition model_acc (e : payload) (a : ModelAcc) : res ModelAcc :=
  let pnl := dget_or "pnl" VNone e in
  let* pnl_sum := add_if_set (ma_pnl_sum a) pnl in
  let* won := match pnl with VNone => Ok false | _ => let* x := py_float pnl in Ok (fltb 0.0%F x) end in
  let* score_sum := add_if_set (ma_score_sum a) (dget_or "overall_score" VNone e) in
  let* cost_sum := add_if_set (ma_cost_sum a) (dget_or "decision_cost_usd" VNone e) in
  Ok {| ma_trades := ma_trades a + 1; ma_wins := if won then ma_wins a + 1 else ma_wins a;
        ma_score_sum := score_sum; ma_pnl_sum := pnl_sum; ma_cost_sum := cost_sum |}.

Definition model_step (buckets : dict ModelAcc) (e : payload) : res (dict ModelAcc) :=
  let model := model_name e in
  if String.eqb model "" then Ok buckets
  else
    let* a := model_acc e (match dget model buckets with Some a => a | None => empty_model_acc end) in
    Ok (dset model a buckets).

Record ModelRow := {
  mr_model : string;
  mr_trade_count : Z;
  mr_win_rate : float;
  mr_avg_score : float;
  mr_total_pnl : float;
  mr_avg_pnl : float;
  mr_total_cost : float;
  mr_net_roi : float;
}.

(** Every bucket holds a trade, so no quotient has a zero divisor. *)
Definition model_row (b : string * ModelAcc) : res ModelRow :=
  let '(model, a) := b in
  let n := of_Z (ma_trades a) in
  let* wr := int_div (ma_wins a) (ma_trades a) in
  Ok {| mr_model := model; mr_trade_count := ma_trades a; mr_win_rate := py_round wr 4;
        mr_avg_score := py_round (fdiv_nz (ma_score_sum a) n) 4; mr_total_pnl := py_round (ma_pnl_sum a) 4;
        mr_avg_pnl := py_round (fdiv_nz (ma_pnl_sum a) n) 4; mr_total_cost := py_round (ma_cost_sum a) 6;
        mr_net_roi := py_round (ma_pnl_sum a - ma_cost_sum a)%F 4 |}.

Definition aggregate_model_performance (evaluations : list payload) : res (list ModelRow) :=
  let* buckets := res_fold model_step evaluations [] in
  let* rows := res_list model_row buckets in
  Ok (sort_desc (fun a b => mr_trade_count a <? mr_trade_count b) rows).
