(* ===== verification/ScorerFacts.v ===== *)
(** ScorerFacts: bounds, order and totality of trade scores and learning metrics, and the
    conservation of trades by the per-model aggregation. *)
From S2P Require Import Prelude PyFloat FloatFacts PyVal PyMath PyPow Config Params Policy Gitops Store Execution Lifecycle Scorer.
From Stdlib Require Import Sorting.Sorted Sorting.Permutation.

(** * Scores *)

Definition unit (x : float) : Prop := within (Fin 0) 1.0%F x.

Lemma zero_is_zero : 0.0%F = Fin 0.
Proof. fconst. Qed.

Lemma clamp_unit_ok x : unit (clamp_unit x).
Proof. unfold clamp_unit, _clamp. rewrite zero_is_zero. apply clamp_within. fconst. Qed.

Lemma normalize_unit x a b : unit (normalize x a b).
Proof. unfold normalize. destruct (fleb b a); [split; fconst|apply clamp_unit_ok]. Qed.

Lemma risk_reward_unit p x : unit (score_risk_reward p x).
Proof.
  unfold score_risk_reward. destruct (fltb 0.0%F p); [apply clamp_unit_ok|].
  destruct (fltb p 0.0%F); [apply clamp_unit_ok|split; fconst].
Qed.

Lemma return_unit x : unit (score_normalized_return x).
Proof. unfold score_normalized_return. exact (normalize_unit x _ _). Qed.

Lemma entry_unit c : unit (score_entry_quality c).
Proof. unfold score_entry_quality. exact (normalize_unit c _ _). Qed.

Lemma exit_unit x : unit (score_exit_quality x).
Proof. unfold score_exit_quality. exact (clamp_unit_ok _). Qed.

Lemma alignment_cases s a : score_signal_alignment s a = 1.0%F \/ score_signal_alignment s a = 0.5%F.
Proof.
  unfold score_signal_alignment. destruct (_ || _); [by left|]. destruct (String.eqb _ _); [by left|].
  destruct (_ || _); [by left|by right].
Qed.

Lemma alignment_unit s a : unit (score_signal_alignment s a).
Proof. destruct (alignment_cases s a) as [->| ->]; split; fconst. Qed.

Lemma round_unit x : unit x -> unit (py_round x 4).
Proof. unfold unit. apply py_round_within; [lia|fconst..]. Qed.

Record scores_ok (s : Scores) : Prop := {
  su_return : unit (sc_norm_return s);
  su_rr : unit (sc_rr s);
  su_entry : unit (sc_entry s);
  su_exit : unit (sc_exit s);
  su_align : unit (sc_align s);
}.

Lemma trade_scores_ok p x c side action : scores_ok (trade_scores p x c side action).
Proof.
  unfold trade_scores. split; cbn [sc_norm_return sc_rr sc_entry sc_exit sc_align];
    [exact (return_unit x)|exact (risk_reward_unit p x)|exact (entry_unit c)|exact (exit_unit x)
    |exact (alignment_unit side action)].
Qed.

(** * Tags *)

Lemma insert_key_in k x l : In x (insert_key k l) -> x = k \/ In x l.
Proof.
  induction l as [|y l IH]; cbn; [intros [->|[]]; by left|].
  destruct (String.compare k y); cbn; intros H; [by right|..];
    [destruct H as [->|H]; [by left|by right]|destruct H as [->|H]; [by right; left|]].
  destruct (IH H); [by left|by right; right].
Qed.

Lemma sorted_keys_in x l : In x (sorted_keys l) -> In x l.
Proof.
  induction l as [|y l IH]; [done|]. cbn. intros [->|H]%insert_key_in; [by left|right; by apply IH].
Qed.

Definition all_in (known l : list string) : Prop := forall t, In t l -> In t known.

Lemma all_in_app known a b : all_in known a -> all_in known b -> all_in known (a ++ b).
Proof. intros Ha Hb t [H|H]%in_app_iff; [by apply Ha|by apply Hb]. Qed.

Lemma all_in_when known b t : In t known -> all_in known (when b t).
Proof. intros Ht x. destruct b; cbn; [by intros [<-|[]]|done]. Qed.

Lemma all_in_sorted known l : all_in known l -> all_in known (sorted_keys l).
Proof. intros Hl t Ht. by apply Hl, sorted_keys_in. Qed.

Lemma all_in_filter known p l : all_in known l -> all_in known (List.filter p l).
Proof. intros Hl t [Ht _]%filter_In. by apply Hl. Qed.

Lemma one_of_list s l : one_of s l = true <-> In s l.
Proof.
  unfold one_of. rewrite existsb_exists. split.
  - by intros (x & Hx & ->%String.eqb_eq).
  - intros Hs. exists s. by rewrite String.eqb_refl.
Qed.

Ltac known_tags :=
  repeat lazymatch goal with
  | |- all_in _ (_ ++ _) => apply all_in_app
  | |- all_in _ (sorted_keys _) => apply all_in_sorted
  | |- all_in _ (when _ _) => apply all_in_when, one_of_list; reflexivity
  end.

(** Known tags leave no remainder: the bucket is a selection of the known order. *)
Lemma ordered_tags_known ordered tags : all_in ordered tags ->
  ordered_tags ordered tags = take _MAX_TAGS_PER_BUCKET (List.filter (fun t => one_of t tags) ordered).
Proof.
  intros Hk. unfold ordered_tags. set (out := List.filter _ ordered).
  assert (List.filter (fun t => negb (one_of t out)) tags = []) as ->; [|cbn; by rewrite app_nil_r].
  assert (forall t, In t tags -> In t out) as Ho.
  { intros t Ht. unfold out. rewrite filter_In. split; [by apply Hk|by apply one_of_list]. }
  clearbody out. induction tags as [|t tags IH]; [done|]. cbn.
  rewrite (proj2 (one_of_list t out) (Ho t (or_introl eq_refl))). cbn. apply IH; [|intros x Hx; apply Ho; by right].
  intros x Hx. apply Hk. by right.
Qed.

Record tags_ok (known l : list string) : Prop := {
  tg_size : (length l <= 6)%nat;
  tg_nodup : List.NoDup l;
  tg_known : all_in known l;
}.

Lemma take_in {A} (x : A) n l : In x (take n l) -> In x l.
Proof. revert n. induction l as [|y l IH]; intros [|n]; cbn; try done. intros [->|H]; [by left|right; by eapply IH]. Qed.

Lemma nodup_take {A} n (l : list A) : List.NoDup l -> List.NoDup (take n l).
Proof.
  revert n. induction l as [|y l IH]; intros [|n] Hl; cbn; try constructor.
  - inversion Hl; subst. intros Hy%take_in. done.
  - inversion Hl; subst. by apply IH.
Qed.

Lemma ordered_tags_ok ordered tags : List.NoDup ordered -> all_in ordered tags ->
  tags_ok ordered (ordered_tags ordered tags).
Proof.
  intros Hn Hk. rewrite ordered_tags_known by done. split.
  - rewrite length_take. unfold _MAX_TAGS_PER_BUCKET. lia.
  - by apply nodup_take, List.NoDup_filter.
  - intros t Ht%take_in. by apply filter_In in Ht as [Ht _].
Qed.

Lemma order_nodup : List.NoDup MISTAKE_ORDER /\ List.NoDup STRENGTH_ORDER.
Proof. split; repeat constructor; cbn; intros H; repeat destruct H as [H|H]; try discriminate H; exact H. Qed.

(** A trade is not praised for clean execution and for luck at once. *)
Lemma no_contradiction tags : all_in STRENGTH_ORDER tags ->
  ~ (In CLEAN_EXECUTION (_normalize_tags false tags) /\ In REVERSION_LUCK (_normalize_tags false tags)).
Proof.
  intros Hk [Hc Hr]. unfold _normalize_tags in *. cbv beta iota in *.
  set (unique := List.filter _ tags) in *.
  assert (all_in STRENGTH_ORDER unique) as Hu by (by apply all_in_filter).
  destruct (one_of REVERSION_LUCK unique) eqn:E.
  - rewrite ordered_tags_known in Hc by (by apply all_in_filter). apply take_in, filter_In in Hc as [_ Hc].
    apply one_of_list, filter_In in Hc as [_ Hc]. discriminate Hc.
  - rewrite ordered_tags_known in Hr by done. apply take_in, filter_In in Hr as [_ Hr]. by rewrite E in Hr.
Qed.

Lemma mistakes_known eq xq rr al pnl c l : _classify_mistakes eq xq rr al pnl c = Ok l -> all_in MISTAKE_ORDER l.
Proof. unfold _classify_mistakes. intros (p & _ & <-%Ok_inj)%res_bind_Ok. known_tags. Qed.

Lemma strengths_known eq xq rr al pnl c l : _classify_strengths eq xq rr al pnl c = Ok l -> all_in STRENGTH_ORDER l.
Proof. unfold _classify_strengths. intros (p & _ & <-%Ok_inj)%res_bind_Ok. known_tags. Qed.

Lemma system_known d c s : _derive_contextual_system_tags d c = Ok s ->
  all_in MISTAKE_ORDER (fst s) /\ all_in STRENGTH_ORDER (snd s).
Proof.
  unfold _derive_contextual_system_tags.
  intros (a & _ & (b & _ & (e & _ & <-%Ok_inj)%res_bind_Ok)%res_bind_Ok)%res_bind_Ok.
  split; cbn [fst snd]; known_tags.
Qed.

Lemma normalized_ok (b : bool) l : all_in (if b then MISTAKE_ORDER else STRENGTH_ORDER) l ->
  tags_ok (if b then MISTAKE_ORDER else STRENGTH_ORDER) (_normalize_tags b l).
Proof.
  intros Hk. destruct order_nodup as [N1 N2]. unfold _normalize_tags.
  destruct b; [apply ordered_tags_ok; [done|by apply all_in_filter]|].
  destruct (one_of _ _); apply ordered_tags_ok; try done; repeat apply all_in_filter; exact Hk.
Qed.

(** The dictionary of an evaluation. *)
Lemma score_trade_inv d e : score_trade d = Ok e -> exists s m st,
  scores_of d = Ok s /\ scores_ok s /\ all_in MISTAKE_ORDER m /\ all_in STRENGTH_ORDER st /\
  dget "overall_score" e = Some (VFloat (py_round (overall_score s) 4)) /\
  dget "grade" e = Some (VStr (_score_to_grade (overall_score s))) /\
  dget "confidence" e = Some (VFloat (py_round (confidence_out (overall_score s)) 4)) /\
  dget "entry_quality" e = Some (VFloat (py_round (sc_entry s) 4)) /\
  dget "exit_quality" e = Some (VFloat (py_round (sc_exit s) 4)) /\
  dget "timing_score" e = Some (VFloat (py_round (timing_score s) 4)) /\
  dget "risk_reward" e = Some (VFloat (py_round (sc_rr s) 4)) /\
  dget "mistakes" e = Some (strings (_normalize_tags true m)) /\
  dget "strengths" e = Some (strings (_normalize_tags false st)).
Proof.
  unfold score_trade. intros (s & Hs & H)%res_bind_Ok.
  apply res_bind_Ok in H as (c & _ & H). apply res_bind_Ok in H as (m & Hm & H).
  apply res_bind_Ok in H as (st & Hst & H). apply res_bind_Ok in H as (sys & Hsys & H).
  apply res_bind_Ok in H as (po & _ & H). apply res_bind_Ok in H as (co & _ & H).
  apply res_bind_Ok in H as (cost & _ & H). apply Ok_inj in H as <-.
  apply mistakes_known in Hm. apply strengths_known in Hst. apply system_known in Hsys as [K1 K2].
  exists s, (m ++ fst sys), (st ++ snd sys). split; [exact Hs|]. split.
  { unfold scores_of in Hs. apply res_bind_Ok in Hs as (x & _ & Hs). apply res_bind_Ok in Hs as (p & _ & Hs).
    apply res_bind_Ok in Hs as (y & _ & Hs). apply Ok_inj in Hs as <-. exact (trade_scores_ok _ _ _ _ _). }
  split; [by apply all_in_app|]. split; [by apply all_in_app|].
  repeat split; reflexivity.
Qed.

(** Every scored trade is well formed, whatever its fields hold: each quality, the
    timing, the overall score and the confidence are in [0, 1]; the mistakes and the
    strengths are at most six distinct known tags each, and no trade is praised for clean
    execution and for luck at once. *)
Theorem scored_trade_bounded d e : score_trade d = Ok e ->
  (forall k, In k ["overall_score"; "confidence"; "entry_quality"; "exit_quality"; "timing_score"; "risk_reward"] ->
     exists x, dget k e = Some (VFloat x) /\ within (Fin 0) 1.0%F x) /\
  exists m st, dget "mistakes" e = Some (strings m) /\ dget "strengths" e = Some (strings st) /\
    tags_ok MISTAKE_ORDER m /\ tags_ok STRENGTH_ORDER st /\
    ~ (In CLEAN_EXECUTION st /\ In REVERSION_LUCK st).
Proof.
  intros (s & m & st & _ & Hs & Km & Ks & E1 & _ & E3 & E4 & E5 & E6 & E7 & E8 & E9)%score_trade_inv.
  split.
  - intros k Hk. repeat destruct Hk as [<-|Hk]; [..|destruct Hk]; eexists;
      (split; [eassumption|]); apply round_unit; try (apply Hs); apply clamp_unit_ok.
  - exists (_normalize_tags true m), (_normalize_tags false st).
    split; [exact E8|]. split; [exact E9|]. split; [exact (normalized_ok true m Km)|].
    split; [exact (normalized_ok false st Ks)|]. exact (no_contradiction st Ks).
Qed.

(** * Order *)

Lemma fdiv_mono_pos x x' y :
  is_finite x = true -> is_finite x' = true -> is_finite y = true -> fltb (Fin 0) y = true ->
  fleb x x' = true -> fleb (fdiv_nz x y) (fdiv_nz x' y) = true.
Proof.
  intros Hx Hx' Hy H0y H1. apply fltb_units in H0y; [|done..]. cbn [units] in H0y.
  apply fleb_units in H1; [|done..]. pose proof scale_pos.
  apply fleb_key. do 2 eexists. rewrite !fdiv_nz_key by (done || lia). do 2 (split; [reflexivity|]).
  apply sat_mono. rewrite !Z.sgn_pos, !Z.abs_eq, !Z.mul_1_l by lia. apply Rnd.rnd_mono; [lia..|].
  do 2 (apply Z.mul_le_mono_nonneg_r; [lia|]). exact H1.
Qed.

Definition small_pct (p : float) : Prop := within (-1e6)%F 1e6%F p.

Lemma small_finite p : small_pct p -> is_finite p = true.
Proof. apply within_finite; fconst. Qed.

Lemma clamp_unit_mono x y : fleb x y = true -> fleb (clamp_unit x) (clamp_unit y) = true.
Proof. unfold clamp_unit, _clamp. apply clamp_mono. fconst. Qed.

(** A quotient by a constant of at least 1 stays in the range. *)
Lemma quotient_within y p : is_finite y = true -> fltb (Fin 0) y = true ->
  fleb (-1e6)%F (fdiv_nz (-1e6)%F y) = true -> fleb (fdiv_nz 1e6%F y) 1e6%F = true ->
  small_pct p -> small_pct (fdiv_nz p y).
Proof.
  intros Fy Py Hl Hh Hp. pose proof (small_finite _ Hp) as Fp. destruct Hp as [H1 H2].
  assert (is_finite (-1e6)%F = true) as Fl by fconst. assert (is_finite 1e6%F = true) as Fh by fconst.
  split.
  - exact (fleb_trans _ _ _ Hl (fdiv_mono_pos _ _ _ Fl Fp Fy Py H1)).
  - exact (fleb_trans _ _ _ (fdiv_mono_pos _ _ _ Fp Fh Fy Py H2) Hh).
Qed.

Lemma half_plus_mono y p q : is_finite y = true -> fltb (Fin 0) y = true ->
  fleb (-1e6)%F (fdiv_nz (-1e6)%F y) = true -> fleb (fdiv_nz 1e6%F y) 1e6%F = true ->
  small_pct p -> small_pct q -> fleb p q = true ->
  fleb (clamp_unit (0.5 + fdiv_nz p y)%F) (clamp_unit (0.5 + fdiv_nz q y)%F) = true.
Proof.
  intros Fy Py Hl Hh Hp Hq Hpq. apply clamp_unit_mono.
  assert (is_finite 0.5%F = true) as F5 by fconst. assert (fleb 0.5%F 0.5%F = true) as R5 by fconst.
  exact (fadd_mono _ _ _ _ F5 F5 (small_finite _ (quotient_within y p Fy Py Hl Hh Hp))
           (small_finite _ (quotient_within y q Fy Py Hl Hh Hq)) R5
           (fdiv_mono_pos _ _ _ (small_finite _ Hp) (small_finite _ Hq) Fy Py Hpq)).
Qed.

Lemma exit_mono p q : small_pct p -> small_pct q -> fleb p q = true ->
  fleb (score_exit_quality p) (score_exit_quality q) = true.
Proof. unfold score_exit_quality. apply half_plus_mono; fconst. Qed.

Lemma risk_reward_mono pnl p q : small_pct p -> small_pct q -> fleb p q = true ->
  fleb (score_risk_reward pnl p) (score_risk_reward pnl q) = true.
Proof.
  intros Hp Hq Hpq. unfold score_risk_reward.
  assert (fleb (clamp_unit (0.5 + fdiv_nz p 20.0)%F) (clamp_unit (0.5 + fdiv_nz q 20.0)%F) = true) as Hm
    by (revert Hp Hq Hpq; apply half_plus_mono; fconst).
  destruct (fltb 0.0%F pnl); [exact Hm|]. destruct (fltb pnl 0.0%F); [exact Hm|fconst].
Qed.

Lemma shifted_finite p : small_pct p -> is_finite (p - -10.0)%F = true.
Proof.
  intros Hp. apply (within_finite (-2e6)%F 2e6%F); [fconst|fconst|].
  assert (within (-10.0)%F (-10.0)%F (-10.0)%F) as Hc by (split; fconst).
  refine (fsub_within (-1e6)%F 1e6%F (-10.0)%F (-10.0)%F _ _ _ _ _ _ _ _ _ _ Hp Hc); fconst.
Qed.

Lemma return_eq x : score_normalized_return x = clamp_unit (fdiv_nz (x - -10.0) (10.0 - -10.0))%F.
Proof.
  unfold score_normalized_return, normalize. assert (fleb 10.0%F (-10.0)%F = false) as -> by fconst. reflexivity.
Qed.

Lemma return_mono p q : small_pct p -> small_pct q -> fleb p q = true ->
  fleb (score_normalized_return p) (score_normalized_return q) = true.
Proof.
  intros Hp Hq Hpq. rewrite !return_eq. apply clamp_unit_mono.
  assert (is_finite (10.0 - -10.0)%F = true) as Fw by fconst.
  assert (fltb (Fin 0) (10.0 - -10.0)%F = true) as Pw by fconst.
  assert (is_finite (-10.0)%F = true) as Fc by fconst. assert (fleb (-10.0)%F (-10.0)%F = true) as Rc by fconst.
  exact (fdiv_mono_pos _ _ _ (shifted_finite _ Hp) (shifted_finite _ Hq) Fw Pw
           (fsub_mono _ _ _ _ (small_finite _ Hp) (small_finite _ Hq) Fc Fc Hpq Rc)).
Qed.

Lemma unit_finite x : unit x -> is_finite x = true.
Proof. apply within_finite; fconst. Qed.

(** Two values in a range, in order. *)
Definition grows (h x y : float) : Prop := within (Fin 0) h x /\ within (Fin 0) h y /\ fleb x y = true.

(** A weight: a constant that scales the unit range into its own. *)
Definition weight (c : float) : bool := fin_ok c && fleb (Fin 0) c && fleb (c * 1.0)%F c.

Lemma grow_weight c x y : weight c = true -> unit x -> unit y -> fleb x y = true ->
  grows c (c * x)%F (c * y)%F.
Proof.
  unfold weight. intros Hc Hx Hy Hxy. apply andb_true_iff in Hc as [Hc H1].
  apply andb_true_iff in Hc as [Fc Hc]. pose proof (fin_ok_finite _ Fc) as Fc'.
  assert (fin_ok 1.0%F = true) as F1 by fconst.
  pose proof (fleb_refl _ (finite_not_nan _ Fc')) as Rc.
  split; [exact (fmul_within _ _ _ _ _ Fc F1 H1 (conj Hc Rc) Hx)|].
  split; [exact (fmul_within _ _ _ _ _ Fc F1 H1 (conj Hc Rc) Hy)|].
  exact (fmul_mono_nonneg _ _ _ _ Fc' Fc' (unit_finite _ Hx) (unit_finite _ Hy) Hc (proj1 Hx) Rc Hxy).
Qed.

Lemma grow_add b c h x x' y y' : fin_ok b = true -> fin_ok c = true -> fleb (b + c)%F h = true ->
  grows b x x' -> grows c y y' -> grows h (x + y)%F (x' + y')%F.
Proof.
  intros Fb Fc Hh (X & X' & HX) (Y & Y' & HY). assert (fin_ok (Fin 0) = true) as F0 by fconst.
  assert (fleb (Fin 0) (Fin 0 + Fin 0)%F = true) as Z by fconst.
  split; [exact (fadd_within _ _ _ _ _ _ _ _ F0 Fb F0 Fc Z Hh X Y)|].
  split; [exact (fadd_within _ _ _ _ _ _ _ _ F0 Fb F0 Fc Z Hh X' Y')|].
  exact (fadd_mono _ _ _ _ (within_finite _ _ _ F0 Fb X) (within_finite _ _ _ F0 Fb X')
           (within_finite _ _ _ F0 Fc Y) (within_finite _ _ _ F0 Fc Y') HX HY).
Qed.

Definition weighted_sum (s : Scores) : float :=
  (0.30 * sc_norm_return s + 0.25 * sc_rr s + 0.20 * sc_entry s + 0.15 * sc_exit s + 0.10 * sc_align s)%F.

Record scores_le (s t : Scores) : Prop := {
  le_return : fleb (sc_norm_return s) (sc_norm_return t) = true;
  le_rr : fleb (sc_rr s) (sc_rr t) = true;
  le_entry : fleb (sc_entry s) (sc_entry t) = true;
  le_exit : fleb (sc_exit s) (sc_exit t) = true;
  le_align : fleb (sc_align s) (sc_align t) = true;
}.

Lemma weighted_sum_mono s t : scores_ok s -> scores_ok t -> scores_le s t ->
  fleb (weighted_sum s) (weighted_sum t) = true.
Proof.
  intros [S1 S2 S3 S4 S5] [T1 T2 T3 T4 T5] [L1 L2 L3 L4 L5]. unfold weighted_sum.
  assert (weight 0.30%F = true) as W1 by fconst. assert (weight 0.25%F = true) as W2 by fconst.
  assert (weight 0.20%F = true) as W3 by fconst. assert (weight 0.15%F = true) as W4 by fconst.
  assert (weight 0.10%F = true) as W5 by fconst.
  refine (proj2 (proj2 (grow_add 3.0%F 0.10%F 4.0%F _ _ _ _ _ _ _ _ (grow_weight _ _ _ W5 S5 T5 L5)))); [fconst..|].
  refine (grow_add 2.0%F 0.15%F 3.0%F _ _ _ _ _ _ _ _ (grow_weight _ _ _ W4 S4 T4 L4)); [fconst..|].
  refine (grow_add 1.0%F 0.20%F 2.0%F _ _ _ _ _ _ _ _ (grow_weight _ _ _ W3 S3 T3 L3)); [fconst..|].
  refine (grow_add 0.30%F 0.25%F 1.0%F _ _ _ _ _ _ _ (grow_weight _ _ _ W1 S1 T1 L1) (grow_weight _ _ _ W2 S2 T2 L2));
    fconst.
Qed.

Lemma overall_mono s t : scores_ok s -> scores_ok t -> scores_le s t ->
  fleb (overall_score s) (overall_score t) = true.
Proof. intros. unfold overall_score. by apply clamp_unit_mono, weighted_sum_mono. Qed.

(** Grades in order. *)
Definition grade_rank (g : string) : Z :=
  if String.eqb g "A" then 4 else if String.eqb g "B" then 3 else if String.eqb g "C" then 2
  else if String.eqb g "D" then 1 else 0.

Lemma grade_mono x y : fleb x y = true -> grade_rank (_score_to_grade x) <= grade_rank (_score_to_grade y).
Proof.
  intros Hxy. assert (forall c, fleb c y = false -> fleb c x = false) as Hc.
  { intros c Hy. destruct (fleb c x) eqn:E; [|reflexivity]. by rewrite (fleb_trans _ _ _ E Hxy) in Hy. }
  unfold _score_to_grade.
  destruct (fleb 0.90%F y) eqn:E1; [repeat case_match; vm_compute; discriminate|rewrite (Hc _ E1)].
  destruct (fleb 0.75%F y) eqn:E2; [repeat case_match; vm_compute; discriminate|rewrite (Hc _ E2)].
  destruct (fleb 0.60%F y) eqn:E3; [repeat case_match; vm_compute; discriminate|rewrite (Hc _ E3)].
  destruct (fleb 0.40%F y) eqn:E4; [repeat case_match; vm_compute; discriminate|rewrite (Hc _ E4)]. reflexivity.
Qed.

(** A trade that earned more never scores less: with everything else equal, a higher
    percentage return gives an overall score and a grade at least as high. *)
Theorem better_return_scores_higher pnl p q confidence side action :
  within (-1e6)%F 1e6%F p -> within (-1e6)%F 1e6%F q -> fleb p q = true ->
  let s := overall_score (trade_scores pnl p confidence side action) in
  let t := overall_score (trade_scores pnl q confidence side action) in
  fleb s t = true /\ grade_rank (_score_to_grade s) <= grade_rank (_score_to_grade t).
Proof.
  intros Hp Hq Hpq. cbv zeta.
  assert (fleb (overall_score (trade_scores pnl p confidence side action))
               (overall_score (trade_scores pnl q confidence side action)) = true) as Hs;
    [|split; [exact Hs|exact (grade_mono _ _ Hs)]].
  apply overall_mono; [apply trade_scores_ok..|]. unfold trade_scores.
  split; cbn [sc_norm_return sc_rr sc_entry sc_exit sc_align].
  - exact (return_mono p q Hp Hq Hpq).
  - exact (risk_reward_mono pnl p q Hp Hq Hpq).
  - exact (fleb_refl _ (finite_not_nan _ (unit_finite _ (entry_unit _)))).
  - exact (exit_mono p q Hp Hq Hpq).
  - exact (fleb_refl _ (finite_not_nan _ (unit_finite _ (alignment_unit _ _)))).
Qed.

Lemma better_return_scores_higher_witness :
  let s := overall_score (trade_scores 10.0%F 1.0%F 0.6%F (VStr "sell") (VStr "buy")) in
  let t := overall_score (trade_scores 10.0%F 6.0%F 0.6%F (VStr "sell") (VStr "buy")) in
  fleb s t = true /\ grade_rank (_score_to_grade s) <= grade_rank (_score_to_grade t).
Proof. apply better_return_scores_higher; [split; fconst|split; fconst|fconst]. Defined.

Definition won_trade : payload :=
  [("symbol", VStr "BTC/USD"); ("side", VStr "sell"); ("action", VStr "buy"); ("entry_price", VFloat 100.0%F);
   ("exit_price", VFloat 106.0%F); ("pnl", VFloat 60.0%F); ("pnl_percent", VFloat 6.0%F);
   ("holding_period_minutes", VInt 30); ("confidence", VFloat 0.9%F)].

Lemma scored_trade_bounded_witness : exists e, score_trade won_trade = Ok e /\
  (forall k, In k ["overall_score"; "confidence"; "entry_quality"; "exit_quality"; "timing_score"; "risk_reward"] ->
     exists x, dget k e = Some (VFloat x) /\ within (Fin 0) 1.0%F x) /\
  exists m st, dget "mistakes" e = Some (strings m) /\ dget "strengths" e = Some (strings st) /\
    tags_ok MISTAKE_ORDER m /\ tags_ok STRENGTH_ORDER st /\
    ~ (In CLEAN_EXECUTION st /\ In REVERSION_LUCK st).
Proof.
  assert (is_ok (score_trade won_trade) = true) as T by fconst.
  destruct (score_trade won_trade) as [e|x] eqn:E; [|discriminate T].
  exists e. split; [reflexivity|]. exact (scored_trade_bounded won_trade e E).
Defined.

(** * Learning metrics *)

Section MetricFacts.
Context `{CPow}.

Lemma drawdown_step_nonneg pcts : forall s, fleb (Fin 0) (snd s) = true ->
  fleb (Fin 0) (snd (fold_left drawdown_step pcts s)) = true.
Proof.
  induction pcts as [|x l IH]; intros s Hs; [exact Hs|]. cbn [fold_left]. apply IH.
  destruct s as [[c p] m]. cbn [drawdown_step snd] in *.
  destruct (fltb m _) eqn:E; [exact (fleb_trans _ _ _ Hs (fltb_fleb _ _ E))|exact Hs].
Qed.

Lemma running_drawdown_nonneg pcts : fleb (Fin 0) (running_drawdown pcts) = true.
Proof. unfold running_drawdown. apply drawdown_step_nonneg. fconst. Qed.

Lemma opposite_nonpos x : fleb (Fin 0) x = true -> fleb (py_round (fopp x) 4) (Fin 0) = true.
Proof.
  intros Hx%fopp_mono. change (fopp (Fin 0)) with NegZero in Hx.
  destruct (is_finite (fopp x)) eqn:Fx.
  - pose proof (py_round_mono _ _ 4 ltac:(lia) Fx (eq_refl : is_finite NegZero = true) Hx) as Hr.
    refine (fleb_trans _ _ _ Hr _). fconst.
  - destruct (fopp x) as [|[]| |]; try discriminate Fx; vm_compute in Hx |- *; try discriminate Hx; reflexivity.
Qed.

Lemma win_rate_unit (p : float -> bool) l r :
  int_div (zlen (List.filter p l)) (zlen l) = Ok r -> unit (py_round r 4).
Proof.
  intros E. apply round_unit. destruct (Z.eq_dec (zlen l) 0) as [H0|H0].
  - rewrite H0 in E. vm_compute in E. discriminate E.
  - pose proof (List.filter_length_le p l). unfold zlen in *.
    destruct (int_div_unit (Z.of_nat (length (List.filter p l))) (Z.of_nat (length l))) as (q & Eq & Hq); [lia|lia|].
    rewrite Eq in E. apply Ok_inj in E as <-. exact Hq.
Qed.

Lemma consistency_unit a l r : consistency_of a l = Ok r -> unit r.
Proof.
  unfold consistency_of. destruct (_ && _).
  - intros (s & _ & <-%Ok_inj)%res_bind_Ok. exact (clamp_unit_ok _).
  - intros <-%Ok_inj. split; fconst.
Qed.

Lemma metrics_sound evaluations m : compute_learning_metrics evaluations = Ok m ->
  lm_total_trades m = zlen evaluations /\ within (Fin 0) 1.0%F (lm_win_rate m) /\
  within (Fin 0) 1.0%F (lm_consistency m) /\ fleb (lm_max_drawdown m) (Fin 0) = true /\
  lm_metric_status m = metric_status (zlen evaluations).
Proof.
  destruct evaluations as [|e l].
  { intros E. apply Ok_inj in E as <-.
    cbn [lm_total_trades lm_win_rate lm_consistency lm_max_drawdown lm_metric_status].
    split; [reflexivity|]. split; [split; fconst|]. split; [split; fconst|]. split; [fconst|reflexivity]. }
  unfold compute_learning_metrics. set (evs := e :: l). intros (pcts & _ & E)%res_bind_Ok.
  apply res_bind_Ok in E as (pnls & Ep & E). apply res_bind_Ok in E as (scores & _ & E).
  apply res_bind_Ok in E as (wr & Ew & E). apply res_bind_Ok in E as (sh & _ & E).
  apply res_bind_Ok in E as (tr & _ & E). apply res_bind_Ok in E as (co & Ec & E). apply Ok_inj in E as <-.
  cbn [lm_total_trades lm_win_rate lm_consistency lm_max_drawdown lm_metric_status].
  split; [reflexivity|]. split.
  { apply (win_rate_unit (fltb 0.0%F) pnls). unfold zlen in *. by rewrite (res_list_length _ _ _ Ep). }
  split; [apply round_unit; exact (consistency_unit _ _ _ Ec)|].
  split; [apply opposite_nonpos, running_drawdown_nonneg|reflexivity].
Qed.

(** The learning metrics of any evaluations are consistent: they count every trade, the
    win rate and the consistency are in [0, 1], the drawdown is not positive, and the status
    says whether there were at least ten or thirty trades. *)
Theorem learning_metrics_sound evaluations m : compute_learning_metrics evaluations = Ok m ->
  lm_total_trades m = zlen evaluations /\ within (Fin 0) 1.0%F (lm_win_rate m) /\
  within (Fin 0) 1.0%F (lm_consistency m) /\ fleb (lm_max_drawdown m) (Fin 0) = true /\
  lm_metric_status m = metric_status (zlen evaluations).
Proof. apply metrics_sound. Qed.

(** ** Totality *)

(** The [k]-fold range of a sum of moderate terms. *)
Definition big : Z := 2 ^ 40 * scale.

Lemma big_pos : 0 < big.
Proof. unfold big. pose proof scale_pos. lia. Qed.

Lemma big_repr k : 0 <= k <= 2 ^ 53 -> Rnd.repr (k * big).
Proof.
  intros Hk. unfold big. rewrite scale_spec. replace (k * (2 ^ 40 * 2 ^ 1074)) with (k * 2 ^ 1114).
  - apply Rnd.repr_shift; lia.
  - f_equal.
Qed.

Lemma key_units x a : key x = Some a -> Z.abs a < bound -> is_finite x = true /\ units x = a.
Proof. intros Hk Ha. pose proof (key_finite x a Hk Ha) as F. split; [exact F|]. rewrite finite_key in Hk by done. by injection Hk. Qed.

(** A rounded quantity of at most [c] stays there when [c] is a double. *)
Lemma rounded_within a b c : 0 < b -> Rnd.repr c -> 0 <= c < bound -> Z.abs a <= c * b ->
  Z.abs (sat (Rnd.rnd a b)) <= c.
Proof.
  intros Hb Hc Hc0 Ha. pose proof (Rnd.rnd_le a b c Hb Hc ltac:(lia)).
  pose proof (Rnd.rnd_ge a b (- c) Hb (proj2 (Rnd.repr_opp c) Hc) ltac:(lia)).
  unfold sat. lia.
Qed.

Lemma many_big k : 0 <= k <= 2 ^ 53 -> k * big < bound.
Proof.
  intros Hk. assert (2 ^ 53 * big < bound) by (by vm_compute). pose proof big_pos. nia.
Qed.

Lemma fadd_big x y k : is_finite x = true -> is_finite y = true -> 0 <= k < 2 ^ 53 ->
  Z.abs (units x) <= k * big -> Z.abs (units y) <= big ->
  is_finite (fadd x y) = true /\ Z.abs (units (fadd x y)) <= (k + 1) * big.
Proof.
  intros Fx Fy Hk Hx Hy. pose proof (fadd_key x y Fx Fy) as K. pose proof big_pos.
  assert (0 <= k * big) by (apply Z.mul_nonneg_nonneg; lia).
  pose proof (many_big (k + 1) ltac:(lia)) as Hb.
  assert (Z.abs (sat (Rnd.rnd (units x + units y) 1)) <= (k + 1) * big) as R.
  { apply rounded_within; [lia|apply big_repr; lia|lia|lia]. }
  destruct (key_units _ _ K ltac:(lia)) as [F E]. rewrite E. split; [exact F|exact R].
Qed.

Definition fine (x : float) : Prop := is_finite x = true /\ Z.abs (units x) <= big.

Lemma sample_fine x : sample_ok x -> fine x.
Proof.
  intros [F Hu]%sample_units. split; [exact F|]. unfold big. pose proof scale_pos.
  assert (10 ^ 12 <= 2 ^ 40) by (by vm_compute). nia.
Qed.

Lemma sum_fine l : forall acc k, Forall fine l -> is_finite acc = true -> 0 <= k -> k + zlen l <= 2 ^ 53 ->
  Z.abs (units acc) <= k * big ->
  is_finite (fold_left fadd l acc) = true /\ Z.abs (units (fold_left fadd l acc)) <= (k + zlen l) * big.
Proof.
  induction l as [|x l IH]; intros acc k Hl Fa Hk Hn Ha.
  - cbn [fold_left]. split; [exact Fa|]. unfold zlen. cbn. by rewrite Z.add_0_r.
  - apply Forall_cons in Hl as [[Fx Hx] Hl]. assert (zlen (x :: l) = zlen l + 1) as E by (unfold zlen; cbn; lia).
    rewrite E in *. assert (0 <= zlen l) by (unfold zlen; lia).
    destruct (fadd_big acc x k Fa Fx ltac:(lia) Ha Hx) as [F' H'].
    destruct (IH (fadd acc x) (k + 1) Hl F' ltac:(lia) ltac:(lia) H') as [F2 H2].
    cbn [fold_left]. split; [exact F2|]. by replace (k + (zlen l + 1)) with (k + 1 + zlen l) by lia.
Qed.

Lemma mean_fine l : l <> [] -> zlen l <= 2 ^ 53 -> Forall fine l -> fine (mean_of l).
Proof.
  intros Hne Hn Hl. assert (0 < zlen l) as Hp by (destruct l; [done|]; unfold zlen; cbn; lia).
  destruct (sum_fine l (Fin 0) 0 Hl eq_refl ltac:(lia) ltac:(lia) ltac:(cbn; lia)) as [F Hs].
  fold (fsum_left l) in *. rewrite Z.add_0_l in Hs. unfold mean_of. pose proof big_pos. pose proof scale_pos.
  pose proof (of_Z_exact (zlen l) ltac:(lia)) as K.
  assert (zlen l * scale < bound) as Hb.
  { assert (2 ^ 53 * scale < bound) by (by vm_compute). nia. }
  destruct (key_units _ _ K ltac:(lia)) as [Fn Un].
  pose proof (fdiv_nz_key (fsum_left l) (of_Z (zlen l)) F Fn ltac:(lia)) as Kd. rewrite Un in Kd.
  rewrite Z.sgn_pos, Z.mul_1_l, Z.abs_eq in Kd by nia.
  pose proof (many_big 1 ltac:(lia)) as Hb1. rewrite Z.mul_1_l in Hb1.
  assert (Z.abs (sat (Rnd.rnd (units (fsum_left l) * scale) (zlen l * scale))) <= big) as R.
  { apply rounded_within; [nia| |lia|rewrite Z.abs_mul, (Z.abs_eq scale) by lia; nia].
    rewrite <- (Z.mul_1_l big). apply big_repr. lia. }
  destruct (key_units _ _ Kd ltac:(lia)) as [Fd Ud]. split; [exact Fd|lia].
Qed.

Lemma res_list_total {A B} (f : A -> res B) (P : B -> Prop) l :
  (forall x, In x l -> exists y, f x = Ok y /\ P y) -> exists ys, res_list f l = Ok ys /\ Forall P ys.
Proof.
  induction l as [|x l IH]; intros Hf; [by exists []|]. cbn [res_list].
  destruct (Hf x (or_introl eq_refl)) as (y & -> & Hy). destruct IH as (ys & -> & Hys); [intros z Hz; apply Hf; by right|].
  exists (y :: ys). split; [reflexivity|by constructor].
Qed.

Lemma fine_minus x y : fine x -> fine y -> within (-1e150)%F 1e150%F (x - y)%F.
Proof.
  intros [Fx Hx] [Fy Hy]. pose proof (fopp_finite _ Fy) as Fo. pose proof (units_fopp _ Fy) as Uo.
  destruct (fadd_big x (fopp y) 1 Fx Fo ltac:(lia) ltac:(lia) ltac:(lia)) as [F H1].
  change (fadd x (fopp y)) with (x - y)%F in F, H1.
  assert (is_finite (-1e150)%F = true) as Fl by fconst. assert (is_finite 1e150%F = true) as Fh by fconst.
  set (c := units 1e150%F). assert (units 1e150%F = c) as Eh by reflexivity.
  assert (units (-1e150)%F = - c) as El by fconst. assert (2 * big <= c) as Hc by (by vm_compute). clearbody c.
  split; [apply (fleb_units _ _ Fl F)|apply (fleb_units _ _ F Fh)]; rewrite ?El, ?Eh; lia.
Qed.

Lemma deviation_total m l : fine m -> Forall fine l -> exists r, sample_deviation m l = Ok r.
Proof.
  intros Hm Hl. unfold sample_deviation.
  destruct (res_list_total (fun x => square (x - m)%F) (fun y => is_finite y = true) l) as (ys & -> & _).
  { intros x Hx. apply square_total, fine_minus; [|exact Hm].
    exact (proj1 (List.Forall_forall _ _) Hl x Hx). }
  cbn [res_bind]. destruct (fltb 0.0%F _) eqn:E; [|eexists; reflexivity].
  destruct (math_sqrt_ok (fdiv_nz (fsum_left ys) (of_Z (zlen l - 1)))) as (r & Er & _); [|exists r; exact Er].
  rewrite zero_is_zero in E. exact (fltb_fleb _ _ E).
Qed.

Lemma fine_int z : Z.abs z <= 2 ^ 40 -> fine (of_Z z).
Proof.
  intros Hz. pose proof (of_Z_exact z ltac:(lia)) as K. pose proof scale_pos.
  assert (2 ^ 40 * scale < bound) as Hb by (by vm_compute).
  assert (Z.abs (z * scale) <= 2 ^ 40 * scale) as Ha by (rewrite Z.abs_mul, (Z.abs_eq scale) by lia; nia).
  destruct (key_units _ _ K ltac:(lia)) as [F U]. split; [exact F|]. unfold big. rewrite U. exact Ha.
Qed.

Lemma fine_half x : fine x -> fine (fdiv_nz x 2.0%F).
Proof.
  intros [F Hx]. assert (is_finite 2.0%F = true) as F2 by fconst. assert (units 2.0%F = 2 * scale) as U2 by fconst.
  pose proof scale_pos. pose proof (fdiv_nz_key x 2.0%F F F2 ltac:(lia)) as K. rewrite U2 in K.
  rewrite Z.sgn_pos, Z.mul_1_l, Z.abs_eq in K by lia.
  pose proof (many_big 1 ltac:(lia)) as Hb. rewrite Z.mul_1_l in Hb. pose proof big_pos.
  assert (Z.abs (sat (Rnd.rnd (units x * scale) (2 * scale))) <= big) as R.
  { apply rounded_within; [lia| |lia|rewrite Z.abs_mul, (Z.abs_eq scale) by lia; nia].
    rewrite <- (Z.mul_1_l big). apply big_repr. lia. }
  destruct (key_units _ _ K ltac:(lia)) as [F' U]. split; [exact F'|lia].
Qed.

Lemma slope_total a l : zlen l <= 2 ^ 30 -> exists r, score_slope a l = Ok r.
Proof.
  intros Hn. unfold score_slope.
  destruct (res_list_total square (fun y => is_finite y = true) (offsets (zlen l))) as (ys & -> & _);
    [|eexists; reflexivity].
  intros x Hx. apply square_total. unfold offsets in Hx. apply in_map_iff in Hx as (i & <- & Hi).
  apply in_seq in Hi. unfold zlen in *. apply fine_minus; [apply fine_int; lia|apply fine_half, fine_int; lia].
Qed.

(** What the metrics read of an evaluation: a profit, and two moderate numbers. *)
Definition scored (e : payload) : Prop :=
  (exists x, num "pnl" e = Ok x) /\
  forall k, In k ["pnl_percent"; "overall_score"] -> exists x, num k e = Ok x /\ sample_ok x.

Lemma column_total k evs : Forall scored evs -> In k ["pnl_percent"; "overall_score"] ->
  exists xs, res_list (num k) evs = Ok xs /\ Forall fine xs /\ zlen xs = zlen evs.
Proof.
  intros Hs Hk. destruct (res_list_total (num k) sample_ok evs) as (xs & E & Hx).
  { intros e He. exact (proj2 (proj1 (List.Forall_forall _ _) Hs e He) k Hk). }
  exists xs. split; [exact E|]. split; [|unfold zlen; by rewrite (res_list_length _ _ _ E)].
  eapply Forall_impl; [exact Hx|]. intros x. apply sample_fine.
Qed.

Lemma profits_total evs : Forall scored evs -> exists xs, res_list (num "pnl") evs = Ok xs /\ zlen xs = zlen evs.
Proof.
  intros Hs. destruct (res_list_total (num "pnl") (fun _ => True) evs) as (xs & E & _).
  { intros e He. destruct (proj1 (proj1 (List.Forall_forall _ _) Hs e He)) as [x Hx]. by exists x. }
  exists xs. split; [exact E|]. unfold zlen. by rewrite (res_list_length _ _ _ E).
Qed.

Lemma nonempty_zlen {A} (l l' : list A) : zlen l = zlen l' -> l' <> [] -> l <> [].
Proof. intros E Hne ->. destruct l'; [done|]. unfold zlen in E. cbn in E. lia. Qed.

Lemma metrics_total evaluations :
  zlen evaluations <= 2 ^ 30 -> Forall scored evaluations ->
  exists m, compute_learning_metrics evaluations = Ok m.
Proof.
  intros Hn Hs. destruct evaluations as [|e l]; [eexists; reflexivity|].
  unfold compute_learning_metrics. set (evs := e :: l) in *.
  destruct (column_total "pnl_percent" evs Hs) as (pcts & -> & Fp & Lp); [by left|].
  destruct (profits_total evs Hs) as (pnls & -> & Ll).
  destruct (column_total "overall_score" evs Hs) as (scores & -> & Fs & Ls); [by right; left|].
  cbn [res_bind]. rewrite <- Ll. assert (0 < zlen evs) as Hpos by (unfold evs, zlen; cbn; lia).
  destruct (int_div_unit (zlen (List.filter (fltb 0.0%F) pnls)) (zlen pnls)) as (wr & -> & _);
    [pose proof (List.filter_length_le (fltb 0.0%F) pnls); unfold zlen in *; lia|lia|]. cbn [res_bind].
  assert (fine (mean_of pcts)) as Mp
    by (apply mean_fine; [intros ->; unfold zlen in *; cbn in Lp; lia|lia|exact Fp]).
  assert (fine (mean_of scores)) as Ms
    by (apply mean_fine; [intros ->; unfold zlen in *; cbn in Ls; lia|lia|exact Fs]).
  destruct (deviation_total _ _ Mp Fp) as (dp & Ep). destruct (deviation_total _ _ Ms Fs) as (ds & Es).
  destruct (math_sqrt_ok 252.0%F ltac:(fconst)) as (year & Ey & _).
  assert (exists s, sharpe_of pcts = Ok s) as (s & ->).
  { unfold sharpe_of. destruct (_ && _); [|eexists; reflexivity]. rewrite Ep. cbn [res_bind]. rewrite Ey.
    eexists; reflexivity. }
  assert (exists t, score_trend_of (mean_of scores) scores = Ok t) as (t & ->).
  { unfold score_trend_of. destruct (_ <? _); [eexists; reflexivity|].
    destruct (slope_total (mean_of scores) scores ltac:(lia)) as (r & ->). eexists; reflexivity. }
  assert (exists c, consistency_of (mean_of scores) scores = Ok c) as (c & ->).
  { unfold consistency_of. destruct (_ && _); [|eexists; reflexivity]. rewrite Es. eexists; reflexivity. }
  eexists; reflexivity.
Qed.

(** The learning metrics exist for any number of evaluations with moderate returns and scores: no
    division, power or root of theirs can raise, however the trades went. *)
Theorem learning_metrics_total evaluations :
  zlen evaluations <= 2 ^ 30 -> Forall scored evaluations ->
  exists m, compute_learning_metrics evaluations = Ok m.
Proof. apply metrics_total. Qed.

End MetricFacts.

Definition scored_row (pct pnl score : float) : payload :=
  [("pnl_percent", VFloat pct); ("pnl", VFloat pnl); ("overall_score", VFloat score)].

Lemma float_or_zero_sample x : sample_ok x -> exists y, float_or_zero (VFloat x) = Ok y /\ sample_ok y.
Proof.
  intros Hx. unfold float_or_zero. destruct (truthy (VFloat x)); [by exists x|].
  exists 0.0%F. split; [reflexivity|]. split; fconst.
Qed.

Lemma float_or_zero_ok x : exists y, float_or_zero (VFloat x) = Ok y.
Proof. unfold float_or_zero. destruct (truthy (VFloat x)); eexists; reflexivity. Qed.

Lemma scored_row_ok x y z : sample_ok x -> sample_ok z -> scored (scored_row x y z).
Proof.
  intros Hx Hz. split; [exact (float_or_zero_ok y)|]. intros k Hk.
  destruct Hk as [<-|[<-|[]]]; [exact (float_or_zero_sample x Hx)|exact (float_or_zero_sample z Hz)].
Qed.

Definition scored_example : list payload :=
  [scored_row 1.5%F 15.0%F 0.6%F; scored_row (-0.5)%F (-5.0)%F 0.4%F].

Lemma learning_metrics_total_witness : exists m, compute_learning_metrics (H := pow_exact) scored_example = Ok m.
Proof.
  apply (learning_metrics_total (H := pow_exact) scored_example); [vm_compute; discriminate|].
  constructor; [apply scored_row_ok; split; fconst|]. constructor; [apply scored_row_ok; split; fconst|constructor].
Defined.

Lemma learning_metrics_sound_witness : exists m, compute_learning_metrics (H := pow_exact) scored_example = Ok m /\
  lm_total_trades m = zlen scored_example /\ within (Fin 0) 1.0%F (lm_win_rate m) /\
  within (Fin 0) 1.0%F (lm_consistency m) /\ fleb (lm_max_drawdown m) (Fin 0) = true /\
  lm_metric_status m = metric_status (zlen scored_example).
Proof.
  assert (is_ok (compute_learning_metrics (H := pow_exact) scored_example) = true) as T by fconst.
  destruct (compute_learning_metrics (H := pow_exact) scored_example) as [m|x] eqn:E; [|discriminate T].
  exists m. split; [reflexivity|]. exact (learning_metrics_sound (H := pow_exact) scored_example m E).
Defined.

(** * Performance per model *)

Lemma insert_desc_perm {A} lt (x : A) l : Permutation (insert_desc lt x l) (x :: l).
Proof.
  induction l as [|y l IH]; [done|]. cbn. destruct (lt x y); [|done]. rewrite IH. by constructor.
Qed.

Lemma sort_desc_perm {A} lt (l : list A) : Permutation (sort_desc lt l) l.
Proof. induction l as [|x l IH]; [done|]. cbn. rewrite insert_desc_perm. by constructor. Qed.

Lemma insert_desc_sorted {A} (key : A -> Z) (x : A) l :
  StronglySorted (fun a b => key b <= key a) l ->
  StronglySorted (fun a b => key b <= key a) (insert_desc (fun a b => key a <? key b) x l).
Proof.
  induction 1 as [|y l Hl IH Hy]; cbn; [by repeat constructor|].
  destruct (Z.ltb_spec (key x) (key y)).
  - constructor; [exact IH|]. rewrite insert_desc_perm. by constructor; [lia|].
  - constructor; [by constructor|]. constructor; [done|]. eapply Forall_impl; [exact Hy|]. cbn. intros z. lia.
Qed.

Lemma sort_desc_sorted {A} (key : A -> Z) (l : list A) :
  StronglySorted (fun a b => key b <= key a) (sort_desc (fun a b => key a <? key b) l).
Proof. induction l as [|x l IH]; [constructor|]. by apply insert_desc_sorted. Qed.

(** The evaluations of a model. *)
Definition by_model (m : string) (evs : list payload) : list payload :=
  List.filter (fun e => String.eqb (model_name e) m) evs.

Definition bucket_ok (evs : list payload) (m : string) (a : ModelAcc) : Prop :=
  m <> "" /\ ma_trades a = zlen (by_model m evs) /\ 0 < ma_trades a /\ 0 <= ma_wins a <= ma_trades a.

Record buckets_ok (evs : list payload) (b : dict ModelAcc) : Prop := {
  bk_each : forall m a, dget m b = Some a -> bucket_ok evs m a;
  bk_none : forall m, m <> "" -> dget m b = None -> by_model m evs = [];
  bk_keys : List.NoDup (dkeys b);
}.

Lemma by_model_snoc m evs e : by_model m (evs ++ [e]) =
  if String.eqb (model_name e) m then by_model m evs ++ [e] else by_model m evs.
Proof. unfold by_model. rewrite List.filter_app. cbn. by case_match; [|rewrite app_nil_r]. Qed.

Lemma model_acc_spec e a a' : model_acc e a = Ok a' ->
  ma_trades a' = ma_trades a + 1 /\ (ma_wins a' = ma_wins a \/ ma_wins a' = ma_wins a + 1).
Proof.
  unfold model_acc. intros (p & _ & E)%res_bind_Ok. apply res_bind_Ok in E as (w & _ & E).
  apply res_bind_Ok in E as (s & _ & E). apply res_bind_Ok in E as (c & _ & E). apply Ok_inj in E as <-.
  cbn [ma_trades ma_wins]. split; [reflexivity|]. destruct w; [by right|by left].
Qed.

Lemma model_step_ok evs e b b' : buckets_ok evs b -> model_step b e = Ok b' -> buckets_ok (evs ++ [e]) b'.
Proof.
  intros [He Hno Hk]. unfold model_step. destruct (String.eqb_spec (model_name e) "") as [E0|Hne].
  - intros <-%Ok_inj. split; [|intros m Hm Hd|exact Hk].
    + intros m a Ha. pose proof (He m a Ha) as B. unfold bucket_ok in *. rewrite by_model_snoc.
      destruct (String.eqb_spec (model_name e) m) as [E|_]; [|exact B]. destruct B as [Hm _]. congruence.
    + rewrite by_model_snoc. destruct (String.eqb_spec (model_name e) m) as [E|_]; [congruence|by apply Hno].
  - intros (a & Ea & <-%Ok_inj)%res_bind_Ok. apply model_acc_spec in Ea as [Et Ew]. split.
    + intros m a' Ha'. unfold bucket_ok. rewrite by_model_snoc.
      destruct (String.eqb_spec (model_name e) m) as [<-|Hm].
      * rewrite dget_dset_eq in Ha'. apply Some_inj in Ha' as <-. rewrite zlen_app.
        assert (forall x : payload, zlen [x] = 1) as L1 by done. rewrite L1.
        destruct (dget (model_name e) b) as [a0|] eqn:Eb.
        -- destruct (He _ _ Eb) as (_ & Tr & Po & Wi). split; [exact Hne|]. lia.
        -- rewrite (Hno _ Hne Eb). cbn in Et, Ew. split; [exact Hne|]. unfold zlen. cbn. lia.
      * rewrite dget_dset_ne in Ha' by exact Hm. by apply He.
    + intros m Hm Hd. rewrite by_model_snoc. destruct (String.eqb_spec (model_name e) m) as [<-|Hm'].
      * by rewrite dget_dset_eq in Hd.
      * rewrite dget_dset_ne in Hd by exact Hm'. by apply Hno.
    + by apply NoDup_ListNoDup, dset_NoDup, NoDup_ListNoDup.
Qed.

Lemma buckets_fold l : forall evs b b', buckets_ok evs b -> res_fold model_step l b = Ok b' ->
  buckets_ok (evs ++ l) b'.
Proof.
  induction l as [|e l IH]; intros evs b b' Hb; cbn [res_fold].
  - intros <-%Ok_inj. by rewrite app_nil_r.
  - intros (b1 & E1 & E2)%res_bind_Ok. replace (evs ++ e :: l) with ((evs ++ [e]) ++ l) by (by rewrite <- app_assoc).
    eapply IH; [|exact E2]. by eapply model_step_ok.
Qed.

Lemma model_rows_spec b rows : res_list model_row b = Ok rows ->
  map mr_model rows = dkeys b /\
  forall r, In r rows -> exists a wr, In (mr_model r, a) b /\ mr_trade_count r = ma_trades a /\
    int_div (ma_wins a) (ma_trades a) = Ok wr /\ mr_win_rate r = py_round wr 4.
Proof.
  revert rows. induction b as [|[m a] b IH]; intros rows; cbn [res_list].
  { intros <-%Ok_inj. by split. }
  intros (r & Er & (rs & Ers & <-%Ok_inj)%res_bind_Ok)%res_bind_Ok. destruct (IH _ Ers) as [IH1 IH2].
  unfold model_row in Er. apply res_bind_Ok in Er as (wr & Ew & <-%Ok_inj). split; [cbn; by rewrite IH1|].
  intros r [<-|Hr].
  - exists a, wr. cbn. by repeat split; [left|..].
  - destruct (IH2 r Hr) as (a' & w & Hin & Rest). exists a', w. split; [by right|exact Rest].
Qed.

(** The per-model aggregation conserves trades: every model that produced a trade has
    exactly one row, a row counts exactly the evaluations of its model, its win rate is in
    [0, 1], and the rows are in descending order of their counts. *)
Theorem models_conserve_trades evaluations rows : aggregate_model_performance evaluations = Ok rows ->
  List.NoDup (map mr_model rows) /\
  (forall r, In r rows -> mr_trade_count r = zlen (by_model (mr_model r) evaluations) /\
     0 < mr_trade_count r /\ within (Fin 0) 1.0%F (mr_win_rate r)) /\
  (forall e, In e evaluations -> model_name e <> "" -> In (model_name e) (map mr_model rows)) /\
  StronglySorted (fun a b => mr_trade_count b <= mr_trade_count a) rows.
Proof.
  unfold aggregate_model_performance. intros (b & Eb & (rs & Er & <-%Ok_inj)%res_bind_Ok)%res_bind_Ok.
  assert (buckets_ok [] []) as B0 by (split; [done|done|constructor]).
  pose proof (buckets_fold _ _ _ _ B0 Eb) as [He Hno Hk]. cbn [app] in He, Hno.
  apply model_rows_spec in Er as [Em Hr].
  pose proof (sort_desc_perm (fun a b => mr_trade_count a <? mr_trade_count b) rs) as P.
  split_and!.
  - rewrite P, Em. exact Hk.
  - intros r Hin. rewrite P in Hin. destruct (Hr r Hin) as (a & wr & Ha & Ec & Ew & Eq).
    apply VersionFacts.In_dget in Ha; [|by apply NoDup_ListNoDup]. destruct (He _ _ Ha) as (_ & Tr & Po & Wi).
    split; [lia|]. split; [lia|]. rewrite Eq. apply round_unit.
    destruct (int_div_unit (ma_wins a) (ma_trades a) Wi Po) as (q & Eq' & Hq).
    rewrite Eq' in Ew. apply Ok_inj in Ew as <-. exact Hq.
  - intros e Hin Hne. rewrite P, Em. destruct (dget (model_name e) b) as [a|] eqn:Ed.
    + apply dget_Some_In, list_elem_of_In in Ed. by apply (in_map fst) in Ed.
    + specialize (Hno _ Hne Ed). assert (In e (by_model (model_name e) evaluations)) as X.
      { unfold by_model. apply filter_In. split; [exact Hin|apply String.eqb_refl]. }
      by rewrite Hno in X.
  - apply sort_desc_sorted.
Qed.

Definition two_models : list payload :=
  [[("model_used", VStr "model-a"); ("pnl", VFloat 10.0%F); ("overall_score", VFloat 0.6%F)];
   [("model_used", VStr "model-b"); ("pnl", VFloat (-3.0)%F); ("overall_score", VFloat 0.4%F)];
   [("model_used", VStr " model-a "); ("pnl", VNone)]; [("pnl", VFloat 1.0%F)]].

Lemma models_conserve_trades_witness : exists rows, aggregate_model_performance two_models = Ok rows /\
  List.NoDup (map mr_model rows) /\
  (forall r, In r rows -> mr_trade_count r = zlen (by_model (mr_model r) two_models) /\
     0 < mr_trade_count r /\ within (Fin 0) 1.0%F (mr_win_rate r)) /\
  (forall e, In e two_models -> model_name e <> "" -> In (model_name e) (map mr_model rows)) /\
  StronglySorted (fun a b => mr_trade_count b <= mr_trade_count a) rows.
Proof.
  assert (is_ok (aggregate_model_performance two_models) = true) as T by fconst.
  destruct (aggregate_model_performance two_models) as [rows|x] eqn:E; [|discriminate T].
  exists rows. split; [reflexivity|]. exact (models_conserve_trades two_models rows E).
Defined.
