(* ===== verification/Promotion.v ===== *)
(** Promotion: the replay harness, the regression validator and the promotion gate over the
    strategy registry (api/services/replay_harness.py, regression_validator.py,
    promotion_gate.py). *)
From S2P Require Import Prelude StateErr PyFloat FloatFacts PyVal PyMath PyPow Config Params Policy Gitops Lifecycle Scorer.

Record ReplayMetrics := {
  rm_trade_count : Z;
  rm_total_pnl : float;
  rm_win_rate : float;
  rm_avg_return : float;
  rm_sharpe_ratio : float;
  rm_max_drawdown : float;
  rm_false_positive_rate : float;
  rm_avg_slippage_bps : float;
}.

Definition no_metrics : ReplayMetrics :=
  {| rm_trade_count := 0; rm_total_pnl := 0.0%F; rm_win_rate := 0.0%F; rm_avg_return := 0.0%F;
     rm_sharpe_ratio := 0.0%F; rm_max_drawdown := 0.0%F; rm_false_positive_rate := 0.0%F;
     rm_avg_slippage_bps := 0.0%F |}.

Definition _ACTIONABLE_SIDES : list string := ["buy"; "sell"].

Definition is_actionable (t : payload) : bool :=
  one_of (lower_str (first_truthy ["side"; "action"] t (VStr ""))) _ACTIONABLE_SIDES.

(** [float(x or 0.0)] of a number. *)
Definition or_zero (x : float) : float := if ftruthy x then x else 0.0%F.

Section Replay.
Context `{CPow}.

Definition false_positive_rate_of (trades : list payload) : res float :=
  let actionable := List.filter is_actionable trades in
  match actionable with
  | [] => Ok 0.0%F
  | _ =>
      let* pnls := res_list (num "pnl") actionable in
      int_div (zlen (List.filter (fun x => fltb x 0.0%F) pnls)) (zlen actionable)
  end.

Definition replay (trades : list payload) : res ReplayMetrics :=
  match trades with
  | [] => Ok no_metrics
  | _ =>
      let* m := compute_learning_metrics trades in
      let* pnls := res_list (num "pnl") trades in
      let* fpr := false_positive_rate_of trades in
      let* slippages := res_list (num "slippage_bps") trades in
      Ok {| rm_trade_count := if lm_total_trades m =? 0 then zlen trades else lm_total_trades m;
            rm_total_pnl := py_round (fsum_left pnls) 4; rm_win_rate := or_zero (lm_win_rate m);
            rm_avg_return := or_zero (lm_avg_return m); rm_sharpe_ratio := or_zero (lm_sharpe_ratio m);
            rm_max_drawdown := or_zero (lm_max_drawdown m); rm_false_positive_rate := py_round fpr 4;
            rm_avg_slippage_bps := py_round (mean_of slippages) 4 |}
  end.

End Replay.

(** * The regression gates *)

Definition REGRESSION_MIN_SHARPE_DELTA : float := (-0.10)%F.
Definition REGRESSION_MAX_DRAWDOWN_DELTA_PCT : float := 1.0%F.
Definition REGRESSION_MAX_FALSE_POSITIVE_DELTA : float := 0.05%F.
Definition REGRESSION_MAX_SLIPPAGE_DELTA_BPS : float := 2.0%F.
Definition REGRESSION_MIN_REPLAY_TRADES : Z := 10.

Record RegressionVerdict := {
  rv_approved : bool;
  rv_reasons : list string;
  rv_sharpe_delta : float;
  rv_drawdown_delta : float;
  rv_false_positive_delta : float;
  rv_slippage_delta : float;
}.

Definition validate (champion candidate : ReplayMetrics) : RegressionVerdict :=
  let sharpe_delta := py_round (rm_sharpe_ratio candidate - rm_sharpe_ratio champion)%F 4 in
  let drawdown_delta := py_round (rm_max_drawdown candidate - rm_max_drawdown champion)%F 4 in
  let false_positive_delta := py_round (rm_false_positive_rate candidate - rm_false_positive_rate champion)%F 4 in
  let slippage_delta := py_round (rm_avg_slippage_bps candidate - rm_avg_slippage_bps champion)%F 4 in
  let reasons :=
    when (rm_trade_count candidate <? REGRESSION_MIN_REPLAY_TRADES)
      ("insufficient sample: " +:+ pretty (rm_trade_count candidate) +:+ " < "
       +:+ pretty REGRESSION_MIN_REPLAY_TRADES +:+ " trades") ++
    when (fltb sharpe_delta REGRESSION_MIN_SHARPE_DELTA)
      ("sharpe regressed " +:+ Fmt.fixed_plus 3 sharpe_delta +:+ " (limit "
       +:+ Fmt.fixed_plus 3 REGRESSION_MIN_SHARPE_DELTA +:+ ")") ++
    when (fltb drawdown_delta (- REGRESSION_MAX_DRAWDOWN_DELTA_PCT)%F)
      ("drawdown worsened " +:+ Fmt.fixed_plus 2 drawdown_delta +:+ "pp (limit -"
       +:+ Fmt.fixed 2 REGRESSION_MAX_DRAWDOWN_DELTA_PCT +:+ "pp)") ++
    when (fltb REGRESSION_MAX_FALSE_POSITIVE_DELTA false_positive_delta)
      ("false-positive rate up " +:+ Fmt.fixed_plus 3 false_positive_delta +:+ " (limit +"
       +:+ Fmt.fixed 3 REGRESSION_MAX_FALSE_POSITIVE_DELTA +:+ ")") ++
    when (fltb REGRESSION_MAX_SLIPPAGE_DELTA_BPS slippage_delta)
      ("slippage up " +:+ Fmt.fixed_plus 2 slippage_delta +:+ "bps (limit +"
       +:+ Fmt.fixed 2 REGRESSION_MAX_SLIPPAGE_DELTA_BPS +:+ "bps)") in
  {| rv_approved := match reasons with [] => true | _ => false end; rv_reasons := reasons;
     rv_sharpe_delta := sharpe_delta; rv_drawdown_delta := drawdown_delta;
     rv_false_positive_delta := false_positive_delta; rv_slippage_delta := slippage_delta |}.

(** * The gate *)

Record PromotionDecision := {
  pd_version_id : string;
  pd_to_status : StrategyStatus;
  pd_approved : bool;
  pd_transitioned : bool;
  pd_reason : string;
  pd_champion : ReplayMetrics;
  pd_candidate : ReplayMetrics;
  pd_verdict : RegressionVerdict;
}.

(** The message of the exception a refused transition raises. *)
Definition transition_error (vid : string) (st : StrategyStatus) (r : StrategyRegistry) : string :=
  match Versions.get vid r with
  | None => "unknown version " +:+ vid
  | Some rec => status_value (status rec) +:+ " -> " +:+ status_value st +:+ " is not allowed"
  end.

(** The transition, an [InvalidTransitionError] caught: whether it was made, and the reason. *)
Definition try_transition (vid : string) (st : StrategyStatus) (now : float)
  : M StrategyRegistry (bool * string) := fun r =>
  match Versions.transition vid st now r with
  | (Ok _, r') => (Ok (true, "promoted to " +:+ status_value st), r')
  | (Raise InvalidTransitionError, r') =>
      (Ok (false, "regression passed but transition blocked: " +:+ transition_error vid st r), r')
  | (Raise e, r') => (Raise e, r')
  end.

Section Gate.
Context `{CPow}.

Definition evaluate_promotion (vid : string) (champion_trades candidate_trades : list payload)
    (to_status : StrategyStatus) (now : float) : M StrategyRegistry PromotionDecision :=
  let! champion := lift (replay champion_trades) in
  let! candidate := lift (replay candidate_trades) in
  let verdict := validate champion candidate in
  let! outcome :=
    (if rv_approved verdict then try_transition vid to_status now
     else ret (false, "rejected: " +:+ Fmt.join "; " (rv_reasons verdict))) in
  ret {| pd_version_id := vid; pd_to_status := to_status; pd_approved := rv_approved verdict;
         pd_transitioned := fst outcome; pd_reason := snd outcome; pd_champion := champion;
         pd_candidate := candidate; pd_verdict := verdict |}.

End Gate.
