(* ===== verification/PromotionFacts.v ===== *)
(** PromotionFacts: what a promotion needs, and that no version goes live without it. *)
From S2P Require Import Prelude StateErr PyFloat FloatFacts PyVal PyMath PyPow Config Params Policy Gitops Lifecycle Scorer ScorerFacts Promotion.
Import Versions VersionFacts.

(** * The verdict *)

(** Every hard gate is clear. *)
Record gates_clear (champion candidate : ReplayMetrics) : Prop := {
  gc_sample : REGRESSION_MIN_REPLAY_TRADES <= rm_trade_count candidate;
  gc_sharpe : fltb (py_round (rm_sharpe_ratio candidate - rm_sharpe_ratio champion)%F 4) REGRESSION_MIN_SHARPE_DELTA = false;
  gc_drawdown : fltb (py_round (rm_max_drawdown candidate - rm_max_drawdown champion)%F 4)
                  (- REGRESSION_MAX_DRAWDOWN_DELTA_PCT)%F = false;
  gc_false_positive : fltb REGRESSION_MAX_FALSE_POSITIVE_DELTA
    (py_round (rm_false_positive_rate candidate - rm_false_positive_rate champion)%F 4) = false;
  gc_slippage : fltb REGRESSION_MAX_SLIPPAGE_DELTA_BPS
    (py_round (rm_avg_slippage_bps candidate - rm_avg_slippage_bps champion)%F 4) = false;
}.

Lemma when_nil b s : when b s = [] <-> b = false.
Proof. by destruct b. Qed.

Lemma no_reasons {A} (l : list A) : match l with [] => true | _ => false end = true <-> l = [].
Proof. by destruct l. Qed.

Lemma verdict_approved_iff champion candidate :
  rv_approved (validate champion candidate) = true <-> gates_clear champion candidate.
Proof.
  unfold validate. cbn [rv_approved]. rewrite no_reasons. split.
  - intros E. apply app_eq_nil in E as [E1 E]. apply app_eq_nil in E as [E2 E].
    apply app_eq_nil in E as [E3 E]. apply app_eq_nil in E as [E4 E5].
    apply when_nil in E1, E2, E3, E4, E5. split; [by apply Z.ltb_ge|assumption..].
  - intros [C1 C2 C3 C4 C5]. apply Z.ltb_ge in C1. rewrite C1, C2, C3, C4, C5. reflexivity.
Qed.

(** * Histories *)

(** Every status recorded after was recorded before or is allowed. *)
Definition entries (r r' : StrategyRegistry) (allowed : string -> StrategyStatus -> Prop) : Prop :=
  forall k rec', dget k (_records r') = Some rec' -> forall st, In st (map fst (history rec')) ->
  (exists rec, dget k (_records r) = Some rec /\ In st (map fst (history rec))) \/ allowed k st.

Lemma entries_refl r allowed : entries r r allowed.
Proof. intros k rec E st Hin. left. by exists rec. Qed.

Lemma entries_trans r1 r2 r3 allowed : entries r1 r2 allowed -> entries r2 r3 allowed -> entries r1 r3 allowed.
Proof.
  intros H1 H2 k rec E st Hin. destruct (H2 k rec E st Hin) as [(rec2 & E2 & Hin2)|Ha]; [|by right].
  exact (H1 k rec2 E2 st Hin2).
Qed.

Lemma entries_set vid st now r (allowed : string -> StrategyStatus -> Prop) : allowed vid st ->
  entries r (_set_status vid st now r) allowed.
Proof.
  intros Ha k rec' E s Hin. destruct (dget vid (_records r)) as [rec|] eqn:Ev.
  - rewrite (set_status_get vid st now r rec k Ev) in E. destruct (String.eqb_spec k vid) as [->|Hne].
    + apply Some_inj in E as <-. rewrite moved_path in Hin. apply in_app_or in Hin as [Hin|[<-|[]]]; [|by right].
      left. by exists rec.
    + left. by exists rec'.
  - unfold _set_status in E. rewrite Ev in E. left. by exists rec'.
Qed.

Lemma entries_stack l r allowed : entries r (with_stack l r) allowed.
Proof. intros k rec E st Hin. left. by exists rec. Qed.

Definition retired_or (vid : string) (st : StrategyStatus) (k : string) (s : StrategyStatus) : Prop :=
  s = RETIRED \/ (k = vid /\ s = st).

Lemma supersede_entries now r a : (forall k, a k RETIRED) -> entries r (snd (_supersede_current_live now r)) a.
Proof.
  intros Ha. unfold _supersede_current_live, bind, gets, ret, modify, record_at.
  destruct (top r) as [t|]; [|apply entries_refl].
  destruct (dget t (_records r)) as [rec|]; [|apply entries_refl]. cbn [snd]. by apply entries_set.
Qed.

Lemma transition_entries vid st now r : entries r (snd (transition vid st now r)) (retired_or vid st).
Proof.
  unfold transition, bind, gets. destruct (get vid r) as [rec|]; [|apply entries_refl].
  destruct (negb _); [apply entries_refl|]. destruct (status_eqb st LIVE).
  - pose proof (supersede_entries now r (retired_or vid st) ltac:(intros k; by left)) as Hs.
    destruct (_supersede_current_live now r) as [[u|e] r1]; [|exact Hs]. unfold modify, ret. cbn [snd] in *.
    refine (entries_trans _ _ _ _ Hs (entries_trans _ _ _ _ (entries_stack _ r1 _) _)).
    apply entries_set. by right.
  - unfold ret, modify. cbn [snd]. apply entries_set. by right.
Qed.

(** * The gate *)

Section Gate.
Context `{CPow}.
Variable h : payload -> string.

(** What a transition of the gate rests on. *)
Definition sound_promotion (d : PromotionDecision) : Prop :=
  pd_approved d = true /\ gates_clear (pd_champion d) (pd_candidate d).

Lemma try_transition_run vid st now r : registry_ok h r ->
  exists b s r', try_transition vid st now r = (Ok (b, s), r') /\ registry_ok h r' /\
    entries r r' (fun k x => b = true /\ retired_or vid st k x) /\ (b = false -> r' = r) /\
    (b = true -> exists rec, get vid r = Some rec /\ In st (_VALID_TRANSITIONS (status rec))).
Proof.
  intros Hr. unfold try_transition. pose proof (transition_run h vid st now r Hr) as Ht.
  pose proof (transition_entries vid st now r) as He.
  assert (transition vid st now r = (Raise InvalidTransitionError, r) ->
    exists b s r', match transition vid st now r with
      | (Ok _, r'0) => (Ok (true, "promoted to " +:+ status_value st), r'0)
      | (Raise InvalidTransitionError, r'0) =>
          (Ok (false, "regression passed but transition blocked: " +:+ transition_error vid st r), r'0)
      | (Raise e, r'0) => (Raise e, r'0) end = (Ok (b, s), r') /\ registry_ok h r' /\
    entries r r' (fun k x => b = true /\ retired_or vid st k x) /\ (b = false -> r' = r) /\
    (b = true -> exists rec, get vid r = Some rec /\ In st (_VALID_TRANSITIONS (status rec)))) as Hbad.
  { intros E. rewrite E. do 3 eexists. split; [reflexivity|]. split; [exact Hr|].
    split; [apply entries_refl|]. split; [reflexivity|discriminate]. }
  destruct (get vid r) as [rec|] eqn:Eg; [|exact (Hbad Ht)].
  destruct (existsb _ _) eqn:Ev; [|exact (Hbad Ht)]. destruct Ht as (r' & E & Hr'). rewrite E in *. cbn [snd] in He.
  do 3 eexists. split; [reflexivity|]. split; [exact Hr'|]. split; [|split; [discriminate|]].
  - intros k rec' Ek s Hin. destruct (He k rec' Ek s Hin) as [Hl|Ha]; [by left|right; by split].
  - intros _. exists rec. split; [reflexivity|]. by apply existsb_status.
Qed.

Lemma evaluate_run vid champ cand st now r : registry_ok h r ->
  let out := evaluate_promotion vid champ cand st now r in
  registry_ok h (snd out) /\
  match fst out with
  | Raise _ => snd out = r
  | Ok d =>
      pd_version_id d = vid /\ pd_to_status d = st /\
      entries r (snd out) (fun k x => pd_transitioned d = true /\ retired_or vid st k x) /\
      (pd_transitioned d = false -> snd out = r) /\
      (pd_transitioned d = true -> sound_promotion d /\
         exists rec, get vid r = Some rec /\ In st (_VALID_TRANSITIONS (status rec)))
  end.
Proof.
  intros Hr. cbv zeta. unfold evaluate_promotion, bind, lift.
  destruct (replay champ) as [c1|e]; [|by split]. destruct (replay cand) as [c2|e]; [|by split].
  destruct (rv_approved (validate c1 c2)) eqn:Ea.
  - destruct (try_transition_run vid st now r Hr) as (b & s & r' & E & Hr' & He & Hf & Ht). rewrite E.
    unfold ret. cbn [fst snd pd_version_id pd_to_status pd_transitioned]. split; [exact Hr'|].
    split; [reflexivity|]. split; [reflexivity|]. split; [exact He|]. split; [exact Hf|].
    intros Hb. split; [|exact (Ht Hb)]. split; [reflexivity|]. by apply verdict_approved_iff.
  - unfold ret. cbn [fst snd pd_version_id pd_to_status pd_transitioned]. split; [exact Hr|].
    split; [reflexivity|]. split; [reflexivity|]. split; [apply entries_refl|]. by split.
Qed.

(** A promotion needs evidence: the gate changes the registry only by one legal stage of
    the version it was asked about, and only when the candidate's replay has at least ten
    trades and passes every regression gate; otherwise, raising included, the registry is
    left as it was. *)
Theorem promotion_needs_evidence l vid champ cand st now :
  let r := reached h l in
  let out := evaluate_promotion vid champ cand st now r in
  snd out <> r ->
  exists d rec, fst out = Ok d /\ pd_transitioned d = true /\ pd_approved d = true /\
    gates_clear (pd_champion d) (pd_candidate d) /\
    get vid r = Some rec /\ In st (_VALID_TRANSITIONS (status rec)).
Proof.
  cbv zeta. intros Hne. pose proof (evaluate_run vid champ cand st now (reached h l) (reached_ok h l)) as [_ Hm].
  destruct (fst (evaluate_promotion vid champ cand st now (reached h l))) as [d|e]; [|congruence].
  destruct Hm as (_ & _ & _ & Hf & Ht).
  destruct (pd_transitioned d) eqn:Et; [|by rewrite Hf in Hne]. destruct (Ht eq_refl) as [[Ha Hg] (rec & Er & Hs)].
  by exists d, rec.
Qed.

(** ** Only through the gate *)

Inductive gate_op :=
| GRegister (config : payload) (parent : option Z) (now : float)
| GEvaluate (vid : string) (champion candidate : list payload) (to_status : StrategyStatus) (now : float)
| GRollback (now : float).

(** The registry and the decisions taken. *)
Definition gate_step (s : StrategyRegistry * list PromotionDecision) (o : gate_op)
  : StrategyRegistry * list PromotionDecision :=
  let '(r, log) := s in
  match o with
  | GRegister config parent now => (snd (register h config parent now r), log)
  | GEvaluate vid champ cand st now =>
      let '(out, r') := evaluate_promotion vid champ cand st now r in
      (r', match out with Ok d => log ++ [d] | Raise _ => log end)
  | GRollback now => (snd (rollback now r), log)
  end.

Definition gated (l : list gate_op) : StrategyRegistry * list PromotionDecision :=
  fold_left gate_step l (init, []).

Definition passed (log : list PromotionDecision) (vid : string) (st : StrategyStatus) : Prop :=
  exists d, In d log /\ pd_version_id d = vid /\ pd_to_status d = st /\ pd_transitioned d = true /\ sound_promotion d.

Record gated_ok (s : StrategyRegistry * list PromotionDecision) : Prop := {
  gk_registry : registry_ok h (fst s);
  gk_entries : forall k rec st, dget k (_records (fst s)) = Some rec -> In st (map fst (history rec)) ->
    st <> RETIRED -> passed (snd s) k st;
}.

Lemma passed_app log d vid st : passed log vid st -> passed (log ++ [d]) vid st.
Proof. intros (x & Hx & Rest). exists x. split; [apply in_or_app; by left|exact Rest]. Qed.

Lemma register_entries config parent now r : registry_ok h r ->
  entries r (snd (register h config parent now r)) (fun _ _ => False).
Proof.
  intros Hr k rec E st Hin. unfold register in E. cbn [snd _records version_id] in E.
  destruct (String.string_dec (id_of h (_next_version r) config) k) as [<-|Hne].
  - rewrite dget_dset_eq in E. apply Some_inj in E as <-. destruct Hin.
  - rewrite dget_dset_ne in E by exact Hne. left. by exists rec.
Qed.

(** A rollback records retirements, and a live mark only on a version that was live. *)
Lemma rollback_entries now r : registry_ok h r ->
  entries r (snd (rollback now r)) (fun k st => st = RETIRED \/
    exists rec, dget k (_records r) = Some rec /\ In st (map fst (history rec))).
Proof.
  intros Hr. unfold rollback, bind, gets, modify, record_at, ret.
  destruct (top r) as [cur|] eqn:Et; [|apply entries_refl].
  cbn [_records pop with_stack]. destruct (dget cur (_records r)) as [rec|] eqn:E; [|exact (entries_stack _ r _)].
  set (r1 := pop r). set (r2 := _set_status cur RETIRED now r1).
  assert (entries r r2 (fun k st => st = RETIRED \/
    exists rec, dget k (_records r) = Some rec /\ In st (map fst (history rec)))) as H2
    by (refine (entries_trans r r1 r2 _ (entries_stack _ r _) (entries_set _ _ _ _ _ _)); by left).
  destruct (top r2) as [prev|] eqn:Ep; [|exact H2].
  destruct (dget prev (_records r2)) as [pr|] eqn:Er; [|exact H2]. cbn [snd].
  refine (entries_trans _ _ _ _ H2 (entries_set _ _ _ _ _ _)). right.
  assert (In prev (_live_stack r)) as Hin.
  { assert (_live_stack r2 = removelast (_live_stack r)) as Es by apply set_status_rest.
    apply top_in in Ep. rewrite Es in Ep. unfold top in Et. apply last_Some in Et as [l El].
    rewrite El, removelast_last in Ep. rewrite El. apply in_or_app. by left. }
  destruct (ok_stack h r Hr prev Hin) as (rk & Ek & [q Sq] & _). exists rk. split; [exact Ek|].
  rewrite Sq. apply in_or_app. left. cbn. tauto.
Qed.

Lemma gate_step_ok s o : gated_ok s -> gated_ok (gate_step s o).
Proof.
  destruct s as [r log]. intros [Hr He]. cbn [fst snd] in *.
  destruct o as [config parent now|vid champ cand st now|now]; cbn [gate_step].
  - split; cbn [fst snd]; [by apply new_version_ok|]. intros k rec st E Hin Hne.
    destruct (register_entries config parent now r Hr k rec E st Hin) as [(rk & Ek & Hk)|[]]. by eapply He.
  - pose proof (evaluate_run vid champ cand st now r Hr) as [Hr' Hm].
    destruct (evaluate_promotion vid champ cand st now r) as [[d|e] r']; cbn [fst snd] in *.
    + destruct Hm as (Hv & Hs & Hent & _ & Ht). split; cbn [fst snd]; [exact Hr'|]. intros k rec x E Hin Hne.
      destruct (Hent k rec E x Hin) as [(rk & Ek & Hk)|[Hb [->|[-> ->]]]]; [apply passed_app; by eapply He|done|].
      exists d. split; [apply in_or_app; right; by left|]. by destruct (Ht Hb) as [Hsound _].
    + subst r'. by split.
  - destruct (rollback_run h now r Hr) as (o & r' & E & H' & _). split; cbn [fst snd]; [by rewrite E|].
    intros k rec st Ek Hin Hne.
    destruct (rollback_entries now r Hr k rec Ek st Hin) as [(rk & Erk & Hk)|[Hx|(rk & Erk & Hk)]];
      [by eapply He|by destruct Hne|by eapply He].
Qed.

Lemma gated_reached l : gated_ok (gated l).
Proof.
  unfold gated. apply fold_left_inv; [intros; by apply gate_step_ok|].
  split; [apply no_versions_ok|]. intros k rec st E. discriminate E.
Qed.

(** C23: No version goes live without evidence: when versions advance through the gate only,
    whatever is registered, evaluated and rolled back, a live version passed the gate once
    for every stage, backtested, shadow, canary and live, each time with at least ten
    replayed trades and every regression gate clear. *)
Theorem live_only_through_gate l vid :
  status_of vid (fst (gated l)) = Some LIVE ->
  forall st, In st [BACKTESTED; SHADOW; CANARY; LIVE] -> passed (snd (gated l)) vid st.
Proof.
  unfold status_of, get. intros Hs st Hin. pose proof (gated_reached l) as [Hr He].
  destruct (dget vid (_records (fst (gated l)))) as [rec|] eqn:E; [|discriminate Hs].
  apply Some_inj in Hs. pose proof (ok_path h _ Hr vid rec E) as Hp. unfold path_ok in Hp. rewrite Hs in Hp.
  destruct Hp as [q Eq]. apply (He vid rec st E).
  - rewrite Eq. apply in_or_app. by left.
  - intros ->. cbn in Hin. intuition discriminate.
Qed.

End Gate.

(** * Concrete runs *)

(** Ten trades, seven of them won. *)
Definition replayed : list payload :=
  map (fun x => [("side", VStr "sell"); ("pnl", VFloat x); ("pnl_percent", VFloat x)])
    [2.0; -1.0; 3.0; 1.0; -1.0; 2.0; 1.0; -2.0; 2.0; 1.0]%F.

Definition to_live : list gate_op :=
  let vid := id_of digest 1 [] in
  GRegister [] None 0.0%F ::
  map (fun st => GEvaluate vid replayed replayed st 1.0%F) [BACKTESTED; SHADOW; CANARY; LIVE].

Lemma live_only_through_gate_witness :
  Forall (passed (snd (gated (H := pow_exact) digest to_live)) "v1-0") [BACKTESTED; SHADOW; CANARY; LIVE].
Proof.
  apply List.Forall_forall. apply (live_only_through_gate (H := pow_exact) digest to_live "v1-0").
  assert (match status_of "v1-0" (fst (gated (H := pow_exact) digest to_live)) with
          | Some LIVE => true | _ => false end = true) as T by fconst.
  destruct (status_of _ _) as [[]|]; try discriminate T. reflexivity.
Defined.

Lemma promotion_needs_evidence_witness :
  let r := reached digest [Register [] None 0.0%F] in
  let out := evaluate_promotion (H := pow_exact) "v1-0" replayed replayed BACKTESTED 1.0%F r in
  exists d rec, fst out = Ok d /\ pd_transitioned d = true /\ pd_approved d = true /\
    gates_clear (pd_champion d) (pd_candidate d) /\
    get "v1-0" r = Some rec /\ In BACKTESTED (_VALID_TRANSITIONS (status rec)).
Proof.
  cbv zeta. apply (promotion_needs_evidence (H := pow_exact) digest [Register [] None 0.0%F]). intros E.
  apply (f_equal (fun r => match status_of "v1-0" r with Some BACKTESTED => true | _ => false end)) in E.
  assert (match status_of "v1-0" (snd (evaluate_promotion (H := pow_exact) "v1-0" replayed replayed BACKTESTED 1.0%F
            (reached digest [Register [] None 0.0%F]))) with Some BACKTESTED => true | _ => false end = true) as T by fconst.
  rewrite T in E. vm_compute in E. discriminate E.
Defined.

(** A candidate whose every number is NaN is never worse: all gates compare with it and are
    clear. *)
Definition nan_metrics : ReplayMetrics :=
  {| rm_trade_count := 10; rm_total_pnl := NaN; rm_win_rate := NaN; rm_avg_return := NaN; rm_sharpe_ratio := NaN;
     rm_max_drawdown := NaN; rm_false_positive_rate := NaN; rm_avg_slippage_bps := NaN |}.

(** The regression gates fail open: no comparison with NaN finds a candidate worse. *)
Theorem nan_candidate_approved champion : rv_approved (validate champion nan_metrics) = true.
Proof.
  apply verdict_approved_iff.
  assert (forall x, py_round (fsub NaN x) 4 = NaN) as E by (intros x; destruct x; vm_compute; reflexivity).
  split; cbn [nan_metrics rm_trade_count rm_sharpe_ratio rm_max_drawdown rm_false_positive_rate rm_avg_slippage_bps];
    [unfold REGRESSION_MIN_REPLAY_TRADES; lia|rewrite E; fconst..].
Qed.

(** * Fairness *)

Definition finite_metrics (m : ReplayMetrics) : Prop :=
  is_finite (rm_sharpe_ratio m) = true /\ is_finite (rm_max_drawdown m) = true /\
  is_finite (rm_false_positive_rate m) = true /\ is_finite (rm_avg_slippage_bps m) = true.

(** A candidate no worse than the champion on every gated metric. *)
Record no_worse (champion candidate : ReplayMetrics) : Prop := {
  nw_sharpe : fleb (rm_sharpe_ratio champion) (rm_sharpe_ratio candidate) = true;
  nw_drawdown : fleb (rm_max_drawdown champion) (rm_max_drawdown candidate) = true;
  nw_false_positive : fleb (rm_false_positive_rate candidate) (rm_false_positive_rate champion) = true;
  nw_slippage : fleb (rm_avg_slippage_bps candidate) (rm_avg_slippage_bps champion) = true;
}.

Lemma rise_nonneg x y : is_finite x = true -> is_finite y = true -> fleb x y = true ->
  fleb (Fin 0) (py_round (y - x)%F 4) = true.
Proof. intros Fx Fy Hxy. apply py_round_nonneg; [lia|]. by apply fsub_nonneg. Qed.

Lemma fall_nonpos x y : is_finite x = true -> is_finite y = true -> fleb x y = true ->
  fleb (py_round (x - y)%F 4) (Fin 0) = true.
Proof.
  intros Fx Fy Hxy.
  assert (fleb (x - y)%F (Fin 0) = true) as Hd.
  { refine (fleb_trans _ _ _ (fsub_mono _ _ _ _ Fx Fy Fy Fy Hxy (fleb_refl _ (finite_not_nan _ Fy))) _).
    destruct (fsub_self_zero y y Fy Fy eq_refl) as [-> | ->]; fconst. }
  destruct (is_finite (x - y)%F) eqn:Fd.
  - refine (fleb_trans _ _ _ (py_round_mono _ _ 4 ltac:(lia) Fd (eq_refl : is_finite (Fin 0) = true) Hd) _). fconst.
  - destruct (x - y)%F as [|[]| |]; try discriminate Fd; vm_compute in Hd |- *; try discriminate Hd; reflexivity.
Qed.

(** The gates are fair: a candidate with at least ten replayed trades that is no worse
    than the champion in Sharpe ratio, drawdown, false positives and slippage is approved;
    in particular a champion passes against itself. *)
Theorem no_worse_candidate_approved champion candidate :
  finite_metrics champion -> finite_metrics candidate -> no_worse champion candidate ->
  REGRESSION_MIN_REPLAY_TRADES <= rm_trade_count candidate ->
  rv_approved (validate champion candidate) = true.
Proof.
  intros (A1 & A2 & A3 & A4) (B1 & B2 & B3 & B4) [N1 N2 N3 N4] Hn. apply verdict_approved_iff.
  assert (forall x c, fleb (Fin 0) x = true -> fltb c (Fin 0) = true -> fltb x c = false) as Hlow.
  { intros x c Hx Hc. destruct (fltb x c) eqn:E; [|reflexivity].
    pose proof (fltb_asym _ _ (fltb_fleb_trans _ _ _ Hc Hx)) as X. by rewrite (fltb_fleb _ _ E) in X. }
  assert (forall x c, fleb x (Fin 0) = true -> fltb (Fin 0) c = true -> fltb c x = false) as Hhigh.
  { intros x c Hx Hc. destruct (fltb c x) eqn:E; [|reflexivity].
    pose proof (fltb_asym _ _ (fleb_fltb_trans _ _ _ Hx Hc)) as X. by rewrite (fltb_fleb _ _ E) in X. }
  split; [exact Hn|apply Hlow; [by apply rise_nonneg|fconst]|apply Hlow; [by apply rise_nonneg|fconst]|..].
  - apply Hhigh; [by apply fall_nonpos|fconst].
  - apply Hhigh; [by apply fall_nonpos|fconst].
Qed.

Definition sample_metrics : ReplayMetrics :=
  {| rm_trade_count := 12; rm_total_pnl := 10.0%F; rm_win_rate := 0.5%F; rm_avg_return := 0.4%F;
     rm_sharpe_ratio := 1.2%F; rm_max_drawdown := (-3.0)%F; rm_false_positive_rate := 0.4%F;
     rm_avg_slippage_bps := 1.5%F |}.

Lemma no_worse_candidate_approved_witness : rv_approved (validate sample_metrics sample_metrics) = true.
Proof.
  apply no_worse_candidate_approved; [split_and!; fconst|split_and!; fconst|split; fconst|].
  vm_compute. discriminate.
Defined.
