(* ===== verification/Shadow.v ===== *)
(** Shadow: the shadow paper-trading engine (api/services/shadow_trader.py), and how the
    challenger agent restores its record (api/services/agents/challenger_agent.py). *)
From S2P Require Import Prelude StateErr PyFloat FloatFacts PyVal PyMath PyPow Config Params Policy Filters Store Execution Engine Momentum.

Inductive ShadowDir := SFlat | SLong | SShort.

#[global] Instance shadow_dir_eq_dec : EqDecision ShadowDir.
Proof. solve_decision. Defined.

Record ShadowTrade := {
  sh_symbol : string;
  sh_direction : string;
  sh_entry_price : float;
  sh_exit_price : float;
  sh_pnl : float;
  sh_bars_held : Z;
}.

Record OpenPosition := { op_direction : ShadowDir; op_entry_price : float; op_entry_index : Z }.

Record ShadowMetrics := { sm_trades : Z; sm_wins : Z; sm_realized_pnl : float; sm_pnls : list float }.

Module Shadow.

Definition flat : OpenPosition := {| op_direction := SFlat; op_entry_price := 0.0%F; op_entry_index := 0 |}.
Definition no_trades : ShadowMetrics := {| sm_trades := 0; sm_wins := 0; sm_realized_pnl := 0.0%F; sm_pnls := [] |}.

Definition win_rate (m : ShadowMetrics) : res float :=
  if sm_trades m =? 0 then Ok 0.0%F else int_div (sm_wins m) (sm_trades m).

Definition avg_pnl (m : ShadowMetrics) : float :=
  if sm_trades m =? 0 then 0.0%F else fdiv_nz (sm_realized_pnl m) (of_Z (sm_trades m)).

(** [_restore_metrics] of the challenger agent: the record of a list of profits. *)
Definition _restore_metrics (pnls : list float) : ShadowMetrics :=
  {| sm_trades := zlen pnls; sm_wins := zlen (List.filter (fltb 0.0%F) pnls);
     sm_realized_pnl := fsum_left pnls; sm_pnls := pnls |}.

Section Engine.
Context `{CPow}.

Definition sharpe (m : ShadowMetrics) : res float :=
  let n := zlen (sm_pnls m) in
  if n <? 2 then Ok 0.0%F
  else
    let mean := fdiv_nz (sm_realized_pnl m) (of_Z n) in
    let* squares := res_list (fun p => square (p - mean)%F) (sm_pnls m) in
    let sd := pow_half (fdiv_nz (fsum_left squares) (of_Z n)) in
    Ok (if fltb 0.0%F sd then fdiv_nz mean sd else 0.0%F).

Record ShadowTradeEngine := {
  she_strategy_name : string;
  she_strategy : Strategies.Strategy;
  she_history_maxlen : nat;
  she_history : dict (list float);
  she_positions : dict OpenPosition;
  she_index : Z;
  she_metrics : ShadowMetrics;
}.

Definition init (name : string) (strategy : Strategies.Strategy) (history_maxlen : Z) : ShadowTradeEngine :=
  {| she_strategy_name := name; she_strategy := strategy; she_history_maxlen := Z.to_nat (Z.max history_maxlen 2);
     she_history := []; she_positions := []; she_index := 0; she_metrics := no_trades |}.

Definition with_bar (h : dict (list float)) (i : Z) (s : ShadowTradeEngine) : ShadowTradeEngine :=
  {| she_strategy_name := she_strategy_name s; she_strategy := she_strategy s;
     she_history_maxlen := she_history_maxlen s; she_history := h; she_positions := she_positions s;
     she_index := i; she_metrics := she_metrics s |}.

Definition with_book (p : dict OpenPosition) (m : ShadowMetrics) (s : ShadowTradeEngine) : ShadowTradeEngine :=
  {| she_strategy_name := she_strategy_name s; she_strategy := she_strategy s;
     she_history_maxlen := she_history_maxlen s; she_history := she_history s; she_positions := p;
     she_index := she_index s; she_metrics := m |}.

Definition open_position_count (s : ShadowTradeEngine) : Z :=
  zlen (List.filter (fun p => negb (bool_decide (op_direction p = SFlat))) (dvalues (she_positions s))).

(** The trade that closing a position at a price realizes, if there is one. *)
Definition closing (symbol : string) (pos : OpenPosition) (price : float) (index : Z) : option ShadowTrade :=
  match op_direction pos with
  | SFlat => None
  | SLong =>
      Some {| sh_symbol := symbol; sh_direction := "long"; sh_entry_price := op_entry_price pos;
              sh_exit_price := price; sh_pnl := (price - op_entry_price pos)%F;
              sh_bars_held := index - op_entry_index pos |}
  | SShort =>
      Some {| sh_symbol := symbol; sh_direction := "short"; sh_entry_price := op_entry_price pos;
              sh_exit_price := price; sh_pnl := (op_entry_price pos - price)%F;
              sh_bars_held := index - op_entry_index pos |}
  end.

Definition record_trade (t : option ShadowTrade) (m : ShadowMetrics) : ShadowMetrics :=
  match t with
  | None => m
  | Some t =>
      {| sm_trades := sm_trades m + 1;
         sm_wins := if fltb 0.0%F (sh_pnl t) then sm_wins m + 1 else sm_wins m;
         sm_realized_pnl := (sm_realized_pnl m + sh_pnl t)%F; sm_pnls := sm_pnls m ++ [sh_pnl t] |}
  end.

Definition position_of (symbol : string) (s : ShadowTradeEngine) : OpenPosition :=
  match dget symbol (she_positions s) with Some p => p | None => flat end.

Definition target_of (action : string) : option ShadowDir :=
  if String.eqb action BUY then Some SLong else if String.eqb action SELL then Some SShort else None.

Definition _apply_action (symbol action : string) (price : float) (s : ShadowTradeEngine)
  : option ShadowTrade * ShadowTradeEngine :=
  let pos := position_of symbol s in
  let s := with_book (dset symbol pos (she_positions s)) (she_metrics s) s in
  match target_of action with
  | None => (None, s)
  | Some target =>
      if bool_decide (op_direction pos = target) then (None, s)
      else
        let closed := closing symbol pos price (she_index s) in
        let opened := {| op_direction := target; op_entry_price := price; op_entry_index := she_index s |} in
        (closed, with_book (dset symbol opened (she_positions s)) (record_trade closed (she_metrics s)) s)
  end.

(** One price; a raise of the strategy leaves the price in the history. *)
Definition observe (symbol : string) (price : float) : M ShadowTradeEngine (option ShadowTrade) := fun s =>
  if String.eqb symbol "" || fleb price 0.0%F then (Ok None, s)
  else
    let hist := Generator.history_of symbol (she_history s) in
    let prev_price := match last hist with Some p => p | None => price end in
    let hist := Generator.push (she_history_maxlen s) price hist in
    let index := she_index s + 1 in
    let s := with_bar (dset symbol hist (she_history s)) index s in
    let bar := {| bar_index := index; bar_price := price; bar_prev_price := prev_price;
                  bar_pct := if ftruthy prev_price then (fdiv_nz (price - prev_price) prev_price * 100.0)%F else 0.0%F;
                  bar_history := hist |} in
    match she_strategy s bar with
    | Raise e => (Raise e, s)
    | Ok action => let '(t, s) := _apply_action symbol (lower_str (VStr action)) price s in (Ok t, s)
    end.

End Engine.
End Shadow.
