(* ===== verification/ShadowFacts.v ===== *)
(** ShadowFacts: the record of the shadow engine is the record of its round trips, and its
    round trips alternate. *)
From S2P Require Import Prelude StateErr PyFloat FloatFacts PyVal PyMath PyPow Config Params Policy Filters Store Execution Engine Momentum Shadow.

(** * The record *)

(** A record that its list of profits determines. *)
Definition replayed (m : ShadowMetrics) : Prop := Shadow._restore_metrics (sm_pnls m) = m.

Definition profits (t : option ShadowTrade) : list float :=
  match t with Some t => [sh_pnl t] | None => [] end.

Lemma record_pnls t m : sm_pnls (Shadow.record_trade t m) = sm_pnls m ++ profits t.
Proof. destruct t; simpl; [done|by rewrite app_nil_r]. Qed.

Lemma record_replayed t m : replayed m -> replayed (Shadow.record_trade t m).
Proof.
  unfold replayed. intros <-. destruct t as [t|]; [|done]. unfold Shadow._restore_metrics, Shadow.record_trade.
  cbn [sm_trades sm_wins sm_realized_pnl sm_pnls]. f_equal.
  - rewrite zlen_app. reflexivity.
  - rewrite List.filter_app, zlen_app. cbn [List.filter]. destruct (fltb 0.0%F (sh_pnl t)); [reflexivity|apply Z.add_0_r].
  - unfold fsum_left. by rewrite fold_left_app.
Qed.

Lemma no_trades_replayed : replayed Shadow.no_trades.
Proof. unfold replayed. vm_compute. reflexivity. Qed.

Lemma replayed_win_rate m : replayed m -> exists w, Shadow.win_rate m = Ok w /\ within (Fin 0) 1.0%F w.
Proof.
  intros <-. unfold Shadow.win_rate, Shadow._restore_metrics. cbn [sm_trades sm_wins].
  destruct (zlen (sm_pnls m) =? 0) eqn:E.
  - exists 0.0%F. split; [reflexivity|]. split; fconst.
  - apply Z.eqb_neq in E.
    assert (0 <= zlen (List.filter (fltb 0.0%F) (sm_pnls m)) <= zlen (sm_pnls m)) as L.
    { unfold zlen. pose proof (List.filter_length_le (fltb 0.0%F) (sm_pnls m)). lia. }
    destruct (int_div_unit (zlen (List.filter (fltb 0.0%F) (sm_pnls m))) (zlen (sm_pnls m))) as (w & Ew & Hw);
      [lia..|]. exists w. split; [exact Ew|exact Hw].
Qed.

(** * The round trips *)

Definition opposite (d : ShadowDir) : ShadowDir :=
  match d with SFlat => SFlat | SLong => SShort | SShort => SLong end.

Definition dir_name (d : ShadowDir) : string :=
  match d with SFlat => "" | SLong => "long" | SShort => "short" end.

(** The profit of a unit held from one price to another. *)
Definition profit (d : ShadowDir) (entry exit : float) : float :=
  match d with SFlat => 0.0%F | SLong => (exit - entry)%F | SShort => (entry - exit)%F end.

(** The round trips from a position in direction [d] at [entry] to the position [final]: each
    opens at the exit of the one before, on the other side. *)
Fixpoint chain (d : ShadowDir) (entry : float) (ts : list ShadowTrade) (final : OpenPosition) : Prop :=
  match ts with
  | [] => op_direction final = d /\ op_entry_price final = entry
  | t :: rest =>
      sh_direction t = dir_name d /\ sh_entry_price t = entry /\
      sh_pnl t = profit d entry (sh_exit_price t) /\ 1 <= sh_bars_held t /\
      fleb (sh_exit_price t) 0.0%F = false /\ chain (opposite d) (sh_exit_price t) rest final
  end.

(** The book of a symbol: flat without a trade, or the end of a chain of round trips. *)
Definition ledger (ts : list ShadowTrade) (p : OpenPosition) : Prop :=
  (ts = [] /\ op_direction p = SFlat) \/ exists d entry, d <> SFlat /\ chain d entry ts p.

Lemma chain_snoc d entry ts p t q :
  chain d entry ts p ->
  sh_direction t = dir_name (op_direction p) -> sh_entry_price t = op_entry_price p ->
  sh_pnl t = profit (op_direction p) (op_entry_price p) (sh_exit_price t) -> 1 <= sh_bars_held t ->
  fleb (sh_exit_price t) 0.0%F = false ->
  op_direction q = opposite (op_direction p) -> op_entry_price q = sh_exit_price t ->
  chain d entry (ts ++ [t]) q.
Proof.
  intros Hc Hd He Hp Hb Hx Qd Qe. revert d entry Hc. induction ts as [|u rest IH]; intros d entry; cbn [chain app].
  - intros [<- <-]. repeat split; [exact Hd|exact He|exact Hp|exact Hb|exact Hx|exact Qd|exact Qe].
  - intros (H1 & H2 & H3 & H4 & H5 & Hc). repeat split; [exact H1|exact H2|exact H3|exact H4|exact H5|].
    by apply IH.
Qed.

Definition trades_of (symbol : string) (ts : list ShadowTrade) : list ShadowTrade :=
  List.filter (fun t => String.eqb (sh_symbol t) symbol) ts.

Section Runs.
Context `{CPow}.

(** The prices of a run, one after the other; a raise of the strategy ends its own tick only. *)
Definition feed (acc : list ShadowTrade * Shadow.ShadowTradeEngine) (tick : string * float)
  : list ShadowTrade * Shadow.ShadowTradeEngine :=
  let '(r, s) := Shadow.observe (fst tick) (snd tick) (snd acc) in
  (fst acc ++ match r with Ok (Some t) => [t] | _ => [] end, s).

Definition feed_all (ticks : list (string * float)) (s : Shadow.ShadowTradeEngine) :=
  fold_left feed ticks ([], s).

Record sound (ts : list ShadowTrade) (s : Shadow.ShadowTradeEngine) : Prop := {
  sd_replay : replayed (Shadow.she_metrics s);
  sd_pnls : sm_pnls (Shadow.she_metrics s) = map sh_pnl ts;
  sd_ledger symbol : ledger (trades_of symbol ts) (Shadow.position_of symbol s);
  sd_index symbol : op_entry_index (Shadow.position_of symbol s) <= Shadow.she_index s;
}.

Lemma position_of_set symbol symbol' p m s :
  Shadow.position_of symbol' (Shadow.with_book (dset symbol p (Shadow.she_positions s)) m s) =
  if String.eqb symbol symbol' then p else Shadow.position_of symbol' s.
Proof.
  unfold Shadow.position_of, Shadow.with_book. cbn [Shadow.she_positions].
  destruct (String.eqb_spec symbol symbol') as [->|Hn]; [by rewrite dget_dset_eq|by rewrite dget_dset_ne].
Qed.

Lemma position_of_bar symbol d i s : Shadow.position_of symbol (Shadow.with_bar d i s) = Shadow.position_of symbol s.
Proof. reflexivity. Qed.

Lemma sound_init name strategy n : sound [] (Shadow.init name strategy n).
Proof.
  split.
  - exact no_trades_replayed.
  - reflexivity.
  - intros symbol. left. split; reflexivity.
  - intros symbol. cbn. lia.
Qed.

Lemma trades_of_snoc symbol ts t :
  trades_of symbol (ts ++ [t]) = trades_of symbol ts ++ (if String.eqb (sh_symbol t) symbol then [t] else []).
Proof. unfold trades_of. rewrite List.filter_app. cbn [List.filter]. by destruct (String.eqb _ _). Qed.

(** What a closed position contributes. *)
Lemma closing_trade symbol p price i t :
  Shadow.closing symbol p price i = Some t ->
  op_direction p <> SFlat /\ sh_symbol t = symbol /\ sh_direction t = dir_name (op_direction p) /\
  sh_entry_price t = op_entry_price p /\ sh_exit_price t = price /\
  sh_pnl t = profit (op_direction p) (op_entry_price p) price /\ sh_bars_held t = i - op_entry_index p.
Proof.
  unfold Shadow.closing. destruct (op_direction p) eqn:E; [discriminate| |]; intros [= <-];
    cbn [sh_symbol sh_direction sh_entry_price sh_exit_price sh_pnl sh_bars_held];
    (split; [discriminate|]); repeat split; reflexivity.
Qed.

Lemma closing_none symbol p price i : Shadow.closing symbol p price i = None -> op_direction p = SFlat.
Proof. unfold Shadow.closing. by destruct (op_direction p). Qed.

Lemma target_not_flat action d : Shadow.target_of action = Some d -> d <> SFlat.
Proof.
  unfold Shadow.target_of. destruct (String.eqb action BUY); [by intros [= <-]|].
  destruct (String.eqb action SELL); by intros [= <-].
Qed.

Lemma flip_opposite d d' : d <> SFlat -> d' <> SFlat -> d <> d' -> d' = opposite d.
Proof. by destruct d, d'. Qed.

(** A position that turns to [d] at a price, with the trade it closes, extends the ledger. *)
Lemma ledger_turn ts symbol p price i d :
  ledger ts p -> op_entry_index p < i -> fleb price 0.0%F = false -> d <> SFlat -> op_direction p <> d ->
  ledger (ts ++ match Shadow.closing symbol p price i with Some t => [t] | None => [] end)
    {| op_direction := d; op_entry_price := price; op_entry_index := i |}.
Proof.
  intros Hl Hi Hx Hd Hn. destruct (Shadow.closing symbol p price i) as [t|] eqn:E.
  - apply closing_trade in E as (Hp & _ & T1 & T2 & T3 & T4 & T5).
    destruct Hl as [[_ Hf]|(d0 & e0 & H0 & Hc)]; [by rewrite Hf in Hp|]. right. exists d0, e0. split; [exact H0|].
    apply (chain_snoc _ _ _ p); cbn [op_direction op_entry_price];
      [exact Hc|exact T1|exact T2|by rewrite T3|lia|by rewrite T3|by apply flip_opposite|by rewrite T3].
  - apply closing_none in E. rewrite app_nil_r. right. exists d, price. split; [exact Hd|].
    destruct Hl as [[-> _]|(d0 & e0 & H0 & Hc)]; [split; reflexivity|]. exfalso.
    revert d0 e0 H0 Hc. induction ts as [|t ts IH]; intros d0 e0 H0; cbn [chain].
    + intros [F _]. congruence.
    + intros (_ & _ & _ & _ & _ & Hc). apply (IH (opposite d0) (sh_exit_price t)); [by destruct d0|exact Hc].
Qed.
(** Every position of [s] is older than its bar. *)
Definition older (s : Shadow.ShadowTradeEngine) : Prop :=
  forall symbol, op_entry_index (Shadow.position_of symbol s) < Shadow.she_index s.

Lemma apply_action_sound symbol action price ts s :
  sound ts s -> older s -> fleb price 0.0%F = false ->
  sound (ts ++ match fst (Shadow._apply_action symbol action price s) with Some t => [t] | None => [] end)
    (snd (Shadow._apply_action symbol action price s)).
Proof.
  intros [Sr Sp Sl Si] Ho Hx. unfold Shadow._apply_action.
  set (p := Shadow.position_of symbol s). set (s1 := Shadow.with_book _ _ s).
  assert (forall sym, Shadow.position_of sym s1 = Shadow.position_of sym s) as P1.
  { intros sym. unfold s1. rewrite position_of_set. destruct (String.eqb_spec symbol sym) as [<-|]; reflexivity. }
  assert (sound ts s1) as S1.
  { split; [exact Sr|exact Sp|intros sym; rewrite P1; exact (Sl sym)|intros sym; rewrite P1; exact (Si sym)]. }
  destruct (Shadow.target_of action) as [d|] eqn:Et; cbn [fst snd]; [|by rewrite app_nil_r].
  destruct (bool_decide (op_direction p = d)) eqn:Ed; cbn [fst snd]; [by rewrite app_nil_r|].
  apply bool_decide_eq_false in Ed. apply target_not_flat in Et.
  pose proof (ledger_turn (trades_of symbol ts) symbol p price (Shadow.she_index s) d (Sl symbol) (Ho symbol) Hx Et Ed) as L.
  change (Shadow.she_index s1) with (Shadow.she_index s). set (c := Shadow.closing symbol p price (Shadow.she_index s)) in *.
  split.
  - apply record_replayed. exact Sr.
  - cbn [Shadow.with_book Shadow.she_metrics]. rewrite record_pnls, map_app.
    change (Shadow.she_metrics s1) with (Shadow.she_metrics s). rewrite Sp. f_equal. by destruct c.
  - intros sym. rewrite position_of_set. destruct (String.eqb_spec symbol sym) as [<-|Hn].
    + destruct c as [t|] eqn:Ec; [|rewrite app_nil_r in *; exact L].
      rewrite trades_of_snoc. apply closing_trade in Ec as (_ & -> & _). by rewrite String.eqb_refl.
    + rewrite P1. destruct c as [t|] eqn:Ec; [|rewrite app_nil_r; exact (Sl sym)].
      rewrite trades_of_snoc. apply closing_trade in Ec as (_ & -> & _).
      rewrite (proj2 (String.eqb_neq symbol sym) Hn), app_nil_r. exact (Sl sym).
  - intros sym. rewrite position_of_set. cbn [Shadow.with_book Shadow.she_index].
    change (Shadow.she_index s1) with (Shadow.she_index s).
    destruct (String.eqb symbol sym); [cbn; lia|rewrite P1; exact (Si sym)].
Qed.

Lemma feed_sound ts s tick : sound ts s -> sound (fst (feed (ts, s) tick)) (snd (feed (ts, s) tick)).
Proof.
  intros [Sr Sp Sl Si]. unfold feed, Shadow.observe. cbn [fst snd].
  destruct (String.eqb (fst tick) "" || fleb (snd tick) 0.0%F) eqn:Eg; cbn [fst snd];
    [rewrite app_nil_r; split; [exact Sr|exact Sp|exact Sl|exact Si]|].
  apply orb_false_iff in Eg as [_ Ex].
  set (hist := Generator.push _ _ _). set (s1 := Shadow.with_bar _ _ s).
  assert (sound ts s1) as S1.
  { split; [exact Sr|exact Sp|exact Sl|]. intros sym. specialize (Si sym). unfold s1.
    rewrite position_of_bar. cbn [Shadow.with_bar Shadow.she_index]. lia. }
  assert (older s1) as O1.
  { intros sym. specialize (Si sym). unfold s1. rewrite position_of_bar. cbn [Shadow.with_bar Shadow.she_index]. lia. }
  destruct (Shadow.she_strategy s1 _) as [action|e]; cbn [fst snd]; [|by rewrite app_nil_r].
  pose proof (apply_action_sound (fst tick) (lower_str (VStr action)) (snd tick) ts s1 S1 O1 Ex) as A.
  destruct (Shadow._apply_action _ _ _ s1) as [t s2]. exact A.
Qed.

Lemma feed_all_sound name strategy n ticks :
  let '(ts, s) := feed_all ticks (Shadow.init name strategy n) in sound ts s.
Proof.
  unfold feed_all.
  assert (forall acc, sound (fst acc) (snd acc) ->
            sound (fst (fold_left feed ticks acc)) (snd (fold_left feed ticks acc))) as A.
  { induction ticks as [|tick rest IH]; intros [ts s] Hs; [exact Hs|]. cbn [fold_left]. apply IH.
    apply feed_sound. exact Hs. }
  specialize (A ([], Shadow.init name strategy n) (sound_init name strategy n)).
  by destruct (fold_left feed ticks _).
Qed.

(** Whatever prices a strategy was fed, the shadow record its profits
    restore ([_restore_metrics], after a restart) is the record it had, its profits are
    those of its closed trades in order, and its win rate is a number in [0, 1]. *)
Theorem shadow_record_restores name strategy n ticks :
  let '(ts, s) := feed_all ticks (Shadow.init name strategy n) in
  let m := Shadow.she_metrics s in
  Shadow._restore_metrics (sm_pnls m) = m /\ sm_pnls m = map sh_pnl ts /\
  exists w, Shadow.win_rate m = Ok w /\ within (Fin 0) 1.0%F w.
Proof.
  pose proof (feed_all_sound name strategy n ticks) as A.
  destruct (feed_all ticks _) as [ts s]. destruct A as [Sr Sp _ _].
  split; [exact Sr|]. split; [exact Sp|]. by apply replayed_win_rate.
Qed.

(** The round trips of a symbol alternate: each opens at the exit price of the one
    before, on the other side, at least one bar before it closes, at a price that is not
    zero or less, and its profit is the difference its side earns; the open position
    continues the last of them. A symbol without a position has no round trip. *)
Theorem shadow_round_trips_alternate name strategy n ticks symbol :
  let '(ts, s) := feed_all ticks (Shadow.init name strategy n) in
  ledger (trades_of symbol ts) (Shadow.position_of symbol s).
Proof.
  pose proof (feed_all_sound name strategy n ticks) as A.
  destruct (feed_all ticks _) as [ts s]. destruct A as [_ _ Sl _]. exact (Sl symbol).
Qed.

End Runs.
