(* ===== verification/Backtest.v ===== *)
(** Backtest: the replay of a strategy over a price series, the paired comparison of
    strategies and the verdict on the best of them
    (backtest/engine.py, compare.py, challenger.py). *)
From S2P Require Import Prelude PyFloat FloatFacts PyVal PyMath PyRandom PyPow Config Agents Decision Gate Params Policy Gitops Lifecycle Scorer Momentum Promotion.

Definition DEFAULT_CONFIDENCE : float := 0.6%F.

Record BacktestResult := {
  br_symbol : string;
  br_bars : Z;
  br_trades : Z;
  br_holds : Z;
  br_signals : Z;
  br_starting_equity : float;
  br_final_equity : float;
  br_total_return_pct : float;
  br_win_rate : float;
  br_sharpe : float;
  br_max_drawdown_pct : float;
  br_avg_trade_pnl : float;
  br_strategy : string;
  br_metrics : LearningMetrics;
  br_evaluations : list payload;
  br_equity_curve : list float;
}.

Module Replay.
Section Replay.
Context `{CPow} `{PyRandom}.

(** The variables of the loop. *)
Record Book := {
  bk_rng : rng;
  bk_cash : float;
  bk_qty : float;
  bk_dir : Z;
  bk_price : float;
  bk_open_qty : float;
  bk_bar : Z;
  bk_confidence : float;
  bk_evaluations : list payload;
  bk_curve : list float;
  bk_holds : Z;
  bk_signals : Z;
}.

Definition init (starting_equity : float) (slippage_seed : Z) : Book :=
  {| bk_rng := rng_seed slippage_seed; bk_cash := starting_equity; bk_qty := 0.0%F; bk_dir := 0;
     bk_price := 0.0%F; bk_open_qty := 0.0%F; bk_bar := 0; bk_confidence := 0.0%F; bk_evaluations := [];
     bk_curve := []; bk_holds := 0; bk_signals := 0 |}.

Definition _fill (price signed_delta : float) (r : rng) : float * rng :=
  let '(slip, r') := uniform SLIPPAGE_MIN_PCT SLIPPAGE_MAX_PCT r in
  let sign := if fltb 0.0%F signed_delta then 1.0%F else (-1.0)%F in
  ((price * (1.0 + sign * slip))%F, r').

(** The trade handed to the scorer. *)
Definition closed_trade (symbol : string) (bar_minutes exit_fill : float) (exit_bar : Z) (b : Book) : res payload :=
  let pnl := (of_Z (bk_dir b) * bk_open_qty b * (exit_fill - bk_price b))%F in
  let* q := fdiv (of_Z (bk_dir b) * (exit_fill - bk_price b))%F (bk_price b) in
  let long := 0 <? bk_dir b in
  Ok [("symbol", VStr symbol); ("side", VStr (if long then SELL else BUY));
      ("action", VStr (if long then BUY else SELL)); ("entry_price", VFloat (bk_price b));
      ("exit_price", VFloat exit_fill); ("pnl", VFloat pnl); ("pnl_percent", VFloat (q * 100.0)%F);
      ("holding_period_minutes", VFloat (of_Z (exit_bar - bk_bar b) * bar_minutes)%F);
      ("confidence", VFloat (bk_confidence b))].

Definition _score (symbol : string) (bar_minutes exit_fill : float) (exit_bar : Z) (b : Book) : res payload :=
  let* t := closed_trade symbol bar_minutes exit_fill exit_bar b in score_trade t.

(** Close the open lot, if there is one, at a price. *)
Definition close_lot (symbol : string) (bar_minutes price : float) (i : Z) (b : Book) : res Book :=
  if bk_dir b =? 0 then Ok b
  else
    let '(close_fill, r) := _fill price (- bk_qty b)%F (bk_rng b) in
    let* e := _score symbol bar_minutes close_fill i b in
    Ok {| bk_rng := r; bk_cash := (bk_cash b - (- bk_qty b) * close_fill)%F; bk_qty := 0.0%F; bk_dir := 0;
          bk_price := bk_price b; bk_open_qty := bk_open_qty b; bk_bar := bk_bar b;
          bk_confidence := bk_confidence b; bk_evaluations := bk_evaluations b ++ [e]; bk_curve := bk_curve b;
          bk_holds := bk_holds b; bk_signals := bk_signals b |}.

(** Open a lot in a direction; a zero price raises. *)
Definition open_lot (position_fraction cur : float) (target_dir i : Z) (b : Book) : res Book :=
  let equity := (bk_cash b + bk_qty b * cur)%F in
  let* qty := fdiv (position_fraction * equity)%F cur in
  let signed := (of_Z target_dir * qty)%F in
  let '(open_fill, r) := _fill cur signed (bk_rng b) in
  Ok {| bk_rng := r; bk_cash := (bk_cash b - signed * open_fill)%F; bk_qty := signed; bk_dir := target_dir;
        bk_price := open_fill; bk_open_qty := qty; bk_bar := i; bk_confidence := DEFAULT_CONFIDENCE;
        bk_evaluations := bk_evaluations b; bk_curve := bk_curve b; bk_holds := bk_holds b;
        bk_signals := bk_signals b |}.

Definition counted (holds signals : Z) (b : Book) : Book :=
  {| bk_rng := bk_rng b; bk_cash := bk_cash b; bk_qty := bk_qty b; bk_dir := bk_dir b; bk_price := bk_price b;
     bk_open_qty := bk_open_qty b; bk_bar := bk_bar b; bk_confidence := bk_confidence b;
     bk_evaluations := bk_evaluations b; bk_curve := bk_curve b; bk_holds := bk_holds b + holds;
     bk_signals := bk_signals b + signals |}.

Definition marked (cur : float) (b : Book) : Book :=
  {| bk_rng := bk_rng b; bk_cash := bk_cash b; bk_qty := bk_qty b; bk_dir := bk_dir b; bk_price := bk_price b;
     bk_open_qty := bk_open_qty b; bk_bar := bk_bar b; bk_confidence := bk_confidence b;
     bk_evaluations := bk_evaluations b; bk_curve := bk_curve b ++ [(bk_cash b + bk_qty b * cur)%F];
     bk_holds := bk_holds b; bk_signals := bk_signals b |}.

(** What the strategy said about bar [i], on the book. *)
Definition act (symbol : string) (position_fraction bar_minutes cur : float) (i : Z) (action : string) (b : Book)
  : res Book :=
  if String.eqb action HOLD then Ok (counted 1 0 b)
  else
    let target_dir := if String.eqb action BUY then 1 else -1 in
    if target_dir =? bk_dir b then Ok (counted 1 1 b)
    else
      let* b := close_lot symbol bar_minutes cur i (counted 0 1 b) in
      open_lot position_fraction cur target_dir i b.

(** The bar of index [i >= 1]: its close, the close before, and the window up to it. *)
Definition bar_at (prices : list float) (i : nat) : Bar :=
  let prev := nth (i - 1) prices 0.0%F in
  let cur := nth i prices 0.0%F in
  {| bar_index := Z.of_nat i; bar_price := cur; bar_prev_price := prev;
     bar_pct := if ftruthy prev then (fdiv_nz (cur - prev) prev * 100.0)%F else 0.0%F;
     bar_history := slice (Z.max 0 (Z.of_nat i - HISTORY_WINDOW)) (Z.of_nat i + 1) prices |}.

Definition step (strategy : Strategies.Strategy) (symbol : string) (position_fraction bar_minutes : float)
    (prices : list float) (b : Book) (i : nat) : res Book :=
  let bar := bar_at prices i in
  let* action := strategy bar in
  let* b := act symbol position_fraction bar_minutes (bar_price bar) (Z.of_nat i) action b in
  Ok (marked (bar_price bar) b).

Definition replay_bars (strategy : Strategies.Strategy) (symbol : string) (position_fraction bar_minutes : float)
    (prices : list float) (b : Book) : res Book :=
  res_fold (step strategy symbol position_fraction bar_minutes prices) (List.seq 1 (length prices - 1)) b.

(** The curve with the realized equity as its last point. *)
Definition realized_curve (final_equity : float) (curve : list float) : list float :=
  match curve with [] => [final_equity] | _ => removelast curve ++ [final_equity] end.

Definition peak_step (s : float * float) (eq : float) : float * float :=
  let peak := fmax (fst s) eq in
  (peak, if fltb 0.0%F peak then fmax (snd s) (fdiv_nz (peak - eq) peak * 100.0)%F else snd s).

Definition max_drawdown (curve : list float) : float :=
  match curve with [] => 0.0%F | first :: _ => snd (fold_left peak_step curve (first, 0.0%F)) end.

Definition avg_pnl (evaluations : list payload) : res float :=
  let* pnls := res_list (num "pnl") evaluations in
  match pnls with [] => Ok 0.0%F | _ => Ok (mean_of pnls) end.

(** The result of a flat book. *)
Definition result_of (symbol name : string) (starting_equity : float) (n : Z) (b : Book) : res BacktestResult :=
  let final_equity := bk_cash b in
  let curve := realized_curve final_equity (bk_curve b) in
  let* q := fdiv (final_equity - starting_equity)%F starting_equity in
  let* metrics := compute_learning_metrics (bk_evaluations b) in
  let* avg := avg_pnl (bk_evaluations b) in
  Ok {| br_symbol := symbol; br_bars := n; br_trades := zlen (bk_evaluations b); br_holds := bk_holds b;
        br_signals := bk_signals b; br_starting_equity := starting_equity; br_final_equity := final_equity;
        br_total_return_pct := (q * 100.0)%F; br_win_rate := or_zero (lm_win_rate metrics);
        br_sharpe := or_zero (lm_sharpe_ratio metrics); br_max_drawdown_pct := max_drawdown curve;
        br_avg_trade_pnl := avg; br_strategy := name; br_metrics := metrics;
        br_evaluations := bk_evaluations b; br_equity_curve := curve |}.

Definition run_backtest_with (prices : list float) (strategy : Strategies.Strategy) (name symbol : string)
    (starting_equity position_fraction bar_minutes : float) (slippage_seed : Z) : res BacktestResult :=
  let* b := replay_bars strategy symbol position_fraction bar_minutes prices (init starting_equity slippage_seed) in
  let* b := close_lot symbol bar_minutes (List.last prices 0.0%F) (zlen prices - 1) b in
  result_of symbol name starting_equity (zlen prices) b.

(** With the default arguments. *)
Definition run_backtest (prices : list float) (strategy : Strategies.Strategy) (name : string) (slippage_seed : Z)
  : res BacktestResult :=
  run_backtest_with prices strategy name "SYNTHETIC" DEFAULT_PAPER_CASH DEFAULT_POSITION_FRACTION 1.0%F slippage_seed.

End Replay.
End Replay.

(** * Comparison *)

Record StrategyStats := {
  ss_name : string;
  ss_mean_return_pct : float;
  ss_mean_trades : float;
  ss_mean_sharpe : float;
  ss_mean_win_rate : float;
  ss_mean_signals : float;
}.

Section Compare.
Context `{CPow} `{PyRandom}.

Definition stats_of (name : string) (r : BacktestResult) : StrategyStats :=
  {| ss_name := name; ss_mean_return_pct := py_round (br_total_return_pct r) 2;
     ss_mean_trades := of_Z (br_trades r); ss_mean_sharpe := py_round (br_sharpe r) 3;
     ss_mean_win_rate := py_round (br_win_rate r) 4; ss_mean_signals := of_Z (br_signals r) |}.

Definition compare_on_prices (prices : list float) (strategies : dict Strategies.Strategy) (slippage_seed : Z)
  : res (list StrategyStats) :=
  let strategies := match strategies with [] => Strategies.STRATEGIES | _ => strategies end in
  res_list (fun kv =>
    let* r := Replay.run_backtest prices (snd kv) (fst kv) slippage_seed in
    Ok (stats_of (fst kv) r)) strategies.

End Compare.

(** * Synthetic prices *)

(** [random.Random.gauss], which calls C's [log], [cos] and [sin]. *)
Class PyGauss := {
  grng : Type;
  grng_seed : Z -> grng;
  grng_gauss : float -> float -> grng -> float * grng;
}.

Section Synthetic.
Context `{PyGauss}.

Definition walk (mu sigma : float) (s : list float * float * grng) (_ : nat) : list float * float * grng :=
  let '(prices, last_price, g) := s in
  let '(shock, g) := grng_gauss mu sigma g in
  let next_price := fmax 0.01%F (last_price * (1.0 + shock))%F in
  (prices ++ [next_price], next_price, g).

Definition synthetic_prices (n : Z) (start vol_pct drift_pct : float) (seed : Z) : list float :=
  let mu := fdiv_nz drift_pct 100.0%F in
  let sigma := fdiv_nz vol_pct 100.0%F in
  fst (fst (fold_left (walk mu sigma) (List.seq 0 (Z.to_nat (Z.max 0 (n - 1)))) ([start], start, grng_seed seed))).

End Synthetic.

(** * Verdict *)

Definition BASELINE_STRATEGY : string := "baseline_momentum".
Definition DEFAULT_PROMOTE_MARGIN_PCT : float := 1.0%F.
Definition MIN_TRADES_FOR_VERDICT : Z := 30.

Definition PROMOTE : string := "promote".
Definition REJECT : string := "reject".
Definition INSUFFICIENT_DATA : string := "insufficient_data".

Record ChallengerVerdict := {
  cv_candidate : string;
  cv_baseline : string;
  cv_is_different : bool;
  cv_beats_baseline : bool;
  cv_decision : string;
  cv_reason : string;
  cv_candidate_stats : StrategyStats;
  cv_baseline_stats : StrategyStats;
}.

(** [by_name.get(baseline)]: the last of the rows with the name. *)
Definition named (name : string) (stats : list StrategyStats) : option StrategyStats :=
  last (List.filter (fun s => String.eqb (ss_name s) name) stats).

(** [max(l, key)]: the first of the best. *)
Definition better (a b : StrategyStats) : StrategyStats :=
  if fltb (ss_mean_return_pct a) (ss_mean_return_pct b) then b else a.

Definition is_different (best base : StrategyStats) : bool :=
  negb (feqb (ss_mean_trades best) (ss_mean_trades base)) ||
  fltb 1e-9%F (fabs (ss_mean_return_pct best - ss_mean_return_pct base))%F.

Definition beats_baseline (margin_pct : float) (best base : StrategyStats) : bool :=
  fltb (ss_mean_return_pct base + margin_pct)%F (ss_mean_return_pct best).

(** The decision and its reason. *)
Definition judged (baseline : string) (margin_pct min_trades : float) (best base : StrategyStats)
  : string * string :=
  let versus := "(" +:+ Fmt.fixed_plus 2 (ss_mean_return_pct best) +:+ "% vs "
                +:+ Fmt.fixed_plus 2 (ss_mean_return_pct base) +:+ "%)." in
  if fltb (ss_mean_trades base) min_trades || fltb (ss_mean_trades best) min_trades then
    (INSUFFICIENT_DATA,
     "Not enough trades to judge " +:+ ss_name best +:+ " vs " +:+ baseline +:+ " (" +:+ baseline +:+ "="
     +:+ Fmt.fixed 0 (ss_mean_trades base) +:+ ", " +:+ ss_name best +:+ "="
     +:+ Fmt.fixed 0 (ss_mean_trades best) +:+ "; need >= " +:+ Fmt.fixed 0 min_trades
     +:+ " each). A verdict on this few trades is noise.")
  else if is_different best base && beats_baseline margin_pct best base then
    (PROMOTE, ss_name best +:+ " is different from " +:+ baseline +:+ " and beats it " +:+ versus)
  else if negb (is_different best base) then
    (REJECT, ss_name best +:+ " behaves identically to " +:+ baseline +:+ " — nothing real to promote.")
  else
    (REJECT, ss_name best +:+ " differs but does not beat " +:+ baseline +:+ " by "
             +:+ Fmt.fixed 1 margin_pct +:+ " pts " +:+ versus).

Definition evaluate_from_stats_with (stats : list StrategyStats) (baseline : string) (margin_pct min_trades : float)
  : option ChallengerVerdict :=
  match named baseline stats, List.filter (fun s => negb (String.eqb (ss_name s) baseline)) stats with
  | Some base, first :: rest =>
      let best := fold_left better rest first in
      let '(decision, reason) := judged baseline margin_pct min_trades best base in
      Some {| cv_candidate := ss_name best; cv_baseline := baseline; cv_is_different := is_different best base;
              cv_beats_baseline := beats_baseline margin_pct best base; cv_decision := decision;
              cv_reason := reason; cv_candidate_stats := best; cv_baseline_stats := base |}
  | _, _ => None
  end.

Definition evaluate_from_stats (stats : list StrategyStats) (baseline : string) : option ChallengerVerdict :=
  evaluate_from_stats_with stats baseline DEFAULT_PROMOTE_MARGIN_PCT (of_Z MIN_TRADES_FOR_VERDICT).
