(* ===== verification/BacktestFacts.v ===== *)
(** BacktestFacts: what a replay counts, that it ends, and what a promote verdict needs. *)
From S2P Require Import Prelude PyFloat FloatFacts PyVal PyMath PyRandom PyPow Config Agents Decision Gate Params Policy Gitops Store Lifecycle Scorer ScorerFacts Momentum Promotion Backtest.

Section Counts.
Context `{CPow} `{PyRandom}.

(** * Counting *)

Definition opened (b : Replay.Book) : Z := if Replay.bk_dir b =? 0 then 0 else 1.

(** After [k] bars. *)
Record tallied (k : Z) (b : Replay.Book) : Prop := {
  ta_curve : zlen (Replay.bk_curve b) = k;
  ta_bars : Replay.bk_holds b + zlen (Replay.bk_evaluations b) + opened b = k;
  ta_trades : zlen (Replay.bk_evaluations b) + opened b <= Replay.bk_signals b;
  ta_signals : Replay.bk_signals b <= k;
}.

Lemma close_lot_inv symbol m p i b b' : Replay.close_lot symbol m p i b = Ok b' ->
  Replay.bk_dir b' = 0 /\ zlen (Replay.bk_evaluations b') = zlen (Replay.bk_evaluations b) + opened b /\
  Replay.bk_curve b' = Replay.bk_curve b /\ Replay.bk_holds b' = Replay.bk_holds b /\
  Replay.bk_signals b' = Replay.bk_signals b.
Proof.
  unfold Replay.close_lot, opened. destruct (Z.eqb_spec (Replay.bk_dir b) 0) as [E|E].
  - intros <-%Ok_inj. repeat split; [exact E|lia].
  - destruct (Replay._fill _ _ _) as [f r]. intros (e & _ & <-%Ok_inj)%res_bind_Ok.
    cbn. repeat split. rewrite zlen_app. reflexivity.
Qed.

Lemma open_lot_inv f cur d i b b' : Replay.open_lot f cur d i b = Ok b' ->
  Replay.bk_dir b' = d /\ Replay.bk_evaluations b' = Replay.bk_evaluations b /\
  Replay.bk_curve b' = Replay.bk_curve b /\ Replay.bk_holds b' = Replay.bk_holds b /\
  Replay.bk_signals b' = Replay.bk_signals b.
Proof.
  unfold Replay.open_lot. intros (q & _ & E)%res_bind_Ok. destruct (Replay._fill _ _ _) as [p r].
  apply Ok_inj in E as <-. repeat split.
Qed.

(** The action of a bar, before its mark: one more hold or one more lot. *)
Lemma act_tallied symbol f m cur i action b b' k :
  tallied k b -> Replay.act symbol f m cur i action b = Ok b' ->
  zlen (Replay.bk_curve b') = k /\ Replay.bk_holds b' + zlen (Replay.bk_evaluations b') + opened b' = k + 1 /\
  zlen (Replay.bk_evaluations b') + opened b' <= Replay.bk_signals b' /\ Replay.bk_signals b' <= k + 1.
Proof.
  intros [T1 T2 T3 T4]. unfold Replay.act. destruct (String.eqb action HOLD).
  - intros <-%Ok_inj. cbn. unfold opened in *. cbn. repeat split; lia.
  - set (d := if String.eqb action BUY then 1 else -1). assert (d <> 0) as Hd by (unfold d; by destruct (String.eqb _ _)).
    destruct (Z.eqb_spec d (Replay.bk_dir b)) as [E|E].
    + intros <-%Ok_inj. cbn. unfold opened in *. cbn. repeat split; lia.
    + intros (b1 & (C1 & C2 & C3 & C4 & C5)%close_lot_inv & (O1 & O2 & O3 & O4 & O5)%open_lot_inv)%res_bind_Ok.
      cbn in C2, C3, C4, C5. unfold opened in *. cbn in C2.
      rewrite O1, O2, O3, O4, O5, C2, C3, C4, C5. apply Z.eqb_neq in Hd. rewrite Hd. repeat split; lia.
Qed.

Lemma step_tallied strategy symbol f m prices b b' i k :
  tallied k b -> Replay.step strategy symbol f m prices b i = Ok b' -> tallied (k + 1) b'.
Proof.
  intros T. unfold Replay.step. intros (a & _ & E)%res_bind_Ok. apply res_bind_Ok in E as (b1 & E1 & E).
  apply Ok_inj in E as <-. apply (act_tallied _ _ _ _ _ _ _ _ k T) in E1 as (A1 & A2 & A3 & A4).
  split; cbn; [rewrite zlen_app, A1; reflexivity|exact A2|exact A3|exact A4].
Qed.

Lemma bars_tallied strategy symbol f m prices l b b' k :
  tallied k b -> res_fold (Replay.step strategy symbol f m prices) l b = Ok b' ->
  tallied (k + zlen l) b'.
Proof.
  revert b k. induction l as [|i l IH]; intros b k T; cbn [res_fold].
  - intros <-%Ok_inj. unfold zlen. cbn. by rewrite Z.add_0_r.
  - intros (b1 & E1 & E)%res_bind_Ok. apply (step_tallied _ _ _ _ _ _ _ _ k T) in E1.
    replace (k + zlen (i :: l)) with (k + 1 + zlen l) by (unfold zlen; cbn; lia). exact (IH b1 (k + 1) E1 E).
Qed.

Lemma init_tallied e seed : tallied 0 (Replay.init e seed).
Proof. split; unfold opened, zlen; cbn; lia. Qed.

(** * The result *)

Lemma fmax_ge x y : fleb (Fin 0) x = true -> fleb (Fin 0) (fmax x y) = true.
Proof.
  intros Hx. unfold fmax. destruct (fltb x y) eqn:E; [|exact Hx].
  exact (fltb_fleb _ _ (fleb_fltb_trans _ _ _ Hx E)).
Qed.

Lemma drawdown_fold l : forall s, fleb (Fin 0) (snd s) = true ->
  fleb (Fin 0) (snd (fold_left Replay.peak_step l s)) = true.
Proof.
  induction l as [|x l IH]; intros s Hs; [exact Hs|]. cbn [fold_left]. apply IH. unfold Replay.peak_step. cbn [snd].
  destruct (fltb 0.0%F _); [by apply fmax_ge|exact Hs].
Qed.

Lemma drawdown_not_negative l : fleb (Fin 0) (Replay.max_drawdown l) = true.
Proof. destruct l as [|x l]; [fconst|]. unfold Replay.max_drawdown. apply drawdown_fold. fconst. Qed.

Lemma realized_length x l : zlen (Replay.realized_curve x l) = Z.max 1 (zlen l).
Proof.
  destruct l as [|y l]; [reflexivity|]. unfold Replay.realized_curve. rewrite zlen_app.
  assert (zlen (removelast (y :: l)) = zlen l) as ->.
  { unfold zlen. rewrite removelast_firstn_len, length_firstn. cbn [length]. lia. }
  unfold zlen. cbn [length]. lia.
Qed.

Lemma or_zero_unit x : within (Fin 0) 1.0%F x -> within (Fin 0) 1.0%F (or_zero x).
Proof. intros Hx. unfold or_zero. destruct (ftruthy x); [exact Hx|]. split; fconst. Qed.

Lemma result_inv symbol name e n b r : Replay.result_of symbol name e n b = Ok r ->
  br_bars r = n /\ br_trades r = zlen (Replay.bk_evaluations b) /\ br_holds r = Replay.bk_holds b /\
  br_signals r = Replay.bk_signals b /\ br_evaluations r = Replay.bk_evaluations b /\
  br_equity_curve r = Replay.realized_curve (br_final_equity r) (Replay.bk_curve b) /\
  within (Fin 0) 1.0%F (br_win_rate r) /\ fleb (Fin 0) (br_max_drawdown_pct r) = true.
Proof.
  unfold Replay.result_of. intros (q & _ & E)%res_bind_Ok. apply res_bind_Ok in E as (mt & Em & E).
  apply res_bind_Ok in E as (avg & _ & E). apply Ok_inj in E as <-. apply metrics_sound in Em as (_ & Hw & _).
  cbn [br_bars br_trades br_holds br_signals br_evaluations br_equity_curve br_final_equity br_win_rate br_max_drawdown_pct].
  repeat (split; [reflexivity|]). split; [by apply or_zero_unit|apply drawdown_not_negative].
Qed.

Lemma run_tallied prices strategy name symbol e f m seed r :
  Replay.run_backtest_with prices strategy name symbol e f m seed = Ok r ->
  br_holds r + br_trades r = Z.max 0 (br_bars r - 1) /\ br_trades r <= br_signals r /\
  br_signals r <= Z.max 0 (br_bars r - 1) /\ br_bars r = zlen prices /\ br_trades r = zlen (br_evaluations r) /\
  zlen (br_equity_curve r) = Z.max 1 (br_bars r - 1) /\ last (br_equity_curve r) = Some (br_final_equity r) /\
  within (Fin 0) 1.0%F (br_win_rate r) /\ fleb (Fin 0) (br_max_drawdown_pct r) = true.
Proof.
  unfold Replay.run_backtest_with, Replay.replay_bars. intros (b1 & E1 & E)%res_bind_Ok.
  apply res_bind_Ok in E as (b2 & E2 & E).
  apply (bars_tallied _ _ _ _ _ _ _ _ 0 (init_tallied e seed)) in E1 as [T1 T2 T3 T4].
  apply close_lot_inv in E2 as (_ & C2 & C3 & C4 & C5).
  apply result_inv in E as (R1 & R2 & R3 & R4 & R5 & R6 & R7 & R8).
  assert (0 + zlen (List.seq 1 (length prices - 1)) = Z.max 0 (zlen prices - 1)) as L
    by (unfold zlen; rewrite length_seq; lia).
  rewrite L in *. rewrite R5, R6, R1, R2, R3, R4, C2, C3, C4, C5, realized_length.
  repeat split; try lia; try exact (proj1 R7); try exact (proj2 R7); try exact R8.
  unfold Replay.realized_curve. destruct (Replay.bk_curve b1); [reflexivity|]. by rewrite last_snoc.
Qed.

(** Every bar of a backtest after the first is a hold or opens a lot, every lot opened is
    closed and scored once, and no lot opens without a signal: holds and trades add up to
    the bars less one, trades never exceed signals, and the equity curve has a point per
    bar and ends in the final equity. The win rate is in [0, 1] and the drawdown is not
    negative. It holds for every strategy, price series and seed. *)
Theorem backtest_accounts_for_bars prices strategy name symbol e f m seed r :
  Replay.run_backtest_with prices strategy name symbol e f m seed = Ok r ->
  br_holds r + br_trades r = Z.max 0 (br_bars r - 1) /\ br_trades r <= br_signals r /\
  br_signals r <= Z.max 0 (br_bars r - 1) /\ br_bars r = zlen prices /\ br_trades r = zlen (br_evaluations r) /\
  zlen (br_equity_curve r) = Z.max 1 (br_bars r - 1) /\ last (br_equity_curve r) = Some (br_final_equity r) /\
  within (Fin 0) 1.0%F (br_win_rate r) /\ fleb (Fin 0) (br_max_drawdown_pct r) = true.
Proof. apply run_tallied. Qed.

End Counts.

(** * The verdict *)

Lemma better_choice a b : Backtest.better a b = a \/ Backtest.better a b = b.
Proof. unfold Backtest.better. destruct (fltb _ _); [by right|by left]. Qed.

(** The winner of a list is one of its rows, and no row is above it. *)
Lemma best_in rest : forall first, In (fold_left Backtest.better rest first) (first :: rest).
Proof.
  induction rest as [|y rest IH]; intros x; [by left|]. cbn [fold_left].
  destruct (IH (Backtest.better x y)) as [E|E]; [|by right; right].
  destruct (better_choice x y) as [Ex|Ex]; rewrite Ex in *; [by left|by right; left].
Qed.

Definition not_above (a b : StrategyStats) : Prop := fltb (ss_mean_return_pct b) (ss_mean_return_pct a) = false.

Lemma better_keeps a b s : not_above s a -> not_above s (Backtest.better a b).
Proof.
  unfold not_above, Backtest.better. intros Hs. destruct (fltb (ss_mean_return_pct a) (ss_mean_return_pct b)) eqn:E; [|exact Hs].
  destruct (fltb (ss_mean_return_pct b) (ss_mean_return_pct s)) eqn:F; [|reflexivity].
  rewrite (fltb_fleb_trans _ _ _ E (fltb_fleb _ _ F)) in Hs. discriminate Hs.
Qed.

Lemma better_beats a b : not_above a (Backtest.better a b) /\ not_above b (Backtest.better a b).
Proof.
  split; [apply better_keeps; apply fltb_irrefl|].
  unfold not_above, Backtest.better. destruct (fltb (ss_mean_return_pct a) (ss_mean_return_pct b)) eqn:E; [apply fltb_irrefl|exact E].
Qed.

Lemma best_kept rest : forall first s, not_above s first -> not_above s (fold_left Backtest.better rest first).
Proof. induction rest as [|y rest IH]; intros x s Hs; [exact Hs|]. cbn [fold_left]. apply IH. by apply better_keeps. Qed.

Lemma best_max rest : forall first s, In s (first :: rest) -> not_above s (fold_left Backtest.better rest first).
Proof.
  induction rest as [|y rest IH]; intros x s Hs.
  - destruct Hs as [<-|[]]. apply fltb_irrefl.
  - cbn [fold_left]. destruct (better_beats x y) as [Bx By].
    destruct Hs as [<-|[<-|Hs]]; [by apply best_kept|by apply best_kept|]. apply IH. by right.
Qed.

(** What a verdict judges: the baseline's row and the best of the others. *)
Lemma verdict_inv stats baseline margin min v :
  evaluate_from_stats_with stats baseline margin min = Some v ->
  In (cv_baseline_stats v) stats /\ ss_name (cv_baseline_stats v) = baseline /\
  In (cv_candidate_stats v) stats /\ ss_name (cv_candidate_stats v) = cv_candidate v /\ cv_candidate v <> baseline /\
  cv_baseline v = baseline /\
  (cv_decision v, cv_reason v) = judged baseline margin min (cv_candidate_stats v) (cv_baseline_stats v) /\
  forall s, In s stats -> ss_name s <> baseline -> not_above s (cv_candidate_stats v).
Proof.
  unfold evaluate_from_stats_with. destruct (named baseline stats) as [base|] eqn:Eb; [|discriminate].
  destruct (List.filter _ stats) as [|first rest] eqn:Ef; [discriminate|].
  set (best := fold_left Backtest.better rest first). destruct (judged _ _ _ _ _) as [dec reason] eqn:Ej. intros Hv%Some_inj.
  rewrite <- Hv. cbn [cv_baseline_stats cv_candidate_stats cv_candidate cv_baseline cv_decision cv_reason].
  assert (forall s, In s (first :: rest) <-> In s stats /\ ss_name s <> baseline) as F.
  { intros s. rewrite <- Ef, filter_In, negb_true_iff, String.eqb_neq. reflexivity. }
  assert (In base stats /\ ss_name base = baseline) as [B1 B2].
  { unfold named in Eb. apply last_Some_elem_of, list_elem_of_In, filter_In in Eb as [B E%String.eqb_eq]. by split. }
  destruct (proj1 (F best) (best_in rest first)) as [C1 C2].
  split; [exact B1|]. split; [exact B2|]. split; [exact C1|]. split; [reflexivity|]. split; [exact C2|].
  split; [reflexivity|]. split; [by rewrite Ej|]. intros s Hs Hn. apply best_max, F. by split.
Qed.

Lemma judged_promote baseline margin min best base : fst (judged baseline margin min best base) = PROMOTE ->
  fltb (ss_mean_trades base) min = false /\ fltb (ss_mean_trades best) min = false /\
  is_different best base = true /\ beats_baseline margin best base = true.
Proof.
  unfold judged. destruct (fltb (ss_mean_trades base) min || fltb (ss_mean_trades best) min) eqn:E1; [discriminate|].
  apply orb_false_iff in E1 as [E1 E2].
  destruct (is_different best base && beats_baseline margin best base) eqn:E3.
  - apply andb_true_iff in E3 as [E3 E4]. intros _. repeat split; [exact E1|exact E2|exact E3|exact E4].
  - destruct (negb (is_different best base)); discriminate.
Qed.

Lemma res_list_source {A B} (f : A -> res B) l ys y : res_list f l = Ok ys -> In y ys ->
  exists x, In x l /\ f x = Ok y.
Proof.
  revert ys. induction l as [|x l IH]; intros ys; cbn [res_list].
  - intros <-%Ok_inj [].
  - intros (z & Ez & E)%res_bind_Ok. apply res_bind_Ok in E as (zs & Ezs & E). apply Ok_inj in E as <-.
    intros [<-|Hy]; [exists x; split; [by left|exact Ez]|].
    destruct (IH zs Ezs Hy) as (u & Hu & Eu). exists u. split; [by right|exact Eu].
Qed.

Lemma enough_trades t : fltb (of_Z t) (of_Z 30) = false -> 30 <= t.
Proof.
  intros Hf. destruct (Z.le_gt_cases 30 t) as [Hle|Hlt]; [exact Hle|]. exfalso.
  assert (fltb (of_Z 29) (of_Z 30) = true) as H29 by fconst.
  pose proof (fleb_fltb_trans _ _ _ (of_Z_mono t 29 ltac:(lia)) H29) as T. rewrite T in Hf. discriminate Hf.
Qed.

Section Verdict.
Context `{CPow} `{PyRandom}.

(** The replay a row of the comparison was made from. *)
Definition row_of (prices : list float) (strategies : dict Strategies.Strategy) (seed : Z) (s : StrategyStats)
    (r : BacktestResult) : Prop :=
  exists strategy, In (ss_name s, strategy) strategies /\
    Replay.run_backtest prices strategy (ss_name s) seed = Ok r /\ s = stats_of (ss_name s) r.

Lemma compared prices strategies seed stats s :
  compare_on_prices prices strategies seed = Ok stats -> In s stats -> strategies <> [] ->
  exists r, row_of prices strategies seed s r.
Proof.
  unfold compare_on_prices. intros E Hs Hne. destruct strategies as [|x l] eqn:El; [done|]. rewrite <- El in *.
  destruct (res_list_source _ _ _ s E Hs) as ([name strategy] & Hin & Er). cbn [fst snd] in Er.
  apply res_bind_Ok in Er as (r & Er & Es). apply Ok_inj in Es as <-. exists r, strategy.
  split; [exact Hin|]. split; [exact Er|reflexivity].
Qed.

(** C27: A promote verdict is earned on evidence. The comparison replayed the candidate and
    the baseline over the same prices, of which there are at least 31; each closed at least
    30 trades; the candidate is another strategy than the baseline, its return is more than
    one point above the baseline's, and no other candidate has a higher one. *)
Theorem promote_verdict_earned prices strategies seed stats baseline v :
  strategies <> [] -> compare_on_prices prices strategies seed = Ok stats ->
  evaluate_from_stats stats baseline = Some v -> cv_decision v = PROMOTE ->
  exists rb rc, row_of prices strategies seed (cv_baseline_stats v) rb /\
    row_of prices strategies seed (cv_candidate_stats v) rc /\
    ss_name (cv_baseline_stats v) = baseline /\ cv_candidate v <> baseline /\
    30 <= br_trades rb /\ 30 <= br_trades rc /\ 31 <= zlen prices /\
    fltb (py_round (br_total_return_pct rb) 2 + 1.0)%F (py_round (br_total_return_pct rc) 2) = true /\
    forall s, In s stats -> ss_name s <> baseline ->
      fltb (py_round (br_total_return_pct rc) 2) (ss_mean_return_pct s) = false.
Proof.
  intros Hne Hc Hv Hd. apply verdict_inv in Hv as (B1 & B2 & C1 & C2 & C3 & _ & Hj & Hm).
  destruct (compared _ _ _ _ _ Hc B1 Hne) as (rb & Rb). destruct (compared _ _ _ _ _ Hc C1 Hne) as (rc & Rc).
  exists rb, rc. split; [exact Rb|]. split; [exact Rc|]. split; [exact B2|]. split; [exact C3|].
  destruct Rb as (sb & _ & Eb & Sb). destruct Rc as (sc & _ & Ec & Sc).
  rewrite Sb, Sc in Hj. rewrite Sc in Hm.
  assert (fst (judged baseline DEFAULT_PROMOTE_MARGIN_PCT (of_Z MIN_TRADES_FOR_VERDICT)
                 (stats_of (ss_name (cv_candidate_stats v)) rc) (stats_of (ss_name (cv_baseline_stats v)) rb)) = PROMOTE) as J
    by (rewrite <- Hj; exact Hd).
  apply judged_promote in J as (J1 & J2 & _ & J4). cbn [stats_of ss_mean_trades ss_mean_return_pct] in *.
  apply enough_trades in J1, J2. split; [exact J1|]. split; [exact J2|].
  apply run_tallied in Eb as (_ & T2 & T3 & T4 & _). split; [lia|]. split; [exact J4|]. exact Hm.
Qed.

End Verdict.

(** * Every replay ends *)

(** A product bounded on both sides. *)
Lemma fmul_sym nb b nd d nhi hi x y :
  fin_ok nb = true -> fin_ok b = true -> fin_ok nd = true -> fin_ok d = true -> fin_ok nhi = true -> fin_ok hi = true ->
  bool_decide (units nb = - units b /\ units nd = - units d /\ units nhi = - units hi /\ Rnd.repr (units hi) /\
               0 <= units b /\ 0 <= units d /\ units b * units d <= units hi * scale) = true ->
  within nb b x -> within nd d y -> within nhi hi (fmul x y).
Proof.
  intros Hnb Hb Hnd Hd Hnhi Hhi (En & Ed & Eh & Hr & Pb & Pd & Hq)%bool_decide_eq_true Hx Hy.
  pose proof (within_finite _ _ _ Hnb Hb Hx) as Fx. pose proof (within_finite _ _ _ Hnd Hd Hy) as Fy.
  pose proof (fin_ok_bound _ Hhi) as Bh. apply fin_ok_finite in Hnb, Hb, Hnd, Hd, Hnhi, Hhi.
  destruct Hx as [X1 X2]. destruct Hy as [Y1 Y2].
  apply (fleb_units _ _ Hnb Fx) in X1. apply (fleb_units _ _ Fx Hb) in X2.
  apply (fleb_units _ _ Hnd Fy) in Y1. apply (fleb_units _ _ Fy Hd) in Y2.
  rewrite En in X1. rewrite Ed in Y1. pose proof scale_pos.
  assert (Z.abs (units x * units y) <= units b * units d) as A
    by (rewrite Z.abs_mul; apply Z.mul_le_mono_nonneg; lia).
  assert (sat (units hi) = units hi /\ sat (- units hi) = - units hi) as [S1 S2] by (unfold sat; lia).
  split; apply fleb_key; do 2 eexists.
  - rewrite (finite_key nhi Hnhi), (fmul_key x y Fx Fy), Eh. split; [reflexivity|]. split; [reflexivity|].
    rewrite <- S2. apply sat_mono, Rnd.rnd_ge; [lia|by apply Rnd.repr_opp|lia].
  - rewrite (finite_key hi Hhi), (fmul_key x y Fx Fy). split; [reflexivity|]. split; [reflexivity|].
    rewrite <- S1. apply sat_mono, Rnd.rnd_le; [lia|exact Hr|lia].
Qed.

(** Prices that trade, and the fills they give. *)
Definition tradable (p : float) : Prop := within 0.1%F 1e8%F p.
Definition fillable (p : float) : Prop := within 0.05%F 1.5e8%F p.

Lemma tradable_fillable p : tradable p -> fillable p.
Proof. apply within_weaken; fconst. Qed.

Lemma fillable_finite p : fillable p -> is_finite p = true.
Proof. apply within_finite; fconst. Qed.

(** A difference of fills against a fill. *)
Lemma quotient_ok d y : within (-1.5e8)%F 1.5e8%F d -> fillable y -> sample_ok (fdiv_nz d y * 100.0)%F.
Proof.
  intros Hd Hy. assert (within (-3e9)%F 3e9%F (fdiv_nz d y)) as Hq.
  { apply (fdiv_within_sym (-1.5e8)%F 1.5e8%F 0.05%F); [fconst..|exact Hd|exact (proj1 Hy)|exact (fillable_finite y Hy)]. }
  unfold sample_ok. apply (fmul_sym (-3e9)%F 3e9%F (-100.0)%F 100.0%F); [fconst..|exact Hq|split; fconst].
Qed.

Lemma difference_ok x y : fillable x -> fillable y -> within (-1.5e8)%F 1.5e8%F (x - y)%F.
Proof. intros Hx Hy. apply (fsub_within 0.05%F 1.5e8%F 0.05%F 1.5e8%F); [fconst..|exact Hx|exact Hy]. Qed.

Lemma not_zero p : fillable p -> is_zero p = false.
Proof.
  intros [Hp _]. destruct (is_zero p) eqn:Ez; [|reflexivity]. exfalso.
  apply is_zero_le in Ez. pose proof (fleb_trans _ _ _ Hp Ez) as T.
  assert (fleb 0.05%F (Fin 0) = false) as F by fconst. rewrite F in T. discriminate T.
Qed.

Section Totality.
Context `{CPow} `{PyRandom}.

Lemma slipped p k : tradable p -> within 0.5%F 1.5%F k -> fillable (p * k)%F.
Proof.
  intros Hp Hk.
  assert (is_finite p = true) as Fp by (exact (within_finite 0.1%F 1e8%F p ltac:(fconst) ltac:(fconst) Hp)).
  assert (is_finite k = true) as Fk by (exact (within_finite 0.5%F 1.5%F k ltac:(fconst) ltac:(fconst) Hk)).
  assert (fleb (Fin 0) p = true) as Pp by (refine (fleb_trans _ 0.1%F _ _ (proj1 Hp)); fconst).
  assert (fleb (Fin 0) k = true) as Pk by (refine (fleb_trans _ 0.5%F _ _ (proj1 Hk)); fconst).
  split.
  - refine (fleb_trans _ (0.1 * 0.5)%F _ _ _); [fconst|].
    apply fmul_mono_nonneg; [fconst|exact Fp|fconst|exact Fk|fconst|fconst|exact (proj1 Hp)|exact (proj1 Hk)].
  - refine (fleb_trans _ (1e8 * 1.5)%F _ _ _); [|fconst].
    apply fmul_mono_nonneg; [exact Fp|fconst|exact Fk|fconst|exact Pp|exact Pk|exact (proj2 Hp)|exact (proj2 Hk)].
Qed.

(** A slipped fill of a tradable price is fillable. *)
Lemma fill_ok p d r : tradable p -> fillable (fst (Replay._fill p d r)).
Proof.
  intros Hp. unfold Replay._fill. pose proof (slip_range r) as Hs.
  destruct (uniform SLIPPAGE_MIN_PCT SLIPPAGE_MAX_PCT r) as [slip r']. cbn [fst] in *. apply (slipped _ _ Hp).
  apply (fadd_within 1.0%F 1.0%F (-0.1)%F 0.1%F); [fconst..|split; fconst|].
  apply (fmul_sym (-1.0)%F 1.0%F (-0.1)%F 0.1%F); [fconst..| |].
  - destruct (fltb 0.0%F d); split; fconst.
  - eapply within_weaken; [| |exact Hs]; fconst.
Qed.

Lemma sign_times d x : d = 1 \/ d = -1 -> within (-1.5e8)%F 1.5e8%F x -> within (-1.5e8)%F 1.5e8%F (of_Z d * x)%F.
Proof.
  intros Hd Hx. apply (fmul_sym (-1.0)%F 1.0%F (-1.5e8)%F 1.5e8%F); [fconst..| |exact Hx].
  destruct Hd as [-> | ->]; split; fconst.
Qed.

(** The scorer takes every trade of the shape the replay builds. *)
Lemma built_trade_total symbol side action entry exit pnl pct hold conf :
  exists e, score_trade
    [("symbol", VStr symbol); ("side", VStr side); ("action", VStr action); ("entry_price", VFloat entry);
     ("exit_price", VFloat exit); ("pnl", VFloat pnl); ("pnl_percent", VFloat pct);
     ("holding_period_minutes", VFloat hold); ("confidence", VFloat conf)] = Ok e /\
    dget "pnl" e = Some (VFloat pnl) /\ dget "pnl_percent" e = Some (VFloat pct).
Proof.
  destruct (float_or_zero_ok pct) as [p1 P1]. destruct (float_or_zero_ok pnl) as [p2 P2].
  unfold score_trade, scores_of, _build_trade_context, _price_move_percent, Store._safe_float,
    _derive_contextual_system_tags, _classify_mistakes, _classify_strengths.
  cbn -[float_or_zero word _score_to_grade trade_scores overall_score confidence_out timing_score py_round sorted_keys
        _normalize_tags Fmt.str fleb fltb when truthy].
  rewrite P1, P2.
  cbn -[float_or_zero word _score_to_grade trade_scores overall_score confidence_out timing_score py_round sorted_keys
        _normalize_tags Fmt.str fleb fltb when truthy].
  assert (float_or_zero VNone = Ok 0.0%F) as P3 by reflexivity. rewrite P3.
  assert (truthy VNone = false) as P4 by reflexivity. rewrite P4.
  destruct (truthy (VFloat conf)); cbn [py_float res_bind]; eexists; (split; [reflexivity|]); split; reflexivity.
Qed.

(** A lot that is open was filled. *)
Definition lot_ok (b : Replay.Book) : Prop :=
  Replay.bk_dir b = 0 \/ ((Replay.bk_dir b = 1 \/ Replay.bk_dir b = -1) /\ fillable (Replay.bk_price b)).

Lemma score_total symbol m x i b : lot_ok b -> Replay.bk_dir b <> 0 -> fillable x ->
  exists e, Replay._score symbol m x i b = Ok e /\ scored e.
Proof.
  intros [Hd|[Hd Hp]] Hn Hx; [done|]. unfold Replay._score, Replay.closed_trade, fdiv.
  rewrite (not_zero _ Hp). cbn [res_bind].
  pose proof (quotient_ok _ _ (sign_times _ _ Hd (difference_ok _ _ Hx Hp)) Hp) as Hq.
  match goal with |- exists e, score_trade (_ :: (_, VStr ?a) :: (_, VStr ?b) :: (_, VFloat ?c) :: (_, VFloat ?d) ::
      (_, VFloat ?p) :: (_, VFloat ?q) :: (_, VFloat ?h) :: (_, VFloat ?k) :: _) = _ /\ _ =>
    destruct (built_trade_total symbol a b c d p q h k) as (e & E & E1 & E2) end.
  exists e. split; [exact E|]. split.
  - unfold num. rewrite (dget_or_Some _ _ _ _ E1). apply float_or_zero_ok.
  - apply score_trade_inv in E as (s & _ & _ & _ & _ & _ & _ & E3 & _).
    intros k [<-|[<-|[]]]; unfold num.
    + rewrite (dget_or_Some _ _ _ _ E2). by apply float_or_zero_sample.
    + rewrite (dget_or_Some _ _ _ _ E3). apply float_or_zero_sample.
      apply (within_weaken (Fin 0) 1.0%F); [fconst..|]. apply round_unit, clamp_unit_ok.
Qed.

(** ** The loop *)

Definition book_ok (b : Replay.Book) : Prop := lot_ok b /\ Forall scored (Replay.bk_evaluations b).

Lemma close_lot_total symbol m p i b : tradable p -> book_ok b ->
  exists b', Replay.close_lot symbol m p i b = Ok b' /\ book_ok b'.
Proof.
  intros Hp [Hl He]. unfold Replay.close_lot. destruct (Z.eqb_spec (Replay.bk_dir b) 0) as [E|E].
  - exists b. by repeat split.
  - pose proof (fill_ok p (- Replay.bk_qty b)%F (Replay.bk_rng b) Hp) as Hf.
    destruct (Replay._fill p (- Replay.bk_qty b)%F (Replay.bk_rng b)) as [x r]. cbn [fst] in Hf.
    destruct (score_total symbol m x i b Hl E Hf) as (e & -> & Hs). eexists. split; [reflexivity|].
    split; [by left|]. cbn. apply Forall_app. split; [exact He|]. by constructor.
Qed.

Lemma open_lot_total f p d i b : tradable p -> d = 1 \/ d = -1 -> book_ok b ->
  exists b', Replay.open_lot f p d i b = Ok b' /\ book_ok b'.
Proof.
  intros Hp Hd [_ He]. unfold Replay.open_lot, fdiv. rewrite (not_zero _ (tradable_fillable _ Hp)). cbn [res_bind].
  set (q := fdiv_nz _ _). clearbody q. pose proof (fill_ok p (of_Z d * q)%F (Replay.bk_rng b) Hp) as Hf.
  destruct (Replay._fill p (of_Z d * q)%F (Replay.bk_rng b)) as [x r]. cbn [fst] in Hf.
  eexists. split; [reflexivity|]. split; [|exact He]. right. split; [exact Hd|exact Hf].
Qed.

Lemma act_total symbol f m p i action b : tradable p -> book_ok b ->
  exists b', Replay.act symbol f m p i action b = Ok b' /\ book_ok b'.
Proof.
  intros Hp Hb. unfold Replay.act. destruct (String.eqb action HOLD); [eexists; split; [reflexivity|exact Hb]|].
  set (d := if String.eqb action BUY then 1 else -1).
  assert (d = 1 \/ d = -1) as Hd by (unfold d; destruct (String.eqb action BUY); [by left|by right]). clearbody d.
  destruct (d =? Replay.bk_dir b); [eexists; split; [reflexivity|exact Hb]|].
  destruct (close_lot_total symbol m p i (Replay.counted 0 1 b) Hp Hb) as (b1 & -> & H1). cbn [res_bind].
  exact (open_lot_total f p d i b1 Hp Hd H1).
Qed.

Lemma bars_total strategy symbol f m prices l : forall b,
  (forall i, In i l -> (exists a, strategy (Replay.bar_at prices i) = Ok a) /\ tradable (nth i prices 0.0%F)) ->
  book_ok b -> exists b', res_fold (Replay.step strategy symbol f m prices) l b = Ok b' /\ book_ok b'.
Proof.
  induction l as [|i l IH]; intros b Hl Hb; [exists b; by split|]. cbn [res_fold].
  destruct (Hl i (or_introl eq_refl)) as [[a Ea] Hp].
  destruct (act_total symbol f m (nth i prices 0.0%F) (Z.of_nat i) a b Hp Hb) as (b1 & E1 & H1).
  assert (Replay.step strategy symbol f m prices b i = Ok (Replay.marked (nth i prices 0.0%F) b1)) as ->.
  { unfold Replay.step. rewrite Ea. cbn [res_bind]. cbn [Replay.bar_at bar_price]. by rewrite E1. }
  cbn [res_bind]. apply IH; [|exact H1]. intros j Hj. apply Hl. by right.
Qed.

Lemma last_in {A} (d : A) l : l <> [] -> In (List.last l d) l.
Proof.
  intros Hl. destruct (exists_last Hl) as (l' & x & ->). rewrite List.last_last. apply in_app_iff. right. by left.
Qed.

Lemma result_total symbol name e n b : is_zero e = false -> book_ok b -> zlen (Replay.bk_evaluations b) <= 2 ^ 30 ->
  exists r, Replay.result_of symbol name e n b = Ok r.
Proof.
  intros He [_ Hs] Hn. unfold Replay.result_of, fdiv. rewrite He. cbn [res_bind].
  destruct (metrics_total (Replay.bk_evaluations b) Hn Hs) as (mt & ->). cbn [res_bind].
  unfold Replay.avg_pnl. destruct (profits_total _ Hs) as (pnls & -> & _). cbn [res_bind].
  destruct pnls; eexists; reflexivity.
Qed.

Lemma run_total prices strategy name symbol e f m seed : is_zero e = false -> Forall tradable prices ->
  zlen prices <= 2 ^ 30 ->
  (forall i, (i < length prices)%nat -> exists a, strategy (Replay.bar_at prices i) = Ok a) ->
  exists r, Replay.run_backtest_with prices strategy name symbol e f m seed = Ok r.
Proof.
  intros He Hps Hn Hst. unfold Replay.run_backtest_with, Replay.replay_bars.
  assert (forall i, (i < length prices)%nat -> tradable (nth i prices 0.0%F)) as Hnth.
  { intros i Hi. apply (proj1 (List.Forall_forall _ _) Hps), nth_In, Hi. }
  destruct (bars_total strategy symbol f m prices (List.seq 1 (length prices - 1)) (Replay.init e seed)) as (b1 & E1 & B1).
  { intros i Hi%in_seq. split; [apply Hst; lia|apply Hnth; lia]. }
  { split; [by left|constructor]. }
  rewrite E1. cbn [res_bind].
  apply (bars_tallied _ _ _ _ _ _ _ _ 0 (init_tallied e seed)) in E1 as [_ _ T3 T4].
  assert (0 + zlen (List.seq 1 (length prices - 1)) = Z.max 0 (zlen prices - 1)) as L
    by (unfold zlen; rewrite length_seq; lia).
  rewrite L in *.
  assert (exists b2, Replay.close_lot symbol m (List.last prices 0.0%F) (zlen prices - 1) b1 = Ok b2 /\ book_ok b2)
    as (b2 & E2 & B2).
  { destruct prices as [|p ps].
    - unfold opened in T3; unfold Replay.close_lot. destruct (Replay.bk_dir b1 =? 0) eqn:Ed; [by exists b1|].
      unfold zlen in T3, T4. cbn [length] in T4. lia.
    - apply close_lot_total; [|exact B1]. apply (proj1 (List.Forall_forall _ _) Hps), last_in. discriminate. }
  rewrite E2. cbn [res_bind]. apply close_lot_inv in E2 as (_ & C2 & _). apply result_total; [exact He|exact B2|].
  unfold zlen in *. lia.
Qed.

(** ** The strategies *)

Lemma return_ok x y : fillable x -> fillable y -> fine (fdiv_nz (x - y) y * 100.0)%F.
Proof. intros Hx Hy. apply sample_fine, quotient_ok; [by apply difference_ok|exact Hy]. Qed.

Lemma returns_fine l : Forall tradable l -> Forall fine (pct_returns l) /\ zlen (pct_returns l) <= zlen l.
Proof.
  induction 1 as [|x l Hx Hl [F N]]; [split; [constructor|reflexivity]|].
  destruct l as [|y l]; [split; [constructor|unfold zlen; cbn; lia]|].
  apply Forall_cons in Hl as [Hy _]. change (pct_returns (x :: y :: l)) with
    (if ftruthy x then (fdiv_nz (y - x) x * 100.0)%F :: pct_returns (y :: l) else pct_returns (y :: l)).
  set (r := pct_returns (y :: l)) in *. clearbody r.
  destruct (ftruthy x).
  - split; [constructor; [by apply return_ok; apply tradable_fillable|exact F]|]. unfold zlen in *. cbn [length] in *. lia.
  - split; [exact F|]. unfold zlen in *. cbn [length] in *. lia.
Qed.

Lemma sigma_total l : Forall tradable l -> zlen l <= 2 ^ 53 -> exists s, compute_return_sigma l = Ok s.
Proof.
  intros Hl Hn. unfold compute_return_sigma. destruct (zlen l <? SIGMA_MIN_SAMPLES + 1); [by eexists|].
  destruct (returns_fine l Hl) as [F N]. destruct (zlen (pct_returns l) <? SIGMA_MIN_SAMPLES) eqn:E; [by eexists|].
  apply Z.ltb_ge in E. assert (fine (mean_of (pct_returns l))) as M.
  { apply mean_fine; [|lia|exact F]. intros Z. rewrite Z in E. vm_compute in E. by apply E. }
  destruct (res_list_total (fun r => square (r - mean_of (pct_returns l))%F) (fun _ => True) (pct_returns l)) as (ys & Ey & _).
  { intros r Hr. destruct (square_total (r - mean_of (pct_returns l))%F) as (y & Er & _); [|by exists y].
    apply fine_minus; [exact (proj1 (List.Forall_forall _ _) F r Hr)|exact M]. }
  unfold mean_of in Ey. rewrite Ey. eexists. reflexivity.
Qed.

Lemma strategies_total name strategy bar : In (name, strategy) Strategies.STRATEGIES ->
  Forall tradable (bar_history bar) -> zlen (bar_history bar) <= 2 ^ 53 -> exists a, strategy bar = Ok a.
Proof.
  intros Hin Hh Hn. destruct (sigma_total _ Hh Hn) as [s Es].
  destruct Hin as [[= _ <-]|[[= _ <-]|[[= _ <-]|[[= _ <-]|[]]]]].
  - unfold Strategies.baseline_momentum. rewrite Es. eexists; reflexivity.
  - unfold Strategies.strong_only. rewrite Es. eexists; reflexivity.
  - unfold Strategies.confirmed_trend, Strategies.confirmed_trend_over. repeat case_match; eexists; reflexivity.
  - unfold Strategies.mean_reversion. rewrite Es. eexists; reflexivity.
Qed.

Lemma slice_tradable a b l : Forall tradable l -> Forall tradable (slice a b l) /\ zlen (slice a b l) <= zlen l.
Proof.
  intros Hl. unfold slice. split; [by apply Forall_take, Forall_drop|].
  unfold zlen. rewrite length_take, length_drop. lia.
Qed.

Lemma res_list_all {A B} (f : A -> res B) l : (forall x, In x l -> exists y, f x = Ok y) -> exists ys, res_list f l = Ok ys.
Proof.
  intros Hf. destruct (res_list_total f (fun _ => True) l) as (ys & E & _); [|by exists ys].
  intros x Hx. destruct (Hf x Hx) as [y Hy]. by exists y.
Qed.

(** C24: The comparison of the four shipped strategies always ends with a row for each: over
    prices between 0.1 and 10^8, up to 2^30 of them, no strategy, fill, score, metric or
    statistic divides by zero, overflows or raises, for any slippage seed. *)
Theorem comparison_total prices seed : Forall tradable prices -> zlen prices <= 2 ^ 30 ->
  exists stats, compare_on_prices prices [] seed = Ok stats /\
    map ss_name stats = ["baseline_momentum"; "strong_only"; "confirmed_trend"; "mean_reversion"].
Proof.
  intros Hps Hn. unfold compare_on_prices.
  assert (forall kv, In kv Strategies.STRATEGIES ->
            exists r, Replay.run_backtest prices (snd kv) (fst kv) seed = Ok r) as R.
  { intros [name strategy] Hin. unfold Replay.run_backtest. apply run_total; [fconst|exact Hps|exact Hn|].
    intros i Hi. cbn [snd]. apply (strategies_total name strategy _ Hin); cbn [Replay.bar_at bar_history];
      [apply slice_tradable, Hps|].
    pose proof (proj2 (slice_tradable (Z.max 0 (Z.of_nat i - HISTORY_WINDOW)) (Z.of_nat i + 1) prices Hps)). lia. }
  unfold Strategies.STRATEGIES in *. cbn [res_list fst snd].
  destruct (R ("baseline_momentum", Strategies.baseline_momentum)) as [r1 E1]; [by left|].
  destruct (R ("strong_only", Strategies.strong_only)) as [r2 E2]; [by right; left|].
  destruct (R ("confirmed_trend", Strategies.confirmed_trend)) as [r3 E3]; [by right; right; left|].
  destruct (R ("mean_reversion", Strategies.mean_reversion)) as [r4 E4]; [by right; right; right; left|].
  cbn [fst snd] in *. rewrite E1, E2, E3, E4. cbn [res_bind]. eexists. split; reflexivity.
Qed.

End Totality.

(** * Examples *)

Section BacktestWitness.
#[local] Existing Instance pow_exact.
#[local] Existing Instance constant_half.

Definition zigzag (n : nat) : list float := concat (List.repeat [100.0; 102.0]%F n).

(** Follow the last move, or fade it. *)
Definition mover (up down : string) : Strategies.Strategy := fun bar =>
  Ok (if fltb 0.0%F (bar_pct bar) then up else down).

Definition rivals : dict Strategies.Strategy := [("baseline_momentum", mover BUY SELL); ("fade", mover SELL BUY)].

Definition rival_stats : res (list StrategyStats) := compare_on_prices (zigzag 17) rivals 1.

Definition promoted (stats : list StrategyStats) : bool :=
  match evaluate_from_stats stats BASELINE_STRATEGY with
  | Some v => String.eqb (cv_decision v) PROMOTE
  | None => false
  end.

Lemma promote_verdict_earned_witness : exists stats v rb rc, rival_stats = Ok stats /\
  evaluate_from_stats stats BASELINE_STRATEGY = Some v /\
  row_of (zigzag 17) rivals 1 (cv_baseline_stats v) rb /\ row_of (zigzag 17) rivals 1 (cv_candidate_stats v) rc /\
  30 <= br_trades rb /\ 30 <= br_trades rc.
Proof.
  destruct (ok_with_inv promoted rival_stats ltac:(vm_compute; reflexivity)) as (stats & E & P).
  unfold promoted in P. destruct (evaluate_from_stats stats BASELINE_STRATEGY) as [v|] eqn:Ev; [|discriminate P].
  apply String.eqb_eq in P. unfold rival_stats in E.
  destruct (promote_verdict_earned (zigzag 17) rivals 1 stats BASELINE_STRATEGY v ltac:(discriminate) E Ev P)
    as (rb & rc & Rb & Rc & _ & _ & Tb & Tc & _).
  exists stats, v, rb, rc. unfold rival_stats.
  split; [exact E|]. split; [exact Ev|]. split; [exact Rb|]. split; [exact Rc|]. split; [exact Tb|exact Tc].
Defined.

Definition one_run : res BacktestResult := Replay.run_backtest (zigzag 4) (mover BUY SELL) "mover" 1.

Lemma backtest_accounts_for_bars_witness : exists r, one_run = Ok r /\ 0 < br_trades r /\
  br_holds r + br_trades r = Z.max 0 (br_bars r - 1).
Proof.
  destruct (ok_with_inv (fun r => 0 <? br_trades r) one_run ltac:(vm_compute; reflexivity)) as (r & E & P).
  exists r. split; [exact E|]. split; [by apply Z.ltb_lt|]. unfold one_run, Replay.run_backtest in E.
  exact (proj1 (backtest_accounts_for_bars _ _ _ _ _ _ _ _ r E)).
Defined.

Lemma comparison_total_witness : exists stats, compare_on_prices (zigzag 2) [] 1 = Ok stats /\ zlen stats = 4.
Proof.
  assert (Forall tradable (zigzag 2)) as Hp.
  { unfold zigzag. cbn [List.repeat concat app]. repeat (apply Forall_cons; split; [split; fconst|]). apply Forall_nil. exact I. }
  destruct (comparison_total (zigzag 2) 1 Hp ltac:(vm_compute; discriminate)) as (stats & E & N).
  exists stats. split; [exact E|]. unfold zlen. rewrite <- (length_map ss_name), N. reflexivity.
Defined.

End BacktestWitness.
