(* ===== verification/Contender.v ===== *)
(** Contender: the shadow challenger agent, its durable record and its spawner
    (api/services/agents/challenger_agent.py, challenger_store.py, challenger_spawner.py).

    The bus, the JSON parser, the clock and the identifiers are the environment of a message;
    the digest of a configuration is [_hash_config].  Redis is the record [Durable], written
    and read when it is up; a list of floats read back is the list written (JSON texts of
    floats are exact).  A symbol that is not a text is keyed by its text. *)
From S2P Require Import Prelude StateErr PyFloat FloatFacts PyVal PyMath PyRandom PyPow Config Agents Decision Gate Params Policy Filters Gitops Store Lifecycle Scorer Execution Engine Momentum Promotion Shadow Backtest.

Definition CHALLENGER_MIN_SHADOW_TRADES : Z := 40.
Definition CHALLENGER_MIN_SHADOW_WIN_RATE : float := 0.55%F.
Definition MAX_CONCURRENT_CHALLENGERS : Z := 3.
Definition CHALLENGER_PERF_PNL_CAP : Z := 1000.

Definition STREAM_MARKET_EVENTS : string := "market_events".
Definition STREAM_EXECUTIONS : string := "executions".
Definition STREAM_TRADE_PERFORMANCE : string := "trade_performance".
Definition STREAM_AGENT_GRADES : string := "agent_grades".
Definition STREAM_PROPOSALS : string := "proposals".

(** [ChallengerLearningStatus] *)
Definition WARMING : string := "warming".
Definition BUILDING : string := "building".
Definition ELIGIBLE : string := "eligible".
Definition PROMOTION_PROPOSED : string := "promotion_proposed".

(** * The durable record *)

Record Performance := {
  pf_pnls : list float;
  pf_baseline_pnls : list float;
  pf_proposal_emitted : bool;
  pf_graduated : bool;
}.

(** The hashes of Redis, by strategy, and whether Redis answers. *)
Record Durable := { du_up : bool; du_records : dict Performance }.

Module ChallengerStore.

Definition record_of (strategy : string) (d : Durable) : Performance :=
  match dget strategy (du_records d) with
  | Some p => p
  | None => {| pf_pnls := []; pf_baseline_pnls := []; pf_proposal_emitted := false; pf_graduated := false |}
  end.

Definition put (strategy : string) (p : Performance) (d : Durable) : Durable :=
  {| du_up := du_up d; du_records := dset strategy p (du_records d) |}.

(** [hset] of three fields of the hash. *)
Definition save_performance (strategy : string) (own_pnls baseline_pnls : list float) (proposal_emitted : bool)
    (d : Durable) : Durable :=
  if String.eqb strategy "" || negb (du_up d) then d
  else
    put strategy {| pf_pnls := slice_last CHALLENGER_PERF_PNL_CAP own_pnls;
                    pf_baseline_pnls := slice_last CHALLENGER_PERF_PNL_CAP baseline_pnls;
                    pf_proposal_emitted := proposal_emitted;
                    pf_graduated := pf_graduated (record_of strategy d) |} d.

Definition mark_graduated (strategy : string) (d : Durable) : Durable :=
  if String.eqb strategy "" || negb (du_up d) then d
  else
    let p := record_of strategy d in
    put strategy {| pf_pnls := pf_pnls p; pf_baseline_pnls := pf_baseline_pnls p;
                    pf_proposal_emitted := pf_proposal_emitted p; pf_graduated := true |} d.

Definition load (strategy : string) (d : Durable) : option Performance :=
  if String.eqb strategy "" || negb (du_up d) then None else dget strategy (du_records d).

End ChallengerStore.

(** * The agent *)

(** What handling one message reads from outside. *)
Record AgentEnv := {
  ae_json : string -> res val;
  ae_bus : string -> payload -> res unit;
  ae_now : string;
  ae_clock : float;
  ae_trace_id : string;
  ae_msg_id : string;
}.

Section Contender.
Context `{CPow} `{PyRandom} `{PyGauss}.

Record Telemetry := {
  tl_last_tick_at : option string;
  tl_last_shadow_trade_at : option string;
  tl_ticks_observed : Z;
  tl_recent_shadow_trades : list payload;
}.

(** What the agent shares with the process: the lifecycle registry, the durable store when
    one is installed, the in-memory store, and what the bus has taken. *)
Record World := {
  wo_registry : StrategyRegistry;
  wo_durable : option Durable;
  wo_store : InMemoryStore;
  wo_published : list (string * payload);
}.

Record ChallengerAgent := {
  ca_challenger_id : string;
  ca_instance_id : string;
  ca_config : payload;
  ca_max_fills : Z;
  ca_fills : Z;
  ca_pnl_buffer : list float;
  ca_grade_history : list payload;
  ca_lifecycle_registered : bool;
  ca_telemetry : Telemetry;
  ca_shadow : option Shadow.ShadowTradeEngine;
  ca_baseline_shadow : option Shadow.ShadowTradeEngine;
  ca_proposal_emitted : bool;
  ca_running : bool;
  ca_world : World;
}.

Definition with_registered (a : ChallengerAgent) : ChallengerAgent :=
  {| ca_challenger_id := ca_challenger_id a; ca_instance_id := ca_instance_id a; ca_config := ca_config a;
     ca_max_fills := ca_max_fills a; ca_fills := ca_fills a; ca_pnl_buffer := ca_pnl_buffer a;
     ca_grade_history := ca_grade_history a; ca_lifecycle_registered := true;
     ca_telemetry := ca_telemetry a; ca_shadow := ca_shadow a;
     ca_baseline_shadow := ca_baseline_shadow a; ca_proposal_emitted := ca_proposal_emitted a;
     ca_running := ca_running a; ca_world := ca_world a |}.

Definition with_telemetry (t : Telemetry) (a : ChallengerAgent) : ChallengerAgent :=
  {| ca_challenger_id := ca_challenger_id a; ca_instance_id := ca_instance_id a; ca_config := ca_config a;
     ca_max_fills := ca_max_fills a; ca_fills := ca_fills a; ca_pnl_buffer := ca_pnl_buffer a;
     ca_grade_history := ca_grade_history a; ca_lifecycle_registered := ca_lifecycle_registered a;
     ca_telemetry := t; ca_shadow := ca_shadow a; ca_baseline_shadow := ca_baseline_shadow a;
     ca_proposal_emitted := ca_proposal_emitted a; ca_running := ca_running a;
     ca_world := ca_world a |}.

Definition with_engines (own base : option Shadow.ShadowTradeEngine) (a : ChallengerAgent) : ChallengerAgent :=
  {| ca_challenger_id := ca_challenger_id a; ca_instance_id := ca_instance_id a; ca_config := ca_config a;
     ca_max_fills := ca_max_fills a; ca_fills := ca_fills a; ca_pnl_buffer := ca_pnl_buffer a;
     ca_grade_history := ca_grade_history a; ca_lifecycle_registered := ca_lifecycle_registered a;
     ca_telemetry := ca_telemetry a; ca_shadow := own; ca_baseline_shadow := base;
     ca_proposal_emitted := ca_proposal_emitted a; ca_running := ca_running a;
     ca_world := ca_world a |}.

Definition with_latch (b : bool) (a : ChallengerAgent) : ChallengerAgent :=
  {| ca_challenger_id := ca_challenger_id a; ca_instance_id := ca_instance_id a; ca_config := ca_config a;
     ca_max_fills := ca_max_fills a; ca_fills := ca_fills a; ca_pnl_buffer := ca_pnl_buffer a;
     ca_grade_history := ca_grade_history a; ca_lifecycle_registered := ca_lifecycle_registered a;
     ca_telemetry := ca_telemetry a; ca_shadow := ca_shadow a;
     ca_baseline_shadow := ca_baseline_shadow a; ca_proposal_emitted := b; ca_running := ca_running a;
     ca_world := ca_world a |}.

Definition with_window (fills : Z) (buffer : list float) (a : ChallengerAgent) : ChallengerAgent :=
  {| ca_challenger_id := ca_challenger_id a; ca_instance_id := ca_instance_id a; ca_config := ca_config a;
     ca_max_fills := ca_max_fills a; ca_fills := fills; ca_pnl_buffer := buffer;
     ca_grade_history := ca_grade_history a; ca_lifecycle_registered := ca_lifecycle_registered a;
     ca_telemetry := ca_telemetry a; ca_shadow := ca_shadow a;
     ca_baseline_shadow := ca_baseline_shadow a; ca_proposal_emitted := ca_proposal_emitted a;
     ca_running := ca_running a; ca_world := ca_world a |}.

Definition with_grades (l : list payload) (a : ChallengerAgent) : ChallengerAgent :=
  {| ca_challenger_id := ca_challenger_id a; ca_instance_id := ca_instance_id a; ca_config := ca_config a;
     ca_max_fills := ca_max_fills a; ca_fills := ca_fills a; ca_pnl_buffer := ca_pnl_buffer a;
     ca_grade_history := l; ca_lifecycle_registered := ca_lifecycle_registered a;
     ca_telemetry := ca_telemetry a; ca_shadow := ca_shadow a;
     ca_baseline_shadow := ca_baseline_shadow a; ca_proposal_emitted := ca_proposal_emitted a;
     ca_running := ca_running a; ca_world := ca_world a |}.

Definition stopped (a : ChallengerAgent) : ChallengerAgent :=
  {| ca_challenger_id := ca_challenger_id a; ca_instance_id := ca_instance_id a; ca_config := ca_config a;
     ca_max_fills := ca_max_fills a; ca_fills := ca_fills a; ca_pnl_buffer := ca_pnl_buffer a;
     ca_grade_history := ca_grade_history a; ca_lifecycle_registered := ca_lifecycle_registered a;
     ca_telemetry := ca_telemetry a; ca_shadow := ca_shadow a;
     ca_baseline_shadow := ca_baseline_shadow a; ca_proposal_emitted := ca_proposal_emitted a;
     ca_running := false; ca_world := ca_world a |}.

Definition started (instance_id : string) (a : ChallengerAgent) : ChallengerAgent :=
  {| ca_challenger_id := ca_challenger_id a; ca_instance_id := instance_id; ca_config := ca_config a;
     ca_max_fills := ca_max_fills a; ca_fills := ca_fills a; ca_pnl_buffer := ca_pnl_buffer a;
     ca_grade_history := ca_grade_history a; ca_lifecycle_registered := ca_lifecycle_registered a;
     ca_telemetry := ca_telemetry a; ca_shadow := ca_shadow a;
     ca_baseline_shadow := ca_baseline_shadow a; ca_proposal_emitted := ca_proposal_emitted a;
     ca_running := true; ca_world := ca_world a |}.

Definition with_world (w : World) (a : ChallengerAgent) : ChallengerAgent :=
  {| ca_challenger_id := ca_challenger_id a; ca_instance_id := ca_instance_id a; ca_config := ca_config a;
     ca_max_fills := ca_max_fills a; ca_fills := ca_fills a; ca_pnl_buffer := ca_pnl_buffer a;
     ca_grade_history := ca_grade_history a; ca_lifecycle_registered := ca_lifecycle_registered a;
     ca_telemetry := ca_telemetry a; ca_shadow := ca_shadow a;
     ca_baseline_shadow := ca_baseline_shadow a; ca_proposal_emitted := ca_proposal_emitted a;
     ca_running := ca_running a; ca_world := w |}.

Definition with_registry (r : StrategyRegistry) (w : World) : World :=
  {| wo_registry := r; wo_durable := wo_durable w; wo_store := wo_store w; wo_published := wo_published w |}.

Definition with_durable (d : option Durable) (w : World) : World :=
  {| wo_registry := wo_registry w; wo_durable := d; wo_store := wo_store w; wo_published := wo_published w |}.

Definition with_events (s : InMemoryStore) (w : World) : World :=
  {| wo_registry := wo_registry w; wo_durable := wo_durable w; wo_store := s; wo_published := wo_published w |}.

Definition with_published (l : list (string * payload)) (w : World) : World :=
  {| wo_registry := wo_registry w; wo_durable := wo_durable w; wo_store := wo_store w; wo_published := l |}.

Definition in_world (f : World -> World) (a : ChallengerAgent) : ChallengerAgent := with_world (f (ca_world a)) a.

(** [str(config.get("strategy") or "")] *)
Definition strategy_of (config : payload) : string := Fmt.str (first_truthy ["strategy"] config (VStr "")).

Definition _build_shadow_engines (config : payload)
  : option Shadow.ShadowTradeEngine * option Shadow.ShadowTradeEngine :=
  let name := strategy_of config in
  if String.eqb name "" then (None, None)
  else
    match dget name Strategies.STRATEGIES with
    | None => (None, None)
    | Some strategy =>
        (Some (Shadow.init name strategy 50),
         match dget "baseline_momentum" Strategies.STRATEGIES with
         | Some b => Some (Shadow.init "baseline_momentum" b 50)
         | None => None
         end)
    end.

Definition init (id : string) (config : payload) (max_fills : Z) (w : World) : ChallengerAgent :=
  let '(own, base) := _build_shadow_engines config in
  {| ca_challenger_id := id; ca_instance_id := id; ca_config := config; ca_max_fills := max_fills; ca_fills := 0;
     ca_pnl_buffer := []; ca_grade_history := []; ca_lifecycle_registered := false;
     ca_telemetry := {| tl_last_tick_at := None; tl_last_shadow_trade_at := None; tl_ticks_observed := 0;
                        tl_recent_shadow_trades := [] |};
     ca_shadow := own; ca_baseline_shadow := base; ca_proposal_emitted := false; ca_running := false;
     ca_world := w |}.

(** ** The durable record *)

Definition restored (pnls : list float) (s : Shadow.ShadowTradeEngine) : Shadow.ShadowTradeEngine :=
  Shadow.with_book (Shadow.she_positions s) (Shadow._restore_metrics pnls) s.

Definition _hydrate_shadow_state (a : ChallengerAgent) : ChallengerAgent :=
  let strategy := strategy_of (ca_config a) in
  match ca_shadow a, wo_durable (ca_world a) with
  | Some own, Some d =>
      match ChallengerStore.load strategy d with
      | None => a
      | Some p =>
          with_latch (pf_proposal_emitted p)
            (with_engines (Some (restored (pf_pnls p) own))
               (option_map (restored (pf_baseline_pnls p)) (ca_baseline_shadow a)) a)
      end
  | _, _ => a
  end.

Definition pnls_of (s : option Shadow.ShadowTradeEngine) : list float :=
  match s with Some s => sm_pnls (Shadow.she_metrics s) | None => [] end.

Definition _persist_shadow_state (a : ChallengerAgent) : ChallengerAgent :=
  let strategy := strategy_of (ca_config a) in
  match ca_shadow a, wo_durable (ca_world a) with
  | Some own, Some d =>
      in_world (with_durable (Some (ChallengerStore.save_performance strategy (pnls_of (Some own))
                                      (pnls_of (ca_baseline_shadow a)) (ca_proposal_emitted a) d))) a
  | _, _ => a
  end.

(** ** The lifecycle registry *)

Section Register.
Variable _hash_config : payload -> string.

(** Registered at SHADOW; what the registry raises is swallowed, its mutations stay. *)
Definition seed_lifecycle (name : string) (now : float) (r : StrategyRegistry) : StrategyRegistry :=
  match Versions.find_by_strategy name r with
  | Some _ => r
  | None =>
      let '(v, r) := Versions.register _hash_config [("strategy", VStr name)] None now r in
      snd ((do! Versions.transition (version_id v) BACKTESTED now in
            Versions.transition (version_id v) SHADOW now) r)
  end.

Definition _ensure_lifecycle_registered (now : float) (a : ChallengerAgent) : ChallengerAgent :=
  if ca_lifecycle_registered a then a
  else
    let a := with_registered a in
    let name := strategy_of (ca_config a) in
    if String.eqb name "" then a
    else in_world (fun w => with_registry (seed_lifecycle name now (wo_registry w)) w) a.

End Register.

(** ** The evidence *)

Definition metrics_of (s : Shadow.ShadowTradeEngine) : ShadowMetrics := Shadow.she_metrics s.

Definition own_summary (m : ShadowMetrics) : res payload :=
  let* wr := Shadow.win_rate m in
  let* sh := Shadow.sharpe m in
  Ok [("shadow_trades", VInt (sm_trades m)); ("shadow_win_rate", VFloat (py_round wr 4));
      ("shadow_pnl", VFloat (py_round (sm_realized_pnl m) 4)); ("shadow_sharpe", VFloat (py_round sh 4))].

Definition baseline_summary (m b : ShadowMetrics) : res payload :=
  let* wr := Shadow.win_rate b in
  Ok [("baseline_shadow_trades", VInt (sm_trades b)); ("baseline_shadow_win_rate", VFloat (py_round wr 4));
      ("baseline_shadow_pnl", VFloat (py_round (sm_realized_pnl b) 4));
      ("beats_baseline_shadow", VBool (fltb (sm_realized_pnl b) (sm_realized_pnl m)))].

Definition _shadow_summary (a : ChallengerAgent) : res payload :=
  match ca_shadow a with
  | None => Ok []
  | Some own =>
      let m := metrics_of own in
      let* s := own_summary m in
      match ca_baseline_shadow a with
      | None => Ok s
      | Some base => let* b := baseline_summary m (metrics_of base) in Ok (s ++ b)
      end
  end.

(** [int(v or 0)] *)
Definition int_or_zero (v : val) : res Z := if truthy v then py_int v else Ok 0.

Definition _promotion_blockers (summary : payload) : res (list string) :=
  let* trades := int_or_zero (dget_or "shadow_trades" VNone summary) in
  let* win_rate := float_or_zero (dget_or "shadow_win_rate" VNone summary) in
  let* pnl := float_or_zero (dget_or "shadow_pnl" VNone summary) in
  let* sharpe := float_or_zero (dget_or "shadow_sharpe" VNone summary) in
  Ok (when (trades <? CHALLENGER_MIN_SHADOW_TRADES)
        ("needs " +:+ pretty (CHALLENGER_MIN_SHADOW_TRADES - trades) +:+ " more shadow trades") ++
      when (fltb win_rate CHALLENGER_MIN_SHADOW_WIN_RATE)
        ("win rate " +:+ percent 0 win_rate +:+ " below the " +:+ percent 0 CHALLENGER_MIN_SHADOW_WIN_RATE
         +:+ " minimum") ++
      when (fleb pnl 0.0%F) "shadow PnL not positive" ++
      when (fleb sharpe 0.0%F) "shadow Sharpe not positive" ++
      when (negb (truthy (dget_or "beats_baseline_shadow" VNone summary)))
        "not beating the baseline shadow's PnL").

Definition _learning_status (snap : payload) (a : ChallengerAgent) : res string :=
  let* trades := int_or_zero (dget_or "shadow_trades" VNone snap) in
  let has_baseline := match ca_shadow a, ca_baseline_shadow a with Some _, Some _ => true | _, _ => false end in
  let no_blockers := negb (truthy (dget_or "promotion_blockers" VNone snap)) in
  Ok (if ca_proposal_emitted a then PROMOTION_PROPOSED
      else if has_baseline && no_blockers && (0 <? trades) then ELIGIBLE
      else if 0 <? trades then BUILDING else WARMING).

Definition edge_of (summary : payload) : res float :=
  let* own := float_or_zero (dget_or "shadow_pnl" VNone summary) in
  let* base := float_or_zero (dget_or "baseline_shadow_pnl" VNone summary) in
  Ok (py_round (own - base)%F 4).

Definition _shadow_edge (snap : payload) : res val :=
  if dmem "baseline_shadow_pnl" snap then let* e := edge_of snap in Ok (VFloat e) else Ok VNone.

Definition activity_snapshot (a : ChallengerAgent) : res payload :=
  let* s := _shadow_summary a in
  let snap := dset "min_shadow_win_rate" (VFloat CHALLENGER_MIN_SHADOW_WIN_RATE)
                (dset "min_shadow_trades" (VInt CHALLENGER_MIN_SHADOW_TRADES) s) in
  let* snap := match ca_shadow a, ca_baseline_shadow a with
               | Some _, Some _ =>
                   let* b := _promotion_blockers snap in Ok (dset "promotion_blockers" (strings b) snap)
               | _, _ => Ok snap
               end in
  let t := ca_telemetry a in
  let snap := dmerge snap
    [("shadow_proposal_emitted", VBool (ca_proposal_emitted a)); ("ticks_observed", VInt (tl_ticks_observed t));
     ("last_tick_at", vopt VStr (tl_last_tick_at t));
     ("last_shadow_trade_at", vopt VStr (tl_last_shadow_trade_at t));
     ("recent_shadow_trades", VList (map VDict (tl_recent_shadow_trades t)))] in
  let snap := match ca_shadow a with
              | Some own => dset "open_shadow_positions" (VInt (Shadow.open_position_count own)) snap
              | None => snap
              end in
  let* status := _learning_status snap a in
  let snap := dset "learning_status" (VStr status) snap in
  let* edge := _shadow_edge snap in
  let snap := dset "shadow_edge" edge snap in
  Ok (match last (ca_grade_history a) with
      | Some g => dset "latest_grade" (VDict g) snap
      | None => snap
      end).

(** ** Messages *)

Definition upper (c : Ascii.ascii) : Ascii.ascii :=
  let n := Ascii.nat_of_ascii c in if ((97 <=? n) && (n <=? 122))%nat then Ascii.ascii_of_nat (n - 32) else c.

Definition upper_str (s : string) : string :=
  String.string_of_list_ascii (map upper (String.list_ascii_of_string s)).

(** The verdict of the backtest on the configured strategy, or nothing. *)
Definition _backtest_verdict (a : ChallengerAgent) : string :=
  let name := strategy_of (ca_config a) in
  if String.eqb name "" then ""
  else
    match dget name Strategies.STRATEGIES, dget "baseline_momentum" Strategies.STRATEGIES with
    | Some s, Some b =>
        let prices := synthetic_prices 1500 50000.0%F 1.5%F 0.0%F 1 in
        match compare_on_prices prices (dset "baseline_momentum" b [(name, s)]) 1 with
        | Ok stats =>
            match evaluate_from_stats stats "baseline_momentum" with
            | Some v => " Backtest verdict: " +:+ upper_str (cv_decision v) +:+ " — " +:+ cv_reason v
            | None => ""
            end
        | Raise _ => ""
        end
    | _, _ => ""
    end.

(** The bus takes a message, or raises. *)
Definition bus_publish (ev : AgentEnv) (stream : string) (p : payload) : M ChallengerAgent unit :=
  do! lift (ae_bus ev stream p) in
  modify (in_world (fun w => with_published (wo_published w ++ [(stream, p)]) w)).

(** [persist_proposal] without a database: an event of the in-memory store. *)
Definition persist_proposal (ev : AgentEnv) (p : payload) (w : World) : World :=
  with_events (snd (Store.add_event
    [("log_type", VStr "proposal");
     ("trace_id", first_truthy ["reflection_trace_id"; "msg_id"] p (VStr "")); ("payload", VDict p)]
    (ae_clock ev) (wo_store w))) w.

Definition source_of (a : ChallengerAgent) : string := "challenger-" +:+ ca_challenger_id a.

Definition promotion_payload (ev : AgentEnv) (summary : payload) (edge win_rate : float) (a : ChallengerAgent)
  : payload :=
  let strategy_name := strategy_of (ca_config a) in
  let reason :=
    "Shadow challenger '" +:+ strategy_name +:+ "' beats baseline by " +:+ Fmt.fixed_plus 2 edge +:+ " PnL over "
    +:+ Fmt.str (dget_or "shadow_trades" VNone summary) +:+ " shadow trades (win " +:+ percent 0 win_rate +:+ ")."
    +:+ _backtest_verdict a in
  dmerge
    [("msg_id", VStr (ae_msg_id ev)); ("source", VStr (source_of a)); ("type", VStr "proposal");
     ("proposal_type", VStr "challenger_promotion"); ("requires_approval", VBool true);
     ("challenger_id", VStr (ca_challenger_id a)); ("instance_id", VStr (ca_instance_id a));
     ("config", VDict (ca_config a)); ("confidence", VFloat win_rate);
     ("content", VDict [("strategy", VStr strategy_name); ("shadow_edge", VFloat edge);
                        ("confidence", VFloat win_rate); ("reason", VStr reason)]);
     ("trace_id", VStr (ae_trace_id ev)); ("timestamp", VStr (ae_now ev))] summary.

(** The proposal itself, the latch set before it is published. *)
Definition propose_promotion (ev : AgentEnv) (summary : payload) : M ChallengerAgent unit :=
  do! modify (with_latch true) in
  let! edge := lift (edge_of summary) in
  let! win_rate := lift (float_or_zero (dget_or "shadow_win_rate" VNone summary)) in
  let! p := gets (promotion_payload ev summary edge win_rate) in
  do! bus_publish ev STREAM_PROPOSALS p in
  do! modify (in_world (persist_proposal ev p)) in
  modify _persist_shadow_state.

Definition comparable (a : ChallengerAgent) : bool :=
  match ca_shadow a, ca_baseline_shadow a with Some _, Some _ => negb (ca_proposal_emitted a) | _, _ => false end.

Definition _maybe_propose_shadow_promotion (ev : AgentEnv) : M ChallengerAgent unit :=
  let! able := gets comparable in
  if negb able then ret tt
  else
    let! s := gets _shadow_summary in
    let! summary := lift s in
    let! blockers := lift (_promotion_blockers summary) in
    match blockers with
    | [] => propose_promotion ev summary
    | _ => ret tt
    end.

(** The tick of a market event; a text that does not parse is not a tick. *)
Definition market_payload (ev : AgentEnv) (data : payload) : res (option payload) :=
  match dget_or "payload" VNone data with
  | VStr s =>
      match ae_json ev s with
      | Ok (VDict d) => Ok (Some d)
      | Ok _ => Raise AttributeError
      | Raise ValueError | Raise TypeError => Ok None
      | Raise e => Raise e
      end
  | VDict d => Ok (Some d)
  | _ => Ok (Some data)
  end.

(** The price of a tick; what does not convert to a number is not a tick. *)
Definition market_price (p : payload) : res (option float) :=
  match float_or_zero (dget_or "price" VNone p) with
  | Ok x => Ok (Some x)
  | Raise ValueError | Raise TypeError => Ok None
  | Raise e => Raise e
  end.

Definition seen_tick (now : string) (t : Telemetry) : Telemetry :=
  {| tl_last_tick_at := Some now; tl_last_shadow_trade_at := tl_last_shadow_trade_at t;
     tl_ticks_observed := tl_ticks_observed t + 1; tl_recent_shadow_trades := tl_recent_shadow_trades t |}.

Definition seen_trade (now : string) (c : option ShadowTrade) (t : Telemetry) : Telemetry :=
  match c with
  | None => t
  | Some c =>
      {| tl_last_tick_at := tl_last_tick_at t; tl_last_shadow_trade_at := Some now;
         tl_ticks_observed := tl_ticks_observed t;
         tl_recent_shadow_trades := take 10
           ([("symbol", VStr (sh_symbol c)); ("direction", VStr (sh_direction c));
             ("pnl", VFloat (py_round (sh_pnl c) 4)); ("entry_price", VFloat (py_round (sh_entry_price c) 4));
             ("exit_price", VFloat (py_round (sh_exit_price c) 4)); ("timestamp", VStr now)]
            :: tl_recent_shadow_trades t) |}
  end.

(** One price on the agent's own engine, or on the baseline's. *)
Definition observe_own (symbol : string) (price : float) : M ChallengerAgent (option ShadowTrade) := fun a =>
  match ca_shadow a with
  | None => (Ok None, a)
  | Some e =>
      let '(r, e) := Shadow.observe symbol price e in (r, with_engines (Some e) (ca_baseline_shadow a) a)
  end.

Definition observe_baseline (symbol : string) (price : float) : M ChallengerAgent (option ShadowTrade) := fun a =>
  match ca_baseline_shadow a with
  | None => (Ok None, a)
  | Some e => let '(r, e) := Shadow.observe symbol price e in (r, with_engines (ca_shadow a) (Some e) a)
  end.

Definition observe_tick (ev : AgentEnv) (symbol : string) (price : float) : M ChallengerAgent bool :=
  do! modify (fun a => with_telemetry (seen_tick (ae_now ev) (ca_telemetry a)) a) in
  let! closed := observe_own symbol price in
  do! modify (fun a => with_telemetry (seen_trade (ae_now ev) closed (ca_telemetry a)) a) in
  let! baseline_closed := observe_baseline symbol price in
  ret (match closed, baseline_closed with None, None => false | _, _ => true end).

Definition _observe_shadow (ev : AgentEnv) (data : payload) : M ChallengerAgent bool :=
  let! has_engine := gets (fun a => match ca_shadow a with Some _ => true | None => false end) in
  if negb has_engine then ret false
  else
    let! p := lift (market_payload ev data) in
    match p with
    | None => ret false
    | Some p =>
        let symbol := dget_or "symbol" VNone p in
        let! price := lift (market_price p) in
        match price with
        | None => ret false
        | Some x =>
            if negb (truthy symbol) || fleb x 0.0%F then ret false
            else
              match symbol with
              | VList _ | VDict _ =>
                  do! modify (fun a => with_telemetry (seen_tick (ae_now ev) (ca_telemetry a)) a) in raise TypeError
              | v => observe_tick ev (Fmt.str v) x
              end
        end
    end.

(** The win rate of a list of profits. *)
Definition wins_over (l : list float) : res float :=
  match l with [] => Ok 0.0%F | _ => int_div (zlen (List.filter (fltb 0.0%F) l)) (zlen l) end.

Definition grade_result (ev : AgentEnv) (win_rate avg_pnl : float) (summary : payload) (a : ChallengerAgent)
  : payload :=
  dmerge
    [("challenger_id", VStr (ca_challenger_id a)); ("instance_id", VStr (ca_instance_id a));
     ("fills", VInt (ca_fills a)); ("win_rate", VFloat (py_round win_rate 4));
     ("avg_pnl", VFloat (py_round avg_pnl 4)); ("config", VDict (ca_config a)); ("timestamp", VStr (ae_now ev))]
    summary.

Definition grade_message (ev : AgentEnv) (win_rate : float) (g : payload) (a : ChallengerAgent) : payload :=
  [("msg_id", VStr (ae_msg_id ev)); ("type", VStr "challenger_grade"); ("source", VStr (source_of a));
   ("agent", VStr "challenger"); ("grade", VStr (if fleb 0.5%F win_rate then "B" else "C"));
   ("score", VFloat win_rate); ("score_pct", VFloat (py_round (win_rate * 100.0)%F 1)); ("metrics", VDict g);
   ("timestamp", dget_or "timestamp" VNone g)].

Definition _grade (ev : AgentEnv) : M ChallengerAgent unit :=
  let! recent := gets (fun a => slice_last 20 (ca_pnl_buffer a)) in
  match recent with
  | [] => ret tt
  | _ =>
      let! win_rate := lift (wins_over recent) in
      let! s := gets _shadow_summary in
      let! summary := lift s in
      let! g := gets (grade_result ev win_rate (mean_of recent) summary) in
      do! modify (fun a => with_grades (ca_grade_history a ++ [g]) a) in
      let! m := gets (grade_message ev win_rate g) in
      bus_publish ev STREAM_AGENT_GRADES m
  end.

Definition retirement (ev : AgentEnv) (win_rate total_pnl : float) (summary : payload) (a : ChallengerAgent)
  : payload :=
  dmerge
    (dmerge
      [("msg_id", VStr (ae_msg_id ev)); ("type", VStr "challenger_summary"); ("source", VStr (source_of a));
       ("challenger_id", VStr (ca_challenger_id a)); ("instance_id", VStr (ca_instance_id a));
       ("total_fills", VInt (ca_fills a)); ("total_pnl", VFloat (py_round total_pnl 4));
       ("win_rate", VFloat (py_round win_rate 4)); ("config", VDict (ca_config a));
       ("grade_history", VList (map VDict (slice_last 5 (ca_grade_history a)))); ("timestamp", VStr (ae_now ev))]
      summary)
    [("proposal_type", VStr "challenger_result"); ("requires_approval", VBool false);
     ("content", VDict
        [("description", VStr ("Challenger " +:+ ca_challenger_id a +:+ " completed " +:+ pretty (ca_fills a)
                               +:+ " fills. Win rate: " +:+ percent 0 win_rate +:+ ", Total PnL: "
                               +:+ Fmt.fixed_plus 2 total_pnl +:+ "." +:+ _backtest_verdict a));
         ("confidence", VFloat win_rate)])].

Definition _retire_with_summary (ev : AgentEnv) : M ChallengerAgent unit :=
  let! total_pnl := gets (fun a => fsum_left (ca_pnl_buffer a)) in
  let! w := gets (fun a => wins_over (ca_pnl_buffer a)) in
  let! win_rate := lift w in
  let! s := gets _shadow_summary in
  let! summary := lift s in
  let! p := gets (retirement ev win_rate total_pnl summary) in
  do! bus_publish ev STREAM_PROPOSALS p in
  modify stopped.

(** [max(int(config.get("grade_every", 10)), 1)] *)
Definition grade_every (a : ChallengerAgent) : res Z :=
  let* n := py_int (dget_or "grade_every" (VInt 10) (ca_config a)) in Ok (Z.max n 1).

Definition count_fill (data : payload) : M ChallengerAgent unit :=
  let! x := lift (float_or_zero (dget_or "pnl" VNone data)) in
  modify (fun a => with_window (ca_fills a + 1) (Generator.push 100 x (ca_pnl_buffer a)) a).

Definition on_market_event (ev : AgentEnv) (data : payload) : M ChallengerAgent unit :=
  let! closed := _observe_shadow ev data in
  do! modify (fun a => if closed then _persist_shadow_state a else a) in
  _maybe_propose_shadow_promotion ev.

(** The grade and the retirement that a message on the other streams may bring. *)
Definition on_fill_clock (ev : AgentEnv) : M ChallengerAgent unit :=
  let! fills := gets ca_fills in
  let! due := if 0 <? fills
              then let! e := gets grade_every in let! n := lift e in ret (fills mod n =? 0)
              else ret false in
  do! if due then _grade ev else ret tt in
  let! full := gets (fun a => ca_max_fills a <=? ca_fills a) in
  if full then _retire_with_summary ev else ret tt.

Section Process.
Variable _hash_config : payload -> string.

Definition process (ev : AgentEnv) (stream : string) (data : payload) : M ChallengerAgent unit :=
  do! modify (_ensure_lifecycle_registered _hash_config (ae_clock ev)) in
  if String.eqb stream STREAM_MARKET_EVENTS then on_market_event ev data
  else
    do! if String.eqb stream STREAM_TRADE_PERFORMANCE then count_fill data else ret tt in
    on_fill_clock ev.

(** [start]: the base class registers the instance and subscribes, once. *)
Definition start (instance_id : string) (now : float) (a : ChallengerAgent) : ChallengerAgent :=
  let a := if ca_running a then a else started instance_id a in
  _ensure_lifecycle_registered _hash_config now (_hydrate_shadow_state a).

End Process.

(** * The spawner *)

Definition DEFAULT_MAX_FILLS : Z := 20.

Definition _running_challengers (agents : list ChallengerAgent) : list ChallengerAgent :=
  List.filter ca_running agents.

Definition descriptor (status now : string) (a : ChallengerAgent) : payload :=
  [("challenger_id", VStr (ca_challenger_id a)); ("instance_id", VStr (ca_instance_id a));
   ("consumer", VStr (source_of a)); ("max_fills", VInt (ca_max_fills a)); ("status", VStr status);
   ("timestamp", VStr now)].

(** The two guards: the descriptor of the challenger that runs already, or a refusal. *)
Definition guard (config : payload) (now : string) (agents : list ChallengerAgent) : option payload :=
  let running := _running_challengers agents in
  let strategy := strategy_of config in
  let same := if String.eqb strategy "" then None
              else List.find (fun a => String.eqb (strategy_of (ca_config a)) strategy) running in
  match same with
  | Some a => Some (descriptor "already_running" now a)
  | None =>
      if MAX_CONCURRENT_CHALLENGERS <=? zlen running then
        Some [("status", VStr "capacity");
              ("reason", VStr (pretty (zlen running) +:+ " challengers already running (cap "
                               +:+ pretty MAX_CONCURRENT_CHALLENGERS +:+ ")")); ("timestamp", VStr now)]
      else None
  end.

Section Spawn.
Variable _hash_config : payload -> string.

(** The challenger of a request, constructed and started. *)
Definition recruit (id instance_id : string) (config : payload) (max_fills : option Z) (clock : float) (w : World)
  : ChallengerAgent :=
  let fills := match max_fills with Some n => if n =? 0 then DEFAULT_MAX_FILLS else n | None => DEFAULT_MAX_FILLS end in
  start _hash_config instance_id clock (init id config fills w).

(** A request that no other request overlaps. *)
Definition spawn (id instance_id : string) (config : payload) (max_fills : option Z) (now : string) (clock : float)
    (w : World) (agents : list ChallengerAgent) : payload * list ChallengerAgent :=
  match guard config now agents with
  | Some d => (d, agents)
  | None =>
      let a := recruit id instance_id config max_fills clock w in
      (descriptor "spawned" now a, agents ++ [a])
  end.

(** Requests that overlap: one that passed the guards waits for its start, which suspends,
    and joins the fleet afterwards. *)
Record Fleet := { fl_agents : list ChallengerAgent; fl_starting : list ChallengerAgent }.

Inductive spawn_step : Fleet -> Fleet -> Prop :=
  | Requested id instance_id config max_fills now clock w f :
      guard config now (fl_agents f) = None ->
      spawn_step f {| fl_agents := fl_agents f;
                      fl_starting := fl_starting f ++ [recruit id instance_id config max_fills clock w] |}
  | Joined a before after f :
      fl_starting f = before ++ a :: after ->
      spawn_step f {| fl_agents := fl_agents f ++ [a]; fl_starting := before ++ after |}.

End Spawn.
End Contender.
