(* ===== verification/ContenderFacts.v ===== *)
(** ContenderFacts: a promotion proposal is earned and made once, the evidence survives a
    restart, and what the spawner's guards hold and do not hold. *)
From S2P Require Import Prelude StateErr PyFloat FloatFacts PyVal PyMath PyRandom PyPow Config Agents Decision Gate Params Policy Filters Gitops Store Lifecycle Scorer Execution Engine Momentum Promotion Shadow ShadowFacts Backtest Contender.

(** * Evidence *)

Definition is_promotion (m : string * payload) : bool :=
  String.eqb (fst m) STREAM_PROPOSALS &&
  val_eqb (dget_or "proposal_type" VNone (snd m)) (VStr "challenger_promotion").

(** The promotion proposals among the messages of the bus. *)
Definition promos (l : list (string * payload)) : list payload := map snd (List.filter is_promotion l).

(** What a promotion proposal shows of the shadow record. *)
Definition earned (p : payload) : Prop :=
  dget "requires_approval" p = Some (VBool true) /\ dget "beats_baseline_shadow" p = Some (VBool true) /\
  (exists n, dget "shadow_trades" p = Some (VInt n) /\ 40 <= n) /\
  (exists w, dget "shadow_win_rate" p = Some (VFloat w) /\ fleb 0.55%F w = true) /\
  (exists x, dget "shadow_pnl" p = Some (VFloat x) /\ fltb 0.0%F x = true) /\
  exists s, dget "shadow_sharpe" p = Some (VFloat s) /\ fleb s 0.0%F = false.

Lemma promos_app l m : promos (l ++ m) = promos l ++ promos m.
Proof. unfold promos. by rewrite List.filter_app, map_app. Qed.

Section Evidence.
Context `{CPow} `{PyRandom} `{PyGauss}.

Lemma sum_nan l : forall acc, (l <> [] \/ acc = NaN) -> Forall (fun x => x = NaN) l -> fold_left fadd l acc = NaN.
Proof.
  induction l as [|x l IH]; intros acc Ha Hl; [by destruct Ha|]. apply Forall_cons in Hl as [-> Hl]. cbn [fold_left].
  apply IH; [right; by destruct acc as [|[]| |]|exact Hl].
Qed.

(** A record whose profit is not a number has Sharpe 0. *)
Lemma sharpe_of_nan m s : sm_realized_pnl m = NaN -> Shadow.sharpe m = Ok s -> s = 0.0%F.
Proof.
  intros Hm. unfold Shadow.sharpe. destruct (zlen (sm_pnls m) <? 2) eqn:En; [by intros <-%Ok_inj|].
  apply Z.ltb_ge in En. rewrite Hm, fdiv_nz_nan. intros (ys & Ey & Es)%res_bind_Ok.
  assert (Forall (fun x => x = NaN) ys) as Hy.
  { refine (res_list_Forall _ (fun x => x = NaN) _ _ _ Ey). intros x y Hs. unfold square in Hs.
    assert (fsub x NaN = NaN) as Hx by (by destruct x as [|[]| |]). rewrite Hx, pow2_nan in Hs. cbn in Hs.
    by apply Ok_inj in Hs as <-. }
  assert (ys <> []) as Hne.
  { intros ->. apply res_list_length in Ey. unfold zlen in En. cbn in Ey. lia. }
  unfold fsum_left in Es. rewrite (sum_nan ys (Fin 0) (or_introl Hne) Hy), fdiv_nz_nan, pow_half_nan in Es.
  rewrite fltb_nan_r in Es. by apply Ok_inj in Es as <-.
Qed.

Lemma int_div_not_nan a b w : int_div a b = Ok w -> w <> NaN.
Proof.
  with_strategy transparent [int_div] unfold int_div. destruct (b =? 0) eqn:E; [discriminate|]. apply Z.eqb_neq in E.
  pose proof (key_round_q (xorb (a <? 0) (b <? 0)) (Z.sgn b * a * scale) (Z.abs b) ltac:(lia)) as K.
  destruct (round_q _ _ _) as [|i| |n]; [|discriminate|..]; intros <-%Ok_inj; discriminate.
Qed.

Lemma win_rate_not_nan m w : Shadow.win_rate m = Ok w -> w <> NaN.
Proof.
  unfold Shadow.win_rate. destruct (sm_trades m =? 0); [intros <-%Ok_inj; apply dec_not_nan|apply int_div_not_nan].
Qed.

(** ** The bar *)

Lemma or_zero_cases x y : float_or_zero (VFloat x) = Ok y -> y = x \/ y = 0.0%F.
Proof.
  unfold float_or_zero. destruct (truthy (VFloat x)); cbn [py_float]; intros <-%Ok_inj; [by left|by right].
Qed.

Lemma no_reason b t : when b t = [] -> b = false.
Proof. by destruct b. Qed.

(** Numbers that raise no blocker are above the bar. *)
Lemma no_blockers summary n w x s b : dget "shadow_trades" summary = Some (VInt n) ->
  dget "shadow_win_rate" summary = Some (VFloat w) -> dget "shadow_pnl" summary = Some (VFloat x) ->
  dget "shadow_sharpe" summary = Some (VFloat s) -> dget "beats_baseline_shadow" summary = Some (VBool b) ->
  _promotion_blockers summary = Ok [] ->
  40 <= n /\ fltb w 0.55%F = false /\ fleb x 0.0%F = false /\ fleb s 0.0%F = false /\ b = true.
Proof.
  intros E1 E2 E3 E4 E5. unfold _promotion_blockers.
  rewrite (dget_or_Some _ _ _ _ E1), (dget_or_Some _ _ _ _ E2), (dget_or_Some _ _ _ _ E3), (dget_or_Some _ _ _ _ E4),
    (dget_or_Some _ _ _ _ E5).
  intros (n' & N & E)%res_bind_Ok. apply res_bind_Ok in E as (w' & W & E). apply res_bind_Ok in E as (x' & X & E).
  apply res_bind_Ok in E as (s' & S & E). apply Ok_inj in E.
  apply app_eq_nil in E as [B1%no_reason E]. apply app_eq_nil in E as [B2%no_reason E].
  apply app_eq_nil in E as [B3%no_reason E]. apply app_eq_nil in E as [B4%no_reason B5%no_reason].
  split.
  { unfold int_or_zero in N. apply Z.ltb_ge in B1. destruct (truthy (VInt n)); cbn [py_int] in N; apply Ok_inj in N as <-;
      [exact B1|]. exfalso. unfold CHALLENGER_MIN_SHADOW_TRADES in B1. lia. }
  split.
  { destruct (or_zero_cases _ _ W) as [->| ->]; [exact B2|].
    assert (fltb 0.0%F CHALLENGER_MIN_SHADOW_WIN_RATE = true) as F by fconst. rewrite F in B2. discriminate B2. }
  assert (fleb 0.0%F 0.0%F = true) as F0 by fconst.
  split; [destruct (or_zero_cases _ _ X) as [->| ->]; [exact B3|rewrite F0 in B3; discriminate B3]|].
  split; [destruct (or_zero_cases _ _ S) as [->| ->]; [exact B4|rewrite F0 in B4; discriminate B4]|].
  apply negb_false_iff in B5. exact B5.
Qed.

(** The summary of an agent with both engines. *)
Lemma summary_inv a own base s : ca_shadow a = Some own -> ca_baseline_shadow a = Some base ->
  _shadow_summary a = Ok s -> exists wr sh bwr,
  Shadow.win_rate (metrics_of own) = Ok wr /\ Shadow.sharpe (metrics_of own) = Ok sh /\
  s = [("shadow_trades", VInt (sm_trades (metrics_of own))); ("shadow_win_rate", VFloat (py_round wr 4));
       ("shadow_pnl", VFloat (py_round (sm_realized_pnl (metrics_of own)) 4)); ("shadow_sharpe", VFloat (py_round sh 4));
       ("baseline_shadow_trades", VInt (sm_trades (metrics_of base))); ("baseline_shadow_win_rate", VFloat bwr);
       ("baseline_shadow_pnl", VFloat (py_round (sm_realized_pnl (metrics_of base)) 4));
       ("beats_baseline_shadow", VBool (fltb (sm_realized_pnl (metrics_of base)) (sm_realized_pnl (metrics_of own))))].
Proof.
  intros Eo Eb. unfold _shadow_summary. rewrite Eo, Eb. intros (o & O & E)%res_bind_Ok.
  apply res_bind_Ok in E as (b & B & E). apply Ok_inj in E as <-.
  unfold own_summary in O. apply res_bind_Ok in O as (wr & W & O). apply res_bind_Ok in O as (sh & S & O).
  apply Ok_inj in O as <-. unfold baseline_summary in B. apply res_bind_Ok in B as (bw & _ & B). apply Ok_inj in B as <-.
  exists wr, sh, (py_round bw 4). split; [exact W|]. split; [exact S|reflexivity].
Qed.

(** A proposal made without blockers is earned. *)
Lemma promotion_is_earned ev a own base s edge wr : ca_shadow a = Some own -> ca_baseline_shadow a = Some base ->
  _shadow_summary a = Ok s -> _promotion_blockers s = Ok [] ->
  earned (promotion_payload ev s edge wr a) /\ is_promotion (STREAM_PROPOSALS, promotion_payload ev s edge wr a) = true.
Proof.
  intros Eo Eb Es Hb. destruct (summary_inv a own base s Eo Eb Es) as (w & sh & bw & W & S & ->).
  match type of Hb with _promotion_blockers ?l = _ => destruct (no_blockers l (sm_trades (metrics_of own)) (py_round w 4) (py_round (sm_realized_pnl (metrics_of own)) 4)
    (py_round sh 4) (fltb (sm_realized_pnl (metrics_of base)) (sm_realized_pnl (metrics_of own)))
    eq_refl eq_refl eq_refl eq_refl eq_refl Hb) as (B1 & B2 & B3 & B4 & B5) end.
  split; [|reflexivity]. unfold earned.
  split; [reflexivity|]. split; [exact (f_equal (fun b => Some (VBool b)) B5)|].
  split; [eexists; split; [reflexivity|exact B1]|].
  split.
  { eexists; split; [reflexivity|]. apply fltb_false; [|apply dec_not_nan|exact B2].
    apply py_round_not_nan. exact (win_rate_not_nan _ _ W). }
  split; [|eexists; split; [reflexivity|exact B4]].
  eexists; split; [reflexivity|]. apply fleb_false; [|apply dec_not_nan|exact B3]. apply py_round_not_nan. intros Hn.
  rewrite (sharpe_of_nan _ _ Hn S) in B4. assert (fleb (py_round 0.0%F 4) 0.0%F = true) as F by fconst.
  rewrite F in B4. discriminate B4.
Qed.

(** * One proposal *)

Definition published (a : ChallengerAgent) : list (string * payload) := wo_published (ca_world a).

(** Between two states: the latch stays set, and at most one promotion is proposed, with the
    latch open before, set after, and earned. *)
Definition latched (a a' : ChallengerAgent) : Prop :=
  (ca_proposal_emitted a = true -> ca_proposal_emitted a' = true) /\
  (promos (published a') = promos (published a) \/
   ca_proposal_emitted a = false /\ ca_proposal_emitted a' = true /\
   exists p, promos (published a') = promos (published a) ++ [p] /\ earned p).

#[local] Instance latched_preorder : PreOrder latched.
Proof.
  split.
  - intros a. split; [done|by left].
  - intros a b c [L1 P1] [L2 P2]. split; [by auto|].
    destruct P1 as [P1|(E1 & E1' & p & P1 & Q1)].
    + destruct P2 as [P2|(E2 & E2' & q & P2 & Q2)]; [left; congruence|].
      right. split; [|split; [exact E2'|exists q; split; [congruence|exact Q2]]].
      destruct (ca_proposal_emitted a); [|done]. rewrite L1 in E2; done.
    + destruct P2 as [P2|(E2 & _)]; [|congruence].
      right. split; [exact E1|]. split; [by apply L2|]. exists p. split; [congruence|exact Q1].
Qed.

(** Steps that touch neither the latch nor the bus. *)
Lemma latched_quiet a a' : ca_proposal_emitted a' = ca_proposal_emitted a -> published a' = published a -> latched a a'.
Proof. intros E P. split; [by rewrite E|left; by rewrite P]. Qed.

Lemma latched_modify f : (forall a, ca_proposal_emitted (f a) = ca_proposal_emitted a) ->
  (forall a, published (f a) = published a) -> tracks latched (modify f).
Proof. intros E P. apply tracks_modify. intros a. by apply latched_quiet. Qed.

Lemma latched_publish ev stream p : is_promotion (stream, p) = false -> tracks latched (bus_publish ev stream p).
Proof.
  intros Hp. apply tracks_bind; [typeclasses eauto|apply tracks_lift; typeclasses eauto|]. intros [].
  apply tracks_modify. intros a. split; [done|]. left.
  change (promos (published a ++ [(stream, p)]) = promos (published a)).
  rewrite promos_app. unfold promos at 2. cbn [List.filter]. rewrite Hp. apply app_nil_r.
Qed.

Lemma persist_quiet a : ca_proposal_emitted (_persist_shadow_state a) = ca_proposal_emitted a /\
  published (_persist_shadow_state a) = published a.
Proof. unfold _persist_shadow_state. destruct (ca_shadow a), (wo_durable (ca_world a)); split; reflexivity. Qed.

Lemma register_quiet h now a : ca_proposal_emitted (_ensure_lifecycle_registered h now a) = ca_proposal_emitted a /\
  published (_ensure_lifecycle_registered h now a) = published a.
Proof.
  unfold _ensure_lifecycle_registered. destruct (ca_lifecycle_registered a); [by split|].
  destruct (String.eqb _ ""); split; reflexivity.
Qed.

(** The tick of both engines. *)
Lemma observe_latched ev data : tracks latched (_observe_shadow ev data).
Proof.
  assert (PreOrder latched) as P by typeclasses eauto.
  assert (tracks latched (modify (fun a => with_telemetry (seen_tick (ae_now ev) (ca_telemetry a)) a))) as T1
    by (by apply latched_modify).
  assert (forall c, tracks latched (modify (fun a => with_telemetry (seen_trade (ae_now ev) c (ca_telemetry a)) a))) as T2
    by (intros c; by apply latched_modify).
  assert (forall sym x, tracks latched (observe_own sym x)) as T3.
  { intros sym x a. unfold observe_own. destruct (ca_shadow a) as [e|]; [|reflexivity].
    destruct (Shadow.observe sym x e) as [r e']. by apply latched_quiet. }
  assert (forall sym x, tracks latched (observe_baseline sym x)) as T4.
  { intros sym x a. unfold observe_baseline. destruct (ca_baseline_shadow a) as [e|]; [|reflexivity].
    destruct (Shadow.observe sym x e) as [r e']. by apply latched_quiet. }
  unfold _observe_shadow, observe_tick.
  repeat first [apply tracks_ret|apply tracks_raise|apply tracks_lift|apply tracks_gets|apply T1|apply T2|apply T3|apply T4
               |apply (tracks_bind latched); [|intros ?]|case_match]; typeclasses eauto.
Qed.

(** The proposal: its only message is earned, and the latch was open. *)
Lemma propose_latched ev a own base s : ca_shadow a = Some own -> ca_baseline_shadow a = Some base ->
  ca_proposal_emitted a = false -> _shadow_summary a = Ok s -> _promotion_blockers s = Ok [] ->
  latched a (snd (propose_promotion ev s a)).
Proof.
  intros Eo Eb El Es Hb. unfold propose_promotion, bind, modify, lift, gets. cbn [snd].
  destruct (edge_of s) as [edge|e]; [|split; [done|by left]].
  destruct (float_or_zero _) as [wr|e]; [|split; [done|by left]].
  destruct (promotion_is_earned ev (with_latch true a) own base s edge wr Eo Eb Es Hb) as [Q1 Q2].
  set (p := promotion_payload ev s edge wr (with_latch true a)) in *. clearbody p.
  unfold bus_publish, bind, lift, modify. destruct (ae_bus ev STREAM_PROPOSALS p); [|split; [done|by left]].
  cbn [snd]. set (a1 := in_world (persist_proposal ev p) _). destruct (persist_quiet a1) as [L P].
  split; [by rewrite L|]. right. split; [exact El|]. split; [by rewrite L|]. exists p. split; [|exact Q1].
  rewrite P. change (promos (published a ++ [(STREAM_PROPOSALS, p)]) = promos (published a) ++ [p]).
  rewrite promos_app. unfold promos at 2. cbn [List.filter]. by rewrite Q2.
Qed.

Lemma maybe_latched ev : tracks latched (_maybe_propose_shadow_promotion ev).
Proof.
  intros a. unfold _maybe_propose_shadow_promotion, bind, gets, lift, ret.
  destruct (comparable a) eqn:Ec; [|reflexivity]. cbn [negb].
  unfold comparable in Ec. destruct (ca_shadow a) as [own|] eqn:Eo; [|discriminate].
  destruct (ca_baseline_shadow a) as [base|] eqn:Eb; [|discriminate]. apply negb_true_iff in Ec.
  destruct (_shadow_summary a) as [s|e] eqn:Es; [|reflexivity].
  destruct (_promotion_blockers s) as [[|b l]|e] eqn:Ebl; [|reflexivity|reflexivity].
  exact (propose_latched ev a own base s Eo Eb Ec Es Ebl).
Qed.

Lemma retirement_plain ev wr pnl s a : is_promotion (STREAM_PROPOSALS, retirement ev wr pnl s a) = false.
Proof.
  unfold is_promotion, retirement. cbn [fst snd]. set (d := dmerge _ s). clearbody d. unfold dmerge. cbn [fold_left fst snd].
  set (c := VDict _). clearbody c. unfold dget_or.
  rewrite (dget_dset_ne "content" "proposal_type") by done.
  rewrite (dget_dset_ne "requires_approval" "proposal_type") by done. by rewrite dget_dset_eq.
Qed.

Lemma grade_latched ev : tracks latched (_grade ev).
Proof.
  unfold _grade. apply (tracks_bind latched); [apply tracks_gets; typeclasses eauto|]. intros recent.
  destruct recent as [|x l]; [apply tracks_ret; typeclasses eauto|].
  repeat first [apply latched_publish; reflexivity|apply (tracks_bind latched); [|intros ?]|apply tracks_lift; typeclasses eauto|apply tracks_gets; typeclasses eauto
               |by apply latched_modify].
Qed.

Lemma retire_latched ev : tracks latched (_retire_with_summary ev).
Proof.
  assert (forall p, is_promotion (STREAM_PROPOSALS, p) = false ->
            tracks latched (do! bus_publish ev STREAM_PROPOSALS p in modify stopped)) as T.
  { intros p Hp. apply (tracks_bind latched); [by apply latched_publish|intros []]. by apply latched_modify. }
  unfold _retire_with_summary.
  do 5 (apply (tracks_bind latched); [first [apply tracks_gets|apply tracks_lift]; typeclasses eauto|intros ?]).
  intros a'. exact (T _ (retirement_plain ev _ _ _ a') a').
Qed.

Lemma clock_latched ev : tracks latched (on_fill_clock ev).
Proof.
  unfold on_fill_clock.
  repeat first [apply grade_latched|apply retire_latched|apply tracks_ret; typeclasses eauto
               |apply tracks_lift; typeclasses eauto|apply tracks_gets; typeclasses eauto|case_match
               |apply (tracks_bind latched); [|intros ?]].
Qed.

Lemma process_latched h ev stream data : tracks latched (process h ev stream data).
Proof.
  unfold process. apply (tracks_bind latched).
  { apply latched_modify; intros a; apply register_quiet. }
  intros []. destruct (String.eqb stream STREAM_MARKET_EVENTS).
  - unfold on_market_event. apply (tracks_bind latched); [apply observe_latched|]. intros closed.
    apply (tracks_bind latched); [|intros []; apply maybe_latched].
    apply latched_modify; intros a; destruct closed; first [apply persist_quiet|done].
  - apply (tracks_bind latched); [|intros []; apply clock_latched].
    destruct (String.eqb stream STREAM_TRADE_PERFORMANCE); [|apply tracks_ret; typeclasses eauto].
    unfold count_fill. apply (tracks_bind latched); [apply tracks_lift; typeclasses eauto|]. intros x. by apply latched_modify.
Qed.

(** A message: its environment, its stream and its data. *)
Definition message : Type := AgentEnv * string * payload.

(** The messages of a run, each to its end or to its raise. *)
Definition run (h : payload -> string) (msgs : list message) (a : ChallengerAgent) : ChallengerAgent :=
  fold_left (fun a m => let '(ev, stream, data) := m in snd (process h ev stream data a)) msgs a.

Lemma run_latched h msgs : forall a, latched a (run h msgs a).
Proof.
  induction msgs as [|[[ev stream] data] msgs IH]; intros a; [reflexivity|].
  etransitivity; [exact (process_latched h ev stream data a)|exact (IH _)].
Qed.

Lemma start_published h inst now id config n w : published (start h inst now (init id config n w)) = wo_published w.
Proof.
  unfold start. rewrite (proj2 (register_quiet h now _)). unfold init. destruct (_build_shadow_engines config) as [own base].
  cbn [ca_running]. unfold _hydrate_shadow_state. destruct own as [own|]; [|reflexivity].
  cbn [started ca_shadow ca_world]. destruct (wo_durable w) as [d|]; [|reflexivity].
  destruct (ChallengerStore.load _ d); reflexivity.
Qed.


(** * Restarts *)

(** The engines of the agent have records that their profits determine, and its own engine
    runs the strategy of its configuration. *)
Definition record_ok (e : option Shadow.ShadowTradeEngine) : Prop :=
  match e with Some e => replayed (metrics_of e) | None => True end.

Definition engines_ok (config : payload) (a : ChallengerAgent) : Prop :=
  ca_config a = config /\ record_ok (ca_shadow a) /\ record_ok (ca_baseline_shadow a) /\
  (is_Some (ca_shadow a) <-> is_Some (fst (_build_shadow_engines config))) /\
  (is_Some (ca_baseline_shadow a) <-> is_Some (snd (_build_shadow_engines config))).

Definition keeps_engines (config : payload) (a a' : ChallengerAgent) : Prop := engines_ok config a -> engines_ok config a'.

#[local] Instance keeps_engines_preorder config : PreOrder (keeps_engines config).
Proof. split; [intros a; exact id|intros a b c Hab Hbc Ha; exact (Hbc (Hab Ha))]. Qed.

Lemma observe_replayed symbol price e : replayed (metrics_of e) ->
  replayed (metrics_of (snd (Shadow.observe symbol price e))).
Proof.
  intros He. unfold Shadow.observe. destruct (_ || _); [exact He|]. cbn [snd].
  set (e1 := Shadow.with_bar _ _ e). assert (replayed (metrics_of e1)) as H1' by exact He. clearbody e1.
  destruct (Shadow.she_strategy e1 _) as [action|x]; [|exact H1'].
  unfold Shadow._apply_action. destruct (Shadow.target_of _) as [d|]; [|exact H1'].
  destruct (bool_decide _); [exact H1'|]. cbn [snd]. by apply record_replayed.
Qed.

Lemma same_engines config a a' : ca_config a' = ca_config a -> ca_shadow a' = ca_shadow a ->
  ca_baseline_shadow a' = ca_baseline_shadow a -> keeps_engines config a a'.
Proof. unfold keeps_engines, engines_ok. by intros -> -> ->. Qed.

Lemma kept_modify config f : (forall a, ca_config (f a) = ca_config a) -> (forall a, ca_shadow (f a) = ca_shadow a) ->
  (forall a, ca_baseline_shadow (f a) = ca_baseline_shadow a) -> tracks (keeps_engines config) (modify f).
Proof. intros E1 E2 E3. apply tracks_modify. intros a. by apply same_engines. Qed.

Lemma persist_engines a : ca_config (_persist_shadow_state a) = ca_config a /\
  ca_shadow (_persist_shadow_state a) = ca_shadow a /\
  ca_baseline_shadow (_persist_shadow_state a) = ca_baseline_shadow a.
Proof. unfold _persist_shadow_state. by destruct (ca_shadow a) eqn:E, (wo_durable (ca_world a)). Qed.

Lemma register_engines h now a : ca_config (_ensure_lifecycle_registered h now a) = ca_config a /\
  ca_shadow (_ensure_lifecycle_registered h now a) = ca_shadow a /\
  ca_baseline_shadow (_ensure_lifecycle_registered h now a) = ca_baseline_shadow a.
Proof.
  unfold _ensure_lifecycle_registered. destruct (ca_lifecycle_registered a); [done|]. by destruct (String.eqb _ "").
Qed.

Lemma own_kept config sym x : tracks (keeps_engines config) (observe_own sym x).
Proof.
  intros a (E1 & E2 & E3 & E4 & E5). unfold observe_own. destruct (ca_shadow a) as [e|] eqn:Ea; [|by rewrite <- Ea in E2, E4].
  pose proof (observe_replayed sym x e E2) as R. destruct (Shadow.observe sym x e) as [r e'].
  split; [exact E1|]. split; [exact R|]. split; [exact E3|]. split; [|exact E5].
  cbn. rewrite <- E4. split; intros _; by eexists.
Qed.

Lemma baseline_kept config sym x : tracks (keeps_engines config) (observe_baseline sym x).
Proof.
  intros a (E1 & E2 & E3 & E4 & E5). unfold observe_baseline.
  destruct (ca_baseline_shadow a) as [e|] eqn:Ea; [|by rewrite <- Ea in E3, E5].
  pose proof (observe_replayed sym x e E3) as R. destruct (Shadow.observe sym x e) as [r e'].
  split; [exact E1|]. split; [exact E2|]. split; [exact R|]. split; [exact E4|].
  cbn. rewrite <- E5. split; intros _; by eexists.
Qed.

(** Every step of the agent keeps its engines, or observes a price with them. *)
Ltac kept :=
  repeat first
    [ apply own_kept | apply baseline_kept
    | apply tracks_ret; typeclasses eauto | apply tracks_raise; typeclasses eauto
    | apply tracks_lift; typeclasses eauto | apply tracks_gets; typeclasses eauto
    | apply kept_modify; intros ?; first [reflexivity | apply persist_engines | apply register_engines]
    | case_match
    | apply (tracks_bind (keeps_engines _)); [|intros ?] ].

Lemma process_kept config h ev stream data : tracks (keeps_engines config) (process h ev stream data).
Proof.
  unfold process, on_market_event, _observe_shadow, observe_tick, _maybe_propose_shadow_promotion, propose_promotion,
    count_fill, on_fill_clock, _grade, _retire_with_summary, bus_publish.
  kept.
Qed.

Lemma run_kept config h msgs : forall a, engines_ok config a -> engines_ok config (run h msgs a).
Proof.
  induction msgs as [|[[ev stream] data] msgs IH]; intros a Ha; [exact Ha|].
  exact (IH _ (process_kept config h ev stream data a Ha)).
Qed.

(** The engines of a fresh agent. *)
Lemma built_fresh config own base : _build_shadow_engines config = (own, base) ->
  record_ok own /\ record_ok base /\ (own = None -> base = None).
Proof.
  unfold _build_shadow_engines. destruct (String.eqb _ ""); [by intros [= <- <-]|].
  destruct (dget _ Strategies.STRATEGIES) as [st|]; [|by intros [= <- <-]].
  destruct (dget "baseline_momentum" Strategies.STRATEGIES) as [b|]; intros [= <- <-];
    (split; [exact no_trades_replayed|]); (split; [|discriminate]); [exact no_trades_replayed|exact I].
Qed.

Lemma hydrate_engines config own base id n w : _build_shadow_engines config = (own, base) ->
  forall inst, let a := started inst (init id config n w) in
  _hydrate_shadow_state a =
    match own, wo_durable w with
    | Some o, Some d =>
        match ChallengerStore.load (strategy_of config) d with
        | Some p => with_latch (pf_proposal_emitted p)
                      (with_engines (Some (restored (pf_pnls p) o)) (option_map (restored (pf_baseline_pnls p)) base) a)
        | None => a
        end
    | _, _ => a
    end /\ ca_shadow a = own /\ ca_baseline_shadow a = base /\ ca_config a = config /\ ca_proposal_emitted a = false.
Proof.
  intros Eb inst. unfold init. rewrite Eb. unfold _hydrate_shadow_state.
  cbn [started ca_shadow ca_world ca_config ca_baseline_shadow ca_proposal_emitted]. repeat split.
Qed.

Lemma started_fresh h inst now id config n w own base : _build_shadow_engines config = (own, base) ->
  start h inst now (init id config n w) =
  _ensure_lifecycle_registered h now (_hydrate_shadow_state (started inst (init id config n w))).
Proof. intros Eb. unfold start, init. rewrite Eb. reflexivity. Qed.

Lemma restored_replayed pnls e : replayed (metrics_of (restored pnls e)).
Proof. reflexivity. Qed.

Lemma start_engines h inst now id config n w : engines_ok config (start h inst now (init id config n w)).
Proof.
  destruct (_build_shadow_engines config) as [own base] eqn:Eb.
  rewrite (started_fresh h inst now id config n w own base Eb).
  destruct (register_engines h now (_hydrate_shadow_state (started inst (init id config n w)))) as (R1 & R2 & R3).
  unfold engines_ok. rewrite R1, R2, R3, Eb. clear R1 R2 R3. cbn [fst snd].
  destruct (hydrate_engines config own base id n w Eb inst) as (-> & A1 & A2 & A3 & _).
  set (a := started inst (init id config n w)) in *. clearbody a.
  destruct (built_fresh config own base Eb) as (B1 & B2 & _).
  destruct own as [o|]; [|rewrite A1, A2; by repeat split].
  destruct (wo_durable w) as [d|]; [|rewrite A1, A2; by repeat split].
  destruct (ChallengerStore.load (strategy_of config) d) as [p|]; [|rewrite A1, A2; by repeat split].
  cbn [with_latch with_engines ca_config ca_shadow ca_baseline_shadow]. split; [exact A3|].
  split; [apply restored_replayed|]. split; [destruct base; [apply restored_replayed|exact I]|].
  split; [split; intros _; by eexists|]. destruct base; cbn; [split; intros _; by eexists|].
  split; intros [x Hx]; discriminate Hx.
Qed.

Lemma slice_whole (l : list float) : zlen l <= CHALLENGER_PERF_PNL_CAP -> slice_last CHALLENGER_PERF_PNL_CAP l = l.
Proof.
  unfold slice_last, CHALLENGER_PERF_PNL_CAP, zlen. intros Hl. cbn [Z.eqb Z.ltb Z.compare].
  replace (length l - Z.to_nat 1000)%nat with 0%nat by lia. reflexivity.
Qed.

Lemma load_saved strategy own base b d : du_up d = true -> strategy <> "" ->
  zlen own <= CHALLENGER_PERF_PNL_CAP -> zlen base <= CHALLENGER_PERF_PNL_CAP ->
  exists p, ChallengerStore.load strategy (ChallengerStore.save_performance strategy own base b d) = Some p /\
    pf_pnls p = own /\ pf_baseline_pnls p = base /\ pf_proposal_emitted p = b.
Proof.
  intros Hu Hs Ho Hb. apply String.eqb_neq in Hs. unfold ChallengerStore.load, ChallengerStore.save_performance.
  rewrite Hs, Hu. cbn [negb orb ChallengerStore.put du_up du_records]. rewrite Hu, dget_dset_eq.
  eexists. split; [reflexivity|]. split; [exact (slice_whole own Ho)|]. split; [exact (slice_whole base Hb)|reflexivity].
Qed.

(** C26: The evidence of a challenger survives a restart. Whatever it handled, if
    it saved its record in a durable store that answers, a challenger of the same
    configuration started on that store has the same shadow metrics, its own and the
    baseline's, and the same latch, so that it neither loses trades nor proposes twice.
    It holds up to the cap of 1000 profits the store keeps. *)
Theorem restart_restores_evidence h inst now id config n w msgs d inst' now' id' n' w' :
  let a := run h msgs (start h inst now (init id config n w)) in
  wo_durable (ca_world a) = Some d -> du_up d = true -> strategy_of config <> "" ->
  zlen (pnls_of (ca_shadow a)) <= 1000 -> zlen (pnls_of (ca_baseline_shadow a)) <= 1000 ->
  wo_durable w' = wo_durable (ca_world (_persist_shadow_state a)) ->
  let b := start h inst' now' (init id' config n' w') in
  option_map metrics_of (ca_shadow b) = option_map metrics_of (ca_shadow a) /\
  option_map metrics_of (ca_baseline_shadow b) = option_map metrics_of (ca_baseline_shadow a) /\
  (is_Some (ca_shadow a) -> ca_proposal_emitted b = ca_proposal_emitted a).
Proof.
  intros a Ed Hu Hs Lo Lb Ew b.
  destruct (run_kept config h msgs _ (start_engines h inst now id config n w)) as (C & R1 & R2 & S1 & S2). fold a in C, R1, R2, S1, S2.
  destruct (_build_shadow_engines config) as [own base] eqn:Eb. cbn [fst snd] in S1, S2.
  unfold b. rewrite (started_fresh h inst' now' id' config n' w' own base Eb).
  destruct (register_engines h now' (_hydrate_shadow_state (started inst' (init id' config n' w')))) as (_ & Q2 & Q3).
  destruct (register_quiet h now' (_hydrate_shadow_state (started inst' (init id' config n' w')))) as (Q4 & _).
  rewrite Q2, Q3, Q4. clear Q2 Q3 Q4.
  destruct (hydrate_engines config own base id' n' w' Eb inst') as (Eh & A1 & A2 & _ & _). rewrite Eh. clear Eh.
  set (b0 := started inst' (init id' config n' w')) in *. clearbody b0.
  destruct (ca_shadow a) as [oa|] eqn:Ea.
  - destruct (proj1 S1 (ex_intro _ oa eq_refl)) as [o ->].
    assert (wo_durable w' = Some (ChallengerStore.save_performance (strategy_of config) (pnls_of (Some oa))
              (pnls_of (ca_baseline_shadow a)) (ca_proposal_emitted a) d)) as ->.
    { rewrite Ew. unfold _persist_shadow_state. rewrite Ea, Ed, C. reflexivity. }
    destruct (load_saved (strategy_of config) (pnls_of (Some oa)) (pnls_of (ca_baseline_shadow a)) (ca_proposal_emitted a) d
                Hu Hs Lo Lb) as (p & -> & P1 & P2 & P3).
    cbn [with_latch with_engines ca_shadow ca_baseline_shadow ca_proposal_emitted option_map].
    split; [rewrite P1; exact (f_equal Some R1)|]. split; [|intros _; exact P3].
    destruct base as [bs|].
    + destruct (proj2 S2 (ex_intro _ bs eq_refl)) as [ba Eba]. rewrite Eba in *. cbn [option_map]. rewrite P2. exact (f_equal Some R2).
    + destruct (ca_baseline_shadow a) as [ba|]; [|reflexivity]. destruct (proj1 S2 (ex_intro _ ba eq_refl)) as [x Hx]. discriminate Hx.
  - assert (own = None) as Eo.
    { destruct own as [o|]; [|reflexivity]. destruct (proj2 S1 (ex_intro _ o eq_refl)) as [x Hx]. discriminate Hx. }
    rewrite Eo in *. rewrite A1, A2. destruct (built_fresh config None base Eb) as (_ & _ & Hn). rewrite (Hn eq_refl) in *.
    split; [reflexivity|]. split; [|intros [x Hx]; discriminate Hx].
    destruct (ca_baseline_shadow a) as [ba|]; [|reflexivity]. destruct (proj1 S2 (ex_intro _ ba eq_refl)) as [x Hx]. discriminate Hx.
Qed.

(** * The spawner *)

Lemma hydrate_plain a : ca_config (_hydrate_shadow_state a) = ca_config a /\
  ca_running (_hydrate_shadow_state a) = ca_running a.
Proof.
  unfold _hydrate_shadow_state. destruct (ca_shadow a), (wo_durable (ca_world a)) as [d|]; try by split.
  by destruct (ChallengerStore.load _ d).
Qed.

Lemma register_running h now a : ca_running (_ensure_lifecycle_registered h now a) = ca_running a.
Proof.
  unfold _ensure_lifecycle_registered. destruct (ca_lifecycle_registered a); [done|]. by destruct (String.eqb _ "").
Qed.

Lemma recruit_ok h id inst config mf clock w :
  ca_config (recruit h id inst config mf clock w) = config /\ ca_running (recruit h id inst config mf clock w) = true.
Proof.
  unfold recruit. set (n := match mf with Some _ => _ | None => _ end). clearbody n.
  destruct (_build_shadow_engines config) as [own base] eqn:Eb. rewrite (started_fresh _ _ _ _ _ _ _ own base Eb).
  rewrite (proj1 (register_engines h clock _)), register_running.
  rewrite (proj1 (hydrate_plain _)), (proj2 (hydrate_plain _)). unfold init. rewrite Eb. split; reflexivity.
Qed.

Definition strategies_running (agents : list ChallengerAgent) : list string :=
  List.filter (fun s => negb (String.eqb s "")) (map (fun a => strategy_of (ca_config a)) (_running_challengers agents)).

Record fleet_ok (agents : list ChallengerAgent) : Prop := {
  fo_cap : zlen (_running_challengers agents) <= MAX_CONCURRENT_CHALLENGERS;
  fo_distinct : NoDup (strategies_running agents);
}.

Lemma running_snoc agents a : ca_running a = true ->
  _running_challengers (agents ++ [a]) = _running_challengers agents ++ [a].
Proof. intros Ha. unfold _running_challengers. rewrite List.filter_app. cbn [List.filter]. by rewrite Ha. Qed.

Lemma guard_open config now agents : guard config now agents = None ->
  zlen (_running_challengers agents) < MAX_CONCURRENT_CHALLENGERS /\
  (strategy_of config <> "" -> ~ In (strategy_of config) (strategies_running agents)).
Proof.
  unfold guard. destruct (String.eqb_spec (strategy_of config) "") as [E|E].
  - destruct (_ <=? _) eqn:Ec; [discriminate|]. apply Z.leb_gt in Ec. intros _. split; [exact Ec|done].
  - destruct (List.find _ _) as [x|] eqn:Ef; [discriminate|]. destruct (_ <=? _) eqn:Ec; [discriminate|].
    apply Z.leb_gt in Ec. intros _. split; [exact Ec|]. intros _ Hin.
    apply filter_In in Hin as [Hin _]. apply in_map_iff in Hin as (a & Ea & Ha).
    pose proof (List.find_none _ _ Ef a Ha) as Hn. cbn in Hn. rewrite Ea, String.eqb_refl in Hn. discriminate Hn.
Qed.

Lemma spawn_fleet_ok h id inst config mf now clock w agents : fleet_ok agents ->
  fleet_ok (snd (spawn h id inst config mf now clock w agents)).
Proof.
  intros [Hc Hd]. unfold spawn. destruct (guard config now agents) as [d|] eqn:Eg; [by split|]. cbn [snd].
  destruct (guard_open _ _ _ Eg) as [Gc Gd]. destruct (recruit_ok h id inst config mf clock w) as [Rc Rr].
  set (a := recruit h id inst config mf clock w) in *. clearbody a. split.
  - rewrite (running_snoc agents a Rr), zlen_app. change (zlen [a]) with 1. lia.
  - unfold strategies_running. rewrite (running_snoc agents a Rr), map_app, List.filter_app. cbn [map List.filter].
    rewrite Rc. destruct (String.eqb_spec (strategy_of config) "") as [E|E]; cbn [negb];
      [by rewrite app_nil_r|]. apply NoDup_app. split; [exact Hd|]. split.
    + intros s Hs ->%list_elem_of_singleton. apply list_elem_of_In in Hs. exact (Gd E Hs).
    + apply NoDup_singleton.
Qed.

(** A challenger of the fleet retires. *)
Lemma retired_running k : forall agents, sublist (_running_challengers (alter stopped k agents)) (_running_challengers agents).
Proof.
  induction k as [|k IH]; intros [|a agents]; try reflexivity.
  - cbn. destruct (ca_running a); [by apply sublist_cons|reflexivity].
  - change (alter stopped (S k) (a :: agents)) with (a :: alter stopped k agents).
    unfold _running_challengers. cbn [List.filter]. destruct (ca_running a); [by apply sublist_skip|]; apply IH.
Qed.

Lemma sublist_filtered (f : ChallengerAgent -> string) (p : string -> bool) l l' : sublist l l' ->
  sublist (List.filter p (map f l)) (List.filter p (map f l')).
Proof.
  induction 1 as [|x l l' _ IH|x l l' _ IH]; [constructor|..]; cbn [map List.filter]; destruct (p (f x));
    try exact IH; [by apply sublist_skip|by apply sublist_cons].
Qed.

Lemma retire_fleet_ok k agents : fleet_ok agents -> fleet_ok (alter stopped k agents).
Proof.
  intros [Hc Hd]. pose proof (retired_running k agents) as Hs. split.
  - pose proof (sublist_length _ _ Hs). unfold zlen in *. lia.
  - unfold strategies_running in *. eapply sublist_NoDup; [exact Hd|]. by apply sublist_filtered.
Qed.

(** What happens to the fleet when no two requests overlap. *)
Inductive fleet_step (h : payload -> string) : list ChallengerAgent -> list ChallengerAgent -> Prop :=
  | Spawned id inst config mf now clock w agents :
      fleet_step h agents (snd (spawn h id inst config mf now clock w agents))
  | Retired k agents : fleet_step h agents (alter stopped k agents).

(** With one request at a time, whoever retires in between, the spawner holds its
    guardrails: at most three challengers run, no two of them on the same strategy. *)
Theorem spawner_guardrails h agents : rtc (fleet_step h) [] agents ->
  zlen (_running_challengers agents) <= MAX_CONCURRENT_CHALLENGERS /\ NoDup (strategies_running agents).
Proof.
  intros Hr. assert (fleet_ok agents) as [Hc Hd]; [|by split]. revert Hr.
  apply (rtc_ind_r (fun l => fleet_ok l)).
  - split; [discriminate|constructor].
  - intros x y _ Hs Hx. destruct Hs; [by apply spawn_fleet_ok|by apply retire_fleet_ok].
Qed.

(** The guardrails do not hold when requests overlap: the guards read the fleet before the
    start of the new challenger, which suspends, and the fleet grows after it. Four requests
    for one configuration that overlap leave four challengers running, all of it. *)
Theorem overlapping_spawns_break_guardrails h config (w : World) : exists f,
  rtc (spawn_step h) {| fl_agents := []; fl_starting := [] |} f /\
  zlen (_running_challengers (fl_agents f)) = 4 /\ MAX_CONCURRENT_CHALLENGERS < 4 /\
  Forall (fun a => ca_config a = config) (_running_challengers (fl_agents f)).
Proof.
  destruct (recruit_ok h "a" "a" config None 0.0%F w) as [Rc Rr]. set (a := recruit h "a" "a" config None 0.0%F w) in *.
  assert (forall l, rtc (spawn_step h) {| fl_agents := []; fl_starting := l |} {| fl_agents := []; fl_starting := l ++ [a] |}) as Q.
  { intros l. apply rtc_once. refine (Requested h "a" "a" config None "" 0.0%F w {| fl_agents := []; fl_starting := l |} _).
    unfold guard. cbn. by destruct (String.eqb _ ""). }
  assert (forall l k, rtc (spawn_step h) {| fl_agents := l; fl_starting := a :: k |} {| fl_agents := l ++ [a]; fl_starting := k |}) as J.
  { intros l k. apply rtc_once. exact (Joined h a [] k {| fl_agents := l; fl_starting := a :: k |} eq_refl). }
  clearbody a. exists {| fl_agents := [a; a; a; a]; fl_starting := [] |}. split.
  - etransitivity; [exact (Q [])|]. etransitivity; [exact (Q [a])|]. etransitivity; [exact (Q [a; a])|].
    etransitivity; [exact (Q [a; a; a])|]. cbn [app]. etransitivity; [exact (J [] [a; a; a])|].
    etransitivity; [exact (J [a] [a; a])|]. etransitivity; [exact (J [a; a] [a])|]. exact (J [a; a; a] []).
  - cbn [fl_agents]. unfold _running_challengers. cbn [List.filter]. rewrite Rr. split; [reflexivity|].
    split; [reflexivity|]. by repeat constructor.
Qed.

(** * The grading clock *)

(** A graded window: the fills are at a multiple of the cadence, below the maximum. *)
Record due_again (n : Z) (a : ChallengerAgent) : Prop := {
  dg_registered : ca_lifecycle_registered a = true;
  dg_fills : 0 < ca_fills a < ca_max_fills a;
  dg_every : grade_every a = Ok n;
  dg_multiple : ca_fills a mod n = 0;
  dg_buffer : ca_pnl_buffer a <> [];
  dg_summary : is_ok (_shadow_summary a) = true;
}.

Lemma recent_nonempty (l : list float) : l <> [] -> slice_last 20 l <> [].
Proof.
  intros Hl E. unfold slice_last in E. cbn [Z.eqb Z.ltb Z.compare] in E.
  apply (f_equal length) in E. rewrite length_drop in E. cbn in E. destruct l; [done|]. cbn [length] in E. lia.
Qed.

Lemma wins_total l : exists w, wins_over l = Ok w.
Proof.
  unfold wins_over. destruct l as [|x l]; [by eexists|].
  destruct (int_div_unit (zlen (List.filter (fltb 0.0%F) (x :: l))) (zlen (x :: l))) as (w & E & _).
  - pose proof (List.filter_length_le (fltb 0.0%F) (x :: l)). unfold zlen in *. lia.
  - unfold zlen. cbn. lia.
  - by exists w.
Qed.

(** The agent after a grade. *)
Definition graded (ev : AgentEnv) (w : float) (summary : payload) (a : ChallengerAgent) : ChallengerAgent :=
  let g := grade_result ev w (mean_of (slice_last 20 (ca_pnl_buffer a))) summary a in
  let a1 := with_grades (ca_grade_history a ++ [g]) a in
  in_world (fun x => with_published (wo_published x ++ [(STREAM_AGENT_GRADES, grade_message ev w g a1)]) x) a1.

Lemma grade_spec ev w summary a : (forall s p, ae_bus ev s p = Ok tt) -> ca_pnl_buffer a <> [] ->
  wins_over (slice_last 20 (ca_pnl_buffer a)) = Ok w -> _shadow_summary a = Ok summary ->
  _grade ev a = (Ok tt, graded ev w summary a).
Proof.
  intros Hbus Hb Ew Es. unfold graded. unfold _grade, bind at 1, gets at 1.
  destruct (slice_last 20 (ca_pnl_buffer a)) as [|x l] eqn:El; [by apply recent_nonempty in El|].
  unfold bind, lift, gets. rewrite Ew, Es. cbn [modify bus_publish]. unfold bus_publish, bind, lift, modify. by rewrite Hbus.
Qed.

Lemma clock_spec ev n w summary a : (forall s p, ae_bus ev s p = Ok tt) -> due_again n a ->
  wins_over (slice_last 20 (ca_pnl_buffer a)) = Ok w -> _shadow_summary a = Ok summary ->
  on_fill_clock ev a = (Ok tt, graded ev w summary a).
Proof.
  intros Hbus [D1 D2 D3 D4 D5 D6] Ew Es. unfold on_fill_clock, bind at 1, gets at 1.
  assert ((0 <? ca_fills a) = true) as -> by (apply Z.ltb_lt; lia).
  unfold bind at 1. unfold bind at 1, gets at 1. unfold bind at 1, lift at 1. rewrite D3. unfold ret at 1.
  rewrite D4. cbn [Z.eqb]. unfold bind at 1. rewrite (grade_spec ev w summary a Hbus D5 Ew Es).
  unfold bind, gets. assert ((ca_max_fills (graded ev w summary a) <=? ca_fills (graded ev w summary a)) = false) as ->
    by (apply Z.leb_gt; exact (proj2 D2)). reflexivity.
Qed.

Lemma execution_grades h ev data n a : (forall s p, ae_bus ev s p = Ok tt) -> due_again n a ->
  exists g, let a' := snd (process h ev STREAM_EXECUTIONS data a) in
    due_again n a' /\ ca_grade_history a' = ca_grade_history a ++ [g] /\ ca_fills a' = ca_fills a.
Proof.
  intros Hbus Hd. pose proof Hd as [D1 D2 D3 D4 D5 D6]. destruct (_shadow_summary a) as [s|e] eqn:Es; [|discriminate D6].
  destruct (wins_total (slice_last 20 (ca_pnl_buffer a))) as [w Ew].
  exists (grade_result ev w (mean_of (slice_last 20 (ca_pnl_buffer a))) s a).
  assert (process h ev STREAM_EXECUTIONS data a = on_fill_clock ev a) as ->.
  { unfold process, bind at 1, modify at 1. unfold _ensure_lifecycle_registered. rewrite D1. reflexivity. }
  rewrite (clock_spec ev n w s a Hbus Hd Ew Es). cbn [snd]. split; [|split; reflexivity].
  split; [exact D1|exact D2|exact D3|exact D4|exact D5|].
  change (is_ok (_shadow_summary a) = true). by rewrite Es.
Qed.

(** A window is graded again for every execution that comes before the next fill is
    counted: executions clock the grading too, so [k] of them append and publish [k] more
    grades of the same fills. *)
Theorem executions_grade_again h ev data n a k : (forall s p, ae_bus ev s p = Ok tt) -> due_again n a ->
  let a' := run h (List.repeat (ev, STREAM_EXECUTIONS, data) k) a in
  length (ca_grade_history a') = (length (ca_grade_history a) + k)%nat /\ ca_fills a' = ca_fills a.
Proof.
  intros Hbus. revert a. induction k as [|k IH]; intros a Hd; [split; [cbn; lia|reflexivity]|].
  destruct (execution_grades h ev data n a Hbus Hd) as (g & Hd' & Eg & Ef).
  change (run h (List.repeat (ev, STREAM_EXECUTIONS, data) (S k)) a) with
    (run h (List.repeat (ev, STREAM_EXECUTIONS, data) k) (snd (process h ev STREAM_EXECUTIONS data a))).
  destruct (IH _ Hd') as [L F]. cbv zeta. rewrite L, F, Eg, Ef, length_app. split; [cbn; lia|reflexivity].
Qed.

End Evidence.

(** * Examples *)

Section ContenderWitness.
#[local] Existing Instance pow_exact.
#[local] Existing Instance constant_half.

#[local] Instance gauss_mean : PyGauss := {| grng := unit; grng_seed := fun _ => tt; grng_gauss := fun mu _ g => (mu, g) |}.

Definition trend_config : payload := [("strategy", VStr "confirmed_trend")].
Definition no_hash : payload -> string := fun _ => "".

Definition open_bus : AgentEnv :=
  {| ae_json := fun _ => Raise ValueError; ae_bus := fun _ _ => Ok tt; ae_now := ""; ae_clock := 0.0%F;
     ae_trace_id := "t"; ae_msg_id := "m" |}.

Definition some_durable : Durable :=
  {| du_up := true;
     du_records := [("confirmed_trend", {| pf_pnls := [1.5; -0.5]%F; pf_baseline_pnls := [0.25%F];
                                           pf_proposal_emitted := false; pf_graduated := false |})] |}.

Definition world_with (d : option Durable) : World :=
  {| wo_registry := Versions.init; wo_durable := d; wo_store := Store.init; wo_published := [] |}.

Definition tick_at (price : float) : message :=
  (open_bus, STREAM_MARKET_EVENTS, [("symbol", VStr "BTC/USD"); ("price", VFloat price)]).

Definition ticks : list message := [tick_at 100.0%F; tick_at 101.0%F].

#[local] Notation ticked :=
  (run no_hash ticks (start no_hash "i" 0.0%F (init "c" trend_config 20 (world_with (Some some_durable))))).

#[local] Notation reopened := (world_with (wo_durable (ca_world (_persist_shadow_state ticked)))).

Lemma world_store d : wo_durable (world_with d) = d.
Proof. reflexivity. Qed.

Lemma reopened_store : wo_durable reopened = wo_durable (ca_world (_persist_shadow_state ticked)).
Proof. exact (world_store _). Qed.

Lemma ticked_store : wo_durable (ca_world ticked) = Some some_durable.
Proof. vm_compute. reflexivity. Qed.

Lemma ticked_sizes : zlen (pnls_of (ca_shadow ticked)) = 2 /\ zlen (pnls_of (ca_baseline_shadow ticked)) = 1.
Proof. vm_compute. split; reflexivity. Qed.

Lemma restart_restores_evidence_witness :
  zlen (pnls_of (ca_shadow ticked)) = 2 /\
  option_map metrics_of (ca_shadow (start no_hash "j" 0.0%F (init "e" trend_config 20 reopened))) =
  option_map metrics_of (ca_shadow ticked).
Proof.
  destruct ticked_sizes as [S1 S2]. split; [exact S1|].
  assert (zlen (pnls_of (ca_shadow ticked)) <= 1000) as L1 by (rewrite S1; lia).
  assert (zlen (pnls_of (ca_baseline_shadow ticked)) <= 1000) as L2 by (rewrite S2; lia).
  assert (strategy_of trend_config <> "") as Hs by (vm_compute; discriminate).
  pose proof ticked_store as T. pose proof reopened_store as O.
  exact (proj1 (restart_restores_evidence (H := pow_exact) (H0 := constant_half) (H1 := gauss_mean) no_hash "i" 0.0%F "c" trend_config 20 (world_with (Some some_durable))
           ticks some_durable "j" 0.0%F "e" 20 reopened T eq_refl Hs L1 L2 O)).
Defined.

Definition one_challenger : list ChallengerAgent :=
  snd (spawn no_hash "c" "i" trend_config None "" 0.0%F (world_with None) []).

Lemma spawner_guardrails_witness : zlen (_running_challengers one_challenger) = 1 /\
  NoDup (strategies_running one_challenger).
Proof.
  split; [vm_compute; reflexivity|].
  exact (proj2 (spawner_guardrails no_hash one_challenger
    (rtc_once _ _ (Spawned no_hash "c" "i" trend_config None "" 0.0%F (world_with None) [])))).
Defined.

(** Two fills of a challenger that grades every second fill. *)
Definition two_fills : ChallengerAgent :=
  run no_hash [(open_bus, STREAM_TRADE_PERFORMANCE, [("pnl", VFloat 1.0%F)]);
               (open_bus, STREAM_TRADE_PERFORMANCE, [("pnl", VFloat 2.0%F)])]
    (start no_hash "i" 0.0%F (init "c" [("grade_every", VInt 2)] 20 (world_with None))).

Lemma executions_grade_again_witness :
  length (ca_grade_history two_fills) = 1%nat /\
  length (ca_grade_history (run no_hash (List.repeat (open_bus, STREAM_EXECUTIONS, []) 2) two_fills)) = 3%nat.
Proof.
  assert (length (ca_grade_history two_fills) = 1%nat) as L by (vm_compute; reflexivity). split; [exact L|].
  assert (due_again 2 two_fills) as D.
  { split; [vm_compute; reflexivity|split; vm_compute; reflexivity|vm_compute; reflexivity|vm_compute; reflexivity
           |vm_compute; discriminate|vm_compute; reflexivity]. }
  rewrite (proj1 (executions_grade_again no_hash open_bus [] 2 two_fills 2 (fun _ _ => eq_refl) D)), L. reflexivity.
Defined.

(** A record that clears the bar: forty winning trades against an idle baseline. *)
Definition winning_durable : Durable :=
  {| du_up := true;
     du_records := [("confirmed_trend", {| pf_pnls := concat (List.repeat [1.0; 2.0]%F 20); pf_baseline_pnls := [];
                                           pf_proposal_emitted := false; pf_graduated := false |})] |}.

Example winning_record_clears_the_bar :
  res_bind (_shadow_summary (start no_hash "i" 0.0%F (init "c" trend_config 20 (world_with (Some winning_durable)))))
    _promotion_blockers = Ok [].
Proof. vm_compute. reflexivity. Qed.

End ContenderWitness.
