(* ===== verification/Tools.v ===== *)
(** Tools: the registry of the tools a reasoning node may see, their telemetry, what is
    persisted of it and the advice to drop a tool (api/services/tool_registry.py).

    A tool is an object the registry holds under its name; a change of the object is a change
    of the entry.  Lists are sorted by a stable insertion sort; on keys that are numbers every
    stable sort gives its result. *)
From S2P Require Import Prelude StateErr PyFloat FloatFacts PyVal PyMath PyPow Config Params Policy Gitops Store Execution Lifecycle Scorer.

Inductive ToolPhase := PERCEPTION | MEMORY | RISK | EXECUTION | OPTIMIZATION.

#[global] Instance tool_phase_eq_dec : EqDecision ToolPhase.
Proof. solve_decision. Defined.

Definition TOOL_STREAM_CONFLUENCE : string := "get_stream_confluence_metrics".
Definition TOOL_MACRO_REGIME : string := "fetch_macro_regime".
Definition TOOL_SECTOR_CORRELATION : string := "scan_sector_correlation".
Definition TOOL_QUERY_SIMILAR_TRADES : string := "query_similar_trades".
Definition TOOL_GET_IC_WEIGHTS : string := "get_ic_weights".
Definition TOOL_RISK_CAGE : string := "evaluate_risk_cage".
Definition TOOL_VWAP_EXECUTION : string := "calculate_vwap_execution".
Definition TOOL_BRACKET_ORDER : string := "execute_bracket_order".
Definition TOOL_REPLAY_REGRESSION : string := "replay_regression_check".
Definition TOOL_ORDER_BOOK_DEPTH : string := "get_order_book_depth".
Definition TOOL_NEWS_SENTIMENT : string := "get_news_sentiment".
Definition TOOL_CORRELATION_CHECK : string := "check_cross_asset_correlation".
Definition TOOL_FLAG_CONFLUENCE_LOADED : string := "confluence_loaded".
Definition TOOL_FLAG_RISK_APPROVED : string := "risk_approved".
Definition TOOL_FLAG_THESIS_COMMITTED : string := "thesis_committed".

Definition _EMA_ALPHA : float := 0.2%F.

Record ToolMetadata := {
  tm_name : string;
  tm_phase : ToolPhase;
  tm_description : string;
  tm_enabled : bool;
  tm_alpha_score : float;
  tm_latency_ms : float;
  tm_failure_rate : float;
  tm_call_count : Z;
  tm_success_count : Z;
  tm_required_state_flags : list string;
  tm_unlocks : list string;
  tm_cache_ttl : option Z;
}.

Record ToolSuggestion := {
  ts_tool : string;
  ts_action : string;
  ts_severity : string;
  ts_reason : string;
}.

(** The learned fields of a tool, the rest of it being the catalog's. *)
Definition with_telemetry (enabled : bool) (alpha latency failure : float) (calls successes : Z) (t : ToolMetadata)
  : ToolMetadata :=
  {| tm_name := tm_name t; tm_phase := tm_phase t; tm_description := tm_description t; tm_enabled := enabled;
     tm_alpha_score := alpha; tm_latency_ms := latency; tm_failure_rate := failure; tm_call_count := calls;
     tm_success_count := successes; tm_required_state_flags := tm_required_state_flags t;
     tm_unlocks := tm_unlocks t; tm_cache_ttl := tm_cache_ttl t |}.

Definition with_enabled (b : bool) (t : ToolMetadata) : ToolMetadata :=
  with_telemetry b (tm_alpha_score t) (tm_latency_ms t) (tm_failure_rate t) (tm_call_count t) (tm_success_count t) t.
Definition with_calls (n : Z) (t : ToolMetadata) : ToolMetadata :=
  with_telemetry (tm_enabled t) (tm_alpha_score t) (tm_latency_ms t) (tm_failure_rate t) n (tm_success_count t) t.
Definition with_successes (n : Z) (t : ToolMetadata) : ToolMetadata :=
  with_telemetry (tm_enabled t) (tm_alpha_score t) (tm_latency_ms t) (tm_failure_rate t) (tm_call_count t) n t.
Definition with_alpha (x : float) (t : ToolMetadata) : ToolMetadata :=
  with_telemetry (tm_enabled t) x (tm_latency_ms t) (tm_failure_rate t) (tm_call_count t) (tm_success_count t) t.
Definition with_latency (x : float) (t : ToolMetadata) : ToolMetadata :=
  with_telemetry (tm_enabled t) (tm_alpha_score t) x (tm_failure_rate t) (tm_call_count t) (tm_success_count t) t.
Definition with_failure (x : float) (t : ToolMetadata) : ToolMetadata :=
  with_telemetry (tm_enabled t) (tm_alpha_score t) (tm_latency_ms t) x (tm_call_count t) (tm_success_count t) t.

Definition _ema (prev sample : float) (count : Z) : float :=
  if count <=? 0 then sample else ((1 - _EMA_ALPHA) * prev + _EMA_ALPHA * sample)%F.

(** Stable ascending sort: an element precedes those that are not less than it. *)
Fixpoint insert_asc {A} (lt : A -> A -> bool) (x : A) (l : list A) : list A :=
  match l with
  | [] => [x]
  | y :: rest => if lt y x then y :: insert_asc lt x rest else x :: l
  end.

Definition sort_asc {A} (lt : A -> A -> bool) (l : list A) : list A := fold_right (insert_asc lt) [] l.

(** [a < b] on tuples: the first components that differ decide. *)
Definition by_key (a b : float) (next : bool) : bool := if feqb a b then next else fltb a b.

Definition ranked_before (a b : ToolMetadata) : bool :=
  by_key (- tm_alpha_score a)%F (- tm_alpha_score b)%F (String.ltb (tm_name a) (tm_name b)).
Definition selected_before (a b : ToolMetadata) : bool :=
  by_key (- tm_alpha_score a)%F (- tm_alpha_score b)%F
    (by_key (tm_latency_ms a) (tm_latency_ms b) (String.ltb (tm_name a) (tm_name b))).

Definition ToolRegistry : Type := dict ToolMetadata.

Module Tools.

Definition register (meta : ToolMetadata) (r : ToolRegistry) : ToolRegistry := dset (tm_name meta) meta r.

Definition register_many (metas : list ToolMetadata) (r : ToolRegistry) : ToolRegistry :=
  fold_left (fun r m => register m r) metas r.

Definition get (name : string) (r : ToolRegistry) : option ToolMetadata := dget name r.

Definition set_enabled (name : string) (enabled : bool) (r : ToolRegistry) : bool * ToolRegistry :=
  match dget name r with
  | None => (false, r)
  | Some t => if eqb (tm_enabled t) enabled then (false, r) else (true, dset name (with_enabled enabled t) r)
  end.

Definition all_tools (r : ToolRegistry) : list ToolMetadata := dvalues r.

(** ** Selection *)

Definition eligible (phase : ToolPhase) (flags : list string) (max_latency_ms min_alpha : option float)
    (include_disabled : bool) (t : ToolMetadata) : bool :=
  bool_decide (tm_phase t = phase) && (include_disabled || tm_enabled t) &&
  forallb (fun f => one_of f flags) (tm_required_state_flags t) &&
  match max_latency_ms with None => true | Some m => fleb (tm_latency_ms t) m end &&
  match min_alpha with None => true | Some m => fleb m (tm_alpha_score t) end.

Definition select_tools (phase : ToolPhase) (available_state_flags : list string)
    (max_latency_ms min_alpha : option float) (include_disabled : bool) (r : ToolRegistry) : list ToolMetadata :=
  sort_asc selected_before
    (List.filter (eligible phase available_state_flags max_latency_ms min_alpha include_disabled) (all_tools r)).

Definition capability_graph (r : ToolRegistry) : dict (list string) :=
  fold_left (fun d t => match tm_unlocks t with [] => d | l => dset (tm_name t) l d end) (all_tools r) [].

(** ** Telemetry *)

Definition call_folded (latency_ms : float) (success : bool) (realized_pnl : option float) (t : ToolMetadata)
  : ToolMetadata :=
  let count := tm_call_count t in
  with_telemetry (tm_enabled t)
    (match realized_pnl with Some x => _ema (tm_alpha_score t) x count | None => tm_alpha_score t end)
    (_ema (tm_latency_ms t) latency_ms count)
    (_ema (tm_failure_rate t) (if success then 0.0%F else 1.0%F) count)
    (count + 1) (tm_success_count t + Z.b2z success) t.

Definition record_call (name : string) (latency_ms : float) (success : bool) (realized_pnl : option float)
    (r : ToolRegistry) : option ToolMetadata * ToolRegistry :=
  match dget name r with
  | None => (None, r)
  | Some t => let t' := call_folded latency_ms success realized_pnl t in (Some t', dset name t' r)
  end.

(** ** Persistence *)

Definition telemetry (t : ToolMetadata) : payload :=
  [("call_count", VInt (tm_call_count t)); ("success_count", VInt (tm_success_count t));
   ("alpha_score", VFloat (tm_alpha_score t)); ("latency_ms", VFloat (tm_latency_ms t));
   ("failure_rate", VFloat (tm_failure_rate t)); ("enabled", VBool (tm_enabled t))].

Definition snapshot (r : ToolRegistry) : payload := map (fun e => (fst e, VDict (telemetry (snd e)))) r.

(** The assignments of one tool's [try]: those before a raise stay. *)
Definition restore_tool (saved : payload) : M ToolMetadata unit :=
  let! t := gets id in
  let! calls := lift (py_int (dget_or "call_count" (VInt (tm_call_count t)) saved)) in
  do! modify (with_calls calls) in
  let! successes := lift (py_int (dget_or "success_count" (VInt (tm_success_count t)) saved)) in
  do! modify (with_successes successes) in
  let! alpha := lift (py_float (dget_or "alpha_score" (VFloat (tm_alpha_score t)) saved)) in
  do! modify (with_alpha alpha) in
  let! latency := lift (py_float (dget_or "latency_ms" (VFloat (tm_latency_ms t)) saved)) in
  do! modify (with_latency latency) in
  let! failure := lift (py_float (dget_or "failure_rate" (VFloat (tm_failure_rate t)) saved)) in
  do! modify (with_failure failure) in
  match dget "enabled" saved with
  | Some v => modify (with_enabled (truthy v))
  | None => ret tt
  end.

(** The number of tools restored; a [TypeError] or [ValueError] skips the rest of a tool. *)
Fixpoint restore (data : payload) (r : ToolRegistry) : res Z * ToolRegistry :=
  match r with
  | [] => (Ok 0, [])
  | (name, t) :: rest =>
      let next (n : Z) (t' : ToolMetadata) :=
        let '(m, rest') := restore data rest in
        (res_map (Z.add n) m, (name, t') :: rest') in
      match dget name data with
      | Some (VDict saved) =>
          match restore_tool saved t with
          | (Ok _, t') => next 1 t'
          | (Raise TypeError, t') | (Raise ValueError, t') => next 0 t'
          | (Raise e, t') => (Raise e, (name, t') :: rest)
          end
      | _ => next 0 t
      end
  end.

(** ** Governance *)

Definition dead (min_calls : Z) (max_failure_rate min_alpha : float) (t : ToolMetadata) : bool :=
  negb (negb (tm_enabled t) || (tm_call_count t <? min_calls)) &&
  (fltb max_failure_rate (tm_failure_rate t) || fltb (tm_alpha_score t) min_alpha).

Definition disable_dead_tools (min_calls : Z) (max_failure_rate min_alpha : float) (r : ToolRegistry)
  : list string * ToolRegistry :=
  let hit := dead min_calls max_failure_rate min_alpha in
  (map tm_name (List.filter hit (all_tools r)),
   map (fun e => (fst e, if hit (snd e) then with_enabled false (snd e) else snd e)) r).

Definition attribution (r : ToolRegistry) : list ToolMetadata := sort_asc ranked_before (all_tools r).

Definition suggestion (tool action severity reason : string) : ToolSuggestion :=
  {| ts_tool := tool; ts_action := action; ts_severity := severity; ts_reason := reason |}.

(** The advice about one tool, the first that applies. *)
Definition advice (min_calls : Z) (max_failure_rate : float) (total_calls : Z) (t : ToolMetadata)
  : list ToolSuggestion :=
  if negb (tm_enabled t) then []
  else if fltb (tm_alpha_score t) 0.0%F then
    [suggestion (tm_name t) "disable" "warning"
       ("negative alpha (" +:+ Fmt.fixed_plus 2 (tm_alpha_score t) +:+ ") — drop from the prompt")]
  else if (min_calls <=? tm_call_count t) && fltb max_failure_rate (tm_failure_rate t) then
    [suggestion (tm_name t) "disable" "warning"
       ("failure rate " +:+ percent 0 (tm_failure_rate t) +:+ " over " +:+ pretty (tm_call_count t) +:+ " calls")]
  else if (0 <? total_calls) && (tm_call_count t =? 0) then
    [suggestion (tm_name t) "review" "info" "registered but never exercised by the reasoning node"]
  else [].

(** [max(..., key=alpha)]: the first of the greatest. *)
Definition greater_alpha (best : option ToolMetadata) (t : ToolMetadata) : option ToolMetadata :=
  match best with
  | None => Some t
  | Some b => if fltb (tm_alpha_score b) (tm_alpha_score t) then Some t else best
  end.

Definition top_tool (r : ToolRegistry) : option ToolMetadata :=
  fold_left greater_alpha (List.filter (fun t => tm_enabled t && fltb 0.0%F (tm_alpha_score t)) (all_tools r)) None.

Definition suggest_tool_changes (min_calls : Z) (max_failure_rate : float) (r : ToolRegistry)
  : list ToolSuggestion :=
  let total_calls := foldr Z.add 0 (map tm_call_count (all_tools r)) in
  flat_map (advice min_calls max_failure_rate total_calls) (attribution r) ++
  match top_tool r with
  | Some t => [suggestion (tm_name t) "prioritize" "info"
                 ("highest alpha (" +:+ Fmt.fixed_plus 2 (tm_alpha_score t) +:+ ") — keep at the top of the prompt")]
  | None => []
  end.

(** ** The seed catalog *)

Definition tool (name : string) (phase : ToolPhase) (description : string) (alpha latency : float)
    (flags unlocks : list string) (ttl : option Z) : ToolMetadata :=
  {| tm_name := name; tm_phase := phase; tm_description := description; tm_enabled := true; tm_alpha_score := alpha;
     tm_latency_ms := latency; tm_failure_rate := 0.0%F; tm_call_count := 0; tm_success_count := 0;
     tm_required_state_flags := flags; tm_unlocks := unlocks; tm_cache_ttl := ttl |}.

Definition default_tools : list ToolMetadata :=
  [tool TOOL_STREAM_CONFLUENCE PERCEPTION "Cross-stream signal confluence for the symbol." 0.6%F 42.0%F []
     [TOOL_SECTOR_CORRELATION; TOOL_VWAP_EXECUTION] None;
   tool TOOL_MACRO_REGIME PERCEPTION "Current macro regime (risk-on / risk-off / neutral)." 0.4%F 15.0%F [] []
     (Some 300);
   tool TOOL_SECTOR_CORRELATION PERCEPTION "Sector-correlation scan. Flagged as low/negative alpha." (-0.2)%F 120.0%F
     [TOOL_FLAG_CONFLUENCE_LOADED] [] None;
   tool TOOL_ORDER_BOOK_DEPTH PERCEPTION
     "Order-book depth / bid-ask spread for the symbol — gauge liquidity before sizing." 0.35%F 50.0%F [] [] None;
   tool TOOL_NEWS_SENTIMENT PERCEPTION
     "Recent news sentiment score for the symbol. Cached — news moves slower than ticks." 0.2%F 110.0%F [] []
     (Some 300);
   tool TOOL_CORRELATION_CHECK PERCEPTION
     "Cross-asset correlation (e.g. BTC vs ETH) so the agent avoids stacking correlated risk." 0.25%F 90.0%F
     [TOOL_FLAG_CONFLUENCE_LOADED] [] None;
   tool TOOL_QUERY_SIMILAR_TRADES MEMORY "Vector-memory recall of similar historical setups." 0.5%F 60.0%F [] [] None;
   tool TOOL_GET_IC_WEIGHTS MEMORY "Current factor IC weights from Redis." 0.3%F 8.0%F [] [] (Some 90000);
   tool TOOL_RISK_CAGE RISK "Deterministic risk cage: sizing, exposure, drawdown gates." 0.0%F 5.0%F [] [] None;
   tool TOOL_VWAP_EXECUTION EXECUTION "VWAP execution plan to minimize slippage." 0.0%F 30.0%F
     [TOOL_FLAG_RISK_APPROVED] [] None;
   tool TOOL_BRACKET_ORDER EXECUTION "Place a bracket order. Gated on risk + committed thesis." 0.0%F 200.0%F
     [TOOL_FLAG_RISK_APPROVED; TOOL_FLAG_THESIS_COMMITTED] [] None;
   tool TOOL_REPLAY_REGRESSION OPTIMIZATION "Replay a candidate config against history (challenger only)." 0.0%F
     1500.0%F [] [] None].

(** [get_tool_registry()] on its first use *)
Definition seeded : ToolRegistry := register_many default_tools [].

End Tools.
