(* ===== verification/ToolsFacts.v ===== *)
(** ToolsFacts: the telemetry of the registry stays sound and survives a restart, the
    selection is exact, a disabled tool stays hidden, and the advice to drop a tool is earned. *)
From Stdlib Require Import Sorting.Sorted Sorting.Permutation Structures.OrdersEx.
From S2P Require Import Prelude StateErr PyFloat FloatFacts PyVal PyMath PyPow Config Params Policy Gitops Store StoreFacts Execution Lifecycle Scorer Tools.

(** * Entries *)

(** Assigning a key that is present replaces its entry in place. *)
Lemma dset_split {A} k (v w : A) d : dget k d = Some v ->
  exists d1 d2, d = d1 ++ (k, v) :: d2 /\ dset k w d = d1 ++ (k, w) :: d2 /\ k ∉ dkeys d1.
Proof.
  induction d as [|[k' v'] d IH]; simpl; [done|]. destruct (String.eqb k k') eqn:E.
  - intros [= ->]. apply String.eqb_eq in E as <-. exists [], d. split_and!; [done..|apply not_elem_of_nil].
  - intros H. destruct (IH H) as (d1 & d2 & -> & Hs & Hn). exists ((k', v') :: d1), d2. simpl. rewrite Hs.
    split_and!; [done..|]. apply String.eqb_neq in E. unfold dkeys in *. simpl. set_solver.
Qed.

Lemma dget_in_nodup {A} k (v : A) d : NoDup (dkeys d) -> (k, v) ∈ d -> dget k d = Some v.
Proof. intros Hn Hin. apply VersionFacts.In_dget; [done|by apply list_elem_of_In]. Qed.

(** What the catalog says of a tool, and what never changes. *)
Definition catalog (t : ToolMetadata) :=
  (tm_name t, tm_phase t, tm_description t, tm_required_state_flags t, tm_unlocks t, tm_cache_ttl t).

Definition sound_tool (t : ToolMetadata) : Prop :=
  0 <= tm_success_count t <= tm_call_count t /\ within (Fin 0) 1.0%F (tm_failure_rate t).

(** An entry of a registry and the entry it was seeded as. *)
Definition entry (e0 e : string * ToolMetadata) : Prop :=
  fst e = fst e0 /\ catalog (snd e) = catalog (snd e0) /\ tm_name (snd e) = fst e /\ sound_tool (snd e).

Definition grown (r : ToolRegistry) : Prop := Forall2 entry Tools.seeded r.

Lemma grown_keys r : grown r -> dkeys r = dkeys Tools.seeded.
Proof. intros H. symmetry. induction H as [|e0 e l l' (H & _) _ IH]; simpl; [done|]. by rewrite H, IH. Qed.

Lemma seeded_grown : grown Tools.seeded.
Proof.
  unfold grown. apply Forall_Forall2_diag.
  assert (Forall (fun e => tm_name (snd e) = fst e /\ tm_success_count (snd e) = 0 /\ tm_call_count (snd e) = 0 /\
                           tm_failure_rate (snd e) = 0.0%F) Tools.seeded) as H.
  { unfold Tools.seeded. cbn [Tools.register_many Tools.default_tools fold_left Tools.register Tools.tool tm_name].
    repeat constructor. }
  eapply Forall_impl; [exact H|]. intros e (E & S1 & S2 & S3). split_and!; [done..|]. split; [lia|].
  rewrite S3. split; fconst.
Qed.

Lemma seeded_nodup : NoDup (dkeys Tools.seeded).
Proof. apply NoDup_ListNoDup. vm_compute. repeat constructor; intros H; repeat destruct H as [H|H]; discriminate || done. Qed.

Lemma grown_nodup r : grown r -> NoDup (dkeys r).
Proof. intros H. rewrite (grown_keys r H). apply seeded_nodup. Qed.

Lemma grown_entry r k t : grown r -> dget k r = Some t -> exists e0, e0 ∈ Tools.seeded /\ entry e0 (k, t).
Proof.
  intros H Hk. apply dget_Some_In in Hk. apply list_elem_of_lookup in Hk as [i Hi].
  destruct (Forall2_lookup_r _ _ _ _ _ H Hi) as (e0 & H0 & He). exists e0. split; [|done]. by eapply list_elem_of_lookup_2.
Qed.

(** A change of one tool that respects the catalog. *)
Lemma grown_dset r k t t' : grown r -> dget k r = Some t -> catalog t' = catalog t -> (sound_tool t -> sound_tool t') ->
  grown (dset k t' r).
Proof.
  intros H Hk Hc Hs. destruct (dset_split k t t' r Hk) as (d1 & d2 & -> & -> & _). unfold grown in *.
  apply Forall2_app_inv_r in H as (l1 & l2 & H1 & H2 & E). rewrite E. apply Forall2_app; [done|].
  inversion H2 as [|e0 ? l2' ? He H2']; subst. constructor; [|done].
  destruct He as (E1 & E2 & E3 & E4). cbn [fst snd] in *. split_and!; cbn [fst snd]; [done|by rewrite Hc| |auto].
  injection Hc as Hn _ _ _ _ _. congruence.
Qed.

Lemma grown_map r (f : ToolMetadata -> ToolMetadata) :
  (forall t, catalog (f t) = catalog t /\ (sound_tool t -> sound_tool (f t))) ->
  grown r -> grown (map (fun e => (fst e, f (snd e))) r).
Proof.
  intros Hf H. unfold grown in *. induction H as [|e0 e l l' He _ IH]; simpl; constructor; [|done].
  destruct He as (E1 & E2 & E3 & E4). destruct (Hf (snd e)) as [Hc Hs].
  split_and!; cbn [fst snd]; [done|by rewrite Hc| |auto]. injection Hc as Hn _ _ _ _ _. congruence.
Qed.

(** * Telemetry *)

Lemma ema_unit x s n : within (Fin 0) 1.0%F x -> s = 0.0%F \/ s = 1.0%F -> within (Fin 0) 1.0%F (_ema x s n).
Proof.
  intros Hx Hs. unfold _ema. destruct (n <=? 0).
  - destruct Hs as [-> | ->]; split; fconst.
  - assert (within (Fin 0) 1.0%F s) as Hw by (destruct Hs as [-> | ->]; split; fconst).
    apply (fadd_within (Fin 0) (1 - _EMA_ALPHA)%F (Fin 0) _EMA_ALPHA); [fconst..| |].
    + apply (fmul_within (1 - _EMA_ALPHA)%F 1.0%F); [fconst|fconst|fconst| |exact Hx]. split; fconst.
    + apply (fmul_within _EMA_ALPHA 1.0%F); [fconst|fconst|fconst| |exact Hw]. split; fconst.
Qed.

Lemma call_folded_sound lat ok pnl t : sound_tool t -> sound_tool (Tools.call_folded lat ok pnl t).
Proof.
  intros [H1 H2]. unfold Tools.call_folded, sound_tool, with_telemetry. cbn [tm_success_count tm_call_count tm_failure_rate].
  split; [destruct ok; simpl; lia|]. apply ema_unit; [exact H2|]. destruct ok; auto.
Qed.

(** * Restarts *)

Lemma restore_tool_telemetry t0 t : catalog t = catalog t0 -> Tools.restore_tool (Tools.telemetry t) t0 = (Ok tt, t).
Proof.
  destruct t0, t. unfold catalog. simpl. intros [= -> -> -> -> -> ->]. reflexivity.
Qed.

Lemma snapshot_get r k t : NoDup (dkeys r) -> (k, t) ∈ r -> dget k (Tools.snapshot r) = Some (VDict (Tools.telemetry t)).
Proof.
  intros Hnd Hin. apply dget_in_nodup.
  - unfold Tools.snapshot, dkeys in *. rewrite map_map. exact Hnd.
  - apply list_elem_of_fmap. by exists (k, t).
Qed.

(** What was saved of tools of the same catalog comes back as it was. *)
Lemma restore_saved data r0 r : Forall2 entry r0 r ->
  (forall k t, (k, t) ∈ r -> dget k data = Some (VDict (Tools.telemetry t))) ->
  Tools.restore data r0 = (Ok (zlen r), r).
Proof.
  induction 1 as [|[k0 t0] [k t] l l' (E1 & E2 & _) _ IH]; intros Hd; [reflexivity|].
  cbn [fst snd] in *. subst k0. cbn [Tools.restore]. rewrite (Hd k t); [|apply elem_of_cons; by left].
  rewrite (restore_tool_telemetry t0 t E2). rewrite IH; [|intros k' t' Hin; apply Hd, elem_of_cons; by right].
  cbn [res_map res_bind]. unfold zlen. simpl length. do 2 f_equal. lia.
Qed.

Lemma restore_grown r : grown r -> Tools.restore (Tools.snapshot r) Tools.seeded = (Ok (zlen r), r).
Proof. intros H. apply restore_saved; [exact H|]. intros k t. apply snapshot_get, grown_nodup, H. Qed.

(** * Runs *)

(** What happens to the registry of a process: a call is folded in, a tool is switched, dead
    tools are pruned, or the process restarts on what it saved. *)
Inductive tool_event :=
| Called (name : string) (latency_ms : float) (success : bool) (realized_pnl : option float)
| Switched (name : string) (enabled : bool)
| Pruned (min_calls : Z) (max_failure_rate min_alpha : float)
| Restarted.

Definition tool_step (r : ToolRegistry) (e : tool_event) : ToolRegistry :=
  match e with
  | Called name lat ok pnl => snd (Tools.record_call name lat ok pnl r)
  | Switched name b => snd (Tools.set_enabled name b r)
  | Pruned n f a => snd (Tools.disable_dead_tools n f a r)
  | Restarted => snd (Tools.restore (Tools.snapshot r) Tools.seeded)
  end.

Definition tool_run (r : ToolRegistry) (l : list tool_event) : ToolRegistry := fold_left tool_step l r.

Lemma tool_step_grown r e : grown r -> grown (tool_step r e).
Proof.
  intros H. destruct e as [name lat ok pnl|name b|n f a|]; cbn [tool_step].
  - unfold Tools.record_call. destruct (dget name r) as [t|] eqn:E; [|exact H].
    apply (grown_dset r name t); [done..|apply call_folded_sound].
  - unfold Tools.set_enabled. destruct (dget name r) as [t|] eqn:E; [|exact H].
    destruct (eqb (tm_enabled t) b); [exact H|]. by apply (grown_dset r name t).
  - unfold Tools.disable_dead_tools. cbn [snd].
    apply (grown_map r (fun t => if Tools.dead n f a t then with_enabled false t else t)); [|exact H].
    intros t. by destruct (Tools.dead n f a t).
  - by rewrite restore_grown.
Qed.

Lemma tool_run_grown r l : grown r -> grown (tool_run r l).
Proof. apply fold_left_inv. exact tool_step_grown. Qed.

(** The telemetry is sound in every registry: it holds exactly the catalog's tools, under
    their names and with their phase, gates and unlocks; successes never exceed calls, and
    the failure rate, an average of averages, stays in [0, 1]. *)
Theorem telemetry_sound l : let r := tool_run Tools.seeded l in
  dkeys r = dkeys Tools.seeded /\
  forall name t, Tools.get name r = Some t ->
    tm_name t = name /\ (exists t0, Tools.get name Tools.seeded = Some t0 /\ catalog t = catalog t0) /\
    0 <= tm_success_count t <= tm_call_count t /\ within (Fin 0) 1.0%F (tm_failure_rate t).
Proof.
  intros r. pose proof (tool_run_grown _ l seeded_grown) as H. split; [apply grown_keys, H|].
  intros name t Ht. destruct (grown_entry _ _ _ H Ht) as ([k0 t0] & Hin & E1 & E2 & E3 & E4). cbn [fst snd] in *.
  split; [exact E3|]. split; [|exact E4]. exists t0. split; [|exact E2]. subst k0. apply dget_in_nodup; [apply seeded_nodup|done].
Qed.

(** C30: What the tools have learned survives a restart: whatever happened, the snapshot restored
    on a freshly seeded catalog restores every tool and gives back the registry it was
    taken of. *)
Theorem restart_keeps_telemetry l : let r := tool_run Tools.seeded l in
  Tools.restore (Tools.snapshot r) Tools.seeded = (Ok (zlen Tools.seeded), r).
Proof.
  cbv zeta. pose proof (tool_run_grown _ l seeded_grown) as H. rewrite (restore_grown _ H).
  do 2 f_equal. unfold zlen. f_equal. symmetry. apply (Forall2_length _ _ _ H).
Qed.

(** * Selection *)

Lemma insert_asc_perm {A} lt (x : A) l : Permutation (insert_asc lt x l) (x :: l).
Proof. induction l as [|y l IH]; simpl; [done|]. destruct (lt y x); [|done]. rewrite IH. apply Permutation_swap. Qed.

Lemma sort_asc_perm {A} lt (l : list A) : Permutation (sort_asc lt l) l.
Proof. induction l as [|x l IH]; simpl; [done|]. rewrite insert_asc_perm. by constructor. Qed.

Lemma sort_asc_in {A} lt (l : list A) x : In x (sort_asc lt l) <-> In x l.
Proof. rewrite <- !list_elem_of_In. by rewrite (sort_asc_perm lt l). Qed.

(** Sorting by a relation whose negation is transitive leaves no element before a lesser one. *)
Section Sorted.
Context {A : Type} (ok : A -> Prop) (lt : A -> A -> bool).
Hypothesis asym : forall x y, ok x -> ok y -> lt x y = true -> lt y x = false.
Hypothesis trans : forall x y z, ok x -> ok y -> ok z -> lt y x = false -> lt z y = false -> lt z x = false.

Lemma insert_asc_sorted x l : ok x -> Forall ok l -> StronglySorted (fun a b => lt b a = false) l ->
  StronglySorted (fun a b => lt b a = false) (insert_asc lt x l).
Proof.
  intros Hx. induction l as [|y l IH]; intros Hl Hs; simpl; [repeat constructor|].
  inversion Hl as [|? ? Hy Hl']; subst. inversion Hs as [|? ? Hs' Hy']; subst.
  destruct (lt y x) eqn:E.
  - constructor; [by apply IH|]. rewrite insert_asc_perm. constructor; [by apply asym|done].
  - constructor; [done|]. constructor; [done|]. rewrite Forall_forall in Hl', Hy' |- *.
    intros z Hz. apply (trans x y z); auto.
Qed.

Lemma sort_asc_sorted l : Forall ok l -> StronglySorted (fun a b => lt b a = false) (sort_asc lt l).
Proof.
  induction l as [|x l IH]; intros H; simpl; [constructor|]. inversion H as [|? ? Hx Hl]; subst.
  apply insert_asc_sorted; [done|by rewrite sort_asc_perm|auto].
Qed.
End Sorted.

Lemma in_tools t r : In t (Tools.all_tools r) <-> exists k, (k, t) ∈ r.
Proof.
  unfold Tools.all_tools, dvalues. rewrite <- list_elem_of_In, list_elem_of_fmap. split.
  - intros ([k t'] & -> & H). eauto.
  - intros [k H]. by exists (k, t).
Qed.

Lemma in_tools_get r t : grown r -> In t (Tools.all_tools r) <-> exists name, Tools.get name r = Some t.
Proof.
  intros H. rewrite in_tools. split; intros [k Hk]; exists k.
  - by apply dget_in_nodup; [apply grown_nodup|].
  - by apply dget_Some_In.
Qed.

(** The tools have distinct names, those of their keys. *)
Lemma names_nodup r p : grown r -> NoDup (map tm_name (List.filter p (Tools.all_tools r))).
Proof.
  intros H. assert (map tm_name (Tools.all_tools r) = dkeys r) as E.
  { unfold grown, Tools.all_tools, dvalues, dkeys in *. induction H as [|e0 e l l' (_ & _ & E & _) _ IH]; simpl; [done|].
    by rewrite E, IH. }
  pose proof (grown_nodup r H) as Hn. rewrite <- E in Hn. clear E. revert Hn.
  induction (Tools.all_tools r) as [|t ts IH]; simpl; intros Hn; [constructor|].
  apply NoDup_cons in Hn as [Hn Hnd]. destruct (p t); [|auto]. simpl. constructor; [|auto].
  intros Hin. apply Hn. apply list_elem_of_In, in_map_iff in Hin as (u & <- & Hu). apply list_elem_of_In, in_map.
  by apply filter_In in Hu as [Hu _].
Qed.

Lemma eligible_iff phase flags ml ma inc t : Tools.eligible phase flags ml ma inc t = true <->
  tm_phase t = phase /\ (inc = true \/ tm_enabled t = true) /\
  (forall f, In f (tm_required_state_flags t) -> In f flags) /\
  (forall m, ml = Some m -> fleb (tm_latency_ms t) m = true) /\
  (forall m, ma = Some m -> fleb m (tm_alpha_score t) = true).
Proof.
  unfold Tools.eligible. rewrite !andb_true_iff, orb_true_iff, bool_decide_eq_true, forallb_forall.
  setoid_rewrite one_of_spec. destruct ml, ma; naive_solver.
Qed.

Lemma selected_iff phase flags ml ma inc r t :
  In t (Tools.select_tools phase flags ml ma inc r) <->
  In t (Tools.all_tools r) /\ Tools.eligible phase flags ml ma inc t = true.
Proof. unfold Tools.select_tools. rewrite sort_asc_in, filter_In. done. Qed.

(** ** The order *)

Definition numbered (t : ToolMetadata) : Prop := tm_alpha_score t <> NaN /\ tm_latency_ms t <> NaN.

Lemma by_key_keys a b p q next : key a = Some p -> key b = Some q ->
  by_key a b next = if p =? q then next else p <? q.
Proof.
  intros Ha Hb. unfold by_key. destruct (feqb a b) eqn:E1.
  - apply feqb_key in E1 as (n & E1 & E2). rewrite Ha in E1. rewrite Hb in E2. 
    injection E1 as ->. injection E2 as ->. by rewrite Z.eqb_refl.
  - destruct (p =? q) eqn:E2.
    + apply Z.eqb_eq in E2 as ->. assert (feqb a b = true) as E3 by (apply feqb_key; eauto). congruence.
    + destruct (fltb a b) eqn:E3.
      * apply fltb_key in E3 as (m & n & H1 & H2 & H3). rewrite Ha in H1. rewrite Hb in H2.
        injection H1 as ->. injection H2 as ->. symmetry. by apply Z.ltb_lt.
      * symmetry. apply Z.ltb_ge. destruct (Z.le_gt_cases q p) as [|H]; [done|].
        assert (fltb a b = true) as E4 by (apply fltb_key; eauto). congruence.
Qed.

(** Names are ordered by their characters. *)
Lemma string_compare s t : String.compare s t = String_as_OT.compare s t.
Proof.
  revert t. induction s as [|a s IH]; intros [|b t]; simpl; [done..|].
  rewrite IH. unfold Ascii.compare, Ascii_as_OT.compare. done.
Qed.

Lemma string_ltb s t : String.ltb s t = true <-> String_as_OT.lt s t.
Proof. unfold String.ltb, String_as_OT.lt. rewrite string_compare. by destruct (String_as_OT.compare s t). Qed.

Lemma string_ltb_asym s t : String.ltb s t = true -> String.ltb t s = false.
Proof.
  intros H. destruct (String.ltb t s) eqn:E; [|done]. apply string_ltb in H, E.
  destruct (irreflexivity String_as_OT.lt s). by transitivity t.
Qed.

Lemma string_ltb_neg_trans s t u : String.ltb t s = false -> String.ltb u t = false -> String.ltb u s = false.
Proof.
  intros H1 H2. destruct (String.ltb u s) eqn:E; [|done]. apply string_ltb in E.
  destruct (String_as_OT.compare_spec u t) as [-> |H|H].
  - apply string_ltb in E. congruence.
  - apply string_ltb in H. congruence.
  - assert (String_as_OT.lt t s) as H3 by by transitivity u. apply string_ltb in H3. congruence.
Qed.

(** On numbers the order is lexicographic. *)
Lemma selected_keys a b : numbered a -> numbered b ->
  exists p q l m, selected_before a b = (if p =? q then if l =? m then String.ltb (tm_name a) (tm_name b) else l <? m
                                         else p <? q) /\
    key (- tm_alpha_score a)%F = Some p /\ key (- tm_alpha_score b)%F = Some q /\
    key (tm_latency_ms a) = Some l /\ key (tm_latency_ms b) = Some m.
Proof.
  intros [Ha La] [Hb Lb]. apply key_some in Ha as [p Hp], Hb as [q Hq], La as [l Hl], Lb as [m Hm].
  exists (- p), (- q), l, m. rewrite !key_fopp, Hp, Hq, Hl, Hm. split; [|done]. unfold selected_before.
  rewrite (by_key_keys _ _ (- p) (- q)), (by_key_keys _ _ l m) by (rewrite ?key_fopp, ?Hp, ?Hq; done). done.
Qed.

Lemma selected_asym a b : numbered a -> numbered b -> selected_before a b = true -> selected_before b a = false.
Proof.
  intros Ha Hb. destruct (selected_keys a b Ha Hb) as (p & q & l & m & -> & Hp & Hq & Hl & Hm).
  destruct (selected_keys b a Hb Ha) as (? & ? & ? & ? & -> & ? & ? & ? & ?). simplify_eq.
  rewrite (Z.eqb_sym q p), (Z.eqb_sym m l). destruct (Z.eqb_spec p q); [|lia].
  destruct (Z.eqb_spec l m); [apply string_ltb_asym|lia].
Qed.

Lemma selected_neg_trans a b c : numbered a -> numbered b -> numbered c ->
  selected_before b a = false -> selected_before c b = false -> selected_before c a = false.
Proof.
  intros Ha Hb Hc. destruct (selected_keys b a Hb Ha) as (p & q & l & m & -> & ? & ? & ? & ?).
  destruct (selected_keys c b Hc Hb) as (? & ? & ? & ? & -> & ? & ? & ? & ?).
  destruct (selected_keys c a Hc Ha) as (? & ? & ? & ? & -> & ? & ? & ? & ?). simplify_eq.
  repeat (match goal with |- context [?x =? ?y] => destruct (Z.eqb_spec x y) end); try lia.
  apply string_ltb_neg_trans.
Qed.

(** The selection is exact: a node is offered each tool of its phase that is enabled, whose
    gates are open, that is within its latency budget and not below its alpha, once, and no
    other; tools of higher alpha come first, and among equals those of lower latency. *)
Theorem selection_exact l phase flags ml ma inc : let r := tool_run Tools.seeded l in
  let offered := Tools.select_tools phase flags ml ma inc r in
  NoDup (map tm_name offered) /\
  (forall t, In t offered <-> (exists name, Tools.get name r = Some t) /\ tm_phase t = phase /\
     (inc = true \/ tm_enabled t = true) /\ (forall f, In f (tm_required_state_flags t) -> In f flags) /\
     (forall m, ml = Some m -> fleb (tm_latency_ms t) m = true) /\
     (forall m, ma = Some m -> fleb m (tm_alpha_score t) = true)) /\
  (Forall numbered (Tools.all_tools r) -> StronglySorted (fun a b => selected_before b a = false) offered).
Proof.
  cbv zeta. set (r := tool_run Tools.seeded l). assert (grown r) as H by apply tool_run_grown, seeded_grown.
  split_and!.
  - unfold Tools.select_tools. rewrite (sort_asc_perm selected_before). apply names_nodup, H.
  - intros t. rewrite selected_iff, (in_tools_get _ _ H), eligible_iff. done.
  - intros Hn. apply (sort_asc_sorted numbered); [exact selected_asym|exact selected_neg_trans|].
    rewrite Forall_forall in Hn |- *. intros t Ht. apply Hn. apply list_elem_of_In in Ht.
    apply filter_In in Ht as [Ht _]. by apply list_elem_of_In.
Qed.

(** * Governance *)

Definition hidden (name : string) (r : ToolRegistry) : Prop :=
  forall t, dget name r = Some t -> tm_enabled t = false.

Definition enables (name : string) (e : tool_event) : Prop := e = Switched name true.

Lemma dget_dset {A} k k' (v : A) d : dget k' (dset k v d) = if String.eqb k' k then Some v else dget k' d.
Proof.
  destruct (String.eqb_spec k' k) as [->|Hn]; [apply dget_dset_eq|]. apply dget_dset_ne. congruence.
Qed.

Lemma dget_map_values {A} (f : A -> A) k d : dget k (map (fun e => (fst e, f (snd e))) d) = f <$> dget k d.
Proof. induction d as [|[k' v] d IH]; simpl; [done|]. by destruct (String.eqb k k'). Qed.

Lemma tool_step_hidden name r e : grown r -> ~ enables name e -> hidden name r -> hidden name (tool_step r e).
Proof.
  intros Hg He H t. destruct e as [n lat ok pnl|n b|n f a|]; cbn [tool_step].
  - unfold Tools.record_call. destruct (dget n r) as [u|] eqn:E; [|apply H]. cbn [snd]. rewrite dget_dset.
    destruct (String.eqb_spec name n) as [->|]; [|apply H]. intros [= <-]. exact (H u E).
  - unfold Tools.set_enabled. destruct (dget n r) as [u|] eqn:E; [|apply H].
    destruct (eqb (tm_enabled u) b) eqn:Eb; [apply H|]. cbn [snd]. rewrite dget_dset.
    destruct (String.eqb_spec name n) as [->|]; [|apply H]. intros [= <-]. cbn. destruct b; [|done].
    destruct He. reflexivity.
  - unfold Tools.disable_dead_tools. cbn [snd].
    rewrite (dget_map_values (fun t => if Tools.dead n f a t then with_enabled false t else t)).
    destruct (dget name r) as [u|] eqn:E; [|done]. intros [= <-]. destruct (Tools.dead n f a u); [done|exact (H u E)].
  - rewrite (restore_grown r Hg). apply H.
Qed.

(** A tool that is switched off stays out of every node's sight: whatever is called, pruned
    or restarted afterwards, no selection offers it until it is switched on again. *)
Theorem disabled_tool_stays_hidden l name after phase flags ml ma t :
  ~ Exists (enables name) after ->
  let r := tool_run (snd (Tools.set_enabled name false (tool_run Tools.seeded l))) after in
  In t (Tools.select_tools phase flags ml ma false r) -> tm_name t <> name.
Proof.
  intros Hn. cbv zeta. set (r0 := tool_run Tools.seeded l). assert (grown r0) as H0 by apply tool_run_grown, seeded_grown.
  set (r1 := snd (Tools.set_enabled name false r0)).
  assert (grown r1) as H1 by exact (tool_step_grown r0 (Switched name false) H0).
  assert (hidden name r1) as Hh.
  { intros u. unfold r1, Tools.set_enabled. destruct (dget name r0) as [v|] eqn:E; [|simpl; congruence].
    destruct (eqb (tm_enabled v) false) eqn:Eb; cbn [snd].
    - rewrite E. intros [= <-]. by apply Bool.eqb_prop in Eb.
    - rewrite dget_dset_eq. by intros [= <-]. }
  clearbody r1. assert (grown (tool_run r1 after) /\ hidden name (tool_run r1 after)) as [Hg Hh'].
  { clear t phase flags ml ma. revert r1 H1 Hh. induction after as [|e after IH]; intros r1 H1 Hh; [done|].
    cbn [tool_run fold_left]. apply IH.
    - intros Hex. apply Hn. by right.
    - by apply tool_step_grown.
    - apply tool_step_hidden; [done| |done]. intros He. apply Hn. by left. }
  intros Hin Ename. apply selected_iff in Hin as [Ht Hel]. apply eligible_iff in Hel as (_ & [Hf|Hen] & _); [done|].
  apply (in_tools_get _ _ Hg) in Ht as [k Hk]. destruct (grown_entry _ _ _ Hg Hk) as (e0 & _ & _ & _ & En & _).
  cbn [fst snd] in En. rewrite <- En, Ename in Hk. rewrite (Hh' t Hk) in Hen. discriminate.
Qed.

Lemma disabled_tool_stays_hidden_witness :
  ~ Exists (enables TOOL_MACRO_REGIME) [Called TOOL_MACRO_REGIME 12.0%F true (Some 5.0%F); Restarted] /\
  forall t, In t (Tools.select_tools PERCEPTION [] None None false
    (tool_run (snd (Tools.set_enabled TOOL_MACRO_REGIME false (tool_run Tools.seeded [])))
       [Called TOOL_MACRO_REGIME 12.0%F true (Some 5.0%F); Restarted])) -> tm_name t <> TOOL_MACRO_REGIME.
Proof.
  assert (~ Exists (enables TOOL_MACRO_REGIME) [Called TOOL_MACRO_REGIME 12.0%F true (Some 5.0%F); Restarted]) as H.
  { intros H. inversion H as [? ? E|? ? H']; subst; [discriminate E|].
    inversion H' as [? ? E|? ? H'']; subst; [discriminate E|inversion H'']. }
  split; [exact H|]. intros t. apply (disabled_tool_stays_hidden [] TOOL_MACRO_REGIME
    [Called TOOL_MACRO_REGIME 12.0%F true (Some 5.0%F); Restarted] PERCEPTION [] None None t H).
Defined.

(** ** Advice *)

Definition unreliable (min_calls : Z) (max_failure_rate : float) (t : ToolMetadata) : Prop :=
  fltb (tm_alpha_score t) 0.0%F = true \/
  min_calls <= tm_call_count t /\ fltb max_failure_rate (tm_failure_rate t) = true.

Lemma advice_disable n f total t s : In s (Tools.advice n f total t) -> ts_action s = "disable" ->
  ts_tool s = tm_name t /\ tm_enabled t = true /\ unreliable n f t.
Proof.
  unfold Tools.advice, unreliable. destruct (tm_enabled t); [|done]. cbn [negb].
  destruct (fltb (tm_alpha_score t) 0.0%F); [intros [<-|[]] _; auto|].
  destruct ((n <=? tm_call_count t) && fltb f (tm_failure_rate t)) eqn:E.
  - apply andb_true_iff in E as [E1 E2]. apply Z.leb_le in E1. intros [<-|[]] _. auto.
  - destruct ((0 <? total) && (tm_call_count t =? 0)); [|done]. intros [<-|[]]. done.
Qed.

Lemma advice_of_unreliable n f total t : tm_enabled t = true -> unreliable n f t ->
  exists s, In s (Tools.advice n f total t) /\ ts_action s = "disable" /\ ts_tool s = tm_name t.
Proof.
  unfold Tools.advice, unreliable. intros -> H. cbn [negb]. destruct (fltb (tm_alpha_score t) 0.0%F).
  - eexists. split; [by left|done].
  - destruct H as [H|[H1 H2]]; [done|]. apply Z.leb_le in H1. rewrite H1, H2. eexists. split; [by left|done].
Qed.

(** The advice to drop a tool is earned and complete: exactly the enabled tools of negative
    alpha, and those that failed too often over enough calls, are advised to be disabled. *)
Theorem disable_advice_exact l n f name : let r := tool_run Tools.seeded l in
  (exists s, In s (Tools.suggest_tool_changes n f r) /\ ts_action s = "disable" /\ ts_tool s = name) <->
  (exists t, Tools.get name r = Some t /\ tm_enabled t = true /\ unreliable n f t).
Proof.
  cbv zeta. set (r := tool_run Tools.seeded l). assert (grown r) as H by apply tool_run_grown, seeded_grown.
  unfold Tools.suggest_tool_changes. set (total := foldr _ _ _). split.
  - intros (s & Hin & Ha & Hs). apply in_app_iff in Hin as [Hin|Hin].
    + apply in_flat_map in Hin as (t & Ht & Hin). unfold Tools.attribution in Ht. rewrite sort_asc_in in Ht.
      destruct (advice_disable _ _ _ _ _ Hin Ha) as (E & He & Hu). apply (in_tools_get _ _ H) in Ht as [k Hk].
      destruct (grown_entry _ _ _ H Hk) as (e0 & _ & _ & _ & En & _). cbn [fst snd] in En. subst k. exists t. split; [|done].
      congruence.
    + destruct (Tools.top_tool r); [|destruct Hin]. destruct Hin as [<-|[]]. discriminate.
  - intros (t & Hk & He & Hu). destruct (advice_of_unreliable n f total t He Hu) as (s & Hs & Ha & E).
    destruct (grown_entry _ _ _ H Hk) as (e0 & _ & _ & _ & En & _). cbn [fst snd] in En.
    exists s. split; [|split; [done|congruence]]. apply in_app_iff. left. apply in_flat_map. exists t. split; [|done].
    unfold Tools.attribution. rewrite sort_asc_in. apply (in_tools_get _ _ H). eauto.
Qed.
