(* ===== verification/FixedFacts.v ===== *)
(** FixedFacts: [float(f"{x:.df}")]: the text of a fixed number of decimals parses back to the
    double nearest to the decimal it shows. *)
From Stdlib Require Import Ascii.
From S2P Require Import Prelude PyFloat FloatFacts PyVal.

(** * Runs of digits *)

Definition is_digit (c : Ascii.ascii) : Prop := exists x, Parse.digit c = Some x /\ 0 <= x <= 9.

Definition add_digit (acc : Z) (c : Ascii.ascii) : Z :=
  acc * 10 + match Parse.digit c with Some x => x | None => 0 end.

Definition value (ds : list Ascii.ascii) : Z := fold_left add_digit ds 0.

Lemma value_acc ds : forall acc, fold_left add_digit ds acc = acc * 10 ^ zlen ds + value ds.
Proof.
  unfold value. induction ds as [|c ds IH]; intros acc; cbn [fold_left].
  - unfold zlen. cbn [length]. lia.
  - rewrite IH, (IH (add_digit 0 c)). unfold zlen, add_digit. cbn [length].
    rewrite Nat2Z.inj_succ, Z.pow_succ_r by lia. lia.
Qed.

Lemma value_snoc ds c : value (ds ++ [c]) = add_digit (value ds) c.
Proof. unfold value. by rewrite fold_left_app. Qed.

Lemma digits_run ds rest : Forall is_digit ds -> forall acc cnt,
  Parse.digits (ds ++ rest) acc cnt = Parse.digits rest (fold_left add_digit ds acc) (cnt + zlen ds).
Proof.
  induction 1 as [|c ds (x & Hx & _) _ IH]; intros acc cnt.
  - unfold zlen. cbn [app fold_left length]. f_equal. lia.
  - cbn [app Parse.digits fold_left]. rewrite Hx, IH.
    assert (add_digit acc c = acc * 10 + x) as -> by (unfold add_digit; by rewrite Hx).
    f_equal. unfold zlen. cbn [length]. lia.
Qed.

Definition shows_digit (n : N) : bool :=
  match Parse.digit (pretty_N_char n) with Some x => x =? Z.of_N n | None => false end.

Lemma shown_digits : forallb shows_digit (map N.of_nat (List.seq 0 10)) = true.
Proof. vm_compute. reflexivity. Qed.

Lemma char_digit n : (n < 10)%N -> is_digit (pretty_N_char n) /\ Parse.digit (pretty_N_char n) = Some (Z.of_N n).
Proof.
  intros H. pose proof (proj1 (forallb_forall _ _) shown_digits n) as Hs. unfold shows_digit in Hs.
  assert (In n (map N.of_nat (List.seq 0 10))) as Hin.
  { apply in_map_iff. exists (N.to_nat n). split; [apply N2Nat.id|]. apply in_seq. lia. }
  specialize (Hs Hin). destruct (Parse.digit (pretty_N_char n)) as [x|] eqn:E; [|discriminate Hs].
  apply Z.eqb_eq in Hs as ->. split; [|reflexivity]. exists (Z.of_N n). split; [exact E|lia].
Qed.

Definition decimal (ds : list Ascii.ascii) (n : Z) : Prop :=
  Forall is_digit ds /\ value ds = n /\ n < 10 ^ zlen ds /\ (0 < n -> 10 ^ (zlen ds - 1) <= n).

Lemma go_decimal n : forall s, exists ds,
  String.list_ascii_of_string (pretty_N_go n s) = ds ++ String.list_ascii_of_string s /\ decimal ds (Z.of_N n).
Proof.
  induction (N.lt_wf_0 n) as [n _ IH]. intros s. destruct (decide (0 < n)%N) as [Hn|Hn].
  - rewrite pretty_N_go_step by done. assert (n `div` 10 < n)%N as Hlt by (apply N.div_lt; lia).
    destruct (IH _ Hlt (String (pretty_N_char (n `mod` 10)) s)) as (ds & E & Hd & Hv & Hb & Hl).
    assert (n `mod` 10 < 10)%N as Hm by (apply N.mod_lt; lia). destruct (char_digit _ Hm) as [Hc Hx].
    assert (Z.of_N n = 10 * Z.of_N (n `div` 10) + Z.of_N (n `mod` 10)) as Hz by (pose proof (N.div_mod' n 10); lia).
    exists (ds ++ [pretty_N_char (n `mod` 10)]). rewrite E. cbn [String.list_ascii_of_string]. rewrite <- app_assoc.
    split; [done|]. unfold decimal. rewrite value_snoc, Hv, zlen_app. unfold add_digit. rewrite Hx.
    change (zlen [pretty_N_char (n `mod` 10)]) with 1. rewrite Z.pow_add_r by (unfold zlen; lia).
    split_and!; [by apply Forall_app; split; [|constructor]|lia|lia|]. intros _.
    replace (zlen ds + 1 - 1) with (zlen ds) by lia. destruct (decide (0 < n `div` 10)%N) as [Hp|Hp].
    + specialize (Hl ltac:(lia)). destruct ds as [|c ds]; [unfold value in Hv; simpl in Hv; lia|].
      replace (zlen (c :: ds)) with (1 + (zlen (c :: ds) - 1)) by lia. rewrite Z.pow_add_r, Z.pow_1_r by (unfold zlen; cbn [length]; lia).
      etrans; [apply Z.mul_le_mono_nonneg_l; [lia|exact Hl]|rewrite Hz; pose proof (N2Z.is_nonneg (n `mod` 10)); lia].
    + assert (n `div` 10 = 0)%N as E0 by lia. rewrite E0 in *. destruct ds as [|c ds]; [unfold zlen; cbn [length]; lia|].
      rewrite pretty_N_go_0 in E. apply (f_equal (@length _)) in E. rewrite length_app in E.
      cbn [String.list_ascii_of_string length] in E. lia.
  - assert (n = 0)%N as -> by lia. rewrite pretty_N_go_0. exists []. split; [done|].
    split_and!; [constructor|done|unfold zlen; cbn [length]; lia|lia].
Qed.

(** [str(n)] of a natural number is a decimal of it, with a digit at least. *)
Lemma pretty_decimal n : 0 <= n -> exists ds,
  String.list_ascii_of_string (pretty n) = ds /\ ds <> [] /\ Forall is_digit ds /\ value ds = n /\
  forall d, 0 < d -> n < 10 ^ d -> zlen ds <= d.
Proof.
  intros Hn. destruct (decide (n = 0)) as [->|H0].
  - exists [Ascii.ascii_of_nat 48]. split_and!; [done..| |done|intros d Hd _; unfold zlen; cbn [length]; lia].
    constructor; [|constructor]. exists 0. split; [done|lia].
  - destruct (go_decimal (Z.to_N n) "") as (ds & E & Hd & Hv & Hb & Hl). rewrite app_nil_r in E.
    rewrite Z2N.id in Hv, Hb, Hl by lia. exists ds. split_and!; [|..].
    + rewrite <- E. destruct n as [|p|p]; [lia| |lia]. done.
    + intros ->. unfold value in Hv. simpl in Hv. lia.
    + done.
    + done.
    + intros d Hd' Hlt. specialize (Hl ltac:(lia)). destruct (Z.le_gt_cases (zlen ds) d) as [|Hgt]; [done|].
      assert (10 ^ d <= 10 ^ (zlen ds - 1)) by (apply Z.pow_le_mono_r; lia). lia.
Qed.

(** * The text of a fixed number of decimals *)

Lemma list_ascii_app s t : String.list_ascii_of_string (s +:+ t) = String.list_ascii_of_string s ++ String.list_ascii_of_string t.
Proof. induction s as [|c s IH]; simpl; [done|]. by rewrite IH. Qed.

Lemma zeros_digits n : 0 <= n -> exists ds, String.list_ascii_of_string (Fmt.zeros n) = ds /\
  Forall is_digit ds /\ value ds = 0 /\ zlen ds = n.
Proof.
  intros Hn. exists (List.repeat (Ascii.ascii_of_nat 48) (Z.to_nat n)). unfold Fmt.zeros. split_and!.
  - induction (Z.to_nat n) as [|k IH]; [done|]. cbn [Fmt.repeat_str List.repeat]. rewrite list_ascii_app, IH. done.
  - apply List.Forall_forall. intros c Hc. apply repeat_spec in Hc as ->. exists 0. split; [reflexivity|lia].
  - induction (Z.to_nat n) as [|k IH]; [done|]. cbn [List.repeat]. unfold value in *. cbn [fold_left]. exact IH.
  - unfold zlen. rewrite repeat_length. lia.
Qed.

Lemma padded_digits d r : 0 < d -> 0 <= r < 10 ^ d -> exists ds, String.list_ascii_of_string (Fmt.padded d r) = ds /\
  Forall is_digit ds /\ value ds = r /\ zlen ds = d.
Proof.
  intros Hd Hr. destruct (pretty_decimal r ltac:(lia)) as (ds & E & _ & Hds & Hv & Hl). specialize (Hl d Hd ltac:(lia)).
  unfold Fmt.padded. assert (Z.of_nat (String.length (pretty r)) = zlen ds) as El.
  { unfold zlen. rewrite <- E. f_equal. generalize (pretty r). clear. intros s. induction s; simpl; congruence. }
  rewrite El. destruct (zeros_digits (d - zlen ds) ltac:(lia)) as (zs & Ez & Hzs & Hvz & Hlz).
  exists (zs ++ ds). rewrite list_ascii_app, Ez, E, zlen_app. split_and!; [done|by apply Forall_app|..|lia].
  unfold value. rewrite fold_left_app. fold (value zs). rewrite Hvz. exact Hv.
Qed.

Lemma digit_char c : is_digit c ->
  Parse.is_space c = false /\ Ascii.eqb c "-" = false /\ Ascii.eqb c "+" = false /\
  Ascii.eqb (Parse.lower c) "n" = false /\ Ascii.eqb (Parse.lower c) "i" = false.
Proof.
  intros (x & Hx & _). unfold Parse.digit in Hx. destruct c as [b0 b1 b2 b3 b4 b5 b6 b7].
  destruct b0, b1, b2, b3, b4, b5, b6, b7; try discriminate Hx; repeat split.
Qed.

Lemma lstrip_id c l : Parse.is_space c = false -> Parse.lstrip (c :: l) = c :: l.
Proof. intros H. simpl. by rewrite H. Qed.

(** A text between two characters that are not spaces is not stripped. *)
Lemma strip_id c l c' l' : Parse.is_space c = false -> Parse.is_space c' = false -> c :: l = l' ++ [c'] ->
  Parse.strip (c :: l) = c :: l.
Proof.
  intros Hc Hc' E. unfold Parse.strip. rewrite lstrip_id by done. rewrite E, rev_app_distr. cbn [rev app].
  rewrite lstrip_id by done. cbn [rev]. by rewrite rev_involutive.
Qed.

Definition fixed_text (d m : Z) : string := pretty (m / 10 ^ d) +:+ "." +:+ Fmt.padded d (m mod 10 ^ d).

(** It parses as the decimal it shows. *)
Lemma fixed_text_parse d m : 0 < d -> 0 <= m -> Parse.float_of_text (fixed_text d m) = Ok (Parse.scaled false m (0 - d)).
Proof.
  intros Hd Hm. assert (0 < 10 ^ d) as Hp by (apply Z.pow_pos_nonneg; lia).
  destruct (pretty_decimal (m / 10 ^ d) (Z.div_pos _ _ Hm Hp)) as (ip & Ei & Hne & Hi & Hvi & _).
  destruct (padded_digits d (m mod 10 ^ d) Hd (Z.mod_pos_bound m _ Hp)) as (fp & Ef & Hf & Hvf & Hlf).
  unfold Parse.float_of_text, fixed_text. rewrite !list_ascii_app, Ei, Ef. cbn [String.list_ascii_of_string app].
  destruct ip as [|c ip]; [done|]. destruct fp as [|c' fp' _] using rev_ind; [unfold zlen in Hlf; simpl in Hlf; lia|].
  inversion Hi as [|? ? Hc _]; subst. apply Forall_app in Hf as Hf'. destruct Hf' as [_ Hc']. inversion Hc' as [|? ? Hc'' _]; subst.
  destruct (digit_char c Hc) as (S1 & S2 & S3 & S4 & S5). destruct (digit_char c' Hc'') as (S1' & _).
  cbn [app]. rewrite (strip_id c _ c' (c :: ip ++ "." :: fp')%char) by (done || (cbn [app]; by rewrite <- app_assoc)).
  cbn [Parse.sign]. rewrite S2, S3. unfold Parse.float_body. cbn [map String.string_of_list_ascii].
  cbn [String.eqb]. rewrite S4, S5. cbn [orb].
  change (c :: ip ++ "." :: fp' ++ [c'])%char with ((c :: ip) ++ "." :: (fp' ++ [c']))%char.
  rewrite (digits_run (c :: ip)) by done. cbn [Parse.digits]. change (Parse.digit ".") with (@None Z).
  rewrite andb_comm. change (Ascii.eqb "." "_") with false. cbn [andb].
  destruct (fp' ++ [c']) as [|f fs] eqn:Efp; [by destruct fp'|]. cbn [Ascii.eqb Bool.eqb].
  rewrite <- (app_nil_r (f :: fs)), digits_run by done. cbn [Parse.digits].
  rewrite value_acc. fold (value (c :: ip)). rewrite Hvi, Hvf, app_nil_r.
  destruct (Z.ltb_spec 0 (0 + zlen (c :: ip) + (0 + zlen (f :: fs)))) as [_|Hz]; [|unfold zlen in Hz; cbn [length] in Hz; lia].
  assert (m / 10 ^ zlen (f :: fs) * 10 ^ zlen (f :: fs) + m mod 10 ^ zlen (f :: fs) = m) as ->
    by (pose proof (Z.div_mod m (10 ^ zlen (f :: fs)) ltac:(lia)); lia).
  rewrite Z.add_0_l. reflexivity.
Qed.

(** What a finite number of a positive sign shows. *)
Lemma fixed_text_of d x : 0 < d -> is_finite x = true -> signbit x = false ->
  Fmt.fixed d x = fixed_text d (rne_units (units x * 10 ^ d)).
Proof.
  intros Hd Hf Hs. unfold Fmt.fixed. rewrite Hs. cbn [String.append]. unfold Fmt.fixed_abs, fixed_text.
  destruct (d =? 0) eqn:E; [apply Z.eqb_eq in E; lia|].
  assert (0 <= units x) as Hu by (destruct x; simpl in *; try discriminate; lia).
  rewrite (Z.abs_eq _ Hu). destruct x; try discriminate; done.
Qed.

(** * Reading back *)

(** The rounding error of a quotient that is large in units. *)
Lemma rnd_error_div a b : 0 < b -> 0 <= a -> 2 ^ 53 <= a / b -> 2 ^ 53 * Z.abs (Rnd.rnd a b * b - a) <= a.
Proof.
  intros Hb Ha Hl. unfold Rnd.rnd. rewrite (Z.abs_eq a) by done. set (k := Rnd.kexp (a / b)).
  pose proof (Rnd.kexp_pow_pos (a / b)) as Hk. fold k in Hk.
  assert (2 ^ 52 * 2 ^ k <= a / b) as Hlow.
  { destruct (Z.eq_dec k 0) as [->|E]; [lia|]. pose proof (Rnd.kexp_nonneg (a / b)). fold k in H.
    rewrite <- Z.pow_add_r by lia. apply Rnd.kexp_lower. fold k. lia. }
  destruct (Rnd.rne_spec a (b * 2 ^ k) ltac:(nia)) as [He _]. set (q := Rnd.rne a (b * 2 ^ k)) in *.
  pose proof (Z.mul_div_le a b Hb) as Hdiv. replace (q * 2 ^ k * b - a) with (- (a - q * (b * 2 ^ k))) by lia.
  rewrite Z.abs_opp. set (p := 2 ^ k) in *. set (t := a / b) in *. set (e := Z.abs (a - q * (b * p))) in *.
  assert (b * (2 ^ 52 * p) <= b * t) by nia. lia.
Qed.

(** A decimal that is read shows itself again: the digits of a number below [2^50] survive
    the nearest double. *)
Lemma read_shows d m : 0 < d <= 12 -> 0 < m < 2 ^ 50 ->
  let x := Parse.scaled false m (0 - d) in
  is_finite x = true /\ signbit x = false /\ rne_units (units x * 10 ^ d) = m.
Proof.
  intros Hd Hm. assert (0 < 10 ^ d) as Hp by (apply Z.pow_pos_nonneg; lia). cbv zeta.
  assert (10 ^ d <= 10 ^ 12) as Hp12 by (apply Z.pow_le_mono_r; lia).
  unfold Parse.scaled. destruct (Z.eqb_spec m 0) as [|_]; [lia|].
  destruct (Z.ltb_spec 400 (0 - d)) as [|_]; [lia|]. destruct (Z.leb_spec 0 (0 - d)) as [|_]; [lia|].
  replace (- (0 - d)) with d by lia. unfold round_q. rewrite Fast.rnd_eq by done.
  assert (2 ^ 100 <= scale) as Hs by (rewrite scale_spec; apply Z.pow_le_mono_r; lia).
  assert (2 ^ 53 <= m * scale / 10 ^ d) as Hlow.
  { apply Z.div_le_lower_bound; [done|]. assert (10 ^ 12 < 2 ^ 40) by done. nia. }
  pose proof (rnd_error_div (m * scale) (10 ^ d) Hp ltac:(nia) Hlow) as He.
  set (n := Rnd.rnd (m * scale) (10 ^ d)) in *. set (T := 10 ^ d) in *.
  assert (2 * Z.abs (n * T - m * scale) < scale) as Hclose by nia.
  assert (0 < n) as Hn by nia.
  assert (n < bound) as Hb.
  { rewrite bound_spec. assert (n <= (m + 1) * scale) by nia. rewrite scale_spec in *.
    assert ((m + 1) * 2 ^ 1074 <= 2 ^ 51 * 2 ^ 1074) by (apply Z.mul_le_mono_nonneg_r; lia).
    rewrite <- Z.pow_add_r in * by lia. assert (2 ^ (51 + 1074) < 2 ^ 2098) by (apply Z.pow_lt_mono_r; lia). lia. }
  unfold mkfloat. destruct (Z.eqb_spec n 0) as [|_]; [lia|]. rewrite Z.abs_eq by lia.
  destruct (Z.leb_spec bound n) as [|_]; [lia|]. cbn [is_finite signbit units]. split_and!; [done|by apply Z.ltb_ge; lia|].
  rewrite rne_units_eq. apply Rnd.rne_unique; [apply scale_pos|]. split; lia.
Qed.
