(* ===== verification/Prompts.v ===== *)
(** Prompts: the store of the adaptive directives, their versions and their history
    (api/services/prompt_store.py).

    The documents of a node are read back as they were written.  Redis answers or not, one
    command at a time; the code swallows an outage. *)
From S2P Require Import Prelude StateErr PyFloat FloatFacts PyVal PyMath PyPow Config Params Policy Gitops Store Execution Lifecycle Scorer.

Definition PROMPT_DIRECTIVE_HISTORY_CAP : Z := 20.

(** * Lines *)

Definition is_break (c : Ascii.ascii) : bool :=
  let n := Ascii.nat_of_ascii c in ((10 <=? n) && (n <=? 13) || (28 <=? n) && (n <=? 30))%nat.

Definition CR : Ascii.ascii := Ascii.ascii_of_nat 13.
Definition LF : Ascii.ascii := Ascii.ascii_of_nat 10.
Definition newline : string := String LF "".

(** [text.splitlines()]: a break ends a line, and no line follows the last break. *)
Fixpoint lines_of (l : list Ascii.ascii) : list (list Ascii.ascii) :=
  match l with
  | [] => []
  | c :: l' =>
      if is_break c then
        [] :: match l' with
              | c' :: l'' => if Ascii.eqb c CR && Ascii.eqb c' LF then lines_of l'' else lines_of l'
              | [] => lines_of l'
              end
      else match lines_of l' with
           | line :: rest => (c :: line) :: rest
           | [] => [[c]]
           end
  end.

Definition splitlines (text : string) : list string :=
  map String.string_of_list_ascii (lines_of (String.list_ascii_of_string text)).

(** * Promotion advisories *)

Definition ADVISORY_PREFIX : string := "Promoted strategy '".
Definition QUOTE : Ascii.ascii := Ascii.ascii_of_nat 39.

(** The text up to the first quote, and what follows. *)
Fixpoint until_quote (s : string) : string * string :=
  match s with
  | EmptyString => (EmptyString, EmptyString)
  | String c s' => if Ascii.eqb c QUOTE then (EmptyString, s)
                   else let '(name, rest) := until_quote s' in (String c name, rest)
  end.

Fixpoint drop_str (n : nat) (s : string) : string :=
  match n, s with
  | O, _ => s
  | S n', String _ s' => drop_str n' s'
  | _, EmptyString => EmptyString
  end.

(** [_PROMOTION_ADVISORY_RE.match(line.strip())]: the strategy it names. *)
Definition advisory_strategy (line : string) : option string :=
  let l := strip line in
  if String.prefix ADVISORY_PREFIX l then
    let '(name, rest) := until_quote (drop_str (String.length ADVISORY_PREFIX) l) in
    if negb (String.eqb name "") && String.prefix "':" rest then Some name else None
  else None.

(** The last line of every strategy. *)
Fixpoint newest_by_strategy (i : nat) (lines : list string) (newest : dict nat) : dict nat :=
  match lines with
  | [] => newest
  | line :: rest =>
      newest_by_strategy (S i) rest
        (match advisory_strategy line with Some s => dset s i newest | None => newest end)
  end.

Fixpoint keep_lines (keep : list nat) (i : nat) (lines : list string) : list string :=
  match lines with
  | [] => []
  | line :: rest =>
      let kept := existsb (Nat.eqb i) keep || match advisory_strategy line with Some _ => false | None => true end in
      (if kept then [line] else []) ++ keep_lines keep (S i) rest
  end.

Definition dedupe_lines (lines : list string) : list string :=
  keep_lines (dvalues (newest_by_strategy 0 lines [])) 0 lines.

Definition dedupe_promotion_advisories (text : string) : string :=
  Fmt.join newline (dedupe_lines (splitlines text)).

(** * The store *)

Record PromptStore := { ps_active : dict val; ps_history : dict (list val) }.

(** Which commands Redis answers during a call. *)
Record Link := { ln_get : bool; ln_push : bool; ln_trim : bool; ln_set : bool }.
Definition link_up : Link := {| ln_get := true; ln_push := true; ln_trim := true; ln_set := true |}.

Module Prompts.

Definition empty : PromptStore := {| ps_active := []; ps_history := [] |}.

(** The record as it is read: the stacked advisories of its text collapse. *)
Definition healed (record : val) : val :=
  match record with
  | VDict d => match dget "text" d with
               | Some (VStr text) => VDict (dset "text" (VStr (dedupe_promotion_advisories text)) d)
               | _ => record
               end
  | _ => record
  end.

Definition get_directive (ln : Link) (node : string) (s : PromptStore) : option val :=
  if ln_get ln then healed <$> dget node (ps_active s) else None.

(** [record or {}], of which fields are read. *)
Definition fields_of (record : option val) : res payload :=
  match record with
  | None => Ok []
  | Some (VDict d) => Ok d
  | Some v => if truthy v then Raise AttributeError else Ok []
  end.

Definition get_active_text (ln : Link) (node : string) (s : PromptStore) : res val :=
  let* d := fields_of (get_directive ln node s) in
  let v := dget_or "text" VNone d in Ok (if truthy v then v else VNone).

(** The writes of one call; a command that fails ends them. *)
Definition written (ln : Link) (node : string) (prev : option val) (in_place : bool) (record : payload)
    (s : PromptStore) : PromptStore :=
  let put (h : dict (list val)) := {| ps_active := dset node (VDict record) (ps_active s); ps_history := h |} in
  let keep (h : dict (list val)) := {| ps_active := ps_active s; ps_history := h |} in
  match prev with
  | Some p =>
      if truthy p && negb in_place then
        if ln_push ln then
          let pushed := p :: match dget node (ps_history s) with Some h => h | None => [] end in
          if ln_trim ln then
            let h := dset node (firstn (Z.to_nat PROMPT_DIRECTIVE_HISTORY_CAP) pushed) (ps_history s) in
            if ln_set ln then put h else keep h
          else keep (dset node pushed (ps_history s))
        else s
      else if ln_set ln then put (ps_history s) else s
  | None => if ln_set ln then put (ps_history s) else s
  end.

Definition set_directive (ln : Link) (now node text rationale source : string) (bump_version : bool)
  : M PromptStore val :=
  let! prev := gets (get_directive ln node) in
  let! d := lift (fields_of prev) in
  let prev_text := Fmt.str (let v := dget_or "text" VNone d in if truthy v then v else VStr "") in
  match prev with
  | Some p => if String.eqb (strip text) (strip prev_text) then ret p else
      let in_place := negb bump_version in
      let! version := lift (py_int (dget_or "version" (VInt 0) d)) in
      let record := [("node", VStr node); ("text", VStr text);
                     ("version", VInt (Z.max (version + (if in_place then 0 else 1)) 1));
                     ("rationale", VStr rationale); ("source", VStr source); ("updated_at", VStr now)] in
      do! modify (written ln node prev in_place record) in
      ret (VDict record)
  | None =>
      let record := [("node", VStr node); ("text", VStr text); ("version", VInt (Z.max 1 1));
                     ("rationale", VStr rationale); ("source", VStr source); ("updated_at", VStr now)] in
      do! modify (written ln node prev false record) in
      ret (VDict record)
  end.

(** [lrange(key, 0, limit - 1)] *)
Definition list_history (ln : Link) (node : string) (limit : Z) (s : PromptStore) : list val :=
  if ln_get ln then
    let h := match dget node (ps_history s) with Some h => h | None => [] end in
    let stop := limit - 1 in
    firstn (Z.to_nat ((if stop <? 0 then zlen h + stop else stop) + 1)) h
  else [].

End Prompts.
