(* ===== verification/PromptsFacts.v ===== *)
(** PromptsFacts: while Redis answers, the store of directives refines a log of versions, and a text
    that is read holds one promotion advisory per strategy. *)
From S2P Require Import Prelude StateErr PyFloat FloatFacts PyVal PyMath PyPow Config Params Policy Gitops Store Execution Lifecycle Scorer Tools ToolsFacts FixedFacts Prompts.

(** * The log of versions *)

(** The arguments of a call of [set_directive]. *)
Record Write := {
  w_now : string; w_node : string; w_text : string; w_rationale : string; w_source : string; w_bump : bool;
}.

Definition write (w : Write) (s : PromptStore) : res val * PromptStore :=
  Prompts.set_directive link_up (w_now w) (w_node w) (w_text w) (w_rationale w) (w_source w) (w_bump w) s.

Definition writes (l : list Write) : PromptStore := fold_left (fun s w => snd (write w s)) l Prompts.empty.

Definition directive (w : Write) (text : string) (version : Z) : payload :=
  [("node", VStr (w_node w)); ("text", VStr text); ("version", VInt version);
   ("rationale", VStr (w_rationale w)); ("source", VStr (w_source w)); ("updated_at", VStr (w_now w))].

Definition text_of (d : payload) : string := match dget "text" d with Some (VStr t) => t | _ => "" end.
Definition version_of (d : payload) : Z := match dget "version" d with Some (VInt v) => v | _ => 0 end.

(** The specification: every version there was, the newest first.  A text that says what
    the newest says adds nothing; a refresh replaces the newest under its version. *)
Definition log_step (log : list payload) (w : Write) : list payload :=
  let entry := directive w (dedupe_promotion_advisories (w_text w)) in
  match log with
  | [] => [entry 1]
  | p :: past =>
      if String.eqb (strip (w_text w)) (strip (text_of p)) then log
      else if w_bump w then entry (version_of p + 1) :: log else entry (version_of p) :: past
  end.

Definition log_of (node : string) (l : list Write) : list payload :=
  fold_left log_step (List.filter (fun w => String.eqb (w_node w) node) l) [].

Definition history (node : string) (s : PromptStore) : list val :=
  match dget node (ps_history s) with Some h => h | None => [] end.

Definition well_formed (log : list payload) : Prop :=
  Forall (fun p => exists w t v, p = directive w t v /\ 1 <= v) log /\
  forall i p, log !! i = Some p -> version_of p = zlen log - Z.of_nat i.

(** The store holds the head of the log and the versions before it, as many as it keeps. *)
Definition holds (node : string) (log : list payload) (s : PromptStore) : Prop :=
  Prompts.get_directive link_up node s = VDict <$> head log /\
  history node s = map VDict (firstn 20 (tail log)) /\ well_formed log.

Lemma healed_directive w t v : Prompts.healed (VDict (directive w t v)) = VDict (directive w (dedupe_promotion_advisories t) v).
Proof. reflexivity. Qed.

(** One write, on the node it writes. *)
Lemma write_first w s : Prompts.get_directive link_up (w_node w) s = None ->
  write w s = (Ok (VDict (directive w (w_text w) 1)),
    {| ps_active := dset (w_node w) (VDict (directive w (w_text w) 1)) (ps_active s); ps_history := ps_history s |}).
Proof. intros H. unfold write, Prompts.set_directive, bind, gets, lift. rewrite H. reflexivity. Qed.

Lemma write_next w s w' t v : 1 <= v -> Prompts.get_directive link_up (w_node w) s = Some (VDict (directive w' t v)) ->
  write w s =
    if String.eqb (strip (w_text w)) (strip t) then (Ok (VDict (directive w' t v)), s)
    else let d := VDict (directive w (w_text w) (if w_bump w then v + 1 else v)) in
      (Ok d, {| ps_active := dset (w_node w) d (ps_active s);
                ps_history := if w_bump w
                  then dset (w_node w) (firstn 20 (VDict (directive w' t v) :: history (w_node w) s)) (ps_history s)
                  else ps_history s |}).
Proof.
  intros Hv H. unfold write, Prompts.set_directive, bind, gets, lift. rewrite H.
  cbn [Prompts.fields_of directive dget_or dget String.eqb Ascii.eqb Bool.eqb py_int truthy].
  assert (Fmt.str (if negb (String.eqb t "") then VStr t else VStr "") = t) as E.
  { destruct (String.eqb_spec t "") as [->|]; reflexivity. }
  change (Fmt.str _) with (Fmt.str (if negb (String.eqb t "") then VStr t else VStr "")). rewrite E.
  destruct (String.eqb (strip (w_text w)) (strip t)); [reflexivity|].
  unfold ret, modify. destruct (w_bump w); cbn [negb res_bind].
  - rewrite Z.max_l by lia. reflexivity.
  - rewrite Z.add_0_r, Z.max_l by lia. reflexivity.
Qed.

Lemma well_formed_nil : well_formed [].
Proof. split; [constructor|]. intros i p H. by rewrite lookup_nil in H. Qed.

Lemma well_formed_push log w t : well_formed log -> well_formed (directive w t (zlen log + 1) :: log).
Proof.
  intros [H1 H2]. split.
  - constructor; [|done]. exists w, t, (zlen log + 1). split; [done|]. unfold zlen. lia.
  - intros [|i] p Hp; simpl in Hp; unfold zlen in *; simpl length.
    + injection Hp as <-. unfold version_of. simpl. lia.
    + rewrite (H2 i p Hp). lia.
Qed.

Lemma well_formed_tail p past : well_formed (p :: past) -> well_formed past.
Proof.
  intros [H1 H2]. split; [by inversion H1|]. intros i q Hq. rewrite (H2 (S i) q Hq). unfold zlen. simpl length. lia.
Qed.

Lemma well_formed_head p past : well_formed (p :: past) ->
  exists w t, p = directive w t (zlen past + 1) /\ version_of p = zlen past + 1 /\ 1 <= zlen past + 1.
Proof.
  intros [H1 H2]. inversion H1 as [|? ? (w & t & v & -> & Hv) _]; subst. pose proof (H2 0%nat _ eq_refl) as Hp.
  unfold version_of in *. simpl in *. unfold zlen in *. simpl length in *. exists w, t.
  replace (Z.of_nat (length past) + 1) with v by lia. done.
Qed.

Definition put (node : string) (d : payload) (h : dict (list val)) (s : PromptStore) : PromptStore :=
  {| ps_active := dset node (VDict d) (ps_active s); ps_history := h |}.

Lemma read_put node d h s : Prompts.get_directive link_up node (put node d h s) = Some (Prompts.healed (VDict d)).
Proof. unfold Prompts.get_directive, put. cbn [link_up ln_get ps_active]. by rewrite dget_dset_eq. Qed.

(** A write on its node steps the log. *)
Lemma write_holds log s w : holds (w_node w) log s ->
  (exists v, fst (write w s) = Ok v) /\ holds (w_node w) (log_step log w) (snd (write w s)).
Proof.
  intros (Hr & Hh & Hw). destruct log as [|p past].
  - rewrite (write_first w s Hr). cbn [fst snd]. split; [eauto|]. split_and!.
    + apply (read_put (w_node w) (directive w (w_text w) 1) (ps_history s) s).
    + exact Hh.
    + apply (well_formed_push [] w). apply well_formed_nil.
  - destruct (well_formed_head _ _ Hw) as (w' & t & -> & Hv & Hv1). cbn [fmap option_map head tail] in Hr, Hh.
    rewrite (write_next w s w' t _ Hv1 Hr). cbn [log_step]. change (text_of (directive w' t (zlen past + 1))) with t.
    destruct (String.eqb (strip (w_text w)) (strip t)); cbn [fst snd]; (split; [by eauto|]); [done|].
    destruct (w_bump w); cbn [fst snd].
    + split_and!.
      * apply (read_put (w_node w) (directive w (w_text w) (zlen past + 1 + 1)) _ s).
      * unfold history at 1. cbn [ps_history]. rewrite dget_dset_eq, Hh. cbn [tail firstn map]. f_equal.
        rewrite List.firstn_map, firstn_firstn. reflexivity.
      * rewrite Hv. pose proof (well_formed_push _ w (dedupe_promotion_advisories (w_text w)) Hw) as Hp.
        unfold zlen in *. simpl length in Hp. replace (Z.of_nat (length past) + 1 + 1) with (Z.of_nat (S (length past)) + 1) by lia.
        exact Hp.
    + split_and!.
      * apply (read_put (w_node w) (directive w (w_text w) (zlen past + 1)) (ps_history s) s).
      * exact Hh.
      * rewrite Hv. apply well_formed_push. by apply well_formed_tail in Hw.
Qed.

(** It leaves the other nodes alone. *)
Lemma write_other log log' s w node : holds (w_node w) log s -> node <> w_node w -> holds node log' s ->
  holds node log' (snd (write w s)).
Proof.
  intros (Hr & _ & Hw) Hn Hs.
  assert (forall d h, history node (put (w_node w) d h s) = history node s -> holds node log' (put (w_node w) d h s)) as Hput.
  { intros d h Eh. destruct Hs as (H1 & H2 & H3). split_and!; [|by rewrite Eh|done]. rewrite <- H1.
    unfold Prompts.get_directive, put. cbn [link_up ln_get ps_active]. by rewrite dget_dset_ne. }
  destruct log as [|p past].
  - rewrite (write_first w s Hr). cbn [snd]. by apply (Hput (directive w (w_text w) 1) (ps_history s)).
  - destruct (well_formed_head _ _ Hw) as (w' & t & -> & Hv & Hv1). cbn [fmap option_map head] in Hr.
    rewrite (write_next w s w' t _ Hv1 Hr). destruct (String.eqb (strip (w_text w)) (strip t)); cbn [snd]; [done|].
    apply Hput. destruct (w_bump w); [|done]. unfold history, put. cbn [ps_history]. by rewrite dget_dset_ne.
Qed.

Lemma log_of_snoc node l w :
  log_of node (l ++ [w]) = if String.eqb (w_node w) node then log_step (log_of node l) w else log_of node l.
Proof.
  unfold log_of. rewrite List.filter_app. cbn [List.filter]. destruct (String.eqb (w_node w) node).
  - by rewrite fold_left_app.
  - by rewrite app_nil_r.
Qed.

Lemma writes_snoc l w : writes (l ++ [w]) = snd (write w (writes l)).
Proof. unfold writes. by rewrite fold_left_app. Qed.

Lemma writes_hold l : forall node, holds node (log_of node l) (writes l).
Proof.
  induction l as [|w l IH] using rev_ind; intros node; [split_and!; [done..|apply well_formed_nil]|].
  rewrite log_of_snoc, writes_snoc. destruct (String.eqb_spec (w_node w) node) as [<-|Hn].
  - apply write_holds, IH.
  - apply (write_other (log_of (w_node w) l)); [apply IH|congruence|apply IH].
Qed.

(** C28: While Redis answers every command, the store of directives refines a log of versions.
    A write whose text says what the newest version says adds nothing, a refresh (a write
    with bump_version off) replaces the newest version under its number, and any other
    write adds a version. After any writes, on any nodes, the next write returns a directive,
    the directive that is read is the newest version, the history is the twenty versions
    before it in order, and the versions of a node are numbered 1, 2, 3 and on without a
    gap. A read that Redis does not answer is outside this: the write after it starts again
    at version 1. *)
Theorem directives_refine_log l node : let s := writes l in let log := log_of node l in
  (forall w, exists v, fst (write w s) = Ok v) /\
  Prompts.get_directive link_up node s = VDict <$> head log /\
  Prompts.list_history link_up node PROMPT_DIRECTIVE_HISTORY_CAP s = map VDict (firstn 20 (tail log)) /\
  (forall i p, log !! i = Some p -> version_of p = zlen log - Z.of_nat i).
Proof.
  cbv zeta. destruct (writes_hold l node) as (H1 & H2 & _ & H3). split_and!; [|done| |done].
  - intros w. apply (write_holds (log_of (w_node w) l)), writes_hold.
  - unfold Prompts.list_history. cbn [link_up ln_get]. fold (history node (writes l)). rewrite H2.
    change (Z.to_nat _) with 20%nat. rewrite List.firstn_map, firstn_firstn. reflexivity.
Qed.

(** * Lines *)

(** A line holds no break. *)
Definition unbroken (l : list Ascii.ascii) : Prop := Forall (fun c => is_break c = false) l.
Definition one_line (s : string) : Prop := unbroken (String.list_ascii_of_string s).

Lemma lines_of_unbroken l : Forall unbroken (lines_of l).
Proof.
  induction l as [l IH] using (induction_ltof1 _ (@length _)). unfold ltof in IH.
  destruct l as [|c l']; [constructor|]. cbn [lines_of]. destruct (is_break c) eqn:E.
  - constructor; [constructor|]. destruct l' as [|c' l'']; [constructor|].
    destruct (Ascii.eqb c CR && Ascii.eqb c' LF); apply IH; simpl; lia.
  - assert (Forall unbroken (lines_of l')) as H by (apply IH; simpl; lia).
    destruct (lines_of l') as [|line rest]; [repeat constructor; done|].
    inversion H as [|? ? H1 H2]; subst. constructor; [by constructor|done].
Qed.

Lemma splitlines_one_line text : Forall one_line (splitlines text).
Proof.
  unfold splitlines. apply Forall_map. eapply Forall_impl; [exact (lines_of_unbroken _)|]. intros l Hl.
  unfold one_line. by rewrite String.list_ascii_of_string_of_list_ascii.
Qed.

Lemma lines_of_break l m : unbroken l -> lines_of (l ++ LF :: m) = l :: lines_of m.
Proof.
  induction 1 as [|c l Hc _ IH]; cbn [app lines_of].
  - change (is_break LF) with true. cbn. destruct m as [|c' m']; [done|].
    change (Ascii.eqb LF CR) with false. done.
  - by rewrite Hc, IH.
Qed.

Lemma lines_of_line l : unbroken l -> l <> [] -> lines_of l = [l].
Proof.
  induction 1 as [|c l Hc Hl IH]; intros Hn; [done|]. cbn [lines_of]. rewrite Hc.
  destruct l as [|c' l']; [done|]. by rewrite IH.
Qed.

Lemma splitlines_cons s t : one_line s -> splitlines (s +:+ newline +:+ t) = s :: splitlines t.
Proof.
  intros Hs. unfold splitlines. rewrite !list_ascii_app. cbn [newline String.list_ascii_of_string app].
  rewrite lines_of_break by done. cbn [map]. by rewrite String.string_of_list_ascii_of_string.
Qed.

Lemma splitlines_line s : one_line s -> s <> "" -> splitlines s = [s].
Proof.
  intros Hs Hn. unfold splitlines. rewrite lines_of_line; [by rewrite <- (String.string_of_list_ascii_of_string s) at 2|done|].
  destruct s; [done|discriminate].
Qed.

Definition joined (ls : list string) : string := Fmt.join newline ls.

Lemma joined_cons s ls : ls <> [] -> joined (s :: ls) = s +:+ newline +:+ joined ls.
Proof. destruct ls; done. Qed.

(** The lines of joined lines are those lines, an empty last one apart. *)
Lemma splitlines_joined ls : Forall one_line ls ->
  splitlines (joined ls) = ls \/ ls = splitlines (joined ls) ++ [""].
Proof.
  induction 1 as [|s ls Hs Hl IH]; [by left|]. destruct ls as [|s' ls].
  - unfold joined. cbn [Fmt.join]. destruct (String.eqb_spec s "") as [->|Hn]; [by right|left; by apply splitlines_line].
  - rewrite joined_cons, splitlines_cons by done.
    destruct IH as [->|E]; [by left|right]. cbn [app]. by rewrite <- E.
Qed.

Lemma splitlines_joined_last ls s : Forall one_line ls -> one_line s -> s <> "" ->
  splitlines (joined (ls ++ [s])) = ls ++ [s].
Proof.
  intros Hl Hs Hn. destruct (splitlines_joined (ls ++ [s])) as [|E]; [by apply Forall_app; repeat constructor|done|].
  apply app_inj_tail in E as [_ E]. congruence.
Qed.

(** * Advisories *)

Definition advised (lines : list string) : list string := omap advisory_strategy lines.

Lemma advised_cons line rest :
  advised (line :: rest) = match advisory_strategy line with Some s => s :: advised rest | None => advised rest end.
Proof. reflexivity. Qed.

(** The reference: a line stays unless a later one advises the same strategy. *)
Fixpoint newest_only (lines : list string) : list string :=
  match lines with
  | [] => []
  | line :: rest =>
      match advisory_strategy line with
      | Some s => if bool_decide (s ∈ advised rest) then newest_only rest else line :: newest_only rest
      | None => line :: newest_only rest
      end
  end.

Lemma newest_get s lines : forall i newest,
  dget s (newest_by_strategy i lines newest) =
    match dget s (newest_by_strategy i lines []) with Some j => Some j | None => dget s newest end.
Proof.
  induction lines as [|line rest IH]; intros i newest; [done|]. cbn [newest_by_strategy].
  rewrite IH. symmetry. rewrite IH. symmetry. destruct (dget s (newest_by_strategy (S i) rest [])); [done|].
  destruct (advisory_strategy line) as [s'|]; [|done]. rewrite !dget_dset. by destruct (String.eqb s s').
Qed.

Lemma newest_bounds s lines : forall i j, dget s (newest_by_strategy i lines []) = Some j ->
  (i <= j)%nat /\ exists line, lines !! (j - i)%nat = Some line /\ advisory_strategy line = Some s.
Proof.
  induction lines as [|line rest IH]; intros i j; [done|]. cbn [newest_by_strategy]. rewrite newest_get.
  destruct (dget s (newest_by_strategy (S i) rest [])) as [k|] eqn:E.
  - intros [= <-]. destruct (IH _ _ E) as (Hk & l & Hl & Ha). split; [lia|]. exists l. split; [|done].
    replace (k - i)%nat with (S (k - S i)) by lia. exact Hl.
  - destruct (advisory_strategy line) as [s'|] eqn:Ea; [|done]. rewrite dget_dset.
    destruct (String.eqb_spec s s') as [->|]; [|done]. intros [= <-]. split; [lia|]. exists line.
    by replace (i - i)%nat with 0%nat by lia.
Qed.

Lemma newest_none s lines i : dget s (newest_by_strategy i lines []) = None <-> s ∉ advised lines.
Proof.
  revert i. induction lines as [|line rest IH]; intros i; [split; [intros _; apply not_elem_of_nil|done]|].
  cbn [newest_by_strategy advised omap list_omap]. rewrite newest_get.
  destruct (advisory_strategy line) as [s'|] eqn:Ea; rewrite ?not_elem_of_cons, <- (IH (S i)).
  - rewrite dget_dset. destruct (dget s (newest_by_strategy (S i) rest [])); [naive_solver|].
    destruct (String.eqb_spec s s'); naive_solver.
  - by destruct (dget s (newest_by_strategy (S i) rest [])).
Qed.

Lemma newest_nodup lines : forall i newest, NoDup (dkeys newest) -> NoDup (dkeys (newest_by_strategy i lines newest)).
Proof.
  induction lines as [|line rest IH]; intros i newest H; [done|]. cbn [newest_by_strategy]. apply IH.
  destruct (advisory_strategy line); [by apply dset_NoDup|done].
Qed.

Lemma newest_app l1 : forall l2 i newest,
  newest_by_strategy i (l1 ++ l2) newest = newest_by_strategy (i + length l1) l2 (newest_by_strategy i l1 newest).
Proof.
  induction l1 as [|line l1 IH]; intros l2 i newest; cbn [app newest_by_strategy length]; [by rewrite Nat.add_0_r|].
  rewrite IH. by replace (S i + length l1)%nat with (i + S (length l1))%nat by lia.
Qed.

(** The index kept for a strategy is that of its last line. *)
Lemma newest_last lines j line s : lines !! j = Some line -> advisory_strategy line = Some s ->
  (dget s (newest_by_strategy 0 lines []) = Some j <-> s ∉ advised (drop (S j) lines)).
Proof.
  intros Hj Ha. rewrite <- (take_drop_middle lines j line Hj) at 1. rewrite newest_app. cbn [newest_by_strategy].
  rewrite Ha, length_take, Nat.min_l by (apply lookup_lt_Some in Hj; lia). rewrite newest_get.
  destruct (dget s (newest_by_strategy (S (0 + j)) (drop (S j) lines) [])) as [k|] eqn:E.
  - pose proof (newest_bounds _ _ _ _ E) as [Hk _]. split; [intros [= ->]; lia|].
    intros Hn. apply (newest_none _ _ (S (0 + j))) in Hn. congruence.
  - apply newest_none in E. rewrite dget_dset, String.eqb_refl. done.
Qed.

Lemma kept_iff lines j line s : lines !! j = Some line -> advisory_strategy line = Some s ->
  (existsb (Nat.eqb j) (dvalues (newest_by_strategy 0 lines [])) = true <-> s ∉ advised (drop (S j) lines)).
Proof.
  intros Hj Ha. rewrite <- (newest_last lines j line s Hj Ha).
  assert (NoDup (dkeys (newest_by_strategy 0 lines []))) as Hnd by (apply newest_nodup; constructor). split.
  - intros H. apply existsb_exists in H as (j' & Hin & E). apply Nat.eqb_eq in E as <-.
    apply VersionFacts.In_dvalues in Hin as [k Hk]. apply (VersionFacts.In_dget k j _ Hnd) in Hk.
    pose proof (newest_bounds _ _ _ _ Hk) as (_ & l & Hl & Hs). rewrite Nat.sub_0_r, Hj in Hl. simplify_eq. congruence.
  - intros H. apply existsb_exists. exists j. split; [|apply Nat.eqb_refl]. apply dget_Some_In in H.
    unfold dvalues. apply list_elem_of_In, in_map_iff in H || apply list_elem_of_In in H.
    apply in_map_iff. by exists (s, j).
Qed.

Lemma keep_lines_newest keep lines : forall i,
  (forall j line s, lines !! j = Some line -> advisory_strategy line = Some s ->
     (existsb (Nat.eqb (i + j)) keep = true <-> s ∉ advised (drop (S j) lines))) ->
  keep_lines keep i lines = newest_only lines.
Proof.
  induction lines as [|line rest IH]; intros i H; [done|]. cbn [keep_lines newest_only].
  rewrite (IH (S i)).
  - destruct (advisory_strategy line) as [s|] eqn:Ea; [|by rewrite orb_true_r].
    pose proof (H 0%nat line s eq_refl Ea) as H0. rewrite Nat.add_0_r in H0. cbn [drop] in H0. rewrite drop_0 in H0.
    rewrite orb_false_r. destruct (existsb (Nat.eqb i) keep).
    + rewrite bool_decide_eq_false_2 by (by apply H0). done.
    + rewrite bool_decide_eq_true_2; [done|]. destruct (decide (s ∈ advised rest)) as [|Hn]; [done|].
      apply H0 in Hn. discriminate.
  - intros j l s Hj Ha. replace (S i + j)%nat with (i + S j)%nat by lia. exact (H (S j) l s Hj Ha).
Qed.

Lemma dedupe_lines_newest lines : dedupe_lines lines = newest_only lines.
Proof. unfold dedupe_lines. apply keep_lines_newest. intros j line s. apply kept_iff. Qed.

Lemma newest_only_advised lines s : s ∈ advised (newest_only lines) <-> s ∈ advised lines.
Proof.
  induction lines as [|line rest IH]; [done|]. cbn [newest_only]. rewrite (advised_cons line rest).
  destruct (advisory_strategy line) as [t|] eqn:Ea; [case_bool_decide as Hin|]; rewrite ?advised_cons, ?Ea, ?elem_of_cons, IH; [|done..].
  split; [by right|]. intros [->|]; done.
Qed.

Lemma newest_only_nodup lines : NoDup (advised (newest_only lines)).
Proof.
  induction lines as [|line rest IH]; [constructor|]. cbn [newest_only].
  destruct (advisory_strategy line) as [t|] eqn:Ea; [case_bool_decide as Hin; [exact IH|]|]; rewrite advised_cons, Ea; [|exact IH].
  constructor; [|exact IH]. rewrite newest_only_advised. exact Hin.
Qed.

Lemma newest_only_id lines : NoDup (advised lines) -> newest_only lines = lines.
Proof.
  induction lines as [|line rest IH]; [done|]. cbn [newest_only]. rewrite advised_cons.
  destruct (advisory_strategy line) as [t|] eqn:Ea; intros H; [|by rewrite IH].
  apply NoDup_cons in H as [Hn H]. rewrite bool_decide_eq_false_2 by done. by rewrite IH.
Qed.

Lemma newest_only_Forall (P : string -> Prop) lines : Forall P lines -> Forall P (newest_only lines).
Proof.
  induction 1 as [|line rest H _ IH]; [constructor|]. cbn [newest_only].
  destruct (advisory_strategy line); [case_bool_decide; [done|]|]; by constructor.
Qed.

Lemma advised_app l1 l2 : advised (l1 ++ l2) = advised l1 ++ advised l2.
Proof. apply omap_app. Qed.

Lemma advised_joined ls : Forall one_line ls -> advised (splitlines (joined ls)) = advised ls.
Proof.
  intros H. destruct (splitlines_joined ls H) as [->|E]; [done|].
  rewrite E at 2. rewrite advised_app. by rewrite app_nil_r.
Qed.

Lemma deduped_advised text : let t := dedupe_promotion_advisories text in
  advised (splitlines t) = advised (newest_only (splitlines text)).
Proof.
  unfold dedupe_promotion_advisories. rewrite dedupe_lines_newest. apply advised_joined, newest_only_Forall, splitlines_one_line.
Qed.

(** Reading heals: whatever a directive holds, the text that is read has at most one
    advisory line per strategy, it advises exactly the strategies it advised before, and
    what it keeps of each strategy is its last line; a second reading changes nothing. *)
Theorem advisories_read_once text : let t := dedupe_promotion_advisories text in
  NoDup (advised (splitlines t)) /\ (forall s, s ∈ advised (splitlines t) <-> s ∈ advised (splitlines text)) /\
  dedupe_lines (splitlines text) = newest_only (splitlines text) /\
  dedupe_lines (splitlines t) = splitlines t.
Proof.
  cbv zeta. pose proof (deduped_advised text) as E. cbv zeta in E. rewrite !dedupe_lines_newest, !E.
  split_and!; [apply newest_only_nodup|intros s; apply newest_only_advised|done|].
  apply newest_only_id. rewrite E. apply newest_only_nodup.
Qed.
