(* ===== verification/Applier.v ===== *)
(** Applier: the proposal applier, which turns proposals of the learning loop into changes of
    the control plane, the tools, the prompts, the fleet of challengers and the lifecycle
    registry (api/services/agents/proposal_applier.py), the republication of an approved
    proposal (api/services/dashboard/proposals.py) and the reader of the signal weight
    (api/services/agents/reasoning_agent.py).

    The clock, identifiers, the bus, the answers of GitHub and the commands Redis answers are
    the environment of a message.  The text of an issue's body, the notification and the
    heartbeat are left out. *)
From S2P Require Import Prelude StateErr PyFloat FloatFacts PyVal PyMath PyRandom PyPow Config Agents Decision Gate Params Policy Filters Gitops Store Lifecycle Scorer Execution Engine Momentum Promotion Shadow Backtest Contender Tools Prompts.

Definition SIGNAL_WEIGHT_REDUCTION : string := "signal_weight_reduction".
Definition AGENT_SUSPENSION : string := "agent_suspension".
Definition AGENT_RETIREMENT : string := "agent_retirement".
Definition PARAMETER_CHANGE : string := "parameter_change".
Definition PROMPT_EVOLUTION : string := "prompt_evolution".
Definition NEW_AGENT : string := "new_agent".
Definition CODE_CHANGE : string := "code_change".
Definition REGIME_ADJUSTMENT : string := "regime_adjustment".
Definition TOOL_GOVERNANCE : string := "tool_governance".
Definition CHALLENGER_PROMOTION : string := "challenger_promotion".

Definition APPROVAL_GATED_PROPOSAL_TYPES : list string := [CHALLENGER_PROMOTION].

Definition REDIS_KEY_TRADING_PAUSED : string := "learning:trading_paused".
Definition REDIS_KEY_TRADING_PAUSED_REASON : string := "learning:trading_paused_reason".
Definition REDIS_KEY_SIGNAL_WEIGHT_SCALE : string := "learning:signal_weight_scale".
Definition REDIS_KEY_AGENT_SUSPENDED (name : string) : string := "learning:agent_suspended:" +:+ name.
Definition SIGNAL_WEIGHT_SCALE_MIN : float := 0.05%F.
Definition SIGNAL_WEIGHT_REDUCTION_FACTOR : float := 0.7%F.
Definition AGENT_SUSPEND_TTL_SECONDS : Z := 86400.
Definition LEARNING_CONTROL_TTL_SECONDS : Z := 90000.
Definition TRADING_PAUSE_PROBATION_SECONDS : Z := 1800.
Definition AGENT_REASONING : string := "REASONING_AGENT".
Definition AGENT_PROPOSAL_APPLIER : string := "PROPOSAL_APPLIER".
Definition SOURCE_PROPOSAL_APPLIER : string := "proposal_applier".
Definition REASONING_NODE : string := "reasoning".
Definition STREAM_GITHUB_PRS : string := "github_prs".
Definition ISSUE_STATUS_WATCH_ITEM : string := "watch_item".
Definition PROPOSAL_SOLID_EVIDENCE_TRADES : Z := 20.

Record Settings := {
  PROMPT_EVOLUTION_AUTO_APPLY : bool;
  CHALLENGER_PROMOTION_AUTO_APPLY : bool;
  PROPOSAL_ISSUE_REQUIRE_SUFFICIENT_EVIDENCE : bool;
  CHALLENGER_GRADUATE_TO_CANARY : bool;
  ALPACA_PAPER : bool;
  AUTOPR_READY : bool;
}.

(** The environment of one message. *)
Record ApplierEnv := {
  ax_settings : Settings;
  ax_now : string;
  ax_clock : float;
  ax_hex : string;
  ax_uuid : string;
  ax_redis : string -> bool;
  ax_link : Link;
  ax_bus : string -> payload -> res unit;
  ax_open_pr : payload -> payload;
  ax_open_issue : string -> list string -> payload;
  ax_challenger_id : string;
  ax_instance_id : string;
}.

(** The control plane: the value of a key and the seconds it still lives. *)
Definition Control : Type := dict (string * Z).

(** The keys Redis still has after [n] seconds. *)
Definition age (n : Z) (c : Control) : Control :=
  map (fun e => (fst e, (fst (snd e), snd (snd e) - n)))
    (List.filter (fun e : string * (string * Z) => n <? snd (snd e)) c).

Record Applier := {
  ap_applied_count : Z;
  ap_applied_keys : list string;
  ap_control : Control;
  ap_prompts : option PromptStore;
  ap_tools : ToolRegistry;
  ap_spawner : option (list ChallengerAgent);
  ap_world : World;
}.

Definition with_applied (n : Z) (keys : list string) (a : Applier) : Applier :=
  {| ap_applied_count := n; ap_applied_keys := keys; ap_control := ap_control a; ap_prompts := ap_prompts a;
     ap_tools := ap_tools a; ap_spawner := ap_spawner a; ap_world := ap_world a |}.
Definition with_control (c : Control) (a : Applier) : Applier :=
  {| ap_applied_count := ap_applied_count a; ap_applied_keys := ap_applied_keys a; ap_control := c;
     ap_prompts := ap_prompts a; ap_tools := ap_tools a; ap_spawner := ap_spawner a; ap_world := ap_world a |}.
Definition with_prompts (p : PromptStore) (a : Applier) : Applier :=
  {| ap_applied_count := ap_applied_count a; ap_applied_keys := ap_applied_keys a; ap_control := ap_control a;
     ap_prompts := Some p; ap_tools := ap_tools a; ap_spawner := ap_spawner a; ap_world := ap_world a |}.
Definition with_tools (r : ToolRegistry) (a : Applier) : Applier :=
  {| ap_applied_count := ap_applied_count a; ap_applied_keys := ap_applied_keys a; ap_control := ap_control a;
     ap_prompts := ap_prompts a; ap_tools := r; ap_spawner := ap_spawner a; ap_world := ap_world a |}.
Definition with_fleet (agents : list ChallengerAgent) (w : World) (a : Applier) : Applier :=
  {| ap_applied_count := ap_applied_count a; ap_applied_keys := ap_applied_keys a; ap_control := ap_control a;
     ap_prompts := ap_prompts a; ap_tools := ap_tools a; ap_spawner := Some agents; ap_world := w |}.
Definition on_world (f : World -> World) (a : Applier) : Applier :=
  {| ap_applied_count := ap_applied_count a; ap_applied_keys := ap_applied_keys a; ap_control := ap_control a;
     ap_prompts := ap_prompts a; ap_tools := ap_tools a; ap_spawner := ap_spawner a; ap_world := f (ap_world a) |}.

(** [n] seconds pass without a message. *)
Definition elapse (n : Z) (a : Applier) : Applier := with_control (age n (ap_control a)) a.

(** [content.get] of a [content] that may not be a dictionary. *)
Definition as_dict (v : val) : res payload := match v with VDict d => Ok d | _ => Raise AttributeError end.
Definition or_else (v w : val) : val := if truthy v then v else w.
Definition opt_str (v : val) : string := Fmt.str (or_else v (VStr "")).

(** * Evidence (proposal_brief.py) *)

Definition TIER_PRELIMINARY : string := "preliminary".
Definition TIER_EMERGING : string := "emerging".
Definition TIER_SOLID : string := "solid".
Definition _EMERGING_EVIDENCE_TRADES : Z := 5.

Definition classify_evidence (sample_size : Z) (has_backtest : bool) : string :=
  if (PROPOSAL_SOLID_EVIDENCE_TRADES <=? sample_size) && has_backtest then TIER_SOLID
  else if _EMERGING_EVIDENCE_TRADES <=? sample_size then TIER_EMERGING else TIER_PRELIMINARY.

(** [int(float(value))]; an infinity raises [OverflowError], which is not caught. *)
Definition _int (v : val) : res Z :=
  match (let* x := py_float v in trunc x) with
  | Raise TypeError | Raise ValueError => Ok 0
  | r => r
  end.

Definition evidence_is_solid (evidence : payload) : res bool :=
  let* sample := _int (dget_or "sample_size" VNone evidence) in
  Ok (String.eqb (classify_evidence sample (truthy (dget_or "backtest" VNone evidence))) TIER_SOLID).

Definition evidence_blocks_issue (evidence : val) : res bool :=
  match evidence with
  | VDict [] => Ok false
  | VDict d =>
      match dget_or "evidence_sufficient" VNone d with
      | VNone => res_map negb (evidence_is_solid d)
      | v => Ok (negb (truthy v))
      end
  | _ => Ok false
  end.

(** * The control plane *)

Definition control_get (ev : ApplierEnv) (key : string) : M Applier (option string) :=
  if ax_redis ev key then gets (fun a => fst <$> dget key (ap_control a)) else raise RuntimeError.

Definition control_set (ev : ApplierEnv) (key value : string) (ttl : Z) : M Applier unit :=
  if ax_redis ev key then modify (fun a => with_control (dset key (value, ttl) (ap_control a)) a)
  else raise RuntimeError.

(** A stored scale, 1.0 when it is absent or malformed. *)
Definition scale_of (raw : option string) : float :=
  match raw with
  | None => 1.0%F
  | Some text => match py_float (VStr text) with Ok x => x | Raise _ => 1.0%F end
  end.

(** [_get_signal_weight_scale]: what the reasoning agent multiplies its confidence by. *)
Definition _get_signal_weight_scale (raw : option string) : float :=
  let scale := scale_of raw in
  if fleb scale 0.0%F || fltb 1.0%F scale then 1.0%F else scale.

(** * GitOps (gitops_publisher.py) *)

Definition dry_run : payload := [("status", VStr "dry_run")].

Definition open_parameter_pr (ev : ApplierEnv) (artifact : payload) : res payload :=
  if negb (AUTOPR_READY (ax_settings ev)) then Ok dry_run
  else
    let parameter := strip (opt_str (dget_or "parameter" VNone artifact)) in
    let* err := validate_param_change parameter (dget_or "proposed_value" VNone artifact) in
    match err with
    | Some e => Ok [("status", VStr "rejected"); ("reason", VStr e)]
    | None => Ok (ax_open_pr ev artifact)
    end.

Definition open_feature_issue (ev : ApplierEnv) (title : string) (labels : list string) : payload :=
  if negb (AUTOPR_READY (ax_settings ev)) then dry_run else ax_open_issue ev title labels.

(** * Handlers

    Each returns what it applied, or nothing.  A raise keeps the mutations before it. *)
Module Handlers.
Section Handlers.
Context `{CPow}.
Variable _hash_config : payload -> string.

Definition is_text (s : string) (v : val) : bool := match v with VStr t => String.eqb t s | _ => false end.

(** A call of the prompt store, when one is installed. *)
Definition with_store {A} (m : M PromptStore A) (none : A) : M Applier A := fun a =>
  match ap_prompts a with
  | None => (Ok none, a)
  | Some s => let '(r, s') := m s in (r, with_prompts s' a)
  end.

Definition _apply_prompt_evolution (ev : ApplierEnv) (content : val) : M Applier (option payload) :=
  if negb (PROMPT_EVOLUTION_AUTO_APPLY (ax_settings ev)) then ret None
  else
    let! store := gets ap_prompts in
    match store with
    | None => ret None
    | Some _ =>
        let! c := lift (as_dict content) in
        let node := or_else (dget_or "node" VNone c) (VStr REASONING_NODE) in
        let text := strip (opt_str (dget_or "text" VNone c)) in
        if String.eqb text "" then ret None
        else
          let! record := with_store (Prompts.set_directive (ax_link ev) (ax_now ev) (Fmt.str node) text
                                       (opt_str (dget_or "rationale" VNone c)) AGENT_PROPOSAL_APPLIER true) VNone in
          let! d := lift (as_dict record) in
          let! version := lift (dindex "version" d) in
          ret (Some [("message", VStr ("adaptive directive for " +:+ Fmt.str node +:+ " → v" +:+ Fmt.str version));
                     ("node", node); ("version", version)])
    end.

(** [spawner.spawn(config)]: the world the challenger started in is the world afterwards. *)
Definition spawn_challenger (ev : ApplierEnv) (config : payload) (agents : list ChallengerAgent)
  : M Applier payload := fun a =>
  let '(d, agents') := spawn _hash_config (ax_challenger_id ev) (ax_instance_id ev) config None (ax_now ev)
                         (ax_clock ev) (ap_world a) agents in
  let w := match guard config (ax_now ev) agents with
           | Some _ => ap_world a
           | None => ca_world (recruit _hash_config (ax_challenger_id ev) (ax_instance_id ev) config None
                                 (ax_clock ev) (ap_world a))
           end in
  (Ok d, with_fleet agents' w a).

Definition issue_message (proposal_type : string) (result : payload) : string :=
  let status := dget_or "status" VNone result in
  if is_text "opened" status then
    "GitHub issue opened for " +:+ proposal_type +:+ ": " +:+ Fmt.str (dget_or "pr_url" VNone result)
  else if is_text "dry_run" status then
    "GitHub issue NOT opened for " +:+ proposal_type +:+ " — GitOps not configured "
    +:+ "(set GITHUB_TOKEN / GITHUB_REPO / GITHUB_AUTOPR_ENABLED); proposal recorded only"
  else "GitHub issue failed for " +:+ proposal_type +:+ " ("
       +:+ Fmt.str (or_else (dget_or "reason" VNone result) status) +:+ ")".

Definition _file_feature_issue (ev : ApplierEnv) (proposal_type : string) (content : val)
  : M Applier (option payload) :=
  let! c := lift (as_dict content) in
  let description := strip (Fmt.str (first_truthy ["description"; "reason"] c (VStr ""))) in
  let evidence := or_else (dget_or "evidence" VNone c) (VDict []) in
  let! blocked := (if PROPOSAL_ISSUE_REQUIRE_SUFFICIENT_EVIDENCE (ax_settings ev)
                   then lift (evidence_blocks_issue evidence) else ret false) in
  if blocked then
    ret (Some [("message", VStr ("GitHub issue NOT opened for " +:+ proposal_type +:+ " — evidence insufficient "
                 +:+ "(recorded as watch-item; escalates once a backtest-backed sample firms up)"));
               ("proposal_type", VStr proposal_type); ("status", VStr ISSUE_STATUS_WATCH_ITEM); ("pr_url", VNone)])
  else
    let summary := String.substring 0 80 description in
    let title := "[auto] " +:+ proposal_type +:+ ": "
                 +:+ (if String.eqb summary "" then "learning-loop proposal" else summary) in
    let result := open_feature_issue ev title ["auto-proposal"; proposal_type] in
    ret (Some [("message", VStr (issue_message proposal_type result)); ("proposal_type", VStr proposal_type);
               ("status", dget_or "status" VNone result); ("pr_url", dget_or "pr_url" VNone result)]).

Definition _apply_new_agent (ev : ApplierEnv) (content : val) : M Applier (option payload) :=
  let! c := lift (as_dict content) in
  let! config := lift (as_dict (or_else (dget_or "challenger_config" VNone c) (VDict []))) in
  let strategy := opt_str (dget_or "strategy" VNone config) in
  let! spawner := gets ap_spawner in
  match spawner with
  | Some agents =>
      if dmem strategy Strategies.STRATEGIES then
        let! d := spawn_challenger ev config agents in
        ret (Some (dmerge [("message", VStr ("challenger spawned for strategy '" +:+ strategy +:+ "'"));
                           ("proposal_type", VStr NEW_AGENT)] d))
      else _file_feature_issue ev NEW_AGENT content
  | None => _file_feature_issue ev NEW_AGENT content
  end.

(** The tools switched off, in order. *)
Fixpoint disable_suggested (suggestions : list val) : M Applier (list string) :=
  match suggestions with
  | [] => ret []
  | VDict d :: rest =>
      if is_text "disable" (dget_or "action" VNone d) then
        match dget_or "tool" VNone d with
        | VStr name =>
            let! switched := (fun a => if String.eqb name "" then (Ok false, a)
                                       else let '(b, r) := Tools.set_enabled name false (ap_tools a) in
                                            (Ok b, with_tools r a)) in
            let! names := disable_suggested rest in
            ret ((if switched : bool then [name] else []) ++ names)
        | VList (_ :: _) | VDict (_ :: _) => raise TypeError
        | _ => disable_suggested rest
        end
      else disable_suggested rest
  | _ :: rest => disable_suggested rest
  end.

Definition _apply_tool_governance (content : val) : M Applier (option payload) :=
  let! c := lift (as_dict content) in
  let! suggestions := lift (iterate (or_else (dget_or "suggestions" VNone c) (VList []))) in
  let! disabled := disable_suggested suggestions in
  match disabled with
  | [] => ret None
  | _ => ret (Some [("message", VStr ("disabled " +:+ pretty (zlen disabled) +:+ " tool(s): "
                                      +:+ Fmt.join ", " disabled));
                    ("tools", VList (map VStr disabled)); ("reason", dget_or "reason" (VStr "") c)])
  end.

(** ** Promotions *)

Definition stale_prefix (strategy : string) : string := "Promoted strategy '" +:+ strategy +:+ "':".
Definition is_stale (strategy line : string) : bool := String.prefix (stale_prefix strategy) (strip line).

(** The text with the advisory of the strategy replaced. *)
Definition biased_text (strategy advisory current : string) : string :=
  strip (Fmt.join newline (List.filter (fun ln => negb (is_stale strategy ln)) (splitlines current) ++ [advisory])).

Definition _bias_directive_toward (ev : ApplierEnv) (strategy advisory : string) : M PromptStore (option val) :=
  let! active := gets (Prompts.get_active_text (ax_link ev) REASONING_NODE) in
  let! v := lift active in
  let! current := lift (match or_else v (VStr "") with VStr t => Ok t | _ => Raise AttributeError end) in
  let had_prior := existsb (is_stale strategy) (splitlines current) in
  let new_text := biased_text strategy advisory current in
  if String.eqb new_text (strip current) then ret None
  else
    let! record := Prompts.set_directive (ax_link ev) (ax_now ev) REASONING_NODE new_text
                     ("operator-approved challenger promotion: " +:+ strategy) AGENT_PROPOSAL_APPLIER
                     (negb had_prior) in
    ret (Some record).

(** The registry's half of a graduation; what it raises is swallowed. *)
Definition advance_lifecycle (strategy : string) (now : float) (r : StrategyRegistry) : string * StrategyRegistry :=
  match Versions.find_by_strategy strategy r with
  | None => ("lifecycle unchanged — strategy not in registry", r)
  | Some rec =>
      if status_eqb (status rec) SHADOW then
        match Versions.transition (version_id (Lifecycle.strategy rec)) CANARY now r with
        | (Ok _, r') => ("lifecycle SHADOW→CANARY (v" +:+ pretty (sv_version (Lifecycle.strategy rec)) +:+ ")", r')
        | (Raise InvalidTransitionError, r') => ("lifecycle transition rejected", r')
        | (Raise _, r') => ("lifecycle transition errored", r')
        end
      else ("lifecycle unchanged — already " +:+ status_value (status rec), r)
  end.

Definition _graduate_strategy (ev : ApplierEnv) (strategy : string) : M Applier string :=
  let! durable := gets (fun a => wo_durable (ap_world a)) in
  do! modify (on_world (fun w => with_durable (ChallengerStore.mark_graduated strategy <$> wo_durable w) w)) in
  let record := match durable with Some _ => "record graduated" | None => "graduation record skipped — no challenger store" end in
  if negb (CHALLENGER_GRADUATE_TO_CANARY (ax_settings ev)) then
    ret (record +:+ "; lifecycle unchanged (graduate-to-canary disabled)")
  else
    let! r := gets (fun a => wo_registry (ap_world a)) in
    let '(text, r') := advance_lifecycle strategy (ax_clock ev) r in
    do! modify (on_world (with_registry r')) in
    ret (record +:+ "; " +:+ text).

Definition advisory_of (strategy : string) (edge confidence : val) : string :=
  "Promoted strategy '" +:+ strategy +:+ "': favor " +:+ strategy +:+ "-aligned setups (beat baseline by edge "
  +:+ Fmt.str edge +:+ ", shadow win-rate " +:+ Fmt.str confidence +:+ ").".

Definition directive_status (store_present : bool) (directive : option val) : res string :=
  match directive with
  | Some d => let* fields := as_dict d in
              let* v := dindex "version" fields in
              Ok ("directive biased (v" +:+ Fmt.str v +:+ ")")
  | None => Ok (if store_present then "directive already biased (idempotent re-approval)"
                else "directive skipped — no prompt store installed")
  end.

(** The candidate's half: its descriptor, and what became of it. *)
Definition spawn_candidate (ev : ApplierEnv) (strategy : string) (c : payload) : M Applier (payload * string) :=
  let config := or_else (dget_or "challenger_config" VNone c) (VDict [("strategy", VStr strategy)]) in
  let! spawner := gets ap_spawner in
  match spawner with
  | None => ret ([], "spawn skipped — challenger spawner unavailable")
  | Some agents =>
      if negb (dmem strategy Strategies.STRATEGIES) then
        ret ([], "spawn skipped — strategy '" +:+ strategy +:+ "' not in backtest.strategies")
      else
        let! config := lift (as_dict config) in
        let! d := spawn_challenger ev config agents in
        ret (d, "candidate spawned")
  end.

Definition _apply_challenger_promotion (ev : ApplierEnv) (content : val) : M Applier (option payload) :=
  let! c := lift (as_dict content) in
  let strategy := opt_str (dget_or "strategy" VNone c) in
  if String.eqb strategy "" then ret None
  else
    let edge := dget_or "shadow_edge" VNone c in
    let advisory := advisory_of strategy edge (dget_or "confidence" VNone c) in
    let! store := gets ap_prompts in
    let present := match store with Some _ => true | None => false end in
    let! directive := with_store (_bias_directive_toward ev strategy advisory) None in
    let! biased := lift (directive_status present directive) in
    let! candidate := spawn_candidate ev strategy c in
    let '(spawned, spawn_status) := candidate in
    let! graduation_status := _graduate_strategy ev strategy in
    let result := dmerge
      [("message", VStr ("challenger '" +:+ strategy +:+ "' promotion applied: " +:+ biased +:+ "; "
                         +:+ spawn_status +:+ "; " +:+ graduation_status));
       ("proposal_type", VStr CHALLENGER_PROMOTION); ("strategy", VStr strategy); ("advisory", VStr advisory);
       ("shadow_edge", edge); ("graduated", VBool true)] spawned in
    ret (Some (match directive with
               | Some (VDict d) => dset "version" (dget_or "version" VNone d) result
               | _ => result
               end)).

(** ** The learning controls *)

(** The weight after one reduction. *)
Definition reduced (current : float) : float := fmax (current * SIGNAL_WEIGHT_REDUCTION_FACTOR)%F SIGNAL_WEIGHT_SCALE_MIN.

(** The scale before and after a reduction, which it stores. *)
Definition reduce_scale (ev : ApplierEnv) : M Applier (float * float) :=
  let! current_raw := control_get ev REDIS_KEY_SIGNAL_WEIGHT_SCALE in
  let current := scale_of current_raw in
  let new_scale := reduced current in
  do! control_set ev REDIS_KEY_SIGNAL_WEIGHT_SCALE (Fmt.fixed 6 new_scale) LEARNING_CONTROL_TTL_SECONDS in
  ret (current, new_scale).

Definition _apply_signal_weight_reduction (ev : ApplierEnv) (content : val) : M Applier (option payload) :=
  let! scales := reduce_scale ev in
  let '(current, new_scale) := scales in
  let! c := lift (as_dict content) in
  ret (Some [("message", VStr ("signal_weight_scale " +:+ Fmt.fixed 4 current +:+ " -> " +:+ Fmt.fixed 4 new_scale));
             ("weight_scale", VFloat (py_round new_scale 6)); ("previous_scale", VFloat (py_round current 6));
             ("reason", dget_or "reason" (VStr "") c)]).

Definition _apply_agent_suspension (ev : ApplierEnv) (content : val) : M Applier (option payload) :=
  let! c := lift (as_dict content) in
  let agent_name := first_truthy ["agent_name"; "agent"; "target_agent"] c (VStr AGENT_REASONING) in
  let suspended_until := (ax_clock ev + of_Z AGENT_SUSPEND_TTL_SECONDS)%F in
  do! control_set ev (REDIS_KEY_AGENT_SUSPENDED (Fmt.str agent_name)) "1" AGENT_SUSPEND_TTL_SECONDS in
  ret (Some [("message", VStr ("agent " +:+ Fmt.str agent_name +:+ " suspended for "
                               +:+ pretty AGENT_SUSPEND_TTL_SECONDS +:+ "s"));
             ("agent_name", agent_name); ("suspended_until", VFloat suspended_until);
             ("reason", dget_or "reason" (VStr "") c)]).

Definition _apply_trading_pause (ev : ApplierEnv) (content : val) : M Applier (option payload) :=
  let! c := lift (as_dict content) in
  let reason := or_else (dget_or "reason" VNone c) (VStr "grade F retirement proposal") in
  let paper := ALPACA_PAPER (ax_settings ev) in
  let pause_ttl := if paper then TRADING_PAUSE_PROBATION_SECONDS else LEARNING_CONTROL_TTL_SECONDS in
  do! control_set ev REDIS_KEY_TRADING_PAUSED "1" pause_ttl in
  do! control_set ev REDIS_KEY_TRADING_PAUSED_REASON (Fmt.str reason) pause_ttl in
  if negb paper then
    ret (Some [("message", VStr ("LIVE trading halted for " +:+ pretty pause_ttl
                                 +:+ "s pending review (no auto-resume): " +:+ Fmt.str reason));
               ("reason", reason)])
  else
    let! scales := reduce_scale ev in
    let '(current, new_scale) := scales in
    ret (Some [("message", VStr ("trading paused " +:+ pretty TRADING_PAUSE_PROBATION_SECONDS
                 +:+ "s (probation), then resumes at signal weight " +:+ Fmt.fixed 4 new_scale +:+ ": "
                 +:+ Fmt.str reason));
               ("reason", reason); ("weight_scale", VFloat (py_round new_scale 6));
               ("previous_scale", VFloat (py_round current 6))]).

(** ** Parameter changes *)

Definition publish_to (ev : ApplierEnv) (stream : string) (p : payload) : M Applier unit :=
  do! lift (ax_bus ev stream p) in
  modify (on_world (fun w => with_published (wo_published w ++ [(stream, p)]) w)).

Definition pr_request (ev : ApplierEnv) (parameter previous proposed reason trace_id : val) : payload :=
  [("msg_id", VStr (ax_uuid ev)); ("type", VStr "pr_request"); ("source", VStr SOURCE_PROPOSAL_APPLIER);
   ("proposal_type", VStr PARAMETER_CHANGE); ("parameter", parameter); ("previous_value", previous);
   ("proposed_value", proposed); ("reason", reason); ("trace_id", trace_id); ("timestamp", VStr (ax_now ev))].

Definition pr_message (change : string) (result : payload) : string :=
  let status := dget_or "status" VNone result in
  if is_text "opened" status then
    "config PR opened for " +:+ change +:+ " (" +:+ Fmt.str (dget_or "pr_url" VNone result) +:+ ")"
  else if is_text "dry_run" status then
    "PR artifact queued for " +:+ change +:+ "; auto-PR dry-run — GitOps not configured "
    +:+ "(set GITHUB_TOKEN / GITHUB_REPO / GITHUB_AUTOPR_ENABLED)"
  else "PR artifact queued for " +:+ change +:+ "; auto-PR failed ("
       +:+ Fmt.str (or_else (dget_or "reason" VNone result) status) +:+ ") — left for the GitHub Action".

Definition _emit_param_change_artifact (ev : ApplierEnv) (content trace_id : val) : M Applier (option payload) :=
  let! c := lift (as_dict content) in
  let parameter := dget_or "parameter" VNone c in
  if negb (truthy parameter) then ret None
  else
    let previous := dget_or "previous_value" VNone c in
    let proposed := dget_or "new_value" VNone c in
    let reason := dget_or "reason" (VStr "") c in
    let! err := lift (validate_param_change (Fmt.str parameter) proposed) in
    match err with
    | Some _ => ret None
    | None =>
        do! publish_to ev STREAM_GITHUB_PRS (pr_request ev parameter previous proposed reason trace_id) in
        let! result := lift (open_parameter_pr ev
          [("parameter", parameter); ("previous_value", previous); ("proposed_value", proposed); ("reason", reason);
           ("trace_id", trace_id)]) in
        let change := Fmt.str parameter +:+ ": " +:+ Fmt.str previous +:+ " -> " +:+ Fmt.str proposed in
        let opened := is_text "opened" (dget_or "status" VNone result) in
        ret (Some [("message", VStr (pr_message change result)); ("parameter", parameter); ("previous_value", previous);
                   ("proposed_value", proposed); ("status", VStr (if opened then "opened" else "pending_pr"));
                   ("reason", reason); ("pr_url", dget_or "pr_url" VNone result)])
    end.

End Handlers.
End Handlers.

(** * The consumer *)
Section Process.
Context `{CPow}.
Variable _hash_config : payload -> string.

(** [isinstance(v, Hashable)]: what a dictionary or a set can be asked for. *)
Definition hashable (v : val) : res val :=
  match v with VList _ | VDict _ => Raise TypeError | _ => Ok v end.

Definition trace_of (ev : ApplierEnv) (data : payload) : val :=
  or_else (dget_or "trace_id" VNone data) (VStr ("applier_" +:+ ax_hex ev)).

(** The identity of a proposal; an approval is another identity. *)
Definition identity_key (data : payload) (proposal_type trace_id : val) : string :=
  Fmt.str (or_else (dget_or "msg_id" VNone data) (VStr (Fmt.str proposal_type +:+ ":" +:+ Fmt.str trace_id)))
  +:+ "|approved=" +:+ Fmt.str (VBool (truthy (dget_or "approved" VNone data))).

(** A thousand identities are remembered, the oldest forgotten first. *)
Definition remember (key : string) (keys : list string) : list string := slice_last 1000 (keys ++ [key]).

Definition _already_applied (data : payload) (proposal_type trace_id : val) : M Applier bool :=
  let key := identity_key data proposal_type trace_id in
  let! keys := gets ap_applied_keys in
  if one_of key keys then ret true
  else do! modify (fun a => with_applied (ap_applied_count a) (remember key (ap_applied_keys a)) a) in ret false.

(** The dispatch table. *)
Definition handler (ev : ApplierEnv) (proposal_type : val) (content trace_id : val) : option (M Applier (option payload)) :=
  match proposal_type with
  | VStr t =>
      dget t
        [(SIGNAL_WEIGHT_REDUCTION, Handlers._apply_signal_weight_reduction ev content);
         (AGENT_SUSPENSION, Handlers._apply_agent_suspension ev content);
         (AGENT_RETIREMENT, Handlers._apply_trading_pause ev content);
         (PARAMETER_CHANGE, Handlers._emit_param_change_artifact ev content trace_id);
         (PROMPT_EVOLUTION, Handlers._apply_prompt_evolution ev content);
         (NEW_AGENT, Handlers._apply_new_agent _hash_config ev content);
         (CODE_CHANGE, Handlers._file_feature_issue ev CODE_CHANGE content);
         (REGIME_ADJUSTMENT, Handlers._file_feature_issue ev REGIME_ADJUSTMENT content);
         (TOOL_GOVERNANCE, Handlers._apply_tool_governance content);
         (CHALLENGER_PROMOTION, Handlers._apply_challenger_promotion _hash_config ev content)]
  | _ => None
  end.

(** [proposal_type in APPROVAL_GATED_PROPOSAL_TYPES] *)
Definition gated_type (proposal_type : val) : bool :=
  match proposal_type with VStr t => one_of t APPROVAL_GATED_PROPOSAL_TYPES | _ => false end.

Definition is_promotion (proposal_type : val) : bool := Handlers.is_text CHALLENGER_PROMOTION proposal_type.

(** It waits for an operator. *)
Definition pending (ev : ApplierEnv) (data : payload) (proposal_type : val) : bool :=
  gated_type proposal_type && negb (truthy (dget_or "approved" VNone data)) &&
  negb (is_promotion proposal_type && CHALLENGER_PROMOTION_AUTO_APPLY (ax_settings ev)).

Definition log_payload (ev : ApplierEnv) (proposal_type action trace_id : val) (applied : payload) : payload :=
  [("source", VStr SOURCE_PROPOSAL_APPLIER); ("agent_name", VStr AGENT_PROPOSAL_APPLIER);
   ("proposal_type", proposal_type); ("action", action); ("applied", VBool true); ("applied_at", VStr (ax_now ev));
   ("applied_by", VStr AGENT_PROPOSAL_APPLIER); ("trace_id", trace_id);
   ("message", dget_or "message" (VStr "") applied); ("payload", VDict applied); ("status", VStr "applied");
   ("content", VDict applied); ("requires_approval", VBool false); ("msg_id", VStr (ax_uuid ev))].

(** [write_agent_log] without a database (db_helpers.py). *)
Definition write_agent_log (ev : ApplierEnv) (trace_id : val) (log_type : string) (p : payload) (s : InMemoryStore)
  : InMemoryStore :=
  let s := snd (Store.add_event
    [("log_type", VStr log_type); ("trace_id", trace_id); ("agent_run_id", VNone); ("payload", VDict p)]
    (ax_clock ev) s) in
  let message := first_truthy ["message"; "content"; "reason"; "primary_edge"] p (VStr log_type) in
  snd (Store.add_agent_log
    [("id", VStr ("mem-" +:+ pretty (zlen (st_agent_logs s) + 1)));
     ("agent_name", first_truthy ["source"; "agent"; "agent_name"] p (VStr log_type)); ("message", message);
     ("reasoning", or_else (dget_or "reasoning" VNone p) message); ("log_level", VStr "info"); ("trace_id", trace_id);
     ("log_type", VStr log_type);
     ("confidence", or_else (dget_or "confidence_score" VNone p) (dget_or "confidence" VNone p));
     ("timestamp", or_else (dget_or "timestamp" VNone p) (VStr (ax_now ev)))]
    (ax_clock ev) s).

(** The handler's [try]: what it raises is swallowed, what it did stays. *)
Definition attempted {A} (m : M Applier (option A)) : M Applier (option A) := fun a =>
  match m a with (Ok r, a') => (Ok r, a') | (Raise _, a') => (Ok None, a') end.

Definition process (ev : ApplierEnv) (data : payload) : M Applier unit :=
  let proposal_type := dget_or "proposal_type" VNone data in
  let content := or_else (dget_or "content" VNone data) (VDict []) in
  let action := match content with VDict c => dget_or "action" VNone c | _ => VNone end in
  let trace_id := trace_of ev data in
  let! seen := _already_applied data proposal_type trace_id in
  if seen : bool then ret tt
  else
    let! proposal_type := lift (hashable proposal_type) in
    if pending ev data proposal_type then ret tt
    else
      match handler ev proposal_type content trace_id with
      | None => ret tt
      | Some run =>
          let! applied := attempted run in
          match applied with
          | None => ret tt
          | Some d =>
              do! modify (fun a => with_applied (ap_applied_count a + 1) (ap_applied_keys a) a) in
              modify (on_world (fun w => with_events
                (write_agent_log ev trace_id "proposal" (log_payload ev proposal_type action trace_id d) (wo_store w)) w))
          end
      end.

(** [_as_dict] of a value that may be the text of a document, with [json.loads] given. *)
Definition _as_dict (json : string -> res val) (v : val) : res payload :=
  match v with
  | VDict d => Ok d
  | VStr text => match json text with Ok (VDict d) => Ok d | Ok _ | Raise ValueError => Ok [] | Raise e => Raise e end
  | _ => Ok []
  end.

(** [republish_approved_proposal]: the message an approval puts on the stream. *)
Definition republish_approved_proposal (json : string -> res val) (p : payload) : res (option payload) :=
  match p with
  | [] => Ok None
  | _ =>
      let* t := hashable (dget_or "proposal_type" VNone p) in
      if negb (gated_type t) then Ok None
      else
        let republished := dset "approved" (VBool true) p in
        let* content := _as_dict json (dget_or "content" VNone republished) in
        let content := if truthy (dget_or "challenger_config" VNone content) then content
                       else dset "challenger_config" (or_else (dget_or "config" VNone republished) (VDict [])) content in
        Ok (Some (dset "content" (VDict content) republished))
  end.

End Process.

Definition init (prompts : option PromptStore) (agents : option (list ChallengerAgent))
    (w : World) : Applier :=
  {| ap_applied_count := 0; ap_applied_keys := []; ap_control := []; ap_prompts := prompts;
     ap_tools := Tools.seeded; ap_spawner := agents; ap_world := w |}.
