(* ===== verification/AdvisoryFacts.v ===== *)
(** AdvisoryFacts: a promotion's advisory line replaces the strategy's last one, and applying
    the same promotion again changes nothing. *)
From S2P Require Import Prelude StateErr PyFloat FloatFacts PyVal PyMath PyRandom PyPow Config Params Policy Gitops Store Execution Lifecycle Scorer Momentum Shadow Contender Tools ToolsFacts FixedFacts Prompts PromptsFacts Applier.

(** * Stripping joined lines *)

Lemma lstrip_suffix l : exists blanks, l = blanks ++ Parse.lstrip l.
Proof.
  induction l as [|c l [b IH]]; [by exists []|]. cbn [Parse.lstrip]. destruct (Parse.is_space c); [|by exists []].
  exists (c :: b). cbn [app]. by rewrite <- IH.
Qed.

Lemma lstrip_idem l : Parse.lstrip (Parse.lstrip l) = Parse.lstrip l.
Proof.
  induction l as [|c l IH]; [done|]. cbn [Parse.lstrip]. destruct (Parse.is_space c) eqn:E; [done|].
  cbn [Parse.lstrip]. by rewrite E.
Qed.

Lemma lstrip_app l m : Parse.lstrip (l ++ m) = match Parse.lstrip l with [] => Parse.lstrip m | x => x ++ m end.
Proof.
  induction l as [|c l IH]; [done|]. cbn [app Parse.lstrip]. destruct (Parse.is_space c); [exact IH|done].
Qed.

Lemma strip_lstrip l : Parse.strip (Parse.lstrip l) = Parse.strip l.
Proof. unfold Parse.strip. by rewrite lstrip_idem. Qed.

(** A text that begins and ends with a character that is not a space. *)
Definition tight (l : list Ascii.ascii) : Prop := l <> [] /\ Parse.strip l = l.

Lemma tight_lstrip l : tight l -> Parse.lstrip l = l.
Proof.
  intros [Hn Hs]. unfold Parse.strip in Hs. destruct (lstrip_suffix l) as [b Hb].
  destruct (lstrip_suffix (rev (Parse.lstrip l))) as [b' Hb'].
  assert (length l = length b + (length b' + length (Parse.lstrip (rev (Parse.lstrip l)))))%nat as Hl.
  { rewrite Hb at 1. rewrite length_app. f_equal. rewrite <- (length_rev (Parse.lstrip l)), Hb' at 1. by rewrite length_app. }
  rewrite <- Hs in Hl at 1. rewrite length_rev in Hl. destruct b; [by symmetry|simpl in Hl; lia].
Qed.

Lemma tight_rstrip l : tight l -> Parse.lstrip (rev l) = rev l.
Proof.
  intros Ht. pose proof (tight_lstrip l Ht) as Hl. destruct Ht as [_ Hs]. unfold Parse.strip in Hs. rewrite Hl in Hs.
  rewrite <- Hs at 2. by rewrite rev_involutive.
Qed.

(** Lines joined by newlines, as characters. *)
Fixpoint chars (ls : list (list Ascii.ascii)) : list Ascii.ascii :=
  match ls with [] => [] | [l] => l | l :: rest => l ++ LF :: chars rest end.

Lemma chars_cons l rest : rest <> [] -> chars (l :: rest) = l ++ LF :: chars rest.
Proof. by destruct rest. Qed.

Lemma chars_joined ls : String.list_ascii_of_string (joined ls) = chars (map String.list_ascii_of_string ls).
Proof.
  induction ls as [|l ls IH]; [done|]. destruct ls as [|l' ls]; [done|].
  rewrite joined_cons by done. rewrite !list_ascii_app, IH. reflexivity.
Qed.

(** The lines without the blank ones at the beginning, the first of the rest stripped. *)
Fixpoint front (ls : list (list Ascii.ascii)) : list (list Ascii.ascii) :=
  match ls with
  | [] => []
  | l :: rest => match Parse.lstrip l with [] => front rest | x => x :: rest end
  end.

Lemma lstrip_chars ls a : tight a -> Parse.lstrip (chars (ls ++ [a])) = chars (front ls ++ [a]).
Proof.
  intros Ha. induction ls as [|l ls IH]; cbn [app front]; [by apply tight_lstrip|].
  rewrite chars_cons by (by destruct ls). rewrite lstrip_app. destruct (Parse.lstrip l) as [|c x] eqn:E.
  - cbn [Parse.lstrip]. change (Parse.is_space LF) with true. exact IH.
  - cbn [app]. rewrite chars_cons by (by destruct ls). done.
Qed.

Lemma chars_last ls a : exists pre, chars (ls ++ [a]) = pre ++ a.
Proof.
  induction ls as [|l ls [pre IH]]; [by exists []|]. cbn [app]. rewrite chars_cons by (by destruct ls).
  exists (l ++ LF :: pre). rewrite IH, <- app_assoc. done.
Qed.

Lemma rstrip_last pre a : tight a -> rev (Parse.lstrip (rev (pre ++ a))) = pre ++ a.
Proof.
  intros Ha. rewrite rev_app_distr, lstrip_app, (tight_rstrip a Ha).
  destruct (rev a) as [|c x] eqn:E; [|by rewrite <- E, <- rev_app_distr, rev_involutive].
  apply (f_equal (@rev _)) in E. rewrite rev_involutive in E. destruct Ha as [Hn _]. done.
Qed.

Lemma strip_chars ls a : tight a -> Parse.strip (chars (ls ++ [a])) = chars (front ls ++ [a]).
Proof.
  intros Ha. unfold Parse.strip. rewrite lstrip_chars by done. destruct (chars_last (front ls) a) as [pre ->].
  by apply rstrip_last.
Qed.

Lemma front_front ls : front (front ls) = front ls.
Proof.
  induction ls as [|l ls IH]; [done|]. cbn [front]. destruct (Parse.lstrip l) as [|c x] eqn:E; [exact IH|].
  cbn [front]. rewrite <- E, lstrip_idem, E. done.
Qed.

(** * The lines of a stripped text *)

Definition text (l : list Ascii.ascii) : string := String.string_of_list_ascii l.

Lemma strip_text l : strip (text l) = text (Parse.strip l).
Proof. unfold strip, text. by rewrite String.list_ascii_of_string_of_list_ascii. Qed.

Lemma strip_text_lstrip l : strip (text (Parse.lstrip l)) = strip (text l).
Proof. by rewrite !strip_text, strip_lstrip. Qed.

Lemma blank_strip l : Parse.lstrip l = [] -> strip (text l) = "".
Proof. intros E. rewrite strip_text. unfold Parse.strip. by rewrite E. Qed.

(** What reads a line through its strip reads the same lines in front. *)
Lemma front_advised ls : advised (map text (front ls)) = advised (map text ls).
Proof.
  induction ls as [|l ls IH]; [done|]. cbn [front map]. rewrite (advised_cons (text l)).
  destruct (Parse.lstrip l) as [|c x] eqn:E.
  - assert (advisory_strategy (text l) = None) as -> by (unfold advisory_strategy; by rewrite (blank_strip l E)). exact IH.
  - cbn [map]. rewrite advised_cons. rewrite <- E.
    assert (advisory_strategy (text (Parse.lstrip l)) = advisory_strategy (text l)) as -> by (unfold advisory_strategy; by rewrite strip_text_lstrip).
    done.
Qed.

Definition fresh (strategy line : string) : Prop := Handlers.is_stale strategy line = false.

Lemma front_fresh strategy ls : Forall (fun l => fresh strategy (text l)) ls -> Forall (fun l => fresh strategy (text l)) (front ls).
Proof.
  induction 1 as [|l ls H Hs IH]; [constructor|]. cbn [front]. destruct (Parse.lstrip l) as [|c x] eqn:E; [done|].
  constructor; [|done]. rewrite <- E. unfold fresh, Handlers.is_stale in *. by rewrite strip_text_lstrip.
Qed.

Lemma unbroken_lstrip l : unbroken l -> unbroken (Parse.lstrip l).
Proof. intros H. destruct (lstrip_suffix l) as [b Hb]. unfold unbroken in *. rewrite Hb in H. by apply Forall_app in H as [_ H]. Qed.

Lemma front_unbroken ls : Forall unbroken ls -> Forall unbroken (front ls).
Proof.
  induction 1 as [|l ls H Hs IH]; [constructor|]. cbn [front]. destruct (Parse.lstrip l) as [|c x] eqn:E; [done|].
  constructor; [|done]. rewrite <- E. by apply unbroken_lstrip.
Qed.

(** * Advisories and their prefix *)

Lemma drop_str_length s : drop_str (String.length s) s = "".
Proof. by induction s. Qed.

Lemma prefix_split p : forall s, String.prefix p s = true -> s = p +:+ drop_str (String.length p) s.
Proof.
  induction p as [|c p IH]; intros s H; [done|]. destruct s as [|c' s]; [discriminate H|]. cbn [String.prefix] in H.
  destruct (Ascii.ascii_dec c c') as [<-|]; [|discriminate H]. rewrite (IH s H) at 1. reflexivity.
Qed.

Lemma prefix_append p s : String.prefix p (p +:+ s) = true.
Proof. induction p as [|c p IH]; [by destruct s|].
  change (String c p +:+ s) with (String c (p +:+ s)). cbn [String.prefix]. destruct (Ascii.ascii_dec c c); [exact IH|done]. Qed.

Lemma until_quote_split s : s = fst (until_quote s) +:+ snd (until_quote s).
Proof.
  induction s as [|c s IH]; [done|]. cbn [until_quote]. destruct (Ascii.eqb c QUOTE); [done|].
  destruct (until_quote s) as [n r]. cbn [fst snd] in *. rewrite IH at 1. reflexivity.
Qed.

Lemma append_assoc (s t u : string) : (s +:+ t) +:+ u = s +:+ (t +:+ u).
Proof. induction s as [|c s IH]; [done|]. change (String c ((s +:+ t) +:+ u) = String c (s +:+ (t +:+ u))). by rewrite IH. Qed.

(** The line that advises a strategy starts with its stale prefix. *)
Lemma advisory_stale line s : advisory_strategy line = Some s -> Handlers.is_stale s line = true.
Proof.
  unfold advisory_strategy, Handlers.is_stale. set (l := strip line).
  destruct (String.prefix ADVISORY_PREFIX l) eqn:Ep; [|done]. apply prefix_split in Ep.
  set (rest := drop_str _ l) in *. pose proof (until_quote_split rest) as Eu. destruct (until_quote rest) as [name r]. cbn [fst snd] in Eu.
  destruct (negb (String.eqb name "")); cbn [andb]; [|done]. destruct (String.prefix "':" r) eqn:Er; [|done].
  intros [= ->]. apply prefix_split in Er. rewrite Ep, Eu, Er. unfold Handlers.stale_prefix, ADVISORY_PREFIX.
  rewrite <- !append_assoc. apply prefix_append.
Qed.

Lemma filtered_advised (p : string -> bool) ls : sublist (advised (List.filter p ls)) (advised ls).
Proof.
  induction ls as [|l ls IH]; [constructor|]. cbn [List.filter]. rewrite (advised_cons l ls).
  destruct (p l); [rewrite advised_cons|]; destruct (advisory_strategy l); try done; by constructor.
Qed.

Lemma filter_fresh strategy ls : Forall (fresh strategy) ls ->
  List.filter (fun ln => negb (Handlers.is_stale strategy ln)) ls = ls /\ List.filter (Handlers.is_stale strategy) ls = [].
Proof.
  induction 1 as [|l ls Hl _ [IH1 IH2]]; [done|]. cbn [List.filter]. unfold fresh in Hl. rewrite Hl. cbn [negb]. by rewrite IH1, IH2.
Qed.

(** ** The biased text *)
Section Bias.
Variables strategy advisory : string.
Hypothesis names : advisory_strategy advisory = Some strategy.
Hypothesis one : one_line advisory.
Hypothesis stripped : strip advisory = advisory.

Let adv : list Ascii.ascii := String.list_ascii_of_string advisory.

Lemma advisory_tight : tight adv.
Proof.
  assert (text adv = advisory) as Et by apply String.string_of_list_ascii_of_string. split.
  - intros E. rewrite E in Et. rewrite <- Et in names. discriminate names.
  - rewrite <- Et in stripped at 1. rewrite strip_text in stripped. apply (f_equal String.list_ascii_of_string) in stripped.
    unfold text in stripped. by rewrite String.list_ascii_of_string_of_list_ascii in stripped.
Qed.

Definition kept (current : string) : list (list Ascii.ascii) :=
  front (map String.list_ascii_of_string (List.filter (fun ln => negb (Handlers.is_stale strategy ln)) (splitlines current))).

Lemma text_chars l : text (String.list_ascii_of_string l) = l.
Proof. apply String.string_of_list_ascii_of_string. Qed.

Lemma map_text_chars ls : map text (map String.list_ascii_of_string ls) = ls.
Proof. induction ls as [|l ls IH]; [done|]. cbn [map]. by rewrite text_chars, IH. Qed.

Lemma biased_lines current : Handlers.biased_text strategy advisory current = joined (map text (kept current) ++ [advisory]).
Proof.
  unfold Handlers.biased_text. fold (joined (List.filter (fun ln => negb (Handlers.is_stale strategy ln)) (splitlines current) ++ [advisory])).
  set (ls := List.filter _ _). rewrite <- (text_chars (joined _)), chars_joined, map_app, strip_text. cbn [map].
  fold adv. rewrite (strip_chars _ adv advisory_tight). rewrite <- (text_chars (joined _)), chars_joined, map_app. cbn [map]. fold adv.
  unfold kept. fold ls. do 3 f_equal. rewrite map_map. rewrite <- (map_id (front _)) at 1. apply map_ext. intros l.
  unfold text. by rewrite String.list_ascii_of_string_of_list_ascii.
Qed.

Lemma kept_one_line current : Forall one_line (map text (kept current)).
Proof.
  unfold kept. apply Forall_map. eapply (Forall_impl unbroken).
  - apply front_unbroken. apply Forall_map. apply List.Forall_forall. intros l Hl. apply filter_In in Hl as [Hl _].
    pose proof (splitlines_one_line current) as Ho. rewrite List.Forall_forall in Ho. exact (Ho l Hl).
  - intros l Hl. unfold one_line, text. by rewrite String.list_ascii_of_string_of_list_ascii.
Qed.

Lemma kept_fresh current : Forall (fresh strategy) (map text (kept current)).
Proof.
  unfold kept. apply Forall_map, (front_fresh strategy). apply Forall_map. apply List.Forall_forall. intros l Hl.
  rewrite text_chars. apply filter_In in Hl as [_ Hl]. by apply negb_true_iff in Hl.
Qed.

Lemma kept_advised current : NoDup (advised (splitlines current)) -> NoDup (advised (map text (kept current) ++ [advisory])).
Proof.
  intros Hn. rewrite advised_app, advised_cons, names. apply NoDup_app. split_and!.
  - unfold kept. rewrite front_advised, map_text_chars. eapply sublist_NoDup; [exact Hn|apply filtered_advised].
  - intros s Hs Hin. apply list_elem_of_singleton in Hin as ->. apply list_elem_of_omap in Hs as (l & Hl & El).
    pose proof (kept_fresh current) as Hf. rewrite Forall_forall in Hf. specialize (Hf l Hl). unfold fresh in Hf.
    apply advisory_stale in El. congruence.
  - apply NoDup_singleton.
Qed.

(** The biased text keeps its lines through the store and through another bias. *)
Lemma biased_stable current : NoDup (advised (splitlines current)) -> let t := Handlers.biased_text strategy advisory current in
  dedupe_promotion_advisories t = t /\ strip t = t /\ t <> "" /\ Handlers.biased_text strategy advisory t = t /\
  List.filter (Handlers.is_stale strategy) (splitlines t) = [advisory].
Proof.
  intros Hn. cbv zeta. rewrite (biased_lines current).
  assert (advisory <> "") as Hne by (intros E; rewrite E in names; discriminate names).
  assert (splitlines (joined (map text (kept current) ++ [advisory])) = map text (kept current) ++ [advisory]) as Es.
  { apply splitlines_joined_last; [apply kept_one_line|exact one|exact Hne]. }
  pose proof (advisory_stale advisory strategy names) as Hst.
  assert (List.filter (fun ln => negb (Handlers.is_stale strategy ln)) (map text (kept current) ++ [advisory]) = map text (kept current)) as Ef.
  { rewrite List.filter_app. cbn [List.filter]. rewrite Hst. cbn [negb]. rewrite app_nil_r.
    apply filter_fresh, kept_fresh. }
  assert (joined (map text (kept current) ++ [advisory]) = strip (joined (map text (kept current) ++ [advisory]))) as Et.
  { rewrite <- (text_chars (joined _)) at 2. rewrite chars_joined, map_app, strip_text. cbn [map]. fold adv.
    rewrite (strip_chars _ adv advisory_tight). rewrite <- (text_chars (joined _)) at 1. rewrite chars_joined, map_app. cbn [map]. fold adv.
    assert (map String.list_ascii_of_string (map text (kept current)) = kept current) as ->.
    { rewrite map_map. rewrite <- (map_id (kept current)) at 2. apply map_ext. intros l.
      unfold text. by rewrite String.list_ascii_of_string_of_list_ascii. }
    unfold kept at 2. by rewrite front_front. }
  split_and!.
  - unfold dedupe_promotion_advisories. rewrite Es, dedupe_lines_newest, newest_only_id; [done|by apply kept_advised].
  - by symmetry.
  - intros E. rewrite E in Es. by destruct (map text (kept current)).
  - unfold Handlers.biased_text at 1. rewrite Es, Ef. fold (joined (map text (kept current) ++ [advisory])). by symmetry.
  - rewrite Es, List.filter_app. cbn [List.filter]. rewrite Hst, (proj2 (filter_fresh strategy _ (kept_fresh current))). done.
Qed.

End Bias.

(** * Promotions on the store *)

Definition directive_text (s : PromptStore) : string :=
  match Prompts.get_directive link_up REASONING_NODE s with Some (VDict d) => text_of d | _ => "" end.

Lemma healed_text node w t v s : Prompts.get_directive link_up node s = Some (VDict (directive w t v)) ->
  exists t0, t = dedupe_promotion_advisories t0.
Proof.
  unfold Prompts.get_directive. cbn [link_up ln_get]. destruct (dget node (ps_active s)) as [raw|]; [|done].
  cbn [fmap option_map option_fmap]. intros [= E]. destruct raw as [| | | | | |d]; try discriminate E. cbn [Prompts.healed] in E.
  destruct (dget "text" d) as [[| | | |t0| |]|] eqn:Ed; injection E as E;
    try (rewrite E in Ed; discriminate Ed).
  apply (f_equal (dget "text")) in E. rewrite dget_dset_eq in E. injection E as <-. by exists t0.
Qed.

(** A log's store is read as a text whose strategies are advised once. *)
Lemma stored_text l : let s := writes l in
  Prompts.get_active_text link_up REASONING_NODE s =
    Ok (if String.eqb (directive_text s) "" then VNone else VStr (directive_text s)) /\
  (Prompts.get_directive link_up REASONING_NODE s = None /\ directive_text s = "" \/
   exists w v, Prompts.get_directive link_up REASONING_NODE s = Some (VDict (directive w (directive_text s) v)) /\ 1 <= v) /\
  NoDup (advised (splitlines (directive_text s))).
Proof.
  cbv zeta. destruct (writes_hold l REASONING_NODE) as (Hr & _ & Hw). unfold directive_text, Prompts.get_active_text.
  destruct (log_of REASONING_NODE l) as [|p past]; rewrite Hr; cbn [head fmap option_map option_fmap].
  - split_and!; [done|by left|constructor].
  - destruct (well_formed_head _ _ Hw) as (w & t & -> & _ & Hv). change (text_of (directive w t (zlen past + 1))) with t.
    split_and!.
    + cbn [Prompts.fields_of res_bind directive dget_or dget String.eqb Ascii.eqb Bool.eqb truthy]. by destruct (String.eqb t "").
    + right. by exists w, (zlen past + 1).
    + destruct (healed_text _ _ _ _ (writes l) Hr) as [t0 ->]. rewrite deduped_advised. apply newest_only_nodup.
Qed.

(** The write of a promotion. *)
Definition bias_write (ev : ApplierEnv) (strategy text : string) (bump : bool) : Write :=
  {| w_now := ax_now ev; w_node := REASONING_NODE; w_text := text;
     w_rationale := "operator-approved challenger promotion: " +:+ strategy; w_source := AGENT_PROPOSAL_APPLIER;
     w_bump := bump |}.

Lemma bias_reads ev strategy advisory l : ax_link ev = link_up ->
  let s := writes l in let new_text := Handlers.biased_text strategy advisory (directive_text s) in
  exists bump, Handlers._bias_directive_toward ev strategy advisory s =
    if String.eqb new_text (strip (directive_text s)) then (Ok None, s)
    else let '(r, s') := write (bias_write ev strategy new_text bump) s in (res_map Some r, s').
Proof.
  intros Hl. cbv zeta. destruct (stored_text l) as (Ht & _). set (s := writes l) in *.
  exists (negb (existsb (Handlers.is_stale strategy) (splitlines (directive_text s)))).
  unfold Handlers._bias_directive_toward, bind at 1, gets. rewrite Hl, Ht. unfold bind at 1, lift at 1.
  assert (or_else (if String.eqb (directive_text s) "" then VNone else VStr (directive_text s)) (VStr "") = VStr (directive_text s)) as ->.
  { destruct (String.eqb_spec (directive_text s) "") as [->|Hne]; [reflexivity|]. unfold or_else. cbn [truthy].
    by apply String.eqb_neq in Hne as ->. }
  unfold bind at 1, lift at 1. destruct (String.eqb _ (strip (directive_text s))); [reflexivity|].
  unfold write, bias_write, bind. cbn [w_now w_node w_text w_rationale w_source w_bump].
  match goal with |- context [Prompts.set_directive ?a ?b ?c ?d ?e ?f ?g s] => destruct (Prompts.set_directive a b c d e f g s) as [[v|e'] s'] end;
    reflexivity.
Qed.

(** After it, the text is what was written. *)
Lemma bias_written w l : w_node w = REASONING_NODE -> w_text w <> "" -> dedupe_promotion_advisories (w_text w) = w_text w ->
  strip (w_text w) = w_text w -> w_text w <> strip (directive_text (writes l)) ->
  exists v, fst (write w (writes l)) = Ok v /\ directive_text (writes (l ++ [w])) = w_text w.
Proof.
  intros Hw Hne Hdd Hst Hch. destruct (stored_text l) as (_ & Hd & _). rewrite writes_snoc. set (s := writes l) in *.
  assert (forall u h, directive_text (put REASONING_NODE (directive w (w_text w) u) h s) = w_text w) as Hput.
  { intros u h. unfold directive_text. rewrite (read_put REASONING_NODE _ h s), healed_directive. exact Hdd. }
  destruct Hd as [[Hg _]|(w' & v & Hg & Hv)].
  - rewrite <- Hw in Hg, Hput. rewrite (write_first w s Hg). eexists. split; [reflexivity|]. apply Hput.
  - rewrite <- Hw in Hg, Hput. rewrite (write_next w s w' _ v Hv Hg), Hst. apply String.eqb_neq in Hch. rewrite Hch.
    eexists. split; [reflexivity|]. cbn [snd]. apply Hput.
Qed.

(** Writes on other nodes leave the reasoning node's text alone. *)
Lemma elsewhere_text l l' : Forall (fun w => w_node w <> REASONING_NODE) l' ->
  directive_text (writes (l ++ l')) = directive_text (writes l).
Proof.
  intros Hn. assert (log_of REASONING_NODE (l ++ l') = log_of REASONING_NODE l) as E.
  { induction l' as [|w l' IH] using rev_ind; [by rewrite app_nil_r|]. apply Forall_app in Hn as [Hn Hw].
    rewrite app_assoc, log_of_snoc, (IH Hn). apply Forall_singleton, String.eqb_neq in Hw. by rewrite Hw. }
  unfold directive_text. destruct (writes_hold (l ++ l') REASONING_NODE) as (-> & _). rewrite E.
  by destruct (writes_hold l REASONING_NODE) as (-> & _).
Qed.

Definition further (l : list Write) (s : PromptStore) : PromptStore := fold_left (fun s w => snd (write w s)) l s.

Lemma further_writes l l' : further l' (writes l) = writes (l ++ l').
Proof. unfold further, writes. by rewrite fold_left_app. Qed.

(** C29: While Redis answers, promoting a strategy again is a no-op until the reasoning
    directive changes. For an advisory that is one stripped line naming the strategy, after
    any history of directives, a promotion leaves one advisory line that names the strategy,
    its own; promoting the strategy again with the same advisory, at any later time and after
    any writes on other nodes, changes no directive, no version and no history. A promotion
    of another strategy in between is outside this: its line comes last, and promoting the
    first strategy again moves that strategy's line back to the end, a refresh. *)
Theorem promotion_advice_idempotent ev ev' strategy advisory l l' :
  ax_link ev = link_up -> ax_link ev' = link_up ->
  advisory_strategy advisory = Some strategy -> one_line advisory -> strip advisory = advisory ->
  Forall (fun w => w_node w <> REASONING_NODE) l' ->
  exists r s1, Handlers._bias_directive_toward ev strategy advisory (writes l) = (Ok r, s1) /\
    Handlers._bias_directive_toward ev' strategy advisory (further l' s1) = (Ok None, further l' s1) /\
    List.filter (Handlers.is_stale strategy) (splitlines (strip (directive_text s1))) = [advisory].
Proof.
  intros Hl Hl' Hs Ho Hst Hout. destruct (stored_text l) as (_ & _ & Hn).
  destruct (biased_stable strategy advisory Hs Ho Hst (directive_text (writes l)) Hn) as (B1 & B2 & B3 & B4 & B5).
  destruct (bias_reads ev strategy advisory l Hl) as (bump & E1).
  assert (forall m, Handlers.biased_text strategy advisory (directive_text (writes m)) = strip (directive_text (writes m)) ->
    Handlers._bias_directive_toward ev' strategy advisory (further l' (writes m)) = (Ok None, further l' (writes m))) as Hagain.
  { intros m Hm. rewrite further_writes. destruct (bias_reads ev' strategy advisory (m ++ l') Hl') as (? & E2). cbv zeta in E2.
    rewrite (elsewhere_text m l' Hout), Hm, String.eqb_refl in E2. exact E2. }
  set (t := Handlers.biased_text strategy advisory (directive_text (writes l))) in *. cbv zeta in E1.
  destruct (String.eqb_spec t (strip (directive_text (writes l)))) as [Et|Et].
  - exists None, (writes l). rewrite <- Et. split_and!; [done| |done]. by apply Hagain.
  - set (w := bias_write ev strategy t bump) in *. destruct (bias_written w l eq_refl B3 B1 B2 Et) as (v & Hv & Hw).
    exists (Some v), (writes (l ++ [w])). split_and!; [|apply Hagain; rewrite Hw; change (w_text w) with t; by rewrite B4, B2|].
    + rewrite E1, writes_snoc. destruct (write w (writes l)) as [r s']. cbn [fst snd] in *. by rewrite Hv.
    + rewrite Hw. change (w_text w) with t. by rewrite B2.
Qed.

(** * A promotion *)

(** Everything answers; promotions wait for an operator. *)
Definition promoting : ApplierEnv :=
  {| ax_settings := {| PROMPT_EVOLUTION_AUTO_APPLY := true; CHALLENGER_PROMOTION_AUTO_APPLY := false;
                       PROPOSAL_ISSUE_REQUIRE_SUFFICIENT_EVIDENCE := true; CHALLENGER_GRADUATE_TO_CANARY := true;
                       ALPACA_PAPER := true; AUTOPR_READY := false |};
     ax_now := "t"; ax_clock := 0.0%F; ax_hex := "0"; ax_uuid := "u"; ax_redis := fun _ => true; ax_link := link_up;
     ax_bus := fun _ _ => Ok tt; ax_open_pr := fun _ => []; ax_open_issue := fun _ _ => [];
     ax_challenger_id := "c"; ax_instance_id := "i" |}.

Definition reflected : Write :=
  {| w_now := "t"; w_node := REASONING_NODE; w_text := "Trade less on weekends."; w_rationale := ""; w_source := "reflection";
     w_bump := true |}.

(** A directive on another node. *)
Definition graded : Write :=
  {| w_now := "u"; w_node := "grading"; w_text := "Weigh the drawdown."; w_rationale := ""; w_source := "reflection";
     w_bump := true |}.

Definition favored : string := Handlers.advisory_of "mean_reversion" (VStr "0.4") (VStr "0.6").

Lemma promotion_advice_idempotent_witness :
  advisory_strategy favored = Some "mean_reversion" /\
  exists r s1, Handlers._bias_directive_toward promoting "mean_reversion" favored (writes [reflected]) = (Ok r, s1) /\
    Handlers._bias_directive_toward promoting "mean_reversion" favored (further [graded] s1) = (Ok None, further [graded] s1) /\
    List.filter (Handlers.is_stale "mean_reversion") (splitlines (strip (directive_text s1))) = [favored].
Proof.
  assert (advisory_strategy favored = Some "mean_reversion") as Ha by (vm_compute; reflexivity). split; [exact Ha|].
  assert (one_line favored) as Ho.
  { apply List.Forall_forall. intros c Hc. assert (forallb (fun c => negb (is_break c)) (String.list_ascii_of_string favored) = true) as Hf
      by (vm_compute; reflexivity). rewrite forallb_forall in Hf. apply negb_true_iff. exact (Hf c Hc). }
  assert (strip favored = favored) as Hs by (vm_compute; reflexivity).
  assert (Forall (fun w => w_node w <> REASONING_NODE) [graded]) as Hn by (constructor; [vm_compute; discriminate|constructor]).
  exact (promotion_advice_idempotent promoting promoting "mean_reversion" favored [reflected] [graded] eq_refl eq_refl Ha Ho Hs Hn).
Defined.
