(* ===== verification/ApplierFacts.v ===== *)
(** ApplierFacts: what a proposal can do.  Until it expires the signal weight only
    falls, and never below its floor; a parameter change leaves only inside its bounds; a
    strategy becomes a canary only by an approved promotion; a proposal is applied once. *)
From S2P Require Import Prelude StateErr PyFloat FloatFacts PyVal PyMath PyRandom PyPow Config Agents Decision Gate Params Policy Filters Gitops Store StoreFacts Lifecycle Scorer Execution Broker Engine EngineFacts EngineInv EngineSafety Momentum Promotion Shadow Backtest Contender ContenderFacts Tools ToolsFacts Prompts PromptsFacts FixedFacts Applier AdvisoryFacts.

(** * The signal weight *)

(** The stored weight in millionths: a text of six decimals, or nothing. *)
Definition level (raw : option string) (m : Z) : Prop :=
  match raw with None => m = 1000000 | Some t => 50000 <= m <= 1000000 /\ t = fixed_text 6 m end.

Definition weight (m : Z) : float := Parse.scaled false m (0 - 6).

Lemma weight_top : weight 1000000 = 1.0%F.
Proof. vm_compute. reflexivity. Qed.

Lemma weight_floor : weight 50000 = SIGNAL_WEIGHT_SCALE_MIN.
Proof. vm_compute. reflexivity. Qed.

Lemma level_range raw m : level raw m -> 50000 <= m <= 1000000.
Proof. destruct raw; simpl; lia. Qed.

Lemma scale_of_level raw m : level raw m -> scale_of raw = weight m.
Proof.
  destruct raw as [t|]; simpl.
  - intros [Hm ->]. by rewrite (fixed_text_parse 6 m) by lia.
  - intros ->. symmetry. exact weight_top.
Qed.

Lemma weight_shows m : 0 < m < 2 ^ 50 ->
  is_finite (weight m) = true /\ signbit (weight m) = false /\ rne_units (units (weight m) * 10 ^ 6) = m.
Proof. intros Hm. apply (read_shows 6 m); [lia|exact Hm]. Qed.

Lemma weight_mono m n : 0 < m <= n -> fleb (weight m) (weight n) = true.
Proof.
  intros H. unfold weight, Parse.scaled. destruct (Z.eqb_spec m 0) as [|_]; [lia|]. destruct (Z.eqb_spec n 0) as [|_]; [lia|].
  change (400 <? 0 - 6) with false. change (0 <=? 0 - 6) with false. cbv iota.
  apply fleb_key. do 2 eexists. split; [apply key_round_q; lia|]. split; [apply key_round_q; lia|].
  apply sat_mono, Rnd.rnd_mono; [lia..|]. pose proof scale_pos. nia.
Qed.

Lemma weight_double m : double (weight m).
Proof.
  unfold weight, Parse.scaled. destruct (Z.eqb_spec m 0); [by apply (repr_int 0)|].
  change (400 <? 0 - 6) with false. change (0 <=? 0 - 6) with false. cbv iota. apply double_round_q. lia.
Qed.

(** A product with a factor of at most one is not above the other factor. *)
Lemma fmul_shrinks x c : double x -> fin_ok x = true -> fleb (Fin 0) x = true -> is_finite c = true ->
  fleb (Fin 0) c = true -> fleb c 1.0%F = true -> fleb (fmul x c) x = true.
Proof.
  intros Hd Hx H0 Hc Hc0 Hc1. pose proof (fin_ok_finite _ Hx) as Hf. pose proof (fin_ok_bound _ Hx) as Hb.
  apply fleb_key. do 2 eexists. split; [by apply fmul_key|]. split; [by apply finite_key|].
  apply units_nonneg in H0, Hc0; try done. apply fleb_units in Hc1; [|done|fconst].
  replace (units 1.0%F) with scale in Hc1 by fconst.
  pose proof (Rnd.rnd_le (units x * units c) scale (units x) scale_pos Hd ltac:(nia)). unfold sat. lia.
Qed.

Lemma weight_ok m : 50000 <= m <= 1000000 -> within SIGNAL_WEIGHT_SCALE_MIN 1.0%F (weight m) /\ fin_ok (weight m) = true.
Proof.
  intros Hm. assert (within SIGNAL_WEIGHT_SCALE_MIN 1.0%F (weight m)) as Hw.
  { rewrite <- weight_floor, <- weight_top. split; apply weight_mono; lia. }
  split; [exact Hw|]. apply (within_fin_ok SIGNAL_WEIGHT_SCALE_MIN 1.0%F); [fconst|fconst|exact Hw].
Qed.

(** The larger of a lowered weight and the floor, as a text of six decimals. *)
Lemma lowered_level m y : 50000 <= m <= 1000000 -> fleb SIGNAL_WEIGHT_SCALE_MIN y = true -> fleb y (weight m) = true ->
  exists n, Fmt.fixed 6 y = fixed_text 6 n /\ 50000 <= n <= m.
Proof.
  intros Hm Hy1 Hy2. destruct (weight_ok m Hm) as [[Hlo Hhi] Hfin].
  destruct (weight_shows m ltac:(lia)) as (Hwf & _ & Hwm). destruct (weight_shows 50000 ltac:(lia)) as (Hff & _ & Hfm).
  rewrite weight_floor in Hff, Hfm.
  assert (is_finite y = true) as Hyf.
  { exact (within_finite SIGNAL_WEIGHT_SCALE_MIN 1.0%F y ltac:(fconst) ltac:(fconst) (conj Hy1 (fleb_trans _ _ _ Hy2 Hhi))). }
  pose proof (proj1 (fleb_units _ _ Hff Hyf) Hy1) as U1. pose proof (proj1 (fleb_units _ _ Hyf Hwf) Hy2) as U2.
  assert (0 < units SIGNAL_WEIGHT_SCALE_MIN) as U0 by fconst. pose proof scale_pos as Sp.
  exists (rne_units (units y * 10 ^ 6)). split.
  - apply fixed_text_of; [lia|exact Hyf|]. destruct y; cbn [units] in U1; try lia. apply Z.ltb_ge. lia.
  - rewrite rne_units_eq in *. split.
    + rewrite <- Hfm. apply Rnd.rne_mono; [exact Sp..|]. nia.
    + rewrite <- Hwm. apply Rnd.rne_mono; [exact Sp..|]. nia.
Qed.

Lemma reduced_between x : double x -> fin_ok x = true -> fleb SIGNAL_WEIGHT_SCALE_MIN x = true ->
  fleb SIGNAL_WEIGHT_SCALE_MIN (Handlers.reduced x) = true /\ fleb (Handlers.reduced x) x = true.
Proof.
  intros Hd Hfin Hlo.
  pose proof (fmul_shrinks x SIGNAL_WEIGHT_REDUCTION_FACTOR Hd Hfin (fleb_trans (Fin 0) SIGNAL_WEIGHT_SCALE_MIN x ltac:(fconst) Hlo)
                ltac:(fconst) ltac:(fconst) ltac:(fconst)) as Hs.
  unfold Handlers.reduced. split.
  - exact (fmax_r _ _ (fleb_not_nan_l _ _ Hs) (fleb_not_nan_l _ _ Hlo)).
  - exact (fmax_le _ _ _ Hs Hlo).
Qed.

(** A reduction lowers the weight, and not below the floor. *)
Lemma reduced_level m : 50000 <= m <= 1000000 -> exists n,
  Fmt.fixed 6 (Handlers.reduced (weight m)) = fixed_text 6 n /\ 50000 <= n <= m.
Proof.
  intros Hm. destruct (weight_ok m Hm) as [[Hlo _] Hfin].
  destruct (reduced_between (weight m) (weight_double m) Hfin Hlo) as [H1 H2]. exact (lowered_level m _ Hm H1 H2).
Qed.

(** * What a handler may change *)

Definition raw_scale (a : Applier) : option string := fst <$> dget REDIS_KEY_SIGNAL_WEIGHT_SCALE (ap_control a).
(** The seconds the stored weight still lives. *)
Definition life (a : Applier) : option Z := snd <$> dget REDIS_KEY_SIGNAL_WEIGHT_SCALE (ap_control a).

(** The weight does not rise, and a new one lives as long as the controls do. *)
Definition falls (a a' : Applier) : Prop :=
  (forall m, level (raw_scale a) m -> exists n, level (raw_scale a') n /\ n <= m) /\
  (life a' = life a \/ life a' = Some LEARNING_CONTROL_TTL_SECONDS) /\
  (NoDup (dkeys (ap_control a)) -> NoDup (dkeys (ap_control a'))).

Lemma falls_same a a' : ap_control a' = ap_control a -> falls a a'.
Proof.
  intros E. unfold falls, raw_scale, life. rewrite E. split; [intros m Hm; exists m; split; [done|lia]|]. split; [by left|done].
Qed.

Lemma falls_trans a b c : falls a b -> falls b c -> falls a c.
Proof.
  intros (S1 & L1 & N1) (S2 & L2 & N2). split; [|split; [|auto]].
  - intros m Hm. destruct (S1 m Hm) as (k & Hk & Hle). destruct (S2 k Hk) as (j & Hj & Hle'). exists j. split; [done|lia].
  - destruct L2 as [-> | ->]; [exact L1|by right].
Qed.

Definition registry (a : Applier) : StrategyRegistry := wo_registry (ap_world a).
Definition sent (a : Applier) : list (string * payload) := wo_published (ap_world a).

(** A change of a parameter that the validator accepts. *)
Definition vetted (m : string * payload) : Prop :=
  fst m = STREAM_GITHUB_PRS /\
  exists parameter v, dget "parameter" (snd m) = Some parameter /\ dget "proposed_value" (snd m) = Some v /\
    validate_param_change (Fmt.str parameter) v = Ok None.

Section Effects.
Context `{PW : CPow} `{PR : PyRandom} `{PG : PyGauss}.
Variable h : payload -> string.

(** New canaries are of the versions [S]; every other one was a canary before. *)
Definition advance (S : StrategyVersion -> Prop) (r r' : StrategyRegistry) : Prop :=
  VersionFacts.registry_ok h r -> VersionFacts.registry_ok h r' /\
  forall vid rec', dget vid (_records r') = Some rec' -> status rec' = CANARY ->
    (exists rec, dget vid (_records r) = Some rec /\ strategy rec = strategy rec' /\ status rec = CANARY) \/ S (strategy rec').

Record effect (S : StrategyVersion -> Prop) (a a' : Applier) : Prop := {
  ef_keys : ap_applied_keys a' = ap_applied_keys a;
  ef_sent : exists new, sent a' = sent a ++ new /\ Forall vetted new;
  ef_scale : falls a a';
  ef_registry : advance S (registry a) (registry a');
}.

Lemma advance_refl S r : advance S r r.
Proof. intros Hr. split; [exact Hr|]. intros vid rec Hv Hc. left. by exists rec. Qed.

Lemma advance_trans S r1 r2 r3 : advance S r1 r2 -> advance S r2 r3 -> advance S r1 r3.
Proof.
  intros H1 H2 Hr. destruct (H1 Hr) as [Hr2 A1]. destruct (H2 Hr2) as [Hr3 A2]. split; [exact Hr3|].
  intros vid rec' Hv Hc. destruct (A2 vid rec' Hv Hc) as [(rec & Hv2 & Es & Hc2)|]; [|by right].
  destruct (A1 vid rec Hv2 Hc2) as [(rec1 & Hv1 & Es1 & Hc1)|HS]; [left|right].
  - exists rec1. split_and!; [done|congruence|done].
  - by rewrite <- Es.
Qed.

#[local] Instance effect_pre S : PreOrder (effect S).
Proof.
  split.
  - intros a. split; [done| | |apply advance_refl].
    + exists []. split; [by rewrite app_nil_r|constructor].
    + by apply falls_same.
  - intros a b c [K1 (n1 & P1 & V1) S1 R1] [K2 (n2 & P2 & V2) S2 R2]. split; [congruence| | |by apply (advance_trans S _ (registry b))].
    + exists (n1 ++ n2). split; [by rewrite P2, P1, app_assoc|by apply Forall_app].
    + by apply (falls_trans a b c).
Qed.

(** A change of the parts the relation does not speak of. *)
Lemma effect_same S a a' : ap_applied_keys a' = ap_applied_keys a -> ap_control a' = ap_control a ->
  sent a' = sent a -> registry a' = registry a -> effect S a a'.
Proof.
  intros E1 E2 E3 E4. split; [done| |by apply falls_same|rewrite E4; apply advance_refl].
  exists []. split; [by rewrite E3, app_nil_r|constructor].
Qed.

Lemma effect_registry S a a' : ap_applied_keys a' = ap_applied_keys a -> ap_control a' = ap_control a ->
  sent a' = sent a -> advance S (registry a) (registry a') -> effect S a a'.
Proof.
  intros E1 E2 E3 E4. split; [done| |by apply falls_same|exact E4].
  exists []. split; [by rewrite E3, app_nil_r|constructor].
Qed.

(** ** The registry *)

Lemma advance_none S r r' : (VersionFacts.registry_ok h r -> VersionFacts.registry_ok h r') ->
  (forall vid rec', dget vid (_records r') = Some rec' -> status rec' = CANARY -> dget vid (_records r) = Some rec') ->
  advance S r r'.
Proof. intros Hok Hc Hr. split; [auto|]. intros vid rec' Hv Hcan. left. exists rec'. by rewrite (Hc vid rec' Hv Hcan). Qed.

(** A transition to another stage than live, of a version of [S] if it is to canary. *)
Lemma advance_transition S vid st now r : st <> LIVE ->
  (forall rec, dget vid (_records r) = Some rec -> st = CANARY -> S (strategy rec)) ->
  advance S r (snd (Versions.transition vid st now r)).
Proof.
  intros Hl HS Hr. pose proof (VersionFacts.transition_run h vid st now r Hr) as Ht.
  assert (VersionFacts.registry_ok h (snd (Versions.transition vid st now r))) as Hok
    by exact (VersionFacts.apply_op_ok h r (VersionFacts.Transition vid st now) Hr).
  split; [exact Hok|]. unfold Versions.get in Ht. destruct (dget vid (_records r)) as [rec|] eqn:E.
  - unfold Versions.transition, bind, gets, Versions.get. rewrite E.
    destruct (existsb (status_eqb st) (_VALID_TRANSITIONS (status rec))); cbn [negb].
    + assert (status_eqb st LIVE = false) as -> by (unfold status_eqb; by apply bool_decide_eq_false).
      unfold ret, modify. cbn [snd]. intros k rec' Hk Hc. rewrite (VersionFacts.set_status_get vid st now r rec k E) in Hk.
      destruct (String.eqb_spec k vid) as [->|_]; [|left; by exists rec'].
      apply Some_inj in Hk. subst rec'. cbn [VersionFacts.moved strategy status] in *. right. by apply HS.
    + cbn [raise snd]. intros k rec' Hk Hc. left. by exists rec'.
  - rewrite Ht. cbn [snd]. intros k rec' Hk Hc. left. by exists rec'.
Qed.

Lemma advance_register S config parent now r : advance S r (snd (Versions.register h config parent now r)).
Proof.
  apply advance_none; [apply VersionFacts.new_version_ok|]. intros vid rec'. unfold Versions.register. cbn [snd _records].
  rewrite dget_dset. destruct (String.eqb vid _); [|done]. intros [= <-]. done.
Qed.

Lemma advance_seed S name now r : advance S r (seed_lifecycle h name now r).
Proof.
  unfold seed_lifecycle. destruct (Versions.find_by_strategy name r); [apply advance_refl|].
  pose proof (advance_register S [("strategy", VStr name)] None now r) as Hr.
  destruct (Versions.register h [("strategy", VStr name)] None now r) as [v r1]. cbn [snd] in Hr.
  apply (advance_trans S _ r1); [exact Hr|]. unfold bind.
  pose proof (advance_transition S (version_id v) BACKTESTED now r1 ltac:(done) ltac:(done)) as H1.
  destruct (Versions.transition (version_id v) BACKTESTED now r1) as [[x|e] r2]; cbn [snd] in *; [|exact H1].
  apply (advance_trans S _ r2); [exact H1|]. by apply advance_transition.
Qed.

(** The record found for a strategy is registered under its identifier. *)
Lemma find_registered name r rec : VersionFacts.registry_ok h r -> Versions.find_by_strategy name r = Some rec ->
  dget (version_id (strategy rec)) (_records r) = Some rec /\
  val_eqb (dget_or "strategy" VNone (sv_config (strategy rec))) (VStr name) = true.
Proof.
  intros Hr. unfold Versions.find_by_strategy. set (named := List.filter _ _).
  assert (forall x l, In x named -> incl l named -> In (fold_left Versions.newer l x) named) as Hin.
  { intros x l. revert x. induction l as [|y l IH]; intros x Hx Hl; [done|]. cbn [fold_left]. apply IH.
    - unfold Versions.newer. destruct (_ <? _); [apply Hl; by left|done].
    - intros z Hz. apply Hl. by right. }
  destruct named as [|x l] eqn:En; [done|]. intros [= <-]. specialize (Hin x l (or_introl eq_refl) ltac:(intros z Hz; by right)).
  rewrite <- En in Hin. unfold named in Hin. apply filter_In in Hin as [Hin Hv]. split; [|exact Hv].
  apply VersionFacts.In_dvalues in Hin as [k Hk]. apply (VersionFacts.In_dget k _ _ (VersionFacts.ok_keys h r Hr)) in Hk.
  by destruct (VersionFacts.ok_ids h r Hr _ _ Hk) as [<- _].
Qed.

(** ** The handlers *)

Lemma control_get_effect S ev key : tracks (effect S) (control_get ev key).
Proof. unfold control_get. destruct (ax_redis ev key); [apply tracks_gets|apply tracks_raise]; apply _. Qed.

Lemma effect_control S a c : falls a (with_control c a) -> effect S a (with_control c a).
Proof. intros Hc. split; [done| |exact Hc|apply advance_refl]. exists []. split; [by rewrite app_nil_r|constructor]. Qed.

Lemma control_set_effect S ev key value ttl : key <> REDIS_KEY_SIGNAL_WEIGHT_SCALE ->
  tracks (effect S) (control_set ev key value ttl).
Proof.
  intros Hk. unfold control_set. destruct (ax_redis ev key); [|apply tracks_raise, _]. apply tracks_modify. intros a.
  apply effect_control. unfold falls, raw_scale, life. cbn [ap_control with_control]. rewrite dget_dset_ne by done.
  split; [exact (proj1 (falls_same a a eq_refl))|]. split; [by left|apply dset_NoDup].
Qed.

Lemma reduce_effect S ev : tracks (effect S) (Handlers.reduce_scale ev).
Proof.
  intros a. unfold Handlers.reduce_scale, bind, control_get, gets.
  destruct (ax_redis ev REDIS_KEY_SIGNAL_WEIGHT_SCALE) eqn:Er; cbn [raise snd]; [|reflexivity].
  unfold control_set. rewrite Er. unfold modify, ret. cbn [snd]. apply effect_control. unfold falls at 1, raw_scale at 2, life at 1 3.
  cbn [ap_control with_control]. rewrite dget_dset_eq. cbn [fmap option_map option_fmap fst snd].
  fold (raw_scale a). split; [|split; [by right|apply dset_NoDup]]. intros m Hm. rewrite (scale_of_level _ _ Hm).
  destruct (reduced_level m (level_range _ _ Hm)) as (n & -> & Hn). exists n. split; [|lia]. split; [|done].
  apply level_range in Hm. lia.
Qed.

Lemma with_store_effect S {A} (m : M PromptStore A) none : tracks (effect S) (Handlers.with_store m none).
Proof.
  intros a. unfold Handlers.with_store. destruct (ap_prompts a) as [s|]; [|cbn; reflexivity].
  destruct (m s) as [r s']. by apply effect_same.
Qed.

Lemma recruit_world S id inst config mf clock w :
  wo_published (ca_world (recruit h id inst config mf clock w)) = wo_published w /\
  advance S (wo_registry w) (wo_registry (ca_world (recruit h id inst config mf clock w))).
Proof.
  unfold recruit. set (n := match mf with Some _ => _ | None => _ end). split; [exact (start_published h inst clock id config n w)|].
  unfold start. set (a := _hydrate_shadow_state _). assert (wo_registry (ca_world a) = wo_registry w) as Ew.
  { unfold a, Contender.init. destruct (_build_shadow_engines config) as [own base]. cbn [ca_running].
    unfold _hydrate_shadow_state. repeat case_match_goal; reflexivity. }
  unfold _ensure_lifecycle_registered. destruct (ca_lifecycle_registered a); [rewrite Ew; apply advance_refl|].
  destruct (String.eqb (strategy_of (ca_config (with_registered a))) ""); cbn; rewrite Ew; [apply advance_refl|apply advance_seed].
Qed.

Lemma spawn_effect S ev config agents : tracks (effect S) (Handlers.spawn_challenger h ev config agents).
Proof.
  intros a. unfold Handlers.spawn_challenger.
  destruct (spawn h _ _ config None _ _ _ agents) as [d agents']. cbn [snd].
  destruct (guard config (ax_now ev) agents); [by apply effect_same|].
  pose proof (recruit_world S (ax_challenger_id ev) (ax_instance_id ev) config None (ax_clock ev) (ap_world a)) as [E1 E2].
  by apply effect_registry.
Qed.

Lemma disable_effect S l : tracks (effect S) (Handlers.disable_suggested l).
Proof.
  induction l as [|v l IH]; cbn [Handlers.disable_suggested]; [apply tracks_ret, _|].
  destruct v; try exact IH. destruct (Handlers.is_text _ _); [|exact IH].
  destruct (dget_or "tool" VNone d) as [| | | |name|[|]|[|]]; try exact IH; try apply tracks_raise, _.
  apply tracks_bind; [apply _| |].
  - intros a. destruct (String.eqb name ""); [reflexivity|].
    destruct (Tools.set_enabled name false (ap_tools a)) as [b r]. by apply effect_same.
  - intros b. apply tracks_bind; [apply _|exact IH|]. intros names. apply tracks_ret, _.
Qed.

Lemma on_world_effect S f : (forall w, wo_published (f w) = wo_published w) -> (forall w, advance S (wo_registry w) (wo_registry (f w))) ->
  tracks (effect S) (modify (on_world f)).
Proof. intros H1 H2. apply tracks_modify. intros a. apply effect_registry; [done..|apply H1|apply H2]. Qed.

(** The promotion of a strategy makes canaries of its versions only. *)
Lemma advance_lifecycle_effect S strategy now r :
  (forall sv, val_eqb (dget_or "strategy" VNone (sv_config sv)) (VStr strategy) = true -> S sv) ->
  advance S r (snd (Handlers.advance_lifecycle strategy now r)).
Proof.
  intros HS. unfold Handlers.advance_lifecycle. destruct (Versions.find_by_strategy strategy r) as [rec|] eqn:E; [|apply advance_refl].
  destruct (status_eqb (status rec) SHADOW); [|apply advance_refl].
  assert (advance S r (snd (Versions.transition (version_id (Lifecycle.strategy rec)) CANARY now r))) as Ha.
  { intros Hr. destruct (find_registered _ _ _ Hr E) as [Hv Hn]. apply advance_transition; [done| |exact Hr].
    intros rec' Hv' _. rewrite Hv in Hv'. apply Some_inj in Hv' as <-. by apply HS. }
  destruct (Versions.transition _ CANARY now r) as [[x|[]] r']; exact Ha.
Qed.

Lemma graduate_effect S ev strategy :
  (forall sv, val_eqb (dget_or "strategy" VNone (sv_config sv)) (VStr strategy) = true -> S sv) ->
  tracks (effect S) (Handlers._graduate_strategy ev strategy).
Proof.
  intros HS a. unfold Handlers._graduate_strategy, bind, gets, modify.
  set (a1 := on_world _ a). assert (effect S a a1) as E1 by (by apply effect_same).
  destruct (negb _); [exact E1|]. pose proof (advance_lifecycle_effect S strategy (ax_clock ev) (wo_registry (ap_world a1)) HS) as Ha.
  destruct (Handlers.advance_lifecycle strategy (ax_clock ev) (wo_registry (ap_world a1))) as [t r']. unfold ret. cbn [snd] in *.
  transitivity a1; [exact E1|]. by apply effect_registry.
Qed.

Create HintDb effects.
#[local] Hint Resolve control_get_effect reduce_effect with_store_effect spawn_effect disable_effect : effects.

(** Walks through a handler. *)
Ltac walk := repeat first
  [ apply tracks_ret; apply _ | apply tracks_raise; apply _ | apply tracks_lift; apply _ | apply tracks_gets; apply _
  | solve [auto with effects] | apply tracks_bind; [apply _| |intros] | case_match_goal ].

Lemma suspension_effect S ev content : tracks (effect S) (Handlers._apply_agent_suspension ev content).
Proof. unfold Handlers._apply_agent_suspension. walk. apply control_set_effect. intros E. discriminate E. Qed.

Lemma pause_effect S ev content : tracks (effect S) (Handlers._apply_trading_pause ev content).
Proof. unfold Handlers._apply_trading_pause. walk; apply control_set_effect; discriminate. Qed.

Lemma reduction_effect S ev content : tracks (effect S) (Handlers._apply_signal_weight_reduction ev content).
Proof. unfold Handlers._apply_signal_weight_reduction. walk. Qed.

Lemma governance_effect S content : tracks (effect S) (Handlers._apply_tool_governance content).
Proof. unfold Handlers._apply_tool_governance. walk. Qed.

Lemma evolution_effect S ev content : tracks (effect S) (Handlers._apply_prompt_evolution ev content).
Proof. unfold Handlers._apply_prompt_evolution. walk. Qed.

Lemma issue_effect S ev t content : tracks (effect S) (Handlers._file_feature_issue ev t content).
Proof. unfold Handlers._file_feature_issue. walk. Qed.

Lemma new_agent_effect S ev content : tracks (effect S) (Handlers._apply_new_agent h ev content).
Proof. unfold Handlers._apply_new_agent. walk; apply issue_effect. Qed.

Lemma param_effect S ev content trace_id : tracks (effect S) (Handlers._emit_param_change_artifact ev content trace_id).
Proof.
  unfold Handlers._emit_param_change_artifact. apply tracks_bind; [apply _|apply tracks_lift, _|intros c].
  destruct (negb _); [apply tracks_ret, _|]. set (parameter := dget_or "parameter" VNone c). set (v := dget_or "new_value" VNone c).
  destruct (validate_param_change (Fmt.str parameter) v) as [[e|]|e] eqn:Ev; unfold bind at 1, lift at 1.
  - apply tracks_ret, _.
  - apply tracks_bind; [apply _| |intros; walk].
    unfold Handlers.publish_to. apply tracks_bind; [apply _|apply tracks_lift, _|intros].
    apply tracks_modify. intros a0. split; [done| | |apply advance_refl].
    + eexists. split; [reflexivity|]. constructor; [|constructor]. split; [reflexivity|]. exists parameter, v.
      split; [reflexivity|]. split; [reflexivity|exact Ev].
    + by apply falls_same.
  - apply tracks_raise, _.
Qed.

Lemma promotion_effect S ev content :
  (forall c sv, content = VDict c ->
     val_eqb (dget_or "strategy" VNone (sv_config sv)) (VStr (opt_str (dget_or "strategy" VNone c))) = true -> S sv) ->
  tracks (effect S) (Handlers._apply_challenger_promotion h ev content).
Proof.
  intros HS. unfold Handlers._apply_challenger_promotion. destruct content as [| | | | | |c]; try (intros a; reflexivity).
  unfold bind at 1, lift at 1. cbn [as_dict].
  assert (forall strategy, strategy = opt_str (dget_or "strategy" VNone c) -> tracks (effect S) (Handlers._graduate_strategy ev strategy)) as Hg.
  { intros strategy ->. apply graduate_effect. intros sv. by apply HS. }
  destruct (String.eqb _ ""); [apply tracks_ret, _|]. unfold Handlers.spawn_candidate. walk; by apply Hg.
Qed.

(** ** Messages *)

(** An operator approved the promotion, or promotions are applied without approval. *)
Definition approved (ev : ApplierEnv) (data : payload) : Prop :=
  dget_or "proposal_type" VNone data = VStr CHALLENGER_PROMOTION /\
  (truthy (dget_or "approved" VNone data) = true \/ CHALLENGER_PROMOTION_AUTO_APPLY (ax_settings ev) = true).

(** The strategy a proposal speaks of. *)
Definition strategy_named (data : payload) : string :=
  match dget_or "content" VNone data with VDict c => opt_str (dget_or "strategy" VNone c) | _ => "" end.

Definition promotes (ev : ApplierEnv) (data : payload) (sv : StrategyVersion) : Prop :=
  approved ev data /\ val_eqb (dget_or "strategy" VNone (sv_config sv)) (VStr (strategy_named data)) = true.

Lemma named_content data c : or_else (dget_or "content" VNone data) (VDict []) = VDict c ->
  strategy_named data = opt_str (dget_or "strategy" VNone c).
Proof.
  unfold or_else, strategy_named. destruct (truthy (dget_or "content" VNone data)) eqn:Et.
  - intros ->. reflexivity.
  - intros [= <-]. destruct (dget_or "content" VNone data) as [| | | | | |[|]]; try reflexivity. discriminate Et.
Qed.

Lemma handler_effect ev data t trace run :
  pending ev data t = false -> t = dget_or "proposal_type" VNone data ->
  handler h ev t (or_else (dget_or "content" VNone data) (VDict [])) trace = Some run ->
  tracks (effect (promotes ev data)) run.
Proof.
  intros Hp Et Hh. unfold handler in Hh. destruct t as [| | | |t| |]; try discriminate Hh.
  cbn [dget] in Hh. repeat (match type of Hh with (if ?b then _ else _) = _ => destruct b eqn:? end);
    try discriminate Hh; apply Some_inj in Hh; subst run;
    eauto using reduction_effect, suspension_effect, pause_effect, param_effect, evolution_effect, new_agent_effect,
      issue_effect, governance_effect.
  apply promotion_effect. intros c sv Ec Hsv. assert (t = CHALLENGER_PROMOTION) as -> by by apply String.eqb_eq.
  split; [split; [by rewrite <- Et|]|by rewrite (named_content data c Ec)].
  unfold pending in Hp. change (gated_type _) with true in Hp. change (is_promotion _) with true in Hp. cbn [andb] in Hp.
  destruct (truthy (dget_or "approved" VNone data)); [by left|right]. cbn [negb andb] in Hp. by apply negb_false_iff in Hp.
Qed.

(** A message may also change what is remembered of the messages. *)
Definition changes (S : StrategyVersion -> Prop) (a a' : Applier) : Prop :=
  (exists new, sent a' = sent a ++ new /\ Forall vetted new) /\
  falls a a' /\ advance S (registry a) (registry a').

Lemma effect_changes S a a' : effect S a a' -> changes S a a'.
Proof. intros [_ E1 E2 E3]. exact (conj E1 (conj E2 E3)). Qed.

Lemma changes_same S a a' : ap_control a' = ap_control a -> sent a' = sent a -> registry a' = registry a -> changes S a a'.
Proof.
  intros E2 E3 E4. split; [|split; [by apply falls_same|rewrite E4; apply advance_refl]].
  exists []. split; [by rewrite E3, app_nil_r|constructor].
Qed.

#[local] Instance changes_pre S : PreOrder (changes S).
Proof.
  split.
  - intros a. by apply changes_same.
  - intros a b c ((n1 & P1 & V1) & S1 & R1) ((n2 & P2 & V2) & S2 & R2). split; [|split; [|by apply (advance_trans S _ (registry b))]].
    + exists (n1 ++ n2). split; [by rewrite P2, P1, app_assoc|by apply Forall_app].
    + by apply (falls_trans a b c).
Qed.

Lemma attempted_tracks {A} (R : Applier -> Applier -> Prop) (m : M Applier (option A)) : tracks R m -> tracks R (attempted m).
Proof. intros Hm a. specialize (Hm a). unfold attempted. by destruct (m a) as [[r|e] a']. Qed.

Lemma seen_changes S data t trace : tracks (changes S) (_already_applied data t trace).
Proof.
  intros a. unfold _already_applied, bind, gets. destruct (one_of _ _); [cbn; reflexivity|].
  unfold modify, ret. cbn [snd]. by apply changes_same.
Qed.

Lemma process_changes ev data : tracks (changes (promotes ev data)) (process h ev data).
Proof.
  unfold process. apply tracks_bind; [apply _|apply seen_changes|]. intros [].
  { apply tracks_ret, _. }
  unfold bind at 1, lift at 1. destruct (hashable (dget_or "proposal_type" VNone data)) as [t|e] eqn:Et; [|apply tracks_raise, _].
  assert (t = dget_or "proposal_type" VNone data) as Ht.
  { unfold hashable in Et. destruct (dget_or "proposal_type" VNone data); try discriminate Et; by apply Ok_inj in Et. }
  destruct (pending ev data t) eqn:Hp; [apply tracks_ret, _|].
  destruct (handler h ev t _ _) as [run|] eqn:Hh; [|apply tracks_ret, _].
  apply tracks_bind; [apply _| |].
  - apply attempted_tracks. intros a. apply effect_changes. exact (handler_effect ev data t _ run Hp Ht Hh a).
  - intros [d|]; [|apply tracks_ret, _]. apply tracks_bind; [apply _| |intros _].
    + apply tracks_modify. intros a. by apply changes_same.
    + apply tracks_modify. intros a. by apply changes_same.
Qed.

(** A history of messages, each in its environment. *)
Definition messages (l : list (ApplierEnv * payload)) (a : Applier) : Applier :=
  fold_left (fun a m => snd (process h (fst m) (snd m) a)) l a.

Lemma changes_weaken (S T : StrategyVersion -> Prop) a a' : (forall sv, S sv -> T sv) -> changes S a a' -> changes T a a'.
Proof.
  intros HST (E1 & E2 & E3). split; [exact E1|split; [exact E2|]]. intros Hr. destruct (E3 Hr) as [Hr' Ha]. split; [done|].
  intros vid rec' Hv Hc. destruct (Ha vid rec' Hv Hc) as [?|HS]; [by left|right; by apply HST].
Qed.

Definition promoted_in (l : list (ApplierEnv * payload)) (sv : StrategyVersion) : Prop :=
  exists m, In m l /\ promotes (fst m) (snd m) sv.

Lemma messages_changes l : forall a, changes (promoted_in l) a (messages l a).
Proof.
  induction l as [|m l IH]; intros a; [cbn; reflexivity|]. cbn [messages fold_left].
  transitivity (snd (process h (fst m) (snd m) a)).
  - apply (changes_weaken (promotes (fst m) (snd m))); [|apply process_changes]. intros sv Hsv. exists m. split; [by left|done].
  - apply (changes_weaken (promoted_in l)); [|apply IH]. intros sv (m' & Hin & Hsv). exists m'. split; [by right|done].
Qed.

(** ** Theorems of every history *)

Lemma reader_of_level raw m : level raw m -> _get_signal_weight_scale raw = weight m.
Proof.
  intros Hm. unfold _get_signal_weight_scale. rewrite (scale_of_level _ _ Hm).
  destruct (weight_ok m (level_range _ _ Hm)) as [[Hlo Hhi] Hfin]. apply fin_ok_finite in Hfin.
  assert (fltb (Fin 0) (weight m) = true) as H0 by exact (fltb_fleb_trans (Fin 0) SIGNAL_WEIGHT_SCALE_MIN _ ltac:(fconst) Hlo).
  assert (fleb (weight m) 0.0%F = false) as -> by exact (fltb_asym _ _ H0).
  destruct (fltb 1.0%F (weight m)) eqn:E; [|reflexivity].
  pose proof (fltb_asym _ _ E). congruence.
Qed.

(** *** Time *)

(** Either a message arrives or some seconds pass. *)
Inductive happening := Arrives (ev : ApplierEnv) (data : payload) | Passes (seconds : Z).

Definition happens (a : Applier) (x : happening) : Applier :=
  match x with Arrives ev data => snd (process h ev data a) | Passes n => elapse n a end.

Definition history (l : list happening) (a : Applier) : Applier := fold_left happens l a.

Definition seconds (x : happening) : Z := match x with Arrives _ _ => 0 | Passes n => n end.
Definition duration (l : list happening) : Z := foldr (fun x n => seconds x + n) 0 l.

(** Time does not run backwards. *)
Definition forward (l : list happening) : Prop := Forall (fun x => 0 <= seconds x) l.

Lemma age_get n k c : NoDup (dkeys c) -> dget k (age n c) =
  match dget k c with Some (v, t) => if n <? t then Some (v, t - n) else None | None => None end.
Proof.
  unfold age. induction c as [|[k' [v t]] c IH]; intros Hd; [done|]. apply NoDup_cons in Hd as [Hk Hd].
  assert (dget k' c = None) as Hn by by apply dget_None.
  cbn [List.filter snd dget]. destruct (n <? t) eqn:Et.
  - cbn [map dget fst snd]. destruct (String.eqb k k'); [by rewrite Et|by apply IH].
  - destruct (String.eqb_spec k k') as [->|_]; [rewrite Et, (IH Hd); by rewrite Hn|by apply IH].
Qed.

(** What holds of the control plane at any time. *)
Record kept (a : Applier) : Prop := {
  kp_keys : NoDup (dkeys (ap_control a));
  kp_level : exists m, level (raw_scale a) m;
  kp_life : forall t, life a = Some t -> t <= LEARNING_CONTROL_TTL_SECONDS;
}.

Lemma kept_falls a a' : falls a a' -> kept a -> kept a'.
Proof.
  intros (S1 & L1 & N1) [Hk [m Hm] Hl]. split; [auto| |].
  - destruct (S1 m Hm) as (n & Hn & _). by exists n.
  - destruct L1 as [E|E]; rewrite E; [exact Hl|]. by intros t [= <-].
Qed.

Lemma elapse_scale n a : NoDup (dkeys (ap_control a)) ->
  match life a with
  | Some t => if n <? t then raw_scale (elapse n a) = raw_scale a /\ life (elapse n a) = Some (t - n)
              else raw_scale (elapse n a) = None /\ life (elapse n a) = None
  | None => raw_scale (elapse n a) = None /\ life (elapse n a) = None
  end.
Proof.
  intros Hk. unfold raw_scale, life. cbn [ap_control elapse with_control]. rewrite (age_get n _ _ Hk).
  destruct (dget REDIS_KEY_SIGNAL_WEIGHT_SCALE (ap_control a)) as [[v t]|]; [|done]. cbn. by destruct (n <? t).
Qed.

Lemma kept_elapse n a : 0 <= n -> kept a -> kept (elapse n a).
Proof.
  intros H0 [Hk [m Hm] Hl]. pose proof (elapse_scale n a Hk) as He. split.
  - unfold elapse, age. cbn [ap_control with_control]. unfold dkeys. rewrite map_map. cbn [fst].
    apply (sublist_NoDup _ (dkeys (ap_control a))); [exact Hk|]. unfold dkeys. clear. induction (ap_control a) as [|e c IH]; [constructor|].
    cbn [List.filter map]. destruct (_ <? _); cbn [map]; by constructor.
  - destruct (life a) as [t|]; [destruct (n <? t)|]; destruct He as [-> _]; [by exists m|by exists 1000000..].
  - destruct (life a) as [t|]; [destruct (Z.ltb_spec n t)|]; destruct He as [_ ->]; try discriminate.
    intros t' [= <-]. specialize (Hl t eq_refl). lia.
Qed.

Lemma kept_history l : forward l -> forall a, kept a -> kept (history l a).
Proof.
  induction 1 as [|x l Hx _ IH]; intros a Ha; [exact Ha|]. cbn [history fold_left]. apply IH.
  destruct x as [ev data|n]; cbn [happens]; [|by apply kept_elapse].
  apply (kept_falls a); [|exact Ha]. exact (proj1 (proj2 (process_changes ev data a))).
Qed.

Lemma duration_nonneg l : forward l -> 0 <= duration l.
Proof.
  induction 1 as [|x l Hx _ IH]; [cbn; lia|]. change (duration (x :: l)) with (seconds x + duration l). lia.
Qed.

(** While the stored weight lives, it does not rise. *)
Lemma falls_in_time l : forward l -> forall a t m, kept a -> life a = Some t -> duration l < t -> level (raw_scale a) m ->
  exists n, level (raw_scale (history l a)) n /\ n <= m.
Proof.
  induction 1 as [|x l Hx Hf IH]; intros a t m Ha Ht Hd Hm; [exists m; split; [done|lia]|]. cbn [history fold_left].
  pose proof (duration_nonneg l Hf) as H0. change (duration (x :: l)) with (seconds x + duration l) in Hd.
  pose proof (kept_history [x] ltac:(by constructor) a Ha) as Ha'. cbn [history fold_left] in Ha'.
  destruct x as [ev data|n]; cbn [happens seconds] in *.
  - pose proof (proj1 (proj2 (process_changes ev data a))) as (S1 & L1 & _). destruct (S1 m Hm) as (k & Hk & Hle).
    assert (exists t', life (snd (process h ev data a)) = Some t' /\ duration l < t') as (t' & Ht' & Hd').
    { destruct L1 as [-> | ->]; [exists t; split; [done|lia]|]. eexists. split; [reflexivity|]. pose proof (kp_life a Ha t Ht). lia. }
    destruct (IH _ t' k Ha' Ht' Hd' Hk) as (j & Hj & Hle'). exists j. split; [exact Hj|lia].
  - pose proof (elapse_scale n a (kp_keys a Ha)) as He. rewrite Ht in He. destruct (Z.ltb_spec n t) as [_|]; [|lia].
    destruct He as [Er El]. apply (IH _ (t - n) m Ha' El); [lia|by rewrite Er].
Qed.

(** C10: The learning loop dampens, for a time. Whatever proposals arrive, malformed and failing
    ones included, and however much time passes between them, the signal weight the reasoning
    agent reads is between 0.05 and 1.0. While the stored weight has seconds to live, at most
    the life of a learning control, nothing that happens within them raises the reading: the
    text it is stored as never drifts upwards by rounding. Once it has outlived them the
    weight is 1.0 again, as it is before the first reduction. *)
Theorem weight_falls_until_expiry prompts agents w before :
  forward before ->
  let a := history before (init prompts agents w) in
  let read a := _get_signal_weight_scale (raw_scale a) in
  within SIGNAL_WEIGHT_SCALE_MIN 1.0%F (read a) /\
  match life a with
  | Some t =>
      t <= LEARNING_CONTROL_TTL_SECONDS /\
      (forall after, forward after -> duration after < t -> fleb (read (history after a)) (read a) = true) /\
      (forall n, t <= n -> read (elapse n a) = 1.0%F)
  | None => read a = 1.0%F
  end.
Proof.
  intros Hf. cbv zeta. set (a := history before _).
  assert (kept a) as Ha.
  { apply kept_history; [exact Hf|]. split; [constructor|by exists 1000000|discriminate]. }
  destruct (kp_level a Ha) as [m Hm]. pose proof (level_range _ _ Hm) as Hr. rewrite (reader_of_level _ _ Hm).
  split; [by apply weight_ok|]. destruct (life a) as [t|] eqn:El.
  - split; [by apply (kp_life a Ha)|]. split.
    + intros after Haf Hd. destruct (falls_in_time after Haf a t m Ha El Hd Hm) as (n & Hn & Hle).
      rewrite (reader_of_level _ _ Hn). pose proof (level_range _ _ Hn). apply weight_mono. lia.
    + intros n Hn. pose proof (elapse_scale n a (kp_keys a Ha)) as He. rewrite El in He.
      destruct (Z.ltb_spec n t); [lia|]. destruct He as [-> _]. reflexivity.
  - assert (raw_scale a = None) as E.
    { unfold raw_scale, life in *. by destruct (dget _ (ap_control a)). }
    rewrite E in Hm. cbn [level] in Hm. subst m. exact weight_top.
Qed.

(** C11: No unsafe change of a parameter leaves. Whatever proposals arrive, all the applier
    publishes are requests of parameter changes; merged into the override file, such a
    request is kept by the loader, as a value inside the parameter's safe bounds. *)
Theorem published_changes_load l prompts agents w : exists new,
  sent (messages l (init prompts agents w)) = wo_published w ++ new /\
  Forall (fun m => fst m = STREAM_GITHUB_PRS /\ exists parameter v x,
    dget "parameter" (snd m) = Some parameter /\ dget "proposed_value" (snd m) = Some v /\
    sanitize_overrides (VDict [(Fmt.str parameter, v)]) = Ok [(Fmt.str parameter, x)] /\
    within_bounds (Fmt.str parameter) x) new.
Proof.
  destruct (messages_changes l (init prompts agents w)) as ((new & E & Hv) & _). exists new. split; [exact E|].
  eapply Forall_impl; [exact Hv|]. intros m (Es & p & v & Ep & Ev & Hok). split; [exact Es|].
  destruct (validate_inv _ _ Hok) as (lo & hi & x & Hn & Hx & Hw). destruct (coerce_within _ lo hi x Hn Hw) as (y & Ey & Hy).
  exists p, v, y. split_and!; [done|done| |done]. unfold sanitize_overrides. cbn [res_fold]. unfold sanitize_entry. cbn [fst snd].
  rewrite Hok. cbn [res_bind]. rewrite Hx. cbn [res_bind]. rewrite Ey. reflexivity.
Qed.

(** C8: A canary was promoted. When a version of a strategy is a canary after any history of
    proposals and was none before, a promotion of that strategy is in the history and an
    operator approved it, or promotions are configured to need no approval. No other
    proposal, and no spawned challenger, makes a canary. *)
Theorem canary_needs_approval l a vid rec :
  VersionFacts.registry_ok h (registry a) ->
  Versions.get vid (registry (messages l a)) = Some rec -> status rec = CANARY ->
  Versions.status_of vid (registry a) <> Some CANARY ->
  exists ev data, In (ev, data) l /\ approved ev data /\
    val_eqb (dget_or "strategy" VNone (sv_config (strategy rec))) (VStr (strategy_named data)) = true.
Proof.
  intros Hr Hv Hc Hn. destruct (messages_changes l a) as (_ & _ & Ha). destruct (Ha Hr) as [_ Hcan].
  destruct (Hcan vid rec Hv Hc) as [(rec0 & Hv0 & _ & Hc0)|([ev data] & Hin & Hp1 & Hp2)].
  - destruct Hn. unfold Versions.status_of, Versions.get. by rewrite Hv0, Hc0.
  - by exists ev, data.
Qed.

(** * Once *)

Definition key_of (ev : ApplierEnv) (data : payload) : string :=
  identity_key data (dget_or "proposal_type" VNone data) (trace_of ev data).

Definition keeps_keys (a a' : Applier) : Prop := ap_applied_keys a' = ap_applied_keys a.

#[local] Instance keeps_keys_pre : PreOrder keeps_keys.
Proof. split; [done|]. intros a b c E1 E2. unfold keeps_keys in *. congruence. Qed.

(** A message is remembered by its identity, and does nothing when it is remembered. *)
Lemma process_keys ev data a :
  if one_of (key_of ev data) (ap_applied_keys a) then process h ev data a = (Ok tt, a)
  else ap_applied_keys (snd (process h ev data a)) = remember (key_of ev data) (ap_applied_keys a).
Proof.
  unfold process at 1. destruct (one_of (key_of ev data) (ap_applied_keys a)) eqn:E.
  - unfold bind at 1, _already_applied, bind at 1, gets. fold (key_of ev data). rewrite E. reflexivity.
  - unfold process, bind at 1, _already_applied, bind at 1, gets. fold (key_of ev data). rewrite E.
    unfold bind at 1, modify at 1, ret at 1. set (a1 := with_applied _ _ a).
    change (remember (key_of ev data) (ap_applied_keys a)) with (ap_applied_keys a1). clearbody a1. clear E.
    match goal with |- ap_applied_keys (snd (?m a1)) = _ => cut (tracks keeps_keys m); [intros Ht; exact (Ht a1)|] end.
    unfold bind at 1, lift at 1. destruct (hashable (dget_or "proposal_type" VNone data)) as [t|e] eqn:Et; [|apply tracks_raise, _].
    assert (t = dget_or "proposal_type" VNone data) as Ht.
    { unfold hashable in Et. destruct (dget_or "proposal_type" VNone data); try discriminate Et; by apply Ok_inj in Et. }
    destruct (pending ev data t) eqn:Hp; [apply tracks_ret, _|].
    destruct (handler h ev t _ _) as [run|] eqn:Hh; [|apply tracks_ret, _].
    apply tracks_bind; [apply _| |].
    + apply attempted_tracks. intros b. exact (ef_keys _ _ _ (handler_effect ev data t _ run Hp Ht Hh b)).
    + intros [d|]; [|apply tracks_ret, _]. apply tracks_bind; [apply _|apply tracks_modify; done|intros _; apply tracks_modify; done].
Qed.

(** The key is among the last [n + 1] remembered. *)
Definition recent (key : string) (n : nat) (keys : list string) : Prop :=
  exists old new, keys = old ++ key :: new /\ (length new <= n)%nat.

Lemma recent_one_of key n keys : recent key n keys -> one_of key keys = true.
Proof. intros (old & new & -> & _). apply one_of_spec, in_app_iff. right. by left. Qed.

Lemma remember_recent key key' n keys : (n < 999)%nat -> recent key n keys -> recent key (S n) (remember key' keys).
Proof.
  intros Hn (old & new & -> & Hl). unfold remember, slice_last. cbn [Z.eqb Z.ltb Z.compare].
  replace ((old ++ key :: new) ++ [key']) with (old ++ key :: (new ++ [key'])) by by rewrite <- app_assoc.
  set (k := (length _ - Z.to_nat 1000)%nat). assert (k <= length old)%nat as Hk.
  { unfold k. rewrite length_app. cbn [length]. rewrite length_app. cbn [length]. lia. }
  exists (drop k old), (new ++ [key']). rewrite drop_app_le by done. split; [done|]. rewrite length_app. cbn [length]. lia.
Qed.

Lemma remember_new key keys : recent key 0 (remember key keys).
Proof.
  unfold remember, slice_last. cbn [Z.eqb Z.ltb Z.compare]. set (k := (length _ - Z.to_nat 1000)%nat).
  assert (k <= length keys)%nat as Hk by (unfold k; rewrite length_app; cbn [length]; lia).
  exists (drop k keys), []. rewrite drop_app_le by done. split; [done|simpl; lia].
Qed.

Lemma recent_weaken key n m keys : (n <= m)%nat -> recent key n keys -> recent key m keys.
Proof. intros H (old & new & -> & Hl). exists old, new. split; [done|lia]. Qed.

Lemma messages_recent key l : forall n a, (n + length l <= 999)%nat -> recent key n (ap_applied_keys a) ->
  recent key (n + length l) (ap_applied_keys (messages l a)).
Proof.
  induction l as [|[ev data] l IH]; intros n a Hn Hr; cbn [length messages fold_left fst snd] in *; [by rewrite Nat.add_0_r|].
  rewrite <- Nat.add_succ_comm. apply IH; [lia|]. pose proof (process_keys ev data a) as Hp.
  destruct (one_of (key_of ev data) (ap_applied_keys a)).
  - rewrite Hp. by apply (recent_weaken key n); [lia|].
  - rewrite Hp. apply remember_recent; [lia|exact Hr].
Qed.

(** C12: A proposal is applied at most once. A message with an identifier, new when it is first
    delivered, changes nothing at all when it is delivered again, by a retry or from the
    dead letters, with fewer than a thousand others in between: whatever came of the first
    delivery, a failed handler included. *)
Theorem applied_at_most_once ev ev' data l a :
  truthy (dget_or "msg_id" VNone data) = true -> ~ In (key_of ev data) (ap_applied_keys a) -> (length l < 1000)%nat ->
  let a1 := messages l (snd (process h ev data a)) in
  process h ev' data a1 = (Ok tt, a1).
Proof.
  intros Hid Hnew Hl. cbv zeta. set (a0 := snd (process h ev data a)).
  assert (key_of ev' data = key_of ev data) as Ek by (unfold key_of, identity_key, or_else; by rewrite Hid).
  assert (recent (key_of ev data) 0 (ap_applied_keys a0)) as H0.
  { pose proof (process_keys ev data a) as Hp. destruct (one_of (key_of ev data) (ap_applied_keys a)) eqn:E.
    - by apply one_of_spec in E.
    - unfold a0. rewrite Hp. apply remember_new. }
  pose proof (messages_recent _ l 0 a0 ltac:(lia) H0) as Hr. apply recent_one_of in Hr. rewrite <- Ek in Hr.
  pose proof (process_keys ev' data (messages l a0)) as Hp. by rewrite Hr in Hp.
Qed.

(** ** The pause *)

(** What the engine reads of the control plane. *)
Definition reads_pause (a : Applier) (s : Engine) : Engine :=
  Engine.with_flags (en_kill s) (bool_decide (fst <$> dget REDIS_KEY_TRADING_PAUSED (ap_control a) = Some "1"))
    (en_evaluated s) (en_in_flight s) s.

Definition retirement_message (data : payload) : Prop :=
  dget_or "proposal_type" VNone data = VStr AGENT_RETIREMENT /\ exists c, dget_or "content" VNone data = VDict c.

Lemma pause_applied ev content a : (forall key, ax_redis ev key = true) -> (exists c, content = VDict c) ->
  dget REDIS_KEY_TRADING_PAUSED (ap_control (snd (Handlers._apply_trading_pause ev content a))) =
    Some ("1", if ALPACA_PAPER (ax_settings ev) then TRADING_PAUSE_PROBATION_SECONDS else LEARNING_CONTROL_TTL_SECONDS).
Proof.
  intros Hr [c ->]. unfold Handlers._apply_trading_pause, bind at 1, lift. cbn [as_dict].
  unfold bind at 1, control_set at 1. rewrite Hr. unfold modify at 1. unfold bind at 1, control_set at 1. rewrite Hr.
  unfold modify at 1. destruct (ALPACA_PAPER (ax_settings ev)); cbn [negb].
  - unfold bind at 1, Handlers.reduce_scale, bind at 1, control_get. rewrite Hr. unfold gets. unfold bind at 1, control_set. rewrite Hr.
    unfold modify, ret. cbn [snd ap_control with_control]. by rewrite !dget_dset_ne, dget_dset_eq by discriminate.
  - unfold ret. cbn [snd ap_control with_control]. by rewrite dget_dset_ne, dget_dset_eq by discriminate.
Qed.

(** What a new message does to the controls, the tools and the prompts is what its handler
    does. *)
Lemma process_handled ev data t run a : ~ In (key_of ev data) (ap_applied_keys a) ->
  dget_or "proposal_type" VNone data = VStr t -> pending ev data (VStr t) = false ->
  handler h ev (VStr t) (or_else (dget_or "content" VNone data) (VDict [])) (trace_of ev data) = Some run ->
  let a1 := with_applied (ap_applied_count a) (remember (key_of ev data) (ap_applied_keys a)) a in
  let a2 := snd (process h ev data a) in
  ap_control a2 = ap_control (snd (run a1)) /\ ap_tools a2 = ap_tools (snd (run a1)) /\
  ap_prompts a2 = ap_prompts (snd (run a1)).
Proof.
  intros Hnew Et Hp Hh. cbv zeta. destruct (process h ev data a) as [u a2] eqn:Ep. cbn [snd].
  unfold process, bind at 1, _already_applied, bind at 1, gets in Ep. fold (key_of ev data) in Ep.
  destruct (one_of (key_of ev data) (ap_applied_keys a)) eqn:E; [by apply one_of_spec in E|].
  unfold bind at 1, modify at 1, ret at 1 in Ep. set (a1 := with_applied _ _ a) in *.
  rewrite Et in Ep. cbn [hashable] in Ep. unfold bind at 1, lift at 1 in Ep. rewrite Hp, Hh in Ep. unfold bind at 1, attempted in Ep.
  destruct (run a1) as [[[d|]|e] a3]; unfold bind, modify, ret in Ep; injection Ep as _ <-; split_and!; reflexivity.
Qed.

Lemma retirement_halts `{CS : Constants} ev data a s v decision :
  (forall key, ax_redis ev key = true) -> ~ In (key_of ev data) (ap_applied_keys a) -> retirement_message data ->
  let run := Engine.process v decision (reads_pause (snd (process h ev data a)) s) in
  en_broker (snd run) = en_broker s /\ forall c, fst run <> Ok (Engine.Filled c).
Proof.
  intros Hr Hnew [Et [c Ec]]. cbv zeta.
  assert (dget REDIS_KEY_TRADING_PAUSED (ap_control (snd (process h ev data a))) =
    Some ("1", if ALPACA_PAPER (ax_settings ev) then TRADING_PAUSE_PROBATION_SECONDS else LEARNING_CONTROL_TTL_SECONDS)) as Hc.
  { destruct (process_handled ev data AGENT_RETIREMENT
      (Handlers._apply_trading_pause ev (or_else (dget_or "content" VNone data) (VDict []))) a Hnew Et eq_refl eq_refl) as (-> & _).
    apply pause_applied; [exact Hr|]. rewrite Ec. unfold or_else. destruct (truthy (VDict c)); eauto. }
  unfold reads_pause. rewrite Hc. cbn [fmap option_map option_fmap fst]. rewrite bool_decide_eq_true_2 by done.
  unfold Engine.process, bind, gets, modify, raise, ret. cbn [en_kill Engine.with_flags].
  destruct (en_kill s); [split; [reflexivity|discriminate]|]. cbn. split; [reflexivity|discriminate].
Qed.


(** ** Tool governance *)

(** A suggestion, as a proposal carries it. *)
Definition suggested (s : ToolSuggestion) : val :=
  VDict [("tool", VStr (ts_tool s)); ("action", VStr (ts_action s)); ("severity", VStr (ts_severity s));
         ("reason", VStr (ts_reason s))].

(** The tools a list of suggestions switches off. *)
Definition condemned (name : string) (l : list ToolSuggestion) : bool :=
  existsb (fun s => String.eqb (ts_action s) "disable" && String.eqb name (ts_tool s)) l.

Lemma set_enabled_get name name' r : dget name' (snd (Tools.set_enabled name false r)) =
  if String.eqb name' name then with_enabled false <$> dget name' r else dget name' r.
Proof.
  unfold Tools.set_enabled. destruct (String.eqb_spec name' name) as [->|Hne].
  - destruct (dget name r) as [t|] eqn:E; cbn [snd]; [|by rewrite E].
    destruct (tm_enabled t) eqn:Et; cbn [eqb snd].
    + by rewrite dget_dset_eq.
    + rewrite E. cbn. f_equal. destruct t. simpl in *. by subst.
  - destruct (dget name r) as [t|] eqn:E; cbn [snd]; [|done]. destruct (eqb (tm_enabled t) false); [done|].
    cbn [snd]. by apply dget_dset_ne.
Qed.

(** The advice, as it arrives: it switches off exactly the tools it names. *)
Lemma disable_exact l : Forall (fun s => ts_tool s <> "") l -> forall a name,
  dget name (ap_tools (snd (Handlers.disable_suggested (map suggested l) a))) =
    if condemned name l then with_enabled false <$> dget name (ap_tools a) else dget name (ap_tools a).
Proof.
  induction 1 as [|s l Hs _ IH]; intros a name; [reflexivity|]. unfold condemned. cbn [map suggested Handlers.disable_suggested existsb].
  cbn [dget_or dget String.eqb Ascii.eqb Bool.eqb Handlers.is_text]. destruct (String.eqb (ts_action s) "disable"); cbn [andb orb]; [|apply IH].
  apply String.eqb_neq in Hs. unfold bind at 1. rewrite Hs. pose proof (set_enabled_get (ts_tool s) name (ap_tools a)) as Hg.
  destruct (Tools.set_enabled (ts_tool s) false (ap_tools a)) as [b r]. cbn [snd] in Hg.
  unfold bind. specialize (IH (with_tools r a) name). fold (condemned name l).
  assert (dget name (ap_tools (snd (Handlers.disable_suggested (map suggested l) (with_tools r a)))) =
    if String.eqb name (ts_tool s) || condemned name l
    then with_enabled false <$> dget name (ap_tools a) else dget name (ap_tools a)) as E.
  { rewrite IH. cbn [ap_tools with_tools]. rewrite Hg. destruct (String.eqb name (ts_tool s)), (condemned name l); try reflexivity.
    cbn [orb]. by destruct (dget name (ap_tools a)). }
  destruct (Handlers.disable_suggested _ (with_tools r a)) as [[names|e] a'] eqn:Ed; exact E.
Qed.

Lemma named_tools r : grown r -> forall name t, dget name r = Some t -> name <> "" /\ tm_name t = name.
Proof.
  intros Hg name t Ht. destruct (grown_entry _ _ _ Hg Ht) as ([k0 t0] & Hin & E1 & _ & E3 & _). cbn [fst snd] in *.
  split; [|exact E3]. subst k0. assert (Forall (fun e => negb (String.eqb (fst e) "") = true) Tools.seeded) as Hs.
  { apply List.Forall_forall, forallb_forall. vm_compute. reflexivity. }
  rewrite Forall_forall in Hs. specialize (Hs _ Hin). cbn [fst] in Hs. intros ->. discriminate Hs.
Qed.

Lemma advice_named r n f : grown r -> Forall (fun s => ts_tool s <> "") (Tools.suggest_tool_changes n f r).
Proof.
  intros Hg. assert (forall t, In t (Tools.all_tools r) -> tm_name t <> "") as Hn.
  { intros t Ht. apply (in_tools_get _ _ Hg) in Ht as [k Hk]. by destruct (named_tools r Hg k t Hk) as [H <-]. }
  unfold Tools.suggest_tool_changes. apply Forall_app. split.
  - apply List.Forall_forall. intros s Hs. apply in_flat_map in Hs as (t & Ht & Hs). unfold Tools.attribution in Ht.
    rewrite sort_asc_in in Ht. specialize (Hn t Ht). unfold Tools.advice in Hs.
    repeat (case_match_hyp Hs); try destruct Hs as [<-|[]]; try exact Hn; destruct Hs.
  - unfold Tools.top_tool. set (cand := List.filter _ _).
    assert (forall l o, (forall t, In t l -> In t (Tools.all_tools r)) -> (forall t, o = Some t -> tm_name t <> "") ->
      forall t, fold_left Tools.greater_alpha l o = Some t -> tm_name t <> "") as Hf.
    { induction l as [|x l IH]; intros o Hl Ho t; cbn [fold_left]; [apply Ho|]. apply IH; [intros y Hy; apply Hl; by right|].
      intros y. unfold Tools.greater_alpha. destruct o as [b|].
      - destruct (fltb _ _); [intros [= <-]; apply Hn, Hl; by left|intros [= <-]; by apply Ho].
      - intros [= <-]. apply Hn, Hl. by left. }
    destruct (fold_left Tools.greater_alpha cand None) as [t|] eqn:E; [|constructor]. constructor; [|constructor].
    apply (Hf cand None); [|done|exact E]. intros x Hx. by apply filter_In in Hx as [Hx _].
Qed.

(** What a new proposal of tool governance does to the tools, whatever else it carries. *)
Lemma governance_disables ev data c l a : ~ In (key_of ev data) (ap_applied_keys a) ->
  dget_or "proposal_type" VNone data = VStr TOOL_GOVERNANCE -> dget_or "content" VNone data = VDict c ->
  dget_or "suggestions" VNone c = VList (map suggested l) -> Forall (fun s => ts_tool s <> "") l -> forall name,
  dget name (ap_tools (snd (process h ev data a))) =
    if condemned name l then with_enabled false <$> dget name (ap_tools a) else dget name (ap_tools a).
Proof.
  intros Hnew Et Ec Es Hl name.
  destruct (process_handled ev data TOOL_GOVERNANCE
    (Handlers._apply_tool_governance (or_else (dget_or "content" VNone data) (VDict []))) a Hnew Et eq_refl eq_refl) as (_ & -> & _).
  set (a1 := with_applied _ _ a). rewrite Ec. assert (or_else (VDict c) (VDict []) = VDict c) as -> by (by destruct c).
  change (ap_tools a) with (ap_tools a1). rewrite <- (disable_exact l Hl a1 name). do 2 f_equal.
  unfold Handlers._apply_tool_governance, bind at 1, lift at 1. cbn [as_dict]. unfold bind at 1, lift at 1.
  assert (iterate (or_else (dget_or "suggestions" VNone c) (VList [])) = Ok (map suggested l)) as ->.
  { rewrite Es. unfold or_else. by destruct (map suggested l). }
  unfold bind at 1. destruct (Handlers.disable_suggested (map suggested l) a1) as [[[|x names]|e] a2]; reflexivity.
Qed.

(** What the advice of the registry condemns. *)
Lemma advice_condemns n f l name : let r := tool_run Tools.seeded l in
  condemned name (Tools.suggest_tool_changes n f r) = true <->
  exists t, Tools.get name r = Some t /\ tm_enabled t = true /\ unreliable n f t.
Proof.
  cbv zeta. rewrite <- disable_advice_exact. unfold condemned. rewrite existsb_exists. split.
  - intros (s & Hs & E). apply andb_true_iff in E as [E1 E2]. apply String.eqb_eq in E1, E2. by exists s.
  - intros (s & Hs & Ha & Hn). exists s. split; [exact Hs|]. by rewrite Ha, Hn, !String.eqb_refl.
Qed.

End Effects.

(** * Proposals *)
Section ApplierWitness.
#[local] Existing Instance pow_exact.
#[local] Existing Instance constant_half.
#[local] Existing Instance gauss_mean.
#[local] Existing Instance default_constants.

(** A world in which one strategy runs in shadow. *)
Definition shadow_world : World :=
  {| wo_registry := seed_lifecycle no_hash "mean_reversion" 0.0%F Versions.init; wo_durable := None;
     wo_store := Store.init; wo_published := [] |}.

Definition before : Applier := init (Some Prompts.empty) None shadow_world.

Definition promotion (approved : bool) : payload :=
  [("msg_id", VStr "m1"); ("proposal_type", VStr CHALLENGER_PROMOTION); ("approved", VBool approved);
   ("content", VDict [("strategy", VStr "mean_reversion"); ("shadow_edge", VStr "0.4"); ("confidence", VStr "0.6")])].

Lemma shadow_world_ok : VersionFacts.registry_ok no_hash (registry before).
Proof. exact (proj1 (advance_seed no_hash (fun _ => False) "mean_reversion" 0.0%F Versions.init (VersionFacts.no_versions_ok no_hash))). Qed.

Definition promoted : Applier := messages no_hash [(promoting, promotion false); (promoting, promotion true)] before.

Definition only_version (r : StrategyRegistry) : string := match _records r with (vid, _) :: _ => vid | [] => "" end.

Lemma canary_needs_approval_witness : exists rec,
  Versions.get (only_version (registry promoted)) (registry promoted) = Some rec /\ status rec = CANARY /\
  exists ev data, In (ev, data) [(promoting, promotion false); (promoting, promotion true)] /\ approved ev data /\
    val_eqb (dget_or "strategy" VNone (sv_config (strategy rec))) (VStr (strategy_named data)) = true.
Proof.
  set (vid := only_version (registry promoted)).
  assert (option_map status (Versions.get vid (registry promoted)) = Some CANARY) as Hs by (vm_compute; reflexivity).
  assert (Versions.status_of vid (registry before) <> Some CANARY) as Hn by (vm_compute; discriminate).
  destruct (Versions.get vid (registry promoted)) as [rec|] eqn:E; [|discriminate Hs]. apply Some_inj in Hs.
  exists rec. split; [reflexivity|]. split; [exact Hs|].
  exact (canary_needs_approval no_hash _ before vid rec shadow_world_ok E Hs Hn).
Defined.

Definition retirement : payload :=
  [("msg_id", VStr "m2"); ("proposal_type", VStr AGENT_RETIREMENT); ("content", VDict [("reason", VStr "F")])].

Lemma applied_at_most_once_witness :
  ap_applied_count (snd (process no_hash promoting retirement before)) = 1 /\
  let a1 := messages no_hash [(promoting, promotion false)] (snd (process no_hash promoting retirement before)) in
  process no_hash promoting retirement a1 = (Ok tt, a1).
Proof.
  split; [vm_compute; reflexivity|].
  exact (applied_at_most_once no_hash promoting promoting retirement [(promoting, promotion false)] before
    eq_refl (fun H => H) ltac:(cbn; lia)).
Defined.


(** One reduction of the weight, and ten minutes. *)
Definition reduction : payload :=
  [("msg_id", VStr "m4"); ("proposal_type", VStr SIGNAL_WEIGHT_REDUCTION); ("content", VDict [("reason", VStr "C")])].

Definition dampened : Applier := history no_hash [Arrives promoting reduction; Passes 600] before.

Lemma weight_falls_until_expiry_witness :
  _get_signal_weight_scale (raw_scale dampened) = 0.7%F /\ life dampened = Some 89400 /\
  fleb (_get_signal_weight_scale (raw_scale (history no_hash [Passes 80000; Arrives promoting retirement] dampened))) 0.7%F = true /\
  _get_signal_weight_scale (raw_scale (elapse 89400 dampened)) = 1.0%F.
Proof.
  assert (_get_signal_weight_scale (raw_scale dampened) = 0.7%F) as E by (vm_compute; reflexivity).
  assert (life dampened = Some 89400) as El by (vm_compute; reflexivity).
  destruct (weight_falls_until_expiry no_hash (Some Prompts.empty) None shadow_world [Arrives promoting reduction; Passes 600])
    as [_ Hx]; [repeat constructor; cbn; lia|]. fold before dampened in Hx. rewrite El, E in Hx. destruct Hx as (_ & Hf & Hn).
  split_and!; [exact E|exact El| |apply Hn; lia].
  apply Hf; [repeat constructor; cbn; lia|cbn; lia].
Defined.

End ApplierWitness.
