(* ===== verification/Delivery.v ===== *)
(** Delivery: the wire format of events and the delivery of messages to consumers
    (api/events/bus.py, api/events/dlq.py, api/events/consumer.py, services/agents/base.py).

    Redis is outside: an entry arrives as the fields and the identifier Redis gives, every
    command answers or fails, and the hashes and counters the code keeps in Redis hold what
    was written.  A hash is listed in the order of its insertions.  Schema versions and
    fields are compared as Python compares them.  Trimming of a stream, groups, heartbeats,
    spans, logging and instance rows are left out. *)
From S2P Require Import Prelude StateErr PyFloat FloatFacts PyVal PyMath Config Params Policy Store Execution Broker Engine Guardian Scorer Momentum Shadow Contender Tools.

Definition DLQ_MAX_RETRIES : Z := 3.
Definition DB_SCHEMA_VERSIONS : list val := [VStr DB_SCHEMA_VERSION; VStr "legacy"; VNone; VStr ""].

Definition STREAMS : list string :=
  ["market_events"; "market_ticks"; "signals"; "decisions"; "graded_decisions"; "orders"; "executions";
   "trade_completed"; "trade_performance"; "risk_alerts"; "learning_events"; "system_metrics"; "agent_logs";
   "agent_grades"; "factor_ic_history"; "reflection_outputs"; "proposals"; "notifications"; "github_prs";
   "trade_lifecycle"; "dlq"; "sell_rejected"].

(** * The wire *)

(** [json.dumps] of a list or a dictionary, and [json.loads]. *)
Class Json := { json_dumps : val -> string; json_loads : string -> res val }.

Section Wire.
Context `{JS : Json}.

Definition _serialize (v : val) : string :=
  match v with
  | VNone => ""
  | VBool _ | VInt _ | VFloat _ | VStr _ => Fmt.str v
  | VList _ | VDict _ => json_dumps v
  end.

Definition lowered (s : string) : string :=
  String.string_of_list_ascii (map Parse.lower (String.list_ascii_of_string s)).

(** [value.startswith(("{", "[", quote))] *)
Definition opens_json (s : string) : bool :=
  match s with
  | EmptyString => false
  | String c _ => let n := Ascii.nat_of_ascii c in ((n =? 123) || (n =? 91) || (n =? 34))%nat
  end.

Definition _deserialize (value : string) : res val :=
  let lower := lowered value in
  if String.eqb lower "true" then Ok (VBool true)
  else if String.eqb lower "false" then Ok (VBool false)
  else if opens_json value then
    match json_loads value with
    | Raise ValueError | Raise TypeError => Ok (VStr value)
    | r => r
    end
  else Ok (VStr value).

Definition setdefault (k : string) (v : val) (d : payload) : payload := if dmem k d then d else d ++ [(k, v)].

(** The event as [publish] stamps it, in the caller's dictionary too. *)
Definition stamped (now : string) (event : payload) : payload :=
  setdefault "timestamp" (VStr now) (setdefault "schema_version" (VStr DB_SCHEMA_VERSION) event).

Definition serialized (event : payload) : dict string := map (fun kv => (fst kv, _serialize (snd kv))) event.

(** The entries of the streams. *)
Definition Entries : Type := dict (list (string * dict string)).

Definition stream_entries (stream : string) (s : Entries) : list (string * dict string) :=
  match dget stream s with Some l => l | None => [] end.

(** [XADD] gives an identifier, or fails, which [publish] swallows. *)
Definition publish (added : option string) (now stream : string) (event : payload) (s : Entries)
  : option string * Entries :=
  match added with
  | None => (None, s)
  | Some id => (Some id, dset stream (stream_entries stream s ++ [(id, serialized (stamped now event))]) s)
  end.

Definition decoded_fields (fields : dict string) : res payload :=
  res_list (fun kv => res_map (pair (fst kv)) (_deserialize (snd kv))) fields.

Definition decoded_entry (e : string * dict string) : res (string * payload) :=
  res_map (pair (fst e)) (decoded_fields (snd e)).

(** [consume] of what [XREADGROUP] answers; whatever goes wrong, there is nothing. *)
Definition consume (reply : res (list (string * dict string))) : list (string * payload) :=
  match res_bind reply (res_list decoded_entry) with Ok l => l | Raise _ => [] end.

(** A raw entry: its fields as a dictionary or as a flat list of keys and values. *)
Inductive RawFields := FieldDict (d : dict string) | FieldList (l : list string) | NoFields.
Inductive RawEntry := Raw (id : string) (fields : RawFields) | Malformed.

Fixpoint paired (l : list string) (d : dict string) : dict string :=
  match l with
  | k :: v :: rest => paired rest (dset k v d)
  | _ => d
  end.

Definition raw_fields (f : RawFields) : dict string :=
  match f with
  | FieldDict d => d
  | FieldList l => if Nat.even (length l) then paired l [] else []
  | NoFields => []
  end.

Fixpoint _decode_entries (entries : list RawEntry) : res (list (string * payload)) :=
  match entries with
  | [] => Ok []
  | Malformed :: rest => _decode_entries rest
  | Raw id fields :: rest =>
      let* d := decoded_fields (raw_fields fields) in
      let* l := _decode_entries rest in
      Ok ((id, d) :: l)
  end.

(** [reclaim_stale] of the entries [XAUTOCLAIM] hands over. *)
Definition reclaim_stale (reply : res (list RawEntry)) : list (string * payload) :=
  match res_bind reply _decode_entries with Ok l => l | Raise _ => [] end.

End Wire.

(** * Dead letters (dlq.py) *)

(** The records by stream and event, and the counters of failed attempts. *)
Record DeadLetters := { dl_records : dict (payload); dl_retries : dict Z }.

Module Dlq.

Definition empty : DeadLetters := {| dl_records := []; dl_retries := [] |}.

Definition records_of (stream : string) (d : DeadLetters) : payload :=
  match dget stream (dl_records d) with Some r => r | None => [] end.

Definition record (stream event_id : string) (p : payload) (error : string) (retries : Z) (now : string) : payload :=
  [("stream", VStr stream); ("event_id", VStr event_id); ("payload", VDict p); ("error", VStr error);
   ("retries", VInt retries); ("timestamp", VStr now)].

Definition push (stream event_id : string) (p : payload) (error : string) (retries : Z) (now : string)
    (d : DeadLetters) : DeadLetters :=
  {| dl_records := dset stream (dset event_id (VDict (record stream event_id p error retries now)) (records_of stream d))
                     (dl_records d);
     dl_retries := dl_retries d |}.

Definition retries_of (event_id : string) (d : DeadLetters) : Z :=
  match dget event_id (dl_retries d) with Some n => n | None => 0 end.

(** [INCR] *)
Definition count_failure (event_id : string) (d : DeadLetters) : DeadLetters :=
  {| dl_records := dl_records d; dl_retries := dset event_id (retries_of event_id d + 1) (dl_retries d) |}.

Definition should_dlq (event_id : string) (d : DeadLetters) : bool * DeadLetters :=
  let d' := count_failure event_id d in (DLQ_MAX_RETRIES <=? retries_of event_id d', d').

Definition clear (event_id : string) (d : DeadLetters) : DeadLetters :=
  {| dl_records := fold_left (fun rs stream => match dget stream rs with
                                              | Some r => dset stream (Store.dpop event_id r) rs
                                              | None => rs
                                              end) STREAMS (dl_records d);
     dl_retries := Store.dpop event_id (dl_retries d) |}.

(** The first stream that holds a record of the event. *)
Definition found (event_id : string) (d : DeadLetters) : option val :=
  head (omap (fun stream => dget event_id (records_of stream d)) STREAMS).

(** [replay]: whether there was a record, which is published again and cleared. *)
Definition replay `{Json} (added : option string) (now event_id : string) (d : DeadLetters) (s : Entries)
  : res bool * (DeadLetters * Entries) :=
  match found event_id d with
  | None => (Ok false, (d, s))
  | Some (VDict r) =>
      match dindex "stream" r, dindex "payload" r with
      | Ok (VStr stream), Ok (VDict p) =>
          let '(_, s') := publish added now stream p s in (Ok true, (clear event_id d, s'))
      | Raise e, _ | _, Raise e => (Raise e, (d, s))
      | _, _ => (Raise AttributeError, (d, s))
      end
  | Some _ => (Raise TypeError, (d, s))
  end.

Definition all_records (d : DeadLetters) : list val := flat_map (fun stream => dvalues (records_of stream d)) STREAMS.

Definition stamp_of (v : val) : string :=
  match v with VDict r => match dget_or "timestamp" (VStr "") r with VStr t => t | _ => "" end | _ => "" end.

(** Sorted by timestamp, the newest first; equal ones keep their order. *)
Definition get_recent (limit : Z) (d : DeadLetters) : list val :=
  slice 0 limit (sort_desc (fun a b => String.ltb (stamp_of a) (stamp_of b)) (all_records d)).

Definition get_all (d : DeadLetters) : list val := get_recent 10000 d.

Definition retries_in (v : val) : res Z :=
  match v with VDict r => py_int (dget_or "retries" (VInt 0) r) | _ => Raise AttributeError end.

Definition bucketed (buckets : dict Z) (v : val) : res (dict Z) :=
  let* n := retries_in v in
  Ok (dset (pretty n) (match dget (pretty n) buckets with Some k => k + 1 | None => 1 end) buckets).

Definition last_error (last : val) (v : val) : val :=
  match v with VDict r => let e := dget_or "error" VNone r in if truthy e then e else last | _ => last end.

Definition stats (now : string) (d : DeadLetters) : res payload :=
  let* buckets := res_fold bucketed (all_records d) [] in
  Ok [("total", VInt (zlen (all_records d)));
      ("per_stream", VDict (map (fun stream => (stream, VInt (zlen (records_of stream d)))) STREAMS));
      ("retry_buckets", VDict (map (fun kn => (fst kn, VInt (snd kn))) buckets));
      ("last_error", fold_left last_error (all_records d) VNone);
      ("timestamp", VStr now)].

End Dlq.

(** * Consumers *)

(** A failing command: a lost connection, or anything else. *)
Inductive fault := Disconnected | Broken.

(** What Redis does during the handling of one message. *)
Record Reply := {
  rp_push : option fault;
  rp_ack : bool;
  rp_incr : option fault;
  rp_expire : option fault;
  rp_get : option fault;
  rp_error : exn -> string;
  rp_now : string;
}.

(** A message handed to a consumer that is still running, or that was stopped before it. *)
Record Delivered := { de_id : string; de_data : payload; de_reply : Reply; de_running : bool }.

Record Consumer (S : Type) := {
  co_agent : S;
  co_acked : list string;
  co_dead : DeadLetters;
  co_backoff : Z;
  co_events : Z;
}.
Arguments co_agent {S}.
Arguments co_acked {S}.
Arguments co_dead {S}.
Arguments co_backoff {S}.
Arguments co_events {S}.

Section Consumer.
Context {S : Type}.

(** What the subclass makes of a message; a timeout is a [RuntimeError] too. *)
Variable process : payload -> M S unit.
Variable stream : string.

Implicit Type c : Consumer S.

Definition init (a : S) : Consumer S :=
  {| co_agent := a; co_acked := []; co_dead := Dlq.empty; co_backoff := 1; co_events := 0 |}.

Definition with_agent (a : S) c : Consumer S :=
  {| co_agent := a; co_acked := co_acked c; co_dead := co_dead c; co_backoff := co_backoff c; co_events := co_events c |}.
Definition with_dead (d : DeadLetters) c : Consumer S :=
  {| co_agent := co_agent c; co_acked := co_acked c; co_dead := d; co_backoff := co_backoff c; co_events := co_events c |}.
Definition with_backoff (b : Z) c : Consumer S :=
  {| co_agent := co_agent c; co_acked := co_acked c; co_dead := co_dead c; co_backoff := b; co_events := co_events c |}.
Definition counted c : Consumer S :=
  {| co_agent := co_agent c; co_acked := co_acked c; co_dead := co_dead c; co_backoff := co_backoff c;
     co_events := co_events c + 1 |}.

(** [XACK]; a failure is swallowed. *)
Definition acknowledge (rp : Reply) (id : string) c : Consumer S :=
  if rp_ack rp then
    {| co_agent := co_agent c; co_acked := co_acked c ++ [id]; co_dead := co_dead c; co_backoff := co_backoff c;
       co_events := co_events c |}
  else c.

Definition pushed (rp : Reply) (id : string) (data : payload) (error : string) (retries : Z) c : Consumer S :=
  with_dead (Dlq.push stream id data error retries (rp_now rp) (co_dead c)) c.

Definition extract_msg_id (data : payload) : res val :=
  let v := dget_or "msg_id" VNone data in if truthy v then Ok v else Raise RuntimeError.

(** Membership in a set; what cannot be hashed raises. *)
Definition accepted (version : val) : res bool :=
  match version with
  | VList _ | VDict _ => Raise TypeError
  | v => Ok (existsb (val_eqb v) DB_SCHEMA_VERSIONS)
  end.

Definition backfilled (id : string) (data : payload) : payload :=
  if dmem "msg_id" data then data else data ++ [("msg_id", VStr id)].

(** The handling of a failure; what it raises is swallowed. *)
Definition failed (rp : Reply) (id : string) (data : payload) (e : exn) c : Consumer S :=
  match rp_incr rp with
  | Some _ => c
  | None =>
      let '(dead, d) := Dlq.should_dlq id (co_dead c) in
      let c := with_dead d c in
      match rp_expire rp with
      | Some _ => c
      | None =>
          if dead then
            match rp_get rp, rp_push rp with
            | None, None => acknowledge rp id (pushed rp id data (rp_error rp e) (Dlq.retries_of id d) c)
            | _, _ => c
            end
          else c
      end
  end.

Definition invalid_version (version : val) : string := "Invalid schema version: " +:+ Fmt.str version.

(** What leaves the handler, and the consumer. *)
Definition _handle_message (d : Delivered) c : option fault * Consumer S :=
  let rp := de_reply d in
  let id := de_id d in
  let data := backfilled id (de_data d) in
  let version := dget_or "schema_version" VNone data in
  match accepted version with
  | Raise _ => (Some Broken, c)
  | Ok false =>
      match rp_push rp with
      | Some f => (Some f, c)
      | None => (None, acknowledge rp id (pushed rp id data (invalid_version version) 0 c))
      end
  | Ok true =>
      match process data (co_agent c) with
      | (Ok _, a) => (None, counted (acknowledge rp id (with_agent a c)))
      | (Raise e, a) => (None, failed rp id data e (with_agent a c))
      end
  end.

(** What ends a batch: the consumer was stopped, or a fault. *)
Inductive halt := Stop | Fault (f : fault).

(** A batch: a message that finds the consumer stopped ends it, as does a fault. *)
Fixpoint handle_all (l : list Delivered) c : option halt * Consumer S :=
  match l with
  | [] => (None, c)
  | d :: rest =>
      if de_running d then
        match _handle_message d c with
        | (None, c') => handle_all rest c'
        | (Some f, c') => (Some (Fault f), c')
        end
      else (Some Stop, c)
  end.

Definition _max_backoff : Z := 10.
Definition backed_off c : Consumer S := with_backoff (Z.min (co_backoff c * 2) _max_backoff) c.

(** One turn of the loop: whether there is another. *)
Definition poll (l : list Delivered) c : bool * Consumer S :=
  match handle_all l (with_backoff 1 c) with
  | (None, c') => (true, c')
  | (Some (Fault Disconnected), c') => (true, backed_off c')
  | (Some _, c') => (false, c')
  end.

(** The reclaimed messages of a start, outside the loop's handlers. *)
Definition reclaimed (l : list Delivered) c : bool * Consumer S :=
  match handle_all l c with (None, c') => (true, c') | (Some _, c') => (false, c') end.

Fixpoint polls (ls : list (list Delivered)) c : bool * Consumer S :=
  match ls with
  | [] => (true, c)
  | l :: rest => match poll l c with (true, c') => polls rest c' | r => r end
  end.

(** [_run]: the reclaimed messages, then a batch per turn; whether it goes on. *)
Definition _run (stale : list Delivered) (ls : list (list Delivered)) c : bool * Consumer S :=
  match reclaimed stale c with (true, c') => polls ls c' | r => r end.

(** [MultiStreamAgent._run] on one message: no retry, straight to the dead letters. *)
Definition dispatch (d : Delivered) c : Consumer S :=
  let rp := de_reply d in
  match process (de_data d) (co_agent c) with
  | (Ok _, a) => counted (acknowledge rp (de_id d) (with_agent a c))
  | (Raise e, a) =>
      match rp_push rp with
      | Some _ => with_agent a c
      | None => acknowledge rp (de_id d) (pushed rp (de_id d) (de_data d) (rp_error rp e) 1 (with_agent a c))
      end
  end.

End Consumer.

(** * One close from two streams *)

Definition MAX_TRACES : Z := 500.

(** Moves a key that is there to the end. *)
Definition move_to_end (key : string) (seen : list string) : list string :=
  List.filter (fun k => negb (String.eqb k key)) seen ++ [key].

(** [PairedCloseDeduper.is_duplicate] on the traces seen, the least recent first. *)
Definition is_duplicate (data : payload) (seen : list string) : bool * list string :=
  let trace := dget_or "trace_id" VNone data in
  let pnl := dget_or "pnl" VNone data in
  if negb (truthy trace) || match pnl with VNone => true | VStr s => String.eqb s "" | _ => false end then (false, seen)
  else
    let key := Fmt.str trace in
    if one_of key seen then (true, move_to_end key seen) else (false, slice_last MAX_TRACES (seen ++ [key])).
