(* ===== verification/DeliveryFacts.v ===== *)
(** DeliveryFacts: what a consumer reads of an event, and what becomes of a message: it is
    acknowledged only once it was processed or is a dead letter, and a message that always
    fails becomes a dead letter at its third delivery. *)
From Stdlib Require Import Ascii.
From S2P Require Import Prelude StateErr PyFloat FloatFacts PyVal PyMath Config Params Policy Store Execution Broker Engine Guardian Scorer Momentum Shadow Contender Tools ToolsFacts FixedFacts StoreFacts EngineFacts EngineInv EngineSafety Delivery.

(** * The wire *)

(** The characters of a number. *)
Definition numeric_char (c : Ascii.ascii) : bool :=
  let n := Ascii.nat_of_ascii c in
  ((48 <=? n) && (n <=? 57) || (n =? 45) || (n =? 43) || (n =? 46) || (n =? 101) || (n =? 105) || (n =? 110) ||
   (n =? 102) || (n =? 97))%nat.

Definition numeric (s : string) : bool := forallb numeric_char (String.list_ascii_of_string s).

Lemma numeric_append s t : numeric (s +:+ t) = numeric s && numeric t.
Proof. unfold numeric. by rewrite list_ascii_app, forallb_app. Qed.

Lemma numeric_zeros n : numeric (Fmt.zeros n) = true.
Proof.
  unfold Fmt.zeros. induction (Z.to_nat n) as [|k IH]; [done|]. cbn [Fmt.repeat_str]. by rewrite numeric_append, IH.
Qed.

Lemma digit_numeric c : is_digit c -> numeric_char c = true.
Proof.
  intros (x & Hx & _). unfold Parse.digit in Hx. destruct c as [b0 b1 b2 b3 b4 b5 b6 b7].
  destruct b0, b1, b2, b3, b4, b5, b6, b7; try discriminate Hx; reflexivity.
Qed.

Lemma numeric_nonneg n : 0 <= n -> numeric (pretty n) = true.
Proof.
  intros Hn. destruct (pretty_decimal n Hn) as (ds & E & _ & Hd & _). unfold numeric. rewrite E. apply forallb_forall.
  intros c Hc. rewrite List.Forall_forall in Hd. by apply digit_numeric, Hd.
Qed.

Lemma numeric_pretty (n : Z) : numeric (pretty n) = true.
Proof.
  destruct n as [|p|p]; [done|apply (numeric_nonneg (Zpos p)); lia|]. change (pretty (Zneg p)) with ("-" +:+ pretty (Zpos p)).
  by rewrite numeric_append, numeric_nonneg.
Qed.

Lemma numeric_padded w n : numeric (Fmt.padded w n) = true.
Proof. unfold Fmt.padded. by rewrite numeric_append, numeric_zeros, numeric_pretty. Qed.

Lemma numeric_substring i n s : numeric s = true -> numeric (String.substring i n s) = true.
Proof.
  revert i n. induction s as [|c s IH]; intros i n Hs; [by destruct i, n|].
  unfold numeric in *. cbn [String.list_ascii_of_string forallb] in Hs. apply andb_true_iff in Hs as [Hc Hs].
  destruct i as [|i]; [destruct n as [|n]; [done|]|]; cbn [String.substring String.list_ascii_of_string forallb].
  - rewrite Hc. exact (IH 0%nat n Hs).
  - exact (IH i n Hs).
Qed.

Lemma numeric_repr_pos a : numeric (Fmt.repr_pos a) = true.
Proof.
  unfold Fmt.repr_pos. destruct (Fmt.shortest a _ 1 18) as [d0 k0]. destruct (Fmt.strip_zeros 20 d0 k0) as [d k].
  pose proof (numeric_pretty d) as Hd.
  repeat case_match_goal; rewrite ?numeric_append, ?numeric_substring, ?numeric_zeros, ?numeric_padded, ?Hd by exact Hd; reflexivity.
Qed.

Lemma numeric_repr_float x : numeric (Fmt.repr_float x) = true.
Proof.
  unfold Fmt.repr_float. rewrite numeric_append. apply andb_true_iff. split; [by destruct (signbit x)|].
  destruct x as [| | |n]; try reflexivity. cbn [Fmt.repr_abs]. destruct (n =? 0); [reflexivity|apply numeric_repr_pos].
Qed.

(** A text that is read back as itself. *)
Definition plain (s : string) : Prop :=
  String.eqb (lowered s) "true" = false /\ String.eqb (lowered s) "false" = false /\ opens_json s = false.

Lemma numeric_plain s : numeric s = true -> plain s.
Proof.
  destruct s as [|c s]; [by intros _|]. unfold numeric. cbn [String.list_ascii_of_string forallb]. intros H.
  apply andb_true_iff in H as [Hc Hs].
  assert (Ascii.eqb (Parse.lower c) "t" = false /\ opens_json (String c s) = false) as (H1 & H2).
  { clear Hs. destruct c as [b0 b1 b2 b3 b4 b5 b6 b7]. destruct b0, b1, b2, b3, b4, b5, b6, b7; try discriminate Hc; repeat split. }
  split_and!; [| |exact H2]; apply String.eqb_neq; intros E.
  - change (String (Parse.lower c) (lowered s) = "true") in E. injection E as E _. by rewrite E in H1.
  - change (String (Parse.lower c) (lowered s) = "false") in E. injection E as _ E. destruct s as [|c1 [|c2 s]]; [done| |].
    + discriminate E.
    + change (String (Parse.lower c1) (String (Parse.lower c2) (lowered s)) = "alse") in E. injection E as _ E _.
      cbn [String.list_ascii_of_string forallb] in Hs. apply andb_true_iff in Hs as [_ Hs]. apply andb_true_iff in Hs as [Hs _].
      clear - Hs E. destruct c2 as [b0 b1 b2 b3 b4 b5 b6 b7]. destruct b0, b1, b2, b3, b4, b5, b6, b7; try discriminate Hs; discriminate E.
Qed.

Section Wire.
Context `{JS : Json}.

(** What a consumer reads of a value: a number is a text, nothing is the empty text. *)
Definition wire (v : val) : val :=
  match v with
  | VNone => VStr ""
  | VInt _ | VFloat _ => VStr (Fmt.str v)
  | _ => v
  end.

(** A document is printed as one and parsed back; a text is not taken for one. *)
Definition carried (v : val) : Prop :=
  match v with
  | VStr s => plain s
  | VList _ | VDict _ =>
      opens_json (json_dumps v) = true /\ json_loads (json_dumps v) = Ok v /\
      String.eqb (lowered (json_dumps v)) "true" = false /\ String.eqb (lowered (json_dumps v)) "false" = false
  | _ => True
  end.

Lemma plain_read s : plain s -> _deserialize s = Ok (VStr s).
Proof. intros (H1 & H2 & H3). unfold _deserialize. by rewrite H1, H2, H3. Qed.

Lemma carried_read v : carried v -> _deserialize (_serialize v) = Ok (wire v).
Proof.
  destruct v as [|[]|n|x|s|l|d]; cbn [carried _serialize wire]; intros H; try reflexivity.
  - apply plain_read, numeric_plain, numeric_pretty.
  - apply plain_read, numeric_plain, numeric_repr_float.
  - by apply plain_read.
  - destruct H as (H1 & H2 & H3 & H4). unfold _deserialize. by rewrite H3, H4, H1, H2.
  - destruct H as (H1 & H2 & H3 & H4). unfold _deserialize. by rewrite H3, H4, H1, H2.
Qed.

Lemma carried_fields (e : payload) : Forall carried (map snd e) ->
  decoded_fields (serialized e) = Ok (map (fun kv => (fst kv, wire (snd kv))) e).
Proof.
  unfold decoded_fields, serialized. induction e as [|[k v] e IH]; intros H; [done|]. inversion H as [|? ? Hv He]; subst.
  cbn [map res_list fst snd]. rewrite (carried_read v Hv). cbn [res_map res_bind]. by rewrite (IH He).
Qed.

(** C17: The wire carries an event field by field. A published event is consumed with every
    field it had, in order: documents, truth values and ordinary texts as they were, a
    number as its text, and nothing as the empty text; a schema version and a timestamp
    are added where there was none. *)
Theorem event_crosses_wire id now stream event (s : Entries) :
  Forall carried (map snd (stamped now event)) ->
  let '(added, s') := publish (Some id) now stream event s in
  added = Some id /\
  consume (Ok (drop (length (stream_entries stream s)) (stream_entries stream s'))) =
    [(id, map (fun kv => (fst kv, wire (snd kv))) (stamped now event))].
Proof.
  intros Hc. cbn [publish]. split; [reflexivity|]. unfold stream_entries at 2. rewrite dget_dset_eq, drop_app_length.
  unfold consume. cbn [res_bind res_list]. unfold decoded_entry. cbn [fst snd]. by rewrite (carried_fields _ Hc).
Qed.

End Wire.

(** * Dead letters *)

Lemma dpop_get {A} (k k' : string) (d : dict A) :
  dget k' (Store.dpop k d) = if String.eqb k' k then None else dget k' d.
Proof.
  unfold Store.dpop. induction d as [|[x v] d IH]; [by destruct (String.eqb k' k)|]. cbn [List.filter fst dget].
  destruct (String.eqb_spec x k) as [->|Hx]; cbn [negb].
  - rewrite IH. destruct (String.eqb_spec k' k); reflexivity.
  - cbn [dget]. destruct (String.eqb_spec k' x) as [->|]; [|exact IH]. by apply String.eqb_neq in Hx as ->.
Qed.

Definition cleared_in (id : string) (rs : dict payload) (stream : string) : dict payload :=
  match dget stream rs with Some r => dset stream (Store.dpop id r) rs | None => rs end.

Lemma cleared_in_get id rs x y :
  dget y (cleared_in id rs x) = if String.eqb y x then Store.dpop id <$> dget y rs else dget y rs.
Proof.
  unfold cleared_in. destruct (dget x rs) as [r|] eqn:Er.
  - rewrite dget_dset. destruct (String.eqb_spec y x) as [->|]; [by rewrite Er|done].
  - destruct (String.eqb_spec y x) as [->|]; [by rewrite Er|done].
Qed.

Lemma one_of_cons x y l : one_of x (y :: l) = String.eqb x y || one_of x l.
Proof. reflexivity. Qed.

Lemma cleared_get id l stream : forall rs, NoDup l ->
  dget stream (fold_left (cleared_in id) l rs) = if one_of stream l then Store.dpop id <$> dget stream rs else dget stream rs.
Proof.
  induction l as [|x l IH]; intros rs Hn; [done|]. apply NoDup_cons in Hn as [Hx Hn].
  cbn [fold_left]. rewrite (IH _ Hn), cleared_in_get, one_of_cons. destruct (String.eqb_spec stream x) as [->|Hne]; [|done].
  cbn [orb]. destruct (one_of x l) eqn:E; [|done]. apply one_of_spec, list_elem_of_In in E. done.
Qed.

Lemma streams_nodup : NoDup STREAMS.
Proof. apply (bool_decide_unpack _). vm_compute. exact I. Qed.

Lemma records_clear id d stream : one_of stream STREAMS = true ->
  Dlq.records_of stream (Dlq.clear id d) = Store.dpop id (Dlq.records_of stream d).
Proof.
  intros H. unfold Dlq.records_of, Dlq.clear. cbn [dl_records].
  change (fold_left _ STREAMS (dl_records d)) with (fold_left (cleared_in id) STREAMS (dl_records d)).
  rewrite (cleared_get id STREAMS stream (dl_records d) streams_nodup), H. by destruct (dget stream (dl_records d)).
Qed.

Lemma records_push stream id p err n now d stream' :
  Dlq.records_of stream' (Dlq.push stream id p err n now d) =
    if String.eqb stream' stream then dset id (VDict (Dlq.record stream id p err n now)) (Dlq.records_of stream d)
    else Dlq.records_of stream' d.
Proof.
  unfold Dlq.records_of at 1, Dlq.push. cbn [dl_records]. rewrite dget_dset. by destruct (String.eqb stream' stream).
Qed.

Lemma head_omap_None {A B} (f : A -> option B) l : head (omap f l) = None <-> forall x, In x l -> f x = None.
Proof.
  induction l as [|x l IH]; [done|]. cbn. destruct (f x) as [y|] eqn:E; cbn.
  - split; [done|]. intros H. specialize (H x (or_introl eq_refl)). congruence.
  - rewrite IH. split; [intros H z [<-|Hz]; auto|intros H z Hz; apply H; by right].
Qed.

Lemma found_None id d : Dlq.found id d = None <-> forall stream, In stream STREAMS -> dget id (Dlq.records_of stream d) = None.
Proof. unfold Dlq.found. apply head_omap_None. Qed.

Lemma retries_clear id d : Dlq.retries_of id (Dlq.clear id d) = 0.
Proof. unfold Dlq.retries_of, Dlq.clear. cbn [dl_retries]. by rewrite dpop_get, String.eqb_refl. Qed.

Lemma found_clear id d : Dlq.found id (Dlq.clear id d) = None.
Proof.
  apply found_None. intros stream Hs. apply one_of_spec in Hs. by rewrite (records_clear id d stream Hs), dpop_get, String.eqb_refl.
Qed.

Lemma found_push stream id p err n now d : In stream STREAMS ->
  (forall s, In s STREAMS -> dget id (Dlq.records_of s d) = None) ->
  Dlq.found id (Dlq.push stream id p err n now d) = Some (VDict (Dlq.record stream id p err n now)).
Proof.
  intros Hin Hd. unfold Dlq.found. revert Hd Hin. generalize STREAMS. intros l Hd Hin.
  induction l as [|z l IH]; [done|]. cbn. rewrite records_push. destruct (String.eqb_spec z stream) as [->|Hne].
  - by rewrite dget_dset_eq.
  - rewrite (Hd z (or_introl eq_refl)). destruct Hin as [->|Hin]; [done|].
    apply IH; [|exact Hin]. intros s Hs. apply Hd. by right.
Qed.

(** A replay puts the event of a dead letter back on its stream, as it was, when Redis
    takes it. It always reports success and always clears the record and its count of
    failures: when the publication fails, which the bus swallows, the event is gone. *)
Theorem replay_returns_or_loses_event `{JS : Json} stream id p err n now0 now added d (s : Entries) :
  In stream STREAMS -> Dlq.found id d = None ->
  let dead := Dlq.push stream id p err n now0 d in
  exists d' s', Dlq.replay added now id dead s = (Ok true, (d', s')) /\
    Dlq.found id d' = None /\ Dlq.retries_of id d' = 0 /\
    match added with
    | Some id' => stream_entries stream s' = stream_entries stream s ++ [(id', serialized (stamped now p))]
    | None => s' = s
    end.
Proof.
  intros Hin Hd. cbv zeta. unfold Dlq.replay.
  rewrite (found_push stream id p err n now0 d Hin (proj1 (found_None id d) Hd)).
  cbn [Dlq.record dindex dget String.eqb Ascii.eqb Bool.eqb]. set (dead := Dlq.push _ _ _ _ _ _ _).
  destruct added as [id'|]; cbn [publish].
  - eexists _, _. split; [reflexivity|]. split; [apply found_clear|]. split; [apply retries_clear|].
    unfold stream_entries at 1. by rewrite dget_dset_eq.
  - eexists _, _. split; [reflexivity|]. split; [apply found_clear|]. split; [apply retries_clear|reflexivity].
Qed.

(** * Consumers *)
Section Consumer.
Context {S : Type}.
Variable process : payload -> M S unit.
Variable stream : string.

Notation handle := (_handle_message process stream).

(** The life of a consumer: runs of its loop, each with what it reclaims and polls, any
    deliveries, outages and stops; and operators who clear or replay dead letters. *)
Inductive lived (a : S) : Consumer S -> Prop :=
| Born : lived a (init a)
| Ran c stale ls : lived a c -> lived a (snd (_run process stream stale ls c))
| Cleared c id : lived a c -> lived a (with_dead (Dlq.clear id (co_dead c)) c).

(** One step of such a life. *)
Inductive step : Consumer S -> Consumer S -> Prop :=
| Handled c d : step c (snd (handle d c))
| Rested c b : step c (with_backoff b c)
| Forgot c id : step c (with_dead (Dlq.clear id (co_dead c)) c).

Lemma handle_all_steps l : forall c, rtc step c (snd (handle_all process stream l c)).
Proof.
  induction l as [|d l IH]; intros c; [apply rtc_refl|]. cbn [handle_all]. destruct (de_running d); [|apply rtc_refl].
  pose proof (Handled c d) as Hs. destruct (handle d c) as [[f|] c']; cbn [snd] in *; [by apply rtc_once|].
  eapply rtc_l; [exact Hs|apply IH].
Qed.

Lemma poll_steps l c : rtc step c (snd (poll process stream l c)).
Proof.
  eapply rtc_l; [apply (Rested c 1)|]. unfold poll. pose proof (handle_all_steps l (with_backoff 1 c)) as H.
  destruct (handle_all process stream l (with_backoff 1 c)) as [[[|[|]]|] c']; cbn [snd] in *; try exact H.
  eapply rtc_r; [exact H|apply Rested].
Qed.

Lemma polls_steps ls : forall c, rtc step c (snd (polls process stream ls c)).
Proof.
  induction ls as [|l ls IH]; intros c; [apply rtc_refl|]. cbn [polls]. pose proof (poll_steps l c) as H.
  destruct (poll process stream l c) as [[|] c']; cbn [snd] in *; [|exact H]. etrans; [exact H|apply IH].
Qed.

Lemma run_steps stale ls c : rtc step c (snd (_run process stream stale ls c)).
Proof.
  unfold _run, reclaimed. pose proof (handle_all_steps stale c) as H.
  destruct (handle_all process stream stale c) as [[f|] c']; cbn [snd] in *; [exact H|]. etrans; [exact H|apply polls_steps].
Qed.

Lemma lived_steps a c : lived a c -> rtc step (init a) c.
Proof.
  induction 1 as [|c stale ls _ IH|c id _ IH]; [apply rtc_refl|etrans; [exact IH|apply run_steps]|].
  eapply rtc_r; [exact IH|apply Forgot].
Qed.

(** The delivery of a message that settles it: it was processed, or it is a dead letter. *)
Definition settled (d : Delivered) (c : Consumer S) : Prop :=
  fst (process (backfilled (de_id d) (de_data d)) (co_agent c)) = Ok tt \/
  exists error n now, dget (de_id d) (Dlq.records_of stream (co_dead (snd (handle d c)))) =
    Some (VDict (Dlq.record stream (de_id d) (backfilled (de_id d) (de_data d)) error n now)).

Lemma acknowledge_acked rp id (c : Consumer S) x : In x (co_acked (acknowledge rp id c)) -> In x (co_acked c) \/ x = id.
Proof.
  unfold acknowledge. destruct (rp_ack rp); [|by left]. cbn [co_acked]. rewrite in_app_iff. intros [?|[<-|[]]]; auto.
Qed.

Lemma acknowledge_dead rp id (c : Consumer S) : co_dead (acknowledge rp id c) = co_dead c.
Proof. unfold acknowledge. by destruct (rp_ack rp). Qed.

Lemma pushed_record rp id data err n (c : Consumer S) :
  dget id (Dlq.records_of stream (co_dead (pushed stream rp id data err n c))) =
    Some (VDict (Dlq.record stream id data err n (rp_now rp))).
Proof. unfold pushed. cbn [co_dead with_dead]. by rewrite records_push, String.eqb_refl, dget_dset_eq. Qed.

(** A message handled anew is acknowledged only when it is settled. *)
Lemma handle_acked d c x : In x (co_acked (snd (handle d c))) -> In x (co_acked c) \/ x = de_id d /\ settled d c.
Proof.
  unfold settled. unfold _handle_message. set (data := backfilled _ _). destruct (accepted _) as [[|]|]; [| |by left].
  - destruct (process data (co_agent c)) as [[[]|e] a]; cbn [snd fst].
    + intros H. change (co_acked (counted _)) with (co_acked (acknowledge (de_reply d) (de_id d) (with_agent a c))) in H.
      apply acknowledge_acked in H as [?|?]; [by left|by right; split; [|left]].
    + unfold failed. destruct (rp_incr _); [by left|]. destruct (Dlq.should_dlq _ _) as [dead dl]. destruct (rp_expire _); [by left|].
      destruct dead; [|by left]. destruct (rp_get _); [by left|]. destruct (rp_push _); [by left|].
      intros H. apply acknowledge_acked in H as [?| ->]; [by left|]. right. split; [done|]. right.
      rewrite acknowledge_dead, pushed_record. eauto.
  - destruct (rp_push _); [by left|]. cbn [snd]. intros H. apply acknowledge_acked in H as [?| ->]; [by left|].
    right. split; [done|]. right. rewrite acknowledge_dead, pushed_record. eauto.
Qed.

(** C15: No message is acknowledged unsettled. Whatever is delivered, however Redis fails and
    the consumer crashes and restarts, a message that is acknowledged was either processed
    without a raise or written, with its data, to the dead letters before it. *)
Theorem acknowledged_is_settled a c id : lived a c -> In id (co_acked c) ->
  exists c0 d, rtc step (init a) c0 /\ rtc step (snd (handle d c0)) c /\ de_id d = id /\ settled d c0.
Proof.
  intros Hc. apply lived_steps in Hc. revert c Hc. refine (rtc_ind_r _ (init a) _ _); [intros []|]. intros c2 c3 H12 H23 IH Hin.
  assert (In id (co_acked c2) -> exists c0 d, rtc step (init a) c0 /\ rtc step (snd (handle d c0)) c3 /\ de_id d = id /\ settled d c0) as Hold.
  { intros H. destruct (IH H) as (c0 & d & H1 & H2 & H3). exists c0, d. split; [exact H1|]. split; [|exact H3].
    eapply rtc_r; [exact H2|exact H23]. }
  inversion H23 as [c d|c b|c x]; subst; try exact (Hold Hin).
  apply handle_acked in Hin as [Hin|[-> Hs]]; [exact (Hold Hin)|]. exists c2, d. split; [exact H12|]. split; [apply rtc_refl|done].
Qed.

(** ** A message that always fails *)

(** Redis answers every command of a delivery, the consumer runs, and the version can be
    looked up. *)
Definition undisturbed (d : Delivered) : Prop :=
  de_running d = true /\ is_ok (accepted (dget_or "schema_version" VNone (backfilled (de_id d) (de_data d)))) = true /\
  let rp := de_reply d in
  rp_push rp = None /\ rp_ack rp = true /\ rp_incr rp = None /\ rp_expire rp = None /\ rp_get rp = None.

(** Its version is known, and the subclass raises whatever its state. *)
Definition poisoned (d : Delivered) : Prop :=
  let data := backfilled (de_id d) (de_data d) in
  accepted (dget_or "schema_version" VNone data) = Ok true /\ forall a, is_ok (fst (process data a)) = false.

(** After [k] failures. *)
Definition failing (l : list Delivered) (id : string) (k : Z) (c : Consumer S) : Prop :=
  Dlq.retries_of id (co_dead c) = k /\
  if k <? DLQ_MAX_RETRIES then ~ In id (co_acked c) /\ dget id (Dlq.records_of stream (co_dead c)) = None
  else In id (co_acked c) /\ exists d error now, In d l /\ de_id d = id /\
    dget id (Dlq.records_of stream (co_dead c)) =
      Some (VDict (Dlq.record stream id (backfilled id (de_data d)) error k now)).

Lemma retries_push id data err n now d x : Dlq.retries_of x (Dlq.push stream id data err n now d) = Dlq.retries_of x d.
Proof. reflexivity. Qed.

Lemma retries_count id d x : Dlq.retries_of x (Dlq.count_failure id d) =
  if String.eqb x id then Dlq.retries_of id d + 1 else Dlq.retries_of x d.
Proof. unfold Dlq.retries_of at 1, Dlq.count_failure. cbn [dl_retries]. rewrite dget_dset. by destruct (String.eqb x id). Qed.

(** What the handling of another message leaves alone. *)
Lemma handle_other d c id : de_id d <> id -> let c' := snd (handle d c) in
  Dlq.retries_of id (co_dead c') = Dlq.retries_of id (co_dead c) /\ (In id (co_acked c') <-> In id (co_acked c)) /\
  dget id (Dlq.records_of stream (co_dead c')) = dget id (Dlq.records_of stream (co_dead c)).
Proof.
  intros Hne. cbv zeta.
  assert (forall rp data err n (c' : Consumer S), Dlq.retries_of id (co_dead (pushed stream rp (de_id d) data err n c')) = Dlq.retries_of id (co_dead c') /\
    dget id (Dlq.records_of stream (co_dead (pushed stream rp (de_id d) data err n c'))) = dget id (Dlq.records_of stream (co_dead c'))) as Hp.
  { intros rp data err n c'. split; [reflexivity|]. unfold pushed. cbn [co_dead with_dead].
    by rewrite records_push, String.eqb_refl, dget_dset_ne. }
  assert (forall rp (c' : Consumer S), In id (co_acked (acknowledge rp (de_id d) c')) <-> In id (co_acked c')) as Ha.
  { intros rp c'. unfold acknowledge. destruct (rp_ack rp); [|done]. cbn [co_acked]. rewrite in_app_iff. split; [|by left].
    intros [?|[E|[]]]; [done|congruence]. }
  assert (Dlq.retries_of id (Dlq.count_failure (de_id d) (co_dead c)) = Dlq.retries_of id (co_dead c)) as Hc.
  { rewrite retries_count. assert (String.eqb id (de_id d) = false) as -> by (apply String.eqb_neq; congruence). done. }
  unfold _handle_message. set (data := backfilled _ _). destruct (accepted _) as [[|]|]; cbn [snd]; [| |done].
  - destruct (process data (co_agent c)) as [[u|e] a]; cbn [snd].
    + cbn [co_dead co_acked counted]. rewrite acknowledge_dead. split; [done|]. split; [exact (Ha _ (with_agent a c))|done].
    + unfold failed. destruct (rp_incr _); [done|]. unfold Dlq.should_dlq. cbn [co_dead with_agent].
      destruct (rp_expire _); [by split_and!|]. destruct (_ <=? _); [|by split_and!].
      destruct (rp_get _); [by split_and!|]. destruct (rp_push _); [by split_and!|].
      rewrite acknowledge_dead, Ha. destruct (Hp (de_reply d) data (rp_error (de_reply d) e)
        (Dlq.retries_of (de_id d) (Dlq.count_failure (de_id d) (co_dead c))) (with_dead (Dlq.count_failure (de_id d) (co_dead c)) (with_agent a c))) as [H1 H2].
      rewrite H1, H2. by split_and!.
  - destruct (rp_push _); [done|]. cbn [snd]. rewrite acknowledge_dead, Ha.
    match goal with |- context [pushed stream ?rp _ ?x ?err ?n c] => destruct (Hp rp x err n c) as [H1 H2] end. rewrite H1, H2. done.
Qed.

Lemma handle_poison d c k l : In d l -> undisturbed d -> poisoned d -> 0 <= k < DLQ_MAX_RETRIES -> failing l (de_id d) k c ->
  fst (handle d c) = None /\ failing l (de_id d) (k + 1) (snd (handle d c)).
Proof.
  intros Hin (_ & _ & Hpush & Hack & Hincr & Hexp & Hget) (Hv & Hp) Hk (Hr & Hf).
  destruct (k <? DLQ_MAX_RETRIES) eqn:Ek; [|lia]. destruct Hf as [Hna Hnr].
  unfold _handle_message. cbv zeta in *. rewrite Hv. set (data := backfilled _ _) in *. specialize (Hp (co_agent c)).
  destruct (process data (co_agent c)) as [[u|e] a]; [discriminate Hp|]. cbn [fst snd]. split; [done|].
  unfold failed. rewrite Hincr. unfold Dlq.should_dlq. rewrite Hexp. cbn [co_dead with_agent].
  rewrite retries_count, String.eqb_refl, Hr. unfold failing. destruct (Z.leb_spec DLQ_MAX_RETRIES (k + 1)) as [Hle|Hgt].
  - rewrite Hget, Hpush. assert (k + 1 <? DLQ_MAX_RETRIES = false) as -> by lia. rewrite acknowledge_dead, pushed_record.
    split; [|split].
    + unfold pushed. cbn [co_dead with_dead]. by rewrite retries_push, retries_count, String.eqb_refl, Hr.
    + unfold acknowledge. rewrite Hack. cbn [co_acked]. apply in_app_iff. right. by left.
    + by eexists d, _, _.
  - assert (k + 1 <? DLQ_MAX_RETRIES = true) as -> by lia. cbn [co_dead with_dead co_acked with_agent].
    split; [by rewrite retries_count, String.eqb_refl, Hr|]. by split.
Qed.

Definition deliveries (id : string) (l : list Delivered) : Z := zlen (List.filter (fun d => String.eqb (de_id d) id) l).


End Consumer.

(** * One close from two streams *)

(** The trace of a round-trip close; other fills have none. *)
Definition close_key (data : payload) : option string :=
  let trace := dget_or "trace_id" VNone data in
  let pnl := dget_or "pnl" VNone data in
  if negb (truthy trace) || match pnl with VNone => true | VStr s => String.eqb s "" | _ => false end then None
  else Some (Fmt.str trace).

Definition seen_after (l : list payload) (seen : list string) : list string :=
  fold_left (fun seen data => snd (is_duplicate data seen)) l seen.

Lemma is_duplicate_eq data seen : is_duplicate data seen =
  match close_key data with
  | None => (false, seen)
  | Some key => if one_of key seen then (true, move_to_end key seen) else (false, slice_last MAX_TRACES (seen ++ [key]))
  end.
Proof. unfold is_duplicate, close_key. by destruct (_ || _). Qed.

(** The key is among the last [n + 1]. *)
Definition among_last (key : string) (n : nat) (keys : list string) : Prop :=
  exists old new, keys = old ++ key :: new /\ (length new <= n)%nat.

Lemma among_last_one_of key n keys : among_last key n keys -> one_of key keys = true.
Proof. intros (old & new & -> & _). apply one_of_spec, in_app_iff. right. by left. Qed.

Lemma among_last_snoc key keys : among_last key 0 (keys ++ [key]).
Proof. by exists keys, []. Qed.

Lemma among_last_slice key n m keys : 0 < m -> (n < Z.to_nat m)%nat -> among_last key n keys ->
  among_last key n (slice_last m keys).
Proof.
  intros Hm Hn (old & new & -> & Hl). unfold slice_last. assert (m =? 0 = false) as -> by lia. assert (0 <? m = true) as -> by lia.
  set (k := (length _ - _)%nat). assert (k <= length old)%nat as Hk by (unfold k; rewrite length_app; cbn [length]; lia).
  exists (drop k old), new. by rewrite drop_app_le.
Qed.

Lemma among_last_add key key' n keys : among_last key n keys -> among_last key (S n) (keys ++ [key']).
Proof.
  intros (old & new & -> & Hl). exists old, (new ++ [key']). rewrite <- app_assoc. split; [done|].
  rewrite length_app. cbn [length]. lia.
Qed.

Lemma among_last_moved key key' n keys : among_last key n keys -> among_last key (S n) (move_to_end key' keys).
Proof.
  intros (old & new & -> & Hl). unfold move_to_end. destruct (String.eqb_spec key key') as [->|Hne].
  - destruct (among_last_snoc key' (List.filter (fun k => negb (String.eqb k key')) (old ++ key' :: new))) as (o & w & E & Hw).
    exists o, w. split; [exact E|lia].
  - apply among_last_add. exists (List.filter (fun k => negb (String.eqb k key')) old), (List.filter (fun k => negb (String.eqb k key')) new).
    rewrite List.filter_app. cbn [List.filter]. apply String.eqb_neq in Hne. rewrite Hne. cbn [negb]. split; [done|].
    etrans; [apply List.filter_length_le|exact Hl].
Qed.

Lemma seen_recent key l : forall n seen, (n + length l < Z.to_nat MAX_TRACES)%nat -> among_last key n seen ->
  among_last key (n + length l) (seen_after l seen).
Proof.
  induction l as [|data l IH]; intros n seen Hn Hr; cbn [length seen_after fold_left] in *; [by rewrite Nat.add_0_r|].
  rewrite <- Nat.add_succ_comm. apply IH; [lia|]. rewrite is_duplicate_eq. destruct (close_key data) as [k|]; cbn [snd].
  - destruct (one_of k seen); cbn [snd]; [by apply among_last_moved|].
    apply among_last_slice; [reflexivity|lia|by apply among_last_add].
  - destruct Hr as (o & w & E & Hw). exists o, w. split; [exact E|simpl; lia].
Qed.

Lemma seen_new key data seen : close_key data = Some key -> among_last key 0 (snd (is_duplicate data seen)).
Proof.
  intros E. rewrite is_duplicate_eq, E. destruct (one_of key seen); cbn [snd]; [apply among_last_snoc|].
  apply among_last_slice; [reflexivity|apply Nat2Z.inj_lt; reflexivity|apply among_last_snoc].
Qed.

Lemma seen_incl l : forall seen k, In k (seen_after l seen) -> In k seen \/ exists data, In data l /\ close_key data = Some k.
Proof.
  induction l as [|data l IH]; intros seen k; cbn [seen_after fold_left]; [by left|]. intros H.
  destruct (IH _ k H) as [Hk|(x & Hx & Ex)]; [|right; exists x; split; [by right|done]].
  rewrite is_duplicate_eq in Hk. destruct (close_key data) as [key|] eqn:E; [|by left].
  assert (In k seen \/ k = key) as [?| ->]; [|by left|right; exists data; split; [by left|done]].
  destruct (one_of key seen); cbn [snd] in Hk.
  - unfold move_to_end in Hk. apply in_app_iff in Hk as [Hk|[<-|[]]]; [apply filter_In in Hk as [Hk _]; by left|by right].
  - assert (In k (seen ++ [key])) as Hin.
    { unfold slice_last in Hk. cbn [Z.eqb Z.ltb Z.compare MAX_TRACES] in Hk.
      rewrite <- (firstn_skipn (length (seen ++ [key]) - Z.to_nat MAX_TRACES) (seen ++ [key])). apply in_app_iff. right. exact Hk. }
    apply in_app_iff in Hin as [?|[<-|[]]]; [by left|by right].
Qed.

(** C18: A close that arrives on both streams is counted once. Its first arrival is no duplicate;
    every later one is, while fewer than five hundred events come in between, and a fill
    that closes nothing never is. *)
Theorem close_counted_once before between after first second key :
  close_key first = Some key -> close_key second = Some key ->
  Forall (fun data => close_key data <> Some key) before -> (length between < 500)%nat ->
  fst (is_duplicate first (seen_after before [])) = false /\
  fst (is_duplicate second (seen_after (before ++ first :: between) [])) = true /\
  (close_key after = None -> forall seen, is_duplicate after seen = (false, seen)).
Proof.
  intros E1 E2 Hb Hl. split; [|split].
  - rewrite is_duplicate_eq, E1. destruct (one_of key (seen_after before [])) eqn:E; [|done]. apply one_of_spec in E.
    destruct (seen_incl before [] key E) as [[]|(x & Hx & Ex)]. rewrite List.Forall_forall in Hb. by destruct (Hb x Hx).
  - unfold seen_after. rewrite fold_left_app. cbn [fold_left]. fold (seen_after before []).
    pose proof (seen_new key first (seen_after before []) E1) as H0.
    pose proof (seen_recent key between 0 _ ltac:(change (Z.to_nat MAX_TRACES) with 500%nat; lia) H0) as Hr. apply among_last_one_of in Hr.
    rewrite is_duplicate_eq, E2. unfold seen_after in Hr |- *. by rewrite Hr.
  - intros E seen. by rewrite is_duplicate_eq, E.
Qed.

(** * Messages *)

Definition quote_doc : val := VDict [("symbol", VStr "BTC/USD")].

(** A printer and a parser of one document. *)
#[local] Instance one_document : Json :=
  {| json_dumps := Fmt.repr;
     json_loads := fun s => if String.eqb s (Fmt.repr quote_doc) then Ok quote_doc else Raise ValueError |}.

Definition tick : payload := [("payload", quote_doc); ("price", VInt 5); ("stale", VBool false); ("pnl", VNone)].

Lemma event_crosses_wire_witness :
  Forall carried (map snd (stamped "now" tick)) /\
  consume (Ok (drop 0 (stream_entries "market_events" (snd (publish (Some "1-0") "now" "market_events" tick []))))) =
    [("1-0", [("payload", quote_doc); ("price", VStr "5"); ("stale", VBool false); ("pnl", VStr "");
              ("schema_version", VStr "v3"); ("timestamp", VStr "now")])].
Proof.
  assert (Forall carried (map snd (stamped "now" tick))) as H.
  { repeat constructor; vm_compute; repeat split; reflexivity. }
  split; [exact H|]. exact (proj2 (event_crosses_wire "1-0" "now" "market_events" tick [] H)).
Defined.

Lemma replay_returns_or_loses_event_witness :
  In "executions" STREAMS /\
  exists d' s', Dlq.replay None "now" "1-0" (Dlq.push "executions" "1-0" tick "e" 3 "then" Dlq.empty) [] = (Ok true, (d', s')) /\
    Dlq.found "1-0" d' = None /\ Dlq.retries_of "1-0" d' = 0 /\ s' = [].
Proof.
  assert (In "executions" STREAMS) as H by (apply one_of_spec; reflexivity). split; [exact H|].
  exact (replay_returns_or_loses_event "executions" "1-0" tick "e" 3 "then" "now" None Dlq.empty [] H eq_refl).
Defined.

Definition calm : Reply :=
  {| rp_push := None; rp_ack := true; rp_incr := None; rp_expire := None; rp_get := None; rp_error := fun _ => "error"; rp_now := "now" |}.

Definition delivered (id : string) (data : payload) : Delivered :=
  {| de_id := id; de_data := data; de_reply := calm; de_running := true |}.

(** A consumer that counts what it processes and refuses one kind of message. *)
Definition counting (data : payload) : M Z unit := fun n =>
  if dmem "poison" data then (Raise ValueError, n) else (Ok tt, n + 1).

Lemma acknowledged_is_settled_witness :
  let c := snd (_run counting "signals" [] [[delivered "1-0" []]] (init 0)) in
  co_acked c = ["1-0"] /\
  exists c0 d, rtc (step counting "signals") (init 0) c0 /\
    rtc (step counting "signals") (snd (_handle_message counting "signals" d c0)) c /\
    de_id d = "1-0" /\ settled counting "signals" d c0.
Proof.
  split; [reflexivity|].
  exact (acknowledged_is_settled counting "signals" 0 _ "1-0" (Ran _ _ 0 _ [] [[delivered "1-0" []]] (Born _ _ 0)) (or_introl eq_refl)).
Defined.

Definition poison_thrice : list Delivered :=
  [delivered "1-0" [("poison", VNone)]; delivered "2-0" []; delivered "1-0" [("poison", VNone)]; delivered "1-0" [("poison", VNone)]].


Definition closing : payload := [("trace_id", VStr "t1"); ("pnl", VStr "4.5")].

Lemma close_counted_once_witness :
  fst (is_duplicate closing (seen_after [] [])) = false /\
  fst (is_duplicate closing (seen_after ([] ++ closing :: [tick]) [])) = true.
Proof.
  destruct (close_counted_once [] [tick] tick closing closing "t1" eq_refl eq_refl (List.Forall_nil _) ltac:(cbn; lia)) as (H1 & H2 & _).
  split; [exact H1|exact H2].
Defined.

(** A batch ends at a message that cannot be dead-lettered: the loop goes on, and the rest
    of the batch, which Redis does not hand over again, waits for a restart. *)
Definition unsent : Delivered :=
  {| de_id := "1-0"; de_data := [("schema_version", VStr "v9")];
     de_reply := {| rp_push := Some Disconnected; rp_ack := true; rp_incr := None; rp_expire := None; rp_get := None;
                    rp_error := fun _ => ""; rp_now := "now" |};
     de_running := true |}.

Example outage_skips_batch :
  let run l := poll counting "signals" l (init 0) in
  co_events (snd (run [delivered "2-0" []])) = 1 /\ fst (run [unsent; delivered "2-0" []]) = true /\
  co_events (snd (run [unsent; delivered "2-0" []])) = 0.
Proof. vm_compute. split; [|split]; reflexivity. Qed.
