(* ===== verification/AgentGrade.v ===== *)
(** AgentGrade: the score of the trading agents, its letter and its diagnostics
    (api/services/agents/scoring.py, api/services/agents/grade_analytics.py).

    Values are sorted by a stable insertion sort; on values without NaN every stable sort
    gives its result, and a rank is a position in any order. *)
From S2P Require Import Prelude StateErr PyFloat FloatFacts PyVal PyMath PyPow Config Params Policy Store Execution Lifecycle Scorer Tools.

(** * Scoring (scoring.py) *)

Definition GRADE_THRESHOLDS : list (string * float) :=
  [("A+", 0.90%F); ("A", 0.80%F); ("B", 0.65%F); ("C", 0.50%F); ("D", 0.35%F); ("F", 0.0%F)].

Definition GRADE_SEVERITY : dict (option string) :=
  [("A+", None); ("A", None); ("B", Some "INFO"); ("C", Some "WARNING"); ("D", Some "URGENT"); ("F", Some "CRITICAL")].

Section Scoring.
Context `{CPow}.

(** The positions of the values in ascending order. *)
Definition indexed (values : list float) : list (nat * float) :=
  sort_asc (fun a b => fltb (snd a) (snd b)) (zip (List.seq 0 (length values)) values).

(** [_rank], with [n] the length of the first list. *)
Definition _rank (n : nat) (values : list float) : res (list float) :=
  if (n <? length values)%nat then Raise IndexError
  else
    Ok (fold_left (fun ranks e => <[fst (snd e) := of_Z (Z.of_nat (fst e) + 1)]> ranks)
          (zip (List.seq 0 (length values)) (indexed values)) (replicate n 0.0%F)).

Definition spearman_correlation (xs ys : list float) : res float :=
  let n := zlen xs in
  if n <? 3 then Ok 0.0%F
  else
    let* rank_x := _rank (length xs) xs in
    let* rank_y := _rank (length xs) ys in
    let* squares := res_list (fun d => square (fst d - snd d)%F) (zip rank_x rank_y) in
    let denom := n * (n * n - 1) in
    Ok (if denom =? 0 then 0.0%F else (1.0 - fdiv_nz (6.0 * fsum_left squares) (of_Z denom))%F).

End Scoring.

Fixpoint first_grade (score : float) (l : list (string * float)) : string :=
  match l with
  | [] => "F"
  | (letter, threshold) :: rest => if fleb threshold score then letter else first_grade score rest
  end.

Definition score_to_grade (score : float) : string := first_grade score GRADE_THRESHOLDS.

Definition normalize_ic (raw_ic : float) : float := fdiv_nz (raw_ic + 1.0)%F 2.0%F.

Definition normalize_cost_eff (pnl_per_dollar : float) : float :=
  fmin (fmax (fdiv_nz (pnl_per_dollar + 10.0)%F 20.0%F) 0.0%F) 1.0%F.

(** The weights of accuracy, IC, cost and latency. *)
Record Weights := { w_accuracy : float; w_ic : float; w_cost : float; w_latency : float }.

Definition default_weights : Weights :=
  {| w_accuracy := 0.35%F; w_ic := 0.30%F; w_cost := 0.20%F; w_latency := 0.15%F |}.

Definition compute_weighted_score (accuracy ic_norm cost_norm latency : float) (w : Weights) : float :=
  let raw := (accuracy * w_accuracy w + ic_norm * w_ic w + cost_norm * w_cost w + latency * w_latency w)%F in
  py_round (fmin (fmax raw 0.0%F) 1.0%F) 4.

(** * Self-correction (grade_analytics.py) *)

Definition DEFAULT_ANOMALY_SIGMA : float := 2.0%F.
Definition MIN_BASELINE_SAMPLES : Z := 5.
Definition MIN_TRAJECTORY_SAMPLES : Z := 4.
Definition DECAY_SLOPE_THRESHOLD : float := (-0.02)%F.
Definition IMPROVE_SLOPE_THRESHOLD : float := 0.02%F.
Definition DIRECTION_DROP : string := "negative_drop".
Definition DIRECTION_SPIKE : string := "positive_spike".
Definition DIRECTION_NORMAL : string := "normal".
Definition TREND_IMPROVING : string := "improving".
Definition TREND_STABLE : string := "stable".
Definition TREND_DECAYING : string := "decaying".
Definition GRADE_DIMENSIONS : list string := ["accuracy"; "ic_normalized"; "cost_normalized"; "latency_score"].
Definition _EPSILON : float := 1e-9%F.

Record Anomaly := {
  an_detected : bool;
  an_z_score : float;
  an_direction : string;
  an_mean : float;
  an_std : float;
  an_samples : Z;
}.

Record Trajectory := { tj_slope : float; tj_direction : string; tj_decaying : bool }.

Record SelfCorrection := {
  sf_anomaly : Anomaly;
  sf_trajectory : Trajectory;
  sf_attribution : list (string * float);
  sf_message : string;
}.

Definition _mean (xs : list float) : float := match xs with [] => 0.0%F | _ => mean_of xs end.

Section Analytics.
Context `{CPow}.

Definition _sample_std (xs : list float) (mean : float) : res float :=
  if zlen xs <? 2 then Ok 0.0%F
  else
    let* squares := res_list (fun x => square (x - mean)%F) xs in
    math_sqrt (fmax (fdiv_nz (fsum_left squares) (of_Z (zlen xs - 1))) 0.0%F).

Definition detect_grade_anomaly (baseline_scores : list float) (latest_score sigma : float) (min_samples : Z)
  : res Anomaly :=
  let n := zlen baseline_scores in
  let mean := _mean baseline_scores in
  let* std := _sample_std baseline_scores mean in
  let '(detected, z, direction) :=
    if (min_samples <=? n) && fltb _EPSILON std then
      let z := fdiv_nz (latest_score - mean)%F std in
      if fleb z (- sigma)%F then (true, z, DIRECTION_DROP)
      else if fleb sigma z then (true, z, DIRECTION_SPIKE)
      else (false, z, DIRECTION_NORMAL)
    else (false, 0.0%F, DIRECTION_NORMAL) in
  Ok {| an_detected := detected; an_z_score := py_round z 4; an_direction := direction;
        an_mean := py_round mean 4; an_std := py_round std 4; an_samples := n |}.

(** The change of a dimension against its baseline, where there is one. *)
Definition delta_of (vectors : list (dict float)) (latest : dict float) (dim : string) : list (string * float) :=
  match omap (dget dim) vectors with
  | [] => []
  | base_vals =>
      let x := dget_or dim 0.0%F latest in
      [(dim, py_round ((if is_zero x then 0.0%F else x) - _mean base_vals)%F 4)]
  end.

Definition attribute_anomaly (vectors : list (dict float)) (latest : dict float) : list (string * float) :=
  match vectors with
  | [] => []
  | _ => sort_desc (fun a b => fltb (fabs (snd a)) (fabs (snd b))) (flat_map (delta_of vectors latest) GRADE_DIMENSIONS)
  end.

(** The least-squares slope of the scores over their positions. *)
Definition least_squares (scores : list float) : res float :=
  let xs := offsets (zlen scores) in
  let mean_y := _mean scores in
  let* squares := res_list square xs in
  let denom := fsum_left squares in
  if fleb denom _EPSILON then Ok 0.0%F
  else Ok (fdiv_nz (fsum_left (zip_with (fun x s => x * (s - mean_y))%F xs scores)) denom).

Definition grade_trajectory (scores : list float) : res Trajectory :=
  if zlen scores <? MIN_TRAJECTORY_SAMPLES then
    Ok {| tj_slope := 0.0%F; tj_direction := TREND_STABLE; tj_decaying := false |}
  else
    let* slope := least_squares scores in
    let direction := if fleb slope DECAY_SLOPE_THRESHOLD then TREND_DECAYING
                     else if fleb IMPROVE_SLOPE_THRESHOLD slope then TREND_IMPROVING else TREND_STABLE in
    Ok {| tj_slope := py_round slope 6; tj_direction := direction;
          tj_decaying := String.eqb direction TREND_DECAYING |}.

Definition driver_text (attribution : list (string * float)) : string :=
  match attribution with
  | [] => ""
  | (dim, delta) :: _ => ", driver=" +:+ dim +:+ " Δ" +:+ Fmt.fixed_plus 3 delta
  end.

Definition diagnostic_text (a : Anomaly) (t : Trajectory) (attribution : list (string * float)) : string :=
  "grade " +:+ an_direction a +:+ " z=" +:+ Fmt.fixed_plus 2 (an_z_score a) +:+ " vs μ=" +:+ Fmt.fixed 3 (an_mean a)
  +:+ "±" +:+ Fmt.fixed 3 (an_std a) +:+ " (n=" +:+ pretty (an_samples a) +:+ "); trend=" +:+ tj_direction t
  +:+ " slope=" +:+ Fmt.fixed_plus 4 (tj_slope t) +:+ driver_text attribution.

Definition build_self_correction (baseline_scores : list float) (latest_score : float)
    (baseline_vectors : list (dict float)) (latest_dimensions : dict float) (recent_scores : list float)
  : res SelfCorrection :=
  let* anomaly := detect_grade_anomaly baseline_scores latest_score DEFAULT_ANOMALY_SIGMA MIN_BASELINE_SAMPLES in
  let* trajectory := grade_trajectory recent_scores in
  let attribution := attribute_anomaly baseline_vectors latest_dimensions in
  Ok {| sf_anomaly := anomaly; sf_trajectory := trajectory; sf_attribution := attribution;
        sf_message := diagnostic_text anomaly trajectory attribution |}.

End Analytics.

Definition is_actionable (s : SelfCorrection) : bool :=
  an_detected (sf_anomaly s) && String.eqb (an_direction (sf_anomaly s)) DIRECTION_DROP ||
  tj_decaying (sf_trajectory s).

Definition trajectory_payload (t : Trajectory) : payload :=
  [("slope", VFloat (tj_slope t)); ("direction", VStr (tj_direction t)); ("decaying", VBool (tj_decaying t))].

Definition self_correction_payload (s : SelfCorrection) : payload :=
  let a := sf_anomaly s in
  [("anomaly_detected", VBool (an_detected a)); ("z_score", VFloat (an_z_score a)); ("direction", VStr (an_direction a));
   ("baseline_mean", VFloat (an_mean a)); ("baseline_std", VFloat (an_std a)); ("baseline_samples", VInt (an_samples a));
   ("trajectory", VDict (trajectory_payload (sf_trajectory s)));
   ("attribution", VList (map (fun d => VDict [("dimension", VStr (fst d)); ("delta", VFloat (snd d))]) (sf_attribution s)));
   ("message", VStr (sf_message s))].
