(* ===== verification/AgentGradeFacts.v ===== *)
(** AgentGradeFacts: ranks, the correlation of ranks, the score of an agent and its letter. *)
From S2P Require Import Prelude StateErr PyFloat FloatFacts PyVal PyMath PyPow Config Params Policy Store Execution Lifecycle Scorer Tools ToolsFacts AgentGrade.

(** * Whole numbers *)

(** A double that is a whole number. *)
Definition whole (z : Z) (x : float) : Prop := key x = Some (z * scale).

Lemma whole_of_Z z : Z.abs z <= 2 ^ 53 -> whole z (of_Z z).
Proof. apply of_Z_exact. Qed.

Lemma whole_finite z x : Z.abs z <= 2 ^ 53 -> whole z x -> is_finite x = true /\ units x = z * scale.
Proof.
  intros Hz Hx. unfold whole in Hx.
  assert (Z.abs (z * scale) < bound) as Hb.
  { pose proof scale_pos. rewrite Z.abs_mul, (Z.abs_eq scale) by lia.
    assert (2 ^ 53 * scale < bound) by fconst. nia. }
  destruct x as [|s| |n]; simpl in *; try done.
  - destruct s; injection Hx as Hx; pose proof bound_pos; lia.
  - by injection Hx as Hx.
  - by injection Hx as Hx.
Qed.

Lemma whole_add a b x y : Z.abs a <= 2 ^ 53 -> Z.abs b <= 2 ^ 53 -> Z.abs (a + b) <= 2 ^ 53 ->
  whole a x -> whole b y -> whole (a + b) (x + y)%F.
Proof.
  intros Ha Hb Hs [Fx Ux]%whole_finite [Fy Uy]%whole_finite; [|done..].
  unfold whole. rewrite fadd_key, Ux, Uy by done. rewrite <- Z.mul_add_distr_r, <- (Z.mul_1_r ((a + b) * scale)).
  rewrite Rnd.rnd_exact, Z.mul_1_r by (lia || by apply repr_int). by rewrite sat_int.
Qed.

Lemma whole_opp a x : whole a x -> whole (- a) (- x)%F.
Proof. unfold whole. rewrite key_fopp. intros ->. simpl. f_equal. lia. Qed.

Lemma whole_sub a b x y : Z.abs a <= 2 ^ 53 -> Z.abs b <= 2 ^ 53 -> Z.abs (a - b) <= 2 ^ 53 ->
  whole a x -> whole b y -> whole (a - b) (x - y)%F.
Proof.
  intros Ha Hb Hs Hx Hy. change (x - y)%F with (x + - y)%F. replace (a - b) with (a + - b) by lia.
  apply whole_add; [done|lia|lia|done|by apply whole_opp].
Qed.

Lemma whole_mul a b x y : Z.abs a <= 2 ^ 53 -> Z.abs b <= 2 ^ 53 -> Z.abs (a * b) <= 2 ^ 53 ->
  whole a x -> whole b y -> whole (a * b) (x * y)%F.
Proof.
  intros Ha Hb Hs [Fx Ux]%whole_finite [Fy Uy]%whole_finite; [|done..].
  unfold whole. rewrite fmul_key, Ux, Uy by done. pose proof scale_pos.
  replace (a * scale * (b * scale)) with (a * b * scale * scale) by ring.
  rewrite Rnd.rnd_exact by (lia || by apply repr_int). by rewrite sat_int.
Qed.

Definition sumZ (l : list Z) : Z := foldr Z.add 0 l.

Lemma whole_sum_from zs : forall l a x, Forall2 whole zs l -> Forall (Z.le 0) zs -> 0 <= a -> a + sumZ zs <= 2 ^ 53 ->
  whole a x -> whole (a + sumZ zs) (fold_left fadd l x).
Proof.
  induction zs as [|z zs IH]; intros l a x Hl Hp Ha Hb Hx; inversion Hl as [|? y ? l' Hy Hl']; subst; simpl in *.
  - by rewrite Z.add_0_r.
  - inversion Hp as [|? ? Hz Hp']; subst.
    assert (0 <= sumZ zs) as Hs by (clear -Hp'; induction Hp'; simpl; lia).
    rewrite Z.add_assoc. apply IH; [done..|lia|lia|]. apply whole_add; [lia..|done|done].
Qed.

Lemma whole_sum zs l : Forall2 whole zs l -> Forall (Z.le 0) zs -> sumZ zs <= 2 ^ 53 -> whole (sumZ zs) (fsum_left l).
Proof.
  intros Hl Hp Hb. rewrite <- (Z.add_0_l (sumZ zs)). apply whole_sum_from; [done..|lia|lia|done].
Qed.

(** * Ranks *)

Definition ranking (n : nat) : list Z := map (fun i => Z.of_nat i + 1) (List.seq 0 n).

Lemma assign_other {A} (es : list (nat * A)) : forall (r : list A) j, ~ In j (map fst es) ->
  fold_left (fun r e => <[fst e := snd e]> r) es r !! j = r !! j.
Proof.
  induction es as [|[i v] es IH]; intros r j Hj; simpl in *; [done|].
  rewrite IH by tauto. apply list_lookup_insert_ne. tauto.
Qed.

Lemma assign_length {A} (es : list (nat * A)) : forall (r : list A),
  length (fold_left (fun r e => <[fst e := snd e]> r) es r) = length r.
Proof. induction es as [|[i v] es IH]; intros r; simpl; [done|]. rewrite IH. apply length_insert. Qed.

Lemma assign_get {A} (es : list (nat * A)) : forall (r : list A), NoDup (map fst es) ->
  Forall (fun e => (fst e < length r)%nat) es ->
  Forall (fun e => fold_left (fun r e => <[fst e := snd e]> r) es r !! fst e = Some (snd e)) es.
Proof.
  induction es as [|[i v] es IH]; intros r Hd Hb; [constructor|].
  inversion Hb as [|? ? Hi Hb']; subst. cbn [map fst] in Hd. apply NoDup_cons in Hd as [Hni Hd].
  assert (length (<[i:=v]> r) = length r) as Hl by apply length_insert.
  constructor; cbn [fold_left fst snd] in *.
  - rewrite assign_other by (by rewrite <- list_elem_of_In). by apply list_lookup_insert_eq.
  - apply IH; [done|]. by rewrite Hl.
Qed.

Lemma nth_positions {A} (l : list A) d : map (fun j => List.nth j l d) (List.seq 0 (length l)) = l.
Proof. induction l as [|x l IH]; simpl; [done|]. f_equal. rewrite <- seq_shift, map_map. exact IH. Qed.

(** Values assigned to all positions of a list, in any order. *)
Lemma assign_perm {A} (es : list (nat * A)) (r : list A) :
  Permutation (map fst es) (List.seq 0 (length r)) ->
  Permutation (fold_left (fun r e => <[fst e := snd e]> r) es r) (map snd es).
Proof.
  intros Hp. set (r' := fold_left _ es r).
  assert (length r' = length r) as Hl by apply assign_length.
  assert (NoDup (map fst es)) as Hd by (rewrite Hp; apply NoDup_ListNoDup, seq_NoDup).
  assert (Forall (fun e => r' !! fst e = Some (snd e)) es) as Hg.
  { apply assign_get; [done|]. apply Forall_forall. intros e He%list_elem_of_In.
    assert (In (fst e) (List.seq 0 (length r))) as [_ H]%in_seq.
    { eapply Permutation_in; [exact Hp|by apply in_map]. }
    simpl in H. exact H. }
  clearbody r'. destruct r' as [|d r0].
  { rewrite <- Hl in Hp. simpl in Hp. apply Permutation_sym, Permutation_nil in Hp. by destruct es. }
  set (r1 := d :: r0) in *. clearbody r1.
  assert (map snd es = map (fun j => List.nth j r1 d) (map fst es)) as ->.
  { rewrite map_map. clear -Hg. induction Hg as [|e es0 He _ IH]; simpl; [done|]. f_equal; [|done].
    symmetry. by apply nth_lookup_Some. }
  rewrite Hp, <- Hl. by rewrite nth_positions.
Qed.

Lemma indexed_perm values : Permutation (indexed values) (zip (List.seq 0 (length values)) values).
Proof. apply sort_asc_perm. Qed.

Lemma indexed_length values : length (indexed values) = length values.
Proof. rewrite indexed_perm, length_zip_with, length_seq. apply Nat.min_id. Qed.

Lemma indexed_positions values : Permutation (map fst (indexed values)) (List.seq 0 (length values)).
Proof.
  rewrite indexed_perm. change (map fst) with (fmap (M := list) (A := nat * float) fst). by rewrite fst_zip by (rewrite length_seq; lia).
Qed.

(** Where a rank goes. *)
Definition ranked (e : nat * (nat * float)) : nat * float := (fst (snd e), of_Z (Z.of_nat (fst e) + 1)).

Lemma fold_ranked es : forall r : list float,
  fold_left (fun ranks e => <[fst (snd e) := of_Z (Z.of_nat (fst e) + 1)]> ranks) es r =
  fold_left (fun r e => <[fst e := snd e]> r) (map ranked es) r.
Proof. induction es as [|e es IH]; intros r; simpl; [done|]. apply IH. Qed.

(** The ranks of values, NaN included, are the numbers from one on, in some order. *)
Lemma rank_perm values : exists zs, _rank (length values) values = Ok (map of_Z zs) /\
  Permutation zs (ranking (length values)).
Proof.
  unfold _rank. destruct (Nat.ltb_spec (length values) (length values)); [lia|]. rewrite fold_ranked.
  set (n := length values). set (es := map ranked _).
  assert (map fst es = map fst (indexed values)) as Ef.
  { unfold es. rewrite map_map. unfold ranked. simpl. rewrite <- (map_map snd fst).
    change (map snd (zip (List.seq 0 n) (indexed values))) with ((zip (List.seq 0 n) (indexed values)).*2).
    rewrite snd_zip; [done|]. rewrite length_seq, indexed_length. done. }
  assert (map snd es = map of_Z (ranking n)) as Es.
  { unfold es, ranking. rewrite !map_map. unfold ranked. simpl. rewrite <- (map_map fst (fun i => of_Z (Z.of_nat i + 1))).
    change (map fst (zip (List.seq 0 n) (indexed values))) with ((zip (List.seq 0 n) (indexed values)).*1).
    rewrite fst_zip; [done|]. rewrite length_seq, indexed_length. done. }
  assert (Permutation (fold_left (fun r e => <[fst e := snd e]> r) es (replicate n 0.0%F)) (map of_Z (ranking n))) as Hp.
  { rewrite <- Es. apply assign_perm. rewrite Ef, length_replicate. apply indexed_positions. }
  apply Permutation_map_inv in Hp as (zs & -> & Hz). exists zs. split; [done|by symmetry].
Qed.

(** ** The squares of their differences *)

Lemma sumZ_app l1 l2 : sumZ (l1 ++ l2) = sumZ l1 + sumZ l2.
Proof. induction l1; simpl; lia. Qed.

#[global] Instance sumZ_perm : Proper (Permutation ==> eq) sumZ.
Proof. intros l1 l2 H. induction H; simpl; lia. Qed.

Lemma centered_squares c n :
  3 * sumZ (map (fun a => (2 * a - c) * (2 * a - c)) (ranking n)) =
  let m := Z.of_nat n in 2 * m * (m + 1) * (2 * m + 1) - 6 * c * m * (m + 1) + 3 * c * c * m.
Proof.
  cbv zeta. induction n as [|n IH]; [simpl; lia|]. unfold ranking in *. rewrite seq_S, !map_app, sumZ_app, Z.mul_add_distr_l, IH.
  simpl. rewrite Nat2Z.inj_succ. ring.
Qed.

Lemma squares_split c : forall xs ys, length xs = length ys ->
  4 * sumZ (zip_with (fun a b => (a - b) * (a - b)) xs ys) <=
  2 * sumZ (map (fun a => (2 * a - c) * (2 * a - c)) xs) + 2 * sumZ (map (fun a => (2 * a - c) * (2 * a - c)) ys).
Proof.
  induction xs as [|x xs IH]; intros [|y ys] H; simpl in *; try lia. specialize (IH ys ltac:(lia)).
  assert (4 * ((x - y) * (x - y)) <= 2 * ((2 * x - c) * (2 * x - c)) + 2 * ((2 * y - c) * (2 * y - c))); [|lia].
  pose proof (Z.square_nonneg (2 * x - c + (2 * y - c))). nia.
Qed.

(** Two rankings of [n] things differ, squared, by at most a third of [n * (n * n - 1)]. *)
Lemma squares_bound n xs ys : Permutation xs (ranking n) -> Permutation ys (ranking n) ->
  0 <= sumZ (zip_with (fun a b => (a - b) * (a - b)) xs ys) /\
  3 * sumZ (zip_with (fun a b => (a - b) * (a - b)) xs ys) <= Z.of_nat n * (Z.of_nat n * Z.of_nat n - 1).
Proof.
  intros Hx Hy. split.
  - clear. revert ys. induction xs as [|x xs IH]; intros [|y ys]; simpl; try lia. specialize (IH ys).
    pose proof (Z.square_nonneg (x - y)). lia.
  - set (c := Z.of_nat n + 1). pose proof (squares_split c xs ys) as H. set (f := fun a => (2 * a - c) * (2 * a - c)) in H.
    assert (sumZ (map f xs) = sumZ (map f (ranking n))) as Ex by (by rewrite Hx).
    assert (sumZ (map f ys) = sumZ (map f (ranking n))) as Ey by (by rewrite Hy).
    rewrite Ex, Ey in H. specialize (H ltac:(by rewrite Hx, Hy)).
    pose proof (centered_squares c n) as E. cbv zeta in E. fold f in E.
    assert (2 * Z.of_nat n * (Z.of_nat n + 1) * (2 * Z.of_nat n + 1) - 6 * c * Z.of_nat n * (Z.of_nat n + 1) + 3 * c * c * Z.of_nat n
      = Z.of_nat n * (Z.of_nat n * Z.of_nat n - 1)) as E' by (unfold c; ring).
    lia.
Qed.

(** * The correlation of ranks *)

(** Squares of small whole numbers are exact. *)
Definition exact_squares `{CPow} : Prop := forall z, 0 < Z.abs z <= 2 ^ 20 -> pow2 (of_Z z) = of_Z (z * z).

Lemma pow_exact_squares : @exact_squares pow_exact.
Proof.
  intros z Hz. cbn [pow2 pow_exact].
  assert (whole (z * z) (of_Z z * of_Z z)%F) as Hm by (apply whole_mul; try nia; apply whole_of_Z; lia).
  assert (whole (z * z) (of_Z (z * z))) as Ho by (apply whole_of_Z; nia).
  apply whole_finite in Hm as [Fm Um]; [|nia]. apply whole_finite in Ho as [Fo Uo]; [|nia].
  assert (0 < z * z) by nia. pose proof scale_pos.
  destruct (fmul _ _), (of_Z (z * z)); simpl in *; try done; try nia; congruence.
Qed.

Section Correlation.
Context `{CPow}.
Hypothesis Hsq : exact_squares.

Lemma whole_square z x : Z.abs z <= 2 ^ 20 -> whole z x -> exists y, square x = Ok y /\ whole (z * z) y.
Proof.
  intros Hz Hx. pose proof scale_pos. destruct (whole_finite z x) as [Fx Ux]; [lia|done|].
  assert (pow2 x = of_Z (z * z)) as E.
  { destruct (Z.eq_dec z 0) as [->|Hne].
    - rewrite pow2_zero; [reflexivity|]. destruct x; simpl in *; try done. by rewrite Ux.
    - rewrite <- Hsq by lia. f_equal. destruct (whole_finite z (of_Z z)) as [Fo Uo]; [lia|apply whole_of_Z; lia|].
      destruct x, (of_Z z); simpl in *; try done; try nia; congruence. }
  destruct (whole_finite (z * z) (of_Z (z * z))) as [Fo _]; [nia|apply whole_of_Z; nia|].
  unfold square. rewrite E, Fo, andb_false_r. eexists. split; [done|]. apply whole_of_Z. nia.
Qed.

Lemma whole_squares n zs ws : n <= 2 ^ 20 -> length zs = length ws ->
  Forall (fun z => 0 <= z <= n) zs -> Forall (fun w => 0 <= w <= n) ws ->
  exists ys, res_list (fun d => square (fst d - snd d)%F) (zip (map of_Z zs) (map of_Z ws)) = Ok ys /\
    Forall2 whole (zip_with (fun a b => (a - b) * (a - b)) zs ws) ys.
Proof.
  intros Hn. revert ws. induction zs as [|z zs IH]; intros [|w ws] Hl Hz Hw; simpl in *; try done; [by exists []|].
  inversion Hz; inversion Hw; subst. destruct (IH ws) as (ys & -> & Hys); [lia|done|done|].
  destruct (whole_square (z - w) (of_Z z - of_Z w)%F) as (y & -> & Hy); [lia| |].
  { apply whole_sub; [lia..| |]; apply whole_of_Z; lia. }
  simpl. eexists. split; [done|]. by constructor.
Qed.

Lemma ranking_range n : Forall (fun z => 0 <= z <= Z.of_nat n) (ranking n).
Proof. apply Forall_forall. intros z (i & <- & Hi%in_seq)%list_elem_of_In%in_map_iff. lia. Qed.

(** The correlation as a fraction of whole numbers. *)
Lemma spearman_whole xs ys : length xs = length ys -> 3 <= zlen xs <= 2 ^ 17 ->
  exists s x, 0 <= s /\ 3 * s <= zlen xs * (zlen xs * zlen xs - 1) /\ whole (6 * s) x /\
    spearman_correlation xs ys = Ok (1.0 - fdiv_nz x (of_Z (zlen xs * (zlen xs * zlen xs - 1))))%F.
Proof.
  intros Hl Hn. unfold spearman_correlation. destruct (Z.ltb_spec (zlen xs) 3); [lia|].
  destruct (rank_perm xs) as (zs & -> & Hz). rewrite Hl. destruct (rank_perm ys) as (ws & -> & Hw). rewrite <- Hl in Hw.
  cbn [res_bind]. destruct (squares_bound (length xs) zs ws Hz Hw) as [Hs0 Hs3].
  destruct (whole_squares (zlen xs) zs ws) as (sq & -> & Hq); [lia|by rewrite Hz, Hw|rewrite Hz; apply ranking_range|
    rewrite Hw; apply ranking_range|].
  cbn [res_bind]. set (s := sumZ _) in *. fold (zlen xs) in Hs3.
  assert (zlen xs * (zlen xs * zlen xs - 1) <= 2 ^ 51) as Hb by nia.
  destruct (Z.eqb_spec (zlen xs * (zlen xs * zlen xs - 1)) 0); [nia|].
  exists s, (6.0 * fsum_left sq)%F. split_and!; [done|done| |done].
  apply whole_mul; [lia..|fconst|]. apply whole_sum; [done| |lia].
  clear. revert ws. induction zs as [|a zs IH]; intros [|b ws]; simpl; try (by constructor).
  constructor; [apply Z.square_nonneg|apply IH].
Qed.
End Correlation.

(** The correlation is one number between -1 and 1, on any values, NaN included. *)
Lemma spearman_bounded `{CPow} xs ys : exact_squares -> length xs = length ys -> zlen xs <= 2 ^ 17 ->
  exists r, spearman_correlation xs ys = Ok r /\ within (-1.0)%F 1.0%F r.
Proof.
  intros Hsq Hl Hn. destruct (Z.lt_ge_cases (zlen xs) 3) as [Hlt|Hge].
  { unfold spearman_correlation. destruct (Z.ltb_spec (zlen xs) 3); [|lia]. eexists. split; [done|]. split; fconst. }
  destruct (spearman_whole Hsq xs ys Hl) as (s & x & Hs0 & Hs3 & Hx & ->); [lia|].
  set (d := zlen xs * (zlen xs * zlen xs - 1)) in *. assert (0 < d <= 2 ^ 51) as Hd by (unfold d; nia).
  eexists. split; [done|].
  assert (whole d (of_Z d)) as Hdw by (apply whole_of_Z; lia).
  apply whole_finite in Hdw as [Fd Ud]; [|lia]. apply whole_finite in Hx as [Fx Ux]; [|lia]. pose proof scale_pos.
  assert (within (Fin 0) 2.0%F (fdiv_nz x (of_Z d))) as Hw.
  { assert (key 2.0%F = Some (2 * scale)) as K2 by fconst.
    pose proof (fdiv_nz_key x (of_Z d) Fx Fd ltac:(nia)) as K. rewrite Ux, Ud, Z.sgn_pos, Z.mul_1_l, Z.abs_eq in K by nia.
    split; apply fleb_key; do 2 eexists; (split; [first [exact K|reflexivity]|]); (split; [first [exact K|exact K2]|]).
    - rewrite <- sat_0. apply sat_mono, Rnd.rnd_nonneg; nia.
    - rewrite <- (sat_int 2) by lia. apply sat_mono, Rnd.rnd_le; [nia|apply repr_int; lia|]. nia. }
  eapply (fsub_within 1.0%F 1.0%F (Fin 0) 2.0%F); [fconst..| |exact Hw]. split; fconst.
Qed.

(** * The score *)

Lemma normalize_ic_unit x : within (-1.0)%F 1.0%F x -> within (Fin 0) 1.0%F (normalize_ic x).
Proof.
  intros Hx. unfold normalize_ic.
  assert (within (Fin 0) 2.0%F (x + 1.0)%F) as [H0 H1].
  { eapply (fadd_within (-1.0)%F 1.0%F 1.0%F 1.0%F); [fconst..|exact Hx|split; fconst]. }
  apply fdiv_unit; [by eapply (within_finite (Fin 0) 2.0%F); [fconst..|]|fconst|exact H0|exact H1|fconst].
Qed.

(** Clamped from below, then from above. *)
Lemma clamped_unit x : x <> NaN -> within (Fin 0) 1.0%F (fmin (fmax x 0.0%F) 1.0%F).
Proof.
  intros Hx. pose proof (dec_not_nan 0 1) as Hz. pose proof (dec_not_nan 10 1) as H1.
  split.
  - apply fmin_ge; [|fconst]. by apply fmax_r.
  - apply fmin_r; [by apply fmax_not_nan|done].
Qed.

Lemma normalize_cost_unit x : x <> NaN -> within (Fin 0) 1.0%F (normalize_cost_eff x).
Proof.
  intros Hx. unfold normalize_cost_eff. apply clamped_unit.
  assert ((x + 10.0)%F <> NaN) as Hs.
  { assert (is_finite 10.0%F = true) as Hf by fconst. destruct (is_finite x) eqn:E; [by apply fadd_not_nan|].
    assert (forall s, fadd (Inf s) 10.0%F = Inf s) as Hi by (intros []; fconst).
    destruct x as [|s| |n]; [by destruct Hx| |discriminate E..]. rewrite Hi. discriminate. }
  assert (is_finite 20.0%F = true /\ fltb (Fin 0) 20.0%F = true) as [F2 P2] by (split; fconst). revert Hs. generalize (x + 10.0)%F. intros y Hy.
  destruct (is_finite y) eqn:E.
  - intros En. pose proof (proj1 (fltb_units (Fin 0) 20.0%F eq_refl F2) P2) as Hu. cbn [units] in Hu.
    assert (key (fdiv_nz y 20.0%F) = None) as Hk by (rewrite En; reflexivity).
    rewrite (fdiv_nz_key y 20.0%F E F2 ltac:(lia)) in Hk. discriminate Hk.
  - destruct y as [|s| |n]; [by destruct Hy| |discriminate E..]. rewrite (fdiv_nz_inf s 20.0%F F2 P2). discriminate.
Qed.

Definition weights_ok (w : Weights) : Prop :=
  within (Fin 0) 1.0%F (w_accuracy w) /\ within (Fin 0) 1.0%F (w_ic w) /\ within (Fin 0) 1.0%F (w_cost w) /\
  within (Fin 0) 1.0%F (w_latency w).

Lemma default_weights_ok : weights_ok default_weights.
Proof. repeat split; fconst. Qed.

Lemma product_unit x y : within (Fin 0) 1.0%F x -> within (Fin 0) 1.0%F y -> within (Fin 0) 1.0%F (x * y)%F.
Proof. apply fmul_within; fconst. Qed.

Lemma weighted_score_unit x y z t w : within (Fin 0) 1.0%F x -> within (Fin 0) 1.0%F y -> within (Fin 0) 1.0%F z ->
  within (Fin 0) 1.0%F t -> weights_ok w -> within (Fin 0) 1.0%F (compute_weighted_score x y z t w).
Proof.
  intros Hx Hy Hz Ht (W1 & W2 & W3 & W4). unfold compute_weighted_score. cbv zeta.
  set (raw := fadd _ _). assert (within (Fin 0) 4.0%F raw) as Hr.
  { eapply (fadd_within (Fin 0) 3.0%F (Fin 0) 1.0%F); [fconst..| |by apply product_unit].
    eapply (fadd_within (Fin 0) 2.0%F (Fin 0) 1.0%F); [fconst..| |by apply product_unit].
    eapply (fadd_within (Fin 0) 1.0%F (Fin 0) 1.0%F); [fconst..|by apply product_unit|by apply product_unit]. }
  eapply (py_round_within (Fin 0) 1.0%F); [lia|fconst..|]. apply clamped_unit. by apply within_not_nan in Hr.
Qed.

Lemma score_to_grade_threshold x : fleb 0.0%F x = true ->
  exists th, In (score_to_grade x, th) GRADE_THRESHOLDS /\ fleb th x = true.
Proof.
  intros H0. unfold score_to_grade, GRADE_THRESHOLDS. cbn [first_grade].
  repeat match goal with |- context [if ?b then _ else _] => destruct b eqn:?E end;
    try (eexists; split; [|eassumption]; cbn [In]; tauto). congruence.
Qed.

Lemma within_between a x : 0 <= a <= 2 ^ 53 -> within (of_Z (- a)) (of_Z a) x -> is_finite x = true.
Proof.
  intros Ha [A1 A2]. pose proof scale_pos. assert (2 ^ 53 * scale < bound) by fconst.
  destruct x as [|[]| |]; try done.
  - apply fleb_key in A1 as (u & v & Hu & Hv & Hle). rewrite of_Z_exact in Hu by lia. injection Hu as <-. injection Hv as <-. nia.
  - apply fleb_key in A2 as (u & v & Hu & Hv & Hle). rewrite of_Z_exact in Hv by lia. injection Hv as <-. injection Hu as <-. nia.
Qed.

(** A sum of numbers between whole bounds. *)
Lemma sum_bounded b l : forall a acc, 0 <= b -> 0 <= a -> a + zlen l * b <= 2 ^ 53 ->
  Forall (within (of_Z (- b)) (of_Z b)) l -> within (of_Z (- a)) (of_Z a) acc -> is_finite (fold_left fadd l acc) = true.
Proof.
  assert (forall z, Z.abs z <= 2 ^ 53 -> is_finite (of_Z z) = true) as Ff by (intros z Hz; by apply trunc_of_Z).
  induction l as [|x l IH]; intros a acc Hb Ha Hs Hl Hacc.
  - unfold zlen in Hs. cbn in *. apply (within_between a); [lia|exact Hacc].
  - destruct Hacc as [A1 A2]. inversion Hl as [|? ? [X1 X2] Hl']; subst. unfold zlen in *. cbn [length] in Hs. rewrite Nat2Z.inj_succ, Z.mul_succ_l in Hs.
    assert (0 <= Z.of_nat (length l) * b) as Hz by (apply Z.mul_nonneg_nonneg; lia).
    cbn [fold_left]. apply (IH (a + b)); [lia..|exact Hl'|].
    assert (is_finite acc = true /\ is_finite x = true) as [Fa Fx].
    { split; [apply (within_between a); [lia|by split]|apply (within_between b); [lia|by split]]. }
    split.
    + eapply fleb_trans; [|apply fadd_mono; [..|exact A1|exact X1]; auto; apply Ff; lia].
      apply fleb_key. do 2 eexists.
      rewrite (whole_add (- a) (- b) _ _ ltac:(lia) ltac:(lia) ltac:(lia) (whole_of_Z (- a) ltac:(lia)) (whole_of_Z (- b) ltac:(lia))).
      rewrite of_Z_exact by lia. split; [reflexivity|]. split; [reflexivity|]. pose proof scale_pos. nia.
    + eapply fleb_trans; [apply fadd_mono; [..|exact A2|exact X2]; auto; apply Ff; lia|].
      apply fleb_key. do 2 eexists.
      rewrite (whole_add a b _ _ ltac:(lia) ltac:(lia) ltac:(lia) (whole_of_Z a ltac:(lia)) (whole_of_Z b ltac:(lia))).
      rewrite of_Z_exact by lia. split; [reflexivity|]. split; [reflexivity|]. pose proof scale_pos. nia.
Qed.
