(* ===== verification/GradeAgent.v ===== *)
(** GradeAgent: the agent that grades the trading agents on closed trades and proposes what
    follows of a bad grade (api/services/agents/grade_agent.py), the collector of language
    model calls whose delay it raises (api/services/llm_metrics.py), the durable record of
    realized profits (api/services/agent_pnl_store.py) and the replay of its evaluations
    (api/services/replay_harness.py), without a database.

    What is handed to the bus is recorded; the bus swallows its own failures ([Delivery]).
    The clocks, identifiers and the answers of Redis are the environment of a message.
    Heartbeats, logs, and the copies Redis keeps of calls and proposals are left out. *)
From S2P Require Import Prelude StateErr PyFloat FloatFacts PyVal PyMath PyPow Config Params Policy Store Execution Lifecycle Scorer Engine Guardian Contender Tools Prompts Applier Delivery AgentGrade.

Definition STREAM_NOTIFICATIONS : string := "notifications".
Definition AGENT_GRADE : string := "GRADE_AGENT".
Definition SOURCE_GRADE : string := "grade_agent".
Definition PNL_GRADED_AGENTS : list string := ["SIGNAL_AGENT"; "REASONING_AGENT"; "EXECUTION_ENGINE"].
Definition LLM_CALL_DELAY_MS : Z := 200.
Definition LLM_DELAY_ADJUSTMENT_STEP_MS : Z := 250.
Definition LLM_DELAY_MAX_MS : Z := 2000.
Definition LLM_RATE_LIMIT_GRADE_THRESHOLD : Z := 3.
Definition LLM_METRICS_WINDOW_SECONDS : Z := 300.
Definition LLM_METRICS_MAX_RECORDS : Z := 200.

(** [round(x)], to the nearest whole number, ties to even. *)
Definition round_whole (x : float) : res Z :=
  match x with
  | NaN => Raise ValueError
  | Inf _ => Raise OverflowError
  | NegZero => Ok 0
  | Fin n => Ok (rne_units n)
  end.

(** * Calls of language models (llm_metrics.py) *)

Inductive LLMCallResult := SUCCESS | RATE_LIMITED | TIMEOUT | ERROR.

#[global] Instance llm_call_result_eq_dec : EqDecision LLMCallResult.
Proof. solve_decision. Defined.

Record CallRecord := { cr_ts : float; cr_result : LLMCallResult; cr_latency_ms : float }.

Record LlmMetrics := {
  me_records : list CallRecord;
  me_total_calls : Z;
  me_daily_calls : Z;
  me_daily_date : string;
  me_dynamic_delay_ms : option Z;
  me_last_error : option (string * option string * string);
}.

Record LlmSnapshot := {
  sn_total_in_window : Z;
  sn_success_count : Z;
  sn_success_rate_pct : float;
  sn_avg_latency_ms : float;
  sn_rate_limited_count : Z;
  sn_timeout_count : Z;
  sn_error_count : Z;
  sn_total_calls : Z;
  sn_daily_calls : Z;
  sn_effective_delay_ms : Z;
  sn_grade_adjusted : bool;
  sn_last_error : option (string * option string * string);
  sn_recent : list (LLMCallResult * option Z);
}.

Module Llm.

Definition empty : LlmMetrics :=
  {| me_records := []; me_total_calls := 0; me_daily_calls := 0; me_daily_date := ""; me_dynamic_delay_ms := None;
     me_last_error := None |}.

Definition _refresh_daily_date (today : string) (m : LlmMetrics) : LlmMetrics :=
  if String.eqb today (me_daily_date m) then m
  else {| me_records := me_records m; me_total_calls := me_total_calls m; me_daily_calls := 0; me_daily_date := today;
          me_dynamic_delay_ms := me_dynamic_delay_ms m; me_last_error := me_last_error m |}.

Definition _record (today : string) (ts : float) (result : LLMCallResult) (latency_ms : float) (m : LlmMetrics)
  : LlmMetrics :=
  let m := _refresh_daily_date today m in
  {| me_records := slice_last LLM_METRICS_MAX_RECORDS
                     (me_records m ++ [{| cr_ts := ts; cr_result := result; cr_latency_ms := latency_ms |}]);
     me_total_calls := me_total_calls m + 1; me_daily_calls := me_daily_calls m + 1; me_daily_date := me_daily_date m;
     me_dynamic_delay_ms := me_dynamic_delay_ms m; me_last_error := me_last_error m |}.

Definition record_success (today : string) (ts latency_ms : float) := _record today ts SUCCESS latency_ms.
Definition record_rate_limit (today : string) (ts : float) := _record today ts RATE_LIMITED 0.0%F.
Definition record_timeout (today : string) (ts : float) := _record today ts TIMEOUT 0.0%F.

(** [(message or "").strip()[:240] or None] *)
Definition error_text (message : option string) : option string :=
  let s := String.substring 0 240 (strip (match message with Some s => s | None => "" end)) in
  if String.eqb s "" then None else Some s.

Definition record_error (today now : string) (ts : float) (message : option string) (kind : string) (m : LlmMetrics)
  : LlmMetrics :=
  let m := _record today ts ERROR 0.0%F m in
  {| me_records := me_records m; me_total_calls := me_total_calls m; me_daily_calls := me_daily_calls m;
     me_daily_date := me_daily_date m; me_dynamic_delay_ms := me_dynamic_delay_ms m;
     me_last_error := Some (kind, error_text message, now) |}.

Definition set_call_delay_ms (ms : Z) (m : LlmMetrics) : LlmMetrics :=
  {| me_records := me_records m; me_total_calls := me_total_calls m; me_daily_calls := me_daily_calls m;
     me_daily_date := me_daily_date m; me_dynamic_delay_ms := Some (Z.max 0 ms); me_last_error := me_last_error m |}.

Definition get_call_delay_ms (m : LlmMetrics) : Z :=
  match me_dynamic_delay_ms m with Some ms => ms | None => LLM_CALL_DELAY_MS end.

Definition with_result (r : LLMCallResult) (l : list CallRecord) : list CallRecord :=
  List.filter (fun c => bool_decide (cr_result c = r)) l.

Definition success_rate (successes total : Z) : res float :=
  if total =? 0 then Ok 0.0%F else res_map (fun r => py_round (r * 100.0)%F 1) (int_div successes total).

Definition average_latency (successes : list CallRecord) : res float :=
  match successes with
  | [] => Ok 0.0%F
  | _ => res_map of_Z (round_whole (mean_of (map cr_latency_ms successes)))
  end.

Definition recent_result (c : CallRecord) : res (LLMCallResult * option Z) :=
  if bool_decide (cr_result c = SUCCESS) then res_map (fun ms => (SUCCESS, Some ms)) (round_whole (cr_latency_ms c))
  else Ok (cr_result c, None).

(** The snapshot of the last [window] seconds at the time [now]; it may start a new day. *)
Definition snapshot (window : Z) (today : string) (now : float) (m : LlmMetrics) : res LlmSnapshot * LlmMetrics :=
  let m := _refresh_daily_date today m in
  let calls := List.filter (fun c => fleb (now - of_Z window)%F (cr_ts c)) (me_records m) in
  let successes := with_result SUCCESS calls in
  (let* rate := success_rate (zlen successes) (zlen calls) in
   let* latency := average_latency successes in
   let* recent := res_list recent_result (slice_last 10 (me_records m)) in
   Ok {| sn_total_in_window := zlen calls; sn_success_count := zlen successes; sn_success_rate_pct := rate;
         sn_avg_latency_ms := latency; sn_rate_limited_count := zlen (with_result RATE_LIMITED calls);
         sn_timeout_count := zlen (with_result TIMEOUT calls); sn_error_count := zlen (with_result ERROR calls);
         sn_total_calls := me_total_calls m; sn_daily_calls := me_daily_calls m;
         sn_effective_delay_ms := get_call_delay_ms m;
         sn_grade_adjusted := match me_dynamic_delay_ms m with Some _ => true | None => false end;
         sn_last_error := me_last_error m; sn_recent := recent |},
   m).

End Llm.

(** * Realized profits (agent_pnl_store.py) *)

(** The hash of an agent; the sum is the text Redis keeps. *)
Record PnlHash := { ph_trade_count : Z; ph_win_count : Z; ph_total_pnl : option string; ph_updated_at : string }.

Record PnlStats := {
  pt_trade_count : Z;
  pt_win_count : Z;
  pt_win_rate : float;
  pt_total_pnl : float;
  pt_updated_at : string;
}.

Definition no_pnl : PnlHash := {| ph_trade_count := 0; ph_win_count := 0; ph_total_pnl := None; ph_updated_at := "" |}.

Module AgentPnl.

(** [sum] is Redis' [HINCRBYFLOAT]: the text of the sum of a text and a number. *)
Definition record_trade (sum : option string -> float -> string) (executes : bool) (now agent_name : string) (pnl : float)
    (s : dict PnlHash) : dict PnlHash :=
  if executes then
    let h := dget_or agent_name no_pnl s in
    dset agent_name
      {| ph_trade_count := ph_trade_count h + 1;
         ph_win_count := if fltb 0.0%F pnl then ph_win_count h + 1 else ph_win_count h;
         ph_total_pnl := Some (sum (ph_total_pnl h) pnl); ph_updated_at := now |} s
  else s.

Definition _win_rate (trade_count win_count : Z) : res float :=
  if 0 <? trade_count then int_div win_count trade_count else Ok 0.0%F.

(** The counters are whole numbers Redis counted; the sum is parsed. *)
Definition _coerce_stats (h : PnlHash) : option PnlStats :=
  match float_or_zero (match ph_total_pnl h with Some s => VStr s | None => VFloat 0.0%F end) with
  | Raise _ => None
  | Ok total =>
      if ph_trade_count h <=? 0 then None
      else
        match _win_rate (ph_trade_count h) (ph_win_count h) with
        | Ok r => Some {| pt_trade_count := ph_trade_count h; pt_win_count := ph_win_count h;
                          pt_win_rate := py_round r 4; pt_total_pnl := py_round total 4;
                          pt_updated_at := ph_updated_at h |}
        | Raise _ => None
        end
  end.

(** [get_stats], with whether Redis answers. *)
Definition get_stats (answers : bool) (agent_name : string) (s : dict PnlHash) : option PnlStats :=
  if answers then h ← dget agent_name s; _coerce_stats h else None.

Definition get_all (answers : string -> bool) (agent_names : list string) (s : dict PnlHash) : dict PnlStats :=
  fold_left (fun out name => match get_stats (answers name) name s with Some t => dset name t out | None => out end)
    agent_names [].

End AgentPnl.

(** * The replay of evaluations (replay_harness.py) *)
Section ReplayHarness.
Context `{CPow}.

(** [float(x or 0.0)] of a double *)
Definition or_zero_float (x : float) : float := if is_zero x then 0.0%F else x.

Definition actionable_side (t : payload) : bool :=
  one_of (lower_str (first_truthy ["side"; "action"] t (VStr ""))) ["buy"; "sell"].

Definition replay (trades : list payload) : res payload :=
  match trades with
  | [] =>
      Ok [("trade_count", VInt 0); ("total_pnl", VFloat 0.0%F); ("win_rate", VFloat 0.0%F); ("avg_return", VFloat 0.0%F);
          ("sharpe_ratio", VFloat 0.0%F); ("max_drawdown", VFloat 0.0%F); ("false_positive_rate", VFloat 0.0%F);
          ("avg_slippage_bps", VFloat 0.0%F)]
  | _ =>
      let* m := compute_learning_metrics trades in
      let* pnls := res_list (num "pnl") trades in
      let actionable := List.filter actionable_side trades in
      let* false_positive_rate :=
        match actionable with
        | [] => Ok 0.0%F
        | _ =>
            let* losers := res_list (num "pnl") actionable in
            int_div (zlen (List.filter (fun x => fltb x 0.0%F) losers)) (zlen actionable)
        end in
      let* slippages := res_list (num "slippage_bps") trades in
      Ok [("trade_count", VInt (if lm_total_trades m =? 0 then zlen trades else lm_total_trades m));
          ("total_pnl", VFloat (py_round (fsum_left pnls) 4)); ("win_rate", VFloat (or_zero_float (lm_win_rate m)));
          ("avg_return", VFloat (or_zero_float (lm_avg_return m)));
          ("sharpe_ratio", VFloat (or_zero_float (lm_sharpe_ratio m)));
          ("max_drawdown", VFloat (or_zero_float (lm_max_drawdown m)));
          ("false_positive_rate", VFloat (py_round false_positive_rate 4));
          ("avg_slippage_bps", VFloat (py_round (mean_of slippages) 4))]
  end.

End ReplayHarness.

(** * The agent *)

(** An ordered map from trace identifiers or symbols to tool names, the oldest first. *)
Definition Lru : Type := list (val * list val).

Definition lru_get (k : val) (l : Lru) : option (list val) :=
  snd <$> head (List.filter (fun e => val_eqb (fst e) k) l).
Definition lru_pop (k : val) (l : Lru) : Lru := List.filter (fun e => negb (val_eqb (fst e) k)) l.

(** Stored at the end, the oldest dropped while there are more than [n]. *)
Definition lru_put (n : Z) (k : val) (names : list val) (l : Lru) : Lru := slice_last n (lru_pop k l ++ [(k, names)]).

Record GradeSettings := {
  GRADE_EVERY_N_FILLS : Z;
  GRADE_LOOKBACK_N : Z;
  GRADE_WEIGHTS : Weights;
  GRADE_ACTION_MIN_FILLS : Z;
  RETIRE_AFTER_N_GRADES : Z;
}.

Definition default_settings : GradeSettings :=
  {| GRADE_EVERY_N_FILLS := 1; GRADE_LOOKBACK_N := 20; GRADE_WEIGHTS := default_weights; GRADE_ACTION_MIN_FILLS := 20;
     RETIRE_AFTER_N_GRADES := 3 |}.

(** The environment of one message. *)
Record GradeEnv := {
  gx_settings : GradeSettings;
  gx_stamp : string;
  gx_now : string;
  gx_today : string;
  gx_uuid : string;
  gx_clock : float;
  gx_monotonic : float;
  gx_replay_ms : float;
  gx_redis : string -> bool;
  gx_incr : option string -> float -> string;
}.

Record GradeAgent := {
  ga_fills : Z;
  ga_pnls : list float;
  ga_confidences : list float;
  ga_low : Z;
  ga_evals : list payload;
  ga_rl_seen : Z;
  ga_history : list (float * dict float);
  ga_correcting : bool;
  ga_tool_key : option string;
  ga_trace_tools : Lru;
  ga_entry_tools : Lru;
  ga_seen : list string;
  ga_tools : ToolRegistry;
  ga_llm : LlmMetrics;
  ga_pnl_store : option (dict PnlHash);
  ga_store : InMemoryStore;
  ga_published : list (string * payload);
}.

Definition set_fills (x : Z) (a : GradeAgent) : GradeAgent :=
  {| ga_fills := x; ga_pnls := ga_pnls a; ga_confidences := ga_confidences a; ga_low := ga_low a; ga_evals :=
     ga_evals a; ga_rl_seen := ga_rl_seen a; ga_history := ga_history a; ga_correcting := ga_correcting a;
     ga_tool_key := ga_tool_key a; ga_trace_tools := ga_trace_tools a; ga_entry_tools := ga_entry_tools a;
     ga_seen := ga_seen a; ga_tools := ga_tools a; ga_llm := ga_llm a; ga_pnl_store := ga_pnl_store a; ga_store
     := ga_store a; ga_published := ga_published a |}.
Definition set_pnls (x : list float) (a : GradeAgent) : GradeAgent :=
  {| ga_fills := ga_fills a; ga_pnls := x; ga_confidences := ga_confidences a; ga_low := ga_low a; ga_evals :=
     ga_evals a; ga_rl_seen := ga_rl_seen a; ga_history := ga_history a; ga_correcting := ga_correcting a;
     ga_tool_key := ga_tool_key a; ga_trace_tools := ga_trace_tools a; ga_entry_tools := ga_entry_tools a;
     ga_seen := ga_seen a; ga_tools := ga_tools a; ga_llm := ga_llm a; ga_pnl_store := ga_pnl_store a; ga_store
     := ga_store a; ga_published := ga_published a |}.
Definition set_confidences (x : list float) (a : GradeAgent) : GradeAgent :=
  {| ga_fills := ga_fills a; ga_pnls := ga_pnls a; ga_confidences := x; ga_low := ga_low a; ga_evals :=
     ga_evals a; ga_rl_seen := ga_rl_seen a; ga_history := ga_history a; ga_correcting := ga_correcting a;
     ga_tool_key := ga_tool_key a; ga_trace_tools := ga_trace_tools a; ga_entry_tools := ga_entry_tools a;
     ga_seen := ga_seen a; ga_tools := ga_tools a; ga_llm := ga_llm a; ga_pnl_store := ga_pnl_store a; ga_store
     := ga_store a; ga_published := ga_published a |}.
Definition set_low (x : Z) (a : GradeAgent) : GradeAgent :=
  {| ga_fills := ga_fills a; ga_pnls := ga_pnls a; ga_confidences := ga_confidences a; ga_low := x; ga_evals
     := ga_evals a; ga_rl_seen := ga_rl_seen a; ga_history := ga_history a; ga_correcting := ga_correcting a;
     ga_tool_key := ga_tool_key a; ga_trace_tools := ga_trace_tools a; ga_entry_tools := ga_entry_tools a;
     ga_seen := ga_seen a; ga_tools := ga_tools a; ga_llm := ga_llm a; ga_pnl_store := ga_pnl_store a; ga_store
     := ga_store a; ga_published := ga_published a |}.
Definition set_evals (x : list payload) (a : GradeAgent) : GradeAgent :=
  {| ga_fills := ga_fills a; ga_pnls := ga_pnls a; ga_confidences := ga_confidences a; ga_low := ga_low a;
     ga_evals := x; ga_rl_seen := ga_rl_seen a; ga_history := ga_history a; ga_correcting := ga_correcting a;
     ga_tool_key := ga_tool_key a; ga_trace_tools := ga_trace_tools a; ga_entry_tools := ga_entry_tools a;
     ga_seen := ga_seen a; ga_tools := ga_tools a; ga_llm := ga_llm a; ga_pnl_store := ga_pnl_store a; ga_store
     := ga_store a; ga_published := ga_published a |}.
Definition set_rl_seen (x : Z) (a : GradeAgent) : GradeAgent :=
  {| ga_fills := ga_fills a; ga_pnls := ga_pnls a; ga_confidences := ga_confidences a; ga_low := ga_low a;
     ga_evals := ga_evals a; ga_rl_seen := x; ga_history := ga_history a; ga_correcting := ga_correcting a;
     ga_tool_key := ga_tool_key a; ga_trace_tools := ga_trace_tools a; ga_entry_tools := ga_entry_tools a;
     ga_seen := ga_seen a; ga_tools := ga_tools a; ga_llm := ga_llm a; ga_pnl_store := ga_pnl_store a; ga_store
     := ga_store a; ga_published := ga_published a |}.
Definition set_history (x : list (float * dict float)) (a : GradeAgent) : GradeAgent :=
  {| ga_fills := ga_fills a; ga_pnls := ga_pnls a; ga_confidences := ga_confidences a; ga_low := ga_low a;
     ga_evals := ga_evals a; ga_rl_seen := ga_rl_seen a; ga_history := x; ga_correcting := ga_correcting a;
     ga_tool_key := ga_tool_key a; ga_trace_tools := ga_trace_tools a; ga_entry_tools := ga_entry_tools a;
     ga_seen := ga_seen a; ga_tools := ga_tools a; ga_llm := ga_llm a; ga_pnl_store := ga_pnl_store a; ga_store
     := ga_store a; ga_published := ga_published a |}.
Definition set_correcting (x : bool) (a : GradeAgent) : GradeAgent :=
  {| ga_fills := ga_fills a; ga_pnls := ga_pnls a; ga_confidences := ga_confidences a; ga_low := ga_low a;
     ga_evals := ga_evals a; ga_rl_seen := ga_rl_seen a; ga_history := ga_history a; ga_correcting := x;
     ga_tool_key := ga_tool_key a; ga_trace_tools := ga_trace_tools a; ga_entry_tools := ga_entry_tools a;
     ga_seen := ga_seen a; ga_tools := ga_tools a; ga_llm := ga_llm a; ga_pnl_store := ga_pnl_store a; ga_store
     := ga_store a; ga_published := ga_published a |}.
Definition set_tool_key (x : option string) (a : GradeAgent) : GradeAgent :=
  {| ga_fills := ga_fills a; ga_pnls := ga_pnls a; ga_confidences := ga_confidences a; ga_low := ga_low a;
     ga_evals := ga_evals a; ga_rl_seen := ga_rl_seen a; ga_history := ga_history a; ga_correcting :=
     ga_correcting a; ga_tool_key := x; ga_trace_tools := ga_trace_tools a; ga_entry_tools := ga_entry_tools a;
     ga_seen := ga_seen a; ga_tools := ga_tools a; ga_llm := ga_llm a; ga_pnl_store := ga_pnl_store a; ga_store
     := ga_store a; ga_published := ga_published a |}.
Definition set_trace_tools (x : Lru) (a : GradeAgent) : GradeAgent :=
  {| ga_fills := ga_fills a; ga_pnls := ga_pnls a; ga_confidences := ga_confidences a; ga_low := ga_low a;
     ga_evals := ga_evals a; ga_rl_seen := ga_rl_seen a; ga_history := ga_history a; ga_correcting :=
     ga_correcting a; ga_tool_key := ga_tool_key a; ga_trace_tools := x; ga_entry_tools := ga_entry_tools a;
     ga_seen := ga_seen a; ga_tools := ga_tools a; ga_llm := ga_llm a; ga_pnl_store := ga_pnl_store a; ga_store
     := ga_store a; ga_published := ga_published a |}.
Definition set_entry_tools (x : Lru) (a : GradeAgent) : GradeAgent :=
  {| ga_fills := ga_fills a; ga_pnls := ga_pnls a; ga_confidences := ga_confidences a; ga_low := ga_low a;
     ga_evals := ga_evals a; ga_rl_seen := ga_rl_seen a; ga_history := ga_history a; ga_correcting :=
     ga_correcting a; ga_tool_key := ga_tool_key a; ga_trace_tools := ga_trace_tools a; ga_entry_tools := x;
     ga_seen := ga_seen a; ga_tools := ga_tools a; ga_llm := ga_llm a; ga_pnl_store := ga_pnl_store a; ga_store
     := ga_store a; ga_published := ga_published a |}.
Definition set_seen (x : list string) (a : GradeAgent) : GradeAgent :=
  {| ga_fills := ga_fills a; ga_pnls := ga_pnls a; ga_confidences := ga_confidences a; ga_low := ga_low a;
     ga_evals := ga_evals a; ga_rl_seen := ga_rl_seen a; ga_history := ga_history a; ga_correcting :=
     ga_correcting a; ga_tool_key := ga_tool_key a; ga_trace_tools := ga_trace_tools a; ga_entry_tools :=
     ga_entry_tools a; ga_seen := x; ga_tools := ga_tools a; ga_llm := ga_llm a; ga_pnl_store := ga_pnl_store a;
     ga_store := ga_store a; ga_published := ga_published a |}.
Definition set_tools (x : ToolRegistry) (a : GradeAgent) : GradeAgent :=
  {| ga_fills := ga_fills a; ga_pnls := ga_pnls a; ga_confidences := ga_confidences a; ga_low := ga_low a;
     ga_evals := ga_evals a; ga_rl_seen := ga_rl_seen a; ga_history := ga_history a; ga_correcting :=
     ga_correcting a; ga_tool_key := ga_tool_key a; ga_trace_tools := ga_trace_tools a; ga_entry_tools :=
     ga_entry_tools a; ga_seen := ga_seen a; ga_tools := x; ga_llm := ga_llm a; ga_pnl_store := ga_pnl_store a;
     ga_store := ga_store a; ga_published := ga_published a |}.
Definition set_llm (x : LlmMetrics) (a : GradeAgent) : GradeAgent :=
  {| ga_fills := ga_fills a; ga_pnls := ga_pnls a; ga_confidences := ga_confidences a; ga_low := ga_low a;
     ga_evals := ga_evals a; ga_rl_seen := ga_rl_seen a; ga_history := ga_history a; ga_correcting :=
     ga_correcting a; ga_tool_key := ga_tool_key a; ga_trace_tools := ga_trace_tools a; ga_entry_tools :=
     ga_entry_tools a; ga_seen := ga_seen a; ga_tools := ga_tools a; ga_llm := x; ga_pnl_store := ga_pnl_store a;
     ga_store := ga_store a; ga_published := ga_published a |}.
Definition set_pnl_store (x : option (dict PnlHash)) (a : GradeAgent) : GradeAgent :=
  {| ga_fills := ga_fills a; ga_pnls := ga_pnls a; ga_confidences := ga_confidences a; ga_low := ga_low a;
     ga_evals := ga_evals a; ga_rl_seen := ga_rl_seen a; ga_history := ga_history a; ga_correcting :=
     ga_correcting a; ga_tool_key := ga_tool_key a; ga_trace_tools := ga_trace_tools a; ga_entry_tools :=
     ga_entry_tools a; ga_seen := ga_seen a; ga_tools := ga_tools a; ga_llm := ga_llm a; ga_pnl_store := x;
     ga_store := ga_store a; ga_published := ga_published a |}.
Definition set_store (x : InMemoryStore) (a : GradeAgent) : GradeAgent :=
  {| ga_fills := ga_fills a; ga_pnls := ga_pnls a; ga_confidences := ga_confidences a; ga_low := ga_low a;
     ga_evals := ga_evals a; ga_rl_seen := ga_rl_seen a; ga_history := ga_history a; ga_correcting :=
     ga_correcting a; ga_tool_key := ga_tool_key a; ga_trace_tools := ga_trace_tools a; ga_entry_tools :=
     ga_entry_tools a; ga_seen := ga_seen a; ga_tools := ga_tools a; ga_llm := ga_llm a; ga_pnl_store :=
     ga_pnl_store a; ga_store := x; ga_published := ga_published a |}.
Definition set_published (x : list (string * payload)) (a : GradeAgent) : GradeAgent :=
  {| ga_fills := ga_fills a; ga_pnls := ga_pnls a; ga_confidences := ga_confidences a; ga_low := ga_low a;
     ga_evals := ga_evals a; ga_rl_seen := ga_rl_seen a; ga_history := ga_history a; ga_correcting :=
     ga_correcting a; ga_tool_key := ga_tool_key a; ga_trace_tools := ga_trace_tools a; ga_entry_tools :=
     ga_entry_tools a; ga_seen := ga_seen a; ga_tools := ga_tools a; ga_llm := ga_llm a; ga_pnl_store :=
     ga_pnl_store a; ga_store := ga_store a; ga_published := x |}.

(** [deque(maxlen=n)], [append] *)
Definition appended {A} (n : Z) (x : A) (l : list A) : list A := slice_last n (l ++ [x]).

Definition init (tools : ToolRegistry) (llm : LlmMetrics) (pnl_store : option (dict PnlHash)) (store : InMemoryStore)
  : GradeAgent :=
  {| ga_fills := 0; ga_pnls := []; ga_confidences := []; ga_low := 0; ga_evals := []; ga_rl_seen := 0; ga_history := [];
     ga_correcting := false; ga_tool_key := None; ga_trace_tools := []; ga_entry_tools := []; ga_seen := [];
     ga_tools := tools; ga_llm := llm; ga_pnl_store := pnl_store; ga_store := store; ga_published := [] |}.

Section Agent.
Context `{CPow}.
Variable ev : GradeEnv.

Definition publish (stream : string) (p : payload) : M GradeAgent unit :=
  modify (fun a => set_published (ga_published a ++ [(stream, p)]) a).

Definition on_store (f : InMemoryStore -> InMemoryStore) : M GradeAgent unit :=
  modify (fun a => set_store (f (ga_store a)) a).

(** ** Tools *)

(** The names in a list of tools; what is not a dictionary has none. *)
Definition tool_names (tools : val) : res (list val) :=
  let* l := iterate tools in
  Ok (omap (fun t => match t with
                     | VDict d => let n := dget_or "name" VNone d in if truthy n then Some n else None
                     | _ => None
                     end) l).

Definition _remember_decision_tools (data : payload) : M GradeAgent unit :=
  let trace_id := dget_or "trace_id" VNone data in
  if negb (truthy trace_id) then ret tt
  else
    let! names := lift (tool_names (or_else (dget_or "tools_used" VNone data) (VList []))) in
    match names with
    | [] => ret tt
    | _ =>
        let! key := lift (hashable trace_id) in
        modify (fun a => set_trace_tools (lru_put 500 key names (ga_trace_tools a)) a)
    end.

Definition _remember_entry_tools (data : payload) : M GradeAgent unit :=
  if negb (String.eqb (lower_str (or_else (dget_or "side" VNone data) (VStr ""))) "buy") then ret tt
  else
    let symbol := dget_or "symbol" VNone data in
    let trace_id := dget_or "trace_id" VNone data in
    if negb (truthy symbol) || negb (truthy trace_id) then ret tt
    else
      let! key := lift (hashable trace_id) in
      let! names := gets (fun a => lru_get key (ga_trace_tools a)) in
      match names with
      | None | Some [] => ret tt
      | Some names =>
          modify (fun a => set_entry_tools (lru_put 100 (VStr (Fmt.str symbol)) names (ga_entry_tools a)) a)
      end.

(** [dict.fromkeys]: the first of equal names. *)
Fixpoint fromkeys (names : list val) : res (list val) :=
  match names with
  | [] => Ok []
  | x :: rest =>
      let* k := hashable x in
      let* l := fromkeys rest in
      Ok (k :: List.filter (fun y => negb (val_eqb k y)) l)
  end.

(** The registry is asked for a name that may not be a text; what cannot be hashed raises. *)
Definition credit (realized_pnl : float) (name : val) (r : ToolRegistry) : ToolRegistry :=
  match name with
  | VStr s => snd (Tools.record_call s 0.0%F true (Some realized_pnl) r)
  | _ => r
  end.

Definition _attribute_pnl_to_tools (data : payload) : M GradeAgent unit :=
  match py_float (dget_or "pnl" VNone data) with
  | Raise TypeError | Raise ValueError => ret tt
  | Raise e => raise e
  | Ok realized_pnl =>
      let trace_id := dget_or "trace_id" VNone data in
      let! closing :=
        if truthy trace_id then
          let! key := lift (hashable trace_id) in
          let! names := gets (fun a => lru_get key (ga_trace_tools a)) in
          do! modify (fun a => set_trace_tools (lru_pop key (ga_trace_tools a)) a) in
          ret names
        else ret None in
      let symbol := dget_or "symbol" VNone data in
      let! entry :=
        if truthy symbol then
          let key := VStr (Fmt.str symbol) in
          let! names := gets (fun a => lru_get key (ga_entry_tools a)) in
          do! modify (fun a => set_entry_tools (lru_pop key (ga_entry_tools a)) a) in
          ret names
        else ret None in
      let! names := lift (fromkeys (default [] closing ++ default [] entry)) in
      modify (fun a => set_tools (fold_left (fun r n => credit realized_pnl n r) names (ga_tools a)) a)
  end.

(** ** One closed trade *)

Definition _attribute_pnl_to_agents (data : payload) : M GradeAgent unit :=
  match dget_or "pnl" VNone data with
  | VNone => ret tt
  | pnl =>
      let! s := gets ga_pnl_store in
      match s with
      | None => ret tt
      | Some hashes =>
          match py_float pnl with
          | Raise TypeError | Raise ValueError => ret tt
          | Raise e => raise e
          | Ok value =>
              modify (set_pnl_store (Some (fold_left (fun h name =>
                AgentPnl.record_trade (gx_incr ev) (gx_redis ev name) (gx_now ev) name value h) PNL_GRADED_AGENTS hashes)))
          end
      end
  end.

(** [str.replace("_", " ")] *)
Definition spaced (s : string) : string :=
  String.string_of_list_ascii
    (map (fun c => if (Ascii.nat_of_ascii c =? 95)%nat then Ascii.ascii_of_nat 32 else c) (String.list_ascii_of_string s)).

Definition first_tag (evaluation : payload) : string :=
  match first_truthy ["mistakes"; "strengths"] evaluation (VList []) with
  | VList (t :: _) => spaced (Fmt.str t)
  | _ => ""
  end.

Definition _grade_trade_row (data evaluation : payload) : M GradeAgent unit :=
  match dget_or "pnl" VNone data with
  | VNone => ret tt
  | _ =>
      let execution_trace_id := first_truthy ["execution_trace_id"] data (dget_or "trace_id" VNone data) in
      let order_id := dget_or "order_id" VNone data in
      let grade := opt_str (dget_or "grade" VNone evaluation) in
      if negb (truthy execution_trace_id) && negb (truthy order_id) || String.eqb grade "" then ret tt
      else
        let! score := lift (float_or_zero (dget_or "overall_score" VNone evaluation)) in
        let detail := first_tag evaluation in
        on_store (fun s => snd (Store.upsert_trade_fill
          [("execution_trace_id", execution_trace_id); ("order_id", order_id); ("grade", VStr grade);
           ("grade_score", VFloat (py_round (score * 100.0)%F 1));
           ("grade_label", VStr ("Grade " +:+ grade +:+ if String.eqb detail "" then "" else " · " +:+ detail));
           ("graded_at", VStr (gx_now ev)); ("status", VStr "graded")] (gx_clock ev) s))
  end.

Definition _score_and_persist_trade (data : payload) : M GradeAgent unit :=
  do! match score_trade data with
      | Raise _ => ret tt
      | Ok evaluation =>
          do! modify (fun a => set_evals (appended 200 evaluation (ga_evals a)) a) in
          do! on_store (fun s => snd (Store.add_trade_evaluation evaluation (gx_clock ev) s)) in
          _grade_trade_row data evaluation
      end in
  do! _attribute_pnl_to_tools data in
  _attribute_pnl_to_agents data.

(** ** The four dimensions *)

Definition _win_rate (a : GradeAgent) : res float :=
  match slice_last (GRADE_LOOKBACK_N (gx_settings ev)) (ga_pnls a) with
  | [] => Ok 0.5%F
  | recent => int_div (zlen (List.filter (fltb 0.0%F) recent)) (zlen recent)
  end.

Definition _information_coefficient (a : GradeAgent) : res float :=
  let n := GRADE_LOOKBACK_N (gx_settings ev) in
  let paired := zip (slice_last n (ga_confidences a)) (slice_last n (ga_pnls a)) in
  if zlen paired <? 3 then Ok 0.0%F else spearman_correlation (map fst paired) (map snd paired).

(** Without a database the cost of the model calls is 0. *)
Definition _cost_efficiency (a : GradeAgent) : float :=
  (fsum_left (slice_last (GRADE_LOOKBACK_N (gx_settings ev)) (ga_pnls a)) * 0.1)%F.

Definition _latency_score : float := 0.8%F.

Definition _llm_health_score (snap : LlmSnapshot) : float :=
  let success_rate := fdiv_nz (sn_success_rate_pct snap) 100.0%F in
  let penalty := fmin 1.0%F (of_Z (sn_rate_limited_count snap) * 0.10 + of_Z (sn_timeout_count snap) * 0.15)%F in
  py_round (fmax 0.0%F (success_rate - penalty)%F) 4.

Record GradeMetrics := {
  gm_accuracy : float;
  gm_ic : float;
  gm_cost_eff : float;
  gm_latency : float;
  gm_health : float;
  gm_snap : LlmSnapshot;
}.

(** The [try] of the metrics. *)
Definition grade_metrics : M GradeAgent GradeMetrics :=
  let! a := gets id in
  let! accuracy := lift (_win_rate a) in
  let! ic := lift (_information_coefficient a) in
  let '(snap, llm) := Llm.snapshot LLM_METRICS_WINDOW_SECONDS (gx_today ev) (gx_monotonic ev) (ga_llm a) in
  do! modify (set_llm llm) in
  let! snap := lift snap in
  ret {| gm_accuracy := accuracy; gm_ic := ic; gm_cost_eff := _cost_efficiency a; gm_latency := _latency_score;
         gm_health := _llm_health_score snap; gm_snap := snap |}.

Definition graded_score (m : GradeMetrics) : float :=
  compute_weighted_score (gm_accuracy m) (normalize_ic (gm_ic m)) (normalize_cost_eff (gm_cost_eff m)) (gm_latency m)
    (GRADE_WEIGHTS (gx_settings ev)).

Definition dimension_vector (m : GradeMetrics) : dict float :=
  [("accuracy", py_round (gm_accuracy m) 4); ("ic_normalized", py_round (normalize_ic (gm_ic m)) 4);
   ("cost_normalized", py_round (normalize_cost_eff (gm_cost_eff m)) 4); ("latency_score", py_round (gm_latency m) 4)].

Definition _self_correction (score : float) (dims : dict float) : M GradeAgent SelfCorrection :=
  let! history := gets ga_history in
  let scores := map fst history in
  let! diagnostic := lift (build_self_correction scores score (map snd history) dims (scores ++ [score])) in
  do! modify (fun a => set_history (appended 50 (score, dims) (ga_history a)) a) in
  ret diagnostic.

Definition grade_trace : string := "grade_" +:+ gx_stamp ev.
Definition score_pct (score : float) : float := py_round (score * 100.0)%F 1.

Definition metrics_payload (m : GradeMetrics) (fills : Z) : payload :=
  [("accuracy", VFloat (py_round (gm_accuracy m) 4)); ("ic", VFloat (py_round (gm_ic m) 4));
   ("ic_normalized", VFloat (py_round (normalize_ic (gm_ic m)) 4));
   ("cost_efficiency", VFloat (py_round (gm_cost_eff m) 4));
   ("cost_normalized", VFloat (py_round (normalize_cost_eff (gm_cost_eff m)) 4));
   ("latency_score", VFloat (py_round (gm_latency m) 4)); ("fills_graded", VInt fills);
   ("llm_health_score", VFloat (gm_health m)); ("llm_rate_limited", VInt (sn_rate_limited_count (gm_snap m)));
   ("llm_timeout_count", VInt (sn_timeout_count (gm_snap m)));
   ("llm_success_rate_pct", VFloat (py_round (sn_success_rate_pct (gm_snap m)) 1));
   ("llm_effective_delay_ms", VInt (sn_effective_delay_ms (gm_snap m)))].

Definition grade_payload (m : GradeMetrics) (score : float) (sc : SelfCorrection) (fills : Z) : payload :=
  [("msg_id", VStr (gx_uuid ev)); ("type", VStr "agent_grade"); ("source", VStr SOURCE_GRADE); ("agent", VStr AGENT_GRADE);
   ("agent_name", VStr AGENT_GRADE); ("trace_id", VStr grade_trace); ("grade", VStr (score_to_grade score));
   ("score", VFloat score); ("confidence_score", VFloat (py_round (score * 100.0)%F 2));
   ("reasoning", VStr ("accuracy=" +:+ Fmt.fixed 3 (gm_accuracy m) +:+ ", ic=" +:+ Fmt.fixed 3 (gm_ic m) +:+ ", cost_eff="
      +:+ Fmt.fixed 3 (gm_cost_eff m) +:+ ", latency=" +:+ Fmt.fixed 3 (gm_latency m) +:+ ", llm_health="
      +:+ Fmt.fixed 3 (gm_health m)));
   ("score_pct", VFloat (score_pct score)); ("metrics", VDict (metrics_payload m fills)); ("fills_graded", VInt fills);
   ("self_correction", VDict (self_correction_payload sc)); ("timestamp", VStr (gx_now ev))].

(** ** The records of a grade (db_helpers.py) *)

(** [write_agent_log] of a grade. *)
Definition write_grade_log (p : payload) (s : InMemoryStore) : InMemoryStore :=
  let s := snd (Store.add_grade
    [("trace_id", VStr grade_trace); ("grade", dget_or "grade" VNone p); ("score", dget_or "score" VNone p);
     ("score_pct", dget_or "score_pct" VNone p); ("metrics", dget_or "metrics" (VDict []) p);
     ("fills_graded", dget_or "fills_graded" VNone p);
     ("timestamp", or_else (dget_or "timestamp" VNone p) (VStr (gx_now ev)))] (gx_clock ev) s) in
  let message := first_truthy ["message"; "content"; "reason"; "primary_edge"] p (VStr "grade") in
  snd (Store.add_agent_log
    [("id", VStr ("mem-" +:+ pretty (zlen (st_agent_logs s) + 1)));
     ("agent_name", first_truthy ["source"; "agent"; "agent_name"] p (VStr "grade")); ("message", message);
     ("reasoning", or_else (dget_or "reasoning" VNone p) message); ("log_level", VStr "info");
     ("trace_id", VStr grade_trace); ("log_type", VStr "grade");
     ("confidence", or_else (dget_or "confidence_score" VNone p) (dget_or "confidence" VNone p));
     ("timestamp", or_else (dget_or "timestamp" VNone p) (VStr (gx_now ev)))]
    (gx_clock ev) s).

Definition write_grade_to_db (score_pct : float) (metrics self_correction : payload) (s : InMemoryStore) : InMemoryStore :=
  snd (Store.add_grade
    [("trace_id", VStr grade_trace); ("grade", VNone); ("score", VFloat score_pct);
     ("score_pct", VFloat (py_round score_pct 2)); ("metrics", VDict metrics); ("self_correction", VDict self_correction);
     ("fills_graded", dget_or "fills_graded" VNone metrics); ("timestamp", VStr (gx_now ev))] (gx_clock ev) s).

(** ** What follows of a grade *)

Definition _recent_backtest_evidence : M GradeAgent payload :=
  let! evals := gets ga_evals in
  let! evidence := lift (replay evals) in
  do! modify (fun a => set_tools (snd (Tools.record_call TOOL_REPLAY_REGRESSION (gx_replay_ms ev) true None (ga_tools a))) a) in
  ret evidence.

Definition notification (severity kind message : string) (p : option payload) : payload :=
  [("msg_id", VStr (gx_uuid ev)); ("source", VStr SOURCE_GRADE); ("type", VStr "notification"); ("severity", VStr severity);
   ("notification_type", VStr kind); ("message", VStr message)] ++
  match p with Some d => [("payload", VDict d)] | None => [] end ++ [("timestamp", VStr (gx_now ev))].

Definition proposal (proposal_type : string) (content : payload) : payload :=
  [("msg_id", VStr (gx_uuid ev)); ("source", VStr SOURCE_GRADE); ("type", VStr "proposal");
   ("proposal_type", VStr proposal_type); ("content", VDict content); ("timestamp", VStr (gx_now ev))].

Definition percent_text (score : float) : string := Fmt.repr_float (score_pct score) +:+ "%".

Definition grade_message (grade : string) (m : GradeMetrics) (score : float) : string :=
  "Agent grade " +:+ grade +:+ " (" +:+ percent_text score +:+ ") — accuracy="
  +:+ percent 1 (py_round (gm_accuracy m) 4) +:+ " IC=" +:+ Fmt.fixed_plus 3 (py_round (gm_ic m) 4).

Definition _notify_grade (grade : string) (m : GradeMetrics) (score : float) (p : payload) : M GradeAgent unit :=
  match dget grade GRADE_SEVERITY with
  | Some (Some severity) =>
      publish STREAM_NOTIFICATIONS (notification severity "agent_grade" (grade_message grade m score) (Some p))
  | _ => ret tt
  end.

Definition count_low : M GradeAgent unit := modify (fun a => set_low (ga_low a + 1) a).

Definition _take_grade_action (grade : string) (m : GradeMetrics) (score : float) (p : payload) : M GradeAgent unit :=
  do! _notify_grade grade m score p in
  let! fills := gets ga_fills in
  if fills <? GRADE_ACTION_MIN_FILLS (gx_settings ev) then ret tt
  else if String.eqb grade "C" then
    let! evidence := _recent_backtest_evidence in
    do! publish STREAM_PROPOSALS (proposal SIGNAL_WEIGHT_REDUCTION
          [("action", VStr "reduce_signal_weight"); ("reduction_pct", VInt 30);
           ("reason", VStr ("Grade " +:+ grade +:+ ": score " +:+ percent_text score)); ("grade_payload", VDict p);
           ("backtest", VDict evidence)]) in
    count_low
  else if String.eqb grade "D" then
    do! count_low in
    let! low := gets ga_low in
    if RETIRE_AFTER_N_GRADES (gx_settings ev) <=? low then
      let! evidence := _recent_backtest_evidence in
      publish STREAM_PROPOSALS (proposal AGENT_SUSPENSION
        [("action", VStr "suspend_from_live_stream"); ("consecutive_low_grades", VInt low);
         ("reason", VStr (pretty low +:+ " consecutive D grades")); ("backtest", VDict evidence)])
    else ret tt
  else if String.eqb grade "F" then
    do! count_low in
    let! evidence := _recent_backtest_evidence in
    publish STREAM_PROPOSALS (proposal AGENT_RETIREMENT
      [("action", VStr "retire_immediately"); ("reason", VStr ("Grade F: score " +:+ percent_text score));
       ("backtest", VDict evidence)])
  else modify (set_low 0).

Definition _emit_self_correction_alert (sc : SelfCorrection) : M GradeAgent unit :=
  if negb (is_actionable sc) then modify (set_correcting false)
  else
    let! active := gets ga_correcting in
    if active : bool then ret tt
    else
      do! modify (set_correcting true) in
      publish STREAM_NOTIFICATIONS (notification "WARNING" "grade_self_correction" (sf_message sc)
        (Some [("self_correction", VDict (self_correction_payload sc)); ("trace_id", VStr grade_trace)])).

Definition actionable (s : ToolSuggestion) : bool := one_of (ts_action s) ["disable"; "review"].

Definition suggestion_payload (s : ToolSuggestion) : payload :=
  [("tool", VStr (ts_tool s)); ("action", VStr (ts_action s)); ("severity", VStr (ts_severity s));
   ("reason", VStr (ts_reason s))].

Definition tool_payload (t : ToolMetadata) : payload :=
  [("tool", VStr (tm_name t)); ("alpha", VFloat (py_round (tm_alpha_score t) 6));
   ("failure_rate", VFloat (py_round (tm_failure_rate t) 4)); ("call_count", VInt (tm_call_count t));
   ("enabled", VBool (tm_enabled t))].

Definition governance_proposal (suggestions : list ToolSuggestion) (tools : ToolRegistry) (evidence : payload) : payload :=
  [("msg_id", VStr (gx_uuid ev)); ("source", VStr SOURCE_GRADE); ("type", VStr "proposal");
   ("proposal_type", VStr TOOL_GOVERNANCE); ("requires_approval", VBool true);
   ("content", VDict
      [("suggestions", VList (map (fun s => VDict (suggestion_payload s)) suggestions));
       ("attribution", VList (map (fun t => VDict (tool_payload t)) (Tools.attribution tools)));
       ("backtest", VDict evidence);
       ("reason", VStr (pretty (zlen (List.filter actionable suggestions)) +:+ " tool-governance action(s) from live "
          +:+ "reasoning telemetry (alpha / reliability / usage)"))]);
   ("trace_id", VStr grade_trace); ("timestamp", VStr (gx_now ev))].

(** [persist_proposal] *)
Definition persist_proposal (p : payload) (s : InMemoryStore) : InMemoryStore :=
  snd (Store.add_event
    [("log_type", VStr "proposal"); ("trace_id", first_truthy ["reflection_trace_id"; "msg_id"] p (VStr ""));
     ("payload", VDict p)] (gx_clock ev) s).

Definition governance_key (suggestions : list ToolSuggestion) : string :=
  Fmt.join ";" (map (fun s => ts_tool s +:+ ":" +:+ ts_action s) (List.filter actionable suggestions)).

Definition _emit_tool_governance : M GradeAgent unit :=
  let! tools := gets ga_tools in
  let suggestions := Tools.suggest_tool_changes 20 0.5%F tools in
  match List.filter actionable suggestions with
  | [] => modify (set_tool_key None)
  | _ =>
      let key := governance_key suggestions in
      let! last := gets ga_tool_key in
      if bool_decide (last = Some key) then ret tt
      else
        do! modify (set_tool_key (Some key)) in
        let! evidence := _recent_backtest_evidence in
        let p := governance_proposal suggestions tools evidence in
        do! publish STREAM_PROPOSALS p in
        do! on_store (persist_proposal p) in
        publish STREAM_NOTIFICATIONS (notification "INFO" "tool_governance" ("Tool governance suggests: " +:+ key) None)
  end.

Definition delay_reason (rate_limited : Z) : string :=
  "GradeAgent detected " +:+ pretty rate_limited +:+ " rate-limited calls in the last 5-minute window (threshold="
  +:+ pretty LLM_RATE_LIMIT_GRADE_THRESHOLD +:+ ")".

Definition _adjust_llm_call_rate (snap : LlmSnapshot) : M GradeAgent unit :=
  let rate_limited := sn_rate_limited_count snap in
  if rate_limited <? LLM_RATE_LIMIT_GRADE_THRESHOLD then modify (set_rl_seen 0)
  else
    let! seen := gets ga_rl_seen in
    if rate_limited <=? seen then ret tt
    else
      let! current_delay := gets (fun a => Llm.get_call_delay_ms (ga_llm a)) in
      let new_delay := Z.min (current_delay + LLM_DELAY_ADJUSTMENT_STEP_MS) LLM_DELAY_MAX_MS in
      do! modify (set_rl_seen rate_limited) in
      if new_delay =? current_delay then ret tt
      else
        do! modify (fun a => set_llm (Llm.set_call_delay_ms new_delay (ga_llm a)) a) in
        publish STREAM_PROPOSALS (proposal PARAMETER_CHANGE
          [("parameter", VStr "LLM_CALL_DELAY_MS"); ("previous_value", VInt current_delay); ("new_value", VInt new_delay);
           ("reason", VStr (delay_reason rate_limited)); ("auto_applied", VBool true)]).

Definition ungraded (row : payload) : bool :=
  negb (truthy (dget_or "grade" VNone row)) && truthy (first_truthy ["execution_trace_id"; "order_id"] row VNone).

Definition _backfill_grade_to_memory (grade : string) (score : float) (label : string) (s : InMemoryStore) : InMemoryStore :=
  match List.find ungraded (rev (st_trade_feed s)) with
  | None => s
  | Some target =>
      snd (Store.upsert_trade_fill
        [("execution_trace_id", dget_or "execution_trace_id" VNone target); ("order_id", dget_or "order_id" VNone target);
         ("created_at", dget_or "created_at" VNone target); ("grade", VStr grade); ("grade_score", VFloat (score_pct score));
         ("grade_label", VStr label); ("grade_trace_id", VStr grade_trace); ("graded_at", VStr (gx_now ev));
         ("status", VStr "graded")] (gx_clock ev) s)
  end.

Definition _backfill_grade_to_lifecycle (grade : string) (m : GradeMetrics) (score : float) : M GradeAgent unit :=
  on_store (_backfill_grade_to_memory grade score
    ("Grade " +:+ grade +:+ ": accuracy=" +:+ percent 0 (py_round (gm_accuracy m) 4) +:+ " IC="
     +:+ Fmt.fixed_plus 3 (py_round (gm_ic m) 4))).

(** Whatever raises while the metrics are computed is swallowed. *)
Definition measured : M GradeAgent (option GradeMetrics) := fun a =>
  match grade_metrics a with (Ok m, a') => (Ok (Some m), a') | (Raise _, a') => (Ok None, a') end.

Definition _compute_and_publish_grade : M GradeAgent unit :=
  let! m := measured in
  match m with
  | None => ret tt
  | Some m =>
      let score := graded_score m in
      let grade := score_to_grade score in
      let! sc := _self_correction score (dimension_vector m) in
      let! fills := gets ga_fills in
      let p := grade_payload m score sc fills in
      do! publish STREAM_AGENT_GRADES p in
      do! on_store (write_grade_log p) in
      do! on_store (write_grade_to_db (score_pct score) (metrics_payload m fills) (self_correction_payload sc)) in
      do! _take_grade_action grade m score p in
      do! _emit_self_correction_alert sc in
      do! _emit_tool_governance in
      do! _adjust_llm_call_rate (gm_snap m) in
      _backfill_grade_to_lifecycle grade m score
  end.

(** ** The consumer *)

Definition completed (stream : string) : bool := one_of stream [STREAM_TRADE_COMPLETED; STREAM_TRADE_PERFORMANCE].

(** A close, once: whether it was new. *)
Definition _count_close (data : payload) : M GradeAgent bool :=
  let! seen := gets ga_seen in
  let '(duplicate, seen') := is_duplicate data seen in
  do! modify (set_seen seen') in
  if duplicate : bool then ret false
  else
    let! pnl := lift (float_or_zero (dget_or "pnl" VNone data)) in
    do! modify (fun a => set_pnls (appended 100 pnl (ga_pnls a)) a) in
    do! modify (fun a => set_fills (ga_fills a + 1) a) in
    do! _score_and_persist_trade data in
    ret true.

Definition _cycle : M GradeAgent unit :=
  let! fills := gets ga_fills in
  let trigger := Z.max (GRADE_EVERY_N_FILLS (gx_settings ev)) 1 in
  if (fills =? 0) || negb (fills mod trigger =? 0) then ret tt else _compute_and_publish_grade.

Definition process (stream : string) (data : payload) : M GradeAgent unit :=
  if completed stream then
    let! fresh := _count_close data in
    if fresh : bool then _cycle else ret tt
  else if String.eqb stream STREAM_EXECUTIONS then
    let c := dget_or "confidence" VNone data in
    let! confidence := lift (if truthy c then py_float c else Ok 0.5%F) in
    do! modify (fun a => set_confidences (appended 100 confidence (ga_confidences a)) a) in
    do! _remember_entry_tools data in
    _cycle
  else if String.eqb stream STREAM_DECISIONS then _remember_decision_tools data
  else _cycle.

End Agent.
