(* ===== verification/GradeAgentFacts.v ===== *)
(** GradeAgentFacts: what the grade agent proposes, on what evidence, and what follows of it;
    what a close credits to the tools; the delay of model calls. *)
From S2P Require Import Prelude StateErr PyFloat FloatFacts PyVal PyMath PyRandom PyPow Config Params Policy Store StoreFacts Execution Broker Lifecycle Scorer Engine EngineFacts EngineInv EngineSafety Guardian Shadow Contender ContenderFacts Tools ToolsFacts Prompts Applier AdvisoryFacts ApplierFacts Delivery DeliveryFacts AgentGrade AgentGradeFacts GradeAgent.

(** * What has been published *)

Definition grade_messages (l : list (string * payload)) : list payload :=
  omap (fun e => if String.eqb (fst e) STREAM_AGENT_GRADES then Some (snd e) else None) l.

Definition letter_of (g : payload) : val := dget_or "grade" VNone g.
Definition low_letter (s : string) : bool := one_of s ["C"; "D"; "F"].
Definition low_grade (g : payload) : bool := match letter_of g with VStr s => low_letter s | _ => false end.

Fixpoint leading (l : list payload) : Z :=
  match l with [] => 0 | g :: rest => if low_grade g then 1 + leading rest else 0 end.

(** The number of grades C, D and F in a row, up to the latest. *)
Definition low_run (l : list (string * payload)) : Z := leading (rev (grade_messages l)).
Definition latest_grade (l : list (string * payload)) : option payload := head (rev (grade_messages l)).

Definition capital_types : list string := [SIGNAL_WEIGHT_REDUCTION; AGENT_SUSPENSION; AGENT_RETIREMENT].
Definition type_of (p : payload) : val := dget_or "proposal_type" VNone p.

(** The latest grade is the letter, on at least [n] fills. *)
Definition graded (letter : string) (n : Z) (l : list (string * payload)) : Prop :=
  exists g fills, latest_grade l = Some g /\ letter_of g = VStr letter /\ dget "fills_graded" g = Some (VInt fills) /\ n <= fills.

Definition justified (st : GradeSettings) (before : list (string * payload)) (p : payload) : Prop :=
  (type_of p = VStr SIGNAL_WEIGHT_REDUCTION -> graded "C" (GRADE_ACTION_MIN_FILLS st) before) /\
  (type_of p = VStr AGENT_SUSPENSION ->
     graded "D" (GRADE_ACTION_MIN_FILLS st) before /\ RETIRE_AFTER_N_GRADES st <= low_run before) /\
  (type_of p = VStr AGENT_RETIREMENT ->
     graded "F" (GRADE_ACTION_MIN_FILLS st) before /\ exists c, dget_or "content" VNone p = VDict c).

Definition all_justified (st : GradeSettings) (l : list (string * payload)) : Prop :=
  forall l1 p l2, l = l1 ++ (STREAM_PROPOSALS, p) :: l2 -> justified st l1 p.

Lemma all_justified_nil st : all_justified st [].
Proof. intros l1 p l2 H. by destruct l1. Qed.

Lemma all_justified_snoc st l e : all_justified st l ->
  (fst e = STREAM_PROPOSALS -> justified st l (snd e)) -> all_justified st (l ++ [e]).
Proof.
  intros Hl He l1 p l2 H. destruct l2 as [|x l2] using rev_ind.
  - apply app_inj_tail in H as [-> ->]. by apply He.
  - clear IHl2. rewrite app_comm_cons, app_assoc in H. apply app_inj_tail in H as [-> _]. by eapply Hl.
Qed.

(** A message that is neither a grade nor a change of the capital at work. *)
Definition neutral (e : string * payload) : Prop :=
  fst e <> STREAM_AGENT_GRADES /\
  (fst e = STREAM_PROPOSALS -> forall t, type_of (snd e) = VStr t -> one_of t capital_types = false).

Lemma neutral_justified st l e : neutral e -> fst e = STREAM_PROPOSALS -> justified st l (snd e).
Proof. intros [_ H] He. specialize (H He). split; [|split]; intros Ht; specialize (H _ Ht); discriminate H. Qed.

Lemma all_justified_neutral st l new : all_justified st l -> Forall neutral new -> all_justified st (l ++ new).
Proof.
  intros Hl. induction new as [|e new IH] using rev_ind; [by rewrite app_nil_r|]. intros [Hn He]%Forall_app.
  rewrite app_assoc. apply all_justified_snoc; [by apply IH|]. inversion He; subst. intros H. by apply neutral_justified.
Qed.

Lemma grade_messages_neutral l new : Forall neutral new -> grade_messages (l ++ new) = grade_messages l.
Proof.
  intros H. unfold grade_messages. rewrite omap_app. set (f := fun e => _). enough (omap f new = []) as -> by apply app_nil_r.
  unfold f. clear f. induction H as [|e new [He _] _ IH]; [done|]. cbn. by apply String.eqb_neq in He as ->.
Qed.

Lemma leading_nonneg l : 0 <= leading l.
Proof. induction l as [|g l IH]; simpl; [lia|]. destruct (low_grade g); lia. Qed.

Lemma low_run_nonneg l : 0 <= low_run l.
Proof. apply leading_nonneg. Qed.

(** * Quiet operations *)

(** The profits and the closes that were counted. *)
Definition frame (a a' : GradeAgent) : Prop := ga_pnls a' = ga_pnls a /\ ga_seen a' = ga_seen a.

#[global] Instance frame_preorder : PreOrder frame.
Proof. split; [by split|]. intros a b c [H1 H2] [H3 H4]. split; congruence. Qed.

(** Nothing is counted, and nothing but neutral messages is published. *)
Definition quiet (a a' : GradeAgent) : Prop :=
  frame a a' /\ ga_low a' = ga_low a /\ ga_fills a' = ga_fills a /\
  exists new, ga_published a' = ga_published a ++ new /\ Forall neutral new.

#[global] Instance quiet_preorder : PreOrder quiet.
Proof.
  split.
  - intros a. split_and!; [reflexivity..|]. exists []. by rewrite app_nil_r.
  - intros a b c (S1 & E1 & F1 & n1 & P1 & N1) (S2 & E2 & F2 & n2 & P2 & N2). split_and!; [by etrans|congruence..|].
    exists (n1 ++ n2). rewrite P2, P1, app_assoc. split; [done|]. by apply Forall_app.
Qed.

Lemma unpublished_quiet a a' : frame a a' -> ga_low a' = ga_low a -> ga_fills a' = ga_fills a -> ga_published a' = ga_published a ->
  quiet a a'.
Proof. intros H0 H1 H2 H3. split_and!; [exact H0|done..|]. exists []. by rewrite app_nil_r. Qed.

#[export] Hint Extern 1 (tracks quiet (modify _)) =>
  (apply tracks_modify; intros ?; apply unpublished_quiet; [split|..]; reflexivity) : tracks.

Lemma quiet_publish stream p : neutral (stream, p) -> tracks quiet (publish stream p).
Proof. intros H. apply tracks_modify. intros a. split; [by split|]. split_and!; [done..|]. exists [(stream, p)]. split; [done|]. by constructor. Qed.

Lemma quiet_notify p : tracks quiet (publish STREAM_NOTIFICATIONS p).
Proof. apply quiet_publish. split; [discriminate|]. intros H. discriminate H. Qed.

Lemma quiet_on_store f : tracks quiet (on_store f).
Proof. unfold on_store. auto with tracks. Qed.

#[export] Hint Resolve quiet_notify quiet_on_store : tracks.

(** The structure of a computation. *)
Ltac quiet_cases := repeat (cbv beta iota zeta; first
  [ apply (tracks_bind quiet); [|intros ?]
  | apply (tracks_ret quiet) | apply (tracks_lift quiet) | apply (tracks_gets quiet) | apply (tracks_raise quiet)
  | solve [auto 2 with tracks]
  | match goal with |- tracks _ (match ?x with _ => _ end) => destruct x end ]).

Section Quiet.
Context `{CPow}.
Variable ev : GradeEnv.

Lemma quiet_decision data : tracks quiet (_remember_decision_tools data).
Proof. unfold _remember_decision_tools. quiet_cases. Qed.

Lemma quiet_entry data : tracks quiet (_remember_entry_tools data).
Proof. unfold _remember_entry_tools. quiet_cases. Qed.

Lemma quiet_tools data : tracks quiet (_attribute_pnl_to_tools data).
Proof. unfold _attribute_pnl_to_tools. quiet_cases. Qed.

Lemma quiet_agents data : tracks quiet (_attribute_pnl_to_agents ev data).
Proof. unfold _attribute_pnl_to_agents. quiet_cases. Qed.

Lemma quiet_row data e : tracks quiet (_grade_trade_row ev data e).
Proof. unfold _grade_trade_row. quiet_cases. Qed.

#[local] Hint Resolve quiet_decision quiet_entry quiet_tools quiet_agents quiet_row : tracks.

Lemma quiet_trade data : tracks quiet (_score_and_persist_trade ev data).
Proof. unfold _score_and_persist_trade. quiet_cases. Qed.

Lemma quiet_metrics : tracks quiet (grade_metrics ev).
Proof. unfold grade_metrics. quiet_cases. Qed.

Lemma quiet_measured : tracks quiet (measured ev).
Proof. intros a. pose proof (quiet_metrics a) as H0. unfold measured. by destruct (grade_metrics ev a) as [[m|e] a']. Qed.

Lemma quiet_self_correction score dims : tracks quiet (_self_correction score dims).
Proof. unfold _self_correction. quiet_cases. Qed.

Lemma quiet_evidence : tracks quiet (_recent_backtest_evidence ev).
Proof. unfold _recent_backtest_evidence. quiet_cases. Qed.

Lemma quiet_notify_grade grade m score p : tracks quiet (_notify_grade ev grade m score p).
Proof. unfold _notify_grade. quiet_cases. Qed.

Lemma quiet_alert sc : tracks quiet (_emit_self_correction_alert ev sc).
Proof. unfold _emit_self_correction_alert. quiet_cases. Qed.

#[local] Hint Resolve quiet_evidence : tracks.

Lemma quiet_governance : tracks quiet (_emit_tool_governance ev).
Proof.
  unfold _emit_tool_governance. quiet_cases. apply quiet_publish. split; [discriminate|]. intros _ ty [= <-]. reflexivity.
Qed.

Lemma quiet_adjust snap : tracks quiet (_adjust_llm_call_rate ev snap).
Proof.
  unfold _adjust_llm_call_rate. quiet_cases. apply quiet_publish. split; [discriminate|]. intros _ ty [= <-]. reflexivity.
Qed.

Lemma quiet_backfill grade m score : tracks quiet (_backfill_grade_to_lifecycle ev grade m score).
Proof. unfold _backfill_grade_to_lifecycle. auto with tracks. Qed.

End Quiet.

(** * What the agent may propose *)
Section Proposals.
Context `{CPow}.
Variable st : GradeSettings.

(** Between messages. *)
Record sound (a : GradeAgent) : Prop := {
  sd_low : 0 <= ga_low a;
  sd_early : ga_fills a < GRADE_ACTION_MIN_FILLS st -> ga_low a = 0;
  sd_run : ga_low a <= low_run (ga_published a);
  sd_justified : all_justified st (ga_published a);
}.

(** After a grade is published and before what follows of it. *)
Record awaiting (letter : string) (a : GradeAgent) : Prop := {
  aw_low : 0 <= ga_low a;
  aw_early : ga_fills a < GRADE_ACTION_MIN_FILLS st -> ga_low a = 0;
  aw_grade : graded letter (ga_fills a) (ga_published a);
  aw_run : low_letter letter = true -> ga_low a + 1 <= low_run (ga_published a);
  aw_justified : all_justified st (ga_published a);
}.

Lemma graded_neutral letter n l new : Forall neutral new -> graded letter n l -> graded letter n (l ++ new).
Proof. intros Hn. unfold graded, latest_grade. by rewrite grade_messages_neutral. Qed.

Lemma low_run_neutral l new : Forall neutral new -> low_run (l ++ new) = low_run l.
Proof. intros Hn. unfold low_run. by rewrite grade_messages_neutral. Qed.

Lemma quiet_sound a a' : quiet a a' -> sound a -> sound a'.
Proof.
  intros (_ & El & Ef & new & Ep & Hn) [H1 H2 H3 H4]. split; rewrite ?El, ?Ef, ?Ep; [done..| |].
  - by rewrite low_run_neutral.
  - by apply all_justified_neutral.
Qed.

Lemma quiet_awaiting letter a a' : quiet a a' -> awaiting letter a -> awaiting letter a'.
Proof.
  intros (_ & El & Ef & new & Ep & Hn) [H1 H2 H3 H4 H5]. split; rewrite ?El, ?Ef, ?Ep; [done..| | |].
  - by apply graded_neutral.
  - by rewrite low_run_neutral.
  - by apply all_justified_neutral.
Qed.

(** An early grade, or a low one, leaves the count within the run. *)
Lemma awaiting_sound letter a : awaiting letter a ->
  ga_fills a < GRADE_ACTION_MIN_FILLS st \/ low_letter letter = true -> sound a.
Proof.
  intros [H1 H2 H3 H4 H5] Hc. split; [done|done| |done].
  destruct Hc as [Hc|Hc]; [|specialize (H4 Hc); lia]. specialize (H2 Hc). pose proof (low_run_nonneg (ga_published a)). lia.
Qed.

Lemma published_grade p a letter : sound a -> letter_of p = VStr letter -> dget "fills_graded" p = Some (VInt (ga_fills a)) ->
  awaiting letter (set_published (ga_published a ++ [(STREAM_AGENT_GRADES, p)]) a).
Proof.
  intros [H1 H2 H3 H4] Hp Hf.
  assert (grade_messages (ga_published a ++ [(STREAM_AGENT_GRADES, p)]) = grade_messages (ga_published a) ++ [p]) as E.
  { unfold grade_messages. by rewrite omap_app. }
  split; cbn [ga_low ga_fills ga_published set_published]; [done|done| | |].
  - exists p, (ga_fills a). unfold latest_grade. rewrite E, rev_app_distr. split_and!; [done..|lia].
  - intros Hl. unfold low_run in *. rewrite E, rev_app_distr. cbn [rev app leading].
    assert (low_grade p = true) as -> by (unfold low_grade; by rewrite Hp). lia.
  - apply all_justified_snoc; [done|]. intros He. discriminate He.
Qed.

(** Runs that leave the agent sound, whatever they raise. *)
Definition settles {A} (P : GradeAgent -> Prop) (m : M GradeAgent A) : Prop := forall a, P a -> sound (snd (m a)).

Lemma settles_quiet {A} (m : M GradeAgent A) : tracks quiet m -> settles sound m.
Proof. intros H0 a Ha. by apply (quiet_sound a); [apply H0|]. Qed.

Lemma settles_bind {A B} P (m : M GradeAgent A) (f : A -> M GradeAgent B) :
  settles P m -> (forall x, settles sound (f x)) -> settles P (bind m f).
Proof. intros Hm Hf a Ha. specialize (Hm a Ha). unfold bind. destruct (m a) as [[x|e] a']; [by apply Hf|done]. Qed.

(** A quiet prefix of what follows of a grade; a raise in it must be harmless. *)
Lemma settles_after {A B} letter (m : M GradeAgent A) (f : A -> M GradeAgent B) : tracks quiet m ->
  (forall a e, fst (m a) <> Raise e) \/ low_letter letter = true ->
  (forall x, settles (awaiting letter) (f x)) -> settles (awaiting letter) (bind m f).
Proof.
  intros Hm Hr Hf a Ha. assert (awaiting letter (snd (m a))) as Hw by (eapply quiet_awaiting; [apply Hm|done]).
  unfold bind. destruct (m a) as [[x|e] a'] eqn:E; cbn [snd] in *; [by apply Hf|].
  destruct Hr as [Hr|Hr]; [|eapply awaiting_sound; [exact Hw|by right]].
  exfalso. apply (Hr a e). by rewrite E.
Qed.

(** Publishing a proposal that the awaited grade calls for, and the low count. *)
Lemma awaiting_publish letter p a : awaiting letter a -> GRADE_ACTION_MIN_FILLS st <= ga_fills a ->
  justified st (ga_published a) p -> awaiting letter (set_published (ga_published a ++ [(STREAM_PROPOSALS, p)]) a).
Proof.
  intros [H1 H2 H3 H4 H5] Hf Hp.
  assert (grade_messages (ga_published a ++ [(STREAM_PROPOSALS, p)]) = grade_messages (ga_published a)) as E.
  { unfold grade_messages. rewrite omap_app. apply app_nil_r. }
  split; cbn [ga_low ga_fills ga_published set_published]; [done|done| | |].
  - unfold graded, latest_grade. by rewrite E.
  - unfold low_run. by rewrite E.
  - apply all_justified_snoc; [done|]. by intros _.
Qed.

Lemma awaiting_counted letter a : awaiting letter a -> GRADE_ACTION_MIN_FILLS st <= ga_fills a ->
  low_letter letter = true -> sound (set_low (ga_low a + 1) a).
Proof. intros [H1 H2 H3 H4 H5] Hf Hl. specialize (H4 Hl). split; cbn [ga_low ga_fills ga_published set_low]; [lia|lia|done|done]. Qed.

Lemma graded_weaken letter n m l : m <= n -> graded letter n l -> graded letter m l.
Proof. intros Hm (g & f & H1 & H2 & H3 & H4). exists g, f. split_and!; [done..|lia]. Qed.

Variable ev : GradeEnv.
Hypothesis Hst : gx_settings ev = st.

Lemma other_settled letter : low_letter letter = false -> settles (awaiting letter) (modify (set_low 0)).
Proof.
  intros Hl a [H1 H2 H3 H4 H5]. split; cbn; [lia|done|apply low_run_nonneg|done].
Qed.

Lemma not_one_of_capital letter : one_of letter ["C"; "D"; "F"] = false ->
  String.eqb letter "C" = false /\ String.eqb letter "D" = false /\ String.eqb letter "F" = false.
Proof. unfold one_of. cbn [existsb]. rewrite !orb_false_iff. naive_solver. Qed.

Lemma proposal_type ty c : type_of (proposal ev ty c) = VStr ty.
Proof. reflexivity. Qed.

(** A proposal published of an agent whose grade was counted. *)
Lemma publish_sound p a : sound a -> justified st (ga_published a) p ->
  sound (set_published (ga_published a ++ [(STREAM_PROPOSALS, p)]) a).
Proof.
  intros [H1 H2 H3 H4] Hp. split; cbn [ga_low ga_fills ga_published set_published]; [done|done| |].
  - unfold low_run, grade_messages in *. rewrite omap_app. cbn. by rewrite app_nil_r.
  - apply all_justified_snoc; [done|]. by intros _.
Qed.

(** Counted, and the grade still the latest. *)
Definition counted_low (letter : string) (a : GradeAgent) : Prop :=
  sound a /\ graded letter (GRADE_ACTION_MIN_FILLS st) (ga_published a).

Lemma quiet_counted letter a a' : quiet a a' -> counted_low letter a -> counted_low letter a'.
Proof.
  intros Hq [H1 H2]. split; [by eapply quiet_sound|]. destruct Hq as (_ & _ & _ & new & -> & Hn). by apply graded_neutral.
Qed.

Lemma count_low_counted letter a : awaiting letter a -> GRADE_ACTION_MIN_FILLS st <= ga_fills a ->
  low_letter letter = true -> counted_low letter (snd (count_low a)).
Proof.
  intros Ha Hf Hl. split; [by eapply awaiting_counted|]. cbn. eapply graded_weaken; [exact Hf|apply Ha].
Qed.

(** The evidence, then a proposal made of it. *)
Lemma evidence_then letter (f : payload -> payload) a : counted_low letter a ->
  (forall x b, counted_low letter b -> ga_low b = ga_low a -> justified st (ga_published b) (f x)) ->
  sound (snd (bind (_recent_backtest_evidence ev) (fun x => publish STREAM_PROPOSALS (f x)) a)).
Proof.
  intros Ha Hf. pose proof (quiet_evidence ev a) as Hq. unfold bind.
  pose proof (quiet_counted letter _ _ Hq Ha) as Hc. destruct (_recent_backtest_evidence ev a) as [[x|e] b]; cbn [snd] in *; [|apply Hc].
  apply publish_sound; [apply Hc|]. apply Hf; [done|apply Hq].
Qed.

Lemma bind_count_low {A} (f : unit -> M GradeAgent A) a : bind count_low f a = f tt (set_low (ga_low a + 1) a).
Proof. reflexivity. Qed.

Lemma action_settles letter m score p : settles (awaiting letter) (_take_grade_action ev letter m score p).
Proof.
  unfold _take_grade_action. apply settles_after; [apply quiet_notify_grade| |intros u].
  { left. intros a e. unfold _notify_grade. destruct (dget letter GRADE_SEVERITY) as [[s|]|]; discriminate. }
  intros a Ha. rewrite bind_gets, Hst. destruct (Z.ltb_spec (ga_fills a) (GRADE_ACTION_MIN_FILLS st)) as [Hf|Hf].
  { eapply awaiting_sound; [exact Ha|by left]. }
  destruct (one_of letter ["C"; "D"; "F"]) eqn:El.
  2: { apply not_one_of_capital in El as Ec. destruct Ec as (-> & -> & ->). by eapply other_settled. }
  destruct (String.eqb_spec letter "C") as [->|NC]; [|destruct (String.eqb_spec letter "D") as [->|ND]];
    [| |destruct (String.eqb_spec letter "F") as [->|NF]].
  - unfold bind at 1. pose proof (quiet_evidence ev a) as Hq. pose proof (quiet_awaiting _ _ _ Hq Ha) as Hb.
    destruct (_recent_backtest_evidence ev a) as [[x|e] b]; cbn [snd] in *; [|eapply awaiting_sound; [exact Hb|by right]].
    assert (GRADE_ACTION_MIN_FILLS st <= ga_fills b) as Hfb by (destruct Hq as (_ & _ & -> & _); exact Hf).
    unfold bind, publish, count_low, modify. cbn [snd]. apply (awaiting_counted "C"); [|exact Hfb|reflexivity].
    apply awaiting_publish; [exact Hb|exact Hfb|]. split_and!; [intros _|intros E; discriminate E..].
    eapply graded_weaken; [exact Hfb|apply Hb].
  - pose proof (count_low_counted _ _ Ha Hf eq_refl) as Hc. rewrite bind_count_low, bind_gets. cbn [snd count_low modify] in Hc. set (a1 := set_low (ga_low a + 1) a) in *.
    destruct (Z.leb_spec (RETIRE_AFTER_N_GRADES st) (ga_low a1)) as [Hr|Hr]; [|apply Hc].
    apply (evidence_then "D"); [exact Hc|]. intros x b [Hb Hg] El'. split_and!; [intros E; discriminate E|intros _|intros E; discriminate E].
    split; [exact Hg|]. destruct Hb as [_ _ Hrun _]. lia.
  - pose proof (count_low_counted _ _ Ha Hf eq_refl) as Hc. rewrite bind_count_low. cbn [snd count_low modify] in Hc. set (a1 := set_low (ga_low a + 1) a) in *.
    apply (evidence_then "F"); [exact Hc|]. intros x b [Hb Hg] El'. split_and!; [intros E; discriminate E..|intros _].
    split; [exact Hg|]. by eexists.
  - cbn in El. apply String.eqb_neq in NC, ND, NF. by rewrite NC, ND, NF in El.
Qed.

(** ** A message *)

Lemma cycle_settles : settles sound (_compute_and_publish_grade ev).
Proof.
  unfold _compute_and_publish_grade. apply settles_bind; [apply settles_quiet, quiet_measured|intros [m|]];
    [|intros a Ha; exact Ha].
  cbv zeta. set (score := graded_score ev m). set (grade := score_to_grade score).
  apply settles_bind; [apply settles_quiet, quiet_self_correction|intros sc].
  intros a Ha. rewrite bind_gets. set (p := grade_payload ev m score sc (ga_fills a)).
  assert (awaiting grade (set_published (ga_published a ++ [(STREAM_AGENT_GRADES, p)]) a)) as Hw by (by apply published_grade).
  unfold bind at 1, publish, modify. revert Hw. generalize (set_published (ga_published a ++ [(STREAM_AGENT_GRADES, p)]) a).
  change (settles (awaiting grade) (do! on_store (write_grade_log ev p) in
    do! on_store (write_grade_to_db ev (score_pct score) (metrics_payload m (ga_fills a)) (self_correction_payload sc)) in
    do! _take_grade_action ev grade m score p in
    do! _emit_self_correction_alert ev sc in
    do! _emit_tool_governance ev in
    do! _adjust_llm_call_rate ev (gm_snap m) in
    _backfill_grade_to_lifecycle ev grade m score)).
  do 2 (apply settles_after; [apply quiet_on_store|left; discriminate|intros _]).
  apply settles_bind; [apply action_settles|intros _].
  do 3 (apply settles_bind; [apply settles_quiet; first [apply quiet_alert|apply quiet_governance|apply quiet_adjust]|intros _]).
  apply settles_quiet, quiet_backfill.
Qed.

Lemma filled_sound a : sound a -> sound (set_fills (ga_fills a + 1) a).
Proof. intros [H1 H2 H3 H4]. split; cbn; [done| |done|done]. intros Hf. apply H2. lia. Qed.

Lemma uncounted_sound a f : sound a -> ga_low (f a) = ga_low a -> ga_fills (f a) = ga_fills a ->
  ga_published (f a) = ga_published a -> sound (f a).
Proof. intros [H1 H2 H3 H4] El Ef Ep. split; by rewrite ?El, ?Ef, ?Ep. Qed.

Lemma settles_modify f : (forall a, ga_low (f a) = ga_low a /\ ga_fills (f a) = ga_fills a /\ ga_published (f a) = ga_published a) ->
  settles sound (modify f).
Proof. intros Hf a Ha. destruct (Hf a) as (H1 & H2 & H3). by apply uncounted_sound. Qed.

Lemma close_settles data : settles sound (_count_close ev data).
Proof.
  unfold _count_close. apply settles_bind; [apply settles_quiet; quiet_cases|intros seen].
  destruct (is_duplicate data seen) as [dup seen'].
  apply settles_bind; [by apply settles_modify|intros _]. destruct dup; [intros a Ha; exact Ha|].
  apply settles_bind; [apply settles_quiet; quiet_cases|intros pnl].
  apply settles_bind; [by apply settles_modify|intros _].
  apply settles_bind; [intros a Ha; by apply filled_sound|intros _].
  apply settles_bind; [apply settles_quiet, quiet_trade|intros _ a Ha; exact Ha].
Qed.

Lemma process_settles stream data : settles sound (process ev stream data).
Proof.
  assert (settles sound (_cycle ev)) as Hc.
  { unfold _cycle. intros a Ha. rewrite bind_gets. cbv zeta. destruct (_ || _); [exact Ha|by apply cycle_settles]. }
  unfold process. destruct (completed stream).
  { apply settles_bind; [apply close_settles|intros [|]; [exact Hc|intros a Ha; exact Ha]]. }
  destruct (String.eqb stream STREAM_EXECUTIONS).
  - do 3 (apply settles_bind; [apply settles_quiet; first [apply quiet_entry|quiet_cases]|intros ?]). exact Hc.
  - destruct (String.eqb stream STREAM_DECISIONS); [apply settles_quiet, quiet_decision|exact Hc].
Qed.
End Proposals.

(** * Any history *)
Section Reached.
Context `{CPow}.
Variable st : GradeSettings.

(** A message, or what the rest of the system does to the objects the agent shares. *)
Inductive step : GradeAgent -> GradeAgent -> Prop :=
| handled ev stream data a : gx_settings ev = st -> step a (snd (GradeAgent.process ev stream data a))
| shared tools llm pnl_store store a : step a (set_store store (set_pnl_store pnl_store (set_llm llm (set_tools tools a)))).

Definition reached (a : GradeAgent) : Prop :=
  exists tools llm pnl_store store, rtc step (GradeAgent.init tools llm pnl_store store) a.

Lemma reached_sound a : reached a -> sound st a.
Proof.
  intros (tools & llm & ps & s & Hr). refine (rtc_ind_r (fun a => sound st a) _ _ _ _ Hr).
  - split; cbn; [lia|done|apply (low_run_nonneg [])|apply all_justified_nil].
  - intros b c _ [ev stream data b' He|tl l p sr b'] Hb; [by apply process_settles|]. apply (uncounted_sound st b' (fun x => set_store sr (set_pnl_store p (set_llm l (set_tools tl x))))); [exact Hb|reflexivity..].
Qed.

(** C7: No capital is moved without evidence. Whatever messages the grade agent handles, whatever
    raises on the way and whatever happens to the tools, the model calls and the store it
    shares, a proposal to cut the signal weight, to suspend or to retire follows a grade C, D
    or F on at least the required number of fills, and a suspension only as many low grades in
    a row as the settings require. *)
Theorem capital_moves_on_evidence a l1 p l2 : reached a -> ga_published a = l1 ++ (STREAM_PROPOSALS, p) :: l2 ->
  justified st l1 p.
Proof. intros Ha. apply (reached_sound a Ha). Qed.

End Reached.

(** * From a bad grade to a halt *)

Lemma dget_mapped {A B} (f : A -> B) k (d : dict A) : dget k (map (fun kv => (fst kv, f (snd kv))) d) = f <$> dget k d.
Proof. induction d as [|[k' v] d IH]; cbn; [done|]. by destruct (String.eqb k k'). Qed.

Lemma stamped_get now k (e : payload) v : dget k e = Some v -> dget k (stamped now e) = Some v.
Proof.
  intros Hk. assert (forall k' w (d : payload), dget k d = Some v -> dget k (Delivery.setdefault k' w d) = Some v) as Hs.
  { intros k' w d Hd. unfold Delivery.setdefault. destruct (dmem k' d); [done|].
    induction d as [|[x y] d IH]; [done|]. cbn in *. by destruct (String.eqb k x); [|apply IH]. }
  by apply Hs, Hs.
Qed.

(** What a consumer reads of a published proposal. *)
Lemma proposal_read `{JS : Json} id now p data t c : type_of p = VStr t -> dget_or "content" VNone p = VDict c ->
  Forall carried (map snd (stamped now p)) -> consume (Ok [(id, serialized (stamped now p))]) = [(id, data)] ->
  type_of data = VStr t /\ dget_or "content" VNone data = VDict c.
Proof.
  intros Ht Hc Hw. unfold consume. cbn [res_bind res_list]. unfold decoded_entry. cbn [fst snd].
  rewrite (carried_fields _ Hw). cbn [res_map res_bind]. intros [= <-].
  assert (forall k v, dget_or k VNone p = v -> v <> VNone -> wire v = v ->
    dget_or k VNone (map (fun kv => (fst kv, wire (snd kv))) (stamped now p)) = v) as Hg.
  { intros k v Hk Hv Hwv. unfold dget_or in *. rewrite dget_mapped. destruct (dget k p) as [x|] eqn:E; [|congruence].
    rewrite (stamped_get now k p x E). cbn. congruence. }
  split; by apply Hg.
Qed.


(** * From dead tools to a catalog without them *)

(** The advice of a registry with an unreliable tool is acted on. *)
Lemma condemned_actionable name l : condemned name l = true -> List.filter actionable l <> [].
Proof.
  unfold condemned. intros (s & Hs & E)%existsb_exists Hn. apply andb_true_iff in E as [E _]. apply String.eqb_eq in E.
  assert (In s (List.filter actionable l)) as Hin by (apply filter_In; split; [exact Hs|unfold actionable; by rewrite E]).
  by rewrite Hn in Hin.
Qed.

(** What a grade cycle proposes about the tools. *)
Lemma governance_published `{PW : CPow} ev g evidence :
  let advice := Tools.suggest_tool_changes 20 0.5%F (ga_tools g) in
  replay (ga_evals g) = Ok evidence -> List.filter actionable advice <> [] ->
  ga_tool_key g <> Some (governance_key advice) ->
  exists note, ga_published (snd (_emit_tool_governance ev g)) =
    ga_published g ++ [(STREAM_PROPOSALS, governance_proposal ev advice (ga_tools g) evidence)] ++ [(STREAM_NOTIFICATIONS, note)].
Proof.
  cbv zeta. intros Hr Ha Hk. unfold _emit_tool_governance. rewrite bind_gets. set (advice := Tools.suggest_tool_changes _ _ _) in *.
  destruct (List.filter actionable advice) as [|s l]; [done|]. rewrite bind_gets, bool_decide_eq_false_2 by exact Hk.
  unfold bind at 1, modify at 1. unfold bind at 1, _recent_backtest_evidence. rewrite bind_gets. cbn [ga_evals set_tool_key].
  rewrite Hr. unfold bind at 1, lift at 1. unfold bind at 1, modify at 1, ret. eexists.
  unfold bind, GradeAgent.publish, modify, on_store, gets. cbn. rewrite <- app_assoc. reflexivity.
Qed.

(** C13: The dead-tool loop closes. When an enabled tool is of negative alpha, or failed
    in more than half of at least twenty calls, the advised changes are not the ones
    last proposed and the replay of the recent evaluations succeeds, the grade agent
    proposes them. And once the consumer of proposals has read the proposal off the
    stream, its fields being ones the wire carries and its documents printed and parsed,
    and has taken it as new, exactly the tools are switched off that were enabled and
    unreliable when it was made, with those that were off already, whatever the registry
    went through in between, and nothing else about any tool changes. The proposal asks
    for an approval; nothing waits for one. *)
Theorem governance_closes_loop `{PW : CPow} `{JS : Json} h ev g evidence calls :
  let unreliable_then name := exists t, Tools.get name (ga_tools g) = Some t /\ tm_enabled t = true /\ unreliable 20 0.5%F t in
  ga_tools g = tool_run Tools.seeded calls -> (exists name, unreliable_then name) ->
  replay (ga_evals g) = Ok evidence ->
  ga_tool_key g <> Some (governance_key (Tools.suggest_tool_changes 20 0.5%F (ga_tools g))) ->
  exists p, In (STREAM_PROPOSALS, p) (ga_published (snd (_emit_tool_governance ev g))) /\
    dget "requires_approval" p = Some (VBool true) /\
    forall id now data ax a, Forall carried (map snd (stamped now p)) ->
      consume (Ok [(id, serialized (stamped now p))]) = [(id, data)] -> ~ In (key_of ax data) (ap_applied_keys a) ->
      forall name t, Tools.get name (ap_tools a) = Some t ->
      exists t', Tools.get name (ap_tools (snd (Applier.process h ax data a))) = Some t' /\
        t' = with_enabled (tm_enabled t') t /\ (tm_enabled t' = false <-> tm_enabled t = false \/ unreliable_then name).
Proof.
  cbv zeta. intros Er [dead Hd] Hev Hk. set (advice := Tools.suggest_tool_changes 20 0.5%F (ga_tools g)) in *.
  assert (forall name, condemned name advice = true <-> exists t, Tools.get name (ga_tools g) = Some t /\ tm_enabled t = true /\ unreliable 20 0.5%F t) as Hc.
  { intros name. unfold advice. rewrite Er. apply advice_condemns. }
  destruct (governance_published ev g evidence Hev (condemned_actionable dead advice (proj2 (Hc dead) Hd)) Hk) as [note Hp].
  fold advice in Hp. set (p := governance_proposal ev advice (ga_tools g) evidence) in *. exists p.
  split; [rewrite Hp; apply in_app_iff; right; by left|]. split; [reflexivity|].
  intros id now data ax a Hw Hcons Hnew name t Ht.
  destruct (proposal_read id now p data TOOL_GOVERNANCE _ eq_refl eq_refl Hw Hcons) as [Ety Eco].
  assert (Forall (fun s => ts_tool s <> "") advice) as Hn by (apply advice_named; rewrite Er; apply tool_run_grown, seeded_grown).
  unfold Tools.get in *. rewrite (governance_disables h ax data _ advice a Hnew Ety Eco eq_refl Hn name), Ht.
  destruct (condemned name advice) eqn:E.
  - exists (with_enabled false t). split_and!; [reflexivity|by destruct t|]. split; [intros _; right; by apply Hc|done].
  - exists t. split_and!; [reflexivity|by destruct t|]. split; [by left|]. intros [?|Hu]; [done|]. apply Hc in Hu. congruence.
Qed.

(** * What the win rate counts *)
Section WinRate.
Context `{CPow}.
Variable ev : GradeEnv.

Lemma quiet_frame {A} (m : M GradeAgent A) : tracks quiet m -> tracks frame m.
Proof. intros Hm a. apply Hm. Qed.

Lemma frame_action grade m score p : tracks frame (_take_grade_action ev grade m score p).
Proof.
  unfold _take_grade_action. apply (tracks_bind frame); [apply quiet_frame, quiet_notify_grade|intros _].
  assert (tracks frame count_low) as Hc by (apply tracks_modify; by split).
  assert (forall q, tracks frame (publish STREAM_PROPOSALS q)) as Hp by (intros q; apply tracks_modify; by split).
  assert (tracks frame (_recent_backtest_evidence ev)) as He by apply quiet_frame, quiet_evidence.
  repeat first [ apply (tracks_bind frame); [|intros ?] | apply (tracks_gets frame) | apply (tracks_ret frame) | assumption | apply Hp
    | match goal with |- tracks _ (if ?b then _ else _) => destruct b end | apply tracks_modify; by split ].
Qed.

Lemma frame_cycle : tracks frame (_cycle ev).
Proof.
  unfold _cycle. apply (tracks_bind frame); [apply (tracks_gets frame)|intros fills]. cbv zeta.
  destruct (_ || _); [apply (tracks_ret frame)|]. unfold _compute_and_publish_grade.
  apply (tracks_bind frame); [apply quiet_frame, quiet_measured|intros [m|]; [|apply (tracks_ret frame)]]. cbv zeta.
  apply (tracks_bind frame); [apply quiet_frame, quiet_self_correction|intros sc].
  apply (tracks_bind frame); [apply (tracks_gets frame)|intros n].
  apply (tracks_bind frame); [apply tracks_modify; by split|intros _].
  do 2 (apply (tracks_bind frame); [apply quiet_frame, quiet_on_store|intros _]).
  apply (tracks_bind frame); [apply frame_action|intros _].
  do 3 (apply (tracks_bind frame); [apply quiet_frame; first [apply quiet_alert|apply quiet_governance|apply quiet_adjust]|intros _]).
  apply quiet_frame, quiet_backfill.
Qed.

(** A new close, or an opening fill, is buffered whatever raises afterwards. *)
Lemma fill_counted stream data x seen a : completed stream = true -> is_duplicate data (ga_seen a) = (false, seen) ->
  float_or_zero (dget_or "pnl" VNone data) = Ok x ->
  let a' := snd (GradeAgent.process ev stream data a) in ga_pnls a' = appended 100 x (ga_pnls a) /\ ga_seen a' = seen.
Proof.
  intros Hs Hd Hx. unfold GradeAgent.process. rewrite Hs.
  set (a1 := set_fills (ga_fills a + 1) (set_pnls (appended 100 x (ga_pnls a)) (set_seen seen a))).
  set (rest := do! _score_and_persist_trade ev data in ret true).
  assert (frame a1 (snd (bind rest (fun fresh => if fresh : bool then _cycle ev else ret tt) a1))) as [Hp Hn].
  { assert (tracks frame rest) as Hr.
    { apply (tracks_bind frame); [apply quiet_frame, quiet_trade|intros _; apply (tracks_ret frame)]. }
    refine (tracks_bind frame _ _ Hr _ a1). intros [|]; [apply frame_cycle|apply (tracks_ret frame)]. }
  assert (_count_close ev data a = rest a1) as E.
  { unfold _count_close, bind, gets, modify, lift. by rewrite Hd, Hx. }
  assert (forall f : bool -> M GradeAgent unit, bind (_count_close ev data) f a = bind rest f a1) as Eb.
  { intros f. unfold bind at 1. rewrite E. reflexivity. }
  rewrite Eb. split; [exact Hp|exact Hn].
Qed.

Lemma fill_duplicate stream data seen a : completed stream = true -> is_duplicate data (ga_seen a) = (true, seen) ->
  snd (GradeAgent.process ev stream data a) = set_seen seen a.
Proof.
  intros Hs Hd. unfold GradeAgent.process. rewrite Hs. unfold _count_close, bind, gets. by rewrite Hd.
Qed.
(** What closes and opens nothing is not counted. *)
Lemma other_frame stream data : completed stream = false -> tracks frame (GradeAgent.process ev stream data).
Proof.
  intros Hs. unfold GradeAgent.process. rewrite Hs. destruct (String.eqb stream STREAM_EXECUTIONS).
  - apply (tracks_bind frame); [apply (tracks_lift frame)|intros c]. apply (tracks_bind frame); [apply tracks_modify; by split|intros _].
    apply (tracks_bind frame); [apply quiet_frame, quiet_entry|intros _]. apply frame_cycle.
  - destruct (String.eqb stream STREAM_DECISIONS); [apply quiet_frame, quiet_decision|apply frame_cycle].
Qed.
End WinRate.

(** ** A record without a loss *)
Section Record.
Context `{CPow}.

(** A message with the environment it is handled in. *)
Definition heard : Type := GradeEnv * (string * payload).

Definition hears (l : list heard) (a : GradeAgent) : GradeAgent :=
  fold_left (fun a m => snd (GradeAgent.process (fst m) (fst (snd m)) (snd (snd m)) a)) l a.

(** A fill that closes nothing, as the wire carries it: without a profit. *)
Definition opens (m : heard) : bool :=
  completed (fst (snd m)) && match dget_or "pnl" VNone (snd (snd m)) with VStr s => String.eqb s "" | _ => false end.

(** The round trip a message closes. *)
Definition close_of (m : heard) : option string := if completed (fst (snd m)) then close_key (snd (snd m)) else None.

(** A fill that opens, or a close that was won; or neither. *)
Definition lossless (m : heard) : Prop := completed (fst (snd m)) = true ->
  opens m = true \/ exists key x, close_key (snd (snd m)) = Some key /\
    float_or_zero (dget_or "pnl" VNone (snd (snd m))) = Ok x /\ fltb 0.0%F x = true.

(** The buffer holds [p] fills without a profit and a won close per trace seen. *)
Record tallied (p : nat) (a : GradeAgent) : Prop := {
  ta_seen : NoDup (ga_seen a);
  ta_length : length (ga_pnls a) = (p + length (ga_seen a))%nat;
  ta_won : length (List.filter (fltb 0.0%F) (ga_pnls a)) = length (ga_seen a);
}.

Lemma slice_last_short {A} n (l : list A) : 0 < n -> (length l <= Z.to_nat n)%nat -> slice_last n l = l.
Proof.
  intros Hn Hl. unfold slice_last. destruct (Z.eqb_spec n 0); [lia|]. destruct (Z.ltb_spec 0 n); [|lia].
  by replace (length l - Z.to_nat n)%nat with 0%nat by lia.
Qed.

Lemma appended_short {A} (x : A) l : (length l < 100)%nat -> appended 100 x l = l ++ [x].
Proof. intros Hl. apply slice_last_short; [lia|]. rewrite length_app. cbn. lia. Qed.

Lemma tallied_frame p a a' : frame a a' -> tallied p a -> tallied p a'.
Proof. intros [E1 E2] [H1 H2 H3]. split; by rewrite ?E1, ?E2. Qed.

Lemma moved_in k key seen : In key seen -> In k (move_to_end key seen) <-> In k seen.
Proof.
  intros Hin. unfold move_to_end. rewrite in_app_iff, filter_In. cbn [In]. destruct (String.eqb_spec k key) as [->|Hne]; cbn [negb]; [tauto|].
  split; [intros [[? _]|[->|[]]]; tauto|intros ?; left; tauto].
Qed.

Lemma single_nodup (key : string) : List.NoDup [key].
Proof. apply List.NoDup_cons; [intros []|apply List.NoDup_nil]. Qed.

Lemma moved_nodup key seen : NoDup seen -> NoDup (move_to_end key seen).
Proof.
  rewrite !NoDup_ListNoDup. intros Hd. unfold move_to_end. apply List.NoDup_app; [by apply List.NoDup_filter|apply single_nodup|].
  intros k (_ & E)%filter_In [<-|[]]. by rewrite String.eqb_refl in E.
Qed.

Lemma same_members_length (l l' : list string) : NoDup l -> NoDup l' -> (forall k, In k l <-> In k l') -> length l = length l'.
Proof.
  intros H1 H2 Hm. apply Permutation_length, NoDup_Permutation; [done..|]. intros k. by rewrite !list_elem_of_In.
Qed.

(** One message, while the buffer has room. *)
Lemma hear_tallied m p a : lossless m -> tallied p a -> (p + length (ga_seen a) < 100)%nat ->
  let a' := hears [m] a in
  tallied (p + if opens m then 1 else 0) a' /\ forall k, In k (ga_seen a') <-> In k (ga_seen a) \/ close_of m = Some k.
Proof.
  destruct m as [ev [stream data]]. intros Hw Ht Hr. cbn [hears fold_left fst snd]. unfold lossless, opens, close_of in *. cbn [fst snd] in *.
  destruct (completed stream) eqn:Hs; cbn [andb] in *.
  2:{ pose proof (other_frame ev stream data Hs a) as Hf. rewrite Nat.add_0_r. split; [by apply (tallied_frame p a)|].
      destruct Hf as [_ ->]. intros k. split; [by left|intros [?|[=]]; done]. }
  destruct Ht as [Td Tl Tw]. destruct (Hw eq_refl) as [Ho|(key & x & Ek & Hx & Hp)].
  - rewrite Ho. assert (dget_or "pnl" VNone data = VStr "") as Hn.
    { destruct (dget_or "pnl" VNone data); try discriminate Ho. by apply String.eqb_eq in Ho as ->. }
    clear Ho. rename Hn into Ho. assert (close_key data = None) as Ek by (unfold close_key; by rewrite Ho, orb_true_r).
    assert (is_duplicate data (ga_seen a) = (false, ga_seen a)) as Hd by (by rewrite is_duplicate_eq, Ek).
    destruct (fill_counted ev stream data (Fin 0) _ a Hs Hd) as [E1 E2]; [by rewrite Ho|].
    rewrite appended_short in E1 by lia. rewrite Ek. split.
    + split; rewrite ?E1, ?E2; [done|rewrite length_app; cbn; lia|].
      rewrite List.filter_app, length_app. cbn [List.filter]. assert (fltb 0.0%F (Fin 0) = false) as -> by fconst. cbn [length]. lia.
    + intros k. rewrite E2. split; [by left|intros [?|[=]]; done].
  - assert (match dget_or "pnl" VNone data with VStr s => String.eqb s "" | _ => false end = false) as ->.
    { unfold close_key in Ek. destruct (negb _ || _) eqn:E; [discriminate Ek|]. apply orb_false_elim in E as [_ E].
      by destruct (dget_or "pnl" VNone data). }
    rewrite Nat.add_0_r, Ek. destruct (one_of key (ga_seen a)) eqn:Ed.
    + assert (is_duplicate data (ga_seen a) = (true, move_to_end key (ga_seen a))) as Hd by (by rewrite is_duplicate_eq, Ek, Ed).
      rewrite (fill_duplicate ev stream data _ a Hs Hd). cbn [ga_seen set_seen ga_pnls]. apply one_of_spec in Ed.
      assert (length (move_to_end key (ga_seen a)) = length (ga_seen a)) as El.
      { apply same_members_length; [by apply moved_nodup|done|intros k; by apply moved_in]. }
      split; [split; cbn [ga_seen set_seen ga_pnls]; rewrite ?El; [by apply moved_nodup|done|done]|].
      intros k. rewrite (moved_in k _ _ Ed). split; [by left|intros [?|[= <-]]; done].
    + assert (is_duplicate data (ga_seen a) = (false, ga_seen a ++ [key])) as Hd.
      { rewrite is_duplicate_eq, Ek, Ed. f_equal. apply slice_last_short; [reflexivity|]. rewrite length_app. cbn [length].
        change (Z.to_nat MAX_TRACES) with 500%nat. lia. }
      destruct (fill_counted ev stream data x _ a Hs Hd Hx) as [E1 E2]. rewrite appended_short in E1 by lia. split.
      * split; rewrite ?E1, ?E2.
        -- apply NoDup_ListNoDup, List.NoDup_app; [by apply NoDup_ListNoDup|apply single_nodup|]. intros k Hk [<-|[]].
           by apply one_of_spec in Hk; congruence.
        -- rewrite !length_app. cbn [length]. lia.
        -- rewrite List.filter_app, !length_app. cbn [List.filter]. rewrite Hp. cbn [length]. lia.
      * intros k. rewrite E2, in_app_iff. cbn [In]. split; [intros [?|[->|[]]]; [by left|by right]|intros [?|[= ->]]; [by left|right; by left]].
Qed.

(** A history, while the buffer has room for its fills and closes. *)
Lemma hears_tallied keys l : NoDup keys -> Forall lossless l -> forall p a, tallied p a ->
  (forall k, In k (ga_seen a) -> In k keys) -> (forall m k, In m l -> close_of m = Some k -> In k keys) ->
  (p + length (List.filter opens l) + length keys <= 99)%nat ->
  tallied (p + length (List.filter opens l)) (hears l a) /\
  forall k, In k (ga_seen (hears l a)) <-> In k (ga_seen a) \/ exists m, In m l /\ close_of m = Some k.
Proof.
  intros Hk. induction 1 as [|m l Hm Hl IH]; intros p a Ha Hs Hc Hn.
  { rewrite Nat.add_0_r. split; [done|]. intros k. split; [by left|intros [?|(? & [] & _)]; done]. }
  assert (length (ga_seen a) <= length keys)%nat as Hle.
  { apply List.NoDup_incl_length; [apply NoDup_ListNoDup; exact (ta_seen p a Ha)|exact Hs]. }
  destruct (hear_tallied m p a Hm Ha) as [Ha' Hs']; [cbn [List.filter] in Hn; lia|].
  destruct (IH (p + if opens m then 1 else 0)%nat (hears [m] a) Ha') as [H1 H2].
  - intros k Hin. apply Hs' in Hin as [Hin|E]; [by apply Hs|apply (Hc m); [by left|done]].
  - intros m' k Hin. apply Hc. by right.
  - cbn [List.filter] in Hn. destruct (opens m); cbn [length] in Hn; lia.
  - change (hears (m :: l) a) with (hears l (hears [m] a)). split.
    + cbn [List.filter]. destruct (opens m); cbn [length]; [|by rewrite Nat.add_0_r in H1].
      replace (p + S (length (List.filter opens l)))%nat with (p + 1 + length (List.filter opens l))%nat by lia. exact H1.
    + intros k. rewrite H2, Hs'. split.
      * intros [[?|E]|(m' & Hin & E)]; [by left|right; exists m; split; [by left|done]|right; exists m'; split; [by right|done]].
      * intros [?|(m' & [<-|Hin] & E)]; [by left; left|by left; right|right; by exists m'].
Qed.

Lemma half_of m : (1 <= m <= 50)%nat -> int_div (Z.of_nat m) (Z.of_nat (m + m)) = Ok 0.5%F.
Proof.
  intros Hm. assert (Forall (fun m => int_div (Z.of_nat m) (Z.of_nat (m + m)) = Ok 0.5%F) (List.seq 1 50)) as Ha.
  { apply List.Forall_forall. intros i Hi.
    assert (forallb (fun i => bool_decide (int_div (Z.of_nat i) (Z.of_nat (i + i)) = Ok 0.5%F)) (List.seq 1 50) = true) as Hb by (vm_compute; reflexivity).
    rewrite forallb_forall in Hb. exact (proj1 (bool_decide_eq_true _) (Hb i Hi)). }
  rewrite List.Forall_forall in Ha. apply Ha, in_seq. lia.
Qed.

(** C19: A record without a loss is not graded perfect. The agent starts and hears any
    messages, in any order and overlap, of which every fill it counts either closes
    nothing, which the wire carries without a profit, or is a close that was won, on one
    stream or on both, as often as it arrives. While these are at least one and fewer
    than a hundred and fit its window, the win rate it grades is the number of round
    trips closed over that number plus the fills that closed nothing: every such fill
    counts as a trade that did not win. So a strategy that wins every round trip is
    graded one half when every round trip was opened by one fill and has closed. *)
Theorem openings_count_as_losses ev tools llm pnl_store store l keys :
  Forall lossless l -> NoDup keys -> (forall k, In k keys <-> exists m, In m l /\ close_of m = Some k) ->
  let opened := length (List.filter opens l) in
  let closed := length keys in
  (0 < opened + closed < 100)%nat -> Z.of_nat (opened + closed) <= GRADE_LOOKBACK_N (gx_settings ev) ->
  let rate := GradeAgent._win_rate ev (hears l (GradeAgent.init tools llm pnl_store store)) in
  rate = int_div (Z.of_nat closed) (Z.of_nat (closed + opened)) /\ (opened = closed -> rate = Ok 0.5%F).
Proof.
  intros Hl Hd Hk. cbv zeta. set (opened := length (List.filter opens l)). intros Hn Hw.
  destruct (hears_tallied keys l Hd Hl 0 (GradeAgent.init tools llm pnl_store store)) as [[Td Tl Tw] Hs].
  - split; [constructor|done|done].
  - intros k [].
  - intros m k Hin E. apply Hk. by exists m.
  - fold opened. lia.
  - assert (length (ga_seen (hears l (GradeAgent.init tools llm pnl_store store))) = length keys) as Es.
    { apply same_members_length; [done|done|]. intros k. rewrite Hs, Hk. split; [intros [[]|?]; done|by right]. }
    set (a := hears l _) in *. cbn [Nat.add] in Tl. fold opened in Tl. rewrite Es in *.
    assert (GradeAgent._win_rate ev a = int_div (Z.of_nat (length keys)) (Z.of_nat (length keys + opened))) as E.
    { unfold GradeAgent._win_rate. rewrite slice_last_short by lia. destruct (ga_pnls a) as [|x xs] eqn:Ea; [cbn in Tl; lia|].
      unfold zlen. rewrite Tw, Tl. by rewrite Nat.add_comm. }
    split; [exact E|]. intros Eo. rewrite E, Eo. apply half_of. lia.
Qed.
End Record.

(** * The grade *)
Section Graded.
Context `{CPow}.
Variable ev : GradeEnv.

Lemma slice_last_shorter {A} n (l : list A) : (length (slice_last n l) <= length l)%nat.
Proof. unfold slice_last. repeat case_match; rewrite ?length_drop; lia. Qed.

Lemma filter_shorter {A} (f : A -> bool) l : (length (List.filter f l) <= length l)%nat.
Proof. induction l as [|x l IH]; cbn; [lia|]. destruct (f x); cbn; lia. Qed.

Lemma accuracy_unit a : exists r, _win_rate ev a = Ok r /\ within (Fin 0) 1.0%F r.
Proof.
  unfold _win_rate. set (recent := slice_last _ _). destruct recent as [|x l] eqn:E.
  - eexists. split; [reflexivity|]. split; fconst.
  - rewrite <- E. apply int_div_unit; unfold zlen; [|rewrite E; cbn; lia]. pose proof (filter_shorter (fltb 0.0%F) recent). lia.
Qed.

Lemma correlation_bounded a : exact_squares -> zlen (ga_pnls a) <= 2 ^ 17 ->
  exists r, _information_coefficient ev a = Ok r /\ within (-1.0)%F 1.0%F r.
Proof.
  intros Hsq Hn. unfold _information_coefficient. cbv zeta. set (paired := zip _ _).
  destruct (zlen paired <? 3); [eexists; split; [reflexivity|split; fconst]|].
  apply spearman_bounded; [exact Hsq|by rewrite !length_map|]. unfold zlen in *. rewrite length_map.
  unfold paired. rewrite length_zip_with. pose proof (slice_last_shorter (GRADE_LOOKBACK_N (gx_settings ev)) (ga_pnls a)). lia.
Qed.

Lemma cost_not_nan a : zlen (ga_pnls a) <= 100 -> Forall (within (of_Z (- 10 ^ 12)) (of_Z (10 ^ 12))) (ga_pnls a) ->
  _cost_efficiency ev a <> NaN.
Proof.
  intros Hn Hp. unfold _cost_efficiency. set (recent := slice_last _ _).
  pose proof (slice_last_shorter (GRADE_LOOKBACK_N (gx_settings ev)) (ga_pnls a)) as Hs. fold recent in Hs.
  assert (is_finite (fsum_left recent) = true) as Hf.
  { apply (sum_bounded (10 ^ 12) recent 0); [lia|lia|unfold zlen in *; lia|by apply Forall_slice_last|split; fconst]. }
  apply fmul_not_nan; [exact Hf|fconst].
Qed.

(** C21: The grade is a letter of a score between 0 and 1. When the profits are numbers of a
    sensible size and the call metrics can be read, nothing raises while the grade is
    computed; the accuracy, the rank correlation and the cost efficiency are inside their
    ranges whatever the confidences are, NaN included, and the letter is one whose threshold
    the score reaches. *)
Theorem grade_within_bounds a snap :
  exact_squares -> weights_ok (GRADE_WEIGHTS (gx_settings ev)) -> zlen (ga_pnls a) <= 100 ->
  Forall (within (of_Z (- 10 ^ 12)) (of_Z (10 ^ 12))) (ga_pnls a) ->
  fst (Llm.snapshot LLM_METRICS_WINDOW_SECONDS (gx_today ev) (gx_monotonic ev) (ga_llm a)) = Ok snap ->
  exists m, fst (grade_metrics ev a) = Ok m /\ within (Fin 0) 1.0%F (gm_accuracy m) /\ within (-1.0)%F 1.0%F (gm_ic m) /\
    within (Fin 0) 1.0%F (normalize_cost_eff (gm_cost_eff m)) /\ within (Fin 0) 1.0%F (graded_score ev m) /\
    exists th, In (score_to_grade (graded_score ev m), th) GRADE_THRESHOLDS /\ fleb th (graded_score ev m) = true.
Proof.
  intros Hsq Hw Hn Hp Hs. destruct (accuracy_unit a) as (r & Er & Hr). destruct (correlation_bounded a Hsq) as (c & Ec & Hc); [lia|].
  pose proof (normalize_cost_unit _ (cost_not_nan a Hn Hp)) as Hcost.
  destruct (Llm.snapshot _ _ _ (ga_llm a)) as [sn llm] eqn:Es. cbn [fst] in Hs. subst sn.
  exists {| gm_accuracy := r; gm_ic := c; gm_cost_eff := _cost_efficiency ev a; gm_latency := _latency_score;
            gm_health := _llm_health_score snap; gm_snap := snap |}.
  cbn [gm_accuracy gm_ic gm_cost_eff]. split.
  { unfold grade_metrics, bind, gets, lift, modify, ret. unfold id. rewrite Er, Ec, Es. reflexivity. }
  set (m := Build_GradeMetrics _ _ _ _ _ _).
  assert (within (Fin 0) 1.0%F (graded_score ev m)) as Hg.
  { unfold graded_score. apply weighted_score_unit; [exact Hr|by apply normalize_ic_unit|exact Hcost|split; fconst|exact Hw]. }
  split; [exact Hr|]. split; [exact Hc|]. split; [exact Hcost|]. split; [exact Hg|].
  apply score_to_grade_threshold. destruct Hg as [Hg _]. exact Hg.
Qed.
End Graded.

(** * What a close credits *)

(** The tools behind a close: those of the closing decision, by trace, and of the entry, by symbol. *)
Definition behind (data : payload) (a : GradeAgent) : list val :=
  (if truthy (dget_or "trace_id" VNone data) then default [] (lru_get (dget_or "trace_id" VNone data) (ga_trace_tools a)) else []) ++
  (if truthy (dget_or "symbol" VNone data)
   then default [] (lru_get (VStr (Fmt.str (dget_or "symbol" VNone data))) (ga_entry_tools a)) else []).

Definition hashed (v : val) : Prop := hashable v = Ok v.

Definition texts (l : list val) : list string := omap (fun v => match v with VStr s => Some s | _ => None end) l.

Lemma texts_in s l : In s (texts l) <-> In (VStr s) l.
Proof.
  induction l as [|v l IH]; [done|]. destruct v; cbn; rewrite IH; try (split; [by right|by intros [?|?]]).
  split; intros [E|Hl]; auto; left; congruence.
Qed.

Lemma val_eqb_text k t : val_eqb k (VStr t) = match k with VStr s => String.eqb s t | _ => false end.
Proof. destruct k as [| | |[]| | |]; cbn; repeat case_match; congruence. Qed.

Lemma texts_cons v l : texts (v :: l) = match v with VStr s => s :: texts l | _ => texts l end.
Proof. by destruct v. Qed.

Lemma texts_filter k l : texts (List.filter (fun y => negb (val_eqb k y)) l) =
  match k with VStr s => List.filter (fun t => negb (String.eqb s t)) (texts l) | _ => texts l end.
Proof.
  induction l as [|v l IH]; [by destruct k|]. rewrite texts_cons. cbn [List.filter].
  assert (match v with VStr _ => True | _ => texts (List.filter (fun y => negb (val_eqb k y)) (v :: l)) =
    texts (List.filter (fun y => negb (val_eqb k y)) l) end) as Hv.
  { cbn [List.filter]. destruct v; try exact I; destruct (negb (val_eqb k _)); by rewrite ?texts_cons. }
  destruct v as [| | | |t| |]; try (cbn [List.filter] in Hv; rewrite Hv; exact IH). clear Hv.
  rewrite val_eqb_text. destruct k as [| | | |s| |]; cbn [negb]; rewrite ?texts_cons, ?IH; try reflexivity.
  cbn [List.filter]. destruct (String.eqb s t); cbn [negb]; [exact IH|]. by rewrite texts_cons, IH.
Qed.

Lemma fromkeys_texts l : Forall hashed l -> exists l', fromkeys l = Ok l' /\ NoDup (texts l') /\
  forall s, In s (texts l') <-> In (VStr s) l.
Proof.
  induction 1 as [|v l Hv _ (l' & E & Hd & Hi)]; [exists []; split_and!; [done|constructor|done]|].
  cbn [fromkeys]. rewrite Hv, E. cbn [res_bind]. eexists. split; [reflexivity|]. rewrite texts_cons, texts_filter.
  assert (forall s0 s, In s (List.filter (fun t => negb (String.eqb s0 t)) (texts l')) <-> In (VStr s) l /\ s <> s0) as Hf.
  { intros s0 s. rewrite filter_In, Hi, negb_true_iff, String.eqb_neq. naive_solver. }
  destruct v as [| | | |t| |]; try (split; [exact Hd|]; intros s; rewrite Hi; cbn; split; [by right|by intros [?|?]]).
  split.
  - apply NoDup_cons. split; [rewrite list_elem_of_In, Hf; naive_solver|]. apply NoDup_ListNoDup, List.NoDup_filter, NoDup_ListNoDup, Hd.
  - intros s. cbn [In]. rewrite Hf. destruct (String.eqb_spec t s) as [->|Hne]; [naive_solver|]. split.
    + intros [?|[? _]]; [done|by right].
    + intros [E'|?]; [congruence|right; split; [done|congruence]].
Qed.

Definition credited (x : float) (s : string) (r : ToolRegistry) : ToolRegistry :=
  snd (Tools.record_call s 0.0%F true (Some x) r).

Lemma fold_credit x l : forall r, fold_left (fun r n => credit x n r) l r = fold_left (fun r s => credited x s r) (texts l) r.
Proof. induction l as [|v l IH]; intros r; [done|]. rewrite texts_cons. cbn [fold_left]. rewrite IH. by destruct v. Qed.

Lemma credited_get x s s' r : dget s' (credited x s r) =
  if String.eqb s' s then Tools.call_folded 0.0%F true (Some x) <$> dget s' r else dget s' r.
Proof.
  unfold credited, Tools.record_call. destruct (dget s r) as [t|] eqn:E; cbn [snd].
  - rewrite dget_dset. destruct (String.eqb_spec s' s) as [->|]; [by rewrite E|done].
  - destruct (String.eqb_spec s' s) as [->|]; [by rewrite E|done].
Qed.

Lemma credits_get x l : NoDup l -> forall r s, dget s (fold_left (fun r s => credited x s r) l r) =
  if one_of s l then Tools.call_folded 0.0%F true (Some x) <$> dget s r else dget s r.
Proof.
  induction l as [|t l IH]; intros Hd r s; [done|]. apply NoDup_cons in Hd as [Ht Hd]. cbn [fold_left].
  rewrite (IH Hd), credited_get, one_of_cons. destruct (String.eqb_spec s t) as [->|]; [|done]. cbn [orb].
  destruct (one_of t l) eqn:E; [|done]. by apply one_of_spec, list_elem_of_In in E.
Qed.

Lemma lru_get_pop k l : lru_get k (lru_pop k l) = None.
Proof.
  unfold lru_get, lru_pop. induction l as [|e l IH]; [done|]. cbn [List.filter].
  destruct (val_eqb (fst e) k) eqn:E; cbn [negb]; [exact IH|]. cbn [List.filter]. by rewrite E.
Qed.

(** C20: A close credits every tool behind it once. Its profit is folded once into each tool that
    informed the closing or the entry decision, even when a tool informed both, and into no
    other tool; the decisions behind it are forgotten, so the same close credits nothing
    again. A fill that closes nothing credits and forgets nothing. *)
Theorem close_credits_once data a :
  match py_float (dget_or "pnl" VNone data) with
  | Ok x =>
      hashed (dget_or "trace_id" VNone data) -> Forall hashed (behind data a) ->
      let '(r, a') := _attribute_pnl_to_tools data a in
      r = Ok tt /\ behind data a' = [] /\
      forall name, dget name (ga_tools a') =
        if one_of name (texts (behind data a))
        then Tools.call_folded 0.0%F true (Some x) <$> dget name (ga_tools a) else dget name (ga_tools a)
  | Raise e => e = TypeError \/ e = ValueError -> _attribute_pnl_to_tools data a = (Ok tt, a)
  end.
Proof.
  unfold _attribute_pnl_to_tools. destruct (py_float _) as [x|e]; [|by intros [->| ->]]. intros Ht Hb.
  set (trace := dget_or "trace_id" VNone data) in *. set (symbol := dget_or "symbol" VNone data) in *.
  destruct (fromkeys_texts _ Hb) as (names & Ef & Hd & Hi).
  assert (forall name, one_of name (texts names) = one_of name (texts (behind data a))) as Hs.
  { intros name. apply eq_true_iff_eq. by rewrite !one_of_spec, Hi, texts_in. }
  assert (forall tools name, dget name (fold_left (fun r n => credit x n r) names tools) =
    if one_of name (texts (behind data a)) then Tools.call_folded 0.0%F true (Some x) <$> dget name tools else dget name tools) as Hg.
  { intros tools name. rewrite fold_credit, (credits_get x _ Hd), Hs. reflexivity. }
  assert (behind data a = (if truthy trace then default [] (lru_get trace (ga_trace_tools a)) else []) ++
    (if truthy symbol then default [] (lru_get (VStr (Fmt.str symbol)) (ga_entry_tools a)) else [])) as Eb by reflexivity.
  assert (forall b, lru_get trace (ga_trace_tools b) = None \/ truthy trace = false ->
    lru_get (VStr (Fmt.str symbol)) (ga_entry_tools b) = None \/ truthy symbol = false -> behind data b = []) as Hn.
  { intros b H1 H2. unfold behind. fold trace symbol. destruct H1 as [-> | ->], H2 as [-> | ->]; by repeat case_match. }
  clearbody trace symbol. rewrite Eb in Ef. unfold bind, gets, modify, lift, ret. rewrite Ht.
  destruct (truthy trace) eqn:Et, (truthy symbol) eqn:Es; cbn [default app ga_entry_tools set_trace_tools] in *;
    rewrite ?app_nil_r in Ef; cbn [default]; rewrite ?app_nil_r, ?Ef; (split; [reflexivity|]);
    (split; [apply Hn; cbn; rewrite ?lru_get_pop; auto|intros name; apply Hg]).
Qed.

(** * Runs *)
#[local] Existing Instance pow_exact.
#[local] Existing Instance constant_half.
#[local] Existing Instance gauss_mean.
#[local] Existing Instance default_constants.

(** One fill is enough to act, so a single loss is graded and acted on. *)
Definition eager : GradeSettings :=
  {| GRADE_EVERY_N_FILLS := 1; GRADE_LOOKBACK_N := 20; GRADE_WEIGHTS := default_weights; GRADE_ACTION_MIN_FILLS := 1;
     RETIRE_AFTER_N_GRADES := 3 |}.

Definition monday (st : GradeSettings) : GradeEnv :=
  {| gx_settings := st; gx_stamp := "20250106T090000"; gx_now := "2025-01-06T09:00:00"; gx_today := "2025-01-06"; gx_uuid := "u1";
     gx_clock := 0.0%F; gx_monotonic := 0.0%F; gx_replay_ms := 1.0%F; gx_redis := fun _ => true; gx_incr := fun _ x => Fmt.repr_float x |}.

Definition loss : payload := [("pnl", VStr "-200.0"); ("trace_id", VStr "t1"); ("symbol", VStr "BTC/USD")].

Definition newborn : GradeAgent := GradeAgent.init Tools.seeded Llm.empty (Some []) Store.init.
Definition punished : GradeAgent := snd (GradeAgent.process (monday eager) STREAM_TRADE_COMPLETED loss newborn).

Lemma punished_reached : reached eager punished.
Proof. exists Tools.seeded, Llm.empty, (Some []), Store.init. apply rtc_once. by apply handled. Qed.

(** An execution, which closes nothing, is graded like a fill: the same sample counts twice. *)
Lemma execution_regrades :
  let a := snd (GradeAgent.process (monday eager) STREAM_EXECUTIONS [("side", VStr "buy")] punished) in
  ga_fills a = ga_fills punished /\ zlen (grade_messages (ga_published punished)) = 1 /\
  zlen (grade_messages (ga_published a)) = 2 /\ ga_low a = 2.
Proof. vm_compute. repeat split. Qed.

(** The row of a grade keeps its letter, but its score becomes a percentage. *)
Lemma grade_row_score_is_percent :
  map (fun g => dget "score" g) (grade_messages (ga_published punished)) = [Some (VFloat 0.27%F)] /\
  map (fun g => (dget "grade" g, dget "score" g)) (st_grade_history (ga_store punished)) = [(Some (VStr "F"), Some (VFloat 27.0%F))].
Proof. vm_compute. repeat split. Qed.

Definition retirement_at (l : list (string * payload)) : payload := match nth_error l 2 with Some e => snd e | None => [] end.

Lemma capital_moves_on_evidence_witness :
  type_of (retirement_at (ga_published punished)) = VStr AGENT_RETIREMENT /\
  justified eager (take 2 (ga_published punished)) (retirement_at (ga_published punished)).
Proof.
  split; [vm_compute; reflexivity|].
  apply (capital_moves_on_evidence eager punished _ _ (drop 3 (ga_published punished)) punished_reached).
  vm_compute. reflexivity.
Defined.

Definition retirement_content : val := dget_or "content" VNone (retirement_at (ga_published punished)).

(** A printer and a parser of one document. *)
#[local] Instance one_content : Json := {| json_dumps := fun _ => "{}"; json_loads := fun _ => Ok retirement_content |}.

Definition retired_fields : list val := Eval vm_compute in map snd (stamped "now" (retirement_at (ga_published punished))).

Definition read_retirement : payload :=
  map (fun kv => (fst kv, wire (snd kv))) (stamped "now" (retirement_at (ga_published punished))).


(** Twenty failed calls of one tool. *)
Definition suspicious : GradeAgent :=
  set_tools (tool_run Tools.seeded (List.repeat (Called TOOL_MACRO_REGIME 12.0%F false None) 20)) newborn.

Definition proposed : payload :=
  match ga_published (snd (_emit_tool_governance (monday eager) suspicious)) with (_, p) :: _ => p | [] => [] end.

Definition proposed_json : Json :=
  {| json_dumps := fun _ => "{}"; json_loads := fun _ => Ok (dget_or "content" VNone proposed) |}.

Definition proposed_fields : list val := Eval vm_compute in map snd (stamped "now" proposed).

Definition read_proposal : payload := map (fun kv => (fst kv, wire (snd kv))) (stamped "now" proposed).

(** The proposal finds the tool enabled again, in a registry seeded anew. *)
Lemma governance_closes_loop_witness :
  option_map tm_enabled (Tools.get TOOL_MACRO_REGIME (ap_tools before)) = Some true /\
  option_map tm_enabled (Tools.get TOOL_MACRO_REGIME (ap_tools (snd (Applier.process no_hash promoting read_proposal before)))) = Some false.
Proof.
  assert (option_map tm_enabled (Tools.get TOOL_MACRO_REGIME (ap_tools before)) = Some true) as He by (vm_compute; reflexivity).
  split; [exact He|]. set (calls := List.repeat (Called TOOL_MACRO_REGIME 12.0%F false None) 20).
  assert (exists t, Tools.get TOOL_MACRO_REGIME (ga_tools suspicious) = Some t /\ tm_enabled t = true /\ unreliable 20 0.5%F t) as Hu.
  { assert (option_map (fun t => tm_enabled t && (20 <=? tm_call_count t) && fltb 0.5%F (tm_failure_rate t))
      (Tools.get TOOL_MACRO_REGIME (ga_tools suspicious)) = Some true) as E by (vm_compute; reflexivity).
    destruct (Tools.get TOOL_MACRO_REGIME (ga_tools suspicious)) as [t|]; [|discriminate E]. apply Some_inj in E.
    apply andb_true_iff in E as [E E3]. apply andb_true_iff in E as [E1 E2]. apply Z.leb_le in E2.
    exists t. split_and!; [reflexivity|exact E1|right; exact (conj E2 E3)]. }
  destruct (replay (ga_evals suspicious)) as [evidence|e] eqn:Ev; [|discriminate Ev].
  destruct (governance_closes_loop (JS := proposed_json) no_hash (monday eager) suspicious evidence calls eq_refl (ex_intro _ _ Hu) Ev)
    as (p & Hp & _ & Hx); [discriminate|].
  assert (p = proposed) as ->.
  { assert (map fst (ga_published (snd (_emit_tool_governance (monday eager) suspicious))) = [STREAM_PROPOSALS; STREAM_NOTIFICATIONS]) as Em
      by (vm_compute; reflexivity).
    unfold proposed. destruct (ga_published (snd (_emit_tool_governance (monday eager) suspicious))) as [|[s1 p1] [|[s2 p2] [|]]]; try discriminate Em.
    injection Em as -> ->. destruct Hp as [[= <-]|[[=]|[]]]. reflexivity. }
  destruct (Tools.get TOOL_MACRO_REGIME (ap_tools before)) as [t|] eqn:E; [|discriminate He].
  destruct (Hx "1-0" "now" read_proposal promoting before) with (name := TOOL_MACRO_REGIME) (t := t) as (t' & -> & _ & Hen).
  - assert (map snd (stamped "now" proposed) = proposed_fields) as -> by (vm_compute; reflexivity).
    unfold proposed_fields. repeat (apply Forall_cons; split; [vm_compute; repeat split|]). constructor.
  - vm_compute. reflexivity.
  - exact (fun H => H).
  - exact E.
  - cbn. f_equal. apply Hen. by right.
Defined.

(** Two positions that overlap, one of them opened by two fills, and both won; one close
    arrives on both streams. *)
Definition fill_of (trace pnl symbol : string) : payload :=
  [("pnl", VStr pnl); ("trace_id", VStr trace); ("symbol", VStr symbol)].

Definition winning_day : list heard :=
  map (pair (monday default_settings))
    [(STREAM_TRADE_PERFORMANCE, fill_of "t1" "" "BTC/USD"); (STREAM_TRADE_PERFORMANCE, fill_of "t2" "" "ETH/USD");
     (STREAM_TRADE_PERFORMANCE, fill_of "t3" "" "BTC/USD"); (STREAM_TRADE_PERFORMANCE, fill_of "t4" "12.5" "BTC/USD");
     (STREAM_TRADE_COMPLETED, fill_of "t4" "12.5" "BTC/USD"); (STREAM_TRADE_PERFORMANCE, fill_of "t5" "3.0" "ETH/USD")].

Lemma winning_day_lossless : Forall lossless winning_day.
Proof.
  assert (forall trace pnl symbol x, close_key (fill_of trace pnl symbol) = Some trace -> py_float (VStr pnl) = Ok x ->
    fltb 0.0%F x = true -> pnl <> "" -> lossless (monday default_settings, (STREAM_TRADE_PERFORMANCE, fill_of trace pnl symbol)) /\
    lossless (monday default_settings, (STREAM_TRADE_COMPLETED, fill_of trace pnl symbol))) as Hc.
  { intros trace pnl symbol x Ek Ex Hx Hn. assert (float_or_zero (VStr pnl) = Ok x) as Ef by (unfold float_or_zero; by destruct pnl).
    split; intros _; right; exists trace, x; exact (conj Ek (conj Ef Hx)). }
  destruct (Hc "t4" "12.5" "BTC/USD" 12.5%F) as [H1 H2]; [reflexivity|vm_compute; reflexivity|fconst|discriminate|].
  destruct (Hc "t5" "3.0" "ETH/USD" 3.0%F) as [H3 _]; [reflexivity|vm_compute; reflexivity|fconst|discriminate|].
  repeat (apply Forall_cons; split; [first [exact H1|exact H2|exact H3|by left]|]). constructor.
Qed.

Lemma openings_count_as_losses_witness :
  GradeAgent._win_rate (monday default_settings) (hears winning_day newborn) = int_div 2 5.
Proof.
  refine (proj1 (openings_count_as_losses (monday default_settings) Tools.seeded Llm.empty (Some []) Store.init winning_day ["t4"; "t5"]
    winning_day_lossless _ _ _ _)).
  - apply NoDup_ListNoDup. repeat constructor; cbn; intuition discriminate.
  - intros k. split.
    + intros [<-|[<-|[]]]; [exists (nth 3 winning_day (nth 0 winning_day (monday default_settings, ("", []))))|
        exists (nth 5 winning_day (monday default_settings, ("", [])))]; (split; [cbn; tauto|reflexivity]).
    + intros (m & Hm & E). cbn [winning_day map In] in Hm.
      repeat (destruct Hm as [<-|Hm]; [cbn in E; first [discriminate E|injection E as <-; cbn; tauto]|]). destruct Hm.
  - cbn. lia.
  - cbn. lia.
Defined.

Definition some_snapshot : option LlmSnapshot :=
  match fst (Llm.snapshot 300 "2025-01-06" 0.0%F Llm.empty) with Ok s => Some s | Raise _ => None end.

Lemma grade_within_bounds_witness : exists m, fst (grade_metrics (monday eager) punished) = Ok m /\
  within (Fin 0) 1.0%F (graded_score (monday eager) m).
Proof.
  destruct (fst (Llm.snapshot LLM_METRICS_WINDOW_SECONDS (gx_today (monday eager)) (gx_monotonic (monday eager)) (ga_llm punished))) as [snap|e] eqn:E;
    [|vm_compute in E; discriminate E].
  destruct (grade_within_bounds (monday eager) punished snap pow_exact_squares) as (m & Hm & _ & _ & _ & Hg & _).
  - exact default_weights_ok.
  - vm_compute. discriminate.
  - assert (ga_pnls punished = [(-200.0)%F]) as -> by (vm_compute; reflexivity).
    apply Forall_cons. split; [split; vm_compute; reflexivity|constructor].
  - exact E.
  - exists m. split; [exact Hm|exact Hg].
Defined.

(** A decision informed by two tools, one of them behind the entry too. *)
Definition informed : GradeAgent :=
  set_entry_tools [(VStr "BTC/USD", [VStr TOOL_MACRO_REGIME])]
    (set_trace_tools [(VStr "t1", [VStr TOOL_RISK_CAGE; VStr TOOL_MACRO_REGIME])] newborn).

Lemma close_credits_once_witness :
  let a' := snd (_attribute_pnl_to_tools loss informed) in
  behind loss a' = [] /\ option_map tm_call_count (dget TOOL_MACRO_REGIME (ga_tools a')) = Some 1.
Proof.
  pose proof (close_credits_once loss informed) as H. destruct (py_float (dget_or "pnl" VNone loss)) as [x|e] eqn:E;
    [|vm_compute in E; discriminate E].
  specialize (H eq_refl ltac:(repeat constructor)). cbv zeta. destruct (_attribute_pnl_to_tools loss informed) as [r a'].
  destruct H as (_ & Hb & Ht). cbn [snd]. split; [exact Hb|]. rewrite (Ht TOOL_MACRO_REGIME). vm_compute. reflexivity.
Defined.
